(* ===== verification/_CoqProject ===== *)
-Q . S2P
Prelude.v
Stream.v
Settings.v
Ber.v
Per.v
X224.v
Transport.v
Mcs.v
Nego.v
Security.v
Rsa.v
Certificate.v
Input.v
Bits.v
Unicode.v
Gcc.v
GccClient.v
GccServer.v
Rlgr.v
Rfx.v
Mppc.v
Fastpath.v
Rdp.v
FastpathDelivery.v
Channel.v
Bulk.v
Poll.v
Info.v
License.v
Capabilities.v
CapabilitySets.v
Connect.v
Establish.v
Activate.v
Orders.v
OrderCache.v
Windows.v
OrderRecv.v
OrderWire.v
OrderSpec.v
OrderDelivery.v
Updates.v
UpdateDelivery.v
Regions.v
Color.v
Blit.v
BlitSpec.v
BlitScroll.v
Line.v
GdiOrders.v
