(* ===== verification/Prelude.v ===== *)
(** * The protocol core of neutrinordp

    neutrinordp (the directory [neutrinordp] of the repository) is the remote
    desktop client of the Univention Corporate Client, with the matching server
    side in the same library. A connection is a stack of layers, each of which
    writes its headers before, and reads them in front of, what the layer above
    says; this development models the stack from the byte stream up to the
    drawing orders, the updates and the pixels they are drawn with, and shows
    that what one end sends is what the other end's layer above is given.

    ** The parts and their files

    - [Prelude]: machine integers, the outcomes of C code (a result or a kind of
      undefined behaviour), the state monad [M] in which every operation is
      written, and the lemmas and tactics shared by all files.
    - [Stream]: [libfreerdp-utils/stream.c] and [include/freerdp/utils/stream.h].
      A [STREAM] is its allocation, its [size] and its position [p]; each macro
      is an operation, an access outside of the allocation is a fault.
    - [Settings]: constants of [include/freerdp/settings.h].
    - [Ber], [Per]: the ASN.1 encodings of [ber.c] and [per.c].
    - [X224]: [tpkt.c] and [tpdu.c].
    - [Transport]: [transport.c] over the interface [Link], what [tcp.c], [tls.c]
      and [tsg.c] offer; [tcp_read] and [tcp_write] are an instance of it.
    - [Mcs]: [mcs.c], connect PDUs and domain PDUs.
    - [Nego]: [nego.c], the state machine that negotiates the security protocol.
    - [Security]: [security.c], session keys, RC4 with key updates, signatures,
      FIPS; OpenSSL's digests and ciphers are the interface [Crypto].
    - [Rsa]: the RSA operations of [crypto.c] over the interface [Bignum].
    - [Certificate]: [certificate.c], the certificate a server presents.
    - [Input]: [input.c], the events and their slow-path encoding.
    - [Bits]: numbers and their bits, shared by the bit-level codecs.
    - [Unicode]: [unicode.c], UTF-8 and UTF-16LE.
    - [Gcc]: [gcc.c], the data blocks client and server exchange in the MCS
      connect PDUs; [GccClient] proves the way from the client to the server,
      [GccServer] the way back.
    - [Rlgr]: [rfx_rlgr.c] and [rfx_bitstream.h], the entropy coding of RemoteFX.
    - [Rfx]: the component codec of RemoteFX ([rfx_differential.c],
      [rfx_quantization.c], [rfx_dwt.c], [rfx_decode.c], [rfx_encode.c]).
    - [Mppc]: [mppc.c], bulk decompression.
    - [Fastpath]: [fastpath.c], updates in fragments and input events.
    - [Rdp]: [rdp.c] and [activation.c], the RDP packets that carry everything
      else, the data PDUs and the finalization of a connection.
    - [FastpathDelivery]: the fast path from [fastpath_send_update_pdu] of a
      server to [rdp_recv_pdu] of a client, [Fastpath] under [Rdp].
    - [Channel]: [channel.c] and [svc_plugin.c], static virtual channels.
    - [Bulk]: compressed updates on the fast path, [Mppc] under [Fastpath].
    - [Poll]: [transport_check_fds] of [transport.c], which collects what has
      arrived and calls back for each complete packet, with [rdp_recv_callback].
    - [Info]: [info.c], the client info packet, time zones, reconnection.
    - [License]: [license.c], the licensing exchange.
    - [Connect]: [connection.c], the steps of client and server that establish a
      connection, with the exchange of the random numbers the keys come from.
    - [Establish]: client and server as one system, connected by what they have
      sent; the run from the connect request to the state in which capabilities
      are exchanged.
    - [Capabilities]: [capabilities.c], the readers and writers of the capability
      sets and the PDUs that carry them; [CapabilitySets] proves the sets one by
      one and their sequence, [Activate] the exchange between the two ends with
      the packets of [Rdp] and the steps of [connection.c].
    - [Orders], [OrderCache]: [orders.c] with [primary.h], [secondary.h] and
      [altsec.h], a module per drawing order with its record and its reader.
    - [Windows]: [window.c], the window and notification icon orders.
    - [OrderRecv]: the state a client keeps of the orders it has seen, and the
      dispatch of [orders.c] to the drawing module.
    - [OrderWire], [OrderSpec], [OrderDelivery]: the encoding of the orders as a
      peer uses it, and that the client draws what the peer encodes.
    - [Updates]: [update.c], [surface.c] and the updates of [fastpath.c], for the
      client and for the server; [UpdateDelivery] puts the two ends together.
    - [Regions]: [libfreerdp-gdi/region.c] and [clipping.c], regions, clipping
      and what a window has to redraw.
    - [Color]: [libfreerdp-codec/color.c] and [color.h], colours and pictures of
      all depths.
    - [Blit]: the raster operations of [8bpp.c], [16bpp.c] and [32bpp.c], which
      differ in the size of a pixel only, with [shape.c] and the pointers of
      [gdi.c], over a store of bitmaps; [BlitSpec] proves what they draw,
      [BlitScroll] copies inside of one bitmap.
    - [Line]: [libfreerdp-gdi/include/line.c] for all draw modes and depths,
      [line.c], [pen.c] and [drawing.c].
    - [GdiOrders]: the handlers of [gdi.c] for the drawing orders.

    ** How the code is read

    Pointers into a stream are positions; [stream_get_mark] and
    [stream_set_mark] save and restore them. Fields of the source's structures
    keep their names, as far as a layer uses them. An out-parameter is a
    returned option, [None] standing for a variable that was never assigned:
    using it is the fault [Uninitialised]. Structures that point to each other
    (the [rdp], its transport, its settings) are nested records, and a function
    acts on the part it reaches. Callbacks are collected in a list in the order
    of the calls, or are the operations of an interface ([PduHandlers]).

    Integers are [Z], reduced to their width where the source assigns them to a
    narrower variable ([uint8], [uint16], [uint32]). Where a signed sum can
    overflow in use it is checked and a fault [SignedOverflow] ([spend] of file
    [Rlgr]); the coordinates of the GDI are plain numbers, with lemmas that no
    sum leaves an [int] for those the theorems are about (file [Regions]).
    [memcpy] of overlapping memory is the fault [Overlapping].

    ** Interfaces

    - [Link] with [LinkLaws] (file [Transport]): reads and writes of any number
      of bytes, the bytes still to come ([link_incoming]) and those handed over
      ([link_outgoing]). Reliable, ordered delivery is the law. [TcpLink]
      discharges it for sockets given by what [recv] and [send] return.
    - [Connector]: establishing and ending what is below the transport.
    - [Crypto] with [CryptoLaws] (file [Security]): digest lengths, and that the
      stream cipher undoes itself. [ToyCrypto] is an instance that computes.
    - [Bignum] with [BignumLaws] (file [Rsa]): numbers of bytes and modular
      powers; [ZBignum] is the instance over [Z].
    - [Format] (file [Mppc]): the two variants of the bulk encoding, for which
      the decoder's loop is proved once.
    - [Codec] (file [Stream]): a writer and the reader that undoes it.
    - [PduHandlers] (file [Rdp]): what receives the PDUs that have arrived.
    - [PrimaryCalls], [SecondaryCalls], [AltSecCalls] (file [OrderRecv]),
      [WindowCalls] (file [Windows]) and [UpdateCalls] (file [Updates]): the
      callbacks of the drawing module, which may change the structure they are
      given. [recorder_by] (file [OrderDelivery]) is an instance that records.

    ** What the theorems show

    - Codecs: [stream_check_size] makes room; BER and PER lengths, BER integers,
      domain parameters are read back as written, with the exceptions the
      statements name.
    - Transport: a PDU is read whole from any sequence of partial reads, unless
      a read of no bytes meets a handle that was never set, which the code
      dereferences; a write hands all bytes over or closes the layer.
    - MCS: each sender's bytes on the wire; client and server agree on the user
      and the channel.
    - GCC: the client's settings are what the server holds after the
      Connect-Initial, the server's channel ids, random number and key what the
      client holds after the Connect-Response, through PER, BER, X.224 and the
      transport; the reader of the server's blocks ends.
    - Certificates: the key of an X.509 chain is the one extracted.
    - Text: UTF-16LE on the wire is the encoding of the text and comes back.
    - Negotiation: requests and responses agree, the order of the attempts, the
      settings after success, termination against any server.
    - Security: 40 and 128 bit RC4 keys that fit together, ciphers that stay in
      step over any sequence of messages, signatures. FIPS keys do not fit
      together ([fips_keys_not_mirrored]), and every theorem on encrypted
      connections is about RC4.
    - Input and fast path: updates arrive once, whole and in order, in the clear
      or encrypted; the events of a fast-path input PDU can be read back
      ([fastpath_input_readable]), but no receiver of the library does.
    - RDP: what [rdp_send] and [rdp_send_data_pdu] send, in the clear or
      encrypted, is what the peer's dispatch hands on.
    - Channels: data written to a channel comes out as one message.
    - Polling: PDUs are delivered once, whole and in order however they are cut
      into reads, for PDUs of 5 bytes to 32 KiB that do not begin with 0x30; a
      polling client, in the clear or encrypted, reaches the active state when
      the finalization PDUs have come, in any order.
    - Client info and licensing: the texts, flags and numbers of the client are
      what the server holds; the client answers each licensing message with the
      one the protocol asks for, and the valid client packet completes it.
    - Connection: client and server derive the same keys from the exchanged
      random number; started together they reach the capability exchange with
      all channels joined and each able to read the other, without encryption or
      with RC4. With standard security the library's own client also offers
      FIPS, and its server takes it: that run is not covered.
    - Capabilities: every set is read as it was written whatever the reader held
      before, and after demand and confirm both ends have the same orders,
      sizes, modes and share.
    - Drawing orders: every primary order, with any choice of fields, relative or
      absolute coordinates and bounds, is read as the peer means it, and the
      drawing module is called for exactly the orders sent.
    - Updates: what a server sends with a function of [update.c] makes the client
      call the matching callback with the same data, in the clear or encrypted.
    - Bulk decompression: packets decode to what their literals and matches
      stand for, decoding ends on any input, and compressed fast-path updates of
      the 64K type are delivered decompressed, up to the end of the history.
    - RemoteFX: the entropy coder undoes itself but for a zero at the end, the
      decoder is safe on any input of up to 262143 bytes, the component codec
      loses only what quantization and rounding lose, within the stated bounds.
    - GDI: clipping leaves exactly the pixels allowed, transfers and fills give
      every pixel the value in the truth table of the operation, a line has the
      pixels nearest to the ideal one, scrolling moves pixels as they were; a
      colour keeps its value through the depths, a picture flipped twice is the
      same.

    The theorems on flaws state what the code does where it differs from what
    its layer needs: [nego_selection_unchecked], [fips_keys_not_mirrored],
    [input_recv_event_overread], [rdp_zero_length_pdu_loops],
    [gcc_zero_block_loops], [channel_numbers_overflow],
    [unreadable_certificate_accepted], [sync_event_stalls_polling],
    [rlgr_trailing_zero], [full_history_overflows], [long_server_key_overflows],
    [long_certificate_key_overflows], [pointer_system_never_sent],
    [surfcmds_never_end], [tls_stall_faults], [rlgr_decode_overflows],
    [shared_row_lost], [reversed_bounds_overrun] and their neighbours, and a part of [ber_integer_roundtrip] and [security_salted_signature].

    ** Bounds and fuel

    Loops that are not structural take a number of rounds and are the fault
    [Diverges] when it is used up; a theorem that states a result states that
    the rounds suffice. [transport_read]'s reads are bounded by the bytes to come
    ([read_fuel]); [skip_cookie] and the loops over a stream by its length;
    [transport_read] skips gateway PDUs at most [skips] times, which the
    theorems leave open because they exclude the gateway layer; [nego_connect]
    has no bound of its own, and [nego_connect_terminates] shows that one exists.
    The surface commands of an update are bounded by the bytes of the packet,
    which suffices unless a command points backwards ([surfcmds_never_end]).
    Lengths are kept below the limits of the fields that carry them (0x8000 for a
    PER length); buffers below [2 ^ 30] so that the doubling of [stream_extend]
    stays an [int].

    ** What is not modelled

    Redirection, network level authentication and [peer.c] are not part of the
    model: where a modelled function calls them they are arguments or operations
    of [PduHandlers]. Of [connection.c] the loop [rdp_client_connect],
    [rdp_client_redirect] and [rdp_server_accept_nego] are missing, of [update.c]
    the recording of surface commands and [update_send_desktop_resize]. The
    caches, the bitmap codecs and the messages of RemoteFX, surface bits and
    offscreen bitmaps of the GDI and the channel plugins are left out, as are
    OpenSSL's own code, sockets, the gateway, window systems, keyboard tables and
    the log messages. No driver of a server's steps is in the sources ([peer.c]
    is empty there): [server_accepts] of file [Establish] calls them in the order
    of the states they leave. Memory that cannot be allocated is not considered. *)

From stdpp Require Export prelude numbers list.
From Stdlib Require Export ZArith Lia.

#[global] Open Scope Z_scope.

(** ** Machine integers

    The integer types of [include/freerdp/types.h] are modelled by [Z]; a
    conversion to a type is the reduction written out below. *)

Definition uint8 (z : Z) : Z := z mod 2 ^ 8.
Definition uint16 (z : Z) : Z := z mod 2 ^ 16.
Definition uint32 (z : Z) : Z := z mod 2 ^ 32.
Definition uint64 (z : Z) : Z := z mod 2 ^ 64.
Definition sint16 (z : Z) : Z := (z + 2 ^ 15) mod 2 ^ 16 - 2 ^ 15.
Definition sint32 (z : Z) : Z := (z + 2 ^ 31) mod 2 ^ 32 - 2 ^ 31.

Definition INT_MAX : Z := 2 ^ 31 - 1.

Definition is_byte (z : Z) : Prop := 0 <= z < 256.
Definition is_bytes (l : list Z) : Prop := Forall is_byte l.

#[global] Instance is_byte_dec (z : Z) : Decision (is_byte z).
Proof. unfold is_byte. apply _. Defined.

#[global] Instance is_bytes_dec (l : list Z) : Decision (is_bytes l).
Proof. unfold is_bytes. apply _. Defined.

(** Length of a buffer as a [Z], the way the code counts it. *)
Definition len {A : Type} (l : list A) : Z := Z.of_nat (length l).

(** ** Outcomes

    A C function either returns or runs into undefined behaviour, or
    loops; the kinds the sources can reach are kept apart. *)

Inductive fault : Type :=
| OutOfBounds      (* access outside the allocated object *)
| Uninitialised    (* use of a local that was never assigned *)
| NullPointer      (* dereference of NULL *)
| SignedOverflow   (* signed arithmetic outside of int *)
| DivideByZero     (* division or remainder by zero *)
| Overlapping      (* memcpy between blocks that overlap *)
| Diverges.        (* a loop that never exits *)

#[global] Instance fault_eq_dec : EqDecision fault.
Proof. solve_decision. Defined.

Inductive outcome (A : Type) : Type :=
| Done (a : A)
| Fault (f : fault).
Arguments Done {A} a.
Arguments Fault {A} f.

#[global] Instance outcome_eq_dec {A} `{EqDecision A} : EqDecision (outcome A).
Proof. solve_decision. Defined.

(** State-passing computations that may fault. *)
Definition M (S A : Type) : Type := S -> outcome (A * S).

Definition ret {S A : Type} (a : A) : M S A := fun s => Done (a, s).
Definition bind {S A B : Type} (c : M S A) (k : A -> M S B) : M S B :=
  fun s => match c s with
           | Done (a, s') => k a s'
           | Fault f => Fault f
           end.
Definition fail {S A : Type} (f : fault) : M S A := fun _ => Fault f.

Declare Scope c_scope.
Delimit Scope c_scope with c.
#[global] Open Scope c_scope.

Notation "'let!' x ':=' c 'in' k" := (bind c (fun x => k))
  (at level 10, x pattern, c at level 100, k at level 200,
   format "'[v' 'let!'  x  ':='  c  'in' '/' k ']'") : c_scope.
Notation "c ;; k" := (bind c (fun _ => k))
  (at level 100, k at level 200, right associativity) : c_scope.

(** A local variable that may not have been assigned yet. *)
Definition use {S A : Type} (v : option A) : M S A :=
  match v with Some a => ret a | None => fail Uninitialised end.

(** Run a computation on a part of the state. *)
Definition zoom {S T A : Type} (get : S -> T) (set : T -> S -> S) (c : M T A) : M S A :=
  fun s => match c (get s) with
           | Done (a, t) => Done (a, set t s)
           | Fault f => Fault f
           end.

Lemma bind_ret {S A B} (a : A) (k : A -> M S B) s : bind (ret a) k s = k a s.
Proof. reflexivity. Qed.

Lemma bind_assoc {S A B C} (c : M S A) (k : A -> M S B) (h : B -> M S C) s :
  bind (bind c k) h s = bind c (fun a => bind (k a) h) s.
Proof. unfold bind. destruct (c s) as [[? ?]|?]; reflexivity. Qed.

Lemma bind_Done {S A B} (c : M S A) (k : A -> M S B) s a s' :
  c s = Done (a, s') -> bind c k s = k a s'.
Proof. unfold bind. intros ->. reflexivity. Qed.

Lemma bind_Fault {S A B} (c : M S A) (k : A -> M S B) s f :
  c s = Fault f -> bind c k s = Fault f.
Proof. unfold bind. intros ->. reflexivity. Qed.

Lemma bind_inv {S A B} (c : M S A) (k : A -> M S B) s b s'' :
  bind c k s = Done (b, s'') -> exists a s', c s = Done (a, s') /\ k a s' = Done (b, s'').
Proof. unfold bind. destruct (c s) as [[a s']|f] eqn:E; [eauto|discriminate]. Qed.

Lemma zoom_inv {S T A} (get : S -> T) set (c : M T A) s a s' :
  zoom get set c s = Done (a, s') -> exists t, c (get s) = Done (a, t) /\ s' = set t s.
Proof.
  unfold zoom. destruct (c (get s)) as [[b t]|f]; [|discriminate].
  intros [= <- <-]. eauto.
Qed.

(** Take apart a run that is known to have ended. *)
Ltac run_inv H :=
  let a := fresh "a" in let s' := fresh "s" in let H1 := fresh "E" in
  apply bind_inv in H as (a & s' & H1 & H).

(** A run that ends: it returns a result that satisfies [Q], or it faults; it
    does not loop. *)
Definition Ends {S A} (c : M S A) (s : S) (Q : A -> S -> Prop) : Prop :=
  match c s with Done (a, s') => Q a s' | Fault f => f <> Diverges end.

Lemma Ends_bind {S A B} (c : M S A) (k : A -> M S B) s Q R :
  Ends c s Q -> (forall a s', Q a s' -> Ends (k a) s' R) -> Ends (bind c k) s R.
Proof.
  unfold Ends, bind. destruct (c s) as [[a s']|f]; [intros HQ Hk; apply Hk, HQ|auto].
Qed.

Lemma Ends_mono {S A} (c : M S A) s (Q R : A -> S -> Prop) :
  Ends c s Q -> (forall a s', Q a s' -> R a s') -> Ends c s R.
Proof. unfold Ends. destruct (c s) as [[a s']|f]; auto. Qed.

Lemma Ends_zoom {S T A} (get : S -> T) set (c : M T A) s (Q : A -> S -> Prop) :
  Ends c (get s) (fun a t => Q a (set t s)) -> Ends (zoom get set c) s Q.
Proof. unfold Ends, zoom. destruct (c (get s)) as [[a t]|f]; auto. Qed.

(** ** Arithmetic of bits *)

Lemma land_mask z n m : 0 <= n -> m = 2 ^ n - 1 -> Z.land z m = z mod 2 ^ n.
Proof.
  intros Hn ->. rewrite <- Z.land_ones by lia. f_equal. rewrite Z.ones_equiv. lia.
Qed.

Lemma land_FF z : Z.land z 0xFF = z mod 256.
Proof. apply (land_mask z 8); lia. Qed.

Lemma land_FFFF z : Z.land z 0xFFFF = z mod 65536.
Proof. apply (land_mask z 16); lia. Qed.

Lemma land_7F z : Z.land z 0x7F = z mod 128.
Proof. apply (land_mask z 7); lia. Qed.

Lemma land_high_low a b n : 0 <= n -> a mod 2 ^ n = 0 -> 0 <= b < 2 ^ n -> Z.land a b = 0.
Proof.
  intros Hn Ha Hb. apply Z.bits_inj'. intros i Hi.
  rewrite Z.land_spec, Z.bits_0.
  destruct (decide (i < n)) as [Hlt|Hge].
  - rewrite <- (Z.mod_pow2_bits_low a n i) by lia. rewrite Ha, Z.bits_0. reflexivity.
  - rewrite <- (Z.mod_small b (2 ^ n)), Z.mod_pow2_bits_high by lia. apply andb_false_r.
Qed.

Lemma lor_high_low a b n : 0 <= n -> a mod 2 ^ n = 0 -> 0 <= b < 2 ^ n -> Z.lor a b = a + b.
Proof.
  intros Hn Ha Hb. pose proof (land_high_low a b n Hn Ha Hb) as H.
  rewrite <- Z.lxor_lor by exact H. symmetry. apply Z.add_nocarry_lxor, H.
Qed.

(** Turn shifts and masks by literals into [*], [/] and [mod]. *)
Ltac arith_bits :=
  repeat rewrite ?Z.shiftr_div_pow2, ?Z.shiftl_mul_pow2, ?land_FF, ?land_FFFF, ?land_7F by lia;
  change (2 ^ 4) with 16 in *; change (2 ^ 8) with 256 in *;
  change (2 ^ 16) with 65536 in *; change (2 ^ 24) with 16777216 in *;
  change (2 ^ 32) with 4294967296 in *.

(** [lia] on goals with division and remainder by literals. *)
Ltac dlia := Z.div_mod_to_equations; lia.

(** ** Bytes *)

Definition all_bytes : list Z := map Z.of_nat (seq 0 256).

Lemma all_bytes_spec b : is_byte b -> b ∈ all_bytes.
Proof.
  intros Hb. unfold all_bytes. apply list_elem_of_In, in_map_iff.
  exists (Z.to_nat b). unfold is_byte in Hb. split; [lia|]. apply in_seq. lia.
Qed.

(** A decidable fact about one byte is checked on the 256 bytes. *)
Lemma byte_forall (P : Z -> Prop) `{forall b, Decision (P b)} :
  forallb (fun b => bool_decide (P b)) all_bytes = true -> forall b, is_byte b -> P b.
Proof.
  intros Hall b Hb. rewrite forallb_forall in Hall.
  specialize (Hall b). rewrite <- list_elem_of_In in Hall.
  apply (bool_decide_eq_true_1 (P b)), Hall, all_bytes_spec, Hb.
Qed.

Lemma is_byte_uint8 z : is_byte (uint8 z).
Proof. unfold is_byte, uint8. dlia. Qed.

Lemma uint8_byte z : is_byte z -> uint8 z = z.
Proof. unfold is_byte, uint8. intros. apply Z.mod_small. lia. Qed.

(** ** Lists *)

Lemma len_nil {A} : len (@nil A) = 0.
Proof. reflexivity. Qed.

Lemma len_cons {A} (x : A) l : len (x :: l) = 1 + len l.
Proof. unfold len. cbn [length]. lia. Qed.

Lemma len_app {A} (l k : list A) : len (l ++ k) = len l + len k.
Proof. unfold len. rewrite length_app. lia. Qed.

Lemma len_nonneg {A} (l : list A) : 0 <= len l.
Proof. unfold len. lia. Qed.

Lemma len_replicate {A} n (x : A) : len (replicate n x) = Z.of_nat n.
Proof. unfold len. rewrite length_replicate. reflexivity. Qed.

Create Rewrite HintDb lens.
#[export] Hint Rewrite @len_nil @len_cons @len_app @len_replicate : lens.

Ltac lens := autorewrite with lens in *.

(** [len] is never negative: make that known to [lia]. *)
Ltac len_pos :=
  repeat match goal with
         | |- context [len ?l] =>
             lazymatch goal with
             | _ : 0 <= len l |- _ => fail
             | _ => pose proof (len_nonneg l)
             end
         | _ : context [len ?l] |- _ =>
             lazymatch goal with
             | _ : 0 <= len l |- _ => fail
             | _ => pose proof (len_nonneg l)
             end
         end.

Ltac llia := lens; len_pos; lia.

(** Bounds on the length of a list of known shape. *)
Ltac lens_lia := solve [lia | vm_compute; repeat split; congruence | vm_compute; congruence].

(** Equality of lists, element by element. *)
Ltac cons_eq :=
  repeat match goal with
         | |- _ :: _ = _ :: _ => apply (f_equal2 (@cons _))
         | |- @nil _ = nil => reflexivity
         end.

(** Take the branch of the first [if] that arithmetic decides. *)
Ltac branch :=
  match goal with
  | |- context [if ?b then _ else _] =>
      first [ replace b with true by (first [reflexivity | lia])
            | replace b with false by (first [reflexivity | lia]) ]
  end; cbv iota beta.
