(* ===== verification/Stream.v ===== *)
(** The byte stream of [libfreerdp-utils/stream.c] and of the macros of
    [include/freerdp/utils/stream.h], on which every protocol layer is
    written, with the calculus of readers and writers used by their proofs:
    [Writes w bs a] (the program [w] writes exactly [bs] and returns [a]) and
    [Reads r bs a] (the program [r] consumes exactly [bs] and returns [a]),
    both closed under sequencing. *)

From S2P Require Import Prelude.

(** [struct _STREAM]: [s_data] is the allocated object, [s_p] the offset of
    the pointer [p] from its start, [s_size] the field [size] (smaller than the
    allocation once a stream has been sealed). *)
Record STREAM : Type := mkSTREAM {
  s_size : Z;
  s_p : Z;
  s_data : list Z;
}.

#[global] Instance STREAM_eq_dec : EqDecision STREAM.
Proof. solve_decision. Defined.

Definition set_p (s : STREAM) (q : Z) : STREAM := mkSTREAM (s_size s) q (s_data s).
Definition adv (n : Z) (s : STREAM) : STREAM := set_p s (s_p s + n).

(** Overwrite a part of a buffer. *)
Definition splice (i : nat) (bs l : list Z) : list Z :=
  take i l ++ bs ++ drop (i + length bs) l.

Definition put (bs : list Z) (s : STREAM) : STREAM :=
  mkSTREAM (s_size s) (s_p s + len bs) (splice (Z.to_nat (s_p s)) bs (s_data s)).

(** ** Operations *)

Definition stream_new (size : Z) : STREAM :=
  if size =? 0 then mkSTREAM 0 0 []
  else let size := if 0 <? size then size else 0x400 in
       mkSTREAM size 0 (replicate (Z.to_nat size) 0).

Definition stream_get_pos (s : STREAM) : Z := s_p s.
Definition stream_get_length (s : STREAM) : Z := s_p s.
Definition stream_get_left (s : STREAM) : Z := s_size s - s_p s.

Definition get : M STREAM STREAM := fun s => Done (s, s).
Definition stream_set_pos (m : Z) : M STREAM unit := fun s => Done (tt, set_p s m).
Definition stream_seek (n : Z) : M STREAM unit := fun s => Done (tt, adv n s).
Definition stream_rewind (n : Z) : M STREAM unit := fun s => Done (tt, adv (- n) s).
Definition stream_seal : M STREAM unit :=
  fun s => Done (tt, mkSTREAM (s_p s) (s_p s) (s_data s)).
Definition left_bytes : M STREAM Z := fun s => Done (stream_get_left s, s).

(** [*(s->p + off)] *)
Definition rbyte (off : Z) : M STREAM Z := fun s =>
  let i := s_p s + off in
  if 0 <=? i then
    match s_data s !! Z.to_nat i with
    | Some b => Done (b, s)
    | None => Fault OutOfBounds
    end
  else Fault OutOfBounds.

(** [memcpy(s->p, bs, n); s->p += n], and with one byte [*s->p++ = b]. *)
Definition store (bs : list Z) : M STREAM unit := fun s =>
  if bool_decide (0 <= s_p s /\ s_p s + len bs <= len (s_data s))
  then Done (tt, put bs s) else Fault OutOfBounds.

Definition stream_peek_uint8 : M STREAM Z := rbyte 0.
Definition stream_read_uint8 : M STREAM Z :=
  let! b := rbyte 0 in stream_seek 1;; ret b.
Definition stream_read_uint16 : M STREAM Z :=
  let! b0 := rbyte 0 in let! b1 := rbyte 1 in
  stream_seek 2;; ret (uint16 b0 + Z.shiftl (uint16 b1) 8).
Definition stream_read_sint16 : M STREAM Z :=
  let! b0 := rbyte 0 in let! b1 := rbyte 1 in
  stream_seek 2;; ret (sint16 (uint16 b0 + Z.shiftl (uint16 b1) 8)).
Definition stream_read_uint32 : M STREAM Z :=
  let! b0 := rbyte 0 in let! b1 := rbyte 1 in let! b2 := rbyte 2 in let! b3 := rbyte 3 in
  stream_seek 4;;
  ret (uint32 (uint32 b0 + Z.shiftl (uint32 b1) 8 + Z.shiftl (uint32 b2) 16
               + Z.shiftl (uint32 b3) 24)).
Definition stream_read (n : Z) : M STREAM (list Z) := fun s =>
  if bool_decide (0 <= n /\ 0 <= s_p s /\ s_p s + n <= len (s_data s))
  then Done (take (Z.to_nat n) (drop (Z.to_nat (s_p s)) (s_data s)), adv n s)
  else Fault OutOfBounds.
Definition stream_read_uint16_be : M STREAM Z :=
  let! b0 := rbyte 0 in let! b1 := rbyte 1 in
  stream_seek 2;; ret (Z.shiftl (uint16 b0) 8 + uint16 b1).
(** The order of the four shifts is the one of the macro. *)
Definition stream_read_uint32_be : M STREAM Z :=
  let! b0 := rbyte 0 in let! b1 := rbyte 1 in let! b2 := rbyte 2 in let! b3 := rbyte 3 in
  stream_seek 4;;
  ret (uint32 (Z.shiftl (uint32 b0) 8 + uint32 b1 + Z.shiftl (uint32 b2) 24
               + Z.shiftl (uint32 b3) 16)).

Definition stream_write_uint8 (v : Z) : M STREAM unit := store [uint8 v].
Definition stream_write_uint16 (v : Z) : M STREAM unit :=
  store [Z.land v 0xFF];; store [Z.land (Z.shiftr v 8) 0xFF].
Definition stream_write_uint32 (v : Z) : M STREAM unit :=
  store [Z.land v 0xFF];; store [Z.land (Z.shiftr v 8) 0xFF];;
  store [Z.land (Z.shiftr v 16) 0xFF];; store [Z.land (Z.shiftr v 24) 0xFF].
Definition stream_write (bs : list Z) : M STREAM unit := store bs.
Definition stream_write_uint16_be (v : Z) : M STREAM unit :=
  store [Z.land (Z.shiftr v 8) 0xFF];; store [Z.land v 0xFF].
Definition stream_write_uint32_be (v : Z) : M STREAM unit :=
  stream_write_uint16_be (Z.land (Z.shiftr v 16) 0xFFFF);;
  stream_write_uint16_be (Z.land v 0xFFFF).
Definition stream_write_zero (n : Z) : M STREAM unit :=
  if n <? 0 then fail OutOfBounds else store (replicate (Z.to_nat n) 0).

(** [stream_extend]: the allocation is assumed to succeed; the old contents up
    to [size] survive, the new part is cleared. *)
Definition stream_extend (request_size : Z) : M STREAM unit := fun s =>
  let pos := stream_get_pos s in
  let original_size := s_size s in
  let increased_size := if original_size <? request_size then request_size else original_size in
  let size := original_size + increased_size in
  if size <=? INT_MAX then
    Done (tt, mkSTREAM size pos
                (take (Z.to_nat original_size) (s_data s)
                   ++ replicate (Z.to_nat increased_size) 0))
  else Fault SignedOverflow.

(** [while (pos + n > size) stream_extend(n)], at most [fuel] rounds. *)
Fixpoint check_size_loop (fuel : nat) (n : Z) : M STREAM unit := fun s =>
  match fuel with
  | O => Fault Diverges
  | S fuel' =>
      if s_size s <? s_p s + n
      then bind (stream_extend n) (fun _ => check_size_loop fuel' n) s
      else Done (tt, s)
  end.

(** Every round at least doubles a non-empty stream, so that 33 rounds go past
    [INT_MAX]; an empty stream asked for nothing is never extended. *)
Definition stream_check_size (n : Z) : M STREAM unit := check_size_loop 33 n.

(** ** Well-formed streams *)

Record stream_ok (s : STREAM) : Prop := {
  ok_p : 0 <= s_p s <= s_size s;
  ok_size : s_size s <= len (s_data s);
  ok_bytes : is_bytes (s_data s);
}.

(** There is room for [n] more bytes. *)
Definition room (s : STREAM) (n : Z) : Prop := 0 <= s_p s /\ s_p s + n <= len (s_data s).

(** The bytes [bs] are next in [s], inside the declared size. *)
Record holds (s : STREAM) (bs : list Z) : Prop := {
  holds_p : 0 <= s_p s;
  holds_size : s_p s + len bs <= s_size s;
  holds_len : s_p s + len bs <= len (s_data s);
  holds_data : take (length bs) (drop (Z.to_nat (s_p s)) (s_data s)) = bs;
}.

Definition Writes {A} (w : M STREAM A) (bs : list Z) (a : A) : Prop :=
  forall s, room s (len bs) -> w s = Done (a, put bs s).

Definition Reads {A} (r : M STREAM A) (bs : list Z) (a : A) : Prop :=
  forall s, holds s bs -> r s = Done (a, adv (len bs) s).

(** ** Buffers *)

Lemma length_splice i bs l :
  (i + length bs <= length l)%nat -> length (splice i bs l) = length l.
Proof. intros. unfold splice. rewrite !length_app, length_take, length_drop. lia. Qed.

Lemma splice_nil i l : splice i [] l = l.
Proof. unfold splice. cbn. rewrite Nat.add_0_r. apply take_drop. Qed.

Lemma splice_splice i bs cs l :
  (i + length bs <= length l)%nat ->
  splice (i + length bs) cs (splice i bs l) = splice i (bs ++ cs) l.
Proof.
  intros H. unfold splice at 1 3.
  assert (Ht : take (i + length bs) (splice i bs l) = take i l ++ bs).
  { unfold splice. rewrite app_assoc. apply take_app_length'.
    rewrite length_app, length_take. lia. }
  assert (Hd : drop (i + length bs + length cs) (splice i bs l)
               = drop (i + length (bs ++ cs)) l).
  { unfold splice. rewrite app_assoc, drop_app_ge by (rewrite length_app, length_take; lia).
    rewrite drop_drop. f_equal. rewrite !length_app, length_take. lia. }
  rewrite Ht, Hd, <- !app_assoc. reflexivity.
Qed.

Lemma splice_read i bs l :
  (i + length bs <= length l)%nat -> take (length bs) (drop i (splice i bs l)) = bs.
Proof.
  intros H. unfold splice.
  rewrite drop_app_length' by (rewrite length_take; lia).
  apply take_app_length.
Qed.

Lemma splice_before i bs l :
  (i <= length l)%nat -> take i (splice i bs l) = take i l.
Proof. intros H. unfold splice. apply take_app_length'. rewrite length_take. lia. Qed.

Lemma splice_after i bs l :
  (i + length bs <= length l)%nat -> drop (i + length bs) (splice i bs l) = drop (i + length bs) l.
Proof.
  intros H. unfold splice. rewrite app_assoc.
  apply drop_app_length'. rewrite length_app, length_take. lia.
Qed.

Lemma is_bytes_splice i bs l : is_bytes bs -> is_bytes l -> is_bytes (splice i bs l).
Proof.
  unfold is_bytes, splice. intros Hb Hl.
  rewrite !Forall_app. split; [|split]; auto using Forall_take, Forall_drop.
Qed.

Lemma len_put bs s : room s (len bs) -> len (s_data (put bs s)) = len (s_data s).
Proof.
  unfold room, len. intros [? ?]. cbn [s_data put]. rewrite length_splice; lia.
Qed.

Lemma put_nil s : put [] s = s.
Proof. destruct s. unfold put. cbn. rewrite splice_nil, Z.add_0_r. reflexivity. Qed.

Lemma put_app bs cs s : room s (len (bs ++ cs)) -> put cs (put bs s) = put (bs ++ cs) s.
Proof.
  unfold room. rewrite len_app. intros [Hp Hr]. unfold put at 1 3. cbn [s_size s_p s_data put].
  rewrite len_app. f_equal; [lia|].
  replace (Z.to_nat (s_p s + len bs)) with (Z.to_nat (s_p s) + length bs)%nat
    by (unfold len; lia).
  apply splice_splice. unfold len in *. lia.
Qed.

Lemma room_put bs s n : room s (len bs + n) -> 0 <= n -> room (put bs s) n.
Proof.
  intros [Hp Hr] Hn. split; [cbn; llia|].
  rewrite len_put by (split; llia). cbn. lia.
Qed.

Lemma room_le s n m : room s m -> n <= m -> room s n.
Proof. unfold room. lia. Qed.

Lemma adv_adv n m s : adv m (adv n s) = adv (n + m) s.
Proof. unfold adv, set_p. cbn. f_equal. lia. Qed.

Lemma adv_0 s : adv 0 s = s.
Proof. destruct s. unfold adv, set_p. cbn. rewrite Z.add_0_r. reflexivity. Qed.

Lemma holds_app s bs cs :
  holds s (bs ++ cs) -> holds s bs /\ holds (adv (len bs) s) cs.
Proof.
  intros [Hp Hs Hl Hd]. rewrite len_app in Hs, Hl. rewrite length_app in Hd.
  assert (Hd' : drop (Z.to_nat (s_p s)) (s_data s)
                = (bs ++ cs) ++ drop (length bs + length cs) (drop (Z.to_nat (s_p s)) (s_data s))).
  { rewrite <- (take_drop (length bs + length cs) (drop (Z.to_nat (s_p s)) (s_data s))) at 1.
    rewrite Hd. reflexivity. }
  split; split; cbn [adv set_p s_p s_size s_data]; try llia.
  - rewrite Hd', <- app_assoc. apply take_app_length.
  - replace (Z.to_nat (s_p s + len bs)) with (Z.to_nat (s_p s) + length bs)%nat
      by (unfold len; lia).
    rewrite <- drop_drop, Hd', <- app_assoc, drop_app_length. apply take_app_length.
Qed.

Lemma holds_put bs s :
  room s (len bs) -> s_p s + len bs <= s_size s -> holds (set_p (put bs s) (s_p s)) bs.
Proof.
  intros [Hp Hr] Hs. split; cbn [put set_p s_p s_size s_data]; auto.
  { unfold len in *. rewrite length_splice; lia. }
  apply splice_read. unfold len in *. lia.
Qed.

(** The bytes at the start of a buffer. *)
Lemma holds_start n bs rest : len bs <= n -> holds (mkSTREAM n 0 (bs ++ rest)) bs.
Proof.
  intros Hn. split; cbn [s_p s_size s_data]; [lia|lia|llia|].
  rewrite drop_0. apply take_app_length.
Qed.

Lemma holds_nth s bs i b :
  holds s bs -> bs !! i = Some b -> s_data s !! Z.to_nat (s_p s + Z.of_nat i) = Some b.
Proof.
  intros [Hp Hs _ Hd] Hi. rewrite <- Hd in Hi.
  apply lookup_take_Some in Hi as [Hi _]. rewrite lookup_drop in Hi.
  rewrite <- Hi. f_equal. lia.
Qed.

Lemma holds_rbyte s bs off b :
  holds s bs -> 0 <= off -> bs !! Z.to_nat off = Some b -> rbyte off s = Done (b, s).
Proof.
  intros H Hoff Hb. pose proof (holds_p _ _ H). unfold rbyte.
  rewrite (proj2 (Z.leb_le 0 (s_p s + off))) by lia.
  replace (s_p s + off) with (s_p s + Z.of_nat (Z.to_nat off)) by lia.
  rewrite (holds_nth s bs (Z.to_nat off) b) by assumption. reflexivity.
Qed.

(** ** The calculus of writers and readers *)

Lemma Writes_ret {A} (a : A) : Writes (ret a) [] a.
Proof. intros s _. rewrite put_nil. reflexivity. Qed.

Lemma Writes_bind {A B} (w : M STREAM A) (k : A -> M STREAM B) bs cs a b :
  Writes w bs a -> Writes (k a) cs b -> Writes (bind w k) (bs ++ cs) b.
Proof.
  intros Hw Hk s Hr. rewrite len_app in Hr.
  rewrite (bind_Done _ _ _ a (put bs s)) by (apply Hw, (room_le _ _ _ Hr); llia).
  rewrite Hk by (apply room_put; [exact Hr|llia]).
  rewrite put_app by (rewrite len_app; exact Hr). reflexivity.
Qed.

Lemma Writes_eq {A} (w : M STREAM A) bs a bs' a' :
  Writes w bs a -> bs = bs' -> a = a' -> Writes w bs' a'.
Proof. intros H -> ->. exact H. Qed.

Lemma Writes_store bs : Writes (store bs) bs tt.
Proof. intros s [? ?]. unfold store. rewrite bool_decide_true by auto. reflexivity. Qed.

Lemma Reads_ret {A} (a : A) : Reads (ret a) [] a.
Proof. intros s _. cbn. rewrite adv_0. reflexivity. Qed.

Lemma Reads_bind {A B} (r : M STREAM A) (k : A -> M STREAM B) bs cs a b :
  Reads r bs a -> Reads (k a) cs b -> Reads (bind r k) (bs ++ cs) b.
Proof.
  intros Hr Hk s Hh. destruct (holds_app _ _ _ Hh) as [H1 H2].
  rewrite (bind_Done _ _ _ a (adv (len bs) s)) by (apply Hr, H1).
  rewrite Hk by exact H2. rewrite adv_adv, len_app. reflexivity.
Qed.

Lemma Reads_eq {A} (r : M STREAM A) bs a bs' a' :
  Reads r bs a -> bs = bs' -> a = a' -> Reads r bs' a'.
Proof. intros H -> ->. exact H. Qed.

Lemma Reads_seek bs n : n = len bs -> Reads (stream_seek n) bs tt.
Proof. intros -> s _. reflexivity. Qed.

Lemma Reads_read bs n : n = len bs -> Reads (stream_read n) bs bs.
Proof.
  intros -> s [Hp Hs Hl Hd]. unfold stream_read. pose proof (len_nonneg bs).
  rewrite bool_decide_true by lia. unfold len at 1. rewrite Nat2Z.id, Hd. reflexivity.
Qed.

(** The bytes of the fixed-width integers. *)
Definition le16 (v : Z) : list Z := [v mod 256; v / 256 mod 256].
Definition be16 (v : Z) : list Z := [v / 256 mod 256; v mod 256].
Definition le32 (v : Z) : list Z :=
  [v mod 256; v / 256 mod 256; v / 65536 mod 256; v / 16777216 mod 256].
Definition be32 (v : Z) : list Z :=
  [v / 16777216 mod 256; v / 65536 mod 256; v / 256 mod 256; v mod 256].

Lemma Writes_uint8 v : Writes (stream_write_uint8 v) [v mod 256] tt.
Proof. apply Writes_store. Qed.

Lemma Writes_uint16 v : Writes (stream_write_uint16 v) (le16 v) tt.
Proof.
  eapply Writes_eq; [eapply Writes_bind; apply Writes_store| |reflexivity].
  arith_bits. reflexivity.
Qed.

Lemma Writes_uint16_be v : Writes (stream_write_uint16_be v) (be16 v) tt.
Proof.
  eapply Writes_eq; [eapply Writes_bind; apply Writes_store| |reflexivity].
  arith_bits. reflexivity.
Qed.

Lemma Writes_uint32 v : Writes (stream_write_uint32 v) (le32 v) tt.
Proof.
  eapply Writes_eq; [repeat (eapply Writes_bind; [apply Writes_store|]); apply Writes_store
                    | |reflexivity].
  arith_bits. reflexivity.
Qed.

Lemma Writes_uint32_be v : Writes (stream_write_uint32_be v) (be32 v) tt.
Proof.
  eapply Writes_eq; [eapply Writes_bind; apply Writes_uint16_be| |reflexivity].
  unfold be16, be32. arith_bits. cbn [app]. cons_eq; dlia.
Qed.

Lemma Writes_write bs : Writes (stream_write bs) bs tt.
Proof. apply Writes_store. Qed.

(** Reading the byte lists back: [bs] are the bytes at the head of the stream. *)
Ltac reads_bytes :=
  let s := fresh "s" in let H := fresh "H" in
  intros s H; unfold bind;
  repeat match goal with
         | |- context [rbyte ?o s] =>
             rewrite (holds_rbyte s _ o _ H) by first [lia | reflexivity]
         end; try reflexivity.

Ltac solve_read :=
  match goal with
  | |- Done (?x, ?s) = Done (?y, ?t) => replace x with y; [reflexivity|]
  end;
  unfold uint16, uint32, is_byte in *; arith_bits; dlia.

Lemma Reads_uint8 b : Reads stream_read_uint8 [b] b.
Proof. unfold stream_read_uint8. reads_bytes. Qed.

Lemma Reads_uint16 b0 b1 : is_byte b0 -> is_byte b1 ->
  Reads stream_read_uint16 [b0; b1] (b0 + 256 * b1).
Proof.
  intros. unfold stream_read_uint16. reads_bytes.
  unfold ret, stream_seek. solve_read.
Qed.

Lemma Reads_uint16_be b0 b1 : is_byte b0 -> is_byte b1 ->
  Reads stream_read_uint16_be [b0; b1] (256 * b0 + b1).
Proof.
  intros. unfold stream_read_uint16_be. reads_bytes.
  unfold ret, stream_seek. solve_read.
Qed.

Lemma Reads_uint32 b0 b1 b2 b3 : is_byte b0 -> is_byte b1 -> is_byte b2 -> is_byte b3 ->
  Reads stream_read_uint32 [b0; b1; b2; b3] (b0 + 256 * b1 + 65536 * b2 + 16777216 * b3).
Proof.
  intros. unfold stream_read_uint32. reads_bytes.
  unfold ret, stream_seek. solve_read.
Qed.

Lemma Reads_uint32_be b0 b1 b2 b3 : is_byte b0 -> is_byte b1 -> is_byte b2 -> is_byte b3 ->
  Reads stream_read_uint32_be [b0; b1; b2; b3] (256 * b0 + b1 + 16777216 * b2 + 65536 * b3).
Proof.
  intros. unfold stream_read_uint32_be. reads_bytes.
  unfold ret, stream_seek. solve_read.
Qed.

Lemma is_byte_mod z : is_byte (z mod 256).
Proof. unfold is_byte. dlia. Qed.

Lemma Reads_le16 v : 0 <= v < 65536 -> Reads stream_read_uint16 (le16 v) v.
Proof.
  intros. eapply Reads_eq; [apply Reads_uint16; apply is_byte_mod|reflexivity|dlia].
Qed.

Lemma Reads_be16 v : 0 <= v < 65536 -> Reads stream_read_uint16_be (be16 v) v.
Proof.
  intros. eapply Reads_eq; [apply Reads_uint16_be; apply is_byte_mod|reflexivity|dlia].
Qed.

Lemma Reads_le32 v : 0 <= v < 2 ^ 32 -> Reads stream_read_uint32 (le32 v) v.
Proof.
  intros. eapply Reads_eq; [apply Reads_uint32; apply is_byte_mod|reflexivity|].
  arith_bits. dlia.
Qed.

(** What the big-endian reader makes of a big-endian 32-bit integer: the two
    halves come back exchanged. *)
Definition swap_halves (v : Z) : Z := v / 65536 + 65536 * (v mod 65536).

Lemma Reads_be32 v : 0 <= v < 2 ^ 32 -> Reads stream_read_uint32_be (be32 v) (swap_halves v).
Proof.
  intros. eapply Reads_eq; [apply Reads_uint32_be; apply is_byte_mod|reflexivity|].
  unfold swap_halves. arith_bits. dlia.
Qed.

Lemma is_bytes_le16 v : is_bytes (le16 v).
Proof. repeat constructor; apply is_byte_mod. Qed.
Lemma is_bytes_be16 v : is_bytes (be16 v).
Proof. repeat constructor; apply is_byte_mod. Qed.
Lemma is_bytes_le32 v : is_bytes (le32 v).
Proof. repeat constructor; apply is_byte_mod. Qed.
Lemma is_bytes_be32 v : is_bytes (be32 v).
Proof. repeat constructor; apply is_byte_mod. Qed.

Create HintDb bytes.
#[export] Hint Resolve is_byte_mod is_byte_uint8 is_bytes_le16 is_bytes_be16 is_bytes_le32
  is_bytes_be32 : bytes.

(** Leaves of the calculus; [writes] and [reads] chain them along a program. *)
Create HintDb writes discriminated.
#[export] Hint Constants Opaque : writes.
#[export] Hint Resolve Writes_ret Writes_uint8 Writes_uint16 Writes_uint16_be
  Writes_uint32 Writes_uint32_be Writes_write : writes.
Create HintDb reads discriminated.
#[export] Hint Constants Opaque : reads.
#[export] Hint Resolve Reads_ret Reads_uint8 Reads_uint16 Reads_uint16_be Reads_uint32
  Reads_uint32_be Reads_le16 Reads_be16 Reads_le32 : reads.

Lemma Reads_uint8_bind {A} (k : Z -> M STREAM A) b cs a :
  Reads (k b) cs a -> Reads (bind stream_read_uint8 k) (b :: cs) a.
Proof. intros H. eapply (Reads_bind _ _ [b]); [apply Reads_uint8|exact H]. Qed.

Lemma Reads_use {A B} (x : A) (k : A -> M STREAM B) bs b :
  Reads (k x) bs b -> Reads (bind (use (Some x)) k) bs b.
Proof. intros H s Hs. unfold use. rewrite bind_ret. apply H, Hs. Qed.

(** The guard [if (stream_get_left(s) < n)] fails when the bytes are there. *)
Lemma Reads_left {A} n (no yes : M STREAM A) bs a :
  n <= len bs -> Reads yes bs a ->
  Reads (let! l := left_bytes in if l <? n then no else yes) bs a.
Proof.
  intros Hn H s Hs. unfold bind, left_bytes, stream_get_left.
  pose proof (holds_size _ _ Hs). rewrite (proj2 (Z.ltb_ge _ _)) by lia. apply H, Hs.
Qed.

Lemma Reads_last {A B} (r : M STREAM A) (k : A -> M STREAM B) bs a b :
  Reads r bs a -> Reads (k a) [] b -> Reads (bind r k) bs b.
Proof. intros H1 H2. rewrite <- (app_nil_r bs). eapply Reads_bind; eassumption. Qed.

Lemma Writes_last {A B} (w : M STREAM A) (k : A -> M STREAM B) bs a b :
  Writes w bs a -> Writes (k a) [] b -> Writes (bind w k) bs b.
Proof. intros H1 H2. rewrite <- (app_nil_r bs). eapply Writes_bind; eassumption. Qed.

Ltac writes_step := first [ solve [eauto with writes] | eapply Writes_bind; [solve [eauto with writes]|] ].
Ltac writes := eapply Writes_eq; [repeat writes_step | |].

(** ** Write-then-read *)

(** A pair of a writer and a reader that agree on an encoding of the valid
    values: what one protocol layer promises to the layer above. *)
Class Codec {A R : Type} (wr : A -> M STREAM R) (rv : A -> R) (rd : M STREAM A)
      (valid : A -> Prop) (enc : A -> list Z) : Prop := {
  codec_writes : forall a, valid a -> Writes (wr a) (enc a) (rv a);
  codec_reads : forall a, valid a -> Reads rd (enc a) a;
}.

(** Write at the current position, return to it, and read. *)
Definition write_then_read {R A} (wr : M STREAM R) (rd : M STREAM A) : M STREAM A :=
  let! s := get in wr;; stream_set_pos (stream_get_pos s);; rd.

Lemma run_then_read {R A} (wr : M STREAM R) (rd : M STREAM A) bs r a s :
  wr s = Done (r, put bs s) -> Reads rd bs a ->
  room s (len bs) -> s_p s + len bs <= s_size s ->
  write_then_read wr rd s = Done (a, put bs s).
Proof.
  intros Hw Hr Hroom Hsize. unfold write_then_read, get, bind at 1.
  rewrite (bind_Done _ _ _ _ _ Hw).
  unfold bind, stream_set_pos, stream_get_pos.
  rewrite Hr by (apply holds_put; assumption).
  unfold adv, set_p, put. cbn. reflexivity.
Qed.

Lemma writes_reads {R A} (wr : M STREAM R) (rd : M STREAM A) bs r a s :
  Writes wr bs r -> Reads rd bs a ->
  room s (len bs) -> s_p s + len bs <= s_size s ->
  write_then_read wr rd s = Done (a, put bs s).
Proof. intros Hw Hr Hroom Hsize. eapply run_then_read; eauto. Qed.

(** The value a receiver returns when it is handed what a sender wrote. *)
Definition received {R A} (wr : M STREAM R) (rd : M STREAM A) (s : STREAM) : option A :=
  match write_then_read wr rd s with Done (a, _) => Some a | Fault _ => None end.

Lemma received_prefix {R A} (wr : M STREAM R) (rd : M STREAM A) bs cs r a s :
  wr s = Done (r, put (bs ++ cs) s) -> Reads rd bs a ->
  room s (len (bs ++ cs)) -> s_p s + len (bs ++ cs) <= s_size s ->
  received wr rd s = Some a.
Proof.
  intros Hw Hr Hroom Hsize. unfold received, write_then_read, get, bind at 1.
  rewrite (bind_Done _ _ _ _ _ Hw). unfold bind, stream_set_pos, stream_get_pos.
  destruct (holds_app _ _ _ (holds_put (bs ++ cs) s Hroom Hsize)) as [Hh _].
  rewrite Hr by exact Hh. reflexivity.
Qed.

Lemma codec_roundtrip {A R : Type} (wr : A -> M STREAM R) rv rd valid enc
  `{!Codec wr rv rd valid enc} a s :
  valid a -> room s (len (enc a)) -> s_p s + len (enc a) <= s_size s ->
  write_then_read (wr a) rd s = Done (a, put (enc a) s).
Proof.
  intros. eapply writes_reads; eauto using codec_writes, codec_reads.
Qed.

#[export] Instance codec_uint8 :
  Codec stream_write_uint8 (fun _ => tt) stream_read_uint8 is_byte (fun v => [v]).
Proof.
  split; intros v Hv; [|apply Reads_uint8].
  eapply Writes_eq; [apply Writes_uint8| |reflexivity].
  unfold is_byte in Hv. rewrite Z.mod_small by lia. reflexivity.
Qed.

#[export] Instance codec_uint16 :
  Codec stream_write_uint16 (fun _ => tt) stream_read_uint16 (fun v => 0 <= v < 65536) le16.
Proof. split; intros; auto with writes reads. Qed.

#[export] Instance codec_uint16_be :
  Codec stream_write_uint16_be (fun _ => tt) stream_read_uint16_be (fun v => 0 <= v < 65536) be16.
Proof. split; intros; auto with writes reads. Qed.

#[export] Instance codec_uint32 :
  Codec stream_write_uint32 (fun _ => tt) stream_read_uint32 (fun v => 0 <= v < 2 ^ 32) le32.
Proof. split; intros; auto with writes reads. Qed.

(** ** Temporary streams

    Some writers build a part in a fresh stream of the size of the current one.
    [WritesSz n] is [Writes] for streams whose declared size is at least [n]. *)

Definition WritesSz {A} (n : Z) (w : M STREAM A) (bs : list Z) (a : A) : Prop :=
  forall s, room s (len bs) -> n <= s_size s -> w s = Done (a, put bs s).

Lemma Writes_Sz {A} n (w : M STREAM A) bs a : Writes w bs a -> WritesSz n w bs a.
Proof. intros H s Hr _. apply H, Hr. Qed.

Lemma WritesSz_mono {A} n m (w : M STREAM A) bs a :
  n <= m -> WritesSz n w bs a -> WritesSz m w bs a.
Proof. intros Hle H s Hr Hs. apply H; [exact Hr|lia]. Qed.

Lemma WritesSz_bind {A B} n (w : M STREAM A) (k : A -> M STREAM B) bs cs a b :
  WritesSz n w bs a -> WritesSz n (k a) cs b -> WritesSz n (bind w k) (bs ++ cs) b.
Proof.
  intros Hw Hk s Hr Hs. rewrite len_app in Hr.
  rewrite (bind_Done _ _ _ a (put bs s)) by (apply Hw; [apply (room_le _ _ _ Hr); llia|exact Hs]).
  rewrite Hk; [|apply room_put; [exact Hr|llia]|exact Hs].
  rewrite put_app by (rewrite len_app; exact Hr). reflexivity.
Qed.

Lemma WritesSz_last {A B} n (w : M STREAM A) (k : A -> M STREAM B) bs a b :
  WritesSz n w bs a -> WritesSz n (k a) [] b -> WritesSz n (bind w k) bs b.
Proof. intros H1 H2. rewrite <- (app_nil_r bs). eapply WritesSz_bind; eassumption. Qed.

Lemma WritesSz_eq {A} n (w : M STREAM A) bs a bs' a' :
  WritesSz n w bs a -> bs = bs' -> a = a' -> WritesSz n w bs' a'.
Proof. intros H -> ->. exact H. Qed.

(** Run a program on another stream. *)
Definition with_stream {S A} (tmps : STREAM) (c : M STREAM A) : M S (A * STREAM) := fun s =>
  match c tmps with
  | Done (a, tmps') => Done ((a, tmps'), s)
  | Fault f => Fault f
  end.

(** The first [n] bytes of a C array. *)
Definition array_prefix (l : list Z) (n : Z) : M STREAM (list Z) :=
  if bool_decide (0 <= n <= len l) then ret (take (Z.to_nat n) l) else fail OutOfBounds.

Lemma Writes_array_prefix l n : 0 <= n <= len l ->
  Writes (array_prefix l n) [] (take (Z.to_nat n) l).
Proof. intros H. unfold array_prefix. rewrite bool_decide_true by lia. apply Writes_ret. Qed.

Lemma put_new bs n : 0 < n -> len bs <= n ->
  room (stream_new n) (len bs) /\ s_p (put bs (stream_new n)) = len bs /\
  array_prefix (s_data (put bs (stream_new n))) (len bs) = ret bs.
Proof.
  intros Hn Hl. unfold stream_new. rewrite (proj2 (Z.eqb_neq n 0)), (proj2 (Z.ltb_lt 0 n)) by lia.
  assert (Hr : room (mkSTREAM n 0 (replicate (Z.to_nat n) 0)) (len bs))
    by (split; cbn [s_p s_data]; rewrite ?len_replicate; lia).
  split; [exact Hr|]. split; [reflexivity|]. unfold array_prefix.
  rewrite len_put by exact Hr. cbn [s_data]. rewrite len_replicate, bool_decide_true by llia.
  f_equal. unfold len at 1. rewrite Nat2Z.id. apply (splice_read 0).
  cbn [s_data]. rewrite length_replicate. unfold len in Hl. lia.
Qed.

Lemma with_stream_new {S A} n (c : M STREAM A) bs a (s : S) :
  WritesSz n c bs a -> 0 < n -> len bs <= n ->
  with_stream (stream_new n) c s = Done ((a, put bs (stream_new n)), s).
Proof.
  intros Hc Hn Hl. destruct (put_new bs n Hn Hl) as [Hr _]. unfold with_stream.
  rewrite (Hc _ Hr); [reflexivity|]. unfold stream_new.
  rewrite (proj2 (Z.eqb_neq n 0)), (proj2 (Z.ltb_lt 0 n)) by lia. cbn. lia.
Qed.

(** A part built in a fresh stream and then copied. *)
Lemma WritesSz_temp {A B} n (c : M STREAM A) (k : STREAM -> M STREAM B) bs cs a b :
  WritesSz n c bs a -> 0 < n -> len bs <= n ->
  (forall tmps, stream_get_length tmps = len bs ->
     array_prefix (s_data tmps) (len bs) = ret bs -> WritesSz n (k tmps) cs b) ->
  WritesSz n (let! s := get in
              let! (_, tmps) := with_stream (stream_new (s_size s)) c in k tmps) cs b.
Proof.
  intros Hc Hn Hl Hk s Hr Hs. unfold bind at 1, get.
  assert (Hsz : len bs <= s_size s) by lia.
  rewrite (bind_Done _ _ _ _ _ (with_stream_new (s_size s) c bs a s
             (WritesSz_mono n _ c bs a Hs Hc) ltac:(lia) Hsz)).
  destruct (put_new bs (s_size s) ltac:(lia) Hsz) as (_ & Hp & Ha).
  apply Hk; assumption.
Qed.

(** Writing the body first and the header before it afterwards is writing the
    header and then the body. *)
Lemma splice_patch i hs bs l : (i + length hs + length bs <= length l)%nat ->
  splice i hs (splice (i + length hs) bs l) = splice i (hs ++ bs) l.
Proof.
  intros Hl. unfold splice at 1 3.
  assert (Ht : take i (splice (i + length hs) bs l) = take i l).
  { unfold splice. rewrite take_app_le by (rewrite length_take; lia).
    rewrite take_take. f_equal. lia. }
  assert (Hd : drop (i + length hs) (splice (i + length hs) bs l)
               = bs ++ drop (i + length (hs ++ bs)) l).
  { unfold splice. rewrite drop_app_length' by (rewrite length_take; lia).
    rewrite length_app, Nat.add_assoc. reflexivity. }
  rewrite Ht, Hd, <- app_assoc. reflexivity.
Qed.

Lemma put_patch hs bs s : room s (len (hs ++ bs)) ->
  set_p (put hs (set_p (put bs (adv (len hs) s)) (s_p s))) (s_p s + len hs + len bs)
  = put (hs ++ bs) s.
Proof.
  intros [Hp Hr]. rewrite len_app in Hr. unfold put, adv, set_p. cbn [s_size s_p s_data].
  rewrite len_app. f_equal; [lia|].
  replace (Z.to_nat (s_p s + len hs)) with (Z.to_nat (s_p s) + length hs)%nat by (unfold len; lia).
  apply splice_patch. unfold len in *. lia.
Qed.

(** *** Headers written after the body

    The idiom [stream_get_mark(bm); stream_seek(n); body; stream_get_mark(em);
    stream_set_mark(bm); header; stream_set_mark(em)]; the header is given the
    value of the body and the distance [em - bm]. *)
Definition patch_header {A} (n : Z) (body : M STREAM A) (hdr : A -> Z -> M STREAM unit) : M STREAM A :=
  let! s0 := get in
  let bm := stream_get_pos s0 in
  stream_seek n;;
  let! r := body in
  let! s1 := get in
  let em := stream_get_pos s1 in
  stream_set_pos bm;;
  hdr r (em - bm);;
  stream_set_pos em;;
  ret r.

Lemma WritesSz_patch_header {A} m n (body : M STREAM A) hdr bs hs a :
  WritesSz m body bs a -> Writes (hdr a (n + len bs)) hs tt -> len hs = n ->
  WritesSz m (patch_header n body hdr) (hs ++ bs) a.
Proof.
  intros Hb Hh Hhs s [Hp Hr] Hm. rewrite len_app in Hr. pose proof (len_nonneg bs).
  pose proof (len_nonneg hs).
  unfold patch_header, get, stream_seek, stream_get_pos. unfold bind at 1 2.
  assert (Hroom : room (adv n s) (len bs)) by (split; cbn; lia).
  rewrite (bind_Done _ _ _ _ _ (Hb (adv n s) Hroom Hm)).
  unfold bind at 1 2, stream_set_pos at 1. cbn [s_p put adv set_p].
  replace (s_p s + n + len bs - s_p s) with (n + len bs) by lia.
  set (s2 := set_p _ (s_p s)).
  assert (Hr2 : room s2 (len hs)).
  { unfold s2. split; [cbn; lia|]. cbn [set_p s_p s_data].
    rewrite len_put by exact Hroom. cbn [adv set_p s_data]. lia. }
  rewrite (bind_Done _ _ _ _ _ (Hh s2 Hr2)). unfold bind, stream_set_pos, ret.
  do 2 f_equal. rewrite <- put_patch by (split; [exact Hp|rewrite len_app; lia]).
  unfold s2. rewrite Hhs. reflexivity.
Qed.

Lemma Writes_patch_header {A} n (body : M STREAM A) hdr bs hs a :
  Writes body bs a -> Writes (hdr a (n + len bs)) hs tt -> len hs = n ->
  Writes (patch_header n body hdr) (hs ++ bs) a.
Proof.
  intros Hb Hh Hl s Hr.
  apply (WritesSz_patch_header (s_size s)); [apply Writes_Sz, Hb|exact Hh|exact Hl|exact Hr|lia].
Qed.

(** *** Readers that cannot leave the buffer

    [Safe n r Q]: on any [n] bytes, whatever they are, [r] returns a value that
    satisfies [Q] and moves the position forward by at most [n]. *)
Definition Safe {A} (n : Z) (r : M STREAM A) (Q : A -> Prop) : Prop :=
  forall s, room s n -> exists a j, r s = Done (a, adv j s) /\ 0 <= j <= n /\ Q a.

Lemma Safe_ret {A} n (a : A) (Q : A -> Prop) : 0 <= n -> Q a -> Safe n (ret a) Q.
Proof. intros Hn Ha s _. exists a, 0. rewrite adv_0. repeat split; [lia|lia|exact Ha]. Qed.

Lemma Safe_bind {A B} n m (r : M STREAM A) (k : A -> M STREAM B) Q R :
  0 <= m -> Safe n r Q -> (forall a, Q a -> Safe m (k a) R) -> Safe (n + m) (bind r k) R.
Proof.
  intros Hm Hr Hk s [Hp Hs]. destruct (Hr s) as (a & j & E & Hj & Ha); [split; lia|].
  rewrite (bind_Done _ _ _ _ _ E).
  destruct (Hk a Ha (adv j s)) as (b & i & E' & Hi & Hb); [split; cbn; lia|].
  exists b, (j + i). rewrite E', adv_adv. repeat split; [lia|lia|exact Hb].
Qed.

Lemma Safe_mono {A} n m (r : M STREAM A) (Q R : A -> Prop) :
  n <= m -> (forall a, Q a -> R a) -> Safe n r Q -> Safe m r R.
Proof.
  intros Hle HQ Hr s [Hp Hs]. destruct (Hr s) as (a & j & E & Hj & Ha); [split; lia|].
  exists a, j. repeat split; auto; lia.
Qed.

Lemma rbyte_Done off s : 0 <= s_p s + off < len (s_data s) -> exists b, rbyte off s = Done (b, s).
Proof.
  intros H. unfold rbyte. rewrite (proj2 (Z.leb_le _ _)) by lia.
  destruct (lookup_lt_is_Some_2 (s_data s) (Z.to_nat (s_p s + off))) as [b ->];
    [unfold len in H; lia|eauto].
Qed.

Lemma Safe_seek n : 0 <= n -> Safe n (stream_seek n) (fun _ => True).
Proof. intros Hn s _. exists tt, n. repeat split; lia. Qed.

Ltac safe_bytes :=
  let s := fresh "s" in let Hp := fresh "Hp" in let Hs := fresh "Hs" in
  intros s [Hp Hs];
  repeat match goal with
         | |- context [rbyte ?o] =>
             let b := fresh "b" in let E := fresh "E" in
             destruct (rbyte_Done o s) as [b E]; [lia|];
             first [rewrite (bind_Done _ _ _ _ _ E)]; clear E
         end; do 2 eexists; split; [reflexivity|lia].

Lemma Safe_peek : Safe 1 stream_peek_uint8 (fun _ => True).
Proof.
  intros s [Hp Hs]. destruct (rbyte_Done 0 s) as [b E]; [lia|].
  exists b, 0. rewrite adv_0. repeat split; [exact E|lia|lia].
Qed.
Lemma Safe_uint8 : Safe 1 stream_read_uint8 (fun _ => True).
Proof. unfold stream_read_uint8. safe_bytes. Qed.
Lemma Safe_uint16 : Safe 2 stream_read_uint16 (fun _ => True).
Proof. unfold stream_read_uint16. safe_bytes. Qed.
Lemma Safe_uint16_be : Safe 2 stream_read_uint16_be (fun _ => True).
Proof. unfold stream_read_uint16_be. safe_bytes. Qed.
Lemma Safe_uint32 : Safe 4 stream_read_uint32 (fun _ => True).
Proof. unfold stream_read_uint32. safe_bytes. Qed.

(** ** Growing a stream *)

(** Position and size are inside the allocation, whatever the contents. *)
Definition stream_fits (s : STREAM) : Prop := 0 <= s_p s <= s_size s /\ s_size s <= len (s_data s).

Lemma ok_fits s : stream_ok s -> stream_fits s.
Proof. intros [Hp Hs _]. split; assumption. Qed.

Lemma stream_extend_spec n s :
  stream_fits s -> s_size s + Z.max n (s_size s) <= INT_MAX ->
  exists s', stream_extend n s = Done (tt, s') /\ stream_fits s' /\
    s_p s' = s_p s /\ s_size s' = s_size s + Z.max n (s_size s) /\
    len (s_data s') = s_size s' /\
    take (Z.to_nat (s_size s)) (s_data s') = take (Z.to_nat (s_size s)) (s_data s) /\
    (is_bytes (s_data s) -> is_bytes (s_data s')).
Proof.
  intros [Hp Hsz] Hmax. unfold stream_extend, stream_get_pos.
  set (inc := if s_size s <? n then n else s_size s).
  assert (Hinc : inc = Z.max n (s_size s)) by (unfold inc; destruct (Z.ltb_spec (s_size s) n); lia).
  rewrite (proj2 (Z.leb_le _ _)) by lia.
  assert (Hl : length (take (Z.to_nat (s_size s)) (s_data s)) = Z.to_nat (s_size s))
    by (rewrite length_take; unfold len in *; lia).
  eexists. split; [reflexivity|]. unfold stream_fits. cbn [s_size s_p s_data].
  assert (Hlen : len (take (Z.to_nat (s_size s)) (s_data s) ++ replicate (Z.to_nat inc) 0)
                 = s_size s + inc) by (rewrite len_app, len_replicate; unfold len in *; lia).
  repeat split; cbn [s_size s_p s_data]; try lia.
  - apply take_app_length'. lia.
  - intros Hb. apply Forall_app. split; [apply Forall_take, Hb|].
    apply Forall_replicate. unfold is_byte. lia.
Qed.

Lemma stream_check_size_fits n s :
  stream_fits s -> 0 <= n -> s_size s + Z.max n (s_size s) <= INT_MAX ->
  exists s', stream_check_size n s = Done (tt, s') /\ stream_fits s' /\
    s_p s' = s_p s /\ room s' n /\ s_p s' + n <= s_size s' /\
    take (Z.to_nat (s_size s)) (s_data s') = take (Z.to_nat (s_size s)) (s_data s) /\
    s_size s' <= Z.max (s_size s) (2 * (s_p s + n)) /\
    (is_bytes (s_data s) -> is_bytes (s_data s')).
Proof.
  intros [Hp Hsz] Hn Hmax. unfold stream_check_size. cbn [check_size_loop].
  destruct (Z.ltb_spec (s_size s) (s_p s + n)) as [Hlt|Hge].
  - destruct (stream_extend_spec n s (conj Hp Hsz) Hmax) as (s' & He & Hok' & Hp' & Hs' & Hl' & Hd' & Hb').
    exists s'. unfold bind. rewrite He. cbn [check_size_loop].
    rewrite (proj2 (Z.ltb_ge _ _)) by lia. unfold room.
    repeat split; try apply Hok'; try lia; assumption.
  - exists s. unfold room, stream_fits. repeat split; try lia; auto.
Qed.

Lemma stream_check_size_run n s :
  stream_ok s -> 0 <= n -> s_size s + Z.max n (s_size s) <= INT_MAX ->
  exists s', stream_check_size n s = Done (tt, s') /\ stream_ok s' /\
    s_p s' = s_p s /\ room s' n /\ s_p s' + n <= s_size s' /\
    take (Z.to_nat (s_size s)) (s_data s') = take (Z.to_nat (s_size s)) (s_data s) /\
    s_size s' <= Z.max (s_size s) (2 * (s_p s + n)).
Proof.
  intros Hok Hn Hmax.
  destruct (stream_check_size_fits n s (ok_fits s Hok) Hn Hmax)
    as (s' & E & [Hp Hs] & Hp' & Hr & Hf & Hd & Hz & Hb).
  exists s'. split; [exact E|]. split; [|auto]. split; auto. apply Hb, (ok_bytes _ Hok).
Qed.

(** Claims on the stream itself. *)

(** [stream_check_size] on a well-formed stream terminates after at most
    one extension and leaves a well-formed stream with at least [n] bytes after
    the (unchanged) position, the bytes before the old size untouched, and never
    more than twice the size that is needed. *)
Theorem stream_check_size_spec n s :
  stream_ok s -> 0 <= n -> s_size s + Z.max n (s_size s) <= INT_MAX ->
  exists s', stream_check_size n s = Done (tt, s') /\ stream_ok s' /\
    s_p s' = s_p s /\ room s' n /\ s_p s' + n <= s_size s' /\
    take (Z.to_nat (s_size s)) (s_data s') = take (Z.to_nat (s_size s)) (s_data s) /\
    s_size s' <= Z.max (s_size s) (2 * (s_p s + n)).
Proof.
  apply stream_check_size_run.
Qed.

Lemma stream_check_size_spec_witness :
  exists s', stream_check_size 10 (stream_new 4) = Done (tt, s') /\ s_size s' = 14.
Proof.
  destruct (stream_check_size_spec 10 (stream_new 4)) as (s' & H & _).
  - split; vm_compute; try split; try discriminate. repeat constructor; discriminate.
  - lia.
  - vm_compute. discriminate.
  - exists s'. split; [exact H|]. vm_compute in H. injection H as <-. reflexivity.
Defined.
