(* ===== verification/Settings.v ===== *)
(** Constants of [include/freerdp/settings.h] shared by negotiation and
    security. *)

From S2P Require Import Prelude.

Definition ENCRYPTION_METHOD_NONE : Z := 0.
Definition ENCRYPTION_METHOD_40BIT : Z := 1.
Definition ENCRYPTION_METHOD_128BIT : Z := 2.
Definition ENCRYPTION_METHOD_FIPS : Z := 16.
Definition ENCRYPTION_LEVEL_NONE : Z := 0.
Definition ENCRYPTION_LEVEL_CLIENT_COMPATIBLE : Z := 2.
