(* ===== verification/Ber.v ===== *)
(** ASN.1 Basic Encoding Rules, [libfreerdp-core/ber.c]. *)

From S2P Require Import Prelude.
From S2P Require Import Stream.

(** ** Constants of [ber.h] *)

Definition BER_CLASS_UNIV : Z := 0x00.
Definition BER_CLASS_APPL : Z := 0x40.
Definition BER_CLASS_CTXT : Z := 0x80.
Definition BER_PRIMITIVE : Z := 0x00.
Definition BER_CONSTRUCT : Z := 0x20.
Definition BER_TAG_MASK : Z := 0x1F.
Definition BER_TAG_BOOLEAN : Z := 0x01.
Definition BER_TAG_INTEGER : Z := 0x02.
Definition BER_TAG_BIT_STRING : Z := 0x03.
Definition BER_TAG_OCTET_STRING : Z := 0x04.
Definition BER_TAG_ENUMERATED : Z := 0x0A.
Definition BER_TAG_SEQUENCE : Z := 0x10.
Definition BER_TAG_SEQUENCE_OF : Z := 0x10.
Definition BER_PC (pc : bool) : Z := if pc then BER_CONSTRUCT else BER_PRIMITIVE.

(** ** Lengths

    An [int] out-parameter is passed as the value it held before, [None] when
    it was never assigned, and the value it holds afterwards is returned. *)

Definition ber_read_length (length : option Z) : M STREAM (option Z) :=
  let! byte := stream_read_uint8 in
  if negb (Z.land byte 0x80 =? 0) then
    let byte := uint8 (Z.land byte (Z.lnot 0x80)) in
    if byte =? 1 then let! v := stream_read_uint8 in ret (Some v)
    else if byte =? 2 then let! v := stream_read_uint16_be in ret (Some v)
    else ret length
  else ret (Some byte).

Definition ber_write_length (length : Z) : M STREAM Z :=
  if 0x7F <? length then
    stream_write_uint8 0x82;; stream_write_uint16_be length;; ret 3
  else
    stream_write_uint8 length;; ret 1.

Definition _ber_skip_length (length : Z) : Z := if 0x7F <? length then 3 else 1.

Definition ber_get_content_length (length : Z) : Z :=
  if 0x7F <? length - 1 then length - 4 else length - 2.

(** ** Tags *)

Definition ber_read_universal_tag (tag : Z) (pc : bool) : M STREAM bool :=
  let! byte := stream_read_uint8 in
  ret (byte =? Z.lor (Z.lor BER_CLASS_UNIV (BER_PC pc)) (Z.land BER_TAG_MASK tag)).

Definition ber_write_universal_tag (tag : Z) (pc : bool) : M STREAM unit :=
  stream_write_uint8 (Z.lor (Z.lor BER_CLASS_UNIV (BER_PC pc)) (Z.land BER_TAG_MASK tag)).

Definition ber_read_application_tag (tag : Z) (length : option Z) : M STREAM (bool * option Z) :=
  if 30 <? tag then
    let! byte := stream_read_uint8 in
    if negb (byte =? Z.lor (Z.lor BER_CLASS_APPL BER_CONSTRUCT) BER_TAG_MASK)
    then ret (false, length)
    else
      let! byte := stream_read_uint8 in
      if negb (byte =? tag) then ret (false, length)
      else let! length := ber_read_length length in ret (true, length)
  else
    let! byte := stream_read_uint8 in
    if negb (byte =? Z.lor (Z.lor BER_CLASS_APPL BER_CONSTRUCT) (Z.land BER_TAG_MASK tag))
    then ret (false, length)
    else let! length := ber_read_length length in ret (true, length).

Definition ber_write_application_tag (tag length : Z) : M STREAM unit :=
  if 30 <? tag then
    stream_write_uint8 (Z.lor (Z.lor BER_CLASS_APPL BER_CONSTRUCT) BER_TAG_MASK);;
    stream_write_uint8 tag;;
    ber_write_length length;; ret tt
  else
    stream_write_uint8 (Z.lor (Z.lor BER_CLASS_APPL BER_CONSTRUCT) (Z.land BER_TAG_MASK tag));;
    ber_write_length length;; ret tt.

Definition ber_read_contextual_tag (tag : Z) (length : option Z) (pc : bool)
  : M STREAM (bool * option Z) :=
  let! byte := stream_read_uint8 in
  if negb (byte =? Z.lor (Z.lor BER_CLASS_CTXT (BER_PC pc)) (Z.land BER_TAG_MASK tag))
  then stream_rewind 1;; ret (false, length)
  else let! length := ber_read_length length in ret (true, length).

Definition ber_write_contextual_tag (tag length : Z) (pc : bool) : M STREAM Z :=
  stream_write_uint8 (Z.lor (Z.lor BER_CLASS_CTXT (BER_PC pc)) (Z.land BER_TAG_MASK tag));;
  let! n := ber_write_length length in ret (n + 1).

Definition ber_skip_contextual_tag (length : Z) : Z := _ber_skip_length length + 1.

Definition ber_read_sequence_tag (length : option Z) : M STREAM (bool * option Z) :=
  let! byte := stream_read_uint8 in
  if negb (byte =? Z.lor (Z.lor BER_CLASS_UNIV BER_CONSTRUCT) BER_TAG_SEQUENCE_OF)
  then ret (false, length)
  else let! length := ber_read_length length in ret (true, length).

Definition ber_write_sequence_tag (length : Z) : M STREAM Z :=
  stream_write_uint8 (Z.lor (Z.lor BER_CLASS_UNIV BER_CONSTRUCT)
                            (Z.land BER_TAG_MASK BER_TAG_SEQUENCE));;
  let! n := ber_write_length length in ret (n + 1).

Definition ber_skip_sequence (length : Z) : Z := 1 + _ber_skip_length length + length.
Definition ber_skip_sequence_tag (length : Z) : Z := 1 + _ber_skip_length length.

(** ** Values *)

Definition ber_read_enumerated (enumerated : option Z) (count : Z) : M STREAM (bool * option Z) :=
  ber_read_universal_tag BER_TAG_ENUMERATED false;;
  let! length := ber_read_length None in
  let! length := use length in
  if length =? 1 then
    let! v := stream_read_uint8 in
    if count <? v + 1 then ret (false, Some v) else ret (true, Some v)
  else ret (false, enumerated).

Definition ber_write_enumerated (enumerated count : Z) : M STREAM unit :=
  ber_write_universal_tag BER_TAG_ENUMERATED false;;
  ber_write_length 1;;
  stream_write_uint8 enumerated.

Definition ber_read_bit_string (length : option Z) : M STREAM (bool * option Z * Z) :=
  ber_read_universal_tag BER_TAG_BIT_STRING false;;
  let! length := ber_read_length length in
  let! padding := stream_read_uint8 in
  ret (true, length, padding).

Definition ber_read_octet_string (length : option Z) : M STREAM (bool * option Z) :=
  ber_read_universal_tag BER_TAG_OCTET_STRING false;;
  let! length := ber_read_length length in
  ret (true, length).

Definition ber_write_octet_string (oct_str : list Z) (length : Z) : M STREAM unit :=
  ber_write_universal_tag BER_TAG_OCTET_STRING false;;
  ber_write_length length;;
  let! bs := array_prefix oct_str length in
  stream_write bs.

Definition ber_write_octet_string_tag (length : Z) : M STREAM Z :=
  ber_write_universal_tag BER_TAG_OCTET_STRING false;;
  ber_write_length length;;
  ret (1 + _ber_skip_length length).

Definition ber_skip_octet_string (length : Z) : Z := 1 + _ber_skip_length length + length.

Definition ber_read_boolean (value : option bool) : M STREAM (bool * option bool) :=
  let! ok := ber_read_universal_tag BER_TAG_BOOLEAN false in
  if negb ok then ret (false, value)
  else
    let! length := ber_read_length None in
    let! length := use length in
    if negb (length =? 1) then ret (false, value)
    else
      let! v := stream_read_uint8 in
      ret (true, Some (negb (v =? 0))).

Definition ber_write_boolean (value : bool) : M STREAM unit :=
  ber_write_universal_tag BER_TAG_BOOLEAN false;;
  ber_write_length 1;;
  stream_write_uint8 (if value then 0xFF else 0).

(** [wanted] says whether the pointer [value] is not [NULL]; the value it
    points to afterwards is [None] when it was not assigned. *)
Definition ber_read_integer (wanted : bool) (value : option Z) : M STREAM (bool * option Z) :=
  ber_read_universal_tag BER_TAG_INTEGER false;;
  let! length := ber_read_length None in
  let! length := use length in
  if negb wanted then stream_seek length;; ret (true, value)
  else if length =? 1 then let! v := stream_read_uint8 in ret (true, Some v)
  else if length =? 2 then let! v := stream_read_uint16_be in ret (true, Some v)
  else if length =? 3 then
    let! byte := stream_read_uint8 in
    let! v := stream_read_uint16_be in
    ret (true, Some (uint32 (v + Z.shiftl byte 16)))
  else if length =? 4 then let! v := stream_read_uint32_be in ret (true, Some v)
  else ret (false, value).

Definition ber_write_integer (value : Z) : M STREAM Z :=
  ber_write_universal_tag BER_TAG_INTEGER false;;
  if value <=? 0xFF then
    ber_write_length 1;; stream_write_uint8 value;; ret 2
  else if value <? 0xFF80 then
    ber_write_length 2;; stream_write_uint16_be value;; ret 3
  else if value <? 0xFF8000 then
    ber_write_length 3;; stream_write_uint8 (Z.shiftr value 16);;
    stream_write_uint16_be (Z.land value 0xFFFF);; ret 4
  else if value <=? 0xFFFFFFFF then
    ber_write_length 4;; stream_write_uint32_be value;; ret 5
  else ret 0.

Definition ber_skip_integer (value : Z) : Z :=
  if value <=? 0xFF then _ber_skip_length 1 + 2
  else if value <=? 0xFFFF then _ber_skip_length 2 + 3
  else if value <=? 0xFFFFFFFF then _ber_skip_length 4 + 5
  else 0.

Definition ber_read_integer_length (length : option Z) : M STREAM (bool * option Z) :=
  ber_read_universal_tag BER_TAG_INTEGER false;;
  let! length := ber_read_length length in
  ret (true, length).

(** ** Encodings *)

Definition ber_length_bytes (n : Z) : list Z :=
  if 0x7F <? n then 0x82 :: be16 n else [n mod 256].

Lemma len_ber_length_bytes n : len (ber_length_bytes n) = _ber_skip_length n.
Proof. unfold ber_length_bytes, _ber_skip_length. destruct (0x7F <? n); reflexivity. Qed.

Lemma Writes_ber_length n : Writes (ber_write_length n) (ber_length_bytes n) (_ber_skip_length n).
Proof.
  unfold ber_write_length, ber_length_bytes, _ber_skip_length.
  destruct (0x7F <? n); writes; reflexivity.
Qed.

Lemma Reads_ber_length n old : 0 <= n < 65536 ->
  Reads (ber_read_length old) (ber_length_bytes n) (Some n).
Proof.
  intros Hn. unfold ber_read_length, ber_length_bytes.
  destruct (Z.ltb_spec 0x7F n) as [Hlt|Hge].
  - eapply (Reads_bind _ _ [0x82] (be16 n)); [apply Reads_uint8|]. repeat branch.
    rewrite <- (app_nil_r (be16 n)). eapply Reads_bind; [auto with reads|apply Reads_ret].
  - rewrite Z.mod_small by lia.
    eapply (Reads_bind _ _ [n] []); [apply Reads_uint8|].
    replace (Z.land n 0x80) with 0; [apply Reads_ret|].
    symmetry. rewrite Z.land_comm. apply (land_high_low 0x80 n 7); lia || reflexivity.
Qed.

#[export] Hint Resolve Writes_ber_length : writes.

Definition tag_byte (cls : Z) (pc : bool) (tag : Z) : Z :=
  Z.lor (Z.lor cls (BER_PC pc)) (Z.land BER_TAG_MASK tag).

Definition univ_byte (tag : Z) (pc : bool) : Z := tag_byte BER_CLASS_UNIV pc tag.

Lemma is_byte_tag cls pc tag :
  cls = BER_CLASS_UNIV \/ cls = BER_CLASS_APPL \/ cls = BER_CLASS_CTXT ->
  is_byte (tag_byte cls pc tag).
Proof.
  intros Hc. unfold tag_byte, is_byte.
  rewrite (Z.land_comm BER_TAG_MASK), (land_mask tag 5 BER_TAG_MASK) by (lia || reflexivity).
  assert (0 <= tag mod 2 ^ 5 < 32) by (change (2 ^ 5) with 32; dlia).
  assert (Hh : exists k, Z.lor cls (BER_PC pc) = 32 * k /\ 0 <= k < 8).
  { exists (Z.shiftr (Z.lor cls (BER_PC pc)) 5).
    destruct Hc as [-> | [-> | ->] ]; destruct pc; vm_compute; (split; [reflexivity|(split; [discriminate|reflexivity])]). }
  destruct Hh as (k & -> & Hk).
  rewrite (lor_high_low _ _ 5) by (change (2 ^ 5) with 32; dlia). lia.
Qed.

Lemma is_byte_univ tag pc : is_byte (univ_byte tag pc).
Proof. apply is_byte_tag. auto. Qed.

Lemma Writes_universal_tag tag pc :
  Writes (ber_write_universal_tag tag pc) [univ_byte tag pc] tt.
Proof.
  eapply Writes_eq; [apply Writes_uint8| |reflexivity].
  fold (tag_byte BER_CLASS_UNIV pc tag). fold (univ_byte tag pc).
  pose proof (is_byte_univ tag pc) as H. unfold is_byte in H.
  rewrite Z.mod_small by lia. reflexivity.
Qed.

Lemma Reads_universal_tag tag pc :
  Reads (ber_read_universal_tag tag pc) [univ_byte tag pc] true.
Proof.
  apply Reads_uint8_bind. unfold univ_byte, tag_byte. rewrite Z.eqb_refl. apply Reads_ret.
Qed.

#[export] Hint Resolve Writes_universal_tag : writes.

(** Read a tag whose result the caller drops or tests. *)
Lemma Reads_universal_bind {A} tag pc (k : bool -> M STREAM A) cs a :
  Reads (k true) cs a ->
  Reads (bind (ber_read_universal_tag tag pc) k) (univ_byte tag pc :: cs) a.
Proof. intros H. eapply (Reads_bind _ _ [_]); [apply Reads_universal_tag|exact H]. Qed.

Lemma Reads_ber_length_bind {A} n old (k : option Z -> M STREAM A) cs a :
  0 <= n < 65536 -> Reads (k (Some n)) cs a ->
  Reads (bind (ber_read_length old) k) (ber_length_bytes n ++ cs) a.
Proof. intros Hn H. eapply Reads_bind; [apply Reads_ber_length, Hn|exact H]. Qed.

(** *** Application, contextual and sequence headers *)

Definition application_bytes (tag n : Z) : list Z :=
  (if 30 <? tag then [tag_byte BER_CLASS_APPL true 0x1F; tag mod 256]
   else [tag_byte BER_CLASS_APPL true tag]) ++ ber_length_bytes n.

Lemma Writes_application_tag tag n :
  Writes (ber_write_application_tag tag n) (application_bytes tag n) tt.
Proof.
  unfold ber_write_application_tag, application_bytes. destruct (30 <? tag).
  - writes; [|reflexivity]. rewrite app_nil_r. reflexivity.
  - writes; [|reflexivity]. rewrite app_nil_r.
    fold BER_CONSTRUCT. change BER_CONSTRUCT with (BER_PC true).
    fold (tag_byte BER_CLASS_APPL true tag).
    assert (H : is_byte (tag_byte BER_CLASS_APPL true tag)) by (apply is_byte_tag; auto).
    unfold is_byte in H. rewrite Z.mod_small by lia. reflexivity.
Qed.

Lemma Reads_application_tag tag n old : 0 <= tag < 256 -> 0 <= n < 65536 ->
  Reads (ber_read_application_tag tag old) (application_bytes tag n) (true, Some n).
Proof.
  intros Ht Hn. unfold ber_read_application_tag, application_bytes.
  destruct (Z.ltb_spec 30 tag); cbn [app]; repeat apply Reads_uint8_bind.
  - rewrite Z.mod_small, Z.eqb_refl by lia. cbn [negb].
    eapply Reads_last; [apply Reads_ber_length, Hn|apply Reads_ret].
  - unfold tag_byte. change (BER_PC true) with BER_CONSTRUCT. rewrite Z.eqb_refl. cbn [negb].
    eapply Reads_last; [apply Reads_ber_length, Hn|apply Reads_ret].
Qed.

Definition contextual_bytes (tag n : Z) (pc : bool) : list Z :=
  tag_byte BER_CLASS_CTXT pc tag :: ber_length_bytes n.

Lemma Writes_contextual_tag tag n pc :
  Writes (ber_write_contextual_tag tag n pc) (contextual_bytes tag n pc)
    (ber_skip_contextual_tag n).
Proof.
  writes; [|reflexivity]. fold (tag_byte BER_CLASS_CTXT pc tag). rewrite app_nil_r.
  assert (H : is_byte (tag_byte BER_CLASS_CTXT pc tag)) by (apply is_byte_tag; auto).
  unfold is_byte in H. rewrite Z.mod_small by lia. reflexivity.
Qed.

Lemma Reads_contextual_tag tag n pc old : 0 <= n < 65536 ->
  Reads (ber_read_contextual_tag tag old pc) (contextual_bytes tag n pc) (true, Some n).
Proof.
  intros Hn. apply Reads_uint8_bind. unfold tag_byte. rewrite Z.eqb_refl. cbn [negb].
  eapply Reads_last; [apply Reads_ber_length, Hn|apply Reads_ret].
Qed.

Definition sequence_bytes (n : Z) : list Z := 0x30 :: ber_length_bytes n.

Lemma Writes_sequence_tag n :
  Writes (ber_write_sequence_tag n) (sequence_bytes n) (ber_skip_sequence_tag n).
Proof.
  writes; [rewrite app_nil_r; reflexivity|]. unfold ber_skip_sequence_tag. lia.
Qed.

Lemma Reads_sequence_tag n old : 0 <= n < 65536 ->
  Reads (ber_read_sequence_tag old) (sequence_bytes n) (true, Some n).
Proof.
  intros Hn. apply Reads_uint8_bind. repeat branch.
  eapply Reads_last; [apply Reads_ber_length, Hn|apply Reads_ret].
Qed.

#[export] Hint Resolve Writes_application_tag Writes_contextual_tag Writes_sequence_tag : writes.

(** *** Values *)

Definition enumerated_bytes (v : Z) : list Z := [0x0A; 1; v mod 256].

Lemma Writes_enumerated v count :
  Writes (ber_write_enumerated v count) (enumerated_bytes v) tt.
Proof. writes; reflexivity. Qed.

Lemma Reads_enumerated v count old : is_byte v -> v < count ->
  Reads (ber_read_enumerated old count) (enumerated_bytes v) (true, Some v).
Proof.
  intros Hv Hc. unfold enumerated_bytes, is_byte in *. rewrite Z.mod_small by lia.
  apply (Reads_universal_bind BER_TAG_ENUMERATED).
  apply (Reads_ber_length_bind 1); [lia|]. apply Reads_use. repeat branch.
  apply Reads_uint8_bind. repeat branch. apply Reads_ret.
Qed.

Definition boolean_bytes (b : bool) : list Z := [0x01; 1; if b then 0xFF else 0].

Lemma Writes_boolean b : Writes (ber_write_boolean b) (boolean_bytes b) tt.
Proof. writes; destruct b; reflexivity. Qed.

Lemma Reads_boolean b old : Reads (ber_read_boolean old) (boolean_bytes b) (true, Some b).
Proof.
  apply (Reads_universal_bind BER_TAG_BOOLEAN). cbn [negb].
  apply (Reads_ber_length_bind 1); [lia|]. apply Reads_use. repeat branch.
  apply Reads_uint8_bind. destruct b; apply Reads_ret.
Qed.

Definition octet_string_bytes (bs : list Z) : list Z :=
  0x04 :: ber_length_bytes (len bs) ++ bs.

Lemma Writes_octet_string l n : 0 <= n <= len l ->
  Writes (ber_write_octet_string l n) (octet_string_bytes (take (Z.to_nat n) l)) tt.
Proof.
  intros H. unfold ber_write_octet_string.
  eapply Writes_eq;
    [do 2 writes_step; eapply Writes_bind; [apply Writes_array_prefix, H|]; writes_step| |reflexivity].
  unfold octet_string_bytes. cbn [app]. do 2 f_equal.
  unfold len in *. rewrite length_take. f_equal. lia.
Qed.

Lemma Reads_octet_string_tag n old : 0 <= n < 65536 ->
  Reads (ber_read_octet_string old) (0x04 :: ber_length_bytes n) (true, Some n).
Proof.
  intros Hn. apply (Reads_universal_bind BER_TAG_OCTET_STRING).
  eapply Reads_last; [apply Reads_ber_length, Hn|apply Reads_ret].
Qed.

#[export] Hint Resolve Writes_enumerated Writes_boolean : writes.

(** *** Integers *)

Definition integer_content (v : Z) : list Z :=
  if v <=? 0xFF then [v mod 256]
  else if v <? 0xFF80 then be16 v
  else if v <? 0xFF8000 then v / 65536 mod 256 :: be16 v
  else be32 v.

Definition integer_bytes (v : Z) : list Z :=
  0x02 :: len (integer_content v) :: integer_content v.

(** What [ber_read_integer] returns for the encoding of [v]. *)
Definition integer_read_back (v : Z) : Z := if v <? 0xFF8000 then v else swap_halves v.

Lemma Writes_integer v : 0 <= v < 2 ^ 32 ->
  Writes (ber_write_integer v) (integer_bytes v) (len (integer_content v) + 1).
Proof.
  intros Hv. unfold ber_write_integer, integer_bytes, integer_content.
  eapply Writes_eq; [eapply Writes_bind; [apply Writes_universal_tag|]| |reflexivity];
    [|reflexivity].
  repeat match goal with
         | |- context [if ?b then _ else _] => destruct b eqn:?; cbv iota
         end; try (exfalso; lia); writes; try reflexivity; try lia.
  unfold be16. arith_bits. change (ber_length_bytes 3) with [3]. cbn [app].
  cons_eq; try reflexivity; dlia.
Qed.

Lemma Reads_integer v old : 0 <= v < 2 ^ 32 ->
  Reads (ber_read_integer true old) (integer_bytes v) (true, Some (integer_read_back v)).
Proof.
  intros Hv. unfold integer_bytes, integer_content, integer_read_back.
  apply (Reads_universal_bind BER_TAG_INTEGER).
  destruct (Z.leb_spec v 0xFF); [|destruct (Z.ltb_spec v 0xFF80); [|destruct (Z.ltb_spec v 0xFF8000)]].
  - apply (Reads_ber_length_bind 1); [lia|]. apply Reads_use. rewrite (Z.mod_small v) by lia.
    repeat branch. apply Reads_uint8_bind, Reads_ret.
  - apply (Reads_ber_length_bind 2); [lia|]. apply Reads_use. repeat branch.
    eapply Reads_last; [apply Reads_be16; lia|apply Reads_ret].
  - apply (Reads_ber_length_bind 3); [lia|]. apply Reads_use. repeat branch. apply Reads_uint8_bind.
    eapply Reads_last;
      [eapply Reads_eq; [apply Reads_uint16_be; apply is_byte_mod|reflexivity|reflexivity]|].
    eapply Reads_eq; [apply Reads_ret|reflexivity|]. unfold uint32. arith_bits.
    do 2 f_equal. dlia.
  - apply (Reads_ber_length_bind 4); [lia|]. apply Reads_use. repeat branch.
    eapply Reads_last; [apply Reads_be32, Hv|apply Reads_ret].
Qed.

#[export] Hint Resolve Writes_integer : writes.

(** ** Claims *)

Section claims.
Context (s : STREAM).

(** BER INTEGER: writing any 32-bit value and reading it back succeeds; the
    value comes back when it takes at most three content bytes, and with its
    two 16-bit halves exchanged when it takes four. *)
Theorem ber_integer_roundtrip v old :
  0 <= v < 2 ^ 32 ->
  room s (len (integer_bytes v)) -> s_p s + len (integer_bytes v) <= s_size s ->
  write_then_read (ber_write_integer v) (ber_read_integer true old) s
  = Done ((true, Some (integer_read_back v)), put (integer_bytes v) s).
Proof. intros. eapply writes_reads; eauto using Writes_integer, Reads_integer. Qed.

(** BER length octets: every length below 65536 is read back as written,
    whatever the out-parameter held before, and [_ber_skip_length] is the
    number of octets written. *)
Theorem ber_length_roundtrip n old :
  0 <= n < 65536 ->
  room s (_ber_skip_length n) -> s_p s + _ber_skip_length n <= s_size s ->
  ber_write_length n s = Done (_ber_skip_length n, put (ber_length_bytes n) s) /\
  write_then_read (ber_write_length n) (ber_read_length old) s
  = Done (Some n, put (ber_length_bytes n) s).
Proof.
  intros Hn Hr Hs. rewrite <- len_ber_length_bytes in Hr, Hs.
  split; [apply Writes_ber_length, Hr|].
  eapply writes_reads; eauto using Writes_ber_length, Reads_ber_length.
Qed.

End claims.

Lemma ber_integer_roundtrip_witness :
  0 <= 0x12345678 < 2 ^ 32 /\
  write_then_read (ber_write_integer 0x12345678) (ber_read_integer true None) (stream_new 16)
  = Done ((true, Some 0x56781234), put [2; 4; 0x12; 0x34; 0x56; 0x78] (stream_new 16)).
Proof.
  split; [lia|]. apply (ber_integer_roundtrip (stream_new 16) 0x12345678 None);
    unfold room; vm_compute; repeat split; discriminate.
Defined.

Lemma ber_length_roundtrip_witness :
  write_then_read (ber_write_length 300) (ber_read_length None) (stream_new 16)
  = Done (Some 300, put [0x82; 1; 44] (stream_new 16)).
Proof.
  apply (ber_length_roundtrip (stream_new 16) 300 None);
    unfold room; vm_compute; repeat split; discriminate.
Defined.
