(* ===== verification/Per.v ===== *)
(** ASN.1 Packed Encoding Rules, [libfreerdp-core/per.c]. *)

From S2P Require Import Prelude.
From S2P Require Import Stream.

(** ** Lengths, choices, selections, padding *)

(** Returns the function's result and the value of [*length] afterwards. *)
Definition per_read_length (length : option Z) : M STREAM (bool * option Z) :=
  let! avail := left_bytes in
  if avail <? 1 then ret (false, length)
  else
    let! byte := stream_read_uint8 in
    if negb (Z.land byte 0x80 =? 0) then
      let! avail := left_bytes in
      if avail <? 1 then ret (false, length)
      else
        let byte := uint8 (Z.land byte (Z.lnot 0x80)) in
        let length := uint16 (Z.shiftl byte 8) in
        let! byte := stream_read_uint8 in
        ret (true, Some (uint16 (length + byte)))
    else ret (true, Some byte).

Definition per_write_length (length : Z) : M STREAM unit :=
  if 0x7F <? length then stream_write_uint16_be (Z.lor length 0x8000)
  else stream_write_uint8 length.

Definition per_read_choice : M STREAM (bool * Z) :=
  let! choice := stream_read_uint8 in ret (true, choice).
Definition per_write_choice (choice : Z) : M STREAM unit := stream_write_uint8 choice.

Definition per_read_selection : M STREAM (bool * Z) :=
  let! selection := stream_read_uint8 in ret (true, selection).
Definition per_write_selection (selection : Z) : M STREAM unit := stream_write_uint8 selection.

Definition per_read_number_of_sets : M STREAM (bool * Z) :=
  let! number := stream_read_uint8 in ret (true, number).
Definition per_write_number_of_sets (number : Z) : M STREAM unit := stream_write_uint8 number.

Definition per_read_padding (length : Z) : M STREAM bool := stream_seek length;; ret true.

(** [for (i = 0; i < n; i++) body(i)] *)
Fixpoint for_loop (i : Z) (n : nat) (body : Z -> M STREAM unit) : M STREAM unit :=
  match n with
  | O => ret tt
  | S n' => body i;; for_loop (i + 1) n' body
  end.

Definition per_write_padding (length : Z) : M STREAM unit :=
  for_loop 0 (Z.to_nat length) (fun _ => stream_write_uint8 0).

(** ** Integers and enumerations *)

Definition per_read_integer (integer : option Z) : M STREAM (bool * option Z) :=
  let! (_, length) := per_read_length None in
  let! length := use length in
  if length =? 1 then let! v := stream_read_uint8 in ret (true, Some v)
  else if length =? 2 then let! v := stream_read_uint16_be in ret (true, Some v)
  else ret (false, integer).

Definition per_write_integer (integer : Z) : M STREAM unit :=
  if integer <=? 0xFF then
    per_write_length 1;; stream_write_uint8 integer
  else if integer <=? 0xFFFF then
    per_write_length 2;; stream_write_uint16_be integer
  else if integer <=? 0xFFFFFFFF then
    per_write_length 4;; stream_write_uint32_be integer
  else ret tt.

Definition per_read_integer16 (min : Z) : M STREAM (bool * Z) :=
  let! integer := stream_read_uint16_be in
  if 0xFFFF <? integer + min then ret (false, integer)
  else ret (true, uint16 (integer + min)).

Definition per_write_integer16 (integer min : Z) : M STREAM unit :=
  stream_write_uint16_be (integer - min).

Definition per_read_enumerated (enumerated : option Z) (count : Z) : M STREAM (bool * option Z) :=
  let! avail := left_bytes in
  if avail <? 1 then ret (false, enumerated)
  else let! v := stream_read_uint8 in ret (true, Some v).

Definition per_write_enumerated (enumerated count : Z) : M STREAM unit :=
  stream_write_uint8 enumerated.

(** ** Object identifiers *)

(** [a[i]] of a C array. *)
Definition array_at (l : list Z) (i : Z) : M STREAM Z :=
  if 0 <=? i then
    match l !! Z.to_nat i with Some b => ret b | None => fail OutOfBounds end
  else fail OutOfBounds.

Definition per_read_object_identifier (oid : list Z) : M STREAM bool :=
  let! (_, length) := per_read_length None in
  let! length := use length in
  if negb (length =? 5) then ret false
  else
    let! t12 := stream_read_uint8 in
    let a0 := Z.shiftr t12 4 in
    let a1 := Z.land t12 0x0F in
    let! a2 := stream_read_uint8 in
    let! a3 := stream_read_uint8 in
    let! a4 := stream_read_uint8 in
    let! a5 := stream_read_uint8 in
    let! o0 := array_at oid 0 in let! o1 := array_at oid 1 in let! o2 := array_at oid 2 in
    let! o3 := array_at oid 3 in let! o4 := array_at oid 4 in let! o5 := array_at oid 5 in
    ret ((a0 =? o0) && (a1 =? o1) && (a2 =? o2) && (a3 =? o3) && (a4 =? o4) && (a5 =? o5)).

Definition per_write_object_identifier (oid : list Z) : M STREAM unit :=
  let! o0 := array_at oid 0 in let! o1 := array_at oid 1 in
  let t12 := uint8 (Z.land (Z.shiftl o0 4) (Z.land o1 0x0F)) in
  stream_write_uint8 5;;
  stream_write_uint8 t12;;
  let! o2 := array_at oid 2 in stream_write_uint8 o2;;
  let! o3 := array_at oid 3 in stream_write_uint8 o3;;
  let! o4 := array_at oid 4 in stream_write_uint8 o4;;
  let! o5 := array_at oid 5 in stream_write_uint8 o5.

(** ** Strings *)

Definition per_write_string (str : list Z) (length : Z) : M STREAM unit :=
  for_loop 0 (Z.to_nat length)
    (fun i => let! b := array_at str i in stream_write_uint8 b).

(** The comparison loop; the stream has already been moved past the string. *)
Fixpoint octets_equal (oct_str : list Z) (length i : Z) (n : nat) : M STREAM bool :=
  match n with
  | O => ret true
  | S n' =>
      let! a := rbyte (i - length) in
      let! b := array_at oct_str i in
      if negb (a =? b) then ret false else octets_equal oct_str length (i + 1) n'
  end.

Definition per_read_octet_string (oct_str : list Z) (length min : Z) : M STREAM bool :=
  let! (_, mlength) := per_read_length None in
  let! mlength := use mlength in
  if negb (mlength + min =? length) then ret false
  else
    stream_seek length;;
    octets_equal oct_str length 0 (Z.to_nat length).

Definition per_write_octet_string (oct_str : list Z) (length min : Z) : M STREAM unit :=
  let mlength := if 0 <=? length - min then length - min else min in
  per_write_length mlength;;
  per_write_string oct_str length.

(** Number of iterations of [for (i = 0; i < length; i += 2)]. *)
Definition pairs (length : Z) : nat := Z.to_nat ((length + 1) / 2).

Definition per_read_numeric_string (min : Z) : M STREAM bool :=
  let! (_, mlength) := per_read_length None in
  let! mlength := use mlength in
  let length := mlength + min in
  for_loop 0 (pairs length) (fun _ => stream_seek 1);;
  ret true.

Definition per_write_numeric_string (num_str : list Z) (length min : Z) : M STREAM unit :=
  let mlength := if 0 <=? length - min then length - min else min in
  per_write_length mlength;;
  for_loop 0 (pairs length) (fun k =>
    let i := 2 * k in
    let! c1 := array_at num_str i in
    let! c2 := (if i + 1 <? length then array_at num_str (i + 1) else ret 0x30) in
    let c1 := uint8 (Z.rem (c1 - 0x30) 10) in
    let c2 := uint8 (Z.rem (c2 - 0x30) 10) in
    stream_write_uint8 (Z.lor (Z.shiftl c1 4) c2)).

(** ** Encodings *)

Definition per_length_bytes (n : Z) : list Z :=
  if 0x7F <? n then be16 (Z.lor n 0x8000) else [n mod 256].

Lemma Writes_per_length n : Writes (per_write_length n) (per_length_bytes n) tt.
Proof.
  unfold per_write_length, per_length_bytes. destruct (0x7F <? n); auto with writes.
Qed.

Lemma lor_0x8000 n : 0 <= n < 0x8000 -> Z.lor n 0x8000 = n + 0x8000.
Proof.
  intros. rewrite Z.lor_comm, (lor_high_low 0x8000 n 15) by (lia || reflexivity). lia.
Qed.

Lemma high_bit_clear b : 0 <= b < 128 -> Z.land b 0x80 = 0.
Proof. intros. rewrite Z.land_comm. apply (land_high_low 0x80 b 7); lia || reflexivity. Qed.

Lemma high_bit_set b : 128 <= b < 256 -> (Z.land b 0x80 =? 0) = false /\
  uint8 (Z.land b (Z.lnot 0x80)) = b - 128.
Proof.
  intros Hb. revert b Hb.
  cut (forall b, is_byte b -> 128 <= b -> (Z.land b 0x80 =? 0) = false /\
                   uint8 (Z.land b (Z.lnot 0x80)) = b - 128).
  { intros H b ?. apply H; unfold is_byte; lia. }
  apply (byte_forall (fun b => 128 <= b -> _)). vm_compute. reflexivity.
Qed.

(** The reader takes the two-octet form for every length. *)
Lemma Reads_per_length_long n old : 0 <= n < 0x8000 ->
  Reads (per_read_length old) (be16 (n + 0x8000)) (true, Some n).
Proof.
  intros Hn. unfold per_read_length, be16. apply Reads_left; [llia|]. apply Reads_uint8_bind.
  destruct (high_bit_set ((n + 0x8000) / 256 mod 256)) as [-> ->]; [dlia|]. cbn [negb].
  apply Reads_left; [llia|]. apply Reads_uint8_bind.
  eapply Reads_eq; [apply Reads_ret|reflexivity|].
  unfold uint16. arith_bits. do 2 f_equal. dlia.
Qed.

Lemma Reads_per_length n old : 0 <= n < 0x8000 ->
  Reads (per_read_length old) (per_length_bytes n) (true, Some n).
Proof.
  intros Hn. unfold per_length_bytes.
  destruct (Z.ltb_spec 0x7F n) as [Hlt|Hge].
  - rewrite lor_0x8000 by lia. apply Reads_per_length_long, Hn.
  - unfold per_read_length. rewrite Z.mod_small by lia. apply Reads_left; [llia|]. apply Reads_uint8_bind.
    rewrite high_bit_clear by lia. apply Reads_ret.
Qed.

#[export] Hint Resolve Writes_per_length : writes.

Lemma Reads_per_length_bind {A} n old (k : bool * option Z -> M STREAM A) cs a :
  0 <= n < 0x8000 -> Reads (k (true, Some n)) cs a ->
  Reads (bind (per_read_length old) k) (per_length_bytes n ++ cs) a.
Proof. intros Hn H. eapply Reads_bind; [apply Reads_per_length, Hn|exact H]. Qed.

#[export] Instance codec_per_length :
  Codec per_write_length (fun _ => tt)
    (let! (_, n) := per_read_length None in use n) (fun n => 0 <= n < 0x8000) per_length_bytes.
Proof.
  split; intros n Hn; [auto with writes|].
  eapply Reads_last; [apply Reads_per_length, Hn|apply Reads_ret].
Qed.

(** *** Integers *)

Definition per_integer_bytes (v : Z) : list Z :=
  if v <=? 0xFF then [1; v mod 256]
  else if v <=? 0xFFFF then 2 :: be16 v
  else 4 :: be32 v.

Lemma Writes_per_integer v : 0 <= v < 2 ^ 32 ->
  Writes (per_write_integer v) (per_integer_bytes v) tt.
Proof.
  intros Hv. unfold per_write_integer, per_integer_bytes.
  repeat (let b := fresh in
          match goal with |- context [if ?b then _ else _] => destruct b eqn:?; cbv iota end);
    try (exfalso; lia); writes; reflexivity.
Qed.

Lemma Reads_per_integer v old : 0 <= v < 0x10000 ->
  Reads (per_read_integer old) (per_integer_bytes v) (true, Some v).
Proof.
  intros Hv. unfold per_integer_bytes, per_read_integer. destruct (Z.leb_spec v 0xFF).
  - apply (Reads_per_length_bind 1); [lia|]. apply Reads_use. repeat branch.
    rewrite Z.mod_small by lia. apply Reads_uint8_bind, Reads_ret.
  - branch. apply (Reads_per_length_bind 2); [lia|]. apply Reads_use. repeat branch.
    eapply Reads_last; [apply Reads_be16; lia|apply Reads_ret].
Qed.

(** Larger integers are refused by the reader after their length octet. *)
Lemma Reads_per_integer_large v old : 0x10000 <= v < 2 ^ 32 ->
  Reads (per_read_integer old) [4] (false, old).
Proof.
  intros Hv. apply (Reads_per_length_bind 4); [lia|]. apply Reads_use. repeat branch.
  apply Reads_ret.
Qed.

Lemma Writes_integer16 v min :
  Writes (per_write_integer16 v min) (be16 (v - min)) tt.
Proof. apply Writes_uint16_be. Qed.

Lemma Reads_integer16 v min : 0 <= min -> min <= v < 0x10000 ->
  Reads (per_read_integer16 min) (be16 (v - min)) (true, v).
Proof.
  intros. eapply Reads_last; [apply Reads_be16; lia|]. repeat branch.
  eapply Reads_eq; [apply Reads_ret|reflexivity|].
  unfold uint16. rewrite Z.mod_small; f_equal; lia.
Qed.

Lemma Reads_per_enumerated v count old :
  Reads (per_read_enumerated old count) [v] (true, Some v).
Proof. apply Reads_left; [llia|]. apply Reads_uint8_bind, Reads_ret. Qed.

Lemma Writes_per_enumerated v count : Writes (per_write_enumerated v count) [v mod 256] tt.
Proof. apply Writes_uint8. Qed.

Lemma Writes_choice v : Writes (per_write_choice v) [v mod 256] tt.
Proof. apply Writes_uint8. Qed.

#[export] Hint Resolve Writes_per_integer Writes_integer16 Writes_per_enumerated Writes_choice : writes.

(** *** Object identifiers *)

(** The six arcs of an identifier, each an octet. *)
Definition is_oid (oid : list Z) : Prop := length oid = 6%nat /\ is_bytes oid.

(** What the writer makes of an identifier: the first octet is always zero,
    because the shifted first arc and the masked second one have no bit in
    common. *)
Definition oid_bytes (oid : list Z) : list Z := 5 :: 0 :: drop 2 oid.

Lemma oid_first_octet o0 o1 : uint8 (Z.land (Z.shiftl o0 4) (Z.land o1 0x0F)) = 0.
Proof.
  rewrite (land_high_low _ _ 4); [reflexivity|lia| |].
  - rewrite Z.shiftl_mul_pow2 by lia. apply Z.mod_mul. lia.
  - rewrite (land_mask o1 4) by (lia || reflexivity). apply Z.mod_pos_bound. lia.
Qed.

Lemma Writes_object_identifier oid : is_oid oid ->
  Writes (per_write_object_identifier oid) (oid_bytes oid) tt.
Proof.
  intros [Hl Hb]. do 7 (destruct oid as [|? oid]; try discriminate Hl).
  repeat (apply Forall_cons in Hb as [? Hb]). unfold is_byte in *.
  unfold per_write_object_identifier, array_at. cbn [lookup list_lookup Z.leb Z.compare].
  assert (Hr : forall (A B : Type) (x : A) (k : A -> M STREAM B) bs b,
             Writes (k x) bs b -> Writes (bind (ret x) k) bs b).
  { intros. intros st Hst. rewrite bind_ret. auto. }
  repeat apply Hr. cbv beta zeta. rewrite oid_first_octet.
  eapply Writes_eq; [repeat (first [apply Hr; cbv beta | writes_step])| |reflexivity].
  unfold oid_bytes. cbn [drop app].
  rewrite !Z.mod_small by lia. reflexivity.
Qed.

Lemma Reads_object_identifier oid oid' : is_oid oid -> is_oid oid' ->
  Reads (per_read_object_identifier oid') (oid_bytes oid)
    (bool_decide (oid' = [0; 0] ++ drop 2 oid)).
Proof.
  intros [Hl _] [Hl' _].
  do 7 (destruct oid as [|? oid]; try discriminate Hl).
  do 7 (destruct oid' as [|? oid']; try discriminate Hl').
  apply (Reads_per_length_bind 5); [lia|]. apply Reads_use. repeat branch. cbn [drop].
  repeat (apply Reads_uint8_bind).
  eapply Reads_eq; [apply Reads_ret|reflexivity|]. cbn [app].
  change (Z.shiftr 0 4) with 0. change (Z.land 0 0x0F) with 0.
  case_bool_decide as H.
  - injection H as -> -> -> -> -> ->. rewrite !Z.eqb_refl. reflexivity.
  - apply not_true_iff_false. intros Ht. apply H.
    rewrite !andb_true_iff, !Z.eqb_eq in Ht.
    destruct Ht as (((((-> & ->) & ->) & ->) & ->) & ->). reflexivity.
Qed.

(** *** Strings *)

Lemma for_loop_writes (body : Z -> M STREAM unit) (f : nat -> list Z) n : forall i,
  (forall j, (i <= j < i + n)%nat -> Writes (body (Z.of_nat j)) (f j) tt) ->
  Writes (for_loop (Z.of_nat i) n body) (concat (map f (seq i n))) tt.
Proof.
  induction n as [|n IH]; intros i Hb; cbn [for_loop seq map concat].
  - apply Writes_ret.
  - eapply Writes_bind; [apply Hb; lia|].
    replace (Z.of_nat i + 1) with (Z.of_nat (S i)) by lia. apply IH.
    intros j Hj. apply Hb. lia.
Qed.

Lemma array_at_Some l i b : l !! i = Some b -> array_at l (Z.of_nat i) = ret b.
Proof.
  intros H. unfold array_at. rewrite (proj2 (Z.leb_le _ _)) by lia.
  rewrite Nat2Z.id, H. reflexivity.
Qed.

Lemma concat_singletons l i n : (i + n <= length l)%nat ->
  concat (map (fun j => [default 0 (l !! j)]) (seq i n)) = take n (drop i l).
Proof.
  revert i. induction n as [|n IH]; intros i Hi; [rewrite take_0; reflexivity|].
  destruct (lookup_lt_is_Some_2 l i) as [b Hb]; [lia|].
  cbn [seq map concat]. rewrite Hb, IH by lia.
  rewrite (drop_S l b i) by exact Hb. reflexivity.
Qed.

Lemma Writes_string str n : is_bytes str -> 0 <= n <= len str ->
  Writes (per_write_string str n) (take (Z.to_nat n) str) tt.
Proof.
  intros Hb Hn. unfold len in Hn. unfold per_write_string.
  eapply Writes_eq; [|rewrite <- (drop_0 str) at 1; apply concat_singletons; cbn; lia|reflexivity].
  apply (for_loop_writes _ _ _ 0%nat). intros j Hj.
  destruct (lookup_lt_is_Some_2 str j) as [b Hbj]; [lia|].
  rewrite (array_at_Some _ _ _ Hbj), Hbj. intros s Hs. rewrite bind_ret.
  assert (Hbb : is_byte b) by (eapply (Forall_lookup_1 is_byte); eauto).
  cbn [default from_option] in *. unfold id in *.
  rewrite (codec_writes b Hbb s); [reflexivity|exact Hs].
Qed.

Lemma octets_equal_spec bs bs' s0 n : holds s0 bs -> length bs' = length bs -> forall i,
  (i + n = length bs)%nat ->
  octets_equal bs' (len bs) (Z.of_nat i) n (adv (len bs) s0)
  = Done (bool_decide (drop i bs = drop i bs'), adv (len bs) s0).
Proof.
  intros Hh Hl. induction n as [|n IH]; intros i Hi; cbn [octets_equal].
  - rewrite !drop_ge by lia. reflexivity.
  - destruct (lookup_lt_is_Some_2 bs i) as [a Ha]; [lia|].
    destruct (lookup_lt_is_Some_2 bs' i) as [b Hb]; [lia|].
    assert (Hr : rbyte (Z.of_nat i - len bs) (adv (len bs) s0) = Done (a, adv (len bs) s0)).
    { unfold rbyte. cbn [adv set_p s_p s_data].
      replace (s_p s0 + len bs + (Z.of_nat i - len bs)) with (s_p s0 + Z.of_nat i) by lia.
      pose proof (holds_p _ _ Hh).
      rewrite (proj2 (Z.leb_le _ _)), (holds_nth _ _ _ _ Hh Ha) by lia. reflexivity. }
    rewrite (bind_Done _ _ _ _ _ Hr), (array_at_Some _ _ _ Hb), bind_ret.
    rewrite (drop_S bs a i), (drop_S bs' b i) by assumption.
    destruct (Z.eqb_spec a b) as [->|Hne]; cbn [negb].
    + replace (Z.of_nat i + 1) with (Z.of_nat (S i)) by lia. rewrite IH by lia.
      do 2 f_equal. apply bool_decide_ext. split; [intros ->; reflexivity|congruence].
    + unfold ret. do 2 f_equal. symmetry. apply bool_decide_eq_false_2. congruence.
Qed.

Definition per_octet_string_bytes (bs : list Z) (min : Z) : list Z :=
  per_length_bytes (len bs - min) ++ bs.

Lemma Writes_per_octet_string bs min : is_bytes bs -> min <= len bs ->
  Writes (per_write_octet_string bs (len bs) min) (per_octet_string_bytes bs min) tt.
Proof.
  intros Hb Hm. unfold per_write_octet_string. branch.
  eapply Writes_bind; [auto with writes|].
  eapply Writes_eq; [apply Writes_string; [exact Hb|split; [llia|lia]]| |reflexivity].
  unfold len. rewrite Nat2Z.id. apply firstn_all.
Qed.

Lemma Reads_per_octet_string bs bs' min :
  length bs' = length bs -> 0 <= len bs - min < 0x8000 ->
  Reads (per_read_octet_string bs' (len bs) min) (per_octet_string_bytes bs min)
    (bool_decide (bs = bs')).
Proof.
  intros Hl Hm. apply (Reads_per_length_bind (len bs - min)); [lia|]. apply Reads_use. repeat branch.
  intros s Hs. unfold bind, stream_seek.
  replace (Z.to_nat (len bs)) with (length bs) by (unfold len; lia).
  exact (octets_equal_spec bs bs' s (length bs) Hs Hl 0 (Nat.add_0_l _)).
Qed.

(** ** Claims *)

(** PER lengths below 0x8000 are read back as written; the encoding takes
    one octet up to 0x7F and two above. *)
Theorem per_length_roundtrip s n old :
  0 <= n < 0x8000 ->
  room s (len (per_length_bytes n)) -> s_p s + len (per_length_bytes n) <= s_size s ->
  write_then_read (per_write_length n) (per_read_length old) s
  = Done ((true, Some n), put (per_length_bytes n) s) /\
  len (per_length_bytes n) = (if 0x7F <? n then 2 else 1).
Proof.
  intros Hn Hr Hs. split.
  - eapply writes_reads; eauto using Writes_per_length, Reads_per_length.
  - unfold per_length_bytes. destruct (0x7F <? n); reflexivity.
Qed.

Lemma per_length_roundtrip_witness :
  write_then_read (per_write_length 0x1234) (per_read_length None) (stream_new 16)
  = Done ((true, Some 0x1234), put [0x92; 0x34] (stream_new 16)).
Proof.
  apply (per_length_roundtrip (stream_new 16) 0x1234 None);
    unfold room; vm_compute; repeat split; discriminate.
Defined.
