(* ===== verification/X224.v ===== *)
(** TPKT headers ([libfreerdp-core/tpkt.c]) and class-0 X.224 TPDUs
    ([libfreerdp-core/tpdu.c]). *)

From S2P Require Import Prelude.
From S2P Require Import Stream.

Definition TPKT_HEADER_LENGTH : Z := 4.

(** [enum X224_TPDU_TYPE] *)
Definition X224_TPDU_CONNECTION_REQUEST : Z := 0xE0.
Definition X224_TPDU_CONNECTION_CONFIRM : Z := 0xD0.
Definition X224_TPDU_DISCONNECT_REQUEST : Z := 0x80.
Definition X224_TPDU_DATA : Z := 0xF0.

Definition TPDU_DATA_LENGTH : Z := TPKT_HEADER_LENGTH + 3.
Definition TPDU_CONNECTION_REQUEST_LENGTH : Z := TPKT_HEADER_LENGTH + 7.
Definition TPDU_CONNECTION_CONFIRM_LENGTH : Z := TPKT_HEADER_LENGTH + 7.

(** ** TPKT *)

Definition tpkt_verify_header : M STREAM bool :=
  let! version := stream_peek_uint8 in ret (version =? 3).

Definition tpkt_read_header : M STREAM Z :=
  let! version := stream_peek_uint8 in
  if version =? 3 then
    stream_seek 2;; stream_read_uint16_be
  else ret 0.

Definition tpkt_write_header (length : Z) : M STREAM unit :=
  stream_write_uint8 3;;
  stream_write_uint8 0;;
  stream_write_uint16_be length.

(** ** TPDU *)

(** Returns the length indicator and [*code]. *)
Definition tpdu_read_header : M STREAM (Z * Z) :=
  let! li := stream_read_uint8 in
  let! code := stream_read_uint8 in
  (if code =? X224_TPDU_DATA then stream_seek 1 else stream_seek 5);;
  ret (li, code).

Definition tpdu_write_header (length code : Z) : M STREAM unit :=
  stream_write_uint8 length;;
  stream_write_uint8 code;;
  if code =? X224_TPDU_DATA then stream_write_uint8 0x80
  else
    stream_write_uint16 0;;
    stream_write_uint16 0;;
    stream_write_uint8 0.

Definition tpdu_read_connection_request : M STREAM Z :=
  let! (li, code) := tpdu_read_header in
  if negb (code =? X224_TPDU_CONNECTION_REQUEST) then ret 0 else ret li.

Definition tpdu_write_connection_request (length : Z) : M STREAM unit :=
  tpdu_write_header length X224_TPDU_CONNECTION_REQUEST.

Definition tpdu_read_connection_confirm : M STREAM Z :=
  let! (li, code) := tpdu_read_header in
  if negb (code =? X224_TPDU_CONNECTION_CONFIRM) then ret 0 else ret li.

Definition tpdu_write_connection_confirm (length : Z) : M STREAM unit :=
  tpdu_write_header length X224_TPDU_CONNECTION_CONFIRM.

Definition tpdu_write_disconnect_request (length : Z) : M STREAM unit :=
  tpdu_write_header length X224_TPDU_DISCONNECT_REQUEST.

Definition tpdu_write_data : M STREAM unit := tpdu_write_header 2 X224_TPDU_DATA.

Definition tpdu_read_data : M STREAM Z :=
  let! (li, code) := tpdu_read_header in
  if negb (code =? X224_TPDU_DATA) then ret 0 else ret li.

(** ** Encodings *)

Definition tpkt_bytes (n : Z) : list Z := 3 :: 0 :: be16 n.
Definition tpdu_data_bytes : list Z := [2; 0xF0; 0x80].
Definition tpdu_connect_bytes (li code : Z) : list Z := [li mod 256; code mod 256; 0; 0; 0; 0; 0].

Lemma Writes_tpkt n : Writes (tpkt_write_header n) (tpkt_bytes n) tt.
Proof. writes; reflexivity. Qed.

Lemma Reads_tpkt n : 0 <= n < 65536 -> Reads tpkt_read_header (tpkt_bytes n) n.
Proof.
  intros Hn s Hs. unfold tpkt_read_header, stream_peek_uint8.
  assert (Hb : rbyte 0 s = Done (3, s)) by (apply (holds_rbyte s _ 0 3 Hs); [lia|reflexivity]).
  rewrite (bind_Done _ _ _ _ _ Hb). cbv iota beta.
  assert (Hr : Reads (stream_seek 2;; stream_read_uint16_be) ([3; 0] ++ be16 n) n).
  { eapply Reads_bind; [apply Reads_seek; reflexivity|apply Reads_be16, Hn]. }
  apply Hr, Hs.
Qed.

(** A packet of another version is not consumed and has length 0. *)
Lemma tpkt_read_header_other s b bs : holds s (b :: bs) -> b <> 3 ->
  tpkt_read_header s = Done (0, s).
Proof.
  intros Hs Hb. unfold tpkt_read_header, stream_peek_uint8.
  assert (Hr : rbyte 0 s = Done (b, s)) by (apply (holds_rbyte s _ 0 b Hs); [lia|reflexivity]).
  rewrite (bind_Done _ _ _ _ _ Hr). rewrite (proj2 (Z.eqb_neq _ _)) by exact Hb. reflexivity.
Qed.

Lemma Writes_tpdu_data : Writes tpdu_write_data tpdu_data_bytes tt.
Proof.
  unfold tpdu_write_data, tpdu_write_header.
  change (X224_TPDU_DATA =? X224_TPDU_DATA) with true. writes; reflexivity.
Qed.

Lemma Reads_tpdu_data : Reads tpdu_read_data tpdu_data_bytes 2.
Proof.
  unfold tpdu_read_data, tpdu_read_header.
  apply (Reads_last _ _ _ (2, X224_TPDU_DATA)); [|apply Reads_ret].
  do 2 apply Reads_uint8_bind.
  eapply Reads_last; [apply Reads_seek; reflexivity|apply Reads_ret].
Qed.

Lemma Writes_tpdu_connect li code : code <> X224_TPDU_DATA ->
  Writes (tpdu_write_header li code) (tpdu_connect_bytes li code) tt.
Proof.
  intros Hc. unfold tpdu_write_header. rewrite (proj2 (Z.eqb_neq _ _)) by exact Hc.
  writes; reflexivity.
Qed.

Lemma Reads_tpdu_connect li code : is_byte li -> is_byte code -> code <> X224_TPDU_DATA ->
  Reads tpdu_read_header (tpdu_connect_bytes li code) (li, code).
Proof.
  unfold is_byte. intros Hl Hb Hc. unfold tpdu_connect_bytes. rewrite !Z.mod_small by lia.
  do 2 apply Reads_uint8_bind. rewrite (proj2 (Z.eqb_neq _ _)) by exact Hc.
  eapply Reads_last; [apply Reads_seek; reflexivity|apply Reads_ret].
Qed.

Lemma Writes_connection_request li :
  Writes (tpdu_write_connection_request li) (tpdu_connect_bytes li X224_TPDU_CONNECTION_REQUEST) tt.
Proof. apply Writes_tpdu_connect. discriminate. Qed.

Lemma Writes_connection_confirm li :
  Writes (tpdu_write_connection_confirm li) (tpdu_connect_bytes li X224_TPDU_CONNECTION_CONFIRM) tt.
Proof. apply Writes_tpdu_connect. discriminate. Qed.

Lemma Reads_connection_request li : is_byte li ->
  Reads tpdu_read_connection_request (tpdu_connect_bytes li X224_TPDU_CONNECTION_REQUEST) li.
Proof.
  intros. eapply Reads_last; [apply Reads_tpdu_connect; [assumption|unfold is_byte, X224_TPDU_CONNECTION_REQUEST; lia|discriminate]|].
  apply Reads_ret.
Qed.

Lemma Reads_connection_confirm li : is_byte li ->
  Reads tpdu_read_connection_confirm (tpdu_connect_bytes li X224_TPDU_CONNECTION_CONFIRM) li.
Proof.
  intros. eapply Reads_last; [apply Reads_tpdu_connect; [assumption|unfold is_byte, X224_TPDU_CONNECTION_CONFIRM; lia|discriminate]|].
  apply Reads_ret.
Qed.

(** A TPDU of another type is reported as length indicator 0. *)
Lemma Reads_connection_confirm_other li code :
  is_byte li -> is_byte code -> code <> X224_TPDU_DATA -> code <> X224_TPDU_CONNECTION_CONFIRM ->
  Reads tpdu_read_connection_confirm (tpdu_connect_bytes li code) 0.
Proof.
  intros. eapply Reads_last; [apply Reads_tpdu_connect; assumption|].
  cbv beta iota. rewrite (proj2 (Z.eqb_neq _ _)) by assumption. apply Reads_ret.
Qed.

#[export] Hint Resolve Writes_tpkt Writes_tpdu_data Writes_connection_request
  Writes_connection_confirm : writes.
