(* ===== verification/Transport.v ===== *)
(** The transport layer, [libfreerdp-core/transport.c]: cutting the incoming
    byte stream into PDUs and pushing outgoing PDUs through a link that may
    accept or deliver any number of bytes per call.

    What lies below (the sockets of [tcp.c], OpenSSL behind [tls.c], the RPC
    gateway behind [tsg.c]) is the interface [Link]; [LinkLaws] is what the
    transport relies on, and [TcpLink] discharges it for [tcp.c] over a socket
    given by the results of [recv] and [send]. *)

From S2P Require Import Prelude.
From S2P Require Import Stream.

(** [TRANSPORT_LAYER] *)
Inductive TRANSPORT_LAYER : Type :=
| TRANSPORT_LAYER_TCP
| TRANSPORT_LAYER_TLS
| TRANSPORT_LAYER_TSG
| TRANSPORT_LAYER_CLOSED.

#[global] Instance layer_eq_dec : EqDecision TRANSPORT_LAYER.
Proof. solve_decision. Defined.

(** ** The link below

    [link_read l n] is [tcp_read] or [tls_read] with [n] bytes asked for: the
    status and the bytes stored; [link_write l bs] is [tcp_write], [tls_write]
    or [tsg_write]; [link_skip] is [tsg_skip_pdu]; [link_stall] bounds how many
    more calls can return without moving a byte. *)
Class Link (N : Type) : Type := {
  link_read : TRANSPORT_LAYER -> Z -> N -> Z * list Z * N;
  link_write : TRANSPORT_LAYER -> list Z -> N -> Z * N;
  link_skip : STREAM -> N -> bool * N;
  link_stall : N -> nat;
  link_incoming : N -> list Z;   (** bytes the peer has sent and we have not read *)
  link_outgoing : N -> list Z;   (** bytes accepted from us so far *)
}.

(** What a link promises on layer [l]. *)
Class LinkLaws (N : Type) `{Link N} (l : TRANSPORT_LAYER) : Prop := {
  link_open : l <> TRANSPORT_LAYER_CLOSED;
  (** A successful read delivers the next bytes of the peer, at most as many as
      asked for; one that delivers none uses up a stall. *)
  link_read_law : forall n net st bs net',
    1 <= n -> link_read l n net = (st, bs, net') -> 0 <= st ->
    st = len bs /\ st <= n /\ link_incoming net = bs ++ link_incoming net' /\
    link_outgoing net' = link_outgoing net /\
    (link_stall net' <= link_stall net)%nat /\ (bs = [] -> (link_stall net' < link_stall net)%nat);
  (** Reading fails only when the peer has nothing left to deliver. *)
  link_read_progress : forall n net st bs net',
    1 <= n -> link_read l n net = (st, bs, net') -> st < 0 ->
    bs = [] /\ link_incoming net = [];
  (** A successful write accepts a prefix. *)
  link_write_law : forall bs net st net',
    bs <> [] -> link_write l bs net = (st, net') -> 0 <= st ->
    st <= len bs /\ link_outgoing net' = link_outgoing net ++ take (Z.to_nat st) bs /\
    link_incoming net' = link_incoming net /\
    (link_stall net' <= link_stall net)%nat /\ (st = 0 -> (link_stall net' < link_stall net)%nat);
  (** A failed write accepts nothing. *)
  link_write_fail : forall bs net st net',
    link_write l bs net = (st, net') -> st < 0 -> link_outgoing net' = link_outgoing net;
}.

Section transport.
Context {N : Type} `{Link N}.

(** [struct rdp_transport]; of the handles only what the transport itself looks
    at, whether [tcp_out] and [tls_out] are set ([tcp_in] and [tls_in] always
    are when they are used). *)
Record rdpTransport : Type := mkTransport {
  t_layer : TRANSPORT_LAYER;
  t_blocking : bool;
  t_level : Z;
  t_recv_stream : STREAM;
  t_send_stream : STREAM;
  t_recv_buffer : STREAM;
  t_proc_buffer : STREAM;
  t_net : N;
  t_tcp_out : bool;
  t_tls_out : bool;
}.

Definition set_layer (l : TRANSPORT_LAYER) (t : rdpTransport) : rdpTransport :=
  mkTransport l (t_blocking t) (t_level t) (t_recv_stream t) (t_send_stream t)
    (t_recv_buffer t) (t_proc_buffer t) (t_net t) (t_tcp_out t) (t_tls_out t).
Definition set_net (n : N) (t : rdpTransport) : rdpTransport :=
  mkTransport (t_layer t) (t_blocking t) (t_level t) (t_recv_stream t) (t_send_stream t)
    (t_recv_buffer t) (t_proc_buffer t) n (t_tcp_out t) (t_tls_out t).
Definition set_recv_stream (s : STREAM) (t : rdpTransport) : rdpTransport :=
  mkTransport (t_layer t) (t_blocking t) (t_level t) s (t_send_stream t)
    (t_recv_buffer t) (t_proc_buffer t) (t_net t) (t_tcp_out t) (t_tls_out t).
Definition set_send_stream (s : STREAM) (t : rdpTransport) : rdpTransport :=
  mkTransport (t_layer t) (t_blocking t) (t_level t) (t_recv_stream t) s
    (t_recv_buffer t) (t_proc_buffer t) (t_net t) (t_tcp_out t) (t_tls_out t).
Definition set_recv_buffer (s : STREAM) (t : rdpTransport) : rdpTransport :=
  mkTransport (t_layer t) (t_blocking t) (t_level t) (t_recv_stream t) (t_send_stream t)
    s (t_proc_buffer t) (t_net t) (t_tcp_out t) (t_tls_out t).
Definition set_proc_buffer (s : STREAM) (t : rdpTransport) : rdpTransport :=
  mkTransport (t_layer t) (t_blocking t) (t_level t) (t_recv_stream t) (t_send_stream t)
    (t_recv_buffer t) s (t_net t) (t_tcp_out t) (t_tls_out t).
Definition set_level (n : Z) (t : rdpTransport) : rdpTransport :=
  mkTransport (t_layer t) (t_blocking t) n (t_recv_stream t) (t_send_stream t)
    (t_recv_buffer t) (t_proc_buffer t) (t_net t) (t_tcp_out t) (t_tls_out t).
Definition set_tcp_out (b : bool) (t : rdpTransport) : rdpTransport :=
  mkTransport (t_layer t) (t_blocking t) (t_level t) (t_recv_stream t) (t_send_stream t)
    (t_recv_buffer t) (t_proc_buffer t) (t_net t) b (t_tls_out t).
Definition set_tls_out (b : bool) (t : rdpTransport) : rdpTransport :=
  mkTransport (t_layer t) (t_blocking t) (t_level t) (t_recv_stream t) (t_send_stream t)
    (t_recv_buffer t) (t_proc_buffer t) (t_net t) (t_tcp_out t) b.

(** [transport_recv_stream_init], [transport_send_stream_init]: the stream is
    left in the transport, rewound, with room for [size] bytes after its old
    position. *)
Definition transport_recv_stream_init (size : Z) : M rdpTransport unit :=
  zoom t_recv_stream set_recv_stream (stream_check_size size;; stream_set_pos 0).
Definition transport_send_stream_init (size : Z) : M rdpTransport unit :=
  zoom t_send_stream set_send_stream (stream_check_size size;; stream_set_pos 0).

(** ** Reading *)

(** The handle whose socket [transport_read_layer] waits on after a read of no
    bytes: [tls_out->sockfd], [tcp_out->sockfd], or none ([freerdp_usleep]). *)
Definition wait_handle (t : rdpTransport) : bool :=
  match t_layer t with
  | TRANSPORT_LAYER_TSG | TRANSPORT_LAYER_TLS => t_tls_out t
  | TRANSPORT_LAYER_TCP => t_tcp_out t
  | TRANSPORT_LAYER_CLOSED => true
  end.

(** The loop of [transport_read_layer]; the bytes go to [data] at [off + read].
    The link never writes past what it returns, so only those bytes are
    checked against the allocation. After a read of no bytes the loop waits up
    to 100 ms on the socket of a handle it does not check. *)
Fixpoint read_layer_loop (fuel : nat) (t : rdpTransport) (data : list Z)
    (off read bytes : Z) : outcome (Z * rdpTransport * list Z) :=
  match fuel with
  | O => Fault Diverges
  | S fuel' =>
      if read <? bytes then
        let '(status, bs, net') :=
          match t_layer t with
          | TRANSPORT_LAYER_CLOSED => (-1, [], t_net t)
          | l => link_read l (bytes - read) (t_net t)
          end in
        let t' := set_net net' t in
        if bool_decide (0 <= off + read /\ off + read + len bs <= len data) then
          let data' := splice (Z.to_nat (off + read)) bs data in
          if negb (t_blocking t) then Done (status, t', data')
          else if status <? 0 then Done (status, t', data')
          else if (status =? 0) && negb (wait_handle t) then Fault NullPointer
          else read_layer_loop fuel' t' data' off (read + status) bytes
        else Fault OutOfBounds
      else Done (read, t, data)
  end.

Definition read_fuel (t : rdpTransport) (bytes : Z) : nat :=
  S (Z.to_nat bytes + link_stall (t_net t)).

Definition transport_read_layer (t : rdpTransport) (data : list Z) (off bytes : Z)
  : outcome (Z * rdpTransport * list Z) :=
  read_layer_loop (read_fuel t bytes) t data off 0 bytes.

Definition byte_at (data : list Z) (i : nat) : outcome Z :=
  match data !! i with Some b => Done b | None => Fault OutOfBounds end.

(** The PDU length announced by the first bytes ([transport_read], the part
    between the two reads). *)
Definition pdu_length (layer : TRANSPORT_LAYER) (data : list Z) : outcome Z :=
  match data with
  | d0 :: d1 :: d2 :: d3 :: _ =>
      if decide (layer = TRANSPORT_LAYER_TSG) then
        match byte_at data 8, byte_at data 9 with
        | Done d8, Done d9 => Done (Z.lor d8 (Z.shiftl d9 8))
        | _, _ => Fault OutOfBounds
        end
      else if d0 =? 0x03 then Done (Z.lor (Z.shiftl d2 8) d3)
      else if d0 =? 0x30 then
        if negb (Z.land d1 0x80 =? 0) then
          if Z.land d1 (Z.lnot 0x80) =? 1 then Done (d2 + 3)
          else if Z.land d1 (Z.lnot 0x80) =? 2 then Done (Z.lor (Z.shiftl d2 8) d3 + 4)
          else Done 0
        else Done (d1 + 2)
      else
        if negb (Z.land d1 0x80 =? 0) then Done (Z.lor (Z.shiftl (Z.land d1 0x7f) 8) d2)
        else Done d1
  | _ => Fault OutOfBounds
  end.

(** The second half of [transport_read], once the header is there; [again] is
    the recursive call. *)
Definition read_rest (again : rdpTransport -> STREAM -> outcome (Z * rdpTransport * STREAM))
    (s : STREAM) (t : rdpTransport) (data : list Z) (transport_status stream_bytes : Z)
  : outcome (Z * rdpTransport * STREAM) :=
  match pdu_length (t_layer t) data with
  | Fault f => Fault f
  | Done pdu_bytes =>
      match transport_read_layer t data stream_bytes (pdu_bytes - stream_bytes) with
      | Fault f => Fault f
      | Done (status, t, data) =>
          let s' := mkSTREAM (s_size s) (s_p s) data in
          if status <? 0 then Done (status, t, s')
          else
            let transport_status := transport_status + status in
            let got_whole_pdu := pdu_bytes <=? stream_bytes + status in
            if t_blocking t && bool_decide (t_layer t = TRANSPORT_LAYER_TSG) && got_whole_pdu then
              let s' := set_p s' 0 in
              let (skip, net') := link_skip s' (t_net t) in
              if skip then again (set_net net' t) s'
              else Done (transport_status, set_net net' t, s')
            else Done (transport_status, t, s')
      end
  end.

(** [transport_read]; [skips] bounds how many gateway PDUs are skipped. *)
Fixpoint transport_read (skips : nat) (t : rdpTransport) (s : STREAM)
  : outcome (Z * rdpTransport * STREAM) :=
  let again := match skips with
               | O => fun _ _ => Fault Diverges
               | S skips' => transport_read skips'
               end in
  let stream_bytes := stream_get_length s in
  let header_bytes := if decide (t_layer t = TRANSPORT_LAYER_TSG) then 10 else 4 in
  if stream_bytes <? header_bytes then
    match transport_read_layer t (s_data s) stream_bytes (header_bytes - stream_bytes) with
    | Fault f => Fault f
    | Done (status, t, data) =>
        let s' := mkSTREAM (s_size s) (s_p s) data in
        if status <? 0 then Done (status, t, s')
        else if status + stream_bytes <? header_bytes then Done (status, t, s')
        else read_rest again s t data status (stream_bytes + status)
    end
  else read_rest again s t (s_data s) 0 stream_bytes.

(** ** Writing *)

(** The loop of [transport_write] on the bytes still to be sent. *)
Fixpoint write_loop (fuel : nat) (t : rdpTransport) (todo : list Z) (status : Z)
  : outcome (Z * rdpTransport * list Z) :=
  match fuel with
  | O => Fault Diverges
  | S fuel' =>
      match todo with
      | [] => Done (status, t, todo)
      | _ =>
          let '(status, net') :=
            match t_layer t with
            | TRANSPORT_LAYER_CLOSED => (status, t_net t)
            | l => link_write l todo (t_net t)
            end in
          let t := set_net net' t in
          if status <? 0 then Done (status, t, todo)
          else write_loop fuel' t (drop (Z.to_nat status) todo) status
      end
  end.

Definition transport_write (t : rdpTransport) (s : STREAM) : outcome (Z * rdpTransport * STREAM) :=
  let length := Z.max 0 (stream_get_length s) in
  if bool_decide (length <= len (s_data s)) then
    let todo := take (Z.to_nat length) (s_data s) in
    match write_loop (S (Z.to_nat length + link_stall (t_net t))) t todo (-1) with
    | Fault f => Fault f
    | Done (status, t, todo) =>
        let s := set_p s (length - len todo) in
        if status <? 0 then Done (status, set_layer TRANSPORT_LAYER_CLOSED t, s)
        else Done (status, t, s)
    end
  else Fault OutOfBounds.

(** Send the transport's own stream, as every caller does. *)
Definition transport_send : M rdpTransport Z := fun t =>
  match transport_write t (t_send_stream t) with
  | Done (status, t, s) => Done (status, set_send_stream s t)
  | Fault f => Fault f
  end.

End transport.
Arguments rdpTransport N : clear implicits.

(** ** Connecting

    The sockets, OpenSSL and the gateway are below the transport; what it
    calls of them is the interface [Connector]. *)
Class Connector (N : Type) : Type := {
  tcp_connect_in : list Z -> Z -> N -> bool * N;    (** [tcp_connect(transport->tcp_in, ..)] *)
  tcp_connect_out : list Z -> Z -> N -> bool * N;   (** [tcp_connect(transport->tcp_out, ..)] *)
  tls_connect_in : N -> bool * N;
  tls_connect_out : N -> bool * N;
  tsg_connect : list Z -> Z -> N -> bool * N;
  tls_accept_in : N -> bool * N;
  credssp_authenticate : N -> Z * N;
  tls_disconnect_in : N -> N;
  tcp_disconnect_in : N -> bool * N;
}.

Section connecting.
Context {N : Type} `{Connector N}.

Definition net_do {A} (f : N -> A * N) : M (rdpTransport N) A := fun t =>
  let (a, net') := f (t_net t) in Done (a, set_net net' t).
Definition put_layer (l : TRANSPORT_LAYER) : M (rdpTransport N) unit := fun t =>
  Done (tt, set_layer l t).
(** A handle allocated by [tcp_new] or [tls_new], or shared with another. *)
Definition put_out (set : bool -> rdpTransport N -> rdpTransport N) : M (rdpTransport N) unit := fun t =>
  Done (tt, set true t).

Definition transport_tsg_connect (hostname : list Z) (port : Z) : M (rdpTransport N) bool :=
  put_out set_tls_out;;
  let! ok := net_do tls_connect_in in
  if negb ok then ret false else
  let! ok := net_do tls_connect_out in
  if negb ok then ret false else
  let! ok := net_do (tsg_connect hostname port) in
  if negb ok then ret false else
  ret true.

(** [tsg] is [Some server] when [settings->tsg] is set, with
    [settings->tsg_server]. *)
Definition transport_connect (tsg : option (list Z)) (hostname : list Z) (port : Z)
  : M (rdpTransport N) bool :=
  match tsg with
  | Some tsg_server =>
      put_layer TRANSPORT_LAYER_TSG;;
      put_out set_tcp_out;;
      let! ok := net_do (tcp_connect_in tsg_server 443) in
      if ok then
        let! ok := net_do (tcp_connect_out tsg_server 443) in
        if ok then transport_tsg_connect hostname port else ret ok
      else ret ok
  | None =>
      put_out set_tcp_out;;   (* [transport->tcp_out = transport->tcp_in] *)
      net_do (tcp_connect_in hostname port)
  end.

Definition transport_disconnect : M (rdpTransport N) bool := fun t =>
  ((if decide (t_layer t = TRANSPORT_LAYER_TLS)
    then net_do (fun net => (tt, tls_disconnect_in net)) else ret tt);;
   net_do tcp_disconnect_in) t.

Definition transport_connect_rdp : M (rdpTransport N) bool := ret true.

Definition transport_connect_tls : M (rdpTransport N) bool :=
  put_layer TRANSPORT_LAYER_TLS;;
  let! ok := net_do tls_connect_in in
  if negb ok then ret false else ret true.

Definition transport_connect_nla (authentication : bool) : M (rdpTransport N) bool :=
  put_layer TRANSPORT_LAYER_TLS;;
  let! ok := net_do tls_connect_in in
  if negb ok then ret false else
  if negb authentication then ret true else
  let! status := net_do credssp_authenticate in
  if status <? 0 then ret false else ret true.

Definition transport_accept_rdp : M (rdpTransport N) bool := ret true.

Definition transport_accept_tls : M (rdpTransport N) bool :=
  put_layer TRANSPORT_LAYER_TLS;;
  let! ok := net_do tls_accept_in in
  if negb ok then ret false else ret true.

Definition transport_accept_nla (authentication : bool) : M (rdpTransport N) bool :=
  put_layer TRANSPORT_LAYER_TLS;;
  let! ok := net_do tls_accept_in in
  if negb ok then ret false else
  if negb authentication then ret true else
  ret true.

End connecting.

Definition BUFFER_SIZE : Z := 16384 * 2.

Definition transport_new {N} (net : N) : rdpTransport N :=
  mkTransport TRANSPORT_LAYER_TCP true 0 (stream_new BUFFER_SIZE) (stream_new BUFFER_SIZE)
    (stream_new BUFFER_SIZE) (stream_new BUFFER_SIZE) net false false.

(** ** The laws of reading and writing *)

Section proofs.
Context {N : Type} `{Link N} (l : TRANSPORT_LAYER) `{!LinkLaws N l}.
Implicit Types t : rdpTransport N.

Lemma set_net_net n n' t : set_net n (set_net n' t) = set_net n t.
Proof. reflexivity. Qed.

Lemma set_net_self t : set_net (t_net t) t = t.
Proof. destruct t. reflexivity. Qed.

(** The run dereferences the missing handle after a read of no bytes. *)
Definition unwaited {A} t (r : outcome A) : Prop :=
  r = Fault NullPointer /\ wait_handle t = false /\ (0 < link_stall (t_net t))%nat.

Lemma unwaited_later {A} net t (r : outcome A) :
  (link_stall net <= link_stall (t_net t))%nat -> unwaited (set_net net t) r -> unwaited t r.
Proof. intros Hle (? & ? & Hs). cbn [t_net set_net] in Hs. repeat split; auto. lia. Qed.

Lemma unwaited_now {A} t net st (bs : list Z) :
  st = len bs -> (bs = [] -> (link_stall net < link_stall (t_net t))%nat) ->
  (st =? 0) && negb (wait_handle t) = true -> unwaited t (Fault (A := A) NullPointer).
Proof.
  intros Hs Hst [E0 Ew]%andb_prop. assert (Hn : bs = []) by (destruct bs; [reflexivity|llia]).
  specialize (Hst Hn). repeat split; [destruct (wait_handle t); [discriminate|reflexivity]|lia].
Qed.

Lemma read_layer_loop_spec bytes off fuel : forall t data read a b,
  t_blocking t = true -> t_layer t = l ->
  link_incoming (t_net t) = a ++ b -> len a = bytes - read ->
  0 <= off -> 0 <= read <= bytes -> off + bytes <= len data ->
  (Z.to_nat (bytes - read) + link_stall (t_net t) < fuel)%nat ->
  unwaited t (read_layer_loop fuel t data off read bytes) \/
  exists net', read_layer_loop fuel t data off read bytes
               = Done (bytes, set_net net' t, splice (Z.to_nat (off + read)) a data) /\
    link_incoming net' = b /\ link_outgoing net' = link_outgoing (t_net t) /\
    (link_stall net' <= link_stall (t_net t))%nat.
Proof.
  induction fuel as [|fuel IH]; intros t data read a b Hbl Hl Hin Ha Hoff Hrd Hlen Hfuel; [lia|].
  cbn [read_layer_loop]. destruct (Z.ltb_spec read bytes) as [Hlt|Hge].
  - destruct (link_read l (bytes - read) (t_net t)) as [[st bs] net'] eqn:Hr.
    pose proof link_open as Hopen.
    assert (Hm : match t_layer t with
                 | TRANSPORT_LAYER_CLOSED => (-1, [], t_net t)
                 | l => link_read l (bytes - read) (t_net t)
                 end = (st, bs, net')) by (rewrite Hl; destruct l; congruence).
    rewrite Hm. assert (Hn : 1 <= bytes - read) by lia.
    assert (Hst : 0 <= st).
    { destruct (Z.le_gt_cases 0 st) as [|Hneg]; [assumption|].
      destruct (link_read_progress _ _ _ _ _ Hn Hr Hneg) as [_ Hnil].
      rewrite Hnil in Hin. symmetry in Hin. apply app_nil in Hin as [-> _]. llia. }
    destruct (link_read_law _ _ _ _ _ Hn Hr Hst) as (Hs & Hle & Hin' & Hout & Hst1 & Hst2).
    rewrite Hin in Hin'.
    assert (Hsplit : exists a', a = bs ++ a' /\ link_incoming net' = a' ++ b).
    { apply app_eq_inv in Hin' as [(k & -> & Hk)|(k & -> & Hk)].
      - exists k. split; [reflexivity|exact Hk].
      - assert (k = []) by (destruct k; [reflexivity|llia]). subst k.
        exists []. rewrite !app_nil_r in *. split; [reflexivity|]. symmetry. exact Hk. }
    destruct Hsplit as (a' & -> & Hin''). rewrite len_app in Ha.
    rewrite bool_decide_true by llia.
    rewrite Hbl. cbn [negb]. rewrite (proj2 (Z.ltb_ge _ _)) by lia.
    destruct ((st =? 0) && negb (wait_handle t)) eqn:Ew; [left; exact (unwaited_now _ _ _ _ Hs Hst2 Ew)|].
    destruct (IH (set_net net' t) (splice (Z.to_nat (off + read)) bs data) (read + st) a' b)
      as [Hu|(net'' & -> & Hi & Ho & Hs')]; auto; cbn [t_net set_net] in *; try llia.
    { unfold len in *. rewrite length_splice by lia. lia. }
    { destruct bs as [|x bs]; [pose proof (Hst2 eq_refl); llia|llia]. }
    { left. exact (unwaited_later _ _ _ Hst1 Hu). }
    right.
    exists net''. split; [|split; [exact Hi|split; [congruence|lia] ] ].
    rewrite set_net_net. do 2 f_equal.
    replace (Z.to_nat (off + (read + st))) with (Z.to_nat (off + read) + length bs)%nat
      by (unfold len in *; lia).
    apply splice_splice. unfold len in *. lia.
  - right. exists (t_net t). assert (a = []) as -> by (destruct a; [reflexivity|llia]).
    rewrite splice_nil, set_net_self. repeat split; [f_equal; repeat f_equal; lia|exact Hin|lia].
Qed.

Lemma write_loop_spec fuel : forall t todo st0,
  t_layer t = l -> todo <> [] \/ 0 <= st0 ->
  (length todo + link_stall (t_net t) < fuel)%nat ->
  exists st net' k, write_loop fuel t todo st0 = Done (st, set_net net' t, drop k todo) /\
    (k <= length todo)%nat /\
    link_outgoing net' = link_outgoing (t_net t) ++ take k todo /\
    (0 <= st -> k = length todo /\ link_incoming net' = link_incoming (t_net t)).
Proof.
  induction fuel as [|fuel IH]; intros t todo st0 Hl Hne Hfuel; [lia|]. cbn [write_loop].
  destruct todo as [|x todo'].
  - exists st0, (t_net t), 0%nat. rewrite set_net_self, app_nil_r. cbn. auto.
  - destruct (link_write l (x :: todo') (t_net t)) as [st net'] eqn:Hw.
    pose proof link_open as Hopen.
    assert (Hm : match t_layer t with
                 | TRANSPORT_LAYER_CLOSED => (st0, t_net t)
                 | l => link_write l (x :: todo') (t_net t)
                 end = (st, net')) by (rewrite Hl; destruct l; congruence).
    rewrite Hm. destruct (Z.ltb_spec st 0) as [Hneg|Hpos].
    + exists st, net', 0%nat. split; [reflexivity|]. split; [lia|].
      rewrite take_0, app_nil_r. split; [eapply link_write_fail; eauto|lia].
    + assert (Hnn : x :: todo' <> []) by discriminate.
      destruct (link_write_law _ _ _ _ Hnn Hw Hpos)
        as (Hle & Hout & Hin & Hs1 & Hs2).
      set (todo := x :: todo') in *.
      destruct (IH (set_net net' t) (drop (Z.to_nat st) todo) st) as (st' & net'' & k & -> & Hk & Ho & Hf).
      * exact Hl.
      * right. exact Hpos.
      * cbn [t_net set_net]. rewrite length_drop.
        destruct (decide (st = 0)) as [->|]; [specialize (Hs2 eq_refl); cbn [Z.to_nat]; lia|].
        unfold len in Hle. assert (1 <= length todo)%nat by (cbn; lia). lia.
      * exists st', net'', (Z.to_nat st + k)%nat. rewrite length_drop in *.
        unfold len in Hle. rewrite drop_drop. split; [reflexivity|]. split; [lia|].
        split; [rewrite Ho; cbn [t_net set_net]; rewrite Hout, <- app_assoc; f_equal;
                apply take_take_drop|].
        intros Hst'. destruct (Hf Hst') as [Hkk Hii]. split; [lia|].
        rewrite Hii. exact Hin.
Qed.

(** The announced length only depends on the first four bytes. *)
Lemma pdu_length_header d0 d1 d2 d3 r r' : l <> TRANSPORT_LAYER_TSG ->
  pdu_length l (d0 :: d1 :: d2 :: d3 :: r) = pdu_length l (d0 :: d1 :: d2 :: d3 :: r').
Proof. intros Hl. unfold pdu_length. rewrite !decide_False by exact Hl. reflexivity. Qed.

Definition read_again (skips : nat) : rdpTransport N -> STREAM -> outcome (Z * rdpTransport N * STREAM) :=
  match skips with O => fun _ _ => Fault Diverges | S skips' => transport_read skips' end.

Lemma transport_read_first skips t s :
  t_layer t = l -> l <> TRANSPORT_LAYER_TSG -> s_p s = 0 ->
  transport_read skips t s =
  match transport_read_layer t (s_data s) 0 4 with
  | Fault f => Fault f
  | Done (status, t, data) =>
      let s' := mkSTREAM (s_size s) (s_p s) data in
      if status <? 0 then Done (status, t, s')
      else if status + 0 <? 4 then Done (status, t, s')
      else read_rest (read_again skips) s t data status (0 + status)
  end.
Proof.
  intros Hl Htsg Hp. destruct skips; cbn [transport_read]; unfold stream_get_length;
    rewrite Hp, decide_False by (rewrite Hl; exact Htsg); reflexivity.
Qed.

(** Reading one PDU into the start of a stream. *)
Lemma transport_read_pdu skips t s pdu rest :
  t_blocking t = true -> t_layer t = l -> l <> TRANSPORT_LAYER_TSG ->
  s_p s = 0 -> 4 <= len pdu <= len (s_data s) ->
  pdu_length l pdu = Done (len pdu) ->
  link_incoming (t_net t) = pdu ++ rest ->
  unwaited t (transport_read skips t s) \/
  exists net', transport_read skips t s
      = Done (len pdu, set_net net' t, mkSTREAM (s_size s) 0 (splice 0 pdu (s_data s))) /\
    link_incoming net' = rest /\ link_outgoing net' = link_outgoing (t_net t).
Proof.
  intros Hbl Hl Htsg Hp Hlen Hpl Hin.
  destruct pdu as [|d0 [|d1 [|d2 [|d3 body] ] ] ]; try (exfalso; llia).
  set (hd := [d0; d1; d2; d3]). change (d0 :: d1 :: d2 :: d3 :: body) with (hd ++ body) in *.
  rewrite len_app in *. change (len hd) with 4 in *.
  assert (Hd : (4 <= length (s_data s))%nat) by (pose proof (len_nonneg body); unfold len in *; lia).
  destruct (read_layer_loop_spec 4 0 (read_fuel t 4) t (s_data s) 0 hd (body ++ rest))
    as [(Hr1 & Hu)|(net1 & Hr1 & Hin1 & Hout1 & Hs1)]; auto; try (unfold len in *; cbn in *; lia).
  { left. split; [|exact Hu]. rewrite transport_read_first by assumption.
    unfold transport_read_layer at 1. rewrite Hr1. reflexivity. }
  change (Z.to_nat (0 + 0)) with 0%nat in Hr1.
  assert (Hrest : transport_read skips t s
    = read_rest (read_again skips) s (set_net net1 t) (splice 0 hd (s_data s)) 4 4).
  { rewrite transport_read_first by assumption. unfold transport_read_layer at 1. rewrite Hr1. reflexivity. }
  unfold read_rest in Hrest. cbn [t_layer set_net] in Hrest. rewrite Hl in Hrest.
  replace (pdu_length l (splice 0 hd (s_data s))) with (pdu_length l (hd ++ body)) in Hrest
    by (unfold splice, hd; cbn [app take]; apply pdu_length_header, Htsg).
  rewrite Hpl in Hrest. unfold transport_read_layer in Hrest.
  replace (4 + len body - 4) with (len body) in Hrest by lia.
  destruct (read_layer_loop_spec (len body) 4 (read_fuel (set_net net1 t) (len body))
              (set_net net1 t) (splice 0 hd (s_data s)) 0 body rest)
    as [(Hr2 & Hu)|(net2 & Hr2 & Hin2 & Hout2 & Hs2)]; auto; cbn [t_net set_net] in *;
    try (pose proof (len_nonneg body); unfold len in *; rewrite ?length_splice by (cbn; lia); lia).
  { unfold read_fuel. cbn [t_net set_net]. lia. }
  { left. apply (unwaited_later net1); [exact Hs1|]. split; [|exact Hu]. rewrite Hrest, Hr2. reflexivity. }
  right. change (Z.to_nat (4 + 0)) with 4%nat in Hr2.
  exists net2. split; [|split; [exact Hin2|congruence] ].
  rewrite Hrest, Hr2. cbn [t_layer t_blocking set_net].
  rewrite (proj2 (Z.ltb_ge _ _)) by llia.
  rewrite bool_decide_false by (rewrite Hl; exact Htsg).
  rewrite andb_false_r. cbn [andb]. rewrite set_net_net, Hp. do 3 f_equal.
  apply (splice_splice 0 hd body). cbn. lia.
Qed.

(** C21. Blocking read of one PDU on a TCP or TLS connection: whatever the sizes
    of the pieces the link delivers, [transport_read] returns exactly when the
    PDU announced by the first four bytes is complete, stores its bytes at the
    start of the stream and leaves every later byte of the peer unread. The one
    other outcome is a null pointer: the link returned a read of no bytes while
    the handle that the layer then waits on was not set ([tls_out] in the TLS
    layer, [tcp_out] on a server's TCP layer). *)
Theorem transport_read_frames_pdu skips t s pdu rest :
  t_blocking t = true -> t_layer t = l -> l <> TRANSPORT_LAYER_TSG ->
  s_p s = 0 -> 4 <= len pdu <= len (s_data s) ->
  pdu_length l pdu = Done (len pdu) ->
  link_incoming (t_net t) = pdu ++ rest ->
  (exists net', transport_read skips t s
      = Done (len pdu, set_net net' t, mkSTREAM (s_size s) 0 (splice 0 pdu (s_data s))) /\
    take (length pdu) (splice 0 pdu (s_data s)) = pdu /\
    link_incoming net' = rest) \/
  (transport_read skips t s = Fault NullPointer /\
   wait_handle t = false /\ (0 < link_stall (t_net t))%nat).
Proof.
  intros Hbl Hl Htsg Hp Hlen Hpl Hin.
  destruct (transport_read_pdu skips t s pdu rest) as [Hu|(net' & Hr & Hi & _)]; auto.
  left. exists net'. split; [exact Hr|]. split; [|exact Hi].
  apply (splice_read 0). unfold len in Hlen. lia.
Qed.

Lemma transport_write_run t s :
  t_layer t = l -> 1 <= s_p s <= len (s_data s) ->
  exists status t' s' k,
    transport_write t s = Done (status, t', s') /\ 0 <= k <= s_p s /\ s_p s' = k /\
    link_outgoing (t_net t') = link_outgoing (t_net t) ++ take (Z.to_nat k) (s_data s) /\
    (0 <= status -> k = s_p s /\ t' = set_net (t_net t') t /\
                    link_incoming (t_net t') = link_incoming (t_net t)) /\
    (status < 0 -> t_layer t' = TRANSPORT_LAYER_CLOSED).
Proof.
  intros Hl Hp. unfold transport_write, stream_get_length. rewrite Z.max_r by lia.
  rewrite bool_decide_true by lia.
  set (todo := take (Z.to_nat (s_p s)) (s_data s)).
  assert (Hlt : length todo = Z.to_nat (s_p s))
    by (unfold todo; rewrite length_take; unfold len in Hp; lia).
  destruct (write_loop_spec (S (Z.to_nat (s_p s) + link_stall (t_net t))) t todo (-1))
    as (st & net' & k & -> & Hk & Hout & Hfull); [exact Hl| |lia|].
  { left. intros E. rewrite E in Hlt. cbn in Hlt. lia. }
  assert (Hrem : s_p s - len (drop k todo) = Z.of_nat k)
    by (unfold len; rewrite length_drop; lia).
  assert (Htk : take k todo = take (Z.to_nat (Z.of_nat k)) (s_data s))
    by (unfold todo; rewrite take_take; f_equal; lia).
  destruct (Z.ltb_spec st 0).
  - exists st, (set_layer TRANSPORT_LAYER_CLOSED (set_net net' t)), (set_p s (Z.of_nat k)), (Z.of_nat k).
    rewrite Hrem. cbn. rewrite Hout, Htk. repeat split; lia.
  - exists st, (set_net net' t), (set_p s (Z.of_nat k)), (Z.of_nat k).
    rewrite Hrem. cbn. rewrite Hout, Htk. destruct (Hfull ltac:(assumption)) as [-> Hi].
    repeat split; auto; lia.
Qed.

(** C22. Writing a PDU: the link receives the bytes in order, without loss or
    repetition; either all of them and a non-negative status is returned, or a
    prefix of them, the status is negative and the layer is closed. *)
Theorem transport_write_all_or_close t s :
  t_layer t = l -> 1 <= s_p s <= len (s_data s) ->
  exists status t' s' k,
    transport_write t s = Done (status, t', s') /\ 0 <= k <= s_p s /\ s_p s' = k /\
    link_outgoing (t_net t') = link_outgoing (t_net t) ++ take (Z.to_nat k) (s_data s) /\
    (0 <= status -> k = s_p s /\ t_layer t' = l) /\
    (status < 0 -> t_layer t' = TRANSPORT_LAYER_CLOSED).
Proof.
  intros Hl Hp. destruct (transport_write_run t s Hl Hp)
    as (st & t' & s' & k & Hw & Hk & Hs & Ho & Hge & Hlt).
  exists st, t', s', k. repeat split; auto; try lia.
  destruct Hge as (_ & -> & _); [assumption|exact Hl].
Qed.

Lemma transport_write_stream t s st t' s' :
  transport_write t s = Done (st, t', s') -> s' = set_p s (s_p s').
Proof.
  unfold transport_write. destruct (bool_decide _); [|discriminate].
  destruct (write_loop _ _ _ _) as [ [ [st0 t0] todo]|f]; [|discriminate].
  destruct (st0 <? 0); intros [= <- <- <-]; reflexivity.
Qed.

(** A link that does not fail makes every write succeed. *)
Definition reliable : Prop := forall bs net st net', link_write l bs net = (st, net') -> 0 <= st.

Lemma write_loop_reliable fuel : reliable -> forall t todo st0 st t' todo',
  t_layer t = l -> todo <> [] \/ 0 <= st0 -> write_loop fuel t todo st0 = Done (st, t', todo') -> 0 <= st.
Proof.
  intros Hrel. pose proof link_open as Hopen.
  induction fuel as [|fuel IH]; intros t todo st0 st t' todo' Hl Hne; cbn [write_loop]; [discriminate|].
  destruct todo as [|x todo0]; [intros [= <- _ _]; destruct Hne; [congruence|assumption]|].
  assert (Hm : match t_layer t with
               | TRANSPORT_LAYER_CLOSED => (st0, t_net t)
               | l0 => link_write l0 (x :: todo0) (t_net t)
               end = link_write l (x :: todo0) (t_net t)) by (rewrite Hl; destruct l; congruence).
  rewrite Hm. destruct (link_write l (x :: todo0) (t_net t)) as [st1 net'] eqn:E.
  pose proof (Hrel _ _ _ _ E) as H1. rewrite (proj2 (Z.ltb_ge _ _)) by exact H1.
  apply IH; [exact Hl|right; exact H1].
Qed.

Lemma transport_write_reliable t s st t' s' : reliable -> t_layer t = l -> 1 <= s_p s ->
  transport_write t s = Done (st, t', s') -> 0 <= st.
Proof.
  intros Hrel Hl Hp. unfold transport_write, stream_get_length. rewrite Z.max_r by lia.
  case_bool_decide as Hle; [|discriminate].
  destruct (write_loop _ _ _ _) as [ [ [st0 t0] todo]|f] eqn:E; [|discriminate].
  assert (H0 : 0 <= st0).
  { eapply (write_loop_reliable _ Hrel _ _ _ _ _ _ Hl); [|exact E]. left. intros Hn.
    apply (f_equal length) in Hn. rewrite length_take in Hn. unfold len in Hle. cbn in Hn. lia. }
  rewrite (proj2 (Z.ltb_ge _ _)) by exact H0. intros [= <- _ _]. exact H0.
Qed.

(** *** Reading whatever comes *)

(** A blocking read never runs out of fuel; when it succeeds it has taken what
    was asked for from the peer. *)
Lemma read_layer_loop_any bytes off fuel : forall t data read,
  t_blocking t = true -> t_layer t = l -> 0 <= off -> 0 <= read ->
  (Z.to_nat (bytes - read) + link_stall (t_net t) < fuel)%nat ->
  (exists f, read_layer_loop fuel t data off read bytes = Fault f /\ f <> Diverges) \/
  exists st net' data',
    read_layer_loop fuel t data off read bytes = Done (st, set_net net' t, data') /\
    len data' = len data /\
    (0 <= st -> st = Z.max read bytes /\
      len (link_incoming (t_net t)) = len (link_incoming net') + Z.max 0 (bytes - read)).
Proof.
  induction fuel as [|fuel IH]; intros t data read Hbl Hl Hoff Hrd Hfuel; [lia|].
  cbn [read_layer_loop]. destruct (Z.ltb_spec read bytes) as [Hlt|Hge].
  2:{ right. exists read, (t_net t), data. rewrite set_net_self. repeat split; lia. }
  destruct (link_read l (bytes - read) (t_net t)) as [[st bs] net'] eqn:Hr.
  pose proof link_open as Hopen.
  assert (Hm : match t_layer t with
               | TRANSPORT_LAYER_CLOSED => (-1, [], t_net t)
               | l => link_read l (bytes - read) (t_net t)
               end = (st, bs, net')) by (rewrite Hl; destruct l; congruence).
  rewrite Hm, Hbl. cbn [negb]. assert (Hn : 1 <= bytes - read) by lia.
  case_bool_decide as Hb; [|left; exists OutOfBounds; split; [reflexivity|discriminate] ].
  assert (Hlen : len (splice (Z.to_nat (off + read)) bs data) = len data)
    by (unfold len in *; rewrite length_splice; lia).
  destruct (Z.ltb_spec st 0) as [Hneg|Hpos].
  - right. exists st, net', (splice (Z.to_nat (off + read)) bs data). repeat split; auto; lia.
  - destruct (link_read_law _ _ _ _ _ Hn Hr Hpos) as (Hs & Hle & Hin & Hout & Hst1 & Hst2).
    destruct ((st =? 0) && _); [left; exists NullPointer; split; [reflexivity|discriminate]|].
    destruct (IH (set_net net' t) (splice (Z.to_nat (off + read)) bs data) (read + st))
      as [E|(st' & net'' & data' & E & Hl' & Hq)]; auto; try lia.
    + cbn [t_net set_net]. destruct bs as [|x bs]; [specialize (Hst2 eq_refl); llia|llia].
    + right. exists st', net'', data'. rewrite E, set_net_net.
      split; [reflexivity|]. split; [congruence|]. intros H0. destruct (Hq H0) as [-> Hc].
      rewrite Hin, len_app, <- Hs. cbn [t_net set_net] in Hc. lia.
Qed.

Lemma transport_read_any skips t s :
  t_blocking t = true -> t_layer t = l -> l <> TRANSPORT_LAYER_TSG ->
  s_p s = 0 -> 4 <= len (s_data s) ->
  (exists f, transport_read skips t s = Fault f /\ f <> Diverges) \/
  exists st net' data',
    transport_read skips t s = Done (st, set_net net' t, mkSTREAM (s_size s) 0 data') /\
    len data' = len (s_data s) /\
    (0 <= st -> len (link_incoming net') + 4 <= len (link_incoming (t_net t))).
Proof.
  intros Hbl Hl Htsg Hp Hlen. rewrite transport_read_first by assumption.
  unfold transport_read_layer.
  destruct (read_layer_loop_any 4 0 (read_fuel t 4) t (s_data s) 0)
    as [(f & -> & Hf)|(st1 & net1 & data1 & -> & Hl1 & Hq1)]; eauto; try lia.
  cbv zeta. destruct (Z.ltb_spec st1 0); [right; rewrite Hp; do 3 eexists; split; [reflexivity|lia]|].
  destruct Hq1 as [-> Hc1]; [lia|]. change (Z.max 0 4) with 4. change (4 + 0 <? 4) with false. change (0 + 4) with 4.
  unfold read_rest. cbn [t_layer set_net]. rewrite Hl.
  destruct (pdu_length l data1) as [n|f] eqn:Hpl.
  2:{ left. exists f. split; [reflexivity|]. clear -Hpl Htsg. unfold pdu_length in Hpl.
      destruct data1 as [|? [|? [|? [|? ?] ] ] ]; try congruence.
      rewrite decide_False in Hpl by exact Htsg.
      repeat match type of Hpl with context [if ?b then _ else _] => destruct b end; congruence. }
  unfold transport_read_layer.
  destruct (read_layer_loop_any (n - 4) 4 (read_fuel (set_net net1 t) (n - 4)) (set_net net1 t) data1 0)
    as [(f & -> & Hf)|(st2 & net2 & data2 & -> & Hl2 & Hq2)]; eauto; try lia;
    [unfold read_fuel; cbn [t_net set_net]; lia|].
  cbv zeta. right. exists (if st2 <? 0 then st2 else 4 + st2), net2, data2. rewrite Hp.
  cbn [t_layer t_blocking set_net t_net] in *.
  rewrite bool_decide_false, andb_false_r by (rewrite Hl; exact Htsg). cbn [andb].
  destruct (Z.ltb_spec st2 0); (split; [reflexivity|split; [lia|] ]); [lia|].
  intros _. destruct Hq2 as [_ Hc2]; [lia|]. lia.
Qed.

End proofs.

(** *** A read of no bytes

    [tls_out] is allocated for the gateway only, so in the TLS layer of a direct
    connection the wait after a read of no bytes has no socket. *)

Lemma tls_without_handle {N} `{Connector N} (net : N) host port ok t ok' t' :
  transport_connect None host port (transport_new net) = Done (ok, t) ->
  transport_connect_tls t = Done (ok', t') ->
  t_layer t' = TRANSPORT_LAYER_TLS /\ t_blocking t' = true /\ wait_handle t' = false.
Proof.
  unfold transport_connect, transport_connect_tls, put_out, put_layer, net_do, bind.
  destruct (tcp_connect_in _ _ _) as [b net1]. intros [= <- <-].
  destruct (tls_connect_in _) as [b' net2]. destruct b'; intros [= <- <-]; auto.
Qed.

(** A TLS connection as [nego.c] makes it: the first blocking read for which
    OpenSSL has no bytes yet dereferences the missing [tls_out]. *)
Lemma tls_stall_faults {N} `{Link N} `{Connector N} skips (net : N) host port ok t ok' t' s net' :
  transport_connect None host port (transport_new net) = Done (ok, t) ->
  transport_connect_tls t = Done (ok', t') ->
  s_p s = 0 -> link_read TRANSPORT_LAYER_TLS 4 (t_net t') = (0, [], net') ->
  transport_read skips t' s = Fault NullPointer.
Proof.
  intros H1 H2 Hp Hr. destruct (tls_without_handle _ _ _ _ _ _ _ H1 H2) as (Hl & Hbl & Hw).
  rewrite (transport_read_first TRANSPORT_LAYER_TLS) by (auto; discriminate).
  unfold transport_read_layer, read_fuel. cbn [read_layer_loop Z.ltb Z.compare].
  rewrite Hl, Hbl, Hw. change (4 - 0) with 4. rewrite Hr.
  rewrite bool_decide_true by (pose proof (len_nonneg (s_data s)); change (len []) with 0; lia). reflexivity.
Qed.

(** ** TCP sockets, [libfreerdp-core/tcp.c]

    A socket is the list of results its next [recv] and [send] calls give, and
    the bytes it has accepted. *)

Inductive recv_result : Type :=
| RecvData (bs : list Z)   (* at most [bs]; the peer closed when [bs] is empty *)
| RecvAgain                (* EAGAIN or EWOULDBLOCK *)
| RecvError.

Inductive send_result : Type :=
| SendUpTo (n : Z)         (* between one byte and [n] bytes are taken *)
| SendAgain
| SendError.

Record rdpTcp : Type := mkTcp {
  tcp_rx : list recv_result;
  tcp_tx : list send_result;
  tcp_sent : list Z;
}.

(** [tcp_read]: status and bytes stored. *)
Definition tcp_read (length : Z) (tcp : rdpTcp) : Z * list Z * rdpTcp :=
  match tcp_rx tcp with
  | RecvData (b :: bs) :: rx =>
      let bs := b :: bs in
      if len bs <=? length then (len bs, bs, mkTcp rx (tcp_tx tcp) (tcp_sent tcp))
      else (length, take (Z.to_nat length) bs,
            mkTcp (RecvData (drop (Z.to_nat length) bs) :: rx) (tcp_tx tcp) (tcp_sent tcp))
  | RecvAgain :: rx => (0, [], mkTcp rx (tcp_tx tcp) (tcp_sent tcp))
  | _ => (-1, [], tcp)
  end.

(** [tcp_write] *)
Definition tcp_write (data : list Z) (tcp : rdpTcp) : Z * rdpTcp :=
  match tcp_tx tcp with
  | SendUpTo n :: tx =>
      let status := Z.max 1 (Z.min n (len data)) in
      (status, mkTcp (tcp_rx tcp) tx (tcp_sent tcp ++ take (Z.to_nat status) data))
  | SendAgain :: tx => (0, mkTcp (tcp_rx tcp) tx (tcp_sent tcp))
  | _ => (-1, tcp)
  end.

Fixpoint rx_bytes (rx : list recv_result) : list Z :=
  match rx with
  | RecvData (b :: bs) :: rx => (b :: bs) ++ rx_bytes rx
  | RecvAgain :: rx => rx_bytes rx
  | _ => []
  end.

#[export] Instance TcpLink : Link rdpTcp := {
  link_read := fun l n tcp =>
    match l with TRANSPORT_LAYER_TCP => tcp_read n tcp | _ => (-1, [], tcp) end;
  link_write := fun l bs tcp =>
    match l with TRANSPORT_LAYER_TCP => tcp_write bs tcp | _ => (-1, tcp) end;
  link_skip := fun _ tcp => (false, tcp);
  link_stall := fun tcp => (length (tcp_rx tcp) + length (tcp_tx tcp))%nat;
  link_incoming := fun tcp => rx_bytes (tcp_rx tcp);
  link_outgoing := tcp_sent;
}.

Lemma tcp_read_split n tcp st bs tcp' :
  1 <= n -> tcp_read n tcp = (st, bs, tcp') -> 0 <= st ->
  st = len bs /\ st <= n /\ rx_bytes (tcp_rx tcp) = bs ++ rx_bytes (tcp_rx tcp') /\
  tcp_sent tcp' = tcp_sent tcp /\ tcp_tx tcp' = tcp_tx tcp /\
  (length (tcp_rx tcp') <= length (tcp_rx tcp))%nat /\
  (bs = [] -> (length (tcp_rx tcp') < length (tcp_rx tcp))%nat).
Proof.
  intros Hn Hr Hst. unfold tcp_read in Hr. destruct tcp as [rx tx sent]. cbn [tcp_rx] in *.
  destruct rx as [|[ [|b d] | |] rx]; try (injection Hr as <- <- <-; lia).
  - destruct (Z.leb_spec (len (b :: d)) n); injection Hr as <- <- <-; cbn [tcp_rx tcp_sent tcp_tx].
    + repeat split; try (cbn; lia).
    + set (D := b :: d) in *.
      assert (Hlen : length (take (Z.to_nat n) D) = Z.to_nat n)
        by (rewrite length_take; unfold len in *; lia).
      repeat split; try (unfold len in *; cbn [length]; lia).
      * assert (Hd : exists x r, drop (Z.to_nat n) D = x :: r).
        { destruct (drop (Z.to_nat n) D) eqn:E; [|eauto].
          assert (length (drop (Z.to_nat n) D) = 0%nat) by (rewrite E; reflexivity).
          rewrite length_drop in *. unfold len in *. lia. }
        destruct Hd as (x & r & Hd).
        replace (rx_bytes (RecvData D :: rx)) with (D ++ rx_bytes rx) by reflexivity.
        cbn [rx_bytes]. rewrite Hd. rewrite <- Hd, app_assoc, take_drop. reflexivity.
      * intros E. rewrite E in Hlen. cbn in Hlen. lia.
  - injection Hr as <- <- <-. cbn. repeat split; lia.
Qed.

#[export] Instance TcpLinkLaws : LinkLaws rdpTcp TRANSPORT_LAYER_TCP.
Proof.
  split; cbn [link_read link_write link_incoming link_outgoing link_stall TcpLink].
  - discriminate.
  - intros n tcp st bs tcp' Hn Hr Hst.
    destruct (tcp_read_split _ _ _ _ _ Hn Hr Hst) as (? & ? & ? & ? & Htx & ? & Hnil).
    rewrite Htx. repeat split; auto; try lia. intros E. specialize (Hnil E). lia.
  - intros n tcp st bs tcp' Hn Hr Hst. unfold tcp_read in Hr. destruct tcp as [rx tx sent].
    cbn [tcp_rx tcp_tx tcp_sent] in *.
    destruct rx as [|[ [|b d] | |] rx]; try (injection Hr as <- <- <-; auto; lia).
    destruct (Z.leb_spec (len (b :: d)) n); injection Hr as <- <- <-; llia.
  - intros bs tcp st tcp' Hne Hw Hst. unfold tcp_write in Hw. destruct tcp as [rx tx sent].
    cbn [tcp_rx tcp_tx tcp_sent] in *.
    assert (1 <= len bs) by (destruct bs; [congruence|llia]).
    destruct tx as [|[n| |] tx]; try (injection Hw as <- <-; lia);
      injection Hw as <- <-; cbn [tcp_rx tcp_tx tcp_sent length];
      rewrite ?take_0, ?app_nil_r; repeat split; lia.
  - intros bs tcp st tcp' Hw Hst. unfold tcp_write in Hw. destruct tcp as [rx tx sent].
    cbn [tcp_rx tcp_tx tcp_sent] in *.
    destruct tx as [|[n| |] tx]; injection Hw as <- <-; cbn; try reflexivity; lia.
Qed.

(** A transport over a socket, as [transport_new] builds it (the two buffers
    that are not used here kept small). *)
Definition tcp_transport (rx : list recv_result) (tx : list send_result) : rdpTransport rdpTcp :=
  mkTransport TRANSPORT_LAYER_TCP true 0 (stream_new 64) (stream_new 64) (stream_new 64) (stream_new 64)
    (mkTcp rx tx []) true false.

Lemma transport_read_frames_pdu_witness :
  exists net', transport_read 0
      (tcp_transport [RecvData [3]; RecvAgain; RecvData [0; 0; 7; 2; 0xF0]; RecvData [0x80; 3; 0] ] [])
      (stream_new 64)
    = Done (7, set_net net' (tcp_transport [RecvData [3]; RecvAgain; RecvData [0; 0; 7; 2; 0xF0];
                                            RecvData [0x80; 3; 0] ] []),
            mkSTREAM 64 0 (splice 0 [3; 0; 0; 7; 2; 0xF0; 0x80] (s_data (stream_new 64)))) /\
    take 7 (splice 0 [3; 0; 0; 7; 2; 0xF0; 0x80] (s_data (stream_new 64)))
    = [3; 0; 0; 7; 2; 0xF0; 0x80] /\
    link_incoming net' = [3; 0].
Proof.
  destruct (transport_read_frames_pdu TRANSPORT_LAYER_TCP 0
           (tcp_transport [RecvData [3]; RecvAgain; RecvData [0; 0; 7; 2; 0xF0];
                           RecvData [0x80; 3; 0] ] [])
           (stream_new 64) [3; 0; 0; 7; 2; 0xF0; 0x80] [3; 0]) as [Hok|(_ & Hw & _)];
    [reflexivity|reflexivity|discriminate|reflexivity|vm_compute; split; discriminate|reflexivity|reflexivity
    |exact Hok|discriminate Hw].
Defined.

Lemma transport_write_all_or_close_witness :
  exists status t' s' k,
    transport_write (tcp_transport [] [SendUpTo 2; SendAgain; SendUpTo 9])
      (mkSTREAM 64 5 (splice 0 [1; 2; 3; 4; 5] (s_data (stream_new 64)))) = Done (status, t', s') /\
    0 <= k <= 5 /\ s_p s' = k /\ link_outgoing (t_net t') = [1; 2; 3; 4; 5].
Proof.
  destruct (transport_write_all_or_close TRANSPORT_LAYER_TCP
              (tcp_transport [] [SendUpTo 2; SendAgain; SendUpTo 9])
              (mkSTREAM 64 5 (splice 0 [1; 2; 3; 4; 5] (s_data (stream_new 64)))))
    as (st & t' & s' & k & Hw & Hk & Hs & _).
  - reflexivity.
  - vm_compute. split; discriminate.
  - exists st, t', s', k. split; [exact Hw|]. split; [exact Hk|]. split; [exact Hs|].
    vm_compute in Hw. injection Hw as <- <- <-. reflexivity.
Defined.

(** A server never sets [tcp_out] ([transport_attach] only stores the socket in
    [tcp_in]): a client that pauses in the middle of a PDU crashes it. *)
Example server_stall_faults :
  transport_read 0 (transport_new (mkTcp [RecvData [3; 0]; RecvAgain; RecvData [0; 7; 2; 0xF0; 0x80] ] [] []))
    (stream_new 64) = Fault NullPointer.
Proof. reflexivity. Qed.
