(* ===== verification/Mcs.v ===== *)
(** The T.125 Multipoint Communication Service, [libfreerdp-core/mcs.c]: the
    BER-encoded connect PDUs and the PER-encoded domain PDUs by which client
    and server agree on a user id and join channels. *)

From S2P Require Import Prelude.
From S2P Require Import Stream.
From S2P Require Import Ber.
From S2P Require Import Per.
From S2P Require Import X224.
From S2P Require Import Transport.

(** ** Data of [mcs.h] *)

Definition MCS_BASE_CHANNEL_ID : Z := 1001.
Definition MCS_GLOBAL_CHANNEL_ID : Z := 1003.
Definition MCS_Result_enum_length : Z := 16.
Definition MCS_TYPE_CONNECT_INITIAL : Z := 0x65.
Definition MCS_TYPE_CONNECT_RESPONSE : Z := 0x66.

(** [enum DomainMCSPDU], the values the module uses *)
Definition DomainMCSPDU_ErectDomainRequest : Z := 1.
Definition DomainMCSPDU_DisconnectProviderUltimatum : Z := 8.
Definition DomainMCSPDU_AttachUserRequest : Z := 10.
Definition DomainMCSPDU_AttachUserConfirm : Z := 11.
Definition DomainMCSPDU_ChannelJoinRequest : Z := 14.
Definition DomainMCSPDU_ChannelJoinConfirm : Z := 15.
Definition DomainMCSPDU_SendDataRequest : Z := 25.
Definition DomainMCSPDU_SendDataIndication : Z := 26.
Definition MCS_SEND_DATA_HEADER_MAX_LENGTH : Z := 8.

Record DomainParameters : Type := mkDomainParameters {
  maxChannelIds : Z;
  maxUserIds : Z;
  maxTokenIds : Z;
  numPriorities : Z;
  minThroughput : Z;
  maxHeight : Z;
  maxMCSPDUsize : Z;
  protocolVersion : Z;
}.

(** [struct rdp_mcs], the transport apart. *)
Record rdpMcs : Type := mkMcs {
  user_id : Z;
  domainParameters : DomainParameters;
  targetParameters : DomainParameters;
  minimumParameters : DomainParameters;
  maximumParameters : DomainParameters;
}.

Definition set_user_id (v : Z) (m : rdpMcs) : rdpMcs :=
  mkMcs v (domainParameters m) (targetParameters m) (minimumParameters m) (maximumParameters m).
Definition set_domainParameters (d : DomainParameters) (m : rdpMcs) : rdpMcs :=
  mkMcs (user_id m) d (targetParameters m) (minimumParameters m) (maximumParameters m).

(** ** Domain PDU headers *)

(** Returns the result, [*domainMCSPDU] (given its old value) and [*length]. *)
Definition mcs_read_domain_mcspdu_header (domainMCSPDU : Z) : M STREAM (bool * Z * Z) :=
  let! length := tpkt_read_header in
  let! li := tpdu_read_data in
  if li =? 0 then ret (false, domainMCSPDU, length)
  else
    let! (_, choice) := per_read_choice in
    ret (true, Z.shiftr choice 2, length).

Definition mcs_read_domain_mcspdu_header_check (domainMCSPDU : Z) : M STREAM (bool * Z * Z) :=
  let MCSPDU := domainMCSPDU in
  let! (ok, domainMCSPDU, length) := mcs_read_domain_mcspdu_header domainMCSPDU in
  if negb ok then ret (false, domainMCSPDU, length)
  else if negb (domainMCSPDU =? MCSPDU) then ret (false, domainMCSPDU, length)
  else ret (true, domainMCSPDU, length).

Definition mcs_write_domain_mcspdu_header (domainMCSPDU length options : Z) : M STREAM unit :=
  tpkt_write_header length;;
  tpdu_write_data;;
  per_write_choice (Z.lor (Z.shiftl domainMCSPDU 2) options).

(** ** Domain parameters *)

Definition mcs_init_domain_parameters (maxChannelIds maxUserIds maxTokenIds maxMCSPDUsize : Z)
  : DomainParameters :=
  mkDomainParameters maxChannelIds maxUserIds maxTokenIds 1 0 1 maxMCSPDUsize 2.

(** [ber_read_integer(s, &field)], the result dropped. *)
Definition read_field (old : Z) : M STREAM Z :=
  let! (_, v) := ber_read_integer true (Some old) in use v.

Definition mcs_read_domain_parameters (d : DomainParameters) : M STREAM (bool * DomainParameters) :=
  ber_read_sequence_tag None;;
  let! a := read_field (maxChannelIds d) in
  let! b := read_field (maxUserIds d) in
  let! c := read_field (maxTokenIds d) in
  let! e := read_field (numPriorities d) in
  let! f := read_field (minThroughput d) in
  let! g := read_field (maxHeight d) in
  let! h := read_field (maxMCSPDUsize d) in
  let! i := read_field (protocolVersion d) in
  ret (true, mkDomainParameters a b c e f g h i).

Definition mcs_write_domain_parameters (d : DomainParameters) : M STREAM unit :=
  let! s := get in
  let! (_, tmps) := with_stream (stream_new (s_size s))
    (ber_write_integer (maxChannelIds d);;
     ber_write_integer (maxUserIds d);;
     ber_write_integer (maxTokenIds d);;
     ber_write_integer (numPriorities d);;
     ber_write_integer (minThroughput d);;
     ber_write_integer (maxHeight d);;
     ber_write_integer (maxMCSPDUsize d);;
     ber_write_integer (protocolVersion d)) in
  let length := stream_get_length tmps in
  ber_write_sequence_tag length;;
  let! bs := array_prefix (s_data tmps) length in
  stream_write bs.

(** ** Connect PDUs

    The user data of the connect PDUs is read by [gcc.c]; the readers below
    take that reader, over its own settings, as an argument. *)

Definition callingDomainSelector : list Z := [1].
Definition calledDomainSelector : list Z := [1].

Definition mcs_recv_connect_initial {Settings : Type}
    (gcc_read_conference_create_request : Settings -> M STREAM (bool * Settings))
    (mcs : rdpMcs) (settings : Settings) : M STREAM (bool * rdpMcs * Settings) :=
  tpkt_read_header;;
  let! li := tpdu_read_data in
  if li =? 0 then ret (false, mcs, settings) else
  let! (ok, length) := ber_read_application_tag MCS_TYPE_CONNECT_INITIAL None in
  if negb ok then ret (false, mcs, settings) else
  let! (ok, length) := ber_read_octet_string length in
  if negb ok then ret (false, mcs, settings) else
  let! n := use length in stream_seek n;;
  let! (ok, length) := ber_read_octet_string length in
  if negb ok then ret (false, mcs, settings) else
  let! n := use length in stream_seek n;;
  let! (ok, upwardFlag) := ber_read_boolean None in
  if negb ok then ret (false, mcs, settings) else
  let! (_, target) := mcs_read_domain_parameters (targetParameters mcs) in
  let! (_, minimum) := mcs_read_domain_parameters (minimumParameters mcs) in
  let! (_, maximum) := mcs_read_domain_parameters (maximumParameters mcs) in
  let mcs := mkMcs (user_id mcs) (domainParameters mcs) target minimum maximum in
  let! (ok, length) := ber_read_octet_string length in
  if negb ok then ret (false, mcs, settings) else
  let! (ok, settings) := gcc_read_conference_create_request settings in
  if negb ok then ret (false, mcs, settings) else
  ret (true, mcs, settings).

Definition mcs_write_connect_initial (mcs : rdpMcs) (user_data : STREAM) : M STREAM unit :=
  let! s := get in
  let! (_, tmps) := with_stream (stream_new (s_size s))
    (ber_write_octet_string callingDomainSelector 1;;
     ber_write_octet_string calledDomainSelector 1;;
     ber_write_boolean true;;
     mcs_write_domain_parameters (targetParameters mcs);;
     mcs_write_domain_parameters (minimumParameters mcs);;
     mcs_write_domain_parameters (maximumParameters mcs);;
     ber_write_octet_string (s_data user_data) (stream_get_length user_data)) in
  let length := stream_get_length tmps in
  ber_write_application_tag MCS_TYPE_CONNECT_INITIAL length;;
  let! bs := array_prefix (s_data tmps) length in
  stream_write bs.

(** Also returns the module, whose domain parameters become the target ones. *)
Definition mcs_write_connect_response (mcs : rdpMcs) (user_data : STREAM) : M STREAM rdpMcs :=
  let! s := get in
  let mcs' := set_domainParameters (targetParameters mcs) mcs in
  let! (_, tmps) := with_stream (stream_new (s_size s))
    (ber_write_enumerated 0 MCS_Result_enum_length;;
     ber_write_integer 0;;
     mcs_write_domain_parameters (domainParameters mcs');;
     ber_write_octet_string (s_data user_data) (stream_get_length user_data)) in
  let length := stream_get_length tmps in
  ber_write_application_tag MCS_TYPE_CONNECT_RESPONSE length;;
  let! bs := array_prefix (s_data tmps) length in
  stream_write bs;;
  ret mcs'.

Definition mcs_recv_connect_response {Settings : Type}
    (gcc_read_conference_create_response : Settings -> M STREAM (bool * Settings))
    (mcs : rdpMcs) (settings : Settings) : M STREAM (bool * rdpMcs * Settings) :=
  tpkt_read_header;;
  let! li := tpdu_read_data in
  if li =? 0 then ret (false, mcs, settings) else
  let! (_, length) := ber_read_application_tag MCS_TYPE_CONNECT_RESPONSE None in
  let! (_, result) := ber_read_enumerated None MCS_Result_enum_length in
  let! (_, calledConnectId) := ber_read_integer true None in
  let! (ok, d) := mcs_read_domain_parameters (domainParameters mcs) in
  let mcs := set_domainParameters d mcs in
  if negb ok then ret (false, mcs, settings) else
  let! (_, length) := ber_read_octet_string length in
  let! (ok, settings) := gcc_read_conference_create_response settings in
  if negb ok then ret (false, mcs, settings) else
  ret (true, mcs, settings).

(** ** Domain PDUs *)

Definition mcs_recv_erect_domain_request : M STREAM bool :=
  let! (ok, _, length) := mcs_read_domain_mcspdu_header_check DomainMCSPDU_ErectDomainRequest in
  ret ok.

Definition mcs_recv_attach_user_request : M STREAM bool :=
  let! (ok, _, length) := mcs_read_domain_mcspdu_header_check DomainMCSPDU_AttachUserRequest in
  ret ok.

Definition mcs_recv_attach_user_confirm (mcs : rdpMcs) : M STREAM (bool * rdpMcs) :=
  let! (ok, _, length) := mcs_read_domain_mcspdu_header_check DomainMCSPDU_AttachUserConfirm in
  if negb ok then ret (false, mcs) else
  let! (_, result) := per_read_enumerated None MCS_Result_enum_length in
  let! (_, uid) := per_read_integer16 MCS_BASE_CHANNEL_ID in
  ret (true, set_user_id uid mcs).

(** Returns the result and [*channel_id], [None] when it was not assigned. *)
Definition mcs_recv_channel_join_request (mcs : rdpMcs) : M STREAM (bool * option Z) :=
  let! (ok, _, length) := mcs_read_domain_mcspdu_header_check DomainMCSPDU_ChannelJoinRequest in
  if negb ok then ret (false, None) else
  let! (ok, uid) := per_read_integer16 MCS_BASE_CHANNEL_ID in
  if negb ok then ret (false, None) else
  if negb (uid =? user_id mcs) then ret (false, None) else
  let! (ok, channel_id) := per_read_integer16 0 in
  if negb ok then ret (false, Some channel_id) else
  ret (true, Some channel_id).

Definition mcs_recv_channel_join_confirm : M STREAM (bool * option Z) :=
  let! (ok, _, length) := mcs_read_domain_mcspdu_header_check DomainMCSPDU_ChannelJoinConfirm in
  if negb ok then ret (false, None) else
  let! (_, result) := per_read_enumerated None MCS_Result_enum_length in
  let! (_, initiator) := per_read_integer16 MCS_BASE_CHANNEL_ID in
  let! (_, requested) := per_read_integer16 0 in
  let! (_, channel_id) := per_read_integer16 0 in
  ret (true, Some channel_id).

(** The bodies the senders write into the transport's stream. *)
Definition erect_domain_request_pdu : M STREAM unit :=
  mcs_write_domain_mcspdu_header DomainMCSPDU_ErectDomainRequest 12 0;;
  per_write_integer 0;;
  per_write_integer 0.
Definition attach_user_request_pdu : M STREAM unit :=
  mcs_write_domain_mcspdu_header DomainMCSPDU_AttachUserRequest 8 0.
Definition attach_user_confirm_pdu (uid : Z) : M STREAM unit :=
  mcs_write_domain_mcspdu_header DomainMCSPDU_AttachUserConfirm 11 2;;
  per_write_enumerated 0 MCS_Result_enum_length;;
  per_write_integer16 uid MCS_BASE_CHANNEL_ID.
Definition channel_join_request_pdu (uid channel_id : Z) : M STREAM unit :=
  mcs_write_domain_mcspdu_header DomainMCSPDU_ChannelJoinRequest 12 0;;
  per_write_integer16 uid MCS_BASE_CHANNEL_ID;;
  per_write_integer16 channel_id 0.
Definition channel_join_confirm_pdu (uid channel_id : Z) : M STREAM unit :=
  mcs_write_domain_mcspdu_header DomainMCSPDU_ChannelJoinConfirm 15 2;;
  per_write_enumerated 0 MCS_Result_enum_length;;
  per_write_integer16 uid MCS_BASE_CHANNEL_ID;;
  per_write_integer16 channel_id 0;;
  per_write_integer16 channel_id 0.
Definition disconnect_provider_ultimatum_pdu : M STREAM unit :=
  mcs_write_domain_mcspdu_header DomainMCSPDU_DisconnectProviderUltimatum 9 1;;
  per_write_enumerated 0 0.

(** How the connect senders frame what [body] writes: leave seven bytes, write
    the body, then the TPKT and TPDU headers before it. *)
Definition connect_pdu {A} (body : M STREAM A) : M STREAM A :=
  patch_header 7 body (fun _ length => tpkt_write_header length;; tpdu_write_data).

Section senders.
Context {N : Type} `{Link N}.

Definition on_send {A} (c : M STREAM A) : M (rdpTransport N) A :=
  zoom t_send_stream set_send_stream c.

Definition mcs_send_erect_domain_request : M (rdpTransport N) bool :=
  transport_send_stream_init 12;;
  on_send erect_domain_request_pdu;;
  let! status := transport_send in
  ret (negb (status <? 0)).

Definition mcs_send_attach_user_request : M (rdpTransport N) bool :=
  transport_send_stream_init 8;;
  on_send attach_user_request_pdu;;
  let! status := transport_send in
  ret (negb (status <? 0)).

Definition mcs_send_attach_user_confirm (mcs : rdpMcs) : M (rdpTransport N) (bool * rdpMcs) :=
  transport_send_stream_init 11;;
  let mcs := set_user_id 1002 mcs in
  on_send (attach_user_confirm_pdu (user_id mcs));;
  transport_send;;
  ret (true, mcs).

Definition mcs_send_channel_join_request (mcs : rdpMcs) (channel_id : Z) : M (rdpTransport N) bool :=
  transport_send_stream_init 12;;
  on_send (channel_join_request_pdu (user_id mcs) channel_id);;
  let! status := transport_send in
  ret (negb (status <? 0)).

Definition mcs_send_channel_join_confirm (mcs : rdpMcs) (channel_id : Z) : M (rdpTransport N) bool :=
  transport_send_stream_init 15;;
  on_send (channel_join_confirm_pdu (user_id mcs) channel_id);;
  transport_send;;
  ret true.

Definition mcs_send_disconnect_provider_ultimatum : M (rdpTransport N) bool :=
  transport_send_stream_init 9;;
  on_send disconnect_provider_ultimatum_pdu;;
  transport_send;;
  ret true.

(** The client data blocks and the Conference Create Request around them are
    written by the two functions of [gcc.c] given as arguments. *)
Definition mcs_send_connect_initial (gcc_write_client_data_blocks : M STREAM unit)
    (gcc_write_conference_create_request : STREAM -> M STREAM unit)
    (mcs : rdpMcs) : M (rdpTransport N) bool :=
  let! (_, client_data) := with_stream (stream_new 512) gcc_write_client_data_blocks in
  let! (_, gcc_CCrq) := with_stream (stream_new 512)
                          (gcc_write_conference_create_request client_data) in
  transport_send_stream_init 1024;;
  on_send (connect_pdu (mcs_write_connect_initial mcs gcc_CCrq));;
  let! status := transport_send in
  ret (negb (status <? 0)).

(** Writing the server data blocks also settles the settings of the server. *)
Definition mcs_send_connect_response {Settings} (gcc_write_server_data_blocks : M STREAM Settings)
    (gcc_write_conference_create_response : STREAM -> M STREAM unit)
    (mcs : rdpMcs) : M (rdpTransport N) (bool * rdpMcs * Settings) :=
  let! (settings, server_data) := with_stream (stream_new 512) gcc_write_server_data_blocks in
  let! (_, gcc_CCrsp) := with_stream (stream_new 512)
                           (gcc_write_conference_create_response server_data) in
  transport_send_stream_init 1024;;
  let! mcs := on_send (connect_pdu (mcs_write_connect_response mcs gcc_CCrsp)) in
  transport_send;;
  ret (true, mcs, settings).

End senders.

Definition zero_parameters : DomainParameters := mkDomainParameters 0 0 0 0 0 0 0 0.

Definition mcs_new : rdpMcs :=
  mkMcs 0 zero_parameters
    (mcs_init_domain_parameters 34 2 0 0xFFFF)
    (mcs_init_domain_parameters 1 1 1 0x420)
    (mcs_init_domain_parameters 0xFFFF 0xFC17 0xFFFF 0xFFFF).

(** ** Encodings *)

Definition mcspdu_header_bytes (pdu length options : Z) : list Z :=
  tpkt_bytes length ++ tpdu_data_bytes ++ [Z.lor (Z.shiftl pdu 2) options mod 256].

Lemma Writes_mcspdu_header pdu length options :
  Writes (mcs_write_domain_mcspdu_header pdu length options)
    (mcspdu_header_bytes pdu length options) tt.
Proof. writes; reflexivity. Qed.

#[export] Hint Resolve Writes_mcspdu_header : writes.

(** The header of the PDU [pdu] passes the check for [want] iff they agree. *)
Lemma Reads_mcspdu_header_check want pdu length options :
  0 <= length < 65536 -> Z.shiftr (Z.lor (Z.shiftl pdu 2) options mod 256) 2 = pdu ->
  Reads (mcs_read_domain_mcspdu_header_check want) (mcspdu_header_bytes pdu length options)
    (pdu =? want, pdu, length).
Proof.
  intros Hl Hc. unfold mcs_read_domain_mcspdu_header_check.
  eapply Reads_last.
  - eapply Reads_bind; [apply Reads_tpkt, Hl|].
    eapply Reads_bind; [apply Reads_tpdu_data|]. cbn [Z.eqb].
    apply Reads_uint8_bind || eapply Reads_last; [apply Reads_uint8_bind, Reads_ret|].
    cbv beta iota. apply Reads_ret.
  - cbn [negb]. rewrite Hc. destruct (Z.eqb_spec pdu want); apply Reads_ret.
Qed.

(** *** Domain parameters *)

Definition parameter_list (d : DomainParameters) : list Z :=
  [maxChannelIds d; maxUserIds d; maxTokenIds d; numPriorities d;
   minThroughput d; maxHeight d; maxMCSPDUsize d; protocolVersion d].

Definition valid_parameters (d : DomainParameters) : Prop :=
  Forall (fun v => 0 <= v < 2 ^ 32) (parameter_list d).

Definition parameters_content (d : DomainParameters) : list Z :=
  concat (map integer_bytes (parameter_list d)).

Definition parameters_bytes (d : DomainParameters) : list Z :=
  sequence_bytes (len (parameters_content d)) ++ parameters_content d.

Lemma len_integer_bytes v : 3 <= len (integer_bytes v) <= 6.
Proof.
  unfold integer_bytes, integer_content.
  destruct (v <=? 0xFF); [|destruct (v <? 0xFF80); [|destruct (v <? 0xFF8000)]];
    unfold be16, be32; llia.
Qed.

Lemma len_parameters_content d : 0 < len (parameters_content d) <= 48.
Proof.
  unfold parameters_content, parameter_list. cbn [map concat]. lens.
  repeat match goal with |- context [len (integer_bytes ?v)] =>
    let H := fresh in pose proof (len_integer_bytes v) as H; revert H;
    generalize (len (integer_bytes v)) end. lia.
Qed.

Lemma Writes_parameters d : valid_parameters d ->
  WritesSz 48 (mcs_write_domain_parameters d) (parameters_bytes d) tt.
Proof.
  intros Hv. unfold valid_parameters, parameter_list in Hv.
  repeat (apply Forall_cons in Hv as [? Hv]).
  pose proof (len_parameters_content d) as Hl.
  eapply (WritesSz_temp 48 _ _ (parameters_content d)); [| |lia|].
  - apply Writes_Sz. writes; [|reflexivity].
    unfold parameters_content, parameter_list. cbn [map concat]. rewrite app_nil_r. reflexivity.
  - lia.
  - intros tmps -> Ha. rewrite Ha. apply Writes_Sz.
    eapply Writes_bind; [apply Writes_sequence_tag|].
    intros s Hs. rewrite bind_ret. apply Writes_write, Hs.
Qed.

(** The parameters as the peer reads them. *)
Definition parameters_read_back (d : DomainParameters) : DomainParameters :=
  mkDomainParameters (integer_read_back (maxChannelIds d)) (integer_read_back (maxUserIds d))
    (integer_read_back (maxTokenIds d)) (integer_read_back (numPriorities d))
    (integer_read_back (minThroughput d)) (integer_read_back (maxHeight d))
    (integer_read_back (maxMCSPDUsize d)) (integer_read_back (protocolVersion d)).

Lemma Reads_field v old : 0 <= v < 2 ^ 32 ->
  Reads (read_field old) (integer_bytes v) (integer_read_back v).
Proof.
  intros Hv. eapply Reads_last; [apply Reads_integer, Hv|]. apply Reads_ret.
Qed.

Lemma Reads_parameters d old : valid_parameters d ->
  Reads (mcs_read_domain_parameters old) (parameters_bytes d) (true, parameters_read_back d).
Proof.
  intros Hv. unfold valid_parameters, parameter_list in Hv.
  repeat (apply Forall_cons in Hv as [? Hv]).
  pose proof (len_parameters_content d) as Hl.
  eapply Reads_bind; [apply Reads_sequence_tag; lia|].
  unfold parameters_content, parameter_list. cbn [map concat].
  repeat (eapply Reads_bind; [apply Reads_field; assumption|]). apply Reads_ret.
Qed.

Lemma read_back_small v : v < 0xFF8000 -> integer_read_back v = v.
Proof. intros. unfold integer_read_back. branch. reflexivity. Qed.

(** *** Connect-Initial *)

Definition connect_initial_content (m : rdpMcs) (ud : list Z) : list Z :=
  octet_string_bytes [1] ++ octet_string_bytes [1] ++ boolean_bytes true ++
  parameters_bytes (targetParameters m) ++ parameters_bytes (minimumParameters m) ++
  parameters_bytes (maximumParameters m) ++ octet_string_bytes ud.

Definition connect_initial_bytes (m : rdpMcs) (ud : list Z) : list Z :=
  application_bytes MCS_TYPE_CONNECT_INITIAL (len (connect_initial_content m ud))
    ++ connect_initial_content m ud.

Definition valid_mcs (m : rdpMcs) : Prop :=
  valid_parameters (targetParameters m) /\ valid_parameters (minimumParameters m) /\
  valid_parameters (maximumParameters m).

Lemma len_connect_initial_content m ud : 0 < len (connect_initial_content m ud) <= 180 + len ud.
Proof.
  unfold connect_initial_content, parameters_bytes, sequence_bytes, octet_string_bytes, boolean_bytes.
  pose proof (len_parameters_content (targetParameters m)).
  pose proof (len_parameters_content (minimumParameters m)).
  pose proof (len_parameters_content (maximumParameters m)).
  lens. rewrite !len_ber_length_bytes. unfold _ber_skip_length.
  repeat match goal with |- context [if ?b then _ else _] => destruct b end; llia.
Qed.

(** The stream [user_data] holds [ud] before its position. *)
Definition user_data_is (user_data : STREAM) (ud : list Z) : Prop :=
  s_p user_data = len ud /\ len ud <= len (s_data user_data) /\
  take (length ud) (s_data user_data) = ud.

Lemma Writes_user_data user_data ud : user_data_is user_data ud ->
  Writes (ber_write_octet_string (s_data user_data) (stream_get_length user_data))
    (octet_string_bytes ud) tt.
Proof.
  intros (Hp & Hl & Hd). unfold stream_get_length. rewrite Hp.
  eapply Writes_eq; [apply Writes_octet_string; llia| |reflexivity].
  unfold len. rewrite Nat2Z.id, Hd. reflexivity.
Qed.

Lemma Writes_connect_initial m user_data ud n :
  valid_mcs m -> user_data_is user_data ud -> 180 + len ud <= n ->
  WritesSz n (mcs_write_connect_initial m user_data) (connect_initial_bytes m ud) tt.
Proof.
  intros (Ht & Hmi & Hma) Hud Hn. pose proof (len_nonneg ud).
  pose proof (len_connect_initial_content m ud) as Hl.
  assert (H48 : 48 <= n) by lia.
  eapply (WritesSz_temp n _ _ (connect_initial_content m ud)); [|lia|lia|].
  - eapply WritesSz_bind; [apply Writes_Sz, Writes_octet_string; vm_compute; split; discriminate|].
    eapply WritesSz_bind; [apply Writes_Sz, Writes_octet_string; vm_compute; split; discriminate|].
    eapply WritesSz_bind; [apply Writes_Sz, Writes_boolean|].
    do 3 (eapply WritesSz_bind; [apply (WritesSz_mono 48), Writes_parameters; assumption|]).
    apply Writes_Sz, Writes_user_data, Hud.
  - intros tmps -> Ha. rewrite Ha. apply Writes_Sz.
    eapply Writes_bind; [apply Writes_application_tag|].
    intros s Hs. rewrite bind_ret. apply Writes_write, Hs.
Qed.

(** The module after reading such a PDU. *)
Definition mcs_read_back (m m' : rdpMcs) : rdpMcs :=
  mkMcs (user_id m') (domainParameters m') (parameters_read_back (targetParameters m))
    (parameters_read_back (minimumParameters m)) (parameters_read_back (maximumParameters m)).

Lemma Reads_octet_string {A} bs old (k : bool * option Z -> M STREAM A) cs a :
  len bs < 65536 -> Reads (k (true, Some (len bs))) (bs ++ cs) a ->
  Reads (bind (ber_read_octet_string old) k) (octet_string_bytes bs ++ cs) a.
Proof.
  intros Hl Hk. unfold octet_string_bytes.
  replace ((0x04 :: ber_length_bytes (len bs) ++ bs) ++ cs)
    with ((0x04 :: ber_length_bytes (len bs)) ++ bs ++ cs)
    by (cbn [app]; rewrite <- app_assoc; reflexivity).
  eapply Reads_bind; [apply Reads_octet_string_tag; llia|exact Hk].
Qed.

Lemma Reads_connect_initial {Settings} (gcc : Settings -> M STREAM (bool * Settings))
    m m' set set' ud n :
  valid_mcs m -> 0 <= n < 65536 -> len (connect_initial_content m ud) < 65536 ->
  Reads (gcc set) ud (true, set') ->
  Reads (mcs_recv_connect_initial gcc m' set)
    (tpkt_bytes n ++ tpdu_data_bytes ++ connect_initial_bytes m ud)
    (true, mcs_read_back m m', set').
Proof.
  intros (Ht & Hmi & Hma) Hn Hlen Hg. unfold connect_initial_bytes, mcs_recv_connect_initial.
  assert (Hud : len ud < 65536).
  { unfold connect_initial_content, octet_string_bytes in Hlen. llia. }
  eapply Reads_bind; [apply Reads_tpkt, Hn|]. eapply Reads_bind; [apply Reads_tpdu_data|].
  cbn [Z.eqb].
  eapply Reads_bind; [apply Reads_application_tag; [unfold MCS_TYPE_CONNECT_INITIAL; lia|pose proof (len_connect_initial_content m ud); lia]|].
  cbn [negb]. unfold connect_initial_content at 1.
  do 2 (apply Reads_octet_string; [reflexivity|]; cbn [negb]; apply Reads_use;
        eapply Reads_bind; [apply Reads_seek; reflexivity|]).
  eapply Reads_bind; [apply Reads_boolean|]. cbn [negb].
  do 3 (eapply Reads_bind; [apply Reads_parameters; assumption|]).
  rewrite <- (app_nil_r (octet_string_bytes ud)).
  apply Reads_octet_string; [exact Hud|]. cbn [negb]. rewrite app_nil_r.
  eapply Reads_last; [exact Hg|]. cbn [negb]. apply Reads_ret.
Qed.

(** *** Connect-Response *)

Definition connect_response_content (m : rdpMcs) (ud : list Z) : list Z :=
  enumerated_bytes 0 ++ integer_bytes 0 ++ parameters_bytes (targetParameters m) ++ octet_string_bytes ud.

Definition connect_response_bytes (m : rdpMcs) (ud : list Z) : list Z :=
  application_bytes MCS_TYPE_CONNECT_RESPONSE (len (connect_response_content m ud)) ++ connect_response_content m ud.

Lemma len_connect_response_content m ud : 0 < len (connect_response_content m ud) <= 180 + len ud.
Proof.
  unfold connect_response_content, parameters_bytes, sequence_bytes, octet_string_bytes.
  pose proof (len_parameters_content (targetParameters m)). change (len (enumerated_bytes 0)) with 3.
  lens. change (len (integer_bytes 0)) with 3. change (len (enumerated_bytes 0)) with 3.
  rewrite !len_ber_length_bytes. unfold _ber_skip_length.
  repeat match goal with |- context [if ?b then _ else _] => destruct b end; llia.
Qed.

Lemma Writes_connect_response m user_data ud n :
  valid_mcs m -> user_data_is user_data ud -> 180 + len ud <= n ->
  WritesSz n (mcs_write_connect_response m user_data) (connect_response_bytes m ud)
    (set_domainParameters (targetParameters m) m).
Proof.
  intros (Ht & _ & _) Hud Hn. pose proof (len_nonneg ud).
  pose proof (len_connect_response_content m ud) as Hl.
  assert (H48 : 48 <= n) by lia.
  eapply (WritesSz_temp n _ _ (connect_response_content m ud)); [|lia|lia|].
  - eapply WritesSz_bind; [apply Writes_Sz, Writes_enumerated|].
    eapply WritesSz_bind; [apply Writes_Sz, Writes_integer; lia|].
    eapply WritesSz_bind; [apply (WritesSz_mono 48), Writes_parameters; assumption|].
    apply Writes_Sz, Writes_user_data, Hud.
  - intros tmps -> Ha. rewrite Ha. apply Writes_Sz.
    eapply Writes_bind; [apply Writes_application_tag|].
    intros s Hs. rewrite bind_ret. revert s Hs.
    change (Writes (stream_write (connect_response_content m ud);; ret (set_domainParameters (targetParameters m) m))
              (connect_response_content m ud) (set_domainParameters (targetParameters m) m)).
    eapply Writes_last; [apply Writes_write|apply Writes_ret].
Qed.

Lemma Reads_connect_response {Settings} (gcc : Settings -> M STREAM (bool * Settings)) m m' set set' ud n :
  valid_mcs m -> 0 <= n < 65536 -> len (connect_response_content m ud) < 65536 ->
  Reads (gcc set) ud (true, set') ->
  Reads (mcs_recv_connect_response gcc m' set)
    (tpkt_bytes n ++ tpdu_data_bytes ++ connect_response_bytes m ud)
    (true, set_domainParameters (parameters_read_back (targetParameters m)) m', set').
Proof.
  intros (Ht & _ & _) Hn Hlen Hg. unfold connect_response_bytes, mcs_recv_connect_response.
  assert (Hud : len ud < 65536) by (unfold connect_response_content, octet_string_bytes in Hlen; llia).
  eapply Reads_bind; [apply Reads_tpkt, Hn|]. eapply Reads_bind; [apply Reads_tpdu_data|]. cbn [Z.eqb].
  eapply Reads_bind; [apply Reads_application_tag;
    [unfold MCS_TYPE_CONNECT_RESPONSE; lia|pose proof (len_connect_response_content m ud); lia]|].
  unfold connect_response_content at 1.
  eapply Reads_bind; [apply Reads_enumerated; [split; discriminate || reflexivity|reflexivity]|].
  eapply Reads_bind; [apply Reads_integer; lia|].
  eapply Reads_bind; [apply Reads_parameters; assumption|]. cbn [negb].
  rewrite <- (app_nil_r (octet_string_bytes ud)). apply Reads_octet_string; [exact Hud|]. rewrite app_nil_r.
  eapply Reads_last; [exact Hg|]. cbn [negb]. apply Reads_ret.
Qed.

Lemma Writes_connect_pdu {A} n (body : M STREAM A) bs a : WritesSz n body bs a ->
  WritesSz n (connect_pdu body) ((tpkt_bytes (7 + len bs) ++ tpdu_data_bytes) ++ bs) a.
Proof.
  intros Hb. apply WritesSz_patch_header; [exact Hb| |reflexivity].
  eapply Writes_bind; auto with writes.
Qed.

(** *** Sending over a link *)

Section wire.
Context {N : Type} `{Link N} (l : TRANSPORT_LAYER) `{!LinkLaws N l}.

(** All of [bs] was sent and the layer is still open, or a prefix was sent and
    the layer is closed. *)
Definition sent_or_closed (t : rdpTransport N) (bs : list Z) (t' : rdpTransport N) : Prop :=
  (t_layer t' = l /\ link_outgoing (t_net t') = link_outgoing (t_net t) ++ bs) \/
  (t_layer t' = TRANSPORT_LAYER_CLOSED /\
   exists k, link_outgoing (t_net t') = link_outgoing (t_net t) ++ take k bs).

(** A PDU of at most [n] bytes, built at the start of the send stream and
    written out; [k] is what the caller does with the status. *)
Lemma send_sized_spec {A B} (t : rdpTransport N) n (c : M STREAM B) bs b
    (k : B -> Z -> M (rdpTransport N) A) :
  t_layer t = l -> stream_ok (t_send_stream t) -> s_size (t_send_stream t) <= 2 ^ 30 - 1 ->
  WritesSz n c bs b -> 1 <= len bs <= n -> n <= 2 ^ 30 ->
  exists status t',
    (transport_send_stream_init n;; let! b := on_send c in bind transport_send (k b)) t = k b status t' /\
    sent_or_closed t bs t' /\ (0 <= status <-> t_layer t' = l).
Proof.
  intros Hl Hok Hmax Hc Hbs Hn. pose proof (ok_p _ Hok). pose proof link_open as Hopen.
  assert (Hm : s_size (t_send_stream t) + Z.max n (s_size (t_send_stream t)) <= INT_MAX)
    by (unfold INT_MAX; lia).
  destruct (stream_check_size_run n (t_send_stream t) Hok ltac:(lia) Hm)
    as (s1 & Hcs & Hok1 & Hp1 & Hroom1 & Hsz1).
  pose proof (ok_p _ Hok1) as Hpp. pose proof (ok_size _ Hok1) as Hss.
  unfold transport_send_stream_init, on_send, zoom. unfold bind at 1 2. rewrite Hcs.
  cbn [stream_set_pos]. unfold bind at 1. cbn [t_send_stream set_send_stream].
  set (s2 := set_p s1 0).
  assert (Hr2 : room s2 (len bs)) by (unfold s2; split; cbn; lia).
  rewrite (Hc s2 Hr2) by (unfold s2; cbn; lia). unfold bind, transport_send. cbn [t_send_stream set_send_stream].
  destruct (transport_write_run l (set_send_stream (put bs s2) (set_send_stream s2 t)) (put bs s2))
    as (st & t' & s' & j & Hw & Hj & _ & Hout & Hge & Hlt).
  - exact Hl.
  - rewrite len_put by exact Hr2. destruct Hr2. cbn. lia.
  - rewrite Hw. exists st, (set_send_stream s' t'). split; [reflexivity|].
    unfold sent_or_closed. cbn [t_net set_send_stream t_layer] in *.
    assert (Hd : take (Z.to_nat (len bs)) (s_data (put bs s2)) = bs).
    { unfold len. rewrite Nat2Z.id. unfold put, s2. cbn [s_data s_p set_p].
      apply (splice_read 0). destruct Hr2 as [_ Hr2]. unfold s2 in Hr2. cbn in Hr2.
      unfold len in *. lia. }
    assert (Hput : s_p (put bs s2) = len bs) by reflexivity. rewrite Hput in *.
    destruct (Z.le_gt_cases 0 st) as [Hst|Hst].
    + destruct (Hge Hst) as (-> & Ht' & _). rewrite Hd in Hout.
      assert (Hl' : t_layer t' = l) by (rewrite Ht'; exact Hl). split; [left; auto|tauto].
    + specialize (Hlt Hst). split; [right|rewrite Hlt; split; [lia|congruence] ].
      split; [exact Hlt|]. exists (Z.to_nat j). rewrite Hout. f_equal.
      rewrite <- Hd at 2. rewrite take_take. f_equal. lia.
Qed.

Lemma send_pdu_spec {A} (t : rdpTransport N) n (c : M STREAM unit) bs
    (k : Z -> M (rdpTransport N) A) :
  t_layer t = l -> stream_ok (t_send_stream t) -> s_size (t_send_stream t) <= 2 ^ 30 - 1 ->
  Writes c bs tt -> 1 <= len bs <= n -> n <= 2 ^ 30 ->
  exists status t',
    (transport_send_stream_init n;; on_send c;; bind transport_send k) t = k status t' /\
    sent_or_closed t bs t' /\ (0 <= status <-> t_layer t' = l).
Proof. intros Hl Hok Hmax Hc. apply (send_sized_spec t n c bs tt (fun _ => k)); auto using Writes_Sz. Qed.

End wire.

(** The bytes of the six domain PDUs. *)
Definition erect_domain_request_bytes : list Z :=
  mcspdu_header_bytes DomainMCSPDU_ErectDomainRequest 12 0 ++ [1; 0; 1; 0].
Definition attach_user_request_bytes : list Z :=
  mcspdu_header_bytes DomainMCSPDU_AttachUserRequest 8 0.
Definition attach_user_confirm_bytes (uid : Z) : list Z :=
  mcspdu_header_bytes DomainMCSPDU_AttachUserConfirm 11 2 ++ [0] ++ be16 (uid - MCS_BASE_CHANNEL_ID).
Definition channel_join_request_bytes (uid ch : Z) : list Z :=
  mcspdu_header_bytes DomainMCSPDU_ChannelJoinRequest 12 0 ++
  be16 (uid - MCS_BASE_CHANNEL_ID) ++ be16 (ch - 0).
Definition channel_join_confirm_bytes (uid ch : Z) : list Z :=
  mcspdu_header_bytes DomainMCSPDU_ChannelJoinConfirm 15 2 ++ [0] ++
  be16 (uid - MCS_BASE_CHANNEL_ID) ++ be16 (ch - 0) ++ be16 (ch - 0).
Definition disconnect_provider_ultimatum_bytes : list Z :=
  mcspdu_header_bytes DomainMCSPDU_DisconnectProviderUltimatum 9 1 ++ [0].

Lemma Writes_erect_domain_request :
  Writes erect_domain_request_pdu erect_domain_request_bytes tt.
Proof.
  assert (H0 : 0 <= 0 < 2 ^ 32) by lia. pose proof (Writes_per_integer 0 H0).
  writes; reflexivity.
Qed.
Lemma Writes_attach_user_request : Writes attach_user_request_pdu attach_user_request_bytes tt.
Proof. writes; reflexivity. Qed.
Lemma Writes_attach_user_confirm uid :
  Writes (attach_user_confirm_pdu uid) (attach_user_confirm_bytes uid) tt.
Proof. writes; reflexivity. Qed.
Lemma Writes_channel_join_request uid ch :
  Writes (channel_join_request_pdu uid ch) (channel_join_request_bytes uid ch) tt.
Proof. writes; reflexivity. Qed.
Lemma Writes_channel_join_confirm uid ch :
  Writes (channel_join_confirm_pdu uid ch) (channel_join_confirm_bytes uid ch) tt.
Proof. writes; reflexivity. Qed.
Lemma Writes_disconnect_provider_ultimatum :
  Writes disconnect_provider_ultimatum_pdu disconnect_provider_ultimatum_bytes tt.
Proof. writes; reflexivity. Qed.

Lemma Reads_header_only pdu n o : 0 <= n < 65536 ->
  Z.shiftr (Z.lor (Z.shiftl pdu 2) o mod 256) 2 = pdu ->
  Reads (let! (ok, _, length) := mcs_read_domain_mcspdu_header_check pdu in ret ok)
    (mcspdu_header_bytes pdu n o) true.
Proof.
  intros Hn Hp. eapply Reads_last; [apply Reads_mcspdu_header_check; assumption|].
  rewrite Z.eqb_refl. apply Reads_ret.
Qed.

Lemma Reads_attach_user_confirm m uid : MCS_BASE_CHANNEL_ID <= uid < 65536 ->
  Reads (mcs_recv_attach_user_confirm m) (attach_user_confirm_bytes uid)
    (true, set_user_id uid m).
Proof.
  intros Hu. eapply Reads_bind; [apply Reads_mcspdu_header_check; [lia|reflexivity]|]. cbn [Z.eqb negb].
  eapply Reads_bind; [apply Reads_per_enumerated|]. cbv beta iota.
  eapply Reads_last; [apply Reads_integer16; unfold MCS_BASE_CHANNEL_ID in *; lia|].
  apply Reads_ret.
Qed.

Lemma Reads_channel_join_request m uid ch :
  MCS_BASE_CHANNEL_ID <= uid < 65536 -> 0 <= ch < 65536 -> uid = user_id m ->
  Reads (mcs_recv_channel_join_request m) (channel_join_request_bytes uid ch) (true, Some ch).
Proof.
  intros Hu Hc He. eapply Reads_bind; [apply Reads_mcspdu_header_check; [lia|reflexivity]|].
  cbn [Z.eqb negb].
  eapply Reads_bind; [apply Reads_integer16; unfold MCS_BASE_CHANNEL_ID in *; lia|].
  cbn [negb]. rewrite He, Z.eqb_refl. cbn [negb].
  eapply Reads_last; [apply Reads_integer16; lia|]. apply Reads_ret.
Qed.

Lemma Reads_channel_join_confirm uid ch :
  MCS_BASE_CHANNEL_ID <= uid < 65536 -> 0 <= ch < 65536 ->
  Reads mcs_recv_channel_join_confirm (channel_join_confirm_bytes uid ch) (true, Some ch).
Proof.
  intros Hu Hc. eapply Reads_bind; [apply Reads_mcspdu_header_check; [lia|reflexivity]|].
  cbn [Z.eqb negb].
  eapply Reads_bind; [apply Reads_per_enumerated|]. cbv beta iota.
  eapply Reads_bind; [apply Reads_integer16; unfold MCS_BASE_CHANNEL_ID in *; lia|]. cbv beta iota.
  eapply Reads_bind; [apply Reads_integer16; lia|]. cbv beta iota.
  eapply Reads_last; [apply Reads_integer16; lia|]. apply Reads_ret.
Qed.

(** ** Claims *)

(** Each domain PDU sender, run on a transport whose link obeys its laws,
    either puts on the wire exactly the bytes of its PDU, or closes the layer
    after a prefix of them; the three that look at the status report which. *)
Theorem mcs_senders_wire {N} `{Link N} l `{!LinkLaws N l} (t : rdpTransport N) mcs ch :
  t_layer t = l -> stream_ok (t_send_stream t) -> s_size (t_send_stream t) <= 2 ^ 30 - 1 ->
  (exists ok t', mcs_send_erect_domain_request t = Done (ok, t') /\
     sent_or_closed l t erect_domain_request_bytes t' /\ (ok = true <-> t_layer t' = l)) /\
  (exists ok t', mcs_send_attach_user_request t = Done (ok, t') /\
     sent_or_closed l t attach_user_request_bytes t' /\ (ok = true <-> t_layer t' = l)) /\
  (exists ok t', mcs_send_channel_join_request mcs ch t = Done (ok, t') /\
     sent_or_closed l t (channel_join_request_bytes (user_id mcs) ch) t' /\
     (ok = true <-> t_layer t' = l)) /\
  (exists t', mcs_send_attach_user_confirm mcs t = Done ((true, set_user_id 1002 mcs), t') /\
     sent_or_closed l t (attach_user_confirm_bytes 1002) t') /\
  (exists t', mcs_send_channel_join_confirm mcs ch t = Done (true, t') /\
     sent_or_closed l t (channel_join_confirm_bytes (user_id mcs) ch) t') /\
  (exists t', mcs_send_disconnect_provider_ultimatum t = Done (true, t') /\
     sent_or_closed l t disconnect_provider_ultimatum_bytes t').
Proof.
  intros Hl Hok Hsz.
  assert (Hb : forall st (tl : TRANSPORT_LAYER), (0 <= st <-> tl = l) ->
                 (negb (st <? 0) = true <-> tl = l))
    by (intros st tl <-; destruct (Z.ltb_spec st 0); cbn; intuition lia).
  repeat split.
  - destruct (send_pdu_spec l t 12 _ _ (fun st => ret (negb (st <? 0))) Hl Hok Hsz
                Writes_erect_domain_request ltac:(lens_lia) ltac:(lia))
      as (st & t' & E & Hs & Hi).
    exists (negb (st <? 0)), t'. auto.
  - destruct (send_pdu_spec l t 8 _ _ (fun st => ret (negb (st <? 0))) Hl Hok Hsz
                Writes_attach_user_request ltac:(lens_lia) ltac:(lia))
      as (st & t' & E & Hs & Hi).
    exists (negb (st <? 0)), t'. auto.
  - destruct (send_pdu_spec l t 12 _ _ (fun st => ret (negb (st <? 0))) Hl Hok Hsz
                (Writes_channel_join_request (user_id mcs) ch) ltac:(lens_lia) ltac:(lia))
      as (st & t' & E & Hs & Hi).
    exists (negb (st <? 0)), t'. auto.
  - destruct (send_pdu_spec l t 11 _ _ (fun _ => ret (true, set_user_id 1002 mcs)) Hl Hok Hsz
                (Writes_attach_user_confirm 1002) ltac:(lens_lia) ltac:(lia))
      as (st & t' & E & Hs & _).
    exists t'. auto.
  - destruct (send_pdu_spec l t 15 _ _ (fun _ => ret true) Hl Hok Hsz
                (Writes_channel_join_confirm (user_id mcs) ch) ltac:(lens_lia) ltac:(lia))
      as (st & t' & E & Hs & _).
    exists t'. auto.
  - destruct (send_pdu_spec l t 9 _ _ (fun _ => ret true) Hl Hok Hsz
                Writes_disconnect_provider_ultimatum ltac:(lens_lia) ltac:(lia))
      as (st & t' & E & Hs & _).
    exists t'. auto.
Qed.

Definition small_tcp_transport (tx : list send_result) : rdpTransport rdpTcp := tcp_transport [] tx.

Lemma mcs_senders_wire_witness :
  exists ok t', mcs_send_channel_join_request (set_user_id 1007 mcs_new) 1003
                  (small_tcp_transport [SendUpTo 5; SendAgain; SendUpTo 100]) = Done (ok, t') /\
     sent_or_closed TRANSPORT_LAYER_TCP (small_tcp_transport [SendUpTo 5; SendAgain; SendUpTo 100])
       [3; 0; 0; 12; 2; 0xF0; 0x80; 56; 0; 6; 3; 0xEB] t' /\
     (ok = true <-> t_layer t' = TRANSPORT_LAYER_TCP).
Proof.
  apply (mcs_senders_wire TRANSPORT_LAYER_TCP
           (small_tcp_transport [SendUpTo 5; SendAgain; SendUpTo 100]) (set_user_id 1007 mcs_new) 1003).
  - reflexivity.
  - split; vm_compute; try split; try discriminate. repeat constructor; discriminate.
  - vm_compute. discriminate.
Defined.

(** The TPKT length of every domain PDU is the number of its bytes. *)
Theorem mcs_pdu_lengths uid ch :
  Forall (fun bs => exists rest, bs = tpkt_bytes (len bs) ++ rest)
    [erect_domain_request_bytes; attach_user_request_bytes; attach_user_confirm_bytes uid;
     channel_join_request_bytes uid ch; channel_join_confirm_bytes uid ch;
     disconnect_provider_ultimatum_bytes].
Proof. repeat constructor; eexists; reflexivity. Qed.

Section agreement.
Context (s : STREAM) (Hroom : room s 15) (Hsize : s_p s + 15 <= s_size s).

Lemma exchange {R A} (wr : M STREAM R) (rd : M STREAM A) bs cs r a :
  Writes wr (bs ++ cs) r -> Reads rd bs a -> len (bs ++ cs) <= 15 ->
  received wr rd s = Some a.
Proof.
  intros Hw Hr Hl. eapply received_prefix; [apply Hw|exact Hr| |lia];
    apply (room_le _ _ _ Hroom); lia.
Qed.

Lemma exchange_all {R A} (wr : M STREAM R) (rd : M STREAM A) bs r a :
  Writes wr bs r -> Reads rd bs a -> len bs <= 15 -> received wr rd s = Some a.
Proof.
  intros Hw Hr Hl. apply (exchange wr rd bs [] r); rewrite ?app_nil_r; assumption.
Qed.

(** C28. Attaching a user and joining a channel: every PDU of the exchange is
    accepted by its receiver; afterwards client and server hold the same user
    id, and the channel the server reads, and the one the client reads back, is
    the one the client asked for. *)
Theorem mcs_join_agreement client server ch :
  0 <= ch < 65536 ->
  let server' := set_user_id 1002 server in
  let client' := set_user_id 1002 client in
  received erect_domain_request_pdu mcs_recv_erect_domain_request s = Some true /\
  received attach_user_request_pdu mcs_recv_attach_user_request s = Some true /\
  received (attach_user_confirm_pdu (user_id server')) (mcs_recv_attach_user_confirm client) s
    = Some (true, client') /\
  received (channel_join_request_pdu (user_id client') ch)
      (mcs_recv_channel_join_request server') s = Some (true, Some ch) /\
  received (channel_join_confirm_pdu (user_id server') ch) mcs_recv_channel_join_confirm s
    = Some (true, Some ch).
Proof.
  intros Hch server' client'.
  assert (Hu : MCS_BASE_CHANNEL_ID <= 1002 < 65536) by (unfold MCS_BASE_CHANNEL_ID; lia).
  repeat split.
  - eapply exchange; [apply Writes_erect_domain_request|apply Reads_header_only; [lia|reflexivity]|].
    lens_lia.
  - eapply exchange_all; [apply Writes_attach_user_request
                         |apply Reads_header_only; [lia|reflexivity]|lens_lia].
  - eapply exchange_all; [apply Writes_attach_user_confirm
                         |apply Reads_attach_user_confirm, Hu|lens_lia].
  - eapply exchange_all; [apply Writes_channel_join_request
                         |apply Reads_channel_join_request; auto|lens_lia].
  - eapply exchange_all; [apply Writes_channel_join_confirm
                         |apply Reads_channel_join_confirm; auto|lens_lia].
Qed.

(** A join request that names another user than the one the server
    attached is refused, and no channel id is assigned. *)
Theorem mcs_join_refuses_other_user server uid ch :
  MCS_BASE_CHANNEL_ID <= uid < 65536 -> uid <> user_id server ->
  received (channel_join_request_pdu uid ch) (mcs_recv_channel_join_request server) s
    = Some (false, None).
Proof.
  intros Hu Hne.
  eapply (exchange _ _ (mcspdu_header_bytes DomainMCSPDU_ChannelJoinRequest 12 0 ++
                          be16 (uid - MCS_BASE_CHANNEL_ID)) (be16 (ch - 0)));
    [rewrite <- app_assoc; apply Writes_channel_join_request| |lens_lia].
  eapply Reads_bind; [apply Reads_mcspdu_header_check; [lia|reflexivity]|]. cbn [Z.eqb negb].
  eapply Reads_last; [apply Reads_integer16; unfold MCS_BASE_CHANNEL_ID in *; lia|].
  cbn [negb]. rewrite (proj2 (Z.eqb_neq _ _) Hne). cbn [negb]. apply Reads_ret.
Qed.

End agreement.

Lemma mcs_join_agreement_witness :
  received (channel_join_request_pdu 1002 1005)
      (mcs_recv_channel_join_request (set_user_id 1002 mcs_new)) (stream_new 64)
    = Some (true, Some 1005).
Proof.
  apply (mcs_join_agreement (stream_new 64) ltac:(lens_lia) ltac:(lens_lia) mcs_new mcs_new 1005).
  lia.
Defined.

Lemma mcs_join_refuses_other_user_witness :
  received (channel_join_request_pdu 1007 1005)
      (mcs_recv_channel_join_request (set_user_id 1002 mcs_new)) (stream_new 64)
    = Some (false, None).
Proof.
  apply (mcs_join_refuses_other_user (stream_new 64) ltac:(lens_lia) ltac:(lens_lia)).
  - unfold MCS_BASE_CHANNEL_ID. lia.
  - discriminate.
Defined.

(** Domain parameters written by [mcs_write_domain_parameters] are read
    back by [mcs_read_domain_parameters], field by field through the BER
    INTEGER codec; fields below 0xFF8000 come back unchanged. *)
Theorem mcs_domain_parameters_roundtrip d old s :
  valid_parameters d -> 48 <= s_size s -> room s (len (parameters_bytes d)) ->
  s_p s + len (parameters_bytes d) <= s_size s ->
  write_then_read (mcs_write_domain_parameters d) (mcs_read_domain_parameters old) s
    = Done ((true, parameters_read_back d), put (parameters_bytes d) s) /\
  (Forall (fun v => v < 0xFF8000) (parameter_list d) -> parameters_read_back d = d).
Proof.
  intros Hv H48 Hroom Hsize. split.
  - eapply run_then_read; eauto using Reads_parameters.
    apply Writes_parameters; assumption.
  - destruct d. unfold parameter_list. cbn. intros Hall.
    repeat (apply Forall_cons in Hall as [? Hall]).
    unfold parameters_read_back. cbn. rewrite !read_back_small by assumption. reflexivity.
Qed.

Lemma mcs_domain_parameters_roundtrip_witness :
  write_then_read (mcs_write_domain_parameters (maximumParameters mcs_new))
      (mcs_read_domain_parameters zero_parameters) (stream_new 64)
    = Done ((true, maximumParameters mcs_new),
            put (parameters_bytes (maximumParameters mcs_new)) (stream_new 64)).
Proof.
  destruct (mcs_domain_parameters_roundtrip (maximumParameters mcs_new) zero_parameters (stream_new 64))
    as [H _].
  - repeat constructor; vm_compute; discriminate.
  - lens_lia.
  - lens_lia.
  - lens_lia.
  - exact H.
Defined.

(** The Connect-Initial a client frames is accepted by the server, which
    ends up with the client's three sets of domain parameters and with the
    settings the GCC reader makes of the very user data the client sent; the
    TPKT length is the length of the whole PDU. *)
Theorem mcs_connect_initial_roundtrip {Settings} (gcc : Settings -> M STREAM (bool * Settings))
    m m' set set' user_data ud s :
  let pdu := (tpkt_bytes (7 + len (connect_initial_bytes m ud)) ++ tpdu_data_bytes)
               ++ connect_initial_bytes m ud in
  valid_mcs m -> user_data_is user_data ud -> Reads (gcc set) ud (true, set') ->
  len pdu < 65536 -> 180 + len ud <= s_size s -> room s (len pdu) ->
  s_p s + len pdu <= s_size s ->
  write_then_read (connect_pdu (mcs_write_connect_initial m user_data))
      (mcs_recv_connect_initial gcc m' set) s
    = Done ((true, mcs_read_back m m', set'), put pdu s) /\
  len pdu = 7 + len (connect_initial_bytes m ud).
Proof.
  intros pdu Hm Hud Hg Hlen Hsz Hroom Hsize.
  assert (Hpdu : len pdu = 7 + len (connect_initial_bytes m ud)) by (unfold pdu; rewrite len_app; reflexivity).
  split; [|exact Hpdu].
  assert (Hc : len (connect_initial_content m ud) <= len (connect_initial_bytes m ud))
    by (unfold connect_initial_bytes; llia).
  eapply run_then_read; [| |exact Hroom|exact Hsize].
  - eapply Writes_connect_pdu; [|exact Hroom|exact Hsz].
    apply Writes_connect_initial; [exact Hm|exact Hud|apply Z.le_refl].
  - unfold pdu. rewrite <- app_assoc.
    pose proof (len_nonneg (connect_initial_bytes m ud)).
    apply Reads_connect_initial; [exact Hm|lia|lia|exact Hg].
Qed.

(** A reader of user data that is three bytes long. *)
Definition gcc_three_bytes (_ : list Z) : M STREAM (bool * list Z) :=
  let! bs := stream_read 3 in ret (true, bs).

Lemma mcs_connect_initial_roundtrip_witness :
  exists s',
    write_then_read
      (connect_pdu (mcs_write_connect_initial mcs_new (mkSTREAM 8 3 [7; 8; 9; 0; 0; 0; 0; 0])))
      (mcs_recv_connect_initial gcc_three_bytes mcs_new []) (stream_new 512)
    = Done ((true, mcs_new, [7; 8; 9]), s').
Proof.
  eexists.
  destruct (mcs_connect_initial_roundtrip gcc_three_bytes mcs_new mcs_new [] [7; 8; 9]
           (mkSTREAM 8 3 [7; 8; 9; 0; 0; 0; 0; 0]) [7; 8; 9] (stream_new 512)) as [H _];
    [| | | | | | |exact H].
  - split; [|split]; repeat constructor; vm_compute; discriminate.
  - repeat split; vm_compute; discriminate.
  - eapply Reads_last; [apply Reads_read; reflexivity|apply Reads_ret].
  - lens_lia.
  - lens_lia.
  - lens_lia.
  - lens_lia.
Defined.
