(* ===== verification/Nego.v ===== *)
(** Security negotiation, [libfreerdp-core/nego.c]: the client tries NLA, then
    TLS, then standard RDP security, as far as they are enabled; the server
    answers with the protocol it selected. *)

From S2P Require Import Prelude.
From S2P Require Import Stream.
From S2P Require Import X224.
From S2P Require Import Transport.
From S2P Require Import Settings.

(** ** Data of [nego.h] *)

Definition PROTOCOL_RDP : Z := 0.
Definition PROTOCOL_TLS : Z := 1.
Definition PROTOCOL_NLA : Z := 2.

Definition SSL_REQUIRED_BY_SERVER : Z := 1.

Inductive NEGO_STATE : Type :=
| NEGO_STATE_INITIAL
| NEGO_STATE_NLA
| NEGO_STATE_TLS
| NEGO_STATE_RDP
| NEGO_STATE_FAIL
| NEGO_STATE_FINAL.

#[global] Instance NEGO_STATE_eq_dec : EqDecision NEGO_STATE.
Proof. solve_decision. Defined.

Definition TYPE_RDP_NEG_REQ : Z := 1.
Definition TYPE_RDP_NEG_RSP : Z := 2.
Definition TYPE_RDP_NEG_FAILURE : Z := 3.
Definition EXTENDED_CLIENT_DATA_SUPPORTED : Z := 1.

(** [struct rdp_nego]; [enabled_protocols] is the array of three bytes, a
    cookie is the characters before the terminating NUL, and the transport and
    its settings are kept beside it in [negoSys]. *)
Record rdpNego : Type := mkNego {
  n_port : Z;
  n_flags : Z;
  n_hostname : list Z;
  n_cookie : option (list Z);
  n_state : NEGO_STATE;
  n_tcp_connected : bool;
  n_routing_token : option (list Z);
  n_selected : Z;
  n_requested : Z;
  n_enabled_rdp : bool;
  n_enabled_tls : bool;
  n_enabled_nla : bool;
}.

Definition set_state (v : NEGO_STATE) (n : rdpNego) : rdpNego :=
  mkNego (n_port n) (n_flags n) (n_hostname n) (n_cookie n) v (n_tcp_connected n)
    (n_routing_token n) (n_selected n) (n_requested n) (n_enabled_rdp n) (n_enabled_tls n)
    (n_enabled_nla n).
Definition set_tcp_connected (v : bool) (n : rdpNego) : rdpNego :=
  mkNego (n_port n) (n_flags n) (n_hostname n) (n_cookie n) (n_state n) v
    (n_routing_token n) (n_selected n) (n_requested n) (n_enabled_rdp n) (n_enabled_tls n)
    (n_enabled_nla n).
Definition set_requested (v : Z) (n : rdpNego) : rdpNego :=
  mkNego (n_port n) (n_flags n) (n_hostname n) (n_cookie n) (n_state n) (n_tcp_connected n)
    (n_routing_token n) (n_selected n) v (n_enabled_rdp n) (n_enabled_tls n) (n_enabled_nla n).
Definition set_selected (flags v : Z) (n : rdpNego) : rdpNego :=
  mkNego (n_port n) flags (n_hostname n) (n_cookie n) (n_state n) (n_tcp_connected n)
    (n_routing_token n) v (n_requested n) (n_enabled_rdp n) (n_enabled_tls n) (n_enabled_nla n).
Definition set_enabled (rdp tls nla : bool) (n : rdpNego) : rdpNego :=
  mkNego (n_port n) (n_flags n) (n_hostname n) (n_cookie n) (n_state n) (n_tcp_connected n)
    (n_routing_token n) (n_selected n) (n_requested n) rdp tls nla.

(** The fields of [rdp_settings] that negotiation reads or writes. *)
Record negoSettings : Type := mkSettings {
  st_tsg : option (list Z);
  st_requested_protocols : Z;
  st_selected_protocol : Z;
  st_negotiationFlags : Z;
  st_tls_security : bool;
  st_nla_security : bool;
  st_rdp_security : bool;
  st_encryption : bool;
  st_encryption_method : Z;
  st_encryption_level : Z;
}.

(** ** Construction *)

(** [nego_init]; that it also installs [nego_recv] as the transport's callback
    is reflected by [nego_recv_response] calling it. *)
Definition nego_init (n : rdpNego) : rdpNego :=
  mkNego (n_port n) 0 (n_hostname n) (n_cookie n) NEGO_STATE_INITIAL (n_tcp_connected n)
    (n_routing_token n) (n_selected n) PROTOCOL_RDP (n_enabled_rdp n) (n_enabled_tls n)
    (n_enabled_nla n).

Definition nego_new : rdpNego :=
  nego_init (mkNego 0 0 [] None NEGO_STATE_INITIAL false None 0 0 false false false).

Definition nego_set_target (hostname : list Z) (port : Z) (n : rdpNego) : rdpNego :=
  mkNego port (n_flags n) hostname (n_cookie n) (n_state n) (n_tcp_connected n)
    (n_routing_token n) (n_selected n) (n_requested n) (n_enabled_rdp n) (n_enabled_tls n)
    (n_enabled_nla n).
Definition nego_enable_rdp (enable_rdp : bool) (n : rdpNego) : rdpNego :=
  set_enabled enable_rdp (n_enabled_tls n) (n_enabled_nla n) n.
Definition nego_enable_tls (enable_tls : bool) (n : rdpNego) : rdpNego :=
  set_enabled (n_enabled_rdp n) enable_tls (n_enabled_nla n) n.
Definition nego_enable_nla (enable_nla : bool) (n : rdpNego) : rdpNego :=
  set_enabled (n_enabled_rdp n) (n_enabled_tls n) enable_nla n.
Definition nego_set_routing_token (routing_token : option (list Z)) (n : rdpNego) : rdpNego :=
  mkNego (n_port n) (n_flags n) (n_hostname n) (n_cookie n) (n_state n) (n_tcp_connected n)
    routing_token (n_selected n) (n_requested n) (n_enabled_rdp n) (n_enabled_tls n)
    (n_enabled_nla n).
Definition nego_set_cookie (cookie : option (list Z)) (n : rdpNego) : rdpNego :=
  mkNego (n_port n) (n_flags n) (n_hostname n) cookie (n_state n) (n_tcp_connected n)
    (n_routing_token n) (n_selected n) (n_requested n) (n_enabled_rdp n) (n_enabled_tls n)
    (n_enabled_nla n).

(** ** Messages *)

Definition nego_process_negotiation_request (n : rdpNego) : M STREAM rdpNego :=
  let! flags := stream_read_uint8 in
  let! length := stream_read_uint16 in
  let! requested := stream_read_uint32 in
  ret (set_state NEGO_STATE_FINAL (set_requested requested n)).

Definition nego_process_negotiation_response (n : rdpNego) : M STREAM rdpNego :=
  let! flags := stream_read_uint8 in
  let! length := stream_read_uint16 in
  let! selected := stream_read_uint32 in
  ret (set_state NEGO_STATE_FINAL (set_selected flags selected n)).

Definition nego_process_negotiation_failure (n : rdpNego) : M STREAM rdpNego :=
  let! flags := stream_read_uint8 in
  let! length := stream_read_uint16 in
  let! failureCode := stream_read_uint32 in
  ret (set_state NEGO_STATE_FAIL n).

Definition nego_recv (n : rdpNego) : M STREAM (bool * rdpNego) :=
  let! length := tpkt_read_header in
  if length =? 0 then ret (false, n) else
  let! li := tpdu_read_connection_confirm in
  if 6 <? li then
    let! type := stream_read_uint8 in
    if type =? TYPE_RDP_NEG_RSP then
      let! n := nego_process_negotiation_response n in ret (true, n)
    else if type =? TYPE_RDP_NEG_FAILURE then
      let! n := nego_process_negotiation_failure n in ret (true, n)
    else ret (true, n)
  else ret (true, set_state NEGO_STATE_FINAL n).

(** The loop over the routing token or cookie. *)
Fixpoint skip_cookie (fuel : nat) : M STREAM unit :=
  match fuel with
  | O => fail Diverges
  | S fuel' =>
      let! avail := left_bytes in
      if 0 <? avail then
        let! c := stream_read_uint8 in
        if negb (c =? 0x0D) then skip_cookie fuel' else
        let! c := stream_peek_uint8 in
        if negb (c =? 0x0A) then skip_cookie fuel' else
        stream_seek 1
      else ret tt
  end.

(** Every round consumes a byte, so that as many rounds as bytes, and a last
    one, are enough. *)
Definition nego_read_request (n : rdpNego) : M STREAM (bool * rdpNego) :=
  tpkt_read_header;;
  let! li := tpdu_read_connection_request in
  let! avail := left_bytes in
  if negb (li =? avail + 6) then ret (false, n) else
  (if 8 <? avail then skip_cookie (S (Z.to_nat avail)) else ret tt);;
  let! avail := left_bytes in
  if 8 <=? avail then
    let! type := stream_read_uint8 in
    if negb (type =? TYPE_RDP_NEG_REQ) then ret (false, n) else
    let! n := nego_process_negotiation_request n in
    ret (true, n)
  else ret (true, n).

(** [Cookie: mstshash=] *)
Definition cookie_prefix : list Z :=
  [67; 111; 111; 107; 105; 101; 58; 32; 109; 115; 116; 115; 104; 97; 115; 104; 61].

(** What [nego_send_negotiation_request] writes into the stream. The variable
    [length] of the source is the distance the header is given. *)
Definition negotiation_request_pdu (n : rdpNego) : M STREAM unit :=
  patch_header TPDU_CONNECTION_REQUEST_LENGTH
    ((match n_routing_token n with
      | Some token => stream_write token
      | None =>
          match n_cookie n with
          | Some cookie =>
              stream_write cookie_prefix;;
              stream_write cookie;;
              stream_write_uint8 0x0D;;
              stream_write_uint8 0x0A
          | None => ret tt
          end
      end);;
     if PROTOCOL_RDP <? n_requested n then
       stream_write_uint8 TYPE_RDP_NEG_REQ;;
       stream_write_uint8 0;;
       stream_write_uint16 8;;
       stream_write_uint32 (n_requested n)
     else ret tt)
    (fun _ length =>
       tpkt_write_header length;;
       tpdu_write_connection_request (length - 5)).

(** What [nego_send_negotiation_response] writes into the stream; the result
    is its local [ret]. *)
Definition negotiation_response_pdu (n : rdpNego) (settings : negoSettings) : M STREAM bool :=
  patch_header TPDU_CONNECTION_CONFIRM_LENGTH
    (if PROTOCOL_RDP <? n_selected n then
       stream_write_uint8 TYPE_RDP_NEG_RSP;;
       stream_write_uint8 EXTENDED_CLIENT_DATA_SUPPORTED;;
       stream_write_uint16 8;;
       stream_write_uint32 (n_selected n);;
       ret true
     else if negb (st_rdp_security settings) then
       stream_write_uint8 TYPE_RDP_NEG_FAILURE;;
       stream_write_uint8 0;;
       stream_write_uint16 8;;
       stream_write_uint32 SSL_REQUIRED_BY_SERVER;;
       ret false
     else ret true)
    (fun _ length =>
       tpkt_write_header length;;
       tpdu_write_connection_confirm (length - 5)).

(** ** The client *)

Section client.
Context {N : Type} `{Link N} `{Connector N} (skips : nat).

Record negoSys : Type := mkSys {
  y_nego : rdpNego;
  y_transport : rdpTransport N;
  y_settings : negoSettings;
}.

Definition nego_get {A} (f : rdpNego -> A) : M negoSys A := fun y => Done (f (y_nego y), y).
Definition nego_mod (f : rdpNego -> rdpNego) : M negoSys unit := fun y =>
  Done (tt, mkSys (f (y_nego y)) (y_transport y) (y_settings y)).
Definition on_transport {A} (c : M (rdpTransport N) A) : M negoSys A :=
  zoom y_transport (fun t y => mkSys (y_nego y) t (y_settings y)) c.
Definition settings_get : M negoSys negoSettings := fun y => Done (y_settings y, y).
Definition settings_put (s : negoSettings) : M negoSys unit := fun y =>
  Done (tt, mkSys (y_nego y) (y_transport y) s).

Definition nego_tcp_connect : M negoSys bool :=
  let! n := nego_get id in
  let! settings := settings_get in
  if negb (n_tcp_connected n) then
    let! ok := on_transport (transport_connect (st_tsg settings) (n_hostname n) (uint16 (n_port n))) in
    if negb ok then nego_mod (set_tcp_connected false);; ret false
    else nego_mod (set_tcp_connected true);; ret true
  else ret true.

Definition nego_tcp_disconnect : M negoSys unit :=
  let! connected := nego_get n_tcp_connected in
  (if connected then on_transport transport_disconnect;; ret tt else ret tt);;
  nego_mod (set_tcp_connected false).

Definition nego_send_negotiation_request : M negoSys bool :=
  let! n := nego_get id in
  on_transport (transport_send_stream_init 256);;
  on_transport (zoom t_send_stream set_send_stream (negotiation_request_pdu n));;
  let! status := on_transport transport_send in
  ret (negb (status <? 0)).

(** [transport_read(transport, transport->recv_stream)] *)
Definition transport_recv : M (rdpTransport N) Z := fun t =>
  match transport_read skips t (t_recv_stream t) with
  | Done (status, t, s) => Done (status, set_recv_stream s t)
  | Fault f => Fault f
  end.

Definition nego_recv_response : M negoSys bool :=
  on_transport (transport_recv_stream_init 1024);;
  let! status := on_transport transport_recv in
  if status <? 0 then ret false else
  let! n := nego_get id in
  let! (rv, n) := on_transport (zoom t_recv_stream set_recv_stream (nego_recv n)) in
  nego_mod (fun _ => n);;
  ret rv.

(** The common part of the three attempts: connect, ask, wait for the answer;
    false when the state has become [NEGO_STATE_FAIL] and the attempt returns. *)
Definition nego_exchange (protocols : Z) : M negoSys bool :=
  nego_mod (set_requested protocols);;
  let! ok := nego_tcp_connect in
  if negb ok then nego_mod (set_state NEGO_STATE_FAIL);; ret false else
  let! ok := nego_send_negotiation_request in
  if negb ok then nego_mod (set_state NEGO_STATE_FAIL);; ret false else
  let! ok := nego_recv_response in
  if negb ok then nego_mod (set_state NEGO_STATE_FAIL);; ret false else
  ret true.

Definition nego_attempt_nla : M negoSys unit :=
  let! ok := nego_exchange (Z.lor PROTOCOL_NLA PROTOCOL_TLS) in
  if negb ok then ret tt else
  let! n := nego_get id in
  if decide (n_state n <> NEGO_STATE_FINAL) then
    nego_tcp_disconnect;;
    if n_enabled_tls n then nego_mod (set_state NEGO_STATE_TLS)
    else if n_enabled_rdp n then nego_mod (set_state NEGO_STATE_RDP)
    else nego_mod (set_state NEGO_STATE_FAIL)
  else ret tt.

Definition nego_attempt_tls : M negoSys unit :=
  let! ok := nego_exchange PROTOCOL_TLS in
  if negb ok then ret tt else
  let! n := nego_get id in
  if decide (n_state n <> NEGO_STATE_FINAL) then
    nego_tcp_disconnect;;
    if n_enabled_rdp n then nego_mod (set_state NEGO_STATE_RDP)
    else nego_mod (set_state NEGO_STATE_FAIL)
  else ret tt.

Definition nego_attempt_rdp : M negoSys unit :=
  nego_exchange PROTOCOL_RDP;;
  ret tt.

Definition nego_send : M negoSys unit :=
  let! st := nego_get n_state in
  match st with
  | NEGO_STATE_NLA => nego_attempt_nla
  | NEGO_STATE_TLS => nego_attempt_tls
  | NEGO_STATE_RDP => nego_attempt_rdp
  | _ => ret tt
  end.

(** The first state, as [nego_connect] chooses it. *)
Definition first_state (n : rdpNego) : NEGO_STATE :=
  if n_enabled_nla n then NEGO_STATE_NLA
  else if n_enabled_tls n then NEGO_STATE_TLS
  else if n_enabled_rdp n then NEGO_STATE_RDP
  else NEGO_STATE_FAIL.

(** The do-while loop of [nego_connect]; false when negotiation failed. *)
Fixpoint nego_connect_loop (fuel : nat) : M negoSys bool :=
  match fuel with
  | O => fail Diverges
  | S fuel' =>
      nego_send;;
      let! st := nego_get n_state in
      match st with
      | NEGO_STATE_FAIL => nego_mod (set_state NEGO_STATE_FINAL);; ret false
      | NEGO_STATE_FINAL => ret true
      | _ => nego_connect_loop fuel'
      end
  end.

Definition rdp_encryption_method : Z :=
  Z.lor (Z.lor ENCRYPTION_METHOD_40BIT ENCRYPTION_METHOD_128BIT) ENCRYPTION_METHOD_FIPS.

(** The settings after a successful negotiation. *)
Definition client_settings (n : rdpNego) (s : negoSettings) : negoSettings :=
  if n_selected n =? PROTOCOL_RDP then
    mkSettings (st_tsg s) (n_requested n) (n_selected n) (n_flags n) (st_tls_security s)
      (st_nla_security s) (st_rdp_security s) true rdp_encryption_method
      ENCRYPTION_LEVEL_CLIENT_COMPATIBLE
  else
    mkSettings (st_tsg s) (n_requested n) (n_selected n) (n_flags n) (st_tls_security s)
      (st_nla_security s) (st_rdp_security s) (st_encryption s) (st_encryption_method s)
      (st_encryption_level s).

Definition nego_connect (fuel : nat) : M negoSys bool :=
  nego_mod (fun n => if decide (n_state n = NEGO_STATE_INITIAL) then set_state (first_state n) n else n);;
  let! ok := nego_connect_loop fuel in
  if negb ok then ret false else
  let! n := nego_get id in
  let! s := settings_get in
  settings_put (client_settings n s);;
  ret true.

(** ** The server *)

(** The settings after the response has been sent. *)
Definition server_settings (n : rdpNego) (s : negoSettings) : negoSettings :=
  let upd := mkSettings (st_tsg s) (n_requested n) (n_selected n) (st_negotiationFlags s) in
  if n_selected n =? PROTOCOL_RDP then
    upd false false true true rdp_encryption_method ENCRYPTION_LEVEL_CLIENT_COMPATIBLE
  else if n_selected n =? PROTOCOL_TLS then
    upd true false false false ENCRYPTION_METHOD_NONE ENCRYPTION_LEVEL_NONE
  else if n_selected n =? PROTOCOL_NLA then
    upd true true false false ENCRYPTION_METHOD_NONE ENCRYPTION_LEVEL_NONE
  else upd (st_tls_security s) (st_nla_security s) (st_rdp_security s) (st_encryption s)
         (st_encryption_method s) (st_encryption_level s).

Definition nego_send_negotiation_response : M negoSys bool :=
  let! n := nego_get id in
  let! settings := settings_get in
  on_transport (transport_send_stream_init 256);;
  let! r := on_transport (zoom t_send_stream set_send_stream (negotiation_response_pdu n settings)) in
  let! status := on_transport transport_send in
  if status <? 0 then ret false else
  (if r : bool then settings_put (server_settings n settings) else ret tt);;
  ret r.

End client.
Arguments negoSys N : clear implicits.

(** ** What can come back *)

(** What [nego_recv] does to the client, whatever the bytes: refuse the packet,
    take the answer, take a connection confirm without negotiation data, note a
    failure, or ignore an answer of unknown type. *)
Inductive recv_outcome (n : rdpNego) : bool * rdpNego -> Prop :=
| recv_not_tpkt : recv_outcome n (false, n)
| recv_no_data : recv_outcome n (true, set_state NEGO_STATE_FINAL n)
| recv_response flags v : recv_outcome n (true, set_state NEGO_STATE_FINAL (set_selected flags v n))
| recv_failure : recv_outcome n (true, set_state NEGO_STATE_FAIL n)
| recv_unknown : recv_outcome n (true, n).

Lemma Safe_tpkt_read_header : Safe 5 tpkt_read_header (fun _ => True).
Proof.
  apply (Safe_bind 1 4 _ _ (fun _ => True)); [lia|apply Safe_peek|intros v _].
  destruct (v =? 3); [|apply Safe_ret; [lia|exact I] ].
  apply (Safe_bind 2 2 _ _ (fun _ => True)); [lia|apply Safe_seek; lia|intros [] _; apply Safe_uint16_be].
Qed.

Lemma Safe_connection_confirm : Safe 7 tpdu_read_connection_confirm (fun _ => True).
Proof.
  apply (Safe_bind 7 0 _ _ (fun _ => True)); [lia| |].
  - apply (Safe_bind 1 6 _ _ (fun _ => True)); [lia|apply Safe_uint8|intros li _].
    apply (Safe_bind 1 5 _ _ (fun _ => True)); [lia|apply Safe_uint8|intros code _].
    apply (Safe_bind 5 0 _ _ (fun _ => True)); [lia| |intros [] _; apply Safe_ret; [lia|exact I] ].
    destruct (code =? X224_TPDU_DATA); [|apply Safe_seek; lia].
    apply (Safe_mono 1 5 _ (fun _ => True)); [lia|auto|apply Safe_seek; lia].
  - intros [li code] _. destruct (negb _); apply Safe_ret; auto; lia.
Qed.

(** Seven bytes of negotiation data are read and turned into one outcome. *)
Lemma Safe_neg_data {A} (f : Z -> Z -> A) (Q : A -> Prop) : (forall x y, Q (f x y)) ->
  Safe 7 (let! flags := stream_read_uint8 in
          let! length := stream_read_uint16 in
          let! v := stream_read_uint32 in ret (f flags v)) Q.
Proof.
  intros HQ.
  apply (Safe_bind 1 6 _ _ (fun _ => True)); [lia|apply Safe_uint8|intros flags _].
  apply (Safe_bind 2 4 _ _ (fun _ => True)); [lia|apply Safe_uint16|intros length _].
  apply (Safe_bind 4 0 _ _ (fun _ => True)); [lia|apply Safe_uint32|intros v _].
  apply Safe_ret; [lia|apply HQ].
Qed.

Lemma Safe_nego_recv n : Safe 20 (nego_recv n) (recv_outcome n).
Proof.
  apply (Safe_bind 5 15 _ _ (fun _ => True)); [lia|apply Safe_tpkt_read_header|intros length _].
  destruct (length =? 0); [apply Safe_ret; [lia|constructor]|].
  apply (Safe_bind 7 8 _ _ (fun _ => True)); [lia|apply Safe_connection_confirm|intros li _].
  destruct (6 <? li); [|apply Safe_ret; [lia|constructor] ].
  apply (Safe_bind 1 7 _ _ (fun _ => True)); [lia|apply Safe_uint8|intros type _].
  destruct (type =? TYPE_RDP_NEG_RSP); [|destruct (type =? TYPE_RDP_NEG_FAILURE)].
  - apply (Safe_bind 7 0 _ _ (fun n' => recv_outcome n (true, n'))); [lia| |].
    + apply (Safe_neg_data (fun flags v => set_state NEGO_STATE_FINAL (set_selected flags v n))).
      constructor.
    + intros n' Hn'. apply Safe_ret; [lia|exact Hn'].
  - apply (Safe_bind 7 0 _ _ (fun n' => recv_outcome n (true, n'))); [lia| |].
    + apply (Safe_neg_data (fun _ _ => set_state NEGO_STATE_FAIL n)). constructor.
    + intros n' Hn'. apply Safe_ret; [lia|exact Hn'].
  - apply Safe_ret; [lia|constructor].
Qed.

(** The same without a bound on the buffer, for runs that end. *)
Lemma nego_recv_inv n s r s' : nego_recv n s = Done (r, s') -> recv_outcome n r.
Proof.
  unfold nego_recv. intros H. run_inv H. destruct (a =? 0).
  { injection H as <- <-. constructor. }
  run_inv H. destruct (6 <? a0).
  2:{ injection H as <- <-. constructor. }
  run_inv H. destruct (a1 =? TYPE_RDP_NEG_RSP); [|destruct (a1 =? TYPE_RDP_NEG_FAILURE)].
  - run_inv H. injection H as <- <-. do 3 run_inv E2. injection E2 as <- <-. constructor.
  - run_inv H. injection H as <- <-. do 3 run_inv E2. injection E2 as <- <-. constructor.
  - injection H as <- <-. constructor.
Qed.

(** ** Messages as bytes *)

Definition neg_data_bytes (type flags v : Z) : list Z := [type; flags] ++ le16 8 ++ le32 v.

Definition request_variable (n : rdpNego) : list Z :=
  match n_routing_token n with
  | Some token => token
  | None => match n_cookie n with
            | Some cookie => cookie_prefix ++ cookie ++ [0x0D; 0x0A]
            | None => []
            end
  end.

Definition request_neg_data (n : rdpNego) : list Z :=
  if PROTOCOL_RDP <? n_requested n then neg_data_bytes TYPE_RDP_NEG_REQ 0 (n_requested n) else [].

Definition request_body (n : rdpNego) : list Z := request_variable n ++ request_neg_data n.

Definition connect_header (code : Z) (body : list Z) : list Z :=
  tpkt_bytes (11 + len body) ++ tpdu_connect_bytes (11 + len body - 5) code.

Definition request_bytes (n : rdpNego) : list Z :=
  connect_header X224_TPDU_CONNECTION_REQUEST (request_body n) ++ request_body n.

Lemma Writes_request n : Writes (negotiation_request_pdu n) (request_bytes n) tt.
Proof.
  apply Writes_patch_header; [| |reflexivity].
  - apply (Writes_bind _ _ (request_variable n) (request_neg_data n) tt tt).
    + unfold request_variable.
      destruct (n_routing_token n); [apply Writes_write|].
      destruct (n_cookie n); [writes; reflexivity|apply Writes_ret].
    + unfold request_neg_data. destruct (PROTOCOL_RDP <? n_requested n); [writes; reflexivity|apply Writes_ret].
  - eapply Writes_bind; [apply Writes_tpkt|apply Writes_connection_request].
Qed.

Definition response_body (n : rdpNego) (s : negoSettings) : list Z :=
  if PROTOCOL_RDP <? n_selected n
  then neg_data_bytes TYPE_RDP_NEG_RSP EXTENDED_CLIENT_DATA_SUPPORTED (n_selected n)
  else if negb (st_rdp_security s) then neg_data_bytes TYPE_RDP_NEG_FAILURE 0 SSL_REQUIRED_BY_SERVER
  else [].

Definition response_bytes (n : rdpNego) (s : negoSettings) : list Z :=
  connect_header X224_TPDU_CONNECTION_CONFIRM (response_body n s) ++ response_body n s.

Definition response_accepts (n : rdpNego) (s : negoSettings) : bool :=
  (PROTOCOL_RDP <? n_selected n) || st_rdp_security s.

Lemma Writes_response n s :
  Writes (negotiation_response_pdu n s) (response_bytes n s) (response_accepts n s).
Proof.
  apply Writes_patch_header; [| |reflexivity].
  - unfold response_body, response_accepts. destruct (PROTOCOL_RDP <? n_selected n); [writes; reflexivity|].
    destruct (st_rdp_security s); [apply Writes_ret|writes; reflexivity].
  - eapply Writes_bind; [apply Writes_tpkt|apply Writes_connection_confirm].
Qed.

Lemma Reads_neg_data {A} (f : Z -> Z -> A) flags v : 0 <= v < 2 ^ 32 ->
  Reads (let! flags := stream_read_uint8 in
         let! length := stream_read_uint16 in
         let! v := stream_read_uint32 in ret (f flags v)) (flags :: le16 8 ++ le32 v) (f flags v).
Proof.
  intros Hv. apply Reads_uint8_bind. eapply Reads_bind; [apply Reads_le16; lia|].
  eapply Reads_last; [apply Reads_le32, Hv|apply Reads_ret].
Qed.

(** What the client makes of the server's answer. *)
Definition client_after (server : rdpNego) (s : negoSettings) (client : rdpNego) : rdpNego :=
  if PROTOCOL_RDP <? n_selected server
  then set_state NEGO_STATE_FINAL (set_selected EXTENDED_CLIENT_DATA_SUPPORTED (n_selected server) client)
  else if st_rdp_security s then set_state NEGO_STATE_FINAL client
  else set_state NEGO_STATE_FAIL client.

Lemma Reads_response server s client : 0 <= n_selected server < 2 ^ 32 ->
  Reads (nego_recv client) (response_bytes server s) (true, client_after server s client).
Proof.
  intros Hsel. unfold response_bytes, connect_header, client_after. rewrite <- app_assoc.
  assert (Hl : len (response_body server s) = 0 \/ len (response_body server s) = 8).
  { unfold response_body. repeat case_match; auto. }
  eapply Reads_bind; [apply Reads_tpkt; lia|]. rewrite (proj2 (Z.eqb_neq _ _)) by lia.
  eapply Reads_bind; [apply Reads_connection_confirm; unfold is_byte; lia|].
  unfold response_body in *. destruct (PROTOCOL_RDP <? n_selected server).
  - change (6 <? _) with true. cbv iota. apply Reads_uint8_bind.
    change (TYPE_RDP_NEG_RSP =? TYPE_RDP_NEG_RSP) with true. cbv iota.
    eapply Reads_last; [|apply Reads_ret].
    apply (Reads_neg_data (fun flags v => set_state NEGO_STATE_FINAL (set_selected flags v client))), Hsel.
  - destruct (st_rdp_security s); cbn [negb].
    + change (6 <? _) with false. cbv iota. apply Reads_ret.
    + change (6 <? _) with true. cbv iota. apply Reads_uint8_bind.
      change (TYPE_RDP_NEG_FAILURE =? TYPE_RDP_NEG_RSP) with false.
      change (TYPE_RDP_NEG_FAILURE =? TYPE_RDP_NEG_FAILURE) with true. cbv iota.
      eapply Reads_last; [|apply Reads_ret].
      apply (Reads_neg_data (fun _ _ => set_state NEGO_STATE_FAIL client)). unfold SSL_REQUIRED_BY_SERVER. lia.
Qed.

(** ** The server reads the request *)

Lemma holds_cons s b bs : holds s (b :: bs) ->
  stream_read_uint8 s = Done (b, adv 1 s) /\ holds (adv 1 s) bs.
Proof.
  intros H. destruct (holds_app s [b] bs H) as [H1 H2]. split; [apply (Reads_uint8 b), H1|exact H2].
Qed.

(** The loop stops right behind the first CR LF. *)
Lemma skip_cookie_run x : Forall (fun c => c <> 0x0D) x ->
  forall fuel s, (length x < fuel)%nat -> holds s (x ++ [0x0D; 0x0A]) ->
  skip_cookie fuel s = Done (tt, adv (len x + 2) s).
Proof.
  intros Hx. induction Hx as [|c x Hc Hx IH]; intros fuel s Hf Hs; (destruct fuel as [|fuel]; [cbn in Hf; lia|]);
    cbn [skip_cookie].
  - cbn [app] in Hs. pose proof (holds_size _ _ Hs) as Hsz. destruct (holds_cons _ _ _ Hs) as [Hr Hs1].
    unfold bind at 1, left_bytes, stream_get_left. rewrite (proj2 (Z.ltb_lt _ _)) by llia.
    rewrite (bind_Done _ _ _ _ _ Hr). cbn [Z.eqb Pos.eqb negb].
    assert (Hp : stream_peek_uint8 (adv 1 s) = Done (0x0A, adv 1 s))
      by (apply (holds_rbyte _ _ 0 0x0A Hs1); [lia|reflexivity]).
    rewrite (bind_Done _ _ _ _ _ Hp). cbn [Z.eqb Pos.eqb negb]. unfold stream_seek.
    rewrite adv_adv. reflexivity.
  - cbn [app] in Hs. pose proof (holds_size _ _ Hs) as Hsz. destruct (holds_cons _ _ _ Hs) as [Hr Hs1].
    unfold bind at 1, left_bytes, stream_get_left. rewrite (proj2 (Z.ltb_lt _ _)) by llia.
    rewrite (bind_Done _ _ _ _ _ Hr), (proj2 (Z.eqb_neq _ _)) by exact Hc. cbn [negb].
    rewrite IH by (auto; cbn in Hf; lia). rewrite adv_adv, len_cons, Z.add_assoc. reflexivity.
Qed.

(** A routing token or cookie the server can delimit: nothing, or CR-free text
    followed by CR LF (and longer than eight bytes if nothing follows). *)
Definition delimited (n : rdpNego) : Prop :=
  request_variable n = [] \/
  exists x, request_variable n = x ++ [0x0D; 0x0A] /\ Forall (fun c => c <> 0x0D) x /\
    (PROTOCOL_RDP < n_requested n \/ 8 < len (request_variable n)).

Definition server_after (client server : rdpNego) : rdpNego :=
  if PROTOCOL_RDP <? n_requested client
  then set_state NEGO_STATE_FINAL (set_requested (n_requested client) server) else server.

(** The part of the request behind the TPDU header. *)
Lemma read_request_body client server s :
  delimited client -> 0 <= n_requested client < 2 ^ 32 -> holds s (request_body client) ->
  s_size s = s_p s + len (request_body client) ->
  ((if 8 <? len (request_body client) then skip_cookie (S (Z.to_nat (len (request_body client)))) else ret tt);;
   let! avail := left_bytes in
   if 8 <=? avail then
     let! type := stream_read_uint8 in
     if negb (type =? TYPE_RDP_NEG_REQ) then ret (false, server) else
     let! n := nego_process_negotiation_request server in
     ret (true, n)
   else ret (true, server)) s
  = Done ((true, server_after client server), adv (len (request_body client)) s).
Proof.
  intros Hd Hreq Hs Hsz. unfold request_body in *. destruct (holds_app _ _ _ Hs) as [Hv Hn].
  rewrite len_app in *. set (v := request_variable client) in *.
  assert (Hskip : (if 8 <? len v + len (request_neg_data client)
                   then skip_cookie (S (Z.to_nat (len v + len (request_neg_data client)))) else ret tt) s
                  = Done (tt, adv (len v) s)).
  { assert (Hnd : len (request_neg_data client) = if PROTOCOL_RDP <? n_requested client then 8 else 0)
      by (unfold request_neg_data; destruct (PROTOCOL_RDP <? n_requested client); reflexivity).
    destruct Hd as [Hnil|(x & Hx & Hcr & Hlen)]; fold v in Hnil || fold v in Hx, Hlen.
    - rewrite Hnil, len_nil in *. rewrite (proj2 (Z.ltb_ge _ _)), adv_0; [reflexivity|].
      destruct (PROTOCOL_RDP <? n_requested client); lia.
    - assert (Hx2 : len v = len x + 2) by (rewrite Hx; llia).
      rewrite (proj2 (Z.ltb_lt _ _)).
      2:{ destruct (Z.ltb_spec PROTOCOL_RDP (n_requested client)); [|llia].
          pose proof (len_nonneg x). lia. }
      rewrite Hx2. apply skip_cookie_run; [exact Hcr| |rewrite <- Hx; exact Hv].
      unfold len in *. lia. }
  rewrite (bind_Done _ _ _ _ _ Hskip). unfold bind at 1, left_bytes, stream_get_left.
  cbn [adv set_p s_size s_p]. replace (s_size s - _) with (len (request_neg_data client)) by lia.
  unfold request_neg_data, server_after in *. destruct (PROTOCOL_RDP <? n_requested client).
  - change (8 <=? _) with true. cbv iota.
    assert (Hr : Reads (let! type := stream_read_uint8 in
       if negb (type =? TYPE_RDP_NEG_REQ) then ret (false, server) else
       let! n := nego_process_negotiation_request server in ret (true, n))
       (neg_data_bytes TYPE_RDP_NEG_REQ 0 (n_requested client))
       (true, set_state NEGO_STATE_FINAL (set_requested (n_requested client) server))).
    { apply Reads_uint8_bind. change (negb _) with false. cbv iota.
      eapply Reads_last; [|apply Reads_ret].
      apply (Reads_neg_data (fun _ v => set_state NEGO_STATE_FINAL (set_requested v server))), Hreq. }
    rewrite (Hr _ Hn), adv_adv. reflexivity.
  - change (8 <=? _) with false. cbv iota. rewrite len_nil, Z.add_0_r. reflexivity.
Qed.

(** The whole request, at the start of a buffer sealed behind it. *)
Lemma read_request_run client server rest :
  delimited client -> 0 <= n_requested client < 2 ^ 32 -> len (request_body client) <= 249 ->
  let bs := request_bytes client in
  nego_read_request server (mkSTREAM (len bs) 0 (bs ++ rest))
  = Done ((true, server_after client server), mkSTREAM (len bs) (len bs) (bs ++ rest)).
Proof.
  intros Hd Hreq Hlen bs. pose proof (len_nonneg (request_body client)) as H0.
  set (s := mkSTREAM (len bs) 0 (bs ++ rest)).
  assert (Hs : holds s bs) by (apply holds_start; lia).
  assert (Hbs : len bs = 11 + len (request_body client))
    by (unfold bs, request_bytes; rewrite len_app; reflexivity).
  unfold nego_read_request.
  unfold bs, request_bytes, connect_header in Hs. rewrite <- !app_assoc in Hs.
  destruct (holds_app _ _ _ Hs) as [H1 Hs1]. destruct (holds_app _ _ _ Hs1) as [H2 Hs2].
  rewrite (bind_Done _ _ _ _ _ (Reads_tpkt (11 + len (request_body client)) ltac:(lia) s H1)).
  rewrite (bind_Done _ _ _ _ _ (Reads_connection_request (11 + len (request_body client) - 5)
                                 ltac:(unfold is_byte; lia) _ H2)).
  rewrite adv_adv in Hs2 |- *.
  change (adv (len (tpkt_bytes _) + len (tpdu_connect_bytes _ _)) s) with (adv 11 s) in *.
  assert (Hss : s_size (adv 11 s) = s_p (adv 11 s) + len (request_body client)) by exact Hbs.
  assert (Hleft : left_bytes (adv 11 s) = Done (len (request_body client), adv 11 s))
    by (unfold left_bytes, stream_get_left; repeat f_equal; lia).
  rewrite (bind_Done _ _ _ _ _ Hleft). rewrite (proj2 (Z.eqb_eq _ _)) by lia. cbn [negb].
  rewrite (read_request_body client server (adv 11 s) Hd Hreq Hs2 Hss).
  rewrite adv_adv, <- Hbs. reflexivity.
Qed.

(** ** The state machine *)

(** The transitions one round of the loop can make. *)
Inductive nego_step (n : rdpNego) : NEGO_STATE -> NEGO_STATE -> Prop :=
| step_fail st : nego_step n st NEGO_STATE_FAIL
| step_final st : st = NEGO_STATE_NLA \/ st = NEGO_STATE_TLS \/ st = NEGO_STATE_RDP ->
    nego_step n st NEGO_STATE_FINAL
| step_nla_tls : n_enabled_tls n = true -> nego_step n NEGO_STATE_NLA NEGO_STATE_TLS
| step_nla_rdp : n_enabled_tls n = false -> n_enabled_rdp n = true ->
    nego_step n NEGO_STATE_NLA NEGO_STATE_RDP
| step_tls_rdp : n_enabled_rdp n = true -> nego_step n NEGO_STATE_TLS NEGO_STATE_RDP
| step_rdp_again : nego_step n NEGO_STATE_RDP NEGO_STATE_RDP
| step_idle : nego_step n NEGO_STATE_INITIAL NEGO_STATE_INITIAL.

(** The configuration of a client. *)
Definition same_config (n n' : rdpNego) : Prop :=
  n_hostname n' = n_hostname n /\ n_cookie n' = n_cookie n /\
  n_routing_token n' = n_routing_token n /\ n_enabled_rdp n' = n_enabled_rdp n /\
  n_enabled_tls n' = n_enabled_tls n /\ n_enabled_nla n' = n_enabled_nla n.

#[global] Instance same_config_refl : Reflexive same_config.
Proof. unfold same_config. intros n. tauto. Qed.
#[global] Instance same_config_trans : Transitive same_config.
Proof. unfold same_config. intros a b c. intuition congruence. Qed.

Lemma recv_outcome_config n r : recv_outcome n r -> same_config n (snd r) /\
  n_requested (snd r) = n_requested n /\
  (n_state (snd r) = NEGO_STATE_FINAL \/ n_state (snd r) = NEGO_STATE_FAIL \/
   n_state (snd r) = n_state n).
Proof. intros []; cbn; unfold same_config; cbn; tauto. Qed.

Section machine.
Context {N : Type} `{Link N} `{Connector N} (skips : nat).
Implicit Types y : negoSys N.

Lemma on_transport_inv {A} (c : M (rdpTransport N) A) y a y' :
  on_transport c y = Done (a, y') -> y_nego y' = y_nego y /\ y_settings y' = y_settings y.
Proof. intros Hr. apply zoom_inv in Hr as (t & _ & ->). auto. Qed.

(** Peel one operation off a run and record what it leaves alone. *)
Ltac peel H :=
  let E := fresh "E" in
  let a := fresh "a" in let y1 := fresh "y" in
  apply bind_inv in H as (a & y1 & E & H);
  first [ apply on_transport_inv in E as [? ?]
        | injection E as <- <-
        | idtac ].

Lemma nego_tcp_connect_inv y ok y' : nego_tcp_connect y = Done (ok, y') ->
  same_config (y_nego y) (y_nego y') /\ n_state (y_nego y') = n_state (y_nego y) /\
  n_requested (y_nego y') = n_requested (y_nego y) /\ y_settings y' = y_settings y.
Proof.
  unfold nego_tcp_connect. intros Hr. peel Hr. peel Hr. cbn [id] in *.
  destruct (n_tcp_connected (y_nego y)); cbn [negb] in Hr.
  - injection Hr as <- <-. repeat split; reflexivity.
  - peel Hr. destruct a; cbn [negb] in Hr; peel Hr; injection Hr as <- <-;
      cbn; unfold same_config; cbn; rewrite H1, H2; tauto.
Qed.

Lemma send_request_inv y ok y' : nego_send_negotiation_request y = Done (ok, y') ->
  y_nego y' = y_nego y /\ y_settings y' = y_settings y.
Proof.
  unfold nego_send_negotiation_request. intros Hr. do 4 peel Hr. injection Hr as <- <-.
  split; congruence.
Qed.

Lemma recv_response_inv y ok y' : nego_recv_response skips y = Done (ok, y') ->
  y_settings y' = y_settings y /\
  (y_nego y' = y_nego y /\ ok = false \/ recv_outcome (y_nego y) (ok, y_nego y')).
Proof.
  unfold nego_recv_response. intros Hr. do 2 peel Hr.
  destruct (_ <? 0).
  { injection Hr as <- <-. split; [congruence|left; split; congruence]. }
  peel Hr. cbn [id] in Hr. run_inv Hr. destruct a1 as [rv n'].
  apply zoom_inv in E as (t' & E & ->). apply zoom_inv in E as (s' & E & ->).
  apply nego_recv_inv in E. peel Hr. injection Hr as <- <-. cbn.
  split; [congruence|right]. replace (y_nego y) with (y_nego y1) by congruence. exact E.
Qed.

Lemma nego_exchange_inv p y ok y' : nego_exchange skips p y = Done (ok, y') ->
  same_config (y_nego y) (y_nego y') /\ n_requested (y_nego y') = p /\
  y_settings y' = y_settings y /\
  (if ok then n_state (y_nego y') = NEGO_STATE_FINAL \/ n_state (y_nego y') = NEGO_STATE_FAIL \/
              n_state (y_nego y') = n_state (y_nego y)
   else n_state (y_nego y') = NEGO_STATE_FAIL).
Proof.
  unfold nego_exchange. intros Hr. peel Hr. peel Hr.
  apply nego_tcp_connect_inv in E as (Hc1 & Hs1 & Hq1 & Ht1). cbn in Hs1, Hq1, Ht1.
  change (same_config (y_nego y) (y_nego y0)) in Hc1.
  assert (Hfail : forall y1, y_nego y1 = y_nego y0 -> y_settings y1 = y_settings y ->
    (nego_mod (set_state NEGO_STATE_FAIL);; ret false) y1 = Done (ok, y') ->
    same_config (y_nego y) (y_nego y') /\ n_requested (y_nego y') = p /\
    y_settings y' = y_settings y /\ ok = false /\ n_state (y_nego y') = NEGO_STATE_FAIL).
  { intros y1 Hn Hy Hq. peel Hq. injection Hq as <- <-. cbn. rewrite Hn, Hy, Hq1.
    repeat split; apply Hc1. }
  destruct a; cbn [negb] in Hr.
  2:{ destruct (Hfail _ eq_refl Ht1 Hr) as (? & ? & ? & -> & ?). auto. }
  peel Hr. apply send_request_inv in E as [Hn1 Hy1].
  destruct a; cbn [negb] in Hr.
  2:{ destruct (Hfail _ Hn1 ltac:(congruence) Hr) as (? & ? & ? & -> & ?). auto. }
  peel Hr. apply recv_response_inv in E as [Hy2 E]. rewrite Hn1 in E.
  destruct E as [[Hn2 ->]|E].
  { cbn [negb] in Hr. destruct (Hfail _ Hn2 ltac:(congruence) Hr) as (? & ? & ? & -> & ?). auto. }
  destruct (recv_outcome_config _ _ E) as (Hc & Hq & Hst). cbn [snd] in *.
  destruct a; cbn [negb] in Hr.
  - injection Hr as <- <-. rewrite Hs1 in Hst.
    repeat split; [..|exact Hst]; try congruence; try apply (transitivity Hc1 Hc).
  - inversion E; subst. destruct (Hfail y2 ltac:(congruence) ltac:(congruence) Hr) as (? & ? & ? & -> & ?). auto.
Qed.

Lemma fallback_inv st y u y' : (nego_tcp_disconnect;; nego_mod (set_state st)) y = Done (u, y') ->
  y_nego y' = set_state st (set_tcp_connected false (y_nego y)) /\ y_settings y' = y_settings y.
Proof.
  unfold nego_tcp_disconnect. intros Hr. run_inv Hr. injection Hr as <- <-. cbn.
  peel E. run_inv E. injection E as <- <-. cbn.
  destruct (n_tcp_connected (y_nego y)).
  - peel E0. injection E0 as <- <-. split; congruence.
  - injection E0 as <- <-. auto.
Qed.

(** A fallback keeps the configuration. *)
Lemma fallback_config n n1 st : same_config n n1 ->
  same_config n (set_state st (set_tcp_connected false n1)).
Proof. unfold same_config. cbn. tauto. Qed.

Definition requested_in (st : NEGO_STATE) : Z :=
  match st with
  | NEGO_STATE_NLA => Z.lor PROTOCOL_NLA PROTOCOL_TLS
  | NEGO_STATE_TLS => PROTOCOL_TLS
  | _ => PROTOCOL_RDP
  end.

(** What one round leaves behind. *)
Definition round_ok (y y' : negoSys N) : Prop :=
  same_config (y_nego y) (y_nego y') /\ y_settings y' = y_settings y /\
  nego_step (y_nego y) (n_state (y_nego y)) (n_state (y_nego y')) /\
  (n_state (y_nego y') = NEGO_STATE_FINAL ->
   n_requested (y_nego y') = requested_in (n_state (y_nego y))).

Ltac round := split; [eassumption|]; split; [congruence|]; split; [|intros; congruence].

Lemma attempt_nla_inv y u y' : n_state (y_nego y) = NEGO_STATE_NLA ->
  nego_attempt_nla skips y = Done (u, y') -> round_ok y y'.
Proof.
  intros Hst Hr. unfold nego_attempt_nla in Hr. peel Hr.
  apply nego_exchange_inv in E as (Hc & Hq & Hy & Hs). unfold round_ok. rewrite Hst.
  destruct a; cbn [negb] in Hr.
  2:{ injection Hr as <- <-. rewrite Hs. round. constructor. }
  peel Hr. cbn [id] in Hr. case_decide as Hd.
  - assert (Hrdp : n_enabled_rdp (y_nego y0) = n_enabled_rdp (y_nego y)) by apply Hc.
    assert (Htls : n_enabled_tls (y_nego y0) = n_enabled_tls (y_nego y)) by apply Hc.
    destruct (n_enabled_tls (y_nego y0)) eqn:Et; [|destruct (n_enabled_rdp (y_nego y0)) eqn:Er];
      apply fallback_inv in Hr as [Hn' Hy']; rewrite Hn'; cbn [n_state set_state];
      (split; [apply fallback_config, Hc|]; split; [congruence|]; split; [|discriminate]);
      constructor; congruence.
  - injection Hr as <- <-. rewrite Hd. split; [exact Hc|]. split; [exact Hy|]. split; [constructor; tauto|]. auto.
Qed.

Lemma attempt_tls_inv y u y' : n_state (y_nego y) = NEGO_STATE_TLS ->
  nego_attempt_tls skips y = Done (u, y') -> round_ok y y'.
Proof.
  intros Hst Hr. unfold nego_attempt_tls in Hr. peel Hr.
  apply nego_exchange_inv in E as (Hc & Hq & Hy & Hs). unfold round_ok. rewrite Hst.
  destruct a; cbn [negb] in Hr.
  2:{ injection Hr as <- <-. rewrite Hs. round. constructor. }
  peel Hr. cbn [id] in Hr. case_decide as Hd.
  - assert (Hrdp : n_enabled_rdp (y_nego y0) = n_enabled_rdp (y_nego y)) by apply Hc.
    destruct (n_enabled_rdp (y_nego y0)) eqn:Er;
      apply fallback_inv in Hr as [Hn' Hy']; rewrite Hn'; cbn [n_state set_state];
      (split; [apply fallback_config, Hc|]; split; [congruence|]; split; [|discriminate]);
      constructor; congruence.
  - injection Hr as <- <-. rewrite Hd. split; [exact Hc|]. split; [exact Hy|]. split; [constructor; tauto|]. auto.
Qed.

Lemma attempt_rdp_inv y u y' : n_state (y_nego y) = NEGO_STATE_RDP ->
  nego_attempt_rdp skips y = Done (u, y') -> round_ok y y'.
Proof.
  intros Hst Hr. unfold nego_attempt_rdp in Hr. peel Hr. injection Hr as <- <-.
  apply nego_exchange_inv in E as (Hc & Hq & Hy & Hs). unfold round_ok. rewrite Hst in *.
  split; [exact Hc|]. split; [exact Hy|]. split; [|auto].
  destruct a; [destruct Hs as [Hs|[Hs|Hs] ]|]; rewrite Hs; constructor; tauto.
Qed.

Lemma nego_send_inv y u y' : n_state (y_nego y) <> NEGO_STATE_FINAL ->
  nego_send skips y = Done (u, y') -> round_ok y y'.
Proof.
  intros Hnf Hr. unfold nego_send in Hr. peel Hr.
  destruct (n_state (y_nego y)) eqn:Hst; try congruence;
    eauto using attempt_nla_inv, attempt_tls_inv, attempt_rdp_inv;
    injection Hr as <- <-; unfold round_ok; rewrite Hst;
    (split; [reflexivity|]; split; [reflexivity|]; split; [constructor|discriminate]).
Qed.

(** *** The loop *)

(** The protocol a state stands for is enabled. *)
Definition state_enabled (n : rdpNego) : Prop :=
  match n_state n with
  | NEGO_STATE_NLA => n_enabled_nla n = true
  | NEGO_STATE_TLS => n_enabled_tls n = true
  | NEGO_STATE_RDP => n_enabled_rdp n = true
  | NEGO_STATE_FINAL => False
  | _ => True
  end.

Definition requested_enabled (n : rdpNego) : Prop :=
  (n_requested n = Z.lor PROTOCOL_NLA PROTOCOL_TLS /\ n_enabled_nla n = true) \/
  (n_requested n = PROTOCOL_TLS /\ n_enabled_tls n = true) \/
  (n_requested n = PROTOCOL_RDP /\ n_enabled_rdp n = true).

Lemma round_enabled y y' : state_enabled (y_nego y) -> round_ok y y' ->
  match n_state (y_nego y') with
  | NEGO_STATE_FINAL => requested_enabled (y_nego y')
  | _ => state_enabled (y_nego y')
  end.
Proof.
  intros He (Hc & _ & Hstep & Hreq). destruct Hc as (_ & _ & _ & Hr & Ht & Hn).
  unfold state_enabled, requested_enabled in *. rewrite Hr, Ht, Hn in *.
  destruct (n_state (y_nego y)) eqn:E1, (n_state (y_nego y')) eqn:E2;
    inversion Hstep; subst; cbn [requested_in] in Hreq; try tauto; try congruence;
    try (specialize (Hreq eq_refl)); intuition congruence.
Qed.

(** A loop that returns true ends in [NEGO_STATE_FINAL] with the protocols of
    the last attempt requested; one that returns false has failed. *)
Lemma connect_loop_inv fuel : forall y ok y',
  state_enabled (y_nego y) -> nego_connect_loop skips fuel y = Done (ok, y') ->
  same_config (y_nego y) (y_nego y') /\ y_settings y' = y_settings y /\
  n_state (y_nego y') = NEGO_STATE_FINAL /\ (ok = true -> requested_enabled (y_nego y')).
Proof.
  induction fuel as [|fuel IH]; intros y ok y' He Hr; [discriminate|]. cbn [nego_connect_loop] in Hr.
  run_inv Hr. apply nego_send_inv in E.
  2:{ unfold state_enabled in He. intros Hf. rewrite Hf in He. exact He. }
  pose proof (round_enabled _ _ He E) as Hen. destruct E as (Hc & Hy & _ & _).
  peel Hr. destruct (n_state (y_nego s)) eqn:Hst;
    try (destruct (IH _ _ _ Hen Hr) as (Hc' & Hy' & Hs' & Hq');
         repeat split; [..|exact Hs'|exact Hq']; try congruence; apply (transitivity Hc Hc')).
  - peel Hr. injection Hr as <- <-. cbn. repeat split; try congruence; apply Hc.
  - injection Hr as <- <-. repeat split; auto; apply Hc.
Qed.

End machine.

(** ** Termination *)

(** A stream that need not grow for a negotiation message. *)
Definition calm (s : STREAM) : Prop :=
  0 <= s_p s <= 2048 /\ 4096 <= s_size s <= len (s_data s).

Lemma check_size_calm s n : calm s -> n <= 1024 -> stream_check_size n s = Done (tt, s).
Proof.
  intros [Hp Hs] Hn. unfold stream_check_size. cbn [check_size_loop].
  rewrite (proj2 (Z.ltb_ge _ _)) by lia. reflexivity.
Qed.

Lemma len_request_bytes n : len (request_bytes n) <= 19 + len (request_variable n).
Proof.
  unfold request_bytes, request_body, request_neg_data. rewrite !len_app.
  change (len (connect_header _ _)) with 11.
  destruct (PROTOCOL_RDP <? n_requested n); [change (len (neg_data_bytes _ _ _)) with 8|rewrite len_nil]; lia.
Qed.

Section termination.
Context {N : Type} `{Link N} `{Connector N} (l : TRANSPORT_LAYER) `{!LinkLaws N l}
  (Hnot_tsg : l <> TRANSPORT_LAYER_TSG) (skips : nat).
Implicit Types y : negoSys N.

(** A client about to negotiate over a blocking transport that is not a
    gateway, with buffers and cookie of the usual size. *)
Record ready y : Prop := {
  ready_blocking : t_blocking (y_transport y) = true;
  ready_layer : t_layer (y_transport y) = l;
  ready_tsg : st_tsg (y_settings y) = None;
  ready_send : calm (t_send_stream (y_transport y));
  ready_recv : calm (t_recv_stream (y_transport y));
  ready_request : len (request_variable (y_nego y)) <= 1000;
}.

Definition incoming y : list Z := link_incoming (t_net (y_transport y)).

Lemma request_variable_config n n' : same_config n n' -> request_variable n' = request_variable n.
Proof. intros (_ & Hc & Ht & _). unfold request_variable. rewrite Hc, Ht. reflexivity. Qed.

Lemma ready_nego n y : ready y -> same_config (y_nego y) n ->
  ready (mkSys n (y_transport y) (y_settings y)).
Proof.
  intros [] Hc. split; cbn; auto. rewrite (request_variable_config _ _ Hc). assumption.
Qed.

Lemma ready_net net y : ready y ->
  ready (mkSys (y_nego y) (set_net net (y_transport y)) (y_settings y)).
Proof. intros []. split; cbn; auto. Qed.

Lemma send_request_total y : ready y ->
  exists ok y', nego_send_negotiation_request y = Done (ok, y') /\
    (ok = true -> ready y' /\ y_nego y' = y_nego y /\ incoming y' = incoming y).
Proof.
  intros Hy. destruct y as [n t st]. destruct Hy as [Hbl Hl Htsg Hsend Hrecv Hreq]. cbn in *.
  unfold nego_send_negotiation_request, nego_get. unfold bind at 1. cbn [y_nego id].
  unfold on_transport, transport_send_stream_init, zoom. unfold bind at 1 2. cbn [y_transport].
  rewrite check_size_calm by (auto; lia). cbn [stream_set_pos]. unfold bind at 1.
  cbn [y_transport t_send_stream set_send_stream].
  pose proof (len_request_bytes n) as Hlen. destruct Hsend as [Hp Hs].
  assert (Hroom : room (set_p (t_send_stream t) 0) (len (request_bytes n)))
    by (split; cbn [set_p s_p s_data]; lia).
  rewrite (Writes_request n _ Hroom). unfold bind, transport_send.
  cbn [y_transport t_send_stream set_send_stream].
  set (s1 := put (request_bytes n) _).
  assert (Hp1 : s_p s1 = len (request_bytes n)) by reflexivity.
  assert (Hl1 : len (s_data s1) = len (s_data (t_send_stream t)))
    by (unfold s1; rewrite len_put by exact Hroom; reflexivity).
  assert (1 <= len (request_bytes n)) by (unfold request_bytes; rewrite len_app; change (len (connect_header _ _)) with 11; llia).
  destruct (transport_write_run l (set_send_stream s1 (set_send_stream (set_p (t_send_stream t) 0) t)) s1)
    as (status & t' & s' & k & Hw & Hk & Hs' & _ & Hge & Hlt); [exact Hl|lia|].
  rewrite Hw. do 2 eexists. split; [reflexivity|].
  intros Hok. destruct (Z.ltb_spec status 0); [discriminate|]. destruct Hge as (-> & -> & Hin); [assumption|].
  split; [|split; [reflexivity|exact Hin] ]. split; cbn; auto. unfold calm.
  assert (Hsz : s_size s' = s_size s1 /\ len (s_data s') = len (s_data s1)).
  { unfold transport_write in Hw. case_bool_decide; [|discriminate].
    destruct (write_loop _ _ _ _) as [[[? ?] ?]|]; [|discriminate].
    destruct (_ <? 0); injection Hw as _ _ <-; auto. }
  destruct Hsz as [-> ->]. rewrite Hl1, Hs', Hp1. change (s_size s1) with (s_size (t_send_stream t)). lia.
Qed.

Lemma transport_recv_ends t : t_blocking t = true -> t_layer t = l -> s_p (t_recv_stream t) = 0 ->
  4 <= len (s_data (t_recv_stream t)) ->
  Ends (transport_recv skips) t (fun status t' =>
    exists net' data', t' = set_recv_stream (mkSTREAM (s_size (t_recv_stream t)) 0 data') (set_net net' t) /\
      len data' = len (s_data (t_recv_stream t)) /\
      (0 <= status -> len (link_incoming net') + 4 <= len (link_incoming (t_net t)))).
Proof.
  intros Hbl Hl Hp Hd. unfold Ends, transport_recv.
  destruct (transport_read_any l skips t (t_recv_stream t))
    as [(f & -> & Hf)|(status & net' & data' & -> & Hlen & Hin)]; auto.
  exists net', data'. auto.
Qed.

Lemma recv_response_ends y : ready y ->
  Ends (nego_recv_response skips) y (fun ok y' => ok = true ->
    ready y' /\ len (incoming y') + 4 <= len (incoming y) /\
    recv_outcome (y_nego y) (true, y_nego y')).
Proof.
  intros Hy. destruct y as [n t st]. destruct Hy as [Hbl Hl Htsg Hsend Hrecv Hreq]. cbn in *.
  destruct Hrecv as [Hp Hs].
  set (t0 := set_recv_stream (set_p (t_recv_stream t) 0) t).
  eapply (Ends_bind _ _ _ (fun _ y0 => y0 = mkSys n t0 st)).
  { unfold Ends, on_transport, transport_recv_stream_init, zoom, bind. cbn [y_transport].
    rewrite check_size_calm by (unfold calm; lia). reflexivity. }
  intros _ y0 ->.
  eapply (Ends_bind _ _ _ (fun status y1 => exists net' data',
    y1 = mkSys n (set_recv_stream (mkSTREAM (s_size (t_recv_stream t)) 0 data') (set_net net' t)) st /\
    len data' = len (s_data (t_recv_stream t)) /\
    (0 <= status -> len (link_incoming net') + 4 <= len (link_incoming (t_net t))))).
  { apply Ends_zoom. eapply Ends_mono; [apply transport_recv_ends; cbn; auto; lia|].
    intros status t1 (net' & data' & -> & Hq). exists net', data'. split; [reflexivity|exact Hq]. }
  intros status y1 (net' & data' & -> & Hlen & Hin).
  destruct (Z.ltb_spec status 0); [discriminate|].
  set (s1 := mkSTREAM _ 0 data').
  destruct (Safe_nego_recv n s1) as ([rv n'] & j & Er & Hj & Hout); [split; cbn [s1 s_p s_data]; lia|].
  unfold Ends, bind, nego_get, on_transport, zoom. cbn [id y_nego y_transport t_recv_stream set_recv_stream].
  change (nego_recv n _) with (nego_recv n s1). rewrite Er. cbn. intros ->.
  destruct (recv_outcome_config _ _ Hout) as [Hc _]. cbn in Hc.
  split; [|split; [apply Hin; assumption|exact Hout] ].
  split; cbn; auto; [unfold calm; cbn; lia|].
  rewrite (request_variable_config _ _ Hc). exact Hreq.
Qed.

Lemma nego_tcp_connect_ends y : ready y ->
  Ends nego_tcp_connect y (fun ok y' => ok = true ->
    ready y' /\ n_tcp_connected (y_nego y') = true /\ (n_tcp_connected (y_nego y) = true -> y' = y)).
Proof.
  intros Hy. unfold Ends, nego_tcp_connect, nego_get, settings_get, on_transport, nego_mod, zoom, bind, id.
  rewrite (ready_tsg _ Hy). unfold transport_connect, put_out, net_do, bind.
  destruct (n_tcp_connected (y_nego y)) eqn:Hc; cbn [negb ret].
  - auto.
  - destruct (tcp_connect_in _ _ _) as [ok net']. destruct ok; cbn [negb ret]; [|discriminate].
    intros _. split; [|split; [reflexivity|discriminate] ].
    apply (ready_nego _ (mkSys (y_nego y) (set_net net' (set_tcp_out true (y_transport y))) (y_settings y)));
      [destruct Hy; split; assumption|repeat split].
Qed.

Lemma send_request_ends y : ready y ->
  Ends nego_send_negotiation_request y (fun ok y' => ok = true ->
    ready y' /\ y_nego y' = y_nego y /\ incoming y' = incoming y).
Proof.
  intros Hy. destruct (send_request_total y Hy) as (ok & y' & E & Hq). unfold Ends. rewrite E. exact Hq.
Qed.

(** An exchange ends (or runs over the receive buffer); if the connection was
    already there and it succeeds, at least four bytes of the peer are gone. *)
Lemma nego_exchange_ends p y : ready y ->
  Ends (nego_exchange skips p) y (fun ok y' => ok = true ->
    ready y' /\ n_tcp_connected (y_nego y') = true /\
    (n_tcp_connected (y_nego y) = true -> len (incoming y') + 4 <= len (incoming y))).
Proof.
  intros Hy. set (y0 := mkSys (set_requested p (y_nego y)) (y_transport y) (y_settings y)).
  assert (Hy0 : ready y0) by (apply ready_nego; [exact Hy|repeat split]).
  eapply (Ends_bind _ _ _ (fun _ y1 => y1 = y0)); [reflexivity|]. intros _ _ ->.
  eapply Ends_bind; [apply nego_tcp_connect_ends, Hy0|]. intros [] y1 H1; [|discriminate]. cbn [negb].
  destruct H1 as (Hy1 & Hc1 & Hsame); [reflexivity|].
  eapply Ends_bind; [apply send_request_ends, Hy1|]. intros [] y2 H2; [|discriminate]. cbn [negb].
  destruct H2 as (Hy2 & Hn2 & Hi2); [reflexivity|].
  eapply Ends_bind; [apply recv_response_ends, Hy2|]. intros [] y3 H3; [|discriminate].
  destruct H3 as (Hy3 & Hi3 & Hr3); [reflexivity|]. intros _. split; [exact Hy3|]. split.
  - rewrite <- Hc1, <- Hn2. inversion Hr3; reflexivity.
  - intros Hc. rewrite Hi2, (Hsame Hc) in Hi3. exact Hi3.
Qed.

(** With what the exchange leaves alone. *)
Lemma nego_exchange_run p y : ready y ->
  Ends (nego_exchange skips p) y (fun ok y' =>
    if ok then (n_state (y_nego y') = NEGO_STATE_FINAL \/ n_state (y_nego y') = NEGO_STATE_FAIL \/
                n_state (y_nego y') = n_state (y_nego y)) /\
         ready y' /\ n_tcp_connected (y_nego y') = true /\
         (n_tcp_connected (y_nego y) = true -> len (incoming y') + 4 <= len (incoming y))
    else n_state (y_nego y') = NEGO_STATE_FAIL).
Proof.
  intros Hy. pose proof (nego_exchange_ends p y Hy) as He. unfold Ends in *.
  destruct (nego_exchange skips p y) as [[ok y']|f] eqn:E; [|exact He].
  apply nego_exchange_inv in E as (_ & _ & _ & Hs). destruct ok; auto.
Qed.

(** *** The rounds *)

Definition ends (fuel : nat) y : Prop := nego_connect_loop skips fuel y <> Fault Diverges.

(** A loop ends if its first round ends, and either settles or leads to a loop
    that ends. *)
Lemma ends_step fuel y :
  Ends (nego_send skips) y (fun _ y' =>
    n_state (y_nego y') = NEGO_STATE_FAIL \/ n_state (y_nego y') = NEGO_STATE_FINAL \/ ends fuel y') ->
  ends (S fuel) y.
Proof.
  unfold ends, Ends. cbn [nego_connect_loop]. unfold bind at 1.
  destruct (nego_send skips y) as [[u y']|f]; [|congruence].
  unfold bind at 1, nego_get. intros [->|[->|He] ]; [discriminate|discriminate|].
  destruct (n_state (y_nego y')); try exact He; discriminate.
Qed.

Lemma send_in_state y Q : 
  Ends (match n_state (y_nego y) with
        | NEGO_STATE_NLA => nego_attempt_nla skips
        | NEGO_STATE_TLS => nego_attempt_tls skips
        | NEGO_STATE_RDP => nego_attempt_rdp skips
        | _ => ret tt
        end) y Q -> Ends (nego_send skips) y Q.
Proof. intros Hq. exact Hq. Qed.

(** Standard RDP security over an open connection: every round takes bytes. *)
Lemma ends_rdp_connected fuel : forall y, ready y -> n_state (y_nego y) = NEGO_STATE_RDP ->
  n_tcp_connected (y_nego y) = true -> len (incoming y) < 4 * Z.of_nat fuel -> ends fuel y.
Proof.
  induction fuel as [|fuel IH]; intros y Hy Hst Hc Hlen; [pose proof (len_nonneg (incoming y)); lia|].
  apply ends_step, send_in_state. rewrite Hst.
  eapply Ends_bind; [apply nego_exchange_run, Hy|]. rewrite Hst. intros [] y' Hs; [|left; exact Hs].
  destruct Hs as ([Hs|[Hs|Hs] ] & Hy' & Hc' & Hl); [right; left; exact Hs|left; exact Hs|].
  right; right. apply IH; auto. specialize (Hl Hc). lia.
Qed.

Lemma exists_step y :
  Ends (nego_send skips) y (fun _ y' =>
    n_state (y_nego y') = NEGO_STATE_FAIL \/ n_state (y_nego y') = NEGO_STATE_FINAL \/
    exists fuel, ends fuel y') -> exists fuel, ends fuel y.
Proof.
  intros Hq. destruct (nego_send skips y) as [[u y']|f] eqn:E.
  - pose proof Hq as Hq'. unfold Ends in Hq'. rewrite E in Hq'.
    destruct Hq' as [Hs|[Hs|[fuel Hf] ] ].
    + exists 1%nat. apply ends_step. unfold Ends. rewrite E. auto.
    + exists 1%nat. apply ends_step. unfold Ends. rewrite E. auto.
    + exists (S fuel). apply ends_step. unfold Ends. rewrite E. auto.
  - exists 1%nat. apply ends_step. unfold Ends in *. rewrite E in *. exact Hq.
Qed.

Lemma ends_rdp y : ready y -> n_state (y_nego y) = NEGO_STATE_RDP -> exists fuel, ends fuel y.
Proof.
  intros Hy Hst. apply exists_step, send_in_state. rewrite Hst.
  eapply Ends_bind; [apply nego_exchange_run, Hy|]. rewrite Hst. intros [] y' Hs; [|left; exact Hs].
  destruct Hs as ([Hs|[Hs|Hs] ] & Hy' & Hc' & _); [right; left; exact Hs|left; exact Hs|].
  right; right. exists (S (Z.to_nat (len (incoming y')))). apply ends_rdp_connected; auto.
  pose proof (len_nonneg (incoming y')). lia.
Qed.

Lemma fallback_ends y st : ready y ->
  Ends (nego_tcp_disconnect;; nego_mod (set_state st)) y
    (fun _ y' => ready y' /\ n_state (y_nego y') = st).
Proof.
  intros Hy. unfold Ends, nego_tcp_disconnect, nego_get, nego_mod, on_transport, zoom,
    transport_disconnect, net_do, bind, ret.
  destruct (n_tcp_connected (y_nego y));
    [|split; [apply (ready_nego (set_state st (set_tcp_connected false (y_nego y))) y Hy); repeat split
             |reflexivity] ].
  case_decide; destruct (tcp_disconnect_in _) as [ok net']; (split; [|reflexivity]);
    cbn [y_nego y_transport y_settings set_net];
    apply (ready_nego _ (mkSys (y_nego y) (set_net net' (y_transport y)) (y_settings y)));
    try apply ready_net, Hy; repeat split.
Qed.

Lemma ends_tls y : ready y -> n_state (y_nego y) = NEGO_STATE_TLS -> exists fuel, ends fuel y.
Proof.
  intros Hy Hst. apply exists_step, send_in_state. rewrite Hst.
  eapply Ends_bind; [apply nego_exchange_run, Hy|]. intros [] y' Hs; [|left; exact Hs]. cbn [negb].
  destruct Hs as (_ & Hy' & _). unfold Ends, nego_get. unfold bind at 1. cbn [id]. fold (@Ends (negoSys N) unit).
  case_decide as Hd; [|right; left; exact Hd].
  destruct (n_enabled_rdp (y_nego y')); (eapply Ends_mono; [apply fallback_ends, Hy'|]);
    intros _ y'' [Hy'' Hs'']; [right; right; apply ends_rdp; assumption|left; exact Hs''].
Qed.

Lemma ends_nla y : ready y -> n_state (y_nego y) = NEGO_STATE_NLA -> exists fuel, ends fuel y.
Proof.
  intros Hy Hst. apply exists_step, send_in_state. rewrite Hst.
  eapply Ends_bind; [apply nego_exchange_run, Hy|]. intros [] y' Hs; [|left; exact Hs]. cbn [negb].
  destruct Hs as (_ & Hy' & _). unfold Ends, nego_get. unfold bind at 1. cbn [id]. fold (@Ends (negoSys N) unit).
  case_decide as Hd; [|right; left; exact Hd].
  destruct (n_enabled_tls (y_nego y')); [|destruct (n_enabled_rdp (y_nego y'))];
    (eapply Ends_mono; [apply fallback_ends, Hy'|]); intros _ y'' [Hy'' Hs''];
    [right; right; apply ends_tls; assumption|right; right; apply ends_rdp; assumption|left; exact Hs''].
Qed.

Lemma ends_any y : ready y -> n_state (y_nego y) <> NEGO_STATE_INITIAL -> exists fuel, ends fuel y.
Proof.
  intros Hy Hi. destruct (n_state (y_nego y)) eqn:Hst; try congruence;
    eauto using ends_nla, ends_tls, ends_rdp;
    (apply exists_step, send_in_state; rewrite Hst; cbn; auto).
Qed.

Lemma connect_ends y : ready y -> exists fuel, nego_connect skips fuel y <> Fault Diverges.
Proof.
  intros Hy. set (y0 := mkSys (if decide (n_state (y_nego y) = NEGO_STATE_INITIAL)
                               then set_state (first_state (y_nego y)) (y_nego y) else y_nego y)
                          (y_transport y) (y_settings y)).
  assert (Hy0 : ready y0) by (apply ready_nego; [exact Hy|case_decide; repeat split]).
  assert (Hi : n_state (y_nego y0) <> NEGO_STATE_INITIAL).
  { cbn. case_decide as Hd; [|exact Hd]. cbn. unfold first_state. repeat case_match; discriminate. }
  destruct (ends_any y0 Hy0 Hi) as [fuel Hf]. exists fuel.
  unfold nego_connect, nego_mod. unfold bind at 1. fold y0. unfold ends in Hf. unfold bind at 1.
  destruct (nego_connect_loop skips fuel y0) as [[ok y1]|f]; [|congruence].
  destruct ok; discriminate.
Qed.

End termination.

(** ** A scripted peer

    The current session, and those the next connects will give. *)
Record sessions : Type := mkSessions {
  ss_now : rdpTcp;
  ss_next : list rdpTcp;
}.

#[export] Instance SessionsLink : Link sessions := {
  link_read := fun l n w =>
    let '(st, bs, tcp) := link_read l n (ss_now w) in (st, bs, mkSessions tcp (ss_next w));
  link_write := fun l bs w =>
    let '(st, tcp) := link_write l bs (ss_now w) in (st, mkSessions tcp (ss_next w));
  link_skip := fun _ w => (false, w);
  link_stall := fun w => link_stall (ss_now w);
  link_incoming := fun w => link_incoming (ss_now w);
  link_outgoing := fun w => link_outgoing (ss_now w);
}.

#[export] Instance SessionsLinkLaws : LinkLaws sessions TRANSPORT_LAYER_TCP.
Proof.
  split.
  - discriminate.
  - intros n w st bs w' Hn Hr Hst. cbn [link_read link_incoming link_outgoing link_stall SessionsLink] in *.
    destruct (link_read TRANSPORT_LAYER_TCP n (ss_now w)) as [[st' bs'] tcp] eqn:E.
    injection Hr as <- <- <-. apply (link_read_law _ _ _ _ _ Hn E Hst).
  - intros n w st bs w' Hn Hr Hst. cbn [link_read link_incoming SessionsLink] in *.
    destruct (link_read TRANSPORT_LAYER_TCP n (ss_now w)) as [[st' bs'] tcp] eqn:E.
    injection Hr as <- <- <-. apply (link_read_progress _ _ _ _ _ Hn E Hst).
  - intros bs w st w' Hne Hw Hst. cbn [link_write link_incoming link_outgoing link_stall SessionsLink] in *.
    destruct (link_write TRANSPORT_LAYER_TCP bs (ss_now w)) as [st' tcp] eqn:E.
    injection Hw as <- <-. apply (link_write_law _ _ _ _ Hne E Hst).
  - intros bs w st w' Hw Hst. cbn [link_write link_outgoing SessionsLink] in *.
    destruct (link_write TRANSPORT_LAYER_TCP bs (ss_now w)) as [st' tcp] eqn:E.
    injection Hw as <- <-. apply (link_write_fail _ _ _ _ E Hst).
Qed.

#[export] Instance SessionsConnector : Connector sessions := {
  tcp_connect_in := fun _ _ w =>
    match ss_next w with
    | tcp :: next => (true, mkSessions tcp next)
    | [] => (false, w)
    end;
  tcp_connect_out := fun _ _ w => (false, w);
  tls_connect_in := fun w => (false, w);
  tls_connect_out := fun w => (false, w);
  tsg_connect := fun _ _ w => (false, w);
  tls_accept_in := fun w => (false, w);
  credssp_authenticate := fun w => (-1, w);
  tls_disconnect_in := fun w => w;
  tcp_disconnect_in := fun w => (true, w);
}.

Definition no_settings : negoSettings := mkSettings None 0 0 0 true true false false 0 0.

(** A client that enables the given protocols, with smaller buffers than
    [transport_new] allocates, before sessions in which the
    server answers the request with the given bytes. *)
Definition scripted_client (rdp tls nla : bool) (answers : list (list Z)) : negoSys sessions :=
  mkSys (set_enabled rdp tls nla nego_new)
    (mkTransport TRANSPORT_LAYER_TCP true 0 (stream_new 4096) (stream_new 4096) (stream_new 0) (stream_new 0)
      (mkSessions (mkTcp [] [] [])
        (map (fun bs => mkTcp [RecvData bs] [SendUpTo 65536; SendUpTo 65536] []) answers)) false false)
    no_settings.

(** ** Claims *)

(** Whatever bytes the server sends, [nego_recv] reads at most twenty of
    them and does one of five things to the client: refuse, finish without
    negotiation data, finish with the selected protocol, fail, or ignore. *)
Theorem nego_recv_bounds n s : room s 20 ->
  exists r j, nego_recv n s = Done (r, adv j s) /\ 0 <= j <= 20 /\ recv_outcome n r.
Proof. apply Safe_nego_recv. Qed.

Lemma nego_recv_bounds_witness :
  exists r j, nego_recv nego_new (stream_new 64) = Done (r, adv j (stream_new 64)) /\ 0 <= j <= 20 /\
    recv_outcome nego_new r.
Proof. apply nego_recv_bounds. split; vm_compute; discriminate. Defined.

(** The connection request a client writes is read by the server out of a
    buffer sealed behind it: a delimited cookie or routing token is skipped and
    the server learns exactly the protocols the client requested. *)
Theorem nego_request_roundtrip client server rest :
  delimited client -> 0 <= n_requested client < 2 ^ 32 -> len (request_body client) <= 249 ->
  let bs := request_bytes client in
  Writes (negotiation_request_pdu client) bs tt /\
  nego_read_request server (mkSTREAM (len bs) 0 (bs ++ rest))
  = Done ((true, server_after client server), mkSTREAM (len bs) (len bs) (bs ++ rest)).
Proof. intros Hd Hr Hl bs. split; [apply Writes_request|apply read_request_run; assumption]. Qed.

Lemma nego_request_roundtrip_witness :
  let client := set_requested 3 (nego_set_cookie (Some [98; 111; 98]) nego_new) in
  nego_read_request nego_new (mkSTREAM (len (request_bytes client)) 0 (request_bytes client ++ [7]))
  = Done ((true, set_state NEGO_STATE_FINAL (set_requested 3 nego_new)),
          mkSTREAM (len (request_bytes client)) (len (request_bytes client)) (request_bytes client ++ [7])).
Proof.
  intros client. apply (nego_request_roundtrip client nego_new [7]).
  - right. exists (cookie_prefix ++ [98; 111; 98]). split; [reflexivity|]. split.
    + repeat constructor; discriminate.
    + left. reflexivity.
  - cbn. lia.
  - vm_compute. discriminate.
Defined.

(** The answer the server writes leaves the client with the protocol the
    server selected and the state final; with the state final and the selection
    untouched when the server agrees to standard RDP security; and failed when
    the server refuses standard RDP security. *)
Theorem nego_response_agreement server settings client s :
  0 <= n_selected server < 2 ^ 32 -> room s 19 -> s_p s + 19 <= s_size s ->
  received (negotiation_response_pdu server settings) (nego_recv client) s
    = Some (true, client_after server settings client).
Proof.
  intros Hsel Hroom Hsize.
  assert (Hlen : len (response_bytes server settings) <= 19).
  { unfold response_bytes, response_body. rewrite len_app. change (len (connect_header _ _)) with 11.
    repeat case_match; lens_lia. }
  apply (received_prefix _ _ (response_bytes server settings) [] (response_accepts server settings));
    rewrite ?app_nil_r; [|apply Reads_response, Hsel|apply (room_le _ _ _ Hroom); lia|lia].
  apply Writes_response, (room_le _ _ _ Hroom). lia.
Qed.

Lemma nego_response_agreement_witness :
  received (negotiation_response_pdu (set_selected 0 PROTOCOL_NLA nego_new) no_settings)
      (nego_recv nego_new) (stream_new 64)
    = Some (true, set_state NEGO_STATE_FINAL (set_selected 1 PROTOCOL_NLA nego_new)).
Proof.
  apply (nego_response_agreement (set_selected 0 PROTOCOL_NLA nego_new) no_settings nego_new (stream_new 64)).
  - cbn. unfold PROTOCOL_NLA. lia.
  - split; vm_compute; discriminate.
  - vm_compute. discriminate.
Defined.

(** C27. The order of attempts: a round of the loop changes the state only from
    NLA to an enabled TLS (or to an enabled RDP when TLS is disabled), from TLS
    to an enabled RDP, or to the final or the failed state; it keeps the
    client's configuration, and what it has requested when it ends is what the
    state it started in stands for. *)
Theorem nego_send_downgrades {N} `{Link N} `{Connector N} skips (y : negoSys N) y' :
  n_state (y_nego y) <> NEGO_STATE_FINAL -> nego_send skips y = Done (tt, y') ->
  same_config (y_nego y) (y_nego y') /\ y_settings y' = y_settings y /\
  nego_step (y_nego y) (n_state (y_nego y)) (n_state (y_nego y')) /\
  (n_state (y_nego y') = NEGO_STATE_FINAL ->
   n_requested (y_nego y') = requested_in (n_state (y_nego y))).
Proof. intros Hf Hr. exact (nego_send_inv skips y tt y' Hf Hr). Qed.

Definition refusal : list Z := response_bytes nego_new no_settings.
Definition tls_answer : list Z := response_bytes (set_selected 0 PROTOCOL_TLS nego_new) no_settings.

Definition nla_client : negoSys sessions :=
  mkSys (set_state NEGO_STATE_NLA (y_nego (scripted_client true true true [refusal; tls_answer])))
    (y_transport (scripted_client true true true [refusal; tls_answer])) no_settings.

Definition after {S A} (c : M S A) (s : S) : S := match c s with Done (_, s') => s' | Fault _ => s end.

Lemma nego_send_downgrades_witness :
  nego_step (y_nego nla_client) NEGO_STATE_NLA (n_state (y_nego (after (nego_send 0) nla_client))) /\
  n_state (y_nego (after (nego_send 0) nla_client)) = NEGO_STATE_TLS.
Proof.
  split; [|vm_compute; reflexivity].
  apply (nego_send_downgrades 0 nla_client (after (nego_send 0) nla_client)).
  - discriminate.
  - vm_compute. reflexivity.
Defined.

(** C26. A client that starts negotiating and succeeds is in the final state and
    has last requested protocols that are enabled; its settings record what was
    requested, what the server selected and the server's flags; standard RDP
    encryption is switched on when RDP was selected, and otherwise the encryption
    settings and the enabled kinds of security are left as they were. *)
Theorem nego_connect_success {N} `{Link N} `{Connector N} skips fuel (y : negoSys N) y' :
  n_state (y_nego y) = NEGO_STATE_INITIAL -> nego_connect skips fuel y = Done (true, y') ->
  let n' := y_nego y' in let st := y_settings y in let st' := y_settings y' in
  n_state n' = NEGO_STATE_FINAL /\ requested_enabled n' /\ same_config (y_nego y) n' /\
  st_requested_protocols st' = n_requested n' /\ st_selected_protocol st' = n_selected n' /\
  st_negotiationFlags st' = n_flags n' /\
  (st_encryption st', st_encryption_method st', st_encryption_level st')
  = (if n_selected n' =? PROTOCOL_RDP
     then (true, Z.lor (Z.lor ENCRYPTION_METHOD_40BIT ENCRYPTION_METHOD_128BIT) ENCRYPTION_METHOD_FIPS,
           ENCRYPTION_LEVEL_CLIENT_COMPATIBLE)
     else (st_encryption st, st_encryption_method st, st_encryption_level st)) /\
  (st_tls_security st', st_nla_security st', st_rdp_security st')
  = (st_tls_security st, st_nla_security st, st_rdp_security st).
Proof.
  intros Hi Hr. unfold nego_connect in Hr. run_inv Hr. injection E as <- <-. run_inv Hr.
  rewrite decide_True in E by exact Hi.
  set (y0 := mkSys (set_state (first_state (y_nego y)) (y_nego y)) (y_transport y) (y_settings y)) in E.
  assert (He : state_enabled (y_nego y0)).
  { unfold state_enabled, y0. cbn. unfold first_state. repeat case_match; auto; congruence. }
  destruct (connect_loop_inv skips fuel _ _ _ He E) as (Hc & Hy & Hs & Hq).
  destruct a; [|discriminate]. cbn [negb] in Hr.
  do 3 run_inv Hr. injection E0 as <- <-. injection E1 as <- <-. injection E2 as <- <-.
  injection Hr as <-. cbn [y_nego y_settings id].
  split; [apply Hs; reflexivity|]. split; [apply Hq; reflexivity|]. split; [exact Hc|].
  rewrite Hy. unfold client_settings. destruct (n_selected _ =? PROTOCOL_RDP); auto 10.
Qed.

Lemma nego_connect_success_witness :
  requested_enabled (y_nego (after (nego_connect 0 3) (scripted_client true true true [refusal; tls_answer]))) /\
  st_selected_protocol (y_settings (after (nego_connect 0 3)
    (scripted_client true true true [refusal; tls_answer]))) = PROTOCOL_TLS.
Proof.
  destruct (nego_connect_success 0 3 (scripted_client true true true [refusal; tls_answer])
    (after (nego_connect 0 3) (scripted_client true true true [refusal; tls_answer]))) as (_ & Hq & _).
  - reflexivity.
  - vm_compute. reflexivity.
  - split; [exact Hq|]. vm_compute. reflexivity.
Defined.

(** C25. [nego_connect] ends over every link that obeys its laws, whatever the
    servers answer: the only state it can stay in, RDP over an open connection,
    uses up at least four bytes of the server's answer in every round. *)
Theorem nego_connect_terminates {N} `{Link N} `{Connector N} l `{!LinkLaws N l} skips (y : negoSys N) :
  l <> TRANSPORT_LAYER_TSG -> ready l y ->
  exists fuel, nego_connect skips fuel y <> Fault Diverges.
Proof. intros Hl Hy. exact (connect_ends l Hl skips y Hy). Qed.

Lemma nego_connect_terminates_witness :
  exists fuel, nego_connect 0 fuel (scripted_client true true true [refusal; tls_answer]) <> Fault Diverges.
Proof.
  apply (nego_connect_terminates TRANSPORT_LAYER_TCP); [discriminate|].
  split; try reflexivity; vm_compute; repeat split; discriminate.
Defined.

(** The client does not compare the server's selection with its request: a
    client that enables NLA only and is answered with a bare connection confirm
    reports success with standard RDP security. *)
Theorem nego_selection_unchecked :
  exists y', nego_connect 0 1 (scripted_client false false true
      [connect_header X224_TPDU_CONNECTION_CONFIRM [] ]) = Done (true, y') /\
    n_enabled_rdp (y_nego y') = false /\ st_requested_protocols (y_settings y') = 3 /\
    st_selected_protocol (y_settings y') = PROTOCOL_RDP /\ st_encryption (y_settings y') = true.
Proof.
  eexists. split; [vm_compute; reflexivity|]. vm_compute. repeat split.
Qed.
