(* ===== verification/Security.v ===== *)
(** Standard RDP security, [libfreerdp-core/security.c]: deriving the session
    keys, the RC4 channel with its key updates, the message signatures and the
    FIPS variant. The hash functions and ciphers are OpenSSL's, reached through
    [crypto.c]; they are the interface [Crypto], and [CryptoLaws] is what their
    documentation promises. *)

From S2P Require Import Prelude.
From S2P Require Import Stream.
From S2P Require Import Settings.

(** ** Primitives

    [sha1], [md5] and [hmac_sha1 key] are the digests of the bytes given to the
    successive [.._update] calls. *)
Class Crypto : Type := {
  sha1 : list Z -> list Z;
  md5 : list Z -> list Z;
  hmac_sha1 : list Z -> list Z -> list Z;
  rc4_state : Type;
  rc4_init : list Z -> rc4_state;
  rc4 : rc4_state -> list Z -> list Z * rc4_state;
  des3_state : Type;
  des3_encrypt_init : list Z -> list Z -> des3_state;
  des3_decrypt_init : list Z -> list Z -> des3_state;
  des3_encrypt : des3_state -> list Z -> list Z * des3_state;
  des3_decrypt : des3_state -> list Z -> list Z * des3_state;
}.

Class CryptoLaws `{Crypto} : Prop := {
  len_sha1 : forall l, len (sha1 l) = 20;
  len_md5 : forall l, len (md5 l) = 16;
  bytes_md5 : forall l, is_bytes (md5 l);
  len_hmac : forall k l, len (hmac_sha1 k l) = 20;
  (** RC4 is a stream cipher: the same state turns the output back. *)
  rc4_back : forall st data out st', rc4 st data = (out, st') ->
    len out = len data /\ rc4 st out = (data, st');
}.

Section security.
Context `{Crypto}.

(** The part of [struct rdp_rdp] that belongs to standard security. A pointer
    to a cipher that has not been set up is [None]. *)
Record rdpSec : Type := mkSec {
  rc4_decrypt_key : option rc4_state;
  decrypt_use_count : Z;
  rc4_encrypt_key : option rc4_state;
  encrypt_use_count : Z;
  fips_encrypt : option des3_state;
  fips_decrypt : option des3_state;
  sign_key : list Z;
  decrypt_key : list Z;
  encrypt_key : list Z;
  decrypt_update_key : list Z;
  encrypt_update_key : list Z;
  rc4_key_len : Z;
  fips_sign_key : list Z;
  fips_encrypt_key : list Z;
  fips_decrypt_key : list Z;
}.

Definition set_encrypt (st : option rc4_state) (count : Z) (key : list Z) (r : rdpSec) : rdpSec :=
  mkSec (rc4_decrypt_key r) (decrypt_use_count r) st count (fips_encrypt r) (fips_decrypt r)
    (sign_key r) (decrypt_key r) key (decrypt_update_key r) (encrypt_update_key r) (rc4_key_len r)
    (fips_sign_key r) (fips_encrypt_key r) (fips_decrypt_key r).
Definition set_decrypt (st : option rc4_state) (count : Z) (key : list Z) (r : rdpSec) : rdpSec :=
  mkSec st count (rc4_encrypt_key r) (encrypt_use_count r) (fips_encrypt r) (fips_decrypt r)
    (sign_key r) key (encrypt_key r) (decrypt_update_key r) (encrypt_update_key r) (rc4_key_len r)
    (fips_sign_key r) (fips_encrypt_key r) (fips_decrypt_key r).
Definition set_fips_ciphers (e d : option des3_state) (r : rdpSec) : rdpSec :=
  mkSec (rc4_decrypt_key r) (decrypt_use_count r) (rc4_encrypt_key r) (encrypt_use_count r) e d
    (sign_key r) (decrypt_key r) (encrypt_key r) (decrypt_update_key r) (encrypt_update_key r)
    (rc4_key_len r) (fips_sign_key r) (fips_encrypt_key r) (fips_decrypt_key r).
Definition set_counts (e d : Z) (r : rdpSec) : rdpSec :=
  mkSec (rc4_decrypt_key r) d (rc4_encrypt_key r) e (fips_encrypt r) (fips_decrypt r)
    (sign_key r) (decrypt_key r) (encrypt_key r) (decrypt_update_key r) (encrypt_update_key r)
    (rc4_key_len r) (fips_sign_key r) (fips_encrypt_key r) (fips_decrypt_key r).
Definition set_fips_keys (sign enc dec : list Z) (r : rdpSec) : rdpSec :=
  mkSec (rc4_decrypt_key r) (decrypt_use_count r) (rc4_encrypt_key r) (encrypt_use_count r)
    (fips_encrypt r) (fips_decrypt r) (sign_key r) (decrypt_key r) (encrypt_key r)
    (decrypt_update_key r) (encrypt_update_key r) (rc4_key_len r) sign enc dec.
Definition set_keys (sign dec enc : list Z) (key_len : Z) (r : rdpSec) : rdpSec :=
  mkSec (rc4_decrypt_key r) (decrypt_use_count r) (rc4_encrypt_key r) (encrypt_use_count r)
    (fips_encrypt r) (fips_decrypt r) sign dec enc dec enc key_len
    (fips_sign_key r) (fips_encrypt_key r) (fips_decrypt_key r).

(** [n] bytes at offset [off] of an array. *)
Definition mem {S} (off n : Z) (l : list Z) : M S (list Z) := fun s =>
  if bool_decide (0 <= off /\ 0 <= n /\ off + n <= len l)
  then Done (take (Z.to_nat n) (drop (Z.to_nat off) l), s) else Fault OutOfBounds.

(** ** Constants *)

Definition pad1 : list Z := replicate 40 0x36.
Definition pad2 : list Z := replicate 48 0x5C.
Definition salt40 : list Z := [0xD1; 0x26; 0x9E].

Definition fips_reverse_table : list Z :=
  [0; 128; 64; 192; 32; 160; 96; 224; 16; 144; 80; 208; 48; 176; 112; 240;
   8; 136; 72; 200; 40; 168; 104; 232; 24; 152; 88; 216; 56; 184; 120; 248;
   4; 132; 68; 196; 36; 164; 100; 228; 20; 148; 84; 212; 52; 180; 116; 244;
   12; 140; 76; 204; 44; 172; 108; 236; 28; 156; 92; 220; 60; 188; 124; 252;
   2; 130; 66; 194; 34; 162; 98; 226; 18; 146; 82; 210; 50; 178; 114; 242;
   10; 138; 74; 202; 42; 170; 106; 234; 26; 154; 90; 218; 58; 186; 122; 250;
   6; 134; 70; 198; 38; 166; 102; 230; 22; 150; 86; 214; 54; 182; 118; 246;
   14; 142; 78; 206; 46; 174; 110; 238; 30; 158; 94; 222; 62; 190; 126; 254;
   1; 129; 65; 193; 33; 161; 97; 225; 17; 145; 81; 209; 49; 177; 113; 241;
   9; 137; 73; 201; 41; 169; 105; 233; 25; 153; 89; 217; 57; 185; 121; 249;
   5; 133; 69; 197; 37; 165; 101; 229; 21; 149; 85; 213; 53; 181; 117; 245;
   13; 141; 77; 205; 45; 173; 109; 237; 29; 157; 93; 221; 61; 189; 125; 253;
   3; 131; 67; 195; 35; 163; 99; 227; 19; 147; 83; 211; 51; 179; 115; 243;
   11; 139; 75; 203; 43; 171; 107; 235; 27; 155; 91; 219; 59; 187; 123; 251;
   7; 135; 71; 199; 39; 167; 103; 231; 23; 151; 87; 215; 55; 183; 119; 247;
   15; 143; 79; 207; 47; 175; 111; 239; 31; 159; 95; 223; 63; 191; 127; 255].

Definition fips_oddparity_table : list Z :=
  [1; 1; 2; 2; 4; 4; 7; 7; 8; 8; 11; 11; 13; 13; 14; 14;
   16; 16; 19; 19; 21; 21; 22; 22; 25; 25; 26; 26; 28; 28; 31; 31;
   32; 32; 35; 35; 37; 37; 38; 38; 41; 41; 42; 42; 44; 44; 47; 47;
   49; 49; 50; 50; 52; 52; 55; 55; 56; 56; 59; 59; 61; 61; 62; 62;
   64; 64; 67; 67; 69; 69; 70; 70; 73; 73; 74; 74; 76; 76; 79; 79;
   81; 81; 82; 82; 84; 84; 87; 87; 88; 88; 91; 91; 93; 93; 94; 94;
   97; 97; 98; 98; 100; 100; 103; 103; 104; 104; 107; 107; 109; 109; 110; 110;
   112; 112; 115; 115; 117; 117; 118; 118; 121; 121; 122; 122; 124; 124; 127; 127;
   128; 128; 131; 131; 133; 133; 134; 134; 137; 137; 138; 138; 140; 140; 143; 143;
   145; 145; 146; 146; 148; 148; 151; 151; 152; 152; 155; 155; 157; 157; 158; 158;
   161; 161; 162; 162; 164; 164; 167; 167; 168; 168; 171; 171; 173; 173; 174; 174;
   176; 176; 179; 179; 181; 181; 182; 182; 185; 185; 186; 186; 188; 188; 191; 191;
   193; 193; 194; 194; 196; 196; 199; 199; 200; 200; 203; 203; 205; 205; 206; 206;
   208; 208; 211; 211; 213; 213; 214; 214; 217; 217; 218; 218; 220; 220; 223; 223;
   224; 224; 227; 227; 229; 229; 230; 230; 233; 233; 234; 234; 236; 236; 239; 239;
   241; 241; 242; 242; 244; 244; 247; 247; 248; 248; 251; 251; 253; 253; 254; 254].

(** The strings the key derivation hashes. *)
Definition A_BB_CCC : list (list Z) := [ [65]; [66; 66]; [67; 67; 67] ].
Definition X_YY_ZZZ : list (list Z) := [ [88]; [89; 89]; [90; 90; 90] ].

(** ** Key derivation *)

Definition security_salted_hash {S} (salt input salt1 salt2 : list Z) : M S (list Z) :=
  let! salt := mem 0 48 salt in
  let! salt1 := mem 0 32 salt1 in
  let! salt2 := mem 0 32 salt2 in
  let sha1_digest := sha1 (input ++ salt ++ salt1 ++ salt2) in
  ret (md5 (salt ++ sha1_digest)).

Definition security_premaster_hash {S} (input premaster_secret client_random server_random : list Z)
  : M S (list Z) :=
  security_salted_hash premaster_secret input client_random server_random.

Definition security_master_hash {S} (input master_secret client_random server_random : list Z)
  : M S (list Z) :=
  security_salted_hash master_secret input server_random client_random.

(** Three hashes of 16 bytes, one behind the other. *)
Definition three_hashes {S} (hash : list Z -> M S (list Z)) (inputs : list (list Z)) : M S (list Z) :=
  match inputs with
  | [a; b; c] =>
      let! ha := hash a in let! hb := hash b in let! hc := hash c in ret (ha ++ hb ++ hc)
  | _ => fail OutOfBounds
  end.

Definition security_master_secret {S} (premaster_secret client_random server_random : list Z) : M S (list Z) :=
  three_hashes (fun i => security_premaster_hash i premaster_secret client_random server_random) A_BB_CCC.

Definition security_session_key_blob {S} (master_secret client_random server_random : list Z) : M S (list Z) :=
  three_hashes (fun i => security_master_hash i master_secret client_random server_random) A_BB_CCC.

Definition security_mac_salt_key {S} (session_key_blob : list Z) : M S (list Z) :=
  mem 0 16 session_key_blob.

Definition security_md5_16_32_32 {S} (in0 in1 in2 : list Z) : M S (list Z) :=
  let! in0 := mem 0 16 in0 in
  let! in1 := mem 0 32 in1 in
  let! in2 := mem 0 32 in2 in
  ret (md5 (in0 ++ in1 ++ in2)).

Definition security_licensing_encryption_key {S} (session_key_blob client_random server_random : list Z)
  : M S (list Z) :=
  let! second := mem 16 16 session_key_blob in
  security_md5_16_32_32 second client_random server_random.

Definition security_uint32_le (value : Z) : list Z :=
  [Z.land value 0xFF; Z.land (Z.shiftr value 8) 0xFF; Z.land (Z.shiftr value 16) 0xFF;
   Z.land (Z.shiftr value 24) 0xFF].

Definition security_mac_data {S} (mac_salt_key data : list Z) : M S (list Z) :=
  let! key := mem 0 16 mac_salt_key in
  let sha1_digest := sha1 (key ++ pad1 ++ security_uint32_le (len data) ++ data) in
  ret (md5 (key ++ pad2 ++ sha1_digest)).

Definition security_A {S} (master_secret client_random server_random : list Z) : M S (list Z) :=
  three_hashes (fun i => security_premaster_hash i master_secret client_random server_random) A_BB_CCC.
Definition security_X {S} (master_secret client_random server_random : list Z) : M S (list Z) :=
  three_hashes (fun i => security_premaster_hash i master_secret client_random server_random) X_YY_ZZZ.

(** *** FIPS keys *)

Definition at_index {S} (table : list Z) (i : Z) : M S Z := fun s =>
  match table !! Z.to_nat i with
  | Some v => if 0 <=? i then Done (v, s) else Fault OutOfBounds
  | None => Fault OutOfBounds
  end.

(** Run a loop over the given indices and collect what the rounds store. *)
Fixpoint for_each {S A B} (f : A -> M S B) (l : list A) : M S (list B) :=
  match l with
  | [] => ret []
  | x :: l => let! y := f x in let! ys := for_each f l in ret (y :: ys)
  end.

Definition upto (n : nat) : list Z := map Z.of_nat (seq 0 n).

(** The source reads [buf[21]] behind its array of 21 bytes in the last round
    of the second loop; [behind] is the byte that is there. *)
Definition fips_expand_key_bits {S} (behind : Z) (inp : list Z) : M S (list Z) :=
  let! buf := for_each (fun i => let! b := at_index inp i in at_index fips_reverse_table b) (upto 21) in
  let buf := buf ++ [behind] in
  let! out := for_each (fun i =>
      let b := 7 * i in
      let p := b / 8 in
      let r := b mod 8 in
      let! x := at_index buf p in
      if r =? 0 then ret (Z.land x 0xFE)
      else
        let! y := at_index buf (p + 1) in
        let c := uint8 (Z.shiftl x r) in
        let c := Z.lor c (Z.shiftr y (8 - r)) in
        ret (Z.land c 0xFE)) (upto 24) in
  for_each (fun x => let! y := at_index fips_reverse_table x in at_index fips_oddparity_table y) out.

(** The FIPS keys: for signing, encrypting and decrypting. *)
Definition fips_keys {S} (behind : Z) (client_random server_random : list Z)
  : M S (list Z * list Z * list Z) :=
  let! c1 := mem 16 16 client_random in
  let! s1 := mem 16 16 server_random in
  let client_encrypt_key_t := sha1 (c1 ++ s1) in
  let! first := mem 0 1 client_encrypt_key_t in
  let! fips_enc := fips_expand_key_bits behind (client_encrypt_key_t ++ first) in
  let! c0 := mem 0 16 client_random in
  let! s0 := mem 0 16 server_random in
  let client_decrypt_key_t := sha1 (c0 ++ s0) in
  let! first := mem 0 1 client_decrypt_key_t in
  let! fips_dec := fips_expand_key_bits behind (client_decrypt_key_t ++ first) in
  ret (sha1 (client_decrypt_key_t ++ client_encrypt_key_t), fips_enc, fips_dec).

(** The signing key, and the two session keys from the second and the third
    part of the session key blob. *)
Definition session_keys {S} (client_random server_random : list Z) : M S (list Z * list Z * list Z) :=
  let! c24 := mem 0 24 client_random in
  let! s24 := mem 0 24 server_random in
  let pre_master_secret := c24 ++ s24 in
  let! master_secret := security_A pre_master_secret client_random server_random in
  let! session_key_blob := security_X master_secret client_random server_random in
  let! sign := mem 0 16 session_key_blob in
  let! k16 := mem 16 16 session_key_blob in
  let! k32 := mem 32 16 session_key_blob in
  let! h16 := security_md5_16_32_32 k16 client_random server_random in
  let! h32 := security_md5_16_32_32 k32 client_random server_random in
  ret (sign, h16, h32).

Definition security_establish_keys (behind : Z) (encryption_method : Z) (server_mode : bool)
    (client_random server_random : list Z) : M rdpSec bool :=
  (if encryption_method =? ENCRYPTION_METHOD_FIPS then
     let! (sign, enc, dec) := fips_keys behind client_random server_random in
     fun r => Done (tt, set_fips_keys sign enc dec r)
   else ret tt);;
  let! (sign, h16, h32) := session_keys client_random server_random in
  let (enc, dec) := if server_mode then (h16, h32) else (h32, h16) in
  fun r =>
    Done (true,
      if encryption_method =? 1 then
        set_keys (splice 0 salt40 sign) (splice 0 salt40 dec) (splice 0 salt40 enc) 8 r
      else if encryption_method =? 2 then set_keys sign dec enc 16 r
      else set_keys sign dec enc (rc4_key_len r) r).

(** ** Signatures *)

Definition get_sec : M rdpSec rdpSec := fun r => Done (r, r).

Definition security_mac_signature (data : list Z) : M rdpSec (list Z) :=
  let! r := get_sec in
  let! key := mem 0 (rc4_key_len r) (sign_key r) in
  let sha1_digest := sha1 (key ++ pad1 ++ security_uint32_le (len data) ++ data) in
  let md5_digest := md5 (key ++ pad2 ++ sha1_digest) in
  mem 0 8 md5_digest.

Definition security_salted_mac_signature (data : list Z) (encryption : bool) : M rdpSec (list Z) :=
  let! r := get_sec in
  let use_count_le := if encryption then security_uint32_le (encrypt_use_count r)
                      else security_uint32_le (decrypt_use_count r - 1) in
  let! key := mem 0 (rc4_key_len r) (sign_key r) in
  let sha1_digest := sha1 (key ++ pad1 ++ security_uint32_le (len data) ++ data ++ use_count_le) in
  let md5_digest := md5 (key ++ pad2 ++ sha1_digest) in
  mem 0 8 md5_digest.

(** ** The RC4 channel *)

Definition security_key_update {S} (key update_key : list Z) (key_len : Z) : M S (list Z) :=
  let! u := mem 0 key_len update_key in
  let! k := mem 0 key_len key in
  let sha1h := sha1 (u ++ pad1 ++ k) in
  let key := md5 (u ++ pad2 ++ sha1h) in
  let! k := mem 0 key_len key in
  let (out, _) := rc4 (rc4_init k) k in
  let key := splice 0 out key in
  ret (if key_len =? 8 then splice 0 salt40 key else key).

(** Returns the bytes the buffer holds afterwards. *)
Definition security_encrypt (data : list Z) : M rdpSec (list Z) :=
  let! r := get_sec in
  (if 4096 <=? encrypt_use_count r then
     let! key := security_key_update (encrypt_key r) (encrypt_update_key r) (rc4_key_len r) in
     let! k := mem 0 (rc4_key_len r) key in
     fun r => Done (tt, set_encrypt (Some (rc4_init k)) 0 key r)
   else ret tt);;
  let! r := get_sec in
  match rc4_encrypt_key r with
  | None => fail NullPointer
  | Some st =>
      let (out, st') := rc4 st data in
      fun r => Done (out, set_encrypt (Some st') (encrypt_use_count r + 1) (encrypt_key r) r)
  end.

Definition security_decrypt (data : list Z) : M rdpSec (list Z) :=
  let! r := get_sec in
  (if 4096 <=? decrypt_use_count r then
     let! key := security_key_update (decrypt_key r) (decrypt_update_key r) (rc4_key_len r) in
     let! k := mem 0 (rc4_key_len r) key in
     fun r => Done (tt, set_decrypt (Some (rc4_init k)) 0 key r)
   else ret tt);;
  let! r := get_sec in
  match rc4_decrypt_key r with
  | None => fail NullPointer
  | Some st =>
      let (out, st') := rc4 st data in
      fun r => Done (out, set_decrypt (Some st') (decrypt_use_count r + 1) (decrypt_key r) r)
  end.

(** ** FIPS *)

(** [count++] on an [int] *)
Definition increment {S} (count : Z) : M S Z :=
  if count <? INT_MAX then ret (count + 1) else fail SignedOverflow.

Definition security_hmac_signature (data : list Z) : M rdpSec (list Z) :=
  let! r := get_sec in
  mem 0 8 (hmac_sha1 (fips_sign_key r) (data ++ security_uint32_le (encrypt_use_count r))).

Definition security_fips_encrypt (data : list Z) : M rdpSec (list Z) :=
  let! r := get_sec in
  match fips_encrypt r with
  | None => fail NullPointer
  | Some st =>
      let (out, st') := des3_encrypt st data in
      let! n := increment (encrypt_use_count r) in
      fun r => Done (out, set_counts n (decrypt_use_count r) (set_fips_ciphers (Some st') (fips_decrypt r) r))
  end.

Definition security_fips_decrypt (data : list Z) : M rdpSec (list Z) :=
  let! r := get_sec in
  match fips_decrypt r with
  | None => fail NullPointer
  | Some st =>
      let (out, st') := des3_decrypt st data in
      fun r => Done (out, set_fips_ciphers (fips_encrypt r) (Some st') r)
  end.

Definition security_fips_check_signature (data sig : list Z) : M rdpSec bool :=
  let! r := get_sec in
  let! buf := mem 0 8 (hmac_sha1 (fips_sign_key r) (data ++ security_uint32_le (decrypt_use_count r))) in
  let! sig := mem 0 8 sig in
  let! n := increment (decrypt_use_count r) in
  fun r => Done (bool_decide (sig = buf), set_counts (encrypt_use_count r) n r).

End security.
Arguments rdpSec {_}.

(** ** Running the derivations *)

Section laws.
Context `{HC : Crypto} `{HL : !CryptoLaws}.

(** Computations that leave the state alone and return [a]. *)
Definition Pure {S A} (c : M S A) (a : A) : Prop := forall s, c s = Done (a, s).

Lemma Pure_ret {S A} (a : A) : Pure (S := S) (ret a) a.
Proof. intros s. reflexivity. Qed.

Lemma Pure_bind {S A B} (c : M S A) (k : A -> M S B) a b :
  Pure c a -> Pure (k a) b -> Pure (bind c k) b.
Proof. intros Hc Hk s. rewrite (bind_Done _ _ _ _ _ (Hc s)). apply Hk. Qed.

Definition slice (off n : Z) (l : list Z) : list Z := take (Z.to_nat n) (drop (Z.to_nat off) l).

Lemma Pure_mem {S} off n l : 0 <= off -> 0 <= n -> off + n <= len l ->
  Pure (S := S) (mem off n l) (slice off n l).
Proof. intros ? ? ? s. unfold mem. rewrite bool_decide_true by lia. reflexivity. Qed.

Lemma len_slice off n l : 0 <= off -> 0 <= n -> off + n <= len l -> len (slice off n l) = n.
Proof. intros. unfold slice, len in *. rewrite length_take, length_drop. lia. Qed.

Definition salted_hash (salt input salt1 salt2 : list Z) : list Z :=
  md5 (slice 0 48 salt ++ sha1 (input ++ slice 0 48 salt ++ slice 0 32 salt1 ++ slice 0 32 salt2)).

Lemma Pure_salted_hash {S} salt input salt1 salt2 :
  48 <= len salt -> 32 <= len salt1 -> 32 <= len salt2 ->
  Pure (S := S) (security_salted_hash salt input salt1 salt2) (salted_hash salt input salt1 salt2).
Proof.
  intros. unfold security_salted_hash.
  do 3 (eapply Pure_bind; [apply Pure_mem; lia|]). apply Pure_ret.
Qed.

(** The 48 bytes of three salted hashes. *)
Definition hash48 (inputs : list (list Z)) (salt salt1 salt2 : list Z) : list Z :=
  concat (map (fun i => salted_hash salt i salt1 salt2) inputs).

Lemma Pure_three_hashes {S} a b c salt salt1 salt2 :
  48 <= len salt -> 32 <= len salt1 -> 32 <= len salt2 ->
  Pure (S := S) (three_hashes (fun i => security_premaster_hash i salt salt1 salt2) [a; b; c])
    (hash48 [a; b; c] salt salt1 salt2).
Proof.
  intros. unfold three_hashes, security_premaster_hash.
  do 3 (eapply Pure_bind; [apply Pure_salted_hash; assumption|]).
  unfold hash48. cbn [map concat]. rewrite app_nil_r. apply Pure_ret.
Qed.

Lemma len_hash48 a b c salt salt1 salt2 : len (hash48 [a; b; c] salt salt1 salt2) = 48.
Proof. unfold hash48, salted_hash. cbn [map concat]. rewrite !len_app, !len_md5. reflexivity. Qed.

(** The keys both sides derive from the two random numbers. *)
Definition the_master (c s : list Z) : list Z := hash48 A_BB_CCC (slice 0 24 c ++ slice 0 24 s) c s.
Definition the_blob (c s : list Z) : list Z := hash48 X_YY_ZZZ (the_master c s) c s.
Definition the_sign (c s : list Z) : list Z := slice 0 16 (the_blob c s).
Definition the_key (off : Z) (c s : list Z) : list Z :=
  md5 (slice 0 16 (slice off 16 (the_blob c s)) ++ slice 0 32 c ++ slice 0 32 s).

Lemma Pure_session_keys {S} c s : len c = 32 -> len s = 32 ->
  Pure (S := S) (session_keys c s) (the_sign c s, the_key 16 c s, the_key 32 c s).
Proof.
  intros Hc Hs. unfold session_keys, security_A, security_X, A_BB_CCC, X_YY_ZZZ.
  assert (Hpre : len (slice 0 24 c ++ slice 0 24 s) = 48)
    by (rewrite len_app, !len_slice by lia; lia).
  do 2 (eapply Pure_bind; [apply Pure_mem; lia|]).
  eapply Pure_bind; [apply Pure_three_hashes; lia|].
  eapply Pure_bind; [apply Pure_three_hashes; rewrite ?len_hash48; lia|].
  do 3 (eapply Pure_bind; [apply Pure_mem; rewrite ?len_hash48; lia|]).
  unfold security_md5_16_32_32.
  do 2 (eapply Pure_bind; [do 3 (eapply Pure_bind; [apply Pure_mem; rewrite ?len_slice; rewrite ?len_hash48; lia|]);
                           apply Pure_ret|]).
  apply Pure_ret.
Qed.

(** The key with the bytes that 40-bit encryption fixes. *)
Definition weaken (encryption_method : Z) (key : list Z) : list Z :=
  if encryption_method =? 1 then splice 0 salt40 key else key.

Definition key_length (encryption_method : Z) : Z := if encryption_method =? 1 then 8 else 16.

Lemma establish_keys_run behind m server_mode c s r :
  m = 1 \/ m = 2 -> len c = 32 -> len s = 32 ->
  security_establish_keys behind m server_mode c s r
  = Done (true,
      set_keys (weaken m (the_sign c s))
        (weaken m (the_key (if server_mode then 32 else 16) c s))
        (weaken m (the_key (if server_mode then 16 else 32) c s)) (key_length m) r).
Proof.
  intros Hm Hc Hs. unfold security_establish_keys.
  assert (Hf : (m =? ENCRYPTION_METHOD_FIPS) = false) by (unfold ENCRYPTION_METHOD_FIPS; destruct Hm; lia).
  rewrite Hf. unfold bind at 1, ret.
  rewrite (bind_Done _ _ _ _ _ (Pure_session_keys c s Hc Hs r)).
  unfold weaken, key_length. destruct server_mode; destruct Hm as [-> | ->]; reflexivity.
Qed.

Lemma len_weaken m key : len key = 16 -> len (weaken m key) = 16.
Proof.
  intros Hk. unfold weaken. destruct (m =? 1); [|exact Hk].
  unfold len in *. rewrite length_splice by (cbn; lia). exact Hk.
Qed.

Lemma len_the_key off c s : len (the_key off c s) = 16.
Proof. apply len_md5. Qed.

(** ** The channel *)

(** One end encrypts what the other end decrypts. *)
Record paired (a b : rdpSec) : Prop := {
  pair_state : rc4_encrypt_key a = rc4_decrypt_key b;
  pair_set : is_Some (rc4_encrypt_key a);
  pair_count : encrypt_use_count a = decrypt_use_count b;
  pair_count_range : 0 <= encrypt_use_count a <= 4096;
  pair_key : encrypt_key a = decrypt_key b;
  pair_update : encrypt_update_key a = decrypt_update_key b;
  pair_sign : sign_key a = sign_key b;
  pair_len : rc4_key_len a = rc4_key_len b;
  pair_key_len : rc4_key_len a = 8 \/ rc4_key_len a = 16;
  pair_key_16 : len (encrypt_key a) = 16;
  pair_update_16 : len (encrypt_update_key a) = 16;
  pair_sign_16 : len (sign_key a) = 16;
}.

(** After a message from one end to the other the pairing holds, and one in the
    other direction is left as it was. *)
Record stepped (a b a' b' : rdpSec) : Prop := {
  st_paired : paired a' b';
  st_back : paired b a -> paired b' a';
}.

(** The updated key. *)
Lemma key_update_run {S} key update n : len key = 16 -> len update = 16 -> n = 8 \/ n = 16 ->
  exists key', len key' = 16 /\ forall s : S, security_key_update key update n s = Done (key', s).
Proof.
  intros Hk Hu Hn.
  assert (Hm : forall l : list Z, len l = 16 -> 0 <= 0 /\ 0 <= n /\ 0 + n <= len l) by (destruct Hn; lia).
  set (k1 := md5 (slice 0 n update ++ pad2 ++ sha1 (slice 0 n update ++ pad1 ++ slice 0 n key))).
  assert (Hk1 : len k1 = 16) by apply len_md5.
  destruct (rc4 (rc4_init (slice 0 n k1)) (slice 0 n k1)) as [out st] eqn:E.
  assert (Hout : len out = n).
  { destruct (rc4_back _ _ _ _ E) as [-> _]. apply len_slice; apply (Hm _ Hk1). }
  assert (Hsp : len (splice 0 out k1) = 16) by (unfold len in *; rewrite length_splice; lia).
  exists (if n =? 8 then splice 0 salt40 (splice 0 out k1) else splice 0 out k1). split.
  - destruct (n =? 8); [|exact Hsp]. unfold len in *. rewrite length_splice; [lia|cbn; lia].
  - change (Pure (S := S) (security_key_update key update n)
      (if n =? 8 then splice 0 salt40 (splice 0 out k1) else splice 0 out k1)).
    unfold security_key_update.
    eapply Pure_bind; [apply Pure_mem; apply (Hm _ Hu)|].
    eapply Pure_bind; [apply Pure_mem; apply (Hm _ Hk)|].
    eapply Pure_bind; [apply Pure_mem; apply (Hm _ Hk1)|].
    fold k1. rewrite E. apply Pure_ret.
Qed.

(** The cipher state and key a message is processed with, after the key update
    if one is due, are the same function of the same fields at both ends. *)
Lemma channel_stage st count key update n :
  len key = 16 -> len update = 16 -> n = 8 \/ n = 16 ->
  exists st1 key1, len key1 = 16 /\
    let count1 := if 4096 <=? count then 0 else count in
    (forall r data, rc4_encrypt_key r = Some st -> encrypt_use_count r = count ->
       encrypt_key r = key -> encrypt_update_key r = update -> rc4_key_len r = n ->
       security_encrypt data r
       = Done (fst (rc4 st1 data), set_encrypt (Some (snd (rc4 st1 data))) (count1 + 1) key1 r)) /\
    (forall r data, rc4_decrypt_key r = Some st -> decrypt_use_count r = count ->
       decrypt_key r = key -> decrypt_update_key r = update -> rc4_key_len r = n ->
       security_decrypt data r
       = Done (fst (rc4 st1 data), set_decrypt (Some (snd (rc4 st1 data))) (count1 + 1) key1 r)).
Proof.
  intros Hk Hu Hn. destruct (key_update_run (S := rdpSec) _ _ _ Hk Hu Hn) as (key' & Hk' & Hrun).
  assert (Hm : Pure (S := rdpSec) (mem 0 n key') (slice 0 n key')) by (apply Pure_mem; destruct Hn; lia).
  exists (if 4096 <=? count then rc4_init (slice 0 n key') else st), (if 4096 <=? count then key' else key).
  split; [destruct (4096 <=? count); assumption|]. cbv zeta.
  split; intros r data Hst Hc He Hup Hl; unfold security_encrypt, security_decrypt, get_sec;
    unfold bind at 1; rewrite Hc, He, Hup, Hl; destruct (4096 <=? count).
  - unfold bind. rewrite Hrun, Hm. cbn [rc4_encrypt_key set_encrypt].
    destruct (rc4 _ data). reflexivity.
  - unfold bind, ret. rewrite Hst. destruct (rc4 st data). rewrite Hc, He. reflexivity.
  - unfold bind. rewrite Hrun, Hm. cbn [rc4_decrypt_key set_decrypt].
    destruct (rc4 _ data). reflexivity.
  - unfold bind, ret. rewrite Hst. destruct (rc4 st data). rewrite Hc, He. reflexivity.
Qed.

(** Encrypting at one end and decrypting at the other gives the data back and
    leaves the ends paired, key update included. *)
Lemma paired_step a b data : paired a b ->
  exists cipher a' b', security_encrypt data a = Done (cipher, a') /\ len cipher = len data /\
    security_decrypt cipher b = Done (data, b') /\ stepped a b a' b' /\
    encrypt_use_count a' = (if 4096 <=? encrypt_use_count a then 1 else encrypt_use_count a + 1).
Proof.
  intros [Hst [st Hset] Hcount Hrange Hkey Hupd Hsign Hlen Hkl Hk16 Hu16 Hs16].
  destruct (channel_stage st (encrypt_use_count a) _ _ _ Hk16 Hu16 Hkl) as (st1 & key1 & Hk1 & He & Hd).
  destruct (rc4 st1 data) as [out st'] eqn:E. destruct (rc4_back _ _ _ _ E) as [Hol Hback].
  exists out. do 2 eexists.
  split; [rewrite (He a data) by auto; rewrite E; reflexivity|]. cbn [fst snd].
  split; [exact Hol|]. split; [rewrite (Hd b out) by congruence; rewrite Hback; reflexivity|]. split.
  - split; [split; cbn; auto; destruct (Z.leb_spec 4096 (encrypt_use_count a)); lia|intros []; split; assumption].
  - cbn. destruct (4096 <=? encrypt_use_count a); reflexivity.
Qed.

(** Encrypt the messages in order. *)
Fixpoint encrypt_all (msgs : list (list Z)) : M rdpSec (list (list Z)) :=
  match msgs with
  | [] => ret []
  | m :: msgs => let! c := security_encrypt m in let! cs := encrypt_all msgs in ret (c :: cs)
  end.
Fixpoint decrypt_all (msgs : list (list Z)) : M rdpSec (list (list Z)) :=
  match msgs with
  | [] => ret []
  | m :: msgs => let! c := security_decrypt m in let! cs := decrypt_all msgs in ret (c :: cs)
  end.

Lemma paired_all msgs : forall a b, paired a b ->
  exists cs a' b', encrypt_all msgs a = Done (cs, a') /\ decrypt_all cs b = Done (msgs, b') /\
    paired a' b'.
Proof.
  induction msgs as [|m msgs IH]; intros a b Hp.
  - exists [], a, b. auto.
  - destruct (paired_step a b m Hp) as (c & a1 & b1 & He & _ & Hd & Hp1 & _).
    destruct (IH a1 b1 (st_paired _ _ _ _ Hp1)) as (cs & a2 & b2 & He2 & Hd2 & Hp2).
    exists (c :: cs), a2, b2. cbn [encrypt_all decrypt_all].
    rewrite (bind_Done _ _ _ _ _ He), (bind_Done _ _ _ _ _ He2).
    rewrite (bind_Done _ _ _ _ _ Hd), (bind_Done _ _ _ _ _ Hd2). auto.
Qed.

(** ** Signatures *)

(** The salted signature with the given count. *)
Definition salted_mac (r : rdpSec) (data : list Z) (count : Z) : list Z :=
  let key := slice 0 (rc4_key_len r) (sign_key r) in
  slice 0 8 (md5 (key ++ pad2 ++
    sha1 (key ++ pad1 ++ security_uint32_le (len data) ++ data ++ security_uint32_le count))).

Lemma salted_mac_run r data encryption : 0 <= rc4_key_len r <= len (sign_key r) ->
  security_salted_mac_signature data encryption r
  = Done (salted_mac r data (if encryption then encrypt_use_count r else decrypt_use_count r - 1), r).
Proof.
  intros Hl. unfold security_salted_mac_signature, get_sec. unfold bind at 1.
  eapply (Pure_bind (S := rdpSec)); [apply Pure_mem; lia|].
  destruct encryption; apply Pure_mem; rewrite ?len_md5; lia.
Qed.

Lemma salted_mac_paired a b data count : paired a b -> salted_mac b data count = salted_mac a data count.
Proof. intros Hp. unfold salted_mac. rewrite <- (pair_len _ _ Hp), <- (pair_sign _ _ Hp). reflexivity. Qed.

End laws.

(** ** FIPS keys *)

Lemma Pure_for_each {S A B} (f : A -> M S B) (g : A -> B) l :
  Forall (fun x => Pure (f x) (g x)) l -> Pure (for_each f l) (map g l).
Proof.
  intros Hl. induction Hl as [|x l Hx Hl IH]; cbn [for_each map]; [apply Pure_ret|].
  eapply Pure_bind; [exact Hx|]. eapply Pure_bind; [exact IH|]. apply Pure_ret.
Qed.

Definition nth_byte (l : list Z) (i : Z) : Z := nth (Z.to_nat i) l 0.

Lemma Pure_at_index {S} l i : 0 <= i < len l -> Pure (S := S) (at_index l i) (nth_byte l i).
Proof.
  intros Hi s. unfold at_index, nth_byte.
  destruct (lookup_lt_is_Some_2 l (Z.to_nat i)) as [v Hv]; [unfold len in Hi; lia|].
  rewrite Hv, (nth_lookup_Some l (Z.to_nat i) 0 v Hv), (proj2 (Z.leb_le _ _)) by lia. reflexivity.
Qed.

Lemma upto_spec n i : i ∈ upto n -> 0 <= i < Z.of_nat n.
Proof.
  unfold upto. intros Hi. apply list_elem_of_In, in_map_iff in Hi as (k & <- & Hk).
  apply in_seq in Hk. lia.
Qed.

Lemma is_byte_nth l i : is_bytes l -> is_byte (nth_byte l i).
Proof.
  intros Hl. unfold nth_byte. destruct (decide (Z.to_nat i < length l)%nat) as [Hi|Hi].
  - eapply Forall_lookup_1; [exact Hl|]. destruct (lookup_lt_is_Some_2 l (Z.to_nat i) Hi) as [v Hv].
    rewrite (nth_lookup_Some _ _ _ _ Hv). exact Hv.
  - rewrite nth_overflow by lia. unfold is_byte. lia.
Qed.

Lemma is_byte_land_FE a : is_byte (Z.land a 0xFE).
Proof.
  replace (Z.land a 0xFE) with (Z.land (a mod 256) 0xFE).
  - assert (Hb : is_byte (a mod 256)) by apply is_byte_mod. revert Hb. generalize (a mod 256).
    apply (byte_forall (fun b => is_byte (Z.land b 0xFE))). vm_compute. reflexivity.
  - rewrite <- land_FF, <- Z.land_assoc. reflexivity.
Qed.

Definition reverse_byte (b : Z) : Z := nth_byte fips_reverse_table b.
Definition parity_byte (b : Z) : Z := nth_byte fips_oddparity_table (reverse_byte b).

(** The reversed key, and the seven bits of it that go into byte [i]. *)
Definition reversed_key (inp : list Z) : list Z := map (fun i => reverse_byte (nth_byte inp i)) (upto 21).
Definition seven_bits (buf : list Z) (i : Z) : Z :=
  let p := 7 * i / 8 in
  let r := 7 * i mod 8 in
  if r =? 0 then Z.land (nth_byte buf p) 0xFE
  else Z.land (Z.lor (uint8 (Z.shiftl (nth_byte buf p) r)) (Z.shiftr (nth_byte buf (p + 1)) (8 - r))) 0xFE.

Lemma is_byte_reverse b : is_byte b -> is_byte (reverse_byte b).
Proof.
  revert b. apply (byte_forall (fun b => is_byte (reverse_byte b))). vm_compute. reflexivity.
Qed.

Lemma expand_run {S} behind inp : is_bytes inp -> len inp = 21 ->
  Pure (S := S) (fips_expand_key_bits behind inp)
    (map parity_byte (map (seven_bits (reversed_key inp ++ [behind])) (upto 24))).
Proof.
  intros Hb Hl. unfold fips_expand_key_bits.
  eapply (Pure_bind _ _ (reversed_key inp)).
  { apply Pure_for_each, Forall_forall. intros i Hi. apply upto_spec in Hi.
    eapply Pure_bind; [apply Pure_at_index; lia|]. apply Pure_at_index.
    pose proof (is_byte_nth inp i Hb) as Hbi. unfold is_byte in Hbi. exact Hbi. }
  eapply (Pure_bind _ _ (map (seven_bits (reversed_key inp ++ [behind])) (upto 24))).
  { apply Pure_for_each, Forall_forall. intros i Hi. apply upto_spec in Hi.
    assert (Hbuf : len (reversed_key inp ++ [behind]) = 22) by reflexivity.
    eapply Pure_bind; [apply Pure_at_index; dlia|]. unfold seven_bits.
    destruct (Z.eqb_spec (7 * i mod 8) 0); [apply Pure_ret|].
    eapply Pure_bind; [apply Pure_at_index; dlia|]. apply Pure_ret. }
  apply Pure_for_each, Forall_forall. intros x Hx.
  apply list_elem_of_In, in_map_iff in Hx as (i & <- & _).
  assert (Hbyte : is_byte (seven_bits (reversed_key inp ++ [behind]) i))
    by (unfold seven_bits; cbv zeta; destruct (_ =? 0); apply is_byte_land_FE).
  pose proof (is_byte_reverse _ Hbyte) as Hr. unfold is_byte in *.
  eapply Pure_bind; [apply Pure_at_index; exact Hbyte|]. apply Pure_at_index. exact Hr.
Qed.

Definition bit_count (z : Z) : nat := length (filter (fun i => Z.testbit z i = true) (upto 8)).

Lemma parity_odd b : is_byte b -> is_byte (parity_byte b) /\ Nat.odd (bit_count (parity_byte b)) = true.
Proof.
  revert b. apply (byte_forall (fun b => is_byte (parity_byte b) /\ Nat.odd (bit_count (parity_byte b)) = true)).
  vm_compute. reflexivity.
Qed.

(** The byte behind the array only reaches the bit that is masked out. *)
Lemma seven_bits_behind buf x y i : len buf = 21 -> is_byte x -> is_byte y -> 0 <= i < 24 ->
  seven_bits (buf ++ [x]) i = seven_bits (buf ++ [y]) i.
Proof.
  intros Hl Hx Hy Hi. unfold seven_bits. cbv zeta.
  assert (Hnth : forall j, 0 <= j < 21 -> nth_byte (buf ++ [x]) j = nth_byte (buf ++ [y]) j).
  { intros j Hj. unfold nth_byte. rewrite !app_nth1 by (unfold len in Hl; lia). reflexivity. }
  rewrite (Hnth (7 * i / 8)) by dlia.
  destruct (decide (i = 23)) as [->|Hne]; [|rewrite (Hnth (7 * i / 8 + 1)) by dlia; reflexivity].
  change (7 * 23 mod 8) with 1. change (7 * 23 / 8 + 1) with 21. change (1 =? 0) with false. cbv iota.
  assert (Hb : forall z, nth_byte (buf ++ [z]) 21 = z).
  { intros z. unfold nth_byte. rewrite app_nth2 by (unfold len in Hl; lia).
    replace (Z.to_nat 21 - length buf)%nat with 0%nat by (unfold len in Hl; lia). reflexivity. }
  rewrite !Hb, !Z.land_lor_distr_l.
  assert (H0 : forall z, is_byte z -> Z.land (Z.shiftr z (8 - 1)) 0xFE = 0)
    by (apply (byte_forall (fun z => Z.land (Z.shiftr z (8 - 1)) 0xFE = 0)); vm_compute; reflexivity).
  rewrite !H0 by assumption. reflexivity.
Qed.

(** *** Setting up the ciphers *)

Definition fips_ivec : list Z := [0x12; 0x34; 0x56; 0x78; 0x90; 0xAB; 0xCD; 0xEF].

(** The end of [rdp_client_establish_keys] and of [rdp_server_establish_keys]
    of [connection.c], once the random numbers have been exchanged. *)
Definition rdp_establish_ciphers `{Crypto} (behind encryption_method : Z) (server_mode : bool)
    (client_random server_random : list Z) : M rdpSec bool :=
  let! ok := security_establish_keys behind encryption_method server_mode client_random server_random in
  if negb ok then ret false else
  let! r := get_sec in
  if encryption_method =? ENCRYPTION_METHOD_FIPS then
    fun r => Done (true, set_fips_ciphers (Some (des3_encrypt_init (fips_encrypt_key r) fips_ivec))
                           (Some (des3_decrypt_init (fips_decrypt_key r) fips_ivec)) r)
  else
    let! d := mem 0 (rc4_key_len r) (decrypt_key r) in
    let! e := mem 0 (rc4_key_len r) (encrypt_key r) in
    fun r => Done (true, set_encrypt (Some (rc4_init e)) (encrypt_use_count r) (encrypt_key r)
                           (set_decrypt (Some (rc4_init d)) (decrypt_use_count r) (decrypt_key r) r)).

(** The state of a connection before the keys are established. *)
Definition rdp_sec_new `{Crypto} : rdpSec :=
  mkSec None 0 None 0 None None (replicate 16 0) (replicate 16 0) (replicate 16 0) (replicate 16 0)
    (replicate 16 0) 0 (replicate 20 0) (replicate 24 0) (replicate 24 0).

Section establish.
Context `{HC : Crypto} `{HL : !CryptoLaws}.

Lemma establish_ciphers_run behind m server_mode c s r :
  m = 1 \/ m = 2 -> len c = 32 -> len s = 32 ->
  rdp_establish_ciphers behind m server_mode c s r
  = Done (true,
      let dec := weaken m (the_key (if server_mode then 32 else 16) c s) in
      let enc := weaken m (the_key (if server_mode then 16 else 32) c s) in
      set_encrypt (Some (rc4_init (slice 0 (key_length m) enc))) (encrypt_use_count r) enc
        (set_decrypt (Some (rc4_init (slice 0 (key_length m) dec))) (decrypt_use_count r) dec
          (set_keys (weaken m (the_sign c s)) dec enc (key_length m) r))).
Proof.
  intros Hm Hc Hs. unfold rdp_establish_ciphers.
  rewrite (bind_Done _ _ _ _ _ (establish_keys_run behind m server_mode c s r Hm Hc Hs)).
  cbn [negb]. unfold bind at 1, get_sec.
  assert (Hf : (m =? ENCRYPTION_METHOD_FIPS) = false) by (unfold ENCRYPTION_METHOD_FIPS; destruct Hm; lia).
  rewrite Hf. cbn [rc4_key_len decrypt_key encrypt_key set_keys].
  assert (Hk : forall off (st : rdpSec), mem 0 (key_length m) (weaken m (the_key off c s)) st
                 = Done (slice 0 (key_length m) (weaken m (the_key off c s)), st)).
  { intros off st. apply Pure_mem; rewrite ?len_weaken by apply len_the_key;
      unfold key_length; destruct (m =? 1); lia. }
  unfold bind. rewrite !Hk. reflexivity.
Qed.

Lemma establish_pairs behind m c s : m = 1 \/ m = 2 -> len c = 32 -> len s = 32 ->
  exists client server,
    rdp_establish_ciphers behind m false c s rdp_sec_new = Done (true, client) /\
    rdp_establish_ciphers behind m true c s rdp_sec_new = Done (true, server) /\
    paired client server /\ paired server client.
Proof.
  intros Hm Hc Hs. do 2 eexists.
  split; [apply establish_ciphers_run; assumption|]. split; [apply establish_ciphers_run; assumption|].
  assert (Hkl : key_length m = 8 \/ key_length m = 16) by (unfold key_length; destruct (m =? 1); auto).
  assert (Hsign : len (weaken m (the_sign c s)) = 16).
  { apply len_weaken. unfold the_sign, the_blob, X_YY_ZZZ. apply len_slice; rewrite ?len_hash48; lia. }
  split; split; cbn; auto; try lia; apply len_weaken, len_the_key.
Qed.

(** The FIPS keys both sides set up. *)
Definition fips_key_t (off : Z) (c s : list Z) : list Z := sha1 (slice off 16 c ++ slice off 16 s).
Definition fips_expanded (behind : Z) (t : list Z) : list Z :=
  map parity_byte (map (seven_bits (reversed_key (t ++ slice 0 1 t) ++ [behind])) (upto 24)).

Lemma Pure_fips_keys {S} behind c s : (forall l, is_bytes (sha1 l)) -> len c = 32 -> len s = 32 ->
  Pure (S := S) (fips_keys behind c s)
    (sha1 (fips_key_t 0 c s ++ fips_key_t 16 c s), fips_expanded behind (fips_key_t 16 c s),
     fips_expanded behind (fips_key_t 0 c s)).
Proof.
  intros Hb Hc Hs. unfold fips_keys.
  assert (Hex : forall t, is_bytes t -> len t = 20 ->
            Pure (S := S) (fips_expand_key_bits behind (t ++ slice 0 1 t)) (fips_expanded behind t)).
  { intros t Hbt Hlt. apply expand_run.
    - apply Forall_app. split; [exact Hbt|]. apply Forall_take, Forall_drop, Hbt.
    - rewrite len_app, len_slice by lia. lia. }
  do 2 (eapply Pure_bind; [apply Pure_mem; lia|]).
  eapply Pure_bind; [apply Pure_mem; rewrite ?len_sha1; lia|].
  eapply Pure_bind; [apply Hex; [apply Hb|apply len_sha1]|].
  do 2 (eapply Pure_bind; [apply Pure_mem; lia|]).
  eapply Pure_bind; [apply Pure_mem; rewrite ?len_sha1; lia|].
  eapply Pure_bind; [apply Hex; [apply Hb|apply len_sha1]|]. apply Pure_ret.
Qed.

Lemma establish_fips_run behind server_mode c s : (forall l, is_bytes (sha1 l)) -> len c = 32 -> len s = 32 ->
  exists r', rdp_establish_ciphers behind ENCRYPTION_METHOD_FIPS server_mode c s rdp_sec_new = Done (true, r') /\
    fips_encrypt r' = Some (des3_encrypt_init (fips_expanded behind (fips_key_t 16 c s)) fips_ivec) /\
    fips_decrypt r' = Some (des3_decrypt_init (fips_expanded behind (fips_key_t 0 c s)) fips_ivec) /\
    fips_sign_key r' = sha1 (fips_key_t 0 c s ++ fips_key_t 16 c s).
Proof.
  intros Hb Hc Hs. unfold rdp_establish_ciphers, security_establish_keys.
  change (ENCRYPTION_METHOD_FIPS =? ENCRYPTION_METHOD_FIPS) with true. cbv iota.
  pose proof (Pure_fips_keys (S := rdpSec) behind c s Hb Hc Hs) as Hf.
  pose proof (Pure_session_keys (S := rdpSec) c s Hc Hs) as Hk. revert Hf Hk.
  generalize (fips_expanded behind (fips_key_t 16 c s)) (fips_expanded behind (fips_key_t 0 c s))
    (sha1 (fips_key_t 0 c s ++ fips_key_t 16 c s)) (the_sign c s) (the_key 16 c s) (the_key 32 c s).
  intros e d sign k1 k2 k3 Hf Hk.
  destruct server_mode; (eexists; split;
    [unfold bind at 1 2 3; rewrite Hf; cbv beta iota; unfold bind at 1; rewrite Hk; reflexivity
    |repeat split]).
Qed.

(** ** Claims *)

(** C24. Client and server, given the same two random numbers and 40-bit or
    128-bit RC4 encryption, derive keys that fit together: in both directions the
    sender's cipher state, key, update key, key length and signing key are the
    receiver's. FIPS is left out: [fips_keys_not_mirrored] shows that its keys
    are not exchanged on a server. *)
Theorem security_key_agreement behind m c s :
  m = ENCRYPTION_METHOD_40BIT \/ m = ENCRYPTION_METHOD_128BIT -> len c = 32 -> len s = 32 ->
  exists client server,
    rdp_establish_ciphers behind m false c s rdp_sec_new = Done (true, client) /\
    rdp_establish_ciphers behind m true c s rdp_sec_new = Done (true, server) /\
    paired client server /\ paired server client.
Proof. intros Hm. apply establish_pairs. exact Hm. Qed.

(** C23. Over paired ends any sequence of messages, of any number and length and
    thus across any number of key updates, is decrypted to what was encrypted,
    and the ends are paired afterwards. *)
Theorem security_channel_sync msgs a b : paired a b ->
  exists cs a' b', encrypt_all msgs a = Done (cs, a') /\ decrypt_all cs b = Done (msgs, b') /\
    paired a' b'.
Proof. apply paired_all. Qed.

(** The salted signature: below the 4096th use of a key the signature a
    sender computes before encrypting is the one the receiver computes after
    decrypting. When the key update is due the sender signs with the count
    4096 and the receiver checks with 0. *)
Theorem security_salted_signature data a b : paired a b ->
  exists cipher a' b',
    security_encrypt data a = Done (cipher, a') /\ security_decrypt cipher b = Done (data, b') /\
    security_salted_mac_signature data true a = Done (salted_mac a data (encrypt_use_count a), a) /\
    security_salted_mac_signature data false b'
      = Done (salted_mac a data (if 4096 <=? encrypt_use_count a then 0 else encrypt_use_count a), b').
Proof.
  intros Hp. destruct (paired_step a b data Hp) as (c & a' & b' & He & _ & Hd & [Hp' _] & Hcount).
  exists c, a', b'. split; [exact He|]. split; [exact Hd|].
  assert (Hka : 0 <= rc4_key_len a <= len (sign_key a))
    by (rewrite (pair_sign_16 _ _ Hp); destruct (pair_key_len _ _ Hp); lia).
  assert (Hkb : 0 <= rc4_key_len b' <= len (sign_key b')).
  { rewrite <- (pair_sign _ _ Hp'), <- (pair_len _ _ Hp'), (pair_sign_16 _ _ Hp').
    destruct (pair_key_len _ _ Hp'); lia. }
  split; [exact (salted_mac_run a data true Hka)|].
  rewrite (salted_mac_run b' data false Hkb), (salted_mac_paired a' b' _ _ Hp').
  rewrite <- (pair_count _ _ Hp'), Hcount.
  assert (Hsame : sign_key a' = sign_key a /\ rc4_key_len a' = rc4_key_len a).
  { destruct (pair_set _ _ Hp) as [st Hst].
    destruct (channel_stage st (encrypt_use_count a) _ _ _ (pair_key_16 _ _ Hp) (pair_update_16 _ _ Hp)
                (pair_key_len _ _ Hp)) as (st1 & key1 & _ & Hrun & _).
    rewrite (Hrun a data) in He by auto. injection He as _ <-. auto. }
  unfold salted_mac. destruct Hsame as [-> ->].
  replace ((if 4096 <=? encrypt_use_count a then 1 else encrypt_use_count a + 1) - 1)
    with (if 4096 <=? encrypt_use_count a then 0 else encrypt_use_count a)
    by (destruct (4096 <=? encrypt_use_count a); lia).
  reflexivity.
Qed.

(** The FIPS key expansion: 21 bytes become 24 bytes, each of odd parity as
    DES wants them, and the byte the source reads behind its array has no
    influence. *)
Theorem fips_expand_parity {S} behind behind' inp (s : S) :
  is_bytes inp -> len inp = 21 -> is_byte behind -> is_byte behind' ->
  fips_expand_key_bits behind inp s = fips_expand_key_bits behind' inp s /\
  exists out, fips_expand_key_bits behind inp s = Done (out, s) /\ len out = 24 /\
    Forall (fun b => is_byte b /\ Nat.odd (bit_count b) = true) out.
Proof.
  intros Hb Hl H1 H2. rewrite !expand_run by assumption. split.
  - do 3 f_equal. apply map_ext_Forall, Forall_forall. intros i Hi. apply upto_spec in Hi.
    apply seven_bits_behind; auto; lia.
  - eexists. split; [reflexivity|]. split; [reflexivity|].
    apply Forall_forall. intros x Hx. apply list_elem_of_In, in_map_iff in Hx as (y & <- & Hy).
    apply parity_odd. apply in_map_iff in Hy as (i & <- & _).
    unfold seven_bits. cbv zeta. destruct (_ =? 0); apply is_byte_land_FE.
Qed.

(** The FIPS signature: what a sender signs is accepted by a receiver with
    the same signing key and count, whatever the data, and both counts move on
    by one. *)
Theorem fips_signature_accepted data plain a b :
  fips_sign_key a = fips_sign_key b -> encrypt_use_count a = decrypt_use_count b ->
  decrypt_use_count b < INT_MAX -> is_Some (fips_encrypt a) ->
  exists sig cipher a' b',
    security_hmac_signature data a = Done (sig, a) /\
    security_fips_encrypt plain a = Done (cipher, a') /\
    security_fips_check_signature data sig b = Done (true, b') /\
    encrypt_use_count a' = decrypt_use_count b'.
Proof.
  intros Hk Hc Hmax [st Hst].
  set (sig := slice 0 8 (hmac_sha1 (fips_sign_key a) (data ++ security_uint32_le (encrypt_use_count a)))).
  assert (Hsig : len sig = 8) by (apply len_slice; rewrite ?len_hmac; lia).
  destruct (des3_encrypt st plain) as [out st'] eqn:E.
  exists sig, out. do 2 eexists. split.
  { unfold security_hmac_signature, get_sec. unfold bind. apply Pure_mem; rewrite ?len_hmac; lia. }
  unfold security_fips_encrypt, security_fips_check_signature, get_sec, increment. unfold bind at 1 3.
  rewrite Hst, E, <- Hc, (proj2 (Z.ltb_lt _ _)) by lia. unfold bind at 1, ret.
  split; [reflexivity|]. unfold bind.
  rewrite (Pure_mem (S := rdpSec) 0 8 (hmac_sha1 _ _)) by (rewrite ?len_hmac; lia).
  rewrite (Pure_mem (S := rdpSec) 0 8 sig) by lia.
  assert (Hself : slice 0 8 sig = sig).
  { unfold slice. rewrite drop_0. apply take_ge. unfold len in Hsig. lia. }
  rewrite Hself, <- Hk. fold sig. rewrite bool_decide_true by reflexivity.
  split; [reflexivity|]. reflexivity.
Qed.

(** The FIPS ciphers do not fit together: client and server set up the same
    encryption key, although the client's messages are for the server to
    decrypt. *)
Theorem fips_keys_not_mirrored behind c s : len c = 32 -> len s = 32 ->
  (forall l, is_bytes (sha1 l)) ->
  exists client server,
    rdp_establish_ciphers behind ENCRYPTION_METHOD_FIPS false c s rdp_sec_new = Done (true, client) /\
    rdp_establish_ciphers behind ENCRYPTION_METHOD_FIPS true c s rdp_sec_new = Done (true, server) /\
    fips_encrypt client = fips_encrypt server /\ fips_decrypt client = fips_decrypt server.
Proof.
  intros Hc Hs Hb.
  destruct (establish_fips_run behind false c s Hb Hc Hs) as (client & E1 & He1 & Hd1 & _).
  destruct (establish_fips_run behind true c s Hb Hc Hs) as (server & E2 & He2 & Hd2 & _).
  exists client, server. repeat split; congruence.
Qed.

End establish.

(** ** Witnesses

    A toy instance of the primitives: digests of a checksum, and a cipher that
    adds nothing but the first byte of the key. *)

Definition checksum (l : list Z) : Z := fold_left (fun acc b => (acc * 31 + b + 7) mod 65536) l 1.
Definition digest (n : nat) (l : list Z) : list Z :=
  [checksum l mod 256; checksum l / 256 mod 256] ++ replicate (n - 2) 0.
Definition mask (k : Z) (data : list Z) : list Z := map (Z.lxor k) data.

#[export] Instance ToyCrypto : Crypto := {
  sha1 := digest 20;
  md5 := digest 16;
  hmac_sha1 := fun k l => digest 20 (k ++ l);
  rc4_state := Z;
  rc4_init := fun k => hd 0 k;
  rc4 := fun st data => (mask st data, st);
  des3_state := Z;
  des3_encrypt_init := fun k _ => hd 0 k;
  des3_decrypt_init := fun k _ => hd 0 k;
  des3_encrypt := fun st data => (mask st data, st);
  des3_decrypt := fun st data => (mask st data, st);
}.

Lemma mask_mask k data : mask k (mask k data) = data.
Proof.
  unfold mask. rewrite map_map. rewrite <- (map_id data) at 2. apply map_ext. intros b.
  rewrite <- Z.lxor_assoc, Z.lxor_nilpotent, Z.lxor_0_l. reflexivity.
Qed.

Lemma is_bytes_digest n l : is_bytes (digest n l).
Proof.
  repeat constructor; try apply is_byte_mod. apply Forall_replicate. unfold is_byte. lia.
Qed.

#[export] Instance ToyCryptoLaws : CryptoLaws.
Proof.
  split; try reflexivity; [intros l; apply (is_bytes_digest 16)|]. cbn. intros st data out st' [= <- <-]. split.
  - unfold mask, len. rewrite length_map. reflexivity.
  - rewrite mask_mask. reflexivity.
Qed.

Definition random1 : list Z := upto 32.
Definition random2 : list Z := rev (upto 32).

Lemma security_key_agreement_witness :
  exists client server,
    rdp_establish_ciphers 0 ENCRYPTION_METHOD_40BIT false random1 random2 rdp_sec_new = Done (true, client) /\
    rdp_establish_ciphers 0 ENCRYPTION_METHOD_40BIT true random1 random2 rdp_sec_new = Done (true, server) /\
    paired client server /\ paired server client.
Proof. apply security_key_agreement; [left; reflexivity|reflexivity|reflexivity]. Defined.

(** Two paired ends at the given use count. *)
Definition toy_end (count : Z) : rdpSec :=
  mkSec (Some 5) count (Some 5) count (Some 5) (Some 5) (upto 16) (upto 16) (upto 16) (upto 16) (upto 16) 16
    (upto 20) (upto 24) (upto 24).

Lemma toy_paired count : 0 <= count <= 4096 -> paired (toy_end count) (toy_end count).
Proof. intros Hc. split; cbn; auto. Qed.

Lemma security_channel_sync_witness :
  exists cs a' b', encrypt_all [ [1; 2]; [3]; [] ] (toy_end 4095) = Done (cs, a') /\
    decrypt_all cs (toy_end 4095) = Done ([ [1; 2]; [3]; [] ], b') /\ paired a' b'.
Proof. apply security_channel_sync, toy_paired. lia. Defined.

Lemma security_salted_signature_witness :
  exists cipher a' b',
    security_encrypt [1; 2] (toy_end 4096) = Done (cipher, a') /\
    security_decrypt cipher (toy_end 4096) = Done ([1; 2], b') /\
    security_salted_mac_signature [1; 2] true (toy_end 4096)
      = Done (salted_mac (toy_end 4096) [1; 2] 4096, toy_end 4096) /\
    security_salted_mac_signature [1; 2] false b'
      = Done (salted_mac (toy_end 4096) [1; 2] 0, b') /\
    salted_mac (toy_end 4096) [1; 2] 4096 <> salted_mac (toy_end 4096) [1; 2] 0.
Proof.
  destruct (security_salted_signature [1; 2] (toy_end 4096) (toy_end 4096)) as (c & a' & b' & H1 & H2 & H3 & H4).
  - apply toy_paired. lia.
  - exists c, a', b'. split; [exact H1|]. split; [exact H2|]. split; [exact H3|].
    split; [exact H4|]. vm_compute. discriminate.
Defined.

Lemma fips_expand_parity_witness :
  fips_expand_key_bits 0 (upto 21) tt = fips_expand_key_bits 255 (upto 21) tt.
Proof.
  apply (fips_expand_parity 0 255 (upto 21) tt).
  - repeat constructor; discriminate.
  - reflexivity.
  - unfold is_byte. lia.
  - unfold is_byte. lia.
Defined.

Lemma fips_signature_accepted_witness :
  exists sig cipher a' b',
    security_hmac_signature [9; 8] (toy_end 7) = Done (sig, toy_end 7) /\
    security_fips_encrypt [9; 8; 0; 0; 0; 0; 0; 0] (toy_end 7) = Done (cipher, a') /\
    security_fips_check_signature [9; 8] sig (toy_end 7) = Done (true, b') /\
    encrypt_use_count a' = decrypt_use_count b'.
Proof. apply fips_signature_accepted; [reflexivity|reflexivity|vm_compute; reflexivity|cbn; eauto]. Defined.

Lemma fips_keys_not_mirrored_witness :
  exists client server,
    rdp_establish_ciphers 0 ENCRYPTION_METHOD_FIPS false random1 random2 rdp_sec_new = Done (true, client) /\
    rdp_establish_ciphers 0 ENCRYPTION_METHOD_FIPS true random1 random2 rdp_sec_new = Done (true, server) /\
    fips_encrypt client = fips_encrypt server /\ fips_decrypt client = fips_decrypt server.
Proof. apply fips_keys_not_mirrored; [reflexivity|reflexivity|apply is_bytes_digest]. Defined.
