(* ===== verification/Rsa.v ===== *)
(** RSA as [libfreerdp-core/crypto.c] computes it: keys, input and output are
    little-endian byte arrays, the arithmetic is done by OpenSSL's big numbers.
    Those are the interface [Bignum], and [BignumLaws] is what their
    documentation promises. *)

From Stdlib Require Import Zpow_facts.
From S2P Require Import Prelude.
From S2P Require Import Stream.
From S2P Require Import Security.

(** ** Big numbers *)

Class Bignum : Type := {
  BN_bin2bn : list Z -> Z;
  BN_bn2bin : Z -> list Z;
  (** [BN_mod_exp a p m] is the result of [BN_mod_exp(r, a, p, m, ctx)]. *)
  BN_mod_exp : Z -> Z -> Z -> Z;
}.

(** The value of little-endian bytes, and the bytes of a value. *)
Abbreviation le_val := (little_endian_to_Z 8).
Abbreviation le_bytes n v := (Z_to_little_endian n 8 v).

Class BignumLaws `{Bignum} : Prop := {
  (** big-endian bytes are converted to the number they stand for *)
  bin2bn_val : forall l, is_bytes l -> BN_bin2bn l = le_val (rev l);
  (** a number is converted to its big-endian bytes without leading zeros *)
  bn2bin_val : forall v, 0 <= v -> exists n, 0 <= n /\ v < 2 ^ (n * 8) /\ (0 < n -> 2 ^ ((n - 1) * 8) <= v) /\
    BN_bn2bin v = rev (le_bytes n v);
  mod_exp_val : forall x e m, 0 <= x -> 0 <= e -> 0 < m -> BN_mod_exp x e m = x ^ e mod m;
}.

Section rsa.
Context `{Bignum}.

(** ** [crypto_reverse] *)

(** [for (; i < j; i++, j--)] swap; every round brings [i] and [j] closer. *)
Fixpoint reverse_loop (fuel : nat) (i j : Z) (data : list Z) : outcome (list Z) :=
  if i <? j then
    match fuel, data !! Z.to_nat i, data !! Z.to_nat j with
    | S fuel', Some a, Some b => reverse_loop fuel' (i + 1) (j - 1) (<[Z.to_nat j := a]> (<[Z.to_nat i := b]> data))
    | _, _, _ => Fault OutOfBounds
    end
  else Done data.

Definition crypto_reverse {S} (data : list Z) (length : Z) : M S (list Z) := fun s =>
  match reverse_loop (Z.to_nat length) 0 (length - 1) data with
  | Done data' => Done (data', s)
  | Fault f => Fault f
  end.

(** ** [crypto_rsa_common] *)

Definition EXPONENT_MAX_SIZE : Z := 4.
Definition MODULUS_MAX_SIZE : Z := 256.

(** [memcpy(dst + off, bs, len)] *)
Definition mem_put {S} (off : Z) (bs dst : list Z) : M S (list Z) := fun s =>
  if bool_decide (0 <= off /\ off + len bs <= len dst) then Done (splice (Z.to_nat off) bs dst, s) else Fault OutOfBounds.

(** The result in the array [output] of the caller. *)
Definition rsa_output {S} (y key_length : Z) (output : list Z) : M S (list Z) :=
  let out := BN_bn2bin y in
  let output_length := len out in
  let! output := mem_put 0 out output in
  let! output := crypto_reverse output output_length in
  if output_length <? key_length
  then mem_put output_length (replicate (Z.to_nat (key_length - output_length)) 0) output
  else ret output.

(** One allocation holds the reversed input, modulus and exponent one behind
    the other. *)
Definition crypto_rsa_common {S} (input : list Z) (length key_length : Z) (modulus exponent : list Z)
    (exponent_size : Z) (output : list Z) : M S (list Z) :=
  let size := uint32 (2 * key_length + exponent_size) in
  let buf := replicate (Z.to_nat size) 0 in
  let modulus_reverse := key_length in
  let exponent_reverse := modulus_reverse + key_length in
  let! m := mem 0 key_length modulus in
  let! m := crypto_reverse m key_length in
  let! buf := mem_put modulus_reverse m buf in
  let! e := mem 0 exponent_size exponent in
  let! e := crypto_reverse e exponent_size in
  let! buf := mem_put exponent_reverse e buf in
  let! i := mem 0 length input in
  let! i := crypto_reverse i length in
  let! buf := mem_put 0 i buf in
  let! m := mem modulus_reverse key_length buf in
  let! e := mem exponent_reverse exponent_size buf in
  let! i := mem 0 length buf in
  let mod_ := BN_bin2bn m in
  let exp := BN_bin2bn e in
  let x := BN_bin2bn i in
  let y := BN_mod_exp x exp mod_ in
  rsa_output y key_length output.

Definition crypto_rsa_public {S} (input : list Z) (length key_length : Z) (modulus exponent output : list Z) : M S (list Z) :=
  crypto_rsa_common input length key_length modulus exponent EXPONENT_MAX_SIZE output.
Definition crypto_rsa_private {S} (input : list Z) (length key_length : Z) (modulus private_exponent output : list Z) : M S (list Z) :=
  crypto_rsa_common input length key_length modulus private_exponent key_length output.
Definition crypto_rsa_public_encrypt {S} (input : list Z) (length key_length : Z) (modulus exponent output : list Z) : M S (list Z) :=
  crypto_rsa_public input length key_length modulus exponent output.
Definition crypto_rsa_public_decrypt {S} (input : list Z) (length key_length : Z) (modulus exponent output : list Z) : M S (list Z) :=
  crypto_rsa_public input length key_length modulus exponent output.
Definition crypto_rsa_private_encrypt {S} (input : list Z) (length key_length : Z) (modulus private_exponent output : list Z) : M S (list Z) :=
  crypto_rsa_private input length key_length modulus private_exponent output.
Definition crypto_rsa_private_decrypt {S} (input : list Z) (length key_length : Z) (modulus private_exponent output : list Z) : M S (list Z) :=
  crypto_rsa_private input length key_length modulus private_exponent output.

End rsa.

(** ** The signing key of the terminal services *)

Definition TSSK_KEY_LENGTH : Z := 64.

Definition tssk_modulus : list Z :=
  [0x3d; 0x3a; 0x5e; 0xbd; 0x72; 0x43; 0x3e; 0xc9; 0x4d; 0xbb; 0xc1; 0x1e; 0x4a; 0xba; 0x5f; 0xcb;
   0x3e; 0x88; 0x20; 0x87; 0xef; 0xf5; 0xc1; 0xe2; 0xd7; 0xb7; 0x6b; 0x9a; 0xf2; 0x52; 0x45; 0x95;
   0xce; 0x63; 0x65; 0x6b; 0x58; 0x3a; 0xfe; 0xef; 0x7c; 0xe7; 0xbf; 0xfe; 0x3d; 0xf6; 0x5c; 0x7d;
   0x6c; 0x5e; 0x06; 0x09; 0x1a; 0xf5; 0x61; 0xbb; 0x20; 0x93; 0x09; 0x5f; 0x05; 0x6d; 0xea; 0x87].
Definition tssk_privateExponent : list Z :=
  [0x87; 0xa7; 0x19; 0x32; 0xda; 0x11; 0x87; 0x55; 0x58; 0x00; 0x16; 0x16; 0x25; 0x65; 0x68; 0xf8;
   0x24; 0x3e; 0xe6; 0xfa; 0xe9; 0x67; 0x49; 0x94; 0xcf; 0x92; 0xcc; 0x33; 0x99; 0xe8; 0x08; 0x60;
   0x17; 0x9a; 0x12; 0x9f; 0x24; 0xdd; 0xb1; 0x24; 0x99; 0xc7; 0x3a; 0xb8; 0x0a; 0x7b; 0x0d; 0xdd;
   0x35; 0x07; 0x79; 0x17; 0x0b; 0x51; 0x9b; 0xb3; 0xc7; 0x10; 0x01; 0x13; 0xe7; 0x3f; 0xf3; 0x5f].
Definition tssk_exponent : list Z := [0x5b; 0x7b; 0x88; 0xc0].

(** ** Reversal *)

Lemma rev_snoc_ends {A} (a b : A) (l : list A) : rev (a :: l ++ [b]) = b :: rev l ++ [a].
Proof. cbn [rev]. rewrite rev_app_distr. reflexivity. Qed.

(** The part between [i] and [j] is reversed. *)
Lemma reverse_loop_spec fuel : forall pre mid post, (length mid <= fuel)%nat ->
  reverse_loop fuel (len pre) (len pre + len mid - 1) (pre ++ mid ++ post) = Done (pre ++ rev mid ++ post).
Proof.
  induction fuel as [|fuel IH]; intros pre mid post Hf.
  - destruct mid; [|cbn in Hf; lia]. cbn [reverse_loop]. rewrite (proj2 (Z.ltb_ge _ _)) by llia. reflexivity.
  - destruct mid as [|a mid]; [cbn [reverse_loop]; rewrite (proj2 (Z.ltb_ge _ _)) by llia; reflexivity|].
    destruct mid as [|b mid _] using rev_ind;
      [cbn [reverse_loop]; rewrite (proj2 (Z.ltb_ge _ _)) by llia; reflexivity|].
    rewrite rev_snoc_ends. cbn [reverse_loop]. rewrite (proj2 (Z.ltb_lt _ _)) by llia.
    set (l := pre ++ (a :: mid ++ [b]) ++ post).
    assert (El : l = pre ++ a :: mid ++ b :: post) by (unfold l; cbn; rewrite <- app_assoc; reflexivity).
    assert (Ei : Z.to_nat (len pre) = length pre) by (unfold len; lia).
    assert (Ej : Z.to_nat (len pre + len (a :: mid ++ [b]) - 1) = (length pre + S (length mid))%nat)
      by (lens; unfold len; lia).
    rewrite Ei, Ej, El.
    rewrite list_lookup_middle by reflexivity.
    assert (Hb : (pre ++ a :: mid ++ b :: post) !! (length pre + S (length mid))%nat = Some b).
    { rewrite lookup_app_r by lia. replace (_ + _ - _)%nat with (S (length mid)) by lia. cbn.
      apply list_lookup_middle. reflexivity. }
    rewrite Hb.
    assert (E : <[(length pre + S (length mid))%nat := a]> (<[length pre := b]> (pre ++ a :: mid ++ b :: post))
                = (pre ++ [b]) ++ mid ++ ([a] ++ post)).
    { rewrite (insert_app_r_alt pre) by lia. rewrite Nat.sub_diag. cbn [insert list_insert].
      rewrite (insert_app_r pre). cbn [insert list_insert].
      rewrite (insert_app_r_alt mid) by lia. rewrite Nat.sub_diag, <- app_assoc. reflexivity. }
    rewrite E. replace (len pre + 1) with (len (pre ++ [b])) by llia.
    replace (len pre + _ - 1 - 1) with (len (pre ++ [b]) + len mid - 1) by llia.
    rewrite IH by (cbn [length] in Hf; rewrite length_app in Hf; cbn in Hf; lia).
    f_equal. cbn [app]. rewrite <- !app_assoc. reflexivity.
Qed.

(** [crypto_reverse] on the first bytes of an array is their reversal. *)
Lemma crypto_reverse_spec {S} l rest n (s : S) : n = len l -> crypto_reverse (l ++ rest) n s = Done (rev l ++ rest, s).
Proof.
  intros ->. unfold crypto_reverse. pose proof (reverse_loop_spec (length l) [] l rest ltac:(lia)) as E.
  rewrite len_nil in E. cbn [app] in E. rewrite Z.add_0_l in E.
  replace (Z.to_nat (len l)) with (length l) by (unfold len; lia). rewrite E. reflexivity.
Qed.

Lemma crypto_reverse_all {S} l n (s : S) : n = len l -> crypto_reverse l n s = Done (rev l, s).
Proof. intros Hn. rewrite <- (app_nil_r l), (crypto_reverse_spec l [] n s Hn), !app_nil_r. reflexivity. Qed.

(** ** Parts of arrays *)

Lemma mem_mid {S} a b c off n (s : S) : off = len a -> n = len b -> mem off n (a ++ b ++ c) s = Done (b, s).
Proof.
  intros -> ->. unfold mem. rewrite bool_decide_true by (repeat split; llia).
  unfold len. rewrite !Nat2Z.id, drop_app_length, take_app_length. reflexivity.
Qed.

Lemma mem_start {S} b c n (s : S) : n = len b -> mem 0 n (b ++ c) s = Done (b, s).
Proof. apply (mem_mid []). reflexivity. Qed.

Lemma mem_all {S} b n (s : S) : n = len b -> mem 0 n b s = Done (b, s).
Proof. intros Hn. rewrite <- (app_nil_r b) at 1. apply mem_start, Hn. Qed.

Lemma mem_put_mid {S} a b c d off (s : S) : off = len a -> length b = length c ->
  mem_put off b (a ++ c ++ d) s = Done (a ++ b ++ d, s).
Proof.
  intros -> Hl. unfold mem_put. rewrite bool_decide_true by (split; unfold len in *; rewrite ?length_app; lia).
  unfold splice, len. rewrite Nat2Z.id, take_app_length, Hl, (app_assoc a c), drop_app_length' by (rewrite length_app; lia).
  reflexivity.
Qed.

Lemma mem_put_start {S} b c d (s : S) : length b = length c -> mem_put 0 b (c ++ d) s = Done (b ++ d, s).
Proof. apply (mem_put_mid [] b c d 0 s). reflexivity. Qed.

Lemma mem_put_end {S} a b c off (s : S) : off = len a -> length b = length c -> mem_put off b (a ++ c) s = Done (a ++ b, s).
Proof. intros Ha Hl. rewrite <- (app_nil_r c), (mem_put_mid a b c [] off s Ha Hl), app_nil_r. reflexivity. Qed.

(** ** Little-endian numbers *)

Lemma le_val_bound l : is_bytes l -> 0 <= le_val l < 2 ^ (len l * 8).
Proof. intros Hl. apply (little_endian_to_Z_bound 8); [lia|exact Hl]. Qed.

Lemma len_le_bytes n v : 0 <= n -> len (le_bytes n v) = n.
Proof. apply length_Z_to_little_endian. Qed.

Lemma is_bytes_le_bytes n v : 0 <= n -> is_bytes (le_bytes n v).
Proof. intros Hn. apply (Z_to_little_endian_bound n 8); [lia|exact Hn]. Qed.

Lemma le_val_bytes n v : 0 <= n -> 0 <= v < 2 ^ (n * 8) -> le_val (le_bytes n v) = v.
Proof. intros Hn Hv. rewrite little_endian_to_Z_to_little_endian by lia. apply Z.mod_small, Hv. Qed.

Lemma le_bytes_zero n : 0 <= n -> le_bytes n 0 = replicate (Z.to_nat n) 0.
Proof.
  intros Hn. revert n Hn. apply natlike_ind; [reflexivity|]. intros n Hn IH.
  rewrite Z_to_little_endian_succ by exact Hn. change (0 ≫ 8) with 0. rewrite IH.
  replace (Z.to_nat (Z.succ n)) with (S (Z.to_nat n)) by lia. reflexivity.
Qed.

(** Zeros behind the bytes of a number do not change it. *)
Lemma le_bytes_pad n k v : 0 <= n <= k -> 0 <= v < 2 ^ (n * 8) ->
  le_bytes n v ++ replicate (Z.to_nat (k - n)) 0 = le_bytes k v.
Proof.
  intros [Hn Hk] Hv. revert n Hn k Hk v Hv. apply (natlike_ind (fun n => forall k, n <= k -> forall v, 0 <= v < 2 ^ (n * 8) -> _)).
  - intros k Hk v Hv. replace v with 0 by (change (2 ^ (0 * 8)) with 1 in Hv; lia).
    rewrite (le_bytes_zero k), Z.sub_0_r by lia. reflexivity.
  - intros n Hn IH k Hk v Hv. replace k with (Z.succ (k - 1)) at 2 by lia.
    rewrite !Z_to_little_endian_succ by lia. cbn [app]. f_equal.
    rewrite <- (IH (k - 1)); [do 2 f_equal; f_equal; lia|lia|].
    rewrite Z.shiftr_div_pow2 by lia. replace (Z.succ n * 8) with (8 + n * 8) in Hv by lia.
    rewrite Z.pow_add_r in Hv by lia. split; [apply Z.div_pos; lia|apply Z.div_lt_upper_bound; lia].
Qed.

Lemma le_val_app_zeros l n : is_bytes l -> le_val (l ++ replicate n 0) = le_val l.
Proof.
  intros Hl. pose proof (le_val_bound l Hl) as Hb. pose proof (len_nonneg l).
  rewrite <- (Z_to_little_endian_to_Z (len l) 8 l) at 1 by (auto; lia).
  replace n with (Z.to_nat (len l + Z.of_nat n - len l)) at 1 by lia.
  rewrite le_bytes_pad by lia. apply le_val_bytes; [lia|].
  split; [lia|]. apply (Z.lt_le_trans _ _ _ (proj2 Hb)). apply Z.pow_le_mono_r; lia.
Qed.

(** ** What [crypto_rsa_common] computes *)

Section rsa_facts.
Context `{BignumLaws}.

Lemma is_bytes_rev l : is_bytes l -> is_bytes (rev l).
Proof. apply List.Forall_rev. Qed.

Lemma bin2bn_rev l : is_bytes l -> BN_bin2bn (rev l) = le_val l.
Proof. intros Hl. rewrite bin2bn_val, rev_involutive by (apply is_bytes_rev, Hl). reflexivity. Qed.

(** The number of bytes of a number below [2 ^ (k * 8)]. *)
Lemma bn2bin_bytes v k : 0 <= k -> 0 <= v < 2 ^ (k * 8) -> exists n, 0 <= n <= k /\ v < 2 ^ (n * 8) /\
  BN_bn2bin v = rev (le_bytes n v).
Proof.
  intros Hk Hv. destruct (bn2bin_val v) as (n & Hn & Hlt & Hge & E); [lia|]. exists n. split; [|auto].
  split; [exact Hn|]. destruct (Z.le_gt_cases n k) as [|Hgt]; [assumption|exfalso].
  pose proof (Z.pow_le_mono_r 2 (k * 8) ((n - 1) * 8) ltac:(lia) ltac:(lia)). lia.
Qed.

Lemma rsa_output_run {S} y k out (s : S) : 0 <= y < 2 ^ (k * 8) -> 0 <= k <= len out ->
  rsa_output y k out s = Done (le_bytes k y ++ drop (Z.to_nat k) out, s).
Proof.
  intros Hy Hk. destruct (bn2bin_bytes y k) as (n & Hn & Hlt & E); [lia|lia|]. unfold rsa_output. rewrite E.
  assert (Ln : len (rev (le_bytes n y)) = n) by (unfold len; rewrite length_rev; apply len_le_bytes; lia).
  assert (Lo : length (rev (le_bytes n y)) = length (take (Z.to_nat n) out))
    by (rewrite length_take; unfold len in *; lia).
  rewrite <- (take_drop (Z.to_nat n) out) at 1. rewrite (bind_Done _ _ _ _ _ (mem_put_start _ _ _ s Lo)), Ln.
  rewrite (bind_Done _ _ _ _ _ (crypto_reverse_spec _ _ n s (eq_sym Ln))), rev_involutive.
  destruct (Z.ltb_spec n k).
  - rewrite <- (take_drop (Z.to_nat (k - n)) (drop (Z.to_nat n) out)), drop_drop.
    rewrite mem_put_mid; [|rewrite len_le_bytes; lia|rewrite length_replicate, length_take, length_drop; unfold len in *; lia].
    rewrite app_assoc, le_bytes_pad by lia. replace (Z.to_nat n + _)%nat with (Z.to_nat k) by lia. reflexivity.
  - replace k with n by lia. reflexivity.
Qed.

(** The output is the power of the input, in as many bytes as the modulus has. *)
Lemma rsa_common_run {S} i irest m e out (s : S) :
  is_bytes i -> is_bytes m -> is_bytes e -> len i <= len m -> 0 < le_val m ->
  2 * len m + len e < 2 ^ 32 -> len m <= len out ->
  crypto_rsa_common (i ++ irest) (len i) (len m) m e (len e) out s
  = Done (le_bytes (len m) (le_val i ^ le_val e mod le_val m) ++ drop (length m) out, s).
Proof.
  intros Hi Hm He Hle Hpos Hsize Hout. pose proof (len_nonneg i). pose proof (len_nonneg m). pose proof (len_nonneg e).
  unfold crypto_rsa_common. rewrite (bind_Done _ _ _ _ _ (mem_all m (len m) s eq_refl)).
  rewrite (bind_Done _ _ _ _ _ (crypto_reverse_all m (len m) s eq_refl)).
  replace (replicate _ 0) with (replicate (length m) 0 ++ replicate (length m) 0 ++ replicate (length e) 0)
    by (rewrite <- !replicate_add; f_equal; unfold uint32; rewrite Z.mod_small by lia; unfold len; lia).
  assert (L1 : len (replicate (length m) 0) = len m) by (rewrite len_replicate; reflexivity).
  rewrite (bind_Done _ _ _ _ _ (mem_put_mid _ (rev m) _ _ _ s (eq_sym L1) ltac:(rewrite length_rev, length_replicate; reflexivity))).
  rewrite (bind_Done _ _ _ _ _ (mem_all e (len e) s eq_refl)).
  rewrite (bind_Done _ _ _ _ _ (crypto_reverse_all e (len e) s eq_refl)).
  rewrite app_assoc.
  assert (L2 : len m + len m = len (replicate (length m) 0 ++ rev m)) by (lens; unfold len; rewrite length_rev; lia).
  rewrite (bind_Done _ _ _ _ _ (mem_put_end _ (rev e) _ _ s L2 ltac:(rewrite length_rev, length_replicate; reflexivity))).
  rewrite (bind_Done _ _ _ _ _ (mem_start i irest (len i) s eq_refl)).
  rewrite (bind_Done _ _ _ _ _ (crypto_reverse_all i (len i) s eq_refl)).
  replace (replicate (length m) 0) with (replicate (length i) 0 ++ replicate (length m - length i) 0)
    by (rewrite <- replicate_add; f_equal; unfold len in *; lia).
  rewrite <- !app_assoc.
  rewrite (bind_Done _ _ _ _ _ (mem_put_start (rev i) _ _ s ltac:(rewrite length_rev, length_replicate; reflexivity))).
  set (gap := replicate (length m - length i) 0).
  assert (L3 : len m = len (rev i ++ gap))
    by (unfold gap; lens; unfold len in *; rewrite length_rev; lia).
  rewrite app_assoc.
  rewrite (bind_Done _ _ _ _ _ (mem_mid (rev i ++ gap) (rev m) (rev e) _ _ s L3 ltac:(unfold len; rewrite length_rev; reflexivity))).
  rewrite app_assoc, <- (app_nil_r (rev e)).
  rewrite (bind_Done _ _ _ _ _ (mem_mid ((rev i ++ gap) ++ rev m) (rev e) [] _ _ s
             ltac:(rewrite len_app, <- L3; unfold len; rewrite length_rev; reflexivity)
             ltac:(unfold len; rewrite length_rev; reflexivity))).
  rewrite <- !app_assoc.
  rewrite (bind_Done _ _ _ _ _ (mem_start (rev i) _ (len i) s ltac:(unfold len; rewrite length_rev; reflexivity))).
  rewrite !bin2bn_rev by assumption.
  pose proof (le_val_bound i Hi). pose proof (le_val_bound e He). pose proof (le_val_bound m Hm).
  rewrite mod_exp_val by lia. set (y := _ mod le_val m).
  assert (Hy : 0 <= y < le_val m) by (apply Z.mod_pos_bound; lia).
  replace (length m) with (Z.to_nat (len m)) by (unfold len; lia). apply rsa_output_run; lia.
Qed.

(** The private exponent [d] undoes the public exponent [e] on [x]. *)
Definition rsa_undoes (m e d : list Z) (x : Z) : Prop :=
  0 <= x < le_val m /\ (x ^ le_val e mod le_val m) ^ le_val d mod le_val m = x.

Record rsa_key (m e d : list Z) : Prop := {
  key_modulus : is_bytes m;
  key_exponent : is_bytes e;
  key_private : is_bytes d;
  key_exponent_len : len e = EXPONENT_MAX_SIZE;
  key_private_len : len d = len m;
  key_len : len m < 2 ^ 24;
}.

Lemma rsa_public_run {S} i irest m e d out (s : S) :
  rsa_key m e d -> is_bytes i -> len i <= len m -> 0 < le_val m -> len m <= len out ->
  crypto_rsa_public (i ++ irest) (len i) (len m) m e out s
  = Done (le_bytes (len m) (le_val i ^ le_val e mod le_val m) ++ drop (length m) out, s).
Proof.
  intros [Hm He Hd Le Ld Lm] Hi Hl Hp Ho. unfold crypto_rsa_public. rewrite <- Le.
  apply rsa_common_run; auto. rewrite Le. unfold EXPONENT_MAX_SIZE. lia.
Qed.

Lemma rsa_private_run {S} i irest m e d out (s : S) :
  rsa_key m e d -> is_bytes i -> len i <= len m -> 0 < le_val m -> len m <= len out ->
  crypto_rsa_private (i ++ irest) (len i) (len m) m d out s
  = Done (le_bytes (len m) (le_val i ^ le_val d mod le_val m) ++ drop (length m) out, s).
Proof.
  intros [Hm He Hd Le Ld Lm] Hi Hl Hp Ho. unfold crypto_rsa_private. rewrite <- Ld at 2.
  apply rsa_common_run; auto. lia.
Qed.

(** What was encrypted with the public key is decrypted with the private one,
    followed by zeros up to the size of the key. *)
Lemma rsa_private_undoes {S} r crest m e d out (s : S) :
  rsa_key m e d -> is_bytes r -> len r <= len m -> rsa_undoes m e d (le_val r) -> len m <= len out ->
  crypto_rsa_private (le_bytes (len m) (le_val r ^ le_val e mod le_val m) ++ crest) (len m) (len m) m d out s
  = Done ((r ++ replicate (length m - length r) 0) ++ drop (length m) out, s).
Proof.
  intros Hk Hr Hl [Hx Hu] Ho. pose proof (len_nonneg m). pose proof (le_val_bound m (key_modulus _ _ _ Hk)).
  set (c := le_val r ^ _ mod _). assert (Hc : 0 <= c < le_val m) by (apply Z.mod_pos_bound; lia).
  change (c ^ le_val d mod le_val m = le_val r) in Hu.
  pose proof (rsa_private_run (le_bytes (len m) c) crest m e d out s Hk) as E. rewrite len_le_bytes in E by lia.
  rewrite E; [|apply is_bytes_le_bytes; lia|lia|lia|exact Ho]. rewrite le_val_bytes, Hu by lia.
  do 2 f_equal. rewrite <- (le_bytes_pad (len r)); [|split; [apply len_nonneg|lia]|apply le_val_bound, Hr].
  rewrite Z_to_little_endian_to_Z; [|reflexivity|lia|exact Hr]. do 2 f_equal. unfold len. f_equal. lia.
Qed.

End rsa_facts.

(** ** Big numbers as integers *)

Definition num_bytes (v : Z) : Z := if v =? 0 then 0 else Z.log2 v / 8 + 1.

Definition ZBignum : Bignum := {|
  BN_bin2bn l := le_val (rev l);
  BN_bn2bin v := rev (le_bytes (num_bytes v) v);
  BN_mod_exp x e m := Zpow_mod x e m |}.

#[local] Existing Instance ZBignum.

Lemma ZBignum_laws : BignumLaws.
Proof.
  split; [reflexivity| |].
  - intros v Hv. exists (num_bytes v). unfold num_bytes. destruct (Z.eqb_spec v 0) as [->|Hn].
    + repeat split; lia || reflexivity.
    + assert (E : BN_bn2bin v = rev (le_bytes (Z.log2 v / 8 + 1) v))
        by (change (BN_bn2bin v) with (rev (le_bytes (num_bytes v) v)); unfold num_bytes; rewrite (proj2 (Z.eqb_neq v 0) Hn); reflexivity).
      pose proof (Z.log2_spec v ltac:(lia)) as [Hlo Hhi]. pose proof (Z.log2_nonneg v).
      pose proof (Z.div_mod (Z.log2 v) 8 ltac:(lia)). pose proof (Z.mod_pos_bound (Z.log2 v) 8 ltac:(lia)).
      split; [lia|]. split; [|split; [|exact E]].
      * apply (Z.lt_le_trans _ _ _ Hhi). apply Z.pow_le_mono_r; lia.
      * intros _. apply (Z.le_trans _ (2 ^ Z.log2 v)); [apply Z.pow_le_mono_r; lia|exact Hlo].
  - intros x e m Hx He Hm. apply Zpow_mod_correct. lia.
Qed.
