(* ===== verification/Certificate.v ===== *)
(** The certificate of a server with standard RDP security,
    [libfreerdp-core/certificate.c]: the proprietary certificate, which is signed
    with a well-known key, and the chain of X.509 certificates. What is read is
    the public key of the server, [cert_info]. *)

From S2P Require Import Prelude.
From S2P Require Import Stream.
From S2P Require Import Ber.
From S2P Require Import Security.
From S2P Require Import Rsa.

Definition CERT_CHAIN_VERSION_1 : Z := 1.
Definition CERT_CHAIN_VERSION_2 : Z := 2.
Definition CERT_CHAIN_VERSION_MASK : Z := 0x7FFFFFFF.
Definition SIGNATURE_ALG_RSA : Z := 1.
Definition KEY_EXCHANGE_ALG_RSA : Z := 1.
Definition BB_RSA_KEY_BLOB : Z := 6.
Definition BB_RSA_SIGNATURE_BLOB : Z := 8.

(** [exponent] is an array of four bytes, [modulus] a blob. *)
Record rdpCertInfo : Type := mkCertInfo { modulus : list Z; exponent : list Z }.

Record rdpCertificate : Type := mkCertificate {
  cert_info : rdpCertInfo;
  x509_cert_chain : option (list (list Z));
}.

Definition no_info : rdpCertInfo := mkCertInfo [] [0; 0; 0; 0].

(** [certificate_new]: zeroed memory *)
Definition certificate_new : rdpCertificate := mkCertificate no_info None.

Definition set_info (i : rdpCertInfo) (c : rdpCertificate) : rdpCertificate := mkCertificate i (x509_cert_chain c).
Definition set_chain (l : option (list (list Z))) (c : rdpCertificate) : rdpCertificate := mkCertificate (cert_info c) l.

Definition stream_attach (buf : list Z) (size : Z) : STREAM := mkSTREAM size 0 buf.

(** ** X.509 *)

(** [do .. while (padding == 0)]; every round takes a byte of the stream. *)
Fixpoint skip_zeros (fuel : nat) (modulus_length : Z) : M STREAM Z :=
  match fuel with
  | O => fail OutOfBounds
  | S fuel' =>
      let! padding := stream_peek_uint8 in
      if padding =? 0 then stream_seek 1;; skip_zeros fuel' (modulus_length - 1)
      else ret modulus_length
  end.

(** A SEQUENCE that is passed over. *)
Definition skip_sequence (length : option Z) : M STREAM (option Z) :=
  let! (_, length) := ber_read_sequence_tag length in
  let! n := use length in
  stream_seek n;;
  ret length.

(** [RSAPublicKey]: the modulus without leading zeros, and the exponent at the
    end of its four bytes; both are kept in little-endian order. *)
Definition read_rsa_key (length : option Z) (info : rdpCertInfo) : M STREAM rdpCertInfo :=
  let! _ := ber_read_sequence_tag length in
  let! (_, modulus_length) := ber_read_integer_length None in
  let! modulus_length := use modulus_length in
  let! s := get in
  let! modulus_length := skip_zeros (S (List.length (s_data s))) modulus_length in
  let! m := stream_read modulus_length in
  let! (_, exponent_length) := ber_read_integer_length None in
  let! exponent_length := use exponent_length in
  let! e := stream_read exponent_length in
  let! e := mem_put (4 - exponent_length) e (exponent info) in
  let! m := crypto_reverse m modulus_length in
  let! e := crypto_reverse e 4 in
  ret (mkCertInfo m e).

Definition read_x509 (info : rdpCertInfo) : M STREAM rdpCertInfo :=
  let! (_, length) := ber_read_sequence_tag None in
  let! (_, length) := ber_read_sequence_tag length in
  let! (_, length) := ber_read_contextual_tag 0 length true in
  let! (_, version) := ber_read_integer true None in
  use version;;
  ber_read_integer false None;;
  let! length := skip_sequence length in
  let! length := skip_sequence length in
  let! length := skip_sequence length in
  let! length := skip_sequence length in
  let! (_, length) := ber_read_sequence_tag length in
  let! length := skip_sequence length in
  let! (_, length, _) := ber_read_bit_string length in
  read_rsa_key length info.

Definition certificate_read_x509_certificate {S} (cert : list Z) (info : rdpCertInfo) : M S rdpCertInfo :=
  let! (info, _) := with_stream (stream_attach cert (len cert)) (read_x509 info) in
  ret info.

Section certificate.
Context `{Crypto} `{Bignum}.

(** ** The chain of certificates *)

(** The second last certificate is read for the log only; the last one is the
    certificate of the server. Every round reads at least four bytes. *)
Fixpoint chain_loop (fuel : nat) (i numCertBlobs : Z) (certificate : rdpCertificate) : M STREAM rdpCertificate :=
  if i <? sint32 numCertBlobs then
    match fuel with
    | O => fail OutOfBounds
    | S fuel' =>
        let! certLength := stream_read_uint32 in
        let! data := stream_read certLength in
        let certificate := set_chain (option_map (fun l => l ++ [data]) (x509_cert_chain certificate)) certificate in
        if uint32 (numCertBlobs - i) =? 2 then
          certificate_read_x509_certificate data no_info;;
          chain_loop fuel' (i + 1) numCertBlobs certificate
        else if uint32 (numCertBlobs - i) =? 1 then
          let! info := certificate_read_x509_certificate data (cert_info certificate) in
          chain_loop fuel' (i + 1) numCertBlobs (set_info info certificate)
        else chain_loop fuel' (i + 1) numCertBlobs certificate
    end
  else ret certificate.

Definition certificate_read_server_x509_certificate_chain (certificate : rdpCertificate) : M STREAM (bool * rdpCertificate) :=
  let! numCertBlobs := stream_read_uint32 in
  let certificate := set_chain (Some []) certificate in
  let! s := get in
  let! certificate := chain_loop (S (List.length (s_data s))) 0 numCertBlobs certificate in
  ret (true, certificate).

(** ** The proprietary certificate *)

Definition RSA1 : list Z := [0x52; 0x53; 0x41; 0x31].

Definition certificate_process_server_public_key (certificate : rdpCertificate) : M STREAM (bool * rdpCertificate) :=
  let! magic := stream_read 4 in
  if negb (bool_decide (magic = RSA1)) then ret (false, certificate)
  else
    let! keylen := stream_read_uint32 in
    let! _bitlen := stream_read_uint32 in
    let! _datalen := stream_read_uint32 in
    let! e := stream_read 4 in
    let certificate := set_info (mkCertInfo (modulus (cert_info certificate)) e) certificate in
    let modlen := uint32 (keylen - 8) in
    let! m := stream_read modlen in
    let certificate := set_info (mkCertInfo m e) certificate in
    stream_seek 8;;
    ret (true, certificate).

(** The three checks of a signature, [sig] being the decrypted bytes; each
    failing one is printed. *)
Definition sum_bytes (l : list Z) : Z := foldr Z.add 0 l.
Definition signature_checks (md5hash encsig sig : list Z) : bool :=
  (sum_bytes (slice TSSK_KEY_LENGTH 8 encsig) =? 0) &&
  bool_decide (md5hash = slice 0 16 sig) &&
  (bool_decide (sig !! 16%nat = Some 0) && (sum_bytes (slice 17 45 sig) =? 0xFF * (62 - 17)) &&
   bool_decide (sig !! 62%nat = Some 1)).

(** The result, and whether the checks went without a message. *)
Definition certificate_process_server_public_signature (sigdata : list Z) (siglen : Z) : M STREAM (bool * bool) :=
  let md5hash := md5 sigdata in
  let! read := stream_read siglen in
  let! encsig := mem_put 0 read (replicate (Z.to_nat (TSSK_KEY_LENGTH + 8)) 0) in
  let siglen := uint32 (siglen - 8) in
  let! sig := crypto_rsa_public_decrypt encsig siglen TSSK_KEY_LENGTH tssk_modulus tssk_exponent
                (replicate (Z.to_nat TSSK_KEY_LENGTH) 0) in
  ret (true, signature_checks md5hash encsig sig).

Definition certificate_read_server_proprietary_certificate (certificate : rdpCertificate) : M STREAM (bool * rdpCertificate) :=
  let! s := get in
  let sigdata := stream_get_pos s - 4 in
  let! dwSigAlgId := stream_read_uint32 in
  let! dwKeyAlgId := stream_read_uint32 in
  if negb ((dwSigAlgId =? SIGNATURE_ALG_RSA) && (dwKeyAlgId =? KEY_EXCHANGE_ALG_RSA)) then ret (false, certificate)
  else
    let! wPublicKeyBlobType := stream_read_uint16 in
    if negb (wPublicKeyBlobType =? BB_RSA_KEY_BLOB) then ret (false, certificate)
    else
      let! _wPublicKeyBlobLen := stream_read_uint16 in
      let! (ok, certificate) := certificate_process_server_public_key certificate in
      if negb ok then ret (false, certificate)
      else
        let! s := get in
        let sigdatalen := stream_get_pos s - sigdata in
        let! wSignatureBlobType := stream_read_uint16 in
        if negb (wSignatureBlobType =? BB_RSA_SIGNATURE_BLOB) then ret (false, certificate)
        else
          let! wSignatureBlobLen := stream_read_uint16 in
          if negb (wSignatureBlobLen =? 72) then ret (false, certificate)
          else
            let! data := mem sigdata sigdatalen (s_data s) in
            let! (ok, _) := certificate_process_server_public_signature data wSignatureBlobLen in
            ret (ok, certificate).

(** ** [certificate_read_server_certificate] *)

(** The results of the two readers are not looked at. *)
Definition read_server_certificate (certificate : rdpCertificate) : M STREAM rdpCertificate :=
  let! dwVersion := stream_read_uint32 in
  let version := Z.land dwVersion CERT_CHAIN_VERSION_MASK in
  if version =? CERT_CHAIN_VERSION_1 then
    let! (_, certificate) := certificate_read_server_proprietary_certificate certificate in ret certificate
  else if version =? CERT_CHAIN_VERSION_2 then
    let! (_, certificate) := certificate_read_server_x509_certificate_chain certificate in ret certificate
  else ret certificate.

Definition certificate_read_server_certificate {S} (certificate : rdpCertificate) (server_cert : list Z) (length : Z)
    : M S (bool * rdpCertificate) :=
  if length <? 1 then ret (false, certificate)
  else
    let! (certificate, _) := with_stream (stream_attach server_cert length) (read_server_certificate certificate) in
    ret (true, certificate).

End certificate.

(** ** Runs of readers along the bytes of a stream *)

(** [adv] and the readers, for programs that also look at positions. *)
Lemma read_step {A B} (r : M STREAM A) (k : A -> M STREAM B) bs cs a s :
  Reads r bs a -> holds s (bs ++ cs) ->
  bind r k s = k a (adv (len bs) s) /\ holds (adv (len bs) s) cs.
Proof.
  intros Hr Hh. destruct (holds_app _ _ _ Hh) as [H1 H2]. split; [apply bind_Done, Hr, H1|exact H2].
Qed.

Ltac read_step E H :=
  let E1 := fresh "E" in let H1 := fresh "H" in
  match type of H with holds ?s _ =>
    match goal with |- context [bind ?r ?k s] =>
      let P := constr:(read_step r k) in
      destruct (P _ _ _ s E H) as [E1 H1]; rewrite E1; clear E1 H; rename H1 into H
    end
  end.

(** The same, forgetting where the stream was. *)
Ltac read_on E H :=
  read_step E H;
  match type of H with holds ?s _ => let s1 := fresh "s" in set (s1 := s) in *; clearbody s1 end.

(** The next bytes, shown to be read by a tactic. *)
Ltac read_by tac H :=
  match type of H with holds ?s (?bs ++ _) =>
    match goal with |- context [bind ?r _ s] =>
      let E := fresh "E" in eassert (E : Reads r bs _) by tac; read_on E H; clear E
    end
  end.

(** A reader of all the bytes of an attached buffer. *)
Lemma with_attached {S A} (r : M STREAM A) bs rest a s' (s : S) n : n = len bs ->
  r (mkSTREAM n 0 (bs ++ rest)) = Done (a, s') -> with_stream (stream_attach (bs ++ rest) n) r s = Done ((a, s'), s).
Proof. intros -> E. unfold with_stream, stream_attach. rewrite E. reflexivity. Qed.

(** ** The proprietary certificate *)

Definition public_key_bytes (m e : list Z) : list Z :=
  RSA1 ++ le32 (len m + 8) ++ le32 (len m * 8) ++ le32 (len m - 1) ++ e ++ m ++ replicate 8 0.

Definition zeros (n : Z) : list Z := replicate (Z.to_nat n) 0.

Lemma len_zeros n : 0 <= n -> len (zeros n) = n.
Proof. intros. unfold zeros. rewrite len_replicate. lia. Qed.

Section certificate_facts.
Context `{CryptoLaws} `{BignumLaws}.

Lemma Reads_public_key c m e : len e = 4 -> 0 < len m < 2 ^ 24 ->
  Reads (certificate_process_server_public_key c) (public_key_bytes m e) (true, set_info (mkCertInfo m e) c).
Proof.
  intros He Hm. unfold certificate_process_server_public_key, public_key_bytes.
  eapply Reads_bind; [apply Reads_read; reflexivity|]. rewrite bool_decide_true by reflexivity. cbn [negb].
  do 3 (eapply Reads_bind; [apply Reads_le32; lia|]).
  eapply Reads_bind; [apply Reads_read; auto|].
  eapply Reads_bind; [apply Reads_read|].
  { unfold uint32. rewrite Z.mod_small; lia. }
  eapply Reads_last; [apply Reads_seek; reflexivity|]. apply Reads_ret.
Qed.

Lemma tssk_key : rsa_key tssk_modulus tssk_exponent tssk_privateExponent.
Proof.
  split; [repeat constructor; discriminate|repeat constructor; discriminate|repeat constructor; discriminate|..];
    vm_compute; reflexivity.
Qed.

(** A signature blob of the expected size is read, whatever it holds. *)
Lemma Reads_signature sigdata sig : is_bytes sig -> len sig = 72 ->
  exists checks, Reads (certificate_process_server_public_signature sigdata 72) sig (true, checks).
Proof.
  intros Hb Hl. eexists. unfold certificate_process_server_public_signature. eapply Reads_last; [apply Reads_read; auto|].
  intros s _. change (adv (len []) s) with (adv 0 s). rewrite adv_0.
  rewrite (bind_Done _ _ _ _ _ (mem_put_end [] sig (replicate 72 0) 0 s eq_refl
             ltac:(rewrite length_replicate; unfold len in Hl; lia))). cbn [app].
  change (uint32 (72 - 8)) with TSSK_KEY_LENGTH.
  assert (Hs : len (take 64 sig) = TSSK_KEY_LENGTH) by (unfold len, TSSK_KEY_LENGTH in *; rewrite length_take; lia).
  rewrite <- (take_drop 64 sig) at 1. rewrite <- Hs at 1. unfold crypto_rsa_public_decrypt.
  change TSSK_KEY_LENGTH with (len tssk_modulus) at 1.
  rewrite (bind_Done _ _ _ _ _ (rsa_public_run (take 64 sig) (drop 64 sig) tssk_modulus tssk_exponent
             tssk_privateExponent (replicate 64 0) s tssk_key (Forall_take _ _ _ Hb) ltac:(rewrite Hs; vm_compute; discriminate)
             ltac:(reflexivity) ltac:(vm_compute; discriminate))).
  reflexivity.
Qed.

(** What a server with a public key sends as its certificate. *)
Definition tbs_bytes (m e : list Z) : list Z :=
  le32 SIGNATURE_ALG_RSA ++ le32 KEY_EXCHANGE_ALG_RSA ++ le16 BB_RSA_KEY_BLOB ++ le16 (len m + 28) ++ public_key_bytes m e.
Definition server_cert_bytes (m e sig : list Z) : list Z :=
  le32 CERT_CHAIN_VERSION_1 ++ tbs_bytes m e ++ le16 BB_RSA_SIGNATURE_BLOB ++ le16 (len m + 8) ++ sig ++ zeros 8.

(** The reader takes over the key; only a signature of 72 bytes, which belongs
    to a key of 64 bytes, is read and its result does not matter. *)
Lemma proprietary_run c m e sig s : len e = 4 -> 0 < len m -> len m + 28 < 65536 -> is_bytes sig -> len sig = 64 ->
  holds s (tbs_bytes m e ++ le16 BB_RSA_SIGNATURE_BLOB ++ le16 (len m + 8) ++ sig ++ zeros 8) -> 4 <= s_p s ->
  exists ok s', certificate_read_server_proprietary_certificate c s = Done ((ok, set_info (mkCertInfo m e) c), s').
Proof.
  intros He Hm Hm' Hb Hl Hs Hp. unfold certificate_read_server_proprietary_certificate, tbs_bytes in *.
  rewrite <- !app_assoc in Hs. unfold bind at 1, get. cbv beta iota.
  do 2 read_step (Reads_le32 1 ltac:(lia)) Hs. cbn [Z.eqb SIGNATURE_ALG_RSA KEY_EXCHANGE_ALG_RSA Pos.eqb andb negb].
  read_step (Reads_le16 BB_RSA_KEY_BLOB ltac:(split; [discriminate|reflexivity])) Hs.
  cbn [Z.eqb BB_RSA_KEY_BLOB Pos.eqb negb].
  read_step (Reads_le16 (len m + 28) ltac:(lia)) Hs.
  read_step (Reads_public_key c m e He ltac:(lia)) Hs. cbn [negb].
  match goal with |- context [bind _ _ ?s] => set (s1 := s) in * end.
  assert (Hp1 : s_p s1 = s_p s + 12 + len (public_key_bytes m e)) by (unfold s1; cbn [s_p adv set_p]; unfold len; cbn; lia).
  assert (Hd1 : s_data s1 = s_data s) by reflexivity. clearbody s1.
  unfold bind at 1. cbv beta iota.
  read_step (Reads_le16 BB_RSA_SIGNATURE_BLOB ltac:(split; [discriminate|reflexivity])) Hs.
  cbn [Z.eqb BB_RSA_SIGNATURE_BLOB Pos.eqb negb].
  read_step (Reads_le16 (len m + 8) ltac:(lia)) Hs.
  destruct (Z.eqb_spec (len m + 8) 72) as [E72|]; cbn [negb]; [|do 2 eexists; reflexivity].
  pose proof (holds_len _ _ Hs) as Hlen. cbn [s_p s_data adv set_p] in Hlen. rewrite Hd1 in Hlen.
  rewrite Hd1. unfold mem at 1. rewrite bool_decide_true by (unfold stream_get_pos; len_pos; lia).
  destruct (Reads_signature (slice (s_p s - 4) (stream_get_pos s1 - (s_p s - 4)) (s_data s)) (sig ++ zeros 8))
    as (checks & Hsig).
  { apply Forall_app. split; [exact Hb|]. apply Forall_replicate. split; reflexivity || lia. }
  { rewrite len_app, Hl. reflexivity. }
  rewrite E72 in Hs |- *. rewrite <- (app_nil_r (sig ++ zeros 8)) in Hs.
  unfold bind at 1. cbv beta iota. read_step Hsig Hs. do 2 eexists. reflexivity.
Qed.

Lemma server_certificate_run {S} c m e sig rest (s : S) :
  len e = 4 -> 0 < len m -> len m + 28 < 65536 -> is_bytes sig -> len sig = 64 ->
  certificate_read_server_certificate c (server_cert_bytes m e sig ++ rest) (len (server_cert_bytes m e sig)) s
  = Done ((true, set_info (mkCertInfo m e) c), s).
Proof.
  intros He Hm Hm' Hb Hl. unfold certificate_read_server_certificate. set (bs := server_cert_bytes m e sig).
  assert (Hbs : 4 <= len bs) by (unfold bs, server_cert_bytes; lens; len_pos; unfold len at 1; cbn [length]; lia).
  rewrite (proj2 (Z.ltb_ge _ _)) by lia.
  assert (Hs : holds (mkSTREAM (len bs) 0 (bs ++ rest)) bs) by (apply holds_start; lia).
  assert (Hrun : exists s', read_server_certificate c (mkSTREAM (len bs) 0 (bs ++ rest))
                            = Done (set_info (mkCertInfo m e) c, s')).
  { unfold read_server_certificate. set (s0 := mkSTREAM _ _ _) in *. unfold bs, server_cert_bytes in Hs.
    read_step (Reads_le32 CERT_CHAIN_VERSION_1 ltac:(split; [discriminate|reflexivity])) Hs.
    change (Z.land CERT_CHAIN_VERSION_1 CERT_CHAIN_VERSION_MASK =? CERT_CHAIN_VERSION_1) with true. cbv iota.
    destruct (proprietary_run c m e sig _ He Hm Hm' Hb Hl Hs ltac:(change (4 <= 0 + 4); lia)) as (ok & s' & E).
    exists s'. rewrite (bind_Done _ _ _ _ _ E). reflexivity. }
  destruct Hrun as [s' E].
  rewrite (bind_Done _ _ _ _ _ (with_attached (read_server_certificate c) bs rest _ s' s _ eq_refl E)). reflexivity.
Qed.

End certificate_facts.

(** ** X.509 certificates *)

(** Lengths in the distinguished encoding, up to 65535. *)
Definition der_length (n : Z) : list Z :=
  if n <? 0x80 then [n] else if n <? 0x100 then [0x81; n] else 0x82 :: be16 n.

(** The identifier and length of an element. *)
Definition der_header (tag n : Z) : list Z := tag :: der_length n.
Definition der (tag : Z) (content : list Z) : list Z := der_header tag (len content) ++ content.

Lemma Reads_der_length n old : 0 <= n < 65536 -> Reads (ber_read_length old) (der_length n) (Some n).
Proof.
  intros Hn. unfold der_length. destruct (Z.ltb_spec n 0x80) as [H1|H1]; [|destruct (Z.ltb_spec n 0x100) as [H2|H2]].
  - pose proof (Reads_ber_length n old Hn) as E. unfold ber_length_bytes in E.
    rewrite (proj2 (Z.ltb_ge 0x7F n)), Z.mod_small in E by lia. exact E.
  - unfold ber_read_length. apply Reads_uint8_bind. repeat branch. apply Reads_uint8_bind, Reads_ret.
  - pose proof (Reads_ber_length n old Hn) as E. unfold ber_length_bytes in E.
    rewrite (proj2 (Z.ltb_lt 0x7F n)) in E by lia. exact E.
Qed.

Lemma Reads_der_sequence n old : 0 <= n < 65536 -> Reads (ber_read_sequence_tag old) (der_header 0x30 n) (true, Some n).
Proof.
  intros Hn. apply Reads_uint8_bind. repeat branch. eapply Reads_last; [apply Reads_der_length, Hn|apply Reads_ret].
Qed.

Lemma Reads_der_explicit n old : 0 <= n < 65536 ->
  Reads (ber_read_contextual_tag 0 old true) (der_header 0xA0 n) (true, Some n).
Proof.
  intros Hn. apply Reads_uint8_bind. repeat branch. eapply Reads_last; [apply Reads_der_length, Hn|apply Reads_ret].
Qed.

Lemma Reads_der_length_bind {A} n old (k : option Z -> M STREAM A) cs a :
  0 <= n < 65536 -> Reads (k (Some n)) cs a -> Reads (bind (ber_read_length old) k) (der_length n ++ cs) a.
Proof. intros Hn H. eapply Reads_bind; [apply Reads_der_length, Hn|exact H]. Qed.

Lemma Reads_der_small_integer v : Reads (ber_read_integer true None) (der 0x02 [v]) (true, Some v).
Proof.
  apply (Reads_universal_bind BER_TAG_INTEGER). apply (Reads_der_length_bind 1); [lia|]. apply Reads_use.
  cbn [negb Z.eqb Pos.eqb]. apply Reads_uint8_bind, Reads_ret.
Qed.

Lemma Reads_der_integer_skipped l : len l < 65536 -> Reads (ber_read_integer false None) (der 0x02 l) (true, None).
Proof.
  intros Hl. apply (Reads_universal_bind BER_TAG_INTEGER). apply Reads_der_length_bind; [split; [apply len_nonneg|exact Hl]|].
  apply Reads_use. eapply Reads_last; [apply Reads_seek; reflexivity|apply Reads_ret].
Qed.

Lemma Reads_der_bit_string n unused old : 0 <= n < 65536 ->
  Reads (ber_read_bit_string old) (der_header 0x03 n ++ [unused]) (true, Some n, unused).
Proof.
  intros Hn. apply (Reads_universal_bind BER_TAG_BIT_STRING). apply Reads_der_length_bind; [exact Hn|].
  apply Reads_uint8_bind, Reads_ret.
Qed.

Lemma Reads_der_integer_length n old : 0 <= n < 65536 ->
  Reads (ber_read_integer_length old) (der_header 0x02 n) (true, Some n).
Proof.
  intros Hn. apply (Reads_universal_bind BER_TAG_INTEGER).
  eapply Reads_last; [apply Reads_der_length, Hn|apply Reads_ret].
Qed.

Lemma Reads_skip_sequence l old : len l < 65536 -> Reads (skip_sequence old) (der 0x30 l) (Some (len l)).
Proof.
  intros Hl. eapply Reads_bind; [apply Reads_der_sequence; split; [apply len_nonneg|exact Hl]|].
  apply Reads_use. eapply Reads_last; [apply Reads_seek; reflexivity|apply Reads_ret].
Qed.

Lemma skip_zeros_run k b bs : b <> 0 -> forall fuel n s, (k < fuel)%nat -> holds s (replicate k 0 ++ b :: bs) ->
  skip_zeros fuel n s = Done (n - Z.of_nat k, adv (Z.of_nat k) s) /\ holds (adv (Z.of_nat k) s) (b :: bs).
Proof.
  intros Hb. induction k as [|k IH]; intros fuel n s Hf Hs; (destruct fuel as [|fuel]; [lia|]); cbn [skip_zeros].
  - unfold stream_peek_uint8. rewrite (bind_Done _ _ _ _ _ (holds_rbyte s _ 0 b Hs ltac:(lia) eq_refl)).
    rewrite (proj2 (Z.eqb_neq b 0) Hb), Z.sub_0_r, adv_0. auto.
  - unfold stream_peek_uint8. rewrite (bind_Done _ _ _ _ _ (holds_rbyte s _ 0 0 Hs ltac:(lia) eq_refl)). cbn [Z.eqb].
    unfold bind at 1, stream_seek. cbv iota beta. destruct (holds_app s [0] _ Hs) as [_ Hs1]. change (len [0]) with 1 in Hs1.
    destruct (IH fuel (n - 1) (adv 1 s) ltac:(lia) Hs1) as [E H1]. rewrite E. rewrite adv_adv in H1 |- *.
    replace (n - 1 - Z.of_nat k) with (n - Z.of_nat (S k)) by lia.
    replace (1 + Z.of_nat k) with (Z.of_nat (S k)) in * by lia. auto.
Qed.

(** The parts of a certificate. The modulus has [x_pad] leading zeros; what
    follows the key and the signature of the issuer are not looked at. *)
Record x509 : Type := mkX509 {
  x_version : Z;
  x_serial : list Z;
  x_algorithm : list Z;
  x_issuer : list Z;
  x_validity : list Z;
  x_subject : list Z;
  x_key_algorithm : list Z;
  x_unused : Z;
  x_pad : nat;
  x_modulus : list Z;
  x_exponent : list Z;
  x_extensions : list Z;
  x_signature : list Z;
}.

Definition x509_key (x : x509) : list Z :=
  der 0x30 (der 0x02 (replicate (x_pad x) 0 ++ x_modulus x) ++ der 0x02 (x_exponent x)).
Definition x509_tbs (x : x509) : list Z :=
  der 0xA0 (der 0x02 [x_version x]) ++ der 0x02 (x_serial x) ++ der 0x30 (x_algorithm x) ++ der 0x30 (x_issuer x) ++
  der 0x30 (x_validity x) ++ der 0x30 (x_subject x) ++
  der 0x30 (der 0x30 (x_key_algorithm x) ++ der 0x03 ([x_unused x] ++ x509_key x)) ++ x_extensions x.
Definition x509_content (x : x509) : list Z := der 0x30 (x509_tbs x) ++ x_signature x.
Definition x509_bytes (x : x509) : list Z := der 0x30 (x509_content x).

Record x509_ok (x : x509) : Prop := {
  x509_size : len (x509_content x) < 65536;
  x509_exponent : len (x_exponent x) <= 4;
  x509_modulus : hd 0 (x_modulus x) <> 0;
}.

Lemma der_grows tag l : len l < len (der tag l).
Proof. unfold der, der_header. lens. pose proof (len_nonneg (der_length (len l))). lia. Qed.

(** Make the sizes of all elements known. *)
Ltac der_sizes :=
  repeat match goal with
         | H : context [der ?t ?l] |- _ =>
             lazymatch goal with
             | _ : len l < len (der t l) |- _ => fail
             | _ => pose proof (der_grows t l)
             end
         end.

Lemma der_split tag l rest s : holds s (der tag l ++ rest) -> holds s (der_header tag (len l) ++ l ++ rest).
Proof. unfold der. rewrite <- app_assoc. auto. Qed.

Lemma rsa_key_run x old info s rest : len (x509_key x) < 65536 -> len (x_exponent x) <= 4 -> hd 0 (x_modulus x) <> 0 ->
  len (exponent info) = 4 -> holds s (x509_key x ++ rest) ->
  exists s', read_rsa_key old info s
    = Done (mkCertInfo (rev (x_modulus x)) (rev (take (4 - length (x_exponent x)) (exponent info) ++ x_exponent x)), s').
Proof.
  intros Hsz He Hm Hi Hs. unfold x509_key in *. der_sizes. rewrite ?len_app, ?len_replicate in *.
  destruct (x_modulus x) as [|b m] eqn:Em; [contradiction Hm; reflexivity|]. cbn [hd] in Hm.
  unfold read_rsa_key. unfold der at 1 in Hs. rewrite <- !app_assoc in Hs.
  read_on (Reads_der_sequence (len (der 0x02 (replicate (x_pad x) 0 ++ b :: m) ++ der 0x02 (x_exponent x))) old
               ltac:(rewrite len_app; len_pos; lia)) Hs.
  unfold der at 1 in Hs. rewrite <- !app_assoc in Hs.
  read_on (Reads_der_integer_length (len (replicate (x_pad x) 0 ++ b :: m)) None
               ltac:(rewrite len_app, len_replicate; len_pos; lia)) Hs.
  unfold use. rewrite bind_ret. unfold bind at 1, get. cbv iota beta.
  match type of Hs with holds ?s _ => rename s into s1 end.
  pose proof (holds_len _ _ Hs) as Hlen. pose proof (holds_p _ _ Hs) as Hp. rewrite len_app, len_replicate in Hlen.
  destruct (skip_zeros_run (x_pad x) b (m ++ der 0x02 (x_exponent x) ++ rest) Hm (S (length (s_data s1)))
              (len (replicate (x_pad x) 0 ++ b :: m)) s1 ltac:(len_pos; unfold len in *; lia) Hs) as [E Hs1].
  rewrite (bind_Done _ _ _ _ _ E). rewrite len_app, len_replicate. clear E Hs.
  replace (Z.of_nat (x_pad x) + len (b :: m) - Z.of_nat (x_pad x)) with (len (b :: m)) by lia.
  change (b :: m ++ ?r) with ((b :: m) ++ r) in Hs1.
  read_on (Reads_read (b :: m) _ eq_refl) Hs1.
  unfold der at 1 in Hs1. rewrite <- !app_assoc in Hs1.
  read_on (Reads_der_integer_length (len (x_exponent x)) None ltac:(len_pos; lia)) Hs1.
  rewrite bind_ret. read_on (Reads_read (x_exponent x) _ eq_refl) Hs1.
  assert (Hx : (length (x_exponent x) <= 4)%nat) by (unfold len in He; lia).
  assert (Hi4 : length (exponent info) = 4%nat) by (unfold len in Hi; lia).
  match type of Hs1 with holds ?s _ => exists s end.
  set (old_e := take (4 - length (x_exponent x)) (exponent info)).
  rewrite <- (take_drop (4 - length (x_exponent x)) (exponent info)) at 1. fold old_e.
  assert (Lo : 4 - len (x_exponent x) = len old_e) by (unfold old_e, len; rewrite length_take; lia).
  rewrite (bind_Done _ _ _ _ _ (mem_put_end old_e (x_exponent x) (drop (4 - length (x_exponent x)) (exponent info)) _ _ Lo
             ltac:(rewrite length_drop; lia))).
  rewrite (bind_Done _ _ _ _ _ (crypto_reverse_all (b :: m) _ _ eq_refl)).
  rewrite (bind_Done _ _ _ _ _ (crypto_reverse_all (old_e ++ x_exponent x) 4 _ ltac:(rewrite len_app; lia))). reflexivity.
Qed.

(** The public key of an X.509 certificate, whatever the other parts of the
    certificate are: the modulus without its leading zeros and the exponent in
    four bytes, both in little-endian order. *)
Definition x509_info (x : x509) (info : rdpCertInfo) : rdpCertInfo :=
  mkCertInfo (rev (x_modulus x)) (rev (take (4 - length (x_exponent x)) (exponent info) ++ x_exponent x)).

Lemma x509_run {S} x info (s : S) : x509_ok x -> len (exponent info) = 4 ->
  certificate_read_x509_certificate (x509_bytes x) info s = Done (x509_info x info, s).
Proof.
  intros [Hsz He Hm] Hi. unfold certificate_read_x509_certificate.
  assert (Hs : holds (mkSTREAM (len (x509_bytes x)) 0 (x509_bytes x ++ [])) (x509_bytes x)) by (apply holds_start; lia).
  enough (exists s', read_x509 info (mkSTREAM (len (x509_bytes x)) 0 (x509_bytes x ++ [])) = Done (mkCertInfo
            (rev (x_modulus x)) (rev (take (4 - length (x_exponent x)) (exponent info) ++ x_exponent x)), s')) as [s' E].
  { rewrite <- (app_nil_r (x509_bytes x)) at 1.
    rewrite (bind_Done _ _ _ _ _ (with_attached (read_x509 info) (x509_bytes x) [] _ s' s _ eq_refl E)). reflexivity. }
  set (s0 := mkSTREAM _ _ _) in *. clearbody s0.
  unfold x509_bytes, x509_content, x509_tbs in *. rewrite <- (app_nil_r (der 0x30 _)) in Hs. der_sizes.
  rewrite ?len_app in *. len_pos. unfold read_x509.
  apply der_split in Hs. read_by ltac:(apply Reads_der_sequence; rewrite ?len_app; lia) Hs. rewrite <- !app_assoc in Hs.
  apply der_split in Hs. read_by ltac:(apply Reads_der_sequence; rewrite ?len_app; lia) Hs. rewrite <- !app_assoc in Hs.
  apply der_split in Hs. read_by ltac:(apply Reads_der_explicit; lia) Hs.
  read_by ltac:(apply Reads_der_small_integer) Hs. unfold use. rewrite bind_ret.
  read_by ltac:(apply Reads_der_integer_skipped; lia) Hs.
  do 4 read_by ltac:(apply Reads_skip_sequence; lia) Hs.
  apply der_split in Hs. read_by ltac:(apply Reads_der_sequence; rewrite ?len_app; lia) Hs. rewrite <- !app_assoc in Hs.
  read_by ltac:(apply Reads_skip_sequence; lia) Hs.
  apply der_split in Hs. rewrite <- app_assoc, (app_assoc _ [_]) in Hs.
  read_by ltac:(apply Reads_der_bit_string; rewrite len_app; lia) Hs.
  eapply rsa_key_run; eauto. lia.
Qed.

(** ** The chain of X.509 certificates *)

Definition cert_blob (d : list Z) : list Z := le32 (len d) ++ d.
Definition chain_bytes (certs : list (list Z)) : list Z :=
  le32 CERT_CHAIN_VERSION_2 ++ le32 (len certs) ++ concat (map cert_blob certs).

(** The certificate of the server alone, or behind those of its issuers, of which
    the last one is the license server's. *)
Definition server_chain (issuers : option (list (list Z) * x509)) (x : x509) : list (list Z) :=
  match issuers with
  | Some (others, y) => others ++ [x509_bytes y; x509_bytes x]
  | None => [x509_bytes x]
  end.

Record chain_ok (issuers : option (list (list Z) * x509)) (x : x509) : Prop := {
  chain_server : x509_ok x;
  chain_license : forall others y, issuers = Some (others, y) -> x509_ok y;
  chain_others : forall others y, issuers = Some (others, y) -> Forall (fun d => len d < 2 ^ 32) others;
  chain_count : len (server_chain issuers x) < 2 ^ 31;
}.

Lemma len_x509_bytes x : x509_ok x -> len (x509_bytes x) < 2 ^ 32.
Proof.
  intros [Hs _ _]. unfold x509_bytes, der, der_header, der_length. rewrite len_app.
  change (len (0x30 :: ?l)) with (len (0x30 :: l)). unfold len at 1.
  destruct (_ <? 0x80); [|destruct (_ <? 0x100)]; cbn [length be16]; lia.
Qed.

(** A certificate that is read from the bytes of an element takes nothing of the
    stream it came from. *)
Lemma Reads_x509 x info : x509_ok x -> len (exponent info) = 4 ->
  Reads (certificate_read_x509_certificate (x509_bytes x) info) [] (x509_info x info).
Proof. intros Hx Hi s _. rewrite x509_run by assumption. rewrite len_nil, adv_0. reflexivity. Qed.

Lemma Reads_bind_nil {A B} (r : M STREAM A) (k : A -> M STREAM B) cs a b : Reads r [] a -> Reads (k a) cs b -> Reads (bind r k) cs b.
Proof. exact (Reads_bind r k [] cs a b). Qed.

(** One round of the loop. *)
Lemma Reads_chain_round fuel i n d c bs v : 0 <= i < n -> n < 2 ^ 31 -> len d < 2 ^ 32 ->
  Reads (let c' := set_chain (option_map (fun l => l ++ [d]) (x509_cert_chain c)) c in
         if n - i =? 2 then certificate_read_x509_certificate d no_info;; chain_loop fuel (i + 1) n c'
         else if n - i =? 1 then
           let! info := certificate_read_x509_certificate d (cert_info c') in chain_loop fuel (i + 1) n (set_info info c')
         else chain_loop fuel (i + 1) n c') bs v ->
  Reads (chain_loop (S fuel) i n c) (cert_blob d ++ bs) v.
Proof.
  intros Hi Hn Hd Hr. unfold cert_blob. rewrite <- app_assoc. pose proof (len_nonneg d). cbn [chain_loop].
  replace (sint32 n) with n by (unfold sint32; rewrite Z.mod_small; lia). rewrite (proj2 (Z.ltb_lt i n)) by lia.
  eapply Reads_bind; [apply Reads_le32; lia|]. eapply Reads_bind; [apply Reads_read; reflexivity|].
  unfold uint32. rewrite Z.mod_small by lia. exact Hr.
Qed.

Lemma Reads_chain_end fuel n c : n < 2 ^ 31 -> 0 <= n -> Reads (chain_loop fuel n n c) [] c.
Proof.
  intros Hn H0. destruct fuel; cbn [chain_loop]; replace (sint32 n) with n by (unfold sint32; rewrite Z.mod_small; lia);
    rewrite Z.ltb_irrefl; apply Reads_ret.
Qed.

Lemma Reads_chain_last fuel n c l x : 1 <= n < 2 ^ 31 -> x509_cert_chain c = Some l -> x509_ok x -> len (exponent (cert_info c)) = 4 ->
  Reads (chain_loop (S fuel) (n - 1) n c) (cert_blob (x509_bytes x))
    (set_info (x509_info x (cert_info c)) (set_chain (Some (l ++ [x509_bytes x])) c)).
Proof.
  intros Hn Hl Hx He. rewrite <- (app_nil_r (cert_blob _)).
  apply Reads_chain_round; [lia|lia|apply len_x509_bytes, Hx|]. cbv zeta. rewrite Hl.
  replace (n - (n - 1)) with 1 by lia. cbn [Z.eqb Pos.eqb option_map].
  eapply Reads_bind_nil; [apply Reads_x509; assumption|]. replace (n - 1 + 1) with n by lia. apply Reads_chain_end; lia.
Qed.

Lemma Reads_chain others y x : forall fuel i n c l, (2 + length others <= fuel)%nat -> 0 <= i -> n = i + len others + 2 -> n < 2 ^ 31 ->
  Forall (fun d => len d < 2 ^ 32) others -> x509_ok y -> x509_ok x -> x509_cert_chain c = Some l -> len (exponent (cert_info c)) = 4 ->
  let certs := others ++ [x509_bytes y; x509_bytes x] in
  Reads (chain_loop fuel i n c) (concat (map cert_blob certs)) (set_info (x509_info x (cert_info c)) (set_chain (Some (l ++ certs)) c)).
Proof.
  induction others as [|d others IH]; intros fuel i n c l Hf Hi Hn Hlt Ho Hy Hx Hl He; cbn [app map concat length] in *;
    (destruct fuel as [|fuel]; [lia|]).
  - destruct fuel as [|fuel]; [lia|]. change (len (@nil (list Z))) with 0 in Hn.
    apply Reads_chain_round; [lia|exact Hlt|apply len_x509_bytes, Hy|]. cbv zeta. replace (n - i) with 2 by lia. cbn [Z.eqb Pos.eqb].
    eapply Reads_bind_nil; [apply Reads_x509; [exact Hy|reflexivity]|]. rewrite app_nil_r, Hl. cbn [option_map].
    replace (i + 1) with (n - 1) by lia.
    replace (l ++ [x509_bytes y; x509_bytes x]) with ((l ++ [x509_bytes y]) ++ [x509_bytes x]) by (rewrite <- app_assoc; reflexivity).
    exact (Reads_chain_last fuel n (set_chain (Some (l ++ [x509_bytes y])) c) (l ++ [x509_bytes y]) x ltac:(lia) eq_refl Hx He).
  - apply Forall_cons_1 in Ho as [Hd Ho]. change (len (d :: others)) with (Z.of_nat (S (length others))) in Hn.
    apply Reads_chain_round; [lia|exact Hlt|exact Hd|]. cbv zeta.
    rewrite (proj2 (Z.eqb_neq _ _)), (proj2 (Z.eqb_neq _ _)) by lia. rewrite Hl. cbn [option_map].
    replace (l ++ d :: others ++ [x509_bytes y; x509_bytes x]) with ((l ++ [d]) ++ others ++ [x509_bytes y; x509_bytes x])
      by (rewrite <- app_assoc; reflexivity).
    apply (IH fuel (i + 1) n (set_chain (Some (l ++ [d])) c)); auto; unfold len; lia.
Qed.

Lemma Reads_server_chain c issuers x fuel : chain_ok issuers x -> len (exponent (cert_info c)) = 4 ->
  (length (server_chain issuers x) <= fuel)%nat -> x509_cert_chain c = Some [] ->
  Reads (chain_loop fuel 0 (len (server_chain issuers x)) c) (concat (map cert_blob (server_chain issuers x)))
    (set_info (x509_info x (cert_info c)) (set_chain (Some (server_chain issuers x)) c)).
Proof.
  intros [Hx Hy Ho Hc] He Hf Hl. destruct issuers as [[others y]|]; cbn [server_chain] in *.
  - rewrite length_app in Hf. cbn [length] in Hf. rewrite len_app in *. change (len [x509_bytes y; x509_bytes x]) with 2 in *.
    apply (Reads_chain others y x fuel 0 (len others + 2) c []); eauto; lia.
  - cbn [map concat length] in *. rewrite app_nil_r. destruct fuel as [|fuel]; [lia|]. change (len [x509_bytes x]) with 1.
    apply (Reads_chain_last fuel 1 c [] x); auto; lia.
Qed.

Lemma len_chain_blobs certs : len certs <= len (concat (map cert_blob certs)).
Proof.
  induction certs as [|d certs IH]; [reflexivity|]. cbn [map concat]. unfold cert_blob at 1. rewrite !len_app.
  change (len (le32 _)) with 4. change (len (d :: certs)) with (Z.of_nat (S (length certs))). pose proof (len_nonneg d). unfold len in *. lia.
Qed.

(** C34. The key of the server out of an X.509 chain of any number of DER-encoded
    certificates in front of the server's, of which only the license server's
    must be readable: [certificate_read_server_certificate] keeps the chain, and
    takes the modulus without leading zeros and the exponent in four bytes, both
    in little-endian order, out of the last certificate, whatever its other
    parts are. *)
Theorem x509_key_extracted {S} `{Crypto} `{Bignum} issuers x c rest (s : S) : chain_ok issuers x -> len (exponent (cert_info c)) = 4 ->
  let certs := server_chain issuers x in
  certificate_read_server_certificate c (chain_bytes certs ++ rest) (len (chain_bytes certs)) s
  = Done ((true, set_info (x509_info x (cert_info c)) (set_chain (Some certs) c)), s).
Proof.
  intros Hok He certs. unfold certificate_read_server_certificate. set (bs := chain_bytes certs).
  pose proof (len_nonneg certs). pose proof (chain_count _ _ Hok). pose proof (len_chain_blobs certs).
  assert (Hbs : len bs = 8 + len (concat (map cert_blob certs))) 
    by (unfold bs, chain_bytes; rewrite !len_app; change (len (le32 _)) with 4; lia).
  rewrite (proj2 (Z.ltb_ge _ _)) by lia.
  assert (Hs : holds (mkSTREAM (len bs) 0 (bs ++ rest)) bs) by (apply holds_start; lia).
  assert (Hrun : exists s', read_server_certificate c (mkSTREAM (len bs) 0 (bs ++ rest))
                            = Done (set_info (x509_info x (cert_info c)) (set_chain (Some certs) c), s')).
  { unfold read_server_certificate. set (s0 := mkSTREAM _ _ _) in *. unfold bs, chain_bytes in Hs.
    read_step (Reads_le32 CERT_CHAIN_VERSION_2 ltac:(split; [discriminate|reflexivity])) Hs.
    change (Z.land CERT_CHAIN_VERSION_2 CERT_CHAIN_VERSION_MASK =? CERT_CHAIN_VERSION_1) with false.
    change (Z.land CERT_CHAIN_VERSION_2 CERT_CHAIN_VERSION_MASK =? CERT_CHAIN_VERSION_2) with true. cbv iota.
    unfold certificate_read_server_x509_certificate_chain. rewrite !bind_assoc.
    read_step (Reads_le32 (len certs) ltac:(unfold certs in *; lia)) Hs.
    pose proof (Reads_server_chain (set_chain (Some []) c) issuers x (Datatypes.S (length (bs ++ rest))) Hok He
                  ltac:(rewrite length_app; unfold len in *; fold certs; lia) eq_refl _ Hs) as E.
    fold certs in E. unfold bind, get. cbv beta iota. change (s_data (adv _ (adv _ s0))) with (bs ++ rest). rewrite E.
    eexists. reflexivity. }
  destruct Hrun as [s' E].
  rewrite (bind_Done _ _ _ _ _ (with_attached (read_server_certificate c) bs rest _ s' s _ eq_refl E)). reflexivity.
Qed.

Definition x509_sample : x509 :=
  mkX509 2 [0x0B; 0xAD] [6; 1; 42] [] [1] [2; 3] [5; 0] 0 1 [0xC3; 0x55; 0x01; 0x77] [1; 0; 1] [0xA3; 0] [9; 9; 9].
Definition x509_issuer : x509 := mkX509 2 [7] [6; 1; 42] [] [1] [2; 3] [5; 0] 0 0 [0x81; 0x33] [3] [] [9].
Definition sample_certs : list (list Z) := [ [0x30; 0]; x509_bytes x509_issuer; x509_bytes x509_sample].

Lemma x509_key_extracted_witness :
  certificate_read_server_certificate (H := ToyCrypto) (H0 := ZBignum) certificate_new (chain_bytes sample_certs ++ [1; 2]) (len (chain_bytes sample_certs)) tt
  = Done ((true, mkCertificate (mkCertInfo [0x77; 0x01; 0x55; 0xC3] [1; 0; 1; 0]) (Some sample_certs)), tt).
Proof.
  refine (x509_key_extracted (Some ([ [0x30; 0] ], x509_issuer)) x509_sample certificate_new [1; 2] tt _ eq_refl). split.
  - split; [reflexivity|vm_compute; discriminate|discriminate].
  - intros others y [= <- <-]. split; [reflexivity|vm_compute; discriminate|discriminate].
  - intros others y [= <- <-]. apply Forall_cons_2; [reflexivity|apply Forall_nil_2].
  - reflexivity.
Defined.

(** The result of reading a certificate is true also when nothing in it can be
    used: here its version is unknown, and the key of the server stays empty. *)
Example unreadable_certificate_accepted `{Crypto} `{Bignum} :
  certificate_read_server_certificate certificate_new [3; 0; 0; 0] 4 tt = Done ((true, certificate_new), tt).
Proof. reflexivity. Qed.
