(* ===== verification/Input.v ===== *)
(** Input events, [libfreerdp-core/input.c]: the slow-path encoding of keyboard
    and mouse events by the client and their delivery to the server's
    callbacks. *)

From S2P Require Import Prelude.
From S2P Require Import Stream.

(** ** Data *)

Definition INPUT_EVENT_SYNC : Z := 0x0000.
Definition INPUT_EVENT_SCANCODE : Z := 0x0004.
Definition INPUT_EVENT_UNICODE : Z := 0x0005.
Definition INPUT_EVENT_MOUSE : Z := 0x8001.
Definition INPUT_EVENT_MOUSEX : Z := 0x8002.

Definition KBD_FLAGS_EXTENDED : Z := 0x0100.
Definition KBD_FLAGS_DOWN : Z := 0x4000.
Definition KBD_FLAGS_RELEASE : Z := 0x8000.

(** The calls of the callbacks in [struct rdp_input]. *)
Inductive input_event : Type :=
| SynchronizeEvent (flags : Z)
| KeyboardEvent (flags code : Z)
| UnicodeKeyboardEvent (flags code : Z)
| MouseEvent (flags x y : Z)
| ExtendedMouseEvent (flags x y : Z).

#[global] Instance input_event_eq_dec : EqDecision input_event.
Proof. solve_decision. Defined.

(** ** Client *)

Definition rdp_write_client_input_pdu_header (number : Z) : M STREAM unit :=
  stream_write_uint16 1;;
  stream_write_uint16 0.

Definition rdp_write_input_event_header (time type : Z) : M STREAM unit :=
  stream_write_uint32 time;;
  stream_write_uint16 type.

Definition input_write_synchronize_event (flags : Z) : M STREAM unit :=
  stream_write_uint16 0;;
  stream_write_uint32 flags.

Definition input_write_keyboard_event (flags code : Z) : M STREAM unit :=
  stream_write_uint16 flags;;
  stream_write_uint16 code;;
  stream_write_uint16 0.

Definition input_write_unicode_keyboard_event (flags code : Z) : M STREAM unit :=
  stream_write_uint16 flags;;
  stream_write_uint16 code;;
  stream_write_uint16 0.

Definition input_write_mouse_event (flags x y : Z) : M STREAM unit :=
  let x := Z.max x 0 in
  let y := Z.max y 0 in
  stream_write_uint16 flags;;
  stream_write_uint16 x;;
  stream_write_uint16 y.

Definition input_write_extended_mouse_event (flags x y : Z) : M STREAM unit :=
  let x := Z.max x 0 in
  let y := Z.max y 0 in
  stream_write_uint16 flags;;
  stream_write_uint16 x;;
  stream_write_uint16 y.

(** What [rdp_client_input_pdu_init] writes behind the share data header. *)
Definition client_input_head (type : Z) : M STREAM unit :=
  rdp_write_client_input_pdu_header 1;;
  rdp_write_input_event_header 0 type.

(** The contents of the PDUs of the five slow-path senders, which put them into
    a share data PDU (file [Rdp]). *)
Definition synchronize_event_pdu (flags : Z) : M STREAM unit :=
  client_input_head INPUT_EVENT_SYNC;;
  input_write_synchronize_event flags.
Definition keyboard_event_pdu (flags code : Z) : M STREAM unit :=
  client_input_head INPUT_EVENT_SCANCODE;;
  input_write_keyboard_event flags code.
(** The source computes [keyboardFlags] and then writes [flags]. *)
Definition unicode_keyboard_event_pdu (flags code : Z) : M STREAM unit :=
  client_input_head INPUT_EVENT_UNICODE;;
  input_write_unicode_keyboard_event flags code.
Definition mouse_event_pdu (flags x y : Z) : M STREAM unit :=
  client_input_head INPUT_EVENT_MOUSE;;
  input_write_mouse_event flags x y.
Definition extended_mouse_event_pdu (flags x y : Z) : M STREAM unit :=
  client_input_head INPUT_EVENT_MOUSEX;;
  input_write_extended_mouse_event flags x y.

(** The contents by event. *)
Definition input_pdu (e : input_event) : M STREAM unit :=
  match e with
  | SynchronizeEvent flags => synchronize_event_pdu flags
  | KeyboardEvent flags code => keyboard_event_pdu flags code
  | UnicodeKeyboardEvent flags code => unicode_keyboard_event_pdu flags code
  | MouseEvent flags x y => mouse_event_pdu flags x y
  | ExtendedMouseEvent flags x y => extended_mouse_event_pdu flags x y
  end.

(** ** Server

    The readers return the result and the callbacks made, in order. *)

Definition input_recv_sync_event : M STREAM (bool * list input_event) :=
  let! avail := left_bytes in
  if avail <? 6 then ret (false, []) else
  stream_seek 2;;
  let! toggleFlags := stream_read_uint32 in
  ret (true, [SynchronizeEvent toggleFlags]).

Definition input_recv_keyboard_event : M STREAM (bool * list input_event) :=
  let! avail := left_bytes in
  if avail <? 6 then ret (false, []) else
  let! keyboardFlags := stream_read_uint16 in
  let! keyCode := stream_read_uint16 in
  stream_seek 2;;
  ret (true, [KeyboardEvent keyboardFlags keyCode]).

Definition input_recv_unicode_keyboard_event : M STREAM (bool * list input_event) :=
  let! avail := left_bytes in
  if avail <? 6 then ret (false, []) else
  let! keyboardFlags := stream_read_uint16 in
  let! unicodeCode := stream_read_uint16 in
  stream_seek 2;;
  let keyboardFlags := if Z.land keyboardFlags KBD_FLAGS_RELEASE =? 0
                       then Z.lor keyboardFlags KBD_FLAGS_DOWN else keyboardFlags in
  ret (true, [UnicodeKeyboardEvent keyboardFlags unicodeCode]).

Definition input_recv_mouse_event : M STREAM (bool * list input_event) :=
  let! avail := left_bytes in
  if avail <? 6 then ret (false, []) else
  let! pointerFlags := stream_read_uint16 in
  let! xPos := stream_read_uint16 in
  let! yPos := stream_read_uint16 in
  ret (true, [MouseEvent pointerFlags xPos yPos]).

Definition input_recv_extended_mouse_event : M STREAM (bool * list input_event) :=
  let! avail := left_bytes in
  if avail <? 6 then ret (false, []) else
  let! pointerFlags := stream_read_uint16 in
  let! xPos := stream_read_uint16 in
  let! yPos := stream_read_uint16 in
  ret (true, [ExtendedMouseEvent pointerFlags xPos yPos]).

Definition input_recv_event : M STREAM (bool * list input_event) :=
  let! avail := left_bytes in
  if avail <? 4 then ret (false, []) else
  stream_seek 4;;
  let! messageType := stream_read_uint16 in
  if messageType =? INPUT_EVENT_SYNC then input_recv_sync_event
  else if messageType =? INPUT_EVENT_SCANCODE then input_recv_keyboard_event
  else if messageType =? INPUT_EVENT_UNICODE then input_recv_unicode_keyboard_event
  else if messageType =? INPUT_EVENT_MOUSE then input_recv_mouse_event
  else if messageType =? INPUT_EVENT_MOUSEX then input_recv_extended_mouse_event
  else stream_seek 6;; ret (true, []).

(** Receive [n] events with the given reader, stopping at the first refusal. *)
Fixpoint recv_events (recv : M STREAM (bool * list input_event)) (n : nat)
  : M STREAM (bool * list input_event) :=
  match n with
  | O => ret (true, [])
  | S n' =>
      let! (ok, calls) := recv in
      if negb ok then ret (false, calls) else
      let! (ok, more) := recv_events recv n' in
      ret (ok, calls ++ more)
  end.

Definition input_recv : M STREAM (bool * list input_event) :=
  let! avail := left_bytes in
  if avail <? 4 then ret (false, []) else
  let! numberEvents := stream_read_uint16 in
  stream_seek 2;;
  let! avail := left_bytes in
  if avail <? 6 * numberEvents then ret (false, []) else
  recv_events input_recv_event (Z.to_nat numberEvents).

(** ** Encodings *)

Definition event_code (e : input_event) : Z :=
  match e with
  | SynchronizeEvent _ => INPUT_EVENT_SYNC
  | KeyboardEvent _ _ => INPUT_EVENT_SCANCODE
  | UnicodeKeyboardEvent _ _ => INPUT_EVENT_UNICODE
  | MouseEvent _ _ _ => INPUT_EVENT_MOUSE
  | ExtendedMouseEvent _ _ _ => INPUT_EVENT_MOUSEX
  end.

Definition event_body (e : input_event) : list Z :=
  match e with
  | SynchronizeEvent flags => le16 0 ++ le32 flags
  | KeyboardEvent flags code | UnicodeKeyboardEvent flags code => le16 flags ++ le16 code ++ le16 0
  | MouseEvent flags x y | ExtendedMouseEvent flags x y =>
      le16 flags ++ le16 (Z.max x 0) ++ le16 (Z.max y 0)
  end.

Definition event_bytes (e : input_event) : list Z := le32 0 ++ le16 (event_code e) ++ event_body e.
Definition input_bytes (es : list input_event) : list Z :=
  le16 (len es) ++ le16 0 ++ concat (map event_bytes es).

(** The event the server's callbacks see. *)
Definition delivered (e : input_event) : input_event :=
  match e with
  | UnicodeKeyboardEvent flags code =>
      UnicodeKeyboardEvent (if Z.land flags KBD_FLAGS_RELEASE =? 0
                            then Z.lor flags KBD_FLAGS_DOWN else flags) code
  | MouseEvent flags x y => MouseEvent flags (Z.max x 0) (Z.max y 0)
  | ExtendedMouseEvent flags x y => ExtendedMouseEvent flags (Z.max x 0) (Z.max y 0)
  | e => e
  end.

(** The arguments are of the types of the callbacks. *)
Definition valid_event (e : input_event) : Prop :=
  match e with
  | SynchronizeEvent flags => 0 <= flags < 2 ^ 32
  | KeyboardEvent flags code | UnicodeKeyboardEvent flags code =>
      0 <= flags < 65536 /\ 0 <= code < 65536
  | MouseEvent flags x y | ExtendedMouseEvent flags x y =>
      0 <= flags < 65536 /\ - 2 ^ 15 <= x < 2 ^ 15 /\ - 2 ^ 15 <= y < 2 ^ 15
  end.

Lemma Writes_mouse_event flags x y :
  Writes (input_write_mouse_event flags x y)
    (le16 flags ++ le16 (Z.max x 0) ++ le16 (Z.max y 0)) tt.
Proof. writes; reflexivity. Qed.
Lemma Writes_extended_mouse_event flags x y :
  Writes (input_write_extended_mouse_event flags x y)
    (le16 flags ++ le16 (Z.max x 0) ++ le16 (Z.max y 0)) tt.
Proof. writes; reflexivity. Qed.

Lemma Writes_client_input_pdu_header n :
  Writes (rdp_write_client_input_pdu_header n) (le16 1 ++ le16 0) tt.
Proof. writes; reflexivity. Qed.
Lemma Writes_input_event_header time type :
  Writes (rdp_write_input_event_header time type) (le32 time ++ le16 type) tt.
Proof. writes; reflexivity. Qed.
#[export] Hint Resolve Writes_client_input_pdu_header Writes_input_event_header
  Writes_mouse_event Writes_extended_mouse_event : writes.

Lemma Writes_input_pdu e : Writes (input_pdu e) (input_bytes [e]) tt.
Proof.
  assert (Hi : Writes (client_input_head (event_code e))
                 (le16 1 ++ le16 0 ++ le32 0 ++ le16 (event_code e)) tt) by (writes; reflexivity).
  unfold input_bytes. change (len [e]) with 1. cbn [map concat]. rewrite app_nil_r.
  unfold event_bytes. destruct e;
    (eapply Writes_eq; [eapply Writes_bind; [exact Hi|] | |reflexivity]);
    [writes; reflexivity| |writes; reflexivity| |writes; reflexivity| |apply Writes_mouse_event|
    |apply Writes_extended_mouse_event| ]; cbn [event_code event_body]; rewrite <- !app_assoc; reflexivity.
Qed.

Lemma Reads_event e : valid_event e -> Reads input_recv_event (event_bytes e) (true, [delivered e]).
Proof.
  intros Hv. apply Reads_left; [destruct e; lens_lia|]. unfold event_bytes.
  eapply Reads_bind; [apply Reads_seek; reflexivity|].
  assert (Hc : 0 <= event_code e < 65536) by (destruct e; lens_lia).
  eapply Reads_bind; [apply Reads_le16, Hc|].
  destruct e; cbn in Hv; cbn [event_code event_body delivered]; repeat branch;
    (apply Reads_left; [lens_lia|]).
  - eapply Reads_bind; [apply Reads_seek; reflexivity|].
    eapply Reads_last; [apply Reads_le32; exact Hv|apply Reads_ret].
  - do 2 (eapply Reads_bind; [apply Reads_le16; lia|]).
    eapply Reads_last; [apply Reads_seek; reflexivity|apply Reads_ret].
  - do 2 (eapply Reads_bind; [apply Reads_le16; lia|]).
    eapply Reads_last; [apply Reads_seek; reflexivity|apply Reads_ret].
  - do 2 (eapply Reads_bind; [apply Reads_le16; lia|]).
    eapply Reads_last; [apply Reads_le16; lia|apply Reads_ret].
  - do 2 (eapply Reads_bind; [apply Reads_le16; lia|]).
    eapply Reads_last; [apply Reads_le16; lia|apply Reads_ret].
Qed.

Lemma Reads_events recv (enc : input_event -> list Z) (out : input_event -> input_event)
    (es : list input_event) :
  (forall e, e ∈ es -> Reads recv (enc e) (true, [out e])) ->
  Reads (recv_events recv (length es)) (concat (map enc es)) (true, map out es).
Proof.
  induction es as [|e es IH]; intros Hall; cbn [length recv_events map concat]; [apply Reads_ret|].
  eapply Reads_bind; [apply Hall; left|]. cbn [negb].
  eapply Reads_last; [apply IH; intros e' He'; apply Hall; right; exact He'|]. apply Reads_ret.
Qed.

Lemma len_event_bytes e : len (event_bytes e) = 12.
Proof. destruct e; reflexivity. Qed.

Lemma len_events es : len (concat (map event_bytes es)) = 12 * len es.
Proof.
  induction es as [|e es IH]; [reflexivity|]. cbn [map concat].
  rewrite len_app, len_event_bytes, IH, len_cons. lia.
Qed.

Lemma Reads_input es : Forall valid_event es -> len es < 65536 ->
  Reads input_recv (input_bytes es) (true, map delivered es).
Proof.
  intros Hv Hl. pose proof (len_nonneg es). unfold input_recv, input_bytes.
  apply Reads_left; [rewrite !len_app, len_events; change (len (le16 _)) with 2; lia|].
  eapply Reads_bind; [apply Reads_le16; lia|].
  eapply Reads_bind; [apply Reads_seek; reflexivity|].
  apply Reads_left; [rewrite len_events; lia|].
  unfold len. rewrite Nat2Z.id. apply Reads_events.
  intros e He. apply Reads_event. rewrite Forall_forall in Hv. apply Hv, He.
Qed.

(** ** Claims *)

(** Every slow-path input event a client sends is delivered to the server's
    callback once, with negative coordinates raised to 0 and a Unicode key press
    marked as such, and the PDU is consumed exactly. *)
Theorem input_roundtrip e s :
  valid_event e -> room s 16 -> s_p s + 16 <= s_size s ->
  write_then_read (input_pdu e) input_recv s = Done ((true, [delivered e]), put (input_bytes [e]) s).
Proof.
  intros Hv Hroom Hsize. assert (Hl : len (input_bytes [e]) = 16) by (destruct e; reflexivity).
  eapply writes_reads; [apply Writes_input_pdu| |rewrite Hl; exact Hroom|rewrite Hl; exact Hsize].
  apply (Reads_input [e]); [repeat constructor; exact Hv|lens_lia].
Qed.

Lemma input_roundtrip_witness :
  write_then_read (input_pdu (MouseEvent 0x1000 (-3) 40)) input_recv (stream_new 64)
  = Done ((true, [MouseEvent 0x1000 0 40]), put (input_bytes [MouseEvent 0x1000 (-3) 40]) (stream_new 64)).
Proof.
  apply (input_roundtrip (MouseEvent 0x1000 (-3) 40) (stream_new 64)).
  - cbn. lia.
  - split; vm_compute; discriminate.
  - vm_compute. discriminate.
Defined.

(** A PDU with several events delivers them all, in order. *)
Theorem input_recv_in_order es s :
  Forall valid_event es -> len es < 65536 -> holds s (input_bytes es) ->
  input_recv s = Done ((true, map delivered es), adv (4 + 12 * len es) s).
Proof.
  intros Hv Hl Hs. rewrite (Reads_input es Hv Hl s Hs). do 2 f_equal.
  unfold input_bytes. rewrite !len_app, len_events, Z.add_assoc. reflexivity.
Qed.

Lemma input_recv_in_order_witness :
  exists s', input_recv (mkSTREAM 28 0 (input_bytes [KeyboardEvent 0x4000 30; SynchronizeEvent 2]))
             = Done ((true, [KeyboardEvent 0x4000 30; SynchronizeEvent 2]), s').
Proof.
  eexists. apply (input_recv_in_order [KeyboardEvent 0x4000 30; SynchronizeEvent 2]).
  - repeat constructor; lia.
  - lens_lia.
  - rewrite <- (app_nil_r (input_bytes _)). apply holds_start. lens_lia.
Defined.

(** An event shorter than its header: with four or five bytes left
    [input_recv_event] passes its own check and reads the message type across
    the end of the PDU. *)
Theorem input_recv_event_overread :
  exists s r, s_size s - s_p s = 4 /\ s_size s <= len (s_data s) /\
    input_recv_event s = Done (r, adv 6 s) /\ s_size s < s_p (adv 6 s).
Proof.
  exists (mkSTREAM 4 0 (replicate 64 0)), (false, []).
  split; [reflexivity|]. split; [vm_compute; discriminate|]. split; vm_compute; reflexivity.
Qed.
