(* ===== verification/Bits.v ===== *)
(** Bit strings, the first bit being the most significant one: numbers, bytes and
    their bits, shared by the bulk decompressor and the RemoteFX codec. *)

From S2P Require Import Prelude.

Fixpoint val (bs : list bool) : Z :=
  match bs with
  | [] => 0
  | b :: bs => Z.b2z b * 2 ^ len bs + val bs
  end.

Fixpoint bits_of (n : nat) (v : Z) : list bool :=
  match n with
  | O => []
  | S n' => Z.odd (v / 2 ^ Z.of_nat n') :: bits_of n' v
  end.

Definition byte_bits (c : list Z) : list bool := concat (map (bits_of 8) c).

Lemma val_bound bs : 0 <= val bs < 2 ^ len bs.
Proof.
  induction bs as [|b bs IH]; cbn [val]; [split; [lia|reflexivity]|]. rewrite len_cons, Z.pow_add_r by llia.
  destruct b; cbn [Z.b2z]; lia.
Qed.

Lemma val_app a b : val (a ++ b) = val a * 2 ^ len b + val b.
Proof.
  induction a as [|x a IH]; cbn [val app]; [lia|]. rewrite IH, len_app, Z.pow_add_r by llia. ring.
Qed.

Lemma val_zeros n : val (replicate n false) = 0.
Proof. induction n as [|n IH]; [reflexivity|]. cbn [val replicate Z.b2z]. rewrite IH. lia. Qed.

Lemma length_bits_of n v : length (bits_of n v) = n.
Proof. induction n as [|n IH]; cbn; congruence. Qed.

Lemma len_bits_of n v : len (bits_of n v) = Z.of_nat n.
Proof. unfold len. rewrite length_bits_of. reflexivity. Qed.

Lemma val_bits_of n v : val (bits_of n v) = v mod 2 ^ Z.of_nat n.
Proof.
  induction n as [|n IH]; [cbn; rewrite Z.mod_1_r; reflexivity|]. cbn [bits_of val].
  rewrite len_bits_of, IH, Nat2Z.inj_succ, Z.pow_succ_r by lia.
  rewrite (Z.mul_comm 2), Z.rem_mul_r, Zmod_odd by lia. destruct (Z.odd _); cbn [Z.b2z]; lia.
Qed.

Lemma bits_of_val bs : bits_of (length bs) (val bs) = bs.
Proof.
  enough (H : forall bs k, 0 <= k -> bits_of (length bs) (k * 2 ^ len bs + val bs) = bs)
    by (specialize (H bs 0 ltac:(lia)); rewrite Z.mul_0_l in H; exact H).
  clear bs. induction bs as [|b bs IH]; intros k Hk; [reflexivity|]. cbn [length bits_of].
  change (Z.of_nat (length bs)) with (len bs). cbn [val]. rewrite len_cons, Z.pow_add_r by llia.
  pose proof (val_bound bs). pose proof (Z.pow_pos_nonneg 2 (len bs) ltac:(lia) ltac:(llia)).
  replace (k * (2 ^ 1 * 2 ^ len bs) + (Z.b2z b * 2 ^ len bs + val bs))
    with ((2 * k + Z.b2z b) * 2 ^ len bs + val bs) by ring.
  f_equal; [|apply IH; destruct b; cbn; lia].
  rewrite Z.div_add_l, (Z.div_small (val bs)), Z.add_0_r by lia.
  destruct b; cbn [Z.b2z]; [apply Z.odd_odd|]. rewrite Z.add_0_r. apply Z.odd_even.
Qed.

Lemma byte_bits_cons b c : byte_bits (b :: c) = bits_of 8 b ++ byte_bits c.
Proof. reflexivity. Qed.

Lemma byte_bits_app c d : byte_bits (c ++ d) = byte_bits c ++ byte_bits d.
Proof. unfold byte_bits. rewrite map_app, concat_app. reflexivity. Qed.

Lemma length_byte_bits c : length (byte_bits c) = (8 * length c)%nat.
Proof.
  induction c as [|b c IH]; [reflexivity|]. rewrite byte_bits_cons, length_app, length_bits_of, IH. cbn [length]. lia.
Qed.

Lemma split_at {A} (xs : list A) n : 0 <= n <= len xs -> exists a b, xs = a ++ b /\ len a = n.
Proof.
  intros Hn. exists (take (Z.to_nat n) xs), (drop (Z.to_nat n) xs). rewrite take_drop.
  split; [reflexivity|]. unfold len in *. rewrite length_take. lia.
Qed.


(** The bits of a number, one by one. *)
Lemma lookup_bits_of n v i : (i < n)%nat -> bits_of n v !! i = Some (Z.testbit v (Z.of_nat (n - 1 - i))).
Proof.
  revert i. induction n as [|n IH]; intros i Hi; [lia|]. cbn [bits_of]. destruct i as [|i].
  - rewrite Z.testbit_odd, Z.shiftr_div_pow2 by lia. replace (S n - 1 - 0)%nat with n by lia. reflexivity.
  - replace (S n - 1 - S i)%nat with (n - 1 - i)%nat by lia. apply IH. lia.
Qed.

Lemma bits_of_split a b v : bits_of (a + b) v = bits_of a (Z.shiftr v (Z.of_nat b)) ++ bits_of b v.
Proof.
  induction a as [|a IH]; cbn [Nat.add bits_of app]; [reflexivity|]. rewrite IH. f_equal. f_equal.
  rewrite Z.shiftr_div_pow2, Z.div_div, <- Z.pow_add_r by lia. repeat f_equal. lia.
Qed.

Lemma bits_of_ext n u v : (forall i, 0 <= i < Z.of_nat n -> Z.testbit u i = Z.testbit v i) -> bits_of n u = bits_of n v.
Proof.
  intros H. apply list_eq. intros i. destruct (Nat.lt_ge_cases i n) as [Hi|Hi].
  - rewrite !lookup_bits_of by exact Hi. f_equal. apply H. lia.
  - rewrite !lookup_ge_None_2 by (rewrite length_bits_of; exact Hi). reflexivity.
Qed.

Lemma val_inj a b : length a = length b -> val a = val b -> a = b.
Proof. intros Hl Hv. rewrite <- (bits_of_val a), <- (bits_of_val b), Hl, Hv. reflexivity. Qed.

Lemma bits_of_byte b : is_byte b -> b = val (bits_of 8 b).
Proof. intros [Ha Hb]. rewrite val_bits_of, Z.mod_small by (cbn; lia). reflexivity. Qed.
