(* ===== verification/Unicode.v ===== *)
(** Text conversion, [libfreerdp-utils/unicode.c]: between the UTF-8 strings of the
    program and the UTF-16LE strings of the protocol, without [iconv]. The two
    converters agree with the encodings of Unicode on every text, and undo each
    other. A string is its bytes up to and without the terminating zero; memory
    behind the zero is not readable. *)

From S2P Require Import Prelude.

(** ** [freerdp_uniconv_in]: UTF-16LE to UTF-8 *)

(** The bytes of a code point, as [char]s. *)
Definition put_utf8 (wc : Z) : list Z :=
  if wc <=? 0x7F then [uint8 wc]
  else if wc <=? 0x07FF then [uint8 (0xC0 + Z.shiftr wc 6); uint8 (0x80 + Z.land wc 0x3F)]
  else if wc <=? 0xFFFF then
    [uint8 (0xE0 + Z.shiftr wc 12); uint8 (0x80 + Z.land (Z.shiftr wc 6) 0x3F); uint8 (0x80 + Z.land wc 0x3F)]
  else
    [uint8 (0xF0 + Z.shiftr wc 18); uint8 (0x80 + Z.land (Z.shiftr wc 12) 0x3F);
     uint8 (0x80 + Z.land (Z.shiftr wc 6) 0x3F); uint8 (0x80 + Z.land wc 0x3F)].

(** The loop; an odd byte at the end is left over. *)
Fixpoint uniconv_in_loop (fuel : nat) (conv_pin : list Z) (conv_pout : list Z) : list Z :=
  match fuel, conv_pin with
  | S fuel', a :: b :: rest =>
      let wc := a + Z.shiftl b 8 in
      match rest with
      | c :: d :: rest' =>
          if (0xD800 <=? wc) && (wc <=? 0xDFFF) then
            let wc := uint32 (Z.shiftl (wc - 0xD800) 10 + 0x10000) in
            let wc := uint32 (wc + c) in
            let wc := uint32 (wc + uint32 (Z.shiftl (d - 0xDC) 8)) in
            uniconv_in_loop fuel' rest' (conv_pout ++ put_utf8 wc)
          else uniconv_in_loop fuel' rest (conv_pout ++ put_utf8 wc)
      | _ => uniconv_in_loop fuel' rest (conv_pout ++ put_utf8 wc)
      end
  | _, _ => conv_pout
  end.

(** The string, when it fits into the [in_len * 2 + 1] bytes allocated for it. *)
Definition freerdp_uniconv_in (pin : list Z) : outcome (list Z) :=
  let out := uniconv_in_loop (length pin) pin [] in
  if len out + 1 <=? 2 * len pin + 1 then Done out else Fault OutOfBounds.

(** ** [freerdp_uniconv_out]: UTF-8 to UTF-16LE *)

(** [n] continuation bytes: their contribution, and the memory behind them. *)
Fixpoint continuation (n : nat) (wc : Z) (pin : list Z) : outcome (Z * list Z) :=
  match n with
  | O => Done (wc, pin)
  | S n' =>
      match pin with
      | [] => Fault OutOfBounds
      | b :: pin' => continuation n' (uint32 (wc + uint32 (Z.shiftl (b - 0x80) (6 * Z.of_nat n')))) pin'
      end
  end.

(** How many continuation bytes a lead byte announces, and its own contribution. *)
Definition lead (b : Z) : nat * Z :=
  if 0xF0 <=? b then (3%nat, uint32 (Z.shiftl (b - 0xF0) 18))
  else if 0xE0 <=? b then (2%nat, Z.shiftl (b - 0xE0) 12)
  else if 0xC0 <=? b then (1%nat, Z.shiftl (b - 0xC0) 6)
  else (0%nat, b).

Definition put_utf16 (wc : Z) : list Z :=
  if wc <=? 0xFFFF then [uint8 (Z.land wc 0xFF); uint8 (Z.shiftr wc 8)]
  else
    let wc := wc - 0x10000 in
    [uint8 (Z.land (Z.shiftr wc 10) 0xFF); uint8 (Z.shiftr wc 18 + 0xD8);
     uint8 (Z.land wc 0xFF); uint8 (Z.land (Z.shiftr wc 8) 0x03 + 0xDC)].

(** [pin] is the memory from the position on; [size_t] counters wrap around.
    [cap] is the size of the allocation. *)
Fixpoint uniconv_out_loop (fuel : nat) (cap : Z) (pin : list Z) (ibl obl : Z) (pout : list Z) : outcome (list Z) :=
  if (0 <? ibl) && (0 <? obl) then
    match fuel, pin with
    | S fuel', b :: pin' =>
        let (n, wc) := lead b in
        match continuation n wc pin' with
        | Fault f => Fault f
        | Done (wc, pin') =>
            let out := put_utf16 wc in
            if len pout + len out <=? cap then
              uniconv_out_loop fuel' cap pin' (uint64 (ibl - 1 - Z.of_nat n)) (uint64 (obl - len out)) (pout ++ out)
            else Fault OutOfBounds
        end
    | _, _ => Fault OutOfBounds
    end
  else if len pout + 2 <=? cap then Done pout else Fault OutOfBounds.

(** The converted bytes, to which two zeros are added. *)
Definition freerdp_uniconv_out (str : list Z) : outcome (list Z) :=
  let ibl := len str in
  uniconv_out_loop (S (length str)) (2 * ibl + 2) (str ++ [0]) ibl (2 * ibl) [].

(** ** The encodings of Unicode *)

(** A code point other than the surrogates; a text has no zero in it. *)
Definition codepoint (cp : Z) : Prop := 0 <= cp < 0xD800 \/ 0xE000 <= cp <= 0x10FFFF.
Definition scalar (cp : Z) : Prop := 0 < cp /\ codepoint cp.

Definition utf8 (cp : Z) : list Z :=
  if cp <? 0x80 then [cp]
  else if cp <? 0x800 then [0xC0 + cp / 2 ^ 6; 0x80 + cp mod 2 ^ 6]
  else if cp <? 0x10000 then [0xE0 + cp / 2 ^ 12; 0x80 + (cp / 2 ^ 6) mod 2 ^ 6; 0x80 + cp mod 2 ^ 6]
  else [0xF0 + cp / 2 ^ 18; 0x80 + (cp / 2 ^ 12) mod 2 ^ 6; 0x80 + (cp / 2 ^ 6) mod 2 ^ 6; 0x80 + cp mod 2 ^ 6].

(** A unit of sixteen bits, the lower byte first. *)
Definition unit16 (u : Z) : list Z := [u mod 256; u / 256].

Definition utf16le (cp : Z) : list Z :=
  if cp <? 0x10000 then unit16 cp
  else unit16 (0xD800 + (cp - 0x10000) / 2 ^ 10) ++ unit16 (0xDC00 + (cp - 0x10000) mod 2 ^ 10).

Definition utf8_text (t : list Z) : list Z := concat (map utf8 t).
Definition utf16_text (t : list Z) : list Z := concat (map utf16le t).

Ltac powers :=
  repeat first [progress change (2 ^ 6) with 64 in * | progress change (2 ^ 8) with 256 in * | progress change (2 ^ 10) with 1024 in *
               | progress change (2 ^ 12) with 4096 in * | progress change (2 ^ 18) with 262144 in *
               | progress change (2 ^ 32) with 4294967296 in * | progress change (2 ^ 2) with 4 in *].

Ltac to_div := rewrite ?(land_mask _ 6 0x3F), ?(land_mask _ 8 0xFF), ?(land_mask _ 2 0x03), ?Z.shiftr_div_pow2, ?Z.shiftl_mul_pow2 by lia; powers.

Lemma put_utf8_spec cp : codepoint cp -> put_utf8 cp = utf8 cp.
Proof.
  unfold codepoint, put_utf8, utf8. intros Hs. to_div. unfold uint8. powers.
  destruct (Z.leb_spec cp 0x7F), (Z.ltb_spec cp 0x80); try lia; [cons_eq; dlia|].
  destruct (Z.leb_spec cp 0x7FF), (Z.ltb_spec cp 0x800); try lia; [cons_eq; dlia|].
  destruct (Z.leb_spec cp 0xFFFF), (Z.ltb_spec cp 0x10000); try lia; cons_eq; dlia.
Qed.

Lemma put_utf16_spec cp : codepoint cp -> put_utf16 cp = utf16le cp.
Proof.
  unfold codepoint, put_utf16, utf16le, unit16. intros Hs. to_div. unfold uint8. powers.
  destruct (Z.leb_spec cp 0xFFFF), (Z.ltb_spec cp 0x10000); try lia; cbn [app]; cons_eq; dlia.
Qed.

(** What the decoder makes of the bytes of a character. *)
Lemma decode_utf8 cp : scalar cp -> exists b bs w, utf8 cp = b :: bs /\ lead b = (length bs, w) /\
  (length bs <= 3)%nat /\ forall rest, continuation (length bs) w (bs ++ rest) = Done (cp, rest).
Proof.
  intros Hs. unfold scalar, codepoint in Hs. unfold utf8. powers.
  destruct (Z.ltb_spec cp 0x80); [|destruct (Z.ltb_spec cp 0x800); [|destruct (Z.ltb_spec cp 0x10000)]];
    do 3 eexists; (split; [reflexivity|]); unfold lead.
  - rewrite (proj2 (Z.leb_gt 0xF0 cp)), (proj2 (Z.leb_gt 0xE0 cp)), (proj2 (Z.leb_gt 0xC0 cp)) by lia.
    split; [reflexivity|]. split; [cbn; lia|]. reflexivity.
  - rewrite (proj2 (Z.leb_gt 0xF0 _)), (proj2 (Z.leb_gt 0xE0 _)), (proj2 (Z.leb_le 0xC0 _)) by dlia.
    split; [reflexivity|]. split; [cbn; lia|]. intros rest. cbn [length continuation app Z.of_nat Z.mul].
    do 2 f_equal. unfold uint32. to_div. change (2 ^ 0) with 1. dlia.
  - rewrite (proj2 (Z.leb_gt 0xF0 _)), (proj2 (Z.leb_le 0xE0 _)) by dlia.
    split; [reflexivity|]. split; [cbn; lia|]. intros rest. cbn [length continuation app Z.of_nat Z.mul Pos.of_succ_nat Pos.mul].
    do 2 f_equal. unfold uint32. to_div. change (2 ^ 0) with 1. dlia.
  - rewrite (proj2 (Z.leb_le 0xF0 _)) by dlia.
    split; [reflexivity|]. split; [cbn; lia|]. intros rest. cbn [length continuation app Z.of_nat Z.mul Pos.of_succ_nat Pos.mul Pos.succ].
    do 2 f_equal. unfold uint32. to_div. change (2 ^ 0) with 1. dlia.
Qed.

Lemma utf_lengths cp : codepoint cp -> 1 <= len (utf8 cp) <= 4 /\ 2 <= len (utf16le cp) <= 4 /\
  len (utf16le cp) <= 2 * len (utf8 cp) /\ len (utf8 cp) <= 2 * len (utf16le cp).
Proof.
  intros Hs. unfold utf8, utf16le, unit16. destruct (Z.ltb_spec cp 0x80), (Z.ltb_spec cp 0x800), (Z.ltb_spec cp 0x10000);
    cbn [app]; unfold len; cbn [length]; lia.
Qed.

Lemma text_lengths t : Forall codepoint t -> len t <= len (utf8_text t) /\ len t <= len (utf16_text t) /\
  len (utf16_text t) <= 2 * len (utf8_text t) /\ len (utf8_text t) <= 2 * len (utf16_text t).
Proof.
  unfold utf8_text, utf16_text. induction 1 as [|cp t Hcp _ IH]; [repeat split; discriminate|]. cbn [map concat].
  rewrite !len_app, len_cons. destruct (utf_lengths cp Hcp) as (? & ? & ? & ?). lia.
Qed.

Lemma text_codepoints t : Forall scalar t -> Forall codepoint t.
Proof. intros Ht. eapply Forall_impl; [exact Ht|]. intros cp Hcp. apply Hcp. Qed.

Lemma uniconv_out_loop_spec cap t : Forall scalar t -> forall fuel ibl obl pout, (length t < fuel)%nat ->
  ibl = len (utf8_text t) -> 2 * ibl <= obl < 2 ^ 63 -> len pout + obl + 2 = cap ->
  uniconv_out_loop fuel cap (utf8_text t ++ [0]) ibl obl pout = Done (pout ++ utf16_text t).
Proof.
  induction 1 as [|cp t Hcp Ht IH]; intros fuel ibl obl pout Hf -> Ho Hc.
  - change (len (utf8_text [])) with 0 in *. rewrite app_nil_r.
    destruct fuel; cbn [uniconv_out_loop]; rewrite (proj2 (Z.leb_le _ _)) by lia; reflexivity.
  - destruct fuel as [|fuel]; [lia|]. cbn [length] in Hf. destruct (utf_lengths cp (proj2 Hcp)) as (H8 & H16 & Hle & _).
    destruct (text_lengths t (text_codepoints t Ht)) as (_ & _ & Htl & _). pose proof (len_nonneg (utf8_text t)).
    assert (E8 : utf8_text (cp :: t) = utf8 cp ++ utf8_text t) by reflexivity.
    assert (E16 : utf16_text (cp :: t) = utf16le cp ++ utf16_text t) by reflexivity. rewrite E8, E16, len_app in *.
    cbn [uniconv_out_loop]. rewrite (proj2 (Z.ltb_lt 0 (_ + _))), (proj2 (Z.ltb_lt 0 obl)) by lia. cbn [andb].
    destruct (decode_utf8 cp Hcp) as (b & bs & w & Eb & El & Hn & Ec). rewrite Eb in *. cbn [app]. rewrite <- app_assoc, El, Ec.
    rewrite put_utf16_spec by apply Hcp. rewrite (proj2 (Z.leb_le _ _)) by lia. rewrite len_cons in *.
    replace (uint64 (_ - 1 - _)) with (len (utf8_text t)) by (unfold uint64; rewrite Z.mod_small; unfold len in *; lia).
    replace (uint64 (obl - _)) with (obl - len (utf16le cp)) by (unfold uint64; rewrite Z.mod_small; unfold len in *; lia).
    rewrite (IH fuel _ _ (pout ++ utf16le cp)), <- app_assoc; [reflexivity|lia|reflexivity|lia|rewrite len_app; lia].
Qed.

Lemma uniconv_in_loop_spec t : Forall codepoint t -> forall fuel pout, (length t <= fuel)%nat ->
  uniconv_in_loop fuel (utf16_text t) pout = pout ++ utf8_text t.
Proof.
  induction 1 as [|cp t Hcp Ht IH]; intros fuel pout Hf; [destruct fuel; cbn; rewrite app_nil_r; reflexivity|].
  destruct fuel as [|fuel]; [cbn in Hf; lia|]. cbn [length] in Hf.
  assert (E8 : utf8_text (cp :: t) = utf8 cp ++ utf8_text t) by reflexivity.
  assert (E16 : utf16_text (cp :: t) = utf16le cp ++ utf16_text t) by reflexivity. rewrite E8, E16, app_assoc.
  unfold codepoint in Hcp. unfold utf16le, unit16. powers. destruct (Z.ltb_spec cp 0x10000) as [Hb|Hb]; cbn [app uniconv_in_loop].
  - rewrite Z.shiftl_mul_pow2 by lia. powers. replace (cp mod 256 + cp / 256 * 256) with cp by dlia.
    rewrite put_utf8_spec by exact Hcp.
    assert (Hsur : (0xD800 <=? cp) && (cp <=? 0xDFFF) = false).
    { destruct (Z.leb_spec 0xD800 cp), (Z.leb_spec cp 0xDFFF); cbn; lia || reflexivity. }
    destruct (utf16_text t) as [|c [|d rest']] eqn:Et; rewrite ?Hsur; apply IH; lia.
  - set (u := (cp - 0x10000) / 1024). set (v := (cp - 0x10000) mod 1024).
    assert (Hu : 0 <= u < 1024) by (unfold u; dlia). assert (Hv : 0 <= v < 1024) by (unfold v; dlia).
    assert (Hcpv : cp = 0x10000 + 1024 * u + v) by (unfold u, v; dlia).
    assert (E1 : (55296 + u) mod 256 + Z.shiftl ((55296 + u) / 256) 8 = 55296 + u)
      by (rewrite Z.shiftl_mul_pow2 by lia; powers; dlia).
    rewrite E1. destruct (Z.leb_spec 0xD800 (55296 + u)); [|lia]. destruct (Z.leb_spec (55296 + u) 0xDFFF); [|lia]. cbn [andb].
    replace (uint32 (uint32 (uint32 (Z.shiftl (55296 + u - 0xD800) 10 + 0x10000) + (56320 + v) mod 256)
               + uint32 (Z.shiftl ((56320 + v) / 256 - 0xDC) 8))) with cp
      by (unfold uint32; rewrite !Z.shiftl_mul_pow2 by lia; powers; dlia).
    rewrite put_utf8_spec by exact Hcp. apply IH. lia.
Qed.

(** Text followed by zeros, as in a field of fixed size. *)
Lemma uniconv_in_padded t k : Forall scalar t ->
  freerdp_uniconv_in (utf16_text t ++ replicate (2 * k) 0) = Done (utf8_text t ++ replicate k 0).
Proof.
  intros Ht. assert (Hz : Forall codepoint (t ++ replicate k 0)).
  { apply Forall_app. split; [apply text_codepoints, Ht|]. apply Forall_replicate. unfold codepoint. lia. }
  assert (E16 : utf16_text (t ++ replicate k 0) = utf16_text t ++ replicate (2 * k) 0).
  { unfold utf16_text. rewrite map_app, concat_app. f_equal. clear. induction k as [|k IH]; [reflexivity|].
    replace (2 * S k)%nat with (S (S (2 * k))) by lia. cbn [replicate map concat]. rewrite IH. reflexivity. }
  assert (E8 : utf8_text (t ++ replicate k 0) = utf8_text t ++ replicate k 0).
  { unfold utf8_text. rewrite map_app, concat_app. f_equal. clear. induction k as [|k IH]; [reflexivity|].
    cbn [replicate map concat]. rewrite IH. reflexivity. }
  destruct (text_lengths _ Hz) as (H1 & H2 & _ & H4).
  unfold freerdp_uniconv_in. rewrite <- E16, <- E8, (uniconv_in_loop_spec _ Hz) by (unfold len in *; lia).
  cbn [app]. rewrite (proj2 (Z.leb_le _ _)) by lia. reflexivity.
Qed.

Lemma utf8_nonzero t : Forall scalar t -> Forall (fun b => b <> 0) (utf8_text t).
Proof.
  unfold utf8_text. induction 1 as [|cp t [Hpos Hcp] _ IH]; [constructor|]. cbn [map concat]. apply Forall_app.
  split; [|exact IH]. unfold codepoint in Hcp. unfold utf8. powers.
  destruct (Z.ltb_spec cp 0x80); [|destruct (Z.ltb_spec cp 0x800); [|destruct (Z.ltb_spec cp 0x10000)]];
    repeat (apply Forall_cons_2; [dlia|]); apply Forall_nil_2.
Qed.

Lemma uniconv_out_text t : Forall scalar t -> len (utf8_text t) <= 2 ^ 61 ->
  freerdp_uniconv_out (utf8_text t) = Done (utf16_text t).
Proof.
  intros Ht Hl. destruct (text_lengths t (text_codepoints t Ht)) as (H1 & _). pose proof (len_nonneg (utf8_text t)).
  unfold freerdp_uniconv_out. apply (uniconv_out_loop_spec _ t Ht _ _ _ []); [unfold len in *; lia|reflexivity|lia|rewrite len_nil; lia].
Qed.

(** C38. Text of up to 2^61 bytes, given as Unicode characters: [freerdp_uniconv_out]
    turns its UTF-8 form into its UTF-16LE form and [freerdp_uniconv_in] turns
    that back, both without leaving the memory they allocate. *)
Theorem uniconv_roundtrip t : Forall scalar t -> len (utf8_text t) <= 2 ^ 61 ->
  freerdp_uniconv_out (utf8_text t) = Done (utf16_text t) /\
  freerdp_uniconv_in (utf16_text t) = Done (utf8_text t).
Proof.
  intros Ht Hl. split; [apply uniconv_out_text; assumption|].
  rewrite <- (app_nil_r (utf16_text t)), <- (app_nil_r (utf8_text t)). apply (uniconv_in_padded t 0), Ht.
Qed.

Definition sample_text : list Z := [0x41; 0xE4; 0x20AC; 0x1F600].

Lemma uniconv_roundtrip_witness :
  freerdp_uniconv_out (utf8_text sample_text) = Done (utf16_text sample_text) /\
  freerdp_uniconv_in (utf16_text sample_text) = Done (utf8_text sample_text).
Proof.
  apply (uniconv_roundtrip sample_text); [|vm_compute; discriminate].
  unfold sample_text. repeat (apply Forall_cons_2; [unfold scalar, codepoint; lia|]). apply Forall_nil_2.
Defined.

(** A string that ends in the middle of a character: the converter runs over the
    terminating zero and on through the memory behind it. *)
Example uniconv_out_truncated : freerdp_uniconv_out [0x41; 0xE3; 0x80] = Fault OutOfBounds.
Proof. vm_compute. reflexivity. Qed.
