(* ===== verification/Gcc.v ===== *)
(** The conference data of the MCS connect PDUs, [libfreerdp-core/gcc.c]: the
    settings of the client and of the server as user data blocks, and the
    Conference Create request and response around them. Settings are passed
    along; a reader returns its result and the settings it leaves. *)

From coqutil Require Import Datatypes.RecordSetters.
From S2P Require Import Prelude.
From S2P Require Import Stream.
From S2P Require Import Settings.
From S2P Require Import Ber.
From S2P Require Import Per.
From S2P Require Import X224.
From S2P Require Import Transport.
From S2P Require Import Mcs.
From S2P Require Import Security.
From S2P Require Import Unicode.
From S2P Require Import Rsa.
From S2P Require Import Certificate.
Import TriangleBracketNotations.

(** ** Constants of [gcc.h] *)

Definition CS_CORE : Z := 0xC001.
Definition CS_SECURITY : Z := 0xC002.
Definition CS_NET : Z := 0xC003.
Definition CS_CLUSTER : Z := 0xC004.
Definition CS_MONITOR : Z := 0xC005.
Definition SC_CORE : Z := 0x0C01.
Definition SC_SECURITY : Z := 0x0C02.
Definition SC_NET : Z := 0x0C03.
Definition RDP_VERSION_4 : Z := 0x00080001.
Definition RDP_VERSION_5_PLUS : Z := 0x00080004.
Definition RNS_UD_COLOR_4BPP : Z := 0xCA00.
Definition RNS_UD_COLOR_8BPP : Z := 0xCA01.
Definition RNS_UD_COLOR_16BPP_555 : Z := 0xCA02.
Definition RNS_UD_COLOR_16BPP_565 : Z := 0xCA03.
Definition RNS_UD_COLOR_24BPP : Z := 0xCA04.
Definition RNS_UD_SAS_DEL : Z := 0xAA03.
Definition RNS_UD_24BPP_SUPPORT : Z := 0x0001.
Definition RNS_UD_16BPP_SUPPORT : Z := 0x0002.
Definition RNS_UD_15BPP_SUPPORT : Z := 0x0004.
Definition RNS_UD_32BPP_SUPPORT : Z := 0x0008.
Definition RNS_UD_CS_SUPPORT_ERRINFO_PDU : Z := 0x0001.
Definition RNS_UD_CS_WANT_32BPP_SESSION : Z := 0x0002.
Definition RNS_UD_CS_VALID_CONNECTION_TYPE : Z := 0x0020.
Definition REDIRECTION_SUPPORTED : Z := 0x00000001.
Definition REDIRECTED_SESSIONID_FIELD_VALID : Z := 0x00000002.
Definition REDIRECTION_VERSION4 : Z := 0x03.
Definition MONITOR_PRIMARY : Z := 0x00000001.
Definition CONNECTION_TYPE_LAN : Z := 0x06.

(** ** Settings *)

Record rdp_channel : Type := mkRdpChannel {
  name : list Z;
  options : Z;
  channel_id : Z;
  joined : bool;
}.

Record rdp_monitor : Type := mkMonitor { mon_x : Z; mon_y : Z; mon_width : Z; mon_height : Z; is_primary : Z }.

Record rdp_key : Type := mkKey { k_modulus : list Z; private_exponent : list Z; k_exponent : list Z }.

(** The fields of [struct rdp_settings] that [gcc.c] reads and writes. A [char]
    array is the string in it; [channels] has sixteen elements. *)
Record rdp_settings : Type := mkRdpSettings {
  width : Z;
  height : Z;
  rdp_version : Z;
  color_depth : Z;
  kbd_layout : Z;
  kbd_type : Z;
  kbd_subtype : Z;
  kbd_fn_keys : Z;
  client_build : Z;
  requested_protocols : Z;
  selected_protocol : Z;
  encryption_method : Z;
  encryption_level : Z;
  negotiationFlags : Z;
  performance_flags : Z;
  encryption : bool;
  console_session : bool;
  redirected_session_id : Z;
  connection_type : Z;
  client_hostname : list Z;
  client_product_id : list Z;
  server_random : list Z;
  server_certificate : list Z;
  server_cert : rdpCertificate;
  server_key : option rdp_key;
  rfx_codec : bool;
  num_channels : Z;
  channels : list rdp_channel;
  num_monitors : Z;
  monitors : list rdp_monitor;
}.

(** A computation that does not touch the state. *)
Definition lift {S A} (o : outcome A) : M S A := fun s =>
  match o with Done a => Done (a, s) | Fault f => Fault f end.

(** [a[i]] of an array of records, and an assignment to it. *)
Definition elem {S A} (l : list A) (i : Z) : M S A :=
  if 0 <=? i then match l !! Z.to_nat i with Some a => ret a | None => fail OutOfBounds end else fail OutOfBounds.
Definition elem_set {S A} (i : Z) (a : A) (l : list A) : M S (list A) :=
  if (0 <=? i) && (i <? len l) then ret (<[Z.to_nat i := a]> l) else fail OutOfBounds.

(** The string at the start of a buffer; [snprintf] into an array of [size]. *)
Fixpoint c_string (l : list Z) : list Z :=
  match l with [] => [] | b :: l' => if b =? 0 then [] else b :: c_string l' end.
Definition snprintf (size : Z) (str : list Z) : list Z := take (Z.to_nat (size - 1)) (c_string str).

(** ** User data headers *)

Definition gcc_read_user_data_header : M STREAM (bool * Z * Z) :=
  let! type := stream_read_uint16 in
  let! length := stream_read_uint16 in
  if length <? 4 then ret (false, type, length)
  else
    let! avail := left_bytes in
    if avail <? length - 4 then ret (false, type, length) else ret (true, type, length).

Definition gcc_write_user_data_header (type length : Z) : M STREAM unit :=
  stream_write_uint16 type;; stream_write_uint16 length.

(** ** Client core data *)

(** [freerdp_uniconv_in] on the next [n] bytes, which are then passed over. *)
Definition read_text (n : Z) : M STREAM (list Z) :=
  let! pin := stream_read n in lift (freerdp_uniconv_in pin).

(** The optional fields, as far as the block reaches: the colour depths found. *)
Definition core_optional (blockLength : Z) (settings : rdp_settings) : M STREAM (bool * Z * Z * rdp_settings) :=
  if blockLength <? 2 then ret (true, 0, 0, settings) else
  let! postBeta2ColorDepth := stream_read_uint16 in
  let blockLength := blockLength - 2 in
  if blockLength <? 2 then ret (true, postBeta2ColorDepth, 0, settings) else
  stream_seek 2;;
  let blockLength := blockLength - 2 in
  if blockLength <? 4 then ret (true, postBeta2ColorDepth, 0, settings) else
  stream_seek 4;;
  let blockLength := blockLength - 4 in
  if blockLength <? 2 then ret (true, postBeta2ColorDepth, 0, settings) else
  let! highColorDepth := stream_read_uint16 in
  let blockLength := blockLength - 2 in
  if blockLength <? 2 then ret (true, postBeta2ColorDepth, highColorDepth, settings) else
  let! _supportedColorDepths := stream_read_uint16 in
  let blockLength := blockLength - 2 in
  if blockLength <? 2 then ret (true, postBeta2ColorDepth, highColorDepth, settings) else
  let! _earlyCapabilityFlags := stream_read_uint16 in
  let blockLength := blockLength - 2 in
  if blockLength <? 64 then ret (true, postBeta2ColorDepth, highColorDepth, settings) else
  let! str := read_text 64 in
  let settings := settings <| client_product_id := snprintf 32 str |> in
  let blockLength := blockLength - 64 in
  if blockLength <? 1 then ret (true, postBeta2ColorDepth, highColorDepth, settings) else
  let! v := stream_read_uint8 in
  let settings := settings <| performance_flags := v |> in
  let blockLength := blockLength - 1 in
  if blockLength <? 1 then ret (true, postBeta2ColorDepth, highColorDepth, settings) else
  stream_seek 1;;
  let blockLength := blockLength - 1 in
  if blockLength <? 4 then ret (true, postBeta2ColorDepth, highColorDepth, settings) else
  let! serverSelectedProtocol := stream_read_uint32 in
  ret (selected_protocol settings =? serverSelectedProtocol, postBeta2ColorDepth, highColorDepth, settings).

(** The colour depth out of the three fields, [None] when it is refused. *)
Definition core_color_depth (colorDepth postBeta2ColorDepth highColorDepth : Z) : option Z :=
  if 0 <? highColorDepth then Some highColorDepth
  else if 0 <? postBeta2ColorDepth then
    if postBeta2ColorDepth =? RNS_UD_COLOR_4BPP then Some 4
    else if postBeta2ColorDepth =? RNS_UD_COLOR_8BPP then Some 8
    else if postBeta2ColorDepth =? RNS_UD_COLOR_16BPP_555 then Some 15
    else if postBeta2ColorDepth =? RNS_UD_COLOR_16BPP_565 then Some 16
    else if postBeta2ColorDepth =? RNS_UD_COLOR_24BPP then Some 24
    else None
  else if colorDepth =? RNS_UD_COLOR_4BPP then Some 4
  else if colorDepth =? RNS_UD_COLOR_8BPP then Some 8
  else None.

Definition gcc_read_client_core_data (settings : rdp_settings) (blockLength : Z) : M STREAM (bool * rdp_settings) :=
  if blockLength <? 128 then ret (false, settings) else
  let! version := stream_read_uint32 in
  let settings := settings <| rdp_version := if version =? RDP_VERSION_4 then 4 else 7 |> in
  let! v := stream_read_uint16 in let settings := settings <| width := v |> in
  let! v := stream_read_uint16 in let settings := settings <| height := v |> in
  let! colorDepth := stream_read_uint16 in
  stream_seek 2;;
  let! v := stream_read_uint32 in let settings := settings <| kbd_layout := v |> in
  let! v := stream_read_uint32 in let settings := settings <| client_build := v |> in
  let! str := read_text 32 in
  let settings := settings <| client_hostname := snprintf 32 str |> in
  let! v := stream_read_uint32 in let settings := settings <| kbd_type := v |> in
  let! v := stream_read_uint32 in let settings := settings <| kbd_subtype := v |> in
  let! v := stream_read_uint32 in let settings := settings <| kbd_fn_keys := v |> in
  stream_seek 64;;
  let! (ok, postBeta2ColorDepth, highColorDepth, settings) := core_optional (blockLength - 128) settings in
  if negb ok then ret (false, settings) else
  match core_color_depth colorDepth postBeta2ColorDepth highColorDepth with
  | Some d => ret (true, settings <| color_depth := d |>)
  | None => ret (false, settings)
  end.

(** A text cut off to [size - 2] bytes, with a terminating zero and zeros up to
    [size]; [str] is what the converter returned. *)
Definition write_text (size : Z) (str : list Z) : M STREAM unit :=
  let length := len str in
  let length := if size - 2 <? length then size - 2 else length in
  stream_write (take (Z.to_nat length) str ++ [0; 0]);;
  stream_write_zero (size - length - 2).

Definition gcc_write_client_core_data (settings : rdp_settings) : M STREAM unit :=
  gcc_write_user_data_header CS_CORE 216;;
  let version := if 5 <=? rdp_version settings then RDP_VERSION_5_PLUS else RDP_VERSION_4 in
  let! clientName := lift (freerdp_uniconv_out (client_hostname settings)) in
  let! clientDigProductId := lift (freerdp_uniconv_out (client_product_id settings)) in
  stream_write_uint32 version;;
  stream_write_uint16 (width settings);;
  stream_write_uint16 (height settings);;
  stream_write_uint16 RNS_UD_COLOR_8BPP;;
  stream_write_uint16 RNS_UD_SAS_DEL;;
  stream_write_uint32 (kbd_layout settings);;
  stream_write_uint32 (client_build settings);;
  write_text 32 clientName;;
  stream_write_uint32 (kbd_type settings);;
  stream_write_uint32 (kbd_subtype settings);;
  stream_write_uint32 (kbd_fn_keys settings);;
  stream_write_zero 64;;
  stream_write_uint16 RNS_UD_COLOR_8BPP;;
  stream_write_uint16 1;;
  stream_write_uint32 0;;
  let highColorDepth := uint16 (Z.min (color_depth settings) 24) in
  let supportedColorDepths := Z.lor (Z.lor RNS_UD_24BPP_SUPPORT RNS_UD_16BPP_SUPPORT) RNS_UD_15BPP_SUPPORT in
  let connectionType := uint8 (connection_type settings) in
  let earlyCapabilityFlags := RNS_UD_CS_SUPPORT_ERRINFO_PDU in
  let connectionType := if rfx_codec settings then CONNECTION_TYPE_LAN else connectionType in
  let earlyCapabilityFlags := if negb (connectionType =? 0)
    then Z.lor earlyCapabilityFlags RNS_UD_CS_VALID_CONNECTION_TYPE else earlyCapabilityFlags in
  let (supportedColorDepths, earlyCapabilityFlags) := if color_depth settings =? 32
    then (Z.lor supportedColorDepths RNS_UD_32BPP_SUPPORT, Z.lor earlyCapabilityFlags RNS_UD_CS_WANT_32BPP_SESSION)
    else (supportedColorDepths, earlyCapabilityFlags) in
  stream_write_uint16 highColorDepth;;
  stream_write_uint16 supportedColorDepths;;
  stream_write_uint16 earlyCapabilityFlags;;
  write_text 64 clientDigProductId;;
  stream_write_uint8 connectionType;;
  stream_write_uint8 0;;
  stream_write_uint32 (selected_protocol settings).

(** ** Server core data *)

Definition gcc_read_server_core_data (settings : rdp_settings) : M STREAM (bool * rdp_settings) :=
  let! version := stream_read_uint32 in
  let! _clientRequestedProtocols := stream_read_uint32 in
  let settings :=
    if (version =? RDP_VERSION_4) && (4 <? rdp_version settings) then settings <| rdp_version := 4 |>
    else if (version =? RDP_VERSION_5_PLUS) && (rdp_version settings <? 5) then settings <| rdp_version := 7 |>
    else settings in
  ret (true, settings).

Definition gcc_write_server_core_data (settings : rdp_settings) : M STREAM unit :=
  gcc_write_user_data_header SC_CORE 12;;
  stream_write_uint32 (if rdp_version settings =? 4 then RDP_VERSION_4 else RDP_VERSION_5_PLUS);;
  stream_write_uint32 (requested_protocols settings).

(** ** Client security data *)

Definition gcc_read_client_security_data (settings : rdp_settings) (blockLength : Z) : M STREAM (bool * rdp_settings) :=
  if blockLength <? 8 then ret (false, settings)
  else if encryption settings then
    let! v := stream_read_uint32 in
    let settings := settings <| encryption_method := v |> in
    if encryption_method settings =? 0 then
      let! v := stream_read_uint32 in ret (true, settings <| encryption_method := v |>)
    else ret (true, settings)
  else stream_seek 8;; ret (true, settings).

Definition gcc_write_client_security_data (settings : rdp_settings) : M STREAM unit :=
  gcc_write_user_data_header CS_SECURITY 12;;
  if encryption settings then
    stream_write_uint32 (encryption_method settings);; stream_write_uint32 0
  else
    stream_write_uint32 0;; stream_write_uint32 (encryption_method settings).

(** ** Network data *)

(** [blockLength] is compared with an [int] that may overflow. *)
Fixpoint read_channel_defs (n : nat) (i : Z) (chans : list rdp_channel) : M STREAM (list rdp_channel) :=
  match n with
  | O => ret chans
  | S n' =>
      let! nm := stream_read 8 in
      let! opt := stream_read_uint32 in
      let! c := elem chans i in
      let! chans := elem_set i (c <| name := nm |> <| options := sint32 opt |>
                                  <| channel_id := MCS_GLOBAL_CHANNEL_ID + 1 + i |>) chans in
      read_channel_defs n' (i + 1) chans
  end.

Definition gcc_read_client_network_data (settings : rdp_settings) (blockLength : Z) : M STREAM (bool * rdp_settings) :=
  if blockLength <? 4 then ret (false, settings) else
  let! v := stream_read_uint32 in
  let settings := settings <| num_channels := sint32 v |> in
  let n := num_channels settings in
  if bool_decide (- 2 ^ 31 <= n * 12 /\ 4 + n * 12 <= INT_MAX) then
    if blockLength <? 4 + n * 12 then ret (false, settings)
    else if 16 <? n then ret (false, settings)
    else
      let! chans := read_channel_defs (Z.to_nat n) 0 (channels settings) in
      ret (true, settings <| channels := chans |>)
  else fail SignedOverflow.

Fixpoint write_channel_defs (n : nat) (i : Z) (chans : list rdp_channel) : M STREAM unit :=
  match n with
  | O => ret tt
  | S n' =>
      let! c := elem chans i in
      let! nm := array_prefix (name c) 8 in
      stream_write nm;;
      stream_write_uint32 (options c);;
      write_channel_defs n' (i + 1) chans
  end.

Definition gcc_write_client_network_data (settings : rdp_settings) : M STREAM unit :=
  if 0 <? num_channels settings then
    let length := uint16 (num_channels settings * 12 + 8) in
    gcc_write_user_data_header CS_NET length;;
    stream_write_uint32 (num_channels settings);;
    write_channel_defs (Z.to_nat (num_channels settings)) 0 (channels settings)
  else ret tt.

Fixpoint read_channel_ids (n : nat) (i : Z) (chans : list rdp_channel) : M STREAM (list rdp_channel) :=
  match n with
  | O => ret chans
  | S n' =>
      let! id := stream_read_uint16 in
      let! c := elem chans i in
      let! chans := elem_set i (c <| channel_id := id |>) chans in
      read_channel_ids n' (i + 1) chans
  end.

Definition gcc_read_server_network_data (settings : rdp_settings) : M STREAM (bool * rdp_settings) :=
  let! _MCSChannelId := stream_read_uint16 in
  let! channelCount := stream_read_uint16 in
  let! chans := read_channel_ids (Z.to_nat channelCount) 0 (channels settings) in
  let settings := settings <| channels := chans |> in
  (if channelCount mod 2 =? 1 then stream_seek 2 else ret tt);;
  ret (true, settings).

Fixpoint write_channel_ids (n : nat) (i : Z) (chans : list rdp_channel) : M STREAM unit :=
  match n with
  | O => ret tt
  | S n' =>
      let! c := elem chans i in
      stream_write_uint16 (channel_id c);;
      write_channel_ids n' (i + 1) chans
  end.

Definition gcc_write_server_network_data (settings : rdp_settings) : M STREAM unit :=
  let n := num_channels settings in
  gcc_write_user_data_header SC_NET (8 + n * 2 + (if Z.rem n 2 =? 1 then 2 else 0));;
  stream_write_uint16 MCS_GLOBAL_CHANNEL_ID;;
  stream_write_uint16 n;;
  write_channel_ids (Z.to_nat n) 0 (channels settings);;
  if Z.rem n 2 =? 1 then stream_write_uint16 0 else ret tt.

(** ** Cluster and monitor data *)

Definition gcc_read_client_cluster_data (settings : rdp_settings) (blockLength : Z) : M STREAM (bool * rdp_settings) :=
  if blockLength <? 8 then ret (false, settings) else
  let! flags := stream_read_uint32 in
  if negb (Z.lor flags REDIRECTED_SESSIONID_FIELD_VALID =? 0) then
    let! v := stream_read_uint32 in ret (true, settings <| redirected_session_id := v |>)
  else ret (true, settings).

Definition gcc_write_client_cluster_data (settings : rdp_settings) : M STREAM unit :=
  gcc_write_user_data_header CS_CLUSTER 12;;
  let flags := Z.lor REDIRECTION_SUPPORTED (Z.shiftl REDIRECTION_VERSION4 2) in
  let flags := if console_session settings || negb (redirected_session_id settings =? 0)
               then Z.lor flags REDIRECTED_SESSIONID_FIELD_VALID else flags in
  stream_write_uint32 flags;;
  stream_write_uint32 (redirected_session_id settings).

Definition gcc_read_client_monitor_data (settings : rdp_settings) (blockLength : Z) : M STREAM (bool * rdp_settings) :=
  ret (true, settings).

Fixpoint write_monitors (n : nat) (i : Z) (mons : list rdp_monitor) : M STREAM unit :=
  match n with
  | O => ret tt
  | S n' =>
      let! m := elem mons i in
      stream_write_uint32 (mon_x m);;
      stream_write_uint32 (mon_y m);;
      stream_write_uint32 (mon_x m + mon_width m - 1);;
      stream_write_uint32 (mon_y m + mon_height m - 1);;
      stream_write_uint32 (if negb (is_primary m =? 0) then MONITOR_PRIMARY else 0);;
      write_monitors n' (i + 1) mons
  end.

Definition gcc_write_client_monitor_data (settings : rdp_settings) : M STREAM unit :=
  if 1 <? num_monitors settings then
    let length := uint16 (20 * num_monitors settings + 12) in
    gcc_write_user_data_header CS_MONITOR length;;
    stream_write_uint32 0;;
    stream_write_uint32 (num_monitors settings);;
    write_monitors (Z.to_nat (num_monitors settings)) 0 (monitors settings)
  else ret tt.

Section gcc.
Context `{Crypto} `{Bignum}.

(** ** Server security data *)

Definition gcc_read_server_security_data (settings : rdp_settings) : M STREAM (bool * rdp_settings) :=
  let! v := stream_read_uint32 in let settings := settings <| encryption_method := v |> in
  let! v := stream_read_uint32 in let settings := settings <| encryption_level := v |> in
  if (encryption_method settings =? 0) && (encryption_level settings =? 0) then
    ret (true, settings <| encryption := false |> <| encryption_method := ENCRYPTION_METHOD_NONE |>
                        <| encryption_level := ENCRYPTION_LEVEL_NONE |>)
  else
    let! serverRandomLen := stream_read_uint32 in
    let! serverCertLen := stream_read_uint32 in
    if 0 <? serverRandomLen then
      let! v := stream_read serverRandomLen in
      let settings := settings <| server_random := v |> in
      if 0 <? serverCertLen then
        let! data := stream_read serverCertLen in
        let settings := settings <| server_certificate := data |> in
        let! (ok, cert) := certificate_read_server_certificate certificate_new data (len data) in
        ret (ok, settings <| server_cert := cert |>)
      else ret (false, settings)
    else ret (false, settings).

Definition initial_signature : list Z := replicate 16 0xff ++ [0x00] ++ replicate 45 0xff ++ [0x01].

(** The method the server chooses out of those the client offers. *)
Definition server_encryption (settings : rdp_settings) : rdp_settings :=
  let m := encryption_method settings in
  let settings :=
    if negb (encryption settings) then
      settings <| encryption_method := ENCRYPTION_METHOD_NONE |> <| encryption_level := ENCRYPTION_LEVEL_NONE |>
    else if negb (Z.land m ENCRYPTION_METHOD_FIPS =? 0) then settings <| encryption_method := ENCRYPTION_METHOD_FIPS |>
    else if negb (Z.land m ENCRYPTION_METHOD_128BIT =? 0) then settings <| encryption_method := ENCRYPTION_METHOD_128BIT |>
    else if negb (Z.land m ENCRYPTION_METHOD_40BIT =? 0) then settings <| encryption_method := ENCRYPTION_METHOD_40BIT |>
    else settings in
  if negb (encryption_method settings =? ENCRYPTION_METHOD_NONE)
  then settings <| encryption_level := ENCRYPTION_LEVEL_CLIENT_COMPATIBLE |> else settings.

(** The signed part of the certificate. *)
Definition write_public_key (key : rdp_key) (wPublicKeyBlobLen : Z) : M STREAM unit :=
  let keyLen := len (k_modulus key) in
  stream_write_uint32 CERT_CHAIN_VERSION_1;;
  stream_write_uint32 SIGNATURE_ALG_RSA;;
  stream_write_uint32 KEY_EXCHANGE_ALG_RSA;;
  stream_write_uint16 BB_RSA_KEY_BLOB;;
  stream_write_uint16 wPublicKeyBlobLen;;
  stream_write RSA1;;
  stream_write_uint32 (keyLen + 8);;
  stream_write_uint32 (keyLen * 8);;
  stream_write_uint32 (keyLen - 1);;
  let! e := array_prefix (k_exponent key) 4 in
  stream_write e;;
  stream_write (k_modulus key);;
  stream_write_zero 8.

(** The certificate, signed with the key of the terminal services. *)
Definition write_server_certificate (key : rdp_key) (wPublicKeyBlobLen : Z) : M STREAM unit :=
  let keyLen := len (k_modulus key) in
  let! s := get in
  let sigData := stream_get_pos s in
  write_public_key key wPublicKeyBlobLen;;
  let! s := get in
  let sigDataLen := stream_get_pos s - sigData in
  stream_write_uint16 BB_RSA_SIGNATURE_BLOB;;
  stream_write_uint16 (keyLen + 8);;
  let! data := mem sigData sigDataLen (s_data s) in
  let! signature := mem_put 0 (md5 data) initial_signature in
  let! encryptedSignature := crypto_rsa_private_encrypt signature (len signature) TSSK_KEY_LENGTH
                               tssk_modulus tssk_privateExponent (replicate (Z.to_nat TSSK_KEY_LENGTH) 0) in
  stream_write encryptedSignature;;
  stream_write_zero 8.

(** [nonce] is what [crypto_nonce] puts into the server random. *)
Definition gcc_write_server_security_data (nonce : list Z) (settings : rdp_settings) : M STREAM rdp_settings :=
  let settings := server_encryption settings in
  let none := (encryption_method settings =? ENCRYPTION_METHOD_NONE) && (encryption_level settings =? ENCRYPTION_LEVEL_NONE) in
  if none then
    gcc_write_user_data_header SC_SECURITY 12;;
    stream_write_uint32 (encryption_method settings);;
    stream_write_uint32 (encryption_level settings);;
    ret settings
  else
    match server_key settings with
    | None => fail NullPointer
    | Some key =>
        let serverRandomLen := 32 in
        let keyLen := len (k_modulus key) in
        let expLen := 4 in
        let wPublicKeyBlobLen := 4 + 4 + 4 + 4 + expLen + keyLen + 8 in
        let serverCertLen := 4 + 4 + 4 + 2 + 2 + wPublicKeyBlobLen + 2 + 2 + TSSK_KEY_LENGTH + 8 in
        let headerLen := 12 + 4 + 4 + serverRandomLen + serverCertLen in
        gcc_write_user_data_header SC_SECURITY headerLen;;
        stream_write_uint32 (encryption_method settings);;
        stream_write_uint32 (encryption_level settings);;
        stream_write_uint32 serverRandomLen;;
        stream_write_uint32 serverCertLen;;
        let! random := array_prefix nonce serverRandomLen in
        let settings := settings <| server_random := random |> in
        stream_write random;;
        write_server_certificate key wPublicKeyBlobLen;;
        ret settings
    end.

(** ** Data blocks *)

(** One block of the client, the header read. *)
Definition read_client_block (type blockLength : Z) (settings : rdp_settings) : M STREAM (bool * rdp_settings) :=
  let n := uint16 (blockLength - 4) in
  if type =? CS_CORE then gcc_read_client_core_data settings n
  else if type =? CS_SECURITY then gcc_read_client_security_data settings n
  else if type =? CS_NET then gcc_read_client_network_data settings n
  else if type =? CS_CLUSTER then gcc_read_client_cluster_data settings n
  else if type =? CS_MONITOR then gcc_read_client_monitor_data settings n
  else ret (true, settings).

(** The result of the header reader is not looked at. A block of length zero
    brings the loop back to where it was; all others make [length] smaller. *)
Fixpoint read_client_blocks (fuel : nat) (length : Z) (settings : rdp_settings) : M STREAM (bool * rdp_settings) :=
  if 0 <? length then
    match fuel with
    | O => fail Diverges
    | S fuel' =>
        let! s := get in
        let pos := stream_get_pos s in
        let! (_, type, blockLength) := gcc_read_user_data_header in
        let! (ok, settings) := read_client_block type blockLength settings in
        if negb ok then ret (false, settings) else
        stream_set_pos (pos + blockLength);;
        read_client_blocks fuel' (length - blockLength) settings
    end
  else ret (true, settings).

Definition gcc_read_client_data_blocks (settings : rdp_settings) (length : Z) : M STREAM (bool * rdp_settings) :=
  read_client_blocks (Z.to_nat length) length settings.

Definition gcc_write_client_data_blocks (settings : rdp_settings) : M STREAM unit :=
  gcc_write_client_core_data settings;;
  gcc_write_client_cluster_data settings;;
  gcc_write_client_security_data settings;;
  gcc_write_client_network_data settings;;
  if negb (negotiationFlags settings =? 0) then gcc_write_client_monitor_data settings else ret tt.

Definition read_server_block (type : Z) (settings : rdp_settings) : M STREAM (bool * rdp_settings) :=
  if type =? SC_CORE then gcc_read_server_core_data settings
  else if type =? SC_SECURITY then gcc_read_server_security_data settings
  else if type =? SC_NET then gcc_read_server_network_data settings
  else ret (true, settings).

(** [offset] is an [uint16] and may wrap around; a block takes at least four
    bytes, and the header reader refuses a block that ends behind the stream. *)
Fixpoint read_server_blocks (fuel : nat) (offset length : Z) (settings : rdp_settings) : M STREAM (bool * rdp_settings) :=
  if offset <? length then
    match fuel with
    | O => fail Diverges
    | S fuel' =>
        let! s := get in
        let holdp := stream_get_pos s in
        let! (ok, type, blockLength) := gcc_read_user_data_header in
        if negb ok then ret (false, settings) else
        let! (ok, settings) := read_server_block type settings in
        if negb ok then ret (false, settings) else
        stream_set_pos (holdp + blockLength);;
        read_server_blocks fuel' (uint16 (offset + blockLength)) length settings
    end
  else ret (true, settings).

Definition gcc_read_server_data_blocks (settings : rdp_settings) (length : Z) : M STREAM (bool * rdp_settings) :=
  let! s := get in
  read_server_blocks (S (Z.to_nat (stream_get_left s))) 0 length settings.

Definition gcc_write_server_data_blocks (nonce : list Z) (settings : rdp_settings) : M STREAM rdp_settings :=
  gcc_write_server_core_data settings;;
  gcc_write_server_network_data settings;;
  gcc_write_server_security_data nonce settings.

(** ** Conference Create *)

Definition t124_02_98_oid : list Z := [0; 0; 20; 124; 0; 1].
Definition h221_cs_key : list Z := [0x44; 0x75; 0x63; 0x61].
Definition h221_sc_key : list Z := [0x4D; 0x63; 0x44; 0x6E].

Definition gcc_read_conference_create_request (settings : rdp_settings) : M STREAM (bool * rdp_settings) :=
  let! (ok, _) := per_read_choice in
  if negb ok then ret (false, settings) else
  let! ok := per_read_object_identifier t124_02_98_oid in
  if negb ok then ret (false, settings) else
  let! (ok, length) := per_read_length None in
  if negb ok then ret (false, settings) else
  let! (ok, _) := per_read_choice in
  if negb ok then ret (false, settings) else
  let! (ok, _) := per_read_selection in
  if negb ok then ret (false, settings) else
  let! ok := per_read_numeric_string 1 in
  if negb ok then ret (false, settings) else
  let! ok := per_read_padding 1 in
  if negb ok then ret (false, settings) else
  let! (ok, number) := per_read_number_of_sets in
  if negb ok || negb (number =? 1) then ret (false, settings) else
  let! (ok, choice) := per_read_choice in
  if negb ok || negb (choice =? 0xC0) then ret (false, settings) else
  let! ok := per_read_octet_string h221_cs_key 4 4 in
  if negb ok then ret (false, settings) else
  let! (ok, length) := per_read_length length in
  if negb ok then ret (false, settings) else
  let! length := use length in
  let! avail := left_bytes in
  if avail <? length then ret (false, settings) else
  gcc_read_client_data_blocks settings length.

Definition gcc_write_conference_create_request (user_data : STREAM) : M STREAM unit :=
  per_write_choice 0;;
  per_write_object_identifier t124_02_98_oid;;
  per_write_length (stream_get_length user_data + 14);;
  per_write_choice 0;;
  per_write_selection 0x08;;
  per_write_numeric_string [0x31] 1 1;;
  per_write_padding 1;;
  per_write_number_of_sets 1;;
  per_write_choice 0xC0;;
  per_write_octet_string h221_cs_key 4 4;;
  per_write_octet_string (s_data user_data) (stream_get_length user_data) 0.

Definition gcc_read_conference_create_response (settings : rdp_settings) : M STREAM (bool * rdp_settings) :=
  per_read_choice;;
  per_read_object_identifier t124_02_98_oid;;
  let! (_, length) := per_read_length None in
  per_read_choice;;
  per_read_integer16 1001;;
  per_read_integer None;;
  per_read_enumerated None MCS_Result_enum_length;;
  per_read_number_of_sets;;
  per_read_choice;;
  let! ok := per_read_octet_string h221_sc_key 4 4 in
  if negb ok then ret (false, settings) else
  let! (_, length) := per_read_length length in
  let! length := use length in
  gcc_read_server_data_blocks settings length.

Definition gcc_write_conference_create_response (user_data : STREAM) : M STREAM unit :=
  per_write_choice 0;;
  per_write_object_identifier t124_02_98_oid;;
  per_write_length (stream_get_length user_data + 2);;
  per_write_choice 0x14;;
  per_write_integer16 0x79F3 1001;;
  per_write_integer 1;;
  per_write_enumerated 0 MCS_Result_enum_length;;
  per_write_number_of_sets 1;;
  per_write_choice 0xC0;;
  per_write_octet_string h221_sc_key 4 4;;
  per_write_octet_string (s_data user_data) (stream_get_length user_data) 0.

End gcc.
