(* ===== verification/GccClient.v ===== *)
(** The conference data of a client: what [gcc.c] writes for a client is what the
    server reads, block by block and through the MCS Connect-Initial. *)

From coqutil Require Import Datatypes.RecordSetters.
From S2P Require Import Prelude.
From S2P Require Import Stream.
From S2P Require Import Settings.
From S2P Require Import Ber.
From S2P Require Import Per.
From S2P Require Import X224.
From S2P Require Import Transport.
From S2P Require Import Mcs.
From S2P Require Import Security.
From S2P Require Import Unicode.
From S2P Require Import Rsa.
From S2P Require Import Certificate.
From S2P Require Import Gcc.
Import TriangleBracketNotations.

(** ** Texts in fields of fixed size *)

Definition text_field (size : Z) (str : list Z) : list Z :=
  let n := Z.min (len str) (size - 2) in take (Z.to_nat n) str ++ [0; 0] ++ zeros (size - n - 2).

Lemma Writes_zero n : 0 <= n -> Writes (stream_write_zero n) (zeros n) tt.
Proof. intros Hn. unfold stream_write_zero. branch. apply Writes_store. Qed.

Lemma Writes_text size str : 2 <= size -> Writes (write_text size str) (text_field size str) tt.
Proof.
  intros Hs. unfold write_text, text_field.
  replace (if size - 2 <? len str then size - 2 else len str) with (Z.min (len str) (size - 2))
    by (destruct (Z.ltb_spec (size - 2) (len str)); lia).
  rewrite app_assoc. eapply Writes_bind; [apply Writes_store|]. apply Writes_zero. lia.
Qed.

Lemma len_text_field size str : 2 <= size -> len (text_field size str) = size.
Proof.
  intros Hs. unfold text_field. rewrite !len_app, len_zeros by lia. pose proof (len_nonneg str).
  unfold len at 1. rewrite length_take. unfold len in *. cbn [length]. lia.
Qed.

Lemma utf16_even t : exists k, length (utf16_text t) = (2 * k)%nat.
Proof.
  induction t as [|cp t [k IH]]; [exists 0%nat; reflexivity|].
  assert (E : utf16_text (cp :: t) = utf16le cp ++ utf16_text t) by reflexivity. rewrite E, length_app, IH.
  unfold utf16le, unit16. destruct (cp <? 0x10000); [exists (1 + k)%nat|exists (2 + k)%nat]; cbn [app length]; lia.
Qed.

(** The field, when the text fits, is the text and an even number of zeros. *)
Lemma text_field_fits n t : len (utf16_text t) <= 2 * Z.of_nat n - 2 ->
  exists k, text_field (2 * Z.of_nat n) (utf16_text t) = utf16_text t ++ replicate (2 * k) 0.
Proof.
  intros Hl. destruct (utf16_even t) as [u Hu]. unfold text_field. rewrite Z.min_l by lia.
  exists (n - u)%nat. unfold len. rewrite Nat2Z.id, take_ge by lia. f_equal. unfold zeros, len in *.
  replace (2 * (n - u))%nat with (S (S (2 * (n - u) - 2))) by lia. cbn [replicate app]. do 3 f_equal. lia.
Qed.

Lemma Reads_text n t : Forall scalar t -> len (utf16_text t) <= 2 * Z.of_nat n - 2 ->
  exists k, Reads (read_text (2 * Z.of_nat n)) (text_field (2 * Z.of_nat n) (utf16_text t)) (utf8_text t ++ replicate k 0).
Proof.
  intros Ht Hl. destruct (text_field_fits n t Hl) as [k E]. exists k. unfold read_text.
  eapply Reads_last; [apply Reads_read; symmetry; apply len_text_field; pose proof (len_nonneg (utf16_text t)); lia|].
  rewrite E. intros s _. unfold lift. rewrite uniconv_in_padded by exact Ht. rewrite adv_0. reflexivity.
Qed.

Lemma c_string_padded l k : Forall (fun b => b <> 0) l -> c_string (l ++ replicate k 0) = l.
Proof.
  induction 1 as [|b l Hb _ IH]; [destruct k; reflexivity|]. cbn [app c_string].
  rewrite (proj2 (Z.eqb_neq b 0) Hb), IH. reflexivity.
Qed.

Lemma snprintf_text t k : Forall scalar t -> len (utf8_text t) <= 31 -> snprintf 32 (utf8_text t ++ replicate k 0) = utf8_text t.
Proof.
  intros Ht Hl. unfold snprintf. rewrite c_string_padded by (apply utf8_nonzero, Ht).
  apply take_ge. unfold len in Hl. lia.
Qed.

(** ** Client core data *)

(** The values the client reports. *)
Definition core_version (c : rdp_settings) : Z := if 5 <=? rdp_version c then RDP_VERSION_5_PLUS else RDP_VERSION_4.
Definition core_connection_type (c : rdp_settings) : Z :=
  if rfx_codec c then CONNECTION_TYPE_LAN else uint8 (connection_type c).
Definition core_high_color (c : rdp_settings) : Z := uint16 (Z.min (color_depth c) 24).
Definition core_supported (c : rdp_settings) : Z :=
  let s := Z.lor (Z.lor RNS_UD_24BPP_SUPPORT RNS_UD_16BPP_SUPPORT) RNS_UD_15BPP_SUPPORT in
  if color_depth c =? 32 then Z.lor s RNS_UD_32BPP_SUPPORT else s.
Definition core_early (c : rdp_settings) : Z :=
  let f := if negb (core_connection_type c =? 0)
           then Z.lor RNS_UD_CS_SUPPORT_ERRINFO_PDU RNS_UD_CS_VALID_CONNECTION_TYPE else RNS_UD_CS_SUPPORT_ERRINFO_PDU in
  if color_depth c =? 32 then Z.lor f RNS_UD_CS_WANT_32BPP_SESSION else f.

Definition core_required (c : rdp_settings) (host : list Z) : list Z :=
  le32 (core_version c) ++ le16 (width c) ++ le16 (height c) ++ le16 RNS_UD_COLOR_8BPP ++ le16 RNS_UD_SAS_DEL ++
  le32 (kbd_layout c) ++ le32 (client_build c) ++ text_field 32 (utf16_text host) ++
  le32 (kbd_type c) ++ le32 (kbd_subtype c) ++ le32 (kbd_fn_keys c) ++ zeros 64.
Definition core_options (c : rdp_settings) (prod : list Z) : list Z :=
  le16 RNS_UD_COLOR_8BPP ++ le16 1 ++ le32 0 ++ le16 (core_high_color c) ++ le16 (core_supported c) ++
  le16 (core_early c) ++ text_field 64 (utf16_text prod) ++ [core_connection_type c] ++ [0] ++ le32 (selected_protocol c).
Definition core_bytes (c : rdp_settings) (host prod : list Z) : list Z := core_required c host ++ core_options c prod.

Record channel_ok (ch : rdp_channel) : Prop := {
  ok_name : len (name ch) = 8;
  ok_name_bytes : is_bytes (name ch);
  ok_options : - 2 ^ 31 <= options ch < 2 ^ 31;
}.

(** A client whose fields are in their ranges and whose name and product are
    texts that fit into the fields of the protocol. *)
Record client_ok (c : rdp_settings) (host prod : list Z) : Prop := {
  ok_width : 0 <= width c < 65536;
  ok_height : 0 <= height c < 65536;
  ok_depth : 0 < color_depth c;
  ok_kbd_layout : 0 <= kbd_layout c < 2 ^ 32;
  ok_kbd_type : 0 <= kbd_type c < 2 ^ 32;
  ok_kbd_subtype : 0 <= kbd_subtype c < 2 ^ 32;
  ok_kbd_fn_keys : 0 <= kbd_fn_keys c < 2 ^ 32;
  ok_build : 0 <= client_build c < 2 ^ 32;
  ok_selected : 0 <= selected_protocol c < 2 ^ 32;
  ok_session : 0 <= redirected_session_id c < 2 ^ 32;
  ok_method : 0 <= encryption_method c < 2 ^ 32;
  ok_hostname : client_hostname c = utf8_text host;
  ok_host : Forall scalar host;
  ok_host8 : len (utf8_text host) <= 31;
  ok_host16 : len (utf16_text host) <= 30;
  ok_product : client_product_id c = utf8_text prod;
  ok_prod : Forall scalar prod;
  ok_prod8 : len (utf8_text prod) <= 31;
  ok_prod16 : len (utf16_text prod) <= 62;
  ok_num_channels : 0 <= num_channels c <= 16;
  ok_channels_len : length (channels c) = 16%nat;
  ok_channels : Forall channel_ok (channels c);
  ok_num_monitors : num_monitors c <= 16;
  ok_monitors_len : length (monitors c) = 16%nat;
}.

(** What the server knows of the client after reading its core data. *)
Definition core_view (c sv : rdp_settings) : rdp_settings :=
  sv <| rdp_version := if 5 <=? rdp_version c then 7 else 4 |> <| width := width c |> <| height := height c |>
     <| kbd_layout := kbd_layout c |> <| client_build := client_build c |> <| client_hostname := client_hostname c |>
     <| kbd_type := kbd_type c |> <| kbd_subtype := kbd_subtype c |> <| kbd_fn_keys := kbd_fn_keys c |>
     <| client_product_id := client_product_id c |> <| performance_flags := core_connection_type c |>
     <| color_depth := Z.min (color_depth c) 24 |>.

Lemma Writes_lift {A} (o : outcome A) a : o = Done a -> Writes (lift o) [] a.
Proof. intros -> s _. unfold lift. rewrite put_nil. reflexivity. Qed.

Lemma Writes_first {A B} (w : M STREAM A) (k : A -> M STREAM B) cs a b :
  Writes w [] a -> Writes (k a) cs b -> Writes (bind w k) cs b.
Proof. intros Hw Hk. exact (Writes_bind w k [] cs a b Hw Hk). Qed.

Definition block (type : Z) (body : list Z) : list Z := le16 type ++ le16 (4 + len body) ++ body.

Lemma Writes_header type n : Writes (gcc_write_user_data_header type n) (le16 type ++ le16 n) tt.
Proof. eapply Writes_bind; apply Writes_uint16. Qed.

#[export] Hint Resolve Writes_header : writes.

Lemma len_core_bytes c host prod : len (core_bytes c host prod) = 212.
Proof.
  unfold core_bytes, core_required, core_options. rewrite !len_app, !len_text_field by lia. reflexivity.
Qed.

Lemma Writes_core c host prod : client_ok c host prod ->
  Writes (gcc_write_client_core_data c) (block CS_CORE (core_bytes c host prod)) tt.
Proof.
  intros [? ? ? ? ? ? ? ? ? ? ? Eh Hh Lh _ Ep Hp Lp _ ? ? ? ? ?]. unfold gcc_write_client_core_data, block. rewrite len_core_bytes.
  unfold core_bytes, core_required, core_options. rewrite <- !app_assoc, (app_assoc (le16 CS_CORE)).
  pose proof (uniconv_out_text host Hh ltac:(lia)) as E1. pose proof (uniconv_out_text prod Hp ltac:(lia)) as E2.
  rewrite <- Eh in E1. rewrite <- Ep in E2.
  eapply Writes_bind; [apply Writes_header|].
  eapply Writes_first; [apply Writes_lift, E1|]. eapply Writes_first; [apply Writes_lift, E2|].
  do 7 (eapply Writes_bind; [auto with writes|]). eapply Writes_bind; [apply Writes_text; lia|].
  do 3 (eapply Writes_bind; [auto with writes|]). eapply Writes_bind; [apply Writes_zero; lia|].
  do 3 (eapply Writes_bind; [auto with writes|]). unfold core_supported, core_early, core_connection_type.
  destruct (color_depth c =? 32); do 3 (eapply Writes_bind; [apply Writes_uint16|]);
    (eapply Writes_bind; [apply Writes_text; lia|]);
    (eapply Writes_bind; [eapply Writes_eq; [apply Writes_uint8| |reflexivity]|
     eapply Writes_bind; [apply Writes_uint8|apply Writes_uint32]]);
    destruct (rfx_codec c); unfold uint8; rewrite ?Z.mod_mod by lia; reflexivity.
Qed.

Lemma Reads_core_optional sv c prod : 0 < color_depth c -> 0 <= selected_protocol c < 2 ^ 32 ->
  selected_protocol sv = selected_protocol c ->
  client_product_id c = utf8_text prod -> Forall scalar prod -> len (utf8_text prod) <= 31 -> len (utf16_text prod) <= 62 ->
  Reads (core_optional 84 sv) (core_options c prod)
    (true, RNS_UD_COLOR_8BPP, core_high_color c,
     sv <| client_product_id := client_product_id c |> <| performance_flags := core_connection_type c |>).
Proof.
  intros Hd Hsel Es Ep Hp Lp Lp'. unfold core_optional, core_options.
  assert (Hh : 0 <= core_high_color c < 65536) by (unfold core_high_color, uint16; apply Z.mod_pos_bound; lia).
  assert (Hsup : 0 <= core_supported c < 65536) by (unfold core_supported; destruct (_ =? 32); split; discriminate || reflexivity).
  assert (Hear : 0 <= core_early c < 65536)
    by (unfold core_early; destruct (negb _), (_ =? 32); split; discriminate || reflexivity).
  destruct (Reads_text 32 prod Hp ltac:(lia)) as [k Ht].
  branch. eapply Reads_bind; [apply Reads_le16; split; discriminate || reflexivity|].
  branch. eapply Reads_bind; [apply Reads_seek; reflexivity|].
  branch. eapply Reads_bind; [apply Reads_seek; reflexivity|].
  branch. eapply Reads_bind; [apply Reads_le16; exact Hh|].
  branch. eapply Reads_bind; [apply Reads_le16; exact Hsup|].
  branch. eapply Reads_bind; [apply Reads_le16; exact Hear|].
  branch. eapply Reads_bind; [exact Ht|]. rewrite snprintf_text, <- Ep by assumption.
  branch. eapply Reads_bind; [apply Reads_uint8|].
  branch. eapply Reads_bind; [apply Reads_seek; reflexivity|].
  branch. eapply Reads_last; [apply Reads_le32; exact Hsel|].
  eapply Reads_eq; [apply Reads_ret|reflexivity|]. cbn [selected_protocol apply_update]. rewrite <- Es.
  change (selected_protocol (apply_update _ (apply_update _ sv))) with (selected_protocol sv). rewrite Z.eqb_refl. reflexivity.
Qed.

Lemma Reads_core sv c host prod : client_ok c host prod -> selected_protocol sv = selected_protocol c ->
  Reads (gcc_read_client_core_data sv 212) (core_bytes c host prod) (true, core_view c sv).
Proof.
  intros [] Es. unfold gcc_read_client_core_data, core_bytes, core_required. branch. rewrite <- !app_assoc.
  destruct (Reads_text 16 host ok_host0 ltac:(lia)) as [k Ht].
  eapply Reads_bind; [apply Reads_le32; unfold core_version; destruct (5 <=? _); split; discriminate || reflexivity|].
  do 2 (eapply Reads_bind; [apply Reads_le16; assumption|]).
  eapply Reads_bind; [apply Reads_le16; split; discriminate || reflexivity|].
  eapply Reads_bind; [apply Reads_seek; reflexivity|].
  do 2 (eapply Reads_bind; [apply Reads_le32; assumption|]).
  eapply Reads_bind; [exact Ht|]. rewrite snprintf_text, <- ok_hostname0 by assumption.
  do 3 (eapply Reads_bind; [apply Reads_le32; assumption|]).
  eapply Reads_bind; [apply Reads_seek; reflexivity|].
  eapply Reads_last; [apply Reads_core_optional; eauto|]. cbn [negb].
  assert (Hh : core_high_color c = Z.min (color_depth c) 24)
    by (unfold core_high_color, uint16; apply Z.mod_small; lia).
  unfold core_color_depth. rewrite Hh, (proj2 (Z.ltb_lt 0 _)) by lia.
  eapply Reads_eq; [apply Reads_ret|reflexivity|]. unfold core_view, core_version.
  destruct (5 <=? rdp_version c); reflexivity.
Qed.

(** ** The other client blocks *)

Definition security_bytes (c : rdp_settings) : list Z :=
  if encryption c then le32 (encryption_method c) ++ le32 0 else le32 0 ++ le32 (encryption_method c).
Definition cluster_flags (c : rdp_settings) : Z :=
  let flags := Z.lor REDIRECTION_SUPPORTED (Z.shiftl REDIRECTION_VERSION4 2) in
  if console_session c || negb (redirected_session_id c =? 0)
  then Z.lor flags REDIRECTED_SESSIONID_FIELD_VALID else flags.
Definition cluster_bytes (c : rdp_settings) : list Z := le32 (cluster_flags c) ++ le32 (redirected_session_id c).

Lemma Writes_security c : Writes (gcc_write_client_security_data c) (block CS_SECURITY (security_bytes c)) tt.
Proof.
  unfold gcc_write_client_security_data, block, security_bytes. rewrite app_assoc.
  eapply Writes_bind; [destruct (encryption c); apply (Writes_header CS_SECURITY 12)|].
  destruct (encryption c); eapply Writes_bind; apply Writes_uint32.
Qed.

Lemma Writes_cluster c : Writes (gcc_write_client_cluster_data c) (block CS_CLUSTER (cluster_bytes c)) tt.
Proof.
  unfold gcc_write_client_cluster_data, block, cluster_bytes. rewrite app_assoc.
  eapply Writes_bind; [apply (Writes_header CS_CLUSTER 12)|]. eapply Writes_bind; apply Writes_uint32.
Qed.

(** A reader that ends somewhere in the bytes, or behind them. *)
Definition Parses {A} (r : M STREAM A) (bs : list Z) (a : A) : Prop :=
  forall s, holds s bs -> exists j, r s = Done (a, adv j s).

Lemma Parses_Reads {A} (r : M STREAM A) bs a : Reads r bs a -> Parses r bs a.
Proof. intros Hr s Hs. eauto. Qed.

Lemma Parses_prefix {A} (r : M STREAM A) bs cs a : Reads r bs a -> Parses r (bs ++ cs) a.
Proof. intros Hr s Hs. destruct (holds_app _ _ _ Hs) as [Hs1 _]. eauto. Qed.

(** The offer of the client as a server that encrypts understands it. *)
Definition security_view (c sv : rdp_settings) : rdp_settings :=
  if encryption sv then sv <| encryption_method := encryption_method c |> else sv.

Lemma Parses_security sv c : 0 <= encryption_method c < 2 ^ 32 ->
  Parses (gcc_read_client_security_data sv 8) (security_bytes c) (true, security_view c sv).
Proof.
  intros Hm. unfold gcc_read_client_security_data, security_bytes, security_view. branch.
  destruct (encryption sv) eqn:Es.
  - destruct (encryption c).
    + destruct (Z.eqb_spec (encryption_method c) 0) as [E0|Hne].
      * apply Parses_Reads. eapply Reads_bind; [apply Reads_le32; exact Hm|].
        change (encryption_method (apply_update (mk_update encryption_method (constant ?v)) sv)) with v.
        rewrite E0. cbn [Z.eqb]. eapply Reads_last; [apply Reads_le32; lia|]. apply Reads_ret.
      * apply Parses_prefix. eapply Reads_last; [apply Reads_le32; exact Hm|].
        change (encryption_method (apply_update (mk_update encryption_method (constant ?v)) sv)) with v.
        rewrite (proj2 (Z.eqb_neq _ 0) Hne). apply Reads_ret.
    + apply Parses_Reads. eapply Reads_bind; [apply Reads_le32; lia|].
      change (encryption_method (apply_update (mk_update encryption_method (constant ?v)) sv)) with v.
      cbn [Z.eqb]. eapply Reads_last; [apply Reads_le32; exact Hm|]. apply Reads_ret.
  - apply Parses_Reads. eapply Reads_last; [apply Reads_seek; destruct (encryption c); reflexivity|apply Reads_ret].
Qed.

Definition cluster_view (c sv : rdp_settings) : rdp_settings := sv <| redirected_session_id := redirected_session_id c |>.

Lemma Reads_cluster sv c : 0 <= redirected_session_id c < 2 ^ 32 ->
  Reads (gcc_read_client_cluster_data sv 8) (cluster_bytes c) (true, cluster_view c sv).
Proof.
  intros Hr. unfold gcc_read_client_cluster_data, cluster_bytes. branch.
  assert (Hf : 0 <= cluster_flags c < 2 ^ 32 /\ (Z.lor (cluster_flags c) REDIRECTED_SESSIONID_FIELD_VALID =? 0) = false).
  { unfold cluster_flags. destruct (_ || _); repeat split; discriminate || reflexivity. }
  eapply Reads_bind; [apply Reads_le32, Hf|]. rewrite (proj2 Hf). cbn [negb].
  eapply Reads_last; [apply Reads_le32; exact Hr|]. apply Reads_ret.
Qed.

(** *** Channels *)

Definition channel_def (ch : rdp_channel) : list Z := name ch ++ le32 (options ch mod 2 ^ 32).
Definition network_bytes (chans : list rdp_channel) : list Z := le32 (len chans) ++ concat (map channel_def chans).

Lemma le32_mod v : le32 v = le32 (v mod 2 ^ 32).
Proof. unfold le32. arith_bits. cons_eq; dlia. Qed.

Lemma elem_mid {S A} (pre : list A) o post : elem (S := S) (pre ++ o :: post) (len pre) = ret o.
Proof.
  unfold elem. rewrite (proj2 (Z.leb_le 0 _)) by apply len_nonneg. unfold len. rewrite Nat2Z.id.
  rewrite list_lookup_middle by reflexivity. reflexivity.
Qed.

Lemma Writes_channel_defs pre chans post : Forall channel_ok chans ->
  Writes (write_channel_defs (length chans) (len pre) (pre ++ chans ++ post)) (concat (map channel_def chans)) tt.
Proof.
  intros Hc. revert pre. induction Hc as [|ch chans [Hn _ Ho] _ IH]; intros pre; [apply Writes_ret|].
  cbn [length write_channel_defs map concat].
  cbn [app]. rewrite elem_mid. eapply Writes_first; [apply Writes_ret|].
  eapply Writes_first; [apply Writes_array_prefix; lia|]. rewrite take_ge by (unfold len in Hn; lia).
  unfold channel_def. rewrite <- app_assoc. eapply Writes_bind; [apply Writes_write|].
  rewrite <- le32_mod. eapply Writes_bind; [apply Writes_uint32|].
  replace (len pre + 1) with (len (pre ++ [ch])) by llia.
  replace (pre ++ ch :: chans ++ post) with ((pre ++ [ch]) ++ chans ++ post) by (rewrite <- app_assoc; reflexivity).
  apply IH.
Qed.

(** The channels of the server after the announcement: names and options of the
    client's, numbered from the one after the global channel. *)
Fixpoint take_over (i : Z) (chans old : list rdp_channel) : list rdp_channel :=
  match chans, old with
  | ch :: chans', o :: old' =>
      (o <| name := name ch |> <| options := options ch |> <| channel_id := MCS_GLOBAL_CHANNEL_ID + 1 + i |>)
        :: take_over (i + 1) chans' old'
  | _, _ => old
  end.

Lemma elem_set_mid {S A} (pre : list A) o o' post : elem_set (S := S) (len pre) o' (pre ++ o :: post) = ret (pre ++ o' :: post).
Proof.
  unfold elem_set. rewrite (proj2 (Z.leb_le 0 _)) by apply len_nonneg.
  rewrite (proj2 (Z.ltb_lt _ _)) by (rewrite len_app, len_cons; len_pos; lia). cbn [andb].
  unfold len. rewrite Nat2Z.id, (insert_app_r_alt pre) by lia. rewrite Nat.sub_diag. reflexivity.
Qed.

Lemma sint32_mod v : - 2 ^ 31 <= v < 2 ^ 31 -> sint32 (v mod 2 ^ 32) = v.
Proof. intros Hv. unfold sint32. arith_bits. change (2 ^ 31) with 2147483648 in *. dlia. Qed.

Lemma Reads_first {A B} (a : A) (k : A -> M STREAM B) cs b : Reads (k a) cs b -> Reads (bind (ret a) k) cs b.
Proof. intros H s Hs. rewrite bind_ret. apply H, Hs. Qed.

Lemma Reads_channel_defs chans : Forall channel_ok chans -> forall pre old, (length chans <= length old)%nat ->
  Reads (read_channel_defs (length chans) (len pre) (pre ++ old)) (concat (map channel_def chans))
    (pre ++ take_over (len pre) chans old).
Proof.
  induction 1 as [|ch chans [Hn _ Ho] _ IH]; intros pre old Hl.
  - destruct old; apply Reads_ret.
  - destruct old as [|o old]; [cbn in Hl; lia|]. cbn [length read_channel_defs map concat take_over]. unfold channel_def.
    rewrite <- app_assoc. eapply Reads_bind; [apply Reads_read; auto|].
    eapply Reads_bind; [apply Reads_le32; apply Z.mod_pos_bound; lia|].
    rewrite elem_mid. apply Reads_first. rewrite elem_set_mid. apply Reads_first. rewrite sint32_mod by exact Ho.
    set (o' := apply_update _ _). replace (len pre + 1) with (len (pre ++ [o'])) by llia.
    replace (pre ++ o' :: old) with ((pre ++ [o']) ++ old) by (rewrite <- app_assoc; reflexivity).
    eapply Reads_eq; [apply IH; cbn in Hl; lia|reflexivity|]. rewrite <- app_assoc. reflexivity.
Qed.

Definition client_channels (c : rdp_settings) : list rdp_channel := take (Z.to_nat (num_channels c)) (channels c).

Definition network_view (c sv : rdp_settings) : rdp_settings :=
  if 0 <? num_channels c
  then sv <| num_channels := num_channels c |> <| channels := take_over 0 (client_channels c) (channels sv) |> else sv.

Lemma len_channel_defs chans : Forall channel_ok chans -> len (concat (map channel_def chans)) = 12 * len chans.
Proof.
  induction 1 as [|ch chans [Hn _ _] _ IH]; [reflexivity|]. cbn [map concat]. unfold channel_def at 1.
  rewrite !len_app, len_cons, Hn, IH. unfold le32. unfold len at 1. cbn [length]. lia.
Qed.

Lemma len_client_channels c host prod : client_ok c host prod -> len (client_channels c) = num_channels c.
Proof. intros []. unfold client_channels, len. rewrite length_take. lia. Qed.

Lemma client_channels_ok c host prod : client_ok c host prod -> Forall channel_ok (client_channels c).
Proof. intros []. apply Forall_take. assumption. Qed.

Lemma len_network_bytes chans : Forall channel_ok chans -> len (network_bytes chans) = 4 + 12 * len chans.
Proof. intros Hc. unfold network_bytes. rewrite len_app, len_channel_defs by exact Hc. reflexivity. Qed.

Lemma Writes_network c host prod : client_ok c host prod ->
  Writes (gcc_write_client_network_data c)
    (if 0 <? num_channels c then block CS_NET (network_bytes (client_channels c)) else []) tt.
Proof.
  intros Hc. pose proof (len_client_channels c host prod Hc) as Hl. pose proof (client_channels_ok c host prod Hc) as Hok.
  pose proof (ok_num_channels _ _ _ Hc). unfold gcc_write_client_network_data.
  destruct (Z.ltb_spec 0 (num_channels c)); [|apply Writes_ret].
  unfold block. rewrite len_network_bytes, Hl, app_assoc by exact Hok.
  replace (uint16 (num_channels c * 12 + 8)) with (4 + (4 + 12 * num_channels c))
    by (unfold uint16; rewrite Z.mod_small; lia).
  eapply Writes_bind; [apply Writes_header|]. unfold network_bytes. rewrite Hl.
  eapply Writes_bind; [apply Writes_uint32|].
  pose proof (Writes_channel_defs [] (client_channels c) (drop (Z.to_nat (num_channels c)) (channels c)) Hok) as E.
  cbn [app] in E. unfold client_channels in E at 2. rewrite take_drop in E.
  replace (Z.to_nat (num_channels c)) with (length (client_channels c)) by (unfold len in Hl; lia). exact E.
Qed.

Lemma Reads_network sv c host prod : client_ok c host prod -> 0 < num_channels c -> length (channels sv) = 16%nat ->
  Reads (gcc_read_client_network_data sv (4 + 12 * num_channels c)) (network_bytes (client_channels c))
    (true, network_view c sv).
Proof.
  intros Hc Hn Hsv. pose proof (len_client_channels c host prod Hc) as Hl. pose proof (ok_num_channels _ _ _ Hc).
  unfold gcc_read_client_network_data, network_bytes, network_view. rewrite Hl. branch.
  eapply Reads_bind; [apply Reads_le32; lia|].
  assert (Es : sint32 (num_channels c) = num_channels c) by (unfold sint32; rewrite Z.mod_small; lia). rewrite Es.
  change (num_channels (apply_update (mk_update num_channels (constant ?v)) sv)) with v.
  rewrite bool_decide_true by (unfold INT_MAX; lia). branch. branch. rewrite (proj2 (Z.ltb_lt 0 (num_channels c)) Hn).
  replace (Z.to_nat (num_channels c)) with (length (client_channels c)) by (unfold len in Hl; lia).
  eapply Reads_last; [|apply Reads_ret].
  apply (Reads_channel_defs (client_channels c) (client_channels_ok c host prod Hc) [] (channels sv)).
  rewrite Hsv. unfold len in Hl. lia.
Qed.

(** *** Monitors *)

Definition monitor_def (m : rdp_monitor) : list Z :=
  le32 (mon_x m) ++ le32 (mon_y m) ++ le32 (mon_x m + mon_width m - 1) ++ le32 (mon_y m + mon_height m - 1) ++
  le32 (if negb (is_primary m =? 0) then MONITOR_PRIMARY else 0).
Definition monitor_bytes (mons : list rdp_monitor) : list Z := le32 0 ++ le32 (len mons) ++ concat (map monitor_def mons).
Definition client_monitors (c : rdp_settings) : list rdp_monitor := take (Z.to_nat (num_monitors c)) (monitors c).

Lemma Writes_monitor_defs mons : forall pre post,
  Writes (write_monitors (length mons) (len pre) (pre ++ mons ++ post)) (concat (map monitor_def mons)) tt.
Proof.
  induction mons as [|m mons IH]; intros pre post; [apply Writes_ret|].
  cbn [length write_monitors map concat app]. rewrite elem_mid. eapply Writes_first; [apply Writes_ret|].
  unfold monitor_def. rewrite <- !app_assoc. do 5 (eapply Writes_bind; [apply Writes_uint32|]).
  replace (len pre + 1) with (len (pre ++ [m])) by llia.
  replace (pre ++ m :: mons ++ post) with ((pre ++ [m]) ++ mons ++ post) by (rewrite <- app_assoc; reflexivity).
  apply IH.
Qed.

Lemma len_monitor_bytes mons : len (monitor_bytes mons) = 8 + 20 * len mons.
Proof.
  unfold monitor_bytes. rewrite !len_app.
  assert (E : len (concat (map monitor_def mons)) = 20 * len mons).
  { induction mons as [|m mons IH]; [reflexivity|]. cbn [map concat]. rewrite len_app, len_cons, IH.
    change (len (monitor_def m)) with 20. lia. }
  rewrite E. change (len (le32 0)) with 4. change (len (le32 (len mons))) with 4. lia.
Qed.

(** Whether the client describes its monitors. *)
Definition has_monitors (c : rdp_settings) : bool := negb (negotiationFlags c =? 0) && (1 <? num_monitors c).

Lemma Writes_monitors c host prod : client_ok c host prod ->
  Writes (if negb (negotiationFlags c =? 0) then gcc_write_client_monitor_data c else ret tt)
    (if has_monitors c then block CS_MONITOR (monitor_bytes (client_monitors c)) else []) tt.
Proof.
  intros []. unfold has_monitors, gcc_write_client_monitor_data.
  destruct (negotiationFlags c =? 0); [apply Writes_ret|]. cbn [negb andb].
  destruct (Z.ltb_spec 1 (num_monitors c)); [|apply Writes_ret].
  assert (Hl : len (client_monitors c) = num_monitors c) by (unfold client_monitors, len; rewrite length_take; lia).
  unfold block. rewrite len_monitor_bytes, Hl, app_assoc.
  replace (uint16 (20 * num_monitors c + 12)) with (4 + (8 + 20 * num_monitors c))
    by (unfold uint16; rewrite Z.mod_small; lia).
  eapply Writes_bind; [apply Writes_header|]. unfold monitor_bytes. rewrite Hl.
  do 2 (eapply Writes_bind; [apply Writes_uint32|]).
  pose proof (Writes_monitor_defs (client_monitors c) [] (drop (Z.to_nat (num_monitors c)) (monitors c))) as E.
  cbn [app] in E. unfold client_monitors in E at 2. rewrite take_drop in E.
  replace (Z.to_nat (num_monitors c)) with (length (client_monitors c)) by (unfold len in Hl; lia). exact E.
Qed.

(** ** Sequences of blocks *)

Definition blocks (bl : list (Z * list Z)) : list Z := concat (map (fun b => block b.1 b.2) bl).

(** The reader [rd] of a block takes the settings [a] along the blocks to [b]. *)
Inductive block_reads (rd : Z -> Z -> rdp_settings -> M STREAM (bool * rdp_settings))
  : rdp_settings -> list (Z * list Z) -> rdp_settings -> Prop :=
| reads_done a : block_reads rd a [] a
| reads_block a type body b bl c :
    0 <= type < 65536 -> 4 + len body < 65536 ->
    Parses (rd type (4 + len body) a) body (true, b) ->
    block_reads rd b bl c -> block_reads rd a ((type, body) :: bl) c.

Lemma len_block type body : len (block type body) = 4 + len body.
Proof. unfold block. rewrite !len_app. change (len (le16 type)) with 2. change (len (le16 (4 + len body))) with 2. lia. Qed.

Lemma Reads_header type body rest s : 0 <= type < 65536 -> 4 + len body < 65536 -> holds s (block type body ++ rest) ->
  gcc_read_user_data_header s = Done ((true, type, 4 + len body), adv 4 s) /\ holds (adv 4 s) body.
Proof.
  intros Ht Hl Hs. pose proof (len_nonneg body). unfold block in Hs. rewrite <- !app_assoc in Hs.
  unfold gcc_read_user_data_header. read_step (Reads_le16 type Ht) Hs. read_step (Reads_le16 (4 + len body) ltac:(lia)) Hs.
  rewrite (proj2 (Z.ltb_ge _ _)) by lia. rewrite adv_adv in Hs |- *. change (len _ + len _) with 4 in *.
  destruct (holds_app _ _ _ Hs) as [Hb _]. split; [|exact Hb].
  unfold bind, left_bytes. pose proof (holds_size _ _ Hb). unfold stream_get_left. rewrite (proj2 (Z.ltb_ge _ _)) by lia.
  reflexivity.
Qed.

Lemma set_pos_back {A} s n j (m : M STREAM A) : bind (stream_set_pos (s_p s + n)) (fun _ => m) (adv j (adv 4 s)) = m (adv n s).
Proof. reflexivity. Qed.

Lemma client_blocks_run a bl c : block_reads read_client_block a bl c -> forall fuel, (length (blocks bl) <= fuel)%nat ->
  Reads (read_client_blocks fuel (len (blocks bl)) a) (blocks bl) (true, c).
Proof.
  induction 1 as [a|a type body b bl c Ht Hl Hp _ IH]; intros fuel Hf.
  - intros s _. rewrite adv_0. destruct fuel; reflexivity.
  - assert (E : blocks ((type, body) :: bl) = block type body ++ blocks bl) by reflexivity.
    pose proof (len_block type body) as Lb. pose proof (len_nonneg body). pose proof (len_nonneg (blocks bl)).
    rewrite E in *. rewrite len_app in *. rewrite length_app in Hf. intros s Hs.
    destruct fuel as [|fuel]; [unfold len in *; lia|]. cbn [read_client_blocks].
    rewrite (proj2 (Z.ltb_lt 0 _)) by lia. unfold bind at 1, get. cbv beta iota.
    destruct (Reads_header type body (blocks bl) s Ht Hl Hs) as [Eh Hb]. rewrite (bind_Done _ _ _ _ _ Eh).
    destruct (Hp _ Hb) as [j Ej]. rewrite (bind_Done _ _ _ _ _ Ej). cbn [negb]. unfold stream_get_pos.
    rewrite set_pos_back. replace (len (block type body) + len (blocks bl) - (4 + len body)) with (len (blocks bl)) by lia.
    destruct (holds_app _ _ _ Hs) as [_ Hr]. rewrite Lb in Hr.
    rewrite (IH fuel ltac:(unfold len in *; lia) _ Hr), adv_adv, <- Lb, <- len_app. reflexivity.
Qed.

(** ** All blocks of a client *)

Definition client_blocks (c : rdp_settings) (host prod : list Z) : list (Z * list Z) :=
  [(CS_CORE, core_bytes c host prod); (CS_CLUSTER, cluster_bytes c); (CS_SECURITY, security_bytes c)] ++
  (if 0 <? num_channels c then [(CS_NET, network_bytes (client_channels c))] else []) ++
  (if has_monitors c then [(CS_MONITOR, monitor_bytes (client_monitors c))] else []).

(** What a server knows of a client after reading all of its blocks. *)
Definition client_view (c sv : rdp_settings) : rdp_settings :=
  network_view c (security_view c (cluster_view c (core_view c sv))).

Lemma Writes_client_blocks c host prod : client_ok c host prod ->
  Writes (gcc_write_client_data_blocks c) (blocks (client_blocks c host prod)) tt.
Proof.
  intros Hc. unfold gcc_write_client_data_blocks, client_blocks.
  replace (blocks _) with (block CS_CORE (core_bytes c host prod) ++ block CS_CLUSTER (cluster_bytes c) ++
    block CS_SECURITY (security_bytes c) ++ (if 0 <? num_channels c then block CS_NET (network_bytes (client_channels c)) else []) ++
    (if has_monitors c then block CS_MONITOR (monitor_bytes (client_monitors c)) else [])).
  - eapply Writes_bind; [apply Writes_core, Hc|]. eapply Writes_bind; [apply Writes_cluster|].
    eapply Writes_bind; [apply Writes_security|]. eapply Writes_bind; [apply (Writes_network c host prod Hc)|].
    apply (Writes_monitors c host prod Hc).
  - unfold blocks. cbn [app map concat fst snd].
    destruct (0 <? num_channels c), (has_monitors c); cbn [app map concat fst snd]; rewrite ?app_nil_r; reflexivity.
Qed.

Lemma view_channels c sv : channels (security_view c (cluster_view c (core_view c sv))) = channels sv.
Proof. unfold security_view. destruct (encryption _); reflexivity. Qed.

Lemma client_blocks_read c host prod sv : client_ok c host prod -> selected_protocol sv = selected_protocol c ->
  length (channels sv) = 16%nat -> block_reads read_client_block sv (client_blocks c host prod) (client_view c sv).
Proof.
  intros Hc Es Hch. unfold client_blocks. cbn [app]. pose proof (ok_num_channels _ _ _ Hc).
  assert (Lc : len (client_channels c) = num_channels c) by apply (len_client_channels c host prod Hc).
  assert (Lm : len (client_monitors c) <= 16)
    by (pose proof (ok_monitors_len _ _ _ Hc); unfold client_monitors, len; rewrite length_take; lia).
  pose proof (len_network_bytes _ (client_channels_ok c host prod Hc)) as Ln.
  eapply reads_block; [split; discriminate || reflexivity|rewrite len_core_bytes; lia| |].
  { rewrite len_core_bytes. apply Parses_Reads, (Reads_core sv c host prod Hc Es). }
  eapply reads_block; [split; discriminate || reflexivity|reflexivity|apply Parses_Reads, Reads_cluster, Hc|].
  eapply reads_block; [split; discriminate || reflexivity|unfold security_bytes; destruct (encryption c); reflexivity| |].
  { replace (4 + len (security_bytes c)) with 12 by (unfold security_bytes; destruct (encryption c); reflexivity).
    apply Parses_security, Hc. }
  assert (Hm : forall sv', block_reads read_client_block sv'
            (if has_monitors c then [(CS_MONITOR, monitor_bytes (client_monitors c))] else []) sv').
  { intros sv'. destruct (has_monitors c); [|constructor].
    eapply reads_block; [split; discriminate || reflexivity|rewrite len_monitor_bytes; lia| |constructor].
    intros s _. exists 0. rewrite adv_0. reflexivity. }
  unfold client_view, network_view. destruct (Z.ltb_spec 0 (num_channels c)) as [Hpos|]; [|apply Hm]. cbn [app].
  eapply reads_block; [split; discriminate || reflexivity|lia| |apply Hm].
  replace (4 + len (network_bytes (client_channels c))) with (4 + (4 + 12 * num_channels c)) by lia.
  intros s Hs. exists (len (network_bytes (client_channels c))). unfold read_client_block. cbn [Z.eqb CS_NET CS_CORE CS_SECURITY Pos.eqb].
  replace (uint16 _) with (4 + 12 * num_channels c) by (unfold uint16; rewrite Z.mod_small; lia).
  rewrite (Reads_network _ c host prod Hc Hpos ltac:(rewrite view_channels; exact Hch) s Hs).
  unfold network_view. rewrite (proj2 (Z.ltb_lt 0 _) Hpos). reflexivity.
Qed.

(** ** The blocks are bytes *)

Lemma is_bytes_zeros n : is_bytes (zeros n).
Proof. apply Forall_replicate. split; [discriminate|reflexivity]. Qed.

Lemma is_bytes_app a b : is_bytes a -> is_bytes b -> is_bytes (a ++ b).
Proof. intros. apply Forall_app. auto. Qed.

Ltac bytes_parts := cbn [fst snd]; repeat match goal with |- is_bytes (_ ++ _) => apply is_bytes_app end; auto with bytes.
#[export] Hint Resolve is_bytes_zeros : bytes.

Lemma is_bytes_utf16 t : Forall scalar t -> is_bytes (utf16_text t).
Proof.
  unfold utf16_text. induction 1 as [|cp t [Hpos Hcp] _ IH]; [constructor|]. cbn [map concat]. apply Forall_app.
  split; [|exact IH]. unfold codepoint in Hcp. unfold utf16le, unit16, is_byte. powers.
  destruct (Z.ltb_spec cp 0x10000); cbn [app]; repeat (apply Forall_cons_2; [dlia|]); apply Forall_nil_2.
Qed.

Lemma is_bytes_text size t : Forall scalar t -> is_bytes (text_field size (utf16_text t)).
Proof.
  intros Ht. unfold text_field. bytes_parts.
  - apply Forall_take, is_bytes_utf16, Ht.
  - repeat constructor; discriminate.
Qed.
#[export] Hint Resolve is_bytes_text : bytes.

Lemma is_bytes_concat {A} (f : A -> list Z) l : Forall (fun a => is_bytes (f a)) l -> is_bytes (concat (map f l)).
Proof. induction 1; [constructor|]. cbn [map concat]. apply Forall_app. auto. Qed.

Lemma is_bytes_block type body : is_bytes body -> is_bytes (block type body).
Proof. intros. unfold block. bytes_parts. Qed.

Lemma is_bytes_core c host prod : client_ok c host prod -> is_bytes (core_bytes c host prod).
Proof.
  intros []. unfold core_bytes, core_required, core_options.
  bytes_parts.
  - apply Forall_cons_2; [|apply Forall_nil_2]. unfold core_connection_type.
    destruct (rfx_codec c); [split; discriminate || reflexivity|apply is_byte_uint8].
  - repeat constructor; discriminate.
Qed.

Lemma is_bytes_client_blocks c host prod : client_ok c host prod -> is_bytes (blocks (client_blocks c host prod)).
Proof.
  intros Hc. apply is_bytes_concat.
  pose proof is_bytes_block as Hb.
  unfold client_blocks. apply Forall_app; split; [|apply Forall_app; split].
  1: apply Forall_cons_2; [apply Hb|apply Forall_cons_2; [apply Hb|apply Forall_cons_2; [apply Hb|apply Forall_nil_2]]].
  - apply is_bytes_core, Hc.
  - unfold cluster_bytes. bytes_parts.
  - unfold security_bytes. destruct (encryption c); bytes_parts.
  - destruct (0 <? num_channels c); [|constructor]. apply Forall_cons_2; [apply Hb|constructor].
    unfold network_bytes. bytes_parts. apply is_bytes_concat.
    eapply Forall_impl; [apply (client_channels_ok c host prod Hc)|]. intros ch [_ Hn _]. unfold channel_def. bytes_parts.
  - destruct (has_monitors c); [|constructor]. apply Forall_cons_2; [apply Hb|constructor].
    unfold monitor_bytes. bytes_parts. apply is_bytes_concat, Forall_true. intros m. unfold monitor_def. bytes_parts.
Qed.

(** ** The Conference Create Request *)

Definition request_bytes (ud : list Z) : list Z :=
  [0] ++ oid_bytes t124_02_98_oid ++ per_length_bytes (len ud + 14) ++ [0] ++ [8] ++ [0; 0x10] ++ [0] ++ [1] ++ [0xC0] ++
  per_octet_string_bytes h221_cs_key 4 ++ per_octet_string_bytes ud 0.

Lemma is_oid_t124 : is_oid t124_02_98_oid.
Proof. split; [reflexivity|]. repeat constructor; discriminate. Qed.

(** The user data of a stream, as an octet string. *)
Lemma Writes_per_user_data user_data ud : user_data_is user_data ud -> is_bytes (s_data user_data) ->
  Writes (per_write_octet_string (s_data user_data) (stream_get_length user_data) 0) (per_octet_string_bytes ud 0) tt.
Proof.
  intros (Hp & Hl & Hd) Hb. unfold stream_get_length, per_write_octet_string, per_octet_string_bytes. rewrite Hp.
  pose proof (len_nonneg ud). rewrite (proj2 (Z.leb_le 0 _)) by lia. eapply Writes_bind; [apply Writes_per_length|].
  eapply Writes_eq; [apply Writes_string; [exact Hb|lia]| |reflexivity]. unfold len. rewrite Nat2Z.id. exact Hd.
Qed.

Lemma Writes_gcc_request user_data ud : user_data_is user_data ud -> is_bytes (s_data user_data) ->
  Writes (gcc_write_conference_create_request user_data) (request_bytes ud) tt.
Proof.
  intros Hu Hb. unfold gcc_write_conference_create_request, request_bytes. destruct Hu as (Hp & Hl & Hd).
  eapply Writes_bind; [apply Writes_choice|]. eapply Writes_bind; [apply Writes_object_identifier, is_oid_t124|].
  unfold stream_get_length at 1. rewrite Hp. eapply Writes_bind; [apply Writes_per_length|].
  eapply Writes_bind; [apply Writes_choice|]. eapply Writes_bind; [apply Writes_uint8|].
  eapply Writes_bind; [|eapply Writes_bind; [|eapply Writes_bind; [apply Writes_uint8|
    eapply Writes_bind; [apply Writes_uint8|eapply Writes_bind; [|apply Writes_per_user_data; unfold user_data_is; auto]]]]].
  - eapply Writes_eq; [eapply Writes_bind; [apply Writes_per_length|]|reflexivity|reflexivity].
    change [16] with ([16] ++ []). eapply Writes_bind; [apply (Writes_uint8 16)|apply Writes_ret].
  - eapply Writes_eq; [eapply Writes_bind; [apply Writes_uint8|apply Writes_ret]|reflexivity|reflexivity].
  - apply (Writes_per_octet_string h221_cs_key 4); [repeat constructor; discriminate|discriminate].
Qed.

Lemma Reads_numeric_one : Reads (per_read_numeric_string 1) [0; 0x10] true.
Proof.
  apply (Reads_per_length_bind 0); [lia|]. apply Reads_use.
  eapply Reads_last; [|apply Reads_ret]. eapply Reads_last; [apply Reads_seek; reflexivity|apply Reads_ret].
Qed.

Lemma Reads_request sv sv' bl : block_reads read_client_block sv bl sv' -> len (blocks bl) + 14 < 0x8000 ->
  Reads (gcc_read_conference_create_request sv) (request_bytes (blocks bl)) (true, sv').
Proof.
  intros Hb Hl. pose proof (len_nonneg (blocks bl)). unfold gcc_read_conference_create_request, request_bytes.
  eapply Reads_bind; [apply Reads_uint8_bind, Reads_ret|]. cbn [negb].
  eapply Reads_bind; [apply Reads_object_identifier; apply is_oid_t124|].
  rewrite bool_decide_true by reflexivity. cbn [negb].
  apply Reads_per_length_bind; [lia|]. cbn [negb].
  do 2 (eapply Reads_bind; [apply Reads_uint8_bind, Reads_ret|]; cbn [negb]).
  eapply Reads_bind; [apply Reads_numeric_one|]. cbn [negb].
  eapply Reads_bind; [eapply Reads_last; [apply Reads_seek; reflexivity|apply Reads_ret]|]. cbn [negb].
  do 2 (eapply Reads_bind; [apply Reads_uint8_bind, Reads_ret|]; cbn [negb orb Z.eqb Pos.eqb]).
  eapply Reads_bind; [apply (Reads_per_octet_string h221_cs_key h221_cs_key 4); [reflexivity|split; discriminate || reflexivity]|].
  rewrite bool_decide_true by reflexivity. cbn [negb].
  unfold per_octet_string_bytes. rewrite Z.sub_0_r. apply Reads_per_length_bind; [lia|]. cbn [negb]. apply Reads_use.
  apply Reads_left; [lia|]. apply client_blocks_run; [exact Hb|]. unfold len. lia.
Qed.

(** ** Connect-Initial with the client's settings *)

(** A part that was built in a fresh stream. *)
Lemma built n bs : 0 < n -> len bs <= n -> is_bytes bs ->
  user_data_is (put bs (stream_new n)) bs /\ is_bytes (s_data (put bs (stream_new n))).
Proof.
  intros Hn Hl Hb. destruct (put_new bs n Hn Hl) as ([H0 Hr] & Hp & _).
  assert (Hd : s_data (stream_new n) = replicate (Z.to_nat n) 0)
    by (unfold stream_new; rewrite (proj2 (Z.eqb_neq n 0)), (proj2 (Z.ltb_lt 0 n)) by lia; reflexivity).
  assert (Hz : s_p (stream_new n) = 0)
    by (unfold stream_new; rewrite (proj2 (Z.eqb_neq n 0)), (proj2 (Z.ltb_lt 0 n)) by lia; reflexivity).
  split.
  - split; [exact Hp|]. split; [rewrite len_put by (split; assumption); rewrite Hz in Hr; exact Hr|].
    cbn [s_data put]. rewrite Hz. apply (splice_read 0). rewrite Hd, length_replicate. unfold len in Hl. lia.
  - cbn [s_data put]. apply is_bytes_splice; [exact Hb|]. rewrite Hd. apply (is_bytes_zeros n).
Qed.

Lemma len_per_length n : len (per_length_bytes n) <= 2.
Proof. unfold per_length_bytes. destruct (0x7F <? n); unfold len; cbn [length be16]; lia. Qed.

Lemma len_gcc_request_bytes ud : len (request_bytes ud) <= len ud + 24.
Proof.
  pose proof (len_per_length (len ud + 14)). pose proof (len_per_length (len ud - 0)).
  pose proof (len_per_length (len h221_cs_key - 4)).
  unfold request_bytes, per_octet_string_bytes. rewrite !len_app.
  change (len (oid_bytes t124_02_98_oid)) with 6. change (len h221_cs_key) with 4 in *. lens. lia.
Qed.

Lemma is_bytes_per_length n : is_bytes (per_length_bytes n).
Proof.
  unfold per_length_bytes. destruct (0x7F <? n); [auto with bytes|]. apply Forall_cons_2; [auto with bytes|apply Forall_nil_2].
Qed.

Lemma is_bytes_request ud : is_bytes ud -> is_bytes (request_bytes ud).
Proof.
  intros Hb. unfold request_bytes, per_octet_string_bytes.
  pose proof is_bytes_per_length.
  bytes_parts; repeat constructor; discriminate.
Qed.

Lemma len_application_bytes tag n : 1 <= len (application_bytes tag n) <= 5.
Proof.
  unfold application_bytes. rewrite len_app, len_ber_length_bytes. unfold _ber_skip_length.
  destruct (0x7F <? _), (30 <? _); lens; lia.
Qed.

Lemma len_connect_initial_pdu m ud : len ud <= 800 ->
  let pdu := (tpkt_bytes (7 + len (connect_initial_bytes m ud)) ++ tpdu_data_bytes) ++ connect_initial_bytes m ud in
  1 <= len pdu <= 1024 /\ len pdu = 7 + len (connect_initial_bytes m ud).
Proof.
  intros Hl pdu. pose proof (len_connect_initial_content m ud).
  assert (E : len pdu = 7 + len (connect_initial_bytes m ud)) by (unfold pdu; rewrite !len_app; reflexivity).
  split; [|exact E]. rewrite E. unfold connect_initial_bytes. rewrite len_app.
  pose proof (len_application_bytes MCS_TYPE_CONNECT_INITIAL (len (connect_initial_content m ud))). lia.
Qed.

(** The PDU of the client: the data blocks and the request fit into their
    streams, and what is left is one PDU for the transport. *)
Definition connect_initial_pdu (m : rdpMcs) (c : rdp_settings) (host prod : list Z) : list Z :=
  let ud := request_bytes (blocks (client_blocks c host prod)) in
  (tpkt_bytes (7 + len (connect_initial_bytes m ud)) ++ tpdu_data_bytes) ++ connect_initial_bytes m ud.

Lemma connect_initial_built {N} `{Link N} m c host prod :
  client_ok c host prod -> valid_mcs m -> len (blocks (client_blocks c host prod)) <= 487 ->
  exists w, WritesSz 1024 w (connect_initial_pdu m c host prod) tt /\ 1 <= len (connect_initial_pdu m c host prod) <= 1024 /\
    (forall t : rdpTransport N, mcs_send_connect_initial (gcc_write_client_data_blocks c) gcc_write_conference_create_request m t
      = (transport_send_stream_init 1024;; let! _ := on_send w in let! st := transport_send in ret (negb (st <? 0))) t).
Proof.
  intros Hc Hm Hl. pose proof (is_bytes_client_blocks c host prod Hc) as Hb. unfold connect_initial_pdu.
  set (cb := blocks (client_blocks c host prod)) in *. set (ud := request_bytes cb). cbv zeta.
  pose proof (len_gcc_request_bytes cb) as Lr. fold ud in Lr.
  destruct (built 512 cb ltac:(lia) ltac:(lia) Hb) as [Hu1 Hd1].
  destruct (built 512 ud ltac:(lia) ltac:(lia) (is_bytes_request cb Hb)) as [Hu2 _].
  pose proof (len_connect_initial_content m ud) as Lc. pose proof (len_nonneg ud) as Lu.
  pose proof (len_connect_initial_pdu m ud ltac:(lia)) as Hp. cbv zeta in Hp.
  exists (connect_pdu (mcs_write_connect_initial m (put ud (stream_new 512)))). split; [|split; [lia|]].
  - apply Writes_connect_pdu, Writes_connect_initial; [exact Hm|exact Hu2|lia].
  - intros t. unfold mcs_send_connect_initial.
    rewrite (bind_Done _ _ _ _ _ (with_stream_new 512 _ _ _ t (Writes_Sz 512 _ _ _ (Writes_client_blocks c host prod Hc)) ltac:(lia) ltac:(fold cb; lia))).
    fold cb. rewrite (bind_Done _ _ _ _ _ (with_stream_new 512 _ _ _ t (Writes_Sz 512 _ _ _ (Writes_gcc_request _ cb Hu1 Hd1)) ltac:(lia) ltac:(fold ud; lia))).
    reflexivity.
Qed.

Lemma Reads_connect_initial_pdu m m' c host prod sv :
  client_ok c host prod -> valid_mcs m -> len (blocks (client_blocks c host prod)) <= 487 ->
  selected_protocol sv = selected_protocol c -> length (channels sv) = 16%nat ->
  Reads (mcs_recv_connect_initial gcc_read_conference_create_request m' sv) (connect_initial_pdu m c host prod)
    (true, mcs_read_back m m', client_view c sv).
Proof.
  intros Hc Hm Hl Hsel Hch. unfold connect_initial_pdu. set (cb := blocks (client_blocks c host prod)) in *.
  set (ud := request_bytes cb). cbv zeta. pose proof (len_gcc_request_bytes cb) as Lr. fold ud in Lr.
  pose proof (len_connect_initial_content m ud) as Lc. pose proof (len_nonneg ud) as Lu.
  pose proof (len_connect_initial_pdu m ud ltac:(lia)) as Hp. cbv zeta in Hp.
  pose proof (len_nonneg (connect_initial_bytes m ud)). rewrite <- app_assoc.
  apply Reads_connect_initial; [exact Hm|lia|lia|].
  apply Reads_request; [apply client_blocks_read; assumption|fold cb; lia].
Qed.

(** ** Claims *)

(** C29. A client connects: its settings, written into data blocks, a Conference
    Create Request and an MCS Connect-Initial, all in the streams of the code,
    are put on the wire or the layer is closed; a server that receives the PDU
    accepts it and knows the name, the screen, the keyboard, the session, the
    encryption methods and the channels of the client. Data blocks of up to 487
    bytes fit. *)
Theorem client_settings_arrive {N} `{Link N} l `{!LinkLaws N l} (t : rdpTransport N) m m' c host prod sv :
  let pdu := connect_initial_pdu m c host prod in
  client_ok c host prod -> valid_mcs m -> len (blocks (client_blocks c host prod)) <= 487 ->
  selected_protocol sv = selected_protocol c -> length (channels sv) = 16%nat ->
  t_layer t = l -> stream_ok (t_send_stream t) -> s_size (t_send_stream t) <= 2 ^ 30 - 1 ->
  (exists ok t', mcs_send_connect_initial (gcc_write_client_data_blocks c) gcc_write_conference_create_request m t = Done (ok, t') /\
     sent_or_closed l t pdu t' /\ (ok = true <-> t_layer t' = l)) /\
  Reads (mcs_recv_connect_initial gcc_read_conference_create_request m' sv) pdu (true, mcs_read_back m m', client_view c sv).
Proof.
  intros pdu Hc Hm Hl Hsel Hch Ht Hok Hsz. split; [|apply Reads_connect_initial_pdu; assumption].
  destruct (connect_initial_built (N := N) m c host prod Hc Hm Hl) as (w & Hw & Hp & E).
  destruct (send_sized_spec l t 1024 w pdu tt (fun _ st => ret (negb (st <? 0))) Ht Hok Hsz Hw Hp ltac:(lia))
    as (st & t' & Es & Hs & Hi).
  exists (negb (st <? 0)), t'. rewrite E. split; [exact Es|]. split; [exact Hs|].
  rewrite <- Hi. destruct (Z.ltb_spec st 0); cbn; intuition lia.
Qed.

(** ** Data that does not end well *)

(** A client data block that announces length zero brings the reader of the
    server back to where it was, for ever: the header reader refuses such a
    block, and its result is not looked at. *)
Theorem gcc_zero_block_loops settings type length s :
  0 <= type < 65536 -> ~ In type [CS_CORE; CS_SECURITY; CS_NET; CS_CLUSTER] -> 0 < length ->
  holds s (le16 type ++ le16 0) ->
  gcc_read_client_data_blocks settings length s = Fault Diverges.
Proof.
  intros Ht Hin Hl Hs. unfold gcc_read_client_data_blocks. generalize (Z.to_nat length) as fuel.
  induction fuel as [|fuel IH]; cbn [read_client_blocks]; rewrite (proj2 (Z.ltb_lt 0 length)) by exact Hl; [reflexivity|].
  unfold bind at 1, get. cbv beta iota.
  assert (E : gcc_read_user_data_header s = Done ((false, type, 0), adv 4 s)).
  { unfold gcc_read_user_data_header. pose proof Hs as Hs'. rewrite <- (app_nil_r (le16 0)) in Hs'.
    read_step (Reads_le16 type Ht) Hs'. read_step (Reads_le16 0 ltac:(lia)) Hs'. rewrite adv_adv. reflexivity. }
  rewrite (bind_Done _ _ _ _ _ E). cbn [In] in Hin. unfold read_client_block.
  destruct (Z.eqb_spec type CS_CORE); [intuition congruence|]. destruct (Z.eqb_spec type CS_SECURITY); [intuition congruence|].
  destruct (Z.eqb_spec type CS_NET); [intuition congruence|]. destruct (Z.eqb_spec type CS_CLUSTER); [intuition congruence|].
  assert (Er : (if type =? CS_MONITOR then gcc_read_client_monitor_data settings (uint16 (0 - 4)) else ret (true, settings))
               = ret (true, settings)) by (destruct (type =? CS_MONITOR); reflexivity).
  rewrite Er, bind_ret. cbn [negb]. unfold stream_get_pos. unfold bind, stream_set_pos. rewrite Z.sub_0_r, Z.add_0_r.
  replace (set_p (adv 4 s) (s_p s)) with s by (destruct s; reflexivity). exact IH.
Qed.

(** ** Samples *)

Definition no_channel : rdp_channel := mkRdpChannel (zeros 8) 0 0 false.
Definition no_monitor : rdp_monitor := mkMonitor 0 0 0 0 0.

(** Settings of a client with two channels, and of a server with a key. *)
Definition sample_channels : list rdp_channel :=
  mkRdpChannel [0x72; 0x64; 0x70; 0x64; 0x72; 0; 0; 0] (-1) 0 false ::
  mkRdpChannel [0x73; 0x6E; 0x64; 0; 0; 0; 0; 0] 0x40000000 0 false :: replicate 14 no_channel.
Definition sample_host : list Z := [0x75; 0x63; 0x63; 0x2D; 0xE4].
Definition sample_client : rdp_settings :=
  mkRdpSettings 1024 768 5 32 0x407 4 0 12 2600 3 1 3 0 0 0 true false 0 6 (utf8_text sample_host) (utf8_text [0x31; 0x32])
    [] [] certificate_new None false 2 sample_channels 1 (replicate 16 no_monitor).
Definition sample_key : rdp_key := mkKey (replicate 64 0xC5) (replicate 64 1) [1; 0; 1; 0].
Definition sample_server : rdp_settings :=
  mkRdpSettings 0 0 7 0 0 0 0 0 0 3 1 2 0 0 0 true false 0 0 [] [] [] [] certificate_new (Some sample_key) false 2
    (take_over 0 (take 2 sample_channels) (replicate 16 no_channel)) 0 (replicate 16 no_monitor).

Lemma sample_client_ok : client_ok sample_client sample_host [0x31; 0x32].
Proof.
  split; try (split; discriminate || reflexivity); try reflexivity; try discriminate.
  - repeat (apply Forall_cons_2; [unfold scalar, codepoint; lia|]). apply Forall_nil_2.
  - repeat (apply Forall_cons_2; [unfold scalar, codepoint; lia|]). apply Forall_nil_2.
  - repeat (apply Forall_cons_2; [split; [reflexivity|repeat constructor; discriminate|split; discriminate || reflexivity]|]).
    apply Forall_nil_2.
Qed.

Definition sample_transport : rdpTransport rdpTcp := small_tcp_transport [SendUpTo 100; SendAgain; SendUpTo 1000].

Lemma sample_transport_ok : stream_ok (t_send_stream sample_transport).
Proof. split; vm_compute; try split; try discriminate. repeat constructor; discriminate. Qed.

Lemma mcs_new_valid : valid_mcs mcs_new.
Proof. split; [|split]; repeat constructor; vm_compute; discriminate. Qed.

Lemma client_settings_arrive_witness :
  exists ok t', mcs_send_connect_initial (gcc_write_client_data_blocks sample_client) gcc_write_conference_create_request
                  mcs_new sample_transport = Done (ok, t') /\ (ok = true <-> t_layer t' = TRANSPORT_LAYER_TCP) /\
    client_hostname (client_view sample_client sample_server) = utf8_text sample_host.
Proof.
  destruct (client_settings_arrive TRANSPORT_LAYER_TCP sample_transport mcs_new mcs_new sample_client sample_host [0x31; 0x32]
              sample_server sample_client_ok mcs_new_valid ltac:(vm_compute; discriminate) eq_refl eq_refl eq_refl
              sample_transport_ok ltac:(vm_compute; discriminate)) as [(ok & t' & E & _ & Hi) _].
  exists ok, t'. split; [exact E|]. split; [exact Hi|]. reflexivity.
Defined.

Lemma gcc_zero_block_loops_witness :
  gcc_read_client_data_blocks sample_server 100 (mkSTREAM 4 0 [1; 0; 0; 0]) = Fault Diverges.
Proof.
  apply (gcc_zero_block_loops sample_server 1 100 (mkSTREAM 4 0 [1; 0; 0; 0])); [lia|cbn; intuition discriminate|lia|].
  apply (holds_start 4 [1; 0; 0; 0] []). discriminate.
Defined.

(** Sixteen channels and four monitors do not fit into the 512 bytes that
    [mcs_send_connect_initial] allocates for the client data blocks. *)
Definition many_monitors : rdp_settings :=
  sample_client <| negotiationFlags := 1 |> <| num_channels := 16 |> <| num_monitors := 4 |>.
Example client_data_overflows : gcc_write_client_data_blocks many_monitors (stream_new 512) = Fault OutOfBounds.
Proof. vm_compute. reflexivity. Qed.

(** A channel count of 2^32 - 1 is taken for -1 and accepted. *)
Example negative_channel_count : exists settings s,
  gcc_read_client_network_data sample_server 4 (mkSTREAM 4 0 [0xFF; 0xFF; 0xFF; 0xFF]) = Done ((true, settings), s) /\
  num_channels settings = -1.
Proof. do 2 eexists. split; [vm_compute; reflexivity|]. reflexivity. Qed.
