(* ===== verification/GccServer.v ===== *)
(** The conference data of a server: its blocks with the encryption it chooses,
    its channel numbers and its certificate reach the client through the MCS
    Connect-Response; the client's reader always comes to an end. *)

From coqutil Require Import Datatypes.RecordSetters.
From S2P Require Import Prelude.
From S2P Require Import Stream.
From S2P Require Import Settings.
From S2P Require Import Ber.
From S2P Require Import Per.
From S2P Require Import X224.
From S2P Require Import Transport.
From S2P Require Import Mcs.
From S2P Require Import Security.
From S2P Require Import Unicode.
From S2P Require Import Rsa.
From S2P Require Import Certificate.
From S2P Require Import Gcc.
From S2P Require Import GccClient.
Import TriangleBracketNotations.

(** ** The blocks of a server *)

Section server_facts.
Context `{HC : Crypto} `{HCL : !CryptoLaws} `{HB : Bignum} `{HBL : !BignumLaws}.

Lemma server_blocks_run a bl c : block_reads (fun type _ => read_server_block type) a bl c ->
  forall fuel offset length, (List.length bl < fuel)%nat -> 0 <= offset -> offset + len (blocks bl) = length -> length < 65536 ->
  Reads (read_server_blocks fuel offset length a) (blocks bl) (true, c).
Proof.
  induction 1 as [a|a type body b bl c Ht Hl Hp _ IH]; intros fuel offset length Hf Ho E0 Hb16.
  - change (len (blocks [])) with 0 in E0. intros s _. rewrite adv_0.
    destruct fuel; cbn [read_server_blocks]; rewrite (proj2 (Z.ltb_ge _ _)) by lia; reflexivity.
  - assert (E : blocks ((type, body) :: bl) = block type body ++ blocks bl) by reflexivity.
    pose proof (len_block type body) as Lb. pose proof (len_nonneg body). pose proof (len_nonneg (blocks bl)).
    rewrite E in *. rewrite len_app in E0. intros s Hs. cbn [List.length] in Hf.
    destruct fuel as [|fuel]; [lia|]. cbn [read_server_blocks].
    rewrite (proj2 (Z.ltb_lt _ _)) by lia. unfold bind at 1, get. cbv beta iota.
    destruct (Reads_header type body (blocks bl) s Ht Hl Hs) as [Eh Hb]. rewrite (bind_Done _ _ _ _ _ Eh). cbn [negb].
    destruct (Hp _ Hb) as [j Ej]. rewrite (bind_Done _ _ _ _ _ Ej). cbn [negb]. unfold stream_get_pos.
    rewrite set_pos_back.
    replace (uint16 (offset + (4 + len body))) with (offset + (4 + len body)) by (unfold uint16; rewrite Z.mod_small; lia).
    destruct (holds_app _ _ _ Hs) as [_ Hr]. rewrite Lb in Hr.
    rewrite (IH fuel (offset + (4 + len body)) length ltac:(lia) ltac:(lia) ltac:(lia) Hb16 _ Hr), adv_adv, <- Lb, <- len_app. reflexivity.
Qed.

Definition server_channels (sv : rdp_settings) : list rdp_channel := take (Z.to_nat (num_channels sv)) (channels sv).

(** A server whose fields are in their ranges; its key is kept in [key]. *)
Record server_ok (sv : rdp_settings) (key : rdp_key) : Prop := {
  sv_requested : 0 <= requested_protocols sv < 2 ^ 32;
  sv_method : 0 <= encryption_method sv < 2 ^ 32;
  sv_level : 0 <= encryption_level sv < 2 ^ 32;
  sv_num_channels : 0 <= num_channels sv <= 16;
  sv_channels_len : length (channels sv) = 16%nat;
  sv_channel_ids : Forall (fun ch => 0 <= channel_id ch < 65536) (channels sv);
  sv_key : server_key sv = Some key;
  sv_exponent_len : len (k_exponent key) = 4;
  sv_exponent : is_bytes (k_exponent key);
  sv_modulus : is_bytes (k_modulus key);
  sv_modulus_len : 0 < len (k_modulus key) <= 256;
}.

(** *** Core *)

Definition server_core_bytes (sv : rdp_settings) : list Z :=
  le32 (if rdp_version sv =? 4 then RDP_VERSION_4 else RDP_VERSION_5_PLUS) ++ le32 (requested_protocols sv).

(** The lower of the two versions, a client of version 4 being raised. *)
Definition server_core_view (sv c : rdp_settings) : rdp_settings :=
  if rdp_version sv =? 4
  then if 4 <? rdp_version c then c <| rdp_version := 4 |> else c
  else if rdp_version c <? 5 then c <| rdp_version := 7 |> else c.

Lemma Writes_server_core sv : Writes (gcc_write_server_core_data sv) (block SC_CORE (server_core_bytes sv)) tt.
Proof.
  unfold gcc_write_server_core_data, block, server_core_bytes. rewrite app_assoc.
  eapply Writes_bind; [apply (Writes_header SC_CORE 12)|]. eapply Writes_bind; apply Writes_uint32.
Qed.

Lemma Reads_server_core sv c : 0 <= requested_protocols sv < 2 ^ 32 ->
  Reads (gcc_read_server_core_data c) (server_core_bytes sv) (true, server_core_view sv c).
Proof.
  intros Hr. unfold gcc_read_server_core_data, server_core_bytes, server_core_view.
  eapply Reads_bind; [apply Reads_le32; destruct (_ =? 4); split; discriminate || reflexivity|].
  eapply Reads_last; [apply Reads_le32; exact Hr|]. eapply Reads_eq; [apply Reads_ret|reflexivity|].
  destruct (rdp_version sv =? 4); cbn [Z.eqb Pos.eqb andb RDP_VERSION_4 RDP_VERSION_5_PLUS];
    [destruct (4 <? rdp_version c)|destruct (rdp_version c <? 5)]; reflexivity.
Qed.

(** *** Channel numbers *)

Definition id_bytes (chans : list rdp_channel) : list Z := concat (map (fun ch => le16 (channel_id ch)) chans).
Definition server_network_bytes (chans : list rdp_channel) : list Z :=
  le16 MCS_GLOBAL_CHANNEL_ID ++ le16 (len chans) ++ id_bytes chans ++ (if len chans mod 2 =? 1 then le16 0 else []).

Lemma Writes_channel_ids chans : forall pre post,
  Writes (write_channel_ids (length chans) (len pre) (pre ++ chans ++ post)) (id_bytes chans) tt.
Proof.
  unfold id_bytes. induction chans as [|ch chans IH]; intros pre post; [apply Writes_ret|].
  cbn [length write_channel_ids map concat app]. rewrite elem_mid. eapply Writes_first; [apply Writes_ret|].
  eapply Writes_bind; [apply Writes_uint16|].
  replace (len pre + 1) with (len (pre ++ [ch])) by llia.
  replace (pre ++ ch :: chans ++ post) with ((pre ++ [ch]) ++ chans ++ post) by (rewrite <- app_assoc; reflexivity).
  apply IH.
Qed.

(** The numbers of the server in the client's channels. *)
Fixpoint number (chans old : list rdp_channel) : list rdp_channel :=
  match chans, old with
  | ch :: chans', o :: old' => (o <| channel_id := channel_id ch |>) :: number chans' old'
  | _, _ => old
  end.

Lemma Reads_channel_ids chans : Forall (fun ch => 0 <= channel_id ch < 65536) chans -> forall pre old,
  (length chans <= length old)%nat ->
  Reads (read_channel_ids (length chans) (len pre) (pre ++ old)) (id_bytes chans) (pre ++ number chans old).
Proof.
  unfold id_bytes. induction 1 as [|ch chans Hc _ IH]; intros pre old Hl.
  - destruct old; apply Reads_ret.
  - destruct old as [|o old]; [cbn in Hl; lia|]. cbn [length read_channel_ids map concat number].
    eapply Reads_bind; [apply Reads_le16; exact Hc|].
    rewrite elem_mid. apply Reads_first. rewrite elem_set_mid. apply Reads_first.
    set (o' := apply_update _ _). replace (len pre + 1) with (len (pre ++ [o'])) by llia.
    replace (pre ++ o' :: old) with ((pre ++ [o']) ++ old) by (rewrite <- app_assoc; reflexivity).
    eapply Reads_eq; [apply IH; cbn in Hl; lia|reflexivity|]. rewrite <- app_assoc. reflexivity.
Qed.

Lemma len_id_bytes chans : len (id_bytes chans) = 2 * len chans.
Proof.
  unfold id_bytes. induction chans as [|ch chans IH]; [reflexivity|]. cbn [map concat].
  rewrite len_app, len_cons, IH. change (len (le16 _)) with 2. lia.
Qed.

Lemma len_server_network_bytes chans : len (server_network_bytes chans) = 4 + 2 * len chans + (if len chans mod 2 =? 1 then 2 else 0).
Proof.
  unfold server_network_bytes. rewrite !len_app, len_id_bytes. change (len (le16 _)) with 2. change (len (le16 _)) with 2.
  destruct (len chans mod 2 =? 1); lens; unfold len, le16; cbn [length]; lia.
Qed.

Lemma len_server_channels sv key : server_ok sv key -> len (server_channels sv) = num_channels sv.
Proof. intros []. unfold server_channels, len. rewrite length_take. lia. Qed.

Lemma Writes_server_network sv key : server_ok sv key ->
  Writes (gcc_write_server_network_data sv) (block SC_NET (server_network_bytes (server_channels sv))) tt.
Proof.
  intros Hsv. pose proof (len_server_channels sv key Hsv) as Hl. destruct Hsv.
  unfold gcc_write_server_network_data, block. rewrite len_server_network_bytes, Hl, app_assoc.
  rewrite Z.rem_mod_nonneg by lia.
  replace (8 + num_channels sv * 2 + (if num_channels sv mod 2 =? 1 then 2 else 0))
    with (4 + (4 + 2 * num_channels sv + (if num_channels sv mod 2 =? 1 then 2 else 0))) by lia.
  eapply Writes_bind; [apply Writes_header|]. unfold server_network_bytes. rewrite Hl.
  do 2 (eapply Writes_bind; [apply Writes_uint16|]). eapply Writes_bind.
  - pose proof (Writes_channel_ids (server_channels sv) [] (drop (Z.to_nat (num_channels sv)) (channels sv))) as E.
    cbn [app] in E. unfold server_channels in E at 2. rewrite take_drop in E.
    replace (Z.to_nat (num_channels sv)) with (length (server_channels sv)) by (unfold len in Hl; lia). exact E.
  - destruct (num_channels sv mod 2 =? 1); [apply Writes_uint16|apply Writes_ret].
Qed.

Definition server_network_view (sv c : rdp_settings) : rdp_settings := c <| channels := number (server_channels sv) (channels c) |>.

Lemma Reads_server_network sv key c : server_ok sv key -> length (channels c) = 16%nat ->
  Reads (gcc_read_server_network_data c) (server_network_bytes (server_channels sv)) (true, server_network_view sv c).
Proof.
  intros Hsv Hc. pose proof (len_server_channels sv key Hsv) as Hl. destruct Hsv.
  unfold gcc_read_server_network_data, server_network_bytes. rewrite Hl.
  eapply Reads_bind; [apply Reads_le16; split; discriminate || reflexivity|].
  eapply Reads_bind; [apply Reads_le16; lia|].
  replace (Z.to_nat (num_channels sv)) with (length (server_channels sv)) by (unfold len in Hl; lia).
  assert (E : (length (server_channels sv) <= length (channels c))%nat) by (rewrite Hc; unfold len in Hl; lia).
  eapply Reads_bind; [exact (Reads_channel_ids (server_channels sv) (Forall_take _ _ _ sv_channel_ids0) [] (channels c) E)|].
  eapply Reads_last; [|apply Reads_ret].
  destruct (num_channels sv mod 2 =? 1); [apply Reads_seek; reflexivity|apply Reads_ret].
Qed.

(** *** Encryption *)

Definition encrypts (sv : rdp_settings) : bool :=
  negb ((encryption_method sv =? ENCRYPTION_METHOD_NONE) && (encryption_level sv =? ENCRYPTION_LEVEL_NONE)).

(** What the signature is made of, and the signature. *)
Definition signature_plain (m e : list Z) : list Z :=
  md5 (le32 CERT_CHAIN_VERSION_1 ++ tbs_bytes m e) ++ drop 16 initial_signature.
Definition server_signature (m e : list Z) : list Z :=
  le_bytes 64 (le_val (signature_plain m e) ^ le_val tssk_privateExponent mod le_val tssk_modulus).

Definition key_cert (key : rdp_key) : list Z :=
  server_cert_bytes (k_modulus key) (k_exponent key) (server_signature (k_modulus key) (k_exponent key)).

Definition server_security_bytes (sv : rdp_settings) (nonce : list Z) (key : rdp_key) : list Z :=
  le32 (encryption_method sv) ++ le32 (encryption_level sv) ++
  (if encrypts sv then le32 32 ++ le32 (len (key_cert key)) ++ nonce ++ key_cert key else []).

Lemma len_signature m e : len (server_signature m e) = 64.
Proof. apply (len_le_bytes 64). lia. Qed.

Lemma is_bytes_signature m e : is_bytes (server_signature m e).
Proof. apply (is_bytes_le_bytes 64). lia. Qed.

Lemma len_key_cert key : len (k_exponent key) = 4 -> len (key_cert key) = 120 + len (k_modulus key).
Proof.
  intros He. unfold key_cert, server_cert_bytes, tbs_bytes, public_key_bytes. rewrite !len_app, len_signature, He, len_replicate.
  rewrite len_zeros by lia. change (len RSA1) with 4. repeat change (len (le32 ?x)) with 4. repeat change (len (le16 ?x)) with 2. lia.
Qed.

Lemma Writes_public_key key : len (k_exponent key) = 4 ->
  Writes (write_public_key key (len (k_modulus key) + 28))
    (le32 CERT_CHAIN_VERSION_1 ++ tbs_bytes (k_modulus key) (k_exponent key)) tt.
Proof.
  intros He. unfold write_public_key, tbs_bytes, public_key_bytes.
  do 3 (eapply Writes_bind; [apply Writes_uint32|]). do 2 (eapply Writes_bind; [apply Writes_uint16|]).
  eapply Writes_bind; [apply Writes_write|]. do 3 (eapply Writes_bind; [apply Writes_uint32|]).
  eapply Writes_first; [apply Writes_array_prefix; lia|]. rewrite take_ge by (unfold len in He; lia).
  do 2 (eapply Writes_bind; [apply Writes_write|]). apply (Writes_zero 8). lia.
Qed.

Lemma key_signature_run {S} m e (s : S) :
  (let! signature := mem_put 0 (md5 (le32 CERT_CHAIN_VERSION_1 ++ tbs_bytes m e)) initial_signature in
   crypto_rsa_private_encrypt signature (len signature) TSSK_KEY_LENGTH tssk_modulus tssk_privateExponent
     (replicate (Z.to_nat TSSK_KEY_LENGTH) 0)) s = Done (server_signature m e, s).
Proof.
  set (d := md5 _). assert (Ld : length d = 16%nat) by (pose proof (len_md5 (le32 CERT_CHAIN_VERSION_1 ++ tbs_bytes m e)) as E; fold d in E; unfold len in E; lia).
  rewrite (bind_Done _ _ _ _ _ (mem_put_start d (take 16 initial_signature) (drop 16 initial_signature) s Ld)).
  change (d ++ drop 16 initial_signature) with (signature_plain m e).
  assert (Lp : len (signature_plain m e) = 63) by (unfold signature_plain; fold d; rewrite len_app; unfold len; rewrite Ld; reflexivity).
  assert (Bp : is_bytes (signature_plain m e)).
  { apply Forall_app. split; [apply bytes_md5|]. repeat constructor; discriminate. }
  pose proof (rsa_private_run (signature_plain m e) [] tssk_modulus tssk_exponent tssk_privateExponent (replicate 64 0) s tssk_key Bp
                ltac:(rewrite Lp; vm_compute; discriminate) ltac:(vm_compute; reflexivity) ltac:(vm_compute; discriminate)) as E.
  rewrite app_nil_r in E. rewrite (drop_ge (replicate 64 0)), app_nil_r in E by reflexivity. exact E.
Qed.

Lemma Writes_certificate key : len (k_exponent key) = 4 ->
  Writes (write_server_certificate key (len (k_modulus key) + 28)) (key_cert key) tt.
Proof.
  intros He s Hr. unfold write_server_certificate. unfold bind at 1, get. cbv beta iota.
  set (m := k_modulus key) in *. set (e := k_exponent key) in *.
  set (tbs := le32 CERT_CHAIN_VERSION_1 ++ tbs_bytes m e).
  assert (Ec : key_cert key = tbs ++ (le16 BB_RSA_SIGNATURE_BLOB ++ le16 (len m + 8) ++ server_signature m e ++ zeros 8))
    by (unfold key_cert, server_cert_bytes, tbs; rewrite <- app_assoc; reflexivity).
  rewrite Ec in Hr |- *. rewrite len_app in Hr.
  match type of Hr with room s (_ + len ?r) => set (rest := r) in * end. pose proof (len_nonneg rest).
  assert (Ht : room s (len tbs)) by (eapply room_le; [exact Hr|lia]).
  rewrite (bind_Done _ _ _ _ _ (Writes_public_key key He s Ht)). fold m e tbs. unfold bind at 1. cbv beta iota.
  set (s1 := put tbs s) in *.
  assert (Hr1 : room s1 (len rest)) by (apply room_put; [exact Hr|lia]).
  assert (Hd : mem (S := STREAM) (stream_get_pos s) (stream_get_pos s1 - stream_get_pos s) (s_data s1) = ret tbs).
  { unfold mem, stream_get_pos, s1. cbn [s_p put s_data]. replace (s_p s + len tbs - s_p s) with (len tbs) by lia.
    destruct Ht as [Hp Hroom]. pose proof (len_nonneg tbs). rewrite bool_decide_true.
    - unfold len at 1. rewrite Nat2Z.id, splice_read; [reflexivity|]. unfold len in *. lia.
    - unfold len in *. rewrite length_splice; lia. }
  rewrite Hd. enough (Writes (stream_write_uint16 BB_RSA_SIGNATURE_BLOB;; stream_write_uint16 (len m + 8);;
            let! data := ret tbs in let! signature := mem_put 0 (md5 data) initial_signature in
            let! sig := crypto_rsa_private_encrypt signature (len signature) TSSK_KEY_LENGTH tssk_modulus tssk_privateExponent
              (replicate (Z.to_nat TSSK_KEY_LENGTH) 0) in stream_write sig;; stream_write_zero 8) rest tt) as E.
  { rewrite (E s1 Hr1). unfold s1. rewrite put_app by (rewrite len_app; exact Hr). reflexivity. }
  unfold rest. do 2 (eapply Writes_bind; [apply Writes_uint16|]). eapply Writes_first; [apply Writes_ret|].
  intros s2 Hs2. rewrite <- bind_assoc, (bind_Done _ _ _ _ _ (key_signature_run m e s2)). revert s2 Hs2.
  change (Writes (stream_write (server_signature m e);; stream_write_zero 8) (server_signature m e ++ zeros 8) tt).
  eapply Writes_bind; [apply Writes_write|]. apply (Writes_zero 8). lia.
Qed.

(** The settings of the server once it has answered. *)
Definition answered (nonce : list Z) (sv : rdp_settings) : rdp_settings :=
  if encrypts (server_encryption sv) then (server_encryption sv) <| server_random := nonce |> else server_encryption sv.

Definition server_key_info (key : rdp_key) : rdpCertificate := set_info (mkCertInfo (k_modulus key) (k_exponent key)) certificate_new.

(** What the client knows of the encryption. *)
Definition server_security_view (sv : rdp_settings) (nonce : list Z) (key : rdp_key) (c : rdp_settings) : rdp_settings :=
  let c := c <| encryption_method := encryption_method sv |> <| encryption_level := encryption_level sv |> in
  if encrypts sv
  then c <| server_random := nonce |> <| server_certificate := key_cert key |> <| server_cert := server_key_info key |>
  else c <| encryption := false |>.

Lemma server_encryption_fields sv key : server_ok sv key ->
  0 <= encryption_method (server_encryption sv) < 2 ^ 32 /\ 0 <= encryption_level (server_encryption sv) < 2 ^ 32 /\
  server_key (server_encryption sv) = Some key.
Proof.
  intros []. unfold server_encryption.
  repeat match goal with |- context [if ?b then _ else _] => destruct b end;
    cbn [encryption_method encryption_level server_key apply_update constant];
    repeat split; try assumption; try apply sv_method0; try apply sv_level0; try discriminate.
Qed.

Lemma len_server_security sv nonce key : len nonce = 32 -> len (k_exponent key) = 4 ->
  len (server_security_bytes sv nonce key) = 8 + (if encrypts sv then 160 + len (k_modulus key) else 0).
Proof.
  intros Hn He. unfold server_security_bytes. rewrite !len_app. repeat change (len (le32 ?x)) with 4.
  destruct (encrypts sv); [|rewrite len_nil; lia].
  rewrite !len_app, len_key_cert, Hn by exact He. repeat change (len (le32 ?x)) with 4. lia.
Qed.

Lemma Writes_server_security sv nonce key : server_ok sv key -> len nonce = 32 ->
  Writes (gcc_write_server_security_data nonce sv)
    (block SC_SECURITY (server_security_bytes (server_encryption sv) nonce key)) (answered nonce sv).
Proof.
  intros Hsv Hn. destruct (server_encryption_fields sv key Hsv) as (_ & _ & Hk).
  pose proof (sv_exponent_len _ _ Hsv) as He.
  unfold gcc_write_server_security_data, block, answered. rewrite len_server_security, app_assoc by assumption.
  set (sv' := server_encryption sv) in *. unfold server_security_bytes.
  unfold encrypts. destruct (_ && _); cbn [negb].
  - eapply Writes_bind; [apply (Writes_header SC_SECURITY 12)|]. do 2 (eapply Writes_bind; [apply Writes_uint32|]). apply Writes_ret.
  - rewrite Hk. rewrite len_key_cert by exact He.
    replace (12 + 4 + 4 + 32 + _) with (4 + (8 + (160 + len (k_modulus key)))) by (unfold TSSK_KEY_LENGTH; lia).
    eapply Writes_bind; [apply Writes_header|]. do 3 (eapply Writes_bind; [apply Writes_uint32|]).
    replace (4 + 4 + 4 + 2 + 2 + _ + 2 + 2 + TSSK_KEY_LENGTH + 8) with (120 + len (k_modulus key)) by (unfold TSSK_KEY_LENGTH; lia).
    eapply Writes_bind; [apply Writes_uint32|]. eapply Writes_first; [apply Writes_array_prefix; lia|].
    rewrite take_ge by (unfold len in Hn; lia). eapply Writes_bind; [apply Writes_write|].
    replace (4 + 4 + 4 + 4 + 4 + len (k_modulus key) + 8) with (len (k_modulus key) + 28) by lia.
    eapply Writes_last; [apply Writes_certificate; exact He|]. apply Writes_ret.
Qed.

Lemma Reads_server_security sv nonce key c : server_ok sv key -> len nonce = 32 ->
  Reads (gcc_read_server_security_data c) (server_security_bytes (server_encryption sv) nonce key)
    (true, server_security_view (server_encryption sv) nonce key c).
Proof.
  intros Hsv Hn. destruct (server_encryption_fields sv key Hsv) as (Hm & Hl & _). destruct Hsv.
  set (sv' := server_encryption sv) in *. unfold gcc_read_server_security_data, server_security_bytes, server_security_view.
  do 2 (eapply Reads_bind; [apply Reads_le32; assumption|]).
  change (encryption_method (apply_update _ (apply_update _ c))) with (encryption_method sv').
  change (encryption_level (apply_update _ (apply_update _ c))) with (encryption_level sv').
  unfold encrypts. change ENCRYPTION_METHOD_NONE with 0. change ENCRYPTION_LEVEL_NONE with 0.
  destruct ((encryption_method sv' =? 0) && (encryption_level sv' =? 0)) eqn:E; cbn [negb].
  - apply andb_true_iff in E as [E1%Z.eqb_eq E2%Z.eqb_eq]. rewrite E1, E2.
    eapply Reads_eq; [apply Reads_ret|reflexivity|reflexivity].
  - pose proof (len_key_cert key sv_exponent_len0) as Lc.
    eapply Reads_bind; [apply Reads_le32; lia|]. eapply Reads_bind; [apply Reads_le32; lia|].
    branch. eapply Reads_bind; [apply Reads_read; auto|]. rewrite (proj2 (Z.ltb_lt 0 _)) by lia.
    eapply Reads_last; [apply Reads_read; reflexivity|]. intros s _. rewrite adv_0.
    pose proof (server_certificate_run certificate_new (k_modulus key) (k_exponent key)
                  (server_signature (k_modulus key) (k_exponent key)) [] s sv_exponent_len0 ltac:(lia) ltac:(lia)
                  (is_bytes_signature _ _) (len_signature _ _)) as Ec.
    rewrite app_nil_r in Ec. rewrite (bind_Done _ _ _ _ _ Ec). reflexivity.
Qed.

(** *** All blocks of a server *)

Definition server_blocks (sv : rdp_settings) (nonce : list Z) (key : rdp_key) : list (Z * list Z) :=
  [(SC_CORE, server_core_bytes sv); (SC_NET, server_network_bytes (server_channels sv));
   (SC_SECURITY, server_security_bytes (server_encryption sv) nonce key)].

Definition server_view (sv : rdp_settings) (nonce : list Z) (key : rdp_key) (c : rdp_settings) : rdp_settings :=
  server_security_view (server_encryption sv) nonce key (server_network_view sv (server_core_view sv c)).

Lemma Writes_server_blocks sv nonce key : server_ok sv key -> len nonce = 32 ->
  Writes (gcc_write_server_data_blocks nonce sv) (blocks (server_blocks sv nonce key)) (answered nonce sv).
Proof.
  intros Hsv Hn. unfold gcc_write_server_data_blocks, server_blocks, blocks. cbn [map concat fst snd]. rewrite app_nil_r.
  eapply Writes_bind; [apply Writes_server_core|]. eapply Writes_bind; [apply (Writes_server_network sv key Hsv)|].
  apply Writes_server_security; assumption.
Qed.

Lemma server_blocks_read sv nonce key c : server_ok sv key -> len nonce = 32 -> length (channels c) = 16%nat ->
  block_reads (fun type _ => read_server_block type) c (server_blocks sv nonce key) (server_view sv nonce key c).
Proof.
  intros Hsv Hn Hc. pose proof (sv_modulus_len _ _ Hsv). pose proof (sv_num_channels _ _ Hsv).
  pose proof (len_server_channels sv key Hsv). pose proof (len_server_network_bytes (server_channels sv)) as Ln.
  pose proof (len_server_security (server_encryption sv) nonce key Hn (sv_exponent_len _ _ Hsv)) as Ls.
  eapply reads_block; [split; discriminate || reflexivity|reflexivity|apply Parses_Reads, Reads_server_core, Hsv|].
  eapply reads_block; [split; discriminate || reflexivity|destruct (len (server_channels sv) mod 2 =? 1); lia| |].
  { apply Parses_Reads, (Reads_server_network sv key); [exact Hsv|].
    unfold server_core_view. destruct (rdp_version sv =? 4); [destruct (4 <? rdp_version c)|destruct (rdp_version c <? 5)]; exact Hc. }
  eapply reads_block; [split; discriminate || reflexivity|destruct (encrypts (server_encryption sv)); lia| |apply reads_done].
  apply Parses_Reads, Reads_server_security; assumption.
Qed.

(** ** The Conference Create Response *)

Definition response_bytes (ud : list Z) : list Z :=
  [0] ++ oid_bytes t124_02_98_oid ++ per_length_bytes (len ud + 2) ++ [0x14] ++ be16 (0x79F3 - 1001) ++ per_integer_bytes 1 ++
  [0] ++ [1] ++ [0xC0] ++ per_octet_string_bytes h221_sc_key 4 ++ per_octet_string_bytes ud 0.

Lemma Writes_gcc_response user_data ud : user_data_is user_data ud -> is_bytes (s_data user_data) ->
  Writes (gcc_write_conference_create_response user_data) (response_bytes ud) tt.
Proof.
  intros Hu Hb. unfold gcc_write_conference_create_response, response_bytes. pose proof Hu as (Hp & _ & _).
  eapply Writes_bind; [apply Writes_choice|]. eapply Writes_bind; [apply Writes_object_identifier, is_oid_t124|].
  unfold stream_get_length at 1. rewrite Hp. eapply Writes_bind; [apply Writes_per_length|].
  eapply Writes_bind; [apply Writes_choice|]. eapply Writes_bind; [apply Writes_integer16|].
  eapply Writes_bind; [apply Writes_per_integer; lia|]. eapply Writes_bind; [apply Writes_per_enumerated|].
  do 2 (eapply Writes_bind; [apply Writes_uint8|]). eapply Writes_bind; [|apply Writes_per_user_data; assumption].
  apply (Writes_per_octet_string h221_sc_key 4); [repeat constructor; discriminate|discriminate].
Qed.

Lemma count_blocks bl : (length bl <= length (blocks bl))%nat.
Proof.
  induction bl as [|[type body] bl IH]; [cbn; lia|]. unfold blocks in *. cbn [map concat length fst snd].
  rewrite length_app. pose proof (len_block type body) as L. pose proof (len_nonneg body). unfold len in *. lia.
Qed.

Lemma Reads_server_data_blocks c c' bl : block_reads (fun type _ => read_server_block type) c bl c' -> len (blocks bl) < 65536 ->
  Reads (gcc_read_server_data_blocks c (len (blocks bl))) (blocks bl) (true, c').
Proof.
  intros Hr Hl s Hs. unfold gcc_read_server_data_blocks. unfold bind at 1, get. cbv beta iota.
  apply (server_blocks_run c bl c' Hr); [|lia|lia|exact Hl|exact Hs].
  pose proof (count_blocks bl). pose proof (holds_size _ _ Hs). unfold stream_get_left, len in *. lia.
Qed.

Lemma Reads_gcc_response c c' bl : block_reads (fun type _ => read_server_block type) c bl c' -> len (blocks bl) + 2 < 0x8000 ->
  Reads (gcc_read_conference_create_response c) (response_bytes (blocks bl)) (true, c').
Proof.
  intros Hb Hl. pose proof (len_nonneg (blocks bl)). unfold gcc_read_conference_create_response, response_bytes.
  eapply Reads_bind; [apply Reads_uint8_bind, Reads_ret|].
  eapply Reads_bind; [apply Reads_object_identifier; apply is_oid_t124|].
  apply Reads_per_length_bind; [lia|].
  eapply Reads_bind; [apply Reads_uint8_bind, Reads_ret|].
  eapply Reads_bind; [apply (Reads_integer16 0x79F3 1001); lia|]. eapply Reads_bind; [apply (Reads_per_integer 1); lia|].
  eapply Reads_bind; [apply Reads_per_enumerated|].
  do 2 (eapply Reads_bind; [apply Reads_uint8_bind, Reads_ret|]).
  eapply Reads_bind; [apply (Reads_per_octet_string h221_sc_key h221_sc_key 4); [reflexivity|split; discriminate || reflexivity]|].
  rewrite bool_decide_true by reflexivity. cbn [negb].
  unfold per_octet_string_bytes. rewrite Z.sub_0_r. apply Reads_per_length_bind; [lia|]. apply Reads_use.
  apply Reads_server_data_blocks; [exact Hb|lia].
Qed.

Lemma len_response_bytes ud : len (response_bytes ud) <= len ud + 24.
Proof.
  pose proof (len_per_length (len ud + 2)). pose proof (len_per_length (len ud - 0)).
  unfold response_bytes, per_octet_string_bytes. rewrite !len_app.
  change (len (oid_bytes t124_02_98_oid)) with 6. change (len (per_length_bytes (len h221_sc_key - 4))) with 1. change (len h221_sc_key) with 4.
  change (len (be16 (0x79F3 - 1001))) with 2. change (len (per_integer_bytes 1)) with 2. lens. lia.
Qed.

Lemma is_bytes_server_blocks sv nonce key : server_ok sv key -> is_bytes nonce -> is_bytes (blocks (server_blocks sv nonce key)).
Proof.
  intros [] Hn. apply is_bytes_concat. unfold server_blocks. pose proof is_bytes_block as Hb.
  assert (Hi : forall chans, is_bytes (id_bytes chans))
    by (intros; unfold id_bytes; apply is_bytes_concat, Forall_true; auto with bytes).
  apply Forall_cons_2; [apply Hb|apply Forall_cons_2; [apply Hb|apply Forall_cons_2; [apply Hb|apply Forall_nil_2]]]; cbn [snd].
  - unfold server_core_bytes. bytes_parts.
  - unfold server_network_bytes. bytes_parts. destruct (_ =? 1); [auto with bytes|constructor].
  - unfold server_security_bytes. bytes_parts. destruct (encrypts _); [|constructor].
    unfold key_cert, server_cert_bytes, tbs_bytes, public_key_bytes. bytes_parts.
    + repeat constructor; discriminate.
    + apply (is_bytes_zeros 8).
    + apply is_bytes_signature.
Qed.

Lemma len_server_blocks sv nonce key : server_ok sv key -> len nonce = 32 ->
  len (blocks (server_blocks sv nonce key)) <= 228 + len (k_modulus key).
Proof.
  intros Hsv Hn. pose proof (len_server_channels sv key Hsv) as Lc.
  pose proof (len_server_security (server_encryption sv) nonce key Hn (sv_exponent_len _ _ Hsv)) as Ls.
  pose proof (len_server_network_bytes (server_channels sv)) as Ln. destruct Hsv.
  unfold server_blocks, blocks. cbn [map concat fst snd]. rewrite !len_app, !len_block, len_nil, Ls, Ln, Lc.
  change (len (server_core_bytes sv)) with 8.
  assert (num_channels sv mod 2 = 1 -> num_channels sv <= 15) by (intros; assert (num_channels sv <> 16) by (intros E; rewrite E in *; discriminate); lia).
  destruct (Z.eqb_spec (num_channels sv mod 2) 1), (encrypts (server_encryption sv)); lia.
Qed.

End server_facts.

Lemma len_connect_response_pdu m ud : len ud <= 800 ->
  let pdu := (tpkt_bytes (7 + len (connect_response_bytes m ud)) ++ tpdu_data_bytes) ++ connect_response_bytes m ud in
  1 <= len pdu <= 1024 /\ len pdu = 7 + len (connect_response_bytes m ud).
Proof.
  intros Hl pdu. pose proof (len_connect_response_content m ud).
  assert (E : len pdu = 7 + len (connect_response_bytes m ud)) by (unfold pdu; rewrite !len_app; reflexivity).
  split; [|exact E]. rewrite E. unfold connect_response_bytes. rewrite len_app.
  pose proof (len_application_bytes MCS_TYPE_CONNECT_RESPONSE (len (connect_response_content m ud))). lia.
Qed.

Lemma is_bytes_response ud : is_bytes ud -> is_bytes (response_bytes ud).
Proof.
  intros Hb. unfold response_bytes, per_octet_string_bytes. pose proof is_bytes_per_length.
  bytes_parts; repeat constructor; discriminate.
Qed.

(** The PDU of the server, made like that of the client. *)
Definition connect_response_pdu `{Crypto} `{Bignum} (m : rdpMcs) (sv : rdp_settings) (nonce : list Z) (key : rdp_key) : list Z :=
  let ud := response_bytes (blocks (server_blocks sv nonce key)) in
  (tpkt_bytes (7 + len (connect_response_bytes m ud)) ++ tpdu_data_bytes) ++ connect_response_bytes m ud.

Lemma connect_response_built {N} `{Link N} `{Crypto} `{!CryptoLaws} `{Bignum} `{!BignumLaws} m sv nonce key :
  server_ok sv key -> len nonce = 32 -> is_bytes nonce -> valid_mcs m ->
  let m' := set_domainParameters (targetParameters m) m in
  exists w, WritesSz 1024 w (connect_response_pdu m sv nonce key) m' /\ 1 <= len (connect_response_pdu m sv nonce key) <= 1024 /\
    (forall t : rdpTransport N, mcs_send_connect_response (gcc_write_server_data_blocks nonce sv) gcc_write_conference_create_response m t
      = (transport_send_stream_init 1024;; let! m := on_send w in let! _ := transport_send in ret (true, m, answered nonce sv)) t).
Proof.
  intros Hsv Hn Hnb Hm m'. pose proof (is_bytes_server_blocks sv nonce key Hsv Hnb) as Hb.
  pose proof (len_server_blocks sv nonce key Hsv Hn) as Ls. pose proof (sv_modulus_len _ _ Hsv) as Lm.
  pose proof (Writes_server_blocks sv nonce key Hsv Hn) as Hw. unfold connect_response_pdu.
  set (sb := blocks (server_blocks sv nonce key)) in *. set (ud := response_bytes sb). cbv zeta.
  pose proof (len_response_bytes sb) as Lr. fold ud in Lr.
  destruct (built 512 sb ltac:(lia) ltac:(lia) Hb) as [Hu1 Hd1].
  destruct (built 512 ud ltac:(lia) ltac:(lia) (is_bytes_response sb Hb)) as [Hu2 _].
  pose proof (len_connect_response_pdu m ud ltac:(lia)) as Hp. cbv zeta in Hp. pose proof (len_nonneg (connect_response_bytes m ud)).
  exists (connect_pdu (mcs_write_connect_response m (put ud (stream_new 512)))). split; [|split; [lia|]].
  - apply Writes_connect_pdu, Writes_connect_response; [exact Hm|exact Hu2|lia].
  - intros t. unfold mcs_send_connect_response.
    rewrite (bind_Done _ _ _ _ _ (with_stream_new 512 _ _ _ t (Writes_Sz 512 _ _ _ Hw) ltac:(lia) ltac:(lia))).
    rewrite (bind_Done _ _ _ _ _ (with_stream_new 512 _ _ _ t (Writes_Sz 512 _ _ _ (Writes_gcc_response _ sb Hu1 Hd1)) ltac:(lia) ltac:(fold ud; lia))).
    reflexivity.
Qed.

Lemma Reads_connect_response_pdu `{Crypto} `{!CryptoLaws} `{Bignum} `{!BignumLaws} m m' sv nonce key c :
  server_ok sv key -> len nonce = 32 -> is_bytes nonce -> valid_mcs m -> length (channels c) = 16%nat ->
  Reads (mcs_recv_connect_response gcc_read_conference_create_response m' c) (connect_response_pdu m sv nonce key)
    (true, set_domainParameters (parameters_read_back (targetParameters m)) m', server_view sv nonce key c).
Proof.
  intros Hsv Hn Hnb Hm Hch. pose proof (len_server_blocks sv nonce key Hsv Hn) as Ls. pose proof (sv_modulus_len _ _ Hsv) as Lm.
  unfold connect_response_pdu. set (sb := blocks (server_blocks sv nonce key)) in *. set (ud := response_bytes sb). cbv zeta.
  pose proof (len_response_bytes sb) as Lr. fold ud in Lr.
  pose proof (len_connect_response_pdu m ud ltac:(lia)) as Hp. cbv zeta in Hp. pose proof (len_nonneg (connect_response_bytes m ud)).
  pose proof (len_connect_response_content m ud). rewrite <- app_assoc.
  apply Reads_connect_response; [exact Hm|lia|lia|].
  apply Reads_gcc_response; [apply server_blocks_read; assumption|fold sb; lia].
Qed.

(** C30. The answer of a server: it settles its encryption, and its data blocks,
    the Conference Create Response and the MCS Connect-Response are put on the
    wire or the layer is closed; the client that receives the PDU takes over
    the version, the channel numbers, the encryption chosen, the server random
    and the public key of the server. *)
Theorem server_settings_arrive {N} `{Link N} l `{!LinkLaws N l} `{Crypto} `{!CryptoLaws} `{Bignum} `{!BignumLaws}
    (t : rdpTransport N) m m' sv nonce key c :
  let pdu := connect_response_pdu m sv nonce key in
  server_ok sv key -> len nonce = 32 -> is_bytes nonce -> valid_mcs m -> length (channels c) = 16%nat ->
  t_layer t = l -> stream_ok (t_send_stream t) -> s_size (t_send_stream t) <= 2 ^ 30 - 1 ->
  (exists t', mcs_send_connect_response (gcc_write_server_data_blocks nonce sv) gcc_write_conference_create_response m t
       = Done ((true, set_domainParameters (targetParameters m) m, answered nonce sv), t') /\ sent_or_closed l t pdu t') /\
  Reads (mcs_recv_connect_response gcc_read_conference_create_response m' c) pdu
    (true, set_domainParameters (parameters_read_back (targetParameters m)) m', server_view sv nonce key c).
Proof.
  intros pdu Hsv Hn Hnb Hm Hch Ht Hok Hsz. split; [|apply Reads_connect_response_pdu; assumption].
  destruct (connect_response_built (N := N) m sv nonce key Hsv Hn Hnb Hm) as (w & Hw & Hp & E).
  destruct (send_sized_spec l t 1024 w pdu _ (fun m _ => ret (true, m, answered nonce sv)) Ht Hok Hsz Hw Hp ltac:(lia))
    as (st & t' & Es & Hs & _).
  exists t'. rewrite E. split; [exact Es|exact Hs].
Qed.

Lemma read_ids_overflow n : forall i chans ids s, 0 <= i -> len chans < i + Z.of_nat n -> length ids = (2 * n)%nat -> is_bytes ids ->
  holds s ids -> i <= len chans -> read_channel_ids n i chans s = Fault OutOfBounds.
Proof.
  induction n as [|n IH]; intros i chans ids s Hi Hlt Hl Hb Hs Hle; [lia|]. cbn [read_channel_ids].
  destruct ids as [|b0 [|b1 ids]]; [cbn in Hl; lia|cbn in Hl; lia|].
  apply Forall_cons_1 in Hb as [Hb0 [Hb1 Hb]%Forall_cons_1]. change (b0 :: b1 :: ids) with ([b0; b1] ++ ids) in Hs.
  read_step (Reads_uint16 b0 b1 Hb0 Hb1) Hs. unfold elem. rewrite (proj2 (Z.leb_le 0 i)) by lia.
  destruct (chans !! Z.to_nat i) as [o|] eqn:Eo; [|reflexivity]. rewrite bind_ret.
  apply lookup_lt_Some in Eo. unfold elem_set. rewrite (proj2 (Z.leb_le 0 i)), (proj2 (Z.ltb_lt i _)) by (unfold len in *; lia).
  cbn [andb]. rewrite bind_ret.
  apply (IH _ _ ids); [lia|unfold len in *; rewrite length_insert; lia|cbn in Hl; lia|exact Hb|exact Hs|unfold len; rewrite length_insert; lia].
Qed.

(** The network data of a server that announces [n] channels. *)
Definition announced (n : Z) (ids : list Z) : list Z := le16 MCS_GLOBAL_CHANNEL_ID ++ le16 n ++ ids.

(** A server that announces more channels than the array of the client has
    elements makes the client write behind it. *)
Theorem channel_numbers_overflow c n ids s : len (channels c) < n < 65536 -> len ids = 2 * n -> is_bytes ids ->
  holds s (announced n ids) -> gcc_read_server_network_data c s = Fault OutOfBounds.
Proof.
  intros Hn Hl Hb Hs. unfold gcc_read_server_network_data, announced in *. pose proof (len_nonneg (channels c)).
  read_step (Reads_le16 MCS_GLOBAL_CHANNEL_ID ltac:(split; discriminate || reflexivity)) Hs.
  read_step (Reads_le16 n ltac:(lia)) Hs. apply bind_Fault.
  apply (read_ids_overflow _ _ _ ids); [lia|lia|unfold len in Hl; lia|exact Hb|exact Hs|lia].
Qed.

#[local] Existing Instance ZBignum.
#[local] Existing Instance ZBignum_laws.

Lemma sample_server_ok : server_ok sample_server sample_key.
Proof.
  split; try (split; discriminate || reflexivity); try reflexivity; try discriminate.
  - repeat (apply Forall_cons_2; [split; discriminate || reflexivity|]). apply Forall_nil_2.
  - repeat constructor; discriminate.
  - apply Forall_replicate. split; discriminate || reflexivity.
Qed.

Lemma server_settings_arrive_witness :
  exists t', mcs_send_connect_response (gcc_write_server_data_blocks (replicate 32 7) sample_server)
               gcc_write_conference_create_response mcs_new sample_transport
             = Done ((true, set_domainParameters (targetParameters mcs_new) mcs_new, answered (replicate 32 7) sample_server), t') /\
    cert_info (server_cert (server_view sample_server (replicate 32 7) sample_key sample_client))
    = mkCertInfo (replicate 64 0xC5) [1; 0; 1; 0].
Proof.
  destruct (server_settings_arrive TRANSPORT_LAYER_TCP sample_transport mcs_new mcs_new sample_server (replicate 32 7) sample_key
              sample_client sample_server_ok eq_refl ltac:(apply Forall_replicate; split; discriminate || reflexivity)
              mcs_new_valid eq_refl eq_refl sample_transport_ok ltac:(vm_compute; discriminate)) as [(t' & E & _) _].
  exists t'. split; [exact E|]. reflexivity.
Defined.

Definition many_channels : list Z := le16 MCS_GLOBAL_CHANNEL_ID ++ le16 17 ++ zeros 34.

Lemma channel_numbers_overflow_witness :
  gcc_read_server_network_data sample_client (mkSTREAM 38 0 many_channels) = Fault OutOfBounds.
Proof.
  refine (channel_numbers_overflow sample_client 17 (zeros 34) (mkSTREAM 38 0 many_channels) _ eq_refl (is_bytes_zeros 34) _).
  - split; reflexivity.
  - rewrite <- (app_nil_r many_channels). apply (holds_start 38 many_channels []). discriminate.
Defined.

(** ** Whatever the server sends *)

(** A reader that ends, or faults otherwise than by looping, and does not change
    the size of the stream. *)
Definition Steady {A} (r : M STREAM A) : Prop := forall s,
  match r s with Done (_, s') => s_size s' = s_size s | Fault f => f <> Diverges end.

Lemma Steady_bind {A B} (r : M STREAM A) (k : A -> M STREAM B) : Steady r -> (forall a, Steady (k a)) -> Steady (bind r k).
Proof.
  intros Hr Hk s. unfold bind. specialize (Hr s). destruct (r s) as [[a s1]|f]; [|exact Hr].
  specialize (Hk a s1). destruct (k a s1) as [[b s2]|f]; [congruence|exact Hk].
Qed.

Lemma Steady_ret {A} (a : A) : Steady (ret a).
Proof. intros s. reflexivity. Qed.
Lemma Steady_fail {A} f : f <> Diverges -> Steady (fail f : M STREAM A).
Proof. intros Hf s. exact Hf. Qed.
Lemma Steady_use {A} (v : option A) : Steady (use v).
Proof. destruct v; [apply Steady_ret|apply Steady_fail; discriminate]. Qed.
Lemma Steady_get : Steady get.
Proof. intros s. reflexivity. Qed.
Lemma Steady_left : Steady left_bytes.
Proof. intros s. reflexivity. Qed.
Lemma Steady_seek n : Steady (stream_seek n).
Proof. intros s. reflexivity. Qed.
Lemma Steady_rewind n : Steady (stream_rewind n).
Proof. intros s. reflexivity. Qed.
Lemma Steady_set_pos n : Steady (stream_set_pos n).
Proof. intros s. reflexivity. Qed.
Lemma Steady_rbyte off : Steady (rbyte off).
Proof. intros s. unfold rbyte. destruct (0 <=? _); [|discriminate]. destruct (_ !! _); [reflexivity|discriminate]. Qed.
Lemma Steady_read n : Steady (stream_read n).
Proof. intros s. unfold stream_read. destruct (bool_decide _); [reflexivity|discriminate]. Qed.
Lemma Steady_mem off n l : Steady (mem off n l).
Proof. intros s. unfold mem. destruct (bool_decide _); [reflexivity|discriminate]. Qed.
Lemma Steady_mem_put off bs dst : Steady (mem_put off bs dst).
Proof. intros s. unfold mem_put. destruct (bool_decide _); [reflexivity|discriminate]. Qed.
Lemma Steady_reverse data n : Steady (crypto_reverse data n).
Proof.
  intros s. unfold crypto_reverse. generalize (Z.to_nat n) 0 (n - 1) data. intros fuel.
  induction fuel as [|fuel IH]; intros i j l; cbn [reverse_loop]; (destruct (i <? j); [|reflexivity]); [discriminate|].
  destruct (l !! Z.to_nat i), (l !! Z.to_nat j); try discriminate. apply IH.
Qed.
Lemma Steady_with_stream {A} tmps (c : M STREAM A) : Steady c -> Steady (with_stream tmps c).
Proof. intros Hc s. unfold with_stream. specialize (Hc tmps). destruct (c tmps) as [[a t]|f]; [reflexivity|exact Hc]. Qed.
Lemma Steady_elem {A} (l : list A) i : Steady (elem l i).
Proof. unfold elem. destruct (0 <=? i); [|apply Steady_fail; discriminate]. destruct (l !! _); [apply Steady_ret|apply Steady_fail; discriminate]. Qed.
Lemma Steady_elem_set {A} i a (l : list A) : Steady (elem_set i a l).
Proof. unfold elem_set. destruct (_ && _); [apply Steady_ret|apply Steady_fail; discriminate]. Qed.

Create HintDb steady discriminated.
#[local] Hint Resolve Steady_ret Steady_use Steady_get Steady_left Steady_seek Steady_rewind Steady_set_pos Steady_rbyte Steady_read
  Steady_mem Steady_mem_put Steady_reverse Steady_with_stream Steady_elem Steady_elem_set : steady.

(** Follow a reader: sequences, branches, and the readers known to be steady. *)
Ltac steady :=
  repeat first
    [ solve [auto with steady]
    | apply Steady_bind; [|intros ?]
    | apply Steady_fail; discriminate
    | match goal with
      | |- Steady (match ?p with pair _ _ => _ end) => destruct p
      | |- Steady (if ?b then _ else _) => destruct b
      | |- Steady (let _ := _ in _) => cbv zeta
      | |- Steady (match ?o with Some _ => _ | None => _ end) => destruct o
      end ].

Lemma Steady_uint8 : Steady stream_read_uint8.
Proof. unfold stream_read_uint8. steady. Qed.
Lemma Steady_uint16 : Steady stream_read_uint16.
Proof. unfold stream_read_uint16. steady. Qed.
Lemma Steady_uint16_be : Steady stream_read_uint16_be.
Proof. unfold stream_read_uint16_be. steady. Qed.
Lemma Steady_uint32_be : Steady stream_read_uint32_be.
Proof. unfold stream_read_uint32_be. steady. Qed.
Lemma Steady_uint32 : Steady stream_read_uint32.
Proof. unfold stream_read_uint32. steady. Qed.
#[local] Hint Resolve Steady_uint8 Steady_uint16 Steady_uint16_be Steady_uint32 Steady_uint32_be : steady.

Lemma Steady_ber_length old : Steady (ber_read_length old).
Proof. unfold ber_read_length. steady. Qed.
#[local] Hint Resolve Steady_ber_length : steady.
Lemma Steady_ber_universal tag pc : Steady (ber_read_universal_tag tag pc).
Proof. unfold ber_read_universal_tag. steady. Qed.
#[local] Hint Resolve Steady_ber_universal : steady.
Lemma Steady_ber_sequence old : Steady (ber_read_sequence_tag old).
Proof. unfold ber_read_sequence_tag. steady. Qed.
Lemma Steady_ber_contextual tag old pc : Steady (ber_read_contextual_tag tag old pc).
Proof. unfold ber_read_contextual_tag. steady. Qed.
Lemma Steady_ber_integer w v : Steady (ber_read_integer w v).
Proof. unfold ber_read_integer. steady. Qed.
Lemma Steady_ber_integer_length old : Steady (ber_read_integer_length old).
Proof. unfold ber_read_integer_length. steady. Qed.
Lemma Steady_ber_bit_string old : Steady (ber_read_bit_string old).
Proof. unfold ber_read_bit_string. steady. Qed.
#[local] Hint Resolve Steady_ber_sequence Steady_ber_contextual Steady_ber_integer Steady_ber_integer_length Steady_ber_bit_string : steady.

Lemma Steady_skip_zeros fuel : forall n, Steady (skip_zeros fuel n).
Proof. induction fuel as [|fuel IH]; intros n; cbn [skip_zeros]; unfold stream_peek_uint8; steady. Qed.
Lemma Steady_skip_sequence old : Steady (skip_sequence old).
Proof. unfold skip_sequence. steady. Qed.
#[local] Hint Resolve Steady_skip_zeros Steady_skip_sequence : steady.
Lemma Steady_read_x509 info : Steady (read_x509 info).
Proof. unfold read_x509, read_rsa_key. steady. Qed.
#[local] Hint Resolve Steady_read_x509 : steady.
Lemma Steady_x509 cert info : Steady (certificate_read_x509_certificate cert info).
Proof. unfold certificate_read_x509_certificate. steady. Qed.
#[local] Hint Resolve Steady_x509 : steady.

Section steady_readers.
Context `{Crypto} `{Bignum}.

Lemma Steady_chain fuel : forall i n c, Steady (chain_loop fuel i n c).
Proof. induction fuel as [|fuel IH]; intros i n c; cbn [chain_loop]; steady. Qed.
Lemma Steady_rsa i l k m e es o : Steady (crypto_rsa_common i l k m e es o).
Proof. unfold crypto_rsa_common, rsa_output. steady. Qed.
#[local] Hint Resolve Steady_chain Steady_rsa : steady.
Lemma Steady_rsa_decrypt i l k m e o : Steady (crypto_rsa_public_decrypt i l k m e o).
Proof. apply Steady_rsa. Qed.
#[local] Hint Resolve Steady_rsa_decrypt : steady.
Lemma Steady_proprietary c : Steady (certificate_read_server_proprietary_certificate c).
Proof.
  unfold certificate_read_server_proprietary_certificate, certificate_process_server_public_key,
    certificate_process_server_public_signature. steady.
Qed.
#[local] Hint Resolve Steady_proprietary : steady.
Lemma Steady_certificate c data n : Steady (certificate_read_server_certificate c data n).
Proof.
  unfold certificate_read_server_certificate, read_server_certificate, certificate_read_server_x509_certificate_chain.
  destruct (n <? 1); [steady|]. apply Steady_bind; [apply Steady_with_stream|intros ?]; steady.
Qed.
#[local] Hint Resolve Steady_certificate : steady.
Lemma Steady_channel_ids n : forall i chans, Steady (read_channel_ids n i chans).
Proof. induction n as [|n IH]; intros i chans; cbn [read_channel_ids]; steady. Qed.
#[local] Hint Resolve Steady_channel_ids : steady.

Lemma Steady_header : Steady gcc_read_user_data_header.
Proof. unfold gcc_read_user_data_header. steady. Qed.

Lemma Steady_server_block type c : Steady (read_server_block type c).
Proof.
  unfold read_server_block, gcc_read_server_core_data, gcc_read_server_security_data, gcc_read_server_network_data. steady.
Qed.

(** The header of a block inside the stream. *)
Lemma header_bounds s type n s1 : gcc_read_user_data_header s = Done ((true, type, n), s1) ->
  4 <= n /\ s_p s + n <= s_size s /\ s_size s1 = s_size s.
Proof.
  assert (Hr : forall s' v s2, stream_read_uint16 s' = Done (v, s2) -> s_p s2 = s_p s' + 2 /\ s_size s2 = s_size s').
  { intros s' v s2 E. unfold stream_read_uint16 in E. run_inv E. run_inv E. unfold rbyte in E0, E1.
    destruct (0 <=? s_p s' + 0); [|discriminate]. destruct (s_data s' !! _); [|discriminate]. injection E0 as <- <-.
    destruct (0 <=? s_p s' + 1); [|discriminate]. destruct (s_data s' !! Z.to_nat (s_p s' + 1)); [|discriminate].
    injection E1 as <- <-. injection E as <- <-. split; reflexivity. }
  intros E. unfold gcc_read_user_data_header in E. run_inv E. run_inv E.
  destruct (Hr _ _ _ E0) as [P0 S0]. destruct (Hr _ _ _ E1) as [P1 S1].
  destruct (Z.ltb_spec a0 4); [discriminate|]. unfold bind, left_bytes, stream_get_left in E.
  destruct (Z.ltb_spec (s_size s2 - s_p s2) (a0 - 4)); [discriminate|]. injection E as <- <- <-. lia.
Qed.

Lemma server_blocks_end fuel : forall offset length c s, 0 <= s_p s <= s_size s -> s_size s - s_p s < Z.of_nat fuel ->
  read_server_blocks fuel offset length c s <> Fault Diverges.
Proof.
  induction fuel as [|fuel IH]; intros offset length c s Hp Hf; [lia|]. cbn [read_server_blocks].
  destruct (offset <? length); [|discriminate]. unfold bind at 1, get. cbv beta iota. unfold bind at 1.
  pose proof (Steady_header s) as Hh. destruct (gcc_read_user_data_header s) as [[[[ok type] n] s1]|f] eqn:E; [|congruence].
  destruct ok; cbn [negb]; [|discriminate]. destruct (header_bounds s type n s1 E) as (Hn & Hsz & S1).
  unfold bind at 1. pose proof (Steady_server_block type c s1) as Hb.
  destruct (read_server_block type c s1) as [[[ok c1] s2]|f]; [|congruence]. destruct ok; cbn [negb]; [|discriminate].
  unfold bind, stream_set_pos, stream_get_pos. apply IH; cbn [set_p s_p s_size]; lia.
Qed.

End steady_readers.

(** A reader that returns or faults, but does not loop. *)
Definition terminates {A} (r : M STREAM A) (s : STREAM) : Prop := r s <> Fault Diverges.

(** Whatever blocks a server sends, and however often the offset of the
    client's reader wraps around, reading them comes to an end. *)
Theorem gcc_server_blocks_end `{Crypto} `{Bignum} c length s : stream_fits s ->
  terminates (gcc_read_server_data_blocks c length) s.
Proof.
  intros [Hp _]. unfold terminates, gcc_read_server_data_blocks. unfold bind at 1, get. cbv beta iota.
  apply server_blocks_end; [exact Hp|]. unfold stream_get_left. lia.
Qed.

(** Three empty blocks of unknown types, in data announced as longer. *)
Definition short_blocks : STREAM := mkSTREAM 12 0 [1; 2; 4; 0; 3; 4; 4; 0; 5; 6; 4; 0].

Lemma gcc_server_blocks_end_witness :
  terminates (gcc_read_server_data_blocks sample_client 0x7FFF) short_blocks.
Proof. apply (gcc_server_blocks_end sample_client 0x7FFF short_blocks). repeat split; discriminate. Defined.
