(* ===== verification/Rlgr.v ===== *)
(** RemoteFX entropy coding, [libfreerdp-codec/rfx_rlgr.c] over the bit stream of
    [rfx_bitstream.h]: the run-length/Golomb-Rice coder in both of its modes, and
    what its decoder makes of its output. *)

From S2P Require Import Prelude.
From S2P Require Import Bits.

(** ** The bit stream of [rfx_bitstream.h] *)

Record RFX_BITSTREAM : Type := mkBS {
  bs_buffer : list Z;
  bs_nbytes : Z;
  bs_byte_pos : Z;
  bs_bits_left : Z;
}.

Definition rfx_bitstream_attach (buffer : list Z) (nbytes : Z) : RFX_BITSTREAM := mkBS buffer nbytes 0 8.

Definition rfx_bitstream_eos (bs : RFX_BITSTREAM) : bool := bs_nbytes bs <=? bs_byte_pos bs.

Definition rfx_bitstream_get_processed_bytes (bs : RFX_BITSTREAM) : Z :=
  if bs_bits_left bs <? 8 then bs_byte_pos bs + 1 else bs_byte_pos bs.

(** Move on by [b] bits of the current byte. *)
Definition bs_skip (b : Z) (bs : RFX_BITSTREAM) : RFX_BITSTREAM :=
  let left := bs_bits_left bs - b in
  if left =? 0 then mkBS (bs_buffer bs) (bs_nbytes bs) (bs_byte_pos bs + 1) 8
  else mkBS (bs_buffer bs) (bs_nbytes bs) (bs_byte_pos bs) left.

(** [buffer[byte_pos]] *)
Definition bs_cur (bs : RFX_BITSTREAM) : option Z := bs_buffer bs !! Z.to_nat (bs_byte_pos bs).

Fixpoint get_bits_loop (fuel : nat) (nbits n : Z) : M RFX_BITSTREAM Z := fun bs =>
  if negb (rfx_bitstream_eos bs) && (0 <? nbits) then
    match fuel, bs_cur bs with
    | O, _ => Fault Diverges
    | _, None => Fault OutOfBounds
    | S fuel', Some x =>
        let b := Z.min nbits (bs_bits_left bs) in
        let n := uint16 (Z.shiftl n b) in
        let n := Z.lor n (Z.land (Z.shiftr x (bs_bits_left bs - b)) (Z.shiftl 1 b - 1)) in
        get_bits_loop fuel' (nbits - b) n (bs_skip b bs)
    end
  else Done (n, bs).

Definition rfx_bitstream_get_bits (nbits : Z) : M RFX_BITSTREAM Z :=
  get_bits_loop (Z.to_nat nbits) nbits 0.

(** The byte with [b] of its bits, below the [left] lowest, replaced. *)
Definition put_byte (x left b v : Z) : Z :=
  uint8 (Z.lor (uint8 (Z.land x (Z.lnot (Z.shiftl (Z.shiftl 1 b - 1) (left - b)))))
               (Z.shiftl (Z.land v (Z.shiftl 1 b - 1)) (left - b))).

Fixpoint put_bits_loop (fuel : nat) (bits nbits : Z) : M RFX_BITSTREAM unit := fun bs =>
  if negb (rfx_bitstream_eos bs) && (0 <? nbits) then
    match fuel, bs_cur bs with
    | O, _ => Fault Diverges
    | _, None => Fault OutOfBounds
    | S fuel', Some x =>
        let b := Z.min nbits (bs_bits_left bs) in
        let x := put_byte x (bs_bits_left bs) b (Z.shiftr bits (nbits - b)) in
        put_bits_loop fuel' bits (nbits - b)
          (bs_skip b (mkBS (<[Z.to_nat (bs_byte_pos bs) := x]> (bs_buffer bs)) (bs_nbytes bs)
                        (bs_byte_pos bs) (bs_bits_left bs)))
    end
  else Done (tt, bs).

Definition rfx_bitstream_put_bits (bits nbits : Z) : M RFX_BITSTREAM unit :=
  put_bits_loop (Z.to_nat nbits) (uint16 bits) nbits.

(** ** Parameters of the coder *)

Definition KPMAX : Z := 80.
Definition LSGR : Z := 3.
Definition UP_GR : Z := 4.
Definition DN_GR : Z := 6.
Definition UQ_GR : Z := 3.
Definition DQ_GR : Z := 3.

Inductive RLGR_MODE : Type := RLGR1 | RLGR3.

(** The parameter clamped to [0, KPMAX], and its shifted value. *)
Definition UpdateParam (param delta : Z) : Z * Z :=
  let p := param + delta in
  let p := if KPMAX <? p then KPMAX else p in
  let p := if p <? 0 then 0 else p in
  (p, Z.shiftr p LSGR).

Fixpoint min_bits (fuel : nat) (v n : Z) : Z :=
  match fuel with
  | O => n
  | S fuel' => if v =? 0 then n else min_bits fuel' (Z.shiftr v 1) (n + 1)
  end.

(** The value is a [uint32]. *)
Definition GetMinBits (v : Z) : Z := min_bits 32 v 0.

Definition GetIntFrom2MagSign (twoMs : Z) : Z :=
  if negb (Z.land twoMs 1 =? 0) then -1 * sint16 (Z.shiftr (uint32 (twoMs + 1)) 1) else sint16 (Z.shiftr twoMs 1).

Definition Get2MagSign (input : Z) : Z := if 0 <=? input then 2 * input else -2 * input - 1.

(** ** The decoder *)

Record decoder : Type := mkDec {
  d_k : Z;
  d_kp : Z;
  d_kr : Z;
  d_krp : Z;
  d_dst : list Z;
  d_room : Z;
}.

(** [buffer_size -= n]: the counter is an [int] and goes on below zero. *)
Definition spend (n : Z) (d : decoder) (dst : list Z) : M RFX_BITSTREAM decoder :=
  if d_room d - n <? - 2 ^ 31 then fail SignedOverflow
  else ret (mkDec (d_k d) (d_kp d) (d_kr d) (d_krp d) dst (d_room d - n)).

Definition WriteValue (v : Z) (d : decoder) : M RFX_BITSTREAM decoder :=
  spend 1 d (if 0 <? d_room d then d_dst d ++ [sint16 v] else d_dst d).

Definition WriteZeroes (n : Z) (d : decoder) : M RFX_BITSTREAM decoder :=
  spend n d (d_dst d ++ replicate (Z.to_nat (Z.min n (d_room d))) 0).

Definition update_kp (delta : Z) (d : decoder) : decoder :=
  let (kp, k) := UpdateParam (d_kp d) delta in
  mkDec k kp (d_kr d) (d_krp d) (d_dst d) (d_room d).

Definition update_krp (delta : Z) (d : decoder) : decoder :=
  let (krp, kr) := UpdateParam (d_krp d) delta in
  mkDec (d_k d) (d_kp d) kr krp (d_dst d) (d_room d).

(** The bits there can be, and one more. *)
Definition bs_fuel (bs : RFX_BITSTREAM) : nat := S (Z.to_nat (8 * bs_nbytes bs)).

Fixpoint leading_ones (fuel : nat) (vk : Z) : M RFX_BITSTREAM Z :=
  match fuel with
  | O => fail Diverges
  | S fuel' =>
      let! r := rfx_bitstream_get_bits 1 in
      if r =? 1 then leading_ones fuel' (vk + 1) else ret vk
  end.

(** [vk << *kr] and [*krp + vk] are computed in [int]. *)
Definition GetGRCode (d : decoder) : M RFX_BITSTREAM (Z * decoder) := fun bs =>
  (let! vk := leading_ones (bs_fuel bs) 0 in
   let! mag := rfx_bitstream_get_bits (d_kr d) in
   if (2 ^ 31 <=? Z.shiftl vk (d_kr d)) || (2 ^ 31 <=? d_krp d + vk) then fail SignedOverflow else
   let mag := Z.lor mag (uint16 (Z.shiftl vk (d_kr d))) in
   ret (mag, if vk =? 0 then update_krp (-2) d
             else if vk =? 1 then d
             else update_krp vk d)) bs.

(** The runs of zeros at the start of the run-length mode. *)
Fixpoint decode_runs (fuel : nat) (d : decoder) : M RFX_BITSTREAM decoder := fun bs =>
  if rfx_bitstream_eos bs then Done (d, bs)
  else match fuel with
       | O => Fault Diverges
       | S fuel' =>
           (let! r := rfx_bitstream_get_bits 1 in
            if negb (r =? 0) then ret d
            else
              let! d := WriteZeroes (Z.shiftl 1 (d_k d)) d in
              decode_runs fuel' (update_kp UP_GR d)) bs
       end.

Definition decode_rl (d : decoder) : M RFX_BITSTREAM decoder := fun bs =>
  (let! d := decode_runs (bs_fuel bs) d in
   let! run := rfx_bitstream_get_bits (d_k d) in
   let! d := WriteZeroes run d in
   let! sign := rfx_bitstream_get_bits 1 in
   let! (mag16, d) := GetGRCode d in
   let mag := mag16 + 1 in
   let! d := WriteValue (if negb (sign =? 0) then - mag else mag) d in
   ret (update_kp (- DN_GR) d)) bs.

Definition decode_gr (mode : RLGR_MODE) (d : decoder) : M RFX_BITSTREAM decoder :=
  let! (mag, d) := GetGRCode d in
  match mode with
  | RLGR1 =>
      if mag =? 0 then
        let! d := WriteValue 0 d in
        ret (update_kp UQ_GR d)
      else
        let! d := WriteValue (GetIntFrom2MagSign mag) d in
        ret (update_kp (- DQ_GR) d)
  | RLGR3 =>
      let! val1 := rfx_bitstream_get_bits (GetMinBits mag) in
      let val2 := uint32 (mag - val1) in
      let d := if negb (val1 =? 0) && negb (val2 =? 0) then update_kp (-2 * DQ_GR) d
               else if (val1 =? 0) && (val2 =? 0) then update_kp (2 * UQ_GR) d
               else d in
      let! d := WriteValue (GetIntFrom2MagSign val1) d in
      WriteValue (GetIntFrom2MagSign val2) d
  end.

(** Every round writes a value at least. *)
Fixpoint decode_loop (mode : RLGR_MODE) (fuel : nat) (d : decoder) : M RFX_BITSTREAM decoder := fun bs =>
  if negb (rfx_bitstream_eos bs) && (0 <? d_room d) then
    match fuel with
    | O => Fault Diverges
    | S fuel' =>
        (let! d := if negb (d_k d =? 0) then decode_rl d else decode_gr mode d in
         decode_loop mode fuel' d) bs
    end
  else Done (d, bs).

(** The values written to [buffer]; their number is the function's result. *)
Definition rfx_rlgr_decode (mode : RLGR_MODE) (data : list Z) (data_size buffer_size : Z) : outcome (list Z) :=
  match decode_loop mode (Z.to_nat buffer_size)
          (mkDec 1 (Z.shiftl 1 LSGR) 1 (Z.shiftl 1 LSGR) [] buffer_size)
          (rfx_bitstream_attach data data_size) with
  | Done (d, _) => Done (d_dst d)
  | Fault f => Fault f
  end.

(** ** The encoder *)

(** The loop of [OutputBit]: sixteen bits at a time. *)
Fixpoint output_bit (fuel : nat) (count b : Z) : M RFX_BITSTREAM unit :=
  if 0 <? count then
    match fuel with
    | O => fail Diverges
    | S fuel' => rfx_bitstream_put_bits b (if 16 <? count then 16 else count);; output_bit fuel' (count - 16) b
    end
  else ret tt.

Definition OutputBit (count : Z) (bit : bool) : M RFX_BITSTREAM unit :=
  output_bit (Z.to_nat count) count (if bit then 0xFFFF else 0).

(** Returns the new [*krp]. *)
Definition rfx_rlgr_code_gr (krp val : Z) : M RFX_BITSTREAM Z :=
  let kr := Z.shiftr krp LSGR in
  let vk := Z.shiftr val kr in
  OutputBit vk true;;
  OutputBit 1 false;;
  (if negb (kr =? 0) then rfx_bitstream_put_bits (Z.land val (Z.shiftl 1 kr - 1)) kr else ret tt);;
  ret (if vk =? 0 then fst (UpdateParam krp (-2)) else if 1 <? vk then fst (UpdateParam krp vk) else krp).

Definition GetNextInput (data : list Z) : Z * list Z :=
  match data with n :: data' => (n, data') | [] => (0, []) end.

(** The run of zeros in front, the value behind it, and what is left. *)
Fixpoint zero_run (data : list Z) (numZeros : Z) : Z * Z * list Z :=
  match data with
  | [] => (numZeros, 0, [])
  | input :: data' =>
      if (input =? 0) && (0 <? len data') then zero_run data' (numZeros + 1) else (numZeros, input, data')
  end.

(** Returns the zeros left over, [k] and [kp]. *)
Fixpoint encode_runs (fuel : nat) (numZeros k kp : Z) : M RFX_BITSTREAM (Z * Z * Z) :=
  if Z.shiftl 1 k <=? numZeros then
    match fuel with
    | O => fail Diverges
    | S fuel' =>
        OutputBit 1 false;;
        let (kp', k') := UpdateParam kp UP_GR in
        encode_runs fuel' (numZeros - Z.shiftl 1 k) k' kp'
    end
  else ret (numZeros, k, kp).

Definition encode_rl (data : list Z) (k kp krp : Z) : M RFX_BITSTREAM (list Z * Z * Z * Z) :=
  let '(numZeros, input, data) := zero_run data 0 in
  let! (numZeros, k, kp) := encode_runs (Z.to_nat numZeros) numZeros k kp in
  OutputBit 1 true;;
  rfx_bitstream_put_bits numZeros k;;
  let mag := if input <? 0 then - input else input in
  OutputBit 1 (input <? 0);;
  let! krp := rfx_rlgr_code_gr krp (if negb (mag =? 0) then mag - 1 else 0) in
  let (kp, k) := UpdateParam kp (- DN_GR) in
  ret (data, k, kp, krp).

Definition encode_gr (mode : RLGR_MODE) (data : list Z) (k kp krp : Z) : M RFX_BITSTREAM (list Z * Z * Z * Z) :=
  let (input, data) := GetNextInput data in
  let twoMs1 := Get2MagSign input in
  match mode with
  | RLGR1 =>
      let! krp := rfx_rlgr_code_gr krp twoMs1 in
      let (kp, k) := UpdateParam kp (if negb (twoMs1 =? 0) then - DQ_GR else UQ_GR) in
      ret (data, k, kp, krp)
  | RLGR3 =>
      let (input, data) := GetNextInput data in
      let twoMs2 := Get2MagSign input in
      let sum2Ms := twoMs1 + twoMs2 in
      let! krp := rfx_rlgr_code_gr krp sum2Ms in
      rfx_bitstream_put_bits twoMs1 (GetMinBits sum2Ms);;
      let (kp, k) :=
        if negb (twoMs1 =? 0) && negb (twoMs2 =? 0) then UpdateParam kp (-2 * DQ_GR)
        else if (twoMs1 =? 0) && (twoMs2 =? 0) then UpdateParam kp (2 * UQ_GR)
        else (kp, k) in
      ret (data, k, kp, krp)
  end.

Fixpoint encode_loop (mode : RLGR_MODE) (fuel : nat) (data : list Z) (k kp krp : Z) : M RFX_BITSTREAM unit :=
  if 0 <? len data then
    match fuel with
    | O => fail Diverges
    | S fuel' =>
        let! (data, k, kp, krp) := if negb (k =? 0) then encode_rl data k kp krp else encode_gr mode data k kp krp in
        encode_loop mode fuel' data k kp krp
    end
  else ret tt.

(** The buffer afterwards and [processed_size]. *)
Definition rfx_rlgr_encode (mode : RLGR_MODE) (data : list Z) (buffer : list Z) (buffer_size : Z) : outcome (list Z * Z) :=
  match encode_loop mode (length data) data 1 (Z.shiftl 1 LSGR) (Z.shiftl 1 LSGR)
          (rfx_bitstream_attach buffer buffer_size) with
  | Done (_, bs) => Done (bs_buffer bs, rfx_bitstream_get_processed_bytes bs)
  | Fault f => Fault f
  end.

(** ** Reading and writing bits *)

Record bs_ok (bs : RFX_BITSTREAM) : Prop := {
  ok_pos : 0 <= bs_byte_pos bs <= bs_nbytes bs;
  ok_left : 1 <= bs_bits_left bs <= 8;
  ok_end : bs_byte_pos bs = bs_nbytes bs -> bs_bits_left bs = 8;
  ok_buffer : bs_nbytes bs <= len (bs_buffer bs);
  ok_bytes : is_bytes (bs_buffer bs);
}.

(** The bits still to be read. *)
Definition upcoming (bs : RFX_BITSTREAM) : list bool :=
  match drop (Z.to_nat (bs_byte_pos bs)) (take (Z.to_nat (bs_nbytes bs)) (bs_buffer bs)) with
  | [] => []
  | x :: xs => bits_of (Z.to_nat (bs_bits_left bs)) x ++ byte_bits xs
  end.

(** The bits in front of the position. *)
Definition written (bs : RFX_BITSTREAM) : list bool :=
  byte_bits (take (Z.to_nat (bs_byte_pos bs)) (bs_buffer bs)) ++
  match bs_cur bs with
  | None => []
  | Some x => bits_of (Z.to_nat (8 - bs_bits_left bs)) (Z.shiftr x (bs_bits_left bs))
  end.

Lemma cur_some bs : bs_ok bs -> bs_byte_pos bs < bs_nbytes bs ->
  exists x, bs_cur bs = Some x /\ is_byte x /\
    drop (Z.to_nat (bs_byte_pos bs)) (take (Z.to_nat (bs_nbytes bs)) (bs_buffer bs))
    = x :: drop (S (Z.to_nat (bs_byte_pos bs))) (take (Z.to_nat (bs_nbytes bs)) (bs_buffer bs)).
Proof.
  intros [Hp _ _ Hb Hy] Hlt. unfold bs_cur, len in *.
  destruct (lookup_lt_is_Some_2 (bs_buffer bs) (Z.to_nat (bs_byte_pos bs))) as [x Hx]; [lia|]. exists x.
  split; [exact Hx|]. split; [exact (Forall_lookup_1 _ _ _ _ Hy Hx)|].
  apply drop_S. rewrite lookup_take_lt by lia. exact Hx.
Qed.

Lemma upcoming_cur bs x : bs_ok bs -> bs_byte_pos bs < bs_nbytes bs -> bs_cur bs = Some x ->
  upcoming bs = bits_of (Z.to_nat (bs_bits_left bs)) x ++
    byte_bits (drop (S (Z.to_nat (bs_byte_pos bs))) (take (Z.to_nat (bs_nbytes bs)) (bs_buffer bs))).
Proof.
  intros Hok Hlt Hx. destruct (cur_some bs Hok Hlt) as (y & Hy & _ & E). unfold upcoming. rewrite E. congruence.
Qed.

Lemma upcoming_end bs : bs_nbytes bs <= bs_byte_pos bs -> upcoming bs = [].
Proof.
  intros H. unfold upcoming. rewrite drop_ge; [reflexivity|]. rewrite length_take. lia.
Qed.

Lemma not_eos bs : bs_ok bs -> upcoming bs <> [] -> rfx_bitstream_eos bs = false.
Proof.
  intros Hok Hu. unfold rfx_bitstream_eos. apply Z.leb_gt. destruct (Z.lt_ge_cases (bs_byte_pos bs) (bs_nbytes bs)); [assumption|].
  rewrite upcoming_end in Hu by assumption. congruence.
Qed.

Lemma upcoming_length bs : bs_ok bs -> (length (upcoming bs) <= Z.to_nat (8 * bs_nbytes bs))%nat.
Proof.
  intros Hok. destruct (Z.lt_ge_cases (bs_byte_pos bs) (bs_nbytes bs)) as [Hlt|Hge];
    [|rewrite upcoming_end by assumption; cbn; lia].
  destruct (cur_some bs Hok Hlt) as (x & Hx & _). rewrite (upcoming_cur bs x Hok Hlt Hx).
  rewrite length_app, length_bits_of, length_byte_bits, length_drop, length_take. destruct Hok. lia.
Qed.

(** Skipping bits of the current byte. *)
Lemma skip_ok b bs : bs_ok bs -> bs_byte_pos bs < bs_nbytes bs -> 1 <= b <= bs_bits_left bs -> bs_ok (bs_skip b bs).
Proof.
  intros [Hp Hl He Hb Hy] Hlt Hbl. unfold bs_skip.
  destruct (Z.eqb_spec (bs_bits_left bs - b) 0); split; cbn; auto; lia.
Qed.

Lemma skip_upcoming b bs x : bs_ok bs -> bs_byte_pos bs < bs_nbytes bs -> bs_cur bs = Some x ->
  1 <= b <= bs_bits_left bs ->
  upcoming bs = bits_of (Z.to_nat b) (Z.shiftr x (bs_bits_left bs - b)) ++ upcoming (bs_skip b bs).
Proof.
  intros Hok Hlt Hx Hb. rewrite (upcoming_cur bs x Hok Hlt Hx). pose proof (skip_ok b bs Hok Hlt Hb) as Hok'.
  replace (Z.to_nat (bs_bits_left bs)) with (Z.to_nat b + Z.to_nat (bs_bits_left bs - b))%nat by lia.
  rewrite bits_of_split, Z2Nat.id by lia. rewrite <- app_assoc. f_equal. unfold bs_skip in *.
  destruct (Z.eqb_spec (bs_bits_left bs - b) 0) as [E|E].
  - rewrite E. cbn [Z.to_nat bits_of app]. unfold upcoming. cbn [bs_byte_pos bs_nbytes bs_buffer bs_bits_left].
    replace (Z.to_nat (bs_byte_pos bs + 1)) with (S (Z.to_nat (bs_byte_pos bs))) by (destruct Hok; lia).
    destruct (drop _ _); reflexivity.
  - symmetry. rewrite (upcoming_cur _ x Hok'); [reflexivity|exact Hlt|exact Hx].
Qed.

Lemma val_step v b x : 0 <= b -> len v + b <= 16 ->
  Z.lor (uint16 (Z.shiftl (val v) b)) (Z.land x (Z.shiftl 1 b - 1)) = val (v ++ bits_of (Z.to_nat b) x).
Proof.
  intros Hb Hl. rewrite val_app, val_bits_of, len_bits_of, Z2Nat.id by lia. rewrite Z.shiftl_1_l.
  rewrite (land_mask x b) by lia. pose proof (val_bound v). pose proof (Z.pow_pos_nonneg 2 b ltac:(lia) Hb).
  assert (Hs : 0 <= val v * 2 ^ b < 2 ^ 16).
  { assert (2 ^ (len v + b) <= 2 ^ 16) by (apply Z.pow_le_mono_r; lia). rewrite Z.pow_add_r in * by llia. nia. }
  unfold uint16. rewrite Z.shiftl_mul_pow2, Z.mod_small by lia.
  apply (lor_high_low _ _ b); [lia|apply Z.mod_mul; lia|apply Z.mod_pos_bound; lia].
Qed.

Lemma get_bits_loop_spec : forall fuel nbits v w rest bs, bs_ok bs -> upcoming bs = w ++ rest -> nbits = len w ->
  (length w <= fuel)%nat -> len v + len w <= 16 ->
  exists bs', get_bits_loop fuel nbits (val v) bs = Done (val (v ++ w), bs') /\ bs_ok bs' /\ upcoming bs' = rest /\
    bs_nbytes bs' = bs_nbytes bs.
Proof.
  induction fuel as [|fuel IH]; intros nbits v w rest bs Hok Hu -> Hf Hl; cbn [get_bits_loop].
  - destruct w; [|cbn in Hf; lia]. cbn [len length Z.of_nat Z.ltb Z.compare]. rewrite andb_false_r, app_nil_r. eauto.
  - destruct (Z.ltb_spec 0 (len w)) as [Hw|Hw].
    2: { destruct w; [|llia]. rewrite andb_false_r, app_nil_r. eauto. }
    assert (Hne : upcoming bs <> []) by (rewrite Hu; destruct w; [discriminate Hw|discriminate]).
    pose proof (not_eos bs Hok Hne) as He. rewrite He. cbn [negb andb]. apply Z.leb_gt in He.
    destruct (cur_some bs Hok He) as (x & Hx & _). rewrite Hx. destruct (ok_left bs Hok) as [Hl1 Hl8].
    set (b := Z.min (len w) (bs_bits_left bs)). assert (Hb : 1 <= b <= bs_bits_left bs) by (unfold b; lia).
    rewrite val_step by (unfold b; lia).
    pose proof (skip_upcoming b bs x Hok He Hx Hb) as Hs. rewrite Hu in Hs.
    destruct (split_at w b) as (w1 & w2 & -> & Hw1); [unfold b; lia|].
    rewrite <- app_assoc in Hs. apply app_inj_1 in Hs as [Hs1 Hs2]; [|rewrite length_bits_of; unfold len in Hw1; lia].
    rewrite <- Hs1. rewrite len_app, length_app in *.
    destruct (IH (len w1 + len w2 - b) (v ++ w1) w2 rest (bs_skip b bs)) as (bs' & E & Hok' & Hu' & Hn);
      [apply skip_ok; assumption|congruence|lia|unfold len in *; lia|rewrite len_app; lia|].
    exists bs'. rewrite E, <- app_assoc. split; [reflexivity|]. split; [exact Hok'|]. split; [exact Hu'|].
    rewrite Hn. unfold bs_skip. destruct (_ =? 0); reflexivity.
Qed.

Lemma put_byte_testbit x left b v i : is_byte x -> 1 <= b <= left -> left <= 8 -> 0 <= i < 8 ->
  Z.testbit (put_byte x left b v) i
  = if bool_decide (left - b <= i < left) then Z.testbit v (i - (left - b)) else Z.testbit x i.
Proof.
  intros Hx Hb Hl Hi. unfold put_byte, uint8. rewrite !Z.shiftl_1_l.
  replace (2 ^ b - 1) with (Z.ones b) by (rewrite Z.ones_equiv; lia).
  rewrite Z.mod_pow2_bits_low, Z.lor_spec, Z.mod_pow2_bits_low, Z.land_spec, Z.lnot_spec, !Z.shiftl_spec by lia.
  destruct (bool_decide_reflect (left - b <= i < left)) as [Hin|Hout].
  - rewrite Z.land_spec, Z.ones_spec_low by lia. rewrite andb_false_r, orb_false_l. apply andb_true_r.
  - destruct (Z.lt_ge_cases i (left - b)) as [Hlow|Hhigh].
    + rewrite !(Z.testbit_neg_r _ (i - (left - b))) by lia. rewrite andb_true_r. apply orb_false_r.
    + rewrite Z.land_spec, Z.ones_spec_high by lia. rewrite andb_false_r, andb_true_r. apply orb_false_r.
Qed.

Lemma put_byte_byte x left b v : is_byte (put_byte x left b v).
Proof. apply is_byte_uint8. Qed.

(** The bits above the position are kept, those at the position replaced. *)
Lemma put_byte_bits x left b v : is_byte x -> 1 <= b <= left -> left <= 8 ->
  bits_of (Z.to_nat (8 - left)) (Z.shiftr (put_byte x left b v) left) = bits_of (Z.to_nat (8 - left)) (Z.shiftr x left) /\
  bits_of (Z.to_nat b) (Z.shiftr (put_byte x left b v) (left - b)) = bits_of (Z.to_nat b) v.
Proof.
  intros Hx Hb Hl. split; apply bits_of_ext; intros i Hi; rewrite !Z.shiftr_spec, put_byte_testbit by (exact Hx || lia).
  - rewrite bool_decide_eq_false_2 by lia. reflexivity.
  - rewrite bool_decide_eq_true_2 by lia. f_equal. lia.
Qed.

(** [B] was written between [bs] and [bs'], or the buffer is full. *)
Record out (B : list bool) (bs bs' : RFX_BITSTREAM) : Prop := {
  out_ok : bs_ok bs';
  out_n : bs_nbytes bs' = bs_nbytes bs;
  out_len : len (bs_buffer bs') = len (bs_buffer bs);
  out_full : bs_byte_pos bs = bs_nbytes bs -> bs_byte_pos bs' = bs_nbytes bs';
  out_bits : bs_byte_pos bs' = bs_nbytes bs' \/ written bs' = written bs ++ B;
}.

Lemma out_refl bs : bs_ok bs -> out [] bs bs.
Proof. intros Hok. split; auto. right. rewrite app_nil_r. reflexivity. Qed.

Lemma out_trans A B bs1 bs2 bs3 : out A bs1 bs2 -> out B bs2 bs3 -> out (A ++ B) bs1 bs3.
Proof.
  intros [Ho1 Hn1 Hl1 Hf1 Hb1] [Ho2 Hn2 Hl2 Hf2 Hb2]. split; [exact Ho2|congruence|congruence|auto|].
  destruct Hb1 as [Hb1|Hb1]; [left; auto|]. destruct Hb2 as [Hb2|Hb2]; [left; exact Hb2|right].
  rewrite Hb2, Hb1, app_assoc. reflexivity.
Qed.

(** One step of the writer. *)
Lemma put_step b v bs x : bs_ok bs -> bs_byte_pos bs < bs_nbytes bs -> bs_cur bs = Some x -> is_byte x ->
  1 <= b <= bs_bits_left bs ->
  out (bits_of (Z.to_nat b) v) bs
    (bs_skip b (mkBS (<[Z.to_nat (bs_byte_pos bs) := put_byte x (bs_bits_left bs) b v]> (bs_buffer bs))
                  (bs_nbytes bs) (bs_byte_pos bs) (bs_bits_left bs))).
Proof.
  intros Hok Hlt Hx Hbx Hb. pose proof (ok_left bs Hok) as Hl. pose proof (ok_pos bs Hok) as Hp.
  destruct (put_byte_bits x (bs_bits_left bs) b v Hbx Hb ltac:(lia)) as [Hk Hr].
  set (y := put_byte x (bs_bits_left bs) b v) in *. set (n := Z.to_nat (bs_byte_pos bs)).
  assert (Hn : (n < length (bs_buffer bs))%nat) by (apply lookup_lt_is_Some; exists x; exact Hx).
  assert (Hok1 : bs_ok (mkBS (<[n:=y]> (bs_buffer bs)) (bs_nbytes bs) (bs_byte_pos bs) (bs_bits_left bs))).
  { destruct Hok. split; cbn; auto; [unfold len in *; rewrite length_insert; assumption|].
    apply Forall_insert; [assumption|apply put_byte_byte]. }
  split; [apply (skip_ok b _ Hok1); assumption|unfold bs_skip; destruct (_ =? 0); reflexivity| | |].
  - unfold bs_skip, len. destruct (_ =? 0); cbn [bs_buffer]; rewrite length_insert; reflexivity.
  - lia.
  - right. unfold written. rewrite Hx. fold n. unfold bs_skip. cbn [bs_bits_left bs_buffer bs_nbytes bs_byte_pos].
    destruct (Z.eqb_spec (bs_bits_left bs - b) 0) as [E|E]; cbn [bs_bits_left bs_buffer bs_nbytes bs_byte_pos bs_cur].
    + replace (Z.to_nat (bs_byte_pos bs + 1)) with (S n) by lia. change (Z.to_nat (8 - 8)) with 0%nat.
      rewrite (take_S_r _ _ y) by (apply list_lookup_insert_eq; exact Hn). rewrite take_insert_ge by lia.
      match goal with |- context [match ?c with Some x => bits_of 0 _ | None => [] end] =>
        replace (match c with Some x => bits_of 0 (Z.shiftr x 8) | None => [] end) with (@nil bool) by (destruct c; reflexivity) end.
      rewrite app_nil_r, byte_bits_app, <- app_assoc. f_equal. change (byte_bits [y]) with (bits_of 8 y ++ []). rewrite app_nil_r.
      replace 8%nat with (Z.to_nat (8 - bs_bits_left bs) + Z.to_nat b)%nat by lia.
      rewrite bits_of_split, Z2Nat.id by lia. replace b with (bs_bits_left bs) in * by lia.
      rewrite E, Z.shiftr_0_r in Hr. rewrite Hk, Hr. reflexivity.
    + unfold bs_cur. cbn [bs_buffer bs_byte_pos]. fold n. rewrite list_lookup_insert_eq by exact Hn. rewrite take_insert_ge by lia.
      rewrite <- app_assoc. f_equal. replace (Z.to_nat (8 - (bs_bits_left bs - b))) with (Z.to_nat (8 - bs_bits_left bs) + Z.to_nat b)%nat by lia.
      rewrite bits_of_split, Z2Nat.id, Z.shiftr_shiftr by lia. replace (bs_bits_left bs - b + b) with (bs_bits_left bs) by lia.
      rewrite Hk, Hr. reflexivity.
Qed.

Lemma put_bits_loop_spec : forall fuel bits nbits bs, bs_ok bs -> 0 <= nbits <= Z.of_nat fuel ->
  exists bs', put_bits_loop fuel bits nbits bs = Done (tt, bs') /\ out (bits_of (Z.to_nat nbits) bits) bs bs'.
Proof.
  induction fuel as [|fuel IH]; intros bits nbits bs Hok Hn; cbn [put_bits_loop].
  - replace nbits with 0 by lia. rewrite andb_false_r. exists bs. split; [reflexivity|apply out_refl, Hok].
  - destruct (Z.leb_spec (bs_nbytes bs) (bs_byte_pos bs)) as [He|He].
    + unfold rfx_bitstream_eos. rewrite (proj2 (Z.leb_le _ _)) by exact He. exists bs. split; [reflexivity|].
      destruct Hok as [Hp Hl Hend Hb Hy]. split; auto; [split; auto|left; lia].
    + unfold rfx_bitstream_eos. rewrite (proj2 (Z.leb_gt _ _)) by exact He. cbn [negb andb].
      destruct (Z.ltb_spec 0 nbits) as [H0|H0].
      2: { replace nbits with 0 by lia. exists bs. split; [reflexivity|apply out_refl, Hok]. }
      destruct (cur_some bs Hok He) as (x & Hx & Hbx & _). rewrite Hx. pose proof (ok_left bs Hok).
      set (b := Z.min nbits (bs_bits_left bs)). assert (Hb : 1 <= b <= bs_bits_left bs) by (unfold b; lia).
      pose proof (put_step b (Z.shiftr bits (nbits - b)) bs x Hok He Hx Hbx Hb) as Ho.
      destruct (IH bits (nbits - b) _ (out_ok _ _ _ Ho) ltac:(unfold b in *; lia)) as (bs' & E & Ho').
      exists bs'. split; [exact E|]. replace (Z.to_nat nbits) with (Z.to_nat b + Z.to_nat (nbits - b))%nat by (unfold b; lia).
      rewrite bits_of_split, Z2Nat.id by (unfold b; lia). exact (out_trans _ _ _ _ _ Ho Ho').
Qed.

(** ** Writers and readers *)

(** [c] returns [a] and writes [B]. *)
Definition Puts {A} (c : M RFX_BITSTREAM A) (a : A) (B : list bool) : Prop :=
  forall bs, bs_ok bs -> exists bs', c bs = Done (a, bs') /\ out B bs bs'.

(** [c], with [B] ahead of it, reads [B] and returns [a]. *)
Definition Gets {A} (c : M RFX_BITSTREAM A) (B : list bool) (a : A) : Prop :=
  forall bs rest, bs_ok bs -> upcoming bs = B ++ rest ->
  exists bs', c bs = Done (a, bs') /\ bs_ok bs' /\ upcoming bs' = rest /\ bs_nbytes bs' = bs_nbytes bs.

Lemma Puts_ret {A} (a : A) : Puts (ret a) a [].
Proof. intros bs Hok. exists bs. split; [reflexivity|apply out_refl, Hok]. Qed.

Lemma Puts_bind {A B} (c : M RFX_BITSTREAM A) (k : A -> M RFX_BITSTREAM B) a b X Y :
  Puts c a X -> Puts (k a) b Y -> Puts (bind c k) b (X ++ Y).
Proof.
  intros Hc Hk bs Hok. destruct (Hc bs Hok) as (bs1 & E1 & Ho1). destruct (Hk bs1 (out_ok _ _ _ Ho1)) as (bs2 & E2 & Ho2).
  exists bs2. rewrite (bind_Done _ _ _ _ _ E1). split; [exact E2|exact (out_trans _ _ _ _ _ Ho1 Ho2)].
Qed.

Lemma Gets_ret {A} (a : A) : Gets (ret a) [] a.
Proof. intros bs rest Hok Hu. exists bs. auto. Qed.

Lemma Gets_bind {A B} (c : M RFX_BITSTREAM A) (k : A -> M RFX_BITSTREAM B) a b X Y :
  Gets c X a -> Gets (k a) Y b -> Gets (bind c k) (X ++ Y) b.
Proof.
  intros Hc Hk bs rest Hok Hu. rewrite <- app_assoc in Hu.
  destruct (Hc bs _ Hok Hu) as (bs1 & E1 & Hok1 & Hu1 & Hn1). destruct (Hk bs1 _ Hok1 Hu1) as (bs2 & E2 & Hok2 & Hu2 & Hn2).
  exists bs2. rewrite (bind_Done _ _ _ _ _ E1). split; [exact E2|]. split; [exact Hok2|]. split; [exact Hu2|congruence].
Qed.

Lemma Puts_bits v n : 0 <= n <= 16 -> Puts (rfx_bitstream_put_bits v n) tt (bits_of (Z.to_nat n) v).
Proof.
  intros Hn bs Hok. destruct (put_bits_loop_spec (Z.to_nat n) (uint16 v) n bs Hok ltac:(lia)) as (bs' & E & Ho).
  exists bs'. split; [exact E|]. erewrite bits_of_ext; [exact Ho|]. intros i Hi. unfold uint16.
  rewrite Z.mod_pow2_bits_low by lia. reflexivity.
Qed.

Lemma Gets_bits w n : n = len w -> n <= 16 -> Gets (rfx_bitstream_get_bits n) w (val w).
Proof.
  intros -> Hl bs rest Hok Hu. exact (get_bits_loop_spec (Z.to_nat (len w)) (len w) [] w rest bs Hok Hu eq_refl
    ltac:(unfold len; lia) ltac:(llia)).
Qed.

Lemma Gets_num n v : 0 <= n <= 16 -> 0 <= v < 2 ^ n -> Gets (rfx_bitstream_get_bits n) (bits_of (Z.to_nat n) v) v.
Proof.
  intros Hn Hv. replace v with (val (bits_of (Z.to_nat n) v)) at 2
    by (rewrite val_bits_of, Z2Nat.id, Z.mod_small by lia; reflexivity).
  apply Gets_bits; [rewrite len_bits_of, Z2Nat.id by lia; reflexivity|lia].
Qed.

Lemma Gets_bit b : Gets (rfx_bitstream_get_bits 1) [b] (Z.b2z b).
Proof. replace (Z.b2z b) with (val [b]) by (destruct b; reflexivity). apply Gets_bits; [reflexivity|lia]. Qed.

Lemma bits_of_const n (b : bool) : (n <= 16)%nat -> bits_of n (if b then 0xFFFF else 0) = replicate n b.
Proof.
  intros Hn. apply list_eq. intros i. destruct (Nat.lt_ge_cases i n) as [Hi|Hi].
  - rewrite lookup_bits_of, lookup_replicate_2 by exact Hi. f_equal.
    destruct b; [|apply Z.testbit_0_l]. change 0xFFFF with (Z.ones 16). apply Z.ones_spec_low. lia.
  - rewrite !lookup_ge_None_2; [reflexivity|rewrite length_replicate; exact Hi|rewrite length_bits_of; exact Hi].
Qed.

Lemma Puts_bit count b : 0 <= count -> Puts (OutputBit count b) tt (replicate (Z.to_nat count) b).
Proof.
  unfold OutputBit. intros Hc. assert (Hf : count <= Z.of_nat (Z.to_nat count)) by lia.
  revert Hf. generalize (Z.to_nat count) at 1 2 as fuel. intros fuel Hf.
  revert count Hc Hf. induction fuel as [|fuel IH]; intros count Hc Hf; cbn [output_bit].
  - replace count with 0 by lia. apply Puts_ret.
  - destruct (Z.ltb_spec 0 count) as [H0|H0]; [|replace count with 0 by lia; apply Puts_ret].
    destruct (Z.ltb_spec 16 count) as [H16|H16].
    + replace (Z.to_nat count) with (Z.to_nat 16 + Z.to_nat (count - 16))%nat by lia. rewrite replicate_add.
      eapply Puts_bind; [|apply IH; lia]. rewrite <- bits_of_const by (cbn; lia). apply Puts_bits. lia.
    + rewrite <- (app_nil_r (replicate _ _)). eapply Puts_bind.
      * rewrite <- bits_of_const by lia. apply Puts_bits. lia.
      * destruct fuel; cbn [output_bit]; destruct (Z.ltb_spec 0 (count - 16)); try lia; apply Puts_ret.
Qed.

(** ** Golomb-Rice codes *)

Definition new_krp (krp vk : Z) : Z :=
  if vk =? 0 then fst (UpdateParam krp (-2)) else if 1 <? vk then fst (UpdateParam krp vk) else krp.

Definition gr_bits (krp v : Z) : list bool :=
  let kr := Z.shiftr krp LSGR in
  replicate (Z.to_nat (Z.shiftr v kr)) true ++ [false] ++ bits_of (Z.to_nat kr) v.

Definition param (p : Z) : Prop := 0 <= p <= KPMAX.

Lemma param_shift p : param p -> 0 <= Z.shiftr p LSGR <= 10.
Proof. unfold param, KPMAX, LSGR. rewrite Z.shiftr_div_pow2 by lia. change (2 ^ 3) with 8. intros. dlia. Qed.

Lemma UpdateParam_param p delta : param (fst (UpdateParam p delta)) /\
  snd (UpdateParam p delta) = Z.shiftr (fst (UpdateParam p delta)) LSGR.
Proof.
  unfold UpdateParam, param, KPMAX. cbn [fst snd]. split; [|reflexivity].
  destruct (Z.ltb_spec 80 (p + delta)); [cbn; lia|]. destruct (Z.ltb_spec (p + delta) 0); lia.
Qed.

Lemma new_krp_param krp vk : param krp -> param (new_krp krp vk).
Proof.
  intros Hp. unfold new_krp. destruct (vk =? 0); [apply UpdateParam_param|].
  destruct (1 <? vk); [apply UpdateParam_param|exact Hp].
Qed.

Lemma Puts_gr krp v : param krp -> 0 <= v ->
  Puts (rfx_rlgr_code_gr krp v) (new_krp krp (Z.shiftr v (Z.shiftr krp LSGR))) (gr_bits krp v).
Proof.
  intros Hp Hv. pose proof (param_shift krp Hp) as Hk. unfold rfx_rlgr_code_gr, gr_bits.
  set (kr := Z.shiftr krp LSGR) in *. assert (0 <= Z.shiftr v kr) by (apply Z.shiftr_nonneg; exact Hv).
  apply Puts_bind with (a := tt); [apply Puts_bit; lia|]. apply (Puts_bind _ _ tt _ [false]); [apply (Puts_bit 1 false); lia|].
  rewrite <- (app_nil_r (bits_of _ _)). apply Puts_bind with (a := tt); [|apply Puts_ret].
  destruct (Z.eqb_spec kr 0) as [->|Hn]; cbn [negb]; [apply Puts_ret|].
  erewrite bits_of_ext; [apply Puts_bits; lia|]. intros i Hi. rewrite Z.shiftl_1_l.
  rewrite (land_mask v kr), Z.mod_pow2_bits_low by lia. reflexivity.
Qed.

Lemma Gets_ones n fuel vk : (n < fuel)%nat -> Gets (leading_ones fuel vk) (replicate n true ++ [false]) (vk + Z.of_nat n).
Proof.
  revert fuel vk. induction n as [|n IH]; intros fuel vk Hf; (destruct fuel as [|fuel]; [lia|]); cbn [leading_ones replicate app].
  - rewrite <- (app_nil_r [false]). eapply Gets_bind; [apply Gets_bit|]. cbn. rewrite Z.add_0_r. apply Gets_ret.
  - change (true :: ?l) with ([true] ++ l). eapply Gets_bind; [apply Gets_bit|]. cbn [Z.b2z Z.eqb Pos.eqb].
    replace (vk + Z.of_nat (S n)) with (vk + 1 + Z.of_nat n) by lia. apply IH. lia.
Qed.

Definition set_krp (krp : Z) (d : decoder) : decoder :=
  mkDec (d_k d) (d_kp d) (Z.shiftr krp LSGR) krp (d_dst d) (d_room d).

Lemma update_krp_set delta d : update_krp delta d = set_krp (fst (UpdateParam (d_krp d) delta)) d.
Proof. reflexivity. Qed.

Lemma Gets_gr d v : param (d_krp d) -> d_kr d = Z.shiftr (d_krp d) LSGR -> 0 <= v < 65536 ->
  Gets (GetGRCode d) (gr_bits (d_krp d) v) (v, set_krp (new_krp (d_krp d) (Z.shiftr v (d_kr d))) d).
Proof.
  intros Hp Hkr Hv bs rest Hok Hu. pose proof (param_shift _ Hp) as Hk. rewrite <- Hkr in *.
  unfold GetGRCode, gr_bits in *. rewrite <- Hkr in Hu. set (kr := d_kr d) in *. set (vk := Z.shiftr v kr) in *.
  assert (Hvk : 0 <= vk) by (apply Z.shiftr_nonneg; lia).
  assert (Hfuel : (Z.to_nat vk < bs_fuel bs)%nat).
  { pose proof (upcoming_length bs Hok) as Hl. rewrite Hu, !length_app, length_replicate in Hl. cbn [length] in Hl.
    unfold bs_fuel. lia. }
  refine (Gets_bind _ _ _ _ (replicate (Z.to_nat vk) true ++ [false]) (bits_of (Z.to_nat kr) v)
    (Gets_ones (Z.to_nat vk) (bs_fuel bs) 0 Hfuel) _ bs rest Hok _); [|rewrite Hu, <- !app_assoc; reflexivity].
  rewrite Z2Nat.id, Z.add_0_l by lia. rewrite <- (app_nil_r (bits_of _ _)).
  eapply Gets_bind.
  { replace (bits_of (Z.to_nat kr) v) with (bits_of (Z.to_nat kr) (v mod 2 ^ kr))
      by (apply bits_of_ext; intros i Hi; apply Z.mod_pow2_bits_low; lia).
    apply Gets_num; [lia|]. apply Z.mod_pos_bound. apply Z.pow_pos_nonneg; lia. }
  assert (Hmag : Z.lor (v mod 2 ^ kr) (uint16 (Z.shiftl vk kr)) = v).
  { unfold uint16, vk. pose proof (Z.pow_pos_nonneg 2 kr ltac:(lia) ltac:(lia)).
    rewrite Z.shiftr_div_pow2, Z.shiftl_mul_pow2 by lia. 
    pose proof (Z.mul_div_le v (2 ^ kr) ltac:(lia)). pose proof (Z.div_pos v (2 ^ kr) ltac:(lia) ltac:(lia)).
    rewrite (Z.mod_small (_ * _)) by nia.
    rewrite Z.lor_comm, (lor_high_low _ _ kr); [rewrite Z.mul_comm; symmetry; apply Z_div_mod_eq_full|lia|apply Z.mod_mul; lia|apply Z.mod_pos_bound; lia]. }
  assert (Hsmall : Z.shiftl vk kr <= v /\ vk <= v).
  { unfold vk. pose proof (Z.pow_pos_nonneg 2 kr ltac:(lia) ltac:(lia)).
    rewrite Z.shiftr_div_pow2, Z.shiftl_mul_pow2 by lia. pose proof (Z.mul_div_le v (2 ^ kr) ltac:(lia)).
    pose proof (Z.div_pos v (2 ^ kr) ltac:(lia) ltac:(lia)). nia. }
  rewrite (proj2 (Z.leb_gt (2 ^ 31) (Z.shiftl vk kr))), (proj2 (Z.leb_gt (2 ^ 31) (d_krp d + vk)))
    by (unfold param, KPMAX in Hp; lia). cbn [orb].
  rewrite Hmag. unfold new_krp.
  replace (if vk =? 0 then _ else _) with (set_krp (if vk =? 0 then fst (UpdateParam (d_krp d) (-2))
     else if 1 <? vk then fst (UpdateParam (d_krp d) vk) else d_krp d) d); [apply Gets_ret|].
  destruct (Z.eqb_spec vk 0); [reflexivity|]. destruct (Z.eqb_spec vk 1) as [E1|E1].
  - rewrite E1. cbn [Z.ltb Z.compare Pos.compare Pos.compare_cont]. unfold set_krp. rewrite <- Hkr. destruct d; reflexivity.
  - rewrite (proj2 (Z.ltb_lt _ _)) by lia. reflexivity.
Qed.

(** ** Encoder and decoder in step *)

(** The decoder has the parameters of the encoder. *)
Record in_step (k kp krp : Z) (d : decoder) : Prop := {
  st_k : d_k d = k;
  st_kp : d_kp d = kp;
  st_krp : d_krp d = krp;
  st_kr : d_kr d = Z.shiftr krp LSGR;
}.

Definition params (k kp krp : Z) : Prop := k = Z.shiftr kp LSGR /\ param kp /\ param krp.

Definition set_kp (kp : Z) (d : decoder) : decoder :=
  mkDec (Z.shiftr kp LSGR) kp (d_kr d) (d_krp d) (d_dst d) (d_room d).

Lemma update_kp_set delta d : update_kp delta d = set_kp (fst (UpdateParam (d_kp d) delta)) d.
Proof. reflexivity. Qed.

Definition put (out : list Z) (d : decoder) : decoder :=
  mkDec (d_k d) (d_kp d) (d_kr d) (d_krp d) (d_dst d ++ out) (d_room d - len out).

Lemma WriteValue_put {A} v d (k : decoder -> M RFX_BITSTREAM A) :
  0 < d_room d -> sint16 v = v -> bind (WriteValue v d) k = k (put [v] d).
Proof.
  intros Hr Hv. unfold WriteValue, spend, put. rewrite (proj2 (Z.ltb_lt 0 _)), Hv by exact Hr.
  rewrite (proj2 (Z.ltb_ge _ _)) by lia. reflexivity.
Qed.

Lemma WriteZeroes_put {A} n d (k : decoder -> M RFX_BITSTREAM A) :
  0 <= n <= d_room d -> bind (WriteZeroes n d) k = k (put (replicate (Z.to_nat n) 0) d).
Proof.
  intros Hn. unfold WriteZeroes, spend, put. rewrite (proj2 (Z.ltb_ge _ _)) by lia.
  rewrite Z.min_l, len_replicate, Z2Nat.id by lia. reflexivity.
Qed.

Lemma put_put a b d : put b (put a d) = put (a ++ b) d.
Proof. unfold put. cbn. rewrite len_app, app_assoc. f_equal. lia. Qed.

Lemma replicate_sum {A} (x : A) a b : 0 <= a -> 0 <= b ->
  replicate (Z.to_nat a) x ++ replicate (Z.to_nat b) x = replicate (Z.to_nat (a + b)) x.
Proof. intros. rewrite <- replicate_add. f_equal. lia. Qed.

(** The runs of zeros. *)
Lemma runs_step : forall fuel nz k kp, 0 <= nz <= Z.of_nat fuel -> k = Z.shiftr kp LSGR -> param kp ->
  exists j nz' kp', Puts (encode_runs fuel nz k kp) (nz', Z.shiftr kp' LSGR, kp') (replicate j false) /\
    0 <= nz' <= nz /\ nz' < 2 ^ Z.shiftr kp' LSGR /\ param kp' /\
    forall d fuel', (j < fuel')%nat -> d_k d = k -> d_kp d = kp -> nz <= d_room d ->
      Gets (decode_runs fuel' d) (replicate j false ++ [true]) (set_kp kp' (put (replicate (Z.to_nat (nz - nz')) 0) d)).
Proof.
  assert (Hstop : forall nz kp, 0 <= nz < 2 ^ Z.shiftr kp LSGR -> param kp ->
    exists j nz' kp', Puts (ret (nz, Z.shiftr kp LSGR, kp)) (nz', Z.shiftr kp' LSGR, kp') (replicate j false) /\
    0 <= nz' <= nz /\ nz' < 2 ^ Z.shiftr kp' LSGR /\ param kp' /\
    forall d fuel', (j < fuel')%nat -> d_k d = Z.shiftr kp LSGR -> d_kp d = kp -> nz <= d_room d ->
      Gets (decode_runs fuel' d) (replicate j false ++ [true]) (set_kp kp' (put (replicate (Z.to_nat (nz - nz')) 0) d))).
  { intros nz kp Hn Hp. exists 0%nat, nz, kp. split; [apply Puts_ret|]. split; [lia|]. split; [lia|]. split; [exact Hp|].
    intros d [|fuel'] Hf Hk Hkp Hr bs rest Hok Hu; [lia|]. cbn [decode_runs replicate app] in *.
    rewrite (not_eos bs Hok) by (rewrite Hu; discriminate).
    replace (set_kp kp _) with d.
    - refine (Gets_bind _ _ _ _ [true] [] (Gets_bit true) _ bs rest Hok Hu). apply Gets_ret.
    - rewrite Z.sub_diag. unfold set_kp, put. cbn. rewrite app_nil_r, Z.sub_0_r, <- Hk, <- Hkp. destruct d; reflexivity. }
  induction fuel as [|fuel IH]; intros nz k kp Hn -> Hp; cbn [encode_runs]; rewrite Z.shiftl_1_l;
    pose proof (param_shift kp Hp) as Hk; pose proof (Z.pow_pos_nonneg 2 (Z.shiftr kp LSGR) ltac:(lia) ltac:(lia)) as H2;
    (destruct (Z.leb_spec (2 ^ Z.shiftr kp LSGR) nz) as [Hle|Hlt]; [|apply Hstop; [lia|exact Hp]]); [lia|].
  destruct (UpdateParam_param kp UP_GR) as [Hp1 Hk1]. destruct (UpdateParam kp UP_GR) as [kp1 k1] eqn:E1. cbn [fst snd] in *.
  destruct (IH (nz - 2 ^ Z.shiftr kp LSGR) k1 kp1 ltac:(lia) Hk1 Hp1) as (j & nz' & kp' & HP & Hnz & Hlt & Hp' & HG).
  exists (S j), nz', kp'. split; [|split; [lia|]; split; [exact Hlt|]; split; [exact Hp'|]].
  - cbn [replicate]. change (false :: ?l) with ([false] ++ l). apply (Puts_bind _ _ tt); [apply (Puts_bit 1 false); lia|exact HP].
  - intros d [|fuel'] Hf Hdk Hdkp Hr bs rest Hok Hu; [lia|]. cbn [decode_runs replicate app] in *.
    rewrite (not_eos bs Hok) by (rewrite Hu; discriminate).
    refine (Gets_bind _ _ _ _ [false] (replicate j false ++ [true]) (Gets_bit false) _ bs rest Hok Hu).
    change (negb (Z.b2z false =? 0)) with false. cbv iota. rewrite Hdk, Z.shiftl_1_l, WriteZeroes_put by lia. cbv beta.
    rewrite update_kp_set. cbn [put d_kp]. rewrite Hdkp, E1. cbn [fst].
    match goal with |- Gets (decode_runs _ ?d0) _ _ => specialize (HG d0 fuel' ltac:(lia)) end.
    cbn [set_kp put d_k d_kp d_room] in HG. rewrite len_replicate, Z2Nat.id in HG by lia.
    specialize (HG (eq_sym Hk1) eq_refl ltac:(lia)).
    match type of HG with Gets _ _ ?x => match goal with |- Gets _ _ ?y => replace y with x; [exact HG|] end end.
    unfold set_kp, put. cbn [d_k d_kp d_kr d_krp d_dst d_room].
    rewrite !len_replicate, <- app_assoc, replicate_sum by lia.
    f_equal; [do 3 f_equal; lia|lia].
Qed.

Lemma zero_run_spec : forall data n, data <> [] ->
  exists m input rest, zero_run data n = (n + Z.of_nat m, input, rest) /\
    data = replicate m 0 ++ input :: rest /\ (input = 0 -> rest = []).
Proof.
  induction data as [|x data IH]; intros n Hne; [congruence|]. cbn [zero_run].
  destruct (Z.eqb_spec x 0) as [->|Hx]; cbn [andb].
  - destruct data as [|y data].
    + exists 0%nat, 0, []. rewrite Z.add_0_r. auto.
    + rewrite (proj2 (Z.ltb_lt 0 (len (y :: data)))) by (rewrite len_cons; llia).
      destruct (IH (n + 1) ltac:(discriminate)) as (m & input & rest & E & Hd & Hr).
      exists (S m), input, rest. rewrite E. split; [do 2 f_equal; lia|]. split; [cbn; f_equal; exact Hd|exact Hr].
  - exists 0%nat, x, data. rewrite Z.add_0_r. split; [reflexivity|]. split; [reflexivity|]. congruence.
Qed.

(** What the decoder makes of values that were encoded: a zero at the very end
    may come back as 1. *)
Definition recoded (data out : list Z) : Prop :=
  out = data \/ exists init, data = init ++ [0] /\ out = init ++ [1].

(** One round of both. *)
Definition round (step : M RFX_BITSTREAM (list Z * Z * Z * Z)) (dstep : decoder -> M RFX_BITSTREAM decoder)
    (data : list Z) (k kp krp : Z) : Prop :=
  exists B kp' krp' data' some out,
    Puts step (data', Z.shiftr kp' LSGR, kp', krp') B /\ B <> [] /\ param kp' /\ param krp' /\
    data = some ++ data' /\ some <> [] /\ recoded some out /\ (out = some \/ data' = []) /\
    forall d, in_step k kp krp d -> d_room d = len data ->
      exists d', Gets (dstep d) B d' /\ in_step (Z.shiftr kp' LSGR) kp' krp' d' /\ d_dst d' = d_dst d ++ out /\
        (d_room d' = len data' \/ data' = [] /\ d_room d' <= 0).

Definition coeff (mode : RLGR_MODE) (x : Z) : Prop :=
  match mode with RLGR1 => -32768 < x < 32768 | RLGR3 => -16384 < x < 16384 end.

Lemma coeff_sint16 mode x : coeff mode x -> sint16 x = x /\ -32768 < x < 32768.
Proof.
  intros H. assert (-32768 < x < 32768) by (destruct mode; cbn in H; lia). split; [|assumption].
  unfold sint16. rewrite Z.mod_small; lia.
Qed.

(** The magnitude that is coded after a run, and what it is read as. *)
Definition coded (input : Z) : Z :=
  let mag := if input <? 0 then - input else input in if negb (mag =? 0) then mag - 1 else 0.

Definition decoded (input : Z) : Z := if input =? 0 then 1 else input.

Lemma coded_range input : -32768 < input < 32768 -> 0 <= coded input < 65536.
Proof.
  intros H. unfold coded. destruct (Z.ltb_spec input 0) as [Hn|Hn];
    [destruct (Z.eqb_spec (- input) 0)|destruct (Z.eqb_spec input 0)]; cbn [negb]; lia.
Qed.

Lemma decoded_coded input :
  (if negb (Z.b2z (input <? 0) =? 0) then - (coded input + 1) else coded input + 1) = decoded input.
Proof.
  unfold coded, decoded. destruct (Z.ltb_spec input 0) as [Hn|Hn]; cbn [Z.b2z Z.eqb negb Pos.eqb];
    [destruct (Z.eqb_spec (- input) 0)|]; destruct (Z.eqb_spec input 0); cbn [negb]; lia.
Qed.

(** What follows the runs: the rest of the run, the sign and the magnitude. *)
Definition value_bits (k nz krp input : Z) : list bool :=
  bits_of (Z.to_nat k) nz ++ [input <? 0] ++ gr_bits krp (coded input).

Definition value_krp (krp input : Z) : Z := new_krp krp (Z.shiftr (coded input) (Z.shiftr krp LSGR)).

(** The decoder behind the runs. *)
Lemma rl_value_gets kp krp nz input d : param kp -> param krp -> 0 <= nz < 2 ^ Z.shiftr kp LSGR -> -32768 < input < 32768 ->
  d_k d = Z.shiftr kp LSGR -> d_kp d = kp -> d_krp d = krp -> d_kr d = Z.shiftr krp LSGR -> nz < d_room d ->
  Gets (let! run := rfx_bitstream_get_bits (d_k d) in
        let! d := WriteZeroes run d in
        let! sign := rfx_bitstream_get_bits 1 in
        let! (mag16, d) := GetGRCode d in
        let mag := mag16 + 1 in
        let! d := WriteValue (if negb (sign =? 0) then - mag else mag) d in
        ret (update_kp (- DN_GR) d))
    (value_bits (d_k d) nz krp input)
    (set_kp (fst (UpdateParam kp (- DN_GR)))
       (set_krp (value_krp krp input) (put (replicate (Z.to_nat nz) 0 ++ [decoded input]) d))).
Proof.
  intros Hkp Hkrp Hnz Hin Hdk Hdkp Hdkrp Hdkr Hroom. pose proof (param_shift kp Hkp). unfold value_bits.
  eapply Gets_bind; [apply Gets_num; rewrite Hdk; lia|]. cbv zeta. rewrite WriteZeroes_put by lia.
  eapply Gets_bind; [apply Gets_bit|]. rewrite <- (app_nil_r (gr_bits krp _)).
  set (d2 := put (replicate (Z.to_nat nz) 0) d).
  assert (Hd2 : d_krp d2 = krp) by exact Hdkrp. assert (Hd2' : d_kr d2 = Z.shiftr krp LSGR) by exact Hdkr.
  eapply Gets_bind; [rewrite <- Hd2; apply Gets_gr; [rewrite Hd2; exact Hkrp|rewrite Hd2; exact Hd2'|exact (coded_range input Hin)]|].
  cbv beta iota. rewrite decoded_coded, WriteValue_put, update_kp_set.
  - cbn [put set_krp d_kp d2]. rewrite Hdkp, Hd2, Hd2'.
    replace (put [decoded input] (set_krp _ d2)) with (set_krp (value_krp krp input) (put (replicate (Z.to_nat nz) 0 ++ [decoded input]) d)).
    + apply Gets_ret.
    + unfold d2, set_krp, put, value_krp. cbn. rewrite <- app_assoc, len_app. f_equal. change (len [_]) with 1. lia.
  - cbn [set_krp d2 put d_room]. rewrite len_replicate. lia.
  - unfold decoded, sint16. destruct (Z.eqb_spec input 0); [reflexivity|]. rewrite Z.mod_small; lia.
Qed.

Lemma round_rl mode data k kp krp : data <> [] -> Forall (coeff mode) data -> params k kp krp ->
  round (encode_rl data k kp krp) decode_rl data k kp krp.
Proof.
  intros Hne Hco (Hk & Hkp & Hkrp). destruct (zero_run_spec data 0 Hne) as (m & input & rest & Ez & Hdata & Hlast).
  assert (Hin : coeff mode input) by (rewrite Hdata in Hco; apply Forall_app in Hco as [_ Hco]; apply Forall_cons in Hco; apply Hco).
  destruct (coeff_sint16 mode input Hin) as [_ Hr].
  destruct (runs_step (Z.to_nat (Z.of_nat m)) (Z.of_nat m) k kp ltac:(lia) Hk Hkp)
    as (j & nz' & kp1 & HP & Hnz & Hlt & Hp1 & HG).
  pose proof (param_shift kp1 Hp1) as Hk1. destruct (UpdateParam_param kp1 (- DN_GR)) as [Hp2 Hk2].
  exists ((replicate j false ++ [true]) ++ value_bits (Z.shiftr kp1 LSGR) nz' krp input), (fst (UpdateParam kp1 (- DN_GR))),
    (value_krp krp input), rest, (replicate m 0 ++ [input]), (replicate m 0 ++ [decoded input]).
  split; [|split; [|split; [exact Hp2|split; [apply new_krp_param, Hkrp|split; [rewrite Hdata, <- app_assoc; reflexivity|]]]]].
  - unfold encode_rl, value_bits. rewrite Ez, Z.add_0_l, <- app_assoc. eapply Puts_bind; [exact HP|]. cbv beta iota.
    apply (Puts_bind _ _ tt _ [true]); [apply (Puts_bit 1 true); lia|].
    apply (Puts_bind _ _ tt); [apply Puts_bits; lia|].
    apply (Puts_bind _ _ tt _ [input <? 0]); [apply (Puts_bit 1 (input <? 0)); lia|].
    rewrite <- (app_nil_r (gr_bits _ _)). eapply Puts_bind; [apply Puts_gr; [exact Hkrp|apply (coded_range input Hr)]|].
    destruct (UpdateParam kp1 (- DN_GR)) as [kp2 k2]. cbn [fst snd] in *. rewrite Hk2. apply Puts_ret.
  - intros H. apply app_nil in H as [H _]. apply app_nil in H as [_ H]. discriminate.
  - split; [intros H; apply app_nil in H as [_ H]; discriminate|]. unfold decoded at 1 2.
    split; [|split].
    + destruct (Z.eqb_spec input 0) as [->|]; [right; exists (replicate m 0); auto|left; reflexivity].
    + destruct (Z.eqb_spec input 0) as [->|]; [right; auto|left; reflexivity].
    + intros d [Hdk Hdkp Hdkrp Hdkr] Hroom.
      assert (Hlen : len data = Z.of_nat m + 1 + len rest) by (rewrite Hdata, len_app, len_replicate, len_cons; lia).
      set (d1 := set_kp kp1 (put (replicate (Z.to_nat (Z.of_nat m - nz')) 0) d)).
      exists (set_kp (fst (UpdateParam kp1 (- DN_GR)))
                (set_krp (value_krp krp input) (put (replicate (Z.to_nat nz') 0 ++ [decoded input]) d1))).
      split; [|split; [split; reflexivity|split]].
      * intros bs rest' Hok Hu. unfold decode_rl.
        assert (Hfuel : (j < bs_fuel bs)%nat).
        { pose proof (upcoming_length bs Hok) as Hl. rewrite Hu, !length_app, length_replicate in Hl. unfold bs_fuel. lia. }
        refine (Gets_bind _ _ _ _ _ _ (HG d (bs_fuel bs) Hfuel Hdk Hdkp ltac:(llia)) _ bs rest' Hok Hu).
        fold d1. change (Z.shiftr kp1 LSGR) with (d_k d1).
        apply (rl_value_gets kp1 krp nz' input d1); auto; [lia|]. cbn [d1 set_kp put d_room]. rewrite len_replicate. llia.
      * cbn [d1 set_krp set_kp put d_dst]. rewrite <- !app_assoc. f_equal. rewrite app_assoc, replicate_sum by lia.
        do 3 f_equal. lia.
      * left. cbn [d1 set_krp set_kp put d_room]. rewrite len_app, !len_replicate. change (len [_]) with 1. lia.
Qed.

(** ** The Golomb-Rice modes *)

Lemma Get2MagSign_range mode x : coeff mode x ->
  0 <= Get2MagSign x < match mode with RLGR1 => 65536 | RLGR3 => 32768 end.
Proof. unfold Get2MagSign. intros H. destruct mode; cbn in *; destruct (Z.leb_spec 0 x); lia. Qed.

Lemma Get2MagSign_inv x : -32768 < x < 32768 -> GetIntFrom2MagSign (Get2MagSign x) = x.
Proof.
  intros H. unfold GetIntFrom2MagSign, Get2MagSign, sint16, uint32. rewrite !Z.shiftr_div_pow2 by lia.
  destruct (Z.leb_spec 0 x).
  - rewrite (land_mask _ 1 1) by lia. change (2 ^ 1) with 2. rewrite (Z.mul_comm 2), Z.mod_mul, Z.div_mul by lia.
    cbn [Z.eqb negb]. rewrite Z.mod_small; lia.
  - rewrite (land_mask _ 1 1) by lia. change (2 ^ 1) with 2.
    replace ((-2 * x - 1) mod 2) with 1 by dlia. cbn [Z.eqb negb Pos.eqb].
    replace (-2 * x - 1 + 1) with (- x * 2) by lia. rewrite (Z.mod_small (- x * 2)), Z.div_mul, Z.mod_small by lia. lia.
Qed.

Lemma Get2MagSign_zero x : -32768 < x < 32768 -> Get2MagSign x = 0 -> x = 0.
Proof. unfold Get2MagSign. destruct (Z.leb_spec 0 x); lia. Qed.

Lemma min_bits_spec : forall fuel v n, 0 <= v < 2 ^ Z.of_nat fuel ->
  n <= min_bits fuel v n /\ v < 2 ^ (min_bits fuel v n - n) /\
  (forall m, 0 <= m -> v < 2 ^ m -> min_bits fuel v n - n <= m).
Proof.
  induction fuel as [|fuel IH]; intros v n Hv; cbn [min_bits].
  - change (2 ^ Z.of_nat 0) with 1 in Hv. replace (n - n) with 0 by lia. cbn. split; [lia|]. split; [lia|]. intros; lia.
  - destruct (Z.eqb_spec v 0) as [->|Hv0]; [replace (n - n) with 0 by lia; cbn; split; [lia|]; split; [lia|]; intros; lia|].
    rewrite Z.shiftr_div_pow2 by lia. change (2 ^ 1) with 2. rewrite Nat2Z.inj_succ, Z.pow_succ_r in Hv by lia.
    destruct (IH (v / 2) (n + 1)) as (H1 & H2 & H3); [dlia|]. set (r := min_bits fuel (v / 2) (n + 1)) in *.
    split; [lia|]. split.
    + replace (r - n) with (Z.succ (r - (n + 1))) by lia. rewrite Z.pow_succ_r by lia. dlia.
    + intros m Hm Hlt. destruct (Z.eq_dec m 0) as [->|]; [cbn in Hlt; lia|].
      specialize (H3 (m - 1) ltac:(lia)). replace m with (Z.succ (m - 1)) in Hlt by lia.
      rewrite Z.pow_succ_r in Hlt by lia. pose proof (H3 ltac:(dlia)). lia.
Qed.

Lemma GetMinBits_spec v : 0 <= v < 65536 -> 0 <= GetMinBits v <= 16 /\ v < 2 ^ GetMinBits v.
Proof.
  intros Hv. unfold GetMinBits. destruct (min_bits_spec 32 v 0) as (H1 & H2 & H3); [cbn; lia|].
  rewrite Z.sub_0_r in *. specialize (H3 16 ltac:(lia) ltac:(cbn; lia)). split; lia || assumption.
Qed.

Lemma round_gr1 data k kp krp : data <> [] -> Forall (coeff RLGR1) data -> params k kp krp ->
  round (encode_gr RLGR1 data k kp krp) (decode_gr RLGR1) data k kp krp.
Proof.
  intros Hne Hco (Hk & Hkp & Hkrp). destruct data as [|x rest]; [congruence|].
  apply Forall_cons in Hco as [Hx _]. destruct (coeff_sint16 _ x Hx) as [Hs Hr].
  pose proof (Get2MagSign_range _ x Hx) as Hm. cbn in Hm. set (t := Get2MagSign x) in *.
  set (delta := if negb (t =? 0) then - DQ_GR else UQ_GR). destruct (UpdateParam_param kp delta) as [Hp2 Hk2].
  exists (gr_bits krp t), (fst (UpdateParam kp delta)), (new_krp krp (Z.shiftr t (Z.shiftr krp LSGR))), rest, [x], [x].
  split; [|split; [|split; [exact Hp2|split; [apply new_krp_param, Hkrp|]]]].
  - unfold encode_gr. cbn [GetNextInput]. fold t. fold delta. rewrite <- (app_nil_r (gr_bits _ _)).
    eapply Puts_bind; [apply Puts_gr; [exact Hkrp|lia]|].
    destruct (UpdateParam kp delta) as [kp2 k2]. cbn [fst snd] in *. rewrite Hk2. apply Puts_ret.
  - unfold gr_bits. intros H. apply app_nil in H as [_ H]. discriminate.
  - split; [reflexivity|]. split; [discriminate|]. split; [left; reflexivity|]. split; [left; reflexivity|].
    intros d [Hdk Hdkp Hdkrp Hdkr] Hroom. rewrite len_cons in Hroom.
    exists (set_kp (fst (UpdateParam kp delta)) (put [x] (set_krp (new_krp krp (Z.shiftr t (Z.shiftr krp LSGR))) d))).
    split; [|split; [split; reflexivity|split; [reflexivity|left; cbn [set_kp put set_krp d_room]; change (len [x]) with 1; lia]]].
    unfold decode_gr. rewrite <- (app_nil_r (gr_bits _ _)).
    eapply Gets_bind; [rewrite <- Hdkrp; apply Gets_gr; [rewrite Hdkrp; exact Hkrp|rewrite Hdkrp; exact Hdkr|exact Hm]|].
    cbv beta iota. rewrite Hdkrp, Hdkr. unfold delta.
    destruct (Z.eqb_spec t 0) as [Ht|Ht]; cbn [negb]; rewrite WriteValue_put; rewrite ?update_kp_set.
    + rewrite (Get2MagSign_zero x Hr Ht). cbn [put set_krp d_kp]. rewrite Hdkp. apply Gets_ret.
    + cbn [set_krp d_room]. llia.
    + reflexivity.
    + unfold t. rewrite Get2MagSign_inv by exact Hr. cbn [put set_krp d_kp]. rewrite Hdkp. apply Gets_ret.
    + cbn [set_krp d_room]. llia.
    + unfold t. rewrite Get2MagSign_inv by exact Hr. exact Hs.
Qed.

Definition pair_kp (kp t1 t2 : Z) : Z :=
  if negb (t1 =? 0) && negb (t2 =? 0) then fst (UpdateParam kp (-2 * DQ_GR))
  else if (t1 =? 0) && (t2 =? 0) then fst (UpdateParam kp (2 * UQ_GR)) else kp.

Lemma pair_kp_param kp t1 t2 : param kp -> param (pair_kp kp t1 t2).
Proof.
  intros Hp. unfold pair_kp. destruct (_ && _); [apply UpdateParam_param|]. destruct (_ && _); [apply UpdateParam_param|exact Hp].
Qed.

Definition pair_bits (krp t1 t2 : Z) : list bool :=
  gr_bits krp (t1 + t2) ++ bits_of (Z.to_nat (GetMinBits (t1 + t2))) t1.

Definition pair_krp (krp t1 t2 : Z) : Z := new_krp krp (Z.shiftr (t1 + t2) (Z.shiftr krp LSGR)).

(** The decoder on a pair of values: what it writes, and where. *)
Lemma pair_gets kp krp t1 t2 d : param kp -> param krp -> 0 <= t1 < 32768 -> 0 <= t2 < 32768 ->
  in_step (Z.shiftr kp LSGR) kp krp d ->
  forall d', Gets (let! d := WriteValue (GetIntFrom2MagSign t1)
                               (set_kp (pair_kp kp t1 t2) (set_krp (pair_krp krp t1 t2) d)) in
                   WriteValue (GetIntFrom2MagSign t2) d) [] d' ->
  Gets (decode_gr RLGR3 d) (pair_bits krp t1 t2) d'.
Proof.
  intros Hkp Hkrp H1 H2 [Hdk Hdkp Hdkrp Hdkr] d' Hw. unfold decode_gr, pair_bits.
  destruct (GetMinBits_spec (t1 + t2) ltac:(lia)) as [Hn Hlt].
  eapply Gets_bind; [rewrite <- Hdkrp; apply Gets_gr; [rewrite Hdkrp; exact Hkrp|rewrite Hdkrp; exact Hdkr|lia]|].
  cbv beta iota. rewrite Hdkrp, Hdkr. fold (pair_krp krp t1 t2). rewrite <- (app_nil_r (bits_of _ _)).
  eapply Gets_bind; [apply Gets_num; lia|]. cbv zeta.
  replace (uint32 (t1 + t2 - t1)) with t2 by (unfold uint32; rewrite Z.mod_small; lia).
  rewrite !update_kp_set. cbn [set_krp d_kp]. rewrite Hdkp.
  replace (set_kp (pair_kp kp t1 t2) (set_krp (pair_krp krp t1 t2) d))
    with (if negb (t1 =? 0) && negb (t2 =? 0)
          then set_kp (fst (UpdateParam kp (-2 * DQ_GR))) (set_krp (pair_krp krp t1 t2) d)
          else if (t1 =? 0) && (t2 =? 0)
               then set_kp (fst (UpdateParam kp (2 * UQ_GR))) (set_krp (pair_krp krp t1 t2) d)
               else set_krp (pair_krp krp t1 t2) d) in Hw; [exact Hw|].
  unfold pair_kp. destruct (_ && _); [reflexivity|]. destruct (_ && _); [reflexivity|].
  unfold set_kp, set_krp. cbn. rewrite Hdkp, Hdk. reflexivity.
Qed.

Lemma pair_puts kp krp t1 t2 (data : list Z) : param krp -> 0 <= t1 < 32768 -> 0 <= t2 < 32768 ->
  Puts (let! krp := rfx_rlgr_code_gr krp (t1 + t2) in
        rfx_bitstream_put_bits t1 (GetMinBits (t1 + t2));;
        let (kp, k) :=
          if negb (t1 =? 0) && negb (t2 =? 0) then UpdateParam kp (-2 * DQ_GR)
          else if (t1 =? 0) && (t2 =? 0) then UpdateParam kp (2 * UQ_GR)
          else (kp, Z.shiftr kp LSGR) in
        ret (data, k, kp, krp))
    (data, Z.shiftr (pair_kp kp t1 t2) LSGR, pair_kp kp t1 t2, pair_krp krp t1 t2) (pair_bits krp t1 t2).
Proof.
  intros Hkrp H1 H2. destruct (GetMinBits_spec (t1 + t2) ltac:(lia)) as [Hn Hlt]. unfold pair_bits.
  eapply Puts_bind; [apply Puts_gr; [exact Hkrp|lia]|]. rewrite <- (app_nil_r (bits_of _ _)).
  apply (Puts_bind _ _ tt); [apply Puts_bits; lia|]. unfold pair_kp.
  assert (Hu : forall delta, UpdateParam kp delta = (fst (UpdateParam kp delta), Z.shiftr (fst (UpdateParam kp delta)) LSGR))
    by reflexivity.
  destruct (_ && _); [rewrite Hu; apply Puts_ret|]. destruct (_ && _); [rewrite Hu; apply Puts_ret|apply Puts_ret].
Qed.

Lemma round_gr3 data k kp krp : data <> [] -> Forall (coeff RLGR3) data -> params k kp krp ->
  round (encode_gr RLGR3 data k kp krp) (decode_gr RLGR3) data k kp krp.
Proof.
  intros Hne Hco (-> & Hkp & Hkrp). destruct data as [|x rest]; [congruence|].
  apply Forall_cons in Hco as [Hx Hrest]. destruct (coeff_sint16 _ x Hx) as [Hs Hr].
  pose proof (Get2MagSign_range _ x Hx) as Hm. cbn in Hm.
  destruct (GetNextInput rest) as [y rest'] eqn:Ey.
  assert (Hy : coeff RLGR3 y /\ (rest = [] /\ y = 0 /\ rest' = [] \/ rest = y :: rest')).
  { destruct rest as [|z zs]; cbn in Ey; injection Ey as <- <-; [split; [cbn; lia|auto]|].
    apply Forall_cons in Hrest as [Hz _]. auto. }
  destruct Hy as [Hy Hcase]. destruct (coeff_sint16 _ y Hy) as [Hsy Hry].
  pose proof (Get2MagSign_range _ y Hy) as Hmy. cbn in Hmy.
  exists (pair_bits krp (Get2MagSign x) (Get2MagSign y)), (pair_kp kp (Get2MagSign x) (Get2MagSign y)),
    (pair_krp krp (Get2MagSign x) (Get2MagSign y)), rest', (x :: take 1 rest), (x :: take 1 rest).
  split; [|split; [|split; [apply pair_kp_param, Hkp|split; [apply new_krp_param, Hkrp|]]]].
  - unfold encode_gr. cbn [GetNextInput]. rewrite Ey. exact (pair_puts kp krp _ _ rest' Hkrp Hm Hmy).
  - unfold pair_bits, gr_bits. intros H. apply app_nil in H as [H _]. apply app_nil in H as [_ H]. discriminate.
  - split; [destruct Hcase as [(-> & _ & ->)| ->]; reflexivity|]. split; [discriminate|]. split; [left; reflexivity|].
    split; [left; reflexivity|]. intros d Hd Hroom. rewrite len_cons in Hroom.
    eexists. split.
    { apply (pair_gets kp krp _ _ d Hkp Hkrp Hm Hmy Hd).
      rewrite !Get2MagSign_inv, (WriteValue_put x) by (assumption || (cbn [set_kp set_krp d_room]; llia)).
      unfold WriteValue, spend. cbn [put set_kp set_krp d_room d_dst]. change (len [x]) with 1.
      rewrite (proj2 (Z.ltb_ge _ (- 2 ^ 31))) by llia. apply Gets_ret. }
    split; [split; reflexivity|]. cbn [d_room d_dst].
    destruct Hcase as [(-> & -> & ->)| ->].
    + rewrite len_nil in Hroom. rewrite (proj2 (Z.ltb_ge _ _)) by lia. split; [reflexivity|]. right. split; [reflexivity|lia].
    + rewrite len_cons in Hroom. rewrite (proj2 (Z.ltb_lt _ _)), Hsy by llia. split; [rewrite <- app_assoc; reflexivity|]. left. lia.
Qed.

(** ** The two loops *)

Lemma recoded_app some out rest out' : recoded some out -> (out = some \/ rest = []) -> recoded rest out' ->
  (rest = [] -> out' = []) -> recoded (some ++ rest) (out ++ out').
Proof.
  intros H1 Hc H2 Hn. destruct Hc as [->| ->].
  - destruct H2 as [->|(init & -> & ->)]; [left; reflexivity|right]. exists (some ++ init). rewrite !app_assoc. auto.
  - rewrite (Hn eq_refl), !app_nil_r. exact H1.
Qed.

Lemma recoded_nil out : recoded [] out -> out = [].
Proof. intros [->|(init & H & _)]; [reflexivity|]. destruct init; discriminate. Qed.

Lemma loops_in_step mode : forall fuel data k kp krp, (length data <= fuel)%nat -> Forall (coeff mode) data ->
  params k kp krp ->
  exists B out, Puts (encode_loop mode fuel data k kp krp) tt B /\ recoded data out /\
    forall d fuel', in_step k kp krp d -> (d_room d = len data \/ data = [] /\ d_room d <= 0) -> (length data <= fuel')%nat ->
      exists d', Gets (decode_loop mode fuel' d) B d' /\ d_dst d' = d_dst d ++ out.
Proof.
  assert (Hdone : forall (d : decoder) fuel', d_room d <= 0 -> Gets (decode_loop mode fuel' d) [] d).
  { intros d fuel' Hr bs rest Hok Hu. exists bs. destruct fuel'; cbn [decode_loop];
      rewrite (proj2 (Z.ltb_ge _ _)), andb_false_r by lia; auto. }
  assert (Hempty : forall k kp krp, exists B out, Puts (ret tt) tt B /\ recoded [] out /\
    forall d fuel', in_step k kp krp d -> (d_room d = len (@nil Z) \/ @nil Z = [] /\ d_room d <= 0) -> (0 <= fuel')%nat ->
      exists d', Gets (decode_loop mode fuel' d) B d' /\ d_dst d' = d_dst d ++ out).
  { intros k kp krp. exists [], []. split; [apply Puts_ret|]. split; [left; reflexivity|].
    intros d fuel' _ Hr _. exists d. rewrite app_nil_r. split; [apply Hdone|reflexivity].
    destruct Hr as [Hr|[_ Hr]]; [rewrite Hr; discriminate|exact Hr]. }
  induction fuel as [|fuel IH]; intros data k kp krp Hf Hco Hpar; cbn [encode_loop].
  1: { destruct data; [apply Hempty|cbn in Hf; lia]. }
  destruct data as [|x data0]; [apply Hempty|].
  set (data := x :: data0) in *. assert (Hne : data <> []) by discriminate.
  rewrite (proj2 (Z.ltb_lt 0 (len data))) by (unfold data; rewrite len_cons; llia).
  assert (Hround : round (if negb (k =? 0) then encode_rl data k kp krp else encode_gr mode data k kp krp)
            (fun d => if negb (k =? 0) then decode_rl d else decode_gr mode d) data k kp krp).
  { destruct (k =? 0); cbn [negb]; [|exact (round_rl mode data k kp krp Hne Hco Hpar)].
    destruct mode; [apply round_gr1|apply round_gr3]; assumption. }
  destruct Hround as (B & kp' & krp' & data' & some & out & HP & HB & Hp' & Hkp' & Hd & Hsome & Hrec & Hout & HG).
  rewrite Hd in Hco. apply Forall_app in Hco as [_ Hco'].
  assert (Hl : (length data' < length data)%nat) by (rewrite Hd, length_app; destruct some; [congruence|cbn; lia]).
  destruct (IH data' (Z.shiftr kp' LSGR) kp' krp' ltac:(lia) Hco' (conj eq_refl (conj Hp' Hkp'))) as (B2 & out2 & HP2 & Hrec2 & HG2).
  exists (B ++ B2), (out ++ out2). split; [|split].
  - eapply Puts_bind; [exact HP|exact HP2].
  - rewrite Hd. apply recoded_app; auto. intros ->. apply recoded_nil, Hrec2.
  - intros d [|fuel'] Hst Hroom Hf'; [lia|].
    assert (Hroom' : d_room d = len data) by (destruct Hroom as [Hr|[Hr _]]; [exact Hr|discriminate]).
    destruct (HG d Hst Hroom') as (d1 & Hg1 & Hst1 & Hdst1 & Hroom1).
    destruct (HG2 d1 fuel' Hst1) as (d2 & Hg2 & Hdst2); [destruct Hroom1 as [Hr|Hr]; auto|lia|].
    exists d2. split; [|rewrite Hdst2, Hdst1, app_assoc; reflexivity].
    intros bs rest Hok Hu. cbn [decode_loop]. rewrite (not_eos bs Hok) by (rewrite Hu; destruct B; [congruence|discriminate]).
    rewrite (proj2 (Z.ltb_lt _ _)) by (rewrite Hroom'; unfold data; rewrite len_cons; llia). cbn [negb andb].
    rewrite (st_k _ _ _ _ Hst). exact (Gets_bind _ _ _ _ B B2 Hg1 Hg2 bs rest Hok Hu).
Qed.

(** ** The coder *)

Lemma written_start buffer n : written (rfx_bitstream_attach buffer n) = [].
Proof. unfold written. cbn. destruct (bs_cur _); reflexivity. Qed.

Lemma upcoming_start buffer n : upcoming (rfx_bitstream_attach buffer n) = byte_bits (take (Z.to_nat n) buffer).
Proof. unfold upcoming. cbn [bs_byte_pos bs_nbytes bs_buffer bs_bits_left rfx_bitstream_attach].
  change (Z.to_nat 0) with 0%nat. rewrite drop_0. destruct (take _ buffer); reflexivity. Qed.

Lemma attach_ok buffer n : is_bytes buffer -> 0 <= n <= len buffer -> bs_ok (rfx_bitstream_attach buffer n).
Proof. intros Hb Hn. split; cbn; auto; lia. Qed.

(** What a reader of the processed bytes finds. *)
Lemma processed_upcoming bs : bs_ok bs ->
  exists junk, upcoming (rfx_bitstream_attach (bs_buffer bs) (rfx_bitstream_get_processed_bytes bs)) = written bs ++ junk.
Proof.
  intros Hok. pose proof Hok as [Hp Hl He Hb _]. rewrite upcoming_start. unfold rfx_bitstream_get_processed_bytes, written.
  destruct (Z.ltb_spec (bs_bits_left bs) 8) as [Hlt|Hge].
  - assert (Hpos : bs_byte_pos bs < bs_nbytes bs) by (destruct (Z.eq_dec (bs_byte_pos bs) (bs_nbytes bs)); [specialize (He e)|]; lia).
    destruct (cur_some bs Hok Hpos) as (x & Hx & _). rewrite Hx. exists (bits_of (Z.to_nat (bs_bits_left bs)) x).
    replace (Z.to_nat (bs_byte_pos bs + 1)) with (S (Z.to_nat (bs_byte_pos bs))) by lia. rewrite (take_S_r _ _ _ Hx), byte_bits_app, <- app_assoc.
    f_equal. change (byte_bits [x]) with (bits_of 8 x ++ []). rewrite app_nil_r.
    replace 8%nat with (Z.to_nat (8 - bs_bits_left bs) + Z.to_nat (bs_bits_left bs))%nat by lia.
    rewrite bits_of_split, Z2Nat.id by lia. reflexivity.
  - exists []. rewrite app_nil_r. replace (8 - bs_bits_left bs) with 0 by lia. destruct (bs_cur bs); cbn; rewrite app_nil_r; reflexivity.
Qed.

Lemma rlgr_recodes mode data buffer buffer_size :
  Forall (coeff mode) data -> is_bytes buffer -> 0 <= buffer_size <= len buffer ->
  exists buffer' n, rfx_rlgr_encode mode data buffer buffer_size = Done (buffer', n) /\ 0 <= n <= buffer_size /\
    (n < buffer_size -> exists out, rfx_rlgr_decode mode buffer' n (len data) = Done out /\
       recoded data out).
Proof.
  intros Hco Hb Hn. pose proof (attach_ok buffer buffer_size Hb Hn) as Hok.
  assert (Hpar : params 1 (Z.shiftl 1 LSGR) (Z.shiftl 1 LSGR)) by (split; [reflexivity|split; split; discriminate]).
  destruct (loops_in_step mode (length data) data 1 (Z.shiftl 1 LSGR) (Z.shiftl 1 LSGR) ltac:(lia) Hco Hpar)
    as (B & out & HP & Hrec & HG).
  destruct (HP _ Hok) as (bs & E & [Hok' Hnb Hlen Hfull Hbits]). unfold rfx_rlgr_encode. rewrite E.
  cbn [rfx_bitstream_attach bs_nbytes] in Hnb. pose proof Hok' as [Hp Hl He Hbl Hy].
  exists (bs_buffer bs), (rfx_bitstream_get_processed_bytes bs). split; [reflexivity|].
  assert (Hproc : bs_byte_pos bs <= rfx_bitstream_get_processed_bytes bs <= bs_nbytes bs).
  { unfold rfx_bitstream_get_processed_bytes. destruct (Z.ltb_spec (bs_bits_left bs) 8); [|lia].
    destruct (Z.eq_dec (bs_byte_pos bs) (bs_nbytes bs)) as [e|]; [specialize (He e)|]; lia. }
  split; [lia|]. intros Hroom. destruct Hbits as [Hbits|Hbits]; [lia|]. rewrite written_start in Hbits.
  destruct (processed_upcoming bs Hok') as (junk & Hj). rewrite Hbits in Hj.
  destruct (HG (mkDec 1 (Z.shiftl 1 LSGR) 1 (Z.shiftl 1 LSGR) [] (len data)) (Z.to_nat (len data)))
    as (d' & Hg & Hdst); [split; reflexivity|left; reflexivity|unfold len; lia|].
  destruct (Hg (rfx_bitstream_attach (bs_buffer bs) (rfx_bitstream_get_processed_bytes bs)) junk) as (bs2 & E2 & _).
  - apply attach_ok; [exact Hy|]. lia.
  - exact Hj.
  - exists out. unfold rfx_rlgr_decode. rewrite E2, Hdst. split; [reflexivity|exact Hrec].
Qed.


Definition rlgr_sample : list Z := [0; 0; 0; 5; -3; 0; 0; 100; 1; 2; 3; -1000; 0; 0; 0; 0; 0; 0; 0; 7].


(** Four zeros are decoded as three zeros and a 1. *)
Example rlgr_trailing_zero :
  match rfx_rlgr_encode RLGR1 [0; 0; 0; 0] (replicate 8 0) 8 with
  | Done (buffer, n) => rfx_rlgr_decode RLGR1 buffer n 4
  | Fault f => Fault f
  end = Done [0; 0; 0; 1].
Proof. vm_compute. reflexivity. Qed.

(** ** The decoder on arbitrary input *)

(** [c] returns with [Q], having read at most what there is. *)
Definition Returns {A} (c : M RFX_BITSTREAM A) (bs : RFX_BITSTREAM) (Q : A -> RFX_BITSTREAM -> Prop) : Prop :=
  exists a bs', c bs = Done (a, bs') /\ bs_ok bs' /\ bs_nbytes bs' = bs_nbytes bs /\
    (length (upcoming bs') <= length (upcoming bs))%nat /\ Q a bs'.

Lemma Returns_ret {A} (a : A) bs (Q : A -> RFX_BITSTREAM -> Prop) : bs_ok bs -> Q a bs -> Returns (ret a) bs Q.
Proof. intros Hok HQ. exists a, bs. auto. Qed.

Lemma Returns_bind {A B} (c : M RFX_BITSTREAM A) (k : A -> M RFX_BITSTREAM B) bs Q R :
  Returns c bs Q ->
  (forall a bs', bs_ok bs' -> bs_nbytes bs' = bs_nbytes bs -> (length (upcoming bs') <= length (upcoming bs))%nat ->
     Q a bs' -> Returns (k a) bs' R) ->
  Returns (bind c k) bs R.
Proof.
  intros (a & bs1 & E1 & Hok1 & Hn1 & Hl1 & HQ) Hk. destruct (Hk a bs1 Hok1 Hn1 Hl1 HQ) as (b & bs2 & E2 & Hok2 & Hn2 & Hl2 & HR).
  exists b, bs2. rewrite (bind_Done _ _ _ _ _ E1). split; [exact E2|]. split; [exact Hok2|]. split; [congruence|]. split; [lia|exact HR].
Qed.

(** A step of the accumulator of [rfx_bitstream_get_bits]. *)
Lemma acc_bound n b x m : 0 <= n -> 0 <= b -> 0 <= x ->
  0 <= Z.lor (uint16 (Z.shiftl n b)) (Z.land (Z.shiftr x m) (Z.shiftl 1 b - 1)) < (n + 1) * 2 ^ b.
Proof.
  intros Hn Hb Hx. rewrite Z.shiftl_1_l, (land_mask _ b) by lia. rewrite Z.shiftl_mul_pow2 by lia.
  pose proof (Z.pow_pos_nonneg 2 b ltac:(lia) Hb). unfold uint16.
  set (h := (n * 2 ^ b) mod 2 ^ 16). set (w := Z.shiftr x m mod 2 ^ b).
  assert (0 <= w < 2 ^ b) by (apply Z.mod_pos_bound; lia).
  assert (0 <= h <= n * 2 ^ b) by (split; [apply Z.mod_pos_bound; lia|apply Z.mod_le; nia]).
  assert (Hle : Z.lor h w <= h + w)
    by (rewrite <- Z.add_lor_land; pose proof (proj2 (Z.land_nonneg h w) ltac:(lia)); lia).
  split; [apply Z.lor_nonneg; lia|nia].
Qed.

Lemma get_bits_loop_returns : forall fuel nbits n bs, bs_ok bs -> nbits <= Z.of_nat fuel -> 0 <= n ->
  Returns (get_bits_loop fuel nbits n) bs (fun v bs' => 0 <= v < (n + 1) * 2 ^ Z.max 0 nbits /\
    (0 < nbits -> rfx_bitstream_eos bs = false -> (length (upcoming bs') < length (upcoming bs))%nat) /\
    (rfx_bitstream_eos bs = true -> v = n)).
Proof.
  assert (Hstop : forall nbits n, 0 <= n -> 0 <= n < (n + 1) * 2 ^ Z.max 0 nbits).
  { intros nbits n Hn. pose proof (Z.pow_pos_nonneg 2 (Z.max 0 nbits) ltac:(lia) ltac:(lia)). nia. }
  induction fuel as [|fuel IH]; intros nbits n bs Hok Hf Hn.
  - cbn [get_bits_loop]. unfold Returns. rewrite (proj2 (Z.ltb_ge 0 nbits)), andb_false_r by lia.
    exists n, bs. refine (conj eq_refl (conj Hok (conj eq_refl (conj (le_n _) (conj (Hstop _ _ Hn) (conj _ _)))))); [lia|auto].
  - unfold Returns. cbn [get_bits_loop]. destruct (rfx_bitstream_eos bs) eqn:He; cbn [negb andb].
    { exists n, bs. refine (conj eq_refl (conj Hok (conj eq_refl (conj (le_n _) (conj (Hstop _ _ Hn) (conj _ _)))))); [discriminate|auto]. }
    destruct (Z.ltb_spec 0 nbits) as [H0|H0].
    2: { exists n, bs. refine (conj eq_refl (conj Hok (conj eq_refl (conj (le_n _) (conj (Hstop _ _ Hn) (conj _ _)))))); [lia|discriminate]. }
    apply Z.leb_gt in He. destruct (cur_some bs Hok He) as (x & Hx & Hbx & _). rewrite Hx. pose proof (ok_left bs Hok).
    set (b := Z.min nbits (bs_bits_left bs)). assert (Hb : 1 <= b <= bs_bits_left bs) by (unfold b; lia).
    pose proof (skip_upcoming b bs x Hok He Hx Hb) as Hs. apply (f_equal length) in Hs. rewrite length_app, length_bits_of in Hs.
    pose proof (acc_bound n b x (bs_bits_left bs - b) Hn ltac:(lia) ltac:(apply Hbx)) as Hacc.
    set (n' := Z.lor _ _) in *.
    destruct (IH (nbits - b) n' (bs_skip b bs)) as (v & bs' & E & Hok' & Hn' & Hl' & Hv & _);
      [apply skip_ok; assumption|lia|lia|].
    exists v, bs'. split; [exact E|]. split; [exact Hok'|].
    split; [rewrite Hn'; unfold bs_skip; destruct (_ =? 0); reflexivity|]. split; [lia|]. split; [|split; [lia|discriminate] ].
    rewrite Z.max_r in * by (unfold b in *; lia). split; [lia|].
    replace nbits with (b + (nbits - b)) by lia. rewrite Z.pow_add_r by (unfold b in *; lia).
    pose proof (Z.pow_pos_nonneg 2 (nbits - b) ltac:(lia) ltac:(unfold b; lia)). nia.
Qed.

Lemma get_bits_returns nbits bs : bs_ok bs ->
  Returns (rfx_bitstream_get_bits nbits) bs (fun v bs' => 0 <= v < 2 ^ Z.max 0 nbits /\
    (0 < nbits -> rfx_bitstream_eos bs = false -> (length (upcoming bs') < length (upcoming bs))%nat) /\
    (rfx_bitstream_eos bs = true -> v = 0)).
Proof.
  intros Hok. unfold rfx_bitstream_get_bits.
  destruct (get_bits_loop_returns (Z.to_nat nbits) nbits 0 bs Hok ltac:(lia) ltac:(lia)) as (v & bs' & E & Hq).
  exists v, bs'. split; [exact E|]. rewrite Z.add_0_l, Z.mul_1_l in Hq. exact Hq.
Qed.

Lemma leading_ones_returns : forall fuel vk bs, bs_ok bs -> (length (upcoming bs) < fuel)%nat -> 0 <= vk ->
  Returns (leading_ones fuel vk) bs (fun v _ => 0 <= v <= vk + Z.of_nat (length (upcoming bs))).
Proof.
  induction fuel as [|fuel IH]; intros vk bs Hok Hf Hv; [lia|]. cbn [leading_ones].
  eapply Returns_bind; [apply (get_bits_returns 1 bs Hok)|]. intros r bs' Hok' _ Hl (Hr & Hlt & Hz).
  destruct (Z.eqb_spec r 1) as [->|]; [|apply Returns_ret; [assumption|lia] ].
  destruct (rfx_bitstream_eos bs); [specialize (Hz eq_refl); lia|]. specialize (Hlt ltac:(lia) eq_refl).
  destruct (IH (vk + 1) bs' Hok' ltac:(lia) ltac:(lia)) as (v & bs2 & E & H1 & H2 & H3 & H4).
  exists v, bs2. repeat split; auto; try apply H1; lia.
Qed.

(** The output never grows beyond the room there was, and the parameters stay
    in their ranges. *)
Record sound (size : Z) (d : decoder) : Prop := {
  sound_fits : len (d_dst d) + Z.max 0 (d_room d) <= size;
  sound_k : d_k d = Z.shiftr (d_kp d) LSGR;
  sound_kp : param (d_kp d);
  sound_kr : d_kr d = Z.shiftr (d_krp d) LSGR;
  sound_krp : param (d_krp d);
}.

Lemma sound_update_kp size delta d : sound size d -> sound size (update_kp delta d).
Proof.
  intros []. rewrite update_kp_set. split; cbn [set_kp d_dst d_room d_k d_kp d_kr d_krp]; auto. apply UpdateParam_param.
Qed.

Lemma sound_update_krp size delta d : sound size d -> sound size (update_krp delta d).
Proof.
  intros []. rewrite update_krp_set. split; cbn [set_krp d_dst d_room d_k d_kp d_kr d_krp]; auto. apply UpdateParam_param.
Qed.

Lemma sound_shift size d : sound size d -> 0 <= d_k d <= 10 /\ 0 <= d_kr d <= 10.
Proof. intros []. rewrite sound_k0, sound_kr0. auto using param_shift. Qed.

(** Lengths for which [buffer_size] stays an [int]: every bit takes at most a
    run of 1024 zeros off it. *)
Definition MAX_DATA : Z := 262143.

Section safety.
Context (size : Z).

(** A write, while the counter is above the limit. *)
Lemma spend_returns n d dst bs : bs_ok bs -> sound size d -> 0 <= n -> - 2 ^ 31 <= d_room d - n ->
  len dst + Z.max 0 (d_room d - n) <= size ->
  Returns (spend n d dst) bs (fun d' bs' => bs' = bs /\ sound size d' /\ d_room d' = d_room d - n).
Proof.
  intros Hok [] Hn Hr Hd. unfold spend. rewrite (proj2 (Z.ltb_ge _ _)) by exact Hr.
  apply Returns_ret; [exact Hok|]. split; [reflexivity|]. split; [split; assumption|reflexivity].
Qed.

Lemma WriteValue_returns v d bs : bs_ok bs -> sound size d -> - 2 ^ 31 < d_room d ->
  Returns (WriteValue v d) bs (fun d' bs' => bs' = bs /\ sound size d' /\ d_room d' = d_room d - 1).
Proof.
  intros Hok Hs Hr. apply spend_returns; auto; try lia. pose proof (sound_fits _ _ Hs).
  destruct (Z.ltb_spec 0 (d_room d)); [rewrite len_app; change (len [_]) with 1|]; lia.
Qed.

Lemma WriteZeroes_returns n d bs : bs_ok bs -> sound size d -> 0 <= n -> - 2 ^ 31 <= d_room d - n ->
  Returns (WriteZeroes n d) bs (fun d' bs' => bs' = bs /\ sound size d' /\ d_room d' = d_room d - n).
Proof.
  intros Hok Hs Hn Hr. apply spend_returns; auto. pose proof (sound_fits _ _ Hs).
  rewrite len_app, len_replicate. lia.
Qed.

(** What is left of a stream of acceptable length. *)
Lemma upcoming_limit bs : bs_ok bs -> bs_nbytes bs <= MAX_DATA ->
  (Z.of_nat (length (upcoming bs)) <= 8 * MAX_DATA) /\ (length (upcoming bs) < bs_fuel bs)%nat.
Proof. intros Hok Hn. pose proof (upcoming_length bs Hok). unfold bs_fuel, MAX_DATA in *. lia. Qed.

Lemma gr_returns d bs : bs_ok bs -> bs_nbytes bs <= MAX_DATA -> sound size d ->
  Returns (GetGRCode d) bs (fun x _ => 0 <= fst x /\ sound size (snd x) /\ d_room (snd x) = d_room d).
Proof.
  intros Hok Hn Hs. unfold GetGRCode. destruct (upcoming_limit bs Hok Hn) as [Hl Hf].
  pose proof (sound_shift _ _ Hs) as [_ Hkr]. pose proof (sound_krp _ _ Hs) as Hkrp. unfold param, KPMAX in Hkrp.
  eapply (Returns_bind (leading_ones (bs_fuel bs) 0)); [apply leading_ones_returns; [exact Hok|exact Hf|lia]|].
  intros vk bs1 Hok1 _ _ Hvk. eapply Returns_bind; [apply (get_bits_returns (d_kr d) bs1 Hok1)|].
  intros mag bs2 Hok2 _ _ (Hmag & _). unfold MAX_DATA in *.
  assert (Hsh : Z.shiftl vk (d_kr d) < 2 ^ 31).
  { rewrite Z.shiftl_mul_pow2 by lia. pose proof (Z.pow_le_mono_r 2 (d_kr d) 10 ltac:(lia) ltac:(lia)).
    change (2 ^ 10) with 1024 in *. nia. }
  rewrite (proj2 (Z.leb_gt (2 ^ 31) (Z.shiftl vk _))), (proj2 (Z.leb_gt (2 ^ 31) (d_krp d + vk))) by lia.
  cbn [orb]. apply Returns_ret; [exact Hok2|]. cbn [fst snd]. split.
  - apply Z.lor_nonneg. split; [lia|apply Z.mod_pos_bound; lia].
  - destruct (vk =? 0); [|destruct (vk =? 1)]; auto using sound_update_krp.
Qed.

Lemma decode_runs_returns : forall fuel d bs, bs_ok bs -> sound size d -> (length (upcoming bs) < fuel)%nat ->
  - 2 ^ 31 <= d_room d - 1024 * Z.of_nat (length (upcoming bs)) ->
  Returns (decode_runs fuel d) bs (fun d' bs' => sound size d' /\
    d_room d - 1024 * Z.of_nat (length (upcoming bs)) <= d_room d' <= d_room d).
Proof.
  induction fuel as [|fuel IH]; intros d bs Hok Hs Hf Hr; [lia|]. cbn [decode_runs]. unfold Returns.
  destruct (rfx_bitstream_eos bs) eqn:He; [exists d, bs; repeat split; auto; try lia; apply Hok || apply Hs|].
  refine (Returns_bind _ _ bs _ _ (get_bits_returns 1 bs Hok) _).
  intros r bs' Hok' Hn Hl (Hr' & Hlt & _). specialize (Hlt ltac:(lia) He).
  destruct (negb (r =? 0)); [apply Returns_ret; auto; split; [exact Hs|lia]|].
  pose proof (sound_shift _ _ Hs) as [Hk _].
  assert (Hz : 0 <= Z.shiftl 1 (d_k d) <= 1024).
  { rewrite Z.shiftl_1_l. pose proof (Z.pow_le_mono_r 2 (d_k d) 10 ltac:(lia) ltac:(lia)).
    pose proof (Z.pow_pos_nonneg 2 (d_k d) ltac:(lia) ltac:(lia)). change (2 ^ 10) with 1024 in *. lia. }
  eapply Returns_bind; [apply (WriteZeroes_returns _ d bs' Hok' Hs); lia|].
  intros d1 bs1 Hok1 _ _ (-> & Hs1 & Hr1).
  destruct (IH (update_kp UP_GR d1) bs' Hok') as (d' & bs2 & E & Hok2 & Hn2 & Hl2 & Hq & Hr2);
    [apply sound_update_kp, Hs1|lia|change (d_room (update_kp _ d1)) with (d_room d1); lia|].
  exists d', bs2. change (d_room (update_kp _ d1)) with (d_room d1) in Hr2.
  split; [exact E|]. split; [exact Hok2|]. split; [congruence|]. split; [lia|]. split; [exact Hq|lia].
Qed.

Lemma decode_rl_returns d bs : bs_ok bs -> bs_nbytes bs <= MAX_DATA -> sound size d -> 0 < d_room d ->
  Returns (decode_rl d) bs (fun d' _ => sound size d' /\ d_room d' < d_room d).
Proof.
  intros Hok Hn Hs Hr. unfold decode_rl. destruct (upcoming_limit bs Hok Hn) as [Hl Hf]. unfold MAX_DATA in Hl.
  eapply (Returns_bind (decode_runs (bs_fuel bs) d)); [apply decode_runs_returns; auto; lia|].
  intros d1 bs1 Hok1 Hn1 _ [Hs1 Hr1]. pose proof (sound_shift _ _ Hs1) as [Hk _].
  eapply Returns_bind; [apply (get_bits_returns (d_k d1) bs1 Hok1)|]. intros run bs2 Hok2 Hn2 _ (Hrun & _).
  rewrite Z.max_r in Hrun by lia. pose proof (Z.pow_le_mono_r 2 (d_k d1) 10 ltac:(lia) ltac:(lia)) as Hp.
  change (2 ^ 10) with 1024 in Hp.
  eapply Returns_bind; [apply (WriteZeroes_returns run d1 bs2 Hok2 Hs1); lia|].
  intros d2 ? _ _ _ (-> & Hs2 & Hr2).
  eapply Returns_bind; [apply (get_bits_returns 1 bs2 Hok2)|]. intros sign bs3 Hok3 Hn3 _ _.
  eapply Returns_bind; [apply (gr_returns d2 bs3 Hok3); [lia|exact Hs2]|].
  intros [mag d3] bs4 Hok4 _ _ (_ & Hs3 & Hr3). cbn [fst snd] in *.
  eapply Returns_bind; [apply (WriteValue_returns _ d3 bs4 Hok4 Hs3); lia|].
  intros d4 ? Hok5 _ _ (-> & Hs4 & Hr4). apply Returns_ret; [exact Hok4|].
  split; [apply sound_update_kp, Hs4|]. change (d_room (update_kp ?z ?x)) with (d_room x). lia.
Qed.

Lemma decode_gr_returns mode d bs : bs_ok bs -> bs_nbytes bs <= MAX_DATA -> sound size d -> 0 < d_room d ->
  Returns (decode_gr mode d) bs (fun d' _ => sound size d' /\ d_room d' < d_room d).
Proof.
  intros Hok Hn Hs Hr. unfold decode_gr. eapply Returns_bind; [apply (gr_returns d bs Hok Hn Hs)|].
  intros [mag d1] bs1 Hok1 _ _ (_ & Hs1 & Hr1). cbn [fst snd] in *. destruct mode.
  - destruct (mag =? 0); (eapply Returns_bind; [apply (WriteValue_returns _ d1 bs1 Hok1 Hs1); lia|]);
      intros d2 ? _ _ _ (-> & Hs2 & Hr2); (apply Returns_ret; [exact Hok1|]);
      (split; [apply sound_update_kp, Hs2|change (d_room (update_kp ?z ?x)) with (d_room x); lia]).
  - eapply Returns_bind; [apply (get_bits_returns (GetMinBits mag) bs1 Hok1)|]. intros v1 bs2 Hok2 _ _ _. cbv zeta.
    set (d1' := if _ && _ then _ else _).
    assert (Hd1 : sound size d1' /\ d_room d1' = d_room d1)
      by (unfold d1'; destruct (_ && _); [|destruct (_ && _)]; auto using sound_update_kp).
    destruct Hd1 as [Hs1' Hr1'].
    eapply Returns_bind; [apply (WriteValue_returns _ d1' bs2 Hok2 Hs1'); lia|].
    intros d2 ? _ _ _ (-> & Hs2 & Hr2).
    destruct (WriteValue_returns (GetIntFrom2MagSign (uint32 (mag - v1))) d2 bs2 Hok2 Hs2 ltac:(lia))
      as (d3 & bs3 & E & H1 & H2 & H3 & _ & Hs3 & Hr3).
    exists d3, bs3. repeat (split; [assumption|]). lia.
Qed.

Lemma decode_loop_returns mode : forall fuel d bs, bs_ok bs -> bs_nbytes bs <= MAX_DATA -> sound size d ->
  d_room d <= Z.of_nat fuel -> Returns (decode_loop mode fuel d) bs (fun d' _ => sound size d').
Proof.
  induction fuel as [|fuel IH]; intros d bs Hok Hn Hs Hf; cbn [decode_loop]; unfold Returns;
    (destruct (negb (rfx_bitstream_eos bs) && (0 <? d_room d)) eqn:Hg; [|exists d, bs; auto]);
    apply andb_true_iff in Hg as [_ Hg]; apply Z.ltb_lt in Hg; [lia|].
  refine (Returns_bind _ _ bs (fun d' _ => sound size d' /\ d_room d' < d_room d) _ _ _).
  - destruct (negb _); [apply decode_rl_returns|apply decode_gr_returns]; assumption.
  - intros d' bs' Hok' Hn' _ [Hs' Hr']. apply IH; auto; lia.
Qed.

End safety.

(** C17. Whatever bytes it is given, up to 262143 of them (a tile announces the
    length of a component in 16 bits), the RemoteFX entropy decoder returns
    without a signed overflow, reads only those bytes and writes at most
    [buffer_size] coefficients. *)
Theorem rlgr_decode_safe mode data data_size buffer_size :
  is_bytes data -> 0 <= data_size <= len data -> data_size <= MAX_DATA -> 0 <= buffer_size ->
  exists out, rfx_rlgr_decode mode data data_size buffer_size = Done out /\ len out <= buffer_size.
Proof.
  intros Hb Hn Hm Hs.
  destruct (decode_loop_returns buffer_size mode (Z.to_nat buffer_size)
              (mkDec 1 (Z.shiftl 1 LSGR) 1 (Z.shiftl 1 LSGR) [] buffer_size)
              (rfx_bitstream_attach data data_size)) as (d & bs & E & _ & _ & _ & Hfit);
    [apply attach_ok; assumption|exact Hm| |cbn [d_room]; lia|].
  { split; try reflexivity; try (split; discriminate). cbn [d_dst d_room]. rewrite len_nil. lia. }
  exists (d_dst d). unfold rfx_rlgr_decode. rewrite E. split; [reflexivity|]. pose proof (sound_fits _ _ Hfit). lia.
Qed.

Lemma rlgr_decode_safe_witness : exists out, rfx_rlgr_decode RLGR1 [0; 0xFF; 0x80] 3 4 = Done out /\ len out <= 4.
Proof.
  apply (rlgr_decode_safe RLGR1 [0; 0xFF; 0x80] 3 4); [repeat constructor; lia|split; discriminate|discriminate|discriminate].
Defined.

(** *** Beyond the limit

    Zero bytes are runs of zeros only; the inner loop does not look at
    [buffer_size]. [(80 - kp) / 4] runs raise the parameter to its maximum, every
    further one is 1024 long. *)
Lemma zero_runs_overflow : forall n fuel d bs rest, bs_ok bs -> upcoming bs = replicate n false ++ rest ->
  (n < fuel)%nat -> d_k d = Z.shiftr (d_kp d) LSGR -> 0 <= d_kp d <= KPMAX -> (d_kp d) mod 4 = 0 ->
  - 2 ^ 31 <= d_room d -> d_room d - 1024 * (Z.of_nat n - (KPMAX - d_kp d) / 4) < - 2 ^ 31 ->
  decode_runs fuel d bs = Fault SignedOverflow.
Proof.
  induction n as [|n IH]; intros fuel d bs rest Hok Hu Hf Hk Hkp Hm4 Hmin Hlt.
  { exfalso. unfold KPMAX in *. pose proof (Z.div_pos (80 - d_kp d) 4 ltac:(lia) ltac:(lia)). lia. }
  destruct fuel as [|fuel]; [lia|]. cbn [decode_runs].
  rewrite (not_eos bs Hok) by (rewrite Hu; discriminate).
  destruct (Gets_bit false bs (replicate n false ++ rest) Hok Hu) as (bs' & E & Hok' & Hu' & _).
  rewrite (bind_Done _ _ _ _ _ E). cbn [Z.b2z Z.eqb negb].
  pose proof (param_shift (d_kp d) Hkp) as Hk10. unfold WriteZeroes, spend. rewrite Hk, Z.shiftl_1_l.
  pose proof (Z.pow_pos_nonneg 2 (Z.shiftr (d_kp d) LSGR) ltac:(lia) ltac:(lia)) as Hpos.
  destruct (Z.ltb_spec (d_room d - 2 ^ Z.shiftr (d_kp d) LSGR) (- 2 ^ 31)); [reflexivity|].
  unfold bind at 1, ret at 1. destruct (UpdateParam_param (d_kp d) UP_GR) as [Hp Hs].
  apply (IH fuel _ bs' rest Hok' Hu' ltac:(lia)); rewrite update_kp_set; cbn [set_kp d_k d_kp d_room].
  - reflexivity.
  - exact Hp.
  - unfold UpdateParam, KPMAX, UP_GR. cbn [fst]. destruct (Z.ltb_spec 80 (d_kp d + 4)); [reflexivity|].
    rewrite (proj2 (Z.ltb_ge _ _)) by lia. dlia.
  - assumption.
  - unfold UpdateParam, KPMAX, UP_GR in *. cbn [fst]. destruct (Z.ltb_spec 80 (d_kp d + 4)).
    + assert (Heq : d_kp d = 80) by dlia. rewrite Heq in *. change (Z.shiftr 80 LSGR) with 10 in *.
      change (if 80 <? 0 then 0 else 80) with 80 in *. change ((80 - 80) / 4) with 0 in *. change (2 ^ 10) with 1024 in *. lia.
    + rewrite (proj2 (Z.ltb_ge _ _)) by lia. assert (Hq : (80 - (d_kp d + 4)) / 4 = (80 - d_kp d) / 4 - 1) by dlia. lia.
Qed.

Lemma byte_bits_zero n : byte_bits (replicate n 0) = replicate (8 * n) false.
Proof.
  induction n as [|n IH]; [reflexivity|]. replace (8 * S n)%nat with (8 + 8 * n)%nat by lia.
  rewrite replicate_add. cbn [replicate byte_bits app]. rewrite <- IH. reflexivity.
Qed.

(** 262147 zero bytes drive [buffer_size] below [INT_MIN], for any buffer of up
    to 4096 coefficients, the size [rfx_decode_component] passes. *)
Theorem rlgr_decode_overflows mode buffer_size n : 1 <= buffer_size <= 4096 -> 262147 <= Z.of_nat n ->
  rfx_rlgr_decode mode (replicate n 0) (Z.of_nat n) buffer_size = Fault SignedOverflow.
Proof.
  intros Hs Hn. unfold rfx_rlgr_decode. set (bs := rfx_bitstream_attach _ _).
  assert (Hok : bs_ok bs) by (apply attach_ok; [apply Forall_replicate; unfold is_byte; lia|rewrite len_replicate; lia]).
  assert (Hu : upcoming bs = replicate (8 * n) false ++ []).
  { unfold bs. rewrite upcoming_start, take_ge, byte_bits_zero, app_nil_r by (rewrite length_replicate; lia). reflexivity. }
  destruct (Z.to_nat buffer_size) as [|fuel] eqn:Hfuel; [lia|]. cbn [decode_loop d_room d_k].
  rewrite (not_eos bs Hok), (proj2 (Z.ltb_lt 0 buffer_size)) by (lia || (rewrite Hu; destruct n; [lia|discriminate])).
  cbn [negb andb Z.eqb]. unfold decode_rl. unfold bind at 1. unfold bind at 1.
  rewrite (zero_runs_overflow (8 * n) (bs_fuel bs) _ bs [] Hok Hu); try reflexivity; cbn [d_kp d_room]; try lia.
  - unfold bs_fuel, bs. cbn [bs_nbytes rfx_bitstream_attach]. lia.
  - change (Z.shiftl 1 LSGR) with 8. unfold KPMAX. lia.
  - change (Z.shiftl 1 LSGR) with 8. change ((KPMAX - 8) / 4) with 18. lia.
Qed.
