(* ===== verification/Rfx.v ===== *)
(** RemoteFX components, [libfreerdp-codec/rfx_differential.c], [rfx_quantization.c],
    [rfx_dwt.c] and the component coders of [rfx_encode.c] and [rfx_decode.c]: the
    transforms around the entropy coder, what is lost in each of them, and that
    the bytes in between lose nothing. *)

From S2P Require Import Prelude.
From S2P Require Import Bits.
From S2P Require Import Rlgr.

(** A function on [n] elements from [off] on. *)
Definition on_slice (off n : nat) (f : list Z -> list Z) (b : list Z) : list Z :=
  take off b ++ f (take n (drop off b)) ++ drop (off + n) b.

(** ** [rfx_differential.c] *)

Fixpoint differential_decode_from (prev : Z) (l : list Z) : list Z :=
  match l with
  | [] => []
  | x :: l' => let v := sint16 (x + prev) in v :: differential_decode_from v l'
  end.

Definition rfx_differential_decode (buffer : list Z) : list Z :=
  match buffer with [] => [] | x :: l => x :: differential_decode_from x l end.

Fixpoint differential_encode_from (n1 : Z) (l : list Z) : list Z :=
  match l with
  | [] => []
  | n2 :: l' => sint16 (n2 - n1) :: differential_encode_from n2 l'
  end.

Definition rfx_differential_encode (buffer : list Z) : list Z :=
  match buffer with [] => [] | x :: l => x :: differential_encode_from x l end.

(** ** [rfx_quantization.c] *)

Definition rfx_quantization_decode_block (factor : Z) (buffer : list Z) : list Z :=
  if factor =? 0 then buffer else map (fun x => sint16 (Z.shiftl x factor)) buffer.

Definition rfx_quantization_encode_block (factor : Z) (buffer : list Z) : list Z :=
  if factor =? 0 then buffer
  else let half := sint16 (Z.shiftl 1 (factor - 1)) in map (fun x => sint16 (Z.shiftr (x + half) factor)) buffer.

(** The sub-bands: offset, size and index of the quantization value. *)
Definition subbands : list (nat * nat * nat) :=
  [(0, 1024, 8); (1024, 1024, 7); (2048, 1024, 9);
   (3072, 256, 5); (3328, 256, 4); (3584, 256, 6);
   (3840, 64, 2); (3904, 64, 1); (3968, 64, 3); (4032, 64, 0)]%nat.

Definition quant (quantization_values : list Z) (i : nat) : Z := uint32 (default 0 (quantization_values !! i) - 6).

Definition on_subbands (f : Z -> list Z -> list Z) (quantization_values buffer : list Z) : list Z :=
  fold_left (fun b '(off, n, i) => on_slice off n (f (quant quantization_values i)) b) subbands buffer.

Definition rfx_quantization_decode (quantization_values buffer : list Z) : list Z :=
  on_subbands rfx_quantization_decode_block quantization_values (on_slice 0 4096 (rfx_quantization_decode_block 5) buffer).

Definition rfx_quantization_encode (quantization_values buffer : list Z) : list Z :=
  on_slice 0 4096 (rfx_quantization_encode_block 5) (on_subbands rfx_quantization_encode_block quantization_values buffer).

(** ** [rfx_dwt.c]: the lifting steps along one line of [2 * w] samples *)

(** Even sample [n] out of the lower and the higher band. *)
Definition dwt_even (l h : Z -> Z) (n : Z) : Z :=
  sint16 (l n - Z.shiftr (h (if n =? 0 then n else n - 1) + h n + 1) 1).

Definition dwt_line_decode (w : Z) (l h : Z -> Z) (x : Z) : Z :=
  let n := x / 2 in
  if Z.even x then dwt_even l h n
  else sint16 (Z.shiftl (h n) 1 + Z.shiftr (dwt_even l h n + dwt_even l h (if n <? w - 1 then n + 1 else n)) 1).

(** The higher and the lower band out of a line of samples. *)
Definition dwt_high (w : Z) (src : Z -> Z) (n : Z) : Z :=
  sint16 (Z.shiftr (src (2 * n + 1) - Z.shiftr (src (2 * n) + src (if n <? w - 1 then 2 * n + 2 else 2 * n)) 1) 1).

Definition dwt_low (w : Z) (src : Z -> Z) (n : Z) : Z :=
  sint16 (src (2 * n) + (if n =? 0 then dwt_high w src n
                         else Z.shiftr (dwt_high w src (n - 1) + dwt_high w src n) 1)).

Definition at_ (b : list Z) (i : Z) : Z := default 0 (b !! Z.to_nat i).

(** [4 * w * w] values out of their index. *)
Definition tabulate (w : Z) (f : Z -> Z) : list Z := map (fun i => f (Z.of_nat i)) (seq 0 (Z.to_nat (4 * w * w))).

(** The four sub-bands are stored in the order HL, LH, HH, LL; [idwt] holds the
    lines of L and then those of H. *)
Definition rfx_dwt_2d_decode_block (w : Z) (buffer : list Z) : list Z :=
  let tw := 2 * w in
  let band k y := fun n => at_ buffer (k * w * w + y * w + n) in
  let idwt := tabulate w (fun i =>
    let y := i / tw in let x := i mod tw in
    if y <? w then dwt_line_decode w (band 3 y) (band 0 y) x
    else dwt_line_decode w (band 1 (y - w)) (band 2 (y - w)) x) in
  tabulate w (fun i =>
    let y := i / tw in let x := i mod tw in
    dwt_line_decode w (fun n => at_ idwt (n * tw + x)) (fun n => at_ idwt ((n + w) * tw + x)) y).

Definition rfx_dwt_2d_decode (buffer : list Z) : list Z :=
  on_slice 0 4096 (rfx_dwt_2d_decode_block 32)
    (on_slice 3072 1024 (rfx_dwt_2d_decode_block 16)
       (on_slice 3840 256 (rfx_dwt_2d_decode_block 8) buffer)).

Definition rfx_dwt_2d_encode_block (w : Z) (buffer : list Z) : list Z :=
  let tw := 2 * w in
  let dwt := tabulate w (fun i =>
    let y := i / tw in let x := i mod tw in
    let src := fun n => at_ buffer (n * tw + x) in
    if y <? w then dwt_low w src y else dwt_high w src (y - w)) in
  let line y := fun x => at_ dwt (y * tw + x) in
  tabulate w (fun i =>
    let k := i / (w * w) in let y := (i mod (w * w)) / w in let n := i mod w in
    if k =? 0 then dwt_high w (line y) n
    else if k =? 1 then dwt_low w (line (y + w)) n
    else if k =? 2 then dwt_high w (line (y + w)) n
    else dwt_low w (line y) n).

Definition rfx_dwt_2d_encode (buffer : list Z) : list Z :=
  on_slice 3840 256 (rfx_dwt_2d_encode_block 8)
    (on_slice 3072 1024 (rfx_dwt_2d_encode_block 16)
       (on_slice 0 4096 (rfx_dwt_2d_encode_block 32) buffer)).

(** ** Components of a tile *)

(** The entropy decoder writes the front of the coefficient buffer. *)
Definition rfx_decode_component (mode : RLGR_MODE) (quantization_values data : list Z) (size : Z) (buffer : list Z)
  : outcome (list Z) :=
  match rfx_rlgr_decode mode data size 4096 with
  | Fault f => Fault f
  | Done coeffs =>
      let buffer := coeffs ++ drop (length coeffs) buffer in
      let buffer := on_slice 4032 64 rfx_differential_decode buffer in
      Done (rfx_dwt_2d_decode (rfx_quantization_decode quantization_values buffer))
  end.

(** The output buffer and the size. *)
Definition rfx_encode_component (mode : RLGR_MODE) (quantization_values data buffer : list Z) (buffer_size : Z)
  : outcome (list Z * Z) :=
  let data := rfx_dwt_2d_encode data in
  let data := rfx_quantization_encode quantization_values data in
  let data := on_slice 4032 64 rfx_differential_encode data in
  rfx_rlgr_encode mode data buffer buffer_size.

(** ** Differences *)

Definition is_sint16 (x : Z) : Prop := -32768 <= x < 32768.

Lemma sint16_range x : is_sint16 (sint16 x).
Proof. unfold is_sint16, sint16. pose proof (Z.mod_pos_bound (x + 2 ^ 15) (2 ^ 16) ltac:(lia)). lia. Qed.

Lemma sint16_id x : is_sint16 x -> sint16 x = x.
Proof. unfold is_sint16, sint16. intros H. rewrite Z.mod_small; lia. Qed.

Lemma sint16_add x y : sint16 (sint16 x + y) = sint16 (x + y).
Proof.
  unfold sint16. replace ((x + 2 ^ 15) mod 2 ^ 16 - 2 ^ 15 + y + 2 ^ 15) with ((x + 2 ^ 15) mod 2 ^ 16 + y) by lia.
  rewrite Z.add_mod_idemp_l by lia. do 2 f_equal. lia.
Qed.

Lemma differential_from_inv l : forall prev, Forall is_sint16 l ->
  differential_decode_from prev (differential_encode_from prev l) = l.
Proof.
  induction l as [|x l IH]; intros prev Hl; [reflexivity|]. apply Forall_cons in Hl as [Hx Hl]. cbn.
  rewrite sint16_add. replace (x - prev + prev) with x by lia. rewrite (sint16_id x Hx), IH by exact Hl. reflexivity.
Qed.

Lemma differential_inv l : Forall is_sint16 l -> rfx_differential_decode (rfx_differential_encode l) = l.
Proof.
  destruct l as [|x l]; intros Hl; [reflexivity|]. apply Forall_cons in Hl as [_ Hl]. cbn. f_equal. apply differential_from_inv, Hl.
Qed.

(** The last difference is added to the last value only. *)
Lemma differential_last i a b : exists l p, rfx_differential_decode (i ++ [a]) = l ++ [sint16 (a + p)] /\
  rfx_differential_decode (i ++ [b]) = l ++ [sint16 (b + p)] \/
  i = [].
Proof.
  destruct i as [|x i]; [exists [], 0; right; reflexivity|]. cbn.
  enough (H : exists l p, forall c, differential_decode_from x (i ++ [c]) = l ++ [sint16 (c + p)]).
  { destruct H as (l & p & H). exists (x :: l), p. left. rewrite !H. auto. }
  revert x. induction i as [|y i IH]; intros x; [exists [], x; reflexivity|]. cbn.
  destruct (IH (sint16 (y + x))) as (l & p & H). exists (sint16 (y + x) :: l), p. intros c. rewrite H. reflexivity.
Qed.

Lemma length_differential_encode l : length (rfx_differential_encode l) = length l.
Proof.
  destruct l as [|x l]; [reflexivity|]. cbn. f_equal. revert x. induction l as [|y l IH]; intros x; cbn; [reflexivity|]. f_equal. apply IH.
Qed.

Lemma on_slice_split off n f b : (off <= length b)%nat -> on_slice off n f b = take off b ++ f (take n (drop off b)) ++ drop (off + n) b.
Proof. reflexivity. Qed.

Lemma last_slice f a t : length t = 64%nat -> length a = 4032%nat -> on_slice 4032 64 f (a ++ t) = a ++ f t.
Proof.
  intros Ht Ha. unfold on_slice. rewrite take_app_length', drop_app_length' by lia.
  rewrite take_ge, (drop_ge (a ++ t)) by (rewrite ?length_app; lia). rewrite app_nil_r. reflexivity.
Qed.

(** What the lossless layers make of quantized coefficients: the very last one
    may be one too large. *)
Definition off_by_last (c c' : list Z) : Prop :=
  c' = c \/ exists init x, c = init ++ [x] /\ c' = init ++ [sint16 (x + 1)].

Lemma differential_recoded c d : length c = 4096%nat -> Forall is_sint16 c ->
  recoded (on_slice 4032 64 rfx_differential_encode c) d -> off_by_last c (on_slice 4032 64 rfx_differential_decode d).
Proof.
  intros Hl Hc. destruct (split_at c 4032) as (a & t & -> & Ha); [unfold len; lia|]. unfold len in Ha.
  rewrite length_app in Hl. apply Forall_app in Hc as [_ Ht]. rewrite last_slice by lia.
  pose proof (length_differential_encode t) as Hlt. pose proof (differential_inv t Ht) as Hinv.
  set (u := rfx_differential_encode t) in *. intros [->|(init & E & ->)].
  - rewrite last_slice by lia. left. f_equal. exact Hinv.
  - right. assert (Hu : u <> []) by (intros H; rewrite H in Hlt; cbn in Hlt; lia).
    destruct (exists_last Hu) as (i & z & Ei). rewrite Ei in E. rewrite app_assoc in E. apply app_inj_2 in E as [E Ez]; [|reflexivity].
    injection Ez as ->. subst init. rewrite <- app_assoc. rewrite last_slice by (rewrite ?length_app; cbn; rewrite Ei, length_app in Hlt; cbn in Hlt; lia).
    rewrite Ei in Hinv. destruct (differential_last i 0 1) as (l & p & [[H0 H1]|H0]).
    + rewrite H1. rewrite H0, Z.add_0_l in Hinv. exists (a ++ l), (sint16 p). rewrite <- Hinv, <- !app_assoc.
      split; [reflexivity|]. rewrite sint16_add, (Z.add_comm p). reflexivity.
    + exfalso. subst i. rewrite Ei in Hlt. cbn in Hlt. lia.
Qed.

(** ** Coefficient buffers *)

(** A buffer of a tile's 4096 coefficients. *)
Definition tile (b : list Z) : Prop := length b = 4096%nat /\ Forall is_sint16 b.

(** A transform of [n] coefficients. *)
Definition keeps (n : nat) (f : list Z -> list Z) : Prop :=
  forall l, length l = n -> Forall is_sint16 l -> length (f l) = n /\ Forall is_sint16 (f l).

Lemma tile_slice off n f b : (off + n <= 4096)%nat -> keeps n f -> tile b -> tile (on_slice off n f b).
Proof.
  intros Hn Hf [Hl Hb]. unfold on_slice.
  destruct (Hf (take n (drop off b))) as [Hfl Hfs]; [rewrite length_take, length_drop; lia|apply Forall_take, Forall_drop, Hb|].
  split; [rewrite !length_app, Hfl, length_take, length_drop; lia|].
  apply Forall_app. split; [apply Forall_take, Hb|]. apply Forall_app. split; [exact Hfs|apply Forall_drop, Hb].
Qed.

Lemma keeps_sint16_map n (g : Z -> Z) : keeps n (map (fun x => sint16 (g x))).
Proof.
  intros l Hl _. split; [rewrite length_map; exact Hl|]. apply Forall_map, Forall_forall. intros x _. apply sint16_range.
Qed.

Lemma keeps_quantization_decode n factor : keeps n (rfx_quantization_decode_block factor).
Proof. unfold rfx_quantization_decode_block. destruct (factor =? 0); [intros l Hl Hs; auto|apply keeps_sint16_map]. Qed.

Lemma keeps_quantization_encode n factor : keeps n (rfx_quantization_encode_block factor).
Proof. unfold rfx_quantization_encode_block. destruct (factor =? 0); [intros l Hl Hs; auto|apply keeps_sint16_map]. Qed.

Lemma tile_subbands f qv b : (forall n factor, keeps n (f factor)) -> tile b -> tile (on_subbands f qv b).
Proof.
  intros Hf Hb. unfold on_subbands, subbands. cbn [fold_left]. repeat (apply tile_slice; [lia|apply Hf|]). exact Hb.
Qed.

Lemma keeps_tabulate w f n : Z.of_nat n = 4 * w * w -> (forall i, is_sint16 (f i)) ->
  length (tabulate w f) = n /\ Forall is_sint16 (tabulate w f).
Proof.
  intros Hn Hf. unfold tabulate. rewrite length_map, length_seq. split; [lia|]. apply Forall_map, Forall_forall. intros i _. apply Hf.
Qed.

Lemma dwt_encode_sint16 w src n : is_sint16 (dwt_high w src n) /\ is_sint16 (dwt_low w src n).
Proof. split; apply sint16_range. Qed.

Lemma keeps_dwt_encode w n : Z.of_nat n = 4 * w * w -> keeps n (rfx_dwt_2d_encode_block w).
Proof.
  intros Hn l _ _. unfold rfx_dwt_2d_encode_block. apply keeps_tabulate; [exact Hn|]. intros i.
  repeat match goal with |- is_sint16 (if ?b then _ else _) => destruct b end; apply dwt_encode_sint16.
Qed.

Lemma tile_dwt_encode b : tile b -> tile (rfx_dwt_2d_encode b).
Proof.
  intros Hb. unfold rfx_dwt_2d_encode. repeat (apply tile_slice; [lia|apply keeps_dwt_encode; reflexivity|]). exact Hb.
Qed.

Lemma tile_quantization_encode qv b : tile b -> tile (rfx_quantization_encode qv b).
Proof.
  intros Hb. unfold rfx_quantization_encode. apply tile_slice; [lia|apply keeps_quantization_encode|].
  apply tile_subbands; [intros; apply keeps_quantization_encode|exact Hb].
Qed.

(** The last step of the quantization leaves coefficients of eleven bits. *)
Lemma quantized_small qv b : tile b -> Forall (fun x => -1024 <= x <= 1024) (rfx_quantization_encode qv b).
Proof.
  intros Hb. unfold rfx_quantization_encode, on_slice.
  destruct (tile_subbands rfx_quantization_encode_block qv b (fun n f => keeps_quantization_encode n f) Hb) as [Hl Hs].
  rewrite (drop_ge _ (0 + 4096)) by lia. rewrite take_0, drop_0, take_ge, app_nil_r by lia. cbn [app].
  unfold rfx_quantization_encode_block. change (5 =? 0) with false. cbv iota zeta. change (sint16 (Z.shiftl 1 (5 - 1))) with 16.
  apply Forall_map. eapply Forall_impl; [exact Hs|]. intros x Hx. unfold is_sint16 in Hx. rewrite Z.shiftr_div_pow2 by lia.
  change (2 ^ 5) with 32. rewrite sint16_id by (unfold is_sint16; dlia). dlia.
Qed.

Lemma differential_small mode l : Forall (fun x => -1024 <= x <= 1024) l -> Forall (coeff mode) (rfx_differential_encode l).
Proof.
  assert (Hc : forall x, -2048 <= x <= 2048 -> coeff mode x) by (intros x Hx; destruct mode; cbn; lia).
  destruct l as [|x l]; intros Hl; [constructor|]. apply Forall_cons in Hl as [Hx Hl]. cbn. constructor; [apply Hc; lia|].
  revert x Hx. induction Hl as [|y l Hy _ IH]; intros x Hx; [constructor|]. cbn. constructor; [|apply IH, Hy].
  apply Hc. rewrite sint16_id by (unfold is_sint16; lia). lia.
Qed.

Lemma coded_coefficients mode c : tile c -> Forall (fun x => -1024 <= x <= 1024) c ->
  Forall (coeff mode) (on_slice 4032 64 rfx_differential_encode c).
Proof.
  intros [Hl _] Hs. unfold on_slice. rewrite (drop_ge c (4032 + 64)), app_nil_r by lia. apply Forall_app. split.
  - apply Forall_take. eapply Forall_impl; [exact Hs|]. intros x Hx. cbv beta in Hx. destruct mode; cbn; lia.
  - apply differential_small, Forall_take, Forall_drop, Hs.
Qed.

(** C15. A component of a tile, encoded and decoded: the encoder returns, and when
    its output is shorter than the buffer, what the decoder transforms back are
    the coefficients the encoder quantized, but for the very last one, which may
    be one too large. All loss is in the transform and the quantization. *)
Theorem rfx_component_transparent mode qv data buffer buffer_size old :
  tile data -> is_bytes buffer -> 0 <= buffer_size <= len buffer -> length old = 4096%nat ->
  let c := rfx_quantization_encode qv (rfx_dwt_2d_encode data) in
  exists buffer' n, rfx_encode_component mode qv data buffer buffer_size = Done (buffer', n) /\
    (n < buffer_size -> exists c', off_by_last c c' /\
       rfx_decode_component mode qv buffer' n old = Done (rfx_dwt_2d_decode (rfx_quantization_decode qv c'))).
Proof.
  intros Hd Hb Hs Hold c. pose proof (tile_dwt_encode _ Hd) as Ht. pose proof (tile_quantization_encode qv _ Ht) as Hc.
  pose proof (coded_coefficients mode _ Hc (quantized_small qv _ Ht)) as Hco. fold c in Hc, Hco. destruct Hc as [Hcl Hcs].
  destruct (rlgr_recodes mode (on_slice 4032 64 rfx_differential_encode c) buffer buffer_size Hco Hb Hs)
    as (buffer' & n & E & _ & Hdec).
  exists buffer', n. split; [exact E|]. intros Hn. destruct (Hdec Hn) as (out & Eo & Hrec).
  exists (on_slice 4032 64 rfx_differential_decode out). split; [exact (differential_recoded c out Hcl Hcs Hrec)|].
  assert (Hol : length out = 4096%nat).
  { assert (Hsl : length (on_slice 4032 64 rfx_differential_encode c) = 4096%nat).
    { unfold on_slice. rewrite !length_app, length_differential_encode, !length_take, !length_drop. lia. }
    rewrite <- Hsl. destruct Hrec as [->|(init & -> & ->)]; rewrite ?length_app; reflexivity. }
  assert (Hlen : len (on_slice 4032 64 rfx_differential_encode c) = 4096).
  { unfold len, on_slice. rewrite !length_app, length_differential_encode, !length_take, !length_drop. lia. }
  unfold rfx_decode_component. rewrite Hlen in Eo. rewrite Eo, drop_ge, app_nil_r by lia. reflexivity.
Qed.

Lemma rfx_component_transparent_witness :
  let data := replicate 4096 0 in
  let c := rfx_quantization_encode [6; 6; 6; 6; 7; 7; 8; 8; 8; 9] (rfx_dwt_2d_encode data) in
  exists buffer' n, rfx_encode_component RLGR3 [6; 6; 6; 6; 7; 7; 8; 8; 8; 9] data data 4096 = Done (buffer', n) /\
    (n < 4096 -> exists c', off_by_last c c' /\
       rfx_decode_component RLGR3 [6; 6; 6; 6; 7; 7; 8; 8; 8; 9] buffer' n data
       = Done (rfx_dwt_2d_decode (rfx_quantization_decode [6; 6; 6; 6; 7; 7; 8; 8; 8; 9] c'))).
Proof.
  intros data. refine (rfx_component_transparent RLGR3 [6; 6; 6; 6; 7; 7; 8; 8; 8; 9] data data 4096 data _ _ _ _).
  - split; [apply length_replicate|apply Forall_replicate; split; discriminate || reflexivity].
  - apply Forall_replicate. split; discriminate || reflexivity.
  - unfold data. rewrite len_replicate. lia.
  - apply length_replicate.
Defined.

(** ** What the transforms lose *)

(** Quantizing and scaling back a block moves a coefficient by at most half a
    step, and nothing overflows. *)
Theorem quantization_error factor l : 1 <= factor <= 13 -> Forall (fun x => -16384 <= x < 16384) l ->
  Forall2 (fun x x' => Z.abs (x' - x) <= 2 ^ (factor - 1)) l
    (rfx_quantization_decode_block factor (rfx_quantization_encode_block factor l)).
Proof.
  intros Hf Hl. unfold rfx_quantization_decode_block, rfx_quantization_encode_block.
  destruct (Z.eqb_spec factor 0); [lia|]. rewrite map_map. induction Hl as [|x l Hx Hl IH]; cbn [map]; constructor; [|exact IH].
  pose proof (Z.pow_le_mono_r 2 (factor - 1) 12 ltac:(lia) ltac:(lia)). pose proof (Z.pow_pos_nonneg 2 (factor - 1) ltac:(lia) ltac:(lia)).
  assert (E : 2 ^ factor = 2 * 2 ^ (factor - 1)) by (rewrite <- Z.pow_succ_r by lia; f_equal; lia).
  rewrite Z.shiftl_1_l. change (2 ^ 12) with 4096 in *. rewrite (sint16_id (2 ^ (factor - 1))) by (unfold is_sint16; lia).
  rewrite Z.shiftr_div_pow2, Z.shiftl_mul_pow2, E by lia. set (h := 2 ^ (factor - 1)) in *.
  set (q := (x + h) / (2 * h)). assert (Hq : q * (2 * h) <= x + h < q * (2 * h) + 2 * h) by (unfold q; dlia || nia).
  assert (-16384 <= q <= 16384) by nia. rewrite (sint16_id q) by (unfold is_sint16; lia).
  rewrite sint16_id by (unfold is_sint16; lia). lia.
Qed.

Lemma shiftr_1 x : Z.shiftr x 1 = x / 2.
Proof. rewrite Z.shiftr_div_pow2 by lia. reflexivity. Qed.

Section line.
Context (w : Z) (src : Z -> Z) (Hw : 1 <= w) (Hsrc : forall i, 0 <= i < 2 * w -> -8192 <= src i < 8192).

Lemma dwt_high_value n : 0 <= n < w ->
  let e := src (2 * n) in let e' := src (if n <? w - 1 then 2 * n + 2 else 2 * n) in
  dwt_high w src n = (src (2 * n + 1) - (e + e') / 2) / 2 /\ -8192 <= dwt_high w src n <= 8192.
Proof.
  intros Hn e e'. assert (Hd : dwt_high w src n = (src (2 * n + 1) - (e + e') / 2) / 2).
  { unfold dwt_high. fold e. fold e'. rewrite !shiftr_1. apply sint16_id. unfold is_sint16.
    pose proof (Hsrc (2 * n) ltac:(lia)). pose proof (Hsrc (2 * n + 1) ltac:(lia)).
    assert (-8192 <= e' < 8192) by (unfold e'; apply Hsrc; destruct (Z.ltb_spec n (w - 1)); lia). unfold e in *. dlia. }
  split; [exact Hd|]. rewrite Hd.
  pose proof (Hsrc (2 * n) ltac:(lia)). pose proof (Hsrc (2 * n + 1) ltac:(lia)).
  assert (-8192 <= e' < 8192) by (unfold e'; apply Hsrc; destruct (Z.ltb_spec n (w - 1)); lia). unfold e in *. dlia.
Qed.

(** An even sample comes back, or one less. *)
Lemma dwt_even_error n : 0 <= n < w ->
  src (2 * n) - 1 <= dwt_even (dwt_low w src) (dwt_high w src) n <= src (2 * n).
Proof.
  intros Hn. pose proof (Hsrc (2 * n) ltac:(lia)). destruct (dwt_high_value n Hn) as [_ H1]. unfold dwt_even, dwt_low.
  destruct (Z.eqb_spec n 0) as [->|Hn0].
  - rewrite shiftr_1. set (h := dwt_high w src 0) in *. rewrite (sint16_id (_ + h)) by (unfold is_sint16; lia).
    rewrite sint16_id by (unfold is_sint16; dlia). dlia.
  - destruct (dwt_high_value (n - 1) ltac:(lia)) as [_ H2]. set (h := dwt_high w src n) in *. set (g := dwt_high w src (n - 1)) in *.
    rewrite !shiftr_1. rewrite (sint16_id (src (2 * n) + _)) by (unfold is_sint16; dlia). rewrite sint16_id by (unfold is_sint16; dlia). dlia.
Qed.

(** C19. One line through the wavelet transform and back, away from overflow:
    every sample comes back, or one or two less. *)
Theorem dwt_line_error x : 0 <= x < 2 * w ->
  src x - 2 <= dwt_line_decode w (dwt_low w src) (dwt_high w src) x <= src x.
Proof.
  intros Hx. unfold dwt_line_decode. pose proof (Zeven_mod x) as He.
  assert (Hn : 0 <= x / 2 < w) by dlia. set (n := x / 2) in *.
  destruct (Z.even x) eqn:Ev.
  - apply Z.even_spec in Ev as [m ->]. assert (n = m) by (unfold n; dlia). pose proof (dwt_even_error n Hn).
    replace (2 * m) with (2 * n) by lia. lia.
  - rewrite <- Z.negb_odd in Ev. apply negb_false_iff, Z.odd_spec in Ev as [m Hm].
    assert (n = m) by (unfold n; rewrite Hm; dlia). subst m. rewrite Hm.
    destruct (dwt_high_value n Hn) as [Hh Hb]. pose proof (dwt_even_error n Hn) as E1.
    assert (E2 : forall k, k = (if n <? w - 1 then n + 1 else n) ->
      src (if n <? w - 1 then 2 * n + 2 else 2 * n) - 1 <= dwt_even (dwt_low w src) (dwt_high w src) k <=
      src (if n <? w - 1 then 2 * n + 2 else 2 * n)).
    { intros k ->. destruct (Z.ltb_spec n (w - 1)); [|exact E1]. replace (2 * n + 2) with (2 * (n + 1)) by lia.
      apply dwt_even_error. lia. }
    specialize (E2 _ eq_refl). pose proof (Hsrc (2 * n) ltac:(lia)). pose proof (Hsrc (2 * n + 1) ltac:(lia)).
    assert (-8192 <= src (if n <? w - 1 then 2 * n + 2 else 2 * n) < 8192) by (apply Hsrc; destruct (Z.ltb_spec n (w - 1)); lia).
    rewrite Z.shiftl_mul_pow2, shiftr_1 by lia. change (2 ^ 1) with 2. rewrite Hh in *.
    set (e := src (2 * n)) in *. set (e' := src (if n <? w - 1 then 2 * n + 2 else 2 * n)) in *. set (o := src (2 * n + 1)) in *.
    rewrite sint16_id by (unfold is_sint16; dlia). dlia.
Qed.
End line.

Lemma dwt_line_error_witness :
  let src := fun i => 100 * i - 50 in
  src 3 - 2 <= dwt_line_decode 4 (dwt_low 4 src) (dwt_high 4 src) 3 <= src 3.
Proof. intros src. apply (dwt_line_error 4 src); [lia|unfold src; intros; lia|lia]. Defined.

Lemma quantization_error_witness :
  Forall2 (fun x x' => Z.abs (x' - x) <= 2 ^ (3 - 1)) [100; -77; 5]
    (rfx_quantization_decode_block 3 (rfx_quantization_encode_block 3 [100; -77; 5])).
Proof. apply (quantization_error 3 [100; -77; 5]); [lia|]. repeat (apply Forall_cons_2; [lia|]). apply Forall_nil_2. Defined.

(** ** Colours: the three buffers, pixel by pixel *)

Definition MINMAX (v l h : Z) : Z := if v <? l then l else if h <? v then h else v.

Definition rfx_encode_rgb_to_ycbcr (p : Z * Z * Z) : Z * Z * Z :=
  let '(r, g, b) := p in
  let y := Z.shiftr (sint32 (r * 9798 + g * 19235 + b * 3735)) 10 in
  let cb := Z.shiftr (sint32 (r * -5535 + g * -10868 + b * 16403)) 10 in
  let cr := Z.shiftr (sint32 (r * 16377 + g * -13714 + b * -2663)) 10 in
  (sint16 (MINMAX (y - 4096) (-4096) 4095), sint16 (MINMAX cb (-4096) 4095), sint16 (MINMAX cr (-4096) 4095)).

Definition rfx_decode_ycbcr_to_rgb (p : Z * Z * Z) : Z * Z * Z :=
  let '(y, cb, cr) := p in
  let y := sint32 (Z.shiftl (y + 4096) 16) in
  let r := sint32 (y + cr * 91947) in
  let g := sint32 (y - cb * 22544 - cr * 46792) in
  let b := sint32 (y + cb * 115998) in
  (sint16 (MINMAX (Z.shiftr r 21) 0 255), sint16 (MINMAX (Z.shiftr g 21) 0 255), sint16 (MINMAX (Z.shiftr b 21) 0 255)).

Lemma sint32_id x : - 2 ^ 31 <= x < 2 ^ 31 -> sint32 x = x.
Proof. unfold sint32. intros H. rewrite Z.mod_small; lia. Qed.

Lemma MINMAX_id v l h : l <= v <= h -> MINMAX v l h = v.
Proof. unfold MINMAX. intros H. destruct (Z.ltb_spec v l); [lia|]. destruct (Z.ltb_spec h v); lia. Qed.

Lemma MINMAX_near v x : x - 1 <= v <= x -> 0 <= x <= 255 -> x - 1 <= MINMAX v 0 255 <= x.
Proof. unfold MINMAX. intros H Hx. destruct (Z.ltb_spec v 0); [lia|]. destruct (Z.ltb_spec 255 v); lia. Qed.

Lemma MINMAX_byte v : is_sint16 (MINMAX v 0 255).
Proof. unfold MINMAX, is_sint16. destruct (Z.ltb_spec v 0); [lia|]. destruct (Z.ltb_spec 255 v); lia. Qed.

(** C18. A colour converted to YCbCr and back keeps each of its channels, or
    loses one, and no intermediate value overflows its width. *)
Theorem ycbcr_roundtrip r g b : is_byte r -> is_byte g -> is_byte b ->
  let '(r', g', b') := rfx_decode_ycbcr_to_rgb (rfx_encode_rgb_to_ycbcr (r, g, b)) in
  r - 1 <= r' <= r /\ g - 1 <= g' <= g /\ b - 1 <= b' <= b.
Proof.
  intros Hr Hg Hb. unfold is_byte in *. cbn [rfx_encode_rgb_to_ycbcr rfx_decode_ycbcr_to_rgb].
  rewrite (sint32_id (r * 9798 + g * 19235 + b * 3735)), (sint32_id (r * -5535 + g * -10868 + b * 16403)),
    (sint32_id (r * 16377 + g * -13714 + b * -2663)) by lia.
  rewrite !(Z.shiftr_div_pow2 _ 10) by lia. change (2 ^ 10) with 1024.
  set (y := (r * 9798 + g * 19235 + b * 3735) / 1024). set (cb := (r * -5535 + g * -10868 + b * 16403) / 1024).
  set (cr := (r * 16377 + g * -13714 + b * -2663) / 1024).
  assert (Hy : 1024 * y <= r * 9798 + g * 19235 + b * 3735 < 1024 * y + 1024) by (unfold y; dlia).
  assert (Hcb : 1024 * cb <= r * -5535 + g * -10868 + b * 16403 < 1024 * cb + 1024) by (unfold cb; dlia).
  assert (Hcr : 1024 * cr <= r * 16377 + g * -13714 + b * -2663 < 1024 * cr + 1024) by (unfold cr; dlia).
  clearbody y cb cr. rewrite (MINMAX_id (y - 4096)), (MINMAX_id cb), (MINMAX_id cr) by lia.
  rewrite (sint16_id (y - 4096)), (sint16_id cb), (sint16_id cr) by (unfold is_sint16; lia).
  rewrite !(sint16_id (MINMAX _ _ _)) by apply MINMAX_byte.
  rewrite Z.shiftl_mul_pow2 by lia. replace (y - 4096 + 4096) with y by lia. change (2 ^ 16) with 65536.
  rewrite (sint32_id (y * 65536)), !sint32_id by lia. rewrite !Z.shiftr_div_pow2 by lia. change (2 ^ 21) with 2097152.
  split; [|split]; (apply MINMAX_near; [split; [apply Z.div_le_lower_bound; lia|apply Z.lt_succ_r, Z.div_lt_upper_bound; lia]|lia]).
Qed.

Lemma ycbcr_roundtrip_witness :
  let '(r', g', b') := rfx_decode_ycbcr_to_rgb (rfx_encode_rgb_to_ycbcr (200, 17, 99)) in
  200 - 1 <= r' <= 200 /\ 17 - 1 <= g' <= 17 /\ 99 - 1 <= b' <= 99.
Proof. apply (ycbcr_roundtrip 200 17 99); unfold is_byte; lia. Defined.
