(* ===== verification/Mppc.v ===== *)
(** Bulk decompression, [libfreerdp-core/mppc.c]: the bit reader, the decoders of
    the 8K and the 64K variant of MPPC over the history buffer, and their
    agreement with the sliding-window description of the format: whatever a
    peer encodes as literals and copies out of the last 65536 bytes is what
    the decoder appends to the history.

    Pointers into the history buffer are offsets. A shift of 0 by 32 or more
    places, which occurs when the input is used up, yields 0. *)

From S2P Require Import Prelude.
From S2P Require Import Bits.

(** ** Constants of [rdp.h] and [mppc.h] *)

Definition PACKET_COMPRESSED : Z := 0x20.
Definition PACKET_AT_FRONT : Z := 0x40.
Definition PACKET_FLUSHED : Z := 0x80.
Definition PACKET_COMPR_TYPE_8K : Z := 0x00.
Definition PACKET_COMPR_TYPE_64K : Z := 0x01.
Definition PACKET_COMPR_TYPE_RDP6 : Z := 0x02.
Definition PACKET_COMPR_TYPE_RDP61 : Z := 0x03.
Definition RDP6_HISTORY_BUF_SIZE : Z := 65536.
Definition RDP6_OFFSET_CACHE_SIZE : Z := 4.

Record rdp_mppc : Type := mkMppc {
  history_buf : list Z;
  offset_cache : list Z;
  history_buf_end : Z;
  history_ptr : Z;
}.

(** [mppc_new]; [junk] is what the allocated memory holds. *)
Definition mppc_new (junk : list Z) : rdp_mppc :=
  mkMppc junk [0; 0] (RDP6_HISTORY_BUF_SIZE - 1) 0.

(** ** The bit reader

    [d32] holds the next [bits_left] bits at its upper end, [cur_byte] the next
    [cur_bits_left] bits after them, and [cptr] the bytes behind. *)
Record reader : Type := mkReader {
  d32 : Z;
  bits_left : Z;
  cur_byte : Z;
  cur_bits_left : Z;
  cptr : list Z;
}.

Fixpoint load_word (c : list Z) (d32 bits_left tmp : Z) : Z * Z * list Z :=
  match c with
  | [] => (d32, bits_left, [])
  | i32 :: c' =>
      let d32 := Z.lor d32 (Z.shiftl i32 tmp) in
      let bits_left := bits_left + 8 in
      let tmp := tmp - 8 in
      if tmp <? 0 then (d32, bits_left, c') else load_word c' d32 bits_left tmp
  end.

Definition load_initial (cbuf : list Z) : reader :=
  let '(d32, bits_left, c) := load_word cbuf 0 0 24 in
  match c with
  | b :: c' => mkReader d32 bits_left b 8 c'
  | [] => mkReader d32 bits_left 0 0 []
  end.

(** The loop that fills [d32] up. *)
Fixpoint refill_loop (c : list Z) (tmp d32 bits_left cur_byte cur_bits_left : Z) : reader :=
  if tmp =? 0 then mkReader d32 bits_left cur_byte cur_bits_left c
  else if cur_bits_left <? tmp then
    let i32 := Z.shiftr cur_byte (8 - cur_bits_left) in
    let d32 := Z.lor d32 (uint32 (Z.shiftl i32 ((32 - bits_left) - cur_bits_left))) in
    let bits_left := bits_left + cur_bits_left in
    match c with
    | b :: c' => refill_loop c' (tmp - cur_bits_left) d32 bits_left b 8
    | [] => mkReader d32 bits_left cur_byte 0 []
    end
  else if tmp <? cur_bits_left then
    mkReader (Z.lor d32 (Z.shiftr cur_byte (8 - tmp))) 32 (uint8 (Z.shiftl cur_byte tmp))
      (cur_bits_left - tmp) c
  else
    let d32 := Z.lor d32 (Z.shiftr cur_byte (8 - tmp)) in
    match c with
    | b :: c' => mkReader d32 32 b 8 c'
    | [] => mkReader d32 32 cur_byte 0 []
    end.

Definition refill (r : reader) : reader :=
  refill_loop (cptr r) (32 - bits_left r) (d32 r) (bits_left r) (cur_byte r) (cur_bits_left r).

(** [d32 <<= n; bits_left -= n] *)
Definition consume (n : Z) (r : reader) : reader :=
  mkReader (uint32 (Z.shiftl (d32 r) n)) (bits_left r - n) (cur_byte r) (cur_bits_left r) (cptr r).

(** [(d32 & mask) == bits] *)
Definition has (mask bits : Z) (r : reader) : bool := Z.land (d32 r) mask =? bits.

(** ** The history *)

Record history : Type := mkHist { h_buf : list Z; h_ptr : Z }.

(** [*history_ptr++ = v] *)
Definition emit (v : Z) : M history unit := fun h =>
  if bool_decide (0 <= h_ptr h < len (h_buf h))
  then Done (tt, mkHist (<[Z.to_nat (h_ptr h) := uint8 v]> (h_buf h)) (h_ptr h + 1))
  else Fault OutOfBounds.

(** [*src_ptr] *)
Definition fetch (i : Z) : M history Z := fun h =>
  if bool_decide (0 <= i < len (h_buf h))
  then Done (default 0 (h_buf h !! Z.to_nat i), h)
  else Fault OutOfBounds.

Fixpoint copy_run (lom : nat) (src : Z) : M history unit :=
  match lom with
  | O => ret tt
  | S lom' => let! b := fetch src in emit b;; copy_run lom' (src + 1)
  end.

(** The copy up to the end of the buffer; returns what is left of the match. *)
Fixpoint copy_to_end (lom : nat) (src buf_end : Z) : M history nat :=
  match lom with
  | O => ret O
  | S lom' =>
      if src <=? buf_end then let! b := fetch src in emit b;; copy_to_end lom' (src + 1) buf_end
      else ret lom
  end.

Definition copy_match (buf_end copy_offset lom : Z) : M history unit := fun h =>
  let src := h_ptr h - copy_offset in
  (if 0 <=? src then copy_run (Z.to_nat lom) src
   else
     let src := buf_end - (copy_offset - h_ptr h) + 1 in
     let! lom := copy_to_end (Z.to_nat lom) src buf_end in
     copy_run lom 0) h.

(** ** Literals and copy offsets: the offset is 0 after a literal *)

Definition literal (r : reader) : M history (Z * reader) :=
  emit (Z.shiftr (d32 r) 24);; ret (0, consume 8 r).

Definition encoded_literal (r : reader) : M history (Z * reader) :=
  let r := consume 2 r in
  emit (Z.lor (Z.shiftr (d32 r) 25) 0x80);; ret (0, consume 7 r).

(** A prefix of [p] bits, and an offset of [n] bits above [base]. *)
Definition copy_offset (p n base : Z) (r : reader) : M history (Z * reader) :=
  let r := consume p r in
  ret (uint16 (Z.shiftr (d32 r) (32 - n) + base), consume n r).

Definition token_4 (r : reader) : M history (Z * reader) :=
  if has 0x80000000 0 r then literal r
  else if has 0xc0000000 0x80000000 r then encoded_literal r
  else if has 0xf0000000 0xf0000000 r then copy_offset 4 6 0 r
  else if has 0xf0000000 0xe0000000 r then copy_offset 4 8 64 r
  else if has 0xe0000000 0xc0000000 r then copy_offset 3 13 320 r
  else ret (0, r).

Definition token_5 (r : reader) : M history (Z * reader) :=
  if has 0x80000000 0 r then literal r
  else if has 0xc0000000 0x80000000 r then encoded_literal r
  else if has 0xf8000000 0xf8000000 r then copy_offset 5 6 0 r
  else if has 0xf8000000 0xf0000000 r then copy_offset 5 8 64 r
  else if has 0xf0000000 0xe0000000 r then copy_offset 4 11 320 r
  else if has 0xe0000000 0xc0000000 r then copy_offset 3 16 2368 r
  else ret (0, r).

(** ** The length of a match: [old] is the length of the previous one *)

Definition match_length (shift mask base n : Z) (r : reader) : Z * reader :=
  (uint16 (Z.land (Z.shiftr (d32 r) shift) mask + base), consume n r).

Definition lom_4 (old : Z) (r : reader) : Z * reader :=
  if has 0x80000000 0 r then (3, consume 1 r)
  else if has 0xc0000000 0x80000000 r then match_length 28 0x03 4 4 r
  else if has 0xe0000000 0xc0000000 r then match_length 26 0x07 8 6 r
  else if has 0xf0000000 0xe0000000 r then match_length 24 0x0f 16 8 r
  else if has 0xf8000000 0xf0000000 r then match_length 22 0x1f 32 10 r
  else if has 0xfc000000 0xf8000000 r then match_length 20 0x3f 64 12 r
  else if has 0xfe000000 0xfc000000 r then match_length 18 0x7f 128 14 r
  else if has 0xff000000 0xfe000000 r then match_length 16 0xff 256 16 r
  else if has 0xff800000 0xff000000 r then match_length 14 0x1ff 512 18 r
  else if has 0xffc00000 0xff800000 r then match_length 12 0x3ff 1024 20 r
  else if has 0xffe00000 0xffc00000 r then match_length 10 0x7ff 2048 22 r
  else if has 0xfff00000 0xffe00000 r then match_length 8 0xfff 4096 24 r
  else (old, r).

Definition lom_5 (old : Z) (r : reader) : Z * reader :=
  if has 0x80000000 0 r then (3, consume 1 r)
  else if has 0xc0000000 0x80000000 r then match_length 28 0x03 4 4 r
  else if has 0xe0000000 0xc0000000 r then match_length 26 0x07 8 6 r
  else if has 0xf0000000 0xe0000000 r then match_length 24 0x0f 16 8 r
  else if has 0xf8000000 0xf0000000 r then match_length 22 0x1f 32 10 r
  else if has 0xfc000000 0xf8000000 r then match_length 20 0x3f 64 12 r
  else if has 0xfe000000 0xfc000000 r then match_length 18 0x7f 128 14 r
  else if has 0xff000000 0xfe000000 r then match_length 16 0xff 256 16 r
  else if has 0xff800000 0xff000000 r then match_length 14 0x1ff 512 18 r
  else if has 0xffc00000 0xff800000 r then match_length 12 0x3ff 1024 20 r
  else if has 0xffe00000 0xffc00000 r then match_length 10 0x7ff 2048 22 r
  else if has 0xfff00000 0xffe00000 r then match_length 8 0xfff 4096 24 r
  else if has 0xfff80000 0xfff00000 r then match_length 6 0x1fff 8192 26 r
  else if has 0xfffc0000 0xfff80000 r then match_length 4 0x3fff 16384 28 r
  else if has 0xfffe0000 0xfffc0000 r then match_length 2 0x7fff 32768 30 r
  else (old, r).

(** ** The decoders *)

Section decoder.
Context (token : reader -> M history (Z * reader)) (lom_of : Z -> reader -> Z * reader) (buf_end : Z).

(** The main loop; every round uses at least eight bits. *)
Fixpoint decode_loop (fuel : nat) (lom : Z) (r : reader) : M history unit :=
  if 8 <=? bits_left r then
    match fuel with
    | O => fail Diverges
    | S fuel' =>
        let! (offset, r) := token r in
        let r := refill r in
        if offset =? 0 then decode_loop fuel' lom r
        else
          let (lom, r) := lom_of lom r in
          copy_match buf_end offset lom;;
          decode_loop fuel' 0 (refill r)
    end
  else ret tt.
End decoder.

(** What the two decoders share: result, [*roff] and [*rlen]. A packet marked
    [PACKET_FLUSHED] moves the local pointer only. *)
Definition decompress_with (token : reader -> M history (Z * reader)) (lom_of : Z -> reader -> Z * reader)
    (cbuf : list Z) (ctype : Z) : M rdp_mppc (bool * Z * Z) := fun m =>
  let m := if negb (Z.land ctype PACKET_AT_FRONT =? 0)
           then mkMppc (history_buf m) (offset_cache m) (history_buf_end m) 0 else m in
  let h := mkHist (history_buf m) (history_ptr m) in
  let roff := history_ptr m in
  let (h, roff) := if negb (Z.land ctype PACKET_FLUSHED =? 0)
                   then (mkHist (replicate (length (history_buf m)) 0) 0, 0) else (h, roff) in
  let run :=
    if negb (Z.land ctype PACKET_COMPRESSED =? PACKET_COMPRESSED)
    then fold_right (fun b c => emit b;; c) (ret tt) cbuf
    else decode_loop token lom_of (history_buf_end m) (S (length cbuf)) 0 (load_initial cbuf) in
  match run h with
  | Fault f => Fault f
  | Done (_, h) =>
      Done ((true, roff, uint32 (h_ptr h - history_ptr m)),
            mkMppc (h_buf h) (offset_cache m) (history_buf_end m) (h_ptr h))
  end.

Definition decompress_rdp_4 (cbuf : list Z) (ctype : Z) : M rdp_mppc (bool * Z * Z) :=
  decompress_with token_4 lom_4 cbuf ctype.

Definition decompress_rdp_5 (cbuf : list Z) (ctype : Z) : M rdp_mppc (bool * Z * Z) :=
  decompress_with token_5 lom_5 cbuf ctype.

(** [memcpy] into the history: [src] over the [n] bytes from [dst] on. *)
Definition copy_in (dst : Z) (src : list Z) (buf : list Z) : outcome (list Z) :=
  if bool_decide (0 <= dst /\ dst + len src <= len buf)
  then Done (take (Z.to_nat dst) buf ++ src ++ drop (Z.to_nat (dst + len src)) buf)
  else Fault OutOfBounds.

(** The slide of [PACKET_AT_FRONT]: the upper half down to the front, and the
    packet behind it. A pointer in the lower half makes the length of the first
    copy huge. *)
Definition slide (cbuf buf : list Z) (ptr : Z) : outcome (list Z) :=
  if ptr <? 32768 then Fault OutOfBounds
  else
    let n := ptr - 32768 in
    match copy_in 0 (take (Z.to_nat n) (drop (Z.to_nat 32768) buf)) buf with
    | Fault f => Fault f
    | Done buf => copy_in n cbuf buf
    end.

(** The RDP6 decoder does not decode yet. *)
Definition decompress_rdp_6 (cbuf : list Z) (ctype : Z) : M rdp_mppc (bool * Z * Z) := fun m =>
  let slid := if negb (Z.land ctype PACKET_AT_FRONT =? 0)
              then match slide cbuf (history_buf m) (history_ptr m) with
                   | Fault f => Fault f
                   | Done buf => Done (buf, 32768, 32768)
                   end
              else Done (history_buf m, history_ptr m, history_ptr m) in
  match slid with
  | Fault f => Fault f
  | Done (buf, ptr, roff) =>
      let '(buf, cache, ptr, roff) :=
        if negb (Z.land ctype PACKET_FLUSHED =? 0)
        then (replicate (length buf) 0, replicate (length (offset_cache m)) 0, 0, 0)
        else (buf, offset_cache m, ptr, roff) in
      if negb (Z.land ctype PACKET_COMPRESSED =? PACKET_COMPRESSED)
      then match copy_in ptr cbuf buf with
           | Fault f => Fault f
           | Done buf => Done ((true, roff, uint32 (ptr + len cbuf - history_ptr m)),
                               mkMppc buf cache (history_buf_end m) (ptr + len cbuf))
           end
      else Done ((true, roff, 0), mkMppc buf cache (history_buf_end m) (history_ptr m))
  end.

Definition decompress_rdp_61 (cbuf : list Z) (ctype : Z) : M rdp_mppc (bool * Z * Z) :=
  ret (false, 0, 0).

Definition decompress_rdp (cbuf : list Z) (ctype : Z) : M rdp_mppc (bool * Z * Z) :=
  let type := Z.land ctype 0x0f in
  if type =? PACKET_COMPR_TYPE_8K then decompress_rdp_4 cbuf ctype
  else if type =? PACKET_COMPR_TYPE_64K then decompress_rdp_5 cbuf ctype
  else if type =? PACKET_COMPR_TYPE_RDP6 then decompress_rdp_6 cbuf ctype
  else if type =? PACKET_COMPR_TYPE_RDP61 then decompress_rdp_61 cbuf ctype
  else ret (false, 0, 0).

(** ** What a reader has in front of it *)

(** [w] are the bits in [d32], [c] those in [cur_byte]. *)
Record reading (w c : list bool) (r : reader) : Prop := {
  rd_fits : len w <= 32;
  rd_left : bits_left r = len w;
  rd_word : d32 r = val w * 2 ^ (32 - len w);
  rd_cur_left : cur_bits_left r = len c;
  rd_cur : exists x, len c + len x = 8 /\ cur_byte r = val (c ++ x);
  rd_bytes : is_bytes (cptr r);
}.

(** [d32] is full, or nothing is left behind it. *)
Definition full (w c : list bool) (r : reader) : Prop :=
  reading w c r /\ (len w = 32 \/ c ++ byte_bits (cptr r) = []).

Lemma pow_split a b : 0 <= a -> 0 <= b -> 2 ^ (a + b) = 2 ^ a * 2 ^ b.
Proof. intros. apply Z.pow_add_r; assumption. Qed.

Lemma word_add (w c : list bool) : len w + len c <= 32 ->
  Z.lor (val w * 2 ^ (32 - len w)) (val c * 2 ^ (32 - len w - len c))
  = val (w ++ c) * 2 ^ (32 - len (w ++ c)).
Proof.
  intros Hl. pose proof (val_bound c). pose proof (val_bound w).
  rewrite (lor_high_low _ _ (32 - len w)); [|llia|apply Z.mod_mul; apply Z.pow_nonzero; llia|].
  - rewrite val_app, len_app.
    replace (32 - len w) with (len c + (32 - len w - len c)) at 1 by lia. rewrite pow_split by llia.
    replace (32 - (len w + len c)) with (32 - len w - len c) by lia. ring.
  - replace (2 ^ (32 - len w)) with (2 ^ len c * 2 ^ (32 - len w - len c)).
    + pose proof (Z.pow_pos_nonneg 2 (32 - len w - len c) ltac:(lia) ltac:(lia)). nia.
    + rewrite <- pow_split by llia. f_equal. lia.
Qed.

(** The upper bits of a byte. *)
Lemma byte_top (c x : list bool) : len c + len x = 8 -> Z.shiftr (val (c ++ x)) (8 - len c) = val c.
Proof.
  intros Hl. rewrite Z.shiftr_div_pow2 by llia. replace (8 - len c) with (len x) by lia.
  rewrite val_app, Z.div_add_l, Z.div_small by (pose proof (val_bound x); lia). lia.
Qed.

Lemma byte_drop (u v x : list bool) : len u + len v + len x = 8 ->
  exists y, len v + len y = 8 /\ uint8 (Z.shiftl (val ((u ++ v) ++ x)) (len u)) = val (v ++ y).
Proof.
  intros Hl. exists (x ++ replicate (length u) false). rewrite len_app, len_replicate.
  split; [unfold len in *; lia|]. rewrite <- app_assoc, (val_app u), (app_assoc v), (val_app (v ++ x)), val_zeros.
  rewrite len_replicate, !len_app. fold (len u). unfold uint8. rewrite Z.shiftl_mul_pow2 by llia.
  replace ((val u * 2 ^ (len v + len x) + val (v ++ x)) * 2 ^ len u)
    with (val (v ++ x) * 2 ^ len u + val u * 2 ^ 8)
    by (replace 8 with (len v + len x + len u) by lia; rewrite (pow_split (len v + len x)) by llia; ring).
  rewrite Z.mod_add by lia. rewrite Z.mod_small; [lia|].
  pose proof (val_bound (v ++ x)) as Hb. rewrite len_app in Hb.
  replace 8 with (len v + len x + len u) by lia. rewrite pow_split by llia.
  pose proof (Z.pow_pos_nonneg 2 (len u) ltac:(lia) ltac:(llia)). nia.
Qed.

Lemma word_part (w c : list bool) : len w + len c <= 32 ->
  uint32 (Z.shiftl (val c) (32 - len w - len c)) = val c * 2 ^ (32 - len w - len c).
Proof.
  intros Hl. unfold uint32. rewrite Z.shiftl_mul_pow2 by lia. apply Z.mod_small.
  pose proof (val_bound c). pose proof (Z.pow_pos_nonneg 2 (32 - len w - len c) ltac:(lia) ltac:(lia)).
  assert (2 ^ 32 = 2 ^ len w * (2 ^ len c * 2 ^ (32 - len w - len c)))
    by (rewrite <- !pow_split by llia; f_equal; lia).
  pose proof (Z.pow_pos_nonneg 2 (len w) ltac:(lia) ltac:(llia)).
  set (K := 2 ^ (32 - len w - len c)) in *. set (C := 2 ^ len c) in *. set (W := 2 ^ len w) in *.
  assert (val c * K < C * K) by (apply Z.mul_lt_mono_pos_r; lia).
  assert (1 * (C * K) <= W * (C * K)) by (apply Z.mul_le_mono_nonneg_r; lia). lia.
Qed.

(** The word is filled up with [u]. *)
Lemma word_full (w u v x : list bool) : len w + len u = 32 -> len (u ++ v) + len x = 8 ->
  Z.lor (val w * 2 ^ len u) (Z.shiftr (val ((u ++ v) ++ x)) (8 - len u)) = val (w ++ u).
Proof.
  intros Hl Hc. rewrite len_app in Hc. rewrite <- app_assoc, byte_top by (rewrite len_app; lia).
  pose proof (word_add w u ltac:(lia)) as E. rewrite len_app in E.
  replace (32 - len w - len u) with 0 in E by lia. replace (32 - (len w + len u)) with 0 in E by lia.
  replace (32 - len w) with (len u) in E by lia. rewrite !Z.mul_1_r in E. exact E.
Qed.

Lemma full_word (w c : list bool) r : len w = 32 -> bits_left r = 32 -> d32 r = val w -> cur_bits_left r = len c ->
  (exists x, len c + len x = 8 /\ cur_byte r = val (c ++ x)) -> is_bytes (cptr r) -> full w c r.
Proof.
  intros Hw Hb Hd Hcl Hc Hcs. split; [|left; exact Hw]. split; auto; [lia|lia|].
  rewrite Hw, Hd. lia.
Qed.

Lemma refill_loop_spec : forall cs (w c x : list bool), is_bytes cs -> len w <= 32 -> len c + len x = 8 ->
  let r := refill_loop cs (32 - len w) (val w * 2 ^ (32 - len w)) (len w) (val (c ++ x)) (len c) in
  exists w' c', full w' c' r /\ w' ++ c' ++ byte_bits (cptr r) = w ++ c ++ byte_bits cs.
Proof.
  induction cs as [|b cs IH]; intros w c x Hcs Hw Hc; cbn [refill_loop];
    (destruct (Z.eqb_spec (32 - len w) 0) as [H0|H0];
      [exists w, c; split; [|reflexivity]; split; [split; eauto; cbn; lia|left; lia]|]);
    (destruct (Z.ltb_spec (len c) (32 - len w)) as [Hlt|Hge];
      [rewrite byte_top, word_part, word_add by lia|
       destruct (split_at c (32 - len w)) as (u & v & -> & Hu); [llia|];
       rewrite <- Hu; rewrite word_full by lia; rewrite len_app;
       destruct (Z.ltb_spec (len u) (len u + len v)) as [Hmore|Hjust]]).
  - exists (w ++ c), []. cbn [cptr byte_bits map concat app]. rewrite !app_nil_r. split; [|reflexivity].
    split; [|right; reflexivity]. split; cbn [bits_left d32 cur_bits_left cur_byte cptr]; auto; [llia|llia|].
    exists (c ++ x). cbn [app]. split; [llia|reflexivity].
  - exists (w ++ u), v. cbn [cptr]. split; [|rewrite <- !app_assoc; reflexivity].
    apply full_word; cbn [bits_left d32 cur_bits_left cur_byte cptr]; auto; [llia|llia|].
    apply byte_drop. llia.
  - assert (v = []) by (destruct v; [reflexivity|llia]). subst v. rewrite app_nil_r in *.
    exists (w ++ u), []. cbn [cptr app byte_bits map concat]. rewrite !app_nil_r. split; [|reflexivity].
    apply full_word; cbn [bits_left d32 cur_bits_left cur_byte cptr]; auto; [llia|].
    exists (u ++ x). cbn [app]. split; [llia|reflexivity].
  - apply Forall_cons in Hcs as [Hb Hcs].
    specialize (IH (w ++ c) (bits_of 8 b) [] Hcs). cbv zeta in IH.
    rewrite app_nil_r, <- (bits_of_byte b Hb), !len_app in IH. change (len (bits_of 8 b)) with 8 in IH.
    replace (32 - len w - len c) with (32 - (len w + len c)) by lia. rewrite !len_app.
    destruct IH as (w' & c' & Hf & E); [llia|reflexivity|].
    exists w', c'. split; [exact Hf|]. rewrite E, byte_bits_cons, <- app_assoc. reflexivity.
  - exists (w ++ u), v. cbn [cptr]. split; [|rewrite <- !app_assoc; reflexivity].
    apply full_word; cbn [bits_left d32 cur_bits_left cur_byte cptr]; auto; [llia|llia|].
    apply byte_drop. llia.
  - assert (v = []) by (destruct v; [reflexivity|llia]). subst v. rewrite app_nil_r in *.
    apply Forall_cons in Hcs as [Hb Hcs].
    exists (w ++ u), (bits_of 8 b). cbn [cptr]. rewrite byte_bits_cons, <- !app_assoc. split; [|reflexivity].
    apply full_word; cbn [bits_left d32 cur_bits_left cur_byte cptr]; auto; [llia|].
    exists []. rewrite app_nil_r. split; [reflexivity|apply bits_of_byte, Hb].
Qed.

Lemma refill_spec w c r : reading w c r ->
  exists w' c', full w' c' (refill r) /\ w' ++ c' ++ byte_bits (cptr (refill r)) = w ++ c ++ byte_bits (cptr r).
Proof.
  intros [Hw Hl Hd Hcl (x & Hx & Hcx) Hcs]. unfold refill. rewrite Hl, Hd, Hcl, Hcx.
  apply refill_loop_spec; assumption.
Qed.

Lemma load_word_spec : forall c (w : list bool), is_bytes c -> len w <= 24 -> len w mod 8 = 0 ->
  exists d bl c' w', load_word c (val w * 2 ^ (32 - len w)) (len w) (24 - len w) = (d, bl, c') /\
    is_bytes c' /\ len w' <= 32 /\ bl = len w' /\ d = val w' * 2 ^ (32 - len w') /\
    w' ++ byte_bits c' = w ++ byte_bits c /\ (c' = [] \/ len w' = 32).
Proof.
  induction c as [|b c IH]; intros w Hc Hw Hm; cbn [load_word].
  - do 4 eexists. split; [reflexivity|]. repeat split; auto; lia.
  - apply Forall_cons in Hc as [Hb Hc].
    assert (E : Z.lor (val w * 2 ^ (32 - len w)) (Z.shiftl b (24 - len w))
                = val (w ++ bits_of 8 b) * 2 ^ (32 - len (w ++ bits_of 8 b))).
    { rewrite Z.shiftl_mul_pow2 by lia. rewrite (bits_of_byte b Hb) at 1.
      replace (24 - len w) with (32 - len w - len (bits_of 8 b)) by (change (len (bits_of 8 b)) with 8; lia).
      apply word_add. rewrite len_bits_of. lia. }
    assert (E' : len w + 8 = len (w ++ bits_of 8 b)) by (rewrite len_app, len_bits_of; lia).
    rewrite E, E'. destruct (Z.ltb_spec (24 - len w - 8) 0) as [Hlt|Hge].
    + eexists _, _, c, (w ++ bits_of 8 b). split; [reflexivity|]. split; [exact Hc|]. split; [lia|]. split; [reflexivity|].
      split; [reflexivity|]. rewrite byte_bits_cons, <- app_assoc. split; [reflexivity|right; rewrite <- E'; dlia].
    + destruct (IH (w ++ bits_of 8 b) Hc) as (d & bl & c' & w' & El & H1 & H2 & H3 & H4 & H5 & H6); [lia|rewrite <- E'; dlia|].
      exists d, bl, c', w'. replace (24 - len w - 8) with (24 - len (w ++ bits_of 8 b)) by lia.
      split; [exact El|]. repeat (split; [assumption|]). rewrite H5, byte_bits_cons, <- app_assoc. auto.
Qed.

Lemma load_initial_spec cbuf : is_bytes cbuf ->
  exists w c, full w c (load_initial cbuf) /\ w ++ c ++ byte_bits (cptr (load_initial cbuf)) = byte_bits cbuf.
Proof.
  intros Hc. unfold load_initial.
  destruct (load_word_spec cbuf [] Hc) as (d & bl & c' & w & E & H1 & H2 & H3 & H4 & H5 & H6); [llia|reflexivity|].
  change (load_word cbuf 0 0 24) with (load_word cbuf (val [] * 2 ^ (32 - len (@nil bool))) (len (@nil bool)) (24 - len (@nil bool))).
  rewrite E. destruct c' as [|b c'].
  - exists w, []. cbn [cptr app]. split; [|exact H5]. split; [|right; reflexivity].
    split; cbn [bits_left d32 cur_bits_left cur_byte cptr]; auto. exists (replicate 8 false). auto.
  - apply Forall_cons in H1 as [Hb H1]. exists w, (bits_of 8 b). cbn [cptr]. split; [|exact H5].
    assert (Hw : len w = 32) by (destruct H6; [discriminate|assumption]).
    apply full_word; cbn [bits_left d32 cur_bits_left cur_byte cptr]; auto; [lia| |].
    + rewrite H4, Hw. lia.
    + exists []. rewrite app_nil_r. split; [reflexivity|apply bits_of_byte, Hb].
Qed.

(** ** Looking at the front and moving on *)

Lemma word_div (p q : list bool) : len (p ++ q) <= 32 ->
  val (p ++ q) * 2 ^ (32 - len (p ++ q)) / 2 ^ (32 - len p) = val p.
Proof.
  intros Hl. rewrite len_app in *. rewrite val_app. pose proof (val_bound q).
  replace (2 ^ (32 - len p)) with (2 ^ len q * 2 ^ (32 - (len p + len q)))
    by (rewrite <- pow_split by llia; f_equal; lia).
  rewrite Z.div_mul_cancel_r by (apply Z.pow_nonzero; llia).
  rewrite Z.div_add_l, Z.div_small by (pose proof (Z.pow_pos_nonneg 2 (len q)); llia). lia.
Qed.

Lemma top_bits p q c r : reading (p ++ q) c r -> Z.shiftr (d32 r) (32 - len p) = val p.
Proof.
  intros [Hw _ -> _ _ _]. rewrite Z.shiftr_div_pow2 by (rewrite len_app in Hw; llia).
  apply word_div, Hw.
Qed.

(** A masked comparison looks at the bits under the mask, *)
Lemma has_mod k n v r mask bits : 0 <= k -> 0 <= n -> mask = (2 ^ k - 1) * 2 ^ n -> bits = v * 2 ^ n ->
  has mask bits r = ((d32 r / 2 ^ n) mod 2 ^ k =? v).
Proof.
  intros Hk Hn -> ->. unfold has.
  assert (E : Z.land (d32 r) ((2 ^ k - 1) * 2 ^ n) = (d32 r / 2 ^ n) mod 2 ^ k * 2 ^ n).
  { rewrite <- Z.land_ones, <- Z.shiftr_div_pow2 by lia.
    replace (2 ^ k - 1) with (Z.ones k) by (rewrite Z.ones_equiv; lia).
    rewrite <- !Z.shiftl_mul_pow2 by lia. apply Z.bits_inj'. intros i Hi.
    rewrite Z.land_spec, !Z.shiftl_spec by lia. destruct (Z.lt_ge_cases i n) as [Hlt|Hge].
    - rewrite !(Z.testbit_neg_r _ (i - n)) by lia. apply andb_false_r.
    - rewrite Z.land_spec, Z.shiftr_spec by lia. do 2 f_equal. lia. }
  rewrite E. pose proof (Z.pow_pos_nonneg 2 n ltac:(lia) ltac:(lia)). set (x := _ mod _).
  destruct (Z.eqb_spec x v); destruct (Z.eqb_spec (x * 2 ^ n) (v * 2 ^ n)); nia.
Qed.

(** here the first [k] of the word. *)
Lemma has_top k v w c r mask bits : reading w c r -> (k <= length w)%nat ->
  mask = (2 ^ Z.of_nat k - 1) * 2 ^ (32 - Z.of_nat k) -> bits = v * 2 ^ (32 - Z.of_nat k) ->
  has mask bits r = (val (take k w) =? v).
Proof.
  intros Hr Hk Hm Hb. pose proof Hr as [Hw _ _ _ _ _]. rewrite <- (take_drop k w) in Hr.
  assert (Hlk : len (take k w) = Z.of_nat k) by (unfold len; rewrite length_take; lia).
  assert (Hk32 : Z.of_nat k <= 32) by (unfold len in Hw; lia).
  pose proof (top_bits _ _ _ _ Hr) as Ht. rewrite Hlk, Z.shiftr_div_pow2 in Ht by lia.
  rewrite (has_mod (Z.of_nat k) (32 - Z.of_nat k) v) by (assumption || lia).
  pose proof (val_bound (take k w)) as Hvb. rewrite Hlk in Hvb. rewrite Ht, Z.mod_small by exact Hvb. reflexivity.
Qed.

Lemma consume_spec p q c r : reading (p ++ q) c r -> reading q c (consume (len p) r).
Proof.
  intros [Hw Hl Hd Hcl Hc Hcs]. rewrite len_app in *. pose proof (val_bound q).
  split; cbn [bits_left d32 cur_bits_left cur_byte cptr consume]; auto; [llia|lia|].
  rewrite Hd, val_app. unfold uint32. rewrite Z.shiftl_mul_pow2 by llia.
  replace ((val p * 2 ^ len q + val q) * 2 ^ (32 - (len p + len q)) * 2 ^ len p)
    with (val q * 2 ^ (32 - len q) + val p * 2 ^ 32).
  - rewrite Z.mod_add by lia. apply Z.mod_small.
    replace (2 ^ 32) with (2 ^ len q * 2 ^ (32 - len q)) by (rewrite <- pow_split by llia; f_equal; lia).
    pose proof (Z.pow_pos_nonneg 2 (32 - len q) ltac:(lia) ltac:(llia)). nia.
  - replace (2 ^ 32) with (2 ^ len q * 2 ^ (32 - (len p + len q)) * 2 ^ len p)
      by (rewrite <- !pow_split by llia; f_equal; lia).
    replace (2 ^ (32 - len q)) with (2 ^ (32 - (len p + len q)) * 2 ^ len p)
      by (rewrite <- !pow_split by llia; f_equal; lia). ring.
Qed.

(** When the next bits are [p], a full word begins with them. *)
Lemma full_front p b w c r : full w c r -> w ++ c ++ byte_bits (cptr r) = p ++ b -> len p <= 32 ->
  exists q, w = p ++ q /\ q ++ c ++ byte_bits (cptr r) = b.
Proof.
  intros [ [Hw _ _ _ _ _] Hf] E Hp. apply app_eq_inv in E as [(k & -> & Hk)|(k & -> & Hk)].
  - exists k. auto.
  - assert (k = []) as ->.
    { destruct Hf as [Hf|Hf]; [destruct k; [reflexivity|llia]|].
      rewrite Hf in Hk. symmetry in Hk. apply app_nil in Hk as [-> _]. reflexivity. }
    exists []. rewrite !app_nil_r. auto.
Qed.

(** ** The format: literals and copies, as a peer encodes them *)

Inductive token : Type :=
  | Literal (b : Z)
  | Copy (offset lom : Z).

Definition literal_bits (b : Z) : list bool :=
  (if b <? 128 then [false] else [true; false]) ++ bits_of 7 b.

Definition offset_bits_4 (o : Z) : list bool :=
  if o <? 64 then [true; true; true; true] ++ bits_of 6 o
  else if o <? 320 then [true; true; true; false] ++ bits_of 8 (o - 64)
  else [true; true; false] ++ bits_of 13 (o - 320).

Definition offset_bits_5 (o : Z) : list bool :=
  if o <? 64 then [true; true; true; true; true] ++ bits_of 6 o
  else if o <? 320 then [true; true; true; true; false] ++ bits_of 8 (o - 64)
  else if o <? 2368 then [true; true; true; false] ++ bits_of 11 (o - 320)
  else [true; true; false] ++ bits_of 16 (o - 2368).

(** A length of [k + 1] significant bits: [k - 1] ones, a zero, the lower [k] bits. *)
Definition lom_bits (l : Z) : list bool :=
  if l =? 3 then [false]
  else let k := Z.to_nat (Z.log2 l) in (replicate (k - 1) true ++ [false]) ++ bits_of k l.

Definition encode (offset_bits : Z -> list bool) (t : token) : list bool :=
  match t with
  | Literal b => literal_bits b
  | Copy o l => offset_bits o ++ lom_bits l
  end.

Definition encodes (offset_bits : Z -> list bool) (ts : list token) : list bool :=
  concat (map (encode offset_bits) ts).

Definition valid (max_offset max_lom : Z) (t : token) : Prop :=
  match t with
  | Literal b => is_byte b
  | Copy o l => 1 <= o < max_offset /\ 3 <= l < max_lom
  end.

(** What the tokens mean: every byte they add to the bytes of the past. *)
Fixpoint repeat_from (n : nat) (offset : Z) (past : list Z) : list Z :=
  match n with
  | O => past
  | S n' => repeat_from n' offset (past ++ [default 0 (past !! Z.to_nat (len past - offset))])
  end.

Definition extend (past : list Z) (t : token) : list Z :=
  match t with
  | Literal b => past ++ [b]
  | Copy o l => repeat_from (Z.to_nat l) o past
  end.

Definition expand (ts : list token) (past : list Z) : list Z := fold_left extend ts past.

Definition size (t : token) : Z := match t with Literal _ => 1 | Copy _ l => l end.

Definition sizes (ts : list token) : Z := fold_right (fun t n => size t + n) 0 ts.

Lemma length_repeat_from n o past : length (repeat_from n o past) = (length past + n)%nat.
Proof. revert past. induction n as [|n IH]; intros past; cbn; [lia|]. rewrite IH, length_app. cbn. lia. Qed.

Lemma repeat_from_app n o past : exists out, repeat_from n o past = past ++ out /\ length out = n.
Proof.
  revert past. induction n as [|n IH]; intros past; cbn; [exists []; rewrite app_nil_r; auto|].
  edestruct IH as (out & -> & Hl). rewrite <- app_assoc. eexists. split; [reflexivity|]. cbn. lia.
Qed.

Lemma expand_app mo ml ts : Forall (valid mo ml) ts ->
  forall past, exists out, expand ts past = past ++ out /\ len out = sizes ts.
Proof.
  induction 1 as [|t ts Ht Hts IH]; intros past; cbn; [exists []; rewrite app_nil_r; auto|].
  fold (expand ts (extend past t)) (sizes ts). destruct (IH (extend past t)) as (out & -> & Hl).
  destruct t as [b|o l]; cbn [extend size valid] in *.
  - exists (b :: out). rewrite <- app_assoc, len_cons. split; [reflexivity|lia].
  - destruct (repeat_from_app (Z.to_nat l) o past) as (x & -> & Hx). exists (x ++ out).
    rewrite <- app_assoc, len_app. split; [reflexivity|]. unfold len in *. lia.
Qed.

(** ** The tokens and the reader *)

Ltac lengths := rewrite ?length_app, ?length_replicate; cbn [length]; lia.

(** [r'] is [r] past its first bits, with [w] left in the word. *)
Definition reads (w c : list bool) (cs : list Z) (r : reader) : Prop := reading w c r /\ cptr r = cs.

Lemma reads_consume p q c cs r n : reads (p ++ q) c cs r -> n = len p -> reads q c cs (consume n r).
Proof. intros [Hr Hc] ->. split; [apply consume_spec, Hr|exact Hc]. Qed.

Lemma val_ones n : val (replicate n true) = 2 ^ Z.of_nat n - 1.
Proof.
  induction n as [|n IH]; [reflexivity|]. cbn [replicate val Z.b2z]. rewrite IH, len_replicate, Nat2Z.inj_succ, Z.pow_succ_r; lia.
Qed.

(** The word begins with [k - 1] ones and a zero: only the test for them succeeds. *)
Lemma has_unary k j q c r mask bits : reading ((replicate (k - 1) true ++ [false]) ++ q) c r -> (1 <= j <= k)%nat ->
  mask = (2 ^ Z.of_nat j - 1) * 2 ^ (32 - Z.of_nat j) -> bits = (2 ^ Z.of_nat j - 2) * 2 ^ (32 - Z.of_nat j) ->
  has mask bits r = (j =? k)%nat.
Proof.
  intros Hr Hj Hm Hb. rewrite (has_top j _ _ _ _ _ _ Hr) by (eassumption || lengths).
  rewrite (take_app_le _ q) by lengths.
  destruct (Nat.eqb_spec j k) as [->|Hn].
  - rewrite take_ge by lengths.
    rewrite val_app, val_ones. apply Z.eqb_eq.
    assert (2 ^ Z.of_nat k = 2 * 2 ^ Z.of_nat (k - 1)) as -> by (rewrite <- Z.pow_succ_r by lia; f_equal; lia).
    change (val [false]) with 0. change (2 ^ len [false]) with 2. lia.
  - rewrite take_app_le, take_replicate, val_ones by lengths.
    rewrite Nat.min_l by lia. apply Z.eqb_neq. lia.
Qed.

Lemma match_length_spec k l q c cs r : (2 <= k <= 15)%nat -> 2 ^ Z.of_nat k <= l < 2 ^ (Z.of_nat k + 1) ->
  reads (((replicate (k - 1) true ++ [false]) ++ bits_of k l) ++ q) c cs r ->
  exists r', match_length (32 - 2 * Z.of_nat k) (2 ^ Z.of_nat k - 1) (2 ^ Z.of_nat k) (2 * Z.of_nat k) r = (l, r') /\
    reads q c cs r'.
Proof.
  intros Hk Hl Hr. unfold match_length. eexists. split; [f_equal|eapply reads_consume; [exact Hr|]].
  2: { rewrite !len_app, len_replicate, len_bits_of. change (len [false]) with 1. lia. }
  destruct Hr as [Hr _]. pose proof (top_bits _ _ _ _ Hr) as Ht.
  rewrite !len_app, len_replicate, len_bits_of in Ht. change (len [false]) with 1 in Ht.
  replace (32 - (Z.of_nat (k - 1) + 1 + Z.of_nat k)) with (32 - 2 * Z.of_nat k) in Ht by lia.
  rewrite Ht, val_app, val_bits_of, len_bits_of, (land_mask _ (Z.of_nat k)) by lia.
  rewrite (Z.add_comm (_ * _)), Z.mod_add, Z.mod_mod by (apply Z.pow_nonzero; lia).
  assert (Z.of_nat k <= 15) by lia. assert (2 ^ (Z.of_nat k + 1) <= 2 ^ 16) by (apply Z.pow_le_mono_r; lia).
  rewrite Z.pow_add_r in * by lia. assert (l mod 2 ^ Z.of_nat k = l - 2 ^ Z.of_nat k) as ->.
  { symmetry. apply (Z.mod_unique _ _ 1); lia. }
  unfold uint16. rewrite Z.mod_small; lia.
Qed.

(** ** One token: what the interface between the main loop and a variant is *)

Class Format (token_of : reader -> M history (Z * reader)) (lom_of : Z -> reader -> Z * reader)
    (offset_bits : Z -> list bool) (max_offset max_lom : Z) : Prop := {
  fmt_literal b q c cs r h : is_byte b -> reads (literal_bits b ++ q) c cs r ->
    exists r', token_of r h = (emit b;; ret (0, r')) h /\ reads q c cs r';
  fmt_offset o q c cs r h : 1 <= o < max_offset -> reads (offset_bits o ++ q) c cs r ->
    exists r', token_of r h = Done ((o, r'), h) /\ reads q c cs r';
  fmt_lom old l q c cs r : 3 <= l < max_lom -> reads (lom_bits l ++ q) c cs r ->
    exists r', lom_of old r = (l, r') /\ reads q c cs r';
  fmt_offset_len o : 8 <= len (offset_bits o) <= 32;
  fmt_max : max_offset <= 65536 /\ max_lom <= 65536;
}.

(** The test for the prefix number [j] of the lengths. *)
Ltac unary Hr k j :=
  try (rewrite (has_unary k j _ _ _ _ _ Hr) by (reflexivity || lia); cbn [Nat.eqb]).

Ltac unaries Hr k :=
  unary Hr k 1%nat; unary Hr k 2%nat; unary Hr k 3%nat; unary Hr k 4%nat; unary Hr k 5%nat;
  unary Hr k 6%nat; unary Hr k 7%nat; unary Hr k 8%nat; unary Hr k 9%nat; unary Hr k 10%nat;
  unary Hr k 11%nat; unary Hr k 12%nat; unary Hr k 13%nat; unary Hr k 14%nat; unary Hr k 15%nat.

Lemma lom_three q c cs r : reads (lom_bits 3 ++ q) c cs r -> has 0x80000000 0 r = true.
Proof. intros [Hr _]. exact (has_unary 1 1 q c r _ _ Hr ltac:(lia) eq_refl eq_refl). Qed.

Lemma lom_bits_large l : 3 < l -> let k := Z.to_nat (Z.log2 l) in
  lom_bits l = (replicate (k - 1) true ++ [false]) ++ bits_of k l /\
  (2 <= k)%nat /\ 2 ^ Z.of_nat k <= l < 2 ^ (Z.of_nat k + 1).
Proof.
  intros Hl k. unfold lom_bits. destruct (Z.eqb_spec l 3) as [->|_]; [lia|].
  pose proof (Z.log2_spec l ltac:(lia)) as Hs. pose proof (Z.log2_le_mono 4 l ltac:(lia)) as Hm.
  cbn in Hm. subst k. rewrite Z2Nat.id by apply Z.log2_nonneg. split; [reflexivity|]. lia.
Qed.

Lemma log2_below l n : 0 < l < 2 ^ n -> (Z.to_nat (Z.log2 l) < Z.to_nat n)%nat.
Proof.
  intros Hl. assert (0 <= n) by (destruct (Z.neg_nonneg_cases n); [rewrite Z.pow_neg_r in Hl; lia|lia]).
  pose proof (Z.log2_nonneg l). pose proof (proj1 (Z.log2_lt_pow2 l n ltac:(lia)) ltac:(lia)). lia.
Qed.

(** Every length above 3 passes the tests of the shorter ones. *)
Ltac by_length l Hr n :=
  destruct (lom_bits_large l ltac:(lia)) as (E & Hk & Hb); rewrite E in Hr; clear E;
  pose proof (log2_below l n ltac:(cbn; lia)) as Hk'; revert Hk Hk' Hb Hr;
  generalize (Z.to_nat (Z.log2 l)) as k; intros k Hk Hk' Hb Hr;
  pose proof (proj1 Hr) as Hw; rewrite <- app_assoc in Hw;
  assert (Hc : In k (seq 2 (Z.to_nat n - 2))) by (apply in_seq; lia);
  cbn in Hc; repeat destruct Hc as [<-|Hc]; try destruct Hc;
  match type of Hw with reading ((replicate (?k - 1) true ++ _) ++ _) _ _ =>
    unaries Hw k; exact (match_length_spec k l _ _ _ _ ltac:(lia) Hb Hr) end.

Lemma lom_4_spec old l q c cs r : 3 <= l < 8192 -> reads (lom_bits l ++ q) c cs r ->
  exists r', lom_4 old r = (l, r') /\ reads q c cs r'.
Proof.
  intros Hl Hr. unfold lom_4. destruct (Z.eqb_spec l 3) as [->|Hn].
  - rewrite (lom_three _ _ _ _ Hr). eexists. split; [reflexivity|eapply reads_consume; [exact Hr|reflexivity]].
  - by_length l Hr 13.
Qed.

Lemma lom_5_spec old l q c cs r : 3 <= l < 65536 -> reads (lom_bits l ++ q) c cs r ->
  exists r', lom_5 old r = (l, r') /\ reads q c cs r'.
Proof.
  intros Hl Hr. unfold lom_5. destruct (Z.eqb_spec l 3) as [->|Hn].
  - rewrite (lom_three _ _ _ _ Hr). eexists. split; [reflexivity|eapply reads_consume; [exact Hr|reflexivity]].
  - by_length l Hr 16.
Qed.

Lemma shift_top p q c cs r n : reads (p ++ q) c cs r -> n = 32 - len p -> Z.shiftr (d32 r) n = val p.
Proof. intros [Hr _] ->. exact (top_bits _ _ _ _ Hr). Qed.

Lemma literal_spec b q c cs r h : 0 <= b < 128 -> reads (literal_bits b ++ q) c cs r ->
  exists r', literal r h = (emit b;; ret (0, r')) h /\ reads q c cs r'.
Proof.
  intros Hb Hr. unfold literal_bits in Hr. destruct (Z.ltb_spec b 128); [|lia].
  unfold literal. rewrite (shift_top _ _ _ _ _ 24 Hr) by reflexivity. cbn [app val Z.b2z].
  rewrite val_bits_of, Z.mod_small by (cbn; lia). exists (consume 8 r). split; [f_equal; f_equal; lia|].
  exact (reads_consume _ _ _ _ _ 8 Hr eq_refl).
Qed.

Lemma encoded_literal_spec b q c cs r h : 128 <= b < 256 -> reads (literal_bits b ++ q) c cs r ->
  exists r', encoded_literal r h = (emit b;; ret (0, r')) h /\ reads q c cs r'.
Proof.
  intros Hb Hr. unfold literal_bits in Hr. destruct (Z.ltb_spec b 128); [lia|].
  rewrite <- app_assoc in Hr. apply (reads_consume _ _ _ _ _ 2) in Hr; [|reflexivity].
  unfold encoded_literal. rewrite (shift_top _ _ _ _ _ 25 Hr), val_bits_of by reflexivity.
  replace (Z.lor (b mod 2 ^ Z.of_nat 7) 128) with b.
  - eexists. split; [reflexivity|]. exact (reads_consume _ _ _ _ _ 7 Hr eq_refl).
  - rewrite Z.lor_comm, (lor_high_low 128 _ 7); [|lia|reflexivity|apply Z.mod_pos_bound; reflexivity].
    change (2 ^ Z.of_nat 7) with 128. dlia.
Qed.

Lemma copy_offset_spec o pre n v base q c cs r h p m : o = v + base -> 0 <= v < 2 ^ Z.of_nat n -> 0 <= o < 65536 ->
  p = len pre -> m = Z.of_nat n -> reads ((pre ++ bits_of n v) ++ q) c cs r ->
  exists r', copy_offset p m base r h = Done ((o, r'), h) /\ reads q c cs r'.
Proof.
  intros -> Hv Hb -> -> Hr. rewrite <- app_assoc in Hr. apply (reads_consume _ _ _ _ _ (len pre)) in Hr; [|reflexivity].
  unfold copy_offset. rewrite (shift_top _ _ _ _ _ (32 - Z.of_nat n) Hr), val_bits_of by (rewrite len_bits_of; reflexivity).
  rewrite Z.mod_small by lia. unfold uint16. rewrite Z.mod_small by (cbn; lia). eexists. split; [reflexivity|].
  eapply reads_consume; [exact Hr|]. rewrite len_bits_of. reflexivity.
Qed.

(** A test compares the front of the word with a pattern. *)
Lemma has_pattern t w c cs r mask bits : reads w c cs r -> (length t <= length w)%nat ->
  mask = (2 ^ len t - 1) * 2 ^ (32 - len t) -> bits = val t * 2 ^ (32 - len t) ->
  has mask bits r = bool_decide (take (length t) w = t).
Proof.
  intros [Hr _] Hl Hm Hb. rewrite (has_top (length t) (val t) w c r mask bits Hr Hl Hm Hb).
  apply Bool.eq_iff_eq_true. rewrite Z.eqb_eq, bool_decide_eq_true. split; [|congruence].
  apply val_inj. rewrite length_take. lia.
Qed.

Ltac test Hr t :=
  first
  [ rewrite (has_pattern t _ _ _ _ _ _ Hr), bool_decide_eq_true_2
      by first [reflexivity | rewrite ?length_app, ?length_bits_of; cbn; lia]
  | rewrite (has_pattern t _ _ _ _ _ _ Hr), bool_decide_eq_false_2
      by first [reflexivity | cbn; congruence | rewrite ?length_app, ?length_bits_of; cbn; lia] ];
  cbv beta iota.

(** The literals, by their first bits. *)
Ltac token_literal b Hb Hr :=
  destruct (Z.ltb_spec b 128);
  [ assert (E : literal_bits b = false :: bits_of 7 b) by (unfold literal_bits; destruct (Z.ltb_spec b 128); [reflexivity|lia]);
    pose proof Hr as Hr'; rewrite E in Hr'; test Hr' [false];
    apply literal_spec with (q := _) (c := _) (cs := _); [lia|exact Hr]
  | assert (E : literal_bits b = [true; false] ++ bits_of 7 b) by (unfold literal_bits; destruct (Z.ltb_spec b 128); [lia|reflexivity]);
    pose proof Hr as Hr'; rewrite E in Hr'; test Hr' [false]; test Hr' [true; false];
    apply encoded_literal_spec with (q := _) (c := _) (cs := _); [lia|exact Hr] ].

Lemma token_4_literal b q c cs r h : is_byte b -> reads (literal_bits b ++ q) c cs r ->
  exists r', token_4 r h = (emit b;; ret (0, r')) h /\ reads q c cs r'.
Proof. intros [Hb Hb'] Hr. unfold token_4. token_literal b Hb Hr. Qed.

Lemma token_5_literal b q c cs r h : is_byte b -> reads (literal_bits b ++ q) c cs r ->
  exists r', token_5 r h = (emit b;; ret (0, r')) h /\ reads q c cs r'.
Proof. intros [Hb Hb'] Hr. unfold token_5. token_literal b Hb Hr. Qed.

Ltac by_copy Hr := eapply copy_offset_spec; [..|exact Hr]; first [reflexivity | cbn; lia].

Lemma token_4_offset o q c cs r h : 1 <= o < 8192 -> reads (offset_bits_4 o ++ q) c cs r ->
  exists r', token_4 r h = Done ((o, r'), h) /\ reads q c cs r'.
Proof.
  intros Ho Hr. unfold offset_bits_4 in Hr. unfold token_4.
  destruct (Z.ltb_spec o 64); [|destruct (Z.ltb_spec o 320)]; test Hr [false]; test Hr [true; false];
    test Hr [true; true; true; true]; [by_copy Hr|test Hr [true; true; true; false]..]; [by_copy Hr|].
  test Hr [true; true; false]. by_copy Hr.
Qed.

Lemma token_5_offset o q c cs r h : 1 <= o < 65536 -> reads (offset_bits_5 o ++ q) c cs r ->
  exists r', token_5 r h = Done ((o, r'), h) /\ reads q c cs r'.
Proof.
  intros Ho Hr. unfold offset_bits_5 in Hr. unfold token_5.
  destruct (Z.ltb_spec o 64); [|destruct (Z.ltb_spec o 320); [|destruct (Z.ltb_spec o 2368)]];
    test Hr [false]; test Hr [true; false]; test Hr [true; true; true; true; true]; [by_copy Hr|..];
    test Hr [true; true; true; true; false]; [by_copy Hr|..]; test Hr [true; true; true; false]; [by_copy Hr|].
  test Hr [true; true; false]. by_copy Hr.
Qed.

Lemma offset_bits_4_len o : 8 <= len (offset_bits_4 o) <= 32.
Proof. unfold offset_bits_4. repeat destruct (_ <? _); vm_compute; split; discriminate. Qed.

Lemma offset_bits_5_len o : 8 <= len (offset_bits_5 o) <= 32.
Proof. unfold offset_bits_5. repeat destruct (_ <? _); vm_compute; split; discriminate. Qed.

(** ** The history as a window onto the past *)

Abbreviation SIZE := RDP6_HISTORY_BUF_SIZE (only parsing).

(** The buffer, read from the write pointer around to the byte before it, holds
    the last bytes of [past]. *)
Definition tracks (past : list Z) (h : history) : Prop :=
  len (h_buf h) = SIZE /\ 0 <= h_ptr h <= SIZE /\ is_bytes past /\
  exists old, past = old ++ drop (Z.to_nat (h_ptr h)) (h_buf h) ++ take (Z.to_nat (h_ptr h)) (h_buf h).

Definition window (buf : list Z) (ptr : Z) : list Z :=
  drop (Z.to_nat ptr) buf ++ take (Z.to_nat ptr) buf.

Lemma window_tracks buf ptr : len buf = SIZE -> 0 <= ptr <= SIZE -> is_bytes buf ->
  tracks (window buf ptr) (mkHist buf ptr).
Proof.
  intros Hl Hp Hb. split; [exact Hl|]. split; [exact Hp|]. split; [|exists []; reflexivity].
  apply Forall_app. split; [apply Forall_drop|apply Forall_take]; exact Hb.
Qed.

Lemma emit_spec past h b : tracks past h -> h_ptr h < SIZE -> is_byte b ->
  exists h', emit b h = Done (tt, h') /\ tracks (past ++ [b]) h' /\ h_ptr h' = h_ptr h + 1.
Proof.
  intros (Hl & Hp & Hb & old & E) Hlt Hbb. unfold emit. rewrite bool_decide_eq_true_2 by lia.
  eexists. split; [reflexivity|]. split; [|reflexivity]. destruct h as [buf p]. cbn [h_buf h_ptr] in *.
  unfold tracks. cbn [h_buf h_ptr]. rewrite (uint8_byte b Hbb). unfold len in *. rewrite length_insert.
  split; [exact Hl|]. split; [lia|]. split; [apply Forall_app; auto|].
  assert (Hn : (Z.to_nat p < length buf)%nat) by lia.
  destruct (lookup_lt_is_Some_2 buf _ Hn) as [x Hx]. exists (old ++ [x]).
  rewrite insert_take_drop by exact Hn. replace (Z.to_nat (p + 1)) with (S (Z.to_nat p)) by lia.
  rewrite (drop_S _ _ _ Hx) in E. set (n := Z.to_nat p) in *.
  assert (Ht : length (take n buf) = n) by (rewrite length_take; lia).
  replace (take n buf ++ b :: drop (S n) buf) with ((take n buf ++ [b]) ++ drop (S n) buf)
    by (rewrite <- app_assoc; reflexivity).
  rewrite drop_app_length', take_app_length' by (rewrite length_app, Ht; cbn; lia).
  rewrite E, <- !app_assoc. reflexivity.
Qed.

Definition source (h : history) (o : Z) : Z :=
  if h_ptr h - o <? 0 then SIZE + h_ptr h - o else h_ptr h - o.

Lemma fetch_spec past h o : tracks past h -> 1 <= o <= SIZE ->
  exists b, past !! Z.to_nat (len past - o) = Some b /\ fetch (source h o) h = Done (b, h) /\ is_byte b.
Proof.
  intros (Hl & Hp & Hb & old & E) Ho. destruct h as [buf p]. cbn [h_buf h_ptr] in *.
  assert (Hi : 0 <= source (mkHist buf p) o < len buf)
    by (unfold source; cbn [h_ptr]; destruct (Z.ltb_spec (p - o) 0); lia).
  assert (Hq : past !! Z.to_nat (len past - o) = buf !! Z.to_nat (source (mkHist buf p) o)).
  { rewrite E. unfold len in *. rewrite !length_app, length_drop, length_take.
    rewrite lookup_app_r by lia. unfold source. cbn [h_ptr]. destruct (Z.ltb_spec (p - o) 0).
    - rewrite lookup_app_l by (rewrite length_drop; lia). rewrite lookup_drop. f_equal. lia.
    - rewrite lookup_app_r by (rewrite length_drop; lia). rewrite length_drop, lookup_take_lt by lia.
      f_equal. lia. }
  destruct (lookup_lt_is_Some_2 buf (Z.to_nat (source (mkHist buf p) o))) as [b Hx]; [unfold len in *; lia|].
  exists b. rewrite Hq. split; [exact Hx|]. split.
  - unfold fetch. cbn [h_buf]. rewrite bool_decide_eq_true_2, Hx by exact Hi. reflexivity.
  - rewrite Hx in Hq. exact (Forall_lookup_1 _ _ _ _ Hb Hq).
Qed.

Lemma fetch_emit past h o src : tracks past h -> 1 <= o <= SIZE -> h_ptr h < SIZE -> src = source h o ->
  exists b h', fetch src h = Done (b, h) /\ emit b h = Done (tt, h') /\
    tracks (past ++ [default 0 (past !! Z.to_nat (len past - o))]) h' /\ h_ptr h' = h_ptr h + 1.
Proof.
  intros Ht Ho Hp ->. destruct (fetch_spec past h o Ht Ho) as (b & Hb & Hf & Hy).
  destruct (emit_spec past h b Ht Hp Hy) as (h' & He & Ht' & Hp').
  exists b, h'. rewrite Hb. auto.
Qed.

Lemma copy_run_spec o n : 1 <= o <= SIZE -> forall past h src, tracks past h -> src = h_ptr h - o -> 0 <= src ->
  h_ptr h + Z.of_nat n <= SIZE ->
  exists h', copy_run n src h = Done (tt, h') /\ tracks (repeat_from n o past) h' /\ h_ptr h' = h_ptr h + Z.of_nat n.
Proof.
  intros Ho. induction n as [|n IH]; intros past h src Ht Hs Hp Hr; cbn [copy_run repeat_from].
  - exists h. split; [reflexivity|]. split; [exact Ht|lia].
  - destruct (fetch_emit past h o src Ht Ho) as (b & h1 & Hf & He & Ht1 & Hp1);
      [lia|unfold source; destruct (Z.ltb_spec (h_ptr h - o) 0); lia|].
    destruct (IH _ h1 (src + 1) Ht1) as (h' & Hc & Ht' & Hp'); [lia..|].
    exists h'. rewrite (bind_Done _ _ _ _ _ Hf), (bind_Done _ _ _ _ _ He).
    split; [exact Hc|]. split; [exact Ht'|lia].
Qed.

Lemma copy_around_spec o n : 1 <= o <= SIZE -> forall past h src, tracks past h -> src = SIZE + h_ptr h - o ->
  src <= SIZE -> h_ptr h + Z.of_nat n <= SIZE ->
  exists h', (let! l := copy_to_end n src (SIZE - 1) in copy_run l 0) h = Done (tt, h') /\
    tracks (repeat_from n o past) h' /\ h_ptr h' = h_ptr h + Z.of_nat n.
Proof.
  intros Ho. induction n as [|n IH]; intros past h src Ht Hs Hp Hr; cbn [copy_to_end].
  - exists h. split; [reflexivity|]. split; [exact Ht|lia].
  - destruct (Z.leb_spec src (SIZE - 1)) as [Hle|Hgt].
    + destruct (fetch_emit past h o src Ht Ho) as (b & h1 & Hf & He & Ht1 & Hp1);
        [lia|unfold source; destruct (Z.ltb_spec (h_ptr h - o) 0); lia|].
      destruct (IH _ h1 (src + 1) Ht1) as (h' & Hc & Ht' & Hp'); [lia..|].
      exists h'. rewrite bind_assoc, (bind_Done _ _ _ _ _ Hf), bind_assoc, (bind_Done _ _ _ _ _ He).
      split; [exact Hc|]. split; [exact Ht'|lia].
    + rewrite bind_ret. apply (copy_run_spec o (S n) Ho past h 0 Ht); lia.
Qed.

Lemma copy_match_spec o l past h : 1 <= o <= SIZE -> 0 <= l -> tracks past h -> h_ptr h + l <= SIZE ->
  exists h', copy_match (SIZE - 1) o l h = Done (tt, h') /\ tracks (repeat_from (Z.to_nat l) o past) h' /\
    h_ptr h' = h_ptr h + l.
Proof.
  intros Ho Hl Ht Hr. unfold copy_match. destruct (Z.leb_spec 0 (h_ptr h - o)) as [Hs|Hs].
  - destruct (copy_run_spec o (Z.to_nat l) Ho past h _ Ht eq_refl Hs) as (h' & E & Ht' & Hp); [lia|].
    exists h'. split; [exact E|]. split; [exact Ht'|lia].
  - destruct (copy_around_spec o (Z.to_nat l) Ho past h (SIZE - 1 - (o - h_ptr h) + 1) Ht) as (h' & E & Ht' & Hp); [lia..|].
    exists h'. split; [exact E|]. split; [exact Ht'|lia].
Qed.

(** ** The main loop *)

(** [b] are the bits still to come, and the word is as full as they allow. *)
Definition ready (b : list bool) (r : reader) : Prop :=
  exists w c, full w c r /\ w ++ c ++ byte_bits (cptr r) = b.

Lemma ready_next p b r : ready (p ++ b) r -> len p <= 32 ->
  exists q c cs, reads (p ++ q) c cs r /\ q ++ c ++ byte_bits cs = b.
Proof.
  intros (w & c & Hf & E) Hp. destruct (full_front p b w c r Hf E Hp) as (q & -> & Hq).
  exists q, c, (cptr r). split; [split; [exact (proj1 Hf)|reflexivity]|exact Hq].
Qed.

Lemma refill_ready q c cs r b : reads q c cs r -> q ++ c ++ byte_bits cs = b -> ready b (refill r).
Proof.
  intros [Hr Hc] E. destruct (refill_spec q c r Hr) as (w' & c' & Hf & E'). exists w', c'.
  split; [exact Hf|]. rewrite E', Hc. exact E.
Qed.

Lemma ready_more p b r : ready (p ++ b) r -> 8 <= len p <= 32 -> (8 <=? bits_left r) = true.
Proof.
  intros Hr Hp. destruct (ready_next p b r Hr ltac:(lia)) as (q & c & cs & [ [_ Hl _ _ _ _] _] & _).
  rewrite Hl. apply Z.leb_le. llia.
Qed.

Lemma ready_end b r : ready b r -> len b < 8 -> (8 <=? bits_left r) = false.
Proof.
  intros (w & c & [ [_ Hl _ _ _ _] _] & <-) Hb. rewrite Hl. apply Z.leb_gt. rewrite len_app in Hb. llia.
Qed.

Lemma literal_bits_len b : 8 <= len (literal_bits b) <= 32.
Proof. unfold literal_bits. destruct (b <? 128); vm_compute; split; discriminate. Qed.

Lemma lom_bits_len l : 3 <= l < 65536 -> 1 <= len (lom_bits l) <= 32.
Proof.
  intros Hl. unfold lom_bits. destruct (l =? 3); [vm_compute; split; discriminate|].
  pose proof (log2_below l 16 ltac:(cbn; lia)). unfold len.
  rewrite !length_app, length_replicate, length_bits_of. cbn [length]. lia.
Qed.

Section loop.
Context `{Format token_of lom_of offset_bits max_offset max_lom}.

Lemma encode_len t : valid max_offset max_lom t -> 8 <= len (encode offset_bits t).
Proof.
  destruct fmt_max. destruct t as [b|o l]; cbn [valid encode]; intros Hv.
  - apply literal_bits_len.
  - rewrite len_app. pose proof (fmt_offset_len o). llia.
Qed.

Lemma encodes_len ts : Forall (valid max_offset max_lom) ts -> 8 * len ts <= len (encodes offset_bits ts).
Proof.
  unfold encodes. induction 1 as [|t ts Ht _ IH]; [discriminate|]. cbn [map concat]. rewrite len_app, len_cons.
  pose proof (encode_len t Ht). lia.
Qed.

(** One round of the loop. *)
Lemma round_literal fuel lom b bs r past h : is_byte b -> ready (literal_bits b ++ bs) r ->
  tracks past h -> h_ptr h + 1 <= SIZE ->
  exists r' h', decode_loop token_of lom_of (SIZE - 1) (S fuel) lom r h
                = decode_loop token_of lom_of (SIZE - 1) fuel lom r' h' /\
    ready bs r' /\ tracks (past ++ [b]) h' /\ h_ptr h' = h_ptr h + 1.
Proof.
  intros Hb Hr Ht Hp. pose proof (literal_bits_len b) as Hl. cbn [decode_loop].
  rewrite (ready_more _ _ _ Hr Hl). destruct (ready_next _ _ _ Hr) as (q & c & cs & Hq & E); [lia|].
  destruct (fmt_literal b q c cs r h Hb Hq) as (r1 & Hk & Hr1).
  destruct (emit_spec past h b Ht ltac:(lia) Hb) as (h1 & He & Ht1 & Hp1).
  exists (refill r1), h1. rewrite (bind_Done _ _ _ (0, r1) h1) by (rewrite Hk, (bind_Done _ _ _ _ _ He); reflexivity).
  split; [reflexivity|]. split; [exact (refill_ready _ _ _ _ _ Hr1 E)|auto].
Qed.

Lemma round_copy fuel lom o l bs r past h : 1 <= o < max_offset -> 3 <= l < max_lom ->
  ready ((offset_bits o ++ lom_bits l) ++ bs) r -> tracks past h -> h_ptr h + l <= SIZE ->
  exists r' h', decode_loop token_of lom_of (SIZE - 1) (S fuel) lom r h
                = decode_loop token_of lom_of (SIZE - 1) fuel 0 r' h' /\
    ready bs r' /\ tracks (repeat_from (Z.to_nat l) o past) h' /\ h_ptr h' = h_ptr h + l.
Proof.
  intros Ho Hl Hr Ht Hp. destruct fmt_max as [Hmo Hml]. pose proof (fmt_offset_len o) as Hol.
  pose proof (lom_bits_len l ltac:(lia)) as Hll. rewrite <- app_assoc in Hr. cbn [decode_loop].
  rewrite (ready_more _ _ _ Hr Hol). destruct (ready_next _ _ _ Hr) as (q & c & cs & Hq & E); [lia|].
  destruct (fmt_offset o q c cs r h Ho Hq) as (r1 & Hk & Hr1). rewrite (bind_Done _ _ _ _ _ Hk).
  destruct (Z.eqb_spec o 0); [lia|]. apply refill_ready with (b := lom_bits l ++ bs) in Hr1; [|exact E].
  destruct (ready_next _ _ _ Hr1) as (q2 & c2 & cs2 & Hq2 & E2); [lia|].
  destruct (fmt_lom lom l q2 c2 cs2 (refill r1) Hl Hq2) as (r2 & -> & Hr2).
  destruct (copy_match_spec o l past h) as (h' & Hc & Ht' & Hp'); [unfold RDP6_HISTORY_BUF_SIZE; lia|lia|exact Ht|exact Hp|].
  exists (refill r2), h'. rewrite (bind_Done _ _ _ _ _ Hc). split; [reflexivity|].
  split; [exact (refill_ready _ _ _ _ _ Hr2 E2)|auto].
Qed.

Lemma decode_loop_spec ts pad : Forall (valid max_offset max_lom) ts -> len pad < 8 ->
  forall fuel lom r past h, (length ts <= fuel)%nat -> ready (encodes offset_bits ts ++ pad) r -> tracks past h ->
  h_ptr h + sizes ts <= SIZE ->
  exists h', decode_loop token_of lom_of (SIZE - 1) fuel lom r h = Done (tt, h') /\
    tracks (expand ts past) h' /\ h_ptr h' = h_ptr h + sizes ts.
Proof.
  intros Hts Hpad. induction Hts as [|t ts Ht Hts IH]; intros fuel lom r past h Hf Hr Hh Hs.
  - exists h. cbn [sizes fold_right] in *. split; [|split; [exact Hh|lia]].
    destruct fuel; cbn [decode_loop]; rewrite (ready_end _ _ Hr Hpad); reflexivity.
  - destruct fuel as [|fuel]; cbn [length] in Hf; [lia|]. cbn [sizes fold_right] in *. fold (sizes ts) in *.
    assert (0 <= sizes ts) by (destruct (expand_app _ _ ts Hts []) as (out & _ & <-); llia).
    unfold encodes in Hr. cbn [map concat] in Hr. fold (encodes offset_bits ts) in Hr. rewrite <- app_assoc in Hr.
    assert (exists lom' r' h', decode_loop token_of lom_of (SIZE - 1) (S fuel) lom r h
                = decode_loop token_of lom_of (SIZE - 1) fuel lom' r' h' /\
              ready (encodes offset_bits ts ++ pad) r' /\ tracks (extend past t) h' /\ h_ptr h' = h_ptr h + size t)
      as (lom' & r' & h' & -> & Hr' & Ht' & Hp').
    { destruct t as [b|o l]; cbn [size valid encode extend] in *.
      - exists lom. apply round_literal; auto. lia.
      - exists 0. apply round_copy; auto; [apply Ht..|lia]. }
    destruct (IH fuel lom' r' _ h' ltac:(lia) Hr' Ht') as (h2 & Hd & Ht2 & Hp2); [lia|].
    exists h2. split; [exact Hd|]. split; [exact Ht2|lia].
Qed.
End loop.

(** ** Packets *)

Definition mppc_ok (m : rdp_mppc) : Prop :=
  len (history_buf m) = SIZE /\ history_buf_end m = SIZE - 1 /\ 0 <= history_ptr m <= SIZE /\ is_bytes (history_buf m).

(** Where a packet is put. *)
Definition start (ctype : Z) (m : rdp_mppc) : Z :=
  if negb (Z.land ctype PACKET_AT_FRONT =? 0) then 0 else history_ptr m.

(** The bytes [out] were appended at [at_]: they are what [*roff] and [*rlen]
    delimit, and the history ends with them. *)
Definition appended (m : rdp_mppc) (at_ : Z) (out : list Z) (res : outcome (bool * Z * Z * rdp_mppc)) : Prop :=
  exists m', res = Done ((true, at_, len out), m') /\ mppc_ok m' /\ history_ptr m' = at_ + len out /\
    take (length out) (drop (Z.to_nat at_) (history_buf m')) = out /\
    window (history_buf m') (history_ptr m') = drop (length out) (window (history_buf m) at_ ++ out).

Lemma tracked_slice buf at_ out h : tracks (window buf at_ ++ out) h -> len buf = SIZE -> 0 <= at_ ->
  h_ptr h = at_ + len out ->
  take (length out) (drop (Z.to_nat at_) (h_buf h)) = out /\
  window (h_buf h) (h_ptr h) = drop (length out) (window buf at_ ++ out).
Proof.
  intros (Hl & Hp & _ & old & E) Hb Ha Hptr. fold (window (h_buf h) (h_ptr h)) in E. unfold len in *.
  assert (Hw : forall b p, length (window b p) = length b)
    by (intros b p; unfold window; rewrite length_app, length_drop, length_take; lia).
  split.
  - unfold window in E at 2.
    replace (Z.to_nat (h_ptr h)) with (Z.to_nat at_ + length out)%nat in E by lia.
    rewrite <- (take_take_drop (h_buf h) (Z.to_nat at_)) in E.
    rewrite !app_assoc in E. apply app_inj_2 in E as [_ E]; [symmetry; exact E|].
    rewrite length_take, length_drop. lia.
  - rewrite E, drop_app_length'; [reflexivity|]. apply (f_equal length) in E.
    rewrite !length_app, !Hw in E. lia.
Qed.

Lemma tracked_bytes past h : tracks past h -> is_bytes (h_buf h).
Proof.
  intros (_ & _ & Hb & old & ->). apply Forall_app in Hb as [_ Hb]. apply Forall_app in Hb as [Hd Ht].
  rewrite <- (take_drop (Z.to_nat (h_ptr h)) (h_buf h)). apply Forall_app. auto.
Qed.

(** ** What a packet appends *)

Lemma appended_run (run : M history unit) (m : rdp_mppc) at_ out :
  mppc_ok m -> 0 <= at_ -> at_ + len out <= SIZE ->
  (exists h', run (mkHist (history_buf m) at_) = Done (tt, h') /\ tracks (window (history_buf m) at_ ++ out) h' /\
     h_ptr h' = at_ + len out) ->
  appended m at_ out
    (match run (mkHist (history_buf m) at_) with
     | Fault f => Fault f
     | Done (_, h) => Done ((true, at_, uint32 (h_ptr h - at_)),
                            mkMppc (h_buf h) (offset_cache m) (history_buf_end m) (h_ptr h))
     end).
Proof.
  intros (Hl & He & Hp & Hb) Ha Hs (h' & -> & Ht & Hp'). eexists. split.
  - do 2 f_equal. f_equal. rewrite Hp'. unfold uint32, RDP6_HISTORY_BUF_SIZE in *. rewrite Z.mod_small by llia. lia.
  - cbn [history_buf history_ptr history_buf_end]. destruct (tracked_slice _ _ _ _ Ht Hl Ha Hp') as [Hsl Hw].
    split; [|auto]. unfold mppc_ok. cbn [history_buf history_ptr history_buf_end].
    pose proof (tracked_bytes _ _ Ht). destruct Ht as (Hl' & Hp2 & _). auto.
Qed.

(** The plain branch and the compressed branch of a packet that is not flushed. *)
Lemma decompress_with_runs token_of lom_of cbuf ctype m : Z.land ctype PACKET_FLUSHED = 0 ->
  let run := if negb (Z.land ctype PACKET_COMPRESSED =? PACKET_COMPRESSED)
             then fold_right (fun b c => emit b;; c) (ret tt) cbuf
             else decode_loop token_of lom_of (history_buf_end m) (S (length cbuf)) 0 (load_initial cbuf) in
  decompress_with token_of lom_of cbuf ctype m =
    match run (mkHist (history_buf m) (start ctype m)) with
    | Fault f => Fault f
    | Done (_, h) => Done ((true, start ctype m, uint32 (h_ptr h - start ctype m)),
                           mkMppc (h_buf h) (offset_cache m) (history_buf_end m) (h_ptr h))
    end.
Proof.
  intros Hf run. unfold decompress_with, start, run. rewrite Hf.
  destruct (negb (Z.land ctype PACKET_AT_FRONT =? 0)); reflexivity.
Qed.

Lemma start_ok ctype m : mppc_ok m -> 0 <= start ctype m <= SIZE.
Proof.
  intros (_ & _ & Hp & _). unfold start. destruct (negb _); [unfold RDP6_HISTORY_BUF_SIZE; lia|exact Hp].
Qed.

Section packets.
Context `{Format token_of lom_of offset_bits max_offset max_lom}.

Lemma decode_loop_runs buf at_ cbuf ts pad : len buf = SIZE -> 0 <= at_ <= SIZE -> is_bytes buf -> is_bytes cbuf ->
  byte_bits cbuf = encodes offset_bits ts ++ pad -> len pad < 8 -> Forall (valid max_offset max_lom) ts ->
  at_ + sizes ts <= SIZE ->
  exists h', decode_loop token_of lom_of (SIZE - 1) (S (length cbuf)) 0 (load_initial cbuf) (mkHist buf at_) = Done (tt, h') /\
    tracks (expand ts (window buf at_)) h' /\ h_ptr h' = at_ + sizes ts.
Proof.
  intros Hl Ha Hb Hc Hbits Hpad Hts Hs.
  destruct (load_initial_spec cbuf Hc) as (w & c & Hw & E). rewrite Hbits in E.
  apply (decode_loop_spec ts pad Hts Hpad _ _ _ _ (mkHist buf at_));
    [|exists w, c; auto|exact (window_tracks _ _ Hl Ha Hb)|exact Hs].
  pose proof (encodes_len ts Hts). assert (len (byte_bits cbuf) = 8 * len cbuf) as Hbl.
  { clear. induction cbuf as [|b cs IH]; [reflexivity|]. rewrite byte_bits_cons, len_app, len_bits_of, len_cons, IH. lia. }
  rewrite Hbits, len_app in Hbl. unfold len in *. lia.
Qed.

Lemma decompress_with_correct m ctype cbuf ts pad : mppc_ok m -> is_bytes cbuf ->
  Z.land ctype PACKET_FLUSHED = 0 -> Z.land ctype PACKET_COMPRESSED = PACKET_COMPRESSED ->
  byte_bits cbuf = encodes offset_bits ts ++ pad -> len pad < 8 -> Forall (valid max_offset max_lom) ts ->
  start ctype m + sizes ts <= SIZE ->
  exists out, expand ts (window (history_buf m) (start ctype m)) = window (history_buf m) (start ctype m) ++ out /\
    appended m (start ctype m) out (decompress_with token_of lom_of cbuf ctype m).
Proof.
  intros Hm Hc Hf Hcm Hbits Hpad Hts Hs. pose proof (start_ok ctype m Hm) as Ha.
  destruct (expand_app _ _ ts Hts (window (history_buf m) (start ctype m))) as (out & Ho & Hlo).
  exists out. split; [exact Ho|]. rewrite decompress_with_runs, Hcm, Z.eqb_refl by exact Hf. cbn [negb].
  apply appended_run; [exact Hm|lia|lia|]. destruct Hm as (Hl & -> & Hp & Hb).
  rewrite <- Ho, Hlo. exact (decode_loop_runs _ _ _ _ _ Hl Ha Hb Hc Hbits Hpad Hts Hs).
Qed.

Lemma emits_spec bs : is_bytes bs -> forall past h, tracks past h -> h_ptr h + len bs <= SIZE ->
  exists h', fold_right (fun b c => emit b;; c) (ret tt) bs h = Done (tt, h') /\ tracks (past ++ bs) h' /\
    h_ptr h' = h_ptr h + len bs.
Proof.
  induction 1 as [|b bs Hb Hbs IH]; intros past h Ht Hs; cbn [fold_right].
  - exists h. rewrite app_nil_r. split; [reflexivity|]. split; [exact Ht|llia].
  - rewrite len_cons in *. destruct (emit_spec past h b Ht) as (h1 & E1 & Ht1 & Hp1); [llia|exact Hb|].
    destruct (IH _ h1 Ht1) as (h' & E' & Ht' & Hp'); [lia|]. exists h'. rewrite (bind_Done _ _ _ _ _ E1).
    rewrite <- app_assoc in Ht'. split; [exact E'|]. split; [exact Ht'|lia].
Qed.

Lemma decompress_with_plain m ctype cbuf : mppc_ok m -> is_bytes cbuf ->
  Z.land ctype PACKET_FLUSHED = 0 -> Z.land ctype PACKET_COMPRESSED = 0 -> start ctype m + len cbuf <= SIZE ->
  appended m (start ctype m) cbuf (decompress_with token_of lom_of cbuf ctype m).
Proof.
  intros Hm Hc Hf Hcm Hs. pose proof (start_ok ctype m Hm) as Ha.
  rewrite decompress_with_runs, Hcm by exact Hf. cbn [negb PACKET_COMPRESSED Z.eqb].
  apply appended_run; [exact Hm|lia|lia|]. destruct Hm as (Hl & _ & Hp & Hb).
  exact (emits_spec cbuf Hc _ _ (window_tracks _ _ Hl Ha Hb) Hs).
Qed.
End packets.

(** ** The two variants *)

#[export] Instance format_4 : Format token_4 lom_4 offset_bits_4 8192 8192.
Proof.
  split; [exact token_4_literal|exact token_4_offset|exact lom_4_spec|exact offset_bits_4_len|lia].
Qed.

#[export] Instance format_5 : Format token_5 lom_5 offset_bits_5 65536 65536.
Proof.
  split; [exact token_5_literal|exact token_5_offset|exact lom_5_spec|exact offset_bits_5_len|lia].
Qed.

(** ** Every packet is decoded in finitely many rounds *)

Definition stops {S A} (c : M S A) : Prop := forall s, c s <> Fault Diverges.

Lemma stops_bind {S A B} (c : M S A) (k : A -> M S B) : stops c -> (forall a, stops (k a)) -> stops (bind c k).
Proof.
  intros Hc Hk s. specialize (Hc s). unfold bind. destruct (c s) as [ [a s']|f]; [apply Hk|congruence].
Qed.

Lemma stops_ret {S A} (a : A) : stops (ret (S := S) a).
Proof. intros s. discriminate. Qed.

Lemma stops_emit v : stops (emit v).
Proof. intros h. unfold emit. destruct (bool_decide _); discriminate. Qed.

Lemma stops_fetch i : stops (fetch i).
Proof. intros h. unfold fetch. destruct (bool_decide _); discriminate. Qed.

Lemma stops_copy_run n : forall src, stops (copy_run n src).
Proof. induction n; intros src; cbn; auto using stops_bind, stops_ret, stops_emit, stops_fetch. Qed.

Lemma stops_copy_to_end n e : forall src, stops (copy_to_end n src e).
Proof.
  induction n; intros src; cbn; [apply stops_ret|].
  destruct (src <=? e); auto using stops_bind, stops_ret, stops_emit, stops_fetch.
Qed.

Lemma stops_copy_match e o l : stops (copy_match e o l).
Proof.
  intros h. unfold copy_match. destruct (0 <=? h_ptr h - o); [apply stops_copy_run|].
  apply stops_bind; intros; [apply stops_copy_to_end|apply stops_copy_run].
Qed.

Lemma stops_emits bs : stops (fold_right (fun b c => emit b;; c) (ret tt) bs).
Proof. induction bs; cbn; auto using stops_bind, stops_ret, stops_emit. Qed.

(** The bits a reader has left. *)
Definition bits (r : reader) : Z := bits_left r + cur_bits_left r + 8 * len (cptr r).

Definition sane (r : reader) : Prop := bits_left r <= 32 /\ 0 <= cur_bits_left r <= 8.

Lemma refill_loop_bits : forall c tmp d bl cb cbl, bl <= 32 -> 0 <= cbl <= 8 -> tmp = 32 - bl ->
  sane (refill_loop c tmp d bl cb cbl) /\ bits (refill_loop c tmp d bl cb cbl) <= bl + cbl + 8 * len c.
Proof.
  unfold sane, bits. induction c as [|b c IH]; intros tmp d bl cb cbl Hb Hc ->; cbn [refill_loop];
    (destruct (Z.eqb_spec (32 - bl) 0); [cbn; llia|]);
    (destruct (Z.ltb_spec cbl (32 - bl)); [|destruct (Z.ltb_spec (32 - bl) cbl)]); cbn [bits_left cur_bits_left cptr];
    rewrite ?len_cons; try llia.
  destruct (IH (32 - bl - cbl) (Z.lor d (uint32 (Z.shiftl (Z.shiftr cb (8 - cbl)) (32 - bl - cbl)))) (bl + cbl) b 8); llia.
Qed.

Lemma refill_bits r : sane r -> sane (refill r) /\ bits (refill r) <= bits r.
Proof. intros [Hb Hc]. exact (refill_loop_bits _ _ _ _ _ _ Hb Hc eq_refl). Qed.

Lemma consume_bits n r : 0 <= n -> sane r -> sane (consume n r) /\ bits (consume n r) = bits r - n.
Proof. unfold sane, bits, consume. cbn. lia. Qed.

Lemma load_word_bits : forall c d bl tmp, bl <= 24 -> tmp = 24 - bl -> let '(_, bl', c') := load_word c d bl tmp in
  bl' <= 32 /\ bl' + 8 * len c' = bl + 8 * len c.
Proof.
  induction c as [|b c IH]; intros d bl tmp Hb ->; cbn [load_word]; [lia|]. rewrite len_cons.
  destruct (Z.ltb_spec (24 - bl - 8) 0); [lia|].
  specialize (IH (Z.lor d (Z.shiftl b (24 - bl))) (bl + 8) (24 - bl - 8) ltac:(lia) ltac:(lia)).
  destruct (load_word _ _ _ _) as [[d' bl'] c']. lia.
Qed.

Lemma load_initial_bits cbuf : sane (load_initial cbuf) /\ bits (load_initial cbuf) = 8 * len cbuf.
Proof.
  unfold load_initial. pose proof (load_word_bits cbuf 0 0 24 ltac:(lia) eq_refl) as H.
  destruct (load_word cbuf 0 0 24) as [[d bl] c]. unfold sane, bits. destruct c as [|b c]; cbn [bits_left cur_bits_left cptr];
    rewrite ?len_cons, ?len_nil in *; lia.
Qed.

(** What a variant adds: a token uses at least eight bits, a length none it does not have. *)
Class Progress (token_of : reader -> M history (Z * reader)) (lom_of : Z -> reader -> Z * reader) : Prop := {
  token_stops r : stops (token_of r);
  token_bits r h o r' h' : sane r -> token_of r h = Done ((o, r'), h') -> sane r' /\ bits r' + 8 <= bits r;
  lom_progress old r : sane r -> sane (snd (lom_of old r)) /\ bits (snd (lom_of old r)) <= bits r;
}.

Lemma decode_loop_stops `{Progress token_of lom_of} e : forall fuel lom r, sane r -> bits r < 8 * (Z.of_nat fuel + 1) ->
  stops (decode_loop token_of lom_of e fuel lom r).
Proof.
  induction fuel as [|fuel IH]; intros lom r Hr Hb h; cbn [decode_loop];
    destruct (Z.leb_spec 8 (bits_left r)) as [Hl|Hl]; try discriminate.
  - unfold sane, bits in *. llia.
  - unfold bind at 1. pose proof (token_stops r h) as Hs.
    destruct (token_of r h) as [ [ [o r1] h1]|f] eqn:E; [|congruence].
    destruct (token_bits r h o r1 h1 Hr E) as [Hr1 Hb1]. destruct (refill_bits r1 Hr1) as [Hr2 Hb2].
    destruct (o =? 0); [apply IH; [exact Hr2|lia]|].
    destruct (lom_progress lom (refill r1) Hr2) as [Hr3 Hb3]. destruct (lom_of lom (refill r1)) as [l r3].
    cbn [snd] in *. destruct (refill_bits r3 Hr3) as [Hr4 Hb4].
    apply stops_bind; [apply stops_copy_match|]. intros _. apply IH; [exact Hr4|lia].
Qed.

Lemma decompress_with_stops `{Progress token_of lom_of} cbuf ctype : stops (decompress_with token_of lom_of cbuf ctype).
Proof.
  intros m. unfold decompress_with.
  destruct (if negb (Z.land ctype PACKET_FLUSHED =? 0) then _ else _) as [h roff].
  set (m' := if negb (Z.land ctype PACKET_AT_FRONT =? 0) then _ else m). clearbody m'.
  destruct (load_initial_bits cbuf) as [Hs Hb].
  assert (stops (if negb (Z.land ctype PACKET_COMPRESSED =? PACKET_COMPRESSED)
    then fold_right (fun b c => emit b;; c) (ret tt) cbuf
    else decode_loop token_of lom_of (history_buf_end m') (S (length cbuf)) 0 (load_initial cbuf))) as Hr.
  { destruct (negb _); [apply stops_emits|apply decode_loop_stops; [exact Hs|unfold len in Hb; lia]]. }
  specialize (Hr h). destruct (_ h) as [ [u h']|f]; [discriminate|congruence].
Qed.

(** The first bits of a word, whatever they are, select a token. *)
Definition top5 (r : reader) : Z := (d32 r / 2 ^ 27) mod 32.

Lemma has_top5 k v r mask bits : 1 <= k <= 5 -> mask = (2 ^ k - 1) * 2 ^ (32 - k) -> bits = v * 2 ^ (32 - k) ->
  has mask bits r = (top5 r / 2 ^ (5 - k) =? v).
Proof.
  intros Hk Hm Hb. rewrite (has_mod k (32 - k) v) by (assumption || lia). f_equal. unfold top5.
  replace (32 - k) with (27 + (5 - k)) by lia. change 32 with (2 ^ 5).
  rewrite Z.pow_add_r, <- Z.div_div by lia. set (x := d32 r / 2 ^ 27). clearbody x.
  rewrite <- !Z.land_ones, <- !Z.shiftr_div_pow2 by lia. apply Z.bits_inj'. intros i Hi.
  rewrite Z.shiftr_spec, !Z.land_spec, Z.shiftr_spec by lia. f_equal.
  destruct (Z.lt_ge_cases i k); [rewrite !Z.ones_spec_low by lia|rewrite !Z.ones_spec_high by lia]; reflexivity.
Qed.

Lemma top5_bound r : 0 <= top5 r < 32.
Proof. apply Z.mod_pos_bound. lia. Qed.

Ltac tops r :=
  repeat first
  [ rewrite (has_top5 1 0 r 0x80000000) by (reflexivity || lia)
  | rewrite (has_top5 2 2 r 0xc0000000) by (reflexivity || lia)
  | rewrite (has_top5 3 6 r 0xe0000000) by (reflexivity || lia)
  | rewrite (has_top5 4 14 r 0xf0000000 0xe0000000) by (reflexivity || lia)
  | rewrite (has_top5 4 15 r 0xf0000000 0xf0000000) by (reflexivity || lia)
  | rewrite (has_top5 5 30 r 0xf8000000 0xf0000000) by (reflexivity || lia)
  | rewrite (has_top5 5 31 r 0xf8000000 0xf8000000) by (reflexivity || lia) ].

Inductive selects (r : reader) : M history (Z * reader) -> Prop :=
  | selects_literal : selects r (literal r)
  | selects_encoded : selects r (encoded_literal r)
  | selects_copy p n base : 0 <= p -> 0 <= n -> 8 <= p + n -> selects r (copy_offset p n base r).

Ltac select_top r :=
  tops r; pose proof (top5_bound r); generalize dependent (top5 r); intros x Hx; cbn [Z.sub Z.pow Z.pow_pos Pos.iter Z.mul Pos.mul];
  repeat match goal with |- context [?a =? ?b] => destruct (Z.eqb_spec a b) end;
  first [apply selects_literal | apply selects_encoded | apply selects_copy; lia | exfalso; dlia].

Lemma token_4_selects r : selects r (token_4 r).
Proof. unfold token_4. select_top r. Qed.

Lemma token_5_selects r : selects r (token_5 r).
Proof. unfold token_5. select_top r. Qed.

Lemma selects_stops r c : selects r c -> stops c.
Proof.
  destruct 1; unfold literal, encoded_literal, copy_offset; auto using stops_bind, stops_emit, stops_ret.
Qed.

Lemma selects_bits r c h o r' h' : selects r c -> sane r -> c h = Done ((o, r'), h') -> sane r' /\ bits r' + 8 <= bits r.
Proof.
  intros Hs [Hb Hc] E. unfold sane, bits. destruct Hs; unfold literal, encoded_literal, copy_offset in E;
    try run_inv E; inversion E; subst; cbn [consume bits_left cur_bits_left cptr]; lia.
Qed.

Lemma lom_4_bits old r : sane r -> sane (snd (lom_4 old r)) /\ bits (snd (lom_4 old r)) <= bits r.
Proof.
  intros [Hb Hc]. unfold lom_4, match_length, sane, bits.
  repeat match goal with |- context [has ?m ?b r] => destruct (has m b r) end;
    cbn [snd consume bits_left cur_bits_left cptr]; lia.
Qed.

Lemma lom_5_bits old r : sane r -> sane (snd (lom_5 old r)) /\ bits (snd (lom_5 old r)) <= bits r.
Proof.
  intros [Hb Hc]. unfold lom_5, match_length, sane, bits.
  repeat match goal with |- context [has ?m ?b r] => destruct (has m b r) end;
    cbn [snd consume bits_left cur_bits_left cptr]; lia.
Qed.

#[export] Instance progress_4 : Progress token_4 lom_4.
Proof.
  split; [intros; eapply selects_stops, token_4_selects| |exact lom_4_bits].
  intros r h o r' h'. apply selects_bits, token_4_selects.
Qed.

#[export] Instance progress_5 : Progress token_5 lom_5.
Proof.
  split; [intros; eapply selects_stops, token_5_selects| |exact lom_5_bits].
  intros r h o r' h'. apply selects_bits, token_5_selects.
Qed.

(** ** The decoders *)

(** C13. The 64K decoder: a compressed packet whose bits encode literals and
    copies out of the last 65536 bytes, padded to a byte, is accepted; [roff]
    and [rlen] delimit exactly the bytes the tokens stand for, which now end the
    history, and the decoder is ready for the next packet. The packet is not
    marked PACKET_FLUSHED, for which [flushed_length_wraps] shows a wrong length,
    and its bytes fit into what is left of the history. *)
Theorem decompress_64k m ctype cbuf ts pad : mppc_ok m -> is_bytes cbuf ->
  Z.land ctype 0x0f = PACKET_COMPR_TYPE_64K -> Z.land ctype PACKET_FLUSHED = 0 ->
  Z.land ctype PACKET_COMPRESSED = PACKET_COMPRESSED ->
  byte_bits cbuf = encodes offset_bits_5 ts ++ pad -> len pad < 8 -> Forall (valid 65536 65536) ts ->
  start ctype m + sizes ts <= SIZE ->
  exists out, expand ts (window (history_buf m) (start ctype m)) = window (history_buf m) (start ctype m) ++ out /\
    appended m (start ctype m) out (decompress_rdp cbuf ctype m).
Proof.
  intros Hm Hc Ht Hf Hcm Hbits Hp Hts Hs. unfold decompress_rdp. rewrite Ht.
  exact (decompress_with_correct m ctype cbuf ts pad Hm Hc Hf Hcm Hbits Hp Hts Hs).
Qed.

(** The 8K decoder, with its own offsets and lengths below 8192. *)
Theorem decompress_8k m ctype cbuf ts pad : mppc_ok m -> is_bytes cbuf ->
  Z.land ctype 0x0f = PACKET_COMPR_TYPE_8K -> Z.land ctype PACKET_FLUSHED = 0 ->
  Z.land ctype PACKET_COMPRESSED = PACKET_COMPRESSED ->
  byte_bits cbuf = encodes offset_bits_4 ts ++ pad -> len pad < 8 -> Forall (valid 8192 8192) ts ->
  start ctype m + sizes ts <= SIZE ->
  exists out, expand ts (window (history_buf m) (start ctype m)) = window (history_buf m) (start ctype m) ++ out /\
    appended m (start ctype m) out (decompress_rdp cbuf ctype m).
Proof.
  intros Hm Hc Ht Hf Hcm Hbits Hp Hts Hs. unfold decompress_rdp. rewrite Ht.
  exact (decompress_with_correct m ctype cbuf ts pad Hm Hc Hf Hcm Hbits Hp Hts Hs).
Qed.

(** C14. Whatever a peer sends, and whatever the state of the history, the decoder
    returns or leaves a buffer: it does not loop. *)
Theorem decompress_ends cbuf ctype m : decompress_rdp cbuf ctype m <> Fault Diverges.
Proof.
  revert m. change (stops (decompress_rdp cbuf ctype)). unfold decompress_rdp.
  repeat destruct (_ =? _); [apply decompress_with_stops..| |apply stops_ret|apply stops_ret].
  intros m. unfold decompress_rdp_6, slide, copy_in.
  repeat first [discriminate | match goal with
    | |- context [if ?b then _ else _] => destruct b
    end].
Qed.

(** ** A sequence of packets *)

Lemma repeat_from_suffix o n old : 1 <= o -> forall past, o <= len past ->
  repeat_from n o (old ++ past) = old ++ repeat_from n o past.
Proof.
  intros Ho. induction n as [|n IH]; intros past Hp; cbn [repeat_from]; [reflexivity|].
  rewrite <- app_assoc, IH by (rewrite len_app; llia). do 4 f_equal. unfold len in *.
  rewrite length_app, lookup_app_r by lia. f_equal. f_equal. lia.
Qed.

Lemma extend_suffix old past t : valid 65536 65536 t -> SIZE <= len past ->
  extend (old ++ past) t = old ++ extend past t /\ len past <= len (extend past t).
Proof.
  unfold RDP6_HISTORY_BUF_SIZE. destruct t as [b|o l]; cbn [valid extend]; intros Hv Hp.
  - rewrite <- app_assoc, len_app. split; [reflexivity|llia].
  - rewrite repeat_from_suffix by lia. split; [reflexivity|]. unfold len. rewrite length_repeat_from. lia.
Qed.

(** Tokens do not reach back behind a whole history. *)
Lemma expand_suffix old ts : Forall (valid 65536 65536) ts -> forall past, SIZE <= len past ->
  expand ts (old ++ past) = old ++ expand ts past.
Proof.
  induction 1 as [|t ts Ht _ IH]; intros past Hp; [reflexivity|]. unfold expand. cbn [fold_left].
  destruct (extend_suffix old past t Ht Hp) as [-> Hl]. apply IH. lia.
Qed.

Lemma len_window buf p : len (window buf p) = len buf.
Proof. unfold window, len. rewrite length_app, length_drop, length_take. lia. Qed.

Definition slice (roff rlen : Z) : M rdp_mppc (list Z) := fun m =>
  Done (take (Z.to_nat rlen) (drop (Z.to_nat roff) (history_buf m)), m).

(** What a client does with a sequence of compressed packets: it takes from the
    history what each of them delimits. *)
Fixpoint decompress_all (ps : list (list Z * Z)) : M rdp_mppc (list (list Z)) :=
  match ps with
  | [] => ret []
  | (cbuf, ctype) :: ps' =>
      let! (_, roff, rlen) := decompress_rdp cbuf ctype in
      let! out := slice roff rlen in
      let! outs := decompress_all ps' in
      ret (out :: outs)
  end.

(** A 64K packet that continues the history. *)
Record encodes_packet (ts : list token) (p : list Z * Z) : Prop := {
  ep_bytes : is_bytes p.1;
  ep_type : Z.land p.2 0x0f = PACKET_COMPR_TYPE_64K;
  ep_front : Z.land p.2 PACKET_AT_FRONT = 0;
  ep_flushed : Z.land p.2 PACKET_FLUSHED = 0;
  ep_compressed : Z.land p.2 PACKET_COMPRESSED = PACKET_COMPRESSED;
  ep_bits : exists pad, byte_bits p.1 = encodes offset_bits_5 ts ++ pad /\ len pad < 8;
  ep_valid : Forall (valid 65536 65536) ts;
}.

Lemma decompress_packet ts p m : encodes_packet ts p -> mppc_ok m -> history_ptr m + sizes ts <= SIZE ->
  exists out m', decompress_rdp p.1 p.2 m = Done ((true, history_ptr m, len out), m') /\ mppc_ok m' /\
    len out = sizes ts /\ history_ptr m' = history_ptr m + len out /\
    slice (history_ptr m) (len out) m' = Done (out, m') /\
    expand ts (window (history_buf m) (history_ptr m)) = window (history_buf m) (history_ptr m) ++ out /\
    exists old, window (history_buf m) (history_ptr m) ++ out = old ++ window (history_buf m') (history_ptr m').
Proof.
  intros [Hb Ht Hfr Hf Hc (pad & Hbits & Hpad) Hv] Hm Hs.
  assert (Hst : start p.2 m = history_ptr m) by (unfold start; rewrite Hfr; reflexivity).
  pose proof (decompress_with_correct (offset_bits := offset_bits_5) m p.2 p.1 ts pad Hm Hb Hf Hc Hbits Hpad Hv) as H.
  rewrite Hst in H. destruct (H Hs) as (out & Ho & m' & E & Hm' & Hp & Hsl & Hw).
  destruct (expand_app _ _ ts Hv (window (history_buf m) (history_ptr m))) as (out' & Ho' & Hlo).
  rewrite Ho in Ho'. apply app_inv_head in Ho'. subst out'.
  exists out, m'. unfold decompress_rdp. rewrite Ht. split; [exact E|]. split; [exact Hm'|]. split; [exact Hlo|].
  split; [exact Hp|]. split; [unfold slice, len; rewrite Nat2Z.id, Hsl; reflexivity|]. split; [exact Ho|].
  exists (take (length out) (window (history_buf m) (history_ptr m) ++ out)). rewrite Hw, take_drop. reflexivity.
Qed.

Fixpoint total (tss : list (list token)) : Z :=
  match tss with [] => 0 | ts :: tss' => sizes ts + total tss' end.

Lemma total_nonneg tss ps : Forall2 encodes_packet tss ps -> 0 <= total tss.
Proof.
  induction 1 as [|ts p tss ps Hp _ IH]; cbn [total]; [lia|].
  destruct (expand_app _ _ ts (ep_valid _ _ Hp) []) as (out & _ & <-). llia.
Qed.

(** A client that decompresses one packet after the other obtains, packet by
    packet, what the peer's tokens stand for when they are read as one stream
    over everything decoded before: matches reach back across packets. *)
Lemma decompress_session tss ps m : Forall2 encodes_packet tss ps -> mppc_ok m -> history_ptr m + total tss <= SIZE ->
  exists outs m', decompress_all ps m = Done (outs, m') /\ mppc_ok m' /\
    map (len (A := Z)) outs = map sizes tss /\
    expand (concat tss) (window (history_buf m) (history_ptr m))
    = window (history_buf m) (history_ptr m) ++ concat outs.
Proof.
  intros Hps. revert m. induction Hps as [|ts p tss ps Hp Hps IH]; intros m Hm Hs; cbn [total] in Hs.
  - exists [], m. rewrite app_nil_r. auto.
  - assert (Hv : Forall (valid 65536 65536) (concat tss)).
    { clear - Hps. induction Hps as [|ts p tss ps Hp _ IH]; [constructor|]. apply Forall_app. split; [apply Hp|exact IH]. }
    pose proof (total_nonneg _ _ Hps).
    destruct (decompress_packet ts p m Hp Hm) as (out & m1 & E1 & Hm1 & Hlo & Hp1 & Hsl & Ho & old & Hold); [lia|].
    destruct (IH m1 Hm1 ltac:(lia)) as (outs & m' & E & Hm' & Hl & He).
    exists (out :: outs), m'. destruct p as [cbuf ctype]. cbn [decompress_all fst snd] in *.
    split; [rewrite (bind_Done _ _ _ _ _ E1), (bind_Done _ _ _ _ _ Hsl), (bind_Done _ _ _ _ _ E); reflexivity|].
    split; [exact Hm'|]. cbn [map concat]. split; [rewrite Hl, Hlo; reflexivity|].
    unfold expand in *. rewrite fold_left_app, Ho, Hold.
    change (expand (concat tss) (old ++ window (history_buf m1) (history_ptr m1))
            = window (history_buf m) (history_ptr m) ++ out ++ concat outs).
    rewrite expand_suffix; [|exact Hv|rewrite len_window; destruct Hm1 as [-> _]; lia].
    unfold expand. rewrite He, app_assoc, <- Hold, app_assoc. reflexivity.
Qed.

Lemma decompress_type_64k cbuf ctype m : Z.land ctype 0x0f = PACKET_COMPR_TYPE_64K ->
  decompress_rdp cbuf ctype m = decompress_rdp_5 cbuf ctype m.
Proof. intros Ht. unfold decompress_rdp. rewrite Ht. reflexivity. Qed.

(** A packet marked flushed starts an empty history, but its length is counted
    from where the last packet ended. *)

(** A flushed packet that is not also put at the front: the history starts
    anew at offset 0, and the length reported is the difference to the old
    write pointer, modulo 2^32, instead of the number of bytes decoded. *)
Theorem flushed_length_wraps ts pad ctype cbuf m : mppc_ok m -> is_bytes cbuf ->
  Z.land ctype 0x0f = PACKET_COMPR_TYPE_64K -> Z.land ctype PACKET_AT_FRONT = 0 ->
  Z.land ctype PACKET_FLUSHED = PACKET_FLUSHED -> Z.land ctype PACKET_COMPRESSED = PACKET_COMPRESSED ->
  byte_bits cbuf = encodes offset_bits_5 ts ++ pad -> len pad < 8 -> Forall (valid 65536 65536) ts ->
  sizes ts <= SIZE ->
  exists m', decompress_rdp cbuf ctype m = Done ((true, 0, (sizes ts - history_ptr m) mod 2 ^ 32), m') /\
    history_ptr m' = sizes ts.
Proof.
  intros Hm Hb Ht Hfr Hf Hc Hbits Hpad Hv Hs. destruct Hm as (Hl & He & Hp & Hby).
  rewrite (decompress_type_64k _ _ _ Ht). unfold decompress_rdp_5, decompress_with. rewrite Hfr, Hf, Hc. cbn [Z.eqb negb PACKET_FLUSHED PACKET_COMPRESSED Pos.eqb].
  assert (Hz : is_bytes (replicate (length (history_buf m)) 0)) by (apply Forall_replicate; split; reflexivity || lia).
  destruct (decode_loop_runs (offset_bits := offset_bits_5) (replicate (length (history_buf m)) 0) 0 cbuf ts pad)
    as (h' & Hd & _ & Hp'); auto; [rewrite len_replicate; exact Hl|unfold RDP6_HISTORY_BUF_SIZE; lia|].
  cbn [history_buf_end]. rewrite He, Hd. rewrite Z.add_0_l in Hp'. eexists. split; [rewrite Hp'; reflexivity|reflexivity].
Qed.

(** The history is full and a packet neither flushes it nor starts over:
    the first byte it decodes is written behind the history buffer. *)
Theorem full_history_overflows m ctype cbuf b rest : mppc_ok m -> history_ptr m = SIZE -> is_bytes cbuf -> is_byte b ->
  Z.land ctype 0x0f = PACKET_COMPR_TYPE_64K -> Z.land ctype PACKET_AT_FRONT = 0 ->
  Z.land ctype PACKET_FLUSHED = 0 -> Z.land ctype PACKET_COMPRESSED = PACKET_COMPRESSED ->
  byte_bits cbuf = literal_bits b ++ rest ->
  decompress_rdp cbuf ctype m = Fault OutOfBounds.
Proof.
  intros (Hl & He & _ & _) Hp Hc Hb Ht Hfr Hf Hcm Hbits.
  rewrite (decompress_type_64k _ _ _ Ht). unfold decompress_rdp_5. rewrite decompress_with_runs, Hcm, Z.eqb_refl by exact Hf.
  unfold start. rewrite Hfr. cbn [negb Z.eqb].
  destruct (load_initial_spec cbuf Hc) as (w & c & Hw & E). rewrite Hbits in E.
  assert (Hr : ready (literal_bits b ++ rest) (load_initial cbuf)) by (exists w, c; auto).
  cbn [decode_loop]. rewrite (ready_more _ _ _ Hr (literal_bits_len b)).
  destruct (ready_next _ _ _ Hr) as (q & c' & cs & Hq & _); [apply literal_bits_len|].
  set (h := mkHist _ _). destruct (token_5_literal b q c' cs (load_initial cbuf) h Hb Hq) as (r' & Hk & _).
  rewrite (bind_Fault _ _ _ OutOfBounds); [reflexivity|]. rewrite Hk. apply bind_Fault. unfold emit, h. cbn [h_ptr h_buf].
  rewrite bool_decide_eq_false_2 by lia. reflexivity.
Qed.

(** ** The decoder on concrete packets *)

Definition mppc0 : rdp_mppc := mppc_new (replicate (Z.to_nat SIZE) 0).

Lemma mppc0_ok : mppc_ok mppc0.
Proof.
  split; [apply len_replicate|]. split; [reflexivity|]. split; [split; discriminate|].
  apply Forall_replicate. split; reflexivity || lia.
Qed.

(** [abcabcab], and [cab] with a byte above 127. *)
Definition ts1 : list token := [Literal 97; Literal 98; Literal 99; Copy 3 5].
Definition ts2 : list token := [Copy 6 3; Literal 200].
Definition packet1 : list Z := [0x61; 0x62; 0x63; 0xf8; 0x72].
Definition packet2 : list Z := [0xf8; 0xca; 0x40].
Definition packet1_8k : list Z := [0x61; 0x62; 0x63; 0xf0; 0xe4].

Ltac bytes_of_list := repeat constructor; lia.

Lemma decompress_64k_witness : exists out,
  expand ts1 (window (history_buf mppc0) (start 0x21 mppc0)) = window (history_buf mppc0) (start 0x21 mppc0) ++ out /\
  appended mppc0 (start 0x21 mppc0) out (decompress_rdp packet1 0x21 mppc0).
Proof.
  refine (decompress_64k mppc0 0x21 packet1 ts1 [false] mppc0_ok _ eq_refl eq_refl eq_refl eq_refl eq_refl _ _);
    [bytes_of_list|bytes_of_list|discriminate].
Defined.

Lemma decompress_8k_witness : exists out,
  expand ts1 (window (history_buf mppc0) (start 0x60 mppc0)) = window (history_buf mppc0) (start 0x60 mppc0) ++ out /\
  appended mppc0 (start 0x60 mppc0) out (decompress_rdp packet1_8k 0x60 mppc0).
Proof.
  refine (decompress_8k mppc0 0x60 packet1_8k ts1 [false; false] mppc0_ok _ eq_refl eq_refl eq_refl eq_refl eq_refl _ _);
    [bytes_of_list|bytes_of_list|discriminate].
Defined.

Lemma flushed_length_wraps_witness : exists m',
  decompress_rdp packet1 0xa1 (mkMppc (history_buf mppc0) [] (SIZE - 1) 100) = Done ((true, 0, 2 ^ 32 - 92), m') /\
  history_ptr m' = 8.
Proof.
  refine (flushed_length_wraps ts1 [false] 0xa1 packet1 (mkMppc (history_buf mppc0) [] (SIZE - 1) 100) _ _
            eq_refl eq_refl eq_refl eq_refl eq_refl eq_refl _ _); [|bytes_of_list|bytes_of_list|discriminate].
  destruct mppc0_ok as (Hl & _ & _ & Hb). split; [exact Hl|]. split; [reflexivity|]. split; [split; discriminate|exact Hb].
Defined.

Lemma full_history_overflows_witness :
  decompress_rdp packet1 0x21 (mkMppc (history_buf mppc0) [] (SIZE - 1) SIZE) = Fault OutOfBounds.
Proof.
  refine (full_history_overflows (mkMppc (history_buf mppc0) [] (SIZE - 1) SIZE) 0x21 packet1 97
            (byte_bits [0x62; 0x63; 0xf8; 0x72]) _ eq_refl _ _ eq_refl eq_refl eq_refl eq_refl eq_refl);
    [|bytes_of_list|split; reflexivity || lia].
  destruct mppc0_ok as (Hl & _ & _ & Hb). split; [exact Hl|]. split; [reflexivity|]. split; [split; discriminate|exact Hb].
Defined.
