(* ===== verification/Fastpath.v ===== *)
(** Fast-path PDUs, [libfreerdp-core/fastpath.c]: packet and update headers,
    input events, the cutting of an update into fragments by the server and
    their reassembly by the client. [FastpathDelivery] puts the two ends
    together. *)

From S2P Require Import Prelude.
From S2P Require Import Stream.
From S2P Require Import Settings.
From S2P Require Import Per.
From S2P Require Import Transport.
From S2P Require Import Security.
From S2P Require Import Input.
From S2P Require Import Mppc.

(** ** Data of [fastpath.h] *)

Definition FASTPATH_INPUT_ACTION_FASTPATH : Z := 0.
Definition FASTPATH_INPUT_SECURE_CHECKSUM : Z := 1.
Definition FASTPATH_INPUT_ENCRYPTED : Z := 2.
Definition FASTPATH_OUTPUT_ENCRYPTED : Z := 2.

Definition FASTPATH_FRAGMENT_SINGLE : Z := 0.
Definition FASTPATH_FRAGMENT_LAST : Z := 1.
Definition FASTPATH_FRAGMENT_FIRST : Z := 2.
Definition FASTPATH_FRAGMENT_NEXT : Z := 3.

Definition FASTPATH_OUTPUT_COMPRESSION_USED : Z := 2.

Definition FASTPATH_INPUT_EVENT_SCANCODE : Z := 0.
Definition FASTPATH_INPUT_EVENT_MOUSE : Z := 1.
Definition FASTPATH_INPUT_EVENT_MOUSEX : Z := 2.
Definition FASTPATH_INPUT_EVENT_SYNC : Z := 3.
Definition FASTPATH_INPUT_EVENT_UNICODE : Z := 4.

Definition FASTPATH_INPUT_KBDFLAGS_RELEASE : Z := 1.
Definition FASTPATH_INPUT_KBDFLAGS_EXTENDED : Z := 2.

Definition FASTPATH_MAX_PACKET_SIZE : Z := 0x3FFF.
Definition SEC_ENCRYPT : Z := 0x0008.
Definition SEC_SECURE_CHECKSUM : Z := 0x0800.

(** [struct rdp_fastpath] *)
Record rdpFastPath : Type := mkFastPath {
  encryptionFlags : Z;
  numberEvents : Z;
  updateData : STREAM;
}.

Definition fastpath_new : rdpFastPath := mkFastPath 0 0 (stream_new 4096).

Definition set_updateData (s : STREAM) (fp : rdpFastPath) : rdpFastPath :=
  mkFastPath (encryptionFlags fp) (numberEvents fp) s.

(** ** Headers *)

Definition fastpath_header_length : M STREAM Z :=
  stream_seek 1;;
  let! length1 := stream_read_uint8 in
  stream_rewind 2;;
  ret (if negb (Z.land length1 0x80 =? 0) then 3 else 2).

(** The fields of the first byte; no structure ([NULL]) is [None]. *)
Definition read_fp_header (header : Z) (fastpath : option rdpFastPath) : option rdpFastPath :=
  option_map (fun fp => mkFastPath (Z.shiftr (Z.land header 0xC0) 6) (Z.shiftr (Z.land header 0x3C) 2)
                          (updateData fp)) fastpath.

Definition fastpath_read_header (fastpath : option rdpFastPath) : M STREAM (Z * option rdpFastPath) :=
  let! header := stream_read_uint8 in
  let fastpath := read_fp_header header fastpath in
  let! (_, length) := per_read_length None in
  let! length := use length in
  ret (length, fastpath).

Definition fastpath_read_header_rdp (fastpath : option rdpFastPath) : M STREAM (Z * option rdpFastPath) :=
  let! header := stream_read_uint8 in
  let fastpath := read_fp_header header fastpath in
  let! byte := stream_read_uint8 in
  if negb (Z.land byte 0x80 =? 0) then
    let length := Z.land byte 0x7F in
    let! byte := stream_read_uint8 in
    let length := uint16 (Z.lor (Z.shiftl length 8) byte) in
    ret (uint16 (length - 3), fastpath)
  else ret (uint16 (byte - 2), fastpath).

Definition fastpath_read_update_header : M STREAM (Z * Z * Z) :=
  let! updateHeader := stream_read_uint8 in
  ret (Z.land updateHeader 0x0F, Z.land (Z.shiftr updateHeader 4) 0x03,
       Z.land (Z.shiftr updateHeader 6) 0x03).

Definition fastpath_write_update_header (updateCode fragmentation compression : Z) : M STREAM unit :=
  let updateHeader := Z.land updateCode 0x0F in
  let updateHeader := Z.lor updateHeader (Z.shiftl (Z.land fragmentation 0x03) 4) in
  let updateHeader := Z.lor updateHeader (Z.shiftl (Z.land compression 0x03) 6) in
  stream_write_uint8 updateHeader.

(** ** Receiving updates

    [recv_update code size stream] is [fastpath_recv_update] with the update
    handlers of [update.c] behind it, over their own state [U]; it returns the
    stream as the handlers leave it. [BeginPaint] and [EndPaint] are the
    program's callbacks around the updates of a PDU. *)

Section receive.
Context {U : Type}.
Context (recv_update : Z -> Z -> STREAM -> U -> outcome (STREAM * U)) (BeginPaint EndPaint : U -> U).

Record fpRecv : Type := mkRecv {
  r_fastpath : rdpFastPath;
  r_update : U;
  r_mppc : rdp_mppc;
}.

(** [n] bytes at the position, without moving it. *)
Definition peek_bytes (n : Z) : M STREAM (list Z) := fun s =>
  match stream_read n s with
  | Done (bs, _) => Done (bs, s)
  | Fault f => Fault f
  end.

(** [comp_stream]: the part of the history that [decompress_rdp] delimits; the
    memory behind it is the rest of the history buffer. *)
Definition history_stream (roff rlen : Z) (mppc : rdp_mppc) : STREAM :=
  mkSTREAM rlen 0 (drop (Z.to_nat roff) (history_buf mppc)).

(** The source of the fragment: [None] is the packet itself. *)
Definition fastpath_decompress (compressionFlags size : Z) (mppc : rdp_mppc)
  : M STREAM (option STREAM * Z * rdp_mppc) :=
  if negb (Z.land compressionFlags PACKET_COMPRESSED =? 0) then
    let! data := peek_bytes size in
    match decompress_rdp data compressionFlags mppc with
    | Fault f => fail f
    | Done ((true, roff, rlen), mppc) => ret (Some (history_stream roff rlen mppc), uint16 rlen, mppc)
    | Done ((false, _, _), mppc) => stream_seek size;; ret (None, size, mppc)
    end
  else ret (None, size, mppc).

(** [stream_copy(updateData, comp_stream, size)] after [stream_check_size]. *)
Definition fastpath_append (comp : option STREAM) (size : Z) (upd : STREAM) : M STREAM STREAM :=
  let! (_, upd) := with_stream upd (stream_check_size size) in
  let! bs := match comp with
             | None => stream_read size
             | Some c => let! (bs, _) := with_stream c (stream_read size) in ret bs
             end in
  let! (_, upd) := with_stream upd (stream_write bs) in
  ret upd.

(** Hand a complete update to the handlers; when it is the packet itself the
    handlers move the packet's position. *)
Definition fastpath_deliver (code size : Z) (upd : option STREAM) (st : U) : M STREAM (option STREAM * U) :=
  fun s =>
    match upd with
    | None => match recv_update code size s st with
              | Done (s', st') => Done ((None, st'), s')
              | Fault f => Fault f
              end
    | Some u => match recv_update code size u st with
                | Done (u', st') => Done ((Some u', st'), s)
                | Fault f => Fault f
                end
    end.

Definition fastpath_recv_update_data (r : fpRecv) : M STREAM fpRecv :=
  let! (updateCode, fragmentation, compression) := fastpath_read_update_header in
  let! compressionFlags := (if compression =? FASTPATH_OUTPUT_COMPRESSION_USED
                            then stream_read_uint8 else ret 0) in
  let! size := stream_read_uint16 in
  let! s := get in
  let next_pos := stream_get_pos s + size in
  let! (comp, size, mppc) := fastpath_decompress compressionFlags size (r_mppc r) in
  let fp := r_fastpath r in
  let! (fp, st) :=
    (if fragmentation =? FASTPATH_FRAGMENT_SINGLE then
       let! (_, st) := fastpath_deliver updateCode size comp (r_update r) in
       ret (fp, st)
     else
       let upd := if fragmentation =? FASTPATH_FRAGMENT_FIRST
                  then set_p (updateData fp) 0 else updateData fp in
       let! upd := fastpath_append comp size upd in
       if fragmentation =? FASTPATH_FRAGMENT_LAST then
         let totalSize := stream_get_length upd in
         let! (upd, st) := fastpath_deliver updateCode totalSize (Some (set_p upd 0)) (r_update r) in
         ret (set_updateData (default (updateData fp) upd) fp, st)
       else ret (set_updateData upd fp, r_update r)) in
  stream_set_pos next_pos;;
  ret (mkRecv fp st mppc).

(** The loop of [fastpath_recv_updates]; every round moves on by three bytes at
    least, so that the bytes left bound the rounds. *)
Fixpoint recv_updates_loop (fuel : nat) (r : fpRecv) : M STREAM fpRecv :=
  match fuel with
  | O => fail Diverges
  | S fuel' =>
      let! avail := left_bytes in
      if 3 <=? avail then
        let! r := fastpath_recv_update_data r in
        recv_updates_loop fuel' r
      else ret r
  end.

Definition fastpath_recv_updates (r : fpRecv) : M STREAM (bool * fpRecv) :=
  let r := mkRecv (r_fastpath r) (BeginPaint (r_update r)) (r_mppc r) in
  let! avail := left_bytes in
  let! r := recv_updates_loop (S (Z.to_nat avail)) r in
  ret (true, mkRecv (r_fastpath r) (EndPaint (r_update r)) (r_mppc r)).

End receive.
Arguments fpRecv : clear implicits.

(** ** Receiving input *)

(** Returns the result, the flags and the code. *)
Definition fastpath_read_input_event_header : M STREAM (bool * Z * Z) :=
  let! avail := left_bytes in
  if avail <? 1 then ret (false, 0, 0) else
  let! eventHeader := stream_read_uint8 in
  ret (true, Z.land eventHeader 0x1F, Z.shiftr eventHeader 5).

(** [KBD_FLAGS_RELEASE] or [KBD_FLAGS_DOWN] *)
Definition press_flags (eventFlags : Z) : Z :=
  if negb (Z.land eventFlags FASTPATH_INPUT_KBDFLAGS_RELEASE =? 0)
  then KBD_FLAGS_RELEASE else KBD_FLAGS_DOWN.

Definition fastpath_recv_input_event_scancode (eventFlags : Z) : M STREAM (bool * list input_event) :=
  let! avail := left_bytes in
  if avail <? 1 then ret (false, []) else
  let! code := stream_read_uint8 in
  let flags := Z.lor 0 (press_flags eventFlags) in
  let flags := if negb (Z.land eventFlags FASTPATH_INPUT_KBDFLAGS_EXTENDED =? 0)
               then Z.lor flags KBD_FLAGS_EXTENDED else flags in
  ret (true, [KeyboardEvent flags code]).

Definition fastpath_recv_input_event_mouse (eventFlags : Z) : M STREAM (bool * list input_event) :=
  let! avail := left_bytes in
  if avail <? 6 then ret (false, []) else
  let! pointerFlags := stream_read_uint16 in
  let! xPos := stream_read_uint16 in
  let! yPos := stream_read_uint16 in
  ret (true, [MouseEvent pointerFlags xPos yPos]).

Definition fastpath_recv_input_event_mousex (eventFlags : Z) : M STREAM (bool * list input_event) :=
  let! avail := left_bytes in
  if avail <? 6 then ret (false, []) else
  let! pointerFlags := stream_read_uint16 in
  let! xPos := stream_read_uint16 in
  let! yPos := stream_read_uint16 in
  ret (true, [ExtendedMouseEvent pointerFlags xPos yPos]).

Definition fastpath_recv_input_event_sync (eventFlags : Z) : M STREAM (bool * list input_event) :=
  ret (true, [SynchronizeEvent eventFlags]).

Definition fastpath_recv_input_event_unicode (eventFlags : Z) : M STREAM (bool * list input_event) :=
  let! avail := left_bytes in
  if avail <? 2 then ret (false, []) else
  let! unicodeCode := stream_read_uint16 in
  let flags := Z.lor 0 (press_flags eventFlags) in
  ret (true, [UnicodeKeyboardEvent flags unicodeCode]).

Definition fastpath_recv_input_event : M STREAM (bool * list input_event) :=
  let! (ok, eventFlags, eventCode) := fastpath_read_input_event_header in
  if negb ok then ret (false, []) else
  if eventCode =? FASTPATH_INPUT_EVENT_SCANCODE then fastpath_recv_input_event_scancode eventFlags
  else if eventCode =? FASTPATH_INPUT_EVENT_MOUSE then fastpath_recv_input_event_mouse eventFlags
  else if eventCode =? FASTPATH_INPUT_EVENT_MOUSEX then fastpath_recv_input_event_mousex eventFlags
  else if eventCode =? FASTPATH_INPUT_EVENT_SYNC then fastpath_recv_input_event_sync eventFlags
  else if eventCode =? FASTPATH_INPUT_EVENT_UNICODE then fastpath_recv_input_event_unicode eventFlags
  else ret (true, []).

Definition fastpath_recv_inputs (fp : rdpFastPath) : M STREAM (bool * list input_event * rdpFastPath) :=
  let run (fp : rdpFastPath) :=
    let! (ok, calls) := recv_events fastpath_recv_input_event (Z.to_nat (numberEvents fp)) in
    ret (ok, calls, fp) in
  if numberEvents fp =? 0 then
    let! avail := left_bytes in
    if avail <? 1 then ret (false, [], fp) else
    let! n := stream_read_uint8 in
    run (mkFastPath (encryptionFlags fp) n (updateData fp))
  else run fp.

(** ** Sending *)

Section send.
Context {N : Type} `{Link N} `{Crypto}.

(** The fields of [struct rdp_rdp] the senders use. *)
Record fpRdp : Type := mkFpRdp {
  fp_transport : rdpTransport N;
  fp_sec : rdpSec;
  fp_do_crypt : bool;
  fp_do_secure_checksum : bool;
  fp_sec_flags : Z;
  fp_encryption_method : Z;
}.

Definition set_sec_flags (v : Z) (r : fpRdp) : fpRdp :=
  mkFpRdp (fp_transport r) (fp_sec r) (fp_do_crypt r) (fp_do_secure_checksum r) v
    (fp_encryption_method r).

Definition rdp_get : M fpRdp fpRdp := fun r => Done (r, r).
Definition rdp_mod (f : fpRdp -> fpRdp) : M fpRdp unit := fun r => Done (tt, f r).
Definition on_fp_transport {A} (c : M (rdpTransport N) A) : M fpRdp A :=
  zoom fp_transport (fun t r => mkFpRdp t (fp_sec r) (fp_do_crypt r) (fp_do_secure_checksum r)
                                  (fp_sec_flags r) (fp_encryption_method r)) c.
(** The stream the PDU is built in is the transport's send stream. *)
Definition on_stream {A} (c : M STREAM A) : M fpRdp A :=
  on_fp_transport (zoom t_send_stream set_send_stream c).
Definition on_sec {A} (c : M rdpSec A) : M fpRdp A :=
  zoom fp_sec (fun k r => mkFpRdp (fp_transport r) k (fp_do_crypt r) (fp_do_secure_checksum r)
                            (fp_sec_flags r) (fp_encryption_method r)) c.

(** [n] bytes at offset [off] of the buffer, and writing them. *)
Definition buffer_at (off n : Z) : M STREAM (list Z) := fun s =>
  if bool_decide (0 <= off /\ 0 <= n /\ off + n <= len (s_data s))
  then Done (take (Z.to_nat n) (drop (Z.to_nat off) (s_data s)), s) else Fault OutOfBounds.
Definition buffer_set (off : Z) (bs : list Z) : M STREAM unit := fun s =>
  if bool_decide (0 <= off /\ off + len bs <= len (s_data s))
  then Done (tt, mkSTREAM (s_size s) (s_p s) (splice (Z.to_nat off) bs (s_data s)))
  else Fault OutOfBounds.
Definition get_pos : M STREAM Z := fun s => Done (stream_get_pos s, s).

Definition fastpath_get_sec_bytes (r : fpRdp) : Z :=
  if fp_do_crypt r then
    if fp_encryption_method r =? ENCRYPTION_METHOD_FIPS then 8 + 4 else 8
  else 0.

Definition fastpath_input_pdu_init (eventFlags eventCode : Z) : M fpRdp unit :=
  on_fp_transport (transport_send_stream_init 256);;
  on_stream (stream_seek 3);;
  let! r := rdp_get in
  (if fp_do_crypt r then
     rdp_mod (fun r => set_sec_flags (Z.lor (fp_sec_flags r) SEC_ENCRYPT) r);;
     if fp_do_secure_checksum r
     then rdp_mod (fun r => set_sec_flags (Z.lor (fp_sec_flags r) SEC_SECURE_CHECKSUM) r)
     else ret tt
   else ret tt);;
  let! r := rdp_get in
  on_stream (stream_seek (fastpath_get_sec_bytes r));;
  on_stream (stream_write_uint8 (Z.lor eventFlags (Z.shiftl eventCode 5))).

(** Sign [n] bytes at [ptr] into the eight bytes at [out], then encrypt them. *)
Definition fastpath_protect (ptr n out : Z) : M fpRdp unit :=
  let! r := rdp_get in
  let! data := on_stream (buffer_at ptr n) in
  let! sig := (if negb (Z.land (fp_sec_flags r) SEC_SECURE_CHECKSUM =? 0)
               then on_sec (security_salted_mac_signature data true)
               else on_sec (security_mac_signature data)) in
  on_stream (buffer_set out sig);;
  let! data := on_stream (buffer_at ptr n) in
  let! cipher := on_sec (security_encrypt data) in
  on_stream (buffer_set ptr cipher).

(** The FIPS header, signature and encryption of an input PDU; returns the
    padding. *)
Definition fastpath_protect_fips (ptr n : Z) : M fpRdp Z :=
  on_stream (stream_write_uint16 0x10);;
  on_stream (stream_write_uint8 1);;
  let pad := Z.land (8 - Z.rem n 8) 7 in
  on_stream (buffer_set (ptr + n) (replicate (Z.to_nat pad) 0));;
  on_stream (stream_write_uint8 pad);;
  let! tail := on_stream get_pos in
  let! data := on_stream (buffer_at ptr n) in
  let! sig := on_sec (security_hmac_signature data) in
  on_stream (buffer_set tail sig);;
  let! data := on_stream (buffer_at ptr (n + pad)) in
  let! cipher := on_sec (security_fips_encrypt data) in
  on_stream (buffer_set ptr cipher);;
  ret pad.

Definition fastpath_send_input_pdu : M fpRdp bool :=
  let! r := rdp_get in
  let! length := on_stream get_pos in
  let length := uint16 length in
  if 127 <? length then ret false else
  let eventHeader := Z.lor FASTPATH_INPUT_ACTION_FASTPATH (Z.shiftl 1 2) in
  let eventHeader := if negb (Z.land (fp_sec_flags r) SEC_ENCRYPT =? 0)
                     then Z.lor eventHeader (Z.shiftl FASTPATH_INPUT_ENCRYPTED 6) else eventHeader in
  let eventHeader := if negb (Z.land (fp_sec_flags r) SEC_SECURE_CHECKSUM =? 0)
                     then Z.lor eventHeader (Z.shiftl FASTPATH_INPUT_SECURE_CHECKSUM 6)
                     else eventHeader in
  on_stream (stream_set_pos 0);;
  on_stream (stream_write_uint8 eventHeader);;
  let sec_bytes := fastpath_get_sec_bytes r in
  let! pp := on_stream get_pos in
  on_stream (stream_seek 2);;
  let! length :=
    (if 0 <? sec_bytes then
       let! tail := on_stream get_pos in
       let ptr := tail + sec_bytes in
       if fp_encryption_method r =? ENCRYPTION_METHOD_FIPS then
         let! pad := fastpath_protect_fips ptr (length - 3) in
         ret (uint16 (length + pad))
       else fastpath_protect ptr (length - 3) tail;; ret length
     else ret length) in
  on_stream (stream_set_pos pp);;
  on_stream (stream_write_uint16_be (Z.lor 0x8000 (length + sec_bytes)));;
  rdp_mod (set_sec_flags 0);;
  on_stream (stream_set_pos (length + sec_bytes));;
  let! status := on_fp_transport transport_send in
  ret (negb (status <? 0)).

Definition fastpath_update_pdu_init : M fpRdp unit :=
  on_fp_transport (transport_send_stream_init FASTPATH_MAX_PACKET_SIZE);;
  on_stream (stream_seek 3);;
  let! r := rdp_get in
  on_stream (stream_seek (fastpath_get_sec_bytes r));;
  on_stream (stream_seek 3).

(** [transport_write(update)] with [update] attached to a part of the buffer. *)
Definition transport_write_part (off n : Z) : M fpRdp Z :=
  let! bs := on_stream (buffer_at off n) in
  on_fp_transport (fun t =>
    match transport_write t (mkSTREAM n n bs) with
    | Done (status, t, _) => Done (status, t)
    | Fault f => Fault f
    end).

(** The kind of fragment number [fragment] when [rest] bytes are to follow. *)
Definition fragment_kind (fragment rest : Z) : Z :=
  if rest =? 0
  then if fragment =? 0 then FASTPATH_FRAGMENT_SINGLE else FASTPATH_FRAGMENT_LAST
  else if fragment =? 0 then FASTPATH_FRAGMENT_FIRST else FASTPATH_FRAGMENT_NEXT.

(** One round of the loop of [fastpath_send_update_pdu], sending [length]
    bytes; false when the write failed. *)
Definition send_fragment (sec_bytes updateCode fragmentation length : Z) : M fpRdp bool :=
  let pduLength := uint16 (length + 6 + sec_bytes) in
  let! bm := on_stream get_pos in
  let header := if 0 <? sec_bytes then Z.lor 0 (Z.shiftl FASTPATH_OUTPUT_ENCRYPTED 6) else 0 in
  on_stream (stream_write_uint8 header);;
  on_stream (stream_write_uint8 (Z.lor 0x80 (Z.shiftr pduLength 8)));;
  on_stream (stream_write_uint8 (Z.land pduLength 0xFF));;
  (if 0 <? sec_bytes then on_stream (stream_seek sec_bytes) else ret tt);;
  on_stream (fastpath_write_update_header updateCode fragmentation 0);;
  on_stream (stream_write_uint16 length);;
  (if 0 <? sec_bytes then fastpath_protect (bm + 3 + sec_bytes) (length + 3) (bm + 3) else ret tt);;
  let! status := transport_write_part bm pduLength in
  if status <? 0 then ret false else
  on_stream (stream_seek (length - 6 - sec_bytes));;
  ret true.

(** The loop: [totalLength] falls in every round, so that it bounds them. *)
Fixpoint send_fragments (fuel : nat) (sec_bytes maxLength updateCode fragment totalLength : Z)
  : M fpRdp bool :=
  if 0 <? totalLength then
    match fuel with
    | O => fail Diverges
    | S fuel' =>
        let length := uint16 (Z.min maxLength totalLength) in
        let totalLength := totalLength - length in
        let! ok := send_fragment sec_bytes updateCode (fragment_kind fragment totalLength) length in
        if ok : bool then send_fragments fuel' sec_bytes maxLength updateCode (fragment + 1) totalLength
        else ret false
    end
  else ret true.

Definition fastpath_send_update_pdu (updateCode : Z) : M fpRdp bool :=
  let! r := rdp_get in
  let sec_bytes := fastpath_get_sec_bytes r in
  let maxLength := uint16 (FASTPATH_MAX_PACKET_SIZE - 6 - sec_bytes) in
  let! n := on_stream get_pos in
  let totalLength := uint32 (n - 6 - sec_bytes) in
  on_stream (stream_set_pos 0);;
  send_fragments (Z.to_nat totalLength) sec_bytes maxLength updateCode 0 totalLength.

(** *** Fast-path input of [input.c] *)

Definition kbd_flags (flags : Z) : Z :=
  if negb (Z.land flags KBD_FLAGS_RELEASE =? 0) then FASTPATH_INPUT_KBDFLAGS_RELEASE else 0.

Definition input_send_fastpath_synchronize_event (flags : Z) : M fpRdp bool :=
  fastpath_input_pdu_init (uint8 flags) FASTPATH_INPUT_EVENT_SYNC;;
  fastpath_send_input_pdu.

Definition input_send_fastpath_keyboard_event (flags code : Z) : M fpRdp bool :=
  let eventFlags := Z.lor 0 (kbd_flags flags) in
  let eventFlags := Z.lor eventFlags (if negb (Z.land flags KBD_FLAGS_EXTENDED =? 0)
                                      then FASTPATH_INPUT_KBDFLAGS_EXTENDED else 0) in
  fastpath_input_pdu_init eventFlags FASTPATH_INPUT_EVENT_SCANCODE;;
  on_stream (stream_write_uint8 code);;
  fastpath_send_input_pdu.

Definition input_send_fastpath_unicode_keyboard_event (flags code : Z) : M fpRdp bool :=
  let eventFlags := Z.lor 0 (kbd_flags flags) in
  fastpath_input_pdu_init eventFlags FASTPATH_INPUT_EVENT_UNICODE;;
  on_stream (stream_write_uint16 code);;
  fastpath_send_input_pdu.

Definition input_send_fastpath_mouse_event (flags x y : Z) : M fpRdp bool :=
  fastpath_input_pdu_init 0 FASTPATH_INPUT_EVENT_MOUSE;;
  on_stream (input_write_mouse_event flags x y);;
  fastpath_send_input_pdu.

Definition input_send_fastpath_extended_mouse_event (flags x y : Z) : M fpRdp bool :=
  fastpath_input_pdu_init 0 FASTPATH_INPUT_EVENT_MOUSEX;;
  on_stream (input_write_extended_mouse_event flags x y);;
  fastpath_send_input_pdu.

(** The senders by event, as [input_register_client_callbacks] installs them
    with fast-path input. *)
Definition input_send_fastpath (e : input_event) : M fpRdp bool :=
  match e with
  | SynchronizeEvent flags => input_send_fastpath_synchronize_event flags
  | KeyboardEvent flags code => input_send_fastpath_keyboard_event flags code
  | UnicodeKeyboardEvent flags code => input_send_fastpath_unicode_keyboard_event flags code
  | MouseEvent flags x y => input_send_fastpath_mouse_event flags x y
  | ExtendedMouseEvent flags x y => input_send_fastpath_extended_mouse_event flags x y
  end.

End send.
Arguments fpRdp N {_}.

(** ** Encodings of update fragments *)

Definition update_header_byte (code kind : Z) : Z := Z.land code 0x0F + 16 * Z.land kind 0x03.

(** The update structure inside a PDU. *)
Definition update_bytes (code kind : Z) (chunk : list Z) : list Z :=
  update_header_byte code kind :: le16 (len chunk) ++ chunk.

Lemma update_header_value code kind : 0 <= code < 16 -> 0 <= kind < 4 ->
  Z.land (update_header_byte code kind) 0x0F = code /\
  Z.land (Z.shiftr (update_header_byte code kind) 4) 0x03 = kind /\
  Z.land (Z.shiftr (update_header_byte code kind) 6) 0x03 = 0 /\
  is_byte (update_header_byte code kind).
Proof.
  intros Hc Hk. unfold update_header_byte, is_byte.
  rewrite !(land_mask _ 4 0x0F), !(land_mask _ 2 0x03), !Z.shiftr_div_pow2 by lia.
  change (2 ^ 4) with 16. change (2 ^ 2) with 4. change (2 ^ 6) with 64. dlia.
Qed.

Lemma Writes_update_header code kind : 0 <= code < 16 -> 0 <= kind < 4 ->
  Writes (fastpath_write_update_header code kind 0) [update_header_byte code kind] tt.
Proof.
  intros Hc Hk. unfold fastpath_write_update_header.
  eapply Writes_eq; [apply Writes_uint8| |reflexivity]. f_equal.
  destruct (update_header_value code kind Hc Hk) as (_ & _ & _ & Hb).
  change (Z.shiftl (Z.land 0 0x03) 6) with 0. rewrite Z.lor_0_r. unfold is_byte, update_header_byte in *.
  rewrite (land_mask code 4 0x0F), (land_mask kind 2 0x03) in * by lia.
  rewrite Z.lor_comm, (lor_high_low _ _ 4).
  - rewrite Z.shiftl_mul_pow2, Z.mod_small by lia. lia.
  - lia.
  - rewrite Z.shiftl_mul_pow2 by lia. apply Z.mod_mul. lia.
  - change (2 ^ 4) with 16. dlia.
Qed.

(** ** Reassembly *)

(** The bytes collected so far are those before the position. *)
Record collected (size0 : Z) (u : STREAM) (bs : list Z) : Prop := {
  col_ok : stream_ok u;
  col_p : s_p u = len bs;
  col_data : take (length bs) (s_data u) = bs;
  col_size : s_size u <= Z.max size0 (2 * len bs);
}.

Lemma collected_put size0 u bs c : stream_ok u -> s_p u = len bs -> take (length bs) (s_data u) = bs ->
  is_bytes c -> room u (len c) -> s_p u + len c <= s_size u ->
  s_size u <= Z.max size0 (2 * len (bs ++ c)) -> collected size0 (put c u) (bs ++ c).
Proof.
  intros Hok Hp Hd Hb [_ Hr] Hfit Hsz. pose proof (len_nonneg c). split.
  - split; cbn [put s_p s_size s_data]; [pose proof (ok_p _ Hok); lia| |].
    + pose proof (ok_size _ Hok). unfold len in *. rewrite length_splice by lia. lia.
    + apply is_bytes_splice; [exact Hb|apply (ok_bytes _ Hok)].
  - cbn. rewrite len_app. lia.
  - cbn [put s_data]. unfold splice. rewrite Hp. unfold len at 1 2. rewrite !Nat2Z.id, Hd.
    rewrite app_assoc. apply take_app_length.
  - exact Hsz.
Qed.

Lemma append_run size0 c bs u s :
  collected size0 u bs -> size0 <= 2 ^ 30 - 1 -> len bs + len c <= 2 ^ 29 - 1 -> is_bytes c -> holds s c ->
  exists u', fastpath_append None (len c) u s = Done (u', adv (len c) s) /\
    collected size0 u' (bs ++ c).
Proof.
  intros [Hok Hp Hcd Hcs] H0 Hlen Hb Hs. pose proof (len_nonneg c). pose proof (len_nonneg bs).
  destruct (stream_check_size_run (len c) u Hok) as (u1 & E & Hok1 & Hp1 & Hroom & Hfit & Hd & Hsz);
    [lia|unfold INT_MAX; lia|].
  exists (put c u1). unfold fastpath_append, with_stream. unfold bind at 1. rewrite E. cbv beta iota.
  rewrite (bind_Done _ _ _ _ _ (Reads_read c (len c) eq_refl s Hs)).
  unfold bind, ret. rewrite (Writes_write c u1 Hroom). split; [reflexivity|].
  apply collected_put; auto; [congruence| |rewrite len_app; lia].
  pose proof (ok_p _ Hok) as Hpp. rewrite Hp in Hpp.
  transitivity (take (length bs) (take (Z.to_nat (s_size u)) (s_data u1))).
  - rewrite take_take. f_equal. unfold len in Hpp. lia.
  - rewrite Hd, take_take, Nat.min_l by (unfold len in Hpp; lia). exact Hcd.
Qed.

(** The two length bytes of a PDU of [n] bytes. *)
Lemma length_bytes_value n : 0 <= n < 0x4000 ->
  negb (Z.land (0x80 + n / 256) 0x80 =? 0) = true /\ Z.land (0x80 + n / 256) 0x7F = n / 256 /\
  uint16 (uint16 (Z.lor (Z.shiftl (n / 256) 8) (n mod 256)) - 3) = (n - 3) mod 65536.
Proof.
  intros Hn. assert (Hb : is_byte (n / 256)) by (unfold is_byte; dlia).
  assert (Hlt : n / 256 < 64) by dlia.
  assert (Hmask : forall b, is_byte b -> b < 64 ->
            negb (Z.land (0x80 + b) 0x80 =? 0) = true /\ Z.land (0x80 + b) 0x7F = b).
  { apply (byte_forall (fun b => b < 64 -> negb (Z.land (0x80 + b) 0x80 =? 0) = true /\
                                           Z.land (0x80 + b) 0x7F = b)).
    vm_compute. reflexivity. }
  destruct (Hmask _ Hb Hlt) as [-> ->]. split; [reflexivity|]. split; [reflexivity|].
  unfold uint16. change (2 ^ 16) with 65536.
  rewrite (lor_high_low _ _ 8), Z.shiftl_mul_pow2; [..| rewrite Z.shiftl_mul_pow2 by lia; apply Z.mod_mul; lia|];
    change (2 ^ 8) with 256; dlia.
Qed.

Section reassembly.

(** Handlers that log the updates they are given: code, size and bytes. *)
Definition log_update (code size : Z) (s : STREAM) (log : list (Z * Z * list Z))
  : outcome (STREAM * list (Z * Z * list Z)) :=
  Done (s, log ++ [(code, size, take (Z.to_nat size) (drop (Z.to_nat (s_p s)) (s_data s)))]).

Definition recv_data := fastpath_recv_update_data log_update.

(** The header of a fragment that is not compressed, up to the chunk, for any handler. *)
Lemma recv_update_data_start {U} (h : Z -> Z -> STREAM -> U -> outcome (STREAM * U)) code kind chunk r s :
  0 <= code < 16 -> 0 <= kind < 4 -> len chunk < 65536 -> holds s (update_bytes code kind chunk) ->
  fastpath_recv_update_data h r s =
  (let fp := r_fastpath r in
   let! (fp, st) :=
    (if kind =? FASTPATH_FRAGMENT_SINGLE then
       let! (_, st) := fastpath_deliver h code (len chunk) None (r_update r) in
       ret (fp, st)
     else
       let upd := if kind =? FASTPATH_FRAGMENT_FIRST then set_p (updateData fp) 0 else updateData fp in
       let! upd := fastpath_append None (len chunk) upd in
       if kind =? FASTPATH_FRAGMENT_LAST then
         let! (upd, st) := fastpath_deliver h code (stream_get_length upd) (Some (set_p upd 0)) (r_update r) in
         ret (set_updateData (default (updateData fp) upd) fp, st)
       else ret (set_updateData upd fp, r_update r)) in
   stream_set_pos (s_p s + 3 + len chunk);;
   ret (mkRecv fp st (r_mppc r))) (adv 3 s).
Proof.
  intros Hc Hk Hl Hs. pose proof (len_nonneg chunk).
  destruct (update_header_value code kind Hc Hk) as (Hcode & Hkind & Hcomp & Hbyte).
  unfold fastpath_recv_update_data, fastpath_read_update_header.
  assert (Hh : Reads (let! updateHeader := stream_read_uint8 in
     ret (Z.land updateHeader 0x0F, Z.land (Z.shiftr updateHeader 4) 0x03, Z.land (Z.shiftr updateHeader 6) 0x03))
     [update_header_byte code kind] (code, kind, 0)).
  { eapply Reads_eq; [apply Reads_uint8_bind, Reads_ret|reflexivity|congruence]. }
  unfold update_bytes in Hs. change (?x :: ?l) with ([x] ++ l) in Hs.
  destruct (holds_app _ _ _ Hs) as [H1 Hs1]. destruct (holds_app _ _ _ Hs1) as [H2 Hs2].
  rewrite (bind_Done _ _ _ _ _ (Hh s H1)). cbn [Z.eqb FASTPATH_OUTPUT_COMPRESSION_USED].
  unfold bind at 1, ret at 1.
  rewrite (bind_Done _ _ _ _ _ (Reads_le16 (len chunk) ltac:(lia) _ H2)).
  unfold bind at 1, get. unfold fastpath_decompress. cbn [Z.land Z.eqb negb].
  unfold bind at 1, ret at 1. rewrite adv_adv. change (len [_] + len (le16 _)) with 3.
  cbn [adv set_p stream_get_pos s_p]. reflexivity.
Qed.

Lemma recv_data_start code kind chunk r s :
  0 <= code < 16 -> 0 <= kind < 4 -> len chunk < 65536 -> holds s (update_bytes code kind chunk) ->
  recv_data r s =
  (let fp := r_fastpath r in
   let! (fp, st) :=
    (if kind =? FASTPATH_FRAGMENT_SINGLE then
       let! (_, st) := fastpath_deliver log_update code (len chunk) None (r_update r) in
       ret (fp, st)
     else
       let upd := if kind =? FASTPATH_FRAGMENT_FIRST then set_p (updateData fp) 0 else updateData fp in
       let! upd := fastpath_append None (len chunk) upd in
       if kind =? FASTPATH_FRAGMENT_LAST then
         let! (upd, st) := fastpath_deliver log_update code (stream_get_length upd) (Some (set_p upd 0)) (r_update r) in
         ret (set_updateData (default (updateData fp) upd) fp, st)
       else ret (set_updateData upd fp, r_update r)) in
   stream_set_pos (s_p s + 3 + len chunk);;
   ret (mkRecv fp st (r_mppc r))) (adv 3 s).
Proof. apply recv_update_data_start. Qed.

Lemma recv_single code chunk r s :
  0 <= code < 16 -> len chunk < 65536 -> holds s (update_bytes code FASTPATH_FRAGMENT_SINGLE chunk) ->
  recv_data r s = Done (mkRecv (r_fastpath r) (r_update r ++ [(code, len chunk, chunk)]) (r_mppc r),
                        adv (3 + len chunk) s).
Proof.
  intros Hc Hl Hs. rewrite (recv_data_start code FASTPATH_FRAGMENT_SINGLE chunk)
    by (unfold FASTPATH_FRAGMENT_SINGLE in *; auto; lia).
  change (FASTPATH_FRAGMENT_SINGLE =? FASTPATH_FRAGMENT_SINGLE) with true. cbv iota zeta.
  unfold fastpath_deliver, log_update, bind, ret, stream_set_pos.
  assert (Hch : take (Z.to_nat (len chunk)) (drop (Z.to_nat (s_p (adv 3 s))) (s_data (adv 3 s))) = chunk).
  { unfold update_bytes in Hs. change (?x :: le16 ?n ++ ?l) with (([x] ++ le16 n) ++ l) in Hs.
    destruct (holds_app _ _ _ Hs) as [_ H2]. unfold len at 1. rewrite Nat2Z.id. apply (holds_data _ _ H2). }
  rewrite Hch. unfold adv, set_p. cbn [s_size s_p s_data]. rewrite Z.add_assoc. reflexivity.
Qed.

(** A fragment that is not the only one: what is collected grows by the chunk,
    and the last fragment delivers it. *)
Lemma recv_fragment size0 code kind chunk bs r s :
  0 <= code < 16 -> kind = FASTPATH_FRAGMENT_FIRST /\ bs = [] \/ kind = FASTPATH_FRAGMENT_NEXT \/
                   kind = FASTPATH_FRAGMENT_LAST ->
  (if kind =? FASTPATH_FRAGMENT_FIRST
   then stream_ok (updateData (r_fastpath r)) /\ s_size (updateData (r_fastpath r)) <= size0
   else collected size0 (updateData (r_fastpath r)) bs) ->
  size0 <= 2 ^ 30 - 1 -> len bs + len chunk <= 2 ^ 29 - 1 -> is_bytes chunk -> len chunk < 65536 ->
  holds s (update_bytes code kind chunk) ->
  exists u', recv_data r s
    = Done (mkRecv (set_updateData u' (r_fastpath r))
              (if kind =? FASTPATH_FRAGMENT_LAST
               then r_update r ++ [(code, len (bs ++ chunk), bs ++ chunk)] else r_update r)
              (r_mppc r), adv (3 + len chunk) s) /\
    (kind <> FASTPATH_FRAGMENT_LAST -> collected size0 u' (bs ++ chunk)).
Proof.
  intros Hc Hk Hupd H0 Hlen Hb Hl Hs.
  assert (Hkind : 0 <= kind < 4 /\ (kind =? FASTPATH_FRAGMENT_SINGLE) = false).
  { unfold FASTPATH_FRAGMENT_FIRST, FASTPATH_FRAGMENT_NEXT, FASTPATH_FRAGMENT_LAST in Hk.
    destruct Hk as [ [-> _]|[-> | ->] ]; split; auto; lia. }
  destruct Hkind as [Hkr Hns].
  rewrite (recv_data_start code kind chunk) by auto. rewrite Hns. cbv iota zeta.
  set (upd := if kind =? FASTPATH_FRAGMENT_FIRST then _ else _).
  assert (Hcol : collected size0 upd bs).
  { unfold upd. destruct Hk as [ [-> ->]|[-> | ->] ]; [|exact Hupd|exact Hupd].
    cbn in Hupd. destruct Hupd as [ [Hp Hsz Hby] Hle].
    split; cbn; auto; [split; cbn; auto; lia|lia]. }
  assert (Hch : holds (adv 3 s) chunk).
  { unfold update_bytes in Hs. change (?x :: le16 ?n ++ ?l) with (([x] ++ le16 n) ++ l) in Hs.
    destruct (holds_app _ _ _ Hs) as [_ H2]. exact H2. }
  destruct (append_run size0 chunk bs upd (adv 3 s)) as (u1 & E & Hcol1); auto.
  unfold bind at 1 2. rewrite E.
  assert (Hpos : set_p (adv (len chunk) (adv 3 s)) (s_p s + 3 + len chunk) = adv (3 + len chunk) s)
    by (unfold adv, set_p; cbn; f_equal; lia).
  destruct (kind =? FASTPATH_FRAGMENT_LAST) eqn:Hlast.
  - exists (set_p u1 0). unfold fastpath_deliver, log_update, bind, ret, stream_set_pos.
    rewrite Hpos. cbn [default set_p s_p s_data].
    split; [|intros Hne; apply Z.eqb_eq in Hlast; congruence].
    unfold stream_get_length. rewrite (col_p _ _ _ Hcol1).
    unfold len at 2. rewrite Nat2Z.id, drop_0, (col_data _ _ _ Hcol1). reflexivity.
  - exists u1. unfold bind, ret, stream_set_pos. rewrite Hpos. auto.
Qed.

(** *** The loop over the updates of a PDU *)

Lemma updates_loop_step {U} (h : Z -> Z -> STREAM -> U -> outcome (STREAM * U)) fuel r r' s s' :
  3 <= stream_get_left s -> fastpath_recv_update_data h r s = Done (r', s') ->
  recv_updates_loop h (S fuel) r s = recv_updates_loop h fuel r' s'.
Proof.
  intros Hl E. cbn [recv_updates_loop]. unfold bind at 1, left_bytes.
  rewrite (proj2 (Z.leb_le _ _)) by exact Hl. apply (bind_Done _ _ _ _ _ E).
Qed.

Lemma updates_loop_stop {U} (h : Z -> Z -> STREAM -> U -> outcome (STREAM * U)) fuel r s : stream_get_left s < 3 ->
  recv_updates_loop h (S fuel) r s = Done (r, s).
Proof.
  intros Hl. cbn [recv_updates_loop]. unfold bind at 1, left_bytes.
  rewrite (proj2 (Z.leb_gt _ _)) by exact Hl. reflexivity.
Qed.

End reassembly.

(** ** Fragmentation *)

Section fragmentation.
Context {N : Type} (l : TRANSPORT_LAYER) `{LinkLaws N l} `{Crypto}.

Definition stream_of (r : fpRdp N) : STREAM := t_send_stream (fp_transport r).
Definition sent (r : fpRdp N) : list Z := link_outgoing (t_net (fp_transport r)).
Definition with_send_stream (s : STREAM) (r : fpRdp N) : fpRdp N :=
  mkFpRdp (set_send_stream s (fp_transport r)) (fp_sec r) (fp_do_crypt r) (fp_do_secure_checksum r)
    (fp_sec_flags r) (fp_encryption_method r).

Lemma on_stream_run {A} (c : M STREAM A) r a s :
  c (stream_of r) = Done (a, s) -> on_stream c r = Done (a, with_send_stream s r).
Proof. intros E. unfold on_stream, on_fp_transport, zoom. fold (stream_of r). rewrite E. reflexivity. Qed.

Lemma on_stream_bind {A B} (c : M STREAM A) (d : A -> M STREAM B) (r : fpRdp N) :
  bind (on_stream c) (fun a => on_stream (d a)) r = on_stream (bind c d) r.
Proof.
  unfold on_stream, on_fp_transport, zoom, bind. destruct (c _) as [[a s]|f]; [|reflexivity].
  destruct r as [[] ? ? ? ? ?]; cbn. destruct (d a s) as [[b s']|f]; reflexivity.
Qed.

Lemma on_stream_seq {A B C} (c : M STREAM A) (d : A -> M STREAM B) (k : B -> M (fpRdp N) C) r :
  bind (on_stream c) (fun a => bind (on_stream (d a)) k) r = bind (on_stream (bind c d)) k r.
Proof.
  unfold bind at 3. rewrite <- on_stream_bind. unfold bind. destruct (on_stream c r) as [[a r']|f]; reflexivity.
Qed.

Lemma Writes_fragment_part code kind n : 0 <= code < 16 -> 0 <= kind < 4 ->
  Writes (fastpath_write_update_header code kind 0;; stream_write_uint16 n)
    (update_header_byte code kind :: le16 n) tt.
Proof.
  intros Hc Hk. apply (Writes_bind _ _ [update_header_byte code kind] (le16 n) tt tt);
    [apply Writes_update_header; assumption|apply Writes_uint16].
Qed.

(** Writing a part of the buffer. *)
Lemma write_part_run bm pdu pre post r :
  t_layer (fp_transport r) = l -> s_data (stream_of r) = pre ++ pdu ++ post -> bm = len pre ->
  1 <= len pdu ->
  exists st t' k, transport_write_part bm (len pdu) r
      = Done (st, mkFpRdp t' (fp_sec r) (fp_do_crypt r) (fp_do_secure_checksum r)
                    (fp_sec_flags r) (fp_encryption_method r)) /\
    link_outgoing (t_net t') = sent r ++ take k pdu /\
    (0 <= st -> (length pdu <= k)%nat /\ t' = set_net (t_net t') (fp_transport r)) /\
    (st < 0 -> t_layer t' = TRANSPORT_LAYER_CLOSED).
Proof.
  intros Hl Hd -> Hlen. unfold transport_write_part.
  assert (E : buffer_at (len pre) (len pdu) (stream_of r) = Done (pdu, stream_of r)).
  { unfold buffer_at. rewrite Hd, bool_decide_true by llia.
    unfold len. rewrite !Nat2Z.id, drop_app_length, take_app_length. reflexivity. }
  rewrite (bind_Done _ _ _ _ _ (on_stream_run _ r _ _ E)).
  replace (with_send_stream (stream_of r) r) with r by (destruct r as [ [] ? ? ? ? ?]; reflexivity).
  destruct (transport_write_run l (fp_transport r) (mkSTREAM (len pdu) (len pdu) pdu) Hl)
    as (st & t' & s' & k & Hw & Hk & Hs & Ho & Hge & Hlt); [cbn; lia|].
  exists st, t', (Z.to_nat k). unfold on_fp_transport, zoom. rewrite Hw.
  split; [reflexivity|]. split; [exact Ho|]. split; [|exact Hlt].
  intros Hst. destruct (Hge Hst) as (-> & Ht & _). split; [cbn; unfold len; lia|exact Ht].
Qed.

Lemma fragment_kind_range i n : 0 <= fragment_kind i n < 4.
Proof.
  unfold fragment_kind, FASTPATH_FRAGMENT_SINGLE, FASTPATH_FRAGMENT_LAST, FASTPATH_FRAGMENT_FIRST,
    FASTPATH_FRAGMENT_NEXT. destruct (n =? 0), (i =? 0); lia.
Qed.

Lemma take_prefix {A} k (xs ys : list A) : exists j, take k xs = take j (xs ++ ys) /\ (j <= length xs)%nat.
Proof.
  exists (Nat.min k (length xs)). split; [|lia]. rewrite take_app_le by lia.
  destruct (decide (k <= length xs)%nat); [f_equal; lia|].
  rewrite !take_ge by lia. reflexivity.
Qed.

End fragmentation.

(** ** Fast-path input *)

(** The event structure of an event, and its PDU. *)
Definition fp_event_bytes (e : input_event) : list Z :=
  match e with
  | SynchronizeEvent flags => [0x60 + flags]
  | KeyboardEvent flags code =>
      [(if Z.land flags KBD_FLAGS_RELEASE =? 0 then 0 else 1) +
       (if Z.land flags KBD_FLAGS_EXTENDED =? 0 then 0 else 2); code]
  | UnicodeKeyboardEvent flags code =>
      (0x80 + (if Z.land flags KBD_FLAGS_RELEASE =? 0 then 0 else 1)) :: le16 code
  | MouseEvent flags x y => 0x20 :: le16 flags ++ le16 (Z.max x 0) ++ le16 (Z.max y 0)
  | ExtendedMouseEvent flags x y => 0x40 :: le16 flags ++ le16 (Z.max x 0) ++ le16 (Z.max y 0)
  end.

Definition fp_input_pdu (e : input_event) : list Z :=
  [0x04; 0x80; 3 + len (fp_event_bytes e)] ++ fp_event_bytes e.

(** Arguments that fit the event structure: five bits of flags for a
    synchronize event, a scan code of one byte. *)
Definition fp_valid (e : input_event) : Prop :=
  valid_event e /\
  match e with
  | SynchronizeEvent flags => flags < 32
  | KeyboardEvent _ code => code < 256
  | _ => True
  end.

(** The event the server's callbacks see. *)
Definition fp_delivered (e : input_event) : input_event :=
  match e with
  | SynchronizeEvent flags => SynchronizeEvent flags
  | KeyboardEvent flags code =>
      KeyboardEvent ((if Z.land flags KBD_FLAGS_RELEASE =? 0 then KBD_FLAGS_DOWN else KBD_FLAGS_RELEASE) +
                     (if Z.land flags KBD_FLAGS_EXTENDED =? 0 then 0 else KBD_FLAGS_EXTENDED)) code
  | UnicodeKeyboardEvent flags code =>
      UnicodeKeyboardEvent (if Z.land flags KBD_FLAGS_RELEASE =? 0
                            then KBD_FLAGS_DOWN else KBD_FLAGS_RELEASE) code
  | MouseEvent flags x y => MouseEvent flags (Z.max x 0) (Z.max y 0)
  | ExtendedMouseEvent flags x y => ExtendedMouseEvent flags (Z.max x 0) (Z.max y 0)
  end.

Lemma Reads_input_header h b f c : h = f + 32 * c -> 0 <= f < 32 -> 0 <= c -> b = true ->
  Reads fastpath_read_input_event_header [h] (b, f, c).
Proof.
  intros -> Hf Hc ->. unfold fastpath_read_input_event_header.
  apply Reads_left; [lens_lia|]. apply Reads_uint8_bind.
  rewrite (land_mask _ 5 0x1F), Z.shiftr_div_pow2 by lia. change (2 ^ 5) with 32.
  replace ((f + 32 * c) mod 32) with f by dlia. replace ((f + 32 * c) / 32) with c by dlia.
  apply Reads_ret.
Qed.

(** Reading the event structure of an event delivers it. *)
Lemma Reads_fp_event e : fp_valid e ->
  Reads fastpath_recv_input_event (fp_event_bytes e) (true, [fp_delivered e]).
Proof.
  intros [Hv Hf]. unfold fastpath_recv_input_event. destruct e as [flags|flags code|flags code|flags x y|flags x y];
    cbn [fp_event_bytes fp_delivered valid_event] in *.
  - apply (Reads_bind _ _ [0x60 + flags] [] (true, flags, 3)); [apply Reads_input_header; lia|].
    apply Reads_ret.
  - match goal with |- Reads _ [?h; ?c] _ =>
      apply (Reads_bind _ _ [h] [c] (true, h, 0)); [apply Reads_input_header; try lia; repeat case_match; lia|] end.
    apply Reads_left; [lens_lia|]. apply Reads_uint8_bind.
    destruct (Z.land flags KBD_FLAGS_RELEASE =? 0), (Z.land flags KBD_FLAGS_EXTENDED =? 0); apply Reads_ret.
  - match goal with |- Reads _ (?h :: ?c) _ =>
      apply (Reads_bind _ _ [h] c (true, h - 0x80, 4)); [apply Reads_input_header; try lia; repeat case_match; lia|] end.
    apply Reads_left; [lens_lia|]. eapply Reads_last; [apply Reads_le16; lia|].
    destruct (Z.land flags KBD_FLAGS_RELEASE =? 0); apply Reads_ret.
  - apply (Reads_bind _ _ [0x20] _ (true, 0, 1)); [apply Reads_input_header; lia|].
    apply Reads_left; [lens_lia|]. do 2 (eapply Reads_bind; [apply Reads_le16; lia|]).
    eapply Reads_last; [apply Reads_le16; lia|apply Reads_ret].
  - apply (Reads_bind _ _ [0x40] _ (true, 0, 2)); [apply Reads_input_header; lia|].
    apply Reads_left; [lens_lia|]. do 2 (eapply Reads_bind; [apply Reads_le16; lia|]).
    eapply Reads_last; [apply Reads_le16; lia|apply Reads_ret].
Qed.

(** Reading the header of an input PDU. *)
Lemma Reads_fp_input_header fp e :
  Reads (fastpath_read_header_rdp (Some fp)) [0x04; 0x80; 3 + len (fp_event_bytes e)]
    (len (fp_event_bytes e), Some (mkFastPath 0 1 (updateData fp))).
Proof.
  unfold fastpath_read_header_rdp. do 3 apply Reads_uint8_bind. cbn [Z.land Pos.land Z.eqb negb].
  destruct e; apply Reads_ret.
Qed.

(** Reading the one event behind it. *)
Lemma Reads_fp_inputs u e : fp_valid e ->
  Reads (fastpath_recv_inputs (mkFastPath 0 1 u)) (fp_event_bytes e) (true, [fp_delivered e], mkFastPath 0 1 u).
Proof.
  intros Hv. unfold fastpath_recv_inputs. cbn [numberEvents].
  change (1 =? 0) with false. cbv iota zeta. unfold id. cbn [numberEvents].
  apply (Reads_last _ _ _ (true, [fp_delivered e])); [|apply Reads_ret].
  pose proof (Reads_events fastpath_recv_input_event fp_event_bytes fp_delivered [e]) as He.
  cbn [map concat length] in He. rewrite app_nil_r in He. apply He.
  intros e' He'. apply list_elem_of_singleton in He' as ->. apply Reads_fp_event, Hv.
Qed.

Section input_sender.
Context {N : Type} (l : TRANSPORT_LAYER) `{LinkLaws N l} `{Crypto}.

Definition with_transport (t : rdpTransport N) (r : fpRdp N) : fpRdp N :=
  mkFpRdp t (fp_sec r) (fp_do_crypt r) (fp_do_secure_checksum r) (fp_sec_flags r) (fp_encryption_method r).

Lemma send_stream_run pdu r :
  t_layer (fp_transport r) = l -> s_p (stream_of r) = len pdu -> 1 <= len pdu ->
  take (length pdu) (s_data (stream_of r)) = pdu ->
  exists st t' k, on_fp_transport transport_send r = Done (st, with_transport t' r) /\
    link_outgoing (t_net t') = sent r ++ take k pdu /\
    (0 <= st -> (length pdu <= k)%nat /\ t_layer t' = l /\ t_send_stream t' = stream_of r) /\
    (st < 0 -> t_layer t' = TRANSPORT_LAYER_CLOSED /\ ~ reliable l).
Proof.
  intros Hl Hp Hlen Hd.
  assert (Hle : len pdu <= len (s_data (stream_of r))) by (rewrite <- Hd at 1; unfold len; rewrite length_take; lia).
  destruct (transport_write_run l (fp_transport r) (stream_of r) Hl)
    as (st & t' & s' & k & Hw & Hk & Hs & Ho & Hge & Hlt); [lia|].
  pose proof (transport_write_stream _ _ _ _ _ Hw) as Hset.
  unfold on_fp_transport, zoom, transport_send. fold (stream_of r). rewrite Hw.
  exists st, (set_send_stream s' t'), (Z.to_nat k). split; [reflexivity|]. split.
  { cbn. unfold sent. rewrite Ho. f_equal. rewrite <- Hd, take_take. f_equal. unfold len in *. lia. }
  split.
  2:{ intros Hst. split; [exact (Hlt Hst)|]. intros Hrel.
      pose proof (transport_write_reliable l (fp_transport r) (stream_of r) st t' s' Hrel Hl ltac:(lia) Hw). lia. }
  intros Hst. destruct (Hge Hst) as (-> & Ht & _). cbn.
  split; [unfold len in *; lia|]. split; [rewrite Ht; exact Hl|].
  rewrite Hset, Hs. destruct (stream_of r); reflexivity.
Qed.

(** The event structure in the stream behind three free bytes, as the senders
    leave it. *)
Lemma send_input_run eb s1 r :
  stream_of r = put eb (adv 3 s1) -> s_p s1 = 0 -> room s1 256 -> len eb <= 100 ->
  fp_do_crypt r = false -> fp_sec_flags r = 0 -> t_layer (fp_transport r) = l ->
  let pdu := [0x04; 0x80; 3 + len eb] ++ eb in
  exists ok r' k, fastpath_send_input_pdu r = Done (ok, r') /\
    sent r' = sent r ++ take k pdu /\
    if ok : bool then (length pdu <= k)%nat
    else t_layer (fp_transport r') = TRANSPORT_LAYER_CLOSED.
Proof.
  intros Hs Hp0 [_ Hr] Hl Hcr Hfl Hlayer pdu. pose proof (len_nonneg eb).
  unfold fastpath_send_input_pdu, fastpath_get_sec_bytes. unfold bind at 1, rdp_get. rewrite Hcr, Hfl.
  erewrite bind_Done by (apply on_stream_run; reflexivity).
  assert (Hp : stream_get_pos (stream_of r) = 3 + len eb) by (rewrite Hs; unfold put, stream_get_pos; cbn; lia).
  rewrite Hp. replace (uint16 (3 + len eb)) with (3 + len eb) by (unfold uint16; rewrite Z.mod_small; lia).
  rewrite (proj2 (Z.ltb_ge 127 _)) by lia. cbv zeta. change (0 <? 0) with false. cbv iota.
  erewrite bind_Done by (apply on_stream_run; reflexivity).
  set (x0 := set_p (put eb (adv 3 s1)) 0).
  assert (Hx0 : len (s_data x0) = len (s_data s1))
    by (apply (len_put eb (adv 3 s1)); split; cbn; lia).
  assert (Hr0 : room x0 3) by (split; [exact (Z.le_refl 0)|rewrite Hx0; change (s_p x0) with 0; lia]).
  set (v := Z.lor 0x8000 (3 + len eb + 0)).
  assert (Hw1 : stream_write_uint8 (Z.lor FASTPATH_INPUT_ACTION_FASTPATH (Z.shiftl 1 2)) x0
                = Done (tt, put [4] x0)) by (apply (Writes_uint8 4), (room_le _ _ _ Hr0); lens_lia).
  assert (Hw2 : stream_write_uint16_be v (put [4] x0) = Done (tt, put (be16 v) (put [4] x0))).
  { apply Writes_uint16_be. apply (room_put [4]); [exact Hr0|lens_lia]. }
  rewrite (put_app [4]) in Hw2 by exact Hr0.
  erewrite bind_Done by (apply on_stream_run; cbn [stream_of with_send_stream fp_transport t_send_stream
    set_send_stream]; rewrite Hs; exact Hw1).
  do 2 erewrite bind_Done by (apply on_stream_run; reflexivity). rewrite bind_ret.
  do 1 erewrite bind_Done by (apply on_stream_run; reflexivity).
  erewrite bind_Done by (apply on_stream_run; exact Hw2).
  unfold bind at 1, rdp_mod.
  erewrite bind_Done by (apply on_stream_run; reflexivity).
  assert (Hv : [4] ++ be16 v = [4; 0x80; 3 + len eb]).
  { unfold v, be16. rewrite Z.add_0_r, (lor_high_low _ _ 8) by (reflexivity || lia).
    cbn [app]. cons_eq; [reflexivity|dlia|dlia]. }
  rewrite Hv in *. set (s2 := set_p (put [4; 0x80; 3 + len eb] x0) (3 + len eb + 0)).
  assert (Hs2 : s2 = put pdu s1).
  { unfold s2, x0, pdu. rewrite <- put_patch by (split; [lia|cbn [app]; rewrite !len_cons; lia]).
    rewrite Hp0, Z.add_0_r. reflexivity. }
  destruct (send_stream_run pdu (mkFpRdp (set_send_stream s2 (fp_transport r)) (fp_sec r) (fp_do_crypt r)
              (fp_do_secure_checksum r) 0 (fp_encryption_method r))) as (st & t' & k & E & Hout & Hge & Hlt).
  - exact Hlayer.
  - change (s_p s2 = len pdu). rewrite Hs2. cbn [put s_p]. rewrite Hp0. reflexivity.
  - unfold pdu. cbn [app]. rewrite !len_cons. lia.
  - change (take (length pdu) (s_data s2) = pdu). rewrite Hs2. cbn [put s_data].
    rewrite Hp0. apply (splice_read 0). unfold pdu. cbn [app length]. unfold len in *. lia.
  - do 2 eexists. exists k.
    split; [etransitivity; [eapply bind_Done; exact E|reflexivity]|]. split; [exact Hout|].
    destruct (Z.ltb_spec st 0); [apply Hlt; assumption|apply Hge; assumption].
Qed.

(** The writers of the event structures. *)
Definition fp_event_header (e : input_event) : Z * Z :=
  match e with
  | SynchronizeEvent flags => (uint8 flags, FASTPATH_INPUT_EVENT_SYNC)
  | KeyboardEvent flags _ =>
      (Z.lor (Z.lor 0 (kbd_flags flags))
         (if negb (Z.land flags KBD_FLAGS_EXTENDED =? 0) then FASTPATH_INPUT_KBDFLAGS_EXTENDED else 0),
       FASTPATH_INPUT_EVENT_SCANCODE)
  | UnicodeKeyboardEvent flags _ => (Z.lor 0 (kbd_flags flags), FASTPATH_INPUT_EVENT_UNICODE)
  | MouseEvent _ _ _ => (0, FASTPATH_INPUT_EVENT_MOUSE)
  | ExtendedMouseEvent _ _ _ => (0, FASTPATH_INPUT_EVENT_MOUSEX)
  end.
Definition fp_event_body (e : input_event) : M STREAM unit :=
  match e with
  | SynchronizeEvent _ => ret tt
  | KeyboardEvent _ code => stream_write_uint8 code
  | UnicodeKeyboardEvent _ code => stream_write_uint16 code
  | MouseEvent flags x y => input_write_mouse_event flags x y
  | ExtendedMouseEvent flags x y => input_write_extended_mouse_event flags x y
  end.

Lemma Writes_fp_event e : fp_valid e ->
  Writes (stream_write_uint8 (Z.lor (fst (fp_event_header e)) (Z.shiftl (snd (fp_event_header e)) 5));;
          fp_event_body e) (fp_event_bytes e) tt.
Proof.
  intros [Hv Hf]. destruct e as [flags|flags code|flags code|flags x y|flags x y]; cbn [valid_event] in Hv;
    cbn [fp_event_header fp_event_body fp_event_bytes fst snd].
  - eapply Writes_eq; [eapply Writes_last; [apply Writes_uint8|apply Writes_ret]| |reflexivity].
    assert (Hb : forall b, is_byte b -> b < 32 -> Z.lor (uint8 b) (Z.shiftl 3 5) mod 256 = 0x60 + b).
    { apply (byte_forall (fun b => b < 32 -> _ = _)). vm_compute. reflexivity. }
    f_equal. apply Hb; [unfold is_byte; lia|exact Hf].
  - eapply Writes_eq; [eapply Writes_bind; apply Writes_uint8| |reflexivity]. cbn [app].
    rewrite (Z.mod_small code) by lia. unfold kbd_flags.
    destruct (Z.land flags KBD_FLAGS_RELEASE =? 0), (Z.land flags KBD_FLAGS_EXTENDED =? 0); reflexivity.
  - eapply Writes_eq; [eapply Writes_bind; [apply Writes_uint8|apply Writes_uint16]| |reflexivity].
    unfold kbd_flags. destruct (Z.land flags KBD_FLAGS_RELEASE =? 0); reflexivity.
  - apply (Writes_bind _ _ [0x20] _ tt tt); [apply (Writes_uint8 0x20)|apply Writes_mouse_event].
  - apply (Writes_bind _ _ [0x40] _ tt tt); [apply (Writes_uint8 0x40)|apply Writes_extended_mouse_event].
Qed.

Lemma input_send_fastpath_shape e (r : fpRdp N) :
  input_send_fastpath e r
  = (fastpath_input_pdu_init (fst (fp_event_header e)) (snd (fp_event_header e));;
     on_stream (fp_event_body e);; fastpath_send_input_pdu) r.
Proof.
  destruct e; reflexivity.
Qed.

Lemma input_send_fastpath_run e r :
  fp_valid e -> stream_ok (stream_of r) -> s_size (stream_of r) <= 2 ^ 29 ->
  fp_do_crypt r = false -> fp_sec_flags r = 0 -> t_layer (fp_transport r) = l ->
  exists ok r' k, input_send_fastpath e r = Done (ok, r') /\
    sent r' = sent r ++ take k (fp_input_pdu e) /\
    if ok : bool then (length (fp_input_pdu e) <= k)%nat
    else t_layer (fp_transport r') = TRANSPORT_LAYER_CLOSED.
Proof.
  intros Hv Hok Hsz Hcr Hfl Hl. rewrite input_send_fastpath_shape.
  destruct (stream_check_size_run 256 (stream_of r) Hok) as (s0 & Hcs & Hok0 & _ & [_ Hroom] & Hfit & _);
    [lia|unfold INT_MAX; lia|].
  set (s1 := set_p s0 0).
  assert (Hinit : on_fp_transport (transport_send_stream_init 256) r = Done (tt, with_send_stream s1 r)).
  { unfold on_fp_transport, zoom, transport_send_stream_init, zoom, bind. fold (stream_of r). rewrite Hcs. reflexivity. }
  pose proof (ok_p _ Hok0) as Hp0.
  assert (Hr1 : room s1 256) by (split; cbn; lia).
  unfold fastpath_input_pdu_init. rewrite bind_assoc, (bind_Done _ _ _ _ _ Hinit), bind_assoc.
  erewrite bind_Done by (apply on_stream_run; reflexivity).
  rewrite bind_assoc. unfold bind at 1, rdp_get. cbn [fp_do_crypt with_send_stream]. rewrite Hcr.
  rewrite bind_assoc, bind_ret, bind_assoc. unfold bind at 1, fastpath_get_sec_bytes. cbn [fp_do_crypt with_send_stream].
  rewrite Hcr, bind_assoc. erewrite bind_Done by (apply on_stream_run; reflexivity).
  rewrite on_stream_seq.
  assert (Hel : len (fp_event_bytes e) <= 16) by (destruct e; lens_lia).
  erewrite bind_Done.
  2:{ apply on_stream_run, (Writes_fp_event e Hv). split; [lens_lia|].
      change (3 + len (fp_event_bytes e) <= len (s_data s0)). lia. }
  cbn [stream_of with_send_stream fp_transport t_send_stream set_send_stream].
  match goal with |- context [fastpath_send_input_pdu ?r0] => set (r1 := r0) end.
  destruct (send_input_run (fp_event_bytes e) s1 r1) as (ok & r' & k & E & Ho); auto; [lia|].
  exists ok, r', k. split; [exact E|exact Ho].
Qed.
End input_sender.

(** An input event sent on the fast path without encryption: the sender hands one
    PDU to the transport (or fails and closes the connection), whose header and
    event the readers of [fastpath.c] decode to exactly one callback with the
    event, the key flags reduced to pressed or released and extended. The
    sources have no caller of [fastpath_recv_inputs]: [rdp_recv_fastpath_pdu]
    takes every fast-path PDU for updates. *)
Theorem fastpath_input_readable {N} l `{LinkLaws N l} `{Crypto} (r : fpRdp N) e fp :
  fp_valid e -> stream_ok (stream_of r) -> s_size (stream_of r) <= 2 ^ 29 ->
  fp_do_crypt r = false -> fp_sec_flags r = 0 -> t_layer (fp_transport r) = l ->
  exists ok r' pdu k,
    input_send_fastpath e r = Done (ok, r') /\
    sent r' = sent r ++ take k pdu /\
    (if ok : bool then (length pdu <= k)%nat
     else t_layer (fp_transport r') = TRANSPORT_LAYER_CLOSED) /\
    fastpath_read_header_rdp (Some fp) (mkSTREAM (len pdu) 0 pdu)
    = Done ((len pdu - 3, Some (mkFastPath 0 1 (updateData fp))), mkSTREAM (len pdu) 3 pdu) /\
    fastpath_recv_inputs (mkFastPath 0 1 (updateData fp)) (mkSTREAM (len pdu) 3 pdu)
    = Done ((true, [fp_delivered e], mkFastPath 0 1 (updateData fp)), mkSTREAM (len pdu) (len pdu) pdu).
Proof.
  intros Hv Hok Hsz Hcr Hfl Hl.
  destruct (input_send_fastpath_run l e r) as (ok & r' & k & E & Ho & Hk); auto.
  exists ok, r', (fp_input_pdu e), k. repeat (split; [assumption|]).
  assert (Hs : holds (mkSTREAM (len (fp_input_pdu e)) 0 (fp_input_pdu e)) (fp_input_pdu e))
    by (rewrite <- (app_nil_r (fp_input_pdu e)) at 2; apply holds_start; lia).
  destruct (holds_app _ _ _ Hs) as [Hs1 Hs2]. change (len [_; _; _]) with 3 in Hs2.
  assert (Hlen : len (fp_input_pdu e) = 3 + len (fp_event_bytes e)) by (unfold fp_input_pdu; rewrite len_app; reflexivity).
  split; [rewrite (Reads_fp_input_header fp e _ Hs1), Hlen; repeat f_equal; lia|].
  pose proof (Reads_fp_inputs (updateData fp) e Hv _ Hs2) as E2. unfold adv, set_p in E2. cbn [s_size s_p s_data] in E2.
  rewrite Hlen. rewrite Hlen in E2. exact E2.
Qed.
