(* ===== verification/Rdp.v ===== *)
(** The RDP layer proper, [libfreerdp-core/rdp.c], with the finalization PDUs of
    [activation.c], the slow-path senders of [input.c] and the static channel
    traffic of [channel.c]: packet, security and share headers, sending with
    signature and encryption, decryption, and the dispatch of what arrives. *)

From S2P Require Import Prelude.
From S2P Require Import Stream.
From S2P Require Import Settings.
From S2P Require Import Per.
From S2P Require Import X224.
From S2P Require Import Transport.
From S2P Require Import Mcs.
From S2P Require Import Security.
From S2P Require Import Input.
From S2P Require Import Mppc.
From S2P Require Import Fastpath.

(** ** Constants of [rdp.h] and [activation.h] *)

Definition SEC_REDIRECTION_PKT : Z := 0x0400.

Definition RDP_SHARE_CONTROL_HEADER_LENGTH : Z := 6.
Definition RDP_SHARE_DATA_HEADER_LENGTH : Z := 12.
Definition RDP_PACKET_HEADER_MAX_LENGTH : Z := TPDU_DATA_LENGTH + MCS_SEND_DATA_HEADER_MAX_LENGTH.

Definition PDU_TYPE_DEACTIVATE_ALL : Z := 0x6.
Definition PDU_TYPE_DATA : Z := 0x7.
Definition PDU_TYPE_SERVER_REDIRECTION : Z := 0xA.

Definition FINALIZE_SC_SYNCHRONIZE_PDU : Z := 0x01.
Definition FINALIZE_SC_CONTROL_COOPERATE_PDU : Z := 0x02.
Definition FINALIZE_SC_CONTROL_GRANTED_PDU : Z := 0x04.
Definition FINALIZE_SC_FONT_MAP_PDU : Z := 0x08.
Definition FINALIZE_SC_COMPLETE : Z := 0x0F.

Definition DATA_PDU_TYPE_UPDATE : Z := 0x02.
Definition DATA_PDU_TYPE_CONTROL : Z := 0x14.
Definition DATA_PDU_TYPE_POINTER : Z := 0x1B.
Definition DATA_PDU_TYPE_INPUT : Z := 0x1C.
Definition DATA_PDU_TYPE_SYNCHRONIZE : Z := 0x1F.
Definition DATA_PDU_TYPE_PLAY_SOUND : Z := 0x22.
Definition DATA_PDU_TYPE_SAVE_SESSION_INFO : Z := 0x26.
Definition DATA_PDU_TYPE_FONT_LIST : Z := 0x27.
Definition DATA_PDU_TYPE_FONT_MAP : Z := 0x28.
Definition DATA_PDU_TYPE_BITMAP_CACHE_PERSISTENT_LIST : Z := 0x2B.
Definition DATA_PDU_TYPE_SET_ERROR_INFO : Z := 0x2F.

Definition STREAM_LOW : Z := 0x01.

Definition SYNCMSGTYPE_SYNC : Z := 0x0001.
Definition CTRLACTION_REQUEST_CONTROL : Z := 0x0001.
Definition CTRLACTION_GRANTED_CONTROL : Z := 0x0002.
Definition CTRLACTION_COOPERATE : Z := 0x0004.
Definition PERSIST_FIRST_PDU : Z := 0x01.
Definition PERSIST_LAST_PDU : Z := 0x02.
Definition FONTLIST_FIRST : Z := 0x0001.
Definition FONTLIST_LAST : Z := 0x0002.

(** ** Headers *)

Definition rdp_read_security_header : M STREAM Z :=
  let! flags := stream_read_uint16 in
  stream_seek 2;;
  ret flags.

Definition rdp_write_security_header (flags : Z) : M STREAM unit :=
  stream_write_uint16 flags;;
  stream_write_uint16 0.

(** Returns the result, [*length], [*type] and [*channel_id]; the latter two
    keep their old values when the header is refused. *)
Definition rdp_read_share_control_header (type channel_id : option Z)
  : M STREAM (bool * Z * option Z * option Z) :=
  let! length := stream_read_uint16 in
  let! avail := left_bytes in
  if avail <? length - 2 then ret (false, length, type, channel_id) else
  let! type := stream_read_uint16 in
  let type := Z.land type 0x0F in
  if 4 <? length then
    let! channel_id := stream_read_uint16 in
    ret (true, length, Some type, Some channel_id)
  else ret (true, length, Some type, Some 0).

Definition rdp_write_share_control_header (length type channel_id : Z) : M STREAM unit :=
  let length := uint16 (length - RDP_PACKET_HEADER_MAX_LENGTH) in
  stream_write_uint16 length;;
  stream_write_uint16 (Z.lor type 0x10);;
  stream_write_uint16 channel_id.

(** [*length], [*type], [*share_id], [*compressed_type] and [*compressed_len],
    [None] when the header is refused and nothing is assigned. *)
Definition rdp_read_share_data_header : M STREAM (option (Z * Z * Z * Z * Z)) :=
  let! avail := left_bytes in
  if avail <? 12 then ret None else
  let! share_id := stream_read_uint32 in
  stream_seek 1;;
  stream_seek 1;;
  let! length := stream_read_uint16 in
  let! type := stream_read_uint8 in
  let! compressed_type := stream_read_uint8 in
  let! compressed_len := stream_read_uint16 in
  ret (Some (length, type, share_id, compressed_type, compressed_len)).

Definition rdp_write_share_data_header (length type share_id : Z) : M STREAM unit :=
  let length := uint16 (length - RDP_PACKET_HEADER_MAX_LENGTH) in
  let length := uint16 (length - RDP_SHARE_CONTROL_HEADER_LENGTH) in
  let length := uint16 (length - RDP_SHARE_DATA_HEADER_LENGTH) in
  stream_write_uint32 share_id;;
  stream_write_uint8 0;;
  stream_write_uint8 STREAM_LOW;;
  stream_write_uint16 length;;
  stream_write_uint8 type;;
  stream_write_uint8 0;;
  stream_write_uint16 0.

(** ** Sending

    The senders work on the part of [struct rdp_rdp] that the fast path also
    uses, [fpRdp]; the settings and the MCS user they read are in [rdpConf]. *)

Record rdpChannel : Type := mkChannel {
  c_channel_id : Z;
  c_options : Z;
}.

Record rdpConf : Type := mkConf {
  server_mode : bool;
  encryption : bool;
  mcs_user_id : Z;
  share_id : Z;
  pdu_source : Z;
  channels : list rdpChannel;
  vc_chunk_size : Z;
  frame_acknowledge : Z;
}.

Section sending.
Context {N : Type} `{Link N} `{Crypto}.

Definition rdp_security_stream_init : M (fpRdp N) unit :=
  let! rdp := rdp_get in
  if fp_do_crypt rdp then
    on_stream (stream_seek 12);;
    (if fp_encryption_method rdp =? ENCRYPTION_METHOD_FIPS then on_stream (stream_seek 4) else ret tt);;
    rdp_mod (fun rdp => set_sec_flags (Z.lor (fp_sec_flags rdp) SEC_ENCRYPT) rdp);;
    if fp_do_secure_checksum rdp
    then rdp_mod (fun rdp => set_sec_flags (Z.lor (fp_sec_flags rdp) SEC_SECURE_CHECKSUM) rdp)
    else ret tt
  else if negb (fp_sec_flags rdp =? 0) then on_stream (stream_seek 4)
  else ret tt.

Definition rdp_send_stream_init : M (fpRdp N) unit :=
  on_fp_transport (transport_send_stream_init 2048);;
  on_stream (stream_seek RDP_PACKET_HEADER_MAX_LENGTH);;
  rdp_security_stream_init.

Definition rdp_pdu_init : M (fpRdp N) unit :=
  on_fp_transport (transport_send_stream_init 2048);;
  on_stream (stream_seek RDP_PACKET_HEADER_MAX_LENGTH);;
  rdp_security_stream_init;;
  on_stream (stream_seek RDP_SHARE_CONTROL_HEADER_LENGTH).

Definition rdp_data_pdu_init : M (fpRdp N) unit :=
  on_fp_transport (transport_send_stream_init 2048);;
  on_stream (stream_seek RDP_PACKET_HEADER_MAX_LENGTH);;
  rdp_security_stream_init;;
  on_stream (stream_seek RDP_SHARE_CONTROL_HEADER_LENGTH);;
  on_stream (stream_seek RDP_SHARE_DATA_HEADER_LENGTH).

(** The bytes behind the 15 header bytes are padded to a multiple of eight
    under FIPS. *)
Definition rdp_write_header (conf : rdpConf) (length channel_id : Z) : M (fpRdp N) unit :=
  let! rdp := rdp_get in
  let MCSPDU := if server_mode conf then DomainMCSPDU_SendDataIndication
                else DomainMCSPDU_SendDataRequest in
  let length :=
    if negb (Z.land (fp_sec_flags rdp) SEC_ENCRYPT =? 0) &&
       (fp_encryption_method rdp =? ENCRYPTION_METHOD_FIPS)
    then let body_length := length - RDP_PACKET_HEADER_MAX_LENGTH - 16 in
         let pad := 8 - Z.rem body_length 8 in
         if negb (pad =? 8) then uint16 (length + pad) else length
    else length in
  on_stream (mcs_write_domain_mcspdu_header MCSPDU length 0);;
  on_stream (per_write_integer16 (mcs_user_id conf) MCS_BASE_CHANNEL_ID);;
  on_stream (per_write_integer16 channel_id 0);;
  on_stream (stream_write_uint8 0x70);;
  let length := uint16 (Z.lor (length - RDP_PACKET_HEADER_MAX_LENGTH) 0x8000) in
  on_stream (stream_write_uint16_be length).

(** Returns the padding. The steps between the header and the move over the
    signature are those of the fast path. *)
Definition rdp_security_stream_out (length : Z) : M (fpRdp N) Z :=
  let! rdp := rdp_get in
  let sec_flags := fp_sec_flags rdp in
  if negb (sec_flags =? 0) then
    on_stream (rdp_write_security_header sec_flags);;
    let! pad :=
      (if negb (Z.land sec_flags SEC_ENCRYPT =? 0) then
         let! p := on_stream get_pos in
         if fp_encryption_method rdp =? ENCRYPTION_METHOD_FIPS then
           let data := p + 12 in
           let length := length - data in
           let! pad := fastpath_protect_fips data length in
           on_stream (stream_seek 8);;
           ret pad
         else
           let data := p + 8 in
           let length := length - data in
           fastpath_protect data length p;;
           on_stream (stream_seek 8);;
           ret 0
       else ret 0) in
    rdp_mod (set_sec_flags 0);;
    ret pad
  else ret 0.

Definition rdp_get_sec_bytes (rdp : fpRdp N) : Z :=
  if negb (Z.land (fp_sec_flags rdp) SEC_ENCRYPT =? 0) then
    if fp_encryption_method rdp =? ENCRYPTION_METHOD_FIPS then 12 + 4 else 12
  else if negb (fp_sec_flags rdp =? 0) then 4
  else 0.

(** What the three senders share: [inner] writes the headers that follow the
    packet header, given the length without the security bytes. *)
Definition send_framed (conf : rdpConf) (channel_id : Z) (inner : Z -> M STREAM unit) : M (fpRdp N) bool :=
  let! length := on_stream get_pos in
  let length := uint16 length in
  on_stream (stream_set_pos 0);;
  rdp_write_header conf length channel_id;;
  let! rdp := rdp_get in
  let sec_bytes := rdp_get_sec_bytes rdp in
  let! sec_hold := on_stream get_pos in
  on_stream (stream_seek sec_bytes);;
  on_stream (inner (uint16 (length - sec_bytes)));;
  on_stream (stream_set_pos sec_hold);;
  let! pad := rdp_security_stream_out length in
  let length := uint16 (length + pad) in
  on_stream (stream_set_pos length);;
  let! status := on_fp_transport transport_send in
  ret (negb (status <? 0)).

Definition rdp_send (conf : rdpConf) (channel_id : Z) : M (fpRdp N) bool :=
  send_framed conf channel_id (fun _ => ret tt).

Definition rdp_send_pdu (conf : rdpConf) (type channel_id : Z) : M (fpRdp N) bool :=
  send_framed conf MCS_GLOBAL_CHANNEL_ID
    (fun length => rdp_write_share_control_header length type channel_id).

Definition rdp_send_data_pdu (conf : rdpConf) (type channel_id : Z) : M (fpRdp N) bool :=
  send_framed conf MCS_GLOBAL_CHANNEL_ID
    (fun length => rdp_write_share_control_header length PDU_TYPE_DATA channel_id;;
                   rdp_write_share_data_header length type (share_id conf)).

(** Initialise a data PDU, write its contents and send it. *)
Definition send_data (conf : rdpConf) (type : Z) (contents : M STREAM unit) : M (fpRdp N) bool :=
  rdp_data_pdu_init;;
  on_stream contents;;
  rdp_send_data_pdu conf type (mcs_user_id conf).

Definition rdp_send_frame_ack (conf : rdpConf) (frame : Z) : M (fpRdp N) Z :=
  if frame_acknowledge conf =? 0 then ret 0 else
  send_data conf 56 (stream_write_uint32 frame);;
  ret 0.

Definition rdp_send_invalidate (conf : rdpConf) (code x y w h : Z) : M (fpRdp N) Z :=
  send_data conf 33
    (stream_write_uint8 1;;
     stream_seek 3;;
     stream_write_uint16 x;;
     stream_write_uint16 y;;
     stream_write_uint16 (x + w);;
     stream_write_uint16 (y + h));;
  ret 0.

Definition rdp_send_suppress_output (conf : rdpConf) (code x y w h : Z) : M (fpRdp N) Z :=
  send_data conf 35
    (stream_write_uint32 code;;
     if code =? 1 then
       stream_write_uint16 x;;
       stream_write_uint16 y;;
       stream_write_uint16 w;;
       stream_write_uint16 h
     else ret tt);;
  ret 0.

(** *** Slow-path input of [input.c] *)

Definition rdp_client_input_pdu_init (type : Z) : M (fpRdp N) unit :=
  rdp_data_pdu_init;;
  on_stream (rdp_write_client_input_pdu_header 1);;
  on_stream (rdp_write_input_event_header 0 type).

Definition rdp_send_client_input_pdu (conf : rdpConf) : M (fpRdp N) unit :=
  rdp_send_data_pdu conf DATA_PDU_TYPE_INPUT (mcs_user_id conf);;
  ret tt.

Definition input_send_synchronize_event (conf : rdpConf) (flags : Z) : M (fpRdp N) unit :=
  rdp_client_input_pdu_init INPUT_EVENT_SYNC;;
  on_stream (input_write_synchronize_event flags);;
  rdp_send_client_input_pdu conf.

Definition input_send_keyboard_event (conf : rdpConf) (flags code : Z) : M (fpRdp N) unit :=
  rdp_client_input_pdu_init INPUT_EVENT_SCANCODE;;
  on_stream (input_write_keyboard_event flags code);;
  rdp_send_client_input_pdu conf.

(** [keyboardFlags] is computed and not used. *)
Definition input_send_unicode_keyboard_event (conf : rdpConf) (flags code : Z) : M (fpRdp N) unit :=
  rdp_client_input_pdu_init INPUT_EVENT_UNICODE;;
  on_stream (input_write_unicode_keyboard_event flags code);;
  rdp_send_client_input_pdu conf.

Definition input_send_mouse_event (conf : rdpConf) (flags x y : Z) : M (fpRdp N) unit :=
  rdp_client_input_pdu_init INPUT_EVENT_MOUSE;;
  on_stream (input_write_mouse_event flags x y);;
  rdp_send_client_input_pdu conf.

Definition input_send_extended_mouse_event (conf : rdpConf) (flags x y : Z) : M (fpRdp N) unit :=
  rdp_client_input_pdu_init INPUT_EVENT_MOUSEX;;
  on_stream (input_write_extended_mouse_event flags x y);;
  rdp_send_client_input_pdu conf.

(** *** Finalization PDUs of [activation.c] *)

Definition rdp_write_synchronize_pdu (conf : rdpConf) : M STREAM unit :=
  stream_write_uint16 SYNCMSGTYPE_SYNC;;
  stream_write_uint16 (pdu_source conf).

Definition rdp_send_server_synchronize_pdu (conf : rdpConf) : M (fpRdp N) bool :=
  send_data conf DATA_PDU_TYPE_SYNCHRONIZE (rdp_write_synchronize_pdu conf);;
  ret true.

Definition rdp_send_client_synchronize_pdu (conf : rdpConf) : M (fpRdp N) bool :=
  send_data conf DATA_PDU_TYPE_SYNCHRONIZE (rdp_write_synchronize_pdu conf).

Definition rdp_write_client_control_pdu (action : Z) : M STREAM unit :=
  stream_write_uint16 action;;
  stream_write_uint16 0;;
  stream_write_uint32 0.

Definition rdp_send_server_control_cooperate_pdu (conf : rdpConf) : M (fpRdp N) bool :=
  send_data conf DATA_PDU_TYPE_CONTROL
    (stream_write_uint16 CTRLACTION_COOPERATE;;
     stream_write_uint16 0;;
     stream_write_uint32 0);;
  ret true.

Definition rdp_send_server_control_granted_pdu (conf : rdpConf) : M (fpRdp N) bool :=
  send_data conf DATA_PDU_TYPE_CONTROL
    (stream_write_uint16 CTRLACTION_GRANTED_CONTROL;;
     stream_write_uint16 (mcs_user_id conf);;
     stream_write_uint32 0x03EA);;
  ret true.

Definition rdp_send_client_control_pdu (conf : rdpConf) (action : Z) : M (fpRdp N) bool :=
  send_data conf DATA_PDU_TYPE_CONTROL (rdp_write_client_control_pdu action).

Definition rdp_write_client_persistent_key_list_pdu : M STREAM unit :=
  stream_write_uint16 0;;
  stream_write_uint16 0;;
  stream_write_uint16 0;;
  stream_write_uint16 0;;
  stream_write_uint16 0;;
  stream_write_uint16 0;;
  stream_write_uint16 0;;
  stream_write_uint16 0;;
  stream_write_uint16 0;;
  stream_write_uint16 0;;
  stream_write_uint8 (Z.lor PERSIST_FIRST_PDU PERSIST_LAST_PDU);;
  stream_write_uint8 0;;
  stream_write_uint16 0.

Definition rdp_send_client_persistent_key_list_pdu (conf : rdpConf) : M (fpRdp N) bool :=
  send_data conf DATA_PDU_TYPE_BITMAP_CACHE_PERSISTENT_LIST rdp_write_client_persistent_key_list_pdu.

Definition rdp_write_client_font_list_pdu (flags : Z) : M STREAM unit :=
  stream_write_uint16 0;;
  stream_write_uint16 0;;
  stream_write_uint16 flags;;
  stream_write_uint16 50.

Definition rdp_send_client_font_list_pdu (conf : rdpConf) (flags : Z) : M (fpRdp N) bool :=
  send_data conf DATA_PDU_TYPE_FONT_LIST (rdp_write_client_font_list_pdu flags).

Definition rdp_send_server_font_map_pdu (conf : rdpConf) : M (fpRdp N) bool :=
  send_data conf DATA_PDU_TYPE_FONT_MAP
    (stream_write_uint16 0;;
     stream_write_uint16 0;;
     stream_write_uint16 (Z.lor FONTLIST_FIRST FONTLIST_LAST);;
     stream_write_uint16 4).

Definition rdp_send_deactivate_all (conf : rdpConf) : M (fpRdp N) bool :=
  rdp_pdu_init;;
  on_stream (stream_write_uint32 (share_id conf);;
             stream_write_uint16 1;;
             stream_write_uint8 0);;
  rdp_send_pdu conf PDU_TYPE_DEACTIVATE_ALL (mcs_user_id conf).

End sending.

(** ** Receiving

    What lies behind the dispatcher, the display updates of [update.c], the
    session information of [info.c], the redirection of [redirection.c] and the
    program's own channel callback, is given by its handlers over a state [U]. *)

Class PduHandlers (U : Type) : Type := {
  update_recv : STREAM -> U -> outcome (STREAM * U);
  update_recv_pointer : STREAM -> U -> outcome (STREAM * U);
  update_recv_play_sound : STREAM -> U -> outcome (STREAM * U);
  rdp_recv_save_session_info : STREAM -> U -> outcome (STREAM * U);
  rdp_recv_redirection : STREAM -> U -> outcome (STREAM * U);
  BeginPaint : U -> U;
  EndPaint : U -> U;
  fastpath_recv_update : Z -> Z -> STREAM -> U -> outcome (STREAM * U);
  ReceiveChannelData : Z -> list Z -> Z -> Z -> U -> U;  (** channel, chunk, flags, total size *)
}.

Definition CONNECTION_STATE_CAPABILITY : Z := 8.
Definition CONNECTION_STATE_FINALIZATION : Z := 9.
Definition CONNECTION_STATE_ACTIVE : Z := 10.
Definition FASTPATH_OUTPUT_SECURE_CHECKSUM : Z := 1.

Section receiving.
Context {N U : Type} `{Link N} `{Crypto} `{PduHandlers U}.

(** The fields of [struct rdp_rdp] the receivers use. *)
Record rdpRdp : Type := mkRdp {
  rdp_out : fpRdp N;
  rdp_conf : rdpConf;
  rdp_state : Z;
  disconnect : bool;
  errorInfo : Z;
  finalize_sc_pdus : Z;
  rdp_rx : fpRecv U;
}.

Definition with_out (o : fpRdp N) (r : rdpRdp) : rdpRdp :=
  mkRdp o (rdp_conf r) (rdp_state r) (disconnect r) (errorInfo r) (finalize_sc_pdus r) (rdp_rx r).
Definition with_conf (c : rdpConf) (r : rdpRdp) : rdpRdp :=
  mkRdp (rdp_out r) c (rdp_state r) (disconnect r) (errorInfo r) (finalize_sc_pdus r) (rdp_rx r).
Definition with_state (v : Z) (r : rdpRdp) : rdpRdp :=
  mkRdp (rdp_out r) (rdp_conf r) v (disconnect r) (errorInfo r) (finalize_sc_pdus r) (rdp_rx r).
Definition with_disconnect (v : bool) (r : rdpRdp) : rdpRdp :=
  mkRdp (rdp_out r) (rdp_conf r) (rdp_state r) v (errorInfo r) (finalize_sc_pdus r) (rdp_rx r).
Definition with_errorInfo (v : Z) (r : rdpRdp) : rdpRdp :=
  mkRdp (rdp_out r) (rdp_conf r) (rdp_state r) (disconnect r) v (finalize_sc_pdus r) (rdp_rx r).
Definition with_finalize (flag : Z) (r : rdpRdp) : rdpRdp :=
  mkRdp (rdp_out r) (rdp_conf r) (rdp_state r) (disconnect r) (errorInfo r)
    (Z.lor (finalize_sc_pdus r) flag) (rdp_rx r).
Definition with_rx (x : fpRecv U) (r : rdpRdp) : rdpRdp :=
  mkRdp (rdp_out r) (rdp_conf r) (rdp_state r) (disconnect r) (errorInfo r) (finalize_sc_pdus r) x.
Definition with_update (u : U) (r : rdpRdp) : rdpRdp :=
  with_rx (mkRecv (r_fastpath (rdp_rx r)) u (r_mppc (rdp_rx r))) r.
Definition with_sec (k : rdpSec) (r : rdpRdp) : rdpRdp :=
  let o := rdp_out r in
  with_out (mkFpRdp (fp_transport o) k (fp_do_crypt o) (fp_do_secure_checksum o) (fp_sec_flags o)
              (fp_encryption_method o)) r.
Definition set_share_id (v : Z) (c : rdpConf) : rdpConf :=
  mkConf (server_mode c) (encryption c) (mcs_user_id c) v (pdu_source c) (channels c)
    (vc_chunk_size c) (frame_acknowledge c).
Definition set_pdu_source (v : Z) (c : rdpConf) : rdpConf :=
  mkConf (server_mode c) (encryption c) (mcs_user_id c) (share_id c) v (channels c)
    (vc_chunk_size c) (frame_acknowledge c).

(** The receivers run on the packet and the module. *)
Definition RM (A : Type) : Type := M (STREAM * rdpRdp) A.
Definition pkt {A} (c : M STREAM A) : RM A := zoom fst (fun s x => (s, snd x)) c.
Definition rdp_of : RM rdpRdp := fun x => Done (snd x, x).
Definition rdp_upd (f : rdpRdp -> rdpRdp) : RM unit := fun x => Done (tt, (fst x, f (snd x))).
Definition sec_of {A} (c : M rdpSec A) : RM A :=
  zoom (fun x => fp_sec (rdp_out (snd x))) (fun k x => (fst x, with_sec k (snd x))) c.
(** Run a handler on the packet, or on the decompressed data when there is any. *)
Definition handle (comp : option STREAM) (h : STREAM -> U -> outcome (STREAM * U)) : RM unit := fun x =>
  let (s, r) := x in
  match h (default s comp) (r_update (rdp_rx r)) with
  | Fault f => Fault f
  | Done (s', u) => Done (tt, (match comp with None => s' | Some _ => s end, with_update u r))
  end.
(** The same for the receivers of this file. *)
Definition on_comp {A} (comp : option STREAM) (c : RM A) : RM A := fun x =>
  let (s, r) := x in
  match c (default s comp, r) with
  | Fault f => Fault f
  | Done (a, (s', r')) => Done (a, (match comp with None => s' | Some _ => s end, r'))
  end.

(** Returns the result, [*length] and [*channel_id]. *)
Definition rdp_read_header : RM (bool * Z * option Z) :=
  let! rdp := rdp_of in
  let MCSPDU := if server_mode (rdp_conf rdp) then DomainMCSPDU_SendDataRequest
                else DomainMCSPDU_SendDataIndication in
  let! (ok, MCSPDU, length) := pkt (mcs_read_domain_mcspdu_header MCSPDU) in
  if negb ok then ret (false, length, None) else
  let! avail := pkt left_bytes in
  if avail <? length - 8 then ret (false, length, None) else
  if MCSPDU =? DomainMCSPDU_DisconnectProviderUltimatum then
    let! (ok, reason) := pkt (per_read_enumerated None 0) in
    if negb ok then ret (false, length, None) else
    rdp_upd (with_disconnect true);;
    ret (true, length, Some MCS_GLOBAL_CHANNEL_ID)
  else
  let! avail := pkt left_bytes in
  if avail <? 5 then ret (false, length, None) else
  let! (_, initiator) := pkt (per_read_integer16 MCS_BASE_CHANNEL_ID) in
  let! (_, channel_id) := pkt (per_read_integer16 0) in
  pkt (stream_seek 1);;
  let! (ok, length) := pkt (per_read_length (Some length)) in
  let length := default 0 length in
  if negb ok then ret (false, length, Some channel_id) else
  let! avail := pkt left_bytes in
  if avail <? length then ret (false, length, Some channel_id) else
  ret (true, length, Some channel_id).

(** A failed check of the signature is only an error under FIPS. *)
Definition rdp_decrypt (length securityFlags : Z) : RM bool :=
  let! rdp := rdp_of in
  if fp_encryption_method (rdp_out rdp) =? ENCRYPTION_METHOD_FIPS then
    let! _ := pkt stream_read_uint16 in
    let! version := pkt stream_read_uint8 in
    let! pad := pkt stream_read_uint8 in
    let! sig := pkt (peek_bytes 8) in
    pkt (stream_seek 8);;
    let length := length - 12 in
    let! p := pkt get_pos in
    let! data := pkt (buffer_at p length) in
    let! plain := sec_of (security_fips_decrypt data) in
    pkt (buffer_set p plain);;
    let! signed := pkt (buffer_at p (length - pad)) in
    let! ok := sec_of (security_fips_check_signature signed sig) in
    if negb ok then ret false else
    pkt (fun s => Done (tt, mkSTREAM (s_size s - pad) (s_p s) (s_data s)));;
    ret true
  else
    let! wmac := pkt (stream_read 8) in
    let length := length - 8 in
    let! p := pkt get_pos in
    let! data := pkt (buffer_at p length) in
    let! plain := sec_of (security_decrypt data) in
    pkt (buffer_set p plain);;
    let! cmac := (if negb (Z.land securityFlags SEC_SECURE_CHECKSUM =? 0)
                  then sec_of (security_salted_mac_signature plain false)
                  else sec_of (security_mac_signature plain)) in
    ret true.

(** *** Data PDUs *)

Definition rdp_recv_set_error_info_data_pdu : RM unit :=
  let! errorInfo := pkt stream_read_uint32 in
  rdp_upd (with_errorInfo errorInfo).

Definition rdp_recv_server_synchronize_pdu : RM bool :=
  rdp_upd (with_finalize FINALIZE_SC_SYNCHRONIZE_PDU);;
  ret true.

Definition rdp_recv_client_synchronize_pdu : RM bool :=
  rdp_upd (with_finalize FINALIZE_SC_SYNCHRONIZE_PDU);;
  let! avail := pkt left_bytes in
  if avail <? 4 then ret false else
  let! messageType := pkt stream_read_uint16 in
  if negb (messageType =? SYNCMSGTYPE_SYNC) then ret false else
  pkt (stream_seek 2);;
  ret true.

Definition rdp_recv_synchronize_pdu : RM bool :=
  let! rdp := rdp_of in
  if server_mode (rdp_conf rdp) then rdp_recv_server_synchronize_pdu
  else rdp_recv_client_synchronize_pdu.

(** [None]: refused, [*action] not assigned. *)
Definition rdp_recv_control_pdu : M STREAM (option Z) :=
  let! avail := left_bytes in
  if avail <? 8 then ret None else
  let! action := stream_read_uint16 in
  stream_seek 2;;
  stream_seek 4;;
  ret (Some action).

Definition rdp_recv_server_control_pdu : RM bool :=
  let! action := pkt rdp_recv_control_pdu in
  let! action := use action in
  (if action =? CTRLACTION_COOPERATE then rdp_upd (with_finalize FINALIZE_SC_CONTROL_COOPERATE_PDU)
   else if action =? CTRLACTION_GRANTED_CONTROL then rdp_upd (with_finalize FINALIZE_SC_CONTROL_GRANTED_PDU)
   else ret tt);;
  ret true.

Definition rdp_recv_client_font_list_pdu : M STREAM bool :=
  let! avail := left_bytes in
  if avail <? 8 then ret false else ret true.

Definition rdp_recv_server_font_map_pdu : RM bool :=
  rdp_upd (with_finalize FINALIZE_SC_FONT_MAP_PDU);;
  ret true.

Definition rdp_recv_client_font_map_pdu : RM bool :=
  rdp_upd (with_finalize FINALIZE_SC_FONT_MAP_PDU);;
  pkt (stream_seek 2);;
  pkt (stream_seek 2);;
  pkt (stream_seek 2);;
  pkt (stream_seek 2);;
  ret true.

Definition rdp_recv_font_map_pdu : RM bool :=
  let! rdp := rdp_of in
  if server_mode (rdp_conf rdp) then rdp_recv_server_font_map_pdu
  else rdp_recv_client_font_map_pdu.

Definition rdp_recv_deactivate_all : RM bool :=
  let! avail := pkt left_bytes in
  (if 0 <? avail then
     let! shareId := pkt stream_read_uint32 in
     rdp_upd (fun r => with_conf (set_share_id shareId (rdp_conf r)) r);;
     let! lengthSourceDescriptor := pkt stream_read_uint16 in
     pkt (stream_seek lengthSourceDescriptor)
   else ret tt);;
  rdp_upd (with_state CONNECTION_STATE_CAPABILITY);;
  ret true.

(** The [switch] of [rdp_recv_data_pdu]; the types without a receiver are
    ignored. *)
Definition dispatch_data (type : Z) (comp : option STREAM) : RM unit :=
  if type =? DATA_PDU_TYPE_UPDATE then handle comp update_recv
  else if type =? DATA_PDU_TYPE_CONTROL then on_comp comp rdp_recv_server_control_pdu;; ret tt
  else if type =? DATA_PDU_TYPE_POINTER then handle comp update_recv_pointer
  else if type =? DATA_PDU_TYPE_SYNCHRONIZE then on_comp comp rdp_recv_synchronize_pdu;; ret tt
  else if type =? DATA_PDU_TYPE_PLAY_SOUND then handle comp update_recv_play_sound
  else if type =? DATA_PDU_TYPE_SAVE_SESSION_INFO then handle comp rdp_recv_save_session_info
  else if type =? DATA_PDU_TYPE_FONT_MAP then on_comp comp rdp_recv_font_map_pdu;; ret tt
  else if type =? DATA_PDU_TYPE_SET_ERROR_INFO then on_comp comp rdp_recv_set_error_info_data_pdu
  else ret tt.

Definition rdp_recv_data_pdu : RM bool :=
  let! header := pkt rdp_read_share_data_header in
  let! (_, type, share_id, compressed_type, compressed_len) := use header in
  let! comp :=
    (if negb (Z.land compressed_type PACKET_COMPRESSED =? 0) then
       let! data := pkt (peek_bytes (Z.max 0 (compressed_len - 18))) in
       let! rdp := rdp_of in
       match decompress_rdp data compressed_type (r_mppc (rdp_rx rdp)) with
       | Fault f => fail f
       | Done ((ok, roff, rlen), mppc) =>
           rdp_upd (fun r => with_rx (mkRecv (r_fastpath (rdp_rx r)) (r_update (rdp_rx r)) mppc) r);;
           ret (if ok : bool then Some (Some (history_stream roff rlen mppc)) else None)
       end
     else ret (Some None)) in
  match comp with
  | None => ret false
  | Some comp =>
      dispatch_data type comp;;
      ret true
  end.

(** The header's result is ignored and its outputs are used. *)
Definition rdp_recv_out_of_sequence_pdu : RM bool :=
  let! (_, _, type, _) := pkt (rdp_read_share_control_header None None) in
  let! type := use type in
  if type =? PDU_TYPE_DATA then rdp_recv_data_pdu
  else if type =? PDU_TYPE_SERVER_REDIRECTION then handle None rdp_recv_redirection;; ret true
  else ret false.

(** [freerdp_channel_process]: the rest of the packet goes to the program. *)
Definition freerdp_channel_process (channel_id : Z) : RM unit :=
  let! length := pkt stream_read_uint32 in
  let! flags := pkt stream_read_uint32 in
  let! chunk_length := pkt left_bytes in
  let! chunk := pkt (peek_bytes chunk_length) in
  rdp_upd (fun r => with_update (ReceiveChannelData channel_id chunk flags length
                                   (r_update (rdp_rx r))) r).

(** *** Packets *)

(** The part of [rdp_recv_tpkt_pdu] before the dispatch: the packet, security and
    redirection headers; [inl b] when it returns [b] at once, otherwise the
    channel. *)
Definition rdp_recv_tpkt_start : RM (bool + Z) :=
  let! (ok, length, channelId) := rdp_read_header in
  if negb ok then ret (inl false) else
  let! rdp := rdp_of in
  if disconnect rdp then ret (inl false) else
  let! early :=
    (if encryption (rdp_conf rdp) then
       let! securityFlags := pkt rdp_read_security_header in
       let! ok := (if negb (Z.land securityFlags (Z.lor SEC_ENCRYPT SEC_REDIRECTION_PKT) =? 0)
                   then rdp_decrypt (length - 4) securityFlags else ret true) in
       if negb ok then ret (Some false) else
       if negb (Z.land securityFlags SEC_REDIRECTION_PKT =? 0) then
         pkt (stream_rewind 2);;
         handle None rdp_recv_redirection;;
         ret (Some true)
       else ret None
     else ret None) in
  match early with
  | Some b => ret (inl b)
  | None => let! channelId := use channelId in ret (inr channelId)
  end.

(** The loop over the share control PDUs of a packet. [pduType] and [pduSource]
    are declared outside of it and keep their values when a header is refused;
    a PDU of length 0 does not move the position, so that the rounds are not
    bounded by the packet and [fuel] is given from outside. *)
Fixpoint recv_share_pdus (fuel : nat) (pduType pduSource : option Z) : RM bool :=
  match fuel with
  | O => fail Diverges
  | S fuel' =>
      let! avail := pkt left_bytes in
      if 3 <? avail then
        let! nextp := pkt get_pos in
        let! (_, pduLength, pduType, pduSource) := pkt (rdp_read_share_control_header pduType pduSource) in
        let nextp := nextp + pduLength in
        let! source := use pduSource in
        rdp_upd (fun r => with_conf (set_pdu_source source (rdp_conf r)) r);;
        let! type := use pduType in
        let! ok :=
          (if type =? PDU_TYPE_DATA then rdp_recv_data_pdu
           else if type =? PDU_TYPE_DEACTIVATE_ALL then rdp_recv_deactivate_all
           else if type =? PDU_TYPE_SERVER_REDIRECTION then handle None rdp_recv_redirection;; ret true
           else ret true) in
        if negb ok then ret false else
        pkt (stream_set_pos nextp);;
        recv_share_pdus fuel' pduType pduSource
      else ret true
  end.

Definition rdp_recv_tpkt_pdu (fuel : nat) : RM bool :=
  let! start := rdp_recv_tpkt_start in
  match start with
  | inl b => ret b
  | inr channelId =>
      if negb (channelId =? MCS_GLOBAL_CHANNEL_ID) then freerdp_channel_process channelId;; ret true
      else recv_share_pdus fuel None None
  end.

Definition rdp_recv_fastpath_pdu : RM bool :=
  let! rdp := rdp_of in
  let! (length, fp) := pkt (fastpath_read_header_rdp (Some (r_fastpath (rdp_rx rdp)))) in
  let fp := default (r_fastpath (rdp_rx rdp)) fp in
  rdp_upd (fun r => with_rx (mkRecv fp (r_update (rdp_rx r)) (r_mppc (rdp_rx r))) r);;
  let! avail := pkt left_bytes in
  if (length =? 0) || (avail <? length) then ret false else
  (if negb (Z.land (encryptionFlags fp) FASTPATH_OUTPUT_ENCRYPTED =? 0) then
     let securityFlags := if negb (Z.land (encryptionFlags fp) FASTPATH_OUTPUT_SECURE_CHECKSUM =? 0)
                          then SEC_SECURE_CHECKSUM else 0 in
     rdp_decrypt length securityFlags;; ret tt
   else ret tt);;
  let! rdp := rdp_of in
  let! (ok, rx) := pkt (fastpath_recv_updates fastpath_recv_update BeginPaint EndPaint (rdp_rx rdp)) in
  rdp_upd (with_rx rx);;
  ret ok.

Definition rdp_recv_pdu (fuel : nat) : RM bool :=
  let! tpkt := pkt tpkt_verify_header in
  if tpkt : bool then rdp_recv_tpkt_pdu fuel else rdp_recv_fastpath_pdu.

End receiving.
Arguments rdpRdp N U {_}.

(** ** Buffers in parts *)

(** A stream positioned behind [a]. *)
Definition behind (size : Z) (a b : list Z) : STREAM := mkSTREAM size (len a) (a ++ b).

Lemma put_behind size a b c bs : len bs = len b -> put bs (behind size a (b ++ c)) = behind size (a ++ bs) c.
Proof.
  intros Hl. unfold put, behind. cbn [s_size s_p s_data]. rewrite len_app. f_equal.
  unfold splice. unfold len at 1 2. rewrite !Nat2Z.id, take_app_length, drop_app_ge by lia.
  replace (length a + length bs - length a)%nat with (length b) by (unfold len in Hl; lia).
  rewrite drop_app_length, app_assoc. reflexivity.
Qed.

Lemma room_behind size a b n : n <= len b -> room (behind size a b) n.
Proof. intros Hn. split; cbn; llia. Qed.

Lemma Writes_behind {A} (w : M STREAM A) bs v size a b c :
  Writes w bs v -> len bs = len b -> w (behind size a (b ++ c)) = Done (v, behind size (a ++ bs) c).
Proof.
  intros Hw Hl. rewrite <- (put_behind size a b c bs Hl). apply Hw, room_behind. rewrite len_app.
  pose proof (len_nonneg c). lia.
Qed.

Lemma seek_behind size a b c n : n = len b ->
  stream_seek n (behind size a (b ++ c)) = Done (tt, behind size (a ++ b) c).
Proof.
  intros ->. unfold stream_seek, adv, set_p, behind. cbn. rewrite len_app, app_assoc. reflexivity.
Qed.

Lemma set_pos_behind size p l a b n : l = a ++ b -> n = len a ->
  stream_set_pos n (mkSTREAM size p l) = Done (tt, behind size a b).
Proof. intros -> ->. reflexivity. Qed.

Lemma buffer_at_parts size p a b c off n : off = len a -> n = len b ->
  buffer_at off n (mkSTREAM size p (a ++ b ++ c)) = Done (b, mkSTREAM size p (a ++ b ++ c)).
Proof.
  intros -> ->. unfold buffer_at. cbn [s_data]. rewrite bool_decide_true by llia.
  unfold len. rewrite !Nat2Z.id, drop_app_length, take_app_length. reflexivity.
Qed.

Lemma buffer_set_parts size p a b c bs off : off = len a -> len bs = len b ->
  buffer_set off bs (mkSTREAM size p (a ++ b ++ c)) = Done (tt, mkSTREAM size p (a ++ bs ++ c)).
Proof.
  intros -> Hl. unfold buffer_set. cbn [s_data s_size s_p]. rewrite bool_decide_true by llia.
  do 3 f_equal. unfold splice. unfold len. rewrite Nat2Z.id, take_app_length, drop_app_ge by lia.
  replace (length a + length bs - length a)%nat with (length b) by (unfold len in Hl; lia).
  rewrite drop_app_length. reflexivity.
Qed.

(** ** Packets on the wire *)

(** The packet header of a packet of [n] bytes. *)
Definition rdp_header_bytes (conf : rdpConf) (n channel_id : Z) : list Z :=
  mcspdu_header_bytes (if server_mode conf then 26 else 25) n 0 ++
  be16 (mcs_user_id conf - 1001) ++ be16 channel_id ++ [0x70] ++ be16 (0x8000 + (n - 15)).

Lemma len_rdp_header conf n ch : len (rdp_header_bytes conf n ch) = 15.
Proof. destruct conf as [ [] ? ? ? ? ? ? ?]; reflexivity. Qed.

Lemma app_split {A} (xs : list A) n : 0 <= n <= len xs -> exists a b, xs = a ++ b /\ len a = n.
Proof.
  intros Hn. exists (take (Z.to_nat n) xs), (drop (Z.to_nat n) xs). split; [symmetry; apply take_drop|].
  unfold len in *. rewrite length_take. lia.
Qed.

Section send_proofs.
Context {N : Type} (l : TRANSPORT_LAYER) `{HLink : LinkLaws N l} `{HC : Crypto} `{HL : !CryptoLaws}.

Lemma rdp_length_field n : 15 <= n < 0x8000 -> uint16 (Z.lor (n - 15) 0x8000) = 0x8000 + (n - 15).
Proof.
  intros Hn. rewrite Z.lor_comm, (lor_high_low 0x8000 (n - 15) 15) by (reflexivity || lia).
  unfold uint16. rewrite Z.mod_small; lia.
Qed.

Lemma write_header_run conf n ch (r : fpRdp N) size h post :
  15 <= n < 0x8000 ->
  (Z.land (fp_sec_flags r) SEC_ENCRYPT = 0 \/ fp_encryption_method r <> ENCRYPTION_METHOD_FIPS) ->
  stream_of r = behind size [] (h ++ post) -> len h = 15 ->
  rdp_write_header conf n ch r
  = Done (tt, with_send_stream (behind size (rdp_header_bytes conf n ch) post) r).
Proof.
  intros Hn Hf Hs Hh. unfold rdp_write_header. unfold bind at 1, rdp_get.
  replace (negb (Z.land (fp_sec_flags r) SEC_ENCRYPT =? 0) &&
           (fp_encryption_method r =? ENCRYPTION_METHOD_FIPS)) with false.
  2:{ destruct Hf as [->|Hm]; [reflexivity|]. rewrite (proj2 (Z.eqb_neq _ _) Hm), andb_false_r. reflexivity. }
  cbv zeta. change RDP_PACKET_HEADER_MAX_LENGTH with 15. rewrite rdp_length_field by exact Hn.
  rewrite !on_stream_seq, on_stream_bind. apply on_stream_run. rewrite Hs.
  apply (Writes_behind _ (rdp_header_bytes conf n ch) tt size []); [|rewrite len_rdp_header; lia].
  unfold rdp_header_bytes. rewrite !app_assoc.
  eapply Writes_bind; [|apply Writes_uint16_be].
  eapply Writes_bind; [|apply (Writes_uint8 0x70)].
  eapply Writes_bind; [|unfold per_write_integer16; rewrite Z.sub_0_r; apply Writes_uint16_be].
  eapply Writes_bind; [|apply Writes_uint16_be].
  destruct (server_mode conf); apply Writes_mcspdu_header.
Qed.

(** The plain signature. *)
Lemma mac_run r data : 0 <= rc4_key_len r <= len (sign_key r) ->
  exists sig, len sig = 8 /\ security_mac_signature data r = Done (sig, r).
Proof.
  intros Hl. eexists. split; [|unfold security_mac_signature, get_sec; unfold bind at 1;
    eapply (Pure_bind (S := rdpSec)); [apply Pure_mem; lia|apply Pure_mem; rewrite ?len_md5; lia] ].
  apply len_slice; rewrite ?len_md5; lia.
Qed.

Lemma signature_run a b data salted : paired a b ->
  exists sig, len sig = 8 /\
    (if salted : bool then security_salted_mac_signature data true else security_mac_signature data) a
    = Done (sig, a).
Proof.
  intros Hp. assert (Hk : 0 <= rc4_key_len a <= len (sign_key a))
    by (rewrite (pair_sign_16 _ _ Hp); destruct (pair_key_len _ _ Hp); lia).
  destruct salted; [|apply mac_run, Hk].
  eexists. split; [|apply salted_mac_run, Hk].
  apply len_slice; rewrite ?len_md5; lia.
Qed.

Definition with_fp_sec (k : rdpSec) (r : fpRdp N) : fpRdp N :=
  mkFpRdp (fp_transport r) k (fp_do_crypt r) (fp_do_secure_checksum r) (fp_sec_flags r)
    (fp_encryption_method r).

Lemma on_sec_run {A} (c : M rdpSec A) r x k :
  c (fp_sec r) = Done (x, k) -> on_sec c r = Done (x, with_fp_sec k r).
Proof. intros E. unfold on_sec, zoom. rewrite E. reflexivity. Qed.

(** Signing and encrypting [body], the signature going right before it. *)
Lemma protect_run size p h hole body post b r :
  paired (fp_sec r) b -> len hole = 8 ->
  stream_of r = mkSTREAM size p (h ++ hole ++ body ++ post) ->
  exists sig cipher a' b',
    fastpath_protect (len h + 8) (len body) (len h) r
    = Done (tt, with_send_stream (mkSTREAM size p (h ++ sig ++ cipher ++ post)) (with_fp_sec a' r)) /\
    len sig = 8 /\ len cipher = len body /\
    security_decrypt cipher b = Done (body, b') /\ stepped (fp_sec r) b a' b'.
Proof.
  intros Hp Hh Hs. destruct (paired_step _ _ body Hp) as (cipher & a' & b' & He & Hcl & Hd & Hp' & _).
  destruct (signature_run _ _ body (negb (Z.land (fp_sec_flags r) SEC_SECURE_CHECKSUM =? 0)) Hp)
    as (sig & Hsl & Hsig).
  exists sig, cipher, a', b'. split; [|auto]. unfold fastpath_protect. unfold bind at 1, rdp_get.
  assert (Hat : forall hh, len hh = 8 -> buffer_at (len h + 8) (len body) (mkSTREAM size p (h ++ hh ++ body ++ post))
                = Done (body, mkSTREAM size p (h ++ hh ++ body ++ post))).
  { intros hh Hhh. rewrite (app_assoc h hh). apply buffer_at_parts; [rewrite len_app; lia|reflexivity]. }
  erewrite bind_Done by (apply on_stream_run; rewrite Hs; apply Hat, Hh).
  set (r1 := with_send_stream _ r).
  assert (E1 : (if negb (Z.land (fp_sec_flags r) SEC_SECURE_CHECKSUM =? 0)
               then on_sec (security_salted_mac_signature body true)
               else on_sec (security_mac_signature body)) r1 = Done (sig, r1))
    by (destruct (negb _); apply (on_sec_run _ r1 sig (fp_sec r)); exact Hsig).
  rewrite (bind_Done _ _ _ _ _ E1).
  erewrite bind_Done by (apply on_stream_run; apply buffer_set_parts; [reflexivity|lia]).
  erewrite bind_Done by (apply on_stream_run; apply Hat, Hsl).
  erewrite bind_Done by (apply on_sec_run; exact He).
  assert (E2 : buffer_set (len h + 8) cipher (mkSTREAM size p (h ++ sig ++ body ++ post))
               = Done (tt, mkSTREAM size p (h ++ sig ++ cipher ++ post))).
  { rewrite !(app_assoc h sig). apply buffer_set_parts; [rewrite len_app; lia|exact Hcl]. }
  erewrite on_stream_run by exact E2. reflexivity.
Qed.

(** Writing the headers behind the packet header, and moving back. *)
Lemma send_headers_run conf ch (inner : Z -> M STREAM unit) ib r size h sec inn payload post :
  let n := 15 + len sec + len inn + len payload in
  n < 0x8000 -> len sec = rdp_get_sec_bytes r ->
  (Z.land (fp_sec_flags r) SEC_ENCRYPT = 0 \/ fp_encryption_method r <> ENCRYPTION_METHOD_FIPS) ->
  stream_of r = mkSTREAM size n (h ++ sec ++ inn ++ payload ++ post) -> len h = 15 ->
  Writes (inner (n - len sec)) ib tt -> len ib = len inn ->
  send_framed conf ch inner r
  = (let! pad := rdp_security_stream_out n in
     on_stream (stream_set_pos (uint16 (n + pad)));;
     let! status := on_fp_transport transport_send in
     ret (negb (status <? 0)))
      (with_send_stream (behind size (rdp_header_bytes conf n ch) (sec ++ ib ++ payload ++ post)) r).
Proof.
  intros n Hn Hsec Hf Hs Hh Hw Hil. pose proof (len_nonneg sec). pose proof (len_nonneg inn).
  pose proof (len_nonneg payload). unfold send_framed.
  erewrite bind_Done by (apply on_stream_run; reflexivity). rewrite Hs. cbn [stream_get_pos s_p].
  replace (uint16 n) with n by (unfold uint16; rewrite Z.mod_small; lia).
  erewrite bind_Done by (apply on_stream_run; apply (set_pos_behind size n _ [] _ 0 eq_refl eq_refl)).
  erewrite bind_Done by (apply (write_header_run conf n ch _ size h); [lia|exact Hf|reflexivity|exact Hh]).
  unfold bind at 1, rdp_get. cbv zeta.
  match goal with |- context [rdp_get_sec_bytes ?x] => change (rdp_get_sec_bytes x) with (rdp_get_sec_bytes r) end.
  rewrite <- Hsec. erewrite bind_Done by (apply on_stream_run; reflexivity).
  erewrite bind_Done by (apply on_stream_run; apply seek_behind; reflexivity).
  replace (uint16 (n - len sec)) with (n - len sec) by (unfold uint16; rewrite Z.mod_small; lia).
  erewrite bind_Done by (apply on_stream_run; apply (Writes_behind _ ib tt); [exact Hw|exact Hil]).
  erewrite bind_Done by (apply on_stream_run; apply (set_pos_behind size _ _ (rdp_header_bytes conf n ch)
    (sec ++ ib ++ payload ++ post)); [rewrite <- !app_assoc; reflexivity|reflexivity]).
  reflexivity.
Qed.

(** The module after a successful send: the PDU is in the send stream, the keys
    are [k], the rest is as before. *)
Definition fp_cfg (r : fpRdp N) : bool * bool * Z :=
  (fp_do_crypt r, fp_do_secure_checksum r, fp_encryption_method r).
Record after_send (size : Z) (pdu post : list Z) (k : rdpSec) (cfg : bool * bool * Z) (r' : fpRdp N) : Prop := {
  as_layer : t_layer (fp_transport r') = l;
  as_stream : stream_of r' = behind size pdu post;
  as_sec : fp_sec r' = k;
  as_cfg : fp_cfg r' = cfg;
  as_flags : fp_sec_flags r' = 0;
}.

(** Moving behind the PDU and sending it. *)
Lemma send_tail_run size p pdu post n r :
  t_layer (fp_transport r) = l -> stream_of r = mkSTREAM size p (pdu ++ post) -> n = len pdu -> 1 <= n ->
  fp_sec_flags r = 0 ->
  exists ok r' k,
    (on_stream (stream_set_pos n);;
     let! status := on_fp_transport transport_send in ret (negb (status <? 0))) r = Done (ok, r') /\
    sent r' = sent r ++ take k pdu /\
    if ok : bool then (length pdu <= k)%nat /\ after_send size pdu post (fp_sec r) (fp_cfg r) r'
    else t_layer (fp_transport r') = TRANSPORT_LAYER_CLOSED /\ ~ reliable l.
Proof.
  intros Hl Hs Hn Hn1 Hf.
  erewrite bind_Done by (apply on_stream_run; rewrite Hs; apply (set_pos_behind size p _ pdu post); [reflexivity|lia]).
  match goal with |- context [bind (on_fp_transport transport_send) _ ?x] => set (r1 := x) end.
  destruct (send_stream_run l pdu r1) as (st & t' & k & E & Hout & Hge & Hlt);
    [exact Hl|reflexivity|lia|apply take_app_length|].
  do 2 eexists. exists k. rewrite (bind_Done _ _ _ _ _ E). split; [reflexivity|].
  split; [exact Hout|]. destruct (Z.ltb_spec st 0) as [Hst|Hst]; [exact (Hlt Hst)|].
  destruct (Hge Hst) as (Hk & Ht & Hss). split; [exact Hk|]. split; try reflexivity; [exact Ht|exact Hss|exact Hf].
Qed.

(** Sending [body = ib ++ payload], not encrypted. *)
Lemma send_plain_run conf ch (inner : Z -> M STREAM unit) ib r size h inn payload post :
  let n := 15 + len inn + len payload in
  n < 0x8000 -> fp_sec_flags r = 0 -> t_layer (fp_transport r) = l ->
  stream_of r = mkSTREAM size n (h ++ inn ++ payload ++ post) -> len h = 15 ->
  Writes (inner n) ib tt -> len ib = len inn ->
  let pdu := rdp_header_bytes conf n ch ++ ib ++ payload in
  exists ok r' k, send_framed conf ch inner r = Done (ok, r') /\ sent r' = sent r ++ take k pdu /\
    if ok : bool then (length pdu <= k)%nat /\ after_send size pdu post (fp_sec r) (fp_cfg r) r'
    else t_layer (fp_transport r') = TRANSPORT_LAYER_CLOSED /\ ~ reliable l.
Proof.
  intros n Hn Hf Hl Hs Hh Hw Hil pdu.
  pose proof (len_nonneg inn). pose proof (len_nonneg payload).
  assert (Hsec : len (@nil Z) = rdp_get_sec_bytes r) by (unfold rdp_get_sec_bytes; rewrite Hf; reflexivity).
  assert (Hne : Z.land (fp_sec_flags r) SEC_ENCRYPT = 0) by (rewrite Hf; reflexivity).
  pose proof (send_headers_run conf ch inner ib r size h [] inn payload post) as Hrun. cbv zeta in Hrun.
  change (15 + len [] + len inn + len payload) with n in Hrun.
  rewrite Hrun; auto; [|rewrite len_nil, Z.sub_0_r; exact Hw]. clear Hrun.
  unfold rdp_security_stream_out. rewrite bind_assoc. unfold bind at 1, rdp_get.
  cbn [fp_sec_flags with_send_stream]. rewrite Hf. change (negb (0 =? 0)) with false. cbv iota. rewrite bind_ret.
  replace (uint16 (n + 0)) with n by (unfold uint16; rewrite Z.mod_small; lia).
  assert (Hpl : len pdu = n) by (unfold pdu; rewrite !len_app, len_rdp_header; lia).
  match goal with |- context [bind (on_stream (stream_set_pos n)) _ ?x] => set (r1 := x) end.
  apply (send_tail_run size 15 pdu post n r1); auto; [|lia].
  change (behind size (rdp_header_bytes conf n ch) (ib ++ payload ++ post) = mkSTREAM size 15 (pdu ++ post)).
  unfold behind, pdu. rewrite len_rdp_header, <- !app_assoc. reflexivity.
Qed.

(** The security header, the signature and the encryption. *)
Lemma stream_out_crypt_run n size h sec body post b r :
  n = len h + 12 + len body -> negb (Z.land (fp_sec_flags r) SEC_ENCRYPT =? 0) = true ->
  fp_encryption_method r <> ENCRYPTION_METHOD_FIPS -> paired (fp_sec r) b -> len sec = 12 ->
  stream_of r = behind size h (sec ++ body ++ post) ->
  exists sig cipher a' b',
    rdp_security_stream_out n r
    = Done (0, set_sec_flags 0 (with_send_stream
        (mkSTREAM size (len h + 12) (h ++ le16 (fp_sec_flags r) ++ le16 0 ++ sig ++ cipher ++ post))
        (with_fp_sec a' r))) /\
    len sig = 8 /\ len cipher = len body /\ security_decrypt cipher b = Done (body, b') /\ stepped (fp_sec r) b a' b'.
Proof.
  intros Hn Hf Hm Hp Hsec Hs.
  assert (Hnz : negb (fp_sec_flags r =? 0) = true).
  { destruct (Z.eqb_spec (fp_sec_flags r) 0) as [E|E]; [rewrite E in Hf; discriminate Hf|reflexivity]. }
  destruct (app_split sec 4) as (sec4 & sec8 & -> & H4); [lia|]. rewrite len_app in Hsec.
  rewrite <- app_assoc in Hs. set (h4 := le16 (fp_sec_flags r) ++ le16 0).
  assert (Hw : rdp_write_security_header (fp_sec_flags r) (stream_of r)
               = Done (tt, behind size (h ++ h4) (sec8 ++ body ++ post))).
  { rewrite Hs. apply (Writes_behind _ h4 tt size h sec4); [|exact (eq_sym H4)].
    eapply Writes_bind; apply Writes_uint16. }
  assert (Hlh : len (h ++ h4) = len h + 4) by (rewrite len_app; reflexivity).
  set (r1 := with_send_stream (behind size (h ++ h4) (sec8 ++ body ++ post)) r).
  destruct (protect_run size (len (h ++ h4)) (h ++ h4) sec8 body post b r1)
    as (sig & cipher & a' & b' & E & Hsl & Hcl & Hd & Hp'); [exact Hp|lia|reflexivity|].
  exists sig, cipher, a', b'. split; [|auto].
  unfold rdp_security_stream_out. unfold bind at 1, rdp_get. rewrite Hnz.
  erewrite bind_Done by (apply on_stream_run; exact Hw). fold r1.
  rewrite Hf, (proj2 (Z.eqb_neq _ _) Hm), bind_assoc.
  erewrite bind_Done by (apply on_stream_run; reflexivity).
  change (stream_get_pos (stream_of r1)) with (len (h ++ h4)).
  change (with_send_stream (stream_of r1) r1) with r1.
  replace (n - (len (h ++ h4) + 8)) with (len body) by lia.
  rewrite bind_assoc, (bind_Done _ _ _ _ _ E), bind_assoc.
  erewrite bind_Done by (apply on_stream_run; reflexivity). rewrite bind_ret. unfold bind, rdp_mod, ret.
  do 2 f_equal. unfold r1, with_send_stream, with_fp_sec, set_sec_flags, stream_of, adv, set_p, h4.
  cbn [fp_transport fp_sec fp_do_crypt fp_do_secure_checksum fp_sec_flags fp_encryption_method
       set_send_stream t_send_stream t_layer t_blocking t_level t_recv_stream t_recv_buffer t_net s_size s_p s_data].
  fold h4. rewrite Hlh. unfold h4. rewrite <- !app_assoc. replace (len h + 4 + 8) with (len h + 12) by lia. reflexivity.
Qed.

(** Sending [body = ib ++ payload] signed and encrypted: the peer, whose keys
    are [b], can decrypt it. *)
Lemma send_crypt_run conf ch (inner : Z -> M STREAM unit) ib r b size h sec inn payload post :
  let n := 27 + len inn + len payload in
  n < 0x8000 -> negb (Z.land (fp_sec_flags r) SEC_ENCRYPT =? 0) = true ->
  fp_encryption_method r <> ENCRYPTION_METHOD_FIPS -> paired (fp_sec r) b ->
  t_layer (fp_transport r) = l -> len sec = 12 ->
  stream_of r = mkSTREAM size n (h ++ sec ++ inn ++ payload ++ post) -> len h = 15 ->
  Writes (inner (n - 12)) ib tt -> len ib = len inn ->
  exists ok r' k sig cipher a' b',
    let pdu := rdp_header_bytes conf n ch ++ le16 (fp_sec_flags r) ++ le16 0 ++ sig ++ cipher in
    send_framed conf ch inner r = Done (ok, r') /\ sent r' = sent r ++ take k pdu /\
    (if ok : bool then (length pdu <= k)%nat /\ after_send size pdu post a' (fp_cfg r) r'
     else t_layer (fp_transport r') = TRANSPORT_LAYER_CLOSED /\ ~ reliable l) /\
    len sig = 8 /\ len cipher = len (ib ++ payload) /\
    security_decrypt cipher b = Done (ib ++ payload, b') /\ stepped (fp_sec r) b a' b'.
Proof.
  intros n Hn Hf Hm Hp Hl Hsec Hs Hh Hw Hil. pose proof (len_nonneg inn). pose proof (len_nonneg payload).
  assert (Hnz : negb (fp_sec_flags r =? 0) = true).
  { destruct (Z.eqb_spec (fp_sec_flags r) 0) as [E|E]; [rewrite E in Hf; discriminate Hf|reflexivity]. }
  assert (Hsb : len sec = rdp_get_sec_bytes r).
  { unfold rdp_get_sec_bytes. rewrite Hf, (proj2 (Z.eqb_neq _ _) Hm). exact Hsec. }
  pose proof (send_headers_run conf ch inner ib r size h sec inn payload post) as Hrun. cbv zeta in Hrun.
  replace (15 + len sec + len inn + len payload) with n in Hrun by (unfold n; lia).
  rewrite Hrun; auto; [|rewrite Hsec; exact Hw]. clear Hrun.
  set (H15 := rdp_header_bytes conf n ch).
  assert (H15l : len H15 = 15) by apply len_rdp_header.
  match goal with |- context [bind (rdp_security_stream_out n) _ ?x] => set (r1 := x) end.
  destruct (stream_out_crypt_run n size H15 sec (ib ++ payload) post b r1)
    as (sig & cipher & a' & b' & E & Hsl & Hcl & Hd & Hp'); auto.
  { rewrite len_app. lia. }
  { rewrite <- app_assoc. reflexivity. }
  rewrite (bind_Done _ _ _ _ _ E). rewrite len_app in Hcl.
  set (pdu := H15 ++ le16 (fp_sec_flags r) ++ le16 0 ++ sig ++ cipher).
  assert (Hpl : len pdu = n)
    by (unfold pdu; rewrite !len_app; change (len (le16 _)) with 2; unfold n; lia).
  replace (uint16 (n + 0)) with n by (unfold uint16; rewrite Z.mod_small; lia).
  match goal with |- context [bind (on_stream (stream_set_pos n)) _ ?x] => set (r2 := x) end.
  destruct (send_tail_run size 27 pdu post n r2) as (ok & r' & k & E2 & Ho & Hok); auto; [|lia|].
  { unfold pdu. rewrite <- !app_assoc. reflexivity. }
  exists ok, r', k, sig, cipher, a', b'. rewrite len_app. auto 10.
Qed.


End send_proofs.

(** ** Receiving packets *)

Lemma Reads_mcspdu_header want pdu length : 0 <= length < 65536 -> pdu = 25 \/ pdu = 26 ->
  Reads (mcs_read_domain_mcspdu_header want) (mcspdu_header_bytes pdu length 0) (true, pdu, length).
Proof.
  intros Hl Hp. unfold mcs_read_domain_mcspdu_header, mcspdu_header_bytes.
  eapply Reads_bind; [apply Reads_tpkt, Hl|]. eapply Reads_bind; [apply Reads_tpdu_data|]. cbn [Z.eqb].
  eapply Reads_last; [apply Reads_uint8_bind, Reads_ret|]. destruct Hp as [-> | ->]; apply Reads_ret.
Qed.

Lemma buffer_at_holds s bs n : holds s bs -> n = len bs -> buffer_at (s_p s) n s = Done (bs, s).
Proof.
  intros [Hp _ Hl Hd] ->. unfold buffer_at. pose proof (len_nonneg bs). rewrite bool_decide_true by lia.
  unfold len at 1. rewrite Nat2Z.id, Hd. reflexivity.
Qed.

Lemma buffer_set_holds s bs bs' : holds s bs -> len bs' = len bs ->
  exists s', buffer_set (s_p s) bs' s = Done (tt, s') /\ holds s' bs' /\ s_p s' = s_p s /\ s_size s' = s_size s.
Proof.
  intros [Hp Hs Hl _] Hlen. eexists. unfold buffer_set. rewrite bool_decide_true by lia.
  split; [reflexivity|]. split; [|split; reflexivity].
  apply (holds_put bs' s); [split; lia|lia].
Qed.

Lemma Reads_security_header flags : 0 <= flags < 65536 ->
  Reads rdp_read_security_header (le16 flags ++ le16 0) flags.
Proof.
  intros Hf. eapply Reads_bind; [apply Reads_le16, Hf|].
  eapply Reads_last; [apply Reads_seek; reflexivity|apply Reads_ret].
Qed.

Section recv_proofs.
Context {N U : Type} `{HLink : Link N} `{HC : Crypto} `{HL : !CryptoLaws} `{HH : PduHandlers U}.

Lemma pkt_run {A} (c : M STREAM A) s (r : rdpRdp N U) a s' :
  c s = Done (a, s') -> pkt c (s, r) = Done (a, (s', r)).
Proof. intros E. unfold pkt, zoom. cbn [fst]. rewrite E. reflexivity. Qed.

Lemma sec_of_run {A} (c : M rdpSec A) s (r : rdpRdp N U) a k :
  c (fp_sec (rdp_out r)) = Done (a, k) -> sec_of c (s, r) = Done (a, (s, with_sec k r)).
Proof. intros E. unfold sec_of, zoom. cbn [snd]. rewrite E. reflexivity. Qed.

Lemma read_header_run conf n ch rest s (r : rdpRdp N U) :
  holds s (rdp_header_bytes conf n ch ++ rest) -> stream_get_left s = n -> n = 15 + len rest -> n < 0x8000 ->
  1001 <= mcs_user_id conf < 65536 -> 0 <= ch < 65536 ->
  rdp_read_header (s, r) = Done ((true, len rest, Some ch), (adv 15 s, r)) /\ holds (adv 15 s) rest.
Proof.
  intros Hs Hleft Hn Hlt Hu Hc. pose proof (len_nonneg rest).
  assert (Hleft' : forall k, left_bytes (adv k s) = Done (n - k, adv k s)).
  { intros k. unfold left_bytes, stream_get_left, adv, set_p in *. cbn. do 2 f_equal. lia. }
  split. 2:{ destruct (holds_app _ _ _ Hs) as [_ Hr]. rewrite len_rdp_header in Hr. exact Hr. }
  unfold rdp_header_bytes in Hs. rewrite <- !app_assoc in Hs.
  set (pdu := if server_mode conf then 26 else 25) in Hs.
  destruct (holds_app _ _ _ Hs) as [H1 Hs1]. destruct (holds_app _ _ _ Hs1) as [H2 Hs2].
  destruct (holds_app _ _ _ Hs2) as [H3 Hs3]. destruct (holds_app _ _ _ Hs3) as [H4 Hs4].
  destruct (holds_app _ _ _ Hs4) as [H5 _]. rewrite !adv_adv in *.
  change (len (mcspdu_header_bytes pdu n 0)) with 8 in *. change (len (be16 _)) with 2 in *.
  change (len [0x70]) with 1 in *.
  unfold rdp_read_header. unfold bind at 1, rdp_of. cbn [snd].
  rewrite (bind_Done _ _ _ _ _ (pkt_run _ _ r _ _ (Reads_mcspdu_header _ pdu n ltac:(lia)
             ltac:(unfold pdu; destruct (server_mode conf); auto) s H1))).
  change (len (mcspdu_header_bytes pdu n 0)) with 8. cbn [negb].
  rewrite (bind_Done _ _ _ _ _ (pkt_run _ _ r _ _ (Hleft' 8))), Z.ltb_irrefl.
  replace (pdu =? DomainMCSPDU_DisconnectProviderUltimatum) with false
    by (unfold pdu; destruct (server_mode conf); reflexivity).
  rewrite (bind_Done _ _ _ _ _ (pkt_run _ _ r _ _ (Hleft' 8))), (proj2 (Z.ltb_ge _ _)) by lia.
  change MCS_BASE_CHANNEL_ID with 1001.
  rewrite (bind_Done _ _ _ _ _ (pkt_run _ _ r _ _ (Reads_integer16 (mcs_user_id conf) 1001 ltac:(lia) Hu _ H2))).
  change (len (be16 _)) with 2. rewrite adv_adv. rewrite <- (Z.sub_0_r ch) in H3.
  rewrite (bind_Done _ _ _ _ _ (pkt_run _ _ r _ _ (Reads_integer16 ch 0 ltac:(lia) Hc _ H3))).
  change (len (be16 _)) with 2. rewrite adv_adv. change (8 + 2 + 2) with 12.
  erewrite bind_Done by (apply pkt_run; reflexivity). rewrite adv_adv. change (12 + 1) with 13.
  change (8 + (2 + (2 + 1))) with 13 in H5. rewrite (Z.add_comm 0x8000) in H5.
  rewrite (bind_Done _ _ _ _ _ (pkt_run _ _ r _ _ (Reads_per_length_long (n - 15) _ ltac:(lia) _ H5))).
  change (len (be16 _)) with 2. rewrite adv_adv. cbn [negb default]. change (13 + 2) with 15.
  rewrite (bind_Done _ _ _ _ _ (pkt_run _ _ r _ _ (Hleft' 15))), Z.ltb_irrefl.
  unfold id. replace (n - 15) with (len rest) by lia. reflexivity.
Qed.

Lemma mac_any k data salted count : 0 <= rc4_key_len k <= len (sign_key k) ->
  exists mac, (if salted : bool then security_salted_mac_signature data count
               else security_mac_signature data) k = Done (mac, k).
Proof.
  intros Hk. destruct salted; [rewrite salted_mac_run by exact Hk; eauto|].
  destruct (mac_run k data Hk) as (sig & _ & E). eauto.
Qed.

Lemma decrypt_run length flags sig cipher body b' s (r : rdpRdp N U) :
  holds s (sig ++ cipher) -> fp_encryption_method (rdp_out r) <> ENCRYPTION_METHOD_FIPS ->
  len sig = 8 -> len cipher = len body -> length = 8 + len body ->
  security_decrypt cipher (fp_sec (rdp_out r)) = Done (body, b') ->
  0 <= rc4_key_len b' <= len (sign_key b') ->
  exists s', rdp_decrypt length flags (s, r) = Done (true, (s', with_sec b' r)) /\
    holds s' body /\ s_p s' = s_p s + 8 /\ s_size s' = s_size s.
Proof.
  intros Hs Hm Hsl Hcl -> Hdec Hk. destruct (holds_app _ _ _ Hs) as [H1 H2]. rewrite Hsl in H2.
  destruct (buffer_set_holds _ _ body H2 (eq_sym Hcl)) as (s' & Eset & Hh & Hp & Hz).
  exists s'. split; [|auto]. unfold rdp_decrypt. unfold bind at 1, rdp_of. cbn [snd].
  rewrite (proj2 (Z.eqb_neq _ _) Hm).
  rewrite (bind_Done _ _ _ _ _ (pkt_run _ _ r _ _ (Reads_read sig 8 (eq_sym Hsl) _ H1))), Hsl.
  erewrite bind_Done by (apply pkt_run; reflexivity). replace (8 + len body - 8) with (len cipher) by lia.
  rewrite (bind_Done _ _ _ _ _ (pkt_run _ _ r _ _ (buffer_at_holds _ _ _ H2 eq_refl))).
  rewrite (bind_Done _ _ _ _ _ (sec_of_run _ _ r _ _ Hdec)).
  rewrite (bind_Done _ _ _ _ _ (pkt_run _ _ _ _ _ Eset)).
  destruct (mac_any b' body (negb (Z.land flags SEC_SECURE_CHECKSUM =? 0)) false Hk) as (mac & Emac).
  assert (Emac' : (if negb (Z.land flags SEC_SECURE_CHECKSUM =? 0)
                   then sec_of (security_salted_mac_signature body false)
                   else sec_of (security_mac_signature body)) (s', with_sec b' r)
                  = Done (mac, (s', with_sec b' r))).
  { destruct (negb _); erewrite sec_of_run by exact Emac; destruct r as [ [] ]; reflexivity. }
  rewrite (bind_Done _ _ _ _ _ Emac'). reflexivity.
Qed.

(** A packet that is not encrypted. *)
Lemma tpkt_start_plain conf n ch body s (r : rdpRdp N U) :
  holds s (rdp_header_bytes conf n ch ++ body) -> stream_get_left s = n -> n = 15 + len body -> n < 0x8000 ->
  1001 <= mcs_user_id conf < 65536 -> 0 <= ch < 65536 ->
  encryption (rdp_conf r) = false -> disconnect r = false ->
  rdp_recv_tpkt_start (s, r) = Done (inr ch, (adv 15 s, r)) /\ holds (adv 15 s) body.
Proof.
  intros Hs Hleft Hn Hlt Hu Hc He Hd.
  destruct (read_header_run conf n ch body s r) as [E Hb]; auto. split; [|exact Hb].
  unfold rdp_recv_tpkt_start. rewrite (bind_Done _ _ _ _ _ E). cbn [negb].
  unfold bind at 1, rdp_of. cbn [snd]. rewrite Hd, He, bind_ret. reflexivity.
Qed.

(** A packet signed and encrypted with keys paired with the receiver's: the body
    comes out decrypted in place. *)
Lemma tpkt_start_crypt conf n ch flags sig cipher body b' s (r : rdpRdp N U) :
  holds s (rdp_header_bytes conf n ch ++ le16 flags ++ le16 0 ++ sig ++ cipher) ->
  stream_get_left s = n -> n = 27 + len body -> n < 0x8000 ->
  1001 <= mcs_user_id conf < 65536 -> 0 <= ch < 65536 -> 0 <= flags < 65536 ->
  negb (Z.land flags SEC_ENCRYPT =? 0) = true -> Z.land flags SEC_REDIRECTION_PKT = 0 ->
  fp_encryption_method (rdp_out r) <> ENCRYPTION_METHOD_FIPS ->
  len sig = 8 -> len cipher = len body -> security_decrypt cipher (fp_sec (rdp_out r)) = Done (body, b') ->
  0 <= rc4_key_len b' <= len (sign_key b') ->
  encryption (rdp_conf r) = true -> disconnect r = false ->
  exists s', rdp_recv_tpkt_start (s, r) = Done (inr ch, (s', with_sec b' r)) /\
    holds s' body /\ stream_get_left s' = len body /\ s_size s' = s_size s.
Proof.
  intros Hs Hleft Hn Hlt Hu Hc Hfr Hf Hred Hm Hsl Hcl Hdec Hk He Hd. pose proof (len_nonneg body).
  set (rest := le16 flags ++ le16 0 ++ sig ++ cipher) in Hs.
  assert (Hrl : len rest = 12 + len body)
    by (unfold rest; rewrite !len_app; change (len (le16 _)) with 2; lia).
  destruct (read_header_run conf n ch rest s r) as [E Hb]; auto; [lia|].
  unfold rest in Hb. rewrite app_assoc in Hb. destruct (holds_app _ _ _ Hb) as [H1 Hb1].
  change (len (le16 flags ++ le16 0)) with 4 in Hb1. rewrite adv_adv in Hb1. change (15 + 4) with 19 in Hb1.
  destruct (decrypt_run (8 + len body) flags sig cipher body b' (adv 19 s) r) as (s' & Ed & Hh & Hp & Hz); auto.
  exists s'. unfold rdp_recv_tpkt_start. rewrite (bind_Done _ _ _ _ _ E). cbn [negb].
  split; [|split; [exact Hh|split; [unfold stream_get_left in *; cbn in Hp, Hz; lia|exact Hz] ] ].
  unfold bind at 1, rdp_of. cbn [snd]. rewrite Hd, He, bind_assoc.
  rewrite (bind_Done _ _ _ _ _ (pkt_run _ _ r _ _ (Reads_security_header flags Hfr _ H1))).
  change (len (le16 flags ++ le16 0)) with 4. rewrite adv_adv. change (15 + 4) with 19.
  assert (Hor : negb (Z.land flags (Z.lor SEC_ENCRYPT SEC_REDIRECTION_PKT) =? 0) = true).
  { rewrite Z.land_lor_distr_r, Hred, Z.lor_0_r. exact Hf. }
  rewrite Hor, bind_assoc. replace (len rest - 4) with (8 + len body) by lia.
  rewrite (bind_Done _ _ _ _ _ Ed), Hred. cbn [negb Z.eqb]. rewrite bind_ret. reflexivity.
Qed.

End recv_proofs.

(** ** From sender to receiver *)

(** A sender and a receiver that agree on the protection of packets: none, or
    RC4 with paired keys. *)
Inductive agreed {N N' U} `{Link N} `{Link N'} `{Crypto} : bool -> fpRdp N -> rdpRdp N' U -> Prop :=
| agreed_plain r rb :
    fp_sec_flags r = 0 -> encryption (rdp_conf rb) = false -> disconnect rb = false -> agreed false r rb
| agreed_crypt r rb :
    0 <= fp_sec_flags r < 65536 -> negb (Z.land (fp_sec_flags r) SEC_ENCRYPT =? 0) = true ->
    Z.land (fp_sec_flags r) SEC_REDIRECTION_PKT = 0 ->
    fp_encryption_method r <> ENCRYPTION_METHOD_FIPS ->
    fp_encryption_method (rdp_out rb) <> ENCRYPTION_METHOD_FIPS ->
    paired (fp_sec r) (fp_sec (rdp_out rb)) ->
    encryption (rdp_conf rb) = true -> disconnect rb = false -> agreed true r rb.

Definition sec_bytes_of (crypt : bool) : Z := if crypt then 12 else 0.

Section end_to_end.
Context {N N' U : Type} (l : TRANSPORT_LAYER) `{HLink : LinkLaws N l} `{HLink' : Link N'}
  `{HC : Crypto} `{HL : !CryptoLaws} `{HH : PduHandlers U}.

Lemma rdp_pdu_length conf n ch rest : l <> TRANSPORT_LAYER_TSG -> 0 <= n < 65536 ->
  pdu_length l (rdp_header_bytes conf n ch ++ rest) = Done n.
Proof.
  intros Hl Hn. unfold rdp_header_bytes, mcspdu_header_bytes, tpkt_bytes, be16. cbn [app].
  unfold pdu_length. rewrite decide_False by exact Hl. cbn [Z.eqb Pos.eqb]. f_equal.
  rewrite (lor_high_low _ _ 8), Z.shiftl_mul_pow2; [..| rewrite Z.shiftl_mul_pow2 by lia; apply Z.mod_mul; lia|];
    change (2 ^ 8) with 256; dlia.
Qed.

Lemma framed_delivery conf ch (inner : Z -> M STREAM unit) ib crypt (r : fpRdp N) (rb : rdpRdp N' U)
    size h sec inn payload post :
  let n := 15 + len sec + len inn + len payload in
  agreed crypt r rb -> n < 0x8000 -> t_layer (fp_transport r) = l -> l <> TRANSPORT_LAYER_TSG ->
  len sec = sec_bytes_of crypt -> len h = 15 ->
  stream_of r = mkSTREAM size n (h ++ sec ++ inn ++ payload ++ post) ->
  Writes (inner (n - len sec)) ib tt -> len ib = len inn ->
  1001 <= mcs_user_id conf < 65536 -> 0 <= ch < 65536 ->
  exists ok r' k pdu s' rb' a',
    send_framed conf ch inner r = Done (ok, r') /\ sent r' = sent r ++ take k pdu /\
    (if ok : bool then (length pdu <= k)%nat /\ after_send l size pdu post a' (fp_cfg r) r'
     else t_layer (fp_transport r') = TRANSPORT_LAYER_CLOSED /\ ~ reliable (N := N) l) /\
    pdu_length l pdu = Done (len pdu) /\ len pdu = n /\
    rdp_recv_tpkt_start (mkSTREAM (len pdu) 0 pdu, rb) = Done (inr ch, (s', rb')) /\
    holds s' (ib ++ payload) /\ stream_get_left s' = len (ib ++ payload) /\
    rb' = with_sec (fp_sec (rdp_out rb')) rb /\
    (if crypt then stepped (fp_sec r) (fp_sec (rdp_out rb)) a' (fp_sec (rdp_out rb')) else a' = fp_sec r).
Proof.
  intros n Hag Hn Hl Htsg Hsec Hh Hs Hw Hil Hu Hc.
  pose proof (len_nonneg inn). pose proof (len_nonneg payload).
  destruct Hag as [r rb Hf He Hd|r rb Hfr Hf Hred Hm Hm' Hp He Hd]; cbn [sec_bytes_of] in Hsec.
  - assert (sec = []) as -> by (destruct sec; [reflexivity|llia]).
    assert (En : n = 15 + len inn + len payload) by (unfold n; rewrite len_nil; lia).
    rewrite len_nil, Z.sub_0_r, En in Hw. rewrite En in Hs. cbn [app] in Hs.
    destruct (send_plain_run l conf ch inner ib r size h inn payload post) as (ok & r' & k & E & Hout & Hok);
      auto; try lia.
    rewrite <- En in *. set (pdu := rdp_header_bytes conf n ch ++ ib ++ payload) in *.
    assert (Hpl : len pdu = n) by (unfold pdu; rewrite !len_app, len_rdp_header; lia).
    destruct (tpkt_start_plain conf n ch (ib ++ payload) (mkSTREAM (len pdu) 0 pdu) rb) as [Er Hh']; auto;
      try (rewrite len_app; lia); try (unfold stream_get_left; cbn [s_size s_p]; lia).
    { rewrite <- (app_nil_r pdu). apply holds_start. rewrite app_nil_r. fold pdu. lia. }
    exists ok, r', k, pdu, (adv 15 (mkSTREAM (len pdu) 0 pdu)), rb, (fp_sec r).
    repeat (split; [first [assumption|rewrite Hpl; apply rdp_pdu_length; [exact Htsg|lia] ]|]).
    split; [unfold stream_get_left; cbn [s_size s_p adv set_p]; rewrite len_app; lia|].
    split; [destruct rb as [ [] ]; reflexivity|reflexivity].
  - assert (En : n = 27 + len inn + len payload) by (unfold n; lia).
    rewrite Hsec, En in Hw. rewrite En in Hs.
    destruct (send_crypt_run l conf ch inner ib r (fp_sec (rdp_out rb)) size h sec inn payload post)
      as (ok & r' & k & sig & cipher & a' & b' & E & Hout & Hok & Hsl & Hcl & Hdec & Hp'); auto; try lia.
    rewrite <- En in *.
    set (pdu := rdp_header_bytes conf n ch ++ le16 (fp_sec_flags r) ++ le16 0 ++ sig ++ cipher) in *.
    rewrite len_app in Hcl.
    assert (Hpl : len pdu = n)
      by (unfold pdu; rewrite !len_app, len_rdp_header; change (len (le16 _)) with 2; lia).
    destruct (tpkt_start_crypt conf n ch (fp_sec_flags r) sig cipher (ib ++ payload) b'
                (mkSTREAM (len pdu) 0 pdu) rb) as (s' & Er & Hh' & Hle & _); auto;
      try (rewrite len_app; lia); try (unfold stream_get_left; cbn [s_size s_p]; lia).
    { rewrite <- (app_nil_r pdu). apply holds_start. rewrite app_nil_r. fold pdu. lia. }
    { pose proof (st_paired _ _ _ _ Hp') as Hp2.
      rewrite <- (pair_len _ _ Hp2), <- (pair_sign _ _ Hp2), (pair_sign_16 _ _ Hp2). destruct (pair_key_len _ _ Hp2); lia. }
    exists ok, r', k, pdu, s', (with_sec b' rb), a'.
    repeat (split; [first [assumption|rewrite Hpl; apply rdp_pdu_length; [exact Htsg|lia] ]|]).
    split; [reflexivity|exact Hp'].
Qed.
End end_to_end.

(** ** Share PDUs *)

Definition share_control_bytes (length type channel_id : Z) : list Z :=
  le16 length ++ le16 (Z.lor type 0x10) ++ le16 channel_id.
Definition share_data_bytes (length type shareid : Z) : list Z :=
  le32 shareid ++ [0] ++ [1] ++ le16 length ++ [type] ++ [0] ++ le16 0.

(** A share data PDU of [user] with the given contents. *)
Definition data_pdu_bytes (user shareid type : Z) (contents : list Z) : list Z :=
  share_control_bytes (18 + len contents) PDU_TYPE_DATA user ++
  share_data_bytes (len contents) type shareid ++ contents.

Lemma Writes_share_control n type channel : 15 <= n < 65536 ->
  Writes (rdp_write_share_control_header n type channel) (share_control_bytes (n - 15) type channel) tt.
Proof.
  intros Hn. unfold rdp_write_share_control_header. change RDP_PACKET_HEADER_MAX_LENGTH with 15.
  replace (uint16 (n - 15)) with (n - 15) by (unfold uint16; rewrite Z.mod_small; lia).
  writes; reflexivity.
Qed.

Lemma Writes_share_data n type shareid : 33 <= n < 65536 -> is_byte type ->
  Writes (rdp_write_share_data_header n type shareid) (share_data_bytes (n - 33) type shareid) tt.
Proof.
  intros Hn Ht. unfold rdp_write_share_data_header, share_data_bytes. cbv zeta.
  change RDP_PACKET_HEADER_MAX_LENGTH with 15. change RDP_SHARE_CONTROL_HEADER_LENGTH with 6.
  change RDP_SHARE_DATA_HEADER_LENGTH with 12.
  replace (uint16 (uint16 (uint16 (n - 15) - 6) - 12)) with (n - 33)
    by (unfold uint16; rewrite (Z.mod_small (n - 15)), (Z.mod_small (n - 15 - 6)), Z.mod_small by lia; lia).
  eapply Writes_bind; [apply Writes_uint32|]. eapply Writes_bind; [apply (Writes_uint8 0)|].
  eapply Writes_bind; [apply (Writes_uint8 1)|]. eapply Writes_bind; [apply Writes_uint16|].
  eapply Writes_bind; [|eapply Writes_bind; [apply (Writes_uint8 0)|apply Writes_uint16] ].
  eapply Writes_eq; [apply Writes_uint8| |reflexivity]. rewrite Z.mod_small by exact Ht. reflexivity.
Qed.

Lemma pdu_type_field type : 0 <= type < 16 ->
  0 <= Z.lor type 0x10 < 65536 /\ Z.land (Z.lor type 0x10) 0x0F = type.
Proof.
  intros Ht. assert (Hb : is_byte type) by (unfold is_byte; lia). revert type Hb Ht.
  apply (byte_forall (fun b => 0 <= b < 16 -> 0 <= Z.lor b 0x10 < 65536 /\ Z.land (Z.lor b 0x10) 0x0F = b)).
  vm_compute. reflexivity.
Qed.

(** Reading a share control header in front of the rest of its PDU. *)
Lemma share_control_run n type channel rest s t0 c0 :
  holds s (share_control_bytes n type channel ++ rest) -> n = 6 + len rest -> n < 65536 ->
  n <= stream_get_left s -> 0 <= type < 16 -> 0 <= channel < 65536 ->
  rdp_read_share_control_header t0 c0 s = Done ((true, n, Some type, Some channel), adv 6 s) /\
  holds (adv 6 s) rest.
Proof.
  intros Hs Hn Hlt Hleft Ht Hc. pose proof (len_nonneg rest).
  destruct (holds_app _ _ _ Hs) as [Hh Hrest]. split; [|exact Hrest].
  unfold share_control_bytes in Hh. destruct (holds_app _ _ _ Hh) as [H1 Hh1].
  destruct (holds_app _ _ _ Hh1) as [H2 H3]. rewrite adv_adv in H3.
  change (len (le16 _)) with 2 in *. change (2 + 2) with 4 in H3.
  unfold rdp_read_share_control_header.
  rewrite (bind_Done _ _ _ _ _ (Reads_le16 n ltac:(lia) _ H1)).
  unfold bind at 1, left_bytes. change (len (le16 n)) with 2.
  assert (Hl2 : stream_get_left (adv 2 s) = stream_get_left s - 2)
    by (unfold stream_get_left, adv, set_p; cbn [s_size s_p]; lia).
  rewrite Hl2, (proj2 (Z.ltb_ge _ _)) by lia.
  destruct (pdu_type_field type Ht) as [Htr Htv].
  rewrite (bind_Done _ _ _ _ _ (Reads_le16 _ Htr _ H2)). change (len (le16 _)) with 2.
  rewrite adv_adv, Htv, (proj2 (Z.ltb_lt 4 n)) by lia. change (2 + 2) with 4.
  rewrite (bind_Done _ _ _ _ _ (Reads_le16 _ Hc _ H3)), adv_adv. reflexivity.
Qed.

Lemma Reads_share_data n type shareid : 0 <= n < 65536 -> 0 <= shareid < 2 ^ 32 ->
  Reads rdp_read_share_data_header (share_data_bytes n type shareid) (Some (n, type, shareid, 0, 0)).
Proof.
  intros Hn Hs. apply Reads_left; [lens_lia|]. unfold share_data_bytes.
  eapply Reads_bind; [apply Reads_le32, Hs|].
  eapply Reads_bind; [apply Reads_seek; reflexivity|]. eapply Reads_bind; [apply Reads_seek; reflexivity|].
  eapply Reads_bind; [apply Reads_le16, Hn|]. eapply Reads_bind; [apply Reads_uint8|].
  eapply Reads_bind; [apply Reads_uint8|].
  eapply Reads_last; [apply Reads_le16; lia|apply Reads_ret].
Qed.

Section dispatch.
Context {N U : Type} `{HLink : Link N} `{HC : Crypto} `{HH : PduHandlers U}.

Lemma data_pdu_run n type shareid s x (r : rdpRdp N U) :
  holds s (share_data_bytes n type shareid) -> 0 <= n < 65536 -> 0 <= shareid < 2 ^ 32 ->
  dispatch_data type None (adv 12 s, r) = Done (tt, x) ->
  rdp_recv_data_pdu (s, r) = Done (true, x).
Proof.
  intros Hs Hn Hid Hdis. unfold rdp_recv_data_pdu.
  rewrite (bind_Done _ _ _ _ _ (pkt_run _ _ _ _ _ (Reads_share_data n type shareid Hn Hid _ Hs))).
  cbn [use]. rewrite bind_ret. change (negb (Z.land 0 PACKET_COMPRESSED =? 0)) with false. cbv iota.
  rewrite bind_ret. change (len (share_data_bytes _ _ _)) with 12.
  rewrite (bind_Done _ _ _ _ _ Hdis). reflexivity.
Qed.

(** One share data PDU as the rest of a packet: its contents go to the receiver
    of its type, and the loop ends behind it. *)
Lemma share_pdus_one user shareid type contents fuel s s2 (r r' : rdpRdp N U) :
  holds s (data_pdu_bytes user shareid type contents) -> stream_get_left s = 18 + len contents ->
  18 + len contents < 65536 -> 0 <= user < 65536 -> 0 <= shareid < 2 ^ 32 ->
  dispatch_data type None (adv 18 s, with_conf (set_pdu_source user (rdp_conf r)) r)
    = Done (tt, (s2, r')) -> s_size s2 = s_size s ->
  recv_share_pdus (S (S fuel)) None None (s, r)
  = Done (true, (set_p s2 (s_size s), r')).
Proof.
  intros Hs Hleft Hlt Hu Hid Hdis Hz. pose proof (len_nonneg contents).
  unfold data_pdu_bytes in Hs.
  assert (Hsd : len (share_data_bytes (len contents) type shareid ++ contents) = 12 + len contents)
    by (rewrite len_app; reflexivity).
  destruct (share_control_run (18 + len contents) PDU_TYPE_DATA user _ s None None Hs) as [E1 Hr1];
    [lia|lia|lia|unfold PDU_TYPE_DATA; lia|exact Hu|].
  destruct (holds_app _ _ _ Hr1) as [H2 _].
  cbn [recv_share_pdus]. unfold bind at 1. rewrite (pkt_run left_bytes s r _ s eq_refl), Hleft.
  rewrite (proj2 (Z.ltb_lt 3 _)) by lia.
  rewrite (bind_Done _ _ _ _ _ (pkt_run get_pos s r _ s eq_refl)).
  rewrite (bind_Done _ _ _ _ _ (pkt_run _ _ r _ _ E1)). cbn [use]. rewrite bind_ret.
  unfold bind at 1, rdp_upd. cbn [fst snd]. rewrite bind_ret.
  change (PDU_TYPE_DATA =? PDU_TYPE_DATA) with true. cbv iota.
  rewrite (bind_Done _ _ _ _ _ (data_pdu_run (len contents) type shareid (adv 6 s) (s2, r')
             (with_conf (set_pdu_source user (rdp_conf r)) r) H2 ltac:(lia) Hid
             ltac:(rewrite adv_adv; exact Hdis))). cbn [negb].
  erewrite bind_Done by (apply pkt_run; reflexivity). cbn [recv_share_pdus].
  unfold stream_get_left in Hleft.
  replace (stream_get_pos s + (18 + len contents)) with (s_size s) by (unfold stream_get_pos; lia).
  unfold bind at 1. rewrite (pkt_run left_bytes _ r' _ _ eq_refl).
  unfold stream_get_left. cbn [s_size s_p set_p]. rewrite Hz, Z.sub_diag. reflexivity.
Qed.
End dispatch.

(** ** Claims *)

(** C7. Sending with [rdp_send], in the clear or encrypted with RC4: the packet is
    handed to the transport whole, or sending fails with the connection closed;
    the packet announces its own length to the peer's framing; and a peer with
    matching protection finds the channel and exactly the payload behind the
    headers, the two ends' keys staying in step. *)
Theorem rdp_send_roundtrip {N N' U} l `{LinkLaws N l} `{Link N'} `{Crypto} `{!CryptoLaws} `{PduHandlers U}
    conf ch crypt (r : fpRdp N) (rb : rdpRdp N' U) size h sec payload post :
  agreed crypt r rb -> 15 + len sec + len payload < 0x8000 ->
  t_layer (fp_transport r) = l -> l <> TRANSPORT_LAYER_TSG ->
  len h = 15 -> len sec = sec_bytes_of crypt ->
  stream_of r = mkSTREAM size (15 + len sec + len payload) (h ++ sec ++ payload ++ post) ->
  1001 <= mcs_user_id conf < 65536 -> 0 <= ch < 65536 ->
  exists ok r' k pdu s' rb',
    rdp_send conf ch r = Done (ok, r') /\ sent r' = sent r ++ take k pdu /\
    (if ok : bool then (length pdu <= k)%nat else t_layer (fp_transport r') = TRANSPORT_LAYER_CLOSED) /\
    pdu_length l pdu = Done (len pdu) /\
    rdp_recv_tpkt_start (mkSTREAM (len pdu) 0 pdu, rb) = Done (inr ch, (s', rb')) /\
    holds s' payload /\ stream_get_left s' = len payload /\
    (crypt = true -> ok = true -> paired (fp_sec r') (fp_sec (rdp_out rb'))).
Proof.
  intros Hag Hn Hl Htsg Hh Hsec Hs Hu Hc.
  destruct (framed_delivery l conf ch (fun _ => ret tt) [] crypt r rb size h sec [] payload post)
    as (ok & r' & k & pdu & s' & rb' & a' & E & Hout & Hok & Hpl & _ & Hrecv & Hh' & Hle & _ & Hp); auto;
    rewrite ?len_nil, ?Z.add_0_r; auto; [apply Writes_ret|].
  exists ok, r', k, pdu, s', rb'. repeat (split; [assumption|]).
  split; [destruct ok; apply Hok|]. repeat (split; [assumption|]).
  intros -> ->. destruct Hok as [_ Ha]. rewrite (as_sec _ _ _ _ _ _ _ Ha). exact (st_paired _ _ _ _ Hp).
Qed.

(** C6. Sending a share data PDU, in the clear or encrypted: the peer's
    [rdp_recv_tpkt_pdu] undoes all the headers and hands exactly the contents to
    the receiver of the PDU's type, and stops behind it. *)
Theorem rdp_data_pdu_roundtrip {N N' U} l `{LinkLaws N l} `{Link N'} `{Crypto} `{!CryptoLaws} `{PduHandlers U}
    conf type crypt (r : fpRdp N) (rb : rdpRdp N' U) size h sec hdr contents post :
  agreed crypt r rb -> 33 + len sec + len contents < 0x8000 -> is_byte type ->
  t_layer (fp_transport r) = l -> l <> TRANSPORT_LAYER_TSG ->
  len h = 15 -> len sec = sec_bytes_of crypt -> len hdr = 18 ->
  stream_of r = mkSTREAM size (33 + len sec + len contents) (h ++ sec ++ hdr ++ contents ++ post) ->
  1001 <= mcs_user_id conf < 65536 -> 0 <= share_id conf < 2 ^ 32 ->
  exists ok r' k pdu s1 rb1,
    rdp_send_data_pdu conf type (mcs_user_id conf) r = Done (ok, r') /\ sent r' = sent r ++ take k pdu /\
    (if ok : bool then (length pdu <= k)%nat else t_layer (fp_transport r') = TRANSPORT_LAYER_CLOSED) /\
    pdu_length l pdu = Done (len pdu) /\
    holds s1 contents /\ stream_get_left s1 = len contents /\
    (crypt = true -> ok = true -> paired (fp_sec r') (fp_sec (rdp_out rb1))) /\
    forall fuel s2 rb2,
      dispatch_data type None (s1, rb1) = Done (tt, (s2, rb2)) -> s_size s2 = s_size s1 ->
      rdp_recv_tpkt_pdu (S (S fuel)) (mkSTREAM (len pdu) 0 pdu, rb)
      = Done (true, (set_p s2 (s_size s1), rb2)).
Proof.
  intros Hag Hn Hty Hl Htsg Hh Hsec Hhdr Hs Hu Hid. pose proof (len_nonneg contents).
  assert (Hsn : 0 <= len sec <= 12) by (rewrite Hsec; destruct crypt; cbn; lia).
  set (ib := share_control_bytes (18 + len contents) PDU_TYPE_DATA (mcs_user_id conf) ++
             share_data_bytes (len contents) type (share_id conf)).
  destruct (framed_delivery l conf MCS_GLOBAL_CHANNEL_ID
              (fun length => rdp_write_share_control_header length PDU_TYPE_DATA (mcs_user_id conf);;
                             rdp_write_share_data_header length type (share_id conf))
              ib crypt r rb size h sec hdr contents post)
    as (ok & r' & k & pdu & s' & rb' & a' & E & Hout & Hok & Hpl & _ & Hrecv & Hh' & Hle & Hrb & Hp);
    auto; try lia.
  { rewrite Hhdr, Hs. f_equal. lia. }
  { rewrite Hhdr. replace (15 + len sec + 18 + len contents - len sec) with (33 + len contents) by lia.
    apply (Writes_bind _ _ (share_control_bytes (18 + len contents) PDU_TYPE_DATA (mcs_user_id conf))
             (share_data_bytes (len contents) type (share_id conf)) tt tt).
    - replace (18 + len contents) with (33 + len contents - 15) by lia. apply Writes_share_control. lia.
    - replace (len contents) with (33 + len contents - 33) at 2 by lia. apply Writes_share_data; [lia|exact Hty]. }
  { unfold MCS_GLOBAL_CHANNEL_ID. lia. }
  set (rb1 := with_conf (set_pdu_source (mcs_user_id conf) (rdp_conf rb')) rb').
  assert (Hib : len ib = 18) by reflexivity. rewrite len_app, Hib in Hle.
  destruct (holds_app _ _ _ Hh') as [Hhi Hhc]. rewrite Hib in Hhc.
  exists ok, r', k, pdu, (adv 18 s'), rb1. repeat (split; [assumption|]).
  split; [destruct ok; apply Hok|]. repeat (split; [assumption|]).
  split; [unfold stream_get_left in *; cbn [adv set_p s_size s_p]; lia|]. split.
  { intros -> ->. destruct Hok as [_ Ha]. rewrite (as_sec _ _ _ _ _ _ _ Ha). exact (st_paired _ _ _ _ Hp). }
  intros fuel s2 rb2 Hdis Hz. change (s_size (adv 18 s')) with (s_size s') in *. unfold rdp_recv_tpkt_pdu. rewrite (bind_Done _ _ _ _ _ Hrecv).
  change (negb (MCS_GLOBAL_CHANNEL_ID =? MCS_GLOBAL_CHANNEL_ID)) with false. cbv iota.
  apply (share_pdus_one (mcs_user_id conf) (share_id conf) type contents); auto; lia.
Qed.

(** C39. A share control PDU that announces the length 0 and is of no known type
    keeps [rdp_recv_tpkt_pdu]'s loop at the same place for ever: no number of
    rounds is enough. *)
Theorem rdp_zero_length_pdu_loops {N U} `{Link N} `{Crypto} `{PduHandlers U}
    type s (r : rdpRdp N U) fuel t0 c0 :
  holds s (le16 0 ++ le16 type) -> 0 <= type < 65536 ->
  Z.land type 0x0F <> PDU_TYPE_DATA -> Z.land type 0x0F <> PDU_TYPE_DEACTIVATE_ALL ->
  Z.land type 0x0F <> PDU_TYPE_SERVER_REDIRECTION ->
  recv_share_pdus fuel t0 c0 (s, r) = Fault Diverges.
Proof.
  intros Hs Ht Hn1 Hn2 Hn3. destruct (holds_app _ _ _ Hs) as [Ha Hb]. change (len (le16 0)) with 2 in Hb.
  pose proof (holds_size _ _ Hs) as Hsz. rewrite len_app in Hsz. change (len (le16 _)) with 2 in Hsz.
  revert r t0 c0. induction fuel as [|fuel IH]; intros r t0 c0; [reflexivity|].
  cbn [recv_share_pdus]. unfold bind at 1. rewrite (pkt_run left_bytes s r _ s eq_refl).
  rewrite (proj2 (Z.ltb_lt 3 _)) by (unfold stream_get_left; lia).
  rewrite (bind_Done _ _ _ _ _ (pkt_run get_pos s r _ s eq_refl)).
  assert (E : rdp_read_share_control_header t0 c0 s
              = Done ((true, 0, Some (Z.land type 0x0F), Some 0), adv 4 s)).
  { unfold rdp_read_share_control_header. rewrite (bind_Done _ _ _ _ _ (Reads_le16 0 ltac:(lia) _ Ha)).
    unfold bind at 1, left_bytes, stream_get_left. cbn [adv set_p s_size s_p]. change (len (le16 0)) with 2.
    rewrite (proj2 (Z.ltb_ge _ _)) by lia.
    rewrite (bind_Done _ _ _ _ _ (Reads_le16 _ Ht _ Hb)), adv_adv. reflexivity. }
  rewrite (bind_Done _ _ _ _ _ (pkt_run _ _ r _ _ E)). cbn [use]. rewrite bind_ret.
  unfold bind at 1, rdp_upd. cbn [fst snd]. rewrite bind_ret.
  rewrite (proj2 (Z.eqb_neq _ _) Hn1), (proj2 (Z.eqb_neq _ _) Hn2), (proj2 (Z.eqb_neq _ _) Hn3).
  rewrite bind_ret. cbn [negb]. erewrite bind_Done by (apply pkt_run; reflexivity).
  replace (set_p (adv 4 s) (stream_get_pos s + 0)) with s; [apply IH|].
  destruct s. unfold stream_get_pos, adv, set_p. cbn. rewrite Z.add_0_r. reflexivity.
Qed.

(** *** Finalization of the connection *)

(** The four PDUs a server sends at the end of the connection sequence: type,
    contents, and the flag the client records. *)
Inductive finalization : Type :=
| FinSynchronize (target : Z)
| FinCooperate (grant control : Z)
| FinGranted (grant control : Z)
| FinFontMap (entries total flags size : Z).

Definition fin_type (f : finalization) : Z :=
  match f with
  | FinSynchronize _ => DATA_PDU_TYPE_SYNCHRONIZE
  | FinCooperate _ _ | FinGranted _ _ => DATA_PDU_TYPE_CONTROL
  | FinFontMap _ _ _ _ => DATA_PDU_TYPE_FONT_MAP
  end.
Definition fin_contents (f : finalization) : list Z :=
  match f with
  | FinSynchronize target => le16 1 ++ le16 target
  | FinCooperate grant control => le16 CTRLACTION_COOPERATE ++ le16 grant ++ le32 control
  | FinGranted grant control => le16 CTRLACTION_GRANTED_CONTROL ++ le16 grant ++ le32 control
  | FinFontMap entries total flags size => le16 entries ++ le16 total ++ le16 flags ++ le16 size
  end.
Definition fin_flag (f : finalization) : Z :=
  match f with
  | FinSynchronize _ => FINALIZE_SC_SYNCHRONIZE_PDU
  | FinCooperate _ _ => FINALIZE_SC_CONTROL_COOPERATE_PDU
  | FinGranted _ _ => FINALIZE_SC_CONTROL_GRANTED_PDU
  | FinFontMap _ _ _ _ => FINALIZE_SC_FONT_MAP_PDU
  end.

Section finalize.
Context {N U : Type} `{HLink : Link N} `{HC : Crypto} `{HH : PduHandlers U}.

Lemma on_packet {A} (c : RM A) s (r : rdpRdp N U) a x :
  c (s, r) = Done (a, x) -> bind (on_comp None c) (fun _ => ret tt) (s, r) = Done (tt, x).
Proof. intros E. unfold bind, on_comp. cbn [default]. unfold id. rewrite E. destruct x. reflexivity. Qed.

Lemma synchronize_run target s (r : rdpRdp N U) :
  holds s (fin_contents (FinSynchronize target)) -> server_mode (rdp_conf r) = false ->
  rdp_recv_synchronize_pdu (s, r) = Done (true, (adv 4 s, with_finalize FINALIZE_SC_SYNCHRONIZE_PDU r)).
Proof.
  intros Hs Hm. unfold rdp_recv_synchronize_pdu. unfold bind at 1, rdp_of. cbn [snd]. rewrite Hm.
  unfold rdp_recv_client_synchronize_pdu. unfold bind at 1, rdp_upd. cbn [fst snd].
  destruct (holds_app _ _ _ Hs) as [H1 H2]. pose proof (holds_size _ _ Hs) as Hz.
  change (len (fin_contents _)) with 4 in Hz.
  unfold bind at 1. rewrite (pkt_run left_bytes s _ _ s eq_refl).
  rewrite (proj2 (Z.ltb_ge _ _)) by (unfold stream_get_left; lia).
  rewrite (bind_Done _ _ _ _ _ (pkt_run _ _ _ _ _ (Reads_le16 1 ltac:(lia) _ H1))).
  change (negb (1 =? SYNCMSGTYPE_SYNC)) with false. cbv iota.
  erewrite bind_Done by (apply pkt_run; reflexivity). rewrite adv_adv. reflexivity.
Qed.

Lemma control_run action g c s (r : rdpRdp N U) :
  0 <= action < 65536 -> holds s (le16 action ++ le16 g ++ le32 c) ->
  rdp_recv_server_control_pdu (s, r)
  = ((if action =? CTRLACTION_COOPERATE then rdp_upd (with_finalize FINALIZE_SC_CONTROL_COOPERATE_PDU)
      else if action =? CTRLACTION_GRANTED_CONTROL then rdp_upd (with_finalize FINALIZE_SC_CONTROL_GRANTED_PDU)
      else ret tt);; ret true) (adv 8 s, r).
Proof.
  intros Ha Hs. unfold rdp_recv_server_control_pdu.
  assert (E : Reads rdp_recv_control_pdu (le16 action ++ le16 g ++ le32 c) (Some action)).
  { apply Reads_left; [lens_lia|]. eapply Reads_bind; [apply Reads_le16, Ha|].
    eapply Reads_bind; [apply Reads_seek; reflexivity|].
    eapply Reads_last; [apply Reads_seek; reflexivity|apply Reads_ret]. }
  rewrite (bind_Done _ _ _ _ _ (pkt_run _ _ r _ _ (E s Hs))). cbn [use]. rewrite bind_ret. reflexivity.
Qed.

Lemma fin_dispatch f s (r : rdpRdp N U) :
  holds s (fin_contents f) -> server_mode (rdp_conf r) = false ->
  exists s', dispatch_data (fin_type f) None (s, r) = Done (tt, (s', with_finalize (fin_flag f) r)) /\
    s_size s' = s_size s /\ s_data s' = s_data s.
Proof.
  intros Hs Hm. destruct f as [target|g c|g c|e t fl z].
  - exists (adv 4 s). split; [|auto]. apply (on_packet _ s r true), (synchronize_run target); assumption.
  - exists (adv 8 s). split; [|auto]. apply (on_packet _ s r true).
    apply (control_run CTRLACTION_COOPERATE g c s r); [lens_lia|exact Hs].
  - exists (adv 8 s). split; [|auto]. apply (on_packet _ s r true).
    apply (control_run CTRLACTION_GRANTED_CONTROL g c s r); [lens_lia|exact Hs].
  - exists (adv 2 (adv 2 (adv 2 (adv 2 s)))). split; [|auto]. apply (on_packet _ s r true).
    unfold rdp_recv_font_map_pdu. unfold bind at 1, rdp_of. cbn [snd]. rewrite Hm. reflexivity.
Qed.

(** What a packet with one finalization PDU holds behind its headers. *)
Definition fin_body (conf : rdpConf) (f : finalization) : list Z :=
  data_pdu_bytes (mcs_user_id conf) (share_id conf) (fin_type f) (fin_contents f).

(** A packet with one finalization PDU, in the clear or encrypted with RC4, for a
    client with the keys [b], whose keys are [b'] afterwards. *)
Definition fin_carries (crypt : bool) (conf : rdpConf) (f : finalization) (p : list Z) (b b' : rdpSec) : Prop :=
  let body := fin_body conf f in
  if crypt then
    exists flags sig cipher, 0 <= flags < 65536 /\
      negb (Z.land flags SEC_ENCRYPT =? 0) = true /\ Z.land flags SEC_REDIRECTION_PKT = 0 /\
      p = rdp_header_bytes conf (27 + len body) MCS_GLOBAL_CHANNEL_ID ++ le16 flags ++ le16 0 ++ sig ++ cipher /\
      len sig = 8 /\ len cipher = len body /\ security_decrypt cipher b = Done (body, b') /\
      0 <= rc4_key_len b' <= len (sign_key b')
  else p = rdp_header_bytes conf (15 + len body) MCS_GLOBAL_CHANNEL_ID ++ body /\ b' = b.

Inductive fin_carried (crypt : bool) (conf : rdpConf) : list finalization -> list (list Z) -> rdpSec -> rdpSec -> Prop :=
| fin_none b : fin_carried crypt conf [] [] b b
| fin_one f p fs ps b b1 b2 : fin_carries crypt conf f p b b1 -> fin_carried crypt conf fs ps b1 b2 ->
    fin_carried crypt conf (f :: fs) (p :: ps) b b2.

Lemma len_fin_body conf f : len (fin_body conf f) = 18 + len (fin_contents f) /\ 0 <= len (fin_contents f) <= 8.
Proof.
  split; [|destruct f; lens_lia]. unfold fin_body, data_pdu_bytes. rewrite !len_app.
  change (len (share_control_bytes _ _ _)) with 6. change (len (share_data_bytes _ _ _)) with 12. lia.
Qed.

Fixpoint recv_packets (packets : list (list Z)) (r : rdpRdp N U) : outcome (rdpRdp N U) :=
  match packets with
  | [] => Done r
  | p :: packets =>
      match rdp_recv_tpkt_pdu 8 (mkSTREAM (len p) 0 p, r) with
      | Done (true, (_, r')) => recv_packets packets r'
      | Done (false, _) => Fault Uninitialised
      | Fault f => Fault f
      end
  end.

(** The client's module as far as finalization goes. *)
Record client_ready (crypt : bool) (r : rdpRdp N U) : Prop := {
  cr_mode : server_mode (rdp_conf r) = false;
  cr_crypt : encryption (rdp_conf r) = crypt;
  cr_method : crypt = true -> fp_encryption_method (rdp_out r) <> ENCRYPTION_METHOD_FIPS;
  cr_disconnect : disconnect r = false;
}.

(** The headers of the packet are read and the body is decrypted. *)
Lemma fin_start `{!CryptoLaws} crypt conf f p b' junk (r : rdpRdp N U) :
  client_ready crypt r -> fin_carries crypt conf f p (fp_sec (rdp_out r)) b' ->
  1001 <= mcs_user_id conf < 65536 ->
  exists s, rdp_recv_tpkt_start (mkSTREAM (len p) 0 (p ++ junk), r) = Done (inr MCS_GLOBAL_CHANNEL_ID, (s, with_sec b' r)) /\
    holds s (fin_body conf f) /\ stream_get_left s = len (fin_body conf f) /\ s_size s = len p.
Proof.
  intros [Hm He Hf Hd] Hc Hu. destruct (len_fin_body conf f) as [Hbl Hfl].
  set (body := fin_body conf f) in *. set (s0 := mkSTREAM (len p) 0 (p ++ junk)).
  assert (Hs0 : holds s0 p) by (apply holds_start; pose proof (len_nonneg junk); lia).
  destruct crypt.
  - destruct Hc as (flags & sig & cipher & Hfr & Hen & Hred & Hp & Hsl & Hcl & Hdec & Hk). fold body in Hp, Hcl, Hdec.
    assert (Hpl : len p = 27 + len body).
    { rewrite Hp, !len_app, len_rdp_header, Hsl, Hcl. change (len (le16 _)) with 2. lia. }
    rewrite Hp in Hs0.
    destruct (tpkt_start_crypt conf (27 + len body) MCS_GLOBAL_CHANNEL_ID flags sig cipher body b' s0 r)
      as (s & E & Hh & Hl & Hz); auto; try lia;
      try (unfold s0, stream_get_left, MCS_GLOBAL_CHANNEL_ID; cbn [s_size s_p]; lia).
    exists s. auto.
  - destruct Hc as [Hp ->]. fold body in Hp.
    assert (Hpl : len p = 15 + len body) by (rewrite Hp, len_app, len_rdp_header; lia).
    rewrite Hp in Hs0.
    destruct (tpkt_start_plain conf (15 + len body) MCS_GLOBAL_CHANNEL_ID body s0 r) as [E Hh]; auto; try lia;
      try (unfold s0, stream_get_left, MCS_GLOBAL_CHANNEL_ID; cbn [s_size s_p]; lia).
    exists (adv 15 s0). replace (with_sec (fp_sec (rdp_out r)) r) with r by (destruct r as [ [] ]; reflexivity).
    split; [exact E|]. split; [exact Hh|]. split; [|reflexivity].
    unfold stream_get_left, s0. cbn [adv set_p s_size s_p]. lia.
Qed.

Lemma fin_packet_run `{!CryptoLaws} crypt conf f p b' junk (r : rdpRdp N U) :
  client_ready crypt r -> fin_carries crypt conf f p (fp_sec (rdp_out r)) b' ->
  1001 <= mcs_user_id conf < 65536 -> 0 <= share_id conf < 2 ^ 32 ->
  exists s, rdp_recv_tpkt_pdu 8 (mkSTREAM (len p) 0 (p ++ junk), r)
      = Done (true, (s, with_finalize (fin_flag f)
                          (with_conf (set_pdu_source (mcs_user_id conf) (rdp_conf r)) (with_sec b' r)))) /\
    s_size s = len p /\ s_size s <= len (s_data s).
Proof.
  intros Hr Hc Hu Hid. destruct (fin_start crypt conf f p b' junk r Hr Hc Hu) as (s1 & E & Hh & Hl & Hz).
  destruct (len_fin_body conf f) as [Hbl Hfl]. pose proof (holds_size _ _ Hh) as Hsz.
  assert (Hh' := Hh). unfold fin_body, data_pdu_bytes in Hh'. rewrite app_assoc in Hh'. destruct (holds_app _ _ _ Hh') as [_ Hc'].
  change (len (share_control_bytes _ _ _ ++ share_data_bytes _ _ _)) with 18 in Hc'.
  destruct (fin_dispatch f (adv 18 s1)
              (with_conf (set_pdu_source (mcs_user_id conf) (rdp_conf r)) (with_sec b' r)) Hc' (cr_mode _ _ Hr))
    as (s' & Edis & Hz' & Hd').
  eexists. unfold rdp_recv_tpkt_pdu. rewrite (bind_Done _ _ _ _ _ E).
  change (negb (MCS_GLOBAL_CHANNEL_ID =? MCS_GLOBAL_CHANNEL_ID)) with false. cbv iota.
  split; [apply (share_pdus_one (mcs_user_id conf) (share_id conf) (fin_type f) (fin_contents f)
                   6 s1 s'); auto; try lia|].
  - pose proof (holds_len _ _ Hh). split; [cbn [set_p s_size]; rewrite Hz'; exact Hz|].
    cbn [set_p s_size s_data]. rewrite Hz', Hd'. cbn [adv set_p s_size s_data]. unfold stream_get_left in Hl. lia.
Qed.

Definition fin_flags (fs : list finalization) : Z := fold_right (fun f acc => Z.lor (fin_flag f) acc) 0 fs.

End finalize.

(** ** Witnesses *)

(** Handlers that count what they are given. *)
#[export] Instance CountingHandlers : PduHandlers nat := {
  update_recv := fun s n => Done (s, S n);
  update_recv_pointer := fun s n => Done (s, S n);
  update_recv_play_sound := fun s n => Done (s, S n);
  rdp_recv_save_session_info := fun s n => Done (s, S n);
  rdp_recv_redirection := fun s n => Done (s, S n);
  BeginPaint := fun n => n;
  EndPaint := fun n => n;
  fastpath_recv_update := fun _ _ s n => Done (s, S n);
  ReceiveChannelData := fun _ _ _ _ n => S n;
}.

Definition toy_conf (server crypt : bool) : rdpConf := mkConf server crypt 1007 0x103EA 0 [mkChannel 1004 0] 1600 0.

Definition toy_out (flags : Z) (s : STREAM) : fpRdp rdpTcp :=
  mkFpRdp (set_send_stream s (tcp_transport [] [SendUpTo 10; SendAgain; SendUpTo 1000])) (toy_end 4096)
    true true flags ENCRYPTION_METHOD_128BIT.

Definition toy_rdp (server crypt : bool) : rdpRdp rdpTcp nat :=
  mkRdp (toy_out 0 (stream_new 64)) (toy_conf server crypt) CONNECTION_STATE_FINALIZATION false 0 0
    (mkRecv fastpath_new 0%nat (mppc_new [])).

Definition toy_sender (sec : nat) (contents : list Z) : fpRdp rdpTcp :=
  toy_out (Z.lor SEC_ENCRYPT SEC_SECURE_CHECKSUM)
    (mkSTREAM 200 (15 + Z.of_nat sec + len contents)
       (replicate 15 0 ++ replicate sec 0 ++ contents ++ replicate 100 0)).

Lemma toy_agreed sec contents : agreed true (toy_sender sec contents) (toy_rdp true true).
Proof.
  constructor; try reflexivity; try discriminate; [vm_compute; split; congruence|].
  apply toy_paired. lia.
Qed.

Lemma rdp_send_roundtrip_witness :
  exists ok r' k pdu s' rb',
    rdp_send (toy_conf false true) 1004 (toy_sender 12 [1; 2; 3]) = Done (ok, r') /\
    sent r' = sent (toy_sender 12 [1; 2; 3]) ++ take k pdu /\
    (if ok : bool then (length pdu <= k)%nat else t_layer (fp_transport r') = TRANSPORT_LAYER_CLOSED) /\
    pdu_length TRANSPORT_LAYER_TCP pdu = Done (len pdu) /\
    rdp_recv_tpkt_start (mkSTREAM (len pdu) 0 pdu, toy_rdp true true) = Done (inr 1004, (s', rb')) /\
    holds s' [1; 2; 3] /\ stream_get_left s' = 3 /\
    (true = true -> ok = true -> paired (fp_sec r') (fp_sec (rdp_out rb'))).
Proof.
  apply (rdp_send_roundtrip TRANSPORT_LAYER_TCP (toy_conf false true) 1004 true (toy_sender 12 [1; 2; 3])
           (toy_rdp true true) 200 (replicate 15 0) (replicate 12 0) [1; 2; 3] (replicate 100 0));
    try reflexivity; try discriminate; try (cbn; lia). apply toy_agreed.
Defined.

Lemma rdp_data_pdu_roundtrip_witness :
  exists ok r' k pdu s1 rb1,
    rdp_send_data_pdu (toy_conf false true) DATA_PDU_TYPE_UPDATE 1007
      (toy_sender 12 (replicate 18 0 ++ [7; 8])) = Done (ok, r') /\
    sent r' = sent (toy_sender 12 (replicate 18 0 ++ [7; 8])) ++ take k pdu /\
    (if ok : bool then (length pdu <= k)%nat else t_layer (fp_transport r') = TRANSPORT_LAYER_CLOSED) /\
    pdu_length TRANSPORT_LAYER_TCP pdu = Done (len pdu) /\
    holds s1 [7; 8] /\ stream_get_left s1 = 2 /\
    (true = true -> ok = true -> paired (fp_sec r') (fp_sec (rdp_out rb1))) /\
    forall fuel s2 rb2,
      dispatch_data DATA_PDU_TYPE_UPDATE None (s1, rb1) = Done (tt, (s2, rb2)) -> s_size s2 = s_size s1 ->
      rdp_recv_tpkt_pdu (S (S fuel)) (mkSTREAM (len pdu) 0 pdu, toy_rdp true true)
      = Done (true, (set_p s2 (s_size s1), rb2)).
Proof.
  apply (rdp_data_pdu_roundtrip TRANSPORT_LAYER_TCP (toy_conf false true)
           DATA_PDU_TYPE_UPDATE true (toy_sender 12 (replicate 18 0 ++ [7; 8])) (toy_rdp true true) 200
           (replicate 15 0) (replicate 12 0) (replicate 18 0) [7; 8] (replicate 100 0));
    try reflexivity; try discriminate; try (cbn; lia); [apply toy_agreed|].
  vm_compute. split; congruence.
Defined.

Lemma rdp_zero_length_pdu_loops_witness :
  recv_share_pdus 1000 None None
    (mkSTREAM 6 0 [0; 0; 0x11; 0; 0; 0], toy_rdp false false) = Fault Diverges.
Proof.
  apply (rdp_zero_length_pdu_loops 0x11); try discriminate; [|lia].
  apply (holds_start 6 [0; 0; 0x11; 0] [0; 0]). lens_lia.
Defined.

