(* ===== verification/FastpathDelivery.v ===== *)
(** Fast-path updates from a server to a client: [fastpath_send_update_pdu] of
    [libfreerdp-core/fastpath.c] cuts an update into PDUs, in the clear or signed
    and encrypted with RC4; the client receives them with [rdp_recv_pdu] of
    [rdp.c], which decrypts them and puts the fragments together. *)

From S2P Require Import Prelude.
From S2P Require Import Stream.
From S2P Require Import Settings.
From S2P Require Import X224.
From S2P Require Import Transport.
From S2P Require Import Security.
From S2P Require Import Mppc.
From S2P Require Import Fastpath.
From S2P Require Import Rdp.

(** ** PDUs on the wire *)

(** The signature in front of an encrypted update. *)
Definition sec_size (crypt : bool) : Z := if crypt then 8 else 0.

(** Flags and length of a PDU of [n] bytes. *)
Definition output_header (crypt : bool) (n : Z) : list Z :=
  [if crypt then 0x80 else 0; 0x80 + n / 256; n mod 256].

(** The state of the receiver after such a header. *)
Definition flagged (crypt : bool) (fp : rdpFastPath) : rdpFastPath :=
  mkFastPath (if crypt then FASTPATH_OUTPUT_ENCRYPTED else 0) 0 (updateData fp).

Section wire.
Context `{HC : Crypto}.

(** [pdu] carries [body] to a receiver with the keys [b], whose keys are [b']
    afterwards. *)
Definition carries (crypt : bool) (body pdu : list Z) (b b' : rdpSec) : Prop :=
  if crypt then
    exists sig cipher, pdu = output_header true (3 + 8 + len body) ++ sig ++ cipher /\
      len sig = 8 /\ len cipher = len body /\ security_decrypt cipher b = Done (body, b') /\
      0 <= rc4_key_len b' <= len (sign_key b')
  else pdu = output_header false (3 + len body) ++ body /\ b' = b.

Inductive carried (crypt : bool) : list (list Z) -> list (list Z) -> rdpSec -> rdpSec -> Prop :=
| carried_nil b : carried crypt [] [] b b
| carried_cons body pdu bodies pdus b b1 b2 :
    carries crypt body pdu b b1 -> carried crypt bodies pdus b1 b2 ->
    carried crypt (body :: bodies) (pdu :: pdus) b b2.

Lemma carries_split crypt body pdu b b' : carries crypt body pdu b b' ->
  exists rest, pdu = output_header crypt (len pdu) ++ rest /\ len rest = sec_size crypt + len body /\
    len pdu = 3 + sec_size crypt + len body.
Proof.
  destruct crypt.
  - intros (sig & cipher & -> & Hs & Hc & _). exists (sig ++ cipher). rewrite !len_app, Hs, Hc.
    change (len (output_header _ _)) with 3. cbn [sec_size].
    replace (3 + (8 + len body)) with (3 + 8 + len body) by lia. auto.
  - intros [-> _]. exists body. rewrite len_app. change (len (output_header _ _)) with 3. cbn [sec_size]. auto.
Qed.

(** The PDU announces its own length to the framing of the transport. *)
Lemma carries_framed l crypt body pdu b b' : carries crypt body pdu b b' -> len pdu < 0x4000 ->
  1 <= len body -> l <> TRANSPORT_LAYER_TSG -> pdu_length l pdu = Done (len pdu).
Proof.
  intros Hc Hn Hb Hl. destruct (carries_split _ _ _ _ _ Hc) as (rest & E & Hr & Hlen).
  assert (Hpos : 1 <= len rest) by (unfold sec_size in Hr; destruct crypt; lia).
  destruct rest as [|x rest]; [change (len (@nil Z)) with 0 in Hpos; lia|].
  pose proof (len_nonneg pdu). rewrite E at 1. unfold output_header, pdu_length. cbn [app].
  rewrite decide_False by exact Hl.
  replace ((if crypt then 0x80 else 0) =? 3) with false by (destruct crypt; reflexivity).
  replace ((if crypt then 0x80 else 0) =? 0x30) with false by (destruct crypt; reflexivity).
  destruct (length_bytes_value (len pdu)) as (-> & -> & _); [lia|]. f_equal.
  rewrite (lor_high_low _ _ 8), Z.shiftl_mul_pow2; [..| rewrite Z.shiftl_mul_pow2 by lia; apply Z.mod_mul; lia|];
    change (2 ^ 8) with 256; dlia.
Qed.

Lemma Reads_output_header fp crypt n : 0 <= n < 0x4000 ->
  Reads (fastpath_read_header_rdp (Some fp)) (output_header crypt n) ((n - 3) mod 65536, Some (flagged crypt fp)).
Proof.
  intros Hn. destruct (length_bytes_value n Hn) as (H1 & H2 & H3).
  unfold fastpath_read_header_rdp, output_header. do 2 apply Reads_uint8_bind. rewrite H1, H2.
  apply Reads_uint8_bind. rewrite H3. destruct crypt; apply Reads_ret.
Qed.

End wire.

(** ** Receiving one PDU *)

Section receiving.
Context {N U : Type} `{HLink : Link N} `{HC : Crypto} `{HL : !CryptoLaws} `{HH : PduHandlers U}.
Implicit Types r : rdpRdp N U.

Lemma with_sec_self r : with_sec (fp_sec (rdp_out r)) r = r.
Proof. destruct r as [ [] ? ? ? ? ? ?]. reflexivity. Qed.

(** A packet that does not begin with 3 goes to the fast path. *)
Lemma recv_pdu_fast fuel b pdu r : b <> 3 ->
  rdp_recv_pdu fuel (mkSTREAM (len (b :: pdu)) 0 (b :: pdu), r)
  = rdp_recv_fastpath_pdu (mkSTREAM (len (b :: pdu)) 0 (b :: pdu), r).
Proof.
  intros Hb. unfold rdp_recv_pdu.
  assert (E : tpkt_verify_header (mkSTREAM (len (b :: pdu)) 0 (b :: pdu)) = Done (false, mkSTREAM (len (b :: pdu)) 0 (b :: pdu))).
  { rewrite <- (proj2 (Z.eqb_neq b 3) Hb). reflexivity. }
  rewrite (bind_Done _ _ _ _ _ (pkt_run _ _ r _ _ E)). reflexivity.
Qed.

(** The decryption of [rdp_recv_fastpath_pdu], when the flags ask for it. *)
Lemma unprotect_run crypt body pdu b' s r :
  carries crypt body pdu (fp_sec (rdp_out r)) b' ->
  (crypt = true -> fp_encryption_method (rdp_out r) <> ENCRYPTION_METHOD_FIPS) ->
  holds s (drop 3 pdu) -> stream_get_left s = sec_size crypt + len body ->
  exists s', (if negb (Z.land (encryptionFlags (flagged crypt (r_fastpath (rdp_rx r)))) FASTPATH_OUTPUT_ENCRYPTED =? 0) then
     let securityFlags :=
       if negb (Z.land (encryptionFlags (flagged crypt (r_fastpath (rdp_rx r)))) FASTPATH_OUTPUT_SECURE_CHECKSUM =? 0)
       then SEC_SECURE_CHECKSUM else 0 in
     rdp_decrypt (sec_size crypt + len body) securityFlags;; ret tt
   else ret tt) (s, r) = Done (tt, (s', with_sec b' r)) /\ holds s' body /\ stream_get_left s' = len body.
Proof.
  intros Hc Hm Hs Hleft. destruct crypt; cbn [flagged encryptionFlags sec_size carries] in *.
  - destruct Hc as (sig & cipher & -> & Hsl & Hcl & Hd & Hk). change (drop 3 (_ ++ ?x)) with x in Hs.
    destruct (decrypt_run (8 + len body) 0 sig cipher body b' s r) as (s' & E & Hh & Hp & Hz); auto.
    exists s'. split; [|split; [exact Hh|unfold stream_get_left in *; lia] ].
    change (negb (Z.land FASTPATH_OUTPUT_ENCRYPTED FASTPATH_OUTPUT_ENCRYPTED =? 0)) with true.
    change (negb (Z.land FASTPATH_OUTPUT_ENCRYPTED FASTPATH_OUTPUT_SECURE_CHECKSUM =? 0)) with false. cbv zeta iota.
    rewrite (bind_Done _ _ _ _ _ E). reflexivity.
  - destruct Hc as [-> ->]. change (drop 3 (_ ++ ?x)) with x in Hs.
    exists s. rewrite with_sec_self. auto.
Qed.

(** A PDU that carries one update, which the handlers of the fast path take to
    the end: it is received between the callbacks that open and close the
    painting. *)
Lemma recv_carried fuel crypt body pdu b' r (Q : fpRecv U -> Prop) :
  carries crypt body pdu (fp_sec (rdp_out r)) b' ->
  (crypt = true -> fp_encryption_method (rdp_out r) <> ENCRYPTION_METHOD_FIPS) ->
  3 <= len body -> len pdu < 0x4000 ->
  (forall s, holds s body -> exists rx,
     fastpath_recv_update_data fastpath_recv_update
       (mkRecv (flagged crypt (r_fastpath (rdp_rx r))) (BeginPaint (r_update (rdp_rx r))) (r_mppc (rdp_rx r))) s
     = Done (rx, adv (len body) s) /\ Q (mkRecv (r_fastpath rx) (EndPaint (r_update rx)) (r_mppc rx))) ->
  exists s' rx, rdp_recv_pdu fuel (mkSTREAM (len pdu) 0 pdu, r) = Done (true, (s', with_rx rx (with_sec b' r))) /\ Q rx.
Proof.
  intros Hc Hm Hb Hn Hrun. destruct (carries_split _ _ _ _ _ Hc) as (rest & E & Hr & Hlen).
  set (s0 := mkSTREAM (len pdu) 0 pdu).
  assert (Hs : holds s0 (output_header crypt (len pdu) ++ rest)).
  { rewrite <- E. unfold s0. rewrite <- (app_nil_r pdu) at 2. apply holds_start. lia. }
  assert (Hfast : rdp_recv_pdu fuel (s0, r) = rdp_recv_fastpath_pdu (s0, r)).
  { unfold s0. rewrite E. apply recv_pdu_fast. destruct crypt; discriminate. }
  rewrite Hfast. clear Hfast. destruct (holds_app _ _ _ Hs) as [H1 H2]. change (len (output_header _ _)) with 3 in H2.
  unfold rdp_recv_fastpath_pdu. unfold bind at 1, rdp_of. cbn [snd].
  pose proof (len_nonneg pdu).
  rewrite (bind_Done _ _ _ _ _ (pkt_run _ _ r _ _ (Reads_output_header _ crypt (len pdu) ltac:(lia) s0 H1))).
  change (len (output_header _ _)) with 3. cbn [default]. unfold bind at 1, rdp_upd at 1. cbn [fst snd].
  set (r1 := with_rx _ r).
  assert (Hleft : stream_get_left (adv 3 s0) = sec_size crypt + len body)
    by (unfold stream_get_left; cbn [adv set_p s_size s_p s0]; lia).
  assert (Hsz : 0 <= sec_size crypt) by (destruct crypt; cbn; lia).
  erewrite bind_Done by (apply pkt_run; reflexivity). rewrite Hleft, Hlen, Z.mod_small by lia.
  replace (3 + sec_size crypt + len body - 3) with (sec_size crypt + len body) by lia.
  rewrite (proj2 (Z.eqb_neq _ _)), Z.ltb_irrefl by lia. cbn [orb].
  assert (H2' : holds (adv 3 s0) (drop 3 pdu)) by (rewrite E; exact H2).
  destruct (unprotect_run crypt body pdu b' (adv 3 s0) r1) as (s2 & E2 & Hh2 & Hl2); auto.
  change (encryptionFlags (flagged crypt (r_fastpath (rdp_rx r1)))) with (encryptionFlags (flagged crypt (r_fastpath (rdp_rx r)))) in E2.
  rewrite (bind_Done _ _ _ _ _ E2). unfold bind at 1, rdp_of. cbn [snd].
  destruct (Hrun s2 Hh2) as (rx & Eu & HQ).
  assert (Hloop : fastpath_recv_updates fastpath_recv_update BeginPaint EndPaint (rdp_rx (with_sec b' r1)) s2
    = Done (true, mkRecv (r_fastpath rx) (EndPaint (r_update rx)) (r_mppc rx), adv (len body) s2)).
  { unfold fastpath_recv_updates. unfold bind at 1, left_bytes. rewrite Hl2.
    assert (Hge : 3 <= stream_get_left s2) by lia.
    change (r_fastpath (rdp_rx (with_sec b' r1))) with (flagged crypt (r_fastpath (rdp_rx r))).
    change (r_update (rdp_rx (with_sec b' r1))) with (r_update (rdp_rx r)).
    change (r_mppc (rdp_rx (with_sec b' r1))) with (r_mppc (rdp_rx r)).
    erewrite bind_Done; [reflexivity|]. rewrite (updates_loop_step _ _ _ _ _ _ Hge Eu).
    replace (Z.to_nat (len body)) with (S (Z.to_nat (len body - 1))) by lia.
    apply updates_loop_stop. unfold stream_get_left in *. cbn [adv set_p s_size s_p] in *. lia. }
  rewrite (bind_Done _ _ _ _ _ (pkt_run _ _ _ _ _ Hloop)).
  exists (adv (len body) s2), (mkRecv (r_fastpath rx) (EndPaint (r_update rx)) (r_mppc rx)).
  split; [reflexivity|exact HQ].
Qed.

(** A single update that the handler understands: it is called once. *)
Lemma recv_carried_single fuel crypt code payload u' pdu b' r :
  carries crypt (update_bytes code FASTPATH_FRAGMENT_SINGLE payload) pdu (fp_sec (rdp_out r)) b' ->
  (crypt = true -> fp_encryption_method (rdp_out r) <> ENCRYPTION_METHOD_FIPS) ->
  0 <= code < 16 -> len pdu < 0x4000 ->
  (forall s, holds s payload ->
     fastpath_recv_update code (len payload) s (BeginPaint (r_update (rdp_rx r))) = Done (adv (len payload) s, u')) ->
  exists s', rdp_recv_pdu fuel (mkSTREAM (len pdu) 0 pdu, r)
    = Done (true, (s', with_rx (mkRecv (flagged crypt (r_fastpath (rdp_rx r))) (EndPaint u') (r_mppc (rdp_rx r)))
                         (with_sec b' r))).
Proof.
  intros Hc Hm Hcode Hn Hh. pose proof (len_nonneg payload).
  assert (Hlen : len (update_bytes code FASTPATH_FRAGMENT_SINGLE payload) = 3 + len payload).
  { unfold update_bytes. cbn [app]. rewrite !len_cons, len_app. change (len (le16 _)) with 2. lia. }
  destruct (carries_split _ _ _ _ _ Hc) as (_ & _ & _ & Hpl).
  destruct (recv_carried fuel crypt _ pdu b' r
    (fun rx => rx = mkRecv (flagged crypt (r_fastpath (rdp_rx r))) (EndPaint u') (r_mppc (rdp_rx r))) Hc Hm)
    as (s' & rx & E & ->); [lia|exact Hn| |exists s'; exact E].
  intros s Hs. exists (mkRecv (flagged crypt (r_fastpath (rdp_rx r))) u' (r_mppc (rdp_rx r))). split; [|reflexivity].
  rewrite (recv_update_data_start fastpath_recv_update code FASTPATH_FRAGMENT_SINGLE payload)
    by (unfold FASTPATH_FRAGMENT_SINGLE in *; auto; unfold sec_size in *; destruct crypt; lia).
  change (FASTPATH_FRAGMENT_SINGLE =? FASTPATH_FRAGMENT_SINGLE) with true. cbv iota zeta. cbn [r_update r_fastpath r_mppc].
  assert (Hp : holds (adv 3 s) payload).
  { unfold update_bytes in Hs. change (?x :: le16 ?n ++ ?l) with (([x] ++ le16 n) ++ l) in Hs. apply (holds_app _ _ _ Hs). }
  unfold fastpath_deliver, bind, ret, stream_set_pos. rewrite (Hh _ Hp).
  unfold adv, set_p. cbn [s_size s_p s_data]. rewrite Hlen, Z.add_assoc. reflexivity.
Qed.

(** PDU after PDU, each from a packet of its own, until one is refused. *)
Fixpoint recv_pdus (fuel : nat) (pdus : list (list Z)) (r : rdpRdp N U) : outcome (bool * rdpRdp N U) :=
  match pdus with
  | [] => Done (true, r)
  | pdu :: pdus =>
      match rdp_recv_pdu fuel (mkSTREAM (len pdu) 0 pdu, r) with
      | Done (true, (_, r')) => recv_pdus fuel pdus r'
      | Done (false, (_, r')) => Done (false, r')
      | Fault f => Fault f
      end
  end.

End receiving.

(** ** Sending *)

(** The fragments of a payload, the first one being number [i]. *)
Fixpoint bodies (fuel : nat) (code maxLength i : Z) (payload : list Z) : list (list Z) :=
  match fuel, payload with
  | S fuel', _ :: _ =>
      let chunk := take (Z.to_nat maxLength) payload in
      let rest := drop (Z.to_nat maxLength) payload in
      update_bytes code (fragment_kind i (len rest)) chunk :: bodies fuel' code maxLength (i + 1) rest
  | _, _ => []
  end.

Lemma len_update_bytes code kind chunk : len (update_bytes code kind chunk) = 3 + len chunk.
Proof. unfold update_bytes. cbn [app]. rewrite !len_cons, len_app. change (len (le16 _)) with 2. lia. Qed.

(** The largest chunk. *)
Definition max_chunk (crypt : bool) : Z := 16377 - sec_size crypt.

Lemma Writes_output_bytes (crypt : bool) n : 0 <= n < 0x4000 ->
  Writes ((stream_write_uint8 (if crypt then 0x80 else 0);; stream_write_uint8 (Z.lor 0x80 (Z.shiftr n 8)));;
          stream_write_uint8 (Z.land n 0xFF)) (output_header crypt n) tt.
Proof.
  intros Hn.
  assert (Hb : forall b, is_byte b -> b < 64 -> uint8 (Z.lor 0x80 b) = 0x80 + b).
  { apply (byte_forall (fun b => b < 64 -> uint8 (Z.lor 0x80 b) = 0x80 + b)). vm_compute. reflexivity. }
  eapply Writes_eq.
  - eapply Writes_bind; [|apply Writes_uint8]. eapply Writes_bind; apply Writes_uint8.
  - unfold output_header. cbn [app]. cons_eq; try reflexivity.
    + destruct crypt; reflexivity.
    + rewrite Z.shiftr_div_pow2 by lia. change (2 ^ 8) with 256. apply Hb; unfold is_byte; dlia.
    + rewrite land_FF. dlia.
  - reflexivity.
Qed.

Section sending.
Context {N : Type} (l : TRANSPORT_LAYER) `{HLink : LinkLaws N l} `{HC : Crypto} `{HL : !CryptoLaws}.
Implicit Types r : fpRdp N.

(** A server that protects its updates as the keys [b] of the client expect. *)
Definition protects (crypt : bool) (b : rdpSec) (r : fpRdp N) : Prop :=
  fp_do_crypt r = crypt /\
  (crypt = true -> fp_encryption_method r <> ENCRYPTION_METHOD_FIPS /\ paired (fp_sec r) b).

Lemma protects_sec crypt b r : protects crypt b r -> fastpath_get_sec_bytes r = sec_size crypt.
Proof.
  intros [Hd Hm]. unfold fastpath_get_sec_bytes. rewrite Hd. destruct crypt; [|reflexivity].
  rewrite (proj2 (Z.eqb_neq _ _)) by apply Hm, eq_refl. reflexivity.
Qed.

Lemma paired_mac a b : paired a b -> 0 <= rc4_key_len b <= len (sign_key b).
Proof.
  intros Hp. rewrite <- (pair_sign _ _ Hp), <- (pair_len _ _ Hp), (pair_sign_16 _ _ Hp).
  destruct (pair_key_len _ _ Hp); lia.
Qed.

(** Any updates can be carried, whatever the keys have been used for. *)
Lemma carried_exists crypt bs : forall b r, protects crypt b r -> exists pdus b', carried crypt bs pdus b b'.
Proof.
  induction bs as [|body bs IH]; intros b r Hp; [exists [], b; constructor|].
  destruct crypt.
  - destruct Hp as [Hd Hm]. destruct (Hm eq_refl) as [Hf Hk].
    destruct (paired_step _ _ body Hk) as (cipher & a' & b' & _ & Hcl & Hdec & [Hp' _] & _).
    destruct (signature_run _ _ body false Hk) as (sig & Hsl & _).
    destruct (IH b' (with_fp_sec a' r)) as (pdus & b2 & Hc); [split; [exact Hd|intros _; split; [exact Hf|exact Hp'] ]|].
    eexists (_ :: pdus), b2. econstructor; [|exact Hc].
    exists sig, cipher. repeat (split; [reflexivity || assumption|]). exact (paired_mac _ _ Hp').
  - destruct (IH b r Hp) as (pdus & b2 & Hc). eexists (_ :: pdus), b2. econstructor; [|exact Hc].
    split; reflexivity.
Qed.

(** The end of a round: the PDU in the buffer is written, and the position goes
    to where the next header will overwrite it. *)
Lemma fragment_tail crypt b pre pdu post n r :
  t_layer (fp_transport r) = l -> s_p (stream_of r) = len pre + 6 + sec_size crypt ->
  s_data (stream_of r) = pre ++ pdu ++ post -> len pdu = n + 6 + sec_size crypt -> 0 <= n ->
  protects crypt b r ->
  exists ok r' k,
    (let! status := transport_write_part (len pre) (len pdu) in
     if status <? 0 then ret false else
     on_stream (stream_seek (n - 6 - sec_size crypt));;
     ret true) r = Done (ok, r') /\
    sent r' = sent r ++ take k pdu /\ protects crypt b r' /\
    if ok : bool
    then (length pdu <= k)%nat /\ t_layer (fp_transport r') = l /\ s_p (stream_of r') = len pre + n /\
         s_data (stream_of r') = pre ++ pdu ++ post
    else t_layer (fp_transport r') = TRANSPORT_LAYER_CLOSED.
Proof.
  intros Hl Hp Hd Hn H0 Hprot. assert (Hsz : 0 <= sec_size crypt) by (destruct crypt; cbn; lia).
  destruct (write_part_run l (len pre) pdu pre post r Hl Hd eq_refl) as (st & t' & k & E & Hout & Hok & Hbad); [lia|].
  rewrite (bind_Done _ _ _ _ _ E). destruct (Z.ltb_spec st 0) as [Hs|Hs].
  - exists false. do 2 eexists. split; [reflexivity|]. split; [exact Hout|]. split; [exact Hprot|apply Hbad, Hs].
  - destruct (Hok Hs) as (Hkk & Ht). exists true. do 2 eexists. split; [reflexivity|].
    split; [exact Hout|]. split; [exact Hprot|]. split; [exact Hkk|]. rewrite Ht.
    split; [exact Hl|]. split; [|exact Hd]. change (s_p (stream_of r) + (n - 6 - sec_size crypt) = len pre + n). lia.
Qed.

(** A round of the sending loop: the PDU is handed to the transport whole or
    the connection is closed, and the next header goes right behind the chunk. *)
Lemma send_fragment_run crypt code kind chunk pre hole post b r :
  0 <= code < 16 -> 0 <= kind < 4 -> len chunk <= max_chunk crypt -> len hole = 6 + sec_size crypt ->
  t_layer (fp_transport r) = l -> s_p (stream_of r) = len pre ->
  s_data (stream_of r) = pre ++ hole ++ chunk ++ post -> protects crypt b r ->
  exists ok r' k pdu b', send_fragment (sec_size crypt) code kind (len chunk) r = Done (ok, r') /\
    carries crypt (update_bytes code kind chunk) pdu b b' /\
    sent r' = sent r ++ take k pdu /\ protects crypt b' r' /\
    if ok : bool
    then (length pdu <= k)%nat /\ t_layer (fp_transport r') = l /\ s_p (stream_of r') = len pre + len chunk /\
         s_data (stream_of r') = pre ++ pdu ++ post
    else t_layer (fp_transport r') = TRANSPORT_LAYER_CLOSED.
Proof.
  intros Hc Hk Hl Hh Hlayer Hp Hd Hprot. pose proof (len_nonneg chunk). pose proof (len_nonneg pre).
  set (n := len chunk) in *. set (size := s_size (stream_of r)).
  destruct (app_split hole 3) as (h3 & rest & -> & H3); [unfold sec_size in *; destruct crypt; lia|].
  rewrite len_app, H3 in Hh.
  destruct (app_split rest (sec_size crypt)) as (sec & u3 & -> & Hsec); [unfold sec_size in *; destruct crypt; lia|].
  rewrite len_app, Hsec in Hh.
  assert (Hs : stream_of r = behind size pre (h3 ++ sec ++ u3 ++ chunk ++ post)).
  { destruct (stream_of r) as [sz p data] eqn:E. unfold size, behind. cbn [s_size s_p s_data] in *. subst.
    rewrite <- !app_assoc. reflexivity. }
  assert (Hsz : 0 <= sec_size crypt <= 8) by (destruct crypt; cbn; lia). unfold max_chunk in Hl.
  assert (Hpos : (0 <? sec_size crypt) = crypt) by (destruct crypt; reflexivity).
  set (m := n + 6 + sec_size crypt).
  unfold send_fragment. fold m. replace (uint16 m) with m by (unfold uint16, m; rewrite Z.mod_small; lia).
  cbv zeta. rewrite Hpos.
  replace (if crypt then Z.lor 0 (Z.shiftl FASTPATH_OUTPUT_ENCRYPTED 6) else 0) with (if crypt then 0x80 else 0)
    by (destruct crypt; reflexivity).
  rewrite (bind_Done _ _ _ _ _ (on_stream_run get_pos r (s_p (stream_of r)) (stream_of r) eq_refl)), Hp.
  replace (with_send_stream (stream_of r) r) with r by (destruct r as [ [] ? ? ? ? ?]; reflexivity).
  rewrite !on_stream_seq. set (oh := output_header crypt m).
  erewrite bind_Done by (apply on_stream_run; rewrite Hs; apply (Writes_behind _ oh tt size pre h3);
    [apply Writes_output_bytes; unfold m; lia|exact (eq_sym H3)]).
  set (part := update_header_byte code kind :: le16 n).
  assert (Hpart : Writes (fastpath_write_update_header code kind 0;; stream_write_uint16 n) part tt)
    by (apply Writes_fragment_part; assumption).
  destruct crypt; cbn [sec_size] in *.
  - erewrite bind_Done by (apply on_stream_run; apply (seek_behind size (pre ++ oh) sec); exact (eq_sym Hsec)).
    rewrite on_stream_seq.
    erewrite bind_Done by (apply on_stream_run; apply (Writes_behind _ part tt size _ u3); [exact Hpart|change (len part) with 3; lia]).
    match goal with |- context [bind (fastpath_protect _ _ _) _ ?x] => set (r1 := x) end.
    assert (Hlp : len (pre ++ oh) = len pre + 3) by (rewrite len_app; reflexivity).
    destruct Hprot as [Hdc Hm]. destruct (Hm eq_refl) as [Hf Hkp].
    destruct (protect_run size (len pre + 14) (pre ++ oh) sec (part ++ chunk) post b r1)
      as (sig & cipher & a' & b' & E & Hsl & Hcl & Hdec & [Hp' _]); [exact Hkp|exact Hsec| |].
    { change (behind size (((pre ++ oh) ++ sec) ++ part) (chunk ++ post) = mkSTREAM size (len pre + 14) ((pre ++ oh) ++ sec ++ (part ++ chunk) ++ post)).
      unfold behind. rewrite !len_app, Hsec. change (len oh) with 3. change (len part) with 3.
      rewrite <- !app_assoc. f_equal. lia. }
    assert (Hlb : len (part ++ chunk) = n + 3) by (rewrite len_app; change (len part) with 3; lia).
    rewrite Hlp, Hlb in E. rewrite (bind_Done _ _ _ _ _ E).
    set (pdu := oh ++ sig ++ cipher).
    assert (Hpl : len pdu = m) by (unfold pdu; rewrite !len_app, Hsl, Hcl, Hlb; change (len oh) with 3; unfold m; lia).
    set (r2 := with_send_stream _ (with_fp_sec a' r1)).
    destruct (fragment_tail true b' pre pdu post n r2) as (ok & r' & k & Et & Ho & Hpr & Hres); auto.
    + change (len pre + 14 = len pre + 6 + 8). lia.
    + change ((pre ++ oh) ++ sig ++ cipher ++ post = pre ++ pdu ++ post). unfold pdu. rewrite <- !app_assoc. reflexivity.
    + split; [exact Hdc|]. intros _. split; [exact Hf|exact Hp'].
    + rewrite <- Hpl. exists ok, r', k, pdu, b'. split; [exact Et|]. split; [|auto].
      exists sig, cipher. change (update_bytes code kind chunk) with (part ++ chunk). rewrite Hlb.
      repeat (split; [assumption || (unfold pdu, oh, m; do 2 f_equal; lia)|]). exact (paired_mac _ _ Hp').
  - assert (sec = []) as -> by (destruct sec; [reflexivity|llia]). cbn [app].
    rewrite bind_ret, on_stream_seq.
    erewrite bind_Done by (apply on_stream_run; apply (Writes_behind _ part tt size _ u3); [exact Hpart|change (len part) with 3; lia]).
    rewrite bind_ret. match goal with |- context [bind (transport_write_part _ _) _ ?x] => set (r1 := x) end.
    set (pdu := oh ++ part ++ chunk).
    assert (Hpl : len pdu = m) by (unfold pdu; rewrite !len_app; change (len oh) with 3; change (len part) with 3; unfold m; lia).
    destruct (fragment_tail false b pre pdu post n r1) as (ok & r' & k & Et & Ho & Hpr & Hres); auto.
    + change (len ((pre ++ oh) ++ part) = len pre + 6 + 0). rewrite !len_app. change (len oh) with 3. change (len part) with 3. lia.
    + change (((pre ++ oh) ++ part) ++ chunk ++ post = pre ++ pdu ++ post). unfold pdu. rewrite <- !app_assoc. reflexivity.
    + rewrite <- Hpl. exists ok, r', k, pdu, b. split; [exact Et|]. split; [|auto].
      split; [|reflexivity]. rewrite len_update_bytes. unfold pdu, oh, m. f_equal. f_equal. fold n. lia.
Qed.

(** The loop sends the fragments of what is left, in order. *)
Lemma send_fragments_run crypt code fuel : forall payload i pre hole post b r,
  0 <= code < 16 -> (length payload <= fuel)%nat -> len hole = 6 + sec_size crypt ->
  t_layer (fp_transport r) = l -> s_p (stream_of r) = len pre ->
  s_data (stream_of r) = pre ++ hole ++ payload ++ post -> protects crypt b r ->
  exists ok r' k pdus b', send_fragments fuel (sec_size crypt) (max_chunk crypt) code i (len payload) r = Done (ok, r') /\
    carried crypt (bodies fuel code (max_chunk crypt) i payload) pdus b b' /\
    sent r' = sent r ++ take k (concat pdus) /\
    if ok : bool then (length (concat pdus) <= k)%nat /\ protects crypt b' r'
    else t_layer (fp_transport r') = TRANSPORT_LAYER_CLOSED.
Proof.
  induction fuel as [|fuel IH]; intros payload i pre hole post b r Hc Hf Hh Hl Hp Hd Hprot.
  { destruct payload; [|cbn in Hf; lia]. exists true, r, 0%nat, [], b. cbn. rewrite app_nil_r.
    repeat (split; [reflexivity || constructor|]). auto. }
  destruct payload as [|b0 payload0].
  { exists true, r, 0%nat, [], b. cbn. rewrite app_nil_r. repeat (split; [reflexivity || constructor|]). auto. }
  set (payload := b0 :: payload0) in *. set (mx := max_chunk crypt).
  assert (Hmx : 16369 <= mx <= 16377) by (unfold mx, max_chunk; destruct crypt; cbn; lia).
  cbn [bodies]. change (match payload with _ :: _ => _ | [] => _ end) with
    (update_bytes code (fragment_kind i (len (drop (Z.to_nat mx) payload))) (take (Z.to_nat mx) payload)
       :: bodies fuel code mx (i + 1) (drop (Z.to_nat mx) payload)).
  set (chunk := take (Z.to_nat mx) payload). set (rest := drop (Z.to_nat mx) payload).
  assert (Hsplit : payload = chunk ++ rest) by (symmetry; apply take_drop).
  assert (Hpos : 0 < len payload) by (unfold payload; llia).
  assert (Hcl : len chunk = Z.min mx (len payload)) by (unfold chunk, len; rewrite length_take; lia).
  assert (Hrl : len payload - len chunk = len rest) by (rewrite Hsplit at 1; rewrite len_app; lia).
  cbn [send_fragments]. rewrite (proj2 (Z.ltb_lt _ _)) by lia. rewrite <- Hcl.
  replace (uint16 (len chunk)) with (len chunk) by (unfold uint16; rewrite Z.mod_small; lia).
  rewrite Hrl. set (kind := fragment_kind i (len rest)).
  destruct (send_fragment_run crypt code kind chunk pre hole (rest ++ post) b r)
    as (ok & r1 & k & pdu & b1 & E & Hcar & Hout & Hpr & Hok);
    auto; [apply fragment_kind_range|fold mx; lia|rewrite Hd, Hsplit, <- app_assoc; reflexivity|].
  rewrite (bind_Done _ _ _ _ _ E). destruct ok.
  2:{ destruct (carried_exists crypt (bodies fuel code mx (i + 1) rest) b1 r1 Hpr) as (pdus & b' & Hcs).
      destruct (take_prefix k pdu (concat pdus)) as (j & Hj & _).
      exists false, r1, j, (pdu :: pdus), b'. cbn [concat]. rewrite <- Hj.
      split; [reflexivity|]. split; [econstructor; eassumption|]. auto. }
  destruct Hok as (Hk & Hl1 & Hp1 & Hd1). destruct (carries_split _ _ _ _ _ Hcar) as (_ & _ & _ & Hpl).
  rewrite len_update_bytes in Hpl.
  assert (Hsz : 0 <= sec_size crypt) by (destruct crypt; cbn; lia).
  destruct (IH rest (i + 1) (pre ++ take (length chunk) pdu) (drop (length chunk) pdu) post b1 r1)
    as (ok & r' & j & pdus & b' & E' & Hcs & Hout' & Hok'); auto.
  - unfold rest. rewrite length_drop. unfold payload in *. cbn [length] in *. lia.
  - unfold len in *. rewrite length_drop. lia.
  - rewrite Hp1, len_app. f_equal. unfold len in *. rewrite length_take. lia.
  - rewrite Hd1, <- app_assoc. f_equal. rewrite <- (take_drop (length chunk) pdu) at 1.
    rewrite <- app_assoc. reflexivity.
  - exists ok, r', (length pdu + j)%nat, (pdu :: pdus), b'. fold mx in E'. rewrite E'. split; [reflexivity|].
    split; [econstructor; eassumption|]. cbn [concat].
    rewrite Hout', Hout, take_app_add, (take_ge _ _ Hk), app_assoc. split; [reflexivity|].
    destruct ok; [rewrite length_app; split; [lia|apply Hok']|exact Hok'].
Qed.

Lemma send_update_run crypt code payload hole post b r :
  0 <= code < 16 -> len payload < 2 ^ 32 -> len hole = 6 + sec_size crypt -> protects crypt b r ->
  t_layer (fp_transport r) = l -> s_p (stream_of r) = len hole + len payload ->
  s_data (stream_of r) = hole ++ payload ++ post ->
  exists ok r' k pdus b', fastpath_send_update_pdu code r = Done (ok, r') /\
    carried crypt (bodies (length payload) code (max_chunk crypt) 0 payload) pdus b b' /\
    sent r' = sent r ++ take k (concat pdus) /\
    if ok : bool then (length (concat pdus) <= k)%nat /\ protects crypt b' r'
    else t_layer (fp_transport r') = TRANSPORT_LAYER_CLOSED.
Proof.
  intros Hc Hlen Hh Hpr Hl Hp Hd. unfold fastpath_send_update_pdu. unfold bind at 1, rdp_get.
  rewrite (protects_sec _ _ _ Hpr). replace (uint16 _) with (max_chunk crypt) by (destruct crypt; reflexivity).
  rewrite (bind_Done _ _ _ _ _ (on_stream_run get_pos r (s_p (stream_of r)) (stream_of r) eq_refl)).
  pose proof (len_nonneg payload).
  replace (uint32 _) with (len payload) by (unfold uint32; rewrite Hp, Hh, Z.mod_small; lia).
  unfold len at 1. rewrite Nat2Z.id.
  erewrite bind_Done by (apply on_stream_run; reflexivity).
  match goal with |- context [send_fragments _ _ _ _ _ _ ?r0] => set (r1 := r0) end.
  destruct (send_fragments_run crypt code (length payload) payload 0 [] hole post b r1)
    as (ok & r' & k & pdus & b' & E & Ho); auto. exists ok, r', k, pdus, b'. split; [exact E|exact Ho].
Qed.

(** The PDUs of an update are framed. *)
Lemma bodies_framed crypt code fuel : forall payload i pdus b b', l <> TRANSPORT_LAYER_TSG ->
  carried crypt (bodies fuel code (max_chunk crypt) i payload) pdus b b' ->
  Forall (fun pdu => pdu_length l pdu = Done (len pdu)) pdus.
Proof.
  induction fuel as [|fuel IH]; intros payload i pdus b b' Hl Hc.
  { inversion Hc. constructor. }
  destruct payload as [|b0 payload0]; [inversion Hc; constructor|].
  cbn [bodies] in Hc. inversion Hc as [|body pdu bs pdus' ? b1 ? Hcar Hcs]; subst.
  constructor; [|exact (IH _ _ _ _ _ Hl Hcs)].
  destruct (carries_split _ _ _ _ _ Hcar) as (_ & _ & _ & Hpl). rewrite len_update_bytes in Hpl.
  set (chunk := take _ _) in *. assert (Hcl : len chunk <= max_chunk crypt).
  { unfold chunk, len. rewrite length_take. unfold max_chunk, sec_size in *. destruct crypt; lia. }
  pose proof (len_nonneg chunk).
  apply (carries_framed _ _ _ _ _ _ Hcar); [unfold max_chunk in Hcl; lia|rewrite len_update_bytes; lia|exact Hl].
Qed.

End sending.

(** ** Reassembly *)

(** A client that keeps a log of the updates its handlers are given. *)
#[export] Instance LogHandlers : PduHandlers (list (Z * Z * list Z)) := {
  update_recv := fun s u => Done (s, u);
  update_recv_pointer := fun s u => Done (s, u);
  update_recv_play_sound := fun s u => Done (s, u);
  rdp_recv_save_session_info := fun s u => Done (s, u);
  rdp_recv_redirection := fun s u => Done (s, u);
  BeginPaint := fun u => u;
  EndPaint := fun u => u;
  fastpath_recv_update := log_update;
  ReceiveChannelData := fun _ _ _ _ u => u;
}.

Section reassembling.
Context {N : Type} `{HLink : Link N} `{HC : Crypto} `{HL : !CryptoLaws}.

(** A client whose keys are [b], that uses RC4 if anything. *)
Definition expects (crypt : bool) (b : rdpSec) (r : rdpRdp N (list (Z * Z * list Z))) : Prop :=
  fp_sec (rdp_out r) = b /\ (crypt = true -> fp_encryption_method (rdp_out r) <> ENCRYPTION_METHOD_FIPS).

Definition buffer_of (r : rdpRdp N (list (Z * Z * list Z))) : STREAM := updateData (r_fastpath (rdp_rx r)).
Definition log_of (r : rdpRdp N (list (Z * Z * list Z))) : list (Z * Z * list Z) := r_update (rdp_rx r).

(** The client after an update: the keys, the fragment buffer and the log. *)
Definition after_update (crypt : bool) (b : rdpSec) (u : STREAM) (log : list (Z * Z * list Z))
    (r : rdpRdp N (list (Z * Z * list Z))) : rdpRdp N (list (Z * Z * list Z)) :=
  with_rx (mkRecv (mkFastPath (if crypt then FASTPATH_OUTPUT_ENCRYPTED else 0) 0 u) log (r_mppc (rdp_rx r)))
    (with_sec b r).

Lemma after_after crypt b b' u u' log log' r :
  after_update crypt b' u' log' (after_update crypt b u log r) = after_update crypt b' u' log' r.
Proof. reflexivity. Qed.

Lemma expects_after crypt b b' u log r : expects crypt b r -> expects crypt b' (after_update crypt b' u log r).
Proof. intros [_ Hm]. split; [reflexivity|exact Hm]. Qed.

Lemma recv_fragment_pdu fuel crypt size0 code kind chunk bs pdu b b' (r : rdpRdp N (list (Z * Z * list Z))) :
  carries crypt (update_bytes code kind chunk) pdu b b' -> expects crypt b r -> len chunk <= max_chunk crypt ->
  0 <= code < 16 -> kind = FASTPATH_FRAGMENT_FIRST /\ bs = [] \/ kind = FASTPATH_FRAGMENT_NEXT \/
                   kind = FASTPATH_FRAGMENT_LAST ->
  (if kind =? FASTPATH_FRAGMENT_FIRST then stream_ok (buffer_of r) /\ s_size (buffer_of r) <= size0
   else collected size0 (buffer_of r) bs) ->
  size0 <= 2 ^ 30 - 1 -> len bs + len chunk <= 2 ^ 29 - 1 -> is_bytes chunk ->
  exists s u, rdp_recv_pdu fuel (mkSTREAM (len pdu) 0 pdu, r)
    = Done (true, (s, after_update crypt b' u
        (if kind =? FASTPATH_FRAGMENT_LAST then log_of r ++ [(code, len (bs ++ chunk), bs ++ chunk)] else log_of r) r)) /\
    (kind <> FASTPATH_FRAGMENT_LAST -> collected size0 u (bs ++ chunk)).
Proof.
  intros Hcar [Hb Hm] Hcl Hc Hk Hupd H0 Hlen Hby. rewrite <- Hb in Hcar. pose proof (len_nonneg chunk).
  destruct (carries_split _ _ _ _ _ Hcar) as (_ & _ & _ & Hpl). rewrite len_update_bytes in Hpl.
  assert (Hsz : 0 <= sec_size crypt) by (destruct crypt; cbn; lia). unfold max_chunk in Hcl.
  destruct (recv_carried fuel crypt _ pdu b' r (fun rx => exists u,
    rx = mkRecv (mkFastPath (if crypt then FASTPATH_OUTPUT_ENCRYPTED else 0) 0 u)
           (if kind =? FASTPATH_FRAGMENT_LAST then log_of r ++ [(code, len (bs ++ chunk), bs ++ chunk)] else log_of r)
           (r_mppc (rdp_rx r)) /\
    (kind <> FASTPATH_FRAGMENT_LAST -> collected size0 u (bs ++ chunk))) Hcar Hm)
    as (s & rx & E & u & -> & HQ); [rewrite len_update_bytes; lia|lia| |exists s, u; split; [exact E|exact HQ] ].
  intros s Hs.
  destruct (recv_fragment size0 code kind chunk bs
    (mkRecv (flagged crypt (r_fastpath (rdp_rx r))) (r_update (rdp_rx r)) (r_mppc (rdp_rx r))) s)
    as (u & E & Hcol); auto; [lia|].
  change (fastpath_recv_update_data fastpath_recv_update) with recv_data. cbn [BeginPaint EndPaint LogHandlers].
  rewrite E, len_update_bytes. eexists. split; [reflexivity|]. exists u. split; [reflexivity|exact Hcol].
Qed.

(** The remaining fragments of a payload, [bs] of it having been collected. *)
Lemma recv_rest rounds crypt size0 code fuel : forall payload bs i pdus b b' (r : rdpRdp N (list (Z * Z * list Z))),
  carried crypt (bodies fuel code (max_chunk crypt) i payload) pdus b b' -> expects crypt b r ->
  0 <= code < 16 -> size0 <= 2 ^ 30 - 1 -> len bs + len payload <= 2 ^ 29 - 1 -> is_bytes payload ->
  1 <= i -> payload <> [] -> (length payload <= fuel)%nat -> collected size0 (buffer_of r) bs ->
  exists u, recv_pdus rounds pdus r
    = Done (true, after_update crypt b' u (log_of r ++ [(code, len (bs ++ payload), bs ++ payload)]) r).
Proof.
  induction fuel as [|fuel IH]; intros payload bs i pdus b b' r Hcs He Hc H0 Hlen Hb Hi Hne Hf Hcol.
  { destruct payload; [congruence|cbn in Hf; lia]. }
  destruct payload as [|b0 payload0]; [congruence|]. set (payload := b0 :: payload0) in *.
  set (mx := max_chunk crypt) in *. assert (Hmx : 16369 <= mx <= 16377) by (unfold mx, max_chunk; destruct crypt; cbn; lia).
  cbn [bodies] in Hcs. set (chunk := take (Z.to_nat mx) payload) in *. set (rest := drop (Z.to_nat mx) payload) in *.
  assert (Hsplit : payload = chunk ++ rest) by (symmetry; apply take_drop).
  assert (Hcl : len chunk <= mx) by (unfold chunk, len; rewrite length_take; lia).
  assert (is_bytes chunk /\ is_bytes rest) as [Hb1 Hb2] by (split; [apply Forall_take|apply Forall_drop]; exact Hb).
  assert (Hlen' : len payload = len chunk + len rest) by (rewrite Hsplit at 1; apply len_app).
  pose proof (len_nonneg rest). pose proof (len_nonneg bs).
  assert (Hkind : fragment_kind i (len rest) = if len rest =? 0 then FASTPATH_FRAGMENT_LAST else FASTPATH_FRAGMENT_NEXT).
  { unfold fragment_kind. rewrite (proj2 (Z.eqb_neq i 0)) by lia. reflexivity. }
  change (match payload with _ :: _ => _ | [] => _ end) with
    (update_bytes code (fragment_kind i (len rest)) chunk :: bodies fuel code mx (i + 1) rest) in Hcs.
  rewrite Hkind in Hcs. inversion Hcs as [|body pdu ? pdus' ? b1 ? Hcar Hcs']; subst body pdus b.
  cbn [recv_pdus]. destruct (Z.eqb_spec (len rest) 0) as [Hr0|Hr0].
  - assert (rest = []) as Hrn by (destruct rest; [reflexivity|llia]).
    destruct (recv_fragment_pdu rounds crypt size0 code FASTPATH_FRAGMENT_LAST chunk bs pdu _ b1 r Hcar He)
      as (s & u & E & _); auto; [lia|].
    rewrite Hrn in Hcs'. exists u. rewrite E. destruct fuel; cbn in Hcs'; inversion Hcs'; subst;
      rewrite Hsplit, Hrn, app_nil_r; reflexivity.
  - destruct (recv_fragment_pdu rounds crypt size0 code FASTPATH_FRAGMENT_NEXT chunk bs pdu _ b1 r Hcar He)
      as (s & u & E & Hcol'); auto; [lia|].
    rewrite E. change (if _ =? _ then ?a else ?b) with b.
    destruct (IH rest (bs ++ chunk) (i + 1) pdus' b1 b' (after_update crypt b1 u (log_of r) r)) as (u' & E'); auto; try lia.
    + exact (expects_after _ _ _ _ _ _ He).
    + rewrite len_app. lia.
    + intros Hn. rewrite Hn in Hr0. apply Hr0. reflexivity.
    + unfold rest. rewrite length_drop. unfold payload in *. cbn [length] in *. lia.
    + exists u'. rewrite E', after_after, Hsplit, app_assoc. reflexivity.
Qed.

(** The PDUs of a payload, received in order, are one update. *)
Lemma recv_all rounds crypt code fuel payload pdus b b' (r : rdpRdp N (list (Z * Z * list Z))) :
  carried crypt (bodies fuel code (max_chunk crypt) 0 payload) pdus b b' -> expects crypt b r ->
  0 <= code < 16 -> stream_ok (buffer_of r) -> s_size (buffer_of r) <= 2 ^ 30 - 1 ->
  len payload <= 2 ^ 29 - 1 -> is_bytes payload -> payload <> [] -> (length payload <= fuel)%nat ->
  exists u, recv_pdus rounds pdus r
    = Done (true, after_update crypt b' u (log_of r ++ [(code, len payload, payload)]) r).
Proof.
  intros Hcs He Hc Hok H0 Hlen Hb Hne Hf. destruct fuel as [|fuel].
  { destruct payload; [congruence|cbn in Hf; lia]. }
  destruct payload as [|b0 payload0]; [congruence|]. set (payload := b0 :: payload0) in *.
  set (mx := max_chunk crypt) in *. assert (Hmx : 16369 <= mx <= 16377) by (unfold mx, max_chunk; destruct crypt; cbn; lia).
  cbn [bodies] in Hcs. set (chunk := take (Z.to_nat mx) payload) in *. set (rest := drop (Z.to_nat mx) payload) in *.
  assert (Hsplit : payload = chunk ++ rest) by (symmetry; apply take_drop).
  assert (Hcl : len chunk <= mx) by (unfold chunk, len; rewrite length_take; lia).
  assert (is_bytes chunk /\ is_bytes rest) as [Hb1 Hb2] by (split; [apply Forall_take|apply Forall_drop]; exact Hb).
  assert (Hlen' : len payload = len chunk + len rest) by (rewrite Hsplit at 1; apply len_app).
  pose proof (len_nonneg rest). pose proof (len_nonneg chunk).
  change (match payload with _ :: _ => _ | [] => _ end) with
    (update_bytes code (fragment_kind 0 (len rest)) chunk :: bodies fuel code mx (0 + 1) rest) in Hcs.
  unfold fragment_kind in Hcs. change (0 =? 0) with true in Hcs. cbv iota in Hcs.
  inversion Hcs as [|body pdu ? pdus' ? b1 ? Hcar Hcs']; subst body pdus b. cbn [recv_pdus].
  destruct (Z.eqb_spec (len rest) 0) as [Hr0|Hr0].
  - assert (rest = []) as Hrn by (destruct rest; [reflexivity|llia]).
    destruct He as [Hbe Hm]. rewrite <- Hbe in Hcar.
    destruct (carries_split _ _ _ _ _ Hcar) as (_ & _ & _ & Hpl). rewrite len_update_bytes in Hpl.
    assert (Hsz : 0 <= sec_size crypt) by (destruct crypt; cbn; lia).
    destruct (recv_carried rounds crypt _ pdu b1 r (fun rx =>
      rx = mkRecv (flagged crypt (r_fastpath (rdp_rx r))) (log_of r ++ [(code, len chunk, chunk)]) (r_mppc (rdp_rx r))) Hcar Hm)
      as (s & rx & E & ->); [rewrite len_update_bytes; lia|unfold mx, max_chunk in Hcl; lia| |].
    { intros s Hs. change (fastpath_recv_update_data fastpath_recv_update) with recv_data. cbn [BeginPaint EndPaint LogHandlers].
      rewrite (recv_single code chunk), len_update_bytes by (auto; lia). eexists. split; reflexivity. }
    exists (buffer_of r). rewrite E. rewrite Hrn in Hcs'.
    destruct fuel; cbn in Hcs'; inversion Hcs'; subst; rewrite Hsplit, Hrn, app_nil_r; reflexivity.
  - destruct (recv_fragment_pdu rounds crypt (s_size (buffer_of r)) code FASTPATH_FRAGMENT_FIRST chunk [] pdu _ b1 r Hcar He)
      as (s & u & E & Hcol); auto; [cbn; split; [exact Hok|lia]|change (len (@nil Z)) with 0; lia|].
    rewrite E. change (if _ =? _ then ?a else ?b) with b.
    destruct (recv_rest rounds crypt (s_size (buffer_of r)) code fuel rest chunk (0 + 1) pdus' b1 b'
                (after_update crypt b1 u (log_of r) r)) as (u' & E'); auto; try lia.
    + exact (expects_after _ _ _ _ _ _ He).
    + intros Hn. rewrite Hn in Hr0. apply Hr0. reflexivity.
    + unfold rest. rewrite length_drop. unfold payload in *. cbn [length] in *. lia.
    + exists u'. rewrite E', after_after, Hsplit. reflexivity.
Qed.

End reassembling.

(** C9. A fast-path update from the server's [fastpath_send_update_pdu] to the
    client's [rdp_recv_pdu], in the clear or encrypted with RC4, for a payload
    that is not empty (an empty one is never sent) and has at most 2^29 - 1
    bytes. FIPS is left out: the sender encrypts with RC4 whatever the method is
    (fastpath.c:685). The server cuts the payload into PDUs; it hands all of them to the transport in order,
    or fails with the connection closed and a prefix of them sent. Each PDU
    announces its own length to the framing of the client, and a client that
    receives them decrypts them and hands exactly one update to its handlers,
    with the code and the payload sent, whatever it had received before; the
    keys of the two ends stay in step. *)
Theorem fastpath_update_roundtrip {N N'} l `{LinkLaws N l} `{Link N'} `{Crypto} `{!CryptoLaws} crypt rounds
    (server : fpRdp N) (client : rdpRdp N' (list (Z * Z * list Z))) code payload hole post :
  0 <= code < 16 -> is_bytes payload -> 1 <= len payload <= 2 ^ 29 - 1 ->
  protects crypt (fp_sec (rdp_out client)) server ->
  (crypt = true -> fp_encryption_method (rdp_out client) <> ENCRYPTION_METHOD_FIPS) ->
  t_layer (fp_transport server) = l -> l <> TRANSPORT_LAYER_TSG ->
  len hole = 6 + sec_size crypt -> s_p (stream_of server) = len hole + len payload ->
  s_data (stream_of server) = hole ++ payload ++ post ->
  stream_ok (buffer_of client) -> s_size (buffer_of client) <= 2 ^ 30 - 1 ->
  exists ok server' pdus k client',
    fastpath_send_update_pdu code server = Done (ok, server') /\
    sent server' = sent server ++ take k (concat pdus) /\
    (if ok : bool then (length (concat pdus) <= k)%nat /\ protects crypt (fp_sec (rdp_out client')) server'
     else t_layer (fp_transport server') = TRANSPORT_LAYER_CLOSED) /\
    Forall (fun pdu => pdu_length l pdu = Done (len pdu)) pdus /\
    recv_pdus rounds pdus client = Done (true, client') /\
    log_of client' = log_of client ++ [(code, len payload, payload)].
Proof.
  intros Hc Hb Hlen Hpr Hm Hl Htsg Hh Hp Hd Hok Hsz.
  destruct (send_update_run l crypt code payload hole post _ server Hc ltac:(lia) Hh Hpr Hl Hp Hd)
    as (ok & server' & k & pdus & b' & E & Hcs & Hout & Hres).
  destruct (recv_all rounds crypt code (length payload) payload pdus _ b' client Hcs) as (u & Hu); auto.
  { split; [reflexivity|exact Hm]. }
  { lia. }
  { intros ->. unfold len in Hlen. cbn in Hlen. lia. }
  exists ok, server', pdus, k, (after_update crypt b' u (log_of client ++ [(code, len payload, payload)]) client).
  repeat (split; [assumption|]). split; [exact (bodies_framed l _ _ _ _ _ _ _ _ Htsg Hcs)|]. split; [exact Hu|reflexivity].
Qed.

(** A payload of 20000 bytes is sent in two PDUs, encrypted, across an update of
    the session keys. *)
Definition fp_payload : list Z := replicate (Z.to_nat 20000) 7.
Definition fp_server : fpRdp rdpTcp :=
  mkFpRdp (set_send_stream (mkSTREAM (14 + len fp_payload) (14 + len fp_payload) (replicate 14 0 ++ fp_payload ++ []))
             (tcp_transport [] [SendUpTo 10000; SendUpTo 10000; SendAgain; SendUpTo 10000]))
    (toy_end 4096) true false 0 ENCRYPTION_METHOD_128BIT.
Definition fp_client : rdpRdp rdpTcp (list (Z * Z * list Z)) :=
  mkRdp (toy_out 0 (stream_new 64)) (toy_conf false true) CONNECTION_STATE_ACTIVE false 0 0
    (mkRecv (mkFastPath 0 0 (stream_new 64)) [] (mppc_new [])).

Lemma fastpath_update_roundtrip_witness :
  exists ok server' pdus k client',
    fastpath_send_update_pdu 1 fp_server = Done (ok, server') /\
    sent server' = sent fp_server ++ take k (concat pdus) /\
    (if ok : bool then (length (concat pdus) <= k)%nat /\ protects true (fp_sec (rdp_out client')) server'
     else t_layer (fp_transport server') = TRANSPORT_LAYER_CLOSED) /\
    Forall (fun pdu => pdu_length TRANSPORT_LAYER_TCP pdu = Done (len pdu)) pdus /\
    recv_pdus 8 pdus fp_client = Done (true, client') /\
    log_of client' = log_of fp_client ++ [(1, len fp_payload, fp_payload)].
Proof.
  apply (fastpath_update_roundtrip TRANSPORT_LAYER_TCP true 8 fp_server fp_client 1 fp_payload (replicate 14 0) []);
    try reflexivity; try discriminate.
  - lia.
  - apply Forall_replicate. unfold is_byte. lia.
  - unfold fp_payload. rewrite len_replicate. lia.
  - split; [reflexivity|]. intros _. split; [discriminate|apply toy_paired; lia].
  - split; vm_compute; try split; try discriminate. repeat constructor; discriminate.
Defined.
