(* ===== verification/Channel.v ===== *)
(** Static virtual channels: the cutting of channel data into chunks by
    [libfreerdp-core/channel.c] and their reassembly by the plugin side,
    [libfreerdp-utils/svc_plugin.c]. *)

From S2P Require Import Prelude.
From S2P Require Import Stream.
From S2P Require Import Settings.
From S2P Require Import Transport.
From S2P Require Import Mcs.
From S2P Require Import Security.
From S2P Require Import Mppc.
From S2P Require Import Fastpath.
From S2P Require Import Rdp.

Definition CHANNEL_FLAG_FIRST : Z := 0x01.
Definition CHANNEL_FLAG_LAST : Z := 0x02.
Definition CHANNEL_FLAG_SHOW_PROTOCOL : Z := 0x10.
Definition CHANNEL_OPTION_SHOW_PROTOCOL : Z := 0x00200000.

(** ** Sending, [channel.c] *)

Section send.
Context {N : Type} `{Link N} `{Crypto}.

(** One round: send [chunk]. *)
Definition send_chunk (conf : rdpConf) (channel_id size flags : Z) (chunk : list Z) : M (fpRdp N) unit :=
  on_stream (stream_write_uint32 size);;
  on_stream (stream_write_uint32 flags);;
  on_stream (stream_check_size (len chunk));;
  on_stream (stream_write chunk);;
  rdp_send conf channel_id;;
  ret tt.

(** The loop: [left] is the length of [data]; with a chunk size of 0 it makes no
    progress, otherwise [left] falls in every round. *)
Fixpoint channel_send_loop (fuel : nat) (conf : rdpConf) (channel : rdpChannel)
    (channel_id size flags : Z) (data : list Z) : M (fpRdp N) unit :=
  if 0 <? len data then
    match fuel with
    | O => fail Diverges
    | S fuel' =>
        rdp_send_stream_init;;
        let last := negb (sint32 (vc_chunk_size conf) <? len data) in
        let chunk_size := if last then len data else sint32 (vc_chunk_size conf) in
        let flags := if last then Z.lor flags CHANNEL_FLAG_LAST else flags in
        let flags := if negb (Z.land (c_options channel) CHANNEL_OPTION_SHOW_PROTOCOL =? 0)
                     then Z.lor flags CHANNEL_FLAG_SHOW_PROTOCOL else flags in
        (if chunk_size <? 0 then fail OutOfBounds else ret tt);;
        send_chunk conf channel_id size flags (take (Z.to_nat chunk_size) data);;
        channel_send_loop fuel' conf channel channel_id size 0 (drop (Z.to_nat chunk_size) data)
    end
  else ret tt.

(** The result of [rdp_send] is ignored: a known channel always gives true. *)
Definition freerdp_channel_send (conf : rdpConf) (channel_id : Z) (data : list Z) : M (fpRdp N) bool :=
  match List.find (fun c => c_channel_id c =? channel_id) (channels conf) with
  | None => ret false
  | Some channel =>
      channel_send_loop (length data) conf channel channel_id (len data) CHANNEL_FLAG_FIRST data;;
      ret true
  end.

End send.

(** ** Receiving, [svc_plugin.c] *)

(** [struct rdp_svc_plugin_private]: the message being collected and the queue
    of messages for the plugin's thread. *)
Record svcPrivate : Type := mkPriv {
  data_in : option STREAM;
  data_in_list : list STREAM;
}.

Definition svc_plugin_process_received (pData : list Z) (totalLength dataFlags : Z) : M svcPrivate unit := fun priv =>
  let current := if negb (Z.land dataFlags CHANNEL_FLAG_FIRST =? 0)
                 then Some (stream_new (sint32 totalLength)) else data_in priv in
  match current with
  | None => Fault NullPointer
  | Some s =>
      match (stream_check_size (len pData);; stream_write pData) s with
      | Fault f => Fault f
      | Done (_, s) =>
          if negb (Z.land dataFlags CHANNEL_FLAG_LAST =? 0)
          then Done (tt, mkPriv None (data_in_list priv ++ [set_p s 0]))
          else Done (tt, mkPriv (Some s) (data_in_list priv))
      end
  end.

(** [svc_plugin_process_data_in], the thread not being stopped: the messages
    given to [receive_callback], in order. *)
Definition svc_plugin_process_data_in : M svcPrivate (list STREAM) := fun priv =>
  Done (data_in_list priv, mkPriv (data_in priv) []).

(** ** Chunks *)

Definition chunk_flags (show first last : bool) : Z :=
  (if first then CHANNEL_FLAG_FIRST else 0) + (if last then CHANNEL_FLAG_LAST else 0) +
  (if show then CHANNEL_FLAG_SHOW_PROTOCOL else 0).

(** The chunks of [data] with their flags, [first] telling whether the first of
    them is, [show] whether the channel has the option to show the protocol. *)
Fixpoint chunks (fuel : nat) (max : Z) (show first : bool) (data : list Z) : list (list Z * Z) :=
  match fuel, data with
  | S fuel', _ :: _ =>
      let last := negb (max <? len data) in
      let n := if last then len data else max in
      (take (Z.to_nat n) data, chunk_flags show first last)
        :: chunks fuel' max show false (drop (Z.to_nat n) data)
  | _, _ => []
  end.

Lemma check_size_noop n s : s_p s + n <= s_size s -> stream_check_size n s = Done (tt, s).
Proof.
  intros Hn. unfold stream_check_size. cbn [check_size_loop]. rewrite (proj2 (Z.ltb_ge _ _)) by lia. reflexivity.
Qed.

(** *** Reassembly *)

Fixpoint receive_chunks (total : Z) (cs : list (list Z * Z)) : M svcPrivate unit :=
  match cs with
  | [] => ret tt
  | (chunk, flags) :: cs => svc_plugin_process_received chunk total flags;; receive_chunks total cs
  end.

(** One chunk written behind what is there. *)
Lemma process_chunk total got chunk junk flags priv :
  (if negb (Z.land flags CHANNEL_FLAG_FIRST =? 0)
   then got = [] /\ 0 < total < 2 ^ 31 /\ len junk = total - len chunk
   else data_in priv = Some (behind total got (replicate (length chunk) 0 ++ junk))) ->
  junk = replicate (length junk) 0 -> len got + len chunk <= total ->
  svc_plugin_process_received chunk total flags priv
  = Done (tt, if negb (Z.land flags CHANNEL_FLAG_LAST =? 0)
              then mkPriv None (data_in_list priv ++ [mkSTREAM total 0 (got ++ chunk ++ junk)])
              else mkPriv (Some (behind total (got ++ chunk) junk)) (data_in_list priv)).
Proof.
  intros Hfirst Hj Hfit. pose proof (len_nonneg chunk). unfold svc_plugin_process_received.
  set (current := if negb (Z.land flags CHANNEL_FLAG_FIRST =? 0)
                  then Some (stream_new (sint32 total)) else data_in priv).
  assert (Hcur : current = Some (behind total got (replicate (length chunk) 0 ++ junk))).
  { unfold current. destruct (negb (Z.land flags CHANNEL_FLAG_FIRST =? 0)); [|exact Hfirst].
    destruct Hfirst as (-> & Htot & Hjl).
    replace (sint32 total) with total by (unfold sint32; rewrite Z.mod_small; lia).
    unfold stream_new, behind. rewrite (proj2 (Z.eqb_neq total 0)), (proj2 (Z.ltb_lt 0 total)) by lia.
    rewrite Hj, <- replicate_add. do 2 f_equal. cbn [app].
    f_equal. unfold len in *. lia. }
  rewrite Hcur. unfold bind at 1. rewrite check_size_noop by exact Hfit.
  rewrite (Writes_behind _ chunk tt total got (replicate (length chunk) 0) junk (Writes_write chunk))
    by (rewrite len_replicate; reflexivity).
  destruct (negb (Z.land flags CHANNEL_FLAG_LAST =? 0)); [|reflexivity].
  unfold behind, set_p. cbn [s_size s_data]. rewrite <- app_assoc. reflexivity.
Qed.

Lemma chunk_flag (show first last : bool) :
  negb (Z.land (chunk_flags show first last) CHANNEL_FLAG_FIRST =? 0) = first /\
  negb (Z.land (chunk_flags show first last) CHANNEL_FLAG_LAST =? 0) = last.
Proof. destruct show, first, last; split; reflexivity. Qed.

(** The chunks of what is left, [got] having been received. *)
Lemma receive_rest fuel max show total : forall data got first priv,
  1 <= max -> data <> [] -> (length data <= fuel)%nat -> total = len got + len data -> total < 2 ^ 31 ->
  (if first : bool then got = [] else data_in priv = Some (behind total got (replicate (length data) 0))) ->
  receive_chunks total (chunks fuel max show first data) priv
  = Done (tt, mkPriv None (data_in_list priv ++ [mkSTREAM total 0 (got ++ data)])).
Proof.
  induction fuel as [|fuel IH]; intros data got first priv Hmax Hne Hf Htot Hlt Hin.
  { destruct data; [congruence|cbn in Hf; lia]. }
  destruct data as [|b0 data0]; [congruence|]. set (data := b0 :: data0) in *. cbn [chunks].
  change (match data with _ :: _ => ?a | [] => _ end) with a. cbv zeta.
  set (last := negb (max <? len data)). set (n := if last then len data else max).
  set (chunk := take (Z.to_nat n) data). set (rest := drop (Z.to_nat n) data).
  assert (Hpos : 1 <= len data) by (unfold data; llia).
  assert (Hn : 1 <= n <= len data /\ (last = true -> n = len data) /\ (last = false -> n < len data)).
  { unfold n, last. destruct (Z.ltb_spec max (len data)); cbn; repeat split; intros; try lia; congruence. }
  destruct Hn as (Hn & Hlast1 & Hlast2).
  assert (Hcl : len chunk = n) by (unfold chunk, len in *; rewrite length_take; lia).
  assert (Hrl : len rest = len data - n) by (unfold rest, len in *; rewrite length_drop; lia).
  assert (Hsplit : data = chunk ++ rest) by (symmetry; apply take_drop).
  cbn [receive_chunks]. destruct (chunk_flag show first last) as [Hff Hfl].
  pose proof (len_nonneg got).
  rewrite (bind_Done _ _ _ _ _ (process_chunk total got chunk (replicate (length rest) 0) _ priv
    ltac:(rewrite Hff; destruct first;
          [assert (len got = 0) by (rewrite Hin; reflexivity); split; [exact Hin|];
           split; [lia|rewrite len_replicate; fold (len rest); lia]
          |rewrite <- replicate_add, <- length_app, <- Hsplit; exact Hin])
    ltac:(rewrite length_replicate; reflexivity) ltac:(lia))).
  rewrite Hfl. destruct last.
  - assert (Hr0 : rest = []) by (destruct rest; [reflexivity|exfalso; specialize (Hlast1 eq_refl); llia]).
    fold rest. rewrite Hr0 in *. rewrite Hsplit, app_nil_r. cbn [length replicate].
    rewrite app_nil_r. destruct fuel; reflexivity.
  - fold rest. rewrite (IH rest (got ++ chunk) false); auto.
    + cbn [data_in_list]. rewrite Hsplit, <- app_assoc. reflexivity.
    + intros ->. specialize (Hlast2 eq_refl). rewrite len_nil in Hrl. lia.
    + unfold len in *. lia.
    + rewrite len_app. lia.
Qed.

(** *** Sending *)

Lemma write_behind {A} (w : M STREAM A) bs v size a post : Writes w bs v -> len bs <= len post ->
  exists post', w (behind size a post) = Done (v, behind size (a ++ bs) post') /\
    len post' = len post - len bs.
Proof.
  intros Hw Hl. pose proof (len_nonneg bs).
  destruct (app_split post (len bs)) as (b & c & -> & Hb); [lia|]. exists c.
  rewrite (Writes_behind w bs v size a b c Hw (eq_sym Hb)). split; [reflexivity|]. rewrite len_app. lia.
Qed.

Lemma check_size_behind n size a post : 0 <= n <= 2 ^ 20 -> len a <= size -> size <= 2 ^ 20 ->
  size <= len a + len post ->
  exists size' post', stream_check_size n (behind size a post) = Done (tt, behind size' a post') /\
    len a + n <= size' /\ size' <= len a + len post' /\ size' <= Z.max size (2 * (len a + n)).
Proof.
  intros Hn Ha Hs Hl. pose proof (len_nonneg a).
  destruct (stream_check_size_fits n (behind size a post)) as (s' & E & [Hp Hz] & Hp' & _ & Hfit & Hd & Hmax & _).
  - split; cbn [behind s_p s_size s_data]; [lia|rewrite len_app; lia].
  - lia.
  - cbn [behind s_size]. unfold INT_MAX. lia.
  - cbn [behind s_p s_size s_data] in *.
    assert (Hpre : take (length a) (s_data s') = a).
    { transitivity (take (length a) (take (Z.to_nat size) (s_data s'))).
      - rewrite take_take. f_equal. unfold len in *. lia.
      - rewrite Hd, take_take, Nat.min_l by (unfold len in *; lia). apply take_app_length. }
    exists (s_size s'), (drop (length a) (s_data s')).
    assert (Hs' : s' = behind (s_size s') a (drop (length a) (s_data s'))).
    { unfold behind. rewrite <- Hpre at 2. rewrite take_drop, <- Hp'. destruct s'; reflexivity. }
    rewrite E, Hs' at 1. split; [reflexivity|]. rewrite <- Hp', Hp' in *.
    assert (Hlen : len (s_data s') = len a + len (drop (length a) (s_data s'))).
    { rewrite <- (take_drop (length a) (s_data s')) at 1. rewrite len_app, Hpre. reflexivity. }
    lia.
Qed.

Section channel_send.
Context {N N' U : Type} (l : TRANSPORT_LAYER) `{HLink : LinkLaws N l} `{HLink' : Link N'}
  `{HC : Crypto} `{HL : !CryptoLaws} `{HH : PduHandlers U}.

(** A sender between two packets and the peer that receives them. *)
Record linked (crypt : bool) (r : fpRdp N) (rb : rdpRdp N' U) : Prop := {
  ln_layer : t_layer (fp_transport r) = l;
  ln_fits : stream_fits (stream_of r);
  ln_size : s_size (stream_of r) <= 2 ^ 20;
  ln_pos : s_p (stream_of r) <= 2 ^ 16;
  ln_flags : fp_sec_flags r = 0;
  ln_crypt : fp_do_crypt r = crypt;
  ln_method : fp_encryption_method r <> ENCRYPTION_METHOD_FIPS;
  ln_method' : fp_encryption_method (rdp_out rb) <> ENCRYPTION_METHOD_FIPS;
  ln_paired : crypt = true -> paired (fp_sec r) (fp_sec (rdp_out rb));
  ln_encryption : encryption (rdp_conf rb) = crypt;
  ln_disconnect : disconnect rb = false;
}.

(** The security flags of a packet. *)
Definition packet_flags (r : fpRdp N) : Z :=
  if fp_do_crypt r
  then if fp_do_secure_checksum r then Z.lor SEC_ENCRYPT SEC_SECURE_CHECKSUM else SEC_ENCRYPT
  else 0.

Lemma stream_init_run crypt r rb : linked crypt r rb ->
  exists size h sec post, rdp_send_stream_init r
    = Done (tt, set_sec_flags (packet_flags r) (with_send_stream (behind size (h ++ sec) post) r)) /\
    len h = 15 /\ len sec = sec_bytes_of crypt /\ 2048 <= size <= 2 ^ 20 /\
    size <= 15 + len sec + len post.
Proof.
  intros Hln. destruct Hln as [Hl Hf Hsz Hpos Hfl Hcr Hm _ _ _ _].
  destruct (stream_check_size_fits 2048 (stream_of r) Hf) as (s1 & E & [Hp1 Hz1] & Hp & _ & Hfit & _ & Hmax & _);
    [lia|unfold INT_MAX; lia|].
  destruct (app_split (s_data s1) (15 + sec_bytes_of crypt)) as (hs & post & Hd & Hhs);
    [destruct crypt; cbn [sec_bytes_of]; lia|].
  destruct (app_split hs 15) as (h & sec & -> & Hh); [destruct crypt; cbn [sec_bytes_of] in *; lia|].
  rewrite len_app in Hhs.
  exists (s_size s1), h, sec, post.
  assert (Hinit : on_fp_transport (transport_send_stream_init 2048) r
                  = Done (tt, with_send_stream (behind (s_size s1) [] (h ++ sec ++ post)) r)).
  { unfold on_fp_transport, zoom, transport_send_stream_init, zoom, bind. fold (stream_of r). rewrite E.
    cbn. unfold set_p, behind. rewrite Hd, <- app_assoc. reflexivity. }
  split; [|rewrite Hd, !len_app in Hz1; repeat split; lia].
  unfold rdp_send_stream_init. rewrite (bind_Done _ _ _ _ _ Hinit).
  erewrite bind_Done by (apply on_stream_run; apply (seek_behind (s_size s1) [] h (sec ++ post)); exact (eq_sym Hh)).
  unfold rdp_security_stream_init. unfold bind at 1, rdp_get. cbn [fp_do_crypt with_send_stream]. unfold packet_flags.
  rewrite Hcr. destruct crypt; cbn [sec_bytes_of] in Hhs.
  - erewrite bind_Done by (apply on_stream_run; apply (seek_behind (s_size s1) h sec post); lia).
    cbn [fp_encryption_method with_send_stream]. rewrite (proj2 (Z.eqb_neq _ _) Hm), bind_ret.
    unfold bind at 1, rdp_mod. cbn [fp_do_secure_checksum with_send_stream fp_sec_flags set_sec_flags].
    rewrite Hfl. destruct (fp_do_secure_checksum r); reflexivity.
  - assert (sec = []) as -> by (destruct sec; [reflexivity|llia]).
    cbn [fp_sec_flags with_send_stream]. rewrite Hfl. cbn [negb Z.eqb]. unfold ret. rewrite app_nil_r.
    do 2 f_equal. destruct r. cbn in *. rewrite Hfl. reflexivity.
Qed.

Lemma channel_process_run ch size flags chunk s (r : rdpRdp N' U) :
  holds s (le32 size ++ le32 flags ++ chunk) -> stream_get_left s = 8 + len chunk ->
  0 <= size < 2 ^ 32 -> 0 <= flags < 2 ^ 32 ->
  freerdp_channel_process ch (s, r)
  = Done (tt, (adv 8 s, with_update (ReceiveChannelData ch chunk flags size (r_update (rdp_rx r))) r)).
Proof.
  intros Hs Hleft Hsz Hfl. destruct (holds_app _ _ _ Hs) as [H1 Hs1]. destruct (holds_app _ _ _ Hs1) as [H2 H3].
  rewrite adv_adv in H3. change (len (le32 size)) with 4 in *. change (len (le32 flags)) with 4 in *.
  change (4 + 4) with 8 in H3. unfold freerdp_channel_process.
  rewrite (bind_Done _ _ _ _ _ (pkt_run _ _ r _ _ (Reads_le32 size Hsz _ H1))).
  rewrite (bind_Done _ _ _ _ _ (pkt_run _ _ r _ _ (Reads_le32 flags Hfl _ H2))).
  rewrite adv_adv. change (len (le32 _)) with 4. change (4 + 4) with 8.
  unfold bind at 1. rewrite (pkt_run left_bytes (adv 8 s) r _ _ eq_refl).
  assert (Hl8 : stream_get_left (adv 8 s) = len chunk)
    by (unfold stream_get_left in *; cbn [adv set_p s_size s_p]; lia).
  assert (Hpeek : peek_bytes (stream_get_left (adv 8 s)) (adv 8 s) = Done (chunk, adv 8 s)).
  { unfold peek_bytes. rewrite Hl8, (Reads_read chunk (len chunk) eq_refl _ H3). reflexivity. }
  rewrite (bind_Done _ _ _ _ _ (pkt_run _ _ r _ _ Hpeek)). reflexivity.
Qed.

(** One chunk from the sender to the peer's channel callback. *)
Lemma send_chunk_run conf ch size flags chunk crypt r rb :
  linked crypt r rb -> reliable (N := N) l -> l <> TRANSPORT_LAYER_TSG -> len chunk <= 16000 ->
  1001 <= mcs_user_id conf < 65536 -> 0 <= ch < 65536 -> ch <> MCS_GLOBAL_CHANNEL_ID ->
  0 <= size < 2 ^ 32 -> 0 <= flags < 2 ^ 32 ->
  exists r' pdu rb',
    (rdp_send_stream_init;; send_chunk conf ch size flags chunk) r = Done (tt, r') /\
    sent r' = sent r ++ pdu /\ pdu_length l pdu = Done (len pdu) /\
    (forall fuel, exists s', rdp_recv_tpkt_pdu fuel (mkSTREAM (len pdu) 0 pdu, rb)
                  = Done (true, (s', rb'))) /\
    r_update (rdp_rx rb') = ReceiveChannelData ch chunk flags size (r_update (rdp_rx rb)) /\
    linked crypt r' rb'.
Proof.
  intros Hln Hrel Htsg Hcl Hu Hc Hcg Hsize Hflags. pose proof (len_nonneg chunk).
  destruct (stream_init_run crypt r rb Hln) as (sz & h & sec & post & Einit & Hh & Hsec & Hsz & Hpost).
  assert (Hsb : 0 <= len sec <= 12) by (rewrite Hsec; destruct crypt; cbn; lia).
  rewrite (bind_Done _ _ _ _ _ Einit). unfold send_chunk.
  assert (Hhs : len (h ++ sec) = 15 + len sec) by (rewrite len_app; lia).
  destruct (write_behind _ _ tt sz (h ++ sec) post (Writes_uint32 size)) as (post1 & E1 & Hp1);
    [change (len (le32 size)) with 4; lia|]. change (len (le32 size)) with 4 in Hp1.
  destruct (write_behind _ _ tt sz ((h ++ sec) ++ le32 size) post1 (Writes_uint32 flags)) as (post2 & E2 & Hp2);
    [change (len (le32 flags)) with 4; lia|]. change (len (le32 flags)) with 4 in Hp2.
  set (pre := ((h ++ sec) ++ le32 size) ++ le32 flags) in *.
  assert (Hpre : len pre = 23 + len sec)
    by (unfold pre; rewrite !(len_app _ (le32 _)); change (len (le32 _)) with 4; lia).
  destruct (check_size_behind (len chunk) sz pre post2) as (sz' & post3 & E3 & Hf1 & Hf2 & Hf3); [lia..|].
  destruct (write_behind _ _ tt sz' pre post3 (Writes_write chunk)) as (post4 & E4 & Hp4); [lia|].
  do 4 (erewrite bind_Done by (apply on_stream_run; eassumption)).
  match goal with |- context [bind (rdp_send conf ch) _ ?x] => set (r1 := x) end.
  set (payload := le32 size ++ le32 flags ++ chunk).
  assert (Hpl : len payload = 8 + len chunk)
    by (unfold payload; rewrite !len_app; change (len (le32 _)) with 4; lia).
  assert (Hag : agreed crypt r1 rb).
  { destruct Hln as [_ _ _ _ _ Hcr Hm Hm' Hpair He Hd]. unfold r1. destruct crypt; constructor; cbn; auto;
      unfold packet_flags; rewrite Hcr; try reflexivity; destruct (fp_do_secure_checksum r);
      try reflexivity; lens_lia. }
  assert (Hs1 : stream_of r1 = mkSTREAM sz' (15 + len sec + len (@nil Z) + len payload) (h ++ sec ++ [] ++ payload ++ post4)).
  { change (stream_of r1) with (behind sz' (pre ++ chunk) post4). unfold behind. rewrite len_app, Hpre, Hpl, len_nil.
    f_equal; [lia|]. unfold pre, payload. cbn [app]. rewrite <- !app_assoc. reflexivity. }
  destruct (framed_delivery l conf ch (fun _ => ret tt) [] crypt r1 rb sz' h sec [] payload post4)
    as (ok & r' & k & pdu & s' & rb' & a' & E & Hout & Hok & Hpdu & Hpn & Hrecv & Hh' & Hle & Hrb & Hp); auto;
    [rewrite len_nil; lia|apply (ln_layer _ _ _ Hln)|apply Writes_ret|].
  destruct ok; [|destruct Hok as [_ Hno]; contradiction]. destruct Hok as [Hk Has].
  rewrite len_nil in Hpn. cbn [app] in Hh', Hle.
  exists r', pdu, (with_update (ReceiveChannelData ch chunk flags size (r_update (rdp_rx rb'))) rb').
  split; [unfold rdp_send; rewrite (bind_Done _ _ _ _ _ E); reflexivity|].
  split; [rewrite Hout, take_ge by exact Hk; reflexivity|]. split; [exact Hpdu|]. split.
  { intros fuel. eexists. unfold rdp_recv_tpkt_pdu. rewrite (bind_Done _ _ _ _ _ Hrecv).
    rewrite (proj2 (Z.eqb_neq _ _) Hcg). cbn [negb].
    rewrite (bind_Done _ _ _ _ _ (channel_process_run ch size flags chunk s' rb' Hh'
               ltac:(rewrite Hle; exact Hpl) Hsize Hflags)). reflexivity. }
  assert (Hrx : rdp_rx rb' = rdp_rx rb) by (rewrite Hrb; reflexivity).
  split; [cbn; rewrite Hrx; reflexivity|].
  destruct Hln as [Hl Hfits Hs20 Hp16 Hfl0 Hcr Hm Hm' Hpair He Hd]. destruct Has as [Hl' Hst' Hsec' Hcfg Hfl'].
  unfold fp_cfg in Hcfg. injection Hcfg as Hcr' _ Hm1.
  split; cbn [with_update with_rx rdp_out rdp_conf disconnect]; auto.
  - rewrite Hst'. split; cbn [behind s_p s_size s_data]; [lia|rewrite len_app; lia].
  - rewrite Hst'. cbn [behind s_size]. lia.
  - rewrite Hst'. cbn [behind s_p]. lia.
  - rewrite Hcr'. exact Hcr.
  - rewrite Hm1. exact Hm.
  - rewrite Hrb. exact Hm'.
  - intros ->. rewrite Hsec'. exact (st_paired _ _ _ _ Hp).
  - rewrite Hrb. exact He.
  - rewrite Hrb. exact Hd.
Qed.

(** What the peer's callback has made of the chunks. *)
Definition delivered_chunks (ch size : Z) (cs : list (list Z * Z)) (u : U) : U :=
  fold_left (fun u c => ReceiveChannelData ch (fst c) (snd c) size u) cs u.

Lemma channel_loop_run conf channel ch size show crypt fuel : forall data first r rb,
  linked crypt r rb -> reliable (N := N) l -> l <> TRANSPORT_LAYER_TSG -> 1 <= vc_chunk_size conf <= 16000 ->
  1001 <= mcs_user_id conf < 65536 -> 0 <= ch < 65536 -> ch <> MCS_GLOBAL_CHANNEL_ID ->
  0 <= size < 2 ^ 32 -> negb (Z.land (c_options channel) CHANNEL_OPTION_SHOW_PROTOCOL =? 0) = show ->
  (length data <= fuel)%nat ->
  exists r' pdus rb',
    channel_send_loop fuel conf channel ch size (if first : bool then CHANNEL_FLAG_FIRST else 0) data r
    = Done (tt, r') /\
    sent r' = sent r ++ concat pdus /\ Forall (fun pdu => pdu_length l pdu = Done (len pdu)) pdus /\
    recv_packets pdus rb = Done rb' /\
    r_update (rdp_rx rb')
    = delivered_chunks ch size (chunks fuel (vc_chunk_size conf) show first data) (r_update (rdp_rx rb)).
Proof.
  induction fuel as [|fuel IH]; intros data first r rb Hln Hrel Htsg Hvc Hu Hc Hcg Hsz Hshow Hf.
  { destruct data; [|cbn in Hf; lia]. exists r, [], rb. cbn. rewrite app_nil_r. auto. }
  destruct data as [|b0 data0].
  { exists r, [], rb. cbn. rewrite app_nil_r. auto. }
  set (data := b0 :: data0) in *. assert (Hpos : 1 <= len data) by (unfold data; llia).
  cbn [channel_send_loop chunks]. change (match data with _ :: _ => ?a | [] => _ end) with a. cbv zeta.
  rewrite (proj2 (Z.ltb_lt 0 _)) by lia.
  replace (sint32 (vc_chunk_size conf)) with (vc_chunk_size conf) by (unfold sint32; rewrite Z.mod_small; lia).
  set (last := negb (vc_chunk_size conf <? len data)). set (n := if last then len data else vc_chunk_size conf).
  set (chunk := take (Z.to_nat n) data). set (rest := drop (Z.to_nat n) data). rewrite Hshow.
  assert (Hn : 1 <= n <= len data /\ n <= 16000).
  { unfold n, last. destruct (Z.ltb_spec (vc_chunk_size conf) (len data)); cbn; lia. }
  replace (if show then _ else _) with (chunk_flags show first last)
    by (destruct show, first, last; reflexivity).
  rewrite (proj2 (Z.ltb_ge n 0)) by lia.
  destruct (send_chunk_run conf ch size (chunk_flags show first last) chunk crypt r rb)
    as (r1 & pdu & rb1 & E & Hout & Hpl & Hrecv & Hupd & Hln1); auto.
  { unfold chunk, len. rewrite length_take. lia. }
  { destruct show, first, last; lens_lia. }
  destruct (IH rest false r1 rb1) as (r' & pdus & rb' & E' & Hout' & Hpl' & Hrecv' & Hupd'); auto.
  { unfold rest. rewrite length_drop. unfold len in *. lia. }
  destruct (Hrecv 8%nat) as (s' & Hrecv8).
  exists r', (pdu :: pdus), rb'. split.
  { apply bind_inv in E as ([] & r0 & E0 & E1).
    rewrite (bind_Done _ _ _ _ _ E0), bind_ret, (bind_Done _ _ _ _ _ E1). exact E'. }
  split; [cbn [concat]; rewrite Hout', Hout, app_assoc; reflexivity|].
  split; [constructor; assumption|]. split; [cbn [recv_packets]; rewrite Hrecv8; exact Hrecv'|].
  unfold delivered_chunks in *. cbn [fold_left fst snd]. rewrite Hupd', Hupd. reflexivity.
Qed.

End channel_send.

(** Two ends between two packets, each of which can decrypt what the other sends
    next. *)
Record duplex {N N' U U'} (l l' : TRANSPORT_LAYER) `{LinkLaws N l} `{LinkLaws N' l'} `{Crypto} (crypt : bool)
    (a : rdpRdp N U) (b : rdpRdp N' U') : Prop := {
  dx_to : linked l crypt (rdp_out a) b;
  dx_from : linked l' crypt (rdp_out b) a;
}.

(** The chunks are the data, cut. *)
Lemma chunks_concat fuel max show : forall first data, 1 <= max -> (length data <= fuel)%nat ->
  concat (map fst (chunks fuel max show first data)) = data /\
  Forall (fun c => 1 <= len (fst c) <= max) (chunks fuel max show first data).
Proof.
  induction fuel as [|fuel IH]; intros first data Hmax Hf.
  { destruct data; [|cbn in Hf; lia]. split; [reflexivity|constructor]. }
  destruct data as [|b0 data0]; [split; [reflexivity|constructor]|].
  set (data := b0 :: data0) in *. assert (Hpos : 1 <= len data) by (unfold data; llia).
  cbn [chunks]. change (match data with _ :: _ => ?a | [] => _ end) with a. cbv zeta. cbn [map concat fst].
  set (n := if negb (max <? len data) then len data else max).
  assert (Hn : 1 <= n <= len data /\ n <= max).
  { unfold n. destruct (Z.ltb_spec max (len data)); cbn; lia. }
  destruct (IH false (drop (Z.to_nat n) data) Hmax) as [Hc Hl];
    [rewrite length_drop; unfold len in *; lia|].
  rewrite Hc, take_drop. split; [reflexivity|]. constructor; [|exact Hl]. cbn [fst].
  unfold len in *. rewrite length_take. lia.
Qed.

(** ** Claims *)

(** C8. Data written to a static channel, over a link that does not fail, in the
    clear or encrypted: [freerdp_channel_send] cuts it into chunks of at most
    the chunk size and sends one packet for each, in order; a peer that receives
    the packets calls its channel callback with exactly these chunks; and a
    plugin that collects them queues exactly one message, the data sent. *)
Theorem channel_roundtrip {N N' U} l `{LinkLaws N l} `{Link N'} `{Crypto} `{!CryptoLaws} `{PduHandlers U}
    conf ch crypt (r : fpRdp N) (rb : rdpRdp N' U) data priv :
  linked l crypt r rb -> reliable (N := N) l -> l <> TRANSPORT_LAYER_TSG ->
  1 <= vc_chunk_size conf <= 16000 -> 1001 <= mcs_user_id conf < 65536 ->
  0 <= ch < 65536 -> ch <> MCS_GLOBAL_CHANNEL_ID -> In ch (map c_channel_id (channels conf)) ->
  1 <= len data < 2 ^ 31 ->
  exists r' pdus rb' cs,
    freerdp_channel_send conf ch data r = Done (true, r') /\ sent r' = sent r ++ concat pdus /\
    Forall (fun pdu => pdu_length l pdu = Done (len pdu)) pdus /\
    recv_packets pdus rb = Done rb' /\
    r_update (rdp_rx rb') = delivered_chunks ch (len data) cs (r_update (rdp_rx rb)) /\
    concat (map fst cs) = data /\ Forall (fun c => 1 <= len (fst c) <= vc_chunk_size conf) cs /\
    receive_chunks (len data) cs priv
    = Done (tt, mkPriv None (data_in_list priv ++ [mkSTREAM (len data) 0 data])).
Proof.
  intros Hln Hrel Htsg Hvc Hu Hc Hcg Hin Hlen. unfold freerdp_channel_send.
  destruct (List.find (fun c => c_channel_id c =? ch) (channels conf)) as [channel|] eqn:Hfind.
  2:{ exfalso. apply in_map_iff in Hin as (c & Hc1 & Hc2).
      pose proof (find_none _ _ Hfind c Hc2) as Hne. cbn in Hne. apply Z.eqb_neq in Hne. congruence. }
  set (show := negb (Z.land (c_options channel) CHANNEL_OPTION_SHOW_PROTOCOL =? 0)).
  destruct (channel_loop_run l conf channel ch (len data) show crypt (length data) data true r rb)
    as (r' & pdus & rb' & E & Hout & Hpl & Hrecv & Hupd); auto; [lia|].
  eexists r', pdus, rb', _. rewrite (bind_Done _ _ _ _ _ E). split; [reflexivity|].
  split; [exact Hout|]. split; [exact Hpl|]. split; [exact Hrecv|]. split; [exact Hupd|].
  destruct (chunks_concat (length data) (vc_chunk_size conf) show true data) as [Hcat Hall]; [lia..|].
  split; [exact Hcat|]. split; [exact Hall|].
  apply (receive_rest (length data) (vc_chunk_size conf) show (len data) data [] true); auto; try lia.
  intros ->. rewrite len_nil in Hlen. lia.
Qed.

(** A link that accepts everything. *)
#[export] Instance SinkLink : Link (list Z) := {
  link_read := fun _ _ net => (-1, [], net);
  link_write := fun _ bs net => (len bs, net ++ bs);
  link_skip := fun _ net => (false, net);
  link_stall := fun _ => 0%nat;
  link_incoming := fun _ => [];
  link_outgoing := fun net => net;
}.

#[export] Instance SinkLinkLaws : LinkLaws (list Z) TRANSPORT_LAYER_TCP.
Proof.
  split; cbn.
  - discriminate.
  - intros n net st bs net' _ [= <- <- <-]. lia.
  - intros n net st bs net' _ [= <- <- <-]. auto.
  - intros bs net st net' Hne [= <- <-] Hst. unfold len. rewrite Nat2Z.id, take_ge by lia.
    destruct bs; [congruence|]. cbn. repeat split; lia.
  - intros bs net st net' [= <- <-] Hst. pose proof (len_nonneg bs). lia.
Qed.

Definition sink_rdp : fpRdp (list Z) :=
  mkFpRdp (mkTransport TRANSPORT_LAYER_TCP true 0 (stream_new 64) (stream_new 64) (stream_new 64) (stream_new 64) [] true false)
    (toy_end 4095) true true 0 ENCRYPTION_METHOD_128BIT.
Definition sink_peer : rdpRdp (list Z) nat :=
  mkRdp sink_rdp (toy_conf true true) CONNECTION_STATE_ACTIVE false 0 0 (mkRecv fastpath_new 0%nat (mppc_new [])).
(** Chunks of four bytes. *)
Definition sink_conf : rdpConf := mkConf false true 1007 0x103EA 0 [mkChannel 1004 0] 4 0.

Lemma channel_roundtrip_witness :
  exists r' pdus rb' cs,
    freerdp_channel_send sink_conf 1004 [1; 2; 3; 4; 5; 6; 7; 8; 9] sink_rdp = Done (true, r') /\
    sent r' = sent sink_rdp ++ concat pdus /\
    Forall (fun pdu => pdu_length TRANSPORT_LAYER_TCP pdu = Done (len pdu)) pdus /\
    recv_packets pdus sink_peer = Done rb' /\
    r_update (rdp_rx rb') = delivered_chunks 1004 9 cs (r_update (rdp_rx sink_peer)) /\
    concat (map fst cs) = [1; 2; 3; 4; 5; 6; 7; 8; 9] /\ Forall (fun c => 1 <= len (fst c) <= 4) cs /\
    receive_chunks 9 cs (mkPriv None [])
    = Done (tt, mkPriv None ([] ++ [mkSTREAM 9 0 [1; 2; 3; 4; 5; 6; 7; 8; 9] ])).
Proof.
  apply (channel_roundtrip TRANSPORT_LAYER_TCP sink_conf 1004 true sink_rdp sink_peer
           [1; 2; 3; 4; 5; 6; 7; 8; 9] (mkPriv None [])); try discriminate; try (cbn; lia).
  - split; try reflexivity; try discriminate.
    + split; vm_compute; try split; discriminate.
    + intros _. apply toy_paired. lia.
  - intros bs net st net' [= <- <-]. apply len_nonneg.
  - lens_lia.
Defined.
