(* ===== verification/Bulk.v ===== *)
(** Compressed updates: the client's fast path on top of the bulk decompressor.
    A sequence of compressed fast-path PDUs is delivered to the update handlers
    as the bytes that the peer's encoder stood for. *)

From S2P Require Import Prelude.
From S2P Require Import Stream.
From S2P Require Import Settings.
From S2P Require Import Transport.
From S2P Require Import Security.
From S2P Require Import Mppc.
From S2P Require Import Fastpath.
From S2P Require Import Rdp.
From S2P Require Import FastpathDelivery.

(** An update in a single fragment, compressed: update header, compression
    flags, size and compressed data. *)
Definition compressed_body (code : Z) (p : list Z * Z) : list Z :=
  [code + 0x80] ++ [p.2] ++ le16 (len p.1) ++ p.1.

Lemma compressed_header code : 0 <= code < 16 ->
  Reads fastpath_read_update_header [code + 0x80] (code, FASTPATH_FRAGMENT_SINGLE, FASTPATH_OUTPUT_COMPRESSION_USED).
Proof.
  intros Hc. unfold fastpath_read_update_header. eapply Reads_eq; [apply Reads_uint8_bind, Reads_ret|reflexivity|].
  rewrite !(land_mask _ 4 0x0F), !(land_mask _ 2 0x03), !Z.shiftr_div_pow2 by lia.
  change (2 ^ 4) with 16. change (2 ^ 2) with 4. change (2 ^ 6) with 64.
  unfold FASTPATH_FRAGMENT_SINGLE, FASTPATH_OUTPUT_COMPRESSION_USED. repeat f_equal; dlia.
Qed.

Lemma peek_run s bs : holds s bs -> peek_bytes (len bs) s = Done (bs, s).
Proof. intros Hs. unfold peek_bytes. rewrite (Reads_read bs (len bs) eq_refl s Hs). reflexivity. Qed.

(** One compressed update. *)
Lemma recv_compressed ts code p r s : encodes_packet ts p -> 0 <= code < 16 -> len p.1 < 65536 -> sizes ts < 65536 ->
  mppc_ok (r_mppc r) -> history_ptr (r_mppc r) + sizes ts <= RDP6_HISTORY_BUF_SIZE -> holds s (compressed_body code p) ->
  exists out m', recv_data r s
    = Done (mkRecv (r_fastpath r) (r_update r ++ [(code, len out, out)]) m', adv (len (compressed_body code p)) s) /\
    decompress_rdp p.1 p.2 (r_mppc r) = Done ((true, history_ptr (r_mppc r), len out), m') /\
    slice (history_ptr (r_mppc r)) (len out) m' = Done (out, m').
Proof.
  intros Hp Hc Hl Hsz Hm Hs Hh. pose proof (len_nonneg p.1).
  destruct (decompress_packet ts p (r_mppc r) Hp Hm Hs) as (out & m' & E & Hm' & Hlo & Hptr & Hsl & _).
  exists out, m'. split; [|auto]. unfold compressed_body in Hh.
  destruct (holds_app _ _ _ Hh) as [H1 Hh1]. destruct (holds_app _ _ _ Hh1) as [H2 Hh2].
  destruct (holds_app _ _ _ Hh2) as [H3 H4]. unfold recv_data, fastpath_recv_update_data.
  rewrite (bind_Done _ _ _ _ _ (compressed_header code Hc s H1)).
  change (FASTPATH_OUTPUT_COMPRESSION_USED =? FASTPATH_OUTPUT_COMPRESSION_USED) with true. cbv iota.
  rewrite (bind_Done _ _ _ _ _ (Reads_uint8 p.2 _ H2)), (bind_Done _ _ _ _ _ (Reads_le16 (len p.1) ltac:(lia) _ H3)).
  unfold bind at 1, get. unfold fastpath_decompress at 1. rewrite (ep_compressed _ _ Hp). cbn [Z.eqb PACKET_COMPRESSED negb].
  erewrite bind_Done; [|rewrite (bind_Done _ _ _ _ _ (peek_run _ _ H4)), E; reflexivity].
  change (FASTPATH_FRAGMENT_SINGLE =? FASTPATH_FRAGMENT_SINGLE) with true. cbv iota.
  unfold fastpath_deliver, log_update, history_stream. cbn [bind ret s_p s_data].
  unfold slice in Hsl. injection Hsl as Hsl.
  unfold bind, ret, stream_set_pos. unfold uint16. rewrite Z.mod_small by (rewrite Hlo; split; [|lia]; rewrite <- Hlo; apply len_nonneg).
  change (drop (Z.to_nat 0) ?l) with l. rewrite Hsl. do 2 f_equal. unfold compressed_body. rewrite !len_app.
  unfold adv, set_p, stream_get_pos. cbn [s_size s_p s_data]. f_equal. change (len (le16 _)) with 2. change (len [_]) with 1. lia.
Qed.

(** The bodies of a sequence of PDUs, with the code of each update. *)
Definition compressed_bodies (ups : list (Z * (list Z * Z))) : list (list Z) :=
  map (fun u => compressed_body u.1 u.2) ups.

Definition small (crypt : bool) (ts : list token) (u : Z * (list Z * Z)) : Prop :=
  0 <= u.1 < 16 /\ len u.2.1 <= 0x3FF8 - sec_size crypt /\ sizes ts < 65536.

Lemma compressed_body_len code p : len (compressed_body code p) = 4 + len p.1.
Proof. unfold compressed_body. rewrite !len_app. change (len (le16 _)) with 2. change (len [_]) with 1. lia. Qed.

Section delivery.
Context {N : Type} `{HLink : Link N} `{HC : Crypto} `{HL : !CryptoLaws}.
Implicit Types r : rdpRdp N (list (Z * Z * list Z)).

Definition mppc_of r : rdp_mppc := r_mppc (rdp_rx r).

Lemma recv_compressed_pdu rounds crypt ts u pdu b b' r : carries crypt (compressed_body u.1 u.2) pdu b b' -> expects crypt b r ->
  encodes_packet ts u.2 -> small crypt ts u -> mppc_ok (mppc_of r) ->
  history_ptr (mppc_of r) + sizes ts <= RDP6_HISTORY_BUF_SIZE ->
  exists out s' r', rdp_recv_pdu rounds (mkSTREAM (len pdu) 0 pdu, r) = Done (true, (s', r')) /\ expects crypt b' r' /\
    log_of r' = log_of r ++ [(u.1, len out, out)] /\
    decompress_rdp u.2.1 u.2.2 (mppc_of r) = Done ((true, history_ptr (mppc_of r), len out), mppc_of r') /\
    slice (history_ptr (mppc_of r)) (len out) (mppc_of r') = Done (out, mppc_of r') /\
    mppc_ok (mppc_of r') /\ history_ptr (mppc_of r') = history_ptr (mppc_of r) + sizes ts.
Proof.
  intros Hcar [Hb Hf] Hp (Hc & Hl & Hsz) Hm Hs. pose proof (len_nonneg u.2.1). rewrite <- Hb in Hcar.
  destruct (carries_split _ _ _ _ _ Hcar) as (_ & _ & _ & Hpl). rewrite compressed_body_len in Hpl.
  destruct (decompress_packet ts u.2 (mppc_of r) Hp Hm Hs) as (out & m' & E & Hok & Hlo & Hptr & Hsl & _). exists out.
  destruct (recv_carried rounds crypt _ pdu b' r
    (fun rx => r_update rx = log_of r ++ [(u.1, len out, out)] /\ r_mppc rx = m') Hcar Hf) as (s' & rx & Er & Hu & Hm').
  - rewrite compressed_body_len. lia.
  - lia.
  - intros s Hh. change (fastpath_recv_update_data fastpath_recv_update) with recv_data. cbn [BeginPaint EndPaint LogHandlers].
    destruct (recv_compressed ts u.1 u.2 (mkRecv (flagged crypt (r_fastpath (rdp_rx r))) (r_update (rdp_rx r)) (r_mppc (rdp_rx r))) s)
      as (out' & m2 & E2 & Ed & Hsl'); auto; [unfold sec_size in Hl; destruct crypt; lia|]. cbn [r_mppc r_update r_fastpath] in *.
    unfold mppc_of in *. rewrite E in Ed. injection Ed as El <-. rewrite <- El, Hsl in Hsl'. injection Hsl' as <-.
    eexists. split; [exact E2|]. auto.
  - exists s', (with_rx rx (with_sec b' r)). unfold log_of, mppc_of in *. cbn [with_rx rdp_rx]. rewrite Hm', <- Hlo.
    split; [exact Er|]. split; [split; [reflexivity|exact Hf]|]. repeat (split; [assumption|]). assumption.
Qed.

(** The PDUs one after the other, against the decompressor on its own. *)
Lemma recv_compressed_pdus rounds crypt tss ups pdus b b' : forall r outs m',
  Forall2 (fun ts u => encodes_packet ts u.2 /\ small crypt ts u) tss ups ->
  carried crypt (compressed_bodies ups) pdus b b' -> expects crypt b r ->
  mppc_ok (mppc_of r) -> history_ptr (mppc_of r) + total tss <= RDP6_HISTORY_BUF_SIZE ->
  decompress_all (map snd ups) (mppc_of r) = Done (outs, m') ->
  exists r', recv_pdus rounds pdus r = Done (true, r') /\ mppc_of r' = m' /\ expects crypt b' r' /\
    log_of r' = log_of r ++ zip_with (fun u out => (u.1, len out, out)) ups outs.
Proof.
  intros r outs m' Hups. revert pdus b r outs. induction Hups as [|ts u tss ups [Hp Hsm] Hups IH]; intros pdus b r outs Hcs He Hm Hs E.
  - inversion Hcs; subst. injection E as <- <-. exists r. rewrite app_nil_r. auto.
  - cbn [total map compressed_bodies] in *. inversion Hcs as [|body pdu ? pdus' ? b1 ? Hcar Hcs']; subst.
    assert (Hps : Forall2 encodes_packet tss (map snd ups)).
    { clear - Hups. induction Hups as [|? ? ? ? [Hu _] _ IH]; constructor; assumption. }
    pose proof (total_nonneg _ _ Hps).
    destruct (recv_compressed_pdu rounds crypt ts u pdu _ b1 r Hcar He Hp Hsm Hm) as (out & s' & r1 & Er & He1 & Hu & Ed & Hsl & Hok & Hptr); [lia|].
    destruct u as [code [cbuf ctype]]. cbn [decompress_all fst snd recv_pdus] in *.
    rewrite (bind_Done _ _ _ _ _ Ed), (bind_Done _ _ _ _ _ Hsl) in E. run_inv E. injection E as <- <-.
    destruct (IH pdus' b1 r1 _ Hcs' He1 Hok ltac:(lia) E0) as (r' & Er' & <- & He' & Hu'). exists r'. rewrite Er.
    split; [exact Er'|]. split; [reflexivity|]. split; [exact He'|]. rewrite Hu', Hu, <- app_assoc. reflexivity.
Qed.

End delivery.

(** C12. Compressed fast-path updates of the 64K type, PDU after PDU, in the clear
    or encrypted with RC4, none of which restarts the history (neither AT_FRONT
    nor FLUSHED is set) and which together fit into what is left of the 64 KiB
    history: the client's [rdp_recv_pdu] decompresses each of them over the
    common history and hands the handlers one update per PDU, with the code sent
    and with exactly the bytes that the peer's tokens, read as one stream over
    the history, stand for. *)
Theorem compressed_updates_delivered {N} `{Link N} `{Crypto} `{!CryptoLaws} rounds crypt tss ups pdus b'
    (client : rdpRdp N (list (Z * Z * list Z))) :
  Forall2 (fun ts u => encodes_packet ts u.2 /\ small crypt ts u) tss ups ->
  carried crypt (compressed_bodies ups) pdus (fp_sec (rdp_out client)) b' ->
  (crypt = true -> fp_encryption_method (rdp_out client) <> ENCRYPTION_METHOD_FIPS) ->
  mppc_ok (mppc_of client) -> history_ptr (mppc_of client) + total tss <= RDP6_HISTORY_BUF_SIZE ->
  exists outs client', recv_pdus rounds pdus client = Done (true, client') /\ mppc_ok (mppc_of client') /\
    log_of client' = log_of client ++ zip_with (fun u out => (u.1, len out, out)) ups outs /\
    map (len (A := Z)) outs = map sizes tss /\
    expand (concat tss) (window (history_buf (mppc_of client)) (history_ptr (mppc_of client)))
    = window (history_buf (mppc_of client)) (history_ptr (mppc_of client)) ++ concat outs.
Proof.
  intros Hups Hcs Hf Hm Hs.
  assert (Hps : Forall2 encodes_packet tss (map snd ups)).
  { clear - Hups. induction Hups as [|ts u tss ups [Hu _] _ IH]; constructor; assumption. }
  destruct (decompress_session tss (map snd ups) (mppc_of client) Hps Hm Hs) as (outs & m' & E & Hm' & Hl & He).
  destruct (recv_compressed_pdus rounds crypt tss ups pdus _ b' client outs m' Hups Hcs (conj eq_refl Hf) Hm Hs E)
    as (client' & Er & <- & _ & Hu).
  exists outs, client'. auto.
Qed.

(** Two PDUs, the second of which repeats bytes of the first. *)
Definition bulk_client : rdpRdp rdpTcp (list (Z * Z * list Z)) :=
  mkRdp (toy_out 0 (stream_new 64)) (toy_conf false false) CONNECTION_STATE_ACTIVE false 0 0 (mkRecv fastpath_new [] mppc0).

Lemma compressed_updates_delivered_witness :
  let ups := [(0, (packet1, 0x21)); (3, (packet2, 0x21))] in
  let pdus := map (fun body => output_header false (3 + len body) ++ body) (compressed_bodies ups) in
  exists outs client', recv_pdus 8 pdus bulk_client = Done (true, client') /\ mppc_ok (mppc_of client') /\
    log_of client' = [] ++ zip_with (fun u out => (u.1, len out, out)) ups outs /\
    map (len (A := Z)) outs = [8; 4] /\
    expand (concat [ts1; ts2]) (window (history_buf mppc0) (history_ptr mppc0))
    = window (history_buf mppc0) (history_ptr mppc0) ++ concat outs.
Proof.
  intros ups pdus. refine (compressed_updates_delivered 8 false [ts1; ts2] ups pdus (fp_sec (rdp_out bulk_client)) bulk_client _ _ _ mppc0_ok _);
    [| |discriminate|discriminate].
  - repeat constructor; try (lia || reflexivity || discriminate).
    + exists [false]. split; reflexivity.
    + exists [false; false; false]. split; reflexivity.
  - unfold pdus. repeat (econstructor; [split; reflexivity|]). constructor.
Defined.
