(* ===== verification/Poll.v ===== *)
(** The polling receive path: [transport_check_fds] of
    [libfreerdp-core/transport.c], which is called whenever the socket is
    readable, collects what has arrived and calls back once a PDU is complete,
    and [rdp_recv_callback] with [rdp_check_fds] of [libfreerdp-core/rdp.c],
    which drive the RDP layer from it. *)

From S2P Require Import Prelude.
From S2P Require Import Stream.
From S2P Require Import Per.
From S2P Require Import X224.
From S2P Require Import Transport.
From S2P Require Import Mcs.
From S2P Require Import Security.
From S2P Require Import Input.
From S2P Require Import Fastpath.
From S2P Require Import Rdp.

(** The callback reaches the transport through its [extra] argument, the module
    that owns it: [W] is that module. *)
Class Owner (W N : Type) : Type := {
  transport_of : W -> rdpTransport N;
  put_transport : rdpTransport N -> W -> W;
  transport_put : forall t w, transport_of (put_transport t w) = t;
  put_put : forall t t' w, put_transport t (put_transport t' w) = put_transport t w;
  put_transport_of : forall w, put_transport (transport_of w) w = w;
}.

(** [get_rdp_pdu_length] *)
Definition get_rdp_pdu_length (data : list Z) : outcome Z :=
  match data with
  | d0 :: d1 :: d2 :: d3 :: _ =>
      if d0 =? 0x03 then Done (Z.lor (Z.shiftl d2 8) d3)
      else if negb (Z.land d1 0x80 =? 0) then Done (Z.lor (Z.shiftl (Z.land d1 0x7f) 8) d2)
      else Done d1
  | _ => Fault OutOfBounds
  end.

Section polling.
Context {W N : Type} `{Link N} `{Owner W N}.
(** [transport->recv_callback], with the stream it is given. *)
Context (recv_callback : M (STREAM * W) bool).

Definition on_transport {A} (c : M (rdpTransport N) A) : M W A := zoom transport_of put_transport c.
Definition recv_buf {A} (c : M STREAM A) : M W A :=
  on_transport (zoom t_recv_buffer set_recv_buffer c).
Definition proc_buf {A} (c : M STREAM A) : M W A :=
  on_transport (zoom t_proc_buffer set_proc_buffer c).
Definition layer_of : M W TRANSPORT_LAYER := fun w => Done (t_layer (transport_of w), w).

(** [transport_read_nonblocking] *)
Definition transport_read_nonblocking (skips : nat) : M W Z :=
  recv_buf (stream_check_size (32 * 1024));;
  let! status := on_transport (fun t =>
    match transport_read skips t (t_recv_buffer t) with
    | Done (status, t, s) => Done (status, set_recv_buffer s t)
    | Fault f => Fault f
    end) in
  if status <=? 0 then ret status else
  recv_buf (stream_seek status);;
  ret status.

(** [do_callback] on one of the two buffers. *)
Definition do_callback (buf : rdpTransport N -> STREAM)
    (set : STREAM -> rdpTransport N -> rdpTransport N) : M W Z := fun w =>
  let t := transport_of w in
  let w := put_transport (set_level (t_level t + 1) t) w in
  match recv_callback (buf t, w) with
  | Fault f => Fault f
  | Done (ok, (s, w)) =>
      let t := set s (transport_of w) in
      Done (if ok : bool then 0 else -1, put_transport (set_level (t_level t - 1) t) w)
  end.

(** The length of the packet at the start of [recv_buffer], [None] when its
    header is not complete. *)
Definition check_header (pos : Z) : M W (option Z) :=
  let! layer := layer_of in
  if decide (layer = TRANSPORT_LAYER_TSG) then
    if pos <=? 10 then ret None else
    recv_buf (stream_set_pos 8);;
    let! length := recv_buf stream_read_uint16 in
    recv_buf (stream_set_pos 0);;
    ret (Some length)
  else
    if pos <=? 4 then ret None else
    let! tpkt := recv_buf tpkt_verify_header in
    if tpkt : bool then
      let! length := recv_buf tpkt_read_header in ret (Some length)
    else
      let! (length, _) := recv_buf (fastpath_read_header None) in ret (Some length).

(** The RDP PDUs in a gateway PDU; a PDU that announces the length 0 is called
    back for ever. *)
Fixpoint proc_pdus (fuel : nat) : M W Z :=
  match fuel with
  | O => fail Diverges
  | S fuel' =>
      let! pos := proc_buf get_pos in
      if 3 <? pos then
        let! rdp_pdu_length := proc_buf (fun s =>
          match get_rdp_pdu_length (s_data s) with
          | Done n => Done (n, s)
          | Fault f => Fault f
          end) in
        if rdp_pdu_length <=? pos then
          proc_buf (stream_set_pos rdp_pdu_length);;
          proc_buf stream_seal;;
          proc_buf (stream_set_pos 0);;
          let! rv := do_callback t_proc_buffer set_proc_buffer in
          if negb (rv =? 0) then ret (-1) else
          proc_buf (stream_set_pos 0);;
          let! extra := proc_buf (buffer_at rdp_pdu_length (pos - rdp_pdu_length)) in
          proc_buf (stream_write extra);;
          proc_pdus fuel'
        else ret 0
      else ret 0
  end.

(** A complete gateway PDU: its payload is appended to [proc_buffer]. *)
Definition check_tsg (fuel : nat) : M W Z :=
  recv_buf (stream_set_pos 0);;
  let! skip := on_transport (fun t =>
    let (skip, net') := link_skip (t_recv_buffer t) (t_net t) in Done (skip, set_net net' t)) in
  if skip : bool then ret 0 else
  recv_buf (stream_set_pos 0);;
  recv_buf (stream_seek 2);;
  let! ptype := recv_buf stream_read_uint8 in
  let! pfc_flags := recv_buf stream_read_uint8 in
  recv_buf (stream_seek 4);;
  let! frag_length := recv_buf stream_read_uint16 in
  let! auth_length := recv_buf stream_read_uint16 in
  let! call_id := recv_buf stream_read_uint32 in
  let! alloc_hint := recv_buf stream_read_uint32 in
  let! auth_pad_length := recv_buf (buffer_at (frag_length - auth_length - 6) 1) in
  let auth_pad_length := default 0 (head auth_pad_length) in
  let length := uint16 (frag_length - auth_length - 24 - 8 - auth_pad_length) in
  let! payload := recv_buf (buffer_at 24 length) in
  proc_buf (stream_write payload);;
  proc_pdus fuel.

(** [transport_check_fds]; [fuel] bounds the RDP PDUs in one gateway PDU. *)
Definition transport_check_fds (skips fuel : nat) : M W Z :=
  let! level := (fun w => Done (t_level (transport_of w), w)) in
  if negb (level =? 0) then ret (-1) else
  let! status := transport_read_nonblocking skips in
  if status <? 0 then ret status else
  let! pos := recv_buf get_pos in
  if 0 <? pos then
    recv_buf (stream_set_pos 0);;
    let! length := check_header pos in
    match length with
    | None => recv_buf (stream_set_pos pos);; ret 0
    | Some length =>
        if length =? 0 then ret (-1) else
        if pos <? length then recv_buf (stream_set_pos pos);; ret 0 else
        let! layer := layer_of in
        let! rv :=
          (if decide (layer = TRANSPORT_LAYER_TSG) then check_tsg fuel
           else
             recv_buf (stream_set_pos length);;
             recv_buf stream_seal;;
             recv_buf (stream_set_pos 0);;
             do_callback t_recv_buffer set_recv_buffer) in
        if negb (rv =? 0) then ret (-1) else
        recv_buf (stream_set_pos 0);;
        ret 0
    end
  else ret 0.

(** The caller's loop: poll until it fails, at most [n] times. *)
Fixpoint polls (skips fuel n : nat) : M W Z :=
  match n with
  | O => ret 0
  | S n' =>
      let! status := transport_check_fds skips fuel in
      if status <? 0 then ret status else polls skips fuel n'
  end.

End polling.

(** ** One read *)

(** A PDU that both framings of the source, that of [transport_read] and that of
    [transport_check_fds], cut off at its end. *)
Record framed (pdu : list Z) : Prop := {
  fr_bytes : is_bytes (take 4 pdu);
  fr_length : get_rdp_pdu_length pdu = Done (len pdu);
  fr_tag : head pdu <> Some 0x30;
  fr_size : 5 <= len pdu <= 32 * 1024;
}.

Lemma framed_parts pdu : framed pdu -> exists d0 d1 d2 d3 body,
  pdu = [d0; d1; d2; d3] ++ body /\ 1 <= len body.
Proof.
  intros [_ Hl _ Hz]. destruct pdu as [|d0 [|d1 [|d2 [|d3 body] ] ] ]; try discriminate.
  exists d0, d1, d2, d3, body. split; [reflexivity|]. llia.
Qed.

Lemma framed_pdu_length l pdu rest : framed pdu -> l <> TRANSPORT_LAYER_TSG ->
  pdu_length l (pdu ++ rest) = Done (len pdu).
Proof.
  intros Hf Hl. destruct (framed_parts pdu Hf) as (d0 & d1 & d2 & d3 & body & -> & _).
  destruct Hf as [_ Hlen Htag _]. cbn [app get_rdp_pdu_length pdu_length head] in *.
  rewrite decide_False by exact Hl. destruct (d0 =? 0x03); [exact Hlen|].
  destruct (Z.eqb_spec d0 0x30); [congruence|]. exact Hlen.
Qed.

Section reading.
Context {N : Type} `{Link N} (l : TRANSPORT_LAYER) `{!LinkLaws N l}.
Implicit Types t : rdpTransport N.

(** One non-blocking read of a part of [a]. *)
Lemma read_layer_once t data off bytes a b :
  t_blocking t = false -> t_layer t = l -> link_incoming (t_net t) = a ++ b ->
  len a = bytes -> 1 <= bytes -> 0 <= off -> off + bytes <= len data ->
  exists bs a' net', transport_read_layer t data off bytes
      = Done (len bs, set_net net' t, splice (Z.to_nat off) bs data) /\
    a = bs ++ a' /\ link_incoming net' = a' ++ b /\
    (link_stall net' <= link_stall (t_net t))%nat /\
    (bs = [] -> (link_stall net' < link_stall (t_net t))%nat).
Proof.
  intros Hbl Hl Hin Ha Hn Hoff Hlen. unfold transport_read_layer, read_fuel. cbn [read_layer_loop].
  rewrite (proj2 (Z.ltb_lt 0 bytes)) by lia. rewrite Z.sub_0_r, Z.add_0_r.
  destruct (link_read l bytes (t_net t)) as [ [st bs] net'] eqn:Hr.
  pose proof link_open as Hopen.
  assert (Hm : match t_layer t with
               | TRANSPORT_LAYER_CLOSED => (-1, [], t_net t)
               | l => link_read l bytes (t_net t)
               end = (st, bs, net')) by (rewrite Hl; destruct l; congruence).
  rewrite Hm. assert (Hst : 0 <= st).
  { destruct (Z.le_gt_cases 0 st) as [|Hneg]; [assumption|].
    destruct (link_read_progress _ _ _ _ _ Hn Hr Hneg) as [_ Hnil].
    rewrite Hnil in Hin. symmetry in Hin. apply app_nil in Hin as [-> _]. llia. }
  destruct (link_read_law _ _ _ _ _ Hn Hr Hst) as (Hs & Hle & Hin' & _ & Hst1 & Hst2).
  assert (Hsplit : exists a', a = bs ++ a' /\ link_incoming net' = a' ++ b).
  { rewrite Hin in Hin'. apply app_eq_inv in Hin' as [(k & -> & Hk)|(k & -> & Hk)].
    - exists k. split; [reflexivity|exact Hk].
    - assert (k = []) by (destruct k; [reflexivity|llia]). subst k.
      exists []. rewrite !app_nil_r in *. split; [reflexivity|]. symmetry. exact Hk. }
  destruct Hsplit as (a' & -> & Hin''). rewrite len_app in *.
  rewrite bool_decide_true by llia. rewrite Hbl. cbn [negb]. rewrite Hs.
  exists bs, a', net'. auto.
Qed.

(** A buffer that holds the part [part] of the packet being received. *)
Record buffered (part : list Z) (s : STREAM) : Prop := {
  bf_fits : stream_fits s;
  bf_pos : s_p s = len part;
  bf_part : take (length part) (s_data s) = part;
}.

Lemma buffered_more part bs s :
  buffered part s -> len part + len bs <= len (s_data s) ->
  take (length (part ++ bs)) (splice (length part) bs (s_data s)) = part ++ bs.
Proof.
  intros [_ _ Hpart] Hz. unfold splice. rewrite Hpart, app_assoc. apply take_app_length.
Qed.

Lemma splice_length i bs data : (i + length bs <= length data)%nat ->
  len (splice i bs data) = len data.
Proof. intros Hl. unfold len. rewrite length_splice by exact Hl. reflexivity. Qed.

(** The second read of [transport_read]. *)
Lemma read_rest_part again s t data ts part more rest :
  t_blocking t = false -> t_layer t = l -> l <> TRANSPORT_LAYER_TSG -> framed (part ++ more) -> more <> [] ->
  4 <= len part -> take (length part) data = part -> len part + len more <= len data ->
  0 <= ts -> link_incoming (t_net t) = more ++ rest ->
  exists bs more' net', read_rest again s t data ts (len part)
      = Done (ts + len bs, set_net net' t, mkSTREAM (s_size s) (s_p s) (splice (length part) bs data)) /\
    more = bs ++ more' /\ link_incoming net' = more' ++ rest /\
    (link_stall net' <= link_stall (t_net t))%nat /\
    (bs = [] -> (link_stall net' < link_stall (t_net t))%nat).
Proof.
  intros Hbl Hl Htsg Hf Hm Hp Hd Hz Hts Hin.
  assert (Hlen : pdu_length (t_layer t) data = Done (len part + len more)).
  { rewrite Hl, <- (take_drop (length part) data), Hd, <- len_app.
    rewrite <- (framed_pdu_length l _ [] Hf Htsg), app_nil_r.
    destruct part as [|d0 [|d1 [|d2 [|d3 p] ] ] ]; try (exfalso; llia).
    apply pdu_length_header, Htsg. }
  unfold read_rest. rewrite Hlen. replace (len part + len more - len part) with (len more) by lia.
  assert (1 <= len more) by (destruct more; [congruence|llia]).
  destruct (read_layer_once t data (len part) (len more) more rest)
    as (bs & more' & net' & -> & Hs & Hi & Hs1 & Hs2); auto; try llia.
  exists bs, more', net'. rewrite (proj2 (Z.ltb_ge _ _)) by llia.
  cbn [t_blocking set_net]. rewrite Hbl. cbn [andb]. unfold len at 2. rewrite Nat2Z.id. auto.
Qed.

(** [transport_read] with the bytes [part] already in the buffer. *)
Lemma transport_read_from skips t s part :
  t_layer t = l -> l <> TRANSPORT_LAYER_TSG -> buffered part s ->
  transport_read skips t s =
  if len part <? 4 then
    match transport_read_layer t (s_data s) (len part) (4 - len part) with
    | Fault f => Fault f
    | Done (status, t, data) =>
        let s' := mkSTREAM (s_size s) (s_p s) data in
        if status <? 0 then Done (status, t, s')
        else if status + len part <? 4 then Done (status, t, s')
        else read_rest (read_again skips) s t data status (len part + status)
    end
  else read_rest (read_again skips) s t (s_data s) 0 (len part).
Proof.
  intros Hl Htsg [_ Hpos _]. rewrite <- Hpos. destruct skips; cbn [transport_read]; unfold stream_get_length;
    rewrite decide_False by (rewrite Hl; exact Htsg); reflexivity.
Qed.

(** [transport_read] in non-blocking mode, in the middle of a PDU: it appends a
    part of what is missing of it, and nothing of what follows. *)
Lemma transport_read_part skips t s part more rest :
  t_blocking t = false -> t_layer t = l -> l <> TRANSPORT_LAYER_TSG -> framed (part ++ more) -> more <> [] ->
  buffered part s -> len part + len more <= len (s_data s) ->
  link_incoming (t_net t) = more ++ rest ->
  exists bs more' net', transport_read skips t s
      = Done (len bs, set_net net' t, mkSTREAM (s_size s) (s_p s) (splice (length part) bs (s_data s))) /\
    more = bs ++ more' /\ link_incoming net' = more' ++ rest /\
    (link_stall net' <= link_stall (t_net t))%nat /\
    (bs = [] -> (link_stall net' < link_stall (t_net t))%nat).
Proof.
  intros Hbl Hl Htsg Hf Hm Hb Hz Hin. pose proof Hb as [_ Hpos Hpart].
  rewrite (transport_read_from skips t s part) by assumption. destruct (Z.ltb_spec (len part) 4) as [Hshort|Hlong].
  2: { destruct (read_rest_part (read_again skips) s t (s_data s) 0 part more rest)
         as (bs & more' & net' & -> & Hr); auto; try lia. exists bs, more', net'. auto. }
  destruct (fr_size _ Hf) as [Hsz _]. rewrite len_app in Hsz.
  set (n := Z.to_nat (4 - len part)).
  assert (Hn : len (take n more) = 4 - len part).
  { unfold n, len in *. rewrite length_take. lia. }
  destruct (read_layer_once t (s_data s) (len part) (4 - len part) (take n more) (drop n more ++ rest))
    as (bs & a' & net1 & -> & Hs & Hi & Hs1 & Hs2); auto; try llia.
  { rewrite app_assoc, take_drop. exact Hin. }
  assert (Hlp : Z.to_nat (len part) = length part) by (unfold len; lia). rewrite Hlp. cbv zeta.
  assert (Hbs : len bs + len a' = 4 - len part) by (rewrite <- Hn, Hs; llia).
  assert (Hmore : more = bs ++ a' ++ drop n more) by (rewrite app_assoc, <- Hs, take_drop; reflexivity).
  rewrite (proj2 (Z.ltb_ge _ _)) by llia. destruct (Z.ltb_spec (len bs + len part) 4) as [Hhalf|Hfull].
  - exists bs, (a' ++ drop n more), net1. rewrite Hi, <- (app_assoc a'). auto.
  - assert (a' = []) by (destruct a'; [reflexivity|llia]). subst a'. cbn [app] in *.
    assert (Hne : drop n more <> []).
    { intros E. rewrite E, app_nil_r in Hmore. subst more. llia. }
    rewrite <- len_app.
    destruct (read_rest_part (read_again skips) s (set_net net1 t) (splice (length part) bs (s_data s))
                (len bs) (part ++ bs) (drop n more) rest)
      as (bs2 & more' & net2 & -> & Hs' & Hi' & Hs1' & _); auto; try llia.
    + rewrite <- app_assoc, <- Hmore. exact Hf.
    + apply buffered_more; [exact Hb|]. rewrite Hmore, len_app in Hz. llia.
    + rewrite splice_length by (rewrite Hmore in Hz; unfold len in *; rewrite length_app in Hz; lia).
      rewrite Hmore in Hz. llia.
    + exists (bs ++ bs2), more', net2. cbn [t_net set_net] in *. rewrite len_app, set_net_net.
      split; [|split; [rewrite Hmore, Hs', app_assoc; reflexivity|split; [exact Hi'|split; [lia|] ] ] ].
      * do 3 f_equal. rewrite length_app. apply splice_splice.
        rewrite Hmore in Hz. unfold len in *. rewrite length_app in Hz. lia.
      * intros E. exfalso. apply app_nil in E as [-> ->]. llia.
Qed.

(** Nothing is on its way: the read fails, or returns empty-handed. *)
Lemma transport_read_idle skips t s :
  t_blocking t = false -> t_layer t = l -> l <> TRANSPORT_LAYER_TSG -> buffered [] s -> 4 <= len (s_data s) ->
  link_incoming (t_net t) = [] ->
  exists st net', transport_read skips t s = Done (st, set_net net' t, s) /\ st <= 0 /\
    (0 <= st -> link_incoming net' = [] /\ (link_stall net' <= link_stall (t_net t))%nat).
Proof.
  intros Hbl Hl Htsg [_ Hpos _] Hz Hin. change (len []) with 0 in Hpos.
  rewrite (transport_read_first l) by assumption.
  unfold transport_read_layer, read_fuel. cbn [read_layer_loop].
  change (0 <? 4) with true. cbv iota. change (4 - 0) with 4. change (0 + 0) with 0.
  destruct (link_read l 4 (t_net t)) as [ [st bs] net'] eqn:Hr. pose proof link_open as Hopen.
  assert (Hm : match t_layer t with
               | TRANSPORT_LAYER_CLOSED => (-1, [], t_net t)
               | l => link_read l 4 (t_net t)
               end = (st, bs, net')) by (rewrite Hl; destruct l; congruence).
  rewrite Hm. assert (Hbs : bs = [] /\ st <= 0 /\ (0 <= st -> link_incoming net' = [] /\
    (link_stall net' <= link_stall (t_net t))%nat)).
  { destruct (Z.lt_ge_cases st 0) as [Hneg|Hst].
    - destruct (link_read_progress 4 _ _ _ _ ltac:(lia) Hr Hneg) as [-> _]. split; [reflexivity|lia].
    - destruct (link_read_law 4 _ _ _ _ ltac:(lia) Hr Hst) as (-> & _ & Hin' & _ & Hs & _).
      rewrite Hin in Hin'. symmetry in Hin'. apply app_nil in Hin' as [-> ->]. cbn. auto with lia. }
  destruct Hbs as (-> & Hle & Hst). rewrite bool_decide_true by (change (len []) with 0; lia). rewrite Hbl. cbn [negb].
  rewrite splice_nil. exists st, net'. destruct s as [sz p d]. cbn [s_size s_p s_data]. split; [|auto].
  destruct (Z.ltb_spec st 0); [reflexivity|]. rewrite (proj2 (Z.ltb_lt (st + 0) 4)) by lia. reflexivity.
Qed.

End reading.

(** ** The header of a packet *)

Lemma lor_word a b : is_byte b -> Z.lor (Z.shiftl a 8) b = 256 * a + b.
Proof.
  intros [Hb Hb']. rewrite Z.shiftl_mul_pow2 by lia. rewrite (lor_high_low _ _ 8); [lia|lia| |lia].
  apply Z.mod_mul. lia.
Qed.

Lemma tpkt_header_run d1 d2 d3 s : is_byte d2 -> is_byte d3 -> holds s [3; d1; d2; d3] ->
  tpkt_read_header s = Done (Z.lor (Z.shiftl d2 8) d3, adv 4 s).
Proof.
  intros H2 H3 Hs. unfold tpkt_read_header.
  rewrite (bind_Done _ _ _ _ _ (holds_rbyte s _ 0 3 Hs ltac:(lia) eq_refl)). cbv iota beta.
  change (3 =? 3) with true. cbv iota. rewrite lor_word by exact H3.
  assert (Hr : Reads (stream_seek 2;; stream_read_uint16_be) ([3; d1] ++ [d2; d3]) (256 * d2 + d3)).
  { eapply Reads_bind; [apply Reads_seek; reflexivity|apply Reads_uint16_be; assumption]. }
  exact (Hr s Hs).
Qed.

Lemma fastpath_header_run d0 d1 d2 s : is_byte d1 -> is_byte d2 -> holds s [d0; d1; d2] ->
  exists j, fastpath_read_header None s
  = Done ((if negb (Z.land d1 0x80 =? 0) then Z.lor (Z.shiftl (Z.land d1 0x7f) 8) d2 else d1, None), adv j s).
Proof.
  intros H1 H2 Hs. unfold fastpath_read_header. unfold is_byte in *.
  destruct (holds_app s [d0] [d1; d2] Hs) as [Ha Hb]. rewrite (bind_Done _ _ _ _ _ (Reads_uint8 d0 s Ha)).
  cbn [read_fp_header option_map]. destruct (Z.lt_ge_cases d1 128) as [Hlt|Hge].
  - destruct (holds_app _ [d1] [d2] Hb) as [Hc _].
    assert (E : per_read_length None (adv (len [d0]) s) = Done ((true, Some d1), adv 1 (adv (len [d0]) s))).
    { pose proof (Reads_per_length d1 None ltac:(lia)) as Hr. unfold per_length_bytes in Hr.
      rewrite (proj2 (Z.ltb_ge _ _)), Z.mod_small in Hr by lia. exact (Hr _ Hc). }
    rewrite (bind_Done _ _ _ _ _ E), adv_adv. cbn [use]. rewrite bind_ret.
    rewrite high_bit_clear by lia. eexists. reflexivity.
  - set (n := 256 * (d1 - 128) + d2).
    assert (E : per_read_length None (adv (len [d0]) s) = Done ((true, Some n), adv 2 (adv (len [d0]) s))).
    { apply (Reads_per_length_long n None ltac:(lia)). unfold be16.
      replace ((n + 0x8000) / 256 mod 256) with d1 by (unfold n; dlia).
      replace ((n + 0x8000) mod 256) with d2 by (unfold n; dlia). exact Hb. }
    rewrite (bind_Done _ _ _ _ _ E), adv_adv. cbn [use]. rewrite bind_ret.
    destruct (high_bit_set d1) as [-> _]; [lia|]. cbn [negb].
    rewrite lor_word by (split; lia). rewrite land_7F.
    replace (d1 mod 128) with (d1 - 128) by dlia. eexists. reflexivity.
Qed.

Section checking.
Context {W N : Type} `{Link N} `{Owner W N} (recv_callback : M (STREAM * W) bool).

Lemma recv_buf_run {A} (c : M STREAM A) t w a s :
  c (t_recv_buffer t) = Done (a, s) ->
  recv_buf c (put_transport t w) = Done (a, put_transport (set_recv_buffer s t) w).
Proof. intros E. unfold recv_buf, on_transport, zoom. rewrite transport_put, E, put_put. reflexivity. Qed.

(** Once more than four bytes are there, the length of the PDU is known. *)
Lemma check_header_run t w part more junk size :
  t_layer t <> TRANSPORT_LAYER_TSG -> t_recv_buffer t = mkSTREAM size 0 (part ++ junk) ->
  framed (part ++ more) -> 5 <= len part <= size ->
  exists j, check_header (len part) (put_transport t w)
    = Done (Some (len (part ++ more)), put_transport (set_recv_buffer (adv j (t_recv_buffer t)) t) w).
Proof.
  intros Hl Hb Hf Hp. unfold check_header.
  unfold bind at 1, layer_of. rewrite transport_put, decide_False by exact Hl.
  rewrite (proj2 (Z.leb_gt _ _)) by lia.
  destruct part as [|d0 [|d1 [|d2 [|d3 part] ] ] ]; try (exfalso; llia).
  change (d0 :: d1 :: d2 :: d3 :: part) with ([d0; d1; d2; d3] ++ part) in *.
  rewrite <- !app_assoc in *. destruct Hf as [Hby Hlen _ _].
  assert (Hbs : is_byte d0 /\ is_byte d1 /\ is_byte d2 /\ is_byte d3)
    by (unfold is_bytes in Hby; cbn [app take] in Hby; rewrite !Forall_cons in Hby; tauto).
  destruct Hbs as (_ & H1 & H2 & H3). cbn [app get_rdp_pdu_length] in Hlen.
  assert (Hs : holds (t_recv_buffer t) [d0; d1; d2; d3])
    by (rewrite Hb; apply holds_start; lens_lia || llia).
  assert (Ev : tpkt_verify_header (t_recv_buffer t) = Done (d0 =? 3, t_recv_buffer t)).
  { unfold tpkt_verify_header.
    rewrite (bind_Done _ _ _ _ _ (holds_rbyte _ _ 0 d0 Hs ltac:(lia) eq_refl)). reflexivity. }
  rewrite (bind_Done _ _ _ _ _ (recv_buf_run _ t w _ _ Ev)).
  replace (set_recv_buffer (t_recv_buffer t) t) with t by (destruct t; reflexivity).
  destruct (Z.eqb_spec d0 3) as [->|Hd0].
  - injection Hlen as Hlen. rewrite (bind_Done _ _ _ _ _ (recv_buf_run _ t w _ _ (tpkt_header_run d1 d2 d3 _ H2 H3 Hs))).
    exists 4. cbn [ret app]. rewrite Hlen. reflexivity.
  - destruct (holds_app _ [d0; d1; d2] [d3] Hs) as [Hs3 _].
    destruct (fastpath_header_run d0 d1 d2 _ H1 H2 Hs3) as [j Ej].
    rewrite (bind_Done _ _ _ _ _ (recv_buf_run _ t w _ _ Ej)). exists j. unfold ret.
    destruct (negb _); injection Hlen as ->; reflexivity.
Qed.

Context (l : TRANSPORT_LAYER) `{!LinkLaws N l}.

(** ** What polling keeps

    Between two calls the buffer holds the part of the current PDU that has
    arrived, and what is still to come completes it and the PDUs behind it. *)
Record between (part : list Z) (rest : list (list Z)) (t : rdpTransport N) : Prop := {
  bt_blocking : t_blocking t = false;
  bt_layer : t_layer t = l;
  bt_level : t_level t = 0;
  bt_buffer : buffered part (t_recv_buffer t);
  bt_size : s_size (t_recv_buffer t) <= 2 ^ 17;
  bt_incoming : part ++ link_incoming (t_net t) = concat rest;
  bt_part : match rest with
            | [] => part = []
            | pdu :: _ => exists more, pdu = part ++ more /\ more <> []
            end;
}.

(** Bytes and empty reads still to come. *)
Definition to_come (t : rdpTransport N) : nat :=
  (length (link_incoming (t_net t)) + link_stall (t_net t))%nat.

Lemma make_room part s : buffered part s -> s_size s <= 2 ^ 17 -> len part <= 32 * 1024 ->
  exists s', stream_check_size (32 * 1024) s = Done (tt, s') /\ buffered part s' /\
    s_size s' <= 2 ^ 17 /\ len part + 32 * 1024 <= s_size s'.
Proof.
  intros [Hfit Hpos Hpart] Hz Hp. unfold stream_fits in Hfit.
  destruct (stream_check_size_fits (32 * 1024) s Hfit) as (s' & E & Hfit' & Hp' & Hr & Hroom & Hd & Hz' & _);
    [lia|unfold INT_MAX; lia|].
  exists s'. split; [exact E|]. split; [|split; lia].
  split; [exact Hfit'|congruence|].
  rewrite <- Hpart at 2. replace (length part) with (length part `min` Z.to_nat (s_size s))%nat
    by (unfold len in *; lia). rewrite <- !take_take, Hd. reflexivity.
Qed.

(** [transport_read_nonblocking], given what the read does. *)
Lemma nonblocking_run skips t w s1 st net data :
  stream_check_size (32 * 1024) (t_recv_buffer t) = Done (tt, s1) ->
  transport_read skips (set_recv_buffer s1 t) s1
  = Done (st, set_net net (set_recv_buffer s1 t), mkSTREAM (s_size s1) (s_p s1) data) ->
  transport_read_nonblocking skips (put_transport t w)
  = Done (st, put_transport (set_recv_buffer (mkSTREAM (s_size s1) (s_p s1 + Z.max 0 st) data)
                              (set_net net t)) w).
Proof.
  intros E1 E2. unfold transport_read_nonblocking.
  rewrite (bind_Done _ _ _ _ _ (recv_buf_run _ t w _ _ E1)).
  unfold bind at 1, on_transport, zoom. rewrite transport_put. cbn [t_recv_buffer set_recv_buffer].
  rewrite E2, put_put. destruct (Z.leb_spec st 0) as [Hle|Hgt].
  - rewrite Z.max_l, Z.add_0_r by lia. reflexivity.
  - rewrite Z.max_r by lia. erewrite bind_Done; [reflexivity|].
    erewrite recv_buf_run by reflexivity. reflexivity.
Qed.

(** Where [transport_check_fds] stands after the read. *)
Lemma check_fds_read skips fuel t w st t' :
  t_level t = 0 -> transport_read_nonblocking skips (put_transport t w) = Done (st, put_transport t' w) ->
  s_p (t_recv_buffer t') = 0 \/ st < 0 ->
  transport_check_fds recv_callback skips fuel (put_transport t w) = Done (Z.min 0 st, put_transport t' w).
Proof.
  intros Hlv E Hp. unfold transport_check_fds. unfold bind at 1. rewrite transport_put, Hlv.
  cbn [Z.eqb negb]. rewrite (bind_Done _ _ _ _ _ E). destruct (Z.ltb_spec st 0) as [Hneg|Hst].
  - rewrite Z.min_r by lia. reflexivity.
  - destruct Hp as [Hp|]; [|lia]. erewrite bind_Done by (apply recv_buf_run; reflexivity).
    unfold stream_get_pos. rewrite Hp. rewrite Z.min_l by lia.
    replace (set_recv_buffer (t_recv_buffer t') t') with t' by (destruct t'; reflexivity). reflexivity.
Qed.

(** No PDU is on its way. *)
Lemma poll_idle skips fuel t w : l <> TRANSPORT_LAYER_TSG -> between [] [] t ->
  exists st t', transport_check_fds recv_callback skips fuel (put_transport t w)
      = Done (st, put_transport t' w) /\ st <= 0 /\ (st = 0 -> between [] [] t').
Proof.
  intros Htsg [Hbl Hl Hlv Hb Hz Hin _]. change ([] ++ ?x) with x in Hin.
  destruct (make_room [] _ Hb Hz) as (s1 & E1 & Hb1 & Hz1 & Hr1); [lens_lia|].
  change (len []) with 0 in Hr1. pose proof Hb1 as [ [_ Hs1] Hp1 _].
  destruct (transport_read_idle l skips (set_recv_buffer s1 t) s1) as (st & net & E2 & Hle & Hst); auto; [lia|].
  assert (E2' : transport_read skips (set_recv_buffer s1 t) s1
    = Done (st, set_net net (set_recv_buffer s1 t), mkSTREAM (s_size s1) (s_p s1) (s_data s1)))
    by (rewrite E2; destruct s1; reflexivity).
  pose proof (nonblocking_run skips t w s1 st net (s_data s1) E1 E2') as E3.
  rewrite Z.max_l, Hp1 in E3 by lia. change (len [] + 0) with 0 in E3.
  do 2 eexists. split; [apply (check_fds_read _ _ _ _ _ _ Hlv E3); left; reflexivity|].
  split; [lia|]. intros E0. destruct Hst as [Hin' _]; [lia|].
  split; cbn [t_blocking t_layer t_level t_recv_buffer t_net set_recv_buffer set_net s_size]; auto.
  split; [split; cbn; lia|reflexivity|reflexivity].
Qed.

(** What the callback may do to the transport it is called from: send, and
    whatever it likes with the stream it is given, but not receive. *)
Record kept (t t' : rdpTransport N) : Prop := {
  kp_blocking : t_blocking t' = t_blocking t;
  kp_layer : t_layer t' = t_layer t;
  kp_level : t_level t' = t_level t;
  kp_incoming : link_incoming (t_net t') = link_incoming (t_net t);
  kp_stall : (link_stall (t_net t') <= link_stall (t_net t))%nat;
}.

(** A callback that takes [pdus], one after the other, out of a stream sealed
    behind each of them: [I ds w] says what has become of the module once it has
    been given [ds]. *)
Record Receives (pdus : list (list Z)) (I : list (list Z) -> W -> Prop) : Prop := {
  rc_transport : forall ds t w, I ds w -> I ds (put_transport t w);
  rc_call : forall ds pdu more junk w, pdus = ds ++ pdu :: more -> I ds w ->
    exists s' w', recv_callback (mkSTREAM (len pdu) 0 (pdu ++ junk), w) = Done (true, (s', w')) /\
      I (ds ++ [pdu]) w' /\ 0 <= s_size s' <= len (s_data s') /\ s_size s' <= 2 ^ 17 /\
      kept (transport_of w) (transport_of w');
}.

(** At most four bytes are there: they are kept, and nothing else happens. *)
Lemma check_fds_short skips fuel t w st t' :
  t_layer t' <> TRANSPORT_LAYER_TSG -> t_level t = 0 -> 0 <= st ->
  transport_read_nonblocking skips (put_transport t w) = Done (st, put_transport t' w) ->
  0 <= s_p (t_recv_buffer t') <= 4 ->
  transport_check_fds recv_callback skips fuel (put_transport t w) = Done (0, put_transport t' w).
Proof.
  intros Htsg Hlv Hst E Hp. destruct (Z.eq_dec (s_p (t_recv_buffer t')) 0) as [Hp0|Hp0].
  { rewrite (check_fds_read skips fuel t w st t' Hlv E); [|left; exact Hp0].
    rewrite Z.min_l by lia. reflexivity. }
  unfold transport_check_fds. unfold bind at 1. rewrite transport_put, Hlv. cbn [Z.eqb negb].
  rewrite (bind_Done _ _ _ _ _ E). rewrite (proj2 (Z.ltb_ge st 0)) by lia.
  erewrite bind_Done by (apply recv_buf_run; reflexivity).
  replace (set_recv_buffer (t_recv_buffer t') t') with t' by (destruct t'; reflexivity).
  unfold stream_get_pos. rewrite (proj2 (Z.ltb_lt 0 _)) by lia.
  erewrite bind_Done by (apply recv_buf_run; reflexivity).
  unfold check_header. unfold bind at 1, bind at 1, layer_of. rewrite transport_put.
  rewrite decide_False by exact Htsg. rewrite (proj2 (Z.leb_le _ 4)) by lia. cbn [ret].
  erewrite bind_Done by (apply recv_buf_run; reflexivity).
  destruct t' as [? ? ? ? ? [? ? ?] ? ?]. reflexivity.
Qed.

(** The packet is not complete yet. *)
Lemma check_fds_partial skips fuel t w st t' size part more junk :
  l <> TRANSPORT_LAYER_TSG -> t_level t = 0 -> t_layer t' = l -> 0 <= st ->
  transport_read_nonblocking skips (put_transport t w) = Done (st, put_transport t' w) ->
  t_recv_buffer t' = mkSTREAM size (len part) (part ++ junk) -> len part <= size ->
  framed (part ++ more) -> more <> [] ->
  transport_check_fds recv_callback skips fuel (put_transport t w) = Done (0, put_transport t' w).
Proof.
  intros Htsg Hlv Hl Hst E Hb Hz Hf Hm.
  destruct (Z.le_gt_cases (len part) 4) as [H4|H4].
  { apply (check_fds_short skips fuel t w st t'); auto; [congruence|]. rewrite Hb. cbn [s_p]. llia. }
  assert (Hself : set_recv_buffer (mkSTREAM size (len part) (part ++ junk)) t' = t')
    by (rewrite <- Hb; destruct t'; reflexivity).
  unfold transport_check_fds. unfold bind at 1. rewrite transport_put, Hlv. cbn [Z.eqb negb].
  rewrite (bind_Done _ _ _ _ _ E). rewrite (proj2 (Z.ltb_ge st 0)) by lia.
  erewrite bind_Done by (apply recv_buf_run; reflexivity).
  replace (set_recv_buffer (t_recv_buffer t') t') with t' by (destruct t'; reflexivity).
  unfold stream_get_pos. rewrite Hb. cbn [s_p]. rewrite (proj2 (Z.ltb_lt 0 _)) by lia.
  erewrite bind_Done by (apply recv_buf_run; rewrite Hb; reflexivity).
  set (t0 := set_recv_buffer _ t').
  destruct (check_header_run t0 w part more junk size) as [j Ej]; auto; try lia.
  { unfold t0. cbn. congruence. }
  rewrite (bind_Done _ _ _ _ _ Ej). destruct (fr_size _ Hf). rewrite len_app in *.
  assert (1 <= len more) by (destruct more; [congruence|llia]).
  rewrite (proj2 (Z.eqb_neq _ 0)) by lia. rewrite (proj2 (Z.ltb_lt (len part) _)) by lia.
  erewrite bind_Done by (apply recv_buf_run; reflexivity). unfold ret, t0, set_p, adv.
  cbn [t_recv_buffer set_recv_buffer set_p s_size s_data]. rewrite <- Hself at 2. reflexivity.
Qed.

(** The packet is complete: the callback gets exactly its bytes. *)
Lemma check_fds_complete skips fuel t w st t' size pdu junk s' w' :
  l <> TRANSPORT_LAYER_TSG -> t_level t = 0 -> t_layer t' = l -> t_level t' = 0 -> 0 <= st ->
  transport_read_nonblocking skips (put_transport t w) = Done (st, put_transport t' w) ->
  t_recv_buffer t' = mkSTREAM size (len pdu) (pdu ++ junk) -> len pdu <= size -> framed pdu ->
  let sealed := mkSTREAM (len pdu) 0 (pdu ++ junk) in
  recv_callback (sealed, put_transport (set_level 1 (set_recv_buffer sealed t')) w) = Done (true, (s', w')) ->
  t_level (transport_of w') = 1 ->
  transport_check_fds recv_callback skips fuel (put_transport t w)
  = Done (0, put_transport (set_level 0 (set_recv_buffer (set_p s' 0) (transport_of w'))) w').
Proof.
  intros Htsg Hlv Hl Hlv' Hst E Hb Hz Hf sealed Hcb Hlw. destruct (fr_size _ Hf) as [H5 _].
  unfold transport_check_fds. unfold bind at 1. rewrite transport_put, Hlv. cbn [Z.eqb negb].
  rewrite (bind_Done _ _ _ _ _ E). rewrite (proj2 (Z.ltb_ge st 0)) by lia.
  erewrite bind_Done by (apply recv_buf_run; reflexivity).
  replace (set_recv_buffer (t_recv_buffer t') t') with t' by (destruct t'; reflexivity).
  unfold stream_get_pos. rewrite Hb. cbn [s_p]. rewrite (proj2 (Z.ltb_lt 0 _)) by lia.
  erewrite bind_Done by (apply recv_buf_run; rewrite Hb; reflexivity).
  set (t0 := set_recv_buffer _ t').
  destruct (check_header_run t0 w pdu [] junk size) as [j Ej]; auto; try lia.
  { unfold t0. cbn. congruence. }
  { rewrite app_nil_r. exact Hf. }
  rewrite (bind_Done _ _ _ _ _ Ej). rewrite app_nil_r.
  rewrite (proj2 (Z.eqb_neq _ 0)), (proj2 (Z.ltb_ge (len pdu) _)) by lia.
  unfold bind at 1, layer_of. rewrite transport_put. rewrite decide_False by (unfold t0; cbn; congruence).
  assert (Hcall : (recv_buf (stream_set_pos (len pdu));; recv_buf stream_seal;; recv_buf (stream_set_pos 0);;
      do_callback recv_callback t_recv_buffer set_recv_buffer)
      (put_transport (set_recv_buffer (adv j (t_recv_buffer t0)) t0) w)
    = Done (0, put_transport (set_level 0 (set_recv_buffer s' (transport_of w'))) w')).
  { do 3 erewrite bind_Done by (apply recv_buf_run; reflexivity).
    unfold do_callback. rewrite transport_put, put_put.
    match goal with |- context [recv_callback ?x] =>
      change x with (sealed, put_transport (set_level (t_level t' + 1) (set_recv_buffer sealed t')) w) end.
    rewrite Hlv'. change (0 + 1) with 1. rewrite Hcb. cbn [t_level set_recv_buffer]. rewrite Hlw. reflexivity. }
  rewrite (bind_Done _ _ _ _ _ Hcall). cbn [Z.eqb negb].
  erewrite bind_Done by (apply recv_buf_run; reflexivity). reflexivity.
Qed.

(** One call while a PDU is on its way: some of its bytes arrive, or an empty
    read is used up; when it is complete it has been called back. *)
Lemma poll_busy skips fuel pdus I ds part pdu rest t w :
  l <> TRANSPORT_LAYER_TSG -> Receives pdus I -> Forall framed pdus -> pdus = ds ++ pdu :: rest ->
  between part (pdu :: rest) t -> I ds w ->
  exists w' ds' part' rest',
    transport_check_fds recv_callback skips fuel (put_transport t w) = Done (0, w') /\
    pdus = ds' ++ rest' /\ between part' rest' (transport_of w') /\ I ds' w' /\
    (to_come (transport_of w') < to_come t)%nat.
Proof.
  intros Htsg [Htr Hcall] Hall Hpd [Hbl Hl Hlv Hb Hz Hin (more & -> & Hm)] HI.
  assert (Hf : framed (part ++ more)) by (rewrite Hpd, Forall_app, Forall_cons in Hall; tauto).
  destruct (fr_size _ Hf) as [_ Hmax]. rewrite len_app in Hmax.
  cbn [concat] in Hin. rewrite <- app_assoc in Hin. apply app_inv_head in Hin.
  destruct (make_room part _ Hb Hz) as (s1 & E1 & Hb1 & Hz1 & Hr1); [llia|].
  pose proof Hb1 as [ [_ Hs1] Hp1 Hd1].
  destruct (transport_read_part l skips (set_recv_buffer s1 t) s1 part more (concat rest))
    as (bs & more' & net & E2 & -> & Hi & Hst1 & Hst2); auto; [llia|].
  pose proof (nonblocking_run skips t w s1 (len bs) net _ E1 E2) as E3. clear E1 E2.
  rewrite app_assoc in Hf. rewrite len_app in Hmax.
  set (junk := drop (length part + length bs) (s_data s1)).
  assert (Hdata : splice (length part) bs (s_data s1) = (part ++ bs) ++ junk)
    by (unfold splice; rewrite Hd1, app_assoc; reflexivity).
  rewrite Hdata, Hp1, Z.max_r, <- len_app in E3 by llia.
  set (t' := set_recv_buffer _ (set_net net t)) in E3.
  assert (Hlt : (to_come t' < to_come t)%nat).
  { unfold to_come, t'. cbn [t_net set_recv_buffer set_net] in *. rewrite Hi, Hin, !length_app.
    destruct bs; [pose proof (Hst2 eq_refl); cbn; lia|cbn; lia]. }
  assert (Hbuf : buffered (part ++ bs) (t_recv_buffer t')).
  { split; [split; cbn; [split; llia|] |reflexivity|apply take_app_length].
    rewrite <- Hdata, splice_length; [exact Hs1|unfold len in *; lia]. }
  destruct more' as [|m more'].
  - rewrite app_nil_r in *. destruct (Hcall ds (part ++ bs) rest junk
      (put_transport (set_level 1 (set_recv_buffer (mkSTREAM (len (part ++ bs)) 0 ((part ++ bs) ++ junk)) t')) w))
      as (s' & w' & Ec & HI' & Hs' & Hz' & [K1 K2 K3 K4 K5] ); [exact Hpd|apply Htr, HI|].
    rewrite transport_put in *.
    pose proof (check_fds_complete skips fuel t w (len bs) t' (s_size s1) (part ++ bs) junk s' w'
      Htsg Hlv Hl Hlv ltac:(llia) E3 eq_refl ltac:(llia) Hf Ec K3) as E4.
    eexists _, (ds ++ [part ++ bs]), [], rest. split; [exact E4|]. rewrite transport_put.
    split; [rewrite <- (app_assoc ds); exact Hpd|]. split; [|split; [apply Htr, HI'|] ].
    + split; cbn [t_blocking t_layer t_level t_recv_buffer t_net set_recv_buffer set_level set_p s_size];
        [exact (eq_trans K1 Hbl)|exact (eq_trans K2 Hl)|reflexivity| |exact Hz'| |].
      * split; [split; cbn; lia|reflexivity|reflexivity].
      * cbn [app]. rewrite K4. exact Hi.
      * destruct rest as [|p rest]; [reflexivity|]. exists p. split; [reflexivity|].
        assert (Hp : framed p) by (rewrite Hpd, Forall_app, !Forall_cons in Hall; tauto).
        destruct Hp as [_ _ _ Hsz]. intros ->. change (len []) with 0 in Hsz. lia.
    + eapply Nat.le_lt_trans; [|exact Hlt]. unfold to_come. cbn [t_net set_level set_recv_buffer].
      rewrite K4. exact (proj1 (Nat.add_le_mono_l _ _ _) K5).
  - pose proof (check_fds_partial skips fuel t w (len bs) t' (s_size s1) (part ++ bs) (m :: more') junk
      Htsg Hlv Hl ltac:(llia) E3 eq_refl ltac:(llia) Hf ltac:(discriminate)) as E4.
    exists (put_transport t' w), ds, (part ++ bs), ((part ++ bs ++ m :: more') :: rest).
    rewrite transport_put. split; [exact E4|]. split; [exact Hpd|].
    split; [|split; [apply Htr, HI|exact Hlt] ].
    split; auto; cbn [t_net t' set_recv_buffer set_net concat].
    + rewrite Hi, <- !app_assoc. reflexivity.
    + exists (m :: more'). rewrite <- app_assoc. split; [reflexivity|discriminate].
Qed.

Lemma polls_run skips fuel pdus I : l <> TRANSPORT_LAYER_TSG -> Receives pdus I -> Forall framed pdus ->
  forall n ds part rest w, pdus = ds ++ rest -> between part rest (transport_of w) -> I ds w ->
  exists st w' ds' part' rest',
    polls recv_callback skips fuel n w = Done (st, w') /\ pdus = ds' ++ rest' /\ I ds' w' /\
    (st = 0 /\ between part' rest' (transport_of w') \/ st < 0 /\ rest' = []) /\
    (rest = [] \/ (to_come (transport_of w) <= n)%nat -> rest' = []).
Proof.
  intros Htsg HR Hall. induction n as [|n IH]; intros ds part rest w Hpd Hb HI; cbn [polls].
  - exists 0, w, ds, part, rest. split; [reflexivity|]. split; [exact Hpd|]. split; [exact HI|].
    split; [left; auto|]. intros [?|Hz]; [assumption|]. destruct Hb as [_ _ _ _ _ Hin Hp].
    assert (E : link_incoming (t_net (transport_of w)) = []).
    { apply length_zero_iff_nil. unfold to_come in Hz. lia. }
    destruct rest as [|pdu rest]; [reflexivity|]. destruct Hp as (more & -> & Hm).
    rewrite E in Hin. cbn [concat] in Hin. rewrite <- app_assoc in Hin.
    apply app_inv_head in Hin. symmetry in Hin. apply app_nil in Hin as [-> _]. congruence.
  - pose proof (put_transport_of w) as Ew. destruct rest as [|pdu rest].
    + assert (part = []) by apply Hb. subst part.
      destruct (poll_idle skips fuel (transport_of w) w Htsg Hb) as (st & t' & E & Hle & Hst).
      rewrite Ew in E. rewrite (bind_Done _ _ _ _ _ E). destruct (Z.ltb_spec st 0) as [Hneg|Hpos].
      * exists st, (put_transport t' w), ds, [], []. split; [reflexivity|]. split; [exact Hpd|].
        split; [apply HR, HI|]. auto.
      * destruct (IH ds [] [] (put_transport t' w)) as (st' & w' & ds' & part' & rest' & E' & Hpd' & HI' & Hr & Hz);
          auto; [rewrite transport_put; apply Hst; lia|apply HR, HI|].
        exists st', w', ds', part', rest'. repeat (split; [assumption|]). intros _. apply Hz. left. reflexivity.
    + destruct (poll_busy skips fuel pdus I ds part pdu rest (transport_of w) w)
        as (w1 & ds1 & part1 & rest1 & E & Hpd1 & Hb1 & HI1 & Hlt); auto.
      rewrite Ew in E. rewrite (bind_Done _ _ _ _ _ E). cbn [Z.ltb Z.compare].
      destruct (IH ds1 part1 rest1 w1) as (st' & w' & ds' & part' & rest' & E' & Hpd' & HI' & Hr & Hz); auto.
      exists st', w', ds', part', rest'. repeat (split; [assumption|]). intros [?|Hn]; [discriminate|]. apply Hz. right. lia.
Qed.

(** ** A PDU of four bytes *)

(** Nothing more is read into a buffer that holds the four bytes of a PDU that
    announces four bytes. *)
Lemma transport_read_four skips t s a part more rest :
  let pdu := [0x04; 0x80; 4; a] in
  t_blocking t = false -> t_layer t = l -> l <> TRANSPORT_LAYER_TSG -> pdu = part ++ more ->
  buffered part s -> 4 <= len (s_data s) -> link_incoming (t_net t) = more ++ rest ->
  exists bs more' net, transport_read skips t s
      = Done (len bs, set_net net t, mkSTREAM (s_size s) (s_p s) (splice (length part) bs (s_data s))) /\
    more = bs ++ more' /\ link_incoming net = more' ++ rest.
Proof.
  intros pdu Hbl Hl Htsg Hpdu Hb Hz Hin. pose proof Hb as [_ Hpos Hpart].
  assert (H4 : len part + len more = 4) by (rewrite <- len_app, <- Hpdu; reflexivity).
  assert (Hrest : forall t1 data st, t_blocking t1 = false -> t_layer t1 = l -> take 4 data = pdu -> 0 <= st ->
    read_rest (read_again skips) s t1 data st 4 = Done (st, t1, mkSTREAM (s_size s) (s_p s) data)).
  { intros t1 data st Hb1 Hl1 Hd Hst. unfold read_rest.
    replace (pdu_length (t_layer t1) data) with (Done 4 : outcome Z).
    2: { rewrite Hl1, <- (take_drop 4 data), Hd. unfold pdu. cbn [app pdu_length].
         rewrite decide_False by exact Htsg. reflexivity. }
    change (4 - 4) with 0. unfold transport_read_layer, read_fuel. cbn [read_layer_loop Z.ltb Z.compare].
    rewrite Hb1. cbn [andb]. rewrite Z.add_0_r. reflexivity. }
  rewrite (transport_read_from l skips t s part) by assumption. destruct (Z.ltb_spec (len part) 4) as [Hshort|Hlong].
  - destruct (read_layer_once l t (s_data s) (len part) (4 - len part) more rest)
      as (bs & more' & net & -> & -> & Hi & _); auto; try llia.
    assert (Hlp : Z.to_nat (len part) = length part) by (unfold len; lia). rewrite Hlp.
    exists bs, more', net. rewrite (proj2 (Z.ltb_ge _ _)) by llia. split; [|auto].
    destruct (Z.ltb_spec (len bs + len part) 4) as [|Hfull]; [reflexivity|].
    assert (more' = []) by (destruct more'; [reflexivity|llia]). subst more'. rewrite app_nil_r in *.
    replace (len part + len bs) with 4 by llia. apply Hrest; auto; [|llia].
    rewrite Hpdu, <- (buffered_more part bs s Hb) by llia. f_equal.
    rewrite length_app. unfold len in *. lia.
  - assert (more = []) by (destruct more; [reflexivity|llia]). subst more. rewrite app_nil_r in Hpdu.
    exists [], [], (t_net t). replace (len part) with 4 by llia. 
    rewrite Hrest; auto; [|rewrite Hpdu, <- Hpart; f_equal; unfold len in *; lia|lia].
    rewrite splice_nil, set_net_self. auto.
Qed.

Lemma four_byte_poll skips fuel a part more rest t w :
  let pdu := [0x04; 0x80; 4; a] in
  l <> TRANSPORT_LAYER_TSG -> t_blocking t = false -> t_layer t = l -> t_level t = 0 ->
  buffered part (t_recv_buffer t) -> s_size (t_recv_buffer t) <= 2 ^ 17 ->
  pdu = part ++ more -> link_incoming (t_net t) = more ++ rest ->
  exists t' part' more', transport_check_fds recv_callback skips fuel (put_transport t w)
      = Done (0, put_transport t' w) /\
    t_blocking t' = false /\ t_layer t' = l /\ t_level t' = 0 /\
    buffered part' (t_recv_buffer t') /\ s_size (t_recv_buffer t') <= 2 ^ 17 /\
    pdu = part' ++ more' /\ link_incoming (t_net t') = more' ++ rest.
Proof.
  intros pdu Htsg Hbl Hl Hlv Hb Hz Hpdu Hin.
  assert (H4 : len part + len more = 4) by (rewrite <- len_app, <- Hpdu; reflexivity).
  destruct (make_room part _ Hb Hz) as (s1 & E1 & Hb1 & Hz1 & Hr1); [llia|].
  pose proof Hb1 as [ [_ Hs1] Hp1 Hd1].
  destruct (transport_read_four skips (set_recv_buffer s1 t) s1 a part more rest)
    as (bs & more' & net & E2 & -> & Hi); auto; [llia|].
  pose proof (nonblocking_run skips t w s1 (len bs) net _ E1 E2) as E3.
  rewrite Z.max_r, Hp1, <- len_app in E3 by llia. rewrite len_app in H4.
  set (t' := set_recv_buffer _ (set_net net t)) in E3. exists t', (part ++ bs), more'.
  split; [apply (check_fds_short skips fuel t w (len bs));
    [cbn; congruence|exact Hlv|llia|exact E3|cbn [t' t_recv_buffer set_recv_buffer s_p]; llia]|].
  do 3 (split; [assumption|]). split; [|split; [exact Hz1|split; [rewrite <- app_assoc; exact Hpdu|exact Hi] ] ].
  unfold t'. cbn [t_recv_buffer set_recv_buffer].
  split; cbn [s_p s_size s_data]; [split; cbn [s_p s_size s_data]; [split; llia|] |reflexivity|].
  - rewrite splice_length; [exact Hs1|unfold len in *; lia].
  - apply buffered_more; [exact Hb1|llia].
Qed.

End checking.

(** A transport by itself, with what the callback keeps. *)
#[export, refine] Instance PairOwner (N X : Type) : Owner (rdpTransport N * X) N := {
  transport_of := fst;
  put_transport := fun t w => (t, snd w);
}.
Proof. 1, 2: reflexivity. intros [t x]. reflexivity. Defined.

(** ** The RDP layer on top *)

Definition CONNECTION_STATE_NEGO : Z := 1.
Definition CONNECTION_STATE_MCS_ATTACH_USER : Z := 4.
Definition CONNECTION_STATE_MCS_CHANNEL_JOIN : Z := 5.
Definition CONNECTION_STATE_LICENSE : Z := 7.

(** The packets that end the connection sequence. *)
Lemma fin_framed `{Crypto} crypt conf f p b b' : fin_carries crypt conf f p b b' -> framed p.
Proof.
  intros Hc. destruct (len_fin_body conf f) as [Hbl Hfl].
  assert (Hp : exists n rest, p = rdp_header_bytes conf n MCS_GLOBAL_CHANNEL_ID ++ rest /\ len p = n /\ 15 <= n <= 100).
  { destruct crypt.
    - destruct Hc as (flags & sig & cipher & _ & _ & _ & Hp & Hsl & Hcl & _). eexists _, _. split; [exact Hp|].
      rewrite Hp, !len_app, len_rdp_header, Hsl, Hcl. change (len (le16 _)) with 2. lia.
    - destruct Hc as [Hp _]. eexists _, _. split; [exact Hp|]. rewrite Hp, len_app, len_rdp_header. lia. }
  destruct Hp as (n & rest & -> & Hpl & Hn). split; [| | |rewrite Hpl; lia].
  - unfold rdp_header_bytes, mcspdu_header_bytes, tpkt_bytes, be16. cbn [app take].
    repeat constructor; try lia; dlia.
  - rewrite Hpl. unfold rdp_header_bytes, mcspdu_header_bytes, tpkt_bytes, be16. cbn [app get_rdp_pdu_length].
    change (3 =? 3) with true. cbv iota. rewrite lor_word by (split; dlia). f_equal. dlia.
  - unfold rdp_header_bytes, mcspdu_header_bytes, tpkt_bytes. discriminate.
Qed.

Lemma fin_carried_framed `{Crypto} crypt conf fs ps b b' : fin_carried crypt conf fs ps b b' -> Forall framed ps.
Proof. intros Hc. induction Hc as [|f p fs ps b b1 b2 Hp _ IH]; constructor; [exact (fin_framed _ _ _ _ _ _ Hp)|exact IH]. Qed.

Lemma fin_flags_snoc fs f : fin_flags (fs ++ [f]) = Z.lor (fin_flags fs) (fin_flag f).
Proof.
  induction fs as [|g fs IH]; cbn [app fin_flags fold_right]; [apply Z.lor_comm|].
  unfold fin_flags in IH. rewrite IH. apply Z.lor_assoc.
Qed.

Lemma fin_flags_perm fs gs : Permutation fs gs -> fin_flags fs = fin_flags gs.
Proof.
  intros Hp. induction Hp as [|x l1 l2 _ IH|x y l1|l1 l2 l3 _ IH1 _ IH2]; [reflexivity| | |congruence].
  - unfold fin_flags in *. cbn [fold_right]. rewrite IH. reflexivity.
  - unfold fin_flags. cbn [fold_right]. rewrite !Z.lor_assoc, (Z.lor_comm (fin_flag y)). reflexivity.
Qed.

Section rdp.
Context {N U : Type} `{Link N} `{Crypto} `{!CryptoLaws} `{PduHandlers U}.
(** The steps of the connection sequence, [connection.c]. *)
Context (rdp_client_connect_mcs_connect_response rdp_client_connect_mcs_attach_user_confirm
         rdp_client_connect_mcs_channel_join_confirm rdp_client_connect_license
         rdp_client_connect_demand_active : RM (N := N) (U := U) bool).

#[export, refine] Instance RdpOwner : Owner (rdpRdp N U) N := {
  transport_of := fun r => fp_transport (rdp_out r);
  put_transport := fun t r => with_out (with_transport t (rdp_out r)) r;
}.
Proof.
  - intros t r. reflexivity.
  - intros t t' r. reflexivity.
  - intros [ [] ]. reflexivity.
Defined.

(** [rdp_recv_callback]; [fuel] bounds the share control PDUs of one packet. *)
Definition rdp_recv_callback (fuel : nat) : RM (N := N) (U := U) bool :=
  let! rdp := rdp_of in
  let state := rdp_state rdp in
  if state =? CONNECTION_STATE_NEGO then rdp_client_connect_mcs_connect_response
  else if state =? CONNECTION_STATE_MCS_ATTACH_USER then rdp_client_connect_mcs_attach_user_confirm
  else if state =? CONNECTION_STATE_MCS_CHANNEL_JOIN then rdp_client_connect_mcs_channel_join_confirm
  else if state =? CONNECTION_STATE_LICENSE then rdp_client_connect_license
  else if state =? CONNECTION_STATE_CAPABILITY then rdp_client_connect_demand_active
  else if state =? CONNECTION_STATE_FINALIZATION then
    let! ok := rdp_recv_pdu fuel in
    if negb ok then ret false else
    let! rdp := rdp_of in
    (if finalize_sc_pdus rdp =? FINALIZE_SC_COMPLETE
     then rdp_upd (with_state CONNECTION_STATE_ACTIVE) else ret tt);;
    ret true
  else if state =? CONNECTION_STATE_ACTIVE then rdp_recv_pdu fuel
  else ret false.

Definition rdp_check_fds (skips tsg_fuel fuel : nat) : M (rdpRdp N U) Z :=
  transport_check_fds (rdp_recv_callback fuel) skips tsg_fuel.

(** The client once it has been given the first packets [ds] of [ps]. *)
Record finalizing (crypt : bool) (conf : rdpConf) (fs : list finalization) (ps : list (list Z)) (b' : rdpSec)
    (ds : list (list Z)) (r : rdpRdp N U) : Prop := {
  fz_ready : client_ready crypt r;
  fz_flags : exists gs rest qs, fs = gs ++ rest /\ ps = ds ++ qs /\
               fin_carried crypt conf rest qs (fp_sec (rdp_out r)) b' /\ finalize_sc_pdus r = fin_flags gs;
  fz_state : rdp_state r = (if finalize_sc_pdus r =? FINALIZE_SC_COMPLETE then CONNECTION_STATE_ACTIVE
                            else CONNECTION_STATE_FINALIZATION);
}.

Lemma fin_pdu_run crypt conf f p b' junk (r : rdpRdp N U) :
  client_ready crypt r -> fin_carries crypt conf f p (fp_sec (rdp_out r)) b' ->
  1001 <= mcs_user_id conf < 65536 -> 0 <= share_id conf < 2 ^ 32 ->
  exists s, rdp_recv_pdu 8 (mkSTREAM (len p) 0 (p ++ junk), r)
      = Done (true, (s, with_finalize (fin_flag f)
                          (with_conf (set_pdu_source (mcs_user_id conf) (rdp_conf r)) (with_sec b' r)))) /\
    s_size s = len p /\ s_size s <= len (s_data s).
Proof.
  intros Hr Hc Hu Hid. destruct (fin_packet_run crypt conf f p b' junk r Hr Hc Hu Hid) as (s & E & Hs).
  exists s. split; [|exact Hs]. unfold rdp_recv_pdu.
  set (s0 := mkSTREAM (len p) 0 (p ++ junk)) in *.
  assert (Eb : rbyte 0 s0 = Done (3, s0)).
  { destruct crypt; [destruct Hc as (flags & sig & cipher & _ & _ & _ & -> & _)|destruct Hc as [-> _] ]; reflexivity. }
  assert (Ev : tpkt_verify_header s0 = Done (true, s0)) 
    by (unfold tpkt_verify_header; rewrite (bind_Done _ _ _ _ _ Eb); reflexivity).
  rewrite (bind_Done _ _ _ _ _ (pkt_run _ _ r _ _ Ev)). exact E.
Qed.

Lemma fin_receives crypt conf fs ps b' :
  1001 <= mcs_user_id conf < 65536 -> 0 <= share_id conf < 2 ^ 32 ->
  Receives (rdp_recv_callback 8) ps (finalizing crypt conf fs ps b').
Proof.
  intros Hu Hid. split.
  - intros ds t r [ [Hm He Hf Hd] Hfl Hs]. split; [split; assumption|exact Hfl|exact Hs].
  - intros ds pdu more junk r Hpd [Hr (gs & rest & qs & Hfs & Hqs & Hcs & Hg) Hst].
    rewrite Hqs in Hpd. apply app_inv_head in Hpd. subst qs.
    inversion Hcs as [|f p rest' qs' b b1 b2 Hcar Hcs']; subst.
    pose proof (fr_size _ (fin_framed _ _ _ _ _ _ Hcar)) as Hsize.
    destruct (fin_pdu_run crypt conf f pdu b1 junk r Hr Hcar Hu Hid) as (s & E & Hs & Hd). destruct Hr as [Hm He Hf Hdc].
    set (r1 := with_finalize (fin_flag f) (with_conf (set_pdu_source (mcs_user_id conf) (rdp_conf r)) (with_sec b1 r))) in *.
    assert (Hflags : exists gs0 rest0 qs0, gs ++ f :: rest' = gs0 ++ rest0 /\ ds ++ pdu :: more = (ds ++ [pdu]) ++ qs0 /\
      fin_carried crypt conf rest0 qs0 b1 b' /\ Z.lor (finalize_sc_pdus r) (fin_flag f) = fin_flags gs0).
    { exists (gs ++ [f]), rest', more. rewrite fin_flags_snoc, Hg, <- !app_assoc. auto. }
    assert (Hsz : 0 <= s_size s <= len (s_data s) /\ s_size s <= 2 ^ 17) by lia.
    unfold rdp_recv_callback. unfold bind at 1, rdp_of. cbn [snd]. rewrite Hst.
    destruct (Z.eqb_spec (finalize_sc_pdus r) FINALIZE_SC_COMPLETE) as [Hc|Hc];
      cbn [CONNECTION_STATE_NEGO CONNECTION_STATE_MCS_ATTACH_USER CONNECTION_STATE_MCS_CHANNEL_JOIN
           CONNECTION_STATE_LICENSE CONNECTION_STATE_CAPABILITY CONNECTION_STATE_FINALIZATION
           CONNECTION_STATE_ACTIVE Z.eqb Pos.eqb].
    + do 2 eexists. split; [exact E|]. split; [|split; [apply Hsz|split; [apply Hsz|split; reflexivity] ] ].
      split; [split; assumption|exact Hflags|]. cbn [r1 rdp_state finalize_sc_pdus with_finalize with_conf with_sec with_out].
      rewrite Hst, Hc. destruct f; reflexivity.
    + rewrite (bind_Done _ _ _ _ _ E). cbn [negb]. unfold bind at 1, rdp_of.
      cbn [snd r1 finalize_sc_pdus with_finalize with_conf with_sec with_out].
      destruct (Z.eqb_spec (Z.lor (finalize_sc_pdus r) (fin_flag f)) FINALIZE_SC_COMPLETE) as [Hn|Hn];
        (do 2 eexists; split; [reflexivity|]; split; [|split; [apply Hsz|split; [apply Hsz|split; reflexivity] ] ];
         split; [split; assumption|exact Hflags|]; cbn [fst snd r1 rdp_state finalize_sc_pdus with_finalize with_conf with_state with_sec with_out]).
      * rewrite Hn. reflexivity.
      * rewrite (proj2 (Z.eqb_neq _ _) Hn). exact Hst.
Qed.

End rdp.

(** ** Theorems *)

(** C10. Polling a non-blocking connection refines the delivery of whole PDUs of
    5 bytes to 32 KiB that do not begin with 0x30 ([framed]):
    however the peer's PDUs are cut into reads, with empty reads in between,
    every call of [transport_check_fds] returns 0 as long as something is to
    come; the callback has then been given an initial part of the PDUs, each
    once, whole and in order, and the buffered bytes together with those to come
    are exactly the rest; and after as many calls as there were bytes and empty
    reads to come all of them have been delivered. Shorter PDUs stall,
    longer ones leave the buffer ([long_packet_overflows]), and 0x30 is taken for
    a TSRequest ([twelve_events_misframed]). *)
Theorem polls_deliver_pdus {W N} `{Link N} `{Owner W N} (recv_callback : M (STREAM * W) bool) l
    `{!LinkLaws N l} skips fuel pdus I n w :
  l <> TRANSPORT_LAYER_TSG -> Receives recv_callback pdus I -> Forall framed pdus ->
  between l [] pdus (transport_of w) -> I [] w ->
  exists st w' ds part rest,
    polls recv_callback skips fuel n w = Done (st, w') /\ pdus = ds ++ rest /\ I ds w' /\
    (st = 0 /\ buffered part (t_recv_buffer (transport_of w')) /\
       part ++ link_incoming (t_net (transport_of w')) = concat rest \/
     st < 0 /\ rest = []) /\
    ((to_come (transport_of w) <= n)%nat -> rest = []).
Proof.
  intros Htsg HR Hall Hb HI.
  destruct (polls_run recv_callback l skips fuel pdus I Htsg HR Hall n [] [] pdus w eq_refl Hb HI)
    as (st & w' & ds & part & rest & E & Hpd & HI' & Hst & Hz).
  exists st, w', ds, part, rest. repeat (split; [assumption|]). split; [|auto].
  destruct Hst as [ [-> [_ _ _ Hbuf _ Hin _] ]|Hst]; auto.
Qed.

(** C11. The end of the connection sequence, in the clear or encrypted with RC4: a
    client that polls reaches the active state once the server's four
    finalization PDUs have arrived, in whatever order the server sends them,
    whatever their other fields are and however they are cut into reads. *)
Theorem finalization_reaches_active {N U} l `{LinkLaws N l} `{Crypto} `{!CryptoLaws} `{PduHandlers U}
    c1 c2 c3 c4 c5 skips tsg_fuel crypt
    conf target g1 k1 g2 k2 e t fl z fs ps b' n (r : rdpRdp N U) :
  Permutation fs [FinSynchronize target; FinCooperate g1 k1; FinGranted g2 k2; FinFontMap e t fl z] ->
  fin_carried crypt conf fs ps (fp_sec (rdp_out r)) b' ->
  l <> TRANSPORT_LAYER_TSG -> between l [] ps (transport_of r) ->
  client_ready crypt r -> rdp_state r = CONNECTION_STATE_FINALIZATION -> finalize_sc_pdus r = 0 ->
  1001 <= mcs_user_id conf < 65536 -> 0 <= share_id conf < 2 ^ 32 ->
  (to_come (transport_of r) <= n)%nat ->
  exists st r', polls (rdp_recv_callback c1 c2 c3 c4 c5 8) skips tsg_fuel n r = Done (st, r') /\
    rdp_state r' = CONNECTION_STATE_ACTIVE /\ finalize_sc_pdus r' = FINALIZE_SC_COMPLETE /\
    fp_sec (rdp_out r') = b'.
Proof.
  intros Hperm Hcs Htsg Hb Hr Hs Hf Hu Hid Hn.
  assert (HI : finalizing crypt conf fs ps b' [] r).
  { split; [exact Hr|exists [], fs, ps; auto|]. rewrite Hs, Hf. reflexivity. }
  destruct (polls_run _ l skips tsg_fuel _ _ Htsg
              (fin_receives c1 c2 c3 c4 c5 crypt conf fs ps b' Hu Hid) (fin_carried_framed _ _ _ _ _ _ Hcs)
              n [] [] _ r eq_refl Hb HI)
    as (st & r' & ds & part & rest & E & Hpd & [_ (gs & fs' & qs & Hfs & Hqs & Hcs' & Hg) Hst] & _ & Hz).
  exists st, r'. split; [exact E|].
  assert (rest = []) as -> by (apply Hz; auto).
  rewrite Hpd in Hqs. apply app_inv_head in Hqs. subst qs. inversion Hcs' as [b|]; subst.
  rewrite app_nil_r in Hperm. rewrite (fin_flags_perm _ _ Hperm) in Hg. rewrite Hst, Hg. auto.
Qed.

(** C40. The synchronize event of the fast path is a PDU of four bytes, and
    [transport_check_fds] waits for more than four: a server that is sent one
    never calls back, reports no error, and never reads what follows, however
    often it polls. *)
Theorem sync_event_stalls_polling {W N} `{Link N} `{Owner W N} (recv_callback : M (STREAM * W) bool) l
    `{!LinkLaws N l} skips fuel flags rest n w :
  let pdu := fp_input_pdu (SynchronizeEvent flags) in
  l <> TRANSPORT_LAYER_TSG -> t_blocking (transport_of w) = false -> t_layer (transport_of w) = l ->
  t_level (transport_of w) = 0 -> buffered [] (t_recv_buffer (transport_of w)) ->
  s_size (t_recv_buffer (transport_of w)) <= 2 ^ 17 ->
  link_incoming (t_net (transport_of w)) = pdu ++ rest ->
  exists t' unread, polls recv_callback skips fuel n w = Done (0, put_transport t' w) /\
    link_incoming (t_net t') = unread ++ rest.
Proof.
  intros pdu Htsg Hbl Hl Hlv Hb Hz Hin.
  enough (Hgo : forall n t part more, t_blocking t = false -> t_layer t = l -> t_level t = 0 ->
            buffered part (t_recv_buffer t) -> s_size (t_recv_buffer t) <= 2 ^ 17 -> pdu = part ++ more ->
            link_incoming (t_net t) = more ++ rest ->
            exists t' unread, polls recv_callback skips fuel n (put_transport t w) = Done (0, put_transport t' w) /\
              link_incoming (t_net t') = unread ++ rest).
  { specialize (Hgo n (transport_of w) [] pdu). rewrite put_transport_of in Hgo. apply Hgo; auto. }
  clear n Hbl Hl Hlv Hb Hz Hin. induction n as [|n IH]; intros t part more Hbl Hl Hlv Hb Hz Hpdu Hin; cbn [polls].
  - exists t, more. split; [reflexivity|exact Hin].
  - destruct (four_byte_poll recv_callback l skips fuel (0x60 + flags) part more rest t w)
      as (t1 & part1 & more1 & E & Hbl1 & Hl1 & Hlv1 & Hb1 & Hz1 & Hp1 & Hi1); auto.
    rewrite (bind_Done _ _ _ _ _ E). cbn [Z.ltb Z.compare]. apply (IH t1 part1 more1); auto.
Qed.

(** ** Witnesses and runs *)

(** A callback that logs the packets. *)
Definition log_packet {N} : M (STREAM * (rdpTransport N * list (list Z))) bool := fun x =>
  let '(s, (t, log)) := x in
  Done (true, (s, (t, log ++ [take (Z.to_nat (s_size s)) (s_data s)]))).

Lemma log_receives {N} `{Link N} pdus : Forall framed pdus ->
  Receives (N := N) log_packet pdus (fun ds w => snd w = ds).
Proof.
  intros Hall. split; [intros ds t w <-; reflexivity|].
  intros ds pdu more junk [t log] Hpd Hlog. cbn [snd] in Hlog. subst log.
  assert (Hf : framed pdu) by (rewrite Hpd, Forall_app, Forall_cons in Hall; tauto).
  destruct (fr_size _ Hf). do 2 eexists. split; [reflexivity|]. cbn [fst snd s_size s_data].
  split; [do 2 f_equal; unfold len; rewrite Nat2Z.id; apply take_app_length|].
  split; [llia|]. split; [lia|]. split; reflexivity.
Qed.

(** A non-blocking transport over a socket. *)
Definition polled (rx : list recv_result) : rdpTransport rdpTcp :=
  mkTransport TRANSPORT_LAYER_TCP false 0 (stream_new 64) (stream_new 64) (stream_new 64) (stream_new 64)
    (mkTcp rx [] []) true false.

Lemma polled_between rx pdus : rx_bytes rx = concat pdus ->
  match pdus with [] => True | pdu :: _ => pdu <> [] end -> between TRANSPORT_LAYER_TCP [] pdus (polled rx).
Proof.
  intros Hin Hne. split; try reflexivity; try exact Hin.
  - split; [split; vm_compute; try split; discriminate|reflexivity|reflexivity].
  - vm_compute. discriminate.
  - destruct pdus as [|pdu pdus]; [reflexivity|]. exists pdu. auto.
Qed.

(** A TPKT of seven bytes and a fast-path PDU of five. *)
Definition two_pdus : list (list Z) := [ [3; 0; 0; 7; 2; 0xF0; 0x80]; [0; 5; 1; 2; 3] ].

Definition two_reads : list recv_result :=
  [RecvData [3; 0]; RecvAgain; RecvData [0; 7; 2; 0xF0; 0x80; 0; 5; 1; 2; 3] ].

Lemma polls_deliver_pdus_witness :
  exists st w', polls log_packet 0 0 15 (polled two_reads, []) = Done (st, w') /\ snd w' = two_pdus.
Proof.
  assert (Hf : Forall framed two_pdus).
  { repeat constructor; try reflexivity; try discriminate; unfold is_byte; lia. }
  destruct (polls_deliver_pdus log_packet TRANSPORT_LAYER_TCP 0 0 two_pdus (fun ds w => snd w = ds) 15
              (polled two_reads, [])) as (st & w' & ds & part & rest & E & Hpd & HI & _ & Hz);
    [discriminate|apply log_receives, Hf|exact Hf|apply polled_between; [reflexivity|discriminate]|reflexivity|].
  exists st, w'. split; [exact E|]. rewrite HI, Hpd, Hz, app_nil_r; [reflexivity|]. vm_compute. lia.
Defined.

Definition sync_reads : list recv_result :=
  [RecvData (fp_input_pdu (SynchronizeEvent 1)); RecvData [3; 0; 0; 7; 2; 0xF0; 0x80] ].

Lemma sync_event_stalls_polling_witness :
  exists t' unread, polls log_packet 0 0 100 (polled sync_reads, []) = Done (0, (t', [])) /\
    link_incoming (t_net t') = unread ++ [3; 0; 0; 7; 2; 0xF0; 0x80].
Proof.
  refine (sync_event_stalls_polling (N := rdpTcp) log_packet TRANSPORT_LAYER_TCP 0 0 1
            [3; 0; 0; 7; 2; 0xF0; 0x80] 100 (polled sync_reads, []) _ _ _ _ _ _ _);
    [discriminate|reflexivity|reflexivity|reflexivity| |vm_compute; discriminate|reflexivity].
  split; [split; vm_compute; try split; discriminate|reflexivity|reflexivity].
Defined.

(** The finalization PDUs in reverse order, the first cut in two. *)
Definition fin_sample : list finalization :=
  [FinFontMap 0 0 3 4; FinGranted 1007 0x3EA; FinCooperate 0 0; FinSynchronize 1007].
Definition fin_packets : list (list Z) :=
  map (fun f => rdp_header_bytes (toy_conf true false) (15 + len (fin_body (toy_conf true false) f)) MCS_GLOBAL_CHANNEL_ID ++
                fin_body (toy_conf true false) f) fin_sample.
Definition fin_reads : list recv_result :=
  [RecvData (take 2 (concat fin_packets)); RecvAgain; RecvData (drop 2 (concat fin_packets))].

Definition fin_client : rdpRdp rdpTcp nat :=
  let r := toy_rdp false false in with_out (with_transport (polled fin_reads) (rdp_out r)) r.

Lemma finalization_reaches_active_witness :
  exists st r', polls (rdp_recv_callback (ret false) (ret false) (ret false) (ret false)
      (ret false) 8) 0 0 200 fin_client = Done (st, r') /\
    rdp_state r' = CONNECTION_STATE_ACTIVE /\ finalize_sc_pdus r' = FINALIZE_SC_COMPLETE /\
    fp_sec (rdp_out r') = toy_end 4096.
Proof.
  refine (finalization_reaches_active (N := rdpTcp) TRANSPORT_LAYER_TCP (ret false) (ret false) (ret false)
           (ret false) (ret false) 0 0 false (toy_conf true false) 1007 0 0 1007 0x3EA 0 0 3 4
           fin_sample fin_packets (toy_end 4096) 200 fin_client
           _ _ _ _ _ _ _ _ _ _).
  - apply (Permutation_rev fin_sample).
  - unfold fin_packets, fin_sample. repeat (econstructor; [split; reflexivity|]). apply fin_none.
  - discriminate.
  - apply polled_between; [vm_compute; reflexivity|discriminate].
  - split; try reflexivity. discriminate.
  - reflexivity.
  - reflexivity.
  - cbn. lia.
  - cbn. lia.
  - vm_compute. lia.
Defined.

(** A fast-path input PDU with twelve events, unencrypted, has the header byte
    0x30, by which [transport_read] recognises a TSRequest of [credssp.c]. *)
Definition twelve_events : list Z := [0x30; 14] ++ replicate 12 0x60.

(** What is seen of a run: status, packets called back, bytes buffered, bytes
    still to be read. *)
Definition observed (o : outcome (Z * (rdpTransport rdpTcp * list (list Z))))
  : option (Z * list (list Z) * Z * list Z) :=
  match o with
  | Done (st, (t, log)) => Some (st, log, s_p (t_recv_buffer t), link_incoming (t_net t))
  | Fault _ => None
  end.

(** A fast-path input PDU with twelve events is framed as a TSRequest: two
    bytes of the packet behind it are read along with it and dropped. *)
Theorem twelve_events_misframed :
  observed (polls log_packet 0 0 1 (polled [RecvData (twelve_events ++ [3; 0; 0; 7; 2; 0xF0; 0x80])], []))
  = Some (0, [twelve_events], 0, [0; 7; 2; 0xF0; 0x80]).
Proof. vm_compute. reflexivity. Qed.

(** A TPKT of the greatest length that arrives at once is written past the end
    of the receive buffer, in which [transport_read_nonblocking] has made room for
    32768 bytes. *)
Theorem long_packet_overflows :
  transport_check_fds log_packet 0 0
    (polled [RecvData ([3; 0; 0xFF; 0xFF] ++ replicate (Z.to_nat 65531) 0)], []) = Fault OutOfBounds.
Proof. vm_compute. reflexivity. Qed.
