(* ===== verification/Info.v ===== *)
(** The client info PDU: [libfreerdp-core/info.c]. The client tells the server
    who logs on and where it is, the server reports on the session. *)

From coqutil Require Import Datatypes.RecordSetters.
From S2P Require Import Prelude.
From S2P Require Import Stream.
From S2P Require Import Per.
From S2P Require Import X224.
From S2P Require Import Transport.
From S2P Require Import Mcs.
From S2P Require Import Security.
From S2P Require Import Certificate.
From S2P Require Import Input.
From S2P Require Import Unicode.
From S2P Require Import Gcc.
From S2P Require Import GccClient.
From S2P Require Import Fastpath.
From S2P Require Import Rdp.
From S2P Require Import Channel.
Import TriangleBracketNotations.

Definition ADDRESS_FAMILY_INET : Z := 0x0002.
Definition ADDRESS_FAMILY_INET6 : Z := 0x0017.
Definition INFO_MOUSE : Z := 0x00000001.
Definition INFO_DISABLECTRLALTDEL : Z := 0x00000002.
Definition INFO_AUTOLOGON : Z := 0x00000008.
Definition INFO_UNICODE : Z := 0x00000010.
Definition INFO_MAXIMIZESHELL : Z := 0x00000020.
Definition INFO_LOGONNOTIFY : Z := 0x00000040.
Definition INFO_COMPRESSION : Z := 0x00000080.
Definition INFO_ENABLEWINDOWSKEY : Z := 0x00000100.
Definition INFO_REMOTECONSOLEAUDIO : Z := 0x00002000.
Definition INFO_RAIL : Z := 0x00008000.
Definition INFO_LOGONERRORS : Z := 0x00010000.
Definition RNS_INFO_AUDIOCAPTURE : Z := 0x00200000.
Definition INFO_PACKET_COMPR_TYPE_64K : Z := 0x00000200.
Definition INFO_TYPE_LOGON : Z := 0x00000000.
Definition INFO_TYPE_LOGON_LONG : Z := 0x00000001.
Definition INFO_TYPE_LOGON_PLAIN_NOTIFY : Z := 0x00000002.
Definition INFO_TYPE_LOGON_EXTENDED_INF : Z := 0x00000003.
Definition LOGON_EX_AUTORECONNECTCOOKIE : Z := 0x00000001.
Definition LOGON_EX_LOGONERRORS : Z := 0x00000002.
Definition SEC_INFO_PKT : Z := 0x0040.
Definition SEC_LICENSE_PKT : Z := 0x0080.

(** ** Data *)

Record SYSTEM_TIME : Type := mkTime {
  wYear : Z; wMonth : Z; wDayOfWeek : Z; wDay : Z; wHour : Z; wMinute : Z; wSecond : Z; wMilliseconds : Z;
}.

(** The names are the strings in arrays of 32 [char]. *)
Record TIME_ZONE_INFO : Type := mkZone {
  bias : Z;
  standardName : list Z;
  standardDate : SYSTEM_TIME;
  standardBias : Z;
  daylightName : list Z;
  daylightDate : SYSTEM_TIME;
  daylightBias : Z;
}.

Record ARC_CS_PRIVATE_PACKET : Type := mkArcCs {
  cs_cbLen : Z; cs_version : Z; cs_logonId : Z; securityVerifier : list Z;
}.

Record ARC_SC_PRIVATE_PACKET : Type := mkArcSc {
  sc_cbLen : Z; sc_version : Z; sc_logonId : Z; arcRandomBits : list Z;
}.

(** The fields of [struct rdp_settings] that [info.c] uses, [core] those shared
    with [gcc.c]. A [char*] is [None] for [NULL], or its string. *)
Record info_settings : Type := mkInfo {
  core : rdp_settings;
  autologon : bool;
  remote_app : bool;
  console_audio : bool;
  compression : bool;
  domain : option (list Z);
  username : option (list Z);
  password : option (list Z);
  shell : option (list Z);
  directory : option (list Z);
  password_cookie : option (list Z);
  ipv6 : bool;
  ip_address : option (list Z);
  client_dir : option (list Z);
  client_time_zone : TIME_ZONE_INFO;
  client_auto_reconnect_cookie : ARC_CS_PRIVATE_PACKET;
  server_auto_reconnect_cookie : ARC_SC_PRIVATE_PACKET;
}.

(** What the C library says of the local time: [tm_isdst], and the texts of
    [strftime] for ["%Z, Standard Time"] and ["%Z, Summer Time"]. *)
Record local_time : Type := mkLocal { tm_isdst : Z; standard_text : list Z; daylight_text : list Z }.

(** ** Times *)

Definition rdp_read_system_time : M STREAM SYSTEM_TIME :=
  let! y := stream_read_uint16 in
  let! m := stream_read_uint16 in
  let! dw := stream_read_uint16 in
  let! d := stream_read_uint16 in
  let! h := stream_read_uint16 in
  let! mi := stream_read_uint16 in
  let! se := stream_read_uint16 in
  let! ms := stream_read_uint16 in
  ret (mkTime y m dw d h mi se ms).

Definition rdp_write_system_time (t : SYSTEM_TIME) : M STREAM unit :=
  stream_write_uint16 (wYear t);;
  stream_write_uint16 (wMonth t);;
  stream_write_uint16 (wDayOfWeek t);;
  stream_write_uint16 (wDay t);;
  stream_write_uint16 (wHour t);;
  stream_write_uint16 (wMinute t);;
  stream_write_uint16 (wSecond t);;
  stream_write_uint16 (wMilliseconds t).

(** The build defines neither [sun] nor [HAVE_TM_GMTOFF]. *)
Definition rdp_get_client_time_zone (local : local_time) (z : TIME_ZONE_INFO) : TIME_ZONE_INFO :=
  let z := z <| bias := 0 |> in
  let z := if 0 <? tm_isdst local
           then z <| standardBias := uint32 (bias z - 60) |> <| daylightBias := bias z |>
           else z <| standardBias := bias z |> <| daylightBias := uint32 (bias z + 60) |> in
  z <| standardName := take 31 (c_string (standard_text local)) |>
    <| daylightName := take 31 (c_string (daylight_text local)) |>.

(** [strncpy] into an array of [size]. *)
Definition strncpy (size : Z) (str : list Z) : list Z := take (Z.to_nat size) (c_string str).

Definition rdp_read_client_time_zone (z : TIME_ZONE_INFO) : M STREAM (bool * TIME_ZONE_INFO) :=
  let! avail := left_bytes in
  if avail <? 172 then ret (false, z) else
  let! v := stream_read_uint32 in
  let z := z <| bias := v |> in
  let! str := read_text 64 in
  let z := z <| standardName := strncpy 32 str |> in
  let! t := rdp_read_system_time in
  let z := z <| standardDate := t |> in
  let! v := stream_read_uint32 in
  let z := z <| standardBias := v |> in
  let! str := read_text 64 in
  let z := z <| daylightName := strncpy 32 str |> in
  let! t := rdp_read_system_time in
  let z := z <| daylightDate := t |> in
  let! v := stream_read_uint32 in
  ret (true, z <| daylightBias := v |>).

(** A name in a field of 64 bytes, cut off at 62. *)
Definition write_zone_name (str : list Z) : M STREAM unit :=
  let length := Z.min (len str) 62 in
  stream_write (take (Z.to_nat length) str);;
  stream_write_zero (64 - length).

Definition rdp_write_client_time_zone (local : local_time) (z : TIME_ZONE_INFO) : M STREAM TIME_ZONE_INFO :=
  let z := rdp_get_client_time_zone local z in
  let! standard := lift (freerdp_uniconv_out (standardName z)) in
  let! daylight := lift (freerdp_uniconv_out (daylightName z)) in
  stream_write_uint32 (bias z);;
  write_zone_name standard;;
  rdp_write_system_time (standardDate z);;
  stream_write_uint32 (standardBias z);;
  write_zone_name daylight;;
  rdp_write_system_time (daylightDate z);;
  stream_write_uint32 (daylightBias z);;
  ret z.

(** ** Reconnection cookies *)

Definition rdp_read_server_auto_reconnect_cookie : M STREAM ARC_SC_PRIVATE_PACKET :=
  let! n := stream_read_uint32 in
  let! v := stream_read_uint32 in
  let! id := stream_read_uint32 in
  let! bits := stream_read 16 in
  ret (mkArcSc n v id bits).

Definition rdp_write_client_auto_reconnect_cookie (c : ARC_CS_PRIVATE_PACKET) : M STREAM unit :=
  stream_write_uint32 (cs_cbLen c);;
  stream_write_uint32 (cs_version c);;
  stream_write_uint32 (cs_logonId c);;
  let! v := array_prefix (securityVerifier c) 16 in
  stream_write v.

(** Checks for 28 bytes, and then writes where it should read. *)
Definition rdp_read_client_auto_reconnect_cookie (c : ARC_CS_PRIVATE_PACKET) : M STREAM bool :=
  let! avail := left_bytes in
  if avail <? 28 then ret false else
  rdp_write_client_auto_reconnect_cookie c;;
  ret true.

(** ** The extended info packet *)

Definition rdp_read_extended_info_packet (settings : info_settings) : M STREAM (bool * info_settings) :=
  let! clientAddressFamily := stream_read_uint16 in
  let! cbClientAddress := stream_read_uint16 in
  let settings := settings <| ipv6 := clientAddressFamily =? ADDRESS_FAMILY_INET6 |> in
  let! avail := left_bytes in
  if avail <? cbClientAddress then ret (false, settings) else
  let! str := read_text cbClientAddress in
  let settings := settings <| ip_address := Some (c_string str) |> in
  let! cbClientDir := stream_read_uint16 in
  let! avail := left_bytes in
  if avail <? cbClientDir then ret (false, settings) else
  let! str := read_text cbClientDir in
  let settings := settings <| client_dir := Some (c_string str) |> in
  let! (ok, z) := rdp_read_client_time_zone (client_time_zone settings) in
  let settings := settings <| client_time_zone := z |> in
  if negb ok then ret (false, settings) else
  stream_seek 4;;
  let! v := stream_read_uint32 in
  let settings := settings <| core := (core settings) <| performance_flags := v |> |> in
  let! cbAutoReconnectLen := stream_read_uint16 in
  if 0 <? cbAutoReconnectLen then
    let! ok := rdp_read_client_auto_reconnect_cookie (client_auto_reconnect_cookie settings) in
    ret (ok, settings)
  else ret (true, settings).

(** [freerdp_uniconv_out] of a string that may be [NULL]. *)
Definition text_out (str : option (list Z)) : M STREAM (list Z) :=
  match str with None => ret [] | Some str => lift (freerdp_uniconv_out str) end.

(** The first [cb] bytes of [text], with its 16-bit length, and a zero. *)
Definition write_cb (cb : Z) (text : list Z) : M STREAM unit :=
  (if 0 <? cb then let! t := array_prefix text cb in stream_write t else ret tt);;
  stream_write_uint16 0.

Definition rdp_write_extended_info_packet (local : local_time) (settings : info_settings) : M STREAM info_settings :=
  let clientAddressFamily := if ipv6 settings then ADDRESS_FAMILY_INET6 else ADDRESS_FAMILY_INET in
  let! clientAddress := text_out (ip_address settings) in
  let cbClientAddress := uint16 (len clientAddress) in
  let! clientDir := text_out (client_dir settings) in
  let cbClientDir := uint16 (len clientDir) in
  let cbAutoReconnectLen := uint16 (cs_cbLen (client_auto_reconnect_cookie settings)) in
  stream_write_uint16 clientAddressFamily;;
  stream_write_uint16 (cbClientAddress + 2);;
  write_cb cbClientAddress clientAddress;;
  stream_write_uint16 (cbClientDir + 2);;
  write_cb cbClientDir clientDir;;
  let! z := rdp_write_client_time_zone local (client_time_zone settings) in
  let settings := settings <| client_time_zone := z |> in
  stream_write_uint32 0;;
  stream_write_uint32 (performance_flags (core settings));;
  stream_write_uint16 cbAutoReconnectLen;;
  (if 0 <? cbAutoReconnectLen
   then rdp_write_client_auto_reconnect_cookie (client_auto_reconnect_cookie settings) else ret tt);;
  ret settings.

(** ** The info packet *)

(** One of the five texts: whether it is there, and the string if it is not empty. *)
Definition read_cb (cb : Z) : M STREAM (bool * option (list Z)) :=
  let! avail := left_bytes in
  if avail <? cb + 2 then ret (false, None) else
  let! v := (if 0 <? cb then let! str := read_text cb in ret (Some (c_string str)) else ret None) in
  stream_seek 2;;
  ret (true, v).

Definition or_old (v old : option (list Z)) : option (list Z) := match v with Some _ => v | None => old end.

Definition flag (flags bit : Z) : bool := negb (Z.land flags bit =? 0).

Definition rdp_read_info_packet (settings : info_settings) : M STREAM (bool * info_settings) :=
  stream_seek 4;;
  let! flags := stream_read_uint32 in
  let settings := settings <| autologon := flag flags INFO_AUTOLOGON |> <| remote_app := flag flags INFO_RAIL |>
    <| console_audio := flag flags INFO_REMOTECONSOLEAUDIO |> <| compression := flag flags INFO_COMPRESSION |> in
  let! cbDomain := stream_read_uint16 in
  let! cbUserName := stream_read_uint16 in
  let! cbPassword := stream_read_uint16 in
  let! cbAlternateShell := stream_read_uint16 in
  let! cbWorkingDir := stream_read_uint16 in
  let! (ok, v) := read_cb cbDomain in
  if negb ok then ret (false, settings) else
  let settings := settings <| domain := or_old v (domain settings) |> in
  let! (ok, v) := read_cb cbUserName in
  if negb ok then ret (false, settings) else
  let settings := settings <| username := or_old v (username settings) |> in
  let! (ok, v) := read_cb cbPassword in
  if negb ok then ret (false, settings) else
  let settings := settings <| password := or_old v (password settings) |> in
  let! (ok, v) := read_cb cbAlternateShell in
  if negb ok then ret (false, settings) else
  let settings := settings <| shell := or_old v (shell settings) |> in
  let! (ok, v) := read_cb cbWorkingDir in
  if negb ok then ret (false, settings) else
  let settings := settings <| directory := or_old v (directory settings) |> in
  if 5 <=? rdp_version (core settings) then rdp_read_extended_info_packet settings else ret (true, settings).

Definition info_flags (settings : info_settings) : Z :=
  let flags := Z.lor (Z.lor (Z.lor (Z.lor (Z.lor (Z.lor (Z.lor INFO_MOUSE INFO_UNICODE) INFO_LOGONERRORS)
    INFO_LOGONNOTIFY) INFO_MAXIMIZESHELL) INFO_ENABLEWINDOWSKEY) INFO_DISABLECTRLALTDEL) RNS_INFO_AUDIOCAPTURE in
  let flags := if autologon settings then Z.lor flags INFO_AUTOLOGON else flags in
  let flags := if remote_app settings then Z.lor flags INFO_RAIL else flags in
  let flags := if console_audio settings then Z.lor flags INFO_REMOTECONSOLEAUDIO else flags in
  if compression settings then Z.lor flags (Z.lor INFO_COMPRESSION INFO_PACKET_COMPR_TYPE_64K) else flags.

(** The password or, after a redirection, the cookie that stands for it, with
    the number of bytes announced. *)
Definition info_password (settings : info_settings) : M STREAM (Z * list Z) :=
  let plain := let! p := text_out (password settings) in ret (uint16 (len p), p) in
  match password_cookie settings with
  | Some cookie => if 0 <? len cookie then ret (uint16 (len cookie - 2), cookie) else plain
  | None => plain
  end.

Definition rdp_write_info_packet (local : local_time) (settings : info_settings) : M STREAM info_settings :=
  let flags := info_flags settings in
  let! domain := text_out (domain settings) in
  let cbDomain := uint16 (len domain) in
  let! userName := text_out (username settings) in
  let cbUserName := uint16 (len userName) in
  let! (cbPassword, password) := info_password settings in
  let! alternateShell := text_out (shell settings) in
  let cbAlternateShell := uint16 (len alternateShell) in
  let! workingDir := text_out (directory settings) in
  let cbWorkingDir := uint16 (len workingDir) in
  stream_write_uint32 0;;
  stream_write_uint32 flags;;
  stream_write_uint16 cbDomain;;
  stream_write_uint16 cbUserName;;
  stream_write_uint16 cbPassword;;
  stream_write_uint16 cbAlternateShell;;
  stream_write_uint16 cbWorkingDir;;
  write_cb cbDomain domain;;
  write_cb cbUserName userName;;
  (if 0 <? cbPassword then stream_write password else ret tt);;
  stream_write_uint16 0;;
  write_cb cbAlternateShell alternateShell;;
  write_cb cbWorkingDir workingDir;;
  if 5 <=? rdp_version (core settings) then rdp_write_extended_info_packet local settings else ret settings.

(** ** The PDU *)

Definition rdp_recv_client_info {N U} `{Link N} `{Crypto} `{PduHandlers U} (settings : info_settings) :
    RM (N := N) (U := U) (bool * info_settings) :=
  let! (ok, length, _) := rdp_read_header in
  if negb ok then ret (false, settings) else
  let! securityFlags := pkt rdp_read_security_header in
  if Z.land securityFlags SEC_INFO_PKT =? 0 then ret (false, settings) else
  let! rdp := rdp_of in
  let! ok :=
    (if encryption (rdp_conf rdp) then
       if negb (Z.land securityFlags SEC_REDIRECTION_PKT =? 0) then ret false
       else if negb (Z.land securityFlags SEC_ENCRYPT =? 0) then rdp_decrypt (length - 4) securityFlags
       else ret true
     else ret true) in
  if negb ok then ret (false, settings) else
  pkt (rdp_read_info_packet settings).

Definition rdp_send_client_info {N} `{Link N} `{Crypto} (conf : rdpConf) (local : local_time)
    (settings : info_settings) : M (fpRdp N) (bool * info_settings) :=
  rdp_mod (fun rdp => set_sec_flags (Z.lor (fp_sec_flags rdp) SEC_INFO_PKT) rdp);;
  rdp_send_stream_init;;
  let! settings := on_stream (rdp_write_info_packet local settings) in
  let! ok := rdp_send conf MCS_GLOBAL_CHANNEL_ID in
  ret (ok, settings).

(** ** Save session info *)

Definition rdp_recv_logon_info_v1 : M STREAM unit :=
  let! _cbDomain := stream_read_uint32 in
  stream_seek 52;;
  let! _cbUserName := stream_read_uint32 in
  stream_seek 512;;
  stream_seek 4.

Definition rdp_recv_logon_info_v2 : M STREAM unit :=
  stream_seek 2;;
  stream_seek 4;;
  stream_seek 4;;
  let! cbDomain := stream_read_uint32 in
  let! cbUserName := stream_read_uint32 in
  stream_seek 558;;
  stream_seek cbDomain;;
  stream_seek cbUserName.

Definition rdp_recv_logon_plain_notify : M STREAM unit := stream_seek 576.

Definition rdp_recv_logon_error_info : M STREAM unit :=
  let! _errorNotificationType := stream_read_uint32 in
  let! _errorNotificationData := stream_read_uint32 in
  ret tt.

Definition rdp_recv_logon_info_extended (settings : info_settings) : M STREAM info_settings :=
  let! _Length := stream_read_uint16 in
  let! fieldsPresent := stream_read_uint32 in
  let! settings :=
    (if flag fieldsPresent LOGON_EX_AUTORECONNECTCOOKIE then
       let! _cbFieldData := stream_read_uint32 in
       let! c := rdp_read_server_auto_reconnect_cookie in
       ret (settings <| server_auto_reconnect_cookie := c |>)
     else ret settings) in
  (if flag fieldsPresent LOGON_EX_LOGONERRORS then
     let! _cbFieldData := stream_read_uint32 in
     rdp_recv_logon_error_info
   else ret tt);;
  stream_seek 570;;
  ret settings.

Definition rdp_recv_save_session_info (settings : info_settings) : M STREAM (bool * info_settings) :=
  let! infoType := stream_read_uint32 in
  if infoType =? INFO_TYPE_LOGON then rdp_recv_logon_info_v1;; ret (true, settings)
  else if infoType =? INFO_TYPE_LOGON_LONG then rdp_recv_logon_info_v2;; ret (true, settings)
  else if infoType =? INFO_TYPE_LOGON_PLAIN_NOTIFY then rdp_recv_logon_plain_notify;; ret (true, settings)
  else if infoType =? INFO_TYPE_LOGON_EXTENDED_INF then
    let! settings := rdp_recv_logon_info_extended settings in ret (true, settings)
  else ret (true, settings).

(** ** Texts *)

(** A [char*] and its text. *)
Inductive is_text : option (list Z) -> list Z -> Prop :=
| text_null : is_text None []
| text_some t : Forall scalar t -> is_text (Some (utf8_text t)) t.

(** A text in front of its terminating zero. *)
Definition cb_bytes (t : list Z) : list Z := utf16_text t ++ le16 0.
Definition nonempty (t : list Z) : option (list Z) := match t with [] => None | _ => Some (utf8_text t) end.

Lemma is_text_scalar o t : is_text o t -> Forall scalar t.
Proof. destruct 1; [constructor|assumption]. Qed.

Lemma text_bound t : Forall scalar t -> len (utf8_text t) <= 2 * len (utf16_text t).
Proof. intros Ht. destruct (text_lengths t (text_codepoints t Ht)) as (_ & _ & _ & H). lia. Qed.

Lemma Writes_text_out o t : is_text o t -> len (utf16_text t) < 65536 -> Writes (text_out o) [] (utf16_text t).
Proof.
  destruct 1 as [|t Ht]; intros Hl; [apply Writes_ret|]. cbn [text_out]. apply Writes_lift.
  apply uniconv_out_text; [exact Ht|]. pose proof (text_bound t Ht). lia.
Qed.

Lemma uint16_len (u : list Z) : len u < 65536 -> uint16 (len u) = len u.
Proof. intros Hl. unfold uint16. apply Z.mod_small. pose proof (len_nonneg u). lia. Qed.

Lemma Writes_cb u n : n = len u -> Writes (write_cb n u) (u ++ le16 0) tt.
Proof.
  intros ->. unfold write_cb. pose proof (len_nonneg u). eapply Writes_bind; [|apply Writes_uint16].
  destruct (Z.ltb_spec 0 (len u)) as [Hp|Hz].
  - eapply Writes_first; [apply Writes_array_prefix; lia|]. unfold len. rewrite Nat2Z.id, take_ge by lia. apply Writes_write.
  - destruct u; [apply Writes_ret|rewrite len_cons in Hz; pose proof (len_nonneg u); lia].
Qed.

Lemma c_string_text t : Forall scalar t -> c_string (utf8_text t) = utf8_text t.
Proof. intros Ht. rewrite <- (app_nil_r (utf8_text t)) at 1. apply (c_string_padded _ 0), utf8_nonzero, Ht. Qed.

(** Text followed by [k] two-byte zeros. *)
Lemma Reads_text_zeros t k n : Forall scalar t -> n = len (utf16_text t) + 2 * Z.of_nat k ->
  Reads (read_text n) (utf16_text t ++ replicate (2 * k) 0) (utf8_text t ++ replicate k 0).
Proof.
  intros Ht ->. unfold read_text. eapply Reads_last.
  - apply Reads_read. rewrite len_app. unfold len at 3. rewrite length_replicate. lia.
  - intros s _. unfold lift. rewrite uniconv_in_padded by exact Ht. rewrite adv_0. reflexivity.
Qed.

Lemma Reads_cb t : Forall scalar t -> Reads (read_cb (len (utf16_text t))) (cb_bytes t) (true, nonempty t).
Proof.
  intros Ht. unfold read_cb, cb_bytes. apply Reads_left; [rewrite len_app; reflexivity|].
  eapply Reads_bind; [|eapply Reads_last; [apply Reads_seek; reflexivity|apply Reads_ret]].
  destruct (Z.ltb_spec 0 (len (utf16_text t))) as [Hp|Hz].
  - pose proof (Reads_text_zeros t 0 (len (utf16_text t)) Ht ltac:(lia)) as Hr. cbn [replicate Nat.mul] in Hr.
    rewrite !app_nil_r in Hr. eapply Reads_last; [exact Hr|]. rewrite c_string_text by exact Ht.
    destruct t; [destruct (Z.lt_irrefl 0 Hp)|apply Reads_ret].
  - destruct t as [|cp t]; [apply Reads_ret|]. exfalso.
    assert (E : utf16_text (cp :: t) = utf16le cp ++ utf16_text t) by reflexivity. rewrite E, len_app in Hz.
    inversion Ht as [|? ? [_ Hcp] _]. pose proof (utf_lengths cp Hcp). pose proof (len_nonneg (utf16_text t)). lia.
Qed.

(** A text that is sent with its terminating zero. *)
Lemma Reads_text_zero t : Forall scalar t -> exists str,
  Reads (read_text (len (utf16_text t) + 2)) (cb_bytes t) str /\ c_string str = utf8_text t.
Proof.
  intros Ht. exists (utf8_text t ++ replicate 1 0). split.
  - apply (Reads_text_zeros t 1); [exact Ht|lia].
  - apply c_string_padded, utf8_nonzero, Ht.
Qed.

(** ** Times *)

Record time_ok (t : SYSTEM_TIME) : Prop := {
  ok_year : 0 <= wYear t < 65536;
  ok_month : 0 <= wMonth t < 65536;
  ok_weekday : 0 <= wDayOfWeek t < 65536;
  ok_day : 0 <= wDay t < 65536;
  ok_hour : 0 <= wHour t < 65536;
  ok_minute : 0 <= wMinute t < 65536;
  ok_second : 0 <= wSecond t < 65536;
  ok_milliseconds : 0 <= wMilliseconds t < 65536;
}.

Definition time_bytes (t : SYSTEM_TIME) : list Z :=
  le16 (wYear t) ++ le16 (wMonth t) ++ le16 (wDayOfWeek t) ++ le16 (wDay t) ++ le16 (wHour t) ++ le16 (wMinute t) ++
  le16 (wSecond t) ++ le16 (wMilliseconds t).

Lemma Writes_time t : Writes (rdp_write_system_time t) (time_bytes t) tt.
Proof. unfold rdp_write_system_time, time_bytes. do 7 (eapply Writes_bind; [apply Writes_uint16|]). apply Writes_uint16. Qed.

Lemma Reads_time t : time_ok t -> Reads rdp_read_system_time (time_bytes t) t.
Proof.
  intros []. unfold rdp_read_system_time, time_bytes. do 7 (eapply Reads_bind; [apply Reads_le16; assumption|]).
  eapply Reads_last; [apply Reads_le16; assumption|]. destruct t; apply Reads_ret.
Qed.

(** The local time, with its two texts. *)
Record local_ok (local : local_time) (st dl : list Z) : Prop := {
  ok_standard : standard_text local = utf8_text st;
  ok_standard_text : Forall scalar st;
  ok_standard_len : len (utf8_text st) <= 31;
  ok_daylight : daylight_text local = utf8_text dl;
  ok_daylight_text : Forall scalar dl;
  ok_daylight_len : len (utf8_text dl) <= 31;
}.

Definition zone_name (t : list Z) : list Z := utf16_text t ++ zeros (64 - len (utf16_text t)).
Definition zone_bytes (z : TIME_ZONE_INFO) (st dl : list Z) : list Z :=
  le32 (bias z) ++ zone_name st ++ time_bytes (standardDate z) ++ le32 (standardBias z) ++
  zone_name dl ++ time_bytes (daylightDate z) ++ le32 (daylightBias z).

Lemma name_fits t : Forall scalar t -> len (utf8_text t) <= 31 -> 0 <= len (utf16_text t) <= 62.
Proof. intros Ht Hl. destruct (text_lengths t (text_codepoints t Ht)) as (_ & _ & H & _). pose proof (len_nonneg (utf16_text t)). lia. Qed.

Lemma len_zone_name t : 0 <= len (utf16_text t) <= 62 -> len (zone_name t) = 64.
Proof. intros Hl. unfold zone_name. rewrite len_app, len_zeros by lia. lia. Qed.

Lemma Writes_zone_name t : 0 <= len (utf16_text t) <= 62 -> Writes (write_zone_name (utf16_text t)) (zone_name t) tt.
Proof.
  intros Hl. unfold write_zone_name, zone_name. rewrite Z.min_l by lia. eapply Writes_bind; [|apply Writes_zero; lia].
  unfold len. rewrite Nat2Z.id, take_ge by lia. apply Writes_write.
Qed.

Lemma Reads_zone_name t : Forall scalar t -> len (utf8_text t) <= 31 -> exists str,
  Reads (read_text 64) (zone_name t) str /\ strncpy 32 str = utf8_text t.
Proof.
  intros Ht Hl. pose proof (name_fits t Ht Hl) as H16. destruct (utf16_even t) as [u Hu].
  exists (utf8_text t ++ replicate (32 - u) 0). split.
  - assert (E : zone_name t = utf16_text t ++ replicate (2 * (32 - u)) 0).
    { unfold zone_name, zeros. do 2 f_equal. unfold len in *. lia. }
    rewrite E. apply Reads_text_zeros; [exact Ht|]. unfold len in *. lia.
  - unfold strncpy. rewrite c_string_padded by (apply utf8_nonzero, Ht). apply take_ge. unfold len in Hl. lia.
Qed.

Lemma local_names local st dl z : local_ok local st dl ->
  standardName (rdp_get_client_time_zone local z) = utf8_text st /\
  daylightName (rdp_get_client_time_zone local z) = utf8_text dl.
Proof.
  intros [Es Hs Ls Ed Hd Ld].
  assert (E1 : standardName (rdp_get_client_time_zone local z) = take 31 (c_string (standard_text local)))
    by (unfold rdp_get_client_time_zone; destruct (0 <? _); reflexivity).
  assert (E2 : daylightName (rdp_get_client_time_zone local z) = take 31 (c_string (daylight_text local)))
    by (unfold rdp_get_client_time_zone; destruct (0 <? _); reflexivity).
  rewrite E1, E2, Es, Ed, !c_string_text by assumption. split; apply take_ge; unfold len in *; lia.
Qed.

Lemma Writes_zone local st dl z : local_ok local st dl ->
  Writes (rdp_write_client_time_zone local z) (zone_bytes (rdp_get_client_time_zone local z) st dl)
    (rdp_get_client_time_zone local z).
Proof.
  intros Hlo. destruct (local_names local st dl z Hlo) as [E1 E2]. destruct Hlo as [_ Hs Ls _ Hd Ld].
  unfold rdp_write_client_time_zone, zone_bytes. rewrite E1, E2.
  eapply Writes_first; [apply Writes_lift, uniconv_out_text; [exact Hs|lia]|].
  eapply Writes_first; [apply Writes_lift, uniconv_out_text; [exact Hd|lia]|].
  eapply Writes_bind; [apply Writes_uint32|]. eapply Writes_bind; [apply Writes_zone_name, name_fits; assumption|].
  eapply Writes_bind; [apply Writes_time|]. eapply Writes_bind; [apply Writes_uint32|].
  eapply Writes_bind; [apply Writes_zone_name, name_fits; assumption|]. eapply Writes_bind; [apply Writes_time|].
  eapply Writes_last; [apply Writes_uint32|apply Writes_ret].
Qed.

Lemma len_zone_bytes z st dl : 0 <= len (utf16_text st) <= 62 -> 0 <= len (utf16_text dl) <= 62 -> len (zone_bytes z st dl) = 172.
Proof. intros Hs Hd. unfold zone_bytes. rewrite !len_app, !len_zone_name by assumption. reflexivity. Qed.

Lemma Reads_zone local st dl z old : local_ok local st dl -> time_ok (standardDate z) -> time_ok (daylightDate z) ->
  let z' := rdp_get_client_time_zone local z in
  Reads (rdp_read_client_time_zone old) (zone_bytes z' st dl) (true, z').
Proof.
  intros Hlo Ht1 Ht2 z'. destruct (local_names local st dl z Hlo) as [E1 E2]. fold z' in E1, E2.
  destruct Hlo as [_ Hs Ls _ Hd Ld]. unfold rdp_read_client_time_zone.
  apply Reads_left; [rewrite len_zone_bytes by (apply name_fits; assumption); lia|]. unfold zone_bytes.
  assert (Hb : 0 <= bias z' < 2 ^ 32 /\ 0 <= standardBias z' < 2 ^ 32 /\ 0 <= daylightBias z' < 2 ^ 32 /\
               standardDate z' = standardDate z /\ daylightDate z' = daylightDate z).
  { unfold z', rdp_get_client_time_zone. destruct (0 <? _); repeat split; discriminate || reflexivity. }
  destruct Hb as (Hb1 & Hb2 & Hb3 & Ed1 & Ed2).
  destruct (Reads_zone_name st Hs Ls) as (str1 & R1 & S1). destruct (Reads_zone_name dl Hd Ld) as (str2 & R2 & S2).
  eapply Reads_bind; [apply Reads_le32, Hb1|]. eapply Reads_bind; [exact R1|].
  eapply Reads_bind; [apply Reads_time; rewrite Ed1; exact Ht1|]. eapply Reads_bind; [apply Reads_le32, Hb2|].
  eapply Reads_bind; [exact R2|]. eapply Reads_bind; [apply Reads_time; rewrite Ed2; exact Ht2|].
  eapply Reads_last; [apply Reads_le32, Hb3|]. rewrite S1, S2, <- E1, <- E2. destruct old, z'. apply Reads_ret.
Qed.

(** ** The packet *)

(** The texts of a client. *)
Record info_texts : Type := mkTexts {
  x_domain : list Z; x_user : list Z; x_password : list Z; x_shell : list Z; x_directory : list Z;
  x_address : list Z; x_client_dir : list Z; x_standard : list Z; x_daylight : list Z;
}.

(** A client that logs on with a password and does not reconnect. *)
Record info_ok (c : info_settings) (x : info_texts) : Prop := {
  ok_domain : is_text (domain c) (x_domain x);
  ok_user : is_text (username c) (x_user x);
  ok_password : is_text (password c) (x_password x);
  ok_no_cookie : default [] (password_cookie c) = [];
  ok_shell : is_text (shell c) (x_shell x);
  ok_directory : is_text (directory c) (x_directory x);
  ok_address : is_text (ip_address c) (x_address x);
  ok_client_dir : is_text (client_dir c) (x_client_dir x);
  ok_standard_date : time_ok (standardDate (client_time_zone c));
  ok_daylight_date : time_ok (daylightDate (client_time_zone c));
  ok_performance : 0 <= performance_flags (core c) < 2 ^ 32;
  ok_no_reconnect : uint16 (cs_cbLen (client_auto_reconnect_cookie c)) = 0;
}.

Definition extended_bytes (local : local_time) (c : info_settings) (x : info_texts) : list Z :=
  le16 (if ipv6 c then ADDRESS_FAMILY_INET6 else ADDRESS_FAMILY_INET) ++
  le16 (len (utf16_text (x_address x)) + 2) ++ cb_bytes (x_address x) ++
  le16 (len (utf16_text (x_client_dir x)) + 2) ++ cb_bytes (x_client_dir x) ++
  zone_bytes (rdp_get_client_time_zone local (client_time_zone c)) (x_standard x) (x_daylight x) ++
  le32 0 ++ le32 (performance_flags (core c)) ++ le16 0.

Definition packet_head (c : info_settings) (x : info_texts) : list Z :=
  le32 0 ++ le32 (info_flags c) ++ le16 (len (utf16_text (x_domain x))) ++ le16 (len (utf16_text (x_user x))) ++
  le16 (len (utf16_text (x_password x))) ++ le16 (len (utf16_text (x_shell x))) ++ le16 (len (utf16_text (x_directory x))) ++
  cb_bytes (x_domain x) ++ cb_bytes (x_user x) ++ cb_bytes (x_password x) ++ cb_bytes (x_shell x) ++ cb_bytes (x_directory x).

Definition info_bytes (local : local_time) (c : info_settings) (x : info_texts) : list Z :=
  packet_head c x ++ if 5 <=? rdp_version (core c) then extended_bytes local c x else [].

(** The lengths that the packet announces fit into their fields. *)
Definition lengths_ok (x : info_texts) : Prop :=
  Forall (fun t => len (utf16_text t) < 65534)
    [x_domain x; x_user x; x_password x; x_shell x; x_directory x; x_address x; x_client_dir x].

(** What the client holds after writing, and the server after reading. *)
Definition zoned (local : local_time) (c : info_settings) : info_settings :=
  if 5 <=? rdp_version (core c)
  then c <| client_time_zone := rdp_get_client_time_zone local (client_time_zone c) |> else c.
Definition logon_view (c : info_settings) (x : info_texts) (sv : info_settings) : info_settings :=
  sv <| autologon := autologon c |> <| remote_app := remote_app c |> <| console_audio := console_audio c |>
     <| compression := compression c |> <| domain := or_old (nonempty (x_domain x)) (domain sv) |>
     <| username := or_old (nonempty (x_user x)) (username sv) |>
     <| password := or_old (nonempty (x_password x)) (password sv) |>
     <| shell := or_old (nonempty (x_shell x)) (shell sv) |>
     <| directory := or_old (nonempty (x_directory x)) (directory sv) |>.
Definition extended_view (local : local_time) (c : info_settings) (x : info_texts) (sv : info_settings) : info_settings :=
  sv <| ipv6 := ipv6 c |> <| ip_address := Some (utf8_text (x_address x)) |>
     <| client_dir := Some (utf8_text (x_client_dir x)) |>
     <| client_time_zone := rdp_get_client_time_zone local (client_time_zone c) |>
     <| core := (core sv) <| performance_flags := performance_flags (core c) |> |>.
Definition info_view (local : local_time) (c : info_settings) (x : info_texts) (sv : info_settings) : info_settings :=
  let sv := logon_view c x sv in
  if 5 <=? rdp_version (core sv) then extended_view local c x sv else sv.

Lemma len_cb_bytes t : len (cb_bytes t) = len (utf16_text t) + 2.
Proof. unfold cb_bytes. rewrite len_app. reflexivity. Qed.

Lemma len_front (a b : list Z) n : n <= len a -> n <= len (a ++ b).
Proof. intros Hn. rewrite len_app. pose proof (len_nonneg b). lia. Qed.

Lemma is_text_out o t : is_text o t -> len (utf16_text t) < 65534 ->
  Writes (text_out o) [] (utf16_text t) /\ uint16 (len (utf16_text t)) = len (utf16_text t) /\ Forall scalar t /\
  0 <= len (utf16_text t) < 65536 /\ 0 <= len (utf16_text t) + 2 < 65536.
Proof.
  intros Ho Hl. pose proof (len_nonneg (utf16_text t)). split; [apply Writes_text_out; [exact Ho|lia]|].
  split; [apply uint16_len; lia|]. split; [eapply is_text_scalar, Ho|lia].
Qed.

Lemma Writes_extended local c x : info_ok c x -> lengths_ok x -> local_ok local (x_standard x) (x_daylight x) ->
  Writes (rdp_write_extended_info_packet local c) (extended_bytes local c x)
    (c <| client_time_zone := rdp_get_client_time_zone local (client_time_zone c) |>).
Proof.
  intros [_ _ _ _ _ _ Ha Hc _ _ _ Hr] Hl Hlo. repeat (inversion Hl as [|? ? ? Hl']; subst; clear Hl; rename Hl' into Hl).
  destruct (is_text_out _ _ Ha ltac:(assumption)) as (W1 & E1 & _). destruct (is_text_out _ _ Hc ltac:(assumption)) as (W2 & E2 & _).
  unfold rdp_write_extended_info_packet, extended_bytes.
  eapply Writes_first; [exact W1|]. eapply Writes_first; [exact W2|]. rewrite E1, E2, Hr.
  eapply Writes_bind; [apply Writes_uint16|]. eapply Writes_bind; [apply Writes_uint16|].
  eapply Writes_bind; [apply Writes_cb; reflexivity|]. eapply Writes_bind; [apply Writes_uint16|].
  eapply Writes_bind; [apply Writes_cb; reflexivity|]. eapply Writes_bind; [apply Writes_zone, Hlo|].
  eapply Writes_bind; [apply Writes_uint32|]. eapply Writes_bind; [apply Writes_uint32|].
  eapply Writes_last; [apply Writes_uint16|]. apply Writes_ret.
Qed.

Lemma Reads_extended local c x sv : info_ok c x -> lengths_ok x -> local_ok local (x_standard x) (x_daylight x) ->
  Reads (rdp_read_extended_info_packet sv) (extended_bytes local c x) (true, extended_view local c x sv).
Proof.
  intros [_ _ _ _ _ _ Ha Hc Ht1 Ht2 Hp _] Hl Hlo. repeat (inversion Hl as [|? ? ? Hl']; subst; clear Hl; rename Hl' into Hl).
  destruct (is_text_out _ _ Ha ltac:(assumption)) as (_ & _ & S1 & _ & L1).
  destruct (is_text_out _ _ Hc ltac:(assumption)) as (_ & _ & S2 & _ & L2).
  destruct (Reads_text_zero _ S1) as (str1 & R1 & C1). destruct (Reads_text_zero _ S2) as (str2 & R2 & C2).
  unfold rdp_read_extended_info_packet, extended_bytes.
  eapply Reads_bind; [apply Reads_le16; destruct (ipv6 c); split; discriminate || reflexivity|].
  eapply Reads_bind; [apply Reads_le16; exact L1|].
  apply Reads_left; [apply len_front; rewrite len_cb_bytes; lia|].
  eapply Reads_bind; [exact R1|]. eapply Reads_bind; [apply Reads_le16; exact L2|].
  apply Reads_left; [apply len_front; rewrite len_cb_bytes; lia|].
  eapply Reads_bind; [exact R2|]. eapply Reads_bind; [apply Reads_zone; assumption|]. cbn [negb].
  eapply Reads_bind; [apply Reads_seek; reflexivity|]. eapply Reads_bind; [apply Reads_le32; exact Hp|].
  eapply Reads_last; [apply Reads_le16; lia|]. cbn [Z.ltb Z.compare]. rewrite C1, C2.
  eapply Reads_eq; [apply Reads_ret|reflexivity|]. unfold extended_view. destruct sv, (ipv6 c); reflexivity.
Qed.

Lemma info_flags_spec c : 0 <= info_flags c < 2 ^ 32 /\ flag (info_flags c) INFO_AUTOLOGON = autologon c /\
  flag (info_flags c) INFO_RAIL = remote_app c /\ flag (info_flags c) INFO_REMOTECONSOLEAUDIO = console_audio c /\
  flag (info_flags c) INFO_COMPRESSION = compression c.
Proof.
  unfold info_flags. destruct (autologon c), (remote_app c), (console_audio c), (compression c);
    repeat split; discriminate || reflexivity.
Qed.

Lemma Writes_password c x : info_ok c x -> len (utf16_text (x_password x)) < 65534 ->
  Writes (info_password c) [] (len (utf16_text (x_password x)), utf16_text (x_password x)).
Proof.
  intros [_ _ Hp Hn _ _ _ _ _ _ _ _] Hl. destruct (is_text_out _ _ Hp Hl) as (W & E & _).
  assert (Hplain : Writes (let! p := text_out (password c) in ret (uint16 (len p), p)) []
                     (len (utf16_text (x_password x)), utf16_text (x_password x))).
  { eapply Writes_first; [exact W|]. rewrite E. apply Writes_ret. }
  unfold info_password. destruct (password_cookie c) as [cookie|]; [|exact Hplain].
  cbn in Hn. unfold id in Hn. subst cookie. exact Hplain.
Qed.

Lemma Writes_info local c x : info_ok c x -> lengths_ok x -> local_ok local (x_standard x) (x_daylight x) ->
  Writes (rdp_write_info_packet local c) (info_bytes local c x) (zoned local c).
Proof.
  intros Hc Hl Hlo. pose proof Hl as Hx. pose proof Hc as [Hd Hu _ _ Hs Hw _ _ _ _ _ _].
  repeat (inversion Hx as [|? ? ? Hx']; subst; clear Hx; rename Hx' into Hx).
  destruct (is_text_out _ _ Hd ltac:(assumption)) as (W1 & E1 & _). destruct (is_text_out _ _ Hu ltac:(assumption)) as (W2 & E2 & _).
  pose proof (Writes_password c x Hc ltac:(assumption)) as W3.
  destruct (is_text_out _ _ Hs ltac:(assumption)) as (W4 & E4 & _). destruct (is_text_out _ _ Hw ltac:(assumption)) as (W5 & E5 & _).
  unfold rdp_write_info_packet, info_bytes, packet_head. rewrite <- !app_assoc.
  eapply Writes_first; [exact W1|]. eapply Writes_first; [exact W2|]. eapply Writes_first; [exact W3|].
  eapply Writes_first; [exact W4|]. eapply Writes_first; [exact W5|]. rewrite E1, E2, E4, E5.
  do 2 (eapply Writes_bind; [apply Writes_uint32|]). do 5 (eapply Writes_bind; [apply Writes_uint16|]).
  do 2 (eapply Writes_bind; [apply Writes_cb; reflexivity|]). unfold cb_bytes at 1. rewrite <- app_assoc.
  eapply Writes_bind.
  { instantiate (1 := tt). destruct (Z.ltb_spec 0 (len (utf16_text (x_password x)))) as [Hp|Hz]; [apply Writes_write|].
    destruct (utf16_text (x_password x)) as [|b u]; [apply Writes_ret|rewrite len_cons in Hz; pose proof (len_nonneg u); lia]. }
  eapply Writes_bind; [apply Writes_uint16|]. do 2 (eapply Writes_bind; [apply Writes_cb; reflexivity|]).
  unfold zoned. destruct (5 <=? rdp_version (core c)); [apply Writes_extended; assumption|apply Writes_ret].
Qed.

Lemma Reads_info local c x sv : info_ok c x -> lengths_ok x -> local_ok local (x_standard x) (x_daylight x) ->
  (5 <=? rdp_version (core sv)) = (5 <=? rdp_version (core c)) ->
  Reads (rdp_read_info_packet sv) (info_bytes local c x) (true, info_view local c x sv).
Proof.
  intros Hc Hl Hlo Hv. pose proof Hl as Hx. pose proof Hc as [Hd Hu Hp _ Hs Hw _ _ _ _ _ _].
  repeat (inversion Hx as [|? ? ? Hx']; subst; clear Hx; rename Hx' into Hx).
  destruct (is_text_out _ _ Hd ltac:(assumption)) as (_ & _ & S1 & L1 & _).
  destruct (is_text_out _ _ Hu ltac:(assumption)) as (_ & _ & S2 & L2 & _).
  destruct (is_text_out _ _ Hp ltac:(assumption)) as (_ & _ & S3 & L3 & _).
  destruct (is_text_out _ _ Hs ltac:(assumption)) as (_ & _ & S4 & L4 & _).
  destruct (is_text_out _ _ Hw ltac:(assumption)) as (_ & _ & S5 & L5 & _).
  destruct (info_flags_spec c) as (Hf & F1 & F2 & F3 & F4).
  unfold rdp_read_info_packet, info_bytes, packet_head. rewrite <- !app_assoc.
  eapply Reads_bind; [apply Reads_seek; reflexivity|]. eapply Reads_bind; [apply Reads_le32; exact Hf|]. rewrite F1, F2, F3, F4.
  do 5 (eapply Reads_bind; [apply Reads_le16; assumption|]).
  eapply Reads_bind; [apply Reads_cb, S1|]. cbn [negb]. eapply Reads_bind; [apply Reads_cb, S2|]. cbn [negb].
  eapply Reads_bind; [apply Reads_cb, S3|]. cbn [negb]. eapply Reads_bind; [apply Reads_cb, S4|]. cbn [negb].
  eapply Reads_bind; [apply Reads_cb, S5|]. cbn [negb]. unfold info_view.
  match goal with |- Reads (if _ then rdp_read_extended_info_packet ?v else _) _ _ =>
    replace v with (logon_view c x sv) by (destruct sv; reflexivity) end.
  replace (core (logon_view c x sv)) with (core sv) by (destruct sv; reflexivity).
  rewrite Hv. destruct (5 <=? rdp_version (core c)); [apply Reads_extended; assumption|apply Reads_ret].
Qed.

(** ** Packets with security flags *)

Section flagged.
Context {N N' U : Type} (l : TRANSPORT_LAYER) `{HLink : LinkLaws N l} `{HLink' : Link N'}
  `{HC : Crypto} `{HL : !CryptoLaws} `{HH : PduHandlers U}.

(** The security header of a packet that carries flags of its own. *)
Definition flagged_sec_bytes (crypt : bool) : Z := if crypt then 12 else 4.

Lemma flagged_init_run crypt f (r : fpRdp N) (rb : rdpRdp N' U) : linked l crypt r rb -> 0 < f ->
  exists size h sec post, rdp_send_stream_init (set_sec_flags f r)
    = Done (tt, set_sec_flags (Z.lor f (packet_flags r)) (with_send_stream (behind size (h ++ sec) post) r)) /\
    len h = 15 /\ len sec = flagged_sec_bytes crypt /\ 2048 <= size <= 2 ^ 20 /\ size <= 15 + len sec + len post.
Proof.
  intros [Hl Hf Hsz Hpos Hfl Hcr Hm _ _ _ _] Hpf.
  destruct (stream_check_size_fits 2048 (stream_of r) Hf) as (s1 & E & [Hp1 Hz1] & Hp & _ & Hfit & _ & Hmax & _);
    [lia|unfold INT_MAX; lia|].
  destruct (app_split (s_data s1) (15 + flagged_sec_bytes crypt)) as (hs & post & Hd & Hhs);
    [destruct crypt; cbn [flagged_sec_bytes]; lia|].
  destruct (app_split hs 15) as (h & sec & -> & Hh); [destruct crypt; cbn [flagged_sec_bytes] in *; lia|].
  rewrite len_app in Hhs. exists (s_size s1), h, sec, post.
  set (r0 := set_sec_flags f r).
  assert (Hinit : on_fp_transport (transport_send_stream_init 2048) r0
                  = Done (tt, with_send_stream (behind (s_size s1) [] (h ++ sec ++ post)) r0)).
  { unfold on_fp_transport, zoom, transport_send_stream_init, zoom, bind. fold (stream_of r).
    change (t_send_stream (fp_transport r0)) with (stream_of r). rewrite E.
    cbn. unfold set_p, behind. rewrite Hd, <- app_assoc. reflexivity. }
  split; [|rewrite Hd, !len_app in Hz1; repeat split; lia]. subst r0.
  unfold rdp_send_stream_init. rewrite (bind_Done _ _ _ _ _ Hinit).
  erewrite bind_Done by (apply on_stream_run; apply (seek_behind (s_size s1) [] h (sec ++ post)); exact (eq_sym Hh)).
  unfold rdp_security_stream_init. unfold bind at 1, rdp_get. cbn [fp_do_crypt with_send_stream set_sec_flags].
  unfold packet_flags. rewrite Hcr. destruct crypt; cbn [flagged_sec_bytes] in Hhs.
  - erewrite bind_Done by (apply on_stream_run; apply (seek_behind (s_size s1) h sec post); lia).
    cbn [fp_encryption_method with_send_stream set_sec_flags]. rewrite (proj2 (Z.eqb_neq _ _) Hm), bind_ret.
    unfold bind at 1, rdp_mod. cbn [fp_do_secure_checksum with_send_stream fp_sec_flags set_sec_flags].
    destruct (fp_do_secure_checksum r); [rewrite Z.lor_assoc|]; reflexivity.
  - cbn [fp_sec_flags with_send_stream set_sec_flags]. rewrite (proj2 (Z.eqb_neq f 0)), Z.lor_0_r by lia. cbn [negb].
    erewrite on_stream_run by (apply (seek_behind (s_size s1) h sec post); lia). reflexivity.
Qed.

(** Sending without encryption, but with flags. *)
Lemma send_flags_run conf ch (r : fpRdp N) size h sec payload post :
  let n := 19 + len payload in
  n < 0x8000 -> 0 < fp_sec_flags r -> Z.land (fp_sec_flags r) SEC_ENCRYPT = 0 -> t_layer (fp_transport r) = l ->
  len h = 15 -> len sec = 4 -> stream_of r = mkSTREAM size n (h ++ sec ++ payload ++ post) ->
  let pdu := rdp_header_bytes conf n ch ++ le16 (fp_sec_flags r) ++ le16 0 ++ payload in
  exists ok r' k, rdp_send conf ch r = Done (ok, r') /\ sent r' = sent r ++ take k pdu /\
    if ok : bool then (length pdu <= k)%nat /\ after_send l size pdu post (fp_sec r) (fp_cfg r) r'
    else t_layer (fp_transport r') = TRANSPORT_LAYER_CLOSED /\ ~ reliable (N := N) l.
Proof.
  intros n Hn Hf Hne Hl Hh Hsec Hs pdu. pose proof (len_nonneg payload).
  assert (Hsb : len sec = rdp_get_sec_bytes r).
  { unfold rdp_get_sec_bytes. rewrite Hne, (proj2 (Z.eqb_neq (fp_sec_flags r) 0)) by lia. exact Hsec. }
  pose proof (send_headers_run conf ch (fun _ => ret tt) [] r size h sec [] payload post) as Hrun. cbv zeta in Hrun.
  rewrite Hsec in Hrun. change (15 + 4 + len [] + len payload) with n in Hrun. rewrite Hsec in Hsb.
  unfold rdp_send. rewrite Hrun; auto; [|apply Writes_ret]. clear Hrun. cbn [app].
  unfold rdp_security_stream_out. rewrite bind_assoc. unfold bind at 1, rdp_get.
  cbn [fp_sec_flags with_send_stream]. rewrite (proj2 (Z.eqb_neq (fp_sec_flags r) 0)) by lia. cbn [negb]. rewrite bind_assoc.
  erewrite bind_Done by (apply on_stream_run; apply (Writes_behind _ (le16 (fp_sec_flags r) ++ le16 0) tt size
    (rdp_header_bytes conf n ch) sec); [eapply Writes_bind; apply Writes_uint16|exact (eq_sym Hsec)]).
  rewrite Hne. cbn [Z.eqb negb]. rewrite bind_assoc, bind_ret, bind_assoc. unfold bind at 1, rdp_mod. rewrite bind_ret.
  replace (uint16 (n + 0)) with n by (unfold uint16; rewrite Z.mod_small; lia).
  assert (Hpl : len pdu = n) by (unfold pdu; rewrite !len_app, len_rdp_header; change (len (le16 _)) with 2; unfold n; lia).
  match goal with |- context [bind (on_stream (stream_set_pos n)) _ ?x] => set (r1 := x) end.
  assert (Es : stream_of r1 = mkSTREAM size 19 (pdu ++ post)).
  { change (behind size (rdp_header_bytes conf n ch ++ le16 (fp_sec_flags r) ++ le16 0) (payload ++ post)
            = mkSTREAM size 19 (pdu ++ post)).
    unfold behind, pdu. rewrite !len_app, len_rdp_header, <- !app_assoc. reflexivity. }
  exact (send_tail_run l size 19 pdu post n r1 Hl Es (eq_sym Hpl) ltac:(unfold n; lia) eq_refl).
Qed.

(** The packets with a flag of their own. *)
Definition own_flag (f : Z) : Prop := f = SEC_INFO_PKT \/ f = SEC_LICENSE_PKT.

Lemma own_flags crypt f (r : fpRdp N) : own_flag f -> fp_do_crypt r = crypt ->
  let flags := Z.lor f (packet_flags r) in
  0 < flags < 65536 /\ Z.land flags SEC_REDIRECTION_PKT = 0 /\ Z.land flags f = f /\
  Z.land flags SEC_ENCRYPT = if crypt then SEC_ENCRYPT else 0.
Proof.
  intros Hf Hc. cbv zeta. unfold packet_flags. rewrite Hc.
  destruct Hf as [-> | ->], crypt, (fp_do_secure_checksum r); repeat split; discriminate || reflexivity.
Qed.

(** What a receiver finds in a packet: the headers, and the payload after it has
    decrypted what follows them. *)
Record opens (crypt : bool) (flags ch : Z) (payload pdu : list Z) (rb rb' : rdpRdp N' U) (s' : STREAM) : Prop := {
  op_header : rdp_read_header (mkSTREAM (len pdu) 0 pdu, rb)
              = Done ((true, len pdu - 15, Some ch), (adv 15 (mkSTREAM (len pdu) 0 pdu), rb));
  op_security : rdp_read_security_header (adv 15 (mkSTREAM (len pdu) 0 pdu))
              = Done (flags, adv 19 (mkSTREAM (len pdu) 0 pdu));
  op_decrypt : if crypt then rdp_decrypt (len pdu - 19) flags (adv 19 (mkSTREAM (len pdu) 0 pdu), rb) = Done (true, (s', rb'))
               else s' = adv 19 (mkSTREAM (len pdu) 0 pdu) /\ rb' = rb;
  op_payload : holds s' payload;
  op_left : stream_get_left s' = len payload;
}.

Lemma opens_headers conf n ch flags rest (rb : rdpRdp N' U) :
  let pdu := rdp_header_bytes conf n ch ++ le16 flags ++ le16 0 ++ rest in
  n = 19 + len rest -> n < 0x8000 -> 1001 <= mcs_user_id conf < 65536 -> 0 <= ch < 65536 -> 0 <= flags < 65536 ->
  len pdu = n /\ rdp_read_header (mkSTREAM (len pdu) 0 pdu, rb)
     = Done ((true, len pdu - 15, Some ch), (adv 15 (mkSTREAM (len pdu) 0 pdu), rb)) /\
  rdp_read_security_header (adv 15 (mkSTREAM (len pdu) 0 pdu)) = Done (flags, adv 19 (mkSTREAM (len pdu) 0 pdu)) /\
  holds (adv 19 (mkSTREAM (len pdu) 0 pdu)) rest.
Proof.
  intros pdu Hn Hlt Hu Hc Hf.
  assert (Hr : len (le16 flags ++ le16 0 ++ rest) = 4 + len rest) by (rewrite !len_app; change (len (le16 _)) with 2; lia).
  assert (Hl : len pdu = n) by (unfold pdu; rewrite len_app, len_rdp_header; lia).
  destruct (read_header_run conf n ch (le16 flags ++ le16 0 ++ rest) (mkSTREAM (len pdu) 0 pdu) rb) as [E Hb]; auto;
    try lia; try (unfold stream_get_left; cbn [s_size s_p]; lia).
  { fold pdu. rewrite <- (app_nil_r pdu) at 2. apply (holds_start (len pdu) pdu []). lia. }
  rewrite app_assoc in Hb. destruct (holds_app _ _ _ Hb) as [H1 H2]. rewrite adv_adv in H2.
  split; [exact Hl|]. split; [rewrite E; do 4 f_equal; lia|]. split; [|exact H2].
  rewrite (Reads_security_header flags Hf _ H1), adv_adv. reflexivity.
Qed.

Lemma linked_after crypt (r r' : fpRdp N) (rb rb' : rdpRdp N' U) size pdu post k :
  linked l crypt r rb -> after_send l size pdu post k (fp_cfg r) r' -> len pdu <= 2 ^ 16 -> len pdu <= size <= 2 ^ 20 ->
  size <= len pdu + len post -> (crypt = true -> paired k (fp_sec (rdp_out rb'))) ->
  rb' = with_sec (fp_sec (rdp_out rb')) rb -> linked l crypt r' rb'.
Proof.
  intros [Hl _ _ _ Hfl Hcr Hm Hm' Hpair Henc' Hdis] [Al As Ak Ac Af] Hp Hsz Hfit Hk Hrb.
  unfold fp_cfg in Ac. injection Ac as Ac1 Ac2 Ac3. pose proof (len_nonneg pdu).
  split; rewrite ?Ac1, ?Ac3, ?As, ?Ak; try assumption; unfold behind; cbn [s_size s_p s_data]; try lia;
    try (split; cbn [s_size s_p s_data]; rewrite ?len_app; lia); rewrite Hrb; assumption.
Qed.

Lemma flagged_delivery {A} conf ch crypt f (w : M STREAM A) a payload (r : fpRdp N) (rb : rdpRdp N' U) :
  linked l crypt r rb -> l <> TRANSPORT_LAYER_TSG -> own_flag f -> Writes w payload a -> len payload <= 2021 ->
  1001 <= mcs_user_id conf < 65536 -> 0 <= ch < 65536 ->
  exists ok r' k pdu s' rb',
    (rdp_send_stream_init;; let! v := on_stream w in let! ok := rdp_send conf ch in ret (ok, v)) (set_sec_flags f r)
      = Done ((ok, a), r') /\
    sent r' = sent r ++ take k pdu /\
    (if ok : bool then (length pdu <= k)%nat /\ linked l crypt r' rb' /\ fp_cfg r' = fp_cfg r /\
       (crypt = true -> paired (fp_sec (rdp_out rb)) (fp_sec r) -> paired (fp_sec (rdp_out rb')) (fp_sec r'))
     else t_layer (fp_transport r') = TRANSPORT_LAYER_CLOSED /\ ~ reliable (N := N) l) /\
    pdu_length l pdu = Done (len pdu) /\ opens crypt (Z.lor f (packet_flags r)) ch payload pdu rb rb' s' /\
    rb' = with_sec (fp_sec (rdp_out rb')) rb.
Proof.
  intros Hln Htsg Hf Hw Hp Hu Hc. pose proof (len_nonneg payload).
  destruct (own_flags crypt f r Hf (ln_crypt _ _ _ _ Hln)) as (Hfr & Hred & _ & Henc).
  destruct (flagged_init_run crypt f r rb Hln) as (size & h & sec & post & Ei & Hh & Hsec & Hsz & Hpost);
    [destruct Hf as [-> | ->]; reflexivity|].
  destruct (app_split post (len payload)) as (hole & post' & -> & Hhole); [destruct crypt; cbn in Hsec; lia|].
  rewrite len_app in Hpost.
  set (flags := Z.lor f (packet_flags r)) in *.
  set (r1 := set_sec_flags flags (with_send_stream (behind size ((h ++ sec) ++ payload) post') r)).
  assert (Ew : on_stream w (set_sec_flags flags (with_send_stream (behind size (h ++ sec) (hole ++ post')) r)) = Done (a, r1)).
  { erewrite on_stream_run by (apply (Writes_behind w payload a size (h ++ sec) hole post' Hw); lia). reflexivity. }
  assert (Hs1 : stream_of r1 = mkSTREAM size (15 + len sec + len payload) (h ++ sec ++ payload ++ post')).
  { change (stream_of r1) with (behind size ((h ++ sec) ++ payload) post'). unfold behind.
    rewrite !len_app, Hh, <- !app_assoc. f_equal. }
  rewrite (bind_Done _ _ _ _ _ Ei), (bind_Done _ _ _ _ _ Ew).
  pose proof Hln as [Hl _ _ _ Hfl Hcr Hm Hm' Hpair Henc' Hdis].
  assert (Hlinked : forall pdu k (r' : fpRdp N) rb', after_send l size pdu post' k (fp_cfg r1) r' ->
     len pdu = 15 + len sec + len payload -> (crypt = true -> paired k (fp_sec (rdp_out rb'))) ->
     rb' = with_sec (fp_sec (rdp_out rb')) rb -> linked l crypt r' rb').
  { intros pdu k r' rb' Ha Hpl Hk Hrb. apply (linked_after crypt r r' rb rb' size pdu post' k); auto; destruct crypt; cbn [flagged_sec_bytes] in Hsec; lia. }
  destruct crypt; cbn [flagged_sec_bytes] in Hsec.
  - destruct (send_crypt_run l conf ch (fun _ => ret tt) [] r1 (fp_sec (rdp_out rb)) size h sec [] payload post')
      as (ok & r' & k & sig & cipher & a' & b' & E & Hout & Hok & Hsl & Hcl & Hd & [Hp' Hback]); auto; rewrite ?len_nil, ?Z.add_0_r;
      try lia; try (change (fp_sec_flags r1) with flags; rewrite Henc; reflexivity); try apply Writes_ret.
    { rewrite Hs1. f_equal. lia. }
    cbn [app] in Hcl, Hd. rewrite len_nil, Z.add_0_r in *. change (fp_sec_flags r1) with flags in Hout, Hok.
    set (pdu := rdp_header_bytes conf (27 + len payload) ch ++ le16 flags ++ le16 0 ++ sig ++ cipher) in *.
    destruct (opens_headers conf (27 + len payload) ch flags (sig ++ cipher) rb) as (Hpl & Eh & Es & Hrest); auto;
      try (rewrite len_app; lia); try lia. fold pdu in Hpl, Eh, Es, Hrest.
    destruct (decrypt_run (8 + len payload) flags sig cipher payload b' _ rb Hrest Hm' Hsl Hcl eq_refl Hd)
      as (s' & Ed & Hh' & Hps & Hss).
    { rewrite <- (pair_len _ _ Hp'), <- (pair_sign _ _ Hp'), (pair_sign_16 _ _ Hp').
      destruct (pair_key_len _ _ Hp'); lia. }
    exists ok, r', k, pdu, s', (with_sec b' rb). rewrite (bind_Done _ _ _ _ _ E). split; [reflexivity|].
    split; [exact Hout|]. split; [|split; [rewrite Hpl; apply rdp_pdu_length; [exact Htsg|lia]|split; [split; auto|reflexivity]]].
    + destruct ok; [|exact Hok]. split; [apply Hok|].
      split; [apply (Hlinked pdu a' r' _ (proj2 Hok)); auto; lia|]. split; [apply (as_cfg _ _ _ _ _ _ _ (proj2 Hok))|].
      intros _. rewrite (as_sec _ _ _ _ _ _ _ (proj2 Hok)). exact Hback.
    + replace (len pdu - 19) with (8 + len payload) by lia. exact Ed.
    + unfold stream_get_left. rewrite Hps, Hss. cbn [adv set_p s_p s_size]. lia.
  - destruct (send_flags_run conf ch r1 size h sec payload post') as (ok & r' & k & E & Hout & Hok); auto;
      try (change (fp_sec_flags r1) with flags; (lia || exact Henc)); try (rewrite Hs1; f_equal; lia). change (fp_sec_flags r1) with flags in Hout, Hok.
    destruct (opens_headers conf (19 + len payload) ch flags payload rb) as (Hpl & Eh & Es & Hrest); auto; try lia.
    set (pdu := rdp_header_bytes conf (19 + len payload) ch ++ le16 flags ++ le16 0 ++ payload) in *.
    exists ok, r', k, pdu, (adv 19 (mkSTREAM (len pdu) 0 pdu)), rb. rewrite (bind_Done _ _ _ _ _ E). split; [reflexivity|].
    split; [exact Hout|]. split; [|split; [rewrite Hpl; apply rdp_pdu_length; [exact Htsg|lia]|split; [split; auto|destruct rb as [[]]; reflexivity]]].
    + destruct ok; [|exact Hok]. split; [apply Hok|].
      split; [|split; [apply (as_cfg _ _ _ _ _ _ _ (proj2 Hok))|discriminate] ].
      apply (Hlinked pdu (fp_sec r1) r' rb (proj2 Hok)); [lia|discriminate|destruct rb as [[]]; reflexivity].
    + unfold stream_get_left. cbn [adv set_p s_p s_size]. lia.
Qed.

End flagged.

(** ** Delivery of the client info *)

Lemma info_delivery {N N' U} l `{LinkLaws N l} `{Link N'} `{Crypto} `{!CryptoLaws} `{PduHandlers U}
    conf local crypt (r : fpRdp N) (rb : rdpRdp N' U) c x sv :
  linked l crypt r rb -> l <> TRANSPORT_LAYER_TSG -> info_ok c x -> lengths_ok x ->
  local_ok local (x_standard x) (x_daylight x) -> len (info_bytes local c x) <= 2021 ->
  1001 <= mcs_user_id conf < 65536 -> (5 <=? rdp_version (core sv)) = (5 <=? rdp_version (core c)) ->
  exists ok r' k pdu s' rb',
    rdp_send_client_info conf local c r = Done ((ok, zoned local c), r') /\ sent r' = sent r ++ take k pdu /\
    (if ok : bool then (length pdu <= k)%nat /\ linked l crypt r' rb' /\ fp_cfg r' = fp_cfg r /\
       (crypt = true -> paired (fp_sec (rdp_out rb)) (fp_sec r) -> paired (fp_sec (rdp_out rb')) (fp_sec r'))
     else t_layer (fp_transport r') = TRANSPORT_LAYER_CLOSED /\ ~ reliable (N := N) l) /\
    pdu_length l pdu = Done (len pdu) /\ rb' = with_sec (fp_sec (rdp_out rb')) rb /\
    rdp_recv_client_info sv (mkSTREAM (len pdu) 0 pdu, rb) = Done ((true, info_view local c x sv), (s', rb')).
Proof.
  intros Hln Htsg Hc Hl Hlo Hlen Hu Hv.
  destruct (flagged_delivery l conf MCS_GLOBAL_CHANNEL_ID crypt SEC_INFO_PKT _ _ _ r rb Hln Htsg (or_introl eq_refl)
              (Writes_info local c x Hc Hl Hlo) Hlen Hu ltac:(split; discriminate || reflexivity))
    as (ok & r' & k & pdu & s' & rb' & E & Hout & Hok & Hpl & [Oh Os Od Op Ol] & Hrb).
  destruct (own_flags crypt SEC_INFO_PKT r (or_introl eq_refl) (ln_crypt _ _ _ _ Hln)) as (_ & Hred & Hown & Henc).
  exists ok, r', k, pdu, (adv (len (info_bytes local c x)) s'), rb'. split.
  { unfold rdp_send_client_info, rdp_mod. unfold bind at 1. rewrite (ln_flags _ _ _ _ Hln). exact E. }
  repeat (split; [assumption|]). unfold rdp_recv_client_info. rewrite (bind_Done _ _ _ _ _ Oh). cbn [negb].
  rewrite (bind_Done _ _ _ _ _ (pkt_run _ _ rb _ _ Os)), Hown. change (SEC_INFO_PKT =? 0) with false. cbv iota.
  unfold bind at 1, rdp_of. cbn [snd]. rewrite (ln_encryption _ _ _ _ Hln), Hred, Henc.
  assert (Ed : (if crypt then if negb (0 =? 0) then ret false
                else if negb ((if crypt then SEC_ENCRYPT else 0) =? 0)
                     then rdp_decrypt (len pdu - 15 - 4) (Z.lor SEC_INFO_PKT (packet_flags r)) else ret true
                else ret true) (adv 19 (mkSTREAM (len pdu) 0 pdu), rb) = Done (true, (s', rb'))).
  { destruct crypt; [|destruct Od as [-> ->]; reflexivity].
    replace (len pdu - 15 - 4) with (len pdu - 19) by lia. exact Od. }
  rewrite (bind_Done _ _ _ _ _ Ed). cbn [negb].
  apply pkt_run. apply (Reads_info local c x sv Hc Hl Hlo Hv s' Op).
Qed.

(** ** Claims *)


(** The reader of the client's reconnection cookie overwrites the packet with
    the cookie it has, and reads nothing. *)
Lemma reconnect_cookie_overwrites c s : 28 <= stream_get_left s -> room s 28 -> len (securityVerifier c) = 16 ->
  rdp_read_client_auto_reconnect_cookie c s
  = Done (true, put (le32 (cs_cbLen c) ++ le32 (cs_version c) ++ le32 (cs_logonId c) ++ securityVerifier c) s).
Proof.
  intros Hleft Hroom Hv. unfold rdp_read_client_auto_reconnect_cookie. unfold bind at 1, left_bytes.
  rewrite (proj2 (Z.ltb_ge _ _)) by lia.
  assert (W : Writes (rdp_write_client_auto_reconnect_cookie c)
                (le32 (cs_cbLen c) ++ le32 (cs_version c) ++ le32 (cs_logonId c) ++ securityVerifier c) tt).
  { unfold rdp_write_client_auto_reconnect_cookie. do 3 (eapply Writes_bind; [apply Writes_uint32|]).
    eapply Writes_first; [apply Writes_array_prefix; lia|]. rewrite take_ge by (unfold len in Hv; lia). apply Writes_write. }
  rewrite (bind_Done _ _ _ _ _ (W s ltac:(rewrite !len_app, Hv; exact Hroom))). reflexivity.
Qed.

(** *** Samples *)

Definition sample_zone : TIME_ZONE_INFO :=
  mkZone 0 [] (mkTime 0 10 0 5 3 0 0 0) 0 [] (mkTime 0 3 0 5 2 0 0 0) 0.
Definition sample_local : local_time := mkLocal 1 (utf8_text [0x43; 0x45; 0x54]) (utf8_text [0x43; 0x45; 0xE9]).
Definition sample_texts : info_texts :=
  mkTexts [0x44] [0x6A; 0xF6; 0x72; 0x67] [0x70; 0x77] [] [] [0x31; 0x30] [0x43; 0x3A] [0x43; 0x45; 0x54] [0x43; 0x45; 0xE9].
Definition sample_info (cookie : option (list Z)) (cb : Z) : info_settings :=
  mkInfo sample_client true false true true (Some (utf8_text [0x44])) (Some (utf8_text [0x6A; 0xF6; 0x72; 0x67]))
    (Some (utf8_text [0x70; 0x77])) None None cookie false (Some (utf8_text [0x31; 0x30])) (Some (utf8_text [0x43; 0x3A]))
    sample_zone (mkArcCs cb 1 7 (replicate 16 0xAA)) (mkArcSc 0 0 0 []).
Definition sample_peer : info_settings :=
  mkInfo (core (sample_info None 0)) false false false false None None None None None None false None None sample_zone
    (mkArcCs 0 0 0 (replicate 16 0)) (mkArcSc 0 0 0 []).

Lemma sample_info_ok : info_ok (sample_info None 0) sample_texts.
Proof.
  split; try reflexivity; try apply text_null; try (split; discriminate || reflexivity);
    try (apply text_some; repeat (apply Forall_cons_2; [unfold scalar, codepoint; lia|]); apply Forall_nil_2);
    (split; split; discriminate || reflexivity).
Qed.


(** With a password cookie the announced length leaves out the terminating zero
    of the cookie, and another zero is sent behind it: the server looks for the
    next text two bytes too early, and takes the shell for an empty one. *)
Example password_cookie_misread :
  let old := core (sample_info None 0) in
  let c := mkInfo (old <| rdp_version := 4 |>) true false false false None None None (Some [0x78]) None
             (Some [0x61; 0; 0; 0]) false None None sample_zone (mkArcCs 0 0 0 []) (mkArcSc 0 0 0 []) in
  let sv := sample_peer <| core := old <| rdp_version := 4 |> |> in
  match received (rdp_write_info_packet sample_local c) (rdp_read_info_packet sv) (stream_new 64) with
  | Some (ok, sv') => ok = true /\ password sv' = Some [0x61] /\ shell sv' = Some []
  | None => False
  end.
Proof. vm_compute. auto. Qed.

(** Long texts do not fit into the stream of 2048 bytes. *)
Example long_password_overflows :
  match rdp_send_client_info sink_conf sample_local
          ((sample_info None 0) <| password := Some (replicate 1100 0x61) |>) sink_rdp with
  | Fault f => f = OutOfBounds
  | Done _ => False
  end.
Proof. vm_compute. reflexivity. Qed.
