(* ===== verification/License.v ===== *)
(** Licensing: [libfreerdp-core/license.c]. After the logon the server asks for a
    license or says that none is needed; the client answers a license request
    and a platform challenge, and waits for the end of the exchange. *)

From coqutil Require Import Datatypes.RecordSetters.
From S2P Require Import Prelude.
From S2P Require Import Stream.
From S2P Require Import Settings.
From S2P Require Import Per.
From S2P Require Import X224.
From S2P Require Import Transport.
From S2P Require Import Mcs.
From S2P Require Import Security.
From S2P Require Import Rsa.
From S2P Require Import Certificate.
From S2P Require Import Input.
From S2P Require Import Gcc.
From S2P Require Import GccClient.
From S2P Require Import Fastpath.
From S2P Require Import Rdp.
From S2P Require Import Channel.
From S2P Require Import Info.
Import TriangleBracketNotations.

Definition LICENSE_REQUEST : Z := 0x01.
Definition PLATFORM_CHALLENGE : Z := 0x02.
Definition NEW_LICENSE : Z := 0x03.
Definition UPGRADE_LICENSE : Z := 0x04.
Definition NEW_LICENSE_REQUEST : Z := 0x13.
Definition PLATFORM_CHALLENGE_RESPONSE : Z := 0x15.
Definition ERROR_ALERT : Z := 0xFF.
Definition RDP_SECURITY_HEADER_LENGTH : Z := 4.
Definition LICENSE_PREAMBLE_LENGTH : Z := 4.
Definition LICENSE_PACKET_HEADER_MAX_LENGTH : Z :=
  RDP_PACKET_HEADER_MAX_LENGTH + RDP_SECURITY_HEADER_LENGTH + LICENSE_PREAMBLE_LENGTH.
Definition CLIENT_RANDOM_LENGTH : Z := 32.
Definition PREMASTER_SECRET_LENGTH : Z := 48.
Definition LICENSING_ENCRYPTION_KEY_LENGTH : Z := 16.
Definition HWID_PLATFORM_ID_LENGTH : Z := 4.
Definition HWID_LENGTH : Z := 20.
Definition PREAMBLE_VERSION_3_0 : Z := 0x03.
Definition BB_ANY_BLOB : Z := 0x0000.
Definition BB_DATA_BLOB : Z := 0x0001.
Definition BB_RANDOM_BLOB : Z := 0x0002.
Definition BB_CERTIFICATE_BLOB : Z := 0x0003.
Definition BB_ERROR_BLOB : Z := 0x0004.
Definition BB_ENCRYPTED_DATA_BLOB : Z := 0x0009.
Definition BB_KEY_EXCHG_ALG_BLOB : Z := 0x000D.
Definition BB_SCOPE_BLOB : Z := 0x000E.
Definition BB_CLIENT_USER_NAME_BLOB : Z := 0x000F.
Definition BB_CLIENT_MACHINE_NAME_BLOB : Z := 0x0010.
Definition STATUS_VALID_CLIENT : Z := 0x00000007.
Definition ST_TOTAL_ABORT : Z := 0x00000001.
Definition ST_NO_TRANSITION : Z := 0x00000002.
Definition ST_RESET_PHASE_TO_START : Z := 0x00000003.
Definition ST_RESEND_LAST_MESSAGE : Z := 0x00000004.

(** ** Data *)

Record PRODUCT_INFO : Type := mkProduct { dwVersion : Z; pbCompanyName : list Z; pbProductId : list Z }.

(** [b_data] is what [data] points to; it may be longer than [b_length]. *)
Record LICENSE_BLOB : Type := mkBlob { b_type : Z; b_length : Z; b_data : list Z }.

Inductive LICENSE_STATE : Type :=
| LICENSE_STATE_AWAIT
| LICENSE_STATE_PROCESS
| LICENSE_STATE_ABORTED
| LICENSE_STATE_COMPLETED.

#[export] Instance license_state_eq_dec : EqDecision LICENSE_STATE.
Proof. solve_decision. Defined.

Record rdpLicense : Type := mkLicense {
  l_state : LICENSE_STATE;
  l_certificate : rdpCertificate;
  hwid : list Z;
  l_client_random : list Z;
  l_server_random : list Z;
  master_secret : list Z;
  premaster_secret : list Z;
  session_key_blob : list Z;
  mac_salt_key : list Z;
  licensing_encryption_key : list Z;
  product_info : PRODUCT_INFO;
  error_info : LICENSE_BLOB;
  key_exchange_list : LICENSE_BLOB;
  l_server_certificate : LICENSE_BLOB;
  client_user_name : LICENSE_BLOB;
  client_machine_name : LICENSE_BLOB;
  platform_challenge : LICENSE_BLOB;
  encrypted_premaster_secret : LICENSE_BLOB;
  encrypted_platform_challenge : LICENSE_BLOB;
  encrypted_hwid : LICENSE_BLOB;
  scope_list : list LICENSE_BLOB;
}.

Definition license_new_product_info : PRODUCT_INFO := mkProduct 0 [] [].
Definition license_new_binary_blob (type : Z) : LICENSE_BLOB := mkBlob type 0 [].
Definition license_new_scope_list : list LICENSE_BLOB := [].

(** The random numbers are zeros: the code that draws them is switched off. *)
Definition license_generate_randoms (license : rdpLicense) : rdpLicense :=
  license <| l_client_random := replicate (Z.to_nat CLIENT_RANDOM_LENGTH) 0 |>
          <| premaster_secret := replicate (Z.to_nat PREMASTER_SECRET_LENGTH) 0 |>.

Definition license_new : rdpLicense :=
  license_generate_randoms
    (mkLicense LICENSE_STATE_AWAIT certificate_new (replicate 20 0) (replicate 32 0) (replicate 32 0) (replicate 48 0)
       (replicate 48 0) (replicate 48 0) (replicate 16 0) (replicate 16 0) license_new_product_info
       (license_new_binary_blob BB_ERROR_BLOB) (license_new_binary_blob BB_KEY_EXCHG_ALG_BLOB)
       (license_new_binary_blob BB_CERTIFICATE_BLOB) (license_new_binary_blob BB_CLIENT_USER_NAME_BLOB)
       (license_new_binary_blob BB_CLIENT_MACHINE_NAME_BLOB) (license_new_binary_blob BB_ANY_BLOB)
       (license_new_binary_blob BB_ANY_BLOB) (license_new_binary_blob BB_ANY_BLOB)
       (license_new_binary_blob BB_ENCRYPTED_DATA_BLOB) license_new_scope_list).

(** ** Reading and writing of parts *)

Definition license_read_preamble : M STREAM (Z * Z * Z) :=
  let! bMsgType := stream_read_uint8 in
  let! flags := stream_read_uint8 in
  let! wMsgSize := stream_read_uint16 in
  ret (bMsgType, flags, wMsgSize).

Definition license_write_preamble (bMsgType flags wMsgSize : Z) : M STREAM unit :=
  stream_write_uint8 bMsgType;;
  stream_write_uint8 flags;;
  stream_write_uint16 wMsgSize.

Definition license_read_product_info : M STREAM PRODUCT_INFO :=
  let! version := stream_read_uint32 in
  let! cbCompanyName := stream_read_uint32 in
  let! company := stream_read cbCompanyName in
  let! cbProductId := stream_read_uint32 in
  let! product := stream_read cbProductId in
  ret (mkProduct version company product).

(** A blob of another type than expected is only reported. *)
Definition license_read_binary_blob (blob : LICENSE_BLOB) : M STREAM LICENSE_BLOB :=
  let! wBlobType := stream_read_uint16 in
  let! length := stream_read_uint16 in
  if negb (b_type blob =? BB_ANY_BLOB) && (length =? 0) then ret (blob <| b_length := length |>) else
  let! data := stream_read length in
  ret (mkBlob wBlobType length data).

Definition license_write_binary_blob (blob : LICENSE_BLOB) : M STREAM unit :=
  stream_write_uint16 (b_type blob);;
  stream_write_uint16 (b_length blob);;
  if 0 <? b_length blob then let! data := array_prefix (b_data blob) (b_length blob) in stream_write data else ret tt.

Definition license_write_padded_binary_blob (blob : LICENSE_BLOB) : M STREAM unit :=
  if b_length blob =? 0 then fail DivideByZero else
  let pad_len := Z.rem 72 (b_length blob) in
  stream_write_uint16 (b_type blob);;
  stream_write_uint16 (b_length blob + pad_len);;
  (if 0 <? b_length blob then let! data := array_prefix (b_data blob) (b_length blob) in stream_write data else ret tt);;
  stream_write_zero pad_len.

Fixpoint read_scopes (n : nat) : M STREAM (list LICENSE_BLOB) :=
  match n with
  | O => ret []
  | S n' =>
      let! blob := license_read_binary_blob (mkBlob BB_SCOPE_BLOB 0 []) in
      let! blobs := read_scopes n' in
      ret (blob :: blobs)
  end.

Definition license_read_scope_list : M STREAM (list LICENSE_BLOB) :=
  let! scopeCount := stream_read_uint32 in
  read_scopes (Z.to_nat scopeCount).

(** ** Keys *)

Section license.
Context `{Crypto} `{Bignum}.

Definition license_generate_keys {S} (license : rdpLicense) : M S rdpLicense :=
  let! m := security_master_secret (premaster_secret license) (l_client_random license) (l_server_random license) in
  let! b := security_session_key_blob m (l_client_random license) (l_server_random license) in
  let! k := security_mac_salt_key b in
  let! e := security_licensing_encryption_key b (l_client_random license) (l_server_random license) in
  ret (license <| master_secret := m |> <| session_key_blob := b |> <| mac_salt_key := k |> <| licensing_encryption_key := e |>).

(** [mac_address] is that of the network card. *)
Definition license_generate_hwid {S} (mac_address : list Z) (license : rdpLicense) : M S rdpLicense :=
  let! a := mem 0 6 mac_address in
  let! h := mem_put HWID_PLATFORM_ID_LENGTH (md5 a) (replicate (Z.to_nat HWID_LENGTH) 0) in
  ret (license <| hwid := h |>).

(** The secret is all zeros and sent as it is: the code that encrypts it is
    switched off. *)
Definition license_encrypt_premaster_secret (license : rdpLicense) : rdpLicense :=
  license <| encrypted_premaster_secret :=
    mkBlob BB_RANDOM_BLOB PREMASTER_SECRET_LENGTH (replicate (Z.to_nat MODULUS_MAX_SIZE) 0) |>.

Definition license_decrypt_platform_challenge {S} (license : rdpLicense) : M S rdpLicense :=
  let c := encrypted_platform_challenge license in
  let! key := mem 0 LICENSING_ENCRYPTION_KEY_LENGTH (licensing_encryption_key license) in
  let! data := mem 0 (b_length c) (b_data c) in
  ret (license <| platform_challenge := mkBlob (b_type (platform_challenge license)) (b_length c) (fst (rc4 (rc4_init key) data)) |>).

(** ** Packets of the server *)

Definition license_read_license_request_packet (mac_address : list Z) (license : rdpLicense) : M STREAM rdpLicense :=
  let! r := stream_read 32 in
  let license := license <| l_server_random := r |> in
  let! p := license_read_product_info in
  let license := license <| product_info := p |> in
  let! b := license_read_binary_blob (key_exchange_list license) in
  let license := license <| key_exchange_list := b |> in
  let! b := license_read_binary_blob (l_server_certificate license) in
  let license := license <| l_server_certificate := b |> in
  let! l := license_read_scope_list in
  let license := license <| scope_list := l |> in
  let! (_, c) := certificate_read_server_certificate (l_certificate license) (b_data (l_server_certificate license))
                   (b_length (l_server_certificate license)) in
  let license := license <| l_certificate := c |> in
  let! license := license_generate_keys license in
  let! license := license_generate_hwid mac_address license in
  ret (license_encrypt_premaster_secret license).

Definition license_read_platform_challenge_packet (license : rdpLicense) : M STREAM rdpLicense :=
  stream_seek 4;;
  let! b := license_read_binary_blob ((encrypted_platform_challenge license) <| b_type := BB_ANY_BLOB |>) in
  let license := license <| encrypted_platform_challenge := b <| b_type := BB_ENCRYPTED_DATA_BLOB |> |> in
  stream_seek 16;;
  license_decrypt_platform_challenge license.

Definition license_read_new_license_packet (license : rdpLicense) : rdpLicense :=
  license <| l_state := LICENSE_STATE_COMPLETED |>.
Definition license_read_upgrade_license_packet (license : rdpLicense) : rdpLicense :=
  license <| l_state := LICENSE_STATE_COMPLETED |>.

Definition license_read_error_alert_packet (license : rdpLicense) : M STREAM rdpLicense :=
  let! dwErrorCode := stream_read_uint32 in
  let! dwStateTransition := stream_read_uint32 in
  let! b := license_read_binary_blob (error_info license) in
  let license := license <| error_info := b |> in
  ret (if dwErrorCode =? STATUS_VALID_CLIENT then license <| l_state := LICENSE_STATE_COMPLETED |>
       else if dwStateTransition =? ST_TOTAL_ABORT then license <| l_state := LICENSE_STATE_ABORTED |>
       else if dwStateTransition =? ST_NO_TRANSITION then license <| l_state := LICENSE_STATE_COMPLETED |>
       else if dwStateTransition =? ST_RESET_PHASE_TO_START then license <| l_state := LICENSE_STATE_AWAIT |>
       else license).

(** ** Packets of the client *)

Definition license_write_platform_id : M STREAM unit :=
  stream_write_uint8 0;;
  stream_write_uint8 0;;
  stream_write_uint16 0.

Definition license_write_new_license_request_packet (license : rdpLicense) : M STREAM unit :=
  stream_write_uint32 KEY_EXCHANGE_ALG_RSA;;
  license_write_platform_id;;
  let! r := array_prefix (l_client_random license) 32 in
  stream_write r;;
  license_write_padded_binary_blob (encrypted_premaster_secret license);;
  license_write_binary_blob (client_user_name license);;
  license_write_binary_blob (client_machine_name license).

Definition license_write_platform_challenge_response_packet (license : rdpLicense) (mac_data : list Z) : M STREAM unit :=
  license_write_binary_blob (encrypted_platform_challenge license);;
  license_write_binary_blob (encrypted_hwid license);;
  let! m := array_prefix mac_data 16 in
  stream_write m.

Context {N : Type} `{Link N}.

Definition license_send_stream_init : M (fpRdp N) unit :=
  on_fp_transport (transport_send_stream_init 4096);;
  on_stream (stream_seek LICENSE_PACKET_HEADER_MAX_LENGTH).

Definition license_send (conf : rdpConf) (type : Z) : M (fpRdp N) bool :=
  let! length := on_stream get_pos in
  on_stream (stream_set_pos 0);;
  let sec_flags := SEC_LICENSE_PKT in
  let wMsgSize := uint16 (length - LICENSE_PACKET_HEADER_MAX_LENGTH + 4) in
  let flags := PREAMBLE_VERSION_3_0 in
  rdp_write_header conf (uint16 length) MCS_GLOBAL_CHANNEL_ID;;
  on_stream (rdp_write_security_header sec_flags);;
  on_stream (license_write_preamble type flags wMsgSize);;
  on_stream (stream_set_pos length);;
  let! status := on_fp_transport transport_send in
  ret (negb (status <? 0)).

(** The string literal ["username"]. *)
Definition no_username : list Z := [0x75; 0x73; 0x65; 0x72; 0x6E; 0x61; 0x6D; 0x65].

(** [username] and [hostname] are of the settings, strings without their zeros. *)
Definition license_send_new_license_request_packet (conf : rdpConf) (username : option (list Z)) (hostname : list Z)
    (license : rdpLicense) : M (fpRdp N) rdpLicense :=
  license_send_stream_init;;
  let username := default no_username username in
  let name := client_user_name license in
  let machine := client_machine_name license in
  let license := license <| client_user_name := mkBlob (b_type name) (uint16 (len username + 1)) (username ++ [0]) |>
                         <| client_machine_name := mkBlob (b_type machine) (uint16 (len hostname + 1)) (hostname ++ [0]) |> in
  on_stream (license_write_new_license_request_packet license);;
  license_send conf NEW_LICENSE_REQUEST;;
  ret (license <| client_user_name := mkBlob (b_type name) 0 [] |> <| client_machine_name := mkBlob (b_type machine) 0 [] |>).

Definition license_send_platform_challenge_response_packet (conf : rdpConf) (license : rdpLicense) : M (fpRdp N) rdpLicense :=
  license_send_stream_init;;
  let license := license <| encrypted_platform_challenge := (encrypted_platform_challenge license) <| b_type := BB_DATA_BLOB |> |> in
  let! challenge := mem 0 (b_length (platform_challenge license)) (b_data (platform_challenge license)) in
  let! id := mem 0 HWID_LENGTH (hwid license) in
  let! mac_data := security_mac_data (mac_salt_key license) (challenge ++ id) in
  let! key := mem 0 LICENSING_ENCRYPTION_KEY_LENGTH (licensing_encryption_key license) in
  let license := license <| encrypted_hwid := mkBlob BB_DATA_BLOB HWID_LENGTH (fst (rc4 (rc4_init key) id)) |> in
  on_stream (license_write_platform_challenge_response_packet license mac_data);;
  license_send conf PLATFORM_CHALLENGE_RESPONSE;;
  ret license.

(** The server's way out: no license is needed. *)
Definition license_send_valid_client_error_packet (conf : rdpConf) (license : rdpLicense) : M (fpRdp N) bool :=
  license_send_stream_init;;
  on_stream (stream_write_uint32 STATUS_VALID_CLIENT);;
  on_stream (stream_write_uint32 ST_NO_TRANSITION);;
  on_stream (license_write_binary_blob (error_info license));;
  license_send conf ERROR_ALERT;;
  ret true.

(** ** Receiving *)

Context {U : Type} `{PduHandlers U}.

(** What is done with the module that sends. *)
Definition out_of {A} (c : M (fpRdp N) A) : RM (N := N) (U := U) A :=
  zoom (fun x => rdp_out (snd x)) (fun o x => (fst x, with_out o (snd x))) c.

(** A message behind its preamble; the results of the senders are not looked at. *)
Definition license_message (mac_address : list Z) (username : option (list Z)) (hostname : list Z) (license : rdpLicense)
    (bMsgType : Z) : RM (N := N) (U := U) (bool * rdpLicense) :=
  let! rdp := rdp_of in
  let conf := rdp_conf rdp in
  if bMsgType =? LICENSE_REQUEST then
    let! license := pkt (license_read_license_request_packet mac_address license) in
    let! license := out_of (license_send_new_license_request_packet conf username hostname license) in
    ret (true, license)
  else if bMsgType =? PLATFORM_CHALLENGE then
    let! license := pkt (license_read_platform_challenge_packet license) in
    let! license := out_of (license_send_platform_challenge_response_packet conf license) in
    ret (true, license)
  else if bMsgType =? NEW_LICENSE then ret (true, license_read_new_license_packet license)
  else if bMsgType =? UPGRADE_LICENSE then ret (true, license_read_upgrade_license_packet license)
  else if bMsgType =? ERROR_ALERT then
    let! license := pkt (license_read_error_alert_packet license) in
    ret (true, license)
  else ret (false, license).

Definition license_recv (mac_address : list Z) (username : option (list Z)) (hostname : list Z) (license : rdpLicense) :
    RM (N := N) (U := U) (bool * rdpLicense) :=
  let! (ok, length, _) := rdp_read_header in
  if negb ok then ret (false, license) else
  let! sec_flags := pkt rdp_read_security_header in
  if Z.land sec_flags SEC_LICENSE_PKT =? 0 then
    pkt (stream_rewind RDP_SECURITY_HEADER_LENGTH);;
    let! ok := rdp_recv_out_of_sequence_pdu in
    ret (ok, license)
  else
    let! (bMsgType, flags, wMsgSize) := pkt license_read_preamble in
    license_message mac_address username hostname license bMsgType.

End license.

(** ** Blobs and lists *)

Definition blob_bytes (type : Z) (data : list Z) : list Z := le16 type ++ le16 (len data) ++ data.

(** What is left in [old] after a blob was read into it. *)
Definition blob_view (old : LICENSE_BLOB) (type : Z) (data : list Z) : LICENSE_BLOB :=
  if negb (b_type old =? BB_ANY_BLOB) && (len data =? 0) then old <| b_length := len data |> else mkBlob type (len data) data.

Definition blob_ok (b : Z * list Z) : Prop := 0 <= fst b < 65536 /\ len (snd b) < 65536.

Lemma Reads_blob old type data : blob_ok (type, data) ->
  Reads (license_read_binary_blob old) (blob_bytes type data) (blob_view old type data).
Proof.
  intros [Ht Hl]. cbn [fst snd] in *. pose proof (len_nonneg data). unfold license_read_binary_blob, blob_bytes, blob_view.
  eapply Reads_bind; [apply Reads_le16, Ht|]. destruct (negb (b_type old =? BB_ANY_BLOB) && (len data =? 0)) eqn:E.
  - pose proof E as [_ E0%Z.eqb_eq]%andb_prop. destruct data as [|b data]; [|rewrite len_cons in E0; pose proof (len_nonneg data); lia].
    eapply Reads_bind; [apply Reads_le16; split; [reflexivity|exact Hl]|]. rewrite E. apply Reads_ret.
  - eapply Reads_bind; [apply Reads_le16; lia|]. rewrite E. eapply Reads_last; [apply Reads_read; reflexivity|apply Reads_ret].
Qed.

Lemma Writes_blob b : 0 <= b_length b <= len (b_data b) ->
  Writes (license_write_binary_blob b) (blob_bytes (b_type b) (take (Z.to_nat (b_length b)) (b_data b))) tt.
Proof.
  intros Hl. unfold license_write_binary_blob, blob_bytes.
  assert (E : len (take (Z.to_nat (b_length b)) (b_data b)) = b_length b) by (unfold len in *; rewrite length_take; lia).
  rewrite E. do 2 (eapply Writes_bind; [apply Writes_uint16|]). destruct (Z.ltb_spec 0 (b_length b)).
  - eapply Writes_first; [apply Writes_array_prefix; lia|]. apply Writes_write.
  - replace (b_length b) with 0 by lia. apply Writes_ret.
Qed.

Lemma Reads_scopes l : Forall blob_ok l ->
  Reads (read_scopes (length l)) (concat (map (fun b => blob_bytes (fst b) (snd b)) l))
    (map (fun b => blob_view (mkBlob BB_SCOPE_BLOB 0 []) (fst b) (snd b)) l).
Proof.
  induction 1 as [|[t d] l Hb _ IH]; cbn [length read_scopes map concat fst snd]; [apply Reads_ret|].
  eapply Reads_bind; [apply Reads_blob, Hb|]. eapply Reads_last; [exact IH|apply Reads_ret].
Qed.

(** ** Packets *)

Definition license_pdu (conf : rdpConf) (type : Z) (body : list Z) : list Z :=
  rdp_header_bytes conf (23 + len body) MCS_GLOBAL_CHANNEL_ID ++ le16 SEC_LICENSE_PKT ++ le16 0 ++
  [type; PREAMBLE_VERSION_3_0] ++ le16 (len body + 4) ++ body.

Lemma len_license_pdu conf type body : len (license_pdu conf type body) = 23 + len body.
Proof. unfold license_pdu. rewrite !len_app, len_rdp_header. change (len (le16 _)) with 2. change (len [_; _]) with 2. lia. Qed.

Section packets.
Context {N : Type} (l : TRANSPORT_LAYER) `{HLink : LinkLaws N l} `{HC : Crypto} `{HL : !CryptoLaws} `{HB : Bignum}.

(** A module that can send a packet in its send stream. *)
Record sendable (r : fpRdp N) : Prop := {
  sd_layer : t_layer (fp_transport r) = l;
  sd_fits : stream_fits (stream_of r);
  sd_size : s_size (stream_of r) <= 2 ^ 20;
  sd_pos : s_p (stream_of r) <= 2 ^ 16;
  sd_flags : fp_sec_flags r = 0;
}.

(** The send stream ready for [n] bytes, positioned at its start. *)
Lemma send_init_run n (r : fpRdp N) : sendable r -> 0 <= n <= 2 ^ 16 ->
  exists size data, on_fp_transport (transport_send_stream_init n) r = Done (tt, with_send_stream (behind size [] data) r) /\
    n <= size <= 2 ^ 20 /\ size <= len data.
Proof.
  intros [Hl Hf Hsz Hpos _] Hn.
  destruct (stream_check_size_fits n (stream_of r) Hf) as (s1 & E & [Hp1 Hz1] & Hp & _ & Hfit & _ & Hmax & _);
    [lia|unfold INT_MAX; lia|].
  exists (s_size s1), (s_data s1). split; [|lia].
  unfold on_fp_transport, zoom, transport_send_stream_init, zoom, bind. fold (stream_of r). rewrite E. reflexivity.
Qed.

(** After a packet was sent. *)
Lemma sendable_after size pdu post k cfg (r' : fpRdp N) : after_send l size pdu post k cfg r' -> len pdu <= 2 ^ 16 ->
  len pdu <= size <= 2 ^ 20 -> size <= len pdu + len post -> sendable r'.
Proof.
  intros [Al As Ak Ac Af] Hp Hsz Hfit. pose proof (len_nonneg pdu).
  split; rewrite ?As; auto; unfold behind; cbn [s_size s_p s_data]; try lia.
  split; cbn [s_size s_p s_data]; rewrite ?len_app; lia.
Qed.

Lemma license_send_run {A} conf type (w : M STREAM A) a body (r : fpRdp N) :
  sendable r -> Writes w body a -> len body <= 4073 -> 0 <= type < 256 ->
  exists ok r' k, (license_send_stream_init;; on_stream w;; license_send conf type) r = Done (ok, r') /\
    sent r' = sent r ++ take k (license_pdu conf type body) /\
    if ok : bool then (length (license_pdu conf type body) <= k)%nat /\ sendable r' /\ fp_sec r' = fp_sec r /\ fp_cfg r' = fp_cfg r
    else t_layer (fp_transport r') = TRANSPORT_LAYER_CLOSED /\ ~ reliable (N := N) l.
Proof.
  intros Hr Hw Hb Ht. pose proof (len_nonneg body). destruct (send_init_run 4096 r Hr ltac:(lia)) as (size & data & Ei & Hsz & Hd).
  destruct (app_split data 15) as (h & d1 & -> & Hh); [lia|]. rewrite len_app in Hd.
  destruct (app_split d1 8) as (h2 & d2 & -> & Hh2); [lia|]. rewrite len_app in Hd.
  destruct (app_split d2 (len body)) as (hole & post & -> & Hhole); [lia|]. rewrite len_app in Hd.
  unfold license_send_stream_init. rewrite bind_assoc, (bind_Done _ _ _ _ _ Ei). rewrite (app_assoc h h2).
  erewrite bind_Done by (apply on_stream_run; apply (seek_behind size [] (h ++ h2) (hole ++ post)); rewrite len_app, Hh, Hh2; reflexivity).
  erewrite bind_Done by (apply on_stream_run; apply (Writes_behind w body a size ([] ++ h ++ h2) hole post Hw); lia).
  set (n := 23 + len body). unfold license_send.
  erewrite bind_Done by (apply on_stream_run; reflexivity).
  assert (En : len ((h ++ h2) ++ body) = n) by (unfold n; rewrite !len_app; lia).
  change (stream_get_pos _) with (len ((h ++ h2) ++ body)). rewrite En.
  erewrite bind_Done by (apply on_stream_run; apply (set_pos_behind size _ (((h ++ h2) ++ body) ++ post) [] (h ++ h2 ++ body ++ post) 0);
    [rewrite <- !app_assoc; reflexivity|reflexivity]).
  cbv zeta. replace (uint16 n) with n by (unfold uint16; rewrite Z.mod_small; unfold n; lia).
  replace (uint16 (n - LICENSE_PACKET_HEADER_MAX_LENGTH + 4)) with (len body + 4)
    by (change LICENSE_PACKET_HEADER_MAX_LENGTH with 23; unfold uint16; rewrite Z.mod_small; unfold n; lia).
  erewrite bind_Done by (apply (write_header_run conf n MCS_GLOBAL_CHANNEL_ID _ size h (h2 ++ body ++ post));
    [unfold n; lia|left; cbn [fp_sec_flags with_send_stream]; rewrite (sd_flags _ Hr); reflexivity|reflexivity|exact Hh]).
  set (H15 := rdp_header_bytes conf n MCS_GLOBAL_CHANNEL_ID).
  destruct (app_split h2 4) as (h3 & h4 & -> & Hh3); [lia|]. rewrite len_app in Hh2.
  erewrite bind_Done by (apply on_stream_run; rewrite <- app_assoc;
    apply (Writes_behind _ (le16 SEC_LICENSE_PKT ++ le16 0) tt size H15 h3);
    [eapply Writes_bind; apply Writes_uint16|exact (eq_sym Hh3)]).
  erewrite bind_Done by (apply on_stream_run;
    apply (Writes_behind _ ([type] ++ [PREAMBLE_VERSION_3_0] ++ le16 (len body + 4)) tt size (H15 ++ le16 SEC_LICENSE_PKT ++ le16 0) h4);
    [eapply Writes_bind; [eapply Writes_eq; [apply Writes_uint8|rewrite Z.mod_small by exact Ht; reflexivity|reflexivity]|];
     eapply Writes_bind; [apply Writes_uint8|apply Writes_uint16]|change (len (_ ++ _)) with 4; lia]).
  set (pdu := license_pdu conf type body).
  assert (Epdu : (((H15 ++ le16 SEC_LICENSE_PKT ++ le16 0) ++ [type] ++ [PREAMBLE_VERSION_3_0] ++ le16 (len body + 4)) ++ body ++ post)
                 = pdu ++ post) by (unfold pdu, license_pdu; rewrite <- !app_assoc; reflexivity).
  match goal with |- context [bind (on_stream (stream_set_pos n)) _ ?x] => set (r1 := x) end.
  assert (Es : stream_of r1 = mkSTREAM size 23 (pdu ++ post)).
  { change (stream_of r1) with (behind size ((H15 ++ le16 SEC_LICENSE_PKT ++ le16 0) ++ [type] ++ [PREAMBLE_VERSION_3_0] ++ le16 (len body + 4)) (body ++ post)).
    unfold behind. rewrite Epdu. f_equal. }
  assert (Hpl : len pdu = n) by apply len_license_pdu.
  destruct (send_tail_run l size 23 pdu post n r1 (sd_layer _ Hr) Es (eq_sym Hpl) ltac:(unfold n; lia) (sd_flags _ Hr))
    as (ok & r' & k & E & Hout & Hok).
  exists ok, r', k. split; [exact E|]. split; [exact Hout|]. destruct ok; [|exact Hok]. destruct Hok as [Hk Ha].
  split; [exact Hk|]. rewrite len_app in Hd. unfold n in Hpl.
  split; [apply (sendable_after _ _ _ _ _ _ Ha); lia|].
  split; [apply (as_sec _ _ _ _ _ _ _ Ha)|apply (as_cfg _ _ _ _ _ _ _ Ha)].
Qed.
End packets.

(** ** Receiving *)

Section receiving.
Context {N U : Type} (l : TRANSPORT_LAYER) `{HLink : LinkLaws N l} `{HC : Crypto} `{HL : !CryptoLaws} `{HB : Bignum}
  `{HH : PduHandlers U}.
Variables (mac_address : list Z) (username : option (list Z)) (hostname : list Z).

(** A license packet reaches the handler of its message. *)
Lemma license_recv_run conf type body lic (r : rdpRdp N U) :
  1001 <= mcs_user_id conf < 65536 -> 0 <= type < 256 -> len body < 0x7000 ->
  let pdu := license_pdu conf type body in
  exists s, license_recv mac_address username hostname lic (mkSTREAM (len pdu) 0 pdu, r)
              = license_message mac_address username hostname lic type (s, r) /\ holds s body.
Proof.
  intros Hu Ht Hb pdu. pose proof (len_nonneg body).
  set (rest := [type; PREAMBLE_VERSION_3_0] ++ le16 (len body + 4) ++ body).
  assert (Hr : len rest = 4 + len body) by (unfold rest; rewrite !len_app; change (len (le16 _)) with 2; change (len [_; _]) with 2; lia).
  destruct (opens_headers conf (23 + len body) MCS_GLOBAL_CHANNEL_ID SEC_LICENSE_PKT rest r) as (_ & Eh & Es & Hrest);
    try lia; try (split; discriminate || reflexivity); try assumption.
  change (rdp_header_bytes conf (23 + len body) MCS_GLOBAL_CHANNEL_ID ++ le16 SEC_LICENSE_PKT ++ le16 0 ++ rest) with pdu in *.
  set (s0 := mkSTREAM (len pdu) 0 pdu) in *.
  assert (Hp : Reads license_read_preamble ([type; PREAMBLE_VERSION_3_0] ++ le16 (len body + 4)) (type, PREAMBLE_VERSION_3_0, len body + 4)).
  { unfold license_read_preamble. apply Reads_uint8_bind, Reads_uint8_bind.
    eapply Reads_last; [apply Reads_le16; lia|apply Reads_ret]. }
  unfold rest in Hrest. rewrite app_assoc in Hrest. destruct (holds_app _ _ _ Hrest) as [H1 H2].
  eexists. split; [|exact H2]. unfold license_recv. rewrite (bind_Done _ _ _ _ _ Eh). cbn [negb].
  rewrite (bind_Done _ _ _ _ _ (pkt_run _ _ r _ _ Es)). change (Z.land SEC_LICENSE_PKT SEC_LICENSE_PKT =? 0) with false. cbv iota.
  rewrite (bind_Done _ _ _ _ _ (pkt_run _ _ r _ _ (Hp _ H1))). reflexivity.
Qed.

Lemma out_of_run {A} (c : M (fpRdp N) A) s (r : rdpRdp N U) a o :
  c (rdp_out r) = Done (a, o) -> out_of c (s, r) = Done (a, (s, with_out o r)).
Proof. intros E. unfold out_of, zoom. cbn [snd]. rewrite E. reflexivity. Qed.

(** ** Keys *)

(** The keys of the exchange; the client's random number and the premaster
    secret being zeros, they depend on the server's random number only. *)
Definition license_master (sr : list Z) : list Z := hash48 A_BB_CCC (zeros 48) (zeros 32) sr.
Definition license_blob (sr : list Z) : list Z := hash48 A_BB_CCC (license_master sr) sr (zeros 32).
Definition license_salt (sr : list Z) : list Z := slice 0 16 (license_blob sr).
Definition license_key (sr : list Z) : list Z := md5 (slice 16 16 (license_blob sr) ++ zeros 32 ++ sr).
Definition license_mac (salt data : list Z) : list Z :=
  md5 (salt ++ pad2 ++ sha1 (salt ++ pad1 ++ security_uint32_le (len data) ++ data)).
Definition license_hwid : list Z := [0; 0; 0; 0] ++ md5 (take 6 mac_address).
End receiving.

(** *** Their derivation *)

Section derivation.
Context `{HC : Crypto} `{HL : !CryptoLaws} `{HB : Bignum}.

(** The fields the replies are made of. *)
Record keyed (sr : list Z) (lic : rdpLicense) : Prop := {
  ky_salt : mac_salt_key lic = license_salt sr;
  ky_key : licensing_encryption_key lic = license_key sr;
}.

Lemma slice_all n l : n = len l -> slice 0 n l = l.
Proof. intros ->. unfold slice, len. cbn [Z.to_nat drop]. rewrite Nat2Z.id. apply take_ge. lia. Qed.

Lemma len_license_blob sr : len (license_blob sr) = 48.
Proof. apply len_hash48. Qed.

Lemma len_license_salt sr : len (license_salt sr) = 16.
Proof. apply len_slice; rewrite ?len_license_blob; lia. Qed.

Lemma Pure_license_keys {S} sr lic : len sr = 32 -> l_server_random lic = sr ->
  premaster_secret lic = zeros 48 -> l_client_random lic = zeros 32 ->
  Pure (S := S) (license_generate_keys lic)
    (lic <| master_secret := license_master sr |> <| session_key_blob := license_blob sr |>
         <| mac_salt_key := license_salt sr |> <| licensing_encryption_key := license_key sr |>).
Proof.
  intros Hs Er Ep Ec. unfold license_generate_keys. rewrite Er, Ep, Ec. pose proof (len_license_blob sr) as Hb.
  eapply Pure_bind; [apply Pure_three_hashes; rewrite ?len_zeros; lia|].
  eapply Pure_bind; [apply (Pure_three_hashes [65] [66; 66] [67; 67; 67] (license_master sr) sr (zeros 32));
                     rewrite ?len_zeros; try lia; unfold license_master, A_BB_CCC; rewrite len_hash48; lia|].
  eapply Pure_bind; [apply (Pure_mem 0 16 (license_blob sr)); lia|].
  unfold security_licensing_encryption_key, security_md5_16_32_32. eapply (Pure_bind _ _ (license_key sr)); [|apply Pure_ret].
  eapply Pure_bind; [apply (Pure_mem 16 16 (license_blob sr)); lia|].
  do 3 (eapply Pure_bind; [apply Pure_mem; rewrite ?len_slice; rewrite ?len_zeros; lia|]).
  intros s. unfold license_key. rewrite !slice_all; rewrite ?len_slice; rewrite ?len_zeros; try lia. reflexivity.
Qed.

Lemma Pure_license_hwid {S} mac_address lic : 6 <= len mac_address ->
  Pure (S := S) (license_generate_hwid mac_address lic) (lic <| hwid := license_hwid mac_address |>).
Proof.
  intros Hm. unfold license_generate_hwid. eapply Pure_bind; [apply Pure_mem; lia|].
  eapply Pure_bind; [|apply Pure_ret]. intros s.
  change (replicate (Z.to_nat HWID_LENGTH) 0) with ([0; 0; 0; 0] ++ replicate 16 0).
  apply (mem_put_end [0; 0; 0; 0] (md5 (slice 0 6 mac_address)) (replicate 16 0) HWID_PLATFORM_ID_LENGTH s); [reflexivity|].
  pose proof (len_md5 (slice 0 6 mac_address)) as Hl. unfold len in Hl. rewrite length_replicate. lia.
Qed.

Lemma len_license_hwid mac_address : len (license_hwid mac_address) = 20.
Proof. unfold license_hwid. rewrite len_app, len_md5. reflexivity. Qed.
End derivation.

(** ** Messages *)

Record license_request : Type := mkRequest {
  lq_random : list Z; lq_version : Z; lq_company : list Z; lq_product : list Z; lq_exchange : list Z;
  lq_certificate : list Z; lq_scopes : list (Z * list Z) }.

Definition request_bytes (q : license_request) : list Z :=
  lq_random q ++ le32 (lq_version q) ++ (le32 (len (lq_company q)) ++ lq_company q) ++
  (le32 (len (lq_product q)) ++ lq_product q) ++ blob_bytes BB_KEY_EXCHG_ALG_BLOB (lq_exchange q) ++
  blob_bytes BB_CERTIFICATE_BLOB (lq_certificate q) ++ le32 (len (lq_scopes q)) ++
  concat (map (fun b => blob_bytes (fst b) (snd b)) (lq_scopes q)).

(** A request as a server sends it; [info] is the key in its certificate. *)
Record request_ok (q : license_request) (info : option rdpCertInfo) : Prop := {
  rq_random : len (lq_random q) = 32;
  rq_version : 0 <= lq_version q < 2 ^ 32;
  rq_company : len (lq_company q) < 2 ^ 16;
  rq_product : len (lq_product q) < 2 ^ 16;
  rq_exchange : len (lq_exchange q) < 2 ^ 16;
  rq_scopes : Forall blob_ok (lq_scopes q);
  rq_count : len (lq_scopes q) < 2 ^ 16;
  rq_length : len (lq_certificate q) < 2 ^ 16;
  rq_certificate : match info with
                   | None => lq_certificate q = []
                   | Some i => exists sig, len (exponent i) = 4 /\ 0 < len (modulus i) < 2 ^ 15 /\ is_bytes sig /\ len sig = 64 /\
                                 lq_certificate q = server_cert_bytes (modulus i) (exponent i) sig
                   end;
}.

(** What the user sends in reply. *)
Definition new_request_bytes (username : option (list Z)) (hostname : list Z) : list Z :=
  le32 KEY_EXCHANGE_ALG_RSA ++ ([0] ++ [0] ++ le16 0) ++ zeros 32 ++
  (le16 BB_RANDOM_BLOB ++ le16 72 ++ zeros 48 ++ zeros 24) ++
  blob_bytes BB_CLIENT_USER_NAME_BLOB (default no_username username ++ [0]) ++
  blob_bytes BB_CLIENT_MACHINE_NAME_BLOB (hostname ++ [0]).

(** A challenge, and the reply to it: the challenge as it came, the encrypted
    hardware identifier, and the signature of both. *)
Definition challenge_bytes (flags type : Z) (cipher mac : list Z) : list Z := le32 flags ++ blob_bytes type cipher ++ mac.
Definition response_bytes (cipher id mac : list Z) : list Z :=
  blob_bytes BB_DATA_BLOB cipher ++ blob_bytes BB_DATA_BLOB id ++ mac.

Section messages.
Context `{HC : Crypto} `{HL : !CryptoLaws} `{HB : Bignum} `{HBL : !BignumLaws}.

Lemma Pure_Reads {A} (c : M STREAM A) a : Pure c a -> Reads c [] a.
Proof. intros Hc s _. rewrite (Hc s). change (adv (len []) s) with (adv 0 s). rewrite adv_0. reflexivity. Qed.

Lemma Reads_product v c p : 0 <= v < 2 ^ 32 -> len c < 2 ^ 16 -> len p < 2 ^ 16 ->
  Reads license_read_product_info (le32 v ++ (le32 (len c) ++ c) ++ (le32 (len p) ++ p)) (mkProduct v c p).
Proof.
  intros Hv Hc Hp. pose proof (len_nonneg c). pose proof (len_nonneg p). unfold license_read_product_info.
  eapply Reads_bind; [apply Reads_le32, Hv|]. rewrite <- !app_assoc.
  eapply Reads_bind; [apply Reads_le32; lia|]. eapply Reads_bind; [apply Reads_read; reflexivity|].
  eapply Reads_bind; [apply Reads_le32; lia|]. eapply Reads_last; [apply Reads_read; reflexivity|apply Reads_ret].
Qed.

(** The license after the request. *)
Definition requested (mac_address : list Z) (q : license_request) (info : option rdpCertInfo) (lic : rdpLicense) : rdpLicense :=
  license_encrypt_premaster_secret
    (lic <| l_server_random := lq_random q |>
         <| product_info := mkProduct (lq_version q) (lq_company q) (lq_product q) |>
         <| key_exchange_list := blob_view (key_exchange_list lic) BB_KEY_EXCHG_ALG_BLOB (lq_exchange q) |>
         <| l_server_certificate := blob_view (l_server_certificate lic) BB_CERTIFICATE_BLOB (lq_certificate q) |>
         <| scope_list := map (fun b => blob_view (mkBlob BB_SCOPE_BLOB 0 []) (fst b) (snd b)) (lq_scopes q) |>
         <| l_certificate := match info with Some i => set_info i (l_certificate lic) | None => l_certificate lic end |>
         <| master_secret := license_master (lq_random q) |> <| session_key_blob := license_blob (lq_random q) |>
         <| mac_salt_key := license_salt (lq_random q) |> <| licensing_encryption_key := license_key (lq_random q) |>
         <| hwid := license_hwid mac_address |>).

Lemma certificate_blob_run {S} q info lic : request_ok q info -> b_type (l_server_certificate lic) <> BB_ANY_BLOB ->
  let v := blob_view (l_server_certificate lic) BB_CERTIFICATE_BLOB (lq_certificate q) in
  exists ok, Pure (S := S) (certificate_read_server_certificate (l_certificate lic) (b_data v) (b_length v))
    (ok, match info with Some i => set_info i (l_certificate lic) | None => l_certificate lic end).
Proof.
  intros [_ _ _ _ _ _ _ _ Hc] Ht v. destruct info as [[m e]|].
  - destruct Hc as (sig & He & Hm & Hb & Hl & Eq). cbn [modulus exponent] in *. exists true. intros s.
    assert (Hpos : (len (lq_certificate q) =? 0) = false).
    { apply Z.eqb_neq. rewrite Eq. unfold server_cert_bytes. rewrite len_app. change (len (le32 _)) with 4. len_pos. lia. }
    unfold v, blob_view. rewrite Hpos, andb_false_r. cbn [b_data b_length]. rewrite Eq.
    rewrite <- (app_nil_r (server_cert_bytes m e sig)) at 1. apply server_certificate_run; auto; lia.
  - exists false. unfold v, blob_view. rewrite Hc, (proj2 (Z.eqb_neq _ _) Ht). apply Pure_ret.
Qed.

Lemma Reads_license_request mac_address q info lic : request_ok q info -> 6 <= len mac_address ->
  b_type (l_server_certificate lic) <> BB_ANY_BLOB -> premaster_secret lic = zeros 48 -> l_client_random lic = zeros 32 ->
  Reads (license_read_license_request_packet mac_address lic) (request_bytes q) (requested mac_address q info lic).
Proof.
  intros Hq Hm Ht Hp Hc. pose proof Hq as [Qr Qv Qc Qp Qe Qs Qn Ql _]. pose proof (len_nonneg (lq_scopes q)).
  unfold license_read_license_request_packet, request_bytes. rewrite (app_assoc (le32 (lq_version q))), (app_assoc (le32 (lq_version q) ++ _)).
  eapply Reads_bind; [apply Reads_read; lia|]. cbv zeta.
  eapply Reads_bind; [rewrite <- app_assoc; apply Reads_product; assumption|].
  eapply Reads_bind; [apply Reads_blob; split; [split; discriminate || reflexivity|exact Qe]|].
  eapply Reads_bind; [apply Reads_blob; split; [split; discriminate || reflexivity|exact Ql]|].
  eapply (Reads_last license_read_scope_list); [eapply Reads_bind; [apply Reads_le32; lia|]|].
  { replace (Z.to_nat (len (lq_scopes q))) with (length (lq_scopes q)) by (unfold len; lia). apply Reads_scopes, Qs. }
  destruct (certificate_blob_run (S := STREAM) q info lic Hq Ht) as [ok Hcert].
  eapply Pure_Reads, Pure_bind; [exact Hcert|].
  eapply Pure_bind; [apply (Pure_license_keys (lq_random q)); auto|].
  eapply Pure_bind; [apply Pure_license_hwid, Hm|]. apply Pure_ret.
Qed.
End messages.

Lemma Writes_new_request username hostname lic : l_client_random lic = zeros 32 ->
  encrypted_premaster_secret lic = mkBlob BB_RANDOM_BLOB PREMASTER_SECRET_LENGTH (replicate (Z.to_nat MODULUS_MAX_SIZE) 0) ->
  client_user_name lic = mkBlob BB_CLIENT_USER_NAME_BLOB (len (default no_username username) + 1) (default no_username username ++ [0]) ->
  client_machine_name lic = mkBlob BB_CLIENT_MACHINE_NAME_BLOB (len hostname + 1) (hostname ++ [0]) ->
  Writes (license_write_new_license_request_packet lic) (new_request_bytes username hostname) tt.
Proof.
  intros Hr Hp Hu Hm. unfold license_write_new_license_request_packet, new_request_bytes. rewrite Hr, Hp, Hu, Hm.
  eapply Writes_bind; [apply Writes_uint32|]. eapply Writes_bind; [do 2 (eapply Writes_bind; [apply Writes_uint8|]); apply Writes_uint16|].
  eapply Writes_first; [apply Writes_array_prefix; split; [discriminate|reflexivity]|].
  eapply Writes_bind; [apply Writes_write|].
  assert (Hblob : forall t x, Writes (license_write_binary_blob (mkBlob t (len x + 1) (x ++ [0]))) (blob_bytes t (x ++ [0])) tt).
  { intros t x. assert (E : len (x ++ [0]) = len x + 1) by (rewrite len_app; reflexivity). pose proof (len_nonneg x).
    eapply Writes_eq; [apply Writes_blob; cbn [b_length b_data]; lia| |reflexivity]. cbn [b_type b_length b_data].
    rewrite take_ge by (unfold len in *; lia). reflexivity. }
  eapply Writes_bind; [|eapply Writes_bind; [apply Hblob|eapply Writes_eq; [apply Hblob|reflexivity|reflexivity]]].
  unfold license_write_padded_binary_blob. cbn [b_length b_type b_data].
  change (PREMASTER_SECRET_LENGTH =? 0) with false. cbv iota zeta.
  do 2 (eapply Writes_bind; [apply Writes_uint16|]). change (0 <? PREMASTER_SECRET_LENGTH) with true. cbv iota.
  eapply Writes_bind; [|apply Writes_zero; discriminate].
  eapply Writes_first; [apply Writes_array_prefix; split; [discriminate|vm_compute; discriminate]|apply Writes_write].
Qed.

Lemma Writes_challenge_response cipher id mac lic : len mac = 16 ->
  encrypted_platform_challenge lic = mkBlob BB_DATA_BLOB (len cipher) cipher ->
  encrypted_hwid lic = mkBlob BB_DATA_BLOB (len id) id ->
  Writes (license_write_platform_challenge_response_packet lic mac) (response_bytes cipher id mac) tt.
Proof.
  intros Hm Hc Hi. unfold license_write_platform_challenge_response_packet, response_bytes. rewrite Hc, Hi.
  assert (Hblob : forall x, Writes (license_write_binary_blob (mkBlob BB_DATA_BLOB (len x) x)) (blob_bytes BB_DATA_BLOB x) tt).
  { intros x. pose proof (len_nonneg x). eapply Writes_eq; [apply Writes_blob; cbn [b_length b_data]; lia| |reflexivity].
    cbn [b_type b_length b_data]. rewrite take_ge by (unfold len; lia). reflexivity. }
  do 2 (eapply Writes_bind; [apply Hblob|]). eapply Writes_first; [apply Writes_array_prefix; lia|].
  rewrite take_ge by (unfold len in Hm; lia). apply Writes_write.
Qed.

(** ** The exchange *)

Section exchange.
Context {N U : Type} (l : TRANSPORT_LAYER) `{HLink : LinkLaws N l} `{HC : Crypto} `{HL : !CryptoLaws} `{HB : Bignum}
  `{HBL : !BignumLaws} `{HH : PduHandlers U}.
Variables (mac_address : list Z) (username : option (list Z)) (hostname : list Z).

(** Over a reliable link a packet goes out whole, and what follows is done. *)
Lemma license_send_then {A B} conf type (w : M STREAM A) a body (k : M (fpRdp N) B) (r : fpRdp N) :
  sendable l r -> reliable (N := N) l -> Writes w body a -> len body <= 4073 -> 0 <= type < 256 ->
  exists r', (license_send_stream_init;; on_stream w;; license_send conf type;; k) r = k r' /\
    sent r' = sent r ++ license_pdu conf type body /\ sendable l r'.
Proof.
  intros Hr Hrel Hw Hb Ht. destruct (license_send_run l conf type w a body r Hr Hw Hb Ht) as (ok & r' & n & E & Hs & Hok).
  destruct ok; [|destruct Hok as [_ Hn]; contradiction]. destruct Hok as (Hk & Hr' & _).
  exists r'. rewrite take_ge in Hs by exact Hk. split; [|auto].
  assert (Ea : (license_send_stream_init;; on_stream w;; license_send conf type;; k) r
               = ((license_send_stream_init;; on_stream w;; license_send conf type);; k) r)
    by (rewrite bind_assoc; unfold bind; destruct (license_send_stream_init r) as [[? s]|]; [|reflexivity];
        destruct (on_stream w s) as [[]|]; reflexivity).
  rewrite Ea, (bind_Done _ _ _ _ _ E). reflexivity.
Qed.

Lemma bind_pure_after {S A B C} (c : M S A) (p : M S B) b (k : B -> M S C) s : Pure p b ->
  (c;; let! x := p in k x) s = (c;; k b) s.
Proof.
  intros Hp. unfold bind. destruct (c s) as [[x s']|f]; [rewrite (Hp s')|]; reflexivity.
Qed.

Lemma blob_view_any old t d : b_type old = BB_ANY_BLOB -> blob_view old t d = mkBlob t (len d) d.
Proof. intros E. unfold blob_view. rewrite E. reflexivity. Qed.

Lemma blob_view_type old t d : b_type old = t -> b_type (blob_view old t d) = t.
Proof. intros E. unfold blob_view. destruct (_ && _); [exact E|reflexivity]. Qed.

(** A license that has not been asked for yet. *)
Record fresh (lic : rdpLicense) : Prop := {
  fr_premaster : premaster_secret lic = zeros 48;
  fr_random : l_client_random lic = zeros 32;
  fr_cert : b_type (l_server_certificate lic) = BB_CERTIFICATE_BLOB;
  fr_user : b_type (client_user_name lic) = BB_CLIENT_USER_NAME_BLOB;
  fr_machine : b_type (client_machine_name lic) = BB_CLIENT_MACHINE_NAME_BLOB;
}.

Lemma new_request_run q info lic s (r : rdpRdp N U) : fresh lic -> request_ok q info -> 6 <= len mac_address ->
  holds s (request_bytes q) -> sendable l (rdp_out r) -> reliable (N := N) l ->
  len (default no_username username) + len hostname <= 3900 ->
  exists o lic' s', license_message mac_address username hostname lic LICENSE_REQUEST (s, r)
                    = Done ((true, lic'), (s', with_out o r)) /\
    sent o = sent (rdp_out r) ++ license_pdu (rdp_conf r) NEW_LICENSE_REQUEST (new_request_bytes username hostname) /\
    sendable l o /\ keyed (lq_random q) lic' /\ hwid lic' = license_hwid mac_address /\ fresh lic'.
Proof.
  intros [Fp Fr Fc Fu Fm] Hq Hm Hs Hr Hrel Hlen. pose proof (len_nonneg (default no_username username)). pose proof (len_nonneg hostname).
  set (lic1 := requested mac_address q info lic).
  pose proof (Reads_license_request mac_address q info lic Hq Hm ltac:(rewrite Fc; discriminate) Fp Fr s Hs) as Er.
  set (lic2 := lic1 <| client_user_name := mkBlob (b_type (client_user_name lic1)) (len (default no_username username) + 1) (default no_username username ++ [0]) |>
                    <| client_machine_name := mkBlob (b_type (client_machine_name lic1)) (len hostname + 1) (hostname ++ [0]) |>).
  set (lic3 := lic2 <| client_user_name := mkBlob (b_type (client_user_name lic1)) 0 [] |> <| client_machine_name := mkBlob (b_type (client_machine_name lic1)) 0 [] |>).
  assert (Hw : Writes (license_write_new_license_request_packet lic2) (new_request_bytes username hostname) tt).
  { apply Writes_new_request; [exact Fr|reflexivity|apply (f_equal (fun t => mkBlob t _ _) Fu)|apply (f_equal (fun t => mkBlob t _ _) Fm)]. }
  destruct (license_send_then (rdp_conf r) NEW_LICENSE_REQUEST _ _ _ (ret lic3) (rdp_out r) Hr Hrel Hw)
    as (o & Es & Ho & Hr'); [|split; discriminate || reflexivity|].
  { unfold new_request_bytes, blob_bytes. rewrite !len_app. rewrite !len_zeros by lia. change (len (le16 _)) with 2.
    change (len (le32 _)) with 4. change (len [_]) with 1. lia. }
  exists o, lic3. eexists. split.
  { unfold license_message, bind at 1, rdp_of. cbn [snd]. change (LICENSE_REQUEST =? LICENSE_REQUEST) with true. cbv iota.
    rewrite (bind_Done _ _ _ _ _ (pkt_run _ _ r _ _ Er)).
    erewrite bind_Done; [reflexivity|]. apply out_of_run. unfold license_send_new_license_request_packet.
    cbv zeta. fold lic1. unfold uint16. rewrite !Z.mod_small by lia. exact Es. }
  split; [exact Ho|]. split; [exact Hr'|]. split; [split; reflexivity|]. split; [reflexivity|].
  split; [exact Fp|exact Fr|apply (blob_view_type _ _ _ Fc)|exact Fu|exact Fm].
Qed.

Lemma Pure_decrypt_challenge {S} sr lic type cipher : keyed sr lic ->
  encrypted_platform_challenge lic = mkBlob type (len cipher) cipher ->
  Pure (S := S) (license_decrypt_platform_challenge lic)
    (lic <| platform_challenge := mkBlob (b_type (platform_challenge lic)) (len cipher) (fst (rc4 (rc4_init (license_key sr)) cipher)) |>).
Proof.
  intros [_ Kk] Ec. unfold license_decrypt_platform_challenge. rewrite Ec, Kk. cbn [b_length b_data]. cbv zeta.
  assert (Hlk : len (license_key sr) = 16) by apply len_md5. pose proof (len_nonneg cipher).
  eapply Pure_bind; [apply Pure_mem; try discriminate; change LICENSING_ENCRYPTION_KEY_LENGTH with 16; lia|].
  eapply Pure_bind; [apply Pure_mem; lia|]. rewrite !slice_all by (reflexivity || (change LICENSING_ENCRYPTION_KEY_LENGTH with 16; lia)).
  apply Pure_ret.
Qed.

(** The license after a challenge was answered. *)
Lemma challenge_run sr flags type cipher mac lic s (r : rdpRdp N U) : keyed sr lic -> hwid lic = license_hwid mac_address ->
  holds s (challenge_bytes flags type cipher mac) -> 0 <= flags < 2 ^ 32 -> blob_ok (type, cipher) -> len mac = 16 ->
  len cipher <= 4000 -> sendable l (rdp_out r) -> reliable (N := N) l ->
  let challenge := fst (rc4 (rc4_init (license_key sr)) cipher) in
  exists o lic' s' id, license_message mac_address username hostname lic PLATFORM_CHALLENGE (s, r)
                       = Done ((true, lic'), (s', with_out o r)) /\
    sent o = sent (rdp_out r) ++ license_pdu (rdp_conf r) PLATFORM_CHALLENGE_RESPONSE
               (response_bytes cipher id (license_mac (license_salt sr) (challenge ++ license_hwid mac_address))) /\
    fst (rc4 (rc4_init (license_key sr)) id) = license_hwid mac_address /\ sendable l o /\ l_state lic' = l_state lic.
Proof.
  intros [Ks Kk] Hid Hs Hf Hb Hm Hc Hr Hrel challenge.
  pose proof (len_nonneg cipher). pose proof (len_license_hwid mac_address) as Hlh. pose proof (len_license_salt sr) as Hls.
  assert (Hlk : len (license_key sr) = 16) by apply len_md5.
  destruct (rc4 (rc4_init (license_key sr)) (license_hwid mac_address)) as [id st] eqn:Eid.
  destruct (rc4_back _ _ _ _ Eid) as [Hidl Eback].
  assert (Hch : len challenge = len cipher).
  { unfold challenge. destruct (rc4 (rc4_init (license_key sr)) cipher) as [out st'] eqn:E. apply (rc4_back _ _ _ _ E). }
  set (mac' := license_mac (license_salt sr) (challenge ++ license_hwid mac_address)).
  set (lic1 := lic <| encrypted_platform_challenge := mkBlob BB_ENCRYPTED_DATA_BLOB (len cipher) cipher |>
                   <| platform_challenge := mkBlob (b_type (platform_challenge lic)) (len cipher) challenge |>).
  set (lic2 := lic1 <| encrypted_platform_challenge := mkBlob BB_DATA_BLOB (len cipher) cipher |>
                    <| encrypted_hwid := mkBlob BB_DATA_BLOB HWID_LENGTH id |>).
  assert (Er : license_read_platform_challenge_packet lic s = Done (lic1, adv (len (challenge_bytes flags type cipher mac)) s)).
  { refine (_ s Hs). change (Reads (license_read_platform_challenge_packet lic) (challenge_bytes flags type cipher mac) lic1).
    unfold license_read_platform_challenge_packet, challenge_bytes. eapply Reads_bind; [apply Reads_seek; reflexivity|].
    eapply Reads_bind; [apply Reads_blob, Hb|]. rewrite blob_view_any by reflexivity. cbv zeta.
    eapply Reads_last; [apply Reads_seek; lia|]. apply Pure_Reads.
    refine (Pure_decrypt_challenge sr (lic <| encrypted_platform_challenge := mkBlob BB_ENCRYPTED_DATA_BLOB (len cipher) cipher |>) BB_ENCRYPTED_DATA_BLOB cipher _ _);
      [split; assumption|reflexivity]. }
  assert (Hw : Writes (license_write_platform_challenge_response_packet lic2 mac') (response_bytes cipher id mac') tt).
  { apply Writes_challenge_response; [apply len_md5|reflexivity|]. apply (f_equal (fun n => mkBlob BB_DATA_BLOB n id)). change HWID_LENGTH with 20. lia. }
  destruct (license_send_then (rdp_conf r) PLATFORM_CHALLENGE_RESPONSE _ _ _ (ret lic2) (rdp_out r) Hr Hrel Hw)
    as (o & Es & Ho & Hr'); [|split; discriminate || reflexivity|].
  { unfold response_bytes, blob_bytes. rewrite !len_app. unfold mac', license_mac. rewrite len_md5. change (len (le16 _)) with 2. lia. }
  exists o, lic2. eexists. exists id. split.
  { unfold license_message, bind at 1, rdp_of. cbn [snd]. change (PLATFORM_CHALLENGE =? LICENSE_REQUEST) with false.
    change (PLATFORM_CHALLENGE =? PLATFORM_CHALLENGE) with true. cbv iota.
    rewrite (bind_Done _ _ _ _ _ (pkt_run _ _ r _ _ Er)).
    erewrite bind_Done; [reflexivity|]. apply out_of_run. unfold license_send_platform_challenge_response_packet. cbv zeta.
    rewrite (bind_pure_after _ _ (slice 0 (len cipher) challenge)) by (apply Pure_mem; cbn; lia).
    rewrite (bind_pure_after _ _ (slice 0 20 (license_hwid mac_address))) 
      by (change (Pure (S := fpRdp N) (mem 0 20 (hwid lic)) (slice 0 20 (license_hwid mac_address))); rewrite Hid; apply Pure_mem; lia).
    rewrite (bind_pure_after _ _ mac').
    2:{ rewrite !slice_all by lia. change (Pure (S := fpRdp N) (security_mac_data (mac_salt_key lic) (challenge ++ license_hwid mac_address)) mac'). rewrite Ks. unfold security_mac_data. eapply Pure_bind; [apply Pure_mem; lia|].
        rewrite slice_all by lia. apply Pure_ret. }
    rewrite (bind_pure_after _ _ (license_key sr)) 
      by (change (Pure (S := fpRdp N) (mem 0 16 (licensing_encryption_key lic)) (license_key sr)); rewrite Kk;
          rewrite <- (slice_all 16 (license_key sr)) at 2 by lia; apply Pure_mem; lia).
    rewrite slice_all by lia. rewrite Eid. exact Es. }
  split; [exact Ho|]. rewrite Eback. auto.
Qed.
End exchange.

(** ** A client that needs no license *)

Definition valid_client_bytes : list Z := le32 STATUS_VALID_CLIENT ++ le32 ST_NO_TRANSITION ++ blob_bytes BB_ERROR_BLOB [].
Definition completed (lic : rdpLicense) : rdpLicense :=
  lic <| error_info := blob_view (error_info lic) BB_ERROR_BLOB [] |> <| l_state := LICENSE_STATE_COMPLETED |>.

Lemma valid_client_sent {N} l `{LinkLaws N l} `{Crypto} `{!CryptoLaws} `{Bignum} conf (r : fpRdp N) : sendable l r ->
  let pdu := license_pdu conf ERROR_ALERT valid_client_bytes in
  exists ok r' k, license_send_valid_client_error_packet conf license_new r = Done (true, r') /\ sent r' = sent r ++ take k pdu /\
    if ok : bool then (length pdu <= k)%nat /\ sendable l r' /\ fp_sec r' = fp_sec r /\ fp_cfg r' = fp_cfg r
    else t_layer (fp_transport r') = TRANSPORT_LAYER_CLOSED /\ ~ reliable (N := N) l.
Proof.
  intros Hs pdu.
  assert (Hw : Writes ((stream_write_uint32 STATUS_VALID_CLIENT;; stream_write_uint32 ST_NO_TRANSITION);;
                       license_write_binary_blob (error_info license_new)) valid_client_bytes tt).
  { unfold valid_client_bytes. rewrite app_assoc. eapply Writes_bind; [eapply Writes_bind; apply Writes_uint32|].
    apply Writes_blob. split; reflexivity || discriminate. }
  destruct (license_send_run l conf ERROR_ALERT _ _ valid_client_bytes r Hs Hw ltac:(vm_compute; discriminate)
              ltac:(split; discriminate || reflexivity)) as (ok & r' & k & E & Hout & Hok).
  exists ok, r', k. split; [|auto]. unfold license_send_valid_client_error_packet. unfold bind at 1 in E.
  destruct (license_send_stream_init r) as [[? r1]|] eqn:Ei; [|discriminate]. rewrite (bind_Done _ _ _ _ _ Ei), !on_stream_seq.
  unfold bind at 1 in E. unfold bind at 1. destruct (on_stream _ r1) as [[? r2]|]; [|discriminate].
  rewrite (bind_Done _ _ _ _ _ E). reflexivity.
Qed.

Lemma valid_client_received {N U} `{Link N} `{Crypto} `{Bignum} `{PduHandlers U} mac_address username hostname conf lic (rb : rdpRdp N U) :
  1001 <= mcs_user_id conf < 65536 ->
  let pdu := license_pdu conf ERROR_ALERT valid_client_bytes in
  exists s', license_recv mac_address username hostname lic (mkSTREAM (len pdu) 0 pdu, rb) = Done ((true, completed lic), (s', rb)).
Proof.
  intros Hu pdu. destruct (license_recv_run mac_address username hostname conf ERROR_ALERT valid_client_bytes lic rb Hu
              ltac:(split; discriminate || reflexivity) ltac:(reflexivity)) as (s & Er & Hh). fold pdu in Er.
  assert (Hr : Reads (license_read_error_alert_packet lic) valid_client_bytes (completed lic)).
  { unfold license_read_error_alert_packet, valid_client_bytes.
    do 2 (eapply Reads_bind; [apply Reads_le32; split; discriminate || reflexivity|]).
    eapply Reads_last; [apply Reads_blob; split; [split; discriminate || reflexivity|reflexivity]|]. apply Reads_ret. }
  exists (adv (len valid_client_bytes) s). rewrite Er. unfold license_message, bind at 1, rdp_of. cbn [snd].
  change (ERROR_ALERT =? LICENSE_REQUEST) with false. change (ERROR_ALERT =? PLATFORM_CHALLENGE) with false.
  change (ERROR_ALERT =? NEW_LICENSE) with false. change (ERROR_ALERT =? UPGRADE_LICENSE) with false.
  change (ERROR_ALERT =? ERROR_ALERT) with true. cbv iota.
  rewrite (bind_Done _ _ _ _ _ (pkt_run _ _ rb _ _ (Hr _ Hh))). reflexivity.
Qed.

(** ** Claims *)

(** C32. The licensing exchange over a reliable link: a client that is asked for a
    license answers with its user and machine name, and a platform challenge
    with the challenge as it came, its hardware identifier under the licensing
    key and a signature of both; the server that derives the keys from its
    random number finds the hardware identifier in the reply. *)
Theorem license_exchange {N U} l `{LinkLaws N l} `{Crypto} `{!CryptoLaws} `{Bignum} `{!BignumLaws} `{PduHandlers U}
    mac_address username hostname conf (r : rdpRdp N U) q info flags type cipher mac :
  sendable l (rdp_out r) -> reliable (N := N) l -> 1001 <= mcs_user_id conf < 65536 ->
  6 <= len mac_address -> len (default no_username username) + len hostname <= 3900 ->
  request_ok q info -> len (request_bytes q) < 0x7000 ->
  0 <= flags < 2 ^ 32 -> 0 <= type < 65536 -> len cipher <= 4000 -> len mac = 16 ->
  let recv lic pdu (o : fpRdp N) := license_recv mac_address username hostname lic (mkSTREAM (len pdu) 0 pdu, with_out o r) in
  let key := license_key (lq_random q) in
  let challenge := fst (rc4 (rc4_init key) cipher) in
  exists lic1 s1 o1 lic2 s2 o2 id,
    recv license_new (license_pdu conf LICENSE_REQUEST (request_bytes q)) (rdp_out r) = Done ((true, lic1), (s1, with_out o1 r)) /\
    recv lic1 (license_pdu conf PLATFORM_CHALLENGE (challenge_bytes flags type cipher mac)) o1
      = Done ((true, lic2), (s2, with_out o2 r)) /\
    sent o2 = sent (rdp_out r) ++ license_pdu (rdp_conf r) NEW_LICENSE_REQUEST (new_request_bytes username hostname) ++
      license_pdu (rdp_conf r) PLATFORM_CHALLENGE_RESPONSE
        (response_bytes cipher id (license_mac (license_salt (lq_random q)) (challenge ++ license_hwid mac_address))) /\
    fst (rc4 (rc4_init key) id) = license_hwid mac_address /\ sendable l o2.
Proof.
  intros Hs Hrel Hu Hmac Hnames Hq Hql Hf Ht Hc Hm recv key challenge. subst recv.
  assert (Hcl : len (challenge_bytes flags type cipher mac) < 0x7000).
  { unfold challenge_bytes, blob_bytes. rewrite !len_app, Hm. change (len (le32 _)) with 4. change (len (le16 _)) with 2. lia. }
  destruct (license_recv_run mac_address username hostname conf LICENSE_REQUEST (request_bytes q) license_new (with_out (rdp_out r) r))
    as (t1 & E1 & T1); [exact Hu|split; discriminate || reflexivity|exact Hql|].
  destruct (new_request_run l mac_address username hostname q info license_new t1 (with_out (rdp_out r) r)
              ltac:(split; reflexivity) Hq Hmac T1 Hs Hrel Hnames) as (o1 & lic1 & s1 & M1 & W1 & S1 & K1 & Id1 & _).
  destruct (license_recv_run mac_address username hostname conf PLATFORM_CHALLENGE (challenge_bytes flags type cipher mac) lic1 (with_out o1 r))
    as (t2 & E2 & T2); [exact Hu|split; discriminate || reflexivity|exact Hcl|].
  destruct (challenge_run l mac_address username hostname (lq_random q) flags type cipher mac lic1 t2 (with_out o1 r)
              K1 Id1 T2 Hf ltac:(split; cbn [fst snd]; lia) Hm Hc S1 Hrel) as (o2 & lic2 & s2 & id & M2 & W2 & Id2 & S2 & _).
  exists lic1, s1, o1, lic2, s2, o2, id. cbv beta. rewrite E1, M1, E2, M2. do 2 (split; [reflexivity|]).
  split; [|auto]. rewrite W2. change (rdp_out (with_out o1 r)) with o1. rewrite W1, <- app_assoc. reflexivity.
Qed.

(** C33. A server without licenses: the packet that says so is handed over whole or
    the connection is closed, its transport length is its own, and it ends the
    licensing of a client, in whatever state that was. *)
Theorem license_valid_client_completes {N N' U} l `{LinkLaws N l} `{Link N'} `{Crypto} `{!CryptoLaws} `{Bignum} `{PduHandlers U}
    mac_address username hostname conf (r : fpRdp N) lic (rb : rdpRdp N' U) :
  sendable l r -> l <> TRANSPORT_LAYER_TSG -> 1001 <= mcs_user_id conf < 65536 ->
  exists ok r' k pdu s',
    license_send_valid_client_error_packet conf license_new r = Done (true, r') /\ sent r' = sent r ++ take k pdu /\
    (if ok : bool then (length pdu <= k)%nat /\ sendable l r'
     else t_layer (fp_transport r') = TRANSPORT_LAYER_CLOSED /\ ~ reliable (N := N) l) /\
    pdu_length l pdu = Done (len pdu) /\
    license_recv mac_address username hostname lic (mkSTREAM (len pdu) 0 pdu, rb)
      = Done ((true, completed lic), (s', rb)).
Proof.
  intros Hs Htsg Hu. destruct (valid_client_sent l conf r Hs) as (ok & r' & k & E & Hout & Hok).
  destruct (valid_client_received mac_address username hostname conf lic rb Hu) as (s' & Er).
  exists ok, r', k, (license_pdu conf ERROR_ALERT valid_client_bytes), s'. split; [exact E|]. split; [exact Hout|].
  split; [destruct ok; tauto|]. split; [|exact Er].
  rewrite len_license_pdu. apply rdp_pdu_length; [exact Htsg|split; discriminate || reflexivity].
Qed.

(** *** Samples *)

Definition sample_request : license_request :=
  mkRequest (upto 32) 0x60000 [0x4D; 0; 0x53; 0] [0x41; 0; 0x30; 0] [1; 0; 0; 0] [] [(BB_SCOPE_BLOB, [0x6D; 0x73]); (BB_SCOPE_BLOB, [])].

#[local] Existing Instance ZBignum.
#[local] Existing Instance ZBignum_laws.

Lemma license_exchange_witness :
  let recv lic pdu (o : fpRdp (list Z)) := license_recv [1; 2; 3; 4; 5; 6] None [0x68] lic (mkSTREAM (len pdu) 0 pdu, with_out o sink_peer) in
  let key := license_key (upto 32) in
  let challenge := fst (rc4 (rc4_init key) [7; 8; 9]) in
  exists lic1 s1 o1 lic2 s2 o2 id,
    recv license_new (license_pdu sink_conf LICENSE_REQUEST (request_bytes sample_request)) sink_rdp
      = Done ((true, lic1), (s1, with_out o1 sink_peer)) /\
    recv lic1 (license_pdu sink_conf PLATFORM_CHALLENGE (challenge_bytes 0 BB_ANY_BLOB [7; 8; 9] (zeros 16))) o1
      = Done ((true, lic2), (s2, with_out o2 sink_peer)) /\
    sent o2 = sent sink_rdp ++ license_pdu (rdp_conf sink_peer) NEW_LICENSE_REQUEST (new_request_bytes None [0x68]) ++
      license_pdu (rdp_conf sink_peer) PLATFORM_CHALLENGE_RESPONSE
        (response_bytes [7; 8; 9] id (license_mac (license_salt (upto 32)) (challenge ++ license_hwid [1; 2; 3; 4; 5; 6]))) /\
    fst (rc4 (rc4_init key) id) = license_hwid [1; 2; 3; 4; 5; 6] /\ sendable TRANSPORT_LAYER_TCP o2.
Proof.
  refine (license_exchange TRANSPORT_LAYER_TCP [1; 2; 3; 4; 5; 6] None [0x68] sink_conf sink_peer sample_request None 0 BB_ANY_BLOB
            [7; 8; 9] (zeros 16) _ _ ltac:(cbn; lia) ltac:(discriminate) ltac:(discriminate) _ ltac:(reflexivity)
            ltac:(split; discriminate || reflexivity) ltac:(split; discriminate || reflexivity) ltac:(discriminate) eq_refl).
  - split; try reflexivity; try discriminate. split; vm_compute; try split; discriminate.
  - intros bs net st net' [= <- <-]. apply len_nonneg.
  - split; try reflexivity; try (split; discriminate || reflexivity).
    repeat (apply Forall_cons_2; [split; [split; discriminate || reflexivity|reflexivity]|]). apply Forall_nil_2.
Defined.

Lemma license_valid_client_completes_witness :
  exists ok r' k pdu s',
    license_send_valid_client_error_packet sink_conf license_new sink_rdp = Done (true, r') /\ sent r' = sent sink_rdp ++ take k pdu /\
    (if ok : bool then (length pdu <= k)%nat /\ sendable TRANSPORT_LAYER_TCP r'
     else t_layer (fp_transport r') = TRANSPORT_LAYER_CLOSED /\ ~ reliable (N := list Z) TRANSPORT_LAYER_TCP) /\
    pdu_length TRANSPORT_LAYER_TCP pdu = Done (len pdu) /\
    license_recv [] None [] license_new (mkSTREAM (len pdu) 0 pdu, sink_peer)
      = Done ((true, completed license_new), (s', sink_peer)).
Proof.
  apply (license_valid_client_completes TRANSPORT_LAYER_TCP [] None [] sink_conf sink_rdp license_new sink_peer);
    [|discriminate|cbn; lia].
  split; try reflexivity; try discriminate. split; vm_compute; try split; discriminate.
Defined.
