(* ===== verification/Capabilities.v ===== *)
(** Capabilities: [libfreerdp-core/capabilities.c]. The capability sets with
    which client and server tell each other what they support, the demand active
    PDU of the server and the confirm active PDU of the client. *)

From coqutil Require Import Datatypes.RecordSetters.
From S2P Require Import Prelude.
From S2P Require Import Stream.
From S2P Require Import Settings.
From S2P Require Import Mppc.
From S2P Require Import Per.
From S2P Require Import X224.
From S2P Require Import Transport.
From S2P Require Import Mcs.
From S2P Require Import Security.
From S2P Require Import Input.
From S2P Require Import Gcc.
From S2P Require Import GccClient.
From S2P Require Import Fastpath.
From S2P Require Import Rdp.
From S2P Require Import Channel.
From S2P Require Import Info.
From S2P Require Import License.
Import TriangleBracketNotations.

(** ** Constants *)

Definition CAPSET_TYPE_GENERAL : Z := 0x0001.
Definition CAPSET_TYPE_BITMAP : Z := 0x0002.
Definition CAPSET_TYPE_ORDER : Z := 0x0003.
Definition CAPSET_TYPE_BITMAP_CACHE : Z := 0x0004.
Definition CAPSET_TYPE_CONTROL : Z := 0x0005.
Definition CAPSET_TYPE_ACTIVATION : Z := 0x0007.
Definition CAPSET_TYPE_POINTER : Z := 0x0008.
Definition CAPSET_TYPE_SHARE : Z := 0x0009.
Definition CAPSET_TYPE_COLOR_CACHE : Z := 0x000A.
Definition CAPSET_TYPE_SOUND : Z := 0x000C.
Definition CAPSET_TYPE_INPUT : Z := 0x000D.
Definition CAPSET_TYPE_FONT : Z := 0x000E.
Definition CAPSET_TYPE_BRUSH : Z := 0x000F.
Definition CAPSET_TYPE_GLYPH_CACHE : Z := 0x0010.
Definition CAPSET_TYPE_OFFSCREEN_CACHE : Z := 0x0011.
Definition CAPSET_TYPE_BITMAP_CACHE_HOST_SUPPORT : Z := 0x0012.
Definition CAPSET_TYPE_BITMAP_CACHE_V2 : Z := 0x0013.
Definition CAPSET_TYPE_VIRTUAL_CHANNEL : Z := 0x0014.
Definition CAPSET_TYPE_DRAW_NINE_GRID_CACHE : Z := 0x0015.
Definition CAPSET_TYPE_DRAW_GDI_PLUS : Z := 0x0016.
Definition CAPSET_TYPE_RAIL : Z := 0x0017.
Definition CAPSET_TYPE_WINDOW : Z := 0x0018.
Definition CAPSET_TYPE_COMP_DESK : Z := 0x0019.
Definition CAPSET_TYPE_MULTI_FRAGMENT_UPDATE : Z := 0x001A.
Definition CAPSET_TYPE_LARGE_POINTER : Z := 0x001B.
Definition CAPSET_TYPE_SURFACE_COMMANDS : Z := 0x001C.
Definition CAPSET_TYPE_BITMAP_CODECS : Z := 0x001D.
Definition CAPSET_TYPE_FRAME_ACKNOWLEDGE : Z := 0x001E.
Definition CAPSET_HEADER_LENGTH : Z := 4.

(** ["FREERDP"] with its terminating zero. *)
Definition SOURCE_DESCRIPTOR : list Z := [0x46; 0x52; 0x45; 0x45; 0x52; 0x44; 0x50; 0].
Definition CAPS_PROTOCOL_VERSION : Z := 0x0200.
Definition FASTPATH_OUTPUT_SUPPORTED : Z := 0x0001.
Definition NO_BITMAP_COMPRESSION_HDR : Z := 0x0400.
Definition LONG_CREDENTIALS_SUPPORTED : Z := 0x0004.
Definition AUTORECONNECT_SUPPORTED : Z := 0x0008.
Definition NEGOTIATE_ORDER_SUPPORT : Z := 0x0002.
Definition ZERO_BOUNDS_DELTA_SUPPORT : Z := 0x0008.
Definition COLOR_INDEX_SUPPORT : Z := 0x0020.
Definition ORDER_FLAGS_EXTRA_SUPPORT : Z := 0x0080.
Definition CACHE_BITMAP_V3_SUPPORT : Z := 0x0002.
Definition ALTSEC_FRAME_MARKER_SUPPORT : Z := 0x0004.
Definition SOUND_BEEPS_FLAG : Z := 0x0001.
Definition INPUT_FLAG_SCANCODES : Z := 0x0001.
Definition INPUT_FLAG_MOUSEX : Z := 0x0004.
Definition INPUT_FLAG_FASTPATH_INPUT : Z := 0x0008.
Definition INPUT_FLAG_UNICODE : Z := 0x0010.
Definition INPUT_FLAG_FASTPATH_INPUT2 : Z := 0x0020.
Definition FONTSUPPORT_FONTLIST : Z := 0x0001.
Definition BRUSH_COLOR_FULL : Z := 0x00000002.
Definition BITMAP_CACHE_V2 : Z := 0x01.
Definition PERSISTENT_KEYS_EXPECTED_FLAG : Z := 0x0001.
Definition ALLOW_CACHE_WAITING_LIST_FLAG : Z := 0x0002.
Definition VCCAPS_NO_COMPR : Z := 0x00000000.
Definition VCCAPS_COMPR_CS_8K : Z := 0x00000002.
Definition DRAW_NINEGRID_NO_SUPPORT : Z := 0x00000000.
Definition DRAW_NINEGRID_SUPPORTED : Z := 0x00000001.
Definition DRAW_NINEGRID_SUPPORTED_V2 : Z := 0x00000002.
Definition DRAW_GDIPLUS_DEFAULT : Z := 0x00000000.
Definition DRAW_GDIPLUS_SUPPORTED : Z := 0x00000001.
Definition DRAW_GDIPLUS_CACHE_LEVEL_DEFAULT : Z := 0x00000000.
Definition DRAW_GDIPLUS_CACHE_LEVEL_ONE : Z := 0x00000001.
Definition RAIL_LEVEL_SUPPORTED : Z := 0x00000001.
Definition RAIL_LEVEL_DOCKED_LANGBAR_SUPPORTED : Z := 0x00000002.
Definition WINDOW_LEVEL_SUPPORTED_EX : Z := 0x00000002.
Definition COMPDESK_NOT_SUPPORTED : Z := 0x0000.
Definition COMPDESK_SUPPORTED : Z := 0x0001.
Definition LARGE_POINTER_FLAG_96x96 : Z := 0x00000001.
Definition SURFCMDS_SET_SURFACE_BITS : Z := 0x00000002.
Definition SURFCMDS_FRAME_MARKER : Z := 0x00000010.
Definition SURFCMDS_STREAM_SURFACE_BITS : Z := 0x00000040.
Definition CARDP_CAPS_CAPTURE_NON_CAC : Z := 0x00000001.
Definition CBY_CAPS : Z := 0xCBC0.
Definition CBY_CAPSET : Z := 0xCBC1.
Definition CLY_CAPSET : Z := 0xCFC0.
Definition CLW_VERSION_1_0 : Z := 0x0100.
Definition CT_TILE_64x64 : Z := 0x0040.
Definition CLW_COL_CONV_ICT : Z := 0x1.
Definition CLW_XFORM_DWT_53_A : Z := 0x1.
Definition CLW_ENTROPY_RLGR1 : Z := 0x01.
Definition CLW_ENTROPY_RLGR3 : Z := 0x04.
Definition CODEC_ID_NSCODEC : Z := 0x01.
Definition CODEC_ID_JPEG : Z := 0x02.
Definition CODEC_ID_REMOTEFX : Z := 0x03.
Definition GLYPH_SUPPORT_FULL : Z := 0x0002.
Definition PDU_TYPE_DEMAND_ACTIVE : Z := 0x1.
Definition PDU_TYPE_CONFIRM_ACTIVE : Z := 0x3.

Definition CODEC_GUID_REMOTEFX : list Z :=
  [0x12; 0x2F; 0x77; 0x76; 0x72; 0xBD; 0x63; 0x44; 0xAF; 0xB3; 0xB7; 0x3C; 0x9C; 0x6F; 0x78; 0x86].
Definition CODEC_GUID_NSCODEC : list Z :=
  [0xb9; 0x1b; 0x8d; 0xca; 0x0f; 0x00; 0x4f; 0x15; 0x58; 0x9f; 0xae; 0x2d; 0x1a; 0x87; 0xe2; 0xd6].
Definition CODEC_GUID_JPEG : list Z :=
  [0xE6; 0x4C; 0xAF; 0x1B; 0xED; 0x9E; 0x0C; 0x43; 0x86; 0x9A; 0xCB; 0x8B; 0x37; 0xB6; 0x62; 0x37].

(** ** Settings *)

Record BITMAP_CACHE_V2_CELL_INFO : Type := mkCell { numEntries : Z; persistent : bool }.
Record GLYPH_CACHE_DEFINITION : Type := mkGlyphCache { cacheEntries : Z; cacheMaximumCellSize : Z }.

(** The settings only the capability sets use, and [glyph_v2] of the secondary
    orders, which follows from them. *)
Record capabilities : Type := mkCaps {
  refresh_rect : bool;
  suppress_output : bool;
  desktop_resize : bool;
  auto_reconnection : bool;
  os_major_type : Z;
  os_minor_type : Z;
  sound_beeps : bool;
  frame_marker : bool;
  fastpath_input : bool;
  fastpath_output : bool;
  received_caps : list Z;
  order_support : list Z;
  surface_commands : bool;
  multifrag_max_request_size : Z;
  ns_codec : bool;
  rfx_codec_id : Z;
  ns_codec_id : Z;
  rfx_codec_mode : Z;
  jpeg_codec : bool;
  jpeg_quality : Z;
  v3_codec_id : Z;
  dump_rfx : bool;
  num_icon_caches : Z;
  num_icon_cache_entries : Z;
  rail_langbar_supported : bool;
  large_pointer : bool;
  color_pointer : bool;
  pointer_cache_size : Z;
  bitmap_cache_v3 : bool;
  persistent_bitmap_cache : bool;
  bitmapCacheV2NumCells : Z;
  bitmapCacheV2CellInfo : list BITMAP_CACHE_V2_CELL_INFO;
  offscreen_bitmap_cache : bool;
  offscreen_bitmap_cache_size : Z;
  offscreen_bitmap_cache_entries : Z;
  glyphSupportLevel : Z;
  glyphCache : list GLYPH_CACHE_DEFINITION;
  fragCache : GLYPH_CACHE_DEFINITION;
  draw_nine_grid : bool;
  draw_nine_grid_cache_size : Z;
  draw_nine_grid_cache_entries : Z;
  draw_gdi_plus : bool;
  draw_gdi_plus_cache : bool;
  desktop_composition : bool;
  glyph_v2 : bool;
}.

(** [rdpSettings] as the capability sets see them: the fields that the RDP layer
    reads, those of the client info and the core data, and the ones above. *)
Record cap_settings : Type := mkCapSettings {
  conf : rdpConf;
  info : info_settings;
  caps : capabilities;
}.

Definition upd_caps (f : capabilities -> capabilities) (st : cap_settings) : cap_settings :=
  mkCapSettings (conf st) (info st) (f (caps st)).
Definition upd_info (f : info_settings -> info_settings) (st : cap_settings) : cap_settings :=
  mkCapSettings (conf st) (f (info st)) (caps st).
Definition upd_core (f : rdp_settings -> rdp_settings) : cap_settings -> cap_settings :=
  upd_info (fun i => i <| core := f (core i) |>).
Definition upd_conf (f : rdpConf -> rdpConf) (st : cap_settings) : cap_settings :=
  mkCapSettings (f (conf st)) (info st) (caps st).
Definition mode (st : cap_settings) : bool := server_mode (conf st).
Definition score (st : cap_settings) : rdp_settings := core (info st).

(** ** Headers *)

(** Returns [*length] and [*type]. *)
Definition rdp_read_capability_set_header : M STREAM (Z * Z) :=
  let! type := stream_read_uint16 in
  let! length := stream_read_uint16 in
  ret (length, type).

Definition rdp_write_capability_set_header (length type : Z) : M STREAM unit :=
  stream_write_uint16 type;;
  stream_write_uint16 length.

Definition rdp_capability_set_start : M STREAM Z :=
  let! header := get_pos in
  stream_write_zero CAPSET_HEADER_LENGTH;;
  ret header.

Definition rdp_capability_set_finish (header type : Z) : M STREAM unit :=
  let! footer := get_pos in
  let length := uint16 (footer - header) in
  stream_set_pos header;;
  rdp_write_capability_set_header length type;;
  stream_set_pos footer.

(** The frame of every writer: [start], the contents, [finish]. *)
Definition capability_set (type : Z) (contents : M STREAM unit) : M STREAM unit :=
  let! header := rdp_capability_set_start in
  contents;;
  rdp_capability_set_finish header type.

Definition bit_if (b : bool) (flag v : Z) : Z := if b then Z.lor v flag else v.

(** ** Capability sets *)

(** [length] is the length the header announces. *)
Definition rdp_read_general_capability_set (length : Z) (settings : cap_settings) : M STREAM cap_settings :=
  let! settings :=
    (if mode settings then
       let! major := stream_read_uint16 in
       let! minor := stream_read_uint16 in
       ret (upd_caps (fun c => c <| os_major_type := major |> <| os_minor_type := minor |>) settings)
     else
       stream_seek 2;;
       stream_seek 2;;
       ret settings) in
  stream_seek 2;;
  stream_seek 2;;
  stream_seek 2;;
  let! extraFlags := stream_read_uint16 in
  stream_seek 2;;
  stream_seek 2;;
  stream_seek 2;;
  let! refreshRectSupport := stream_read_uint8 in
  let! suppressOutputSupport := stream_read_uint8 in
  ret (upd_caps (fun c =>
    c <| fastpath_output := if Z.land extraFlags FASTPATH_OUTPUT_SUPPORTED =? 0 then false else fastpath_output c |>
      <| refresh_rect := if refreshRectSupport =? 0 then false else refresh_rect c |>
      <| suppress_output := if suppressOutputSupport =? 0 then false else suppress_output c |>) settings).

(** On the server the writer also switches two settings off. *)
Definition rdp_write_general_capability_set (settings : cap_settings) : M STREAM cap_settings :=
  let extraFlags := Z.lor LONG_CREDENTIALS_SUPPORTED NO_BITMAP_COMPRESSION_HDR in
  let extraFlags := bit_if (auto_reconnection (caps settings)) AUTORECONNECT_SUPPORTED extraFlags in
  let extraFlags := bit_if (fastpath_output (caps settings)) FASTPATH_OUTPUT_SUPPORTED extraFlags in
  let settings :=
    if mode settings then upd_caps (fun c => c <| refresh_rect := false |> <| suppress_output := false |>) settings
    else settings in
  capability_set CAPSET_TYPE_GENERAL
    (stream_write_uint16 (os_major_type (caps settings));;
     stream_write_uint16 (os_minor_type (caps settings));;
     stream_write_uint16 CAPS_PROTOCOL_VERSION;;
     stream_write_uint16 0;;
     stream_write_uint16 0;;
     stream_write_uint16 extraFlags;;
     stream_write_uint16 0;;
     stream_write_uint16 0;;
     stream_write_uint16 0;;
     stream_write_uint8 (Z.b2z (refresh_rect (caps settings)));;
     stream_write_uint8 (Z.b2z (suppress_output (caps settings))));;
  ret settings.

Definition rdp_read_bitmap_capability_set (length : Z) (settings : cap_settings) : M STREAM cap_settings :=
  let! preferredBitsPerPixel := stream_read_uint16 in
  stream_seek 2;;
  stream_seek 2;;
  stream_seek 2;;
  let! desktopWidth := stream_read_uint16 in
  let! desktopHeight := stream_read_uint16 in
  stream_seek 2;;
  let! desktopResizeFlag := stream_read_uint16 in
  stream_seek 2;;
  stream_seek 1;;
  let! drawingFlags := stream_read_uint8 in
  stream_seek 2;;
  stream_seek 2;;
  let settings :=
    if negb (mode settings) && negb (preferredBitsPerPixel =? color_depth (score settings))
    then upd_core (fun c => c <| color_depth := preferredBitsPerPixel |>) settings else settings in
  let settings :=
    if desktopResizeFlag =? 0 then upd_caps (fun c => c <| desktop_resize := false |>) settings else settings in
  ret (if negb (mode settings) && desktop_resize (caps settings)
       then upd_core (fun c => c <| width := desktopWidth |> <| height := desktopHeight |>) settings else settings).

Definition rdp_write_bitmap_capability_set (settings : cap_settings) : M STREAM unit :=
  let preferredBitsPerPixel :=
    if 5 <? rdp_version (score settings) then uint16 (color_depth (score settings)) else 8 in
  capability_set CAPSET_TYPE_BITMAP
    (stream_write_uint16 preferredBitsPerPixel;;
     stream_write_uint16 1;;
     stream_write_uint16 1;;
     stream_write_uint16 1;;
     stream_write_uint16 (width (score settings));;
     stream_write_uint16 (height (score settings));;
     stream_write_uint16 0;;
     stream_write_uint16 (Z.b2z (desktop_resize (caps settings)));;
     stream_write_uint16 1;;
     stream_write_uint8 0;;
     stream_write_uint8 0;;
     stream_write_uint16 1;;
     stream_write_uint16 0).

(** The loop over the 32 flags: an order the peer does not support is switched
    off. *)
Fixpoint without_orders (peer own : list Z) : list Z :=
  match peer, own with
  | x :: peer', o :: own' => (if x =? 0 then 0 else o) :: without_orders peer' own'
  | _, _ => own
  end.

Definition rdp_read_order_capability_set (length : Z) (settings : cap_settings) : M STREAM cap_settings :=
  stream_seek 16;;
  stream_seek 4;;
  stream_seek 2;;
  stream_seek 2;;
  stream_seek 2;;
  stream_seek 2;;
  stream_seek 2;;
  let! orderFlags := stream_read_uint16 in
  let! orderSupport := stream_read 32 in
  stream_seek 2;;
  let! orderSupportExFlags := stream_read_uint16 in
  stream_seek 4;;
  stream_seek 4;;
  stream_seek 2;;
  stream_seek 2;;
  stream_seek 2;;
  stream_seek 2;;
  ret (upd_caps (fun c => c <| order_support := without_orders orderSupport (order_support c) |>) settings).

(** [textANSICodePage] is computed and 0 is written. *)
Definition rdp_write_order_capability_set (settings : cap_settings) : M STREAM unit :=
  let c := caps settings in
  let orderSupportExFlags := bit_if (bitmap_cache_v3 c) CACHE_BITMAP_V3_SUPPORT 0 in
  let orderSupportExFlags := bit_if (frame_marker c) ALTSEC_FRAME_MARKER_SUPPORT orderSupportExFlags in
  let orderFlags := Z.lor (Z.lor NEGOTIATE_ORDER_SUPPORT ZERO_BOUNDS_DELTA_SUPPORT) COLOR_INDEX_SUPPORT in
  let orderFlags := bit_if (bitmap_cache_v3 c) ORDER_FLAGS_EXTRA_SUPPORT orderFlags in
  let orderFlags := bit_if (frame_marker c) ORDER_FLAGS_EXTRA_SUPPORT orderFlags in
  capability_set CAPSET_TYPE_ORDER
    (stream_write_zero 16;;
     stream_write_uint32 0;;
     stream_write_uint16 1;;
     stream_write_uint16 20;;
     stream_write_uint16 0;;
     stream_write_uint16 1;;
     stream_write_uint16 0;;
     stream_write_uint16 orderFlags;;
     (let! flags := array_prefix (order_support c) 32 in stream_write flags);;
     stream_write_uint16 0;;
     stream_write_uint16 orderSupportExFlags;;
     stream_write_uint32 0;;
     stream_write_uint32 230400;;
     stream_write_uint16 0;;
     stream_write_uint16 0;;
     stream_write_uint16 0;;
     stream_write_uint16 0).

Definition rdp_read_bitmap_cache_capability_set (length : Z) (settings : cap_settings) : M STREAM cap_settings :=
  stream_seek 4;;
  stream_seek 4;;
  stream_seek 4;;
  stream_seek 4;;
  stream_seek 4;;
  stream_seek 4;;
  stream_seek 2;;
  stream_seek 2;;
  stream_seek 2;;
  stream_seek 2;;
  stream_seek 2;;
  stream_seek 2;;
  ret settings.

Definition rdp_write_bitmap_cache_capability_set (settings : cap_settings) : M STREAM unit :=
  let bpp := uint32 (color_depth (score settings) + 7) / 8 in
  if INT_MAX <? bpp * 4096 then fail SignedOverflow else
  capability_set CAPSET_TYPE_BITMAP_CACHE
    (stream_write_uint32 0;;
     stream_write_uint32 0;;
     stream_write_uint32 0;;
     stream_write_uint32 0;;
     stream_write_uint32 0;;
     stream_write_uint32 0;;
     stream_write_uint16 200;;
     stream_write_uint16 (bpp * 256);;
     stream_write_uint16 600;;
     stream_write_uint16 (bpp * 1024);;
     stream_write_uint16 1000;;
     stream_write_uint16 (bpp * 4096)).

Definition rdp_read_control_capability_set (length : Z) (settings : cap_settings) : M STREAM cap_settings :=
  stream_seek 2;;
  stream_seek 2;;
  stream_seek 2;;
  stream_seek 2;;
  ret settings.

Definition rdp_write_control_capability_set (settings : cap_settings) : M STREAM unit :=
  capability_set CAPSET_TYPE_CONTROL
    (stream_write_uint16 0;;
     stream_write_uint16 0;;
     stream_write_uint16 2;;
     stream_write_uint16 2).

Definition rdp_read_window_activation_capability_set (length : Z) (settings : cap_settings) : M STREAM cap_settings :=
  stream_seek 2;;
  stream_seek 2;;
  stream_seek 2;;
  stream_seek 2;;
  ret settings.

Definition rdp_write_window_activation_capability_set (settings : cap_settings) : M STREAM unit :=
  capability_set CAPSET_TYPE_ACTIVATION
    (stream_write_uint16 0;;
     stream_write_uint16 0;;
     stream_write_uint16 0;;
     stream_write_uint16 0).

Definition rdp_read_pointer_capability_set (length : Z) (settings : cap_settings) : M STREAM cap_settings :=
  let! colorPointerFlag := stream_read_uint16 in
  let! colorPointerCacheSize := stream_read_uint16 in
  let! pointerCacheSize := stream_read_uint16 in
  let settings :=
    if colorPointerFlag =? 0 then upd_caps (fun c => c <| color_pointer := false |>) settings else settings in
  ret (if mode settings then upd_caps (fun c => c <| pointer_cache_size := pointerCacheSize |>) settings else settings).

Definition rdp_write_pointer_capability_set (settings : cap_settings) : M STREAM unit :=
  let c := caps settings in
  let colorPointerFlag := if color_pointer c then 1 else 0 in
  capability_set CAPSET_TYPE_POINTER
    (stream_write_uint16 colorPointerFlag;;
     stream_write_uint16 (pointer_cache_size c);;
     if large_pointer c then stream_write_uint16 (pointer_cache_size c) else ret tt).

Definition rdp_read_share_capability_set (length : Z) (settings : cap_settings) : M STREAM cap_settings :=
  stream_seek 2;;
  stream_seek 2;;
  ret settings.

Definition rdp_write_share_capability_set (settings : cap_settings) : M STREAM unit :=
  let nodeId := if mode settings then 0x03EA else 0 in
  capability_set CAPSET_TYPE_SHARE
    (stream_write_uint16 nodeId;;
     stream_write_uint16 0).

Definition rdp_read_color_cache_capability_set (length : Z) (settings : cap_settings) : M STREAM cap_settings :=
  stream_seek 2;;
  stream_seek 2;;
  ret settings.

Definition rdp_write_color_cache_capability_set (settings : cap_settings) : M STREAM unit :=
  capability_set CAPSET_TYPE_COLOR_CACHE
    (stream_write_uint16 6;;
     stream_write_uint16 0).

Definition rdp_read_sound_capability_set (length : Z) (settings : cap_settings) : M STREAM cap_settings :=
  let! soundFlags := stream_read_uint16 in
  stream_seek 2;;
  ret (upd_caps (fun c => c <| sound_beeps := negb (Z.land soundFlags SOUND_BEEPS_FLAG =? 0) |>) settings).

Definition rdp_write_sound_capability_set (settings : cap_settings) : M STREAM unit :=
  let soundFlags := if sound_beeps (caps settings) then SOUND_BEEPS_FLAG else 0 in
  capability_set CAPSET_TYPE_SOUND
    (stream_write_uint16 soundFlags;;
     stream_write_uint16 0).

Definition rdp_read_input_capability_set (length : Z) (settings : cap_settings) : M STREAM cap_settings :=
  let! inputFlags := stream_read_uint16 in
  stream_seek 2;;
  let! settings :=
    (if mode settings then
       let! layout := stream_read_uint32 in
       let! type := stream_read_uint32 in
       let! subtype := stream_read_uint32 in
       let! fn_keys := stream_read_uint32 in
       ret (upd_core (fun c => c <| kbd_layout := layout |> <| kbd_type := type |> <| kbd_subtype := subtype |>
                                 <| kbd_fn_keys := fn_keys |>) settings)
     else
       stream_seek 4;;
       stream_seek 4;;
       stream_seek 4;;
       stream_seek 4;;
       ret settings) in
  stream_seek 64;;
  ret (if mode settings then settings
       else if negb (Z.land inputFlags INPUT_FLAG_FASTPATH_INPUT =? 0) then settings
       else if negb (Z.land inputFlags INPUT_FLAG_FASTPATH_INPUT2 =? 0) then settings
       else upd_caps (fun c => c <| fastpath_input := false |>) settings).

Definition rdp_write_input_capability_set (settings : cap_settings) : M STREAM unit :=
  let inputFlags := Z.lor (Z.lor INPUT_FLAG_SCANCODES INPUT_FLAG_MOUSEX) INPUT_FLAG_UNICODE in
  let inputFlags := bit_if (fastpath_input (caps settings)) INPUT_FLAG_FASTPATH_INPUT inputFlags in
  let inputFlags := bit_if (fastpath_input (caps settings)) INPUT_FLAG_FASTPATH_INPUT2 inputFlags in
  capability_set CAPSET_TYPE_INPUT
    (stream_write_uint16 inputFlags;;
     stream_write_uint16 0;;
     stream_write_uint32 (kbd_layout (score settings));;
     stream_write_uint32 (kbd_type (score settings));;
     stream_write_uint32 (kbd_subtype (score settings));;
     stream_write_uint32 (kbd_fn_keys (score settings));;
     stream_write_zero 64).

Definition rdp_read_font_capability_set (length : Z) (settings : cap_settings) : M STREAM cap_settings :=
  (if 4 <? length then stream_seek 2 else ret tt);;
  (if 6 <? length then stream_seek 2 else ret tt);;
  ret settings.

Definition rdp_write_font_capability_set (settings : cap_settings) : M STREAM unit :=
  capability_set CAPSET_TYPE_FONT
    (stream_write_uint16 FONTSUPPORT_FONTLIST;;
     stream_write_uint16 0).

Definition rdp_read_brush_capability_set (length : Z) (settings : cap_settings) : M STREAM cap_settings :=
  stream_seek 4;;
  ret settings.

Definition rdp_write_brush_capability_set (settings : cap_settings) : M STREAM unit :=
  capability_set CAPSET_TYPE_BRUSH
    (stream_write_uint32 BRUSH_COLOR_FULL).

Definition rdp_read_cache_definition : M STREAM GLYPH_CACHE_DEFINITION :=
  let! entries := stream_read_uint16 in
  let! size := stream_read_uint16 in
  ret (mkGlyphCache entries size).

Definition rdp_write_cache_definition (cache_definition : GLYPH_CACHE_DEFINITION) : M STREAM unit :=
  stream_write_uint16 (cacheEntries cache_definition);;
  stream_write_uint16 (cacheMaximumCellSize cache_definition).

Definition rdp_read_glyph_cache_capability_set (length : Z) (settings : cap_settings) : M STREAM cap_settings :=
  stream_seek 40;;
  stream_seek 4;;
  let! level := stream_read_uint16 in
  stream_seek 2;;
  ret (upd_caps (fun c => c <| glyphSupportLevel := level |>) settings).

(** [settings->glyphCache[i]] is an access to an array. *)
Definition write_glyph_cache (c : capabilities) (i : Z) : M STREAM unit :=
  let! d := elem (glyphCache c) i in
  rdp_write_cache_definition d.

Definition rdp_write_glyph_cache_capability_set (settings : cap_settings) : M STREAM unit :=
  let c := caps settings in
  capability_set CAPSET_TYPE_GLYPH_CACHE
    (write_glyph_cache c 0;;
     write_glyph_cache c 1;;
     write_glyph_cache c 2;;
     write_glyph_cache c 3;;
     write_glyph_cache c 4;;
     write_glyph_cache c 5;;
     write_glyph_cache c 6;;
     write_glyph_cache c 7;;
     write_glyph_cache c 8;;
     write_glyph_cache c 9;;
     rdp_write_cache_definition (fragCache c);;
     stream_write_uint16 (glyphSupportLevel c);;
     stream_write_uint16 0).

Definition rdp_read_offscreen_bitmap_cache_capability_set (length : Z) (settings : cap_settings) : M STREAM cap_settings :=
  let! offscreenSupportLevel := stream_read_uint32 in
  let! size := stream_read_uint16 in
  let! entries := stream_read_uint16 in
  ret (upd_caps (fun c => c <| offscreen_bitmap_cache_size := size |> <| offscreen_bitmap_cache_entries := entries |>
    <| offscreen_bitmap_cache := if negb (Z.land offscreenSupportLevel 1 =? 0) then true else offscreen_bitmap_cache c |>) settings).

Definition rdp_write_offscreen_bitmap_cache_capability_set (settings : cap_settings) : M STREAM unit :=
  let c := caps settings in
  let offscreenSupportLevel := if offscreen_bitmap_cache c then 1 else 0 in
  capability_set CAPSET_TYPE_OFFSCREEN_CACHE
    (stream_write_uint32 offscreenSupportLevel;;
     stream_write_uint16 (offscreen_bitmap_cache_size c);;
     stream_write_uint16 (offscreen_bitmap_cache_entries c)).

Definition rdp_read_bitmap_cache_host_support_capability_set (length : Z) (settings : cap_settings) : M STREAM cap_settings :=
  let! cacheVersion := stream_read_uint8 in
  stream_seek 1;;
  stream_seek 2;;
  ret (if negb (Z.land cacheVersion BITMAP_CACHE_V2 =? 0)
       then upd_caps (fun c => c <| persistent_bitmap_cache := true |>) settings else settings).

Definition rdp_write_bitmap_cache_host_support_capability_set (settings : cap_settings) : M STREAM unit :=
  capability_set CAPSET_TYPE_BITMAP_CACHE_HOST_SUPPORT
    (stream_write_uint8 BITMAP_CACHE_V2;;
     stream_write_uint8 0;;
     stream_write_uint16 0).

(** The shift of the flag into the sign bit gives the bit pattern with the
    highest bit set. *)
Definition rdp_write_bitmap_cache_cell_info (cellInfo : BITMAP_CACHE_V2_CELL_INFO) : M STREAM unit :=
  stream_write_uint32 (Z.lor (numEntries cellInfo) (if persistent cellInfo then 2 ^ 31 else 0)).

Definition write_cell_info (c : capabilities) (i : Z) : M STREAM unit :=
  let! d := elem (bitmapCacheV2CellInfo c) i in
  rdp_write_bitmap_cache_cell_info d.

Definition rdp_read_bitmap_cache_v2_capability_set (length : Z) (settings : cap_settings) : M STREAM cap_settings :=
  stream_seek 2;;
  stream_seek 1;;
  stream_seek 1;;
  stream_seek 4;;
  stream_seek 4;;
  stream_seek 4;;
  stream_seek 4;;
  stream_seek 4;;
  stream_seek 12;;
  ret settings.

Definition rdp_write_bitmap_cache_v2_capability_set (settings : cap_settings) : M STREAM unit :=
  let c := caps settings in
  let cacheFlags := ALLOW_CACHE_WAITING_LIST_FLAG in
  let cacheFlags := bit_if (persistent_bitmap_cache c) PERSISTENT_KEYS_EXPECTED_FLAG cacheFlags in
  capability_set CAPSET_TYPE_BITMAP_CACHE_V2
    (stream_write_uint16 cacheFlags;;
     stream_write_uint8 0;;
     stream_write_uint8 (bitmapCacheV2NumCells c);;
     write_cell_info c 0;;
     write_cell_info c 1;;
     write_cell_info c 2;;
     write_cell_info c 3;;
     write_cell_info c 4;;
     stream_write_zero 12).

Definition rdp_read_virtual_channel_capability_set (length : Z) (settings : cap_settings) : M STREAM cap_settings :=
  let! flags := stream_read_uint32 in
  let! VCChunkSize := (if 8 <? length then stream_read_uint32 else ret 1600) in
  ret (if mode settings then settings else upd_conf (fun c => c <| vc_chunk_size := VCChunkSize |>) settings).

Definition rdp_write_virtual_channel_capability_set (settings : cap_settings) : M STREAM unit :=
  let flags := if mode settings then VCCAPS_COMPR_CS_8K else VCCAPS_NO_COMPR in
  capability_set CAPSET_TYPE_VIRTUAL_CHANNEL
    (stream_write_uint32 flags;;
     stream_write_uint32 (vc_chunk_size (conf settings))).

Definition rdp_read_draw_nine_grid_cache_capability_set (length : Z) (settings : cap_settings) : M STREAM cap_settings :=
  let! level := stream_read_uint32 in
  let! size := stream_read_uint16 in
  let! entries := stream_read_uint16 in
  ret (upd_caps (fun c => c <| draw_nine_grid_cache_size := size |> <| draw_nine_grid_cache_entries := entries |>
    <| draw_nine_grid := if negb (Z.land level DRAW_NINEGRID_SUPPORTED =? 0) || negb (Z.land level DRAW_NINEGRID_SUPPORTED_V2 =? 0)
                         then true else draw_nine_grid c |>) settings).

Definition rdp_write_draw_nine_grid_cache_capability_set (settings : cap_settings) : M STREAM unit :=
  let c := caps settings in
  let drawNineGridSupportLevel := if draw_nine_grid c then DRAW_NINEGRID_SUPPORTED else DRAW_NINEGRID_NO_SUPPORT in
  capability_set CAPSET_TYPE_DRAW_NINE_GRID_CACHE
    (stream_write_uint32 drawNineGridSupportLevel;;
     stream_write_uint16 (draw_nine_grid_cache_size c);;
     stream_write_uint16 (draw_nine_grid_cache_entries c)).

Definition rdp_write_gdiplus_cache_entries (gce bce pce ice ace : Z) : M STREAM unit :=
  stream_write_uint16 gce;;
  stream_write_uint16 bce;;
  stream_write_uint16 pce;;
  stream_write_uint16 ice;;
  stream_write_uint16 ace.

Definition rdp_write_gdiplus_cache_chunk_size (gccs obccs opccs oiaccs : Z) : M STREAM unit :=
  stream_write_uint16 gccs;;
  stream_write_uint16 obccs;;
  stream_write_uint16 opccs;;
  stream_write_uint16 oiaccs.

Definition rdp_write_gdiplus_image_cache_properties (oiccs oicts oicms : Z) : M STREAM unit :=
  stream_write_uint16 oiccs;;
  stream_write_uint16 oicts;;
  stream_write_uint16 oicms.

Definition rdp_read_draw_gdiplus_cache_capability_set (length : Z) (settings : cap_settings) : M STREAM cap_settings :=
  let! drawGDIPlusSupportLevel := stream_read_uint32 in
  stream_seek 4;;
  let! drawGdiplusCacheLevel := stream_read_uint32 in
  stream_seek 10;;
  stream_seek 8;;
  stream_seek 6;;
  ret (upd_caps (fun c =>
    c <| draw_gdi_plus := if negb (Z.land drawGDIPlusSupportLevel DRAW_GDIPLUS_SUPPORTED =? 0) then true else draw_gdi_plus c |>
      <| draw_gdi_plus_cache := if negb (Z.land drawGdiplusCacheLevel DRAW_GDIPLUS_CACHE_LEVEL_ONE =? 0) then true
                                else draw_gdi_plus_cache c |>) settings).

Definition rdp_write_draw_gdiplus_cache_capability_set (settings : cap_settings) : M STREAM unit :=
  let c := caps settings in
  let drawGDIPlusSupportLevel := if draw_gdi_plus c then DRAW_GDIPLUS_SUPPORTED else DRAW_GDIPLUS_DEFAULT in
  let drawGdiplusCacheLevel := if draw_gdi_plus c then DRAW_GDIPLUS_CACHE_LEVEL_ONE else DRAW_GDIPLUS_CACHE_LEVEL_DEFAULT in
  capability_set CAPSET_TYPE_DRAW_GDI_PLUS
    (stream_write_uint32 drawGDIPlusSupportLevel;;
     stream_write_uint32 0;;
     stream_write_uint32 drawGdiplusCacheLevel;;
     rdp_write_gdiplus_cache_entries 10 5 5 10 2;;
     rdp_write_gdiplus_cache_chunk_size 512 2048 1024 64;;
     rdp_write_gdiplus_image_cache_properties 4096 256 128).

Definition rdp_read_remote_programs_capability_set (length : Z) (settings : cap_settings) : M STREAM cap_settings :=
  let! railSupportLevel := stream_read_uint32 in
  ret (if Z.land railSupportLevel RAIL_LEVEL_SUPPORTED =? 0 then
         if remote_app (info settings) then upd_info (fun i => i <| remote_app := false |>) settings else settings
       else settings).

Definition rdp_write_remote_programs_capability_set (settings : cap_settings) : M STREAM unit :=
  let railSupportLevel := RAIL_LEVEL_SUPPORTED in
  let railSupportLevel := bit_if (rail_langbar_supported (caps settings)) RAIL_LEVEL_DOCKED_LANGBAR_SUPPORTED railSupportLevel in
  capability_set CAPSET_TYPE_RAIL
    (stream_write_uint32 railSupportLevel).

Definition rdp_read_window_list_capability_set (length : Z) (settings : cap_settings) : M STREAM cap_settings :=
  stream_seek 4;;
  stream_seek 1;;
  stream_seek 2;;
  ret settings.

Definition rdp_write_window_list_capability_set (settings : cap_settings) : M STREAM unit :=
  capability_set CAPSET_TYPE_WINDOW
    (stream_write_uint32 WINDOW_LEVEL_SUPPORTED_EX;;
     stream_write_uint8 (num_icon_caches (caps settings));;
     stream_write_uint16 (num_icon_cache_entries (caps settings))).

Definition rdp_read_desktop_composition_capability_set (length : Z) (settings : cap_settings) : M STREAM cap_settings :=
  stream_seek 2;;
  ret settings.

Definition rdp_write_desktop_composition_capability_set (settings : cap_settings) : M STREAM unit :=
  let compDeskSupportLevel := if desktop_composition (caps settings) then COMPDESK_SUPPORTED else COMPDESK_NOT_SUPPORTED in
  capability_set CAPSET_TYPE_COMP_DESK
    (stream_write_uint16 compDeskSupportLevel).

Definition rdp_read_multifragment_update_capability_set (length : Z) (settings : cap_settings) : M STREAM cap_settings :=
  let! size := stream_read_uint32 in
  ret (upd_caps (fun c => c <| multifrag_max_request_size := size |>) settings).

Definition rdp_write_multifragment_update_capability_set (settings : cap_settings) : M STREAM unit :=
  capability_set CAPSET_TYPE_MULTI_FRAGMENT_UPDATE
    (stream_write_uint32 (multifrag_max_request_size (caps settings))).

Definition rdp_read_large_pointer_capability_set (length : Z) (settings : cap_settings) : M STREAM cap_settings :=
  stream_seek 2;;
  ret settings.

Definition rdp_write_large_pointer_capability_set (settings : cap_settings) : M STREAM unit :=
  let largePointerSupportFlags := if large_pointer (caps settings) then LARGE_POINTER_FLAG_96x96 else 0 in
  capability_set CAPSET_TYPE_LARGE_POINTER
    (stream_write_uint16 largePointerSupportFlags).

Definition rdp_read_surface_commands_capability_set (length : Z) (settings : cap_settings) : M STREAM cap_settings :=
  stream_seek 4;;
  stream_seek 4;;
  ret (upd_caps (fun c => c <| surface_commands := true |>) settings).

Definition rdp_write_surface_commands_capability_set (settings : cap_settings) : M STREAM unit :=
  let cmdFlags := Z.lor (Z.lor SURFCMDS_FRAME_MARKER SURFCMDS_SET_SURFACE_BITS) SURFCMDS_STREAM_SURFACE_BITS in
  capability_set CAPSET_TYPE_SURFACE_COMMANDS
    (stream_write_uint32 cmdFlags;;
     stream_write_uint32 0).

(** *** Codecs *)

(** [strncmp((char* ) stream_get_tail(s), guid, n) == 0]: the comparison ends at
    the first difference and behind a zero. *)
Fixpoint strncmp_tail (off : Z) (guid : list Z) : M STREAM bool :=
  match guid with
  | [] => ret true
  | g :: guid' =>
      let! b := rbyte off in
      if negb (b =? g) then ret false else
      if b =? 0 then ret true else
      strncmp_tail (off + 1) guid'
  end.

Definition is_codec (settings : cap_settings) (guid : list Z) : M STREAM bool :=
  if mode settings then strncmp_tail 0 guid else ret false.

(** One entry of the list of codecs. *)
Definition read_codec (settings : cap_settings) : M STREAM cap_settings :=
  let! rfx := is_codec settings CODEC_GUID_REMOTEFX in
  let! settings :=
    (if rfx then
       stream_seek 16;;
       let! id := stream_read_uint8 in
       ret (upd_core (fun c => c <| rfx_codec := true |>) (upd_caps (fun c => c <| rfx_codec_id := id |>) settings))
     else
       let! nsc := is_codec settings CODEC_GUID_NSCODEC in
       if nsc : bool then
         stream_seek 16;;
         let! id := stream_read_uint8 in
         ret (upd_caps (fun c => c <| ns_codec_id := id |> <| ns_codec := true |>) settings)
       else
         stream_seek 16;;
         stream_seek 1;;
         ret settings) in
  let! codecPropertiesLength := stream_read_uint16 in
  stream_seek codecPropertiesLength;;
  ret settings.

Fixpoint read_codecs (count : nat) (settings : cap_settings) : M STREAM cap_settings :=
  match count with
  | O => ret settings
  | S count' => let! settings := read_codec settings in read_codecs count' settings
  end.

Definition rdp_read_bitmap_codecs_capability_set (length : Z) (settings : cap_settings) : M STREAM cap_settings :=
  let! bitmapCodecCount := stream_read_uint8 in
  let settings :=
    if mode settings then
      upd_core (fun c => c <| rfx_codec := false |>) (upd_caps (fun c => c <| ns_codec := false |>) settings)
    else settings in
  read_codecs (Z.to_nat bitmapCodecCount) settings.

Definition write_icap (codecMode entropyBits : Z) : M STREAM unit :=
  stream_write_uint16 CLW_VERSION_1_0;;
  stream_write_uint16 CT_TILE_64x64;;
  stream_write_uint8 codecMode;;
  stream_write_uint8 CLW_COL_CONV_ICT;;
  stream_write_uint8 CLW_XFORM_DWT_53_A;;
  stream_write_uint8 entropyBits.

Definition rdp_write_rfx_client_capability_container (settings : cap_settings) : M STREAM unit :=
  let captureFlags := if dump_rfx (caps settings) then 0 else CARDP_CAPS_CAPTURE_NON_CAC in
  let codecMode := uint8 (rfx_codec_mode (caps settings)) in
  stream_write_uint16 49;;
  stream_write_uint32 49;;
  stream_write_uint32 captureFlags;;
  stream_write_uint32 37;;
  stream_write_uint16 CBY_CAPS;;
  stream_write_uint32 8;;
  stream_write_uint16 1;;
  stream_write_uint16 CBY_CAPSET;;
  stream_write_uint32 29;;
  stream_write_uint8 0x01;;
  stream_write_uint16 CLY_CAPSET;;
  stream_write_uint16 2;;
  stream_write_uint16 8;;
  write_icap codecMode CLW_ENTROPY_RLGR1;;
  write_icap codecMode CLW_ENTROPY_RLGR3.

Definition rdp_write_nsc_client_capability_container (settings : cap_settings) : M STREAM unit :=
  stream_write_uint16 3;;
  stream_write_uint8 1;;
  stream_write_uint8 1;;
  stream_write_uint8 3.

Definition rdp_write_jpeg_client_capability_container (settings : cap_settings) : M STREAM unit :=
  stream_write_uint16 1;;
  stream_write_uint8 (jpeg_quality (caps settings)).

Definition rdp_write_rfx_server_capability_container (settings : cap_settings) : M STREAM unit :=
  stream_write_uint16 4;;
  stream_write_uint32 0.

Definition rdp_write_jpeg_server_capability_container (settings : cap_settings) : M STREAM unit :=
  stream_write_uint16 1;;
  stream_write_uint8 75.

Definition rdp_write_nsc_server_capability_container (settings : cap_settings) : M STREAM unit :=
  stream_write_uint16 4;;
  stream_write_uint32 0.

(** One entry: the id is chosen by the client. *)
Definition write_codec (settings : cap_settings) (guid : list Z) (id : Z)
    (server client : cap_settings -> M STREAM unit) : M STREAM unit :=
  stream_write guid;;
  if mode settings then
    stream_write_uint8 0;;
    server settings
  else
    stream_write_uint8 id;;
    client settings.

Definition rdp_write_bitmap_codecs_capability_set (settings : cap_settings) : M STREAM unit :=
  let rfx := rfx_codec (score settings) in
  let nsc := ns_codec (caps settings) in
  let jpeg := jpeg_codec (caps settings) in
  let bitmapCodecCount := Z.b2z rfx + Z.b2z nsc + Z.b2z jpeg in
  capability_set CAPSET_TYPE_BITMAP_CODECS
    (stream_write_uint8 bitmapCodecCount;;
     (if rfx then write_codec settings CODEC_GUID_REMOTEFX CODEC_ID_REMOTEFX
                    rdp_write_rfx_server_capability_container rdp_write_rfx_client_capability_container else ret tt);;
     (if nsc then write_codec settings CODEC_GUID_NSCODEC CODEC_ID_NSCODEC
                    rdp_write_nsc_server_capability_container rdp_write_nsc_client_capability_container else ret tt);;
     if jpeg then write_codec settings CODEC_GUID_JPEG CODEC_ID_JPEG
                    rdp_write_jpeg_server_capability_container rdp_write_jpeg_client_capability_container else ret tt).

Definition rdp_read_frame_acknowledge_capability_set (length : Z) (settings : cap_settings) : M STREAM cap_settings :=
  stream_seek 4;;
  ret settings.

Definition rdp_write_frame_acknowledge_capability_set (settings : cap_settings) : M STREAM unit :=
  capability_set CAPSET_TYPE_FRAME_ACKNOWLEDGE
    (stream_write_uint32 2).

Definition rdp_read_bitmap_cache_v3_codec_id_capability_set (length : Z) (settings : cap_settings) : M STREAM cap_settings :=
  stream_seek 1;;
  ret settings.

Definition rdp_write_bitmap_cache_v3_codec_id_capability_set (settings : cap_settings) : M STREAM unit :=
  capability_set 6
    (stream_write_uint8 (v3_codec_id (caps settings))).

(** ** All sets *)

(** The [switch] of [rdp_read_capability_sets]; an unknown type is skipped. *)
Definition read_set (type length : Z) (settings : cap_settings) : M STREAM cap_settings :=
  if type =? CAPSET_TYPE_GENERAL then rdp_read_general_capability_set length settings
  else if type =? CAPSET_TYPE_BITMAP then rdp_read_bitmap_capability_set length settings
  else if type =? CAPSET_TYPE_ORDER then rdp_read_order_capability_set length settings
  else if type =? CAPSET_TYPE_BITMAP_CACHE then rdp_read_bitmap_cache_capability_set length settings
  else if type =? CAPSET_TYPE_CONTROL then rdp_read_control_capability_set length settings
  else if type =? CAPSET_TYPE_ACTIVATION then rdp_read_window_activation_capability_set length settings
  else if type =? CAPSET_TYPE_POINTER then rdp_read_pointer_capability_set length settings
  else if type =? CAPSET_TYPE_SHARE then rdp_read_share_capability_set length settings
  else if type =? CAPSET_TYPE_COLOR_CACHE then rdp_read_color_cache_capability_set length settings
  else if type =? CAPSET_TYPE_SOUND then rdp_read_sound_capability_set length settings
  else if type =? CAPSET_TYPE_INPUT then rdp_read_input_capability_set length settings
  else if type =? CAPSET_TYPE_FONT then rdp_read_font_capability_set length settings
  else if type =? CAPSET_TYPE_BRUSH then rdp_read_brush_capability_set length settings
  else if type =? CAPSET_TYPE_GLYPH_CACHE then rdp_read_glyph_cache_capability_set length settings
  else if type =? CAPSET_TYPE_OFFSCREEN_CACHE then rdp_read_offscreen_bitmap_cache_capability_set length settings
  else if type =? CAPSET_TYPE_BITMAP_CACHE_HOST_SUPPORT then rdp_read_bitmap_cache_host_support_capability_set length settings
  else if type =? CAPSET_TYPE_BITMAP_CACHE_V2 then rdp_read_bitmap_cache_v2_capability_set length settings
  else if type =? CAPSET_TYPE_VIRTUAL_CHANNEL then rdp_read_virtual_channel_capability_set length settings
  else if type =? CAPSET_TYPE_DRAW_NINE_GRID_CACHE then rdp_read_draw_nine_grid_cache_capability_set length settings
  else if type =? CAPSET_TYPE_DRAW_GDI_PLUS then rdp_read_draw_gdiplus_cache_capability_set length settings
  else if type =? CAPSET_TYPE_RAIL then rdp_read_remote_programs_capability_set length settings
  else if type =? CAPSET_TYPE_WINDOW then rdp_read_window_list_capability_set length settings
  else if type =? CAPSET_TYPE_COMP_DESK then rdp_read_desktop_composition_capability_set length settings
  else if type =? CAPSET_TYPE_MULTI_FRAGMENT_UPDATE then rdp_read_multifragment_update_capability_set length settings
  else if type =? CAPSET_TYPE_LARGE_POINTER then rdp_read_large_pointer_capability_set length settings
  else if type =? CAPSET_TYPE_SURFACE_COMMANDS then rdp_read_surface_commands_capability_set length settings
  else if type =? CAPSET_TYPE_BITMAP_CODECS then rdp_read_bitmap_codecs_capability_set length settings
  else if type =? CAPSET_TYPE_FRAME_ACKNOWLEDGE then rdp_read_frame_acknowledge_capability_set length settings
  else if type =? 6 then rdp_read_bitmap_cache_v3_codec_id_capability_set length settings
  else ret settings.

(** [settings->received_caps[type] = true]; the type is not checked. *)
Definition receive_cap (type : Z) (settings : cap_settings) : M STREAM cap_settings :=
  let! l := elem_set type 1 (received_caps (caps settings)) in
  ret (upd_caps (fun c => c <| received_caps := l |>) settings).

Fixpoint read_sets (numberCapabilities : nat) (settings : cap_settings) : M STREAM (bool * cap_settings) :=
  match numberCapabilities with
  | O => ret (true, settings)
  | S number' =>
      let! bm := get_pos in
      let! (length, type) := rdp_read_capability_set_header in
      let! settings := receive_cap type settings in
      let em := bm + length in
      let! avail := left_bytes in
      if avail <? length - 4 then ret (false, settings) else
      let! settings := read_set type length settings in
      stream_set_pos em;;
      read_sets number' settings
  end.

Definition rdp_read_capability_sets (settings : cap_settings) (numberCapabilities : Z) : M STREAM (bool * cap_settings) :=
  read_sets (Z.to_nat numberCapabilities) settings.

(** What the two writers of active PDUs share: the lengths and the number of the
    sets are filled in behind them. [sets] returns the number. *)
Definition combined_capabilities {A} (sourceDescriptor : list Z) (sets : M STREAM (Z * A)) : M STREAM A :=
  let! lm := get_pos in
  stream_seek 2;;
  stream_write sourceDescriptor;;
  let! bm := get_pos in
  stream_seek 2;;
  stream_write_uint16 0;;
  let! (numberCapabilities, a) := sets in
  let! em := get_pos in
  stream_set_pos lm;;
  let lengthCombinedCapabilities := uint16 (em - bm) in
  stream_write_uint16 lengthCombinedCapabilities;;
  stream_set_pos bm;;
  stream_write_uint16 numberCapabilities;;
  stream_set_pos em;;
  ret a.

Definition demand_active_sets (settings : cap_settings) : M STREAM (Z * cap_settings) :=
  let! settings := rdp_write_general_capability_set settings in
  rdp_write_bitmap_capability_set settings;;
  rdp_write_order_capability_set settings;;
  rdp_write_pointer_capability_set settings;;
  rdp_write_input_capability_set settings;;
  rdp_write_virtual_channel_capability_set settings;;
  rdp_write_bitmap_cache_host_support_capability_set settings;;
  rdp_write_share_capability_set settings;;
  rdp_write_font_capability_set settings;;
  rdp_write_multifragment_update_capability_set settings;;
  rdp_write_large_pointer_capability_set settings;;
  rdp_write_desktop_composition_capability_set settings;;
  rdp_write_surface_commands_capability_set settings;;
  rdp_write_bitmap_codecs_capability_set settings;;
  ret (14, settings).

Definition rdp_write_demand_active (settings : cap_settings) : M STREAM cap_settings :=
  stream_write_uint32 (share_id (conf settings));;
  stream_write_uint16 4;;
  let! settings := combined_capabilities [0x52; 0x44; 0x50; 0] (demand_active_sets settings) in
  stream_write_uint32 0;;
  ret settings.

(** [settings->received_caps[type]]. *)
Definition has_received (type : Z) (settings : cap_settings) : M STREAM bool :=
  let! v := elem (received_caps (caps settings)) type in
  ret (negb (v =? 0)).

(** A set that is only sent under a condition, with the count of the sets. *)
Definition optional_set (sent : bool) (n : Z) (w : M STREAM unit) (numberCapabilities : Z) : M STREAM Z :=
  if sent then w;; ret (uint16 (numberCapabilities + n)) else ret numberCapabilities.

Definition confirm_active_sets (settings : cap_settings) : M STREAM (Z * cap_settings) :=
  let! settings := rdp_write_general_capability_set settings in
  let c := caps settings in
  rdp_write_bitmap_capability_set settings;;
  rdp_write_order_capability_set settings;;
  (if 5 <=? rdp_version (score settings) then rdp_write_bitmap_cache_v2_capability_set settings
   else rdp_write_bitmap_cache_capability_set settings);;
  rdp_write_pointer_capability_set settings;;
  rdp_write_input_capability_set settings;;
  rdp_write_brush_capability_set settings;;
  rdp_write_glyph_cache_capability_set settings;;
  rdp_write_virtual_channel_capability_set settings;;
  rdp_write_sound_capability_set settings;;
  rdp_write_share_capability_set settings;;
  rdp_write_font_capability_set settings;;
  rdp_write_control_capability_set settings;;
  rdp_write_color_cache_capability_set settings;;
  rdp_write_window_activation_capability_set settings;;
  let numberCapabilities := 15 in
  let! numberCapabilities := optional_set (offscreen_bitmap_cache c) 1
    (rdp_write_offscreen_bitmap_cache_capability_set settings) numberCapabilities in
  let! r := has_received CAPSET_TYPE_LARGE_POINTER settings in
  let! numberCapabilities := optional_set (r && large_pointer c) 1
    (rdp_write_large_pointer_capability_set settings) numberCapabilities in
  let! numberCapabilities := optional_set (remote_app (info settings)) 2
    (rdp_write_remote_programs_capability_set settings;;
     rdp_write_window_list_capability_set settings) numberCapabilities in
  let! r := has_received CAPSET_TYPE_MULTI_FRAGMENT_UPDATE settings in
  let! numberCapabilities := optional_set r 1
    (rdp_write_multifragment_update_capability_set settings) numberCapabilities in
  let! r := has_received CAPSET_TYPE_SURFACE_COMMANDS settings in
  let! numberCapabilities := optional_set r 1
    (rdp_write_surface_commands_capability_set settings) numberCapabilities in
  let! r := has_received CAPSET_TYPE_BITMAP_CODECS settings in
  let! numberCapabilities := optional_set r 1
    (rdp_write_bitmap_codecs_capability_set settings) numberCapabilities in
  let! r := has_received CAPSET_TYPE_FRAME_ACKNOWLEDGE settings in
  let! numberCapabilities := optional_set (r && negb (frame_acknowledge (conf settings) =? 0)) 1
    (rdp_write_frame_acknowledge_capability_set settings) numberCapabilities in
  let! r := has_received 6 settings in
  let! numberCapabilities := optional_set (r && negb (v3_codec_id c =? 0)) 1
    (rdp_write_bitmap_cache_v3_codec_id_capability_set settings) numberCapabilities in
  ret (numberCapabilities, settings).

Definition rdp_write_confirm_active (settings : cap_settings) : M STREAM cap_settings :=
  stream_write_uint32 (share_id (conf settings));;
  stream_write_uint16 0x03EA;;
  stream_write_uint16 (len SOURCE_DESCRIPTOR);;
  combined_capabilities SOURCE_DESCRIPTOR (confirm_active_sets settings).

(** ** Active PDUs *)

Section active.
Context {N U : Type} `{Link N} `{Crypto} `{PduHandlers U}.

Abbreviation RM := (RM (N := N) (U := U)).

(** Returns the result and [*pChannelId]. *)
Definition rdp_recv_get_active_header : RM (bool * option Z) :=
  let! (ok, length, channelId) := rdp_read_header in
  if negb ok then ret (false, channelId) else
  let! rdp := rdp_of in
  if disconnect rdp then ret (true, channelId) else
  let! ok :=
    (if encryption (rdp_conf rdp) then
       let! securityFlags := pkt rdp_read_security_header in
       if negb (Z.land securityFlags SEC_ENCRYPT =? 0) then rdp_decrypt (length - 4) securityFlags else ret true
     else ret true) in
  if negb ok then ret (false, channelId) else
  let! id := use channelId in
  if negb (id =? MCS_GLOBAL_CHANNEL_ID) then ret (false, channelId) else
  ret (true, channelId).

(** [rdp->settings]: the RDP layer's fields are those of the module. *)
Definition settings_of (i : info_settings) (c : capabilities) : RM cap_settings :=
  let! rdp := rdp_of in
  ret (mkCapSettings (rdp_conf rdp) i c).
Definition put_settings (st : cap_settings) : RM unit := rdp_upd (with_conf (conf st)).

(** The part both receivers share, from the length of the source descriptor. *)
Definition recv_sets (i : info_settings) (c : capabilities) : RM (bool * info_settings * capabilities) :=
  let! lengthSourceDescriptor := pkt stream_read_uint16 in
  let! lengthCombinedCapabilities := pkt stream_read_uint16 in
  pkt (stream_seek lengthSourceDescriptor);;
  let! numberCapabilities := pkt stream_read_uint16 in
  pkt (stream_seek 2);;
  let! st := settings_of i c in
  let! (ok, st) := pkt (rdp_read_capability_sets st numberCapabilities) in
  put_settings st;;
  ret (ok, info st, caps st).

Definition rdp_recv_demand_active (i : info_settings) (c : capabilities) : RM (bool * info_settings * capabilities) :=
  let! (ok, channelId) := rdp_recv_get_active_header in
  if negb ok then ret (false, i, c) else
  let! rdp := rdp_of in
  if disconnect rdp then ret (true, i, c) else
  let! (ok, pduLength, pduType, pduSource) := pkt (rdp_read_share_control_header None None) in
  if negb ok then ret (false, i, c) else
  let! pduSource := use pduSource in
  rdp_upd (fun r => with_conf (set_pdu_source pduSource (rdp_conf r)) r);;
  let! pduType := use pduType in
  if negb (pduType =? PDU_TYPE_DEMAND_ACTIVE) then ret (false, i, c) else
  let! shareId := pkt stream_read_uint32 in
  rdp_upd (fun r => with_conf (set_share_id shareId (rdp_conf r)) r);;
  let! (ok, i, c) := recv_sets i c in
  if negb ok then ret (false, i, c) else
  ret (true, i, c <| glyph_v2 := GLYPH_SUPPORT_FULL <? glyphSupportLevel c |>).

(** The result of the sending is ignored. Returns the settings as they are after
    the writers. *)
Definition rdp_send_demand_active (i : info_settings) (c : capabilities) : RM (bool * info_settings * capabilities) :=
  out_of rdp_pdu_init;;
  rdp_upd (fun r => with_conf (set_share_id (uint32 (0x10000 + mcs_user_id (rdp_conf r))) (rdp_conf r)) r);;
  let! st := settings_of i c in
  let! st := out_of (on_stream (rdp_write_demand_active st)) in
  let! rdp := rdp_of in
  out_of (rdp_send_pdu (rdp_conf rdp) PDU_TYPE_DEMAND_ACTIVE (mcs_user_id (rdp_conf rdp)));;
  ret (true, info st, caps st).

(** A disconnection is not looked at. *)
Definition rdp_recv_confirm_active (i : info_settings) (c : capabilities) : RM (bool * info_settings * capabilities) :=
  let! (ok, channelId) := rdp_recv_get_active_header in
  if negb ok then ret (false, i, c) else
  let! (ok, pduLength, pduType, pduSource) := pkt (rdp_read_share_control_header None None) in
  if negb ok then ret (false, i, c) else
  let! pduSource := use pduSource in
  rdp_upd (fun r => with_conf (set_pdu_source pduSource (rdp_conf r)) r);;
  let! pduType := use pduType in
  if negb (pduType =? PDU_TYPE_CONFIRM_ACTIVE) then ret (false, i, c) else
  pkt (stream_seek 4);;
  pkt (stream_seek 2);;
  recv_sets i c.

Definition rdp_send_confirm_active (i : info_settings) (c : capabilities) : RM (bool * info_settings * capabilities) :=
  out_of rdp_pdu_init;;
  let! st := settings_of i c in
  let! st := out_of (on_stream (rdp_write_confirm_active st)) in
  let! rdp := rdp_of in
  let! ok := out_of (rdp_send_pdu (rdp_conf rdp) PDU_TYPE_CONFIRM_ACTIVE (mcs_user_id (rdp_conf rdp))) in
  ret (ok, info st, caps st).

End active.
