(* ===== verification/CapabilitySets.v ===== *)
(** What the capability sets carry: each writer of [Capabilities] with the reader
    that undoes it, the sets in sequence, and what any received sets leave of the
    settings. *)

From coqutil Require Import Datatypes.RecordSetters.
From S2P Require Import Prelude.
From S2P Require Import Stream.
From S2P Require Import Settings.
From S2P Require Import Mppc.
From S2P Require Import Per.
From S2P Require Import X224.
From S2P Require Import Transport.
From S2P Require Import Mcs.
From S2P Require Import Security.
From S2P Require Import Input.
From S2P Require Import Certificate.
From S2P Require Import Gcc.
From S2P Require Import GccClient.
From S2P Require Import Fastpath.
From S2P Require Import Rdp.
From S2P Require Import Channel.
From S2P Require Import Info.
From S2P Require Import License.
From S2P Require Import Capabilities.
Import TriangleBracketNotations.

(** ** Frames filled in afterwards *)

Lemma splice_inside i a b b' c l : length b' = length b -> (i + length (a ++ b ++ c) <= length l)%nat ->
  splice (i + length a) b' (splice i (a ++ b ++ c) l) = splice i (a ++ b' ++ c) l.
Proof.
  intros Hb Hl. rewrite !length_app in Hl. unfold splice. rewrite <- !app_assoc.
  assert (Ht : take (i + length a) (take i l ++ a ++ b ++ c ++ drop (i + length (a ++ b ++ c)) l) = take i l ++ a).
  { rewrite (app_assoc (take i l)). apply take_app_length'. rewrite length_app, length_take. lia. }
  assert (Hd : drop (i + length a + length b') (take i l ++ a ++ b ++ c ++ drop (i + length (a ++ b ++ c)) l)
               = c ++ drop (i + length (a ++ b ++ c)) l).
  { rewrite (app_assoc a), (app_assoc (take i l)). apply drop_app_length'. rewrite !length_app, length_take. lia. }
  rewrite Ht, Hd, <- app_assoc. do 4 f_equal. rewrite !length_app. f_equal. lia.
Qed.

(** Going back to [b] in the bytes just written, replacing it, and returning. *)
Lemma put_inside a b b' c s : room s (len (a ++ b ++ c)) -> len b' = len b ->
  set_p (put b' (set_p (put (a ++ b ++ c) s) (s_p s + len a))) (s_p s + len (a ++ b ++ c)) = put (a ++ b' ++ c) s.
Proof.
  intros [Hp Hr] Hb. unfold put, set_p. cbn [s_size s_p s_data]. f_equal; [rewrite !len_app; lia|].
  replace (Z.to_nat (s_p s + len a)) with (Z.to_nat (s_p s) + length a)%nat by (unfold len; lia).
  apply splice_inside; unfold len in *; lia.
Qed.

(** What is there already counts as written. *)
Lemma adv_put n s : room s n -> 0 <= n -> exists old, len old = n /\ adv n s = put old s.
Proof.
  intros [Hp Hr] Hn. destruct s as [sz p d]. cbn [s_p s_data] in *.
  exists (take (Z.to_nat n) (drop (Z.to_nat p) d)). unfold len in Hr.
  assert (Hl : length (take (Z.to_nat n) (drop (Z.to_nat p) d)) = Z.to_nat n) by (rewrite length_take, length_drop; lia).
  split; [unfold len; lia|]. unfold adv, put, set_p. cbn [s_size s_p s_data]. f_equal; [unfold len; lia|].
  unfold splice. rewrite Hl, <- (drop_drop d), take_drop, take_drop. reflexivity.
Qed.

Definition cap_bytes (type : Z) (body : list Z) : list Z := le16 type ++ le16 (4 + len body) ++ body.

Lemma len_cap_bytes type body : len (cap_bytes type body) = 4 + len body.
Proof. unfold cap_bytes. rewrite !len_app. change (len (le16 _)) with 2. lia. Qed.

Lemma Writes_capability_set type w body : Writes w body tt -> len body < 65532 ->
  Writes (capability_set type w) (cap_bytes type body) tt.
Proof.
  intros Hw Hb s Hr. rewrite len_cap_bytes in Hr. pose proof (len_nonneg body). pose proof Hr as [Hp Hr'].
  assert (Hr0 : room s (len ([] ++ zeros 4 ++ body))) by (cbn [app]; rewrite len_app; change (len (zeros 4)) with 4; exact Hr).
  assert (Ew : (stream_write_zero 4;; w) s = Done (tt, put (zeros 4 ++ body) s)).
  { apply (Writes_bind _ _ (zeros 4) body tt tt (Writes_zero 4 ltac:(lia)) Hw). exact Hr0. }
  unfold capability_set, rdp_capability_set_start. rewrite bind_assoc. unfold bind at 1, get_pos.
  rewrite bind_assoc. unfold bind at 1. unfold bind in Ew. change CAPSET_HEADER_LENGTH with 4.
  destruct (stream_write_zero 4 s) as [[[] s1]|f] eqn:E1; [|discriminate Ew]. rewrite bind_ret.
  rewrite (bind_Done _ _ _ _ _ Ew). unfold rdp_capability_set_finish. unfold bind at 1, get_pos.
  unfold bind at 1, stream_set_pos at 1.
  assert (Hlen : uint16 (stream_get_pos (put (zeros 4 ++ body) s) - stream_get_pos s) = 4 + len body).
  { unfold stream_get_pos, put. cbn [s_p]. rewrite len_app. change (len (zeros 4)) with 4. unfold uint16.
    replace (s_p s + (4 + len body) - s_p s) with (4 + len body) by lia. apply Z.mod_small. lia. }
  rewrite Hlen.
  assert (Hh : Writes (rdp_write_capability_set_header (4 + len body) type) (le16 type ++ le16 (4 + len body)) tt)
    by (eapply Writes_bind; apply Writes_uint16).
  assert (Hr1 : room (set_p (put (zeros 4 ++ body) s) (stream_get_pos s)) 4).
  { split; [exact Hp|]. cbn [set_p s_p s_data]. rewrite len_put by exact Hr0. unfold stream_get_pos. lia. }
  rewrite (bind_Done _ _ _ _ _ (Hh _ Hr1)).
  unfold stream_set_pos. f_equal. f_equal. unfold cap_bytes. rewrite (app_assoc (le16 type)).
  pose proof (put_inside [] (zeros 4) (le16 type ++ le16 (4 + len body)) body s Hr0 eq_refl) as Hi.
  cbn [app] in Hi. rewrite len_nil, Z.add_0_r in Hi. rewrite <- Hi at 1. reflexivity.
Qed.

(** A field of two bytes filled in afterwards. *)
Lemma fill_back {A} a b c v q s (k : M STREAM A) : room s (len (a ++ b ++ c)) -> len b = 2 ->
  (stream_set_pos (s_p s + len a);; stream_write_uint16 v;; k) (set_p (put (a ++ b ++ c) s) q)
  = k (set_p (put (a ++ le16 v ++ c) s) (s_p s + len a + 2)).
Proof.
  intros [Hp Hr] Hb. unfold bind at 1, stream_set_pos. cbn [set_p s_size s_data].
  fold (set_p (put (a ++ b ++ c) s) (s_p s + len a)).
  assert (Hroom : room (set_p (put (a ++ b ++ c) s) (s_p s + len a)) 2).
  { pose proof (len_nonneg a). pose proof (len_nonneg c). split; cbn [set_p s_p s_data]; [lia|].
    rewrite len_put by (split; assumption). rewrite !len_app, Hb in Hr. lia. }
  change (mkSTREAM _ _ _) with (set_p (put (a ++ b ++ c) s) (s_p s + len a)).
  rewrite (bind_Done _ _ _ _ _ (Writes_uint16 v _ Hroom)). f_equal.
  rewrite <- (put_inside a b (le16 v) c s) by (try split; auto). reflexivity.
Qed.

(** Two spaces left open, and the sets written behind them. *)
Lemma spaces_run {A} desc (sets : M STREAM A) a bs s : Writes sets bs a -> room s (2 + (len desc + (2 + len bs))) ->
  exists o1 o2, len o1 = 2 /\ len o2 = 2 /\
    adv 2 s = put o1 s /\ stream_write desc (put o1 s) = Done (tt, put (o1 ++ desc) s) /\
    adv 2 (put (o1 ++ desc) s) = put ((o1 ++ desc) ++ o2) s /\
    sets (put ((o1 ++ desc) ++ o2) s) = Done (a, put (o1 ++ desc ++ o2 ++ bs) s).
Proof.
  intros Hs [Hp Hr]. pose proof (len_nonneg bs). pose proof (len_nonneg desc).
  destruct (adv_put 2 s) as (o1 & Ho1 & E1); [split; lia|lia|].
  assert (R1 : room s (len (o1 ++ desc))) by (rewrite len_app; split; lia).
  destruct (adv_put 2 (put (o1 ++ desc) s)) as (o2 & Ho2 & E2); [apply room_put; [rewrite len_app; split|]; lia|lia|].
  assert (R2 : room s (len ((o1 ++ desc) ++ o2))) by (rewrite !len_app; split; lia).
  exists o1, o2. rewrite E2, (put_app (o1 ++ desc) o2 s) by exact R2. repeat (split; [assumption || reflexivity|]). split.
  - rewrite Writes_write by (apply room_put; [rewrite Ho1; split|]; lia). rewrite put_app by exact R1. reflexivity.
  - split; [reflexivity|]. rewrite Hs by (apply room_put; [rewrite !len_app; split|]; lia).
    rewrite put_app by (rewrite !len_app; split; lia). rewrite <- !app_assoc. reflexivity.
Qed.

Lemma Writes_combined {A} desc (sets : M STREAM (Z * A)) n a bs : Writes sets bs (n, a) -> 4 + len bs < 65536 ->
  Writes (combined_capabilities desc sets) (le16 (4 + len bs) ++ desc ++ le16 n ++ le16 0 ++ bs) a.
Proof.
  intros Hs Hb s Hr. pose proof (len_nonneg bs). pose proof (len_nonneg desc).
  assert (Hw : Writes (stream_write_uint16 0;; sets) (le16 0 ++ bs) (n, a)) by (eapply Writes_bind; [apply Writes_uint16|exact Hs]).
  destruct (spaces_run desc _ _ _ s Hw) as (o1 & o2 & Ho1 & Ho2 & E1 & E2 & E3 & E4).
  { rewrite !len_app in *. exact Hr. }
  unfold combined_capabilities. unfold bind at 1, get_pos. unfold bind at 1, stream_seek. rewrite E1.
  rewrite (bind_Done _ _ _ _ _ E2). unfold bind at 1, get_pos. unfold bind at 1, stream_seek. rewrite E3.
  unfold bind in E4. unfold bind at 1. destruct (stream_write_uint16 0 _) as [[[] s3]|f]; [|discriminate E4].
  rewrite (bind_Done _ _ _ _ _ E4). unfold bind at 1, get_pos. clear E4.
  set (tail := le16 0 ++ bs) in *. set (y := le16 (4 + len bs) ++ desc ++ le16 n ++ tail) in *.
  assert (Ht : len tail = 2 + len bs) by (unfold tail; rewrite len_app; reflexivity).
  assert (Hl : len (o1 ++ desc ++ o2 ++ tail) = len y)
    by (unfold y; rewrite !len_app, Ho1, Ho2; reflexivity).
  assert (Hl1 : len (le16 (4 + len bs) ++ desc ++ o2 ++ tail) = len y) by (unfold y; rewrite !len_app, Ho2; reflexivity).
  replace (uint16 _) with (4 + len bs).
  2:{ unfold stream_get_pos, put. cbn [s_p]. unfold uint16. rewrite Z.mod_small; rewrite !len_app, Ho2, Ht; lia. }
  assert (F1 : s_p s = s_p s + len (@nil Z)) by (rewrite len_nil; lia).
  unfold stream_get_pos at 1. rewrite F1 at 1.
  change (put (o1 ++ desc ++ o2 ++ tail) s)
    with (set_p (put ([] ++ o1 ++ desc ++ o2 ++ tail) s) (s_p s + len (o1 ++ desc ++ o2 ++ tail))) at 2.
  rewrite (fill_back [] o1 (desc ++ o2 ++ tail) (4 + len bs)); [|cbn [app]; rewrite Hl; exact Hr|exact Ho1].
  cbn [app]. rewrite app_assoc. rewrite app_assoc in Hl1.
  replace (stream_get_pos (put (o1 ++ desc) s)) with (s_p s + len (le16 (4 + len bs) ++ desc))
    by (unfold stream_get_pos, put; cbn [s_p]; rewrite !len_app, Ho1; reflexivity).
  rewrite (fill_back (le16 (4 + len bs) ++ desc) o2 tail n); [|rewrite Hl1; exact Hr|exact Ho2].
  unfold bind, stream_set_pos, ret. rewrite <- !app_assoc. fold y. do 2 f_equal.
  change (stream_get_pos (put (o1 ++ desc ++ o2 ++ tail) s)) with (s_p s + len (o1 ++ desc ++ o2 ++ tail)).
  rewrite Hl. reflexivity.
Qed.

(** ** Well-formed settings *)

(** The settings as their types have them: arrays of their length, numbers of
    their width, flags as bytes. *)
Definition w16 (v : Z) : Prop := 0 <= v < 65536.
Definition w32 (v : Z) : Prop := 0 <= v < 2 ^ 32.

Record caps_ok (st : cap_settings) : Prop := {
  ok_orders : len (order_support (caps st)) = 32;
  ok_order_flags : is_bytes (order_support (caps st));
  ok_received : len (received_caps (caps st)) = 32;
  ok_cells : 5 <= len (bitmapCacheV2CellInfo (caps st));
  ok_glyphs : len (glyphCache (caps st)) = 10;
  ok_os : w32 (os_major_type (caps st)) /\ w32 (os_minor_type (caps st));
  ok_multifrag : w32 (multifrag_max_request_size (caps st));
  ok_pointer : w32 (pointer_cache_size (caps st));
  ok_glyph_level : w32 (glyphSupportLevel (caps st));
  ok_offscreen : w32 (offscreen_bitmap_cache_size (caps st)) /\ w32 (offscreen_bitmap_cache_entries (caps st));
  ok_nine_grid : w32 (draw_nine_grid_cache_size (caps st)) /\ w32 (draw_nine_grid_cache_entries (caps st));
  ok_codecs : w32 (rfx_codec_id (caps st)) /\ w32 (ns_codec_id (caps st));
  ok_chunk : w32 (vc_chunk_size (conf st));
  ok_desktop : w32 (width (score st)) /\ w32 (height (score st)) /\ w32 (color_depth (score st));
  ok_keyboard : w32 (kbd_layout (score st)) /\ w32 (kbd_type (score st)) /\ w32 (kbd_subtype (score st)) /\
                w32 (kbd_fn_keys (score st));
}.

(** Values that fit into the 16 bits they are sent in. *)
Record sendable_caps (st : cap_settings) : Prop := {
  sc_os : w16 (os_major_type (caps st)) /\ w16 (os_minor_type (caps st));
  sc_pointer : w16 (pointer_cache_size (caps st));
  sc_glyph_level : w16 (glyphSupportLevel (caps st));
  sc_offscreen : w16 (offscreen_bitmap_cache_size (caps st)) /\ w16 (offscreen_bitmap_cache_entries (caps st));
  sc_desktop : w16 (width (score st)) /\ w16 (height (score st)) /\ w16 (color_depth (score st));
}.

(** ** One set *)

(** The set [w] writes, of at most [b] bytes, changes the settings of a receiver
    by [view]. *)
Definition carries {A} (w : M STREAM A) (a : A) (type b : Z) (view : cap_settings -> cap_settings) : Prop :=
  exists body, Writes w (cap_bytes type body) a /\ len body <= b /\
    forall st, Reads (read_set type (4 + len body) st) body (view st).

Ltac wr := repeat first [apply Writes_uint16 | apply Writes_uint32 | apply Writes_uint8 | apply Writes_zero; lia
                        | apply Writes_write | apply Writes_ret | eapply Writes_bind].
Ltac reads_leaf := first [apply Reads_seek; reflexivity | apply Reads_le16; assumption | apply Reads_le32; assumption
                         | apply Reads_uint8 | apply Reads_le16; unfold w16 in *; lia | apply Reads_le32; unfold w32 in *; lia].
Ltac rd := repeat first [eapply Reads_last; [solve [reads_leaf]|] | eapply Reads_bind; [solve [reads_leaf]|] ];
  try apply Reads_ret.
(** Introduces the bytes of a set from its writer; [r] is the reader of its type. *)
Ltac by_writer r := eexists; split; [apply Writes_capability_set; [wr|] | split; [|intros st] ]; [lens_lia|lens_lia|];
  match goal with |- Reads (read_set _ ?l ?s) _ _ => change (read_set _ l s) with (r l s); unfold r end.

Lemma carries_control p : carries (rdp_write_control_capability_set p) tt CAPSET_TYPE_CONTROL 8 (fun st => st).
Proof. by_writer rdp_read_control_capability_set. rd. Qed.

Lemma carries_activation p : carries (rdp_write_window_activation_capability_set p) tt CAPSET_TYPE_ACTIVATION 8 (fun st => st).
Proof. by_writer rdp_read_window_activation_capability_set. rd. Qed.

Lemma carries_share p : carries (rdp_write_share_capability_set p) tt CAPSET_TYPE_SHARE 4 (fun st => st).
Proof. by_writer rdp_read_share_capability_set. rd. Qed.

Lemma carries_color_cache p : carries (rdp_write_color_cache_capability_set p) tt CAPSET_TYPE_COLOR_CACHE 4 (fun st => st).
Proof. by_writer rdp_read_color_cache_capability_set. rd. Qed.

Lemma carries_font p : carries (rdp_write_font_capability_set p) tt CAPSET_TYPE_FONT 4 (fun st => st).
Proof. by_writer rdp_read_font_capability_set. cbn [Z.ltb Z.compare Pos.compare Z.add len]. rd. Qed.

Lemma carries_brush p : carries (rdp_write_brush_capability_set p) tt CAPSET_TYPE_BRUSH 4 (fun st => st).
Proof. by_writer rdp_read_brush_capability_set. rd. Qed.

Lemma carries_window_list p : carries (rdp_write_window_list_capability_set p) tt CAPSET_TYPE_WINDOW 7 (fun st => st).
Proof. by_writer rdp_read_window_list_capability_set. rd. Qed.

Lemma carries_desktop_composition p : carries (rdp_write_desktop_composition_capability_set p) tt CAPSET_TYPE_COMP_DESK 2 (fun st => st).
Proof. by_writer rdp_read_desktop_composition_capability_set. rd. Qed.

Lemma carries_large_pointer p : carries (rdp_write_large_pointer_capability_set p) tt CAPSET_TYPE_LARGE_POINTER 2 (fun st => st).
Proof. by_writer rdp_read_large_pointer_capability_set. rd. Qed.

Lemma carries_frame_acknowledge p :
  carries (rdp_write_frame_acknowledge_capability_set p) tt CAPSET_TYPE_FRAME_ACKNOWLEDGE 4 (fun st => st).
Proof. by_writer rdp_read_frame_acknowledge_capability_set. rd. Qed.

Lemma carries_v3_codec p : carries (rdp_write_bitmap_cache_v3_codec_id_capability_set p) tt 6 1 (fun st => st).
Proof. by_writer rdp_read_bitmap_cache_v3_codec_id_capability_set. rd. Qed.

(** *** Sets that change settings *)

(** What the writer of the general set leaves. *)
Definition switched (p : cap_settings) : cap_settings :=
  if mode p then upd_caps (fun c => c <| refresh_rect := false |> <| suppress_output := false |>) p else p.

Definition general_view (p st : cap_settings) : cap_settings :=
  upd_caps (fun c => c <| os_major_type := if mode st then os_major_type (caps p) else os_major_type c |>
    <| os_minor_type := if mode st then os_minor_type (caps p) else os_minor_type c |>
    <| fastpath_output := fastpath_output (caps p) && fastpath_output c |>
    <| refresh_rect := refresh_rect (caps p) && refresh_rect c |>
    <| suppress_output := suppress_output (caps p) && suppress_output c |>) st.

(** Two updates of the same settings that agree field by field. *)
Ltac same_settings := repeat match goal with st : cap_settings |- _ => destruct st as [? ? []] end; reflexivity.

Ltac viewed := eapply Reads_eq; [apply Reads_ret|reflexivity|same_settings].

Lemma carries_general p : sendable_caps p ->
  carries (rdp_write_general_capability_set p) (switched p) CAPSET_TYPE_GENERAL 20 (general_view (switched p)).
Proof.
  intros [[Hma Hmi] _ _ _ _].
  assert (H1 : os_major_type (caps (switched p)) = os_major_type (caps p)) by (unfold switched; destruct (mode p); same_settings).
  assert (H2 : os_minor_type (caps (switched p)) = os_minor_type (caps p)) by (unfold switched; destruct (mode p); same_settings).
  assert (H3 : fastpath_output (caps (switched p)) = fastpath_output (caps p)) by (unfold switched; destruct (mode p); same_settings).
  eexists. split; [eapply Writes_last; [apply Writes_capability_set; [wr|]|apply Writes_ret]|split; [|intros st] ]; [lens_lia|lens_lia|].
  fold (switched p).
  match goal with |- Reads (read_set _ ?l ?s) _ _ => change (read_set _ l s) with (rdp_read_general_capability_set l s) end.
  unfold rdp_read_general_capability_set, general_view. rewrite H1, H2, H3.
  set (f := bit_if (fastpath_output (caps p)) _ _).
  assert (Hf : w16 f /\ (Z.land f FASTPATH_OUTPUT_SUPPORTED =? 0) = negb (fastpath_output (caps p)))
    by (unfold f; destruct (fastpath_output (caps p)), (auto_reconnection (caps p)); split; (split; discriminate || reflexivity) || reflexivity).
  destruct Hf as [Hf Hfb].
  destruct (mode st); (rewrite app_assoc; eapply Reads_bind; [rd|]; rd); rewrite Hfb;
    destruct (fastpath_output (caps p)), (refresh_rect (caps (switched p))), (suppress_output (caps (switched p))); viewed.
Qed.

(** The depth the server announces. *)
Definition preferred (p : cap_settings) : Z := if 5 <? rdp_version (score p) then color_depth (score p) else 8.

Definition bitmap_view (p st : cap_settings) : cap_settings :=
  let resize := desktop_resize (caps p) && desktop_resize (caps st) in
  let st := upd_caps (fun c => c <| desktop_resize := resize |>) st in
  if mode st then st else
  let st := upd_core (fun c => c <| color_depth := preferred p |>) st in
  if resize then upd_core (fun c => c <| width := width (score p) |> <| height := height (score p) |>) st else st.

Lemma carries_bitmap p : sendable_caps p ->
  carries (rdp_write_bitmap_capability_set p) tt CAPSET_TYPE_BITMAP 24 (bitmap_view p).
Proof.
  intros [_ _ _ _ (Hw & Hh & Hc)]. by_writer rdp_read_bitmap_capability_set.
  replace (if 5 <? rdp_version (score p) then uint16 (color_depth (score p)) else 8) with (preferred p)
    by (unfold preferred, uint16; destruct (5 <? _); [rewrite Z.mod_small by exact Hc|]; reflexivity).
  assert (Hpr : w16 (preferred p)) by (unfold preferred; destruct (5 <? _); [exact Hc|split; discriminate || reflexivity]).
  assert (Hb : w16 (Z.b2z (desktop_resize (caps p)))) by (destruct (desktop_resize (caps p)); split; discriminate || reflexivity).
  unfold bitmap_view. set (w := width (score p)) in *. set (h := height (score p)) in *. set (d := preferred p) in *. rd.
  eapply Reads_eq; [apply Reads_ret|reflexivity|]. clearbody w h d.
  destruct (Z.eqb_spec d (color_depth (score st))) as [->|_]; destruct (desktop_resize (caps p));
    destruct st as [[[]] [[]] [? ? []]]; reflexivity.
Qed.

Definition order_view (p st : cap_settings) : cap_settings :=
  upd_caps (fun c => c <| order_support := without_orders (order_support (caps p)) (order_support c) |>) st.

Lemma Writes_all l n : len l = n -> Writes (let! flags := array_prefix l n in stream_write flags) l tt.
Proof.
  intros <-. eapply Writes_first; [apply Writes_array_prefix; pose proof (len_nonneg l); lia|].
  rewrite take_ge by (unfold len; lia). apply Writes_write.
Qed.

Lemma carries_order p : caps_ok p -> carries (rdp_write_order_capability_set p) tt CAPSET_TYPE_ORDER 84 (order_view p).
Proof.
  intros Hp. pose proof (ok_orders _ Hp) as Ho.
  set (f := bit_if (frame_marker (caps p)) ORDER_FLAGS_EXTRA_SUPPORT (bit_if (bitmap_cache_v3 (caps p)) ORDER_FLAGS_EXTRA_SUPPORT
             (Z.lor (Z.lor NEGOTIATE_ORDER_SUPPORT ZERO_BOUNDS_DELTA_SUPPORT) COLOR_INDEX_SUPPORT))).
  set (x := bit_if (frame_marker (caps p)) ALTSEC_FRAME_MARKER_SUPPORT (bit_if (bitmap_cache_v3 (caps p)) CACHE_BITMAP_V3_SUPPORT 0)).
  assert (Hf : w16 f /\ w16 x)
    by (unfold f, x; destruct (frame_marker (caps p)), (bitmap_cache_v3 (caps p)); split; split; discriminate || reflexivity).
  destruct Hf as [Hf Hx]. eexists. split; [apply Writes_capability_set|split; [|intros st] ].
  - fold f x. do 8 (eapply Writes_bind; [wr|]). eapply Writes_bind; [apply Writes_all, Ho|]. wr.
  - rewrite !len_app, Ho. lens_lia.
  - rewrite !len_app, Ho. lens_lia.
  - match goal with |- Reads (read_set _ ?l ?s) _ _ => change (read_set _ l s) with (rdp_read_order_capability_set l s) end.
    unfold rdp_read_order_capability_set, order_view. do 8 (eapply Reads_bind; [solve [reads_leaf]|]).
    eapply Reads_bind; [apply Reads_read; exact (eq_sym Ho)|]. rd.
Qed.

Definition input_view (p st : cap_settings) : cap_settings :=
  if mode st then
    upd_core (fun c => c <| kbd_layout := kbd_layout (score p) |> <| kbd_type := kbd_type (score p) |>
                         <| kbd_subtype := kbd_subtype (score p) |> <| kbd_fn_keys := kbd_fn_keys (score p) |>) st
  else upd_caps (fun c => c <| fastpath_input := fastpath_input (caps p) && fastpath_input c |>) st.

Lemma carries_input p : caps_ok p -> carries (rdp_write_input_capability_set p) tt CAPSET_TYPE_INPUT 84 (input_view p).
Proof.
  intros Hp. destruct (ok_keyboard _ Hp) as (H1 & H2 & H3 & H4). by_writer rdp_read_input_capability_set. unfold input_view.
  set (f := bit_if (fastpath_input (caps p)) INPUT_FLAG_FASTPATH_INPUT2 _).
  assert (Hf : w16 f /\ (Z.land f INPUT_FLAG_FASTPATH_INPUT =? 0) = negb (fastpath_input (caps p)) /\
               (Z.land f INPUT_FLAG_FASTPATH_INPUT2 =? 0) = negb (fastpath_input (caps p)))
    by (unfold f; destruct (fastpath_input (caps p)); repeat split; discriminate || reflexivity).
  destruct Hf as (Hf & F1 & F2). do 2 (eapply Reads_bind; [solve [reads_leaf]|]). rewrite F1, F2, !negb_involutive.
  destruct (mode st) eqn:Em; rewrite 3!app_assoc; (eapply Reads_bind; [rewrite <- !app_assoc; rd|]); rd.
  - unfold mode in *. cbn. rewrite Em. apply Reads_ret.
  - rewrite Em. destruct (fastpath_input (caps p)); viewed.
Qed.

(** Ten definitions of glyph caches. *)
Definition glyph_bytes (d : GLYPH_CACHE_DEFINITION) : list Z := le16 (cacheEntries d) ++ le16 (cacheMaximumCellSize d).

Lemma Writes_glyph c i d : glyphCache c !! Z.to_nat i = Some d -> 0 <= i -> Writes (write_glyph_cache c i) (glyph_bytes d) tt.
Proof.
  intros E Hi. unfold write_glyph_cache, elem. rewrite (proj2 (Z.leb_le 0 i)), E by exact Hi.
  eapply Writes_first; [apply Writes_ret|]. unfold rdp_write_cache_definition, glyph_bytes. wr.
Qed.

Definition glyph_view (p st : cap_settings) : cap_settings :=
  upd_caps (fun c => c <| glyphSupportLevel := glyphSupportLevel (caps p) |>) st.

Lemma carries_glyph p : caps_ok p -> sendable_caps p ->
  carries (rdp_write_glyph_cache_capability_set p) tt CAPSET_TYPE_GLYPH_CACHE 48 (glyph_view p).
Proof.
  intros Hp Hs. pose proof (ok_glyphs _ Hp) as Hg. pose proof (sc_glyph_level _ Hs) as Hl.
  assert (Hall : exists d0 d1 d2 d3 d4 d5 d6 d7 d8 d9, glyphCache (caps p) = [d0; d1; d2; d3; d4; d5; d6; d7; d8; d9]).
  { destruct (glyphCache (caps p)) as [|d0 [|d1 [|d2 [|d3 [|d4 [|d5 [|d6 [|d7 [|d8 [|d9 [|]]]]]]]]]]]; try discriminate Hg.
    repeat eexists. unfold len in Hg. cbn in Hg. lia. }
  destruct Hall as (d0 & d1 & d2 & d3 & d4 & d5 & d6 & d7 & d8 & d9 & E).
  eexists. split; [apply Writes_capability_set|split; [|intros st] ].
  - do 10 (eapply Writes_bind; [apply Writes_glyph; [rewrite E; reflexivity|lia]|]). unfold rdp_write_cache_definition. wr.
  - lens_lia.
  - lens_lia.
  - match goal with |- Reads (read_set _ ?l ?s) _ _ => change (read_set _ l s) with (rdp_read_glyph_cache_capability_set l s) end.
    unfold rdp_read_glyph_cache_capability_set, glyph_view. rewrite 9!app_assoc. rd.
Qed.

Definition channel_view (p st : cap_settings) : cap_settings :=
  if mode st then st else upd_conf (fun c => c <| vc_chunk_size := vc_chunk_size (conf p) |>) st.

Lemma carries_virtual_channel p : caps_ok p ->
  carries (rdp_write_virtual_channel_capability_set p) tt CAPSET_TYPE_VIRTUAL_CHANNEL 8 (channel_view p).
Proof.
  intros Hp. pose proof (ok_chunk _ Hp). by_writer rdp_read_virtual_channel_capability_set.
  assert (Hf : w32 (if mode p then VCCAPS_COMPR_CS_8K else VCCAPS_NO_COMPR)) by (destruct (mode p); split; discriminate || reflexivity).
  rd.
Qed.

Lemma carries_cache_host_support p :
  carries (rdp_write_bitmap_cache_host_support_capability_set p) tt CAPSET_TYPE_BITMAP_CACHE_HOST_SUPPORT 4
    (upd_caps (fun c => c <| persistent_bitmap_cache := true |>)).
Proof. by_writer rdp_read_bitmap_cache_host_support_capability_set. rd. Qed.

Lemma carries_multifragment p : caps_ok p ->
  carries (rdp_write_multifragment_update_capability_set p) tt CAPSET_TYPE_MULTI_FRAGMENT_UPDATE 4
    (upd_caps (fun c => c <| multifrag_max_request_size := multifrag_max_request_size (caps p) |>)).
Proof. intros Hp. pose proof (ok_multifrag _ Hp). by_writer rdp_read_multifragment_update_capability_set. rd. Qed.

Lemma carries_surface p : carries (rdp_write_surface_commands_capability_set p) tt CAPSET_TYPE_SURFACE_COMMANDS 8
    (upd_caps (fun c => c <| surface_commands := true |>)).
Proof. by_writer rdp_read_surface_commands_capability_set. rd. Qed.

Lemma carries_sound p : carries (rdp_write_sound_capability_set p) tt CAPSET_TYPE_SOUND 4
    (upd_caps (fun c => c <| sound_beeps := sound_beeps (caps p) |>)).
Proof.
  by_writer rdp_read_sound_capability_set.
  assert (Hf : w16 (if sound_beeps (caps p) then SOUND_BEEPS_FLAG else 0)) by (destruct (sound_beeps _); split; discriminate || reflexivity).
  rd. destruct (sound_beeps (caps p)); apply Reads_ret.
Qed.

Lemma carries_offscreen p : sendable_caps p ->
  carries (rdp_write_offscreen_bitmap_cache_capability_set p) tt CAPSET_TYPE_OFFSCREEN_CACHE 8
    (upd_caps (fun c => c <| offscreen_bitmap_cache_size := offscreen_bitmap_cache_size (caps p) |>
       <| offscreen_bitmap_cache_entries := offscreen_bitmap_cache_entries (caps p) |>
       <| offscreen_bitmap_cache := offscreen_bitmap_cache (caps p) || offscreen_bitmap_cache c |>)).
Proof.
  intros [_ _ _ [H1 H2] _]. by_writer rdp_read_offscreen_bitmap_cache_capability_set.
  assert (Hf : w32 (if offscreen_bitmap_cache (caps p) then 1 else 0)) by (destruct (offscreen_bitmap_cache _); split; discriminate || reflexivity).
  rd. destruct (offscreen_bitmap_cache (caps p)); apply Reads_ret.
Qed.

Lemma carries_remote_programs p : carries (rdp_write_remote_programs_capability_set p) tt CAPSET_TYPE_RAIL 4 (fun st => st).
Proof.
  by_writer rdp_read_remote_programs_capability_set.
  set (f := bit_if _ _ _).
  assert (Hf : w32 f /\ (Z.land f RAIL_LEVEL_SUPPORTED =? 0) = false)
    by (unfold f; destruct (rail_langbar_supported _); repeat split; discriminate || reflexivity).
  destruct Hf as [Hf F]. rd. rewrite F. apply Reads_ret.
Qed.

Lemma carries_cache p : sendable_caps p ->
  carries (rdp_write_bitmap_cache_capability_set p) tt CAPSET_TYPE_BITMAP_CACHE 36 (fun st => st).
Proof.
  intros [_ _ _ _ (_ & _ & Hc)]. unfold w16 in Hc.
  assert (E : (INT_MAX <? uint32 (color_depth (score p) + 7) / 8 * 4096) = false).
  { apply Z.ltb_ge. unfold uint32, INT_MAX. rewrite Z.mod_small by lia.
    assert ((color_depth (score p) + 7) / 8 < 8193) by (apply Z.div_lt_upper_bound; lia). lia. }
  unfold rdp_write_bitmap_cache_capability_set. rewrite E. by_writer rdp_read_bitmap_cache_capability_set. rd.
Qed.

Lemma Writes_cell c i d : bitmapCacheV2CellInfo c !! Z.to_nat i = Some d -> 0 <= i ->
  Writes (write_cell_info c i) (le32 (Z.lor (numEntries d) (if persistent d then 2 ^ 31 else 0))) tt.
Proof.
  intros E Hi. unfold write_cell_info, elem. rewrite (proj2 (Z.leb_le 0 i)), E by exact Hi.
  eapply Writes_first; [apply Writes_ret|]. apply Writes_uint32.
Qed.

Lemma carries_cache_v2 p : caps_ok p -> carries (rdp_write_bitmap_cache_v2_capability_set p) tt CAPSET_TYPE_BITMAP_CACHE_V2 36 (fun st => st).
Proof.
  intros Hp. pose proof (ok_cells _ Hp) as Hc.
  assert (Hall : exists d0 d1 d2 d3 d4 rest, bitmapCacheV2CellInfo (caps p) = d0 :: d1 :: d2 :: d3 :: d4 :: rest).
  { destruct (bitmapCacheV2CellInfo (caps p)) as [|d0 [|d1 [|d2 [|d3 [|d4 rest]]]]]; unfold len in Hc; cbn in Hc; try lia.
    repeat eexists. }
  destruct Hall as (d0 & d1 & d2 & d3 & d4 & rest & E).
  eexists. split; [apply Writes_capability_set|split; [|intros st] ].
  - do 3 (eapply Writes_bind; [wr|]). do 5 (eapply Writes_bind; [apply Writes_cell; [rewrite E; reflexivity|lia]|]). wr.
  - lens_lia.
  - lens_lia.
  - match goal with |- Reads (read_set _ ?l ?s) _ _ => change (read_set _ l s) with (rdp_read_bitmap_cache_v2_capability_set l s) end.
    unfold rdp_read_bitmap_cache_v2_capability_set. rd.
Qed.

(** Two sets that are read but that neither side sends. *)
Lemma carries_nine_grid p : w16 (draw_nine_grid_cache_size (caps p)) -> w16 (draw_nine_grid_cache_entries (caps p)) ->
  carries (rdp_write_draw_nine_grid_cache_capability_set p) tt CAPSET_TYPE_DRAW_NINE_GRID_CACHE 8
    (upd_caps (fun c => c <| draw_nine_grid_cache_size := draw_nine_grid_cache_size (caps p) |>
       <| draw_nine_grid_cache_entries := draw_nine_grid_cache_entries (caps p) |>
       <| draw_nine_grid := draw_nine_grid (caps p) || draw_nine_grid c |>)).
Proof.
  intros H1 H2. by_writer rdp_read_draw_nine_grid_cache_capability_set.
  assert (Hf : w32 (if draw_nine_grid (caps p) then DRAW_NINEGRID_SUPPORTED else DRAW_NINEGRID_NO_SUPPORT))
    by (destruct (draw_nine_grid _); split; discriminate || reflexivity).
  rd. destruct (draw_nine_grid (caps p)); apply Reads_ret.
Qed.

Lemma carries_gdiplus p : carries (rdp_write_draw_gdiplus_cache_capability_set p) tt CAPSET_TYPE_DRAW_GDI_PLUS 36
    (upd_caps (fun c => c <| draw_gdi_plus := draw_gdi_plus (caps p) || draw_gdi_plus c |>
       <| draw_gdi_plus_cache := draw_gdi_plus (caps p) || draw_gdi_plus_cache c |>)).
Proof.
  eexists. split; [apply Writes_capability_set|split; [|intros st] ].
  - do 3 (eapply Writes_bind; [wr|]). unfold rdp_write_gdiplus_cache_entries, rdp_write_gdiplus_cache_chunk_size, rdp_write_gdiplus_image_cache_properties. wr.
  - lens_lia.
  - lens_lia.
  - match goal with |- Reads (read_set _ ?l ?s) _ _ => change (read_set _ l s) with (rdp_read_draw_gdiplus_cache_capability_set l s) end.
    unfold rdp_read_draw_gdiplus_cache_capability_set.
    assert (Hf : w32 (if draw_gdi_plus (caps p) then DRAW_GDIPLUS_SUPPORTED else DRAW_GDIPLUS_DEFAULT) /\
                 w32 (if draw_gdi_plus (caps p) then DRAW_GDIPLUS_CACHE_LEVEL_ONE else DRAW_GDIPLUS_CACHE_LEVEL_DEFAULT))
      by (destruct (draw_gdi_plus _); repeat split; discriminate || reflexivity).
    destruct Hf as [Hf1 Hf2]. rd. destruct (draw_gdi_plus (caps p)); apply Reads_ret.
Qed.

(** *** Codecs *)

(** The comparison of [strncmp] on bytes that are there. *)
Fixpoint strn (guid bs : list Z) : bool :=
  match guid, bs with
  | [], _ => true
  | g :: guid', b :: bs' => if negb (b =? g) then false else if b =? 0 then true else strn guid' bs'
  | _, [] => false
  end.

Lemma strncmp_tail_run guid : forall all off s, holds s all -> 0 <= off -> off + len guid <= len all ->
  strncmp_tail off guid s = Done (strn guid (drop (Z.to_nat off) all), s).
Proof.
  induction guid as [|g guid IH]; intros all off s Hs Hoff Hl; [reflexivity|]. rewrite len_cons in Hl. pose proof (len_nonneg guid).
  destruct (lookup_lt_is_Some_2 all (Z.to_nat off)) as [b Eb]; [unfold len in Hl; lia|].
  rewrite (drop_S _ _ _ Eb). cbn [strncmp_tail strn].
  rewrite (bind_Done _ _ _ _ _ (holds_rbyte s all off b Hs Hoff Eb)).
  destruct (negb (b =? g)); [reflexivity|]. destruct (b =? 0); [reflexivity|].
  rewrite (IH all) by (assumption || lia). replace (Z.to_nat (off + 1)) with (S (Z.to_nat off)) by lia. reflexivity.
Qed.

Lemma strn_app guid : forall bs rest, length bs = length guid -> strn guid (bs ++ rest) = strn guid bs.
Proof.
  induction guid as [|g guid IH]; intros bs rest E; [reflexivity|]. destruct bs as [|b bs]; [discriminate E|].
  cbn [app strn]. injection E as E. destruct (negb _); [reflexivity|]. destruct (_ =? _); [reflexivity|]. apply IH, E.
Qed.

Definition codec_bytes (guid : list Z) (id : Z) (props : list Z) : list Z := guid ++ [id] ++ le16 (len props) ++ props.

Definition codec_view (guid : list Z) (id : Z) (st : cap_settings) : cap_settings :=
  if negb (mode st) then st
  else if strn CODEC_GUID_REMOTEFX guid then
    upd_core (fun c => c <| rfx_codec := true |>) (upd_caps (fun c => c <| rfx_codec_id := id |>) st)
  else if strn CODEC_GUID_NSCODEC guid then upd_caps (fun c => c <| ns_codec_id := id |> <| ns_codec := true |>) st
  else st.

Lemma is_codec_run st guid g rest s : length g = 16%nat -> length guid = 16%nat -> holds s (guid ++ rest) ->
  is_codec st g s = Done (mode st && strn g guid, s).
Proof.
  intros Hg Hl Hs. unfold is_codec. destruct (mode st); [|reflexivity].
  rewrite (strncmp_tail_run g (guid ++ rest)); [|exact Hs|lia|].
  - rewrite drop_0, strn_app by congruence. reflexivity.
  - rewrite len_app. unfold len. lia.
Qed.

Lemma Reads_codec st guid id props : length guid = 16%nat -> len props < 65536 ->
  Reads (read_codec st) (codec_bytes guid id props) (codec_view guid id st).
Proof.
  intros Hg Hp s Hs. unfold read_codec, codec_bytes, codec_view in *. pose proof (len_nonneg props).
  rewrite (bind_Done _ _ _ _ _ (is_codec_run st guid CODEC_GUID_REMOTEFX _ s eq_refl Hg Hs)).
  assert (Hskip : Reads (stream_seek 16) guid tt) by (apply Reads_seek; unfold len; rewrite Hg; reflexivity).
  assert (Htail : forall x : cap_settings, Reads (let! n := stream_read_uint16 in stream_seek n;; ret x) (le16 (len props) ++ props) x).
  { intros x. eapply Reads_bind; [apply Reads_le16; lia|]. eapply Reads_last; [apply Reads_seek; reflexivity|apply Reads_ret]. }
  rewrite app_assoc in Hs |- *.
  destruct (mode st && strn CODEC_GUID_REMOTEFX guid) eqn:E1.
  - destruct (mode st); [|discriminate E1]. cbn [negb andb] in *. rewrite E1.
    revert s Hs. apply Reads_bind with (a := upd_core (fun c => c <| rfx_codec := true |>) (upd_caps (fun c => c <| rfx_codec_id := id |>) st)); [|apply Htail].
    eapply Reads_bind; [exact Hskip|]. eapply Reads_last; [apply Reads_uint8|apply Reads_ret].
  - rewrite bind_assoc. rewrite <- app_assoc in Hs.
    rewrite (bind_Done _ _ _ _ _ (is_codec_run st guid CODEC_GUID_NSCODEC _ s eq_refl Hg Hs)). rewrite app_assoc in Hs.
    destruct (mode st); cbn [negb andb] in *; [rewrite E1; destruct (strn CODEC_GUID_NSCODEC guid)|]; revert s Hs;
      (eapply Reads_bind; [|apply Htail]); (eapply Reads_bind; [exact Hskip|]);
      (eapply Reads_last; [first [apply Reads_uint8|apply Reads_seek; reflexivity]|apply Reads_ret]).
Qed.

(** The entries a sender writes. *)
Lemma Writes_codec p guid id (sv cl : cap_settings -> M STREAM unit) ps pc :
  Writes (sv p) (le16 (len ps) ++ ps) tt -> Writes (cl p) (le16 (len pc) ++ pc) tt -> is_byte id ->
  Writes (write_codec p guid id sv cl) (codec_bytes guid (if mode p then 0 else id) (if mode p then ps else pc)) tt.
Proof.
  intros Hs Hc Hid. unfold write_codec, codec_bytes. eapply Writes_bind; [apply Writes_write|].
  destruct (mode p); (eapply Writes_bind; [|eassumption]); [apply (Writes_uint8 0)|].
  eapply Writes_eq; [apply Writes_uint8| |reflexivity]. rewrite Z.mod_small by exact Hid. reflexivity.
Qed.

Definition icap_bytes (m e : Z) : list Z := le16 CLW_VERSION_1_0 ++ le16 CT_TILE_64x64 ++ [m mod 256] ++ [1] ++ [1] ++ [e mod 256].
Definition rfx_props (p : cap_settings) : list Z :=
  if mode p then le32 0 else
  le32 49 ++ le32 (if dump_rfx (caps p) then 0 else CARDP_CAPS_CAPTURE_NON_CAC) ++ le32 37 ++ le16 CBY_CAPS ++ le32 8 ++ le16 1 ++
  le16 CBY_CAPSET ++ le32 29 ++ [1] ++ le16 CLY_CAPSET ++ le16 2 ++ le16 8 ++
  icap_bytes (uint8 (rfx_codec_mode (caps p))) CLW_ENTROPY_RLGR1 ++ icap_bytes (uint8 (rfx_codec_mode (caps p))) CLW_ENTROPY_RLGR3.
Definition nsc_props (p : cap_settings) : list Z := if mode p then le32 0 else [1; 1; 3].
Definition jpeg_props (p : cap_settings) : list Z := if mode p then [75] else [jpeg_quality (caps p) mod 256].

Definition codec_id (p : cap_settings) (id : Z) : Z := if mode p then 0 else id.
Definition codec_if (b : bool) (bs : list Z) : list Z := if b then bs else [].
Definition codecs_body (p : cap_settings) : list Z :=
  let rfx := rfx_codec (score p) in let nsc := ns_codec (caps p) in let jpeg := jpeg_codec (caps p) in
  [Z.b2z rfx + Z.b2z nsc + Z.b2z jpeg] ++
  codec_if rfx (codec_bytes CODEC_GUID_REMOTEFX (codec_id p CODEC_ID_REMOTEFX) (rfx_props p)) ++
  codec_if nsc (codec_bytes CODEC_GUID_NSCODEC (codec_id p CODEC_ID_NSCODEC) (nsc_props p)) ++
  codec_if jpeg (codec_bytes CODEC_GUID_JPEG (codec_id p CODEC_ID_JPEG) (jpeg_props p)).

Lemma Writes_if (b : bool) w bs : Writes w bs tt -> Writes (if b then w else ret tt) (codec_if b bs) tt.
Proof. intros Hw. destruct b; [exact Hw|apply Writes_ret]. Qed.

Lemma Writes_codecs p : Writes (rdp_write_bitmap_codecs_capability_set p) (cap_bytes CAPSET_TYPE_BITMAP_CODECS (codecs_body p)) tt.
Proof.
  apply Writes_capability_set.
  2:{ unfold codecs_body, rfx_props, nsc_props, jpeg_props. destruct (rfx_codec _), (ns_codec _), (jpeg_codec _), (mode p); lens_lia. }
  eapply Writes_bind; [eapply Writes_eq; [apply Writes_uint8| |reflexivity]|].
  { destruct (rfx_codec _), (ns_codec _), (jpeg_codec _); reflexivity. }
  unfold rfx_props, nsc_props, jpeg_props, codec_id.
  eapply Writes_bind; [apply Writes_if|eapply Writes_bind; apply Writes_if].
  - apply Writes_codec; [unfold rdp_write_rfx_server_capability_container; wr| |split; discriminate || reflexivity].
    unfold rdp_write_rfx_client_capability_container, write_icap. eapply Writes_eq; [wr| |reflexivity]. reflexivity.
  - apply Writes_codec; [unfold rdp_write_nsc_server_capability_container; wr| |split; discriminate || reflexivity].
    unfold rdp_write_nsc_client_capability_container. eapply Writes_eq; [wr| |reflexivity]. reflexivity.
  - apply Writes_codec; [| |split; discriminate || reflexivity].
    + unfold rdp_write_jpeg_server_capability_container. eapply Writes_eq; [wr| |reflexivity]. reflexivity.
    + unfold rdp_write_jpeg_client_capability_container. eapply Writes_eq; [wr| |reflexivity]. reflexivity.
Qed.

Definition codecs_view (p st : cap_settings) : cap_settings :=
  if mode st then
    upd_core (fun c => c <| rfx_codec := rfx_codec (score p) |>)
      (upd_caps (fun c => c <| ns_codec := ns_codec (caps p) |>
         <| rfx_codec_id := if rfx_codec (score p) then codec_id p CODEC_ID_REMOTEFX else rfx_codec_id c |>
         <| ns_codec_id := if ns_codec (caps p) then codec_id p CODEC_ID_NSCODEC else ns_codec_id c |>) st)
  else st.

Lemma carries_codecs p : carries (rdp_write_bitmap_codecs_capability_set p) tt CAPSET_TYPE_BITMAP_CODECS 112 (codecs_view p).
Proof.
  exists (codecs_body p). split; [apply Writes_codecs|]. split; [|intros st].
  { unfold codecs_body, rfx_props, nsc_props, jpeg_props. destruct (rfx_codec _), (ns_codec _), (jpeg_codec _), (mode p); lens_lia. }
  match goal with |- Reads (read_set _ ?l ?s) _ _ => change (read_set _ l s) with (rdp_read_bitmap_codecs_capability_set l s) end.
  assert (H1 : len (rfx_props p) < 65536) by (unfold rfx_props; destruct (mode p); lens_lia).
  assert (H2 : len (nsc_props p) < 65536) by (unfold nsc_props; destruct (mode p); lens_lia).
  assert (H3 : len (jpeg_props p) < 65536) by (unfold jpeg_props; destruct (mode p); lens_lia).
  unfold rdp_read_bitmap_codecs_capability_set, codecs_body, codecs_view. cbv zeta. eapply Reads_bind; [apply Reads_uint8|].
  destruct (rfx_codec (score p)), (ns_codec (caps p)), (jpeg_codec (caps p)); destruct st as [[[]] [[]] []];
    cbn [Z.b2z Z.add Pos.add Pos.succ Z.to_nat Pos.to_nat Pos.iter_op Init.Nat.add read_codecs codec_if app mode server_mode conf];
    repeat first [ eapply Reads_last; [apply Reads_codec; [reflexivity|assumption]|]
                 | eapply Reads_bind; [apply Reads_codec; [reflexivity|assumption]|] ];
    (eapply Reads_eq; [apply Reads_ret|reflexivity|reflexivity]).
Qed.

(** ** Sets in sequence *)

Definition marked (type : Z) (st : cap_settings) : cap_settings :=
  upd_caps (fun c => c <| received_caps := <[Z.to_nat type := 1]> (received_caps c) |>) st.

(** The settings after a set of a type. *)
Definition seen (type : Z) (view : cap_settings -> cap_settings) (st : cap_settings) : cap_settings := view (marked type st).
Definition same (st : cap_settings) : cap_settings := st.

(** [w] writes [n] sets, of at most [b] bytes, after which a receiver goes on with
    the settings [view]. *)
Definition sends {A} (w : M STREAM A) (a : A) (n : nat) (b : Z) (view : cap_settings -> cap_settings) : Prop :=
  exists bs, Writes w bs a /\ len bs <= b /\
    forall st, len (received_caps (caps st)) = 32 ->
      len (received_caps (caps (view st))) = 32 /\
      forall tail m s, holds s (bs ++ tail) -> read_sets (n + m) st s = read_sets m (view st) (adv (len bs) s).

Lemma sends_ret {A} (a : A) : sends (ret a) a 0 0 same.
Proof.
  exists []. split; [apply Writes_ret|]. split; [reflexivity|]. intros st Hst. split; [exact Hst|].
  intros tail m s _. rewrite adv_0. reflexivity.
Qed.

Definition after (f g : cap_settings -> cap_settings) (st : cap_settings) : cap_settings := g (f st).

Lemma sends_bind {A B} (w : M STREAM A) (k : A -> M STREAM B) a b n m p q f g :
  sends w a n p f -> sends (k a) b m q g -> sends (bind w k) b (n + m) (p + q) (after f g).
Proof.
  intros (bs & Hw & Hp & Hf) (cs & Hk & Hq & Hg). exists (bs ++ cs).
  split; [eapply Writes_bind; eassumption|]. split; [rewrite len_app; lia|].
  intros st Hst. destruct (Hf st Hst) as [Hst' Hr]. destruct (Hg _ Hst') as [Hst'' Hr']. split; [exact Hst''|].
  intros tail j s Hs. rewrite <- app_assoc in Hs. destruct (holds_app _ _ _ Hs) as [_ Hs2].
  rewrite <- Nat.add_assoc, (Hr (cs ++ tail)) by exact Hs. rewrite (Hr' tail) by exact Hs2. rewrite adv_adv, len_app. reflexivity.
Qed.

Lemma sends_eq {A} (w : M STREAM A) a n b f n' b' f' :
  sends w a n b f -> n = n' -> b <= b' -> f = f' -> sends w a n' b' f'.
Proof. intros (bs & Hw & Hb & Hf) <- Hle <-. exists bs. split; [exact Hw|]. split; [lia|exact Hf]. Qed.

(** Reading the header of a set, and moving on to the next one whatever its
    reader did. *)
Lemma read_sets_one type body st st' tail m s : w16 type -> type < 32 -> 4 + len body < 65536 ->
  len (received_caps (caps st)) = 32 -> holds s (cap_bytes type body ++ tail) ->
  (forall s', holds s' (body ++ tail) -> exists j, read_set type (4 + len body) (marked type st) s' = Done (st', adv j s')) ->
  read_sets (S m) st s = read_sets m st' (adv (4 + len body) s).
Proof.
  intros Ht Ht' Hb Hl Hs Hread. pose proof (len_nonneg body). unfold cap_bytes in Hs. rewrite <- !app_assoc in Hs.
  destruct (holds_app _ _ _ Hs) as [H1 Hs1]. destruct (holds_app _ _ _ Hs1) as [H2 Hs2].
  change (len (le16 _)) with 2 in Hs1, H2, Hs2. rewrite adv_adv in Hs2. change (2 + 2) with 4 in Hs2.
  cbn [read_sets]. unfold bind at 1, get_pos. unfold rdp_read_capability_set_header. rewrite bind_assoc.
  rewrite (bind_Done _ _ _ _ _ (Reads_le16 type Ht _ H1)). change (len (le16 _)) with 2. rewrite bind_assoc.
  rewrite (bind_Done _ _ _ _ _ (Reads_le16 (4 + len body) ltac:(lia) _ H2)). change (len (le16 _)) with 2. rewrite bind_ret, adv_adv.
  change (2 + 2) with 4.
  assert (Em : receive_cap type st (adv 4 s) = Done (marked type st, adv 4 s)).
  { unfold receive_cap, elem_set. rewrite (proj2 (Z.leb_le 0 type)), (proj2 (Z.ltb_lt type _)) by (unfold w16 in Ht; lia). reflexivity. }
  rewrite (bind_Done _ _ _ _ _ Em). cbv zeta. unfold bind at 1, left_bytes.
  pose proof (holds_size _ _ Hs2) as Hz. rewrite len_app in Hz. pose proof (len_nonneg tail).
  rewrite (proj2 (Z.ltb_ge _ _)) by (unfold stream_get_left; lia).
  destruct (Hread _ Hs2) as [j Ej]. rewrite (bind_Done _ _ _ _ _ Ej). unfold bind at 1, stream_set_pos. reflexivity.
Qed.

Lemma sends_one {A} (w : M STREAM A) a type b view : carries w a type b view -> w16 type -> type < 32 -> b < 65000 ->
  (forall st, received_caps (caps (view st)) = received_caps (caps st)) ->
  sends w a 1 (4 + b) (seen type view).
Proof.
  intros (body & Hw & Hb & Hr) Ht Ht' Hb' Hv. exists (cap_bytes type body). split; [exact Hw|]. split; [rewrite len_cap_bytes; lia|].
  intros st Hst. split.
  { unfold seen. rewrite Hv. change (received_caps (caps (marked type st))) with (<[Z.to_nat type := 1]> (received_caps (caps st))).
    unfold len in *. rewrite length_insert. exact Hst. }
  intros tail m s Hs. rewrite len_cap_bytes. apply (read_sets_one type body st _ tail m s); auto; [lia|].
  intros s' Hs'. destruct (holds_app _ _ _ Hs') as [H1 _]. exists (len body). apply Hr, H1.
Qed.

(** How many sets an optional part has. *)
Definition sets_if (b : bool) (n : nat) : nat := if b then n else O.

Lemma sends_optional (b : bool) k (n : nat) m w p f : sends w tt n p f -> 0 <= p -> w16 (m + k) -> k = Z.of_nat n ->
  sends (optional_set b k w m) (m + Z.of_nat (sets_if b n)) (sets_if b n) p (if b then f else same).
Proof.
  intros Hw Hp Hm Hk. unfold optional_set, sets_if. destruct b.
  - apply (sends_eq _ _ (n + 0) (p + 0) (after f same)); [|lia|lia|reflexivity]. rewrite <- Hk.
    apply (sends_bind w (fun _ => ret (uint16 (m + k))) tt _ n 0 p 0 f same); [exact Hw|].
    replace (m + k) with (uint16 (m + k)) at 2 by (unfold uint16; apply Z.mod_small, Hm). apply sends_ret.
  - apply (sends_eq _ _ 0 0 same); [|reflexivity|exact Hp|reflexivity]. replace (m + Z.of_nat 0) with m by lia. apply sends_ret.
Qed.

(** *** The pointer set *)

(** Without large pointers the set ends before the field the reader takes the
    cache size from: it finds the type of the next set there. *)
Definition pointer_view (p st : cap_settings) : cap_settings :=
  upd_caps (fun c => c <| color_pointer := color_pointer (caps p) && color_pointer c |>
    <| pointer_cache_size := if mode st then if large_pointer (caps p) then pointer_cache_size (caps p) else CAPSET_TYPE_INPUT
                             else pointer_cache_size c |>) st.

Definition pointer_body (p : cap_settings) : list Z :=
  le16 (if color_pointer (caps p) then 1 else 0) ++ le16 (pointer_cache_size (caps p)) ++
  (if large_pointer (caps p) then le16 (pointer_cache_size (caps p)) else []).

Lemma Writes_pointer p : Writes (rdp_write_pointer_capability_set p) (cap_bytes CAPSET_TYPE_POINTER (pointer_body p)) tt.
Proof.
  apply Writes_capability_set; unfold pointer_body; [|destruct (large_pointer (caps p)); lens_lia].
  do 2 (eapply Writes_bind; [wr|]). destruct (large_pointer (caps p)); wr.
Qed.

Lemma Reads_pointer l (color : bool) x v st : w16 x -> w16 v ->
  Reads (rdp_read_pointer_capability_set l st) (le16 (if color then 1 else 0) ++ le16 x ++ le16 v)
    (upd_caps (fun c => c <| color_pointer := color && color_pointer c |>
                          <| pointer_cache_size := if mode st then v else pointer_cache_size c |>) st).
Proof.
  intros Hx Hv. assert (Hc : w16 (if color then 1 else 0)) by (destruct color; split; discriminate || reflexivity).
  unfold rdp_read_pointer_capability_set. rd. eapply Reads_eq; [apply Reads_ret|reflexivity|].
  destruct color, st as [[[]] [[]] []]; reflexivity.
Qed.

Lemma pointer_read p l st tail s : sendable_caps p -> holds s (pointer_body p ++ le16 CAPSET_TYPE_INPUT ++ tail) ->
  exists j, rdp_read_pointer_capability_set l st s = Done (pointer_view p st, adv j s).
Proof.
  intros [_ Hp _ _ _] Hs. unfold pointer_body, pointer_view in *.
  destruct (large_pointer (caps p)); cbn [app] in Hs; rewrite !app_assoc in Hs; [rewrite <- (app_assoc _ _ tail) in Hs|];
    destruct (holds_app _ _ _ Hs) as [H1 _]; rewrite <- app_assoc in H1; eexists;
    refine (Reads_pointer l (color_pointer (caps p)) _ _ st Hp _ s H1); [exact Hp|split; discriminate || reflexivity].
Qed.

Lemma received_marked type st : len (received_caps (caps (marked type st))) = len (received_caps (caps st)).
Proof.
  change (received_caps (caps (marked type st))) with (<[Z.to_nat type := 1]> (received_caps (caps st))).
  unfold len. rewrite length_insert. reflexivity.
Qed.

Lemma received_input p st : received_caps (caps (input_view p st)) = received_caps (caps st).
Proof. unfold input_view. destruct (mode st); same_settings. Qed.

(** The pointer set with the input set that always follows it. *)
Lemma sends_pointer_input {A} p (k : M STREAM A) a n b f : caps_ok p -> sendable_caps p -> sends k a n b f ->
  sends (rdp_write_pointer_capability_set p;; rdp_write_input_capability_set p;; k) a (2 + n) (98 + b)
    (after (seen CAPSET_TYPE_POINTER (pointer_view p)) (after (seen CAPSET_TYPE_INPUT (input_view p)) f)).
Proof.
  intros Hp Hs (cs & Hwk & Hbk & Hk). destruct (carries_input p Hp) as (body & Hw & Hb & Hr).
  assert (Hpl : 4 <= len (pointer_body p) <= 6) by (unfold pointer_body; destruct (large_pointer (caps p)); lens_lia).
  exists (cap_bytes CAPSET_TYPE_POINTER (pointer_body p) ++ cap_bytes CAPSET_TYPE_INPUT body ++ cs).
  split; [eapply Writes_bind; [apply Writes_pointer|eapply Writes_bind; eassumption]|].
  split; [rewrite !len_app, !len_cap_bytes; lia|]. intros st Hst.
  set (st1 := pointer_view p (marked CAPSET_TYPE_POINTER st)).
  assert (H1 : len (received_caps (caps st1)) = 32).
  { change (received_caps (caps st1)) with (received_caps (caps (marked CAPSET_TYPE_POINTER st))). rewrite received_marked. exact Hst. }
  destruct (Hk (input_view p (marked CAPSET_TYPE_INPUT st1))) as [H3 Hrest]; [rewrite received_input, received_marked; exact H1|].
  split; [exact H3|]. intros tail m s Hh. rewrite <- !app_assoc in Hh. destruct (holds_app _ _ _ Hh) as [_ Hh1].
  rewrite len_cap_bytes in Hh1. destruct (holds_app _ _ _ Hh1) as [_ Hh2]. rewrite len_cap_bytes, adv_adv in Hh2.
  change (2 + n + m)%nat with (S (S (n + m))).
  rewrite (read_sets_one CAPSET_TYPE_POINTER (pointer_body p) st st1 (cap_bytes CAPSET_TYPE_INPUT body ++ cs ++ tail));
    [|split; discriminate || reflexivity|reflexivity|lia|exact Hst|exact Hh|].
  2:{ intros s' Hs'. unfold cap_bytes in Hs'. rewrite <- app_assoc in Hs'. exact (pointer_read p _ _ _ s' Hs Hs'). }
  pose proof (len_nonneg body).
  rewrite (read_sets_one CAPSET_TYPE_INPUT body st1 (input_view p (marked CAPSET_TYPE_INPUT st1)) (cs ++ tail));
    [|split; discriminate || reflexivity|reflexivity|lia|exact H1|exact Hh1|].
  2:{ intros s' Hs'. destruct (holds_app _ _ _ Hs') as [Ha _]. exists (len body). apply Hr, Ha. }
  rewrite adv_adv, (Hrest tail) by exact Hh2. rewrite adv_adv, !len_app, !len_cap_bytes. do 2 f_equal. lia.
Qed.

(** ** The sets of a PDU *)

(** What a client makes of a demand active PDU of [p]. *)
Definition demand_views (p : cap_settings) : list (cap_settings -> cap_settings) :=
  [ seen CAPSET_TYPE_GENERAL (general_view p); seen CAPSET_TYPE_BITMAP (bitmap_view p); seen CAPSET_TYPE_ORDER (order_view p);
    seen CAPSET_TYPE_POINTER (pointer_view p); seen CAPSET_TYPE_INPUT (input_view p);
    seen CAPSET_TYPE_VIRTUAL_CHANNEL (channel_view p);
    seen CAPSET_TYPE_BITMAP_CACHE_HOST_SUPPORT (upd_caps (fun c => c <| persistent_bitmap_cache := true |>));
    seen CAPSET_TYPE_SHARE same; seen CAPSET_TYPE_FONT same;
    seen CAPSET_TYPE_MULTI_FRAGMENT_UPDATE
      (upd_caps (fun c => c <| multifrag_max_request_size := multifrag_max_request_size (caps p) |>));
    seen CAPSET_TYPE_LARGE_POINTER same; seen CAPSET_TYPE_COMP_DESK same;
    seen CAPSET_TYPE_SURFACE_COMMANDS (upd_caps (fun c => c <| surface_commands := true |>));
    seen CAPSET_TYPE_BITMAP_CODECS (codecs_view p) ].
Definition views (l : list (cap_settings -> cap_settings)) (st : cap_settings) : cap_settings := fold_left (fun st f => f st) l st.
Definition demand_view (p : cap_settings) : cap_settings -> cap_settings := views (demand_views p).

Lemma switched_ok p : caps_ok p -> caps_ok (switched p).
Proof. unfold switched. destruct (mode p); [|auto]. intros []. split; assumption. Qed.

Lemma switched_sendable p : sendable_caps p -> sendable_caps (switched p).
Proof. unfold switched. destruct (mode p); [|auto]. intros []. split; assumption. Qed.

Ltac keeps_received := intros st; unfold general_view, bitmap_view, order_view, channel_view, glyph_view, codecs_view; cbv zeta;
  repeat match goal with |- context [if ?b then _ else _] => destruct b end; same_settings.
Ltac set_of H := apply sends_one; [apply H; assumption|split; discriminate || reflexivity|reflexivity|reflexivity|keeps_received].
Ltac next_set H := eapply sends_bind; [set_of H|].

Lemma sends_demand p : caps_ok p -> sendable_caps p ->
  sends (demand_active_sets p) (14, switched p) 14 700 (demand_view (switched p)).
Proof.
  intros Hp Hs. pose proof (switched_ok p Hp) as Hp'. pose proof (switched_sendable p Hs) as Hs'.
  unfold demand_active_sets. eapply sends_eq.
  - next_set carries_general. set (q := switched p) in *.
    next_set carries_bitmap. next_set carries_order. apply sends_pointer_input; [assumption..|].
    next_set carries_virtual_channel. next_set carries_cache_host_support. next_set carries_share. next_set carries_font.
    next_set carries_multifragment. next_set carries_large_pointer. next_set carries_desktop_composition.
    next_set carries_surface. next_set carries_codecs. apply sends_ret.
  - reflexivity.
  - lia.
  - unfold after, demand_view, views, demand_views, same. cbn [fold_left]. reflexivity.
Qed.

(** Whether [p] has received a set of the type. *)
Definition received_of (type : Z) (p : cap_settings) : bool := negb (nth (Z.to_nat type) (received_caps (caps p)) 0 =? 0).

Lemma sends_has_received type p : len (received_caps (caps p)) = 32 -> 0 <= type < 32 ->
  sends (has_received type p) (received_of type p) 0 0 same.
Proof.
  intros Hl Ht. unfold has_received, received_of, elem. rewrite (proj2 (Z.leb_le 0 type)) by lia.
  destruct (lookup_lt_is_Some_2 (received_caps (caps p)) (Z.to_nat type)) as [v E]; [unfold len in Hl; lia|].
  rewrite E, (nth_lookup_Some _ _ _ _ E). apply sends_ret.
Qed.

(** Which optional sets [p] sends. *)
Definition sends_large_pointer (p : cap_settings) : bool := received_of CAPSET_TYPE_LARGE_POINTER p && large_pointer (caps p).
Definition sends_frame_ack (p : cap_settings) : bool :=
  received_of CAPSET_TYPE_FRAME_ACKNOWLEDGE p && negb (frame_acknowledge (conf p) =? 0).
Definition sends_v3_codec (p : cap_settings) : bool := received_of 6 p && negb (v3_codec_id (caps p) =? 0).

Definition offscreen_view (p : cap_settings) : cap_settings -> cap_settings :=
  upd_caps (fun c => c <| offscreen_bitmap_cache_size := offscreen_bitmap_cache_size (caps p) |>
       <| offscreen_bitmap_cache_entries := offscreen_bitmap_cache_entries (caps p) |>
       <| offscreen_bitmap_cache := offscreen_bitmap_cache (caps p) || offscreen_bitmap_cache c |>).
Definition multifrag_view (p : cap_settings) : cap_settings -> cap_settings :=
  upd_caps (fun c => c <| multifrag_max_request_size := multifrag_max_request_size (caps p) |>).
Definition sound_view (p : cap_settings) : cap_settings -> cap_settings :=
  upd_caps (fun c => c <| sound_beeps := sound_beeps (caps p) |>).
Definition cache_type (p : cap_settings) : Z :=
  if 5 <=? rdp_version (score p) then CAPSET_TYPE_BITMAP_CACHE_V2 else CAPSET_TYPE_BITMAP_CACHE.

(** What a server makes of a confirm active PDU of [p]. *)
Definition confirm_views (p : cap_settings) : list (cap_settings -> cap_settings) :=
  [ seen CAPSET_TYPE_GENERAL (general_view p); seen CAPSET_TYPE_BITMAP (bitmap_view p); seen CAPSET_TYPE_ORDER (order_view p);
    seen (cache_type p) same; seen CAPSET_TYPE_POINTER (pointer_view p); seen CAPSET_TYPE_INPUT (input_view p);
    seen CAPSET_TYPE_BRUSH same; seen CAPSET_TYPE_GLYPH_CACHE (glyph_view p); seen CAPSET_TYPE_VIRTUAL_CHANNEL (channel_view p);
    seen CAPSET_TYPE_SOUND (sound_view p); seen CAPSET_TYPE_SHARE same; seen CAPSET_TYPE_FONT same; seen CAPSET_TYPE_CONTROL same;
    seen CAPSET_TYPE_COLOR_CACHE same; seen CAPSET_TYPE_ACTIVATION same;
    if offscreen_bitmap_cache (caps p) then seen CAPSET_TYPE_OFFSCREEN_CACHE (offscreen_view p) else same;
    if sends_large_pointer p then seen CAPSET_TYPE_LARGE_POINTER same else same;
    if remote_app (info p) then after (seen CAPSET_TYPE_RAIL same) (seen CAPSET_TYPE_WINDOW same) else same;
    if received_of CAPSET_TYPE_MULTI_FRAGMENT_UPDATE p then seen CAPSET_TYPE_MULTI_FRAGMENT_UPDATE (multifrag_view p) else same;
    if received_of CAPSET_TYPE_SURFACE_COMMANDS p
    then seen CAPSET_TYPE_SURFACE_COMMANDS (upd_caps (fun c => c <| surface_commands := true |>)) else same;
    if received_of CAPSET_TYPE_BITMAP_CODECS p then seen CAPSET_TYPE_BITMAP_CODECS (codecs_view p) else same;
    if sends_frame_ack p then seen CAPSET_TYPE_FRAME_ACKNOWLEDGE same else same;
    if sends_v3_codec p then seen 6 same else same ].
Definition confirm_view (p : cap_settings) : cap_settings -> cap_settings := views (confirm_views p).

Definition confirm_count (p : cap_settings) : nat :=
  (15 + sets_if (offscreen_bitmap_cache (caps p)) 1 + sets_if (sends_large_pointer p) 1 + sets_if (remote_app (info p)) 2 +
   sets_if (received_of CAPSET_TYPE_MULTI_FRAGMENT_UPDATE p) 1 + sets_if (received_of CAPSET_TYPE_SURFACE_COMMANDS p) 1 +
   sets_if (received_of CAPSET_TYPE_BITMAP_CODECS p) 1 + sets_if (sends_frame_ack p) 1 + sets_if (sends_v3_codec p) 1)%nat.

Lemma sets_if_le b n : (sets_if b n <= n)%nat.
Proof. destruct b; cbn; lia. Qed.

Lemma sends_cache p : caps_ok p -> sendable_caps p ->
  sends (if 5 <=? rdp_version (score p) then rdp_write_bitmap_cache_v2_capability_set p else rdp_write_bitmap_cache_capability_set p)
    tt 1 (4 + 36) (seen (cache_type p) same).
Proof.
  intros Hp Hs. unfold cache_type. destruct (5 <=? rdp_version (score p)).
  - set_of carries_cache_v2.
  - set_of carries_cache.
Qed.

Ltac count_small := unfold w16; repeat match goal with |- context [sets_if ?b ?n] => pose proof (sets_if_le b n); generalize dependent (sets_if b n); intros end; lia.
Ltac optional_of H := eapply sends_bind; [apply sends_optional; [set_of H|lia|count_small|reflexivity]|].
Ltac received_next := eapply sends_bind; [apply sends_has_received; [apply ok_received; assumption|lens_lia]|].

Lemma confirm_count_eq p : Z.of_nat (confirm_count p) =
  15 + Z.of_nat (sets_if (offscreen_bitmap_cache (caps p)) 1) + Z.of_nat (sets_if (sends_large_pointer p) 1) +
  Z.of_nat (sets_if (remote_app (info p)) 2) + Z.of_nat (sets_if (received_of CAPSET_TYPE_MULTI_FRAGMENT_UPDATE p) 1) +
  Z.of_nat (sets_if (received_of CAPSET_TYPE_SURFACE_COMMANDS p) 1) +
  Z.of_nat (sets_if (received_of CAPSET_TYPE_BITMAP_CODECS p) 1) + Z.of_nat (sets_if (sends_frame_ack p) 1) +
  Z.of_nat (sets_if (sends_v3_codec p) 1).
Proof. unfold confirm_count. lia. Qed.

Lemma sends_confirm p : caps_ok p -> sendable_caps p ->
  sends (confirm_active_sets p) (Z.of_nat (confirm_count (switched p)), switched p) (confirm_count (switched p)) 900
    (confirm_view (switched p)).
Proof.
  intros Hp Hs. pose proof (switched_ok p Hp) as Hp'. pose proof (switched_sendable p Hs) as Hs'.
  unfold confirm_active_sets. eapply sends_eq.
  - next_set carries_general. rewrite confirm_count_eq. set (q := switched p) in *. cbv zeta.
    next_set carries_bitmap. next_set carries_order. eapply sends_bind; [apply sends_cache; assumption|].
    apply sends_pointer_input; [assumption..|].
    next_set carries_brush. next_set carries_glyph. next_set carries_virtual_channel. next_set carries_sound. next_set carries_share.
    next_set carries_font. next_set carries_control. next_set carries_color_cache. next_set carries_activation.
    optional_of carries_offscreen. received_next. optional_of carries_large_pointer.
    eapply sends_bind; [apply sends_optional; [next_set carries_remote_programs; set_of carries_window_list|lia|count_small|reflexivity]|].
    received_next. optional_of carries_multifragment. received_next. optional_of carries_surface.
    received_next. optional_of carries_codecs. received_next. optional_of carries_frame_acknowledge.
    received_next. optional_of carries_v3_codec. apply sends_ret.
  - unfold confirm_count, sends_large_pointer, sends_frame_ack, sends_v3_codec. change (1 + 1)%nat with 2%nat. lia.
  - lia.
  - unfold after, confirm_view, views, confirm_views, same. cbn [fold_left]. reflexivity.
Qed.

(** ** What keeps settings well-formed *)

Lemma without_orders_ok peer : forall own, is_bytes own ->
  len (without_orders peer own) = len own /\ is_bytes (without_orders peer own).
Proof.
  induction peer as [|x peer IH]; intros own Ho; [auto|]. destruct own as [|o own]; [auto|].
  apply Forall_cons in Ho as [Ho1 Ho2]. destruct (IH own Ho2) as [Hl Hb]. cbn [without_orders]. rewrite !len_cons, Hl.
  split; [reflexivity|]. apply Forall_cons. split; [destruct (x =? 0); [split; lia|exact Ho1]|exact Hb].
Qed.

Ltac caps_ok_by H := destruct H as [? ? ? ? ? [? ?] ? ? ? [? ?] [? ?] [? ?] ? (? & ? & ?) (? & ? & ? & ?)]; split; cbn; auto.

Lemma marked_ok type st : caps_ok st -> caps_ok (marked type st).
Proof. intros []. split; try assumption. rewrite received_marked. assumption. Qed.

(** ** Claims *)

(** The header of a set of a type there is a flag for. *)
Lemma set_header_run type length st n s : holds s (le16 type ++ le16 length) -> w16 type -> w16 length ->
  read_sets (S n) st s
  = (let! settings := receive_cap type st in
     let! avail := left_bytes in
     if avail <? length - 4 then ret (false, settings) else
     let! settings := read_set type length settings in
     stream_set_pos (s_p s + length);;
     read_sets n settings) (adv 4 s).
Proof.
  intros Hs Ht Hl. destruct (holds_app _ _ _ Hs) as [H1 H2]. change (len (le16 _)) with 2 in H2.
  cbn [read_sets]. unfold bind at 1, get_pos. unfold rdp_read_capability_set_header. rewrite bind_assoc.
  rewrite (bind_Done _ _ _ _ _ (Reads_le16 type Ht _ H1)). change (len (le16 _)) with 2. rewrite bind_assoc.
  rewrite (bind_Done _ _ _ _ _ (Reads_le16 length Hl _ H2)), bind_ret, adv_adv. reflexivity.
Qed.

(** C20. The two ways in which reading capability sets goes wrong at a header. A
    set that announces more bytes than the packet has left is refused, and only
    its type is noted. A type of 32 or more is noted without a check, behind the
    end of [received_caps]: the write leaves the array. *)
Theorem capability_header_errors st n type length s : caps_ok st -> 0 < n -> w16 type -> w16 length ->
  holds s (le16 type ++ le16 length) ->
  (type < 32 -> stream_get_left s < length ->
     rdp_read_capability_sets st n s = Done ((false, marked type st), adv 4 s)) /\
  (32 <= type -> rdp_read_capability_sets st n s = Fault OutOfBounds).
Proof.
  intros Hst Hn Ht Hl Hs. unfold rdp_read_capability_sets. replace (Z.to_nat n) with (S (Z.to_nat (n - 1))) by lia.
  rewrite (set_header_run type length) by assumption. pose proof (ok_received _ Hst) as Hr. unfold w16 in Ht.
  split; intros Htype; [intros Hleft|]; unfold receive_cap, elem_set; rewrite (proj2 (Z.leb_le 0 type)) by lia.
  - rewrite (proj2 (Z.ltb_lt type _)) by lia. cbn [andb]. rewrite bind_assoc, bind_ret, bind_ret.
    unfold bind at 1, left_bytes. rewrite (proj2 (Z.ltb_lt _ _)); [reflexivity|].
    unfold stream_get_left in *. cbn [adv set_p s_size s_p]. lia.
  - rewrite (proj2 (Z.ltb_ge type _)) by lia. reflexivity.
Qed.

(** ** Witnesses *)

Definition sample_caps : capabilities :=
  mkCaps true true true true 4 7 true true true true (replicate 32 0) (replicate 22 1 ++ replicate 10 0) true 65535 true 0 0 0 false 75
    0 false 3 12 true true true 20 true false 5 (replicate 6 (mkCell 600 false)) true 7680 100 2 (replicate 10 (mkGlyphCache 254 4))
    (mkGlyphCache 256 4) false 2560 256 false false false false.
Definition sample_settings (server : bool) : cap_settings := mkCapSettings (toy_conf server true) (sample_info None 0) sample_caps.

Lemma sample_settings_ok server : caps_ok (sample_settings server) /\ sendable_caps (sample_settings server).
Proof.
  split; (split; [repeat (apply Forall_cons_2; [split; discriminate || reflexivity|]); apply Forall_nil_2 || (vm_compute; intuition congruence)..]).
Qed.

Lemma capability_header_errors_witness :
  rdp_read_capability_sets (sample_settings false) 1 (mkSTREAM 4 0 (le16 CAPSET_TYPE_BRUSH ++ le16 8))
    = Done ((false, marked CAPSET_TYPE_BRUSH (sample_settings false)), mkSTREAM 4 4 (le16 CAPSET_TYPE_BRUSH ++ le16 8)) /\
  rdp_read_capability_sets (sample_settings false) 1 (mkSTREAM 4 0 (le16 77 ++ le16 4)) = Fault OutOfBounds.
Proof.
  assert (Hbrush : holds (mkSTREAM 4 0 (le16 CAPSET_TYPE_BRUSH ++ le16 8)) (le16 CAPSET_TYPE_BRUSH ++ le16 8))
    by (apply (holds_start 4 (le16 CAPSET_TYPE_BRUSH ++ le16 8) []); lens_lia).
  assert (Hbig : holds (mkSTREAM 4 0 (le16 77 ++ le16 4)) (le16 77 ++ le16 4))
    by (apply (holds_start 4 (le16 77 ++ le16 4) []); lens_lia).
  split.
  - refine (proj1 (capability_header_errors (sample_settings false) 1 CAPSET_TYPE_BRUSH 8 _ (proj1 (sample_settings_ok false)) _ _ _ Hbrush) _ _);
      try reflexivity; split; discriminate || reflexivity.
  - refine (proj2 (capability_header_errors (sample_settings false) 1 77 4 _ (proj1 (sample_settings_ok false)) _ _ _ Hbig) _);
      try reflexivity; try discriminate; split; discriminate || reflexivity.
Defined.
