(* ===== verification/Connect.v ===== *)
(** The connection sequence: [libfreerdp-core/connection.c]. The steps by which a
    client and a server go through the phases of a connection, each with the
    PDU it receives, the PDUs it sends and the state it leaves. *)

From coqutil Require Import Datatypes.RecordSetters.
From S2P Require Import Prelude.
From S2P Require Import Stream.
From S2P Require Import Settings.
From S2P Require Import Mppc.
From S2P Require Import Per.
From S2P Require Import X224.
From S2P Require Import Transport.
From S2P Require Import Mcs.
From S2P Require Import Nego.
From S2P Require Import Security.
From S2P Require Import Rsa.
From S2P Require Import Certificate.
From S2P Require Import Input.
From S2P Require Import Gcc.
From S2P Require Import GccClient.
From S2P Require Import GccServer.
From S2P Require Import Fastpath.
From S2P Require Import Rdp.
From S2P Require Import Channel.
From S2P Require Import Poll.
From S2P Require Import Info.
From S2P Require Import License.
Import TriangleBracketNotations.

Definition CONNECTION_STATE_INITIAL : Z := 0.
Definition CONNECTION_STATE_MCS_CONNECT : Z := 2.
Definition CONNECTION_STATE_MCS_ERECT_DOMAIN : Z := 3.
Definition CONNECTION_STATE_ESTABLISH_KEYS : Z := 6.
Definition SEC_EXCHANGE_PKT : Z := 0x0001.

(** ** State *)

(** What the steps keep beside the fields of [rdpRdp]: the MCS module, the
    settings and the license. *)
Record connection : Type := mkConn {
  cn_mcs : rdpMcs;
  user_channel_joined : bool;
  global_channel_joined : bool;
  cn_settings : info_settings;
  secure_checksum : bool;
  cn_license : rdpLicense;
}.

(** It is a part of the state the handlers of PDUs work on. *)
Class Modules (U : Type) : Type := {
  conn_of : U -> connection;
  put_conn : connection -> U -> U;
  conn_put : forall c u, conn_of (put_conn c u) = c;
  put_put : forall c c' u, put_conn c (put_conn c' u) = put_conn c u;
}.

Definition set_core (s : rdp_settings) (c : connection) : connection :=
  c <| cn_settings := (cn_settings c) <| core := s |> |>.
Definition conn_core (c : connection) : rdp_settings := core (cn_settings c).

Section connection.
Context {N U : Type} `{Link N} `{Crypto} `{Bignum} `{PduHandlers U} `{Modules U}.

Abbreviation RM := (RM (N := N) (U := U)).

Definition with_method (m : Z) (r : fpRdp N) : fpRdp N :=
  mkFpRdp (fp_transport r) (fp_sec r) (fp_do_crypt r) (fp_do_secure_checksum r) (fp_sec_flags r) m.
Definition with_crypt (checksum : bool) (r : fpRdp N) : fpRdp N :=
  mkFpRdp (fp_transport r) (fp_sec r) true (checksum || fp_do_secure_checksum r) (fp_sec_flags r) (fp_encryption_method r).

(** The copies of the settings and of the user id that [rdpRdp] holds. *)
Definition conn_conf (c : connection) (conf : rdpConf) : rdpConf :=
  let st := conn_core c in
  mkConf (server_mode conf) (Gcc.encryption st) (user_id (cn_mcs c)) (share_id conf) (pdu_source conf)
    (map (fun ch => mkChannel (channel_id ch) (options ch)) (take (Z.to_nat (num_channels st)) (Gcc.channels st)))
    (vc_chunk_size conf) (frame_acknowledge conf).
Definition with_conn (c : connection) (r : rdpRdp N U) : rdpRdp N U :=
  with_update (put_conn c (r_update (rdp_rx r)))
    (with_conf (conn_conf c (rdp_conf r)) (with_out (with_method (Gcc.encryption_method (conn_core c)) (rdp_out r)) r)).

Definition rdp_conn (r : rdpRdp N U) : connection := conn_of (r_update (rdp_rx r)).
Definition conn : RM connection := fun x => Done (rdp_conn (snd x), x).
Definition conn_upd (f : connection -> connection) : RM unit := fun x => Done (tt, (fst x, with_conn (f (rdp_conn (snd x))) (snd x))).
Definition set_state (v : Z) : RM unit := rdp_upd (with_state v).
Definition mcs_out {A} (c : M (rdpTransport N) A) : RM A := out_of (on_fp_transport c).

(** ** Session keys *)

(** [beyond] is the byte behind the random numbers on the stack. *)
Definition establish_session (beyond : Z) (client_random : list Z) : RM bool :=
  let! c := conn in
  let! rdp := rdp_of in
  let st := conn_core c in
  let! ok := sec_of (rdp_establish_ciphers beyond (Gcc.encryption_method st) (server_mode (rdp_conf rdp)) client_random (server_random st)) in
  if negb ok then ret false else
  rdp_upd (fun r => with_out (with_crypt (secure_checksum c) (rdp_out r)) r);;
  ret true.

(** [nonce] are the random bytes drawn. *)
Definition rdp_client_establish_keys (beyond : Z) (nonce : list Z) : RM bool :=
  let! c := conn in
  let! rdp := rdp_of in
  let st := conn_core c in
  if negb (Gcc.encryption st) then ret true else
  let info := cert_info (server_cert st) in
  let key_len := len (modulus info) in
  let! crypt_client_random := crypto_rsa_public_encrypt nonce CLIENT_RANDOM_LENGTH key_len (modulus info) (exponent info)
                                (replicate 264 0) in
  let length := uint32 (RDP_PACKET_HEADER_MAX_LENGTH + RDP_SECURITY_HEADER_LENGTH + 4 + key_len + 8) in
  mcs_out (transport_send_stream_init length);;
  out_of (rdp_write_header (rdp_conf rdp) (uint16 length) MCS_GLOBAL_CHANNEL_ID);;
  out_of (on_stream (rdp_write_security_header SEC_EXCHANGE_PKT));;
  let length := uint32 (key_len + 8) in
  out_of (on_stream (stream_write_uint32 length));;
  out_of (on_stream (let! data := array_prefix crypt_client_random length in stream_write data));;
  let! status := mcs_out transport_send in
  if status <? 0 then ret false else
  establish_session beyond nonce.

(** [junk] is what the array for the decrypted number holds before. *)
Definition rdp_server_establish_keys (beyond : Z) (junk : list Z) : RM bool :=
  let! c := conn in
  let st := conn_core c in
  if negb (Gcc.encryption st) then ret true else
  let! (ok, _, _) := rdp_read_header in
  if negb ok then ret false else
  let! sec_flags := pkt rdp_read_security_header in
  if Z.land sec_flags SEC_EXCHANGE_PKT =? 0 then ret false else
  let! rand_len := pkt stream_read_uint32 in
  let! key := use (server_key st) in
  let key_len := len (k_modulus key) in
  if negb (rand_len =? uint32 (key_len + 8)) then ret false else
  let! data := pkt (stream_read rand_len) in
  let! crypt_client_random := mem_put 0 data (replicate 264 0) in
  pkt (stream_seek 8);;
  let! client_random := crypto_rsa_private_decrypt crypt_client_random (rand_len - 8) key_len (k_modulus key)
                          (private_exponent key) junk in
  establish_session beyond client_random.

(** ** The client *)

Definition conn_mcs (m : rdpMcs) (c : connection) : connection := c <| cn_mcs := m |>.

(** The connect response also changes the settings. *)
Definition rdp_client_connect_mcs_connect_response : RM bool :=
  let! c := conn in
  let! (ok, m, st) := pkt (mcs_recv_connect_response gcc_read_conference_create_response (cn_mcs c) (conn_core c)) in
  conn_upd (fun c => conn_mcs m (set_core st c));;
  if negb ok then ret false else
  let! ok := mcs_out mcs_send_erect_domain_request in
  if negb ok then ret false else
  let! ok := mcs_out mcs_send_attach_user_request in
  if negb ok then ret false else
  set_state CONNECTION_STATE_MCS_ATTACH_USER;;
  ret true.

Definition rdp_client_connect_mcs_attach_user_confirm : RM bool :=
  let! c := conn in
  let! (ok, m) := pkt (mcs_recv_attach_user_confirm (cn_mcs c)) in
  conn_upd (conn_mcs m);;
  if negb ok then ret false else
  let! ok := mcs_out (mcs_send_channel_join_request m (user_id m)) in
  if negb ok then ret false else
  set_state CONNECTION_STATE_MCS_CHANNEL_JOIN;;
  ret true.

Definition set_joined (ch : rdp_channel) : rdp_channel := ch <| joined := true |>.

(** The first channel that is not joined becomes so, unless it is another one
    than the one confirmed; returns its index. *)
Fixpoint join_first (fuel : nat) (id i n : Z) (chans : list rdp_channel) : RM (option (Z * list rdp_channel)) :=
  match fuel with
  | O => fail Diverges
  | S fuel' =>
      if negb (i <? n) then ret (Some (i, chans)) else
      let! ch := elem chans i in
      if joined ch then join_first fuel' id (i + 1) n chans else
      if negb (channel_id ch =? id) then ret None else
      let! chans := elem_set i (set_joined ch) chans in
      ret (Some (i, chans))
  end.

Definition set_channels (chans : list rdp_channel) (c : connection) : connection :=
  set_core ((conn_core c) <| Gcc.channels := chans |>) c.

(** Which channel was confirmed; returns whether that is right, and whether it
    was the last one. *)
Definition join_confirmed (id : Z) : RM (bool * bool) :=
  let! c := conn in
  let st := conn_core c in
  let m := cn_mcs c in
  if negb (user_channel_joined c) then
    if negb (id =? user_id m) then ret (false, true) else
    conn_upd (fun c => c <| user_channel_joined := true |>);;
    let! ok := mcs_out (mcs_send_channel_join_request m MCS_GLOBAL_CHANNEL_ID) in
    ret (ok, true)
  else if negb (global_channel_joined c) then
    if negb (id =? MCS_GLOBAL_CHANNEL_ID) then ret (false, true) else
    conn_upd (fun c => c <| global_channel_joined := true |>);;
    if 0 <? num_channels st then
      let! ch := elem (Gcc.channels st) 0 in
      let! ok := mcs_out (mcs_send_channel_join_request m (channel_id ch)) in
      ret (ok, false)
    else ret (true, true)
  else
    let! found := join_first (S (Z.to_nat (num_channels st))) id 0 (num_channels st) (Gcc.channels st) in
    match found with
    | None => ret (false, true)
    | Some (i, chans) =>
        conn_upd (set_channels chans);;
        if i + 1 <? num_channels st then
          let! ch := elem chans (i + 1) in
          let! ok := mcs_out (mcs_send_channel_join_request m (channel_id ch)) in
          ret (ok, false)
        else ret (true, true)
    end.

Definition rdp_client_connect_mcs_channel_join_confirm (beyond : Z) (nonce : list Z) (local : local_time) : RM bool :=
  let! (ok, id) := pkt mcs_recv_channel_join_confirm in
  if negb ok then ret false else
  let! id := use id in
  let! (ok, all_joined) := join_confirmed id in
  if negb ok then ret false else
  let! c := conn in
  if user_channel_joined c && global_channel_joined c && all_joined then
    let! ok := rdp_client_establish_keys beyond nonce in
    if negb ok then ret false else
    let! rdp := rdp_of in
    let! (ok, st) := out_of (rdp_send_client_info (rdp_conf rdp) local (cn_settings c)) in
    conn_upd (fun c => c <| cn_settings := st |>);;
    if negb ok then ret false else
    set_state CONNECTION_STATE_LICENSE;;
    ret true
  else ret true.

Definition rdp_client_connect_license (mac_address : list Z) : RM bool :=
  let! c := conn in
  let st := cn_settings c in
  let! (ok, lic) := license_recv mac_address (username st) (client_hostname (core st)) (cn_license c) in
  conn_upd (fun c => c <| cn_license := lic |>);;
  if negb ok then ret false else
  if decide (l_state lic = LICENSE_STATE_ABORTED) then ret false else
  (if decide (l_state lic = LICENSE_STATE_COMPLETED) then set_state CONNECTION_STATE_CAPABILITY else ret tt);;
  ret true.

(** ** The server *)

(** [nonce] is the random number of the server. *)
Definition rdp_server_accept_mcs_connect_initial (nonce : list Z) : RM bool :=
  let! c := conn in
  let! (ok, m, st) := pkt (mcs_recv_connect_initial gcc_read_conference_create_request (cn_mcs c) (conn_core c)) in
  conn_upd (fun c => conn_mcs m (set_core st c));;
  if negb ok then ret false else
  let! (ok, m, st) := mcs_out (mcs_send_connect_response (gcc_write_server_data_blocks nonce st) gcc_write_conference_create_response m) in
  conn_upd (fun c => conn_mcs m (set_core st c));;
  if negb ok then ret false else
  set_state CONNECTION_STATE_MCS_CONNECT;;
  ret true.

Definition rdp_server_accept_mcs_erect_domain_request : RM bool :=
  let! ok := pkt mcs_recv_erect_domain_request in
  if negb ok then ret false else
  set_state CONNECTION_STATE_MCS_ERECT_DOMAIN;;
  ret true.

Definition rdp_server_accept_mcs_attach_user_request : RM bool :=
  let! ok := pkt mcs_recv_attach_user_request in
  if negb ok then ret false else
  let! c := conn in
  let! (ok, m) := mcs_out (mcs_send_attach_user_confirm (cn_mcs c)) in
  conn_upd (conn_mcs m);;
  if negb ok then ret false else
  set_state CONNECTION_STATE_MCS_ATTACH_USER;;
  ret true.

(** Marks the channel with the id as joined and returns whether all are. *)
Fixpoint join_matching (fuel : nat) (id i n : Z) (chans : list rdp_channel) : RM (bool * list rdp_channel) :=
  match fuel with
  | O => fail Diverges
  | S fuel' =>
      if negb (i <? n) then ret (true, chans) else
      let! ch := elem chans i in
      let! chans := (if channel_id ch =? id then elem_set i (set_joined ch) chans else ret chans) in
      let! ch := elem chans i in
      let! (all, chans) := join_matching fuel' id (i + 1) n chans in
      ret (joined ch && all, chans)
  end.

Definition rdp_server_accept_mcs_channel_join_request : RM bool :=
  let! c := conn in
  let m := cn_mcs c in
  let! (ok, id) := pkt (mcs_recv_channel_join_request m) in
  if negb ok then ret false else
  let! id := use id in
  let! ok := mcs_out (mcs_send_channel_join_confirm m id) in
  if negb ok then ret false else
  conn_upd (fun c => if id =? user_id m then c <| user_channel_joined := true |>
                     else if id =? MCS_GLOBAL_CHANNEL_ID then c <| global_channel_joined := true |> else c);;
  let st := conn_core c in
  let! (all_joined, chans) := join_matching (S (Z.to_nat (num_channels st))) id 0 (num_channels st) (Gcc.channels st) in
  conn_upd (set_channels chans);;
  let! c := conn in
  (if user_channel_joined c && global_channel_joined c && all_joined
   then set_state CONNECTION_STATE_MCS_CHANNEL_JOIN else ret tt);;
  ret true.

Definition rdp_server_accept_client_keys (beyond : Z) (junk : list Z) : RM bool :=
  let! ok := rdp_server_establish_keys beyond junk in
  if negb ok then ret false else
  set_state CONNECTION_STATE_ESTABLISH_KEYS;;
  ret true.

Definition rdp_server_accept_client_info : RM bool :=
  let! c := conn in
  let! (ok, st) := rdp_recv_client_info (cn_settings c) in
  conn_upd (fun c => c <| cn_settings := st |>);;
  if negb ok then ret false else
  let! rdp := rdp_of in
  let! ok := out_of (license_send_valid_client_error_packet (rdp_conf rdp) (cn_license c)) in
  if negb ok then ret false else
  set_state CONNECTION_STATE_LICENSE;;
  ret true.
End connection.

(** ** Parties *)

Section parties.
Context {N U : Type} (l : TRANSPORT_LAYER) `{HLink : LinkLaws N l} `{HC : Crypto} `{HB : Bignum} `{HH : PduHandlers U}
  `{HM : Modules U}.

(** A module in the middle of the sequence: its mode and connection, the state
    it is in, and the keys it has. *)
Record party (mode : bool) (c : connection) (st : Z) (k : rdpSec) (crypt : bool) (r : rdpRdp N U) : Prop := {
  pt_conn : rdp_conn r = c;
  pt_state : rdp_state r = st;
  pt_mode : server_mode (rdp_conf r) = mode;
  pt_conf : conn_conf c (rdp_conf r) = rdp_conf r;
  pt_method : fp_encryption_method (rdp_out r) = Gcc.encryption_method (conn_core c);
  pt_sendable : sendable l (rdp_out r);
  pt_sec : fp_sec (rdp_out r) = k;
  pt_crypt : fp_do_crypt (rdp_out r) = crypt;
  pt_connected : disconnect r = false;
}.

Lemma party_conn mode c st k crypt c' (r : rdpRdp N U) :
  party mode c st k crypt r -> party mode c' st k crypt (with_conn c' r).
Proof.
  intros [_ Hst Hm _ _ [Sl Sf Sz Sp Sg] Hk Hcr Hd].
  split; try assumption; try reflexivity; [apply conn_put|]. split; assumption.
Qed.

Lemma party_state mode c st k crypt st' (r : rdpRdp N U) :
  party mode c st k crypt r -> party mode c st' k crypt (with_state st' r).
Proof. intros [Hc Hst Hm Hf He Hs Hk Hcr Hd]. split; try assumption; reflexivity. Qed.

Lemma party_out mode c st k crypt (t : rdpTransport N) (r : rdpRdp N U) :
  party mode c st k crypt r -> sendable l (with_transport t (rdp_out r)) ->
  party mode c st k crypt (with_out (with_transport t (rdp_out r)) r).
Proof. intros [Hc Hst Hm Hf He Hs Hk Hcr Hd] Hs'. split; assumption. Qed.

(** A step that takes [pdu] and sends [out]. *)
Definition takes (step : RM (N := N) (U := U) bool) (pdu : list Z) (r : rdpRdp N U) (out : list Z) (r' : rdpRdp N U) : Prop :=
  exists s', step (mkSTREAM (len pdu) 0 pdu, r) = Done (true, (s', r')) /\ sent (rdp_out r') = sent (rdp_out r) ++ out.

Lemma Reads_packet {A} (c : M STREAM A) pdu a (r : rdpRdp N U) : Reads c pdu a ->
  pkt c (mkSTREAM (len pdu) 0 pdu, r) = Done (a, (adv (len pdu) (mkSTREAM (len pdu) 0 pdu), r)).
Proof.
  intros Hc. apply pkt_run, Hc. rewrite <- (app_nil_r pdu) at 2. apply holds_start. apply Z.le_refl.
Qed.

Lemma on_fp_transport_bind {A B} (c : M (rdpTransport N) A) (k : A -> M (rdpTransport N) B) (r : fpRdp N) :
  on_fp_transport (bind c k) r = bind (on_fp_transport c) (fun a => on_fp_transport (k a)) r.
Proof.
  unfold on_fp_transport, zoom, bind. destruct (c (fp_transport r)) as [[a t]|f]; [|reflexivity]. cbn.
  destruct (k a t) as [[b t']|f]; reflexivity.
Qed.

(** A PDU of the MCS layer goes out. *)
Lemma mcs_send_run {A B} n (c : M STREAM B) bs b (f : B -> Z -> A) s (r : rdpRdp N U) :
  sendable l (rdp_out r) -> reliable (N := N) l -> WritesSz n c bs b -> 1 <= len bs <= n -> n <= 2 ^ 16 ->
  exists st t', 0 <= st /\
    mcs_out (transport_send_stream_init n;; let! b := on_send c in let! st := transport_send in ret (f b st)) (s, r)
    = Done (f b st, (s, with_out (with_transport t' (rdp_out r)) r)) /\
    link_outgoing (t_net t') = sent (rdp_out r) ++ bs /\ sendable l (with_transport t' (rdp_out r)).
Proof.
  intros Hs Hrel Hw Hb Hn. destruct (send_init_run l n (rdp_out r) Hs ltac:(lia)) as (size & data & Ei & Hsz & Hd).
  destruct (app_split data (len bs)) as (hole & post & -> & Hhole); [lia|]. rewrite len_app in Hd.
  set (r1 := with_send_stream (behind size [] (hole ++ post)) (rdp_out r)) in *.
  assert (Ew : on_fp_transport (on_send c) r1 = Done (b, with_send_stream (behind size bs post) r1)).
  { apply (on_stream_run c). rewrite <- (app_nil_l bs) at 1. rewrite <- (put_behind size [] hole post bs) by lia.
    apply Hw; [apply room_behind; rewrite len_app; pose proof (len_nonneg post); lia|cbn; lia]. }
  set (r2 := with_send_stream (behind size bs post) r1) in *.
  destruct (send_stream_run l bs r2 (sd_layer _ _ Hs) eq_refl ltac:(lia)) as (st & t' & k & Es & Ho & Hge & Hlt).
  { apply take_app_length. }
  assert (Hst : 0 <= st) by (destruct (Z.lt_ge_cases st 0) as [Hn'|?]; [destruct (Hlt Hn'); contradiction|assumption]).
  destruct (Hge Hst) as (Hk & Hl' & Hstream). rewrite take_ge in Ho by exact Hk.
  exists st, t'. split; [exact Hst|]. split; [|split; [exact Ho|]].
  - unfold mcs_out. erewrite out_of_run; [reflexivity|].
    rewrite on_fp_transport_bind, (bind_Done _ _ _ _ _ Ei), on_fp_transport_bind, (bind_Done _ _ _ _ _ Ew).
    rewrite on_fp_transport_bind, (bind_Done _ _ _ _ _ Es). reflexivity.
  - destruct Hs as [Sl Sf Sz Sp Sg]. change (stream_of r2) with (behind size bs post) in Hstream.
    split; unfold stream_of; cbn [fp_transport with_transport fp_sec_flags]; rewrite ?Hstream; try assumption;
      unfold behind, stream_fits; cbn [s_size s_p s_data]; rewrite ?len_app; lia.
Qed.

(** A sender that succeeds, returns [a] and puts [bs] on the wire. *)
Definition sends {A} (c : M (rdpTransport N) A) (a : A) (bs : list Z) : Prop :=
  forall mode cn st k crypt s (r : rdpRdp N U), party mode cn st k crypt r ->
  exists r', mcs_out c (s, r) = Done (a, (s, r')) /\ sent (rdp_out r') = sent (rdp_out r) ++ bs /\
    party mode cn st k crypt r'.

Lemma sends_pdu {A B} n (w : M STREAM B) bs b (f : B -> Z -> A) a (c : M (rdpTransport N) A) :
  reliable (N := N) l -> WritesSz n w bs b -> 1 <= len bs <= n -> n <= 2 ^ 16 -> (forall st, 0 <= st -> f b st = a) ->
  (forall t, c t = (transport_send_stream_init n;; let! b := on_send w in let! st := transport_send in ret (f b st)) t) ->
  sends c a bs.
Proof.
  intros Hrel Hw Hb Hn Hf Hc mode cn st k crypt s r Hp.
  destruct (mcs_send_run n w bs b f s r (pt_sendable _ _ _ _ _ _ Hp) Hrel Hw Hb Hn) as (v & t' & Hv & E & Ho & Hs).
  exists (with_out (with_transport t' (rdp_out r)) r). rewrite (Hf v Hv) in E. split; [|split; [exact Ho|apply party_out; assumption]].
  rewrite <- E. unfold mcs_out, out_of, on_fp_transport, zoom. rewrite Hc. reflexivity.
Qed.

Context (Hrel : reliable (N := N) l).

Lemma sent_status st : 0 <= st -> negb (st <? 0) = true.
Proof. intros Hs. rewrite (proj2 (Z.ltb_ge _ _) Hs). reflexivity. Qed.

Lemma sends_erect_domain : sends mcs_send_erect_domain_request true erect_domain_request_bytes.
Proof.
  apply (sends_pdu 12 erect_domain_request_pdu _ tt (fun _ st => negb (st <? 0)) _ _ Hrel (Writes_Sz _ _ _ _ Writes_erect_domain_request)
           ltac:(lens_lia) ltac:(lens_lia) sent_status (fun _ => eq_refl)).
Qed.
Lemma sends_attach_user_request : sends mcs_send_attach_user_request true attach_user_request_bytes.
Proof.
  apply (sends_pdu 8 attach_user_request_pdu _ tt (fun _ st => negb (st <? 0)) _ _ Hrel (Writes_Sz _ _ _ _ Writes_attach_user_request)
           ltac:(lens_lia) ltac:(lens_lia) sent_status (fun _ => eq_refl)).
Qed.
Lemma sends_join_request m ch : sends (mcs_send_channel_join_request m ch) true (channel_join_request_bytes (user_id m) ch).
Proof.
  apply (sends_pdu 12 (channel_join_request_pdu (user_id m) ch) _ tt (fun _ st => negb (st <? 0)) _ _ Hrel (Writes_Sz _ _ _ _ (Writes_channel_join_request _ _))
           ltac:(lens_lia) ltac:(lens_lia) sent_status (fun _ => eq_refl)).
Qed.
Lemma sends_attach_user_confirm m :
  sends (mcs_send_attach_user_confirm m) (true, Mcs.set_user_id 1002 m) (attach_user_confirm_bytes 1002).
Proof.
  apply (sends_pdu 11 (attach_user_confirm_pdu 1002) _ tt (fun _ _ => (true, Mcs.set_user_id 1002 m)) _ _ Hrel (Writes_Sz _ _ _ _ (Writes_attach_user_confirm _))
           ltac:(lens_lia) ltac:(lens_lia) (fun _ _ => eq_refl) (fun _ => eq_refl)).
Qed.
Lemma sends_join_confirm m ch : sends (mcs_send_channel_join_confirm m ch) true (channel_join_confirm_bytes (user_id m) ch).
Proof.
  apply (sends_pdu 15 (channel_join_confirm_pdu (user_id m) ch) _ tt (fun _ _ => true) _ _ Hrel (Writes_Sz _ _ _ _ (Writes_channel_join_confirm _ _))
           ltac:(lens_lia) ltac:(lens_lia) (fun _ _ => eq_refl) (fun _ => eq_refl)).
Qed.
Lemma sends_connect_response `{!CryptoLaws} `{!BignumLaws} m sv nonce key :
  server_ok sv key -> len nonce = 32 -> is_bytes nonce -> valid_mcs m ->
  sends (mcs_send_connect_response (gcc_write_server_data_blocks nonce sv) gcc_write_conference_create_response m)
    (true, set_domainParameters (targetParameters m) m, answered nonce sv) (connect_response_pdu m sv nonce key).
Proof.
  intros Hsv Hn Hb Hm. destruct (connect_response_built (N := N) m sv nonce key Hsv Hn Hb Hm) as (w & Hw & Hl & E).
  apply (sends_pdu 1024 w _ _ (fun m _ => (true, m, answered nonce sv)) _ _ Hrel Hw Hl ltac:(lia) (fun _ _ => eq_refl) E).
Qed.
End parties.

(** ** Joining the channels *)

(** The channels in the order in which they are joined: that of the user, the
    global one and the static ones. *)
Definition to_join (uid : Z) (ids : list Z) : list Z := uid :: MCS_GLOBAL_CHANNEL_ID :: ids.

(** A connection after the first [i] of them were joined. *)
Record joins (ids : list Z) (i : nat) (c : connection) : Prop := {
  jn_user : user_channel_joined c = (0 <? i)%nat;
  jn_global : global_channel_joined c = (1 <? i)%nat;
  jn_count : num_channels (conn_core c) = len ids;
  jn_max : (length ids <= length (Gcc.channels (conn_core c)))%nat;
  jn_ids : map channel_id (take (length ids) (Gcc.channels (conn_core c))) = ids;
  jn_joined : forall j ch, take (length ids) (Gcc.channels (conn_core c)) !! j = Some ch -> joined ch = (j + 2 <? i)%nat;
}.

(** Joining the next one. *)
Definition join_next (i : nat) (c : connection) : connection :=
  match i with
  | O => c <| user_channel_joined := true |>
  | S O => c <| global_channel_joined := true |>
  | S (S j) => set_channels (alter set_joined j (Gcc.channels (conn_core c))) c
  end.

Lemma take_alter_lt {A} (f : A -> A) n i l : (i < n)%nat -> take n (alter f i l) = alter f i (take n l).
Proof.
  revert i l. induction n as [|n IH]; intros i l Hi; [lia|]. destruct l as [|x l]; [destruct i; reflexivity|].
  destruct i as [|i]; cbn; [reflexivity|]. f_equal. apply IH. lia.
Qed.

Lemma joins_next ids i c : joins ids i c -> (i < 2 + length ids)%nat -> joins ids (S i) (join_next i c).
Proof.
  intros [Hu Hg Hn Hm Hi Hj] Hlt.
  assert (Hlater : (i < 2)%nat -> forall j ch, take (length ids) (Gcc.channels (conn_core c)) !! j = Some ch ->
            joined ch = (j + 2 <? S i)%nat).
  { intros H2 j ch E. rewrite (Hj j ch E). destruct (Nat.ltb_spec (j + 2) i), (Nat.ltb_spec (j + 2) (S i)); reflexivity || lia. }
  destruct i as [|[|i]]; cbn [join_next].
  - specialize (Hlater ltac:(lia)). split; auto.
  - specialize (Hlater ltac:(lia)). split; auto.
  - assert (E : Gcc.channels (conn_core (set_channels (alter set_joined i (Gcc.channels (conn_core c))) c))
                = alter set_joined i (Gcc.channels (conn_core c))) by reflexivity.
    split; try assumption; rewrite E; rewrite ?length_alter; try assumption.
    + rewrite take_alter_lt by lia. rewrite <- Hi at 2. apply list_eq. intros j. rewrite !list_lookup_fmap.
      destruct (decide (i = j)) as [<-|Hne]; [rewrite list_lookup_alter_eq|rewrite list_lookup_alter_ne by exact Hne; reflexivity].
      destruct (take _ _ !! i) as [[]|]; reflexivity.
    + rewrite take_alter_lt by lia. intros j ch. destruct (decide (i = j)) as [<-|Hne].
      * rewrite list_lookup_alter_eq. destruct (take _ _ !! i) as [ch0|]; [|discriminate]. intros [= <-].
        rewrite (proj2 (Nat.ltb_lt _ _)) by lia. reflexivity.
      * rewrite list_lookup_alter_ne by exact Hne. intros Hl. rewrite (Hj j ch Hl).
        destruct (Nat.ltb_spec (j + 2) (S (S i))), (Nat.ltb_spec (j + 2) (S (S (S i)))); reflexivity || lia.
Qed.

Lemma elem_run {S A} (l : list A) (i : nat) a : l !! i = Some a -> elem (S := S) l (Z.of_nat i) = ret a.
Proof. intros E. unfold elem. rewrite (proj2 (Z.leb_le _ _)), Nat2Z.id, E by lia. reflexivity. Qed.

Lemma elem_set_run {S A} (l : list A) (i : nat) a : (i < length l)%nat -> elem_set (S := S) (Z.of_nat i) a l = ret (<[i := a]> l).
Proof.
  intros Hi. unfold elem_set, len. rewrite (proj2 (Z.leb_le _ _)), (proj2 (Z.ltb_lt _ _)), Nat2Z.id by lia. reflexivity.
Qed.

Lemma alter_insert {A} (f : A -> A) (l : list A) (i : nat) a : l !! i = Some a -> <[i := f a]> l = alter f i l.
Proof.
  revert i. induction l as [|x l IH]; intros i E; [discriminate|]. destruct i as [|i]; cbn in *; [congruence|].
  f_equal. apply IH, E.
Qed.

Section joining.
Context {N U : Type} `{HC : Crypto}.

(** The client finds the first channel that is not joined. *)
Lemma join_first_run id n j (chans : list rdp_channel) ch (x : STREAM * rdpRdp N U) :
  chans !! j = Some ch -> joined ch = false -> channel_id ch = id -> (j < n)%nat ->
  (forall i c, (i < j)%nat -> chans !! i = Some c -> joined c = true) ->
  forall fuel i, (i <= j)%nat -> (j - i < fuel)%nat ->
  join_first fuel id (Z.of_nat i) (Z.of_nat n) chans x = Done (Some (Z.of_nat j, alter set_joined j chans), x).
Proof.
  intros E Hj Hid Hn Hbefore fuel. pose proof (lookup_lt_Some _ _ _ E) as Hlen.
  induction fuel as [|fuel IH]; intros i Hi Hf; [lia|]. cbn [join_first].
  rewrite (proj2 (Z.ltb_lt _ _)) by lia. cbn [negb].
  destruct (decide (i = j)) as [->|Hne].
  - rewrite (elem_run _ _ _ E), bind_ret, Hj, Hid, Z.eqb_refl. cbn [negb].
    rewrite elem_set_run by exact Hlen. rewrite bind_ret, (alter_insert _ _ _ _ E). reflexivity.
  - destruct (lookup_lt_is_Some_2 chans i ltac:(lia)) as [c Ec].
    rewrite (elem_run _ _ _ Ec), bind_ret, (Hbefore i c ltac:(lia) Ec).
    replace (Z.of_nat i + 1) with (Z.of_nat (S i)) by lia. apply IH; lia.
Qed.

(** The server marks every channel of the id. *)
Definition mark (id : Z) (ch : rdp_channel) : rdp_channel := if channel_id ch =? id then set_joined ch else ch.

Lemma join_matching_run id (x : STREAM * rdpRdp N U) rest : forall fuel m pre, (m < fuel)%nat -> (m <= length rest)%nat ->
  join_matching fuel id (len pre) (len pre + Z.of_nat m) (pre ++ rest) x
  = Done ((forallb joined (map (mark id) (take m rest)), pre ++ map (mark id) (take m rest) ++ drop m rest), x).
Proof.
  induction rest as [|ch rest IH]; intros fuel m pre Hf Hm; (destruct fuel as [|fuel]; [lia|]); cbn [length] in Hm; cbn [join_matching].
  - replace m with O by lia. rewrite (proj2 (Z.ltb_ge _ _)) by lia. reflexivity.
  - destruct m as [|m]; [rewrite (proj2 (Z.ltb_ge _ _)) by lia; reflexivity|]. rewrite (proj2 (Z.ltb_lt _ _)) by lia. cbn [negb].
    rewrite elem_mid, bind_ret.
    assert (E : (if channel_id ch =? id then elem_set (len pre) (set_joined ch) (pre ++ ch :: rest) else ret (pre ++ ch :: rest))
                = ret (S := STREAM * rdpRdp N U) (pre ++ mark id ch :: rest)).
    { unfold mark. destruct (channel_id ch =? id); [apply elem_set_mid|reflexivity]. }
    rewrite E, bind_ret, elem_mid, bind_ret. clear E.
    specialize (IH fuel m (pre ++ [mark id ch]) ltac:(lia) ltac:(lia)).
    rewrite len_app in IH. change (len [mark id ch]) with 1 in IH. rewrite <- app_assoc in IH. cbn [app] in IH.
    replace (len pre + 1 + Z.of_nat m) with (len pre + Z.of_nat (S m)) in IH by lia.
    rewrite (bind_Done _ _ _ _ _ IH). cbn [take drop map forallb]. rewrite <- !app_assoc. reflexivity.
Qed.

(** Among distinct ids that is the one channel. *)
Lemma mark_alter id j (chans : list rdp_channel) : NoDup (map channel_id chans) -> map channel_id chans !! j = Some id ->
  map (mark id) chans = alter set_joined j chans.
Proof.
  revert j. induction chans as [|ch chans IH]; intros j Hd E; [discriminate|]. cbn [map] in *. apply NoDup_cons in Hd as [Hn Hd].
  destruct j as [|j]; cbn in E |- *.
  - injection E as <-. unfold mark at 1. rewrite Z.eqb_refl. f_equal. rewrite <- (map_id chans) at 2. apply map_ext_in.
    intros c Hc. unfold mark. destruct (Z.eqb_spec (channel_id c) (channel_id ch)) as [Eq|]; [|reflexivity].
    exfalso. apply Hn. rewrite <- Eq. apply list_elem_of_fmap. exists c. split; [reflexivity|]. apply list_elem_of_In, Hc.
  - unfold mark at 1. destruct (Z.eqb_spec (channel_id ch) id) as [Eq|]; [|f_equal; apply IH; assumption].
    exfalso. apply Hn. rewrite Eq. eapply list_elem_of_lookup_2, E.
Qed.

Lemma mark_none id (chans : list rdp_channel) : id ∉ map channel_id chans -> map (mark id) chans = chans.
Proof.
  intros Hn. rewrite <- (map_id chans) at 2. apply map_ext_in. intros c Hc. unfold mark.
  destruct (Z.eqb_spec (channel_id c) id) as [<-|]; [|reflexivity]. exfalso. apply Hn.
  apply list_elem_of_fmap. exists c. split; [reflexivity|apply list_elem_of_In, Hc].
Qed.
End joining.

Lemma set_channels_user c : set_channels (Gcc.channels (conn_core c)) (c <| user_channel_joined := true |>) = join_next 0 c.
Proof. destruct c as [m u g [ [] ] sc lic]. reflexivity. Qed.
Lemma set_channels_global c : set_channels (Gcc.channels (conn_core c)) (c <| global_channel_joined := true |>) = join_next 1 c.
Proof. destruct c as [m u g [ [] ] sc lic]. reflexivity. Qed.

Lemma joins_all ids i c : joins ids i c -> (i <= 2 + length ids)%nat ->
  user_channel_joined c && global_channel_joined c && forallb joined (take (length ids) (Gcc.channels (conn_core c)))
  = (i =? 2 + length ids)%nat.
Proof.
  intros [Hu Hg _ Hm _ Hj] Hi. rewrite Hu, Hg. destruct (Nat.eqb_spec i (2 + length ids)) as [->|Hne].
  - cbn [Nat.ltb Nat.leb Nat.add andb]. apply forallb_forall. intros ch Hin. apply list_elem_of_In, list_elem_of_lookup_1 in Hin as [j Hl].
    rewrite (Hj j ch Hl). apply Nat.ltb_lt. pose proof (lookup_lt_Some _ _ _ Hl) as Hlt. rewrite length_take in Hlt. lia.
  - destruct i as [|[|i]]; [reflexivity|reflexivity|]. cbn [Nat.ltb Nat.leb andb].
    destruct (lookup_lt_is_Some_2 (take (length ids) (Gcc.channels (conn_core c))) i ltac:(rewrite length_take; lia)) as [ch Hl].
    apply not_true_is_false. intros Hall. rewrite forallb_forall in Hall.
    specialize (Hall ch (proj1 (list_elem_of_In _ _) (list_elem_of_lookup_2 _ _ _ Hl))). rewrite (Hj i ch Hl) in Hall.
    apply Nat.ltb_lt in Hall. lia.
Qed.

(** What a server or a client knows of the channels. *)
Record numbered (uid : Z) (ids : list Z) : Prop := {
  nb_user : MCS_BASE_CHANNEL_ID <= uid < 65536;
  nb_ids : Forall (fun id => 0 <= id < 65536) ids;
  nb_distinct : NoDup (to_join uid ids);
}.

Lemma numbered_id uid ids i id : numbered uid ids -> to_join uid ids !! i = Some id -> 0 <= id < 65536.
Proof.
  intros [Hu Hi _] E. unfold to_join in E. destruct i as [|[|i]]; cbn in E.
  - injection E as <-. unfold MCS_BASE_CHANNEL_ID in Hu. lia.
  - injection E as <-. split; discriminate || reflexivity.
  - rewrite Forall_lookup in Hi. exact (Hi _ _ E).
Qed.

(** The server's update of its flags and channels is that of [join_next]. *)
Lemma server_marks uid ids i id c : numbered uid ids -> joins ids i c -> to_join uid ids !! i = Some id ->
  set_channels (map (mark id) (take (length ids) (Gcc.channels (conn_core c))) ++ drop (length ids) (Gcc.channels (conn_core c)))
    (if id =? uid then c <| user_channel_joined := true |>
     else if id =? MCS_GLOBAL_CHANNEL_ID then c <| global_channel_joined := true |> else c) = join_next i c.
Proof.
  intros [_ _ Hd] [_ _ _ Hm Hids _] E. unfold to_join in *. apply NoDup_cons in Hd as [Hu Hd]. apply NoDup_cons in Hd as [Hg Hd].
  set (chans := Gcc.channels (conn_core c)) in *. destruct i as [|[|i]]; cbn in E.
  - injection E as <-. rewrite Z.eqb_refl, mark_none, take_drop; [apply set_channels_user|].
    rewrite Hids. intros Hin. apply Hu. right. exact Hin.
  - injection E as <-. destruct (Z.eqb_spec MCS_GLOBAL_CHANNEL_ID uid) as [Eq|_]; [exfalso; apply Hu; rewrite <- Eq; left|].
    rewrite Z.eqb_refl, mark_none, take_drop; [apply set_channels_global|].
    rewrite Hids. exact Hg.
  - destruct (Z.eqb_spec id uid) as [Eq|_]; [exfalso; apply Hu; right; rewrite <- Eq; eapply list_elem_of_lookup_2, E|].
    destruct (Z.eqb_spec id MCS_GLOBAL_CHANNEL_ID) as [Eq|_]; [exfalso; apply Hg; rewrite <- Eq; eapply list_elem_of_lookup_2, E|].
    cbn [join_next]. fold chans. f_equal. rewrite (mark_alter id i) by (rewrite Hids; assumption).
    rewrite <- alter_app_l, take_drop; [reflexivity|]. rewrite length_take. apply lookup_lt_Some in E. lia.
Qed.

Section joining_steps.
Context {N U : Type} (l : TRANSPORT_LAYER) `{HLink : LinkLaws N l} `{HC : Crypto} `{HB : Bignum} `{HH : PduHandlers U}
  `{HM : Modules U} (Hrel : reliable (N := N) l).

Lemma conn_upd_run mode c st k crypt f s (r : rdpRdp N U) : party l mode c st k crypt r ->
  exists r', conn_upd f (s, r) = Done (tt, (s, r')) /\ party l mode (f c) st k crypt r' /\ sent (rdp_out r') = sent (rdp_out r).
Proof.
  intros Hp. exists (with_conn (f c) r). split; [unfold conn_upd; cbn [fst snd]; rewrite (pt_conn _ _ _ _ _ _ _ Hp); reflexivity|].
  split; [eapply party_conn, Hp|reflexivity].
Qed.

Lemma conn_run mode c st k crypt s (r : rdpRdp N U) : party l mode c st k crypt r -> conn (s, r) = Done (c, (s, r)).
Proof. intros Hp. unfold conn. cbn [snd]. rewrite (pt_conn _ _ _ _ _ _ _ Hp). reflexivity. Qed.

Lemma server_joins uid ids i id c st k crypt (r : rdpRdp N U) :
  party l true c st k crypt r -> numbered uid ids -> joins ids i c -> user_id (cn_mcs c) = uid -> to_join uid ids !! i = Some id ->
  exists r', takes rdp_server_accept_mcs_channel_join_request (channel_join_request_bytes uid id) r
               (channel_join_confirm_bytes uid id) r' /\
    party l true (join_next i c) (if (S i =? 2 + length ids)%nat then CONNECTION_STATE_MCS_CHANNEL_JOIN else st) k crypt r'.
Proof.
  intros Hp Hnb Hj Hu E. pose proof (lookup_lt_Some _ _ _ E) as Hlt. unfold to_join in Hlt. cbn [length] in Hlt.
  pose proof (numbered_id _ _ _ _ Hnb E) as Hid. unfold takes, rdp_server_accept_mcs_channel_join_request.
  rewrite (bind_Done _ _ _ _ _ (conn_run _ _ _ _ _ _ _ Hp)), Hu. cbv zeta.
  rewrite (bind_Done _ _ _ _ _ (Reads_packet _ _ _ r (Reads_channel_join_request (cn_mcs c) uid id (nb_user _ _ Hnb) Hid (eq_sym Hu)))).
  cbn [negb]. unfold use. rewrite bind_ret.
  set (s1 := adv _ _).
  destruct (sends_join_confirm l Hrel (cn_mcs c) id _ _ _ _ _ s1 r Hp) as (r1 & E1 & O1 & P1).
  rewrite Hu in O1. rewrite (bind_Done _ _ _ _ _ E1). cbn [negb].
  edestruct (conn_upd_run _ _ _ _ _ (fun c => if id =? uid then c <| user_channel_joined := true |>
     else if id =? MCS_GLOBAL_CHANNEL_ID then c <| global_channel_joined := true |> else c) s1 r1 P1) as (r2 & E2 & P2 & O2).
  rewrite (bind_Done _ _ _ _ _ E2). rewrite (jn_count _ _ _ Hj). cbv beta in P2.
  pose proof (join_matching_run id (s1, r2) (Gcc.channels (conn_core c)) (S (Z.to_nat (len ids))) (length ids) []
                ltac:(unfold len; lia) (jn_max _ _ _ Hj)) as Em.
  cbn [app] in Em. rewrite len_nil, Z.add_0_l in Em. change (Z.of_nat (length ids)) with (len ids) in Em.
  rewrite (bind_Done _ _ _ _ _ Em). clear Em.
  edestruct (conn_upd_run _ _ _ _ _ (set_channels (map (mark id) (take (length ids) (Gcc.channels (conn_core c))) ++
     drop (length ids) (Gcc.channels (conn_core c)))) s1 r2 P2) as (r3 & E3 & P3 & O3).
  rewrite (bind_Done _ _ _ _ _ E3). rewrite (server_marks uid ids i id c Hnb Hj E) in P3.
  rewrite (bind_Done _ _ _ _ _ (conn_run _ _ _ _ _ _ _ P3)).
  pose proof (joins_all ids (S i) (join_next i c) (joins_next ids i c Hj Hlt) ltac:(lia)) as Hall.
  assert (Em : take (length ids) (Gcc.channels (conn_core (join_next i c))) = map (mark id) (take (length ids) (Gcc.channels (conn_core c)))).
  { rewrite <- (server_marks uid ids i id c Hnb Hj E).
    change (Gcc.channels (conn_core (set_channels ?x _))) with x. apply take_app_length'.
    rewrite length_map, length_take. pose proof (jn_max _ _ _ Hj). lia. }
  rewrite Em in Hall. rewrite Hall. exists (if (S i =? 2 + length ids)%nat then with_state CONNECTION_STATE_MCS_CHANNEL_JOIN r3 else r3).
  split.
  - exists s1. split; [destruct (S i =? 2 + length ids)%nat; reflexivity|].
    transitivity (sent (rdp_out r3)); [destruct (S i =? 2 + length ids)%nat; reflexivity|]. rewrite O3, O2. exact O1.
  - destruct (S i =? 2 + length ids)%nat; [eapply party_state, P3|exact P3].
Qed.

(** The client's side: the channel is marked and the next one asked for. *)
Lemma client_confirmed uid ids i id c st k crypt s (r : rdpRdp N U) :
  party l false c st k crypt r -> numbered uid ids -> joins ids i c -> user_id (cn_mcs c) = uid -> to_join uid ids !! i = Some id ->
  exists all r', join_confirmed id (s, r) = Done ((true, all), (s, r')) /\ party l false (join_next i c) st k crypt r' /\
    sent (rdp_out r') = sent (rdp_out r) ++ match to_join uid ids !! S i with Some id' => channel_join_request_bytes uid id' | None => [] end /\
    user_channel_joined (join_next i c) && global_channel_joined (join_next i c) && all = (S i =? 2 + length ids)%nat.
Proof.
  intros Hp Hnb Hj Hu E. pose proof (lookup_lt_Some _ _ _ E) as Hlt. unfold to_join in Hlt. cbn [length] in Hlt.
  pose proof Hj as [Ju Jg Jn Jm Ji Jj]. unfold join_confirmed. rewrite (bind_Done _ _ _ _ _ (conn_run _ _ _ _ _ _ _ Hp)). cbv zeta.
  rewrite Ju, Jg, Jn, Hu.
  destruct i as [|[|i]]; cbn [Nat.ltb Nat.leb negb]; unfold to_join in E; cbn in E.
  - injection E as <-. rewrite Z.eqb_refl. cbn [negb].
    edestruct (conn_upd_run _ _ _ _ _ (fun c => c <| user_channel_joined := true |>) s r Hp) as (r1 & E1 & P1 & O1).
    rewrite (bind_Done _ _ _ _ _ E1).
    destruct (sends_join_request l Hrel (cn_mcs c) MCS_GLOBAL_CHANNEL_ID _ _ _ _ _ s r1 P1) as (r2 & E2 & O2 & P2).
    rewrite (bind_Done _ _ _ _ _ E2). exists true, r2. split; [reflexivity|]. split; [exact P2|]. split.
    + rewrite O2, O1, Hu. reflexivity.
    + change (global_channel_joined (join_next 0 c)) with (global_channel_joined c). rewrite Jg. reflexivity.
  - injection E as <-. rewrite Z.eqb_refl. cbn [negb].
    edestruct (conn_upd_run _ _ _ _ _ (fun c => c <| global_channel_joined := true |>) s r Hp) as (r1 & E1 & P1 & O1).
    rewrite (bind_Done _ _ _ _ _ E1). unfold to_join. cbn [lookup list_lookup].
    change (user_channel_joined (join_next 1 c)) with (user_channel_joined c). rewrite Ju.
    destruct ids as [|id ids]; [exists true, r1; rewrite O1, app_nil_r; auto|].
    rewrite (proj2 (Z.ltb_lt _ _)) by (rewrite len_cons; len_pos; lia).
    destruct (Gcc.channels (conn_core c)) as [|ch chans] eqn:Ech; [cbn in Jm; lia|]. cbn in Ji. injection Ji as Jid _.
    rewrite (elem_run (ch :: chans) 0 ch eq_refl), bind_ret, Jid.
    destruct (sends_join_request l Hrel (cn_mcs c) id _ _ _ _ _ s r1 P1) as (r2 & E2 & O2 & P2).
    rewrite (bind_Done _ _ _ _ _ E2). exists false, r2. split; [reflexivity|]. split; [exact P2|].
    split; [rewrite O2, O1, Hu; reflexivity|reflexivity].
  - change (ids !! i = Some id) in E. pose proof (lookup_lt_Some _ _ _ E) as Hi.
    set (chans := Gcc.channels (conn_core c)) in *.
    assert (Hlook : forall j, (j < length ids)%nat -> exists ch, chans !! j = Some ch /\ ids !! j = Some (channel_id ch) /\ joined ch = (j + 2 <? S (S i))%nat).
    { intros j Hjl. destruct (lookup_lt_is_Some_2 chans j ltac:(lia)) as [ch Hc]. exists ch. split; [exact Hc|].
      assert (Ht : take (length ids) chans !! j = Some ch) by (rewrite lookup_take_lt by exact Hjl; exact Hc).
      split; [|exact (Jj j ch Ht)]. rewrite <- Ji. rewrite list_lookup_fmap, Ht. reflexivity. }
    destruct (Hlook i Hi) as (ch & Hc & Hcid & Hcj). rewrite E in Hcid. injection Hcid as Hcid.
    rewrite (proj2 (Nat.ltb_ge _ _)) in Hcj by lia.
    assert (Ef : join_first (S (Z.to_nat (len ids))) id 0 (len ids) chans (s, r) = Done (Some (Z.of_nat i, alter set_joined i chans), (s, r))).
    { refine (join_first_run id (length ids) i chans ch (s, r) Hc Hcj (eq_sym Hcid) Hi _ _ 0%nat _ _); [|lia|unfold len; lia].
      intros j c0 Hjl Hj0. destruct (Hlook j ltac:(lia)) as (c1 & Hc1 & _ & Hj1). rewrite Hj0 in Hc1. injection Hc1 as <-.
      rewrite Hj1. apply Nat.ltb_lt. lia. }
    rewrite (bind_Done _ _ _ _ _ Ef). cbv iota.
    edestruct (conn_upd_run _ _ _ _ _ (set_channels (alter set_joined i chans)) s r Hp) as (r1 & E1 & P1 & O1).
    rewrite (bind_Done _ _ _ _ _ E1). change (to_join uid ids !! S (S (S i))) with (ids !! S i).
    change (user_channel_joined (join_next (S (S i)) c)) with (user_channel_joined c).
    change (global_channel_joined (join_next (S (S i)) c)) with (global_channel_joined c). rewrite Ju, Jg.
    destruct (Z.ltb_spec (Z.of_nat i + 1) (len ids)) as [Hmore|Hlast]; unfold len in *.
    + destruct (Hlook (S i) ltac:(lia)) as (ch' & Hc' & Hid' & _).
      assert (Ha : alter set_joined i chans !! S i = Some ch') by (rewrite list_lookup_alter_ne by lia; exact Hc').
      replace (Z.of_nat i + 1) with (Z.of_nat (S i)) by lia. rewrite (elem_run _ _ _ Ha), bind_ret.
      destruct (sends_join_request l Hrel (cn_mcs c) (channel_id ch') _ _ _ _ _ s r1 P1) as (r2 & E2 & O2 & P2).
      rewrite (bind_Done _ _ _ _ _ E2). exists false, r2. split; [reflexivity|]. split; [exact P2|].
      split; [rewrite O2, O1, Hu, Hid'; reflexivity|]. symmetry. rewrite andb_false_r. apply Nat.eqb_neq. cbn. lia.
    + exists true, r1. split; [reflexivity|]. split; [exact P1|]. rewrite (lookup_ge_None_2 ids (S i)) by lia.
      split; [rewrite O1, app_nil_r; reflexivity|]. symmetry. apply Nat.eqb_eq. cbn. lia.
Qed.
End joining_steps.

(** ** The exchange of keys *)

(** The packet with the encrypted random number. *)
Definition exchange_pdu (conf : rdpConf) (cipher : list Z) : list Z :=
  rdp_header_bytes conf (31 + len cipher) MCS_GLOBAL_CHANNEL_ID ++ le16 SEC_EXCHANGE_PKT ++ le16 0 ++
  le32 (len cipher + 8) ++ cipher ++ zeros 8.

Lemma len_exchange_pdu conf cipher : len (exchange_pdu conf cipher) = 31 + len cipher.
Proof.
  unfold exchange_pdu. rewrite !len_app, len_rdp_header. change (len (le16 _)) with 2. change (len (le32 _)) with 4.
  change (len (zeros 8)) with 8. lia.
Qed.

Section keys.
Context {N U : Type} (l : TRANSPORT_LAYER) `{HLink : LinkLaws N l} `{HC : Crypto} `{HL : !CryptoLaws} `{HB : Bignum}
  `{HBL : !BignumLaws} `{HH : PduHandlers U} `{HM : Modules U}.

Lemma establish_session_run beyond mode c st (r : rdpRdp N U) k k' client_random s :
  party l mode c st k false r ->
  rdp_establish_ciphers beyond (Gcc.encryption_method (conn_core c)) mode client_random (server_random (conn_core c)) k = Done (true, k') ->
  exists r', establish_session beyond client_random (s, r) = Done (true, (s, r')) /\ party l mode c st k' true r' /\
    sent (rdp_out r') = sent (rdp_out r).
Proof.
  intros Hp E. unfold establish_session. rewrite (bind_Done _ _ _ _ _ (conn_run _ _ _ _ _ _ _ _ Hp)).
  unfold bind at 1, rdp_of. cbn [snd]. cbv zeta. pose proof Hp as [Pc Ps Pm Pf Pe [Sl Sf Sz Sp Sg] Pk Pcr Pd]. rewrite Pm.
  assert (Es : sec_of (rdp_establish_ciphers beyond (Gcc.encryption_method (conn_core c)) mode client_random (server_random (conn_core c))) (s, r)
               = Done (true, (s, with_sec k' r))) by (unfold sec_of, zoom; cbn [snd fst]; rewrite Pk, E; reflexivity).
  rewrite (bind_Done _ _ _ _ _ Es). cbn [negb]. eexists. split; [reflexivity|]. split; [|reflexivity].
  split; try assumption; try reflexivity. split; assumption.
Qed.

Lemma exchange_data cipher k n : (8 <= k)%nat -> n = len cipher + 8 ->
  Writes (let! data := array_prefix (cipher ++ replicate k 0) n in stream_write data) (cipher ++ zeros 8) tt.
Proof.
  intros Hr ->. pose proof (len_nonneg cipher).
  eapply Writes_first; [apply Writes_array_prefix; unfold len in *; rewrite length_app, length_replicate; lia|].
  eapply Writes_eq; [apply Writes_write| |reflexivity]. unfold len. rewrite Z2Nat.inj_add, Nat2Z.id by lia.
  rewrite take_app_add. f_equal. rewrite take_replicate. unfold zeros. f_equal. lia.
Qed.

Lemma client_keys beyond nonce m e d c st k' s (r : rdpRdp N U) : reliable (N := N) l ->
  party l false c st rdp_sec_new false r -> Gcc.encryption (conn_core c) = true ->
  cert_info (server_cert (conn_core c)) = mkCertInfo m e -> rsa_key m e d -> 0 < le_val m -> 32 <= len m <= 256 ->
  is_bytes nonce -> len nonce = 32 ->
  rdp_establish_ciphers beyond (Gcc.encryption_method (conn_core c)) false nonce (server_random (conn_core c)) rdp_sec_new = Done (true, k') ->
  exists r', rdp_client_establish_keys beyond nonce (s, r) = Done (true, (s, r')) /\ party l false c st k' true r' /\
    sent (rdp_out r') = sent (rdp_out r) ++ exchange_pdu (rdp_conf r) (le_bytes (len m) (le_val nonce ^ le_val e mod le_val m)).
Proof.
  intros Hrel Hp Henc Hcert Hkey Hpos Hm Hnb Hn Ek. set (cipher := le_bytes (len m) _).
  assert (Hlc : len cipher = len m) by (apply len_le_bytes; lia).
  unfold rdp_client_establish_keys. rewrite (bind_Done _ _ _ _ _ (conn_run _ _ _ _ _ _ _ _ Hp)).
  unfold bind at 1, rdp_of. cbn [snd]. cbv zeta. rewrite Henc, Hcert. cbn [negb modulus exponent].
  assert (Er : crypto_rsa_public_encrypt nonce CLIENT_RANDOM_LENGTH (len m) m e (replicate 264 0) (s, r)
               = Done (cipher ++ replicate (264 - length m) 0, (s, r))).
  { unfold crypto_rsa_public_encrypt. change CLIENT_RANDOM_LENGTH with 32. rewrite <- Hn at 1. rewrite <- (app_nil_r nonce) at 1.
    rewrite (rsa_public_run nonce [] m e d _ (s, r) Hkey Hnb ltac:(lia) Hpos); [|change (len (replicate 264 0)) with 264; lia].
    rewrite drop_replicate. reflexivity. }
  rewrite (bind_Done _ _ _ _ _ Er). clear Er.
  pose proof (pt_sendable _ _ _ _ _ _ _ Hp) as Hs. set (n := 31 + len m).
  assert (En : uint32 (RDP_PACKET_HEADER_MAX_LENGTH + RDP_SECURITY_HEADER_LENGTH + 4 + len m + 8) = n)
    by (change RDP_PACKET_HEADER_MAX_LENGTH with 15; change RDP_SECURITY_HEADER_LENGTH with 4; unfold uint32, n; rewrite Z.mod_small; lia).
  rewrite En. replace (uint16 n) with n by (unfold uint16, n; rewrite Z.mod_small; lia).
  replace (uint32 (len m + 8)) with (len m + 8) by (unfold uint32; rewrite Z.mod_small; lia).
  destruct (send_init_run l n (rdp_out r) Hs ltac:(unfold n; lia)) as (size & data & Ei & Hsz & Hd).
  destruct (app_split data 15) as (h & d1 & -> & Hh); [unfold n in *; lia|]. rewrite len_app in Hd.
  destruct (app_split d1 4) as (h2 & d2 & -> & Hh2); [unfold n in *; lia|]. rewrite len_app in Hd.
  destruct (app_split d2 4) as (h3 & d3 & -> & Hh3); [unfold n in *; lia|]. rewrite len_app in Hd.
  destruct (app_split d3 (len m + 8)) as (h4 & post & -> & Hh4); [unfold n in *; lia|]. rewrite len_app in Hd.
  unfold mcs_out. rewrite (bind_Done _ _ _ _ _ (out_of_run _ s r _ _ Ei)).
  erewrite bind_Done by (apply out_of_run; apply (write_header_run (rdp_conf r) n MCS_GLOBAL_CHANNEL_ID _ size h (h2 ++ h3 ++ h4 ++ post));
    [unfold n; lia|left; change (Z.land (fp_sec_flags (rdp_out r)) SEC_ENCRYPT = 0); rewrite (sd_flags _ _ Hs); reflexivity|reflexivity|exact Hh]).
  erewrite bind_Done by (apply out_of_run, on_stream_run;
    apply (Writes_behind _ (le16 SEC_EXCHANGE_PKT ++ le16 0) tt size (rdp_header_bytes (rdp_conf r) n MCS_GLOBAL_CHANNEL_ID) h2);
    [eapply Writes_bind; apply Writes_uint16|exact (eq_sym Hh2)]).
  erewrite bind_Done by (apply out_of_run, on_stream_run;
    apply (Writes_behind _ (le32 (len m + 8)) tt size (rdp_header_bytes (rdp_conf r) n MCS_GLOBAL_CHANNEL_ID ++ le16 SEC_EXCHANGE_PKT ++ le16 0) h3);
    [apply Writes_uint32|exact (eq_sym Hh3)]).
  erewrite bind_Done by (apply out_of_run, on_stream_run;
    apply (Writes_behind _ (cipher ++ zeros 8) tt size ((rdp_header_bytes (rdp_conf r) n MCS_GLOBAL_CHANNEL_ID ++ le16 SEC_EXCHANGE_PKT ++ le16 0) ++ le32 (len m + 8)) h4);
    [refine (exchange_data cipher _ _ _ _); unfold len in *; lia|rewrite len_app, Hlc, Hh4; reflexivity]).
  set (pdu := exchange_pdu (rdp_conf r) cipher).
  assert (Epdu : ((rdp_header_bytes (rdp_conf r) n MCS_GLOBAL_CHANNEL_ID ++ le16 SEC_EXCHANGE_PKT ++ le16 0) ++ le32 (len m + 8)) ++ cipher ++ zeros 8 = pdu)
    by (unfold pdu, exchange_pdu, n; rewrite Hlc, <- !app_assoc; reflexivity).
  rewrite Epdu. match goal with |- context [bind (out_of (on_fp_transport transport_send)) _ (s, ?x)] => set (r1 := x) end.
  assert (Hl : len pdu = n) by (unfold pdu; rewrite len_exchange_pdu, Hlc; reflexivity).
  assert (Es : stream_of (rdp_out r1) = behind size pdu post) by reflexivity.
  destruct (send_stream_run l pdu (rdp_out r1) (sd_layer _ _ Hs)) as (v & t' & j & Et & Ho & Hge & Hlt);
    [rewrite Es; reflexivity|unfold n in Hl; lia|rewrite Es; apply take_app_length|].
  destruct (Z.lt_ge_cases v 0) as [Hv|Hv]; [destruct (Hlt Hv); contradiction|]. destruct (Hge Hv) as (Hj & Hl' & Hst).
  rewrite (bind_Done _ _ _ _ _ (out_of_run _ s r1 _ _ Et)), (proj2 (Z.ltb_ge _ _)) by exact Hv.
  rewrite take_ge in Ho by exact Hj. rewrite Es in Hst.
  destruct (establish_session_run beyond false c st (with_out (with_transport t' (rdp_out r1)) r1) rdp_sec_new k' nonce s) as (r' & E & P & O).
  { pose proof Hp as [Pc Ps Pm Pf Pe [Sl Sf Sz Sp Sg] Pk Pcr Pd]. split; try assumption.
    split; unfold stream_of; cbn [rdp_out with_out fp_transport with_transport fp_sec_flags]; rewrite ?Hst; try assumption;
      unfold behind, stream_fits; cbn [s_size s_p s_data]; rewrite ?len_app; unfold n in *; lia. }
  { exact Ek. }
  exists r'. split; [exact E|]. split; [exact P|]. rewrite O. exact Ho.
Qed.

(** Only the first 32 bytes of the client's number are used. *)
Lemma mem_prefix {S} n a b : 0 <= n <= len a -> mem (S := S) 0 n (a ++ b) = mem 0 n a.
Proof.
  intros Hn. pose proof (len_nonneg b). unfold mem. rewrite !bool_decide_true by (rewrite ?len_app; lia).
  change (drop (Z.to_nat 0) (a ++ b)) with (a ++ b). rewrite take_app_le by (unfold len in Hn; lia). reflexivity.
Qed.

Lemma establish_prefix beyond method mode c x sr k : method <> ENCRYPTION_METHOD_FIPS -> len c = 32 ->
  rdp_establish_ciphers beyond method mode (c ++ x) sr k = rdp_establish_ciphers beyond method mode c sr k.
Proof.
  intros Hm Hc. unfold rdp_establish_ciphers, security_establish_keys. rewrite (proj2 (Z.eqb_neq _ _) Hm).
  assert (E : session_keys (S := rdpSec) (c ++ x) sr = session_keys c sr).
  { unfold session_keys, security_A, security_X, three_hashes, A_BB_CCC, X_YY_ZZZ, security_premaster_hash, security_salted_hash, security_md5_16_32_32.
    rewrite !(mem_prefix 24), !(mem_prefix 32) by lia. reflexivity. }
  rewrite E. reflexivity.
Qed.

Lemma server_keys beyond junk conf nonce m e d c st k' (r : rdpRdp N U) :
  party l true c st rdp_sec_new false r -> Gcc.encryption (conn_core c) = true ->
  Gcc.encryption_method (conn_core c) <> ENCRYPTION_METHOD_FIPS ->
  server_key (conn_core c) = Some (mkKey m d e) -> rsa_key m e d -> rsa_undoes m e d (le_val nonce) -> 32 <= len m <= 64 ->
  len junk = 64 -> is_bytes nonce -> len nonce = 32 -> 1001 <= mcs_user_id conf < 65536 ->
  rdp_establish_ciphers beyond (Gcc.encryption_method (conn_core c)) true nonce (server_random (conn_core c)) rdp_sec_new = Done (true, k') ->
  exists r', takes (rdp_server_establish_keys beyond junk) (exchange_pdu conf (le_bytes (len m) (le_val nonce ^ le_val e mod le_val m))) r [] r' /\
    party l true c st k' true r'.
Proof.
  intros Hp Henc Hfips Hkey Hrsa Hund Hm Hj Hnb Hn Hu Ek. set (cipher := le_bytes (len m) _).
  assert (Hlc : len cipher = len m) by (apply len_le_bytes; lia).
  unfold takes, rdp_server_establish_keys. rewrite (bind_Done _ _ _ _ _ (conn_run _ _ _ _ _ _ _ _ Hp)). cbv zeta. rewrite Henc. cbn [negb].
  destruct (opens_headers conf (31 + len cipher) MCS_GLOBAL_CHANNEL_ID SEC_EXCHANGE_PKT (le32 (len cipher + 8) ++ cipher ++ zeros 8) r)
    as (_ & Eh & Es & Hrest); try (split; discriminate || reflexivity); try assumption; try lia.
  { rewrite !len_app. change (len (le32 _)) with 4. change (len (zeros 8)) with 8. lia. }
  fold (exchange_pdu conf cipher) in Eh, Es, Hrest. set (pdu := exchange_pdu conf cipher) in *.
  rewrite (bind_Done _ _ _ _ _ Eh). cbn [negb]. rewrite (bind_Done _ _ _ _ _ (pkt_run _ _ r _ _ Es)).
  change (Z.land SEC_EXCHANGE_PKT SEC_EXCHANGE_PKT =? 0) with false. cbv iota.
  destruct (holds_app _ _ _ Hrest) as [H1 H2].
  rewrite (bind_Done _ _ _ _ _ (pkt_run _ _ r _ _ (Reads_le32 (len cipher + 8) ltac:(lia) _ H1))).
  rewrite Hkey. unfold use. rewrite bind_ret. cbn [k_modulus private_exponent]. rewrite Hlc.
  replace (uint32 (len m + 8)) with (len m + 8) by (unfold uint32; rewrite Z.mod_small; lia). rewrite Z.eqb_refl. cbn [negb].
  rewrite (bind_Done _ _ _ _ _ (pkt_run _ _ r _ _ (Reads_read (cipher ++ zeros 8) (len m + 8)
             ltac:(rewrite len_app, Hlc; reflexivity) _ H2))).
  match goal with |- context [bind (mem_put _ _ _) _ (?x, r)] => set (s1 := x) end.
  assert (Ez : replicate 264 0 = replicate (length (cipher ++ zeros 8)) 0 ++ replicate (264 - length (cipher ++ zeros 8)) 0).
  { rewrite <- replicate_add. f_equal. rewrite length_app. change (length (zeros 8)) with 8%nat. unfold len in *. lia. }
  rewrite Ez, (bind_Done _ _ _ _ _ (mem_put_start (cipher ++ zeros 8) _ _ (s1, r) (eq_sym (length_replicate _ _)))). clear Ez.
  unfold bind at 1, pkt at 1, zoom, stream_seek. cbn [fst snd].
  match goal with |- context [bind _ _ (?x, r)] => set (s2 := x) end.
  unfold crypto_rsa_private_decrypt. rewrite <- app_assoc. replace (len m + 8 - 8) with (len m) by lia.
  rewrite (bind_Done _ _ _ _ _ (rsa_private_undoes nonce _ m e d junk (s2, r) Hrsa Hnb ltac:(lia) Hund ltac:(lia))).
  rewrite <- !app_assoc.
  destruct (establish_session_run beyond true c st r rdp_sec_new k' (nonce ++ replicate (length m - length nonce) 0 ++ drop (length m) junk) s2 Hp)
    as (r' & E & P & O); [rewrite establish_prefix by assumption; exact Ek|].
  exists r'. split; [|exact P]. exists s2. split; [exact E|]. rewrite O, app_nil_r. reflexivity.
Qed.
End keys.

(** The fields of a configuration that its packets show. *)
Definition packet_conf (mode : bool) (uid : Z) : rdpConf := mkConf mode false uid 0 0 [] 0 0.

(** ** Claims *)

(** C5. Exchange of session keys: the client encrypts the random number it has drawn
    with the public key out of the server's certificate and sends it; a server
    that holds the private key of 32 to 64 bytes finds it, and both end up with
    ciphers that match in both directions. The method is 40 or 128 bit RC4; the
    FIPS keys of the two ends do not match ([fips_keys_not_mirrored]). *)
Theorem key_exchange {N N' U U'} l `{LinkLaws N l} `{Link N'} `{!LinkLaws N' l} `{Crypto} `{!CryptoLaws} `{Bignum} `{!BignumLaws}
    `{PduHandlers U} `{PduHandlers U'} `{Modules U} `{Modules U'} beyond beyond' junk nonce m e d method sr cc cs stc sts s
    (rc : rdpRdp N U) (rs : rdpRdp N' U') :
  reliable (N := N) l -> party l false cc stc rdp_sec_new false rc -> party l true cs sts rdp_sec_new false rs ->
  Gcc.encryption (conn_core cc) = true -> Gcc.encryption (conn_core cs) = true ->
  Gcc.encryption_method (conn_core cc) = method -> Gcc.encryption_method (conn_core cs) = method -> method = 1 \/ method = 2 ->
  server_random (conn_core cc) = sr -> server_random (conn_core cs) = sr -> len sr = 32 ->
  cert_info (server_cert (conn_core cc)) = mkCertInfo m e -> server_key (conn_core cs) = Some (mkKey m d e) ->
  rsa_key m e d -> rsa_undoes m e d (le_val nonce) -> 32 <= len m <= 64 ->
  len nonce = 32 -> is_bytes nonce -> len junk = 64 -> 1001 <= mcs_user_id (rdp_conf rc) < 65536 ->
  exists rc' rs' kc ks pdu,
    rdp_client_establish_keys beyond nonce (s, rc) = Done (true, (s, rc')) /\ sent (rdp_out rc') = sent (rdp_out rc) ++ pdu /\
    takes (rdp_server_establish_keys beyond' junk) pdu rs [] rs' /\
    party l false cc stc kc true rc' /\ party l true cs sts ks true rs' /\ paired kc ks /\ paired ks kc.
Proof.
  intros Hrel Pc Ps Ec Es Mc Ms Hm Rc Rs Hsr Hcert Hkey Hrsa Hund Hlen Hn Hb Hj Hu.
  assert (Hnf : method <> ENCRYPTION_METHOD_FIPS) by (destruct Hm as [-> | ->]; discriminate).
  destruct (establish_pairs beyond method nonce sr Hm Hn Hsr) as (kc & ks & Ekc & Eks & Hp & Hp').
  assert (Eks' : rdp_establish_ciphers beyond' method true nonce sr rdp_sec_new = Done (true, ks))
    by (rewrite <- Eks, !establish_ciphers_run by assumption; reflexivity).
  destruct (client_keys l beyond nonce m e d cc stc kc s rc Hrel Pc Ec Hcert Hrsa) as (rc' & Er & Pc' & Oc);
    rewrite ?Mc, ?Rc; try assumption; try lia; [destruct Hund; lia|].
  destruct (server_keys l beyond' junk (rdp_conf rc) nonce m e d cs sts ks rs Ps Es) as (rs' & Ts & Ps');
    rewrite ?Ms, ?Rs; try assumption.
  exists rc', rs', kc, ks. eexists. split; [exact Er|]. split; [exact Oc|]. auto.
Qed.

(** *** Samples *)

#[local] Existing Instance ZBignum.
#[local] Existing Instance ZBignum_laws.

(** Handlers that leave the connection alone. *)
#[export] Instance QuietHandlers : PduHandlers connection := {
  update_recv := fun s c => Done (s, c);
  update_recv_pointer := fun s c => Done (s, c);
  update_recv_play_sound := fun s c => Done (s, c);
  rdp_recv_save_session_info := fun s c => Done (s, c);
  rdp_recv_redirection := fun s c => Done (s, c);
  BeginPaint := fun c => c;
  EndPaint := fun c => c;
  fastpath_recv_update := fun _ _ s c => Done (s, c);
  ReceiveChannelData := fun _ _ _ _ c => c;
}.

#[export, refine] Instance ConnModules : Modules connection := { conn_of := fun c => c; put_conn := fun c _ => c }.
Proof. all: reflexivity. Defined.

(** The modulus 2^320 - 1, for which 7 and 183 undo each other on powers of two. *)
Definition sample_modulus : list Z := replicate 40 255.
Definition sample_private : list Z := 183 :: replicate 39 0.
Definition sample_public : list Z := [7; 0; 0; 0].
Definition sample_nonce : list Z := 2 :: replicate 31 0.

Lemma sample_rsa : rsa_key sample_modulus sample_public sample_private /\
  rsa_undoes sample_modulus sample_public sample_private (le_val sample_nonce).
Proof.
  split.
  - split; try reflexivity; repeat (apply Forall_cons_2; [split; discriminate || reflexivity|]); apply Forall_nil_2.
  - split; [split; [vm_compute; discriminate|vm_compute; reflexivity]|vm_compute; reflexivity].
Qed.

Definition sample_conn (st : info_settings) : connection := mkConn mcs_new false false st false license_new.
Definition sample_cc : connection := sample_conn (sample_info None 0).
Definition sample_cs : connection :=
  sample_conn (sample_peer <| core := sample_server <| server_key := Some (mkKey sample_modulus sample_private sample_public) |> |>).
Definition sample_rdp (mode : bool) (c : connection) : rdpRdp (list Z) connection :=
  with_conn c (mkRdp (mkFpRdp (mkTransport TRANSPORT_LAYER_TCP true 0 (stream_new 64) (stream_new 64) (stream_new 64) (stream_new 64) [] true false)
                        rdp_sec_new false false 0 0)
                 (packet_conf mode 1002) CONNECTION_STATE_NEGO false 0 0 (mkRecv fastpath_new c (mppc_new []))).

Lemma sample_party mode c : party TRANSPORT_LAYER_TCP mode c CONNECTION_STATE_NEGO rdp_sec_new false (sample_rdp mode c).
Proof.
  split; try reflexivity. split; try reflexivity; try (split; vm_compute; try split; discriminate); vm_compute; discriminate.
Qed.

Lemma sink_reliable : reliable (N := list Z) TRANSPORT_LAYER_TCP.
Proof. intros bs net st net' [= <- <-]. apply len_nonneg. Qed.

(** Both ends after the settings were exchanged. *)
Definition keyed_cc : connection :=
  set_core ((conn_core sample_cc) <| Gcc.encryption_method := 2 |> <| server_random := upto 32 |>
              <| server_cert := server_key_info (mkKey sample_modulus sample_private sample_public) |>)
    (conn_mcs (Mcs.set_user_id 1002 mcs_new) sample_cc).
Definition keyed_cs : connection := set_core ((conn_core sample_cs) <| Gcc.encryption_method := 2 |> <| server_random := upto 32 |>) sample_cs.

Lemma key_exchange_witness :
  exists rc' rs' kc ks pdu,
    rdp_client_establish_keys 0 sample_nonce (stream_new 8, sample_rdp false keyed_cc) = Done (true, (stream_new 8, rc')) /\
    sent (rdp_out rc') = sent (rdp_out (sample_rdp false keyed_cc)) ++ pdu /\
    takes (rdp_server_establish_keys 0 (zeros 64)) pdu (sample_rdp true keyed_cs) [] rs' /\
    party TRANSPORT_LAYER_TCP false keyed_cc CONNECTION_STATE_NEGO kc true rc' /\
    party TRANSPORT_LAYER_TCP true keyed_cs CONNECTION_STATE_NEGO ks true rs' /\ paired kc ks /\ paired ks kc.
Proof.
  destruct sample_rsa as [Hk Hu].
  refine (key_exchange TRANSPORT_LAYER_TCP 0 0 (zeros 64) sample_nonce sample_modulus sample_public sample_private 2 (upto 32) keyed_cc keyed_cs
           CONNECTION_STATE_NEGO CONNECTION_STATE_NEGO (stream_new 8) (sample_rdp false keyed_cc) (sample_rdp true keyed_cs) sink_reliable
           (sample_party false keyed_cc) (sample_party true keyed_cs) eq_refl eq_refl eq_refl eq_refl ltac:(auto) eq_refl eq_refl eq_refl eq_refl
           eq_refl Hk Hu ltac:(split; discriminate) eq_refl _ eq_refl _).
  - repeat (apply Forall_cons_2; [split; discriminate || reflexivity|]). apply Forall_nil_2.
  - split; discriminate || reflexivity.
Defined.

(** The array for the decrypted number has 64 bytes: a longer key writes behind it. *)
Example long_server_key_overflows :
  let key := mkKey (replicate 72 255) (183 :: replicate 71 0) sample_public in
  let c := set_core ((conn_core keyed_cs) <| server_key := Some key |>) keyed_cs in
  let pdu := exchange_pdu (packet_conf false 1002) (replicate 72 1) in
  match rdp_server_establish_keys 0 (zeros 64) (mkSTREAM (len pdu) 0 pdu, sample_rdp true c) with
  | Fault f => f = OutOfBounds
  | Done _ => False
  end.
Proof. vm_compute. reflexivity. Qed.

(** The encrypted number has room for 264 bytes: a certificate with a longer key
    makes the client write behind it. *)
Example long_certificate_key_overflows :
  let c := set_core ((conn_core keyed_cc) <| server_cert := server_key_info (mkKey (replicate 265 255) [] sample_public) |>) keyed_cc in
  match rdp_client_establish_keys 0 sample_nonce (stream_new 8, sample_rdp false c) with
  | Fault f => f = OutOfBounds
  | Done _ => False
  end.
Proof. vm_compute. reflexivity. Qed.
