(* ===== verification/Establish.v ===== *)
(** A connection from the Connect-Initial to the license: the steps of file
    [Connect] on both sides, composed into a system of a client and a server
    with the PDUs under way between them. *)

From coqutil Require Import Datatypes.RecordSetters.
From S2P Require Import Prelude.
From S2P Require Import Stream.
From S2P Require Import Settings.
From S2P Require Import Mppc.
From S2P Require Import Per.
From S2P Require Import X224.
From S2P Require Import Transport.
From S2P Require Import Mcs.
From S2P Require Import Nego.
From S2P Require Import Security.
From S2P Require Import Rsa.
From S2P Require Import Certificate.
From S2P Require Import Input.
From S2P Require Import Gcc.
From S2P Require Import GccClient.
From S2P Require Import GccServer.
From S2P Require Import Fastpath.
From S2P Require Import Rdp.
From S2P Require Import Channel.
From S2P Require Import Poll.
From S2P Require Import Info.
From S2P Require Import License.
From S2P Require Import Connect.
Import TriangleBracketNotations.

(** ** The settings of both ends *)

(** The ids a server gives to [n] channels. *)
Definition channel_ids (i : Z) (n : nat) : list Z := map (fun j => MCS_GLOBAL_CHANNEL_ID + 1 + i + Z.of_nat j) (seq 0 n).

Lemma length_channel_ids i n : length (channel_ids i n) = n.
Proof. unfold channel_ids. rewrite length_map, length_seq. reflexivity. Qed.

Lemma channel_ids_S i n : channel_ids i (S n) = MCS_GLOBAL_CHANNEL_ID + 1 + i :: channel_ids (i + 1) n.
Proof.
  unfold channel_ids. cbn [seq map]. f_equal; [lia|]. rewrite <- seq_shift, map_map. apply map_ext. intros j. lia.
Qed.

Lemma take_over_ids chans : forall i old, (length chans <= length old)%nat ->
  map channel_id (take (length chans) (take_over i chans old)) = channel_ids i (length chans) /\
  length (take_over i chans old) = length old.
Proof.
  induction chans as [|ch chans IH]; intros i old Hl; [split; [reflexivity|destruct old; reflexivity]|].
  destruct old as [|o old]; [cbn in Hl; lia|]. cbn [length take_over take map] in *. rewrite channel_ids_S.
  destruct (IH (i + 1) old ltac:(lia)) as [E1 E2]. rewrite E1, E2. split; reflexivity.
Qed.

Lemma take_over_joined chans : forall i old, Forall (fun ch => joined ch = false) old ->
  Forall (fun ch => joined ch = false) (take_over i chans old).
Proof.
  induction chans as [|ch chans IH]; intros i old Ho; [destruct old; exact Ho|].
  destruct Ho as [|o old Ho Hold]; [constructor|]. cbn [take_over]. constructor; [exact Ho|]. apply IH, Hold.
Qed.

Lemma take_over_range chans : forall i old, Forall (fun ch => 0 <= channel_id ch < 65536) old -> 0 <= i ->
  i + Z.of_nat (length chans) <= 1000 -> Forall (fun ch => 0 <= channel_id ch < 65536) (take_over i chans old).
Proof.
  induction chans as [|ch chans IH]; intros i old Ho Hi Hl; [destruct old; exact Ho|]. cbn [length] in Hl.
  destruct Ho as [|o old Ho Hold]; [constructor|]. cbn [take_over]. constructor; [|apply IH; [exact Hold|lia|lia]].
  change (0 <= 1003 + 1 + i < 65536). lia.
Qed.

Lemma number_ids chans : forall old, (length chans <= length old)%nat ->
  map channel_id (take (length chans) (number chans old)) = map channel_id chans /\ length (number chans old) = length old.
Proof.
  induction chans as [|ch chans IH]; intros old Hl; [split; [reflexivity|destruct old; reflexivity]|].
  destruct old as [|o old]; [cbn in Hl; lia|]. cbn [length number take map] in *.
  destruct (IH old ltac:(lia)) as [E1 E2]. rewrite E1, E2. split; reflexivity.
Qed.

Lemma number_joined chans : forall old, Forall (fun ch => joined ch = false) old -> Forall (fun ch => joined ch = false) (number chans old).
Proof.
  induction chans as [|ch chans IH]; intros old Ho; [destruct old; exact Ho|].
  destruct Ho as [|o old Ho Hold]; [constructor|]. cbn [number]. constructor; [exact Ho|]. apply IH, Hold.
Qed.

Lemma channel_ids_numbered n : (n <= 16)%nat -> numbered 1002 (channel_ids 0 n).
Proof.
  intros Hn. assert (Hr : forall id, id ∈ channel_ids 0 n -> 1004 <= id < 1020).
  { intros id Hin. unfold channel_ids in Hin. apply list_elem_of_fmap in Hin as (j & -> & Hj). apply elem_of_seq in Hj.
    change MCS_GLOBAL_CHANNEL_ID with 1003. lia. }
  split; [split; discriminate || reflexivity|apply Forall_forall; intros id Hin; specialize (Hr id Hin); lia|].
  unfold to_join. apply NoDup_cons. split.
  { intros Hin. rewrite elem_of_cons in Hin; destruct Hin as [E|Hin]; [discriminate E|]. specialize (Hr _ Hin). lia. }
  apply NoDup_cons. split; [intros Hin; specialize (Hr _ Hin); unfold MCS_GLOBAL_CHANNEL_ID in Hr; lia|].
  unfold channel_ids. apply NoDup_fmap_2_strong; [intros x y _ _ E; lia|apply NoDup_seq].
Qed.

(** A client and a server that can agree on their settings: a server without
    standard security, whatever the client offers, or one with it and a client
    that offers the RC4 methods and not FIPS. *)
Record meeting (c sv : rdp_settings) (host prod : list Z) (key : rdp_key) : Prop := {
  mt_client : client_ok c host prod;
  mt_fits : len (blocks (client_blocks c host prod)) <= 487;
  mt_server : server_ok sv key;
  mt_selected : selected_protocol sv = selected_protocol c;
  mt_ciphers : Gcc.encryption sv = true -> Gcc.encryption c = true /\ Z.land (Gcc.encryption_method c) ENCRYPTION_METHOD_FIPS = 0 /\
    (Z.land (Gcc.encryption_method c) ENCRYPTION_METHOD_128BIT <> 0 \/ Z.land (Gcc.encryption_method c) ENCRYPTION_METHOD_40BIT <> 0);
  mt_channels : num_channels c = 0 -> num_channels sv = 0;
  mt_joined : Forall (fun ch => joined ch = false) (Gcc.channels c);
  mt_joined' : Forall (fun ch => joined ch = false) (Gcc.channels sv);
}.

Section settled.
Context (c sv : rdp_settings) (host prod : list Z) (key : rdp_key) (Hmt : meeting c sv host prod key).

Let n := Z.to_nat (num_channels c).
Let sv1 := client_view c sv.
Let crypt := Gcc.encryption sv.

Lemma view_channels_len : length (Gcc.channels sv1) = 16%nat.
Proof.
  pose proof (sv_channels_len _ _ (mt_server _ _ _ _ _ Hmt)) as Hl. unfold sv1, client_view, network_view.
  pose proof (len_client_channels c host prod (mt_client _ _ _ _ _ Hmt)) as Hn. pose proof (ok_num_channels _ _ _ (mt_client _ _ _ _ _ Hmt)).
  assert (E : Gcc.channels (security_view c (cluster_view c (core_view c sv))) = Gcc.channels sv) by apply view_channels.
  destruct (0 <? num_channels c); [|rewrite E; exact Hl].
  cbn [Gcc.channels]. change (length (take_over 0 (client_channels c) (Gcc.channels (security_view c (cluster_view c (core_view c sv))))) = 16%nat).
  rewrite E, (proj2 (take_over_ids (client_channels c) 0 (Gcc.channels sv) ltac:(unfold len in Hn; lia))). exact Hl.
Qed.

Lemma view_num_channels : num_channels sv1 = num_channels c.
Proof.
  unfold sv1, client_view, network_view. pose proof (ok_num_channels _ _ _ (mt_client _ _ _ _ _ Hmt)).
  destruct (Z.ltb_spec 0 (num_channels c)); [reflexivity|].
  transitivity (num_channels sv); [unfold security_view; destruct (Gcc.encryption _); reflexivity|].
  rewrite (mt_channels _ _ _ _ _ Hmt); lia.
Qed.

Lemma view_ids : map channel_id (take n (Gcc.channels sv1)) = channel_ids 0 n.
Proof.
  pose proof (sv_channels_len _ _ (mt_server _ _ _ _ _ Hmt)) as Hl. unfold sv1, client_view, network_view.
  pose proof (len_client_channels c host prod (mt_client _ _ _ _ _ Hmt)) as Hn. pose proof (ok_num_channels _ _ _ (mt_client _ _ _ _ _ Hmt)).
  destruct (Z.ltb_spec 0 (num_channels c)); [|unfold n; replace (num_channels c) with 0 by lia; reflexivity].
  assert (E : n = length (client_channels c)) by (unfold n; unfold len in Hn; lia). rewrite E.
  change (map channel_id (take (length (client_channels c)) (take_over 0 (client_channels c)
            (Gcc.channels (security_view c (cluster_view c (core_view c sv)))))) = channel_ids 0 (length (client_channels c))).
  apply take_over_ids. rewrite view_channels. lia.
Qed.

Lemma view_joined : Forall (fun ch => joined ch = false) (Gcc.channels sv1).
Proof.
  unfold sv1, client_view, network_view.
  assert (E : Gcc.channels (security_view c (cluster_view c (core_view c sv))) = Gcc.channels sv) by apply view_channels.
  destruct (0 <? num_channels c); [|rewrite E; apply (mt_joined' _ _ _ _ _ Hmt)].
  change (Forall (fun ch => joined ch = false) (take_over 0 (client_channels c) (Gcc.channels (security_view c (cluster_view c (core_view c sv)))))).
  rewrite E. apply take_over_joined, (mt_joined' _ _ _ _ _ Hmt).
Qed.

Lemma view_security : Gcc.encryption sv1 = crypt /\
  Gcc.encryption_method sv1 = (if crypt then Gcc.encryption_method c else Gcc.encryption_method sv) /\
  server_key sv1 = Some key /\ requested_protocols sv1 = requested_protocols sv /\ encryption_level sv1 = encryption_level sv.
Proof.
  pose proof (sv_key _ _ (mt_server _ _ _ _ _ Hmt)) as Hk. unfold sv1, client_view, network_view, security_view.
  change (Gcc.encryption (cluster_view c (core_view c sv))) with crypt.
  destruct crypt eqn:E; unfold crypt in E; destruct (0 <? num_channels c); repeat split; assumption.
Qed.

Lemma view_server_ok : server_ok sv1 key.
Proof.
  destruct view_security as (_ & Em & Ek & Er & El). pose proof (mt_server _ _ _ _ _ Hmt) as [S1 S2 S3 S4 S5 S6 S7 S8 S9 S10 S11].
  pose proof (mt_client _ _ _ _ _ Hmt) as Hc.
  split; rewrite ?Em, ?Er, ?El, ?view_num_channels; try assumption; try apply view_channels_len;
    [destruct crypt; [apply (ok_method _ _ _ Hc)|assumption]|apply (ok_num_channels _ _ _ Hc)|].
  unfold sv1, client_view, network_view.
  assert (E : Gcc.channels (security_view c (cluster_view c (core_view c sv))) = Gcc.channels sv) by apply view_channels.
  destruct (0 <? num_channels c); [|rewrite E; exact S6].
  change (Forall (fun ch => 0 <= channel_id ch < 65536)
            (take_over 0 (client_channels c) (Gcc.channels (security_view c (cluster_view c (core_view c sv)))))).
  rewrite E. pose proof (len_client_channels c host prod Hc) as Hn. pose proof (ok_num_channels _ _ _ Hc).
  apply (take_over_range (client_channels c) 0); [exact S6|lia|unfold len in Hn; lia].
Qed.

(** What is settled: one of the two RC4 methods, or no encryption. *)
Lemma settled_method : let m := Gcc.encryption_method (server_encryption sv1) in
  (if crypt then m = 1 \/ m = 2 else m = 0) /\ encrypts (server_encryption sv1) = crypt /\ Gcc.encryption (server_encryption sv1) = crypt /\
  server_key (server_encryption sv1) = Some key /\ Gcc.channels (server_encryption sv1) = Gcc.channels sv1 /\
  num_channels (server_encryption sv1) = num_channels sv1.
Proof.
  destruct view_security as (He & Em & Ek & _ & _). cbv zeta. unfold server_encryption. cbv zeta. rewrite He, Em.
  pose proof (mt_ciphers _ _ _ _ _ Hmt) as Hc. fold crypt in Hc. destruct crypt; cbn [negb]; [|repeat split; assumption].
  destruct (Hc eq_refl) as (Hc' & Hf & Hm). rewrite Hf. cbn [negb Z.eqb].
  assert (Hdone : forall m s, s = sv1 <| Gcc.encryption_method := m |> -> m = 1 \/ m = 2 ->
    let s' := if negb (Gcc.encryption_method s =? ENCRYPTION_METHOD_NONE) then s <| encryption_level := ENCRYPTION_LEVEL_CLIENT_COMPATIBLE |> else s in
    (Gcc.encryption_method s' = 1 \/ Gcc.encryption_method s' = 2) /\ encrypts s' = true /\ Gcc.encryption s' = true /\
    server_key s' = Some key /\ Gcc.channels s' = Gcc.channels sv1 /\ num_channels s' = num_channels sv1).
  { intros m s -> Hm'. cbv zeta. change (Gcc.encryption_method (sv1 <| Gcc.encryption_method := m |>)) with m.
    destruct Hm' as [-> | ->]; cbn [negb Z.eqb ENCRYPTION_METHOD_NONE]; repeat split; auto. }
  destruct (Z.eqb_spec (Z.land (Gcc.encryption_method c) ENCRYPTION_METHOD_128BIT) 0) as [E0|_]; cbn [negb].
  - destruct (Z.eqb_spec (Z.land (Gcc.encryption_method c) ENCRYPTION_METHOD_40BIT) 0) as [E1|_]; cbn [negb].
    + destruct Hm; contradiction.
    + apply (Hdone ENCRYPTION_METHOD_40BIT); auto.
  - apply (Hdone ENCRYPTION_METHOD_128BIT); auto.
Qed.

Lemma view_version : rdp_version sv1 = if 5 <=? rdp_version c then 7 else 4.
Proof. unfold sv1, client_view, network_view, security_view. destruct (0 <? num_channels c), (Gcc.encryption _); reflexivity. Qed.

(** The settings of the server once it has answered. *)
Lemma settled_server `{Crypto} `{Bignum} nonce : let st := answered nonce sv1 in
  Gcc.encryption st = crypt /\ Gcc.encryption_method st = Gcc.encryption_method (server_encryption sv1) /\
  (crypt = true -> server_random st = nonce) /\
  server_key st = Some key /\ rdp_version st = rdp_version sv1 /\ Gcc.channels st = Gcc.channels sv1 /\ num_channels st = num_channels c.
Proof.
  destruct settled_method as (_ & He & Henc & Hk & Hch & Hn). cbv zeta. unfold answered. rewrite He.
  assert (Hv : rdp_version (server_encryption sv1) = rdp_version sv1).
  { unfold server_encryption. cbv zeta. repeat (match goal with |- context [if ?b then _ else _] => destruct b end); reflexivity. }
  rewrite view_num_channels in Hn. destruct crypt; repeat split; assumption || discriminate.
Qed.

(** Those of the client that has read the answer. *)
Lemma settled_client `{Crypto} `{Bignum} nonce : let st := server_view sv1 nonce key c in
  Gcc.encryption st = crypt /\ Gcc.encryption_method st = Gcc.encryption_method (server_encryption sv1) /\
  (crypt = true -> server_random st = nonce /\ cert_info (server_cert st) = mkCertInfo (k_modulus key) (k_exponent key)) /\
  rdp_version st = rdp_version c /\
  performance_flags st = performance_flags c /\ Gcc.channels st = number (server_channels sv1) (Gcc.channels c) /\ num_channels st = num_channels c.
Proof.
  destruct settled_method as (_ & He & _). cbv zeta. unfold server_view, server_security_view. cbv zeta. rewrite He.
  assert (Hc : server_core_view sv1 c = c).
  { unfold server_core_view. rewrite view_version. destruct (Z.leb_spec 5 (rdp_version c)); cbn [Z.eqb Pos.eqb];
      rewrite ?(proj2 (Z.ltb_ge (rdp_version c) 5)), ?(proj2 (Z.ltb_ge 4 (rdp_version c))) by lia; reflexivity. }
  rewrite Hc. pose proof (mt_ciphers _ _ _ _ _ Hmt) as Hk. fold crypt in Hk.
  destruct crypt; repeat split; try discriminate. apply Hk, eq_refl.
Qed.

Lemma length_server_channels : length (server_channels sv1) = n.
Proof.
  unfold server_channels. rewrite length_take, view_channels_len, view_num_channels. pose proof (ok_num_channels _ _ _ (mt_client _ _ _ _ _ Hmt)).
  unfold n. lia.
Qed.

Lemma settled_channels : let chans := number (server_channels sv1) (Gcc.channels c) in
  map channel_id (take n chans) = channel_ids 0 n /\ length chans = 16%nat /\ Forall (fun ch => joined ch = false) chans.
Proof.
  pose proof (ok_channels_len _ _ _ (mt_client _ _ _ _ _ Hmt)) as Hl. pose proof length_server_channels as Hs.
  pose proof (ok_num_channels _ _ _ (mt_client _ _ _ _ _ Hmt)) as Hn.
  destruct (number_ids (server_channels sv1) (Gcc.channels c)) as [E1 E2]; [rewrite Hs; unfold n; lia|]. cbv zeta.
  rewrite <- Hs at 1. rewrite E1, E2. split; [|split; [exact Hl|apply number_joined, (mt_joined _ _ _ _ _ Hmt)]].
  unfold server_channels. rewrite view_num_channels. apply view_ids.
Qed.
End settled.

(** ** The phases in turn *)

Lemma joins_start ids c : user_channel_joined c = false -> global_channel_joined c = false -> num_channels (conn_core c) = len ids ->
  (length ids <= length (Gcc.channels (conn_core c)))%nat -> map channel_id (take (length ids) (Gcc.channels (conn_core c))) = ids ->
  Forall (fun ch => joined ch = false) (Gcc.channels (conn_core c)) -> joins ids 0 c.
Proof.
  intros Hu Hg Hn Hm Hi Hj. split; try assumption. intros j ch E. apply lookup_take_Some in E as [E _].
  rewrite Forall_lookup in Hj. rewrite (Hj _ _ E). symmetry. apply Nat.ltb_ge. lia.
Qed.

Section phases.
Context {N U : Type} (l : TRANSPORT_LAYER) `{HLink : LinkLaws N l} `{HC : Crypto} `{HL : !CryptoLaws} `{HB : Bignum}
  `{HBL : !BignumLaws} `{HH : PduHandlers U} `{HM : Modules U} (Hrel : reliable (N := N) l).

Lemma packet_holds bs : holds (mkSTREAM (len bs) 0 bs) bs.
Proof. rewrite <- (app_nil_r bs) at 2. apply holds_start. apply Z.le_refl. Qed.

Lemma server_connects nonce key c sv host prod m cs st k crypt (r : rdpRdp N U) :
  party l true cs st k crypt r -> conn_core cs = sv -> meeting c sv host prod key -> valid_mcs m -> valid_mcs (mcs_read_back m (cn_mcs cs)) ->
  len nonce = 32 -> is_bytes nonce ->
  let m1 := mcs_read_back m (cn_mcs cs) in
  exists r', takes (rdp_server_accept_mcs_connect_initial nonce) (connect_initial_pdu m c host prod) r
               (connect_response_pdu m1 (client_view c sv) nonce key) r' /\
    party l true (conn_mcs (set_domainParameters (targetParameters m1) m1) (set_core (answered nonce (client_view c sv)) cs))
      CONNECTION_STATE_MCS_CONNECT k crypt r'.
Proof.
  intros Hp Hsv Hmt Hm Hm1 Hn Hnb m1. unfold takes, rdp_server_accept_mcs_connect_initial.
  rewrite (bind_Done _ _ _ _ _ (conn_run _ _ _ _ _ _ _ _ Hp)).
  rewrite (bind_Done _ _ _ _ _ (Reads_packet _ _ _ r (Reads_connect_initial_pdu m (cn_mcs cs) c host prod (conn_core cs)
            (mt_client _ _ _ _ _ Hmt) Hm (mt_fits _ _ _ _ _ Hmt) ltac:(rewrite Hsv; apply (mt_selected _ _ _ _ _ Hmt))
            ltac:(rewrite Hsv; apply (sv_channels_len _ _ (mt_server _ _ _ _ _ Hmt)))))).
  rewrite Hsv. fold m1. set (s1 := adv _ _).
  edestruct (conn_upd_run l _ _ _ _ _ (fun c0 => conn_mcs m1 (set_core (client_view c sv) c0)) s1 r Hp) as (r1 & E1 & P1 & O1).
  rewrite (bind_Done _ _ _ _ _ E1). cbn [negb].
  destruct (sends_connect_response l Hrel m1 (client_view c sv) nonce key (view_server_ok _ _ _ _ _ Hmt) Hn Hnb Hm1 _ _ _ _ _ s1 r1 P1)
    as (r2 & E2 & O2 & P2).
  rewrite (bind_Done _ _ _ _ _ E2).
  edestruct (conn_upd_run l _ _ _ _ _ (fun c0 => conn_mcs (set_domainParameters (targetParameters m1) m1) (set_core (answered nonce (client_view c sv)) c0))
               s1 r2 P2) as (r3 & E3 & P3 & O3).
  rewrite (bind_Done _ _ _ _ _ E3). cbn [negb].
  exists (with_state CONNECTION_STATE_MCS_CONNECT r3). split.
  - exists s1. split; [reflexivity|]. change (sent (rdp_out (with_state _ r3))) with (sent (rdp_out r3)). rewrite O3, O2, O1. reflexivity.
  - apply (party_state l _ _ _ _ _ CONNECTION_STATE_MCS_CONNECT r3 P3).
Qed.

Lemma server_erects cs st k crypt (r : rdpRdp N U) : party l true cs st k crypt r ->
  exists r', takes rdp_server_accept_mcs_erect_domain_request erect_domain_request_bytes r [] r' /\
    party l true cs CONNECTION_STATE_MCS_ERECT_DOMAIN k crypt r'.
Proof.
  intros Hp. exists (with_state CONNECTION_STATE_MCS_ERECT_DOMAIN r). split; [|apply (party_state l _ _ _ _ _ _ _ Hp)].
  pose proof (Reads_header_only DomainMCSPDU_ErectDomainRequest 12 0 ltac:(lia) eq_refl) as Hr.
  destruct (holds_app _ (mcspdu_header_bytes DomainMCSPDU_ErectDomainRequest 12 0) [1; 0; 1; 0]
              (packet_holds erect_domain_request_bytes)) as [Hh _].
  eexists. rewrite app_nil_r. split; [|reflexivity]. unfold rdp_server_accept_mcs_erect_domain_request.
  rewrite (bind_Done _ _ _ _ _ (pkt_run _ _ r _ _ (Hr _ Hh))). reflexivity.
Qed.

Lemma server_attaches cs st k crypt (r : rdpRdp N U) : party l true cs st k crypt r ->
  exists r', takes rdp_server_accept_mcs_attach_user_request attach_user_request_bytes r (attach_user_confirm_bytes 1002) r' /\
    party l true (conn_mcs (Mcs.set_user_id 1002 (cn_mcs cs)) cs) CONNECTION_STATE_MCS_ATTACH_USER k crypt r'.
Proof.
  intros Hp. unfold takes, rdp_server_accept_mcs_attach_user_request.
  pose proof (Reads_header_only DomainMCSPDU_AttachUserRequest 8 0 ltac:(lia) eq_refl) as Hr.
  rewrite (bind_Done _ _ _ _ _ (Reads_packet _ attach_user_request_bytes _ r Hr)). set (s1 := adv _ _). cbn [negb].
  rewrite (bind_Done _ _ _ _ _ (conn_run _ _ _ _ _ _ _ _ Hp)).
  destruct (sends_attach_user_confirm l Hrel (cn_mcs cs) _ _ _ _ _ s1 r Hp) as (r1 & E1 & O1 & P1).
  rewrite (bind_Done _ _ _ _ _ E1).
  edestruct (conn_upd_run l _ _ _ _ _ (conn_mcs (Mcs.set_user_id 1002 (cn_mcs cs))) s1 r1 P1) as (r2 & E2 & P2 & O2).
  rewrite (bind_Done _ _ _ _ _ E2). cbn [negb]. exists (with_state CONNECTION_STATE_MCS_ATTACH_USER r2). split.
  - exists s1. split; [reflexivity|]. change (sent (rdp_out (with_state _ r2))) with (sent (rdp_out r2)). rewrite O2, O1. reflexivity.
  - apply (party_state l _ _ _ _ _ _ _ P2).
Qed.

Lemma client_connects nonce key c sv1 m1 cc st k crypt (r : rdpRdp N U) :
  party l false cc st k crypt r -> conn_core cc = c -> server_ok sv1 key -> len nonce = 32 -> is_bytes nonce -> valid_mcs m1 ->
  length (Gcc.channels c) = 16%nat ->
  exists r', takes rdp_client_connect_mcs_connect_response (connect_response_pdu m1 sv1 nonce key) r
               (erect_domain_request_bytes ++ attach_user_request_bytes) r' /\
    party l false (conn_mcs (set_domainParameters (parameters_read_back (targetParameters m1)) (cn_mcs cc)) (set_core (server_view sv1 nonce key c) cc))
      CONNECTION_STATE_MCS_ATTACH_USER k crypt r'.
Proof.
  intros Hp Hc Hsv Hn Hnb Hm Hch. unfold takes, rdp_client_connect_mcs_connect_response.
  rewrite (bind_Done _ _ _ _ _ (conn_run _ _ _ _ _ _ _ _ Hp)).
  rewrite (bind_Done _ _ _ _ _ (Reads_packet _ _ _ r (Reads_connect_response_pdu m1 (cn_mcs cc) sv1 nonce key (conn_core cc)
            Hsv Hn Hnb Hm ltac:(rewrite Hc; exact Hch)))). rewrite Hc. set (s1 := adv _ _).
  match goal with |- context [conn_upd ?f] => edestruct (conn_upd_run l _ _ _ _ _ f s1 r Hp) as (r1 & E1 & P1 & O1) end.
  rewrite (bind_Done _ _ _ _ _ E1). cbn [negb].
  destruct (sends_erect_domain l Hrel _ _ _ _ _ s1 r1 P1) as (r2 & E2 & O2 & P2). rewrite (bind_Done _ _ _ _ _ E2). cbn [negb].
  destruct (sends_attach_user_request l Hrel _ _ _ _ _ s1 r2 P2) as (r3 & E3 & O3 & P3). rewrite (bind_Done _ _ _ _ _ E3). cbn [negb].
  exists (with_state CONNECTION_STATE_MCS_ATTACH_USER r3). split.
  - exists s1. split; [reflexivity|]. change (sent (rdp_out (with_state _ r3))) with (sent (rdp_out r3)).
    rewrite O3, O2, O1, <- app_assoc. reflexivity.
  - apply (party_state l _ _ _ _ _ _ _ P3).
Qed.

Lemma client_attaches uid cc st k crypt (r : rdpRdp N U) : party l false cc st k crypt r -> MCS_BASE_CHANNEL_ID <= uid < 65536 ->
  exists r', takes rdp_client_connect_mcs_attach_user_confirm (attach_user_confirm_bytes uid) r (channel_join_request_bytes uid uid) r' /\
    party l false (conn_mcs (Mcs.set_user_id uid (cn_mcs cc)) cc) CONNECTION_STATE_MCS_CHANNEL_JOIN k crypt r'.
Proof.
  intros Hp Hu. unfold takes, rdp_client_connect_mcs_attach_user_confirm.
  rewrite (bind_Done _ _ _ _ _ (conn_run _ _ _ _ _ _ _ _ Hp)).
  rewrite (bind_Done _ _ _ _ _ (Reads_packet _ _ _ r (Reads_attach_user_confirm (cn_mcs cc) uid Hu))). set (s1 := adv _ _).
  edestruct (conn_upd_run l _ _ _ _ _ (conn_mcs (Mcs.set_user_id uid (cn_mcs cc))) s1 r Hp) as (r1 & E1 & P1 & O1).
  rewrite (bind_Done _ _ _ _ _ E1). cbn [negb]. change (user_id (Mcs.set_user_id uid (cn_mcs cc))) with uid.
  destruct (sends_join_request l Hrel (Mcs.set_user_id uid (cn_mcs cc)) uid _ _ _ _ _ s1 r1 P1) as (r2 & E2 & O2 & P2).
  rewrite (bind_Done _ _ _ _ _ E2). cbn [negb]. exists (with_state CONNECTION_STATE_MCS_CHANNEL_JOIN r2). split.
  - exists s1. split; [reflexivity|]. change (sent (rdp_out (with_state _ r2))) with (sent (rdp_out r2)). rewrite O2, O1. reflexivity.
  - apply (party_state l _ _ _ _ _ _ _ P2).
Qed.

(** A channel before the last one. *)
Lemma client_joins beyond nonce local uid ids i id id' cc st k crypt (r : rdpRdp N U) :
  party l false cc st k crypt r -> numbered uid ids -> joins ids i cc -> user_id (cn_mcs cc) = uid ->
  to_join uid ids !! i = Some id -> to_join uid ids !! S i = Some id' ->
  exists r', takes (rdp_client_connect_mcs_channel_join_confirm beyond nonce local) (channel_join_confirm_bytes uid id) r
               (channel_join_request_bytes uid id') r' /\ party l false (join_next i cc) st k crypt r'.
Proof.
  intros Hp Hnb Hj Hu E E'. pose proof (lookup_lt_Some _ _ _ E') as Hlt. unfold to_join in Hlt. cbn [length] in Hlt.
  unfold takes, rdp_client_connect_mcs_channel_join_confirm.
  rewrite (bind_Done _ _ _ _ _ (Reads_packet _ _ _ r (Reads_channel_join_confirm uid id (nb_user _ _ Hnb) (numbered_id _ _ _ _ Hnb E)))).
  cbn [negb]. unfold use. rewrite bind_ret. set (s1 := adv _ _).
  destruct (client_confirmed l Hrel uid ids i id cc st k crypt s1 r Hp Hnb Hj Hu E) as (all & r1 & E1 & P1 & O1 & Hall).
  rewrite (bind_Done _ _ _ _ _ E1). cbn [negb]. rewrite (bind_Done _ _ _ _ _ (conn_run _ _ _ _ _ _ _ _ P1)), Hall.
  rewrite (proj2 (Nat.eqb_neq _ _)) by (cbn; lia). exists r1. split; [|exact P1]. exists s1. rewrite O1, E'. auto.
Qed.
End phases.

(** ** From the last channel to the license *)

Lemma exchange_pdu_conf conf cipher : exchange_pdu conf cipher = exchange_pdu (packet_conf (server_mode conf) (mcs_user_id conf)) cipher.
Proof. reflexivity. Qed.

Lemma license_pdu_conf conf type body : license_pdu conf type body = license_pdu (packet_conf (server_mode conf) (mcs_user_id conf)) type body.
Proof. reflexivity. Qed.

(** The client info does not depend on the channels. *)
Lemma info_ok_core c st x : performance_flags st = performance_flags (core c) -> info_ok c x -> info_ok (c <| core := st |>) x.
Proof.
  intros E [I1 I2 I3 I4 I5 I6 I7 I8 I9 I10 I11 I12]. split; try assumption.
  change (core (c <| core := st |>)) with st. rewrite E. exact I11.
Qed.

Lemma info_bytes_core local c st x : performance_flags st = performance_flags (core c) ->
  (5 <=? rdp_version st) = (5 <=? rdp_version (core c)) -> info_bytes local (c <| core := st |>) x = info_bytes local c x.
Proof.
  intros Ep Ev. unfold info_bytes. change (core (c <| core := st |>)) with st. rewrite Ev.
  change (packet_head (c <| core := st |>) x) with (packet_head c x). destruct (5 <=? rdp_version (core c)); [|reflexivity].
  unfold extended_bytes. change (core (c <| core := st |>)) with st. rewrite Ep. reflexivity.
Qed.

Lemma zoned_core local c : core (zoned local c) = core c.
Proof. unfold zoned. destruct (5 <=? rdp_version (core c)); reflexivity. Qed.

(** What joining a channel leaves alone. *)
Lemma join_next_core i c : exists st, cn_settings (join_next i c) = (cn_settings c) <| core := st |> /\
  Gcc.encryption st = Gcc.encryption (conn_core c) /\ Gcc.encryption_method st = Gcc.encryption_method (conn_core c) /\
  server_random st = server_random (conn_core c) /\ server_cert st = server_cert (conn_core c) /\
  server_key st = server_key (conn_core c) /\ rdp_version st = rdp_version (conn_core c) /\
  performance_flags st = performance_flags (conn_core c) /\ client_hostname st = client_hostname (conn_core c).
Proof.
  destruct i as [|[|i]].
  - exists (conn_core c). repeat split. destruct c as [m u g [] sc lic]. reflexivity.
  - exists (conn_core c). repeat split. destruct c as [m u g [] sc lic]. reflexivity.
  - eexists. split; [reflexivity|]. repeat split.
Qed.

Lemma join_next_rest i c : cn_mcs (join_next i c) = cn_mcs c /\ cn_license (join_next i c) = cn_license c /\
  secure_checksum (join_next i c) = secure_checksum c.
Proof. destruct i as [|[|i]]; repeat split. Qed.

(** An end that sends to the other, between two packets. *)
Lemma parties_linked {N N' U U'} l `{LinkLaws N l} `{LinkLaws N' l} `{Crypto} `{Modules U} `{Modules U'} mode mode' crypt c st k cs sts ks
    (rc : rdpRdp N U) (rs : rdpRdp N' U') :
  party l mode c st k crypt rc -> party l mode' cs sts ks crypt rs -> (crypt = true -> paired k ks) ->
  Gcc.encryption (conn_core cs) = crypt -> Gcc.encryption_method (conn_core c) <> ENCRYPTION_METHOD_FIPS ->
  Gcc.encryption_method (conn_core cs) <> ENCRYPTION_METHOD_FIPS -> linked l crypt (rdp_out rc) rs.
Proof.
  intros [Cc Cst Cm Cf Ce [Sl Sf Sz Sp Sg] Ck Ccr Cd] [Dc Dst Dm Df De _ Dk Dcr Dd] Hk Henc Hf Hf'.
  split; try assumption; try (rewrite Ce; exact Hf); try (rewrite De; exact Hf').
  - rewrite Ck, Dk. exact Hk.
  - rewrite <- Df. exact Henc.
Qed.

(** Both directions. *)
Lemma parties_duplex {N N' U U'} l `{LinkLaws N l} `{LinkLaws N' l} `{Crypto} `{Modules U} `{Modules U'} mode mode' crypt c st k cs sts ks
    (rc : rdpRdp N U) (rs : rdpRdp N' U') :
  party l mode c st k crypt rc -> party l mode' cs sts ks crypt rs ->
  (crypt = true -> paired k ks) -> (crypt = true -> paired ks k) ->
  Gcc.encryption (conn_core c) = crypt -> Gcc.encryption (conn_core cs) = crypt ->
  Gcc.encryption_method (conn_core c) <> ENCRYPTION_METHOD_FIPS ->
  Gcc.encryption_method (conn_core cs) <> ENCRYPTION_METHOD_FIPS -> duplex l l crypt rc rs.
Proof. intros Pc Ps Hk Hk' Hc Hs Hf Hf'. split; eapply parties_linked; eassumption. Qed.

(** The ciphers of the client, where there are any. *)
Definition client_ciphers `{Crypto} (beyond : Z) (crypt : bool) (nonce m e : list Z) (st : rdp_settings) (k : rdpSec) : Prop :=
  if crypt
  then cert_info (server_cert st) = mkCertInfo m e /\
       rdp_establish_ciphers beyond (Gcc.encryption_method st) false nonce (server_random st) rdp_sec_new = Done (true, k)
  else k = rdp_sec_new.

(** What the client sends for them. *)
Definition exchanged (crypt : bool) (uid : Z) (nonce m e : list Z) : list (list Z) :=
  if crypt then [exchange_pdu (packet_conf false uid) (le_bytes (len m) (le_val nonce ^ le_val e mod le_val m)) ] else [].

Section finishing.
Context {N N' U U' : Type} (l : TRANSPORT_LAYER) `{HLink : LinkLaws N l} `{HLink' : LinkLaws N' l} `{HC : Crypto} `{HL : !CryptoLaws}
  `{HB : Bignum} `{HBL : !BignumLaws} `{HH : PduHandlers U} `{HH' : PduHandlers U'} `{HM : Modules U} `{HM' : Modules U'}
  (Hrel : reliable (N := N) l) (Hrel' : reliable (N := N') l).

Lemma client_ciphered beyond crypt nonce m e d c st k' s (r : rdpRdp N U) :
  party l false c st rdp_sec_new false r -> Gcc.encryption (conn_core c) = crypt ->
  client_ciphers beyond crypt nonce m e (conn_core c) k' -> rsa_key m e d -> 0 < le_val m -> 32 <= len m <= 256 ->
  is_bytes nonce -> len nonce = 32 ->
  exists r', rdp_client_establish_keys beyond nonce (s, r) = Done (true, (s, r')) /\ party l false c st k' crypt r' /\
    sent (rdp_out r') = sent (rdp_out r) ++ concat (exchanged crypt (mcs_user_id (rdp_conf r)) nonce m e).
Proof.
  intros Hp Henc Hk Hkey Hpos Hm Hnn Hn. destruct crypt; cbn [client_ciphers exchanged concat] in *.
  - destruct Hk as [Hcert Ek].
    destruct (client_keys l beyond nonce m e d c st k' s r Hrel Hp Henc Hcert Hkey Hpos Hm Hnn Hn Ek) as (r' & E & P & O).
    exists r'. rewrite app_nil_r, O, exchange_pdu_conf, (pt_mode _ _ _ _ _ _ _ Hp). auto.
  - subst k'. exists r. rewrite app_nil_r. split; [|auto]. unfold rdp_client_establish_keys.
    rewrite (bind_Done _ _ _ _ _ (conn_run _ _ _ _ _ _ _ _ Hp)). unfold bind at 1, rdp_of. cbn [snd]. cbv zeta. rewrite Henc. reflexivity.
Qed.

Lemma party_sec mode c st k k' crypt (r : rdpRdp N' U') : party l mode c st k crypt r ->
  party l mode c st k' crypt (with_sec k' r).
Proof. intros [Dc Dst Dm Df De [Sl Sf Sz Sp Sg] Dk Dcr Dd]. split; try assumption; try reflexivity. split; assumption. Qed.

Lemma client_finishes beyond crypt nonce local x uid ids id m e d cc st k' cs sts ks (rc : rdpRdp N U) (rb : rdpRdp N' U') :
  let c1 := join_next (S (length ids)) cc in
  l <> TRANSPORT_LAYER_TSG -> party l false cc st rdp_sec_new false rc -> numbered uid ids -> joins ids (S (length ids)) cc ->
  user_id (cn_mcs cc) = uid -> to_join uid ids !! S (length ids) = Some id ->
  Gcc.encryption (conn_core cc) = crypt -> client_ciphers beyond crypt nonce m e (conn_core cc) k' -> rsa_key m e d ->
  0 < le_val m -> 32 <= len m <= 256 -> is_bytes nonce -> len nonce = 32 ->
  Gcc.encryption_method (conn_core cc) <> ENCRYPTION_METHOD_FIPS ->
  info_ok (cn_settings cc) x -> lengths_ok x -> local_ok local (x_standard x) (x_daylight x) -> len (info_bytes local (cn_settings cc) x) <= 2021 ->
  party l true cs sts ks crypt rb -> (crypt = true -> paired k' ks) -> Gcc.encryption (conn_core cs) = crypt ->
  Gcc.encryption_method (conn_core cs) <> ENCRYPTION_METHOD_FIPS -> (5 <=? rdp_version (conn_core cs)) = (5 <=? rdp_version (conn_core cc)) ->
  exists pdu rc' s' rb',
    takes (rdp_client_connect_mcs_channel_join_confirm beyond nonce local) (channel_join_confirm_bytes uid id) rc
      (concat (exchanged crypt uid nonce m e) ++ pdu) rc' /\
    party l false (c1 <| cn_settings := zoned local (cn_settings c1) |>) CONNECTION_STATE_LICENSE (fp_sec (rdp_out rc')) crypt rc' /\
    pdu_length l pdu = Done (len pdu) /\
    rdp_recv_client_info (cn_settings cs) (mkSTREAM (len pdu) 0 pdu, rb) = Done ((true, info_view local (cn_settings c1) x (cn_settings cs)), (s', rb')) /\
    rb' = with_sec (fp_sec (rdp_out rb')) rb /\ (crypt = true -> paired (fp_sec (rdp_out rc')) (fp_sec (rdp_out rb'))) /\
    (crypt = true -> paired ks k' -> paired (fp_sec (rdp_out rb')) (fp_sec (rdp_out rc'))).
Proof.
  intros c1 Htsg Hp Hnb Hj Hu E Henc Ek Hkey Hpos Hm Hnn Hn Hf Hi Hli Hlo Hil Hps Hpair Henc' Hf' Hv.
  pose proof Hnb as [Hur _ _]. unfold takes, rdp_client_connect_mcs_channel_join_confirm.
  rewrite (bind_Done _ _ _ _ _ (Reads_packet _ _ _ rc (Reads_channel_join_confirm uid id Hur (numbered_id _ _ _ _ Hnb E)))).
  cbn [negb]. unfold use. rewrite bind_ret. set (s1 := adv _ _).
  destruct (client_confirmed l Hrel uid ids (S (length ids)) id cc st rdp_sec_new false s1 rc Hp Hnb Hj Hu E) as (all & r1 & E1 & P1 & O1 & Hall).
  rewrite (bind_Done _ _ _ _ _ E1). cbn [negb]. fold c1 in P1, Hall.
  rewrite (bind_Done _ _ _ _ _ (conn_run _ _ _ _ _ _ _ _ P1)), Hall, (proj2 (Nat.eqb_eq _ _)) by reflexivity.
  rewrite (lookup_ge_None_2 (to_join uid ids)) in O1 by (unfold to_join; cbn [length]; lia). rewrite app_nil_r in O1.
  destruct (join_next_core (S (length ids)) cc) as (st1 & Es & F1 & F2 & F3 & F4 & F5 & F6 & F7 & _). fold c1 in Es.
  assert (Ec : conn_core c1 = st1) by (unfold conn_core; rewrite Es; reflexivity).
  destruct (join_next_rest (S (length ids)) cc) as (R1 & _ & _). fold c1 in R1.
  assert (Ek1 : client_ciphers beyond crypt nonce m e (conn_core c1) k')
    by (unfold client_ciphers in *; rewrite Ec, F2, F3, F4; exact Ek).
  destruct (client_ciphered beyond crypt nonce m e d c1 st k' s1 r1 P1) as (r2 & E2 & P2 & O2);
    try assumption; [rewrite Ec, F1; exact Henc|].
  rewrite (bind_Done _ _ _ _ _ E2). cbn [negb]. unfold bind at 1, rdp_of. cbn [snd].
  assert (Hln : linked l crypt (rdp_out r2) rb).
  { apply (parties_linked l _ _ _ _ _ _ _ _ _ _ _ P2 Hps Hpair Henc'); [rewrite Ec, F2; exact Hf|exact Hf']. }
  assert (Huid' : forall k b (r : rdpRdp N U), party l false c1 st k b r -> mcs_user_id (rdp_conf r) = uid)
    by (intros k b r [_ _ _ Hc _ _ _ _ _]; rewrite <- Hc; cbn [mcs_user_id conn_conf]; rewrite R1; exact Hu).
  destruct (info_delivery l (rdp_conf r2) local crypt (rdp_out r2) rb (cn_settings c1) x (cn_settings cs) Hln Htsg)
    as (ok & o & kk & pdu & s' & rb' & Ei & Oi & Hok & Hpl & Hrb & Er); try assumption.
  { rewrite Es. apply info_ok_core; assumption. }
  { rewrite Es, info_bytes_core; [exact Hil|exact F7|rewrite F6; reflexivity]. }
  { rewrite (Huid' _ _ r2 P2). unfold MCS_BASE_CHANNEL_ID in Hur. lia. }
  { rewrite Es. change (core (_ <| core := st1 |>)) with st1. rewrite F6. exact Hv. }
  destruct ok; [|destruct Hok; contradiction]. destruct Hok as (Hk & Hln' & Hcfg & Hback). rewrite take_ge in Oi by exact Hk.
  rewrite (bind_Done _ _ _ _ _ (out_of_run _ s1 r2 _ _ Ei)).
  assert (P3 : party l false c1 st (fp_sec o) crypt (with_out o r2)).
  { unfold fp_cfg in Hcfg. injection Hcfg as Hc1 Hc2 Hc3. destruct P2 as [Qc Qst Qm Qf Qe _ Qk Qcr Qd].
    destruct Hln' as [Ll Lf Lz Lp Lg Lc _ _ _ _ _]. split; try assumption; try reflexivity.
    - cbn [rdp_out with_out]. rewrite Hc3. exact Qe.
    - split; assumption. }
  match goal with |- context [conn_upd ?f] => edestruct (conn_upd_run l _ _ _ _ _ f s1 _ P3) as (r4 & E4 & P4 & O4) end.
  rewrite (bind_Done _ _ _ _ _ E4). cbn [negb]. cbv beta in P4.
  pose proof (party_state l _ _ _ _ _ CONNECTION_STATE_LICENSE _ P4) as P5. set (rc' := with_state CONNECTION_STATE_LICENSE r4) in *.
  assert (Hsec : fp_sec (rdp_out rc') = fp_sec o) by apply (pt_sec _ _ _ _ _ _ _ P5).
  exists pdu, rc', s', rb'. split.
  { exists s1. split; [reflexivity|]. change (sent (rdp_out rc')) with (sent (rdp_out r4)). rewrite O4. change (rdp_out (with_out o r2)) with o.
    rewrite Oi, O2, O1, (Huid' _ _ r1 P1), <- app_assoc. reflexivity. }
  rewrite Hsec. split; [exact P5|]. split; [exact Hpl|]. split; [exact Er|]. split; [exact Hrb|].
  split; [exact (ln_paired _ _ _ _ Hln')|]. intros Hcr Hb. apply (Hback Hcr).
  rewrite (pt_sec _ _ _ _ _ _ _ P2), (pt_sec _ _ _ _ _ _ _ Hps). exact Hb.
Qed.

Lemma server_greets uid crypt cs sts ks sv' pdu s' (rb rb' : rdpRdp N' U') : party l true cs sts ks crypt rb ->
  rdp_recv_client_info (cn_settings cs) (mkSTREAM (len pdu) 0 pdu, rb) = Done ((true, sv'), (s', rb')) ->
  rb' = with_sec (fp_sec (rdp_out rb')) rb -> cn_license cs = license_new -> user_id (cn_mcs cs) = uid ->
  exists rs', takes rdp_server_accept_client_info pdu rb (license_pdu (packet_conf true uid) ERROR_ALERT valid_client_bytes) rs' /\
    party l true (cs <| cn_settings := sv' |>) CONNECTION_STATE_LICENSE (fp_sec (rdp_out rb')) crypt rs'.
Proof.
  intros Hp Er Hrb Hlic Hu. unfold takes, rdp_server_accept_client_info.
  rewrite (bind_Done _ _ _ _ _ (conn_run _ _ _ _ _ _ _ _ Hp)), (bind_Done _ _ _ _ _ Er).
  pose proof (party_sec true cs sts ks (fp_sec (rdp_out rb')) crypt rb Hp) as Pb. rewrite <- Hrb in Pb.
  assert (Ob : sent (rdp_out rb') = sent (rdp_out rb)) by (rewrite Hrb; reflexivity).
  match goal with |- context [conn_upd ?f] => edestruct (conn_upd_run l _ _ _ _ _ f s' rb' Pb) as (r1 & E1 & P1 & O1) end.
  cbv beta in P1. rewrite (bind_Done _ _ _ _ _ E1). cbn [negb]. unfold bind at 1, rdp_of. cbn [snd]. rewrite Hlic.
  destruct (valid_client_sent l (rdp_conf r1) (rdp_out r1) (pt_sendable _ _ _ _ _ _ _ P1)) as (ok & o & k & E2 & O2 & Hok).
  destruct ok; [|destruct Hok; contradiction]. destruct Hok as (Hk & Hs & Hsec & Hcfg). rewrite take_ge in O2 by exact Hk.
  rewrite (bind_Done _ _ _ _ _ (out_of_run _ s' r1 _ _ E2)). cbn [negb].
  exists (with_state CONNECTION_STATE_LICENSE (with_out o r1)). split.
  - exists s'. split; [reflexivity|]. change (sent (rdp_out (with_state CONNECTION_STATE_LICENSE (with_out o r1)))) with (sent o).
    assert (Huid : mcs_user_id (rdp_conf r1) = uid) by (rewrite <- (pt_conf _ _ _ _ _ _ _ P1); exact Hu).
    rewrite O2, O1, Ob, license_pdu_conf, (pt_mode _ _ _ _ _ _ _ P1), Huid. reflexivity.
  - apply (party_state l _ _ sts).
    unfold fp_cfg in Hcfg. injection Hcfg as Hc1 Hc2 Hc3. destruct P1 as [Qc Qst Qm Qf Qe _ Qk Qcr Qd].
    split; try assumption; cbn [rdp_out with_out]; congruence.
Qed.

Lemma client_licensed mac_address uid cc k crypt (rc : rdpRdp N U) : party l false cc CONNECTION_STATE_LICENSE k crypt rc ->
  1001 <= uid < 65536 ->
  exists rc', takes (rdp_client_connect_license mac_address) (license_pdu (packet_conf true uid) ERROR_ALERT valid_client_bytes) rc [] rc' /\
    party l false (cc <| cn_license := completed (cn_license cc) |>) CONNECTION_STATE_CAPABILITY k crypt rc'.
Proof.
  intros Hp Hu. unfold takes, rdp_client_connect_license.
  rewrite (bind_Done _ _ _ _ _ (conn_run _ _ _ _ _ _ _ _ Hp)). cbv zeta.
  destruct (valid_client_received mac_address (username (cn_settings cc)) (client_hostname (core (cn_settings cc)))
              (packet_conf true uid) (cn_license cc) rc Hu) as (s' & Er).
  rewrite (bind_Done _ _ _ _ _ Er).
  match goal with |- context [conn_upd ?f] => edestruct (conn_upd_run l _ _ _ _ _ f s' rc Hp) as (r1 & E1 & P1 & O1) end.
  cbv beta in P1. rewrite (bind_Done _ _ _ _ _ E1). cbn [negb].
  change (l_state (completed (cn_license cc))) with LICENSE_STATE_COMPLETED. rewrite decide_False by discriminate. rewrite decide_True by reflexivity.
  exists (with_state CONNECTION_STATE_CAPABILITY r1). split; [|apply (party_state l _ _ _ _ _ _ _ P1)].
  exists s'. split; [reflexivity|]. rewrite app_nil_r. exact O1.
Qed.
End finishing.

(** ** Both ends together *)

Lemma tpkt_pdu_length l n rest : l <> TRANSPORT_LAYER_TSG -> 0 <= n < 65536 -> pdu_length l (tpkt_bytes n ++ rest) = Done n.
Proof.
  intros Hl Hn. unfold tpkt_bytes, be16. cbn [app].
  unfold pdu_length. rewrite decide_False by exact Hl. cbn [Z.eqb Pos.eqb]. f_equal.
  rewrite (lor_high_low _ _ 8), Z.shiftl_mul_pow2; [..| rewrite Z.shiftl_mul_pow2 by lia; apply Z.mod_mul; lia|];
    change (2 ^ 8) with 256; dlia.
Qed.

Definition framed_pdu (l : TRANSPORT_LAYER) (p : list Z) : Prop := pdu_length l p = Done (len p).

Lemma mcspdu_framed l pdu n o rest : l <> TRANSPORT_LAYER_TSG -> 0 <= n < 65536 -> n = len (mcspdu_header_bytes pdu n o ++ rest) ->
  framed_pdu l (mcspdu_header_bytes pdu n o ++ rest).
Proof.
  intros Hl Hn E. unfold framed_pdu. rewrite <- E. unfold mcspdu_header_bytes. rewrite <- !app_assoc. apply tpkt_pdu_length; assumption.
Qed.

(** Joining [todo] channels, from the one of number [i] on. *)
Fixpoint join_more (todo i : nat) (c : connection) : connection :=
  match todo with O => c | S todo' => join_more todo' (S i) (join_next i c) end.

Lemma join_more_joins ids todo : forall i c, joins ids i c -> (i + todo <= 2 + length ids)%nat -> joins ids (i + todo) (join_more todo i c).
Proof.
  induction todo as [|todo IH]; intros i c Hj Hi; [rewrite Nat.add_0_r; exact Hj|].
  cbn [join_more]. rewrite <- Nat.add_succ_comm. apply IH; [apply joins_next; [exact Hj|lia]|lia].
Qed.

Lemma join_more_core todo : forall i c, exists st, cn_settings (join_more todo i c) = (cn_settings c) <| core := st |> /\
  Gcc.encryption st = Gcc.encryption (conn_core c) /\ Gcc.encryption_method st = Gcc.encryption_method (conn_core c) /\
  server_random st = server_random (conn_core c) /\ server_cert st = server_cert (conn_core c) /\
  server_key st = server_key (conn_core c) /\ rdp_version st = rdp_version (conn_core c) /\
  performance_flags st = performance_flags (conn_core c) /\ client_hostname st = client_hostname (conn_core c).
Proof.
  induction todo as [|todo IH]; intros i c.
  - exists (conn_core c). repeat split. destruct c as [m u g [] sc lic]. reflexivity.
  - destruct (join_next_core i c) as (st1 & E1 & F1 & F2 & F3 & F4 & F5 & F6 & F7 & F8).
    destruct (IH (S i) (join_next i c)) as (st & E & G1 & G2 & G3 & G4 & G5 & G6 & G7 & G8).
    assert (Ec : conn_core (join_next i c) = st1) by (unfold conn_core; rewrite E1; reflexivity). rewrite Ec in *.
    exists st. cbn [join_more]. rewrite E, E1. repeat split; congruence.
Qed.

Lemma join_more_rest todo : forall i c, cn_mcs (join_more todo i c) = cn_mcs c /\ cn_license (join_more todo i c) = cn_license c /\
  secure_checksum (join_more todo i c) = secure_checksum c.
Proof.
  induction todo as [|todo IH]; intros i c; [repeat split|]. cbn [join_more].
  destruct (IH (S i) (join_next i c)) as (-> & -> & ->). apply join_next_rest.
Qed.

Section system.
Context {N N' U U' : Type} (l : TRANSPORT_LAYER) `{HLink : LinkLaws N l} `{HLink' : LinkLaws N' l} `{HC : Crypto} `{HL : !CryptoLaws}
  `{HB : Bignum} `{HBL : !BignumLaws} `{HH : PduHandlers U} `{HH' : PduHandlers U'} `{HM : Modules U} `{HM' : Modules U'}.
(** What comes from outside: the random numbers, the bytes on the stack, the
    time and the network card; and what the client does with a demand. *)
Context (beyond : Z) (cnonce snonce junk : list Z) (local : local_time) (mac_address : list Z)
  (rdp_client_connect_demand_active : RM (N := N) (U := U) bool) (fuel : nat).

Definition client_callback : RM (N := N) (U := U) bool :=
  rdp_recv_callback rdp_client_connect_mcs_connect_response rdp_client_connect_mcs_attach_user_confirm
    (rdp_client_connect_mcs_channel_join_confirm beyond cnonce local) (rdp_client_connect_license mac_address)
    rdp_client_connect_demand_active fuel.

(** Without encryption [rdp_server_establish_keys] reads nothing, and the packet
    is the one with the client info. *)
Definition server_keys_or_info : RM (N := N') (U := U') bool :=
  let! ok := rdp_server_accept_client_keys beyond junk in
  let! c := conn in
  if negb ok || Gcc.encryption (conn_core c) then ret ok else rdp_server_accept_client_info.

(** The steps of the server, in the order of the states they leave. *)
Definition server_accepts (st : Z) : RM (N := N') (U := U') bool :=
  if st =? CONNECTION_STATE_NEGO then rdp_server_accept_mcs_connect_initial snonce
  else if st =? CONNECTION_STATE_MCS_CONNECT then rdp_server_accept_mcs_erect_domain_request
  else if st =? CONNECTION_STATE_MCS_ERECT_DOMAIN then rdp_server_accept_mcs_attach_user_request
  else if st =? CONNECTION_STATE_MCS_ATTACH_USER then rdp_server_accept_mcs_channel_join_request
  else if st =? CONNECTION_STATE_MCS_CHANNEL_JOIN then server_keys_or_info
  else if st =? CONNECTION_STATE_ESTABLISH_KEYS then rdp_server_accept_client_info
  else ret false.

(** Client and server with the PDUs under way between them. *)
Record system : Type := mkSystem {
  sy_client : rdpRdp N U;
  sy_server : rdpRdp N' U';
  to_server : list (list Z);
  to_client : list (list Z);
}.

(** One of them takes the next PDU; what it sends are PDUs for the other. *)
Inductive conn_step : system -> system -> Prop :=
| client_step pdu out rc rc' rs ts tc :
    takes client_callback pdu rc (concat out) rc' -> Forall (framed_pdu l) out ->
    conn_step (mkSystem rc rs ts (pdu :: tc)) (mkSystem rc' rs (ts ++ out) tc)
| server_step pdu out rc rs rs' ts tc :
    takes (server_accepts (rdp_state rs)) pdu rs (concat out) rs' -> Forall (framed_pdu l) out ->
    conn_step (mkSystem rc rs (pdu :: ts) tc) (mkSystem rc rs' ts (tc ++ out)).

Context (Hrel : reliable (N := N) l) (Hrel' : reliable (N := N') l) (Htsg : l <> TRANSPORT_LAYER_TSG).

Lemma join_request_framed uid ch : framed_pdu l (channel_join_request_bytes uid ch).
Proof. apply (mcspdu_framed l DomainMCSPDU_ChannelJoinRequest 12 0); [exact Htsg|lia|reflexivity]. Qed.
Lemma join_confirm_framed uid ch : framed_pdu l (channel_join_confirm_bytes uid ch).
Proof. apply (mcspdu_framed l DomainMCSPDU_ChannelJoinConfirm 15 2); [exact Htsg|lia|reflexivity]. Qed.

Lemma erect_framed : framed_pdu l erect_domain_request_bytes.
Proof. apply (mcspdu_framed l DomainMCSPDU_ErectDomainRequest 12 0); [exact Htsg|lia|reflexivity]. Qed.
Lemma attach_request_framed : framed_pdu l attach_user_request_bytes.
Proof. apply (mcspdu_framed l DomainMCSPDU_AttachUserRequest 8 0 []); [exact Htsg|lia|reflexivity]. Qed.
Lemma attach_confirm_framed uid : framed_pdu l (attach_user_confirm_bytes uid).
Proof. apply (mcspdu_framed l DomainMCSPDU_AttachUserConfirm 11 2); [exact Htsg|lia|reflexivity]. Qed.

(** A step of one PDU in and one PDU out. *)
Lemma client_replies step pdu out rc rc' rs :
  takes step pdu rc out rc' -> client_callback (mkSTREAM (len pdu) 0 pdu, rc) = step (mkSTREAM (len pdu) 0 pdu, rc) -> framed_pdu l out ->
  conn_step (mkSystem rc rs [] [pdu]) (mkSystem rc' rs [out] []).
Proof.
  intros (s' & E & O) Ec Hf. apply (client_step pdu [out] rc rc' rs [] []); [|constructor; [exact Hf|constructor]].
  exists s'. rewrite Ec. cbn [concat]. rewrite app_nil_r. auto.
Qed.

Lemma server_replies pdu out rc rs rs' :
  takes (server_accepts (rdp_state rs)) pdu rs out rs' -> framed_pdu l out ->
  conn_step (mkSystem rc rs [pdu] []) (mkSystem rc rs' [] [out]).
Proof.
  intros (s' & E & O) Hf. apply (server_step pdu [out] rc rs rs' [] []); [|constructor; [exact Hf|constructor]].
  exists s'. cbn [concat]. rewrite app_nil_r. auto.
Qed.

Lemma callback_state st step (rc : rdpRdp N U) s : rdp_state rc = st ->
  (if st =? CONNECTION_STATE_NEGO then rdp_client_connect_mcs_connect_response
   else if st =? CONNECTION_STATE_MCS_ATTACH_USER then rdp_client_connect_mcs_attach_user_confirm
   else if st =? CONNECTION_STATE_MCS_CHANNEL_JOIN then rdp_client_connect_mcs_channel_join_confirm beyond cnonce local
   else if st =? CONNECTION_STATE_LICENSE then rdp_client_connect_license mac_address else ret false) = step ->
  In st [CONNECTION_STATE_NEGO; CONNECTION_STATE_MCS_ATTACH_USER; CONNECTION_STATE_MCS_CHANNEL_JOIN; CONNECTION_STATE_LICENSE] ->
  client_callback (s, rc) = step (s, rc).
Proof.
  intros Hst <- Hin. unfold client_callback, rdp_recv_callback, bind, rdp_of. cbn [snd]. rewrite Hst.
  destruct Hin as [<-|[<-|[<-|[<-|[] ] ] ] ]; reflexivity.
Qed.

(** All channels but the last are joined by rounds of a request and a confirmation. *)
Lemma join_rounds uid ids last : numbered uid ids -> to_join uid ids !! S (length ids) = Some last ->
  forall todo i id cc cs k k' crypt crypt' (rc : rdpRdp N U) (rs : rdpRdp N' U'),
  (i + todo = S (length ids))%nat ->
  party l false cc CONNECTION_STATE_MCS_CHANNEL_JOIN k crypt rc -> joins ids i cc -> user_id (cn_mcs cc) = uid ->
  party l true cs CONNECTION_STATE_MCS_ATTACH_USER k' crypt' rs -> joins ids i cs -> user_id (cn_mcs cs) = uid ->
  to_join uid ids !! i = Some id ->
  exists rc' rs', rtc conn_step (mkSystem rc rs [channel_join_request_bytes uid id] [])
                    (mkSystem rc' rs' [] [channel_join_confirm_bytes uid last]) /\
    party l false (join_more todo i cc) CONNECTION_STATE_MCS_CHANNEL_JOIN k crypt rc' /\
    party l true (join_next (S (length ids)) (join_more todo i cs)) CONNECTION_STATE_MCS_CHANNEL_JOIN k' crypt' rs'.
Proof.
  intros Hnb Hlast. induction todo as [|todo IH]; intros i id cc cs k k' crypt crypt' rc rs Hi Pc Jc Uc Ps Js Us E.
  - replace i with (S (length ids)) in * by lia. rewrite Hlast in E. injection E as <-.
    destruct (server_joins l Hrel' uid ids _ last cs _ _ _ rs Ps Hnb Js Us Hlast) as (rs' & Ts & Ps').
    rewrite (proj2 (Nat.eqb_eq _ _)) in Ps' by reflexivity. exists rc, rs'. split; [|split; [exact Pc|exact Ps']].
    apply rtc_once, server_replies; [|apply join_confirm_framed]. rewrite (pt_state _ _ _ _ _ _ _ Ps). exact Ts.
  - destruct (lookup_lt_is_Some_2 (to_join uid ids) (S i) ltac:(unfold to_join; cbn [length]; lia)) as [id' E'].
    destruct (server_joins l Hrel' uid ids i id cs _ _ _ rs Ps Hnb Js Us E) as (rs1 & Ts & Ps1).
    rewrite (proj2 (Nat.eqb_neq _ _)) in Ps1 by (cbn; lia).
    destruct (client_joins l Hrel beyond cnonce local uid ids i id id' cc _ _ _ rc Pc Hnb Jc Uc E E') as (rc1 & Tc & Pc1).
    destruct (join_next_rest i cc) as (Mc & _ & _). destruct (join_next_rest i cs) as (Ms & _ & _).
    destruct (IH (S i) id' (join_next i cc) (join_next i cs) k k' crypt crypt' rc1 rs1 ltac:(lia) Pc1 (joins_next _ _ _ Jc ltac:(lia))
                ltac:(rewrite Mc; exact Uc) Ps1 (joins_next _ _ _ Js ltac:(lia)) ltac:(rewrite Ms; exact Us) E')
      as (rc' & rs' & Hr & Pc' & Ps'). exists rc', rs'. split; [|split; assumption].
    eapply rtc_l; [apply (server_replies _ (channel_join_confirm_bytes uid id) rc rs rs1); [|apply join_confirm_framed]|].
    { rewrite (pt_state _ _ _ _ _ _ _ Ps). exact Ts. }
    eapply rtc_l; [|exact Hr]. apply (client_replies _ _ _ _ _ _ Tc); [|apply join_request_framed].
    apply (callback_state CONNECTION_STATE_MCS_CHANNEL_JOIN); [apply (pt_state _ _ _ _ _ _ _ Pc)|reflexivity|cbn; auto].
Qed.
End system.

(** What both ends bring along. *)
Record endpoints (cnonce snonce junk : list Z) (local : local_time) (cc cs : connection) (host prod : list Z) (x : info_texts)
    (m e d : list Z) : Prop := {
  en_meeting : meeting (conn_core cc) (conn_core cs) host prod (mkKey m d e);
  en_mcs : cn_mcs cc = mcs_new;
  en_mcs' : cn_mcs cs = mcs_new;
  en_license : cn_license cs = license_new;
  en_user : user_channel_joined cc = false /\ user_channel_joined cs = false;
  en_global : global_channel_joined cc = false /\ global_channel_joined cs = false;
  en_rsa : rsa_key m e d;
  en_undoes : rsa_undoes m e d (le_val cnonce);
  en_key_len : 32 <= len m <= 64;
  en_cnonce : len cnonce = 32 /\ is_bytes cnonce;
  en_snonce : len snonce = 32 /\ is_bytes snonce;
  en_junk : len junk = 64;
  en_info : info_ok (cn_settings cc) x;
  en_lengths : lengths_ok x;
  en_local : local_ok local (x_standard x) (x_daylight x);
  en_fits : len (info_bytes local (cn_settings cc) x) <= 2021;
}.

Lemma connect_response_framed l `{Crypto} `{!CryptoLaws} `{Bignum} `{!BignumLaws} m sv nonce key : l <> TRANSPORT_LAYER_TSG -> 
  server_ok sv key -> len nonce = 32 -> is_bytes nonce -> valid_mcs m -> framed_pdu l (connect_response_pdu m sv nonce key).
Proof.
  intros Hl Hsv Hn Hb Hm. destruct (connect_response_built (N := list Z) m sv nonce key Hsv Hn Hb Hm) as (w & _ & Hlen & _).
  unfold framed_pdu. unfold connect_response_pdu in *. cbv zeta in *. set (body := connect_response_bytes m _) in *.
  rewrite !len_app in *. change (len (tpkt_bytes _)) with 4 in *. change (len tpdu_data_bytes) with 3 in *.
  rewrite <- app_assoc. pose proof (len_nonneg body). rewrite tpkt_pdu_length by (assumption || lia). f_equal; lia.
Qed.

Lemma info_view_core local c x sv : Gcc.encryption (core (info_view local c x sv)) = Gcc.encryption (core sv) /\
  Gcc.encryption_method (core (info_view local c x sv)) = Gcc.encryption_method (core sv).
Proof.
  unfold info_view. cbv zeta. change (core (logon_view c x sv)) with (core sv). destruct (5 <=? rdp_version (core sv)); split; reflexivity.
Qed.

Section established.
Context {N N' U U' : Type} (l : TRANSPORT_LAYER) `{HLink : LinkLaws N l} `{HLink' : LinkLaws N' l} `{HC : Crypto} `{HL : !CryptoLaws}
  `{HB : Bignum} `{HBL : !BignumLaws} `{HH : PduHandlers U} `{HH' : PduHandlers U'} `{HM : Modules U} `{HM' : Modules U'}.
Context (beyond : Z) (cnonce snonce junk : list Z) (local : local_time) (mac_address : list Z)
  (demand_active : RM (N := N) (U := U) bool) (fuel : nat).
Context (Hrel : reliable (N := N) l) (Hrel' : reliable (N := N') l) (Htsg : l <> TRANSPORT_LAYER_TSG).
Context (cc cs : connection) (host prod : list Z) (x : info_texts) (m e d : list Z)
  (Hen : endpoints cnonce snonce junk local cc cs host prod x m e d).

Let key := mkKey m d e.
Let sv1 := client_view (conn_core cc) (conn_core cs).
Let crypt := Gcc.encryption (conn_core cs).
Let method := Gcc.encryption_method (server_encryption sv1).
Let n := Z.to_nat (num_channels (conn_core cc)).
Let ids := channel_ids 0 n.
Let step := conn_step (N := N) (N' := N') (U := U) (U' := U') l beyond cnonce snonce junk local mac_address demand_active fuel.

(** The connections when the channels begin to be joined. *)
Definition cc2 : connection :=
  conn_mcs (Mcs.set_user_id 1002 (set_domainParameters (parameters_read_back (targetParameters (mcs_read_back mcs_new mcs_new))) mcs_new))
    (set_core (server_view sv1 snonce key (conn_core cc)) cc).
Definition cs2 : connection :=
  conn_mcs (Mcs.set_user_id 1002 (set_domainParameters (targetParameters (mcs_read_back mcs_new mcs_new)) (mcs_read_back mcs_new mcs_new)))
    (set_core (answered snonce sv1) cs).

Lemma count_ok : (n <= 16)%nat /\ num_channels (conn_core cc) = len ids.
Proof.
  pose proof (ok_num_channels _ _ _ (mt_client _ _ _ _ _ (en_meeting _ _ _ _ _ _ _ _ _ _ _ _ Hen))).
  unfold ids, len. rewrite length_channel_ids. unfold n. lia.
Qed.

Lemma cc2_joins : joins ids 0 cc2.
Proof.
  pose proof (en_meeting _ _ _ _ _ _ _ _ _ _ _ _ Hen) as Hmt. destruct count_ok as [Hn Hc].
  destruct (settled_client _ _ _ _ _ Hmt snonce) as (_ & _ & _ & _ & _ & Ech & En).
  destruct (settled_channels _ _ _ _ _ Hmt) as (Ei & El & Ej).
  assert (E : conn_core cc2 = server_view sv1 snonce key (conn_core cc)) by reflexivity.
  apply joins_start; rewrite ?E; unfold sv1, key; rewrite ?Ech, ?En; unfold ids; rewrite ?length_channel_ids; unfold n; try assumption;
    [apply (en_user _ _ _ _ _ _ _ _ _ _ _ _ Hen)|apply (en_global _ _ _ _ _ _ _ _ _ _ _ _ Hen)|rewrite El; unfold n in Hn; lia].
Qed.

Lemma cs2_joins : joins ids 0 cs2.
Proof.
  pose proof (en_meeting _ _ _ _ _ _ _ _ _ _ _ _ Hen) as Hmt. destruct count_ok as [Hn Hc].
  destruct (settled_server _ _ _ _ _ Hmt snonce) as (_ & _ & _ & _ & _ & Ech & En).
  assert (E : conn_core cs2 = answered snonce sv1) by reflexivity.
  apply joins_start; rewrite ?E; unfold sv1; rewrite ?Ech, ?En; unfold ids; rewrite ?length_channel_ids; unfold n;
    [apply (en_user _ _ _ _ _ _ _ _ _ _ _ _ Hen)|apply (en_global _ _ _ _ _ _ _ _ _ _ _ _ Hen)|exact Hc
    |rewrite (view_channels_len _ _ _ _ _ Hmt); exact Hn|apply (view_ids _ _ _ _ _ Hmt)|apply (view_joined _ _ _ _ _ Hmt)].
Qed.

Lemma mcs_round : valid_mcs mcs_new /\ valid_mcs (mcs_read_back mcs_new mcs_new).
Proof. split; [exact mcs_new_valid|]. split; [|split]; repeat constructor; vm_compute; discriminate. Qed.

(** The connection requests, up to the first request to join a channel. *)
Lemma requests_run (rc : rdpRdp N U) (rs : rdpRdp N' U') :
  party l false cc CONNECTION_STATE_NEGO rdp_sec_new false rc -> party l true cs CONNECTION_STATE_NEGO rdp_sec_new false rs ->
  exists rc' rs', rtc step (mkSystem rc rs [connect_initial_pdu mcs_new (conn_core cc) host prod] [])
                    (mkSystem rc' rs' [channel_join_request_bytes 1002 1002] []) /\
    party l false cc2 CONNECTION_STATE_MCS_CHANNEL_JOIN rdp_sec_new false rc' /\
    party l true cs2 CONNECTION_STATE_MCS_ATTACH_USER rdp_sec_new false rs'.
Proof.
  intros Pc Ps. pose proof (en_meeting _ _ _ _ _ _ _ _ _ _ _ _ Hen) as Hmt. destruct (en_snonce _ _ _ _ _ _ _ _ _ _ _ _ Hen) as [Sn Sb].
  pose proof (en_mcs _ _ _ _ _ _ _ _ _ _ _ _ Hen) as Mc. pose proof (en_mcs' _ _ _ _ _ _ _ _ _ _ _ _ Hen) as Ms.
  destruct mcs_round as [V1 V2].
  destruct (server_connects l Hrel' snonce key (conn_core cc) (conn_core cs) host prod mcs_new cs _ _ _ rs Ps eq_refl Hmt V1
              ltac:(rewrite Ms; exact V2) Sn Sb) as (rs1 & T1 & Ps1).
  destruct (client_connects l Hrel snonce key (conn_core cc) sv1 (mcs_read_back mcs_new (cn_mcs cs)) cc _ _ _ rc Pc eq_refl
              (view_server_ok _ _ _ _ _ Hmt) Sn Sb ltac:(rewrite Ms; exact V2) (ok_channels_len _ _ _ (mt_client _ _ _ _ _ Hmt)))
    as (rc1 & T2 & Pc1).
  destruct (server_erects l _ _ _ _ rs1 Ps1) as (rs2 & T3 & Ps2).
  destruct (server_attaches l Hrel' _ _ _ _ rs2 Ps2) as (rs3 & T4 & Ps3).
  destruct (client_attaches l Hrel 1002 _ _ _ _ rc1 Pc1 ltac:(split; discriminate || reflexivity)) as (rc2 & T5 & Pc2).
  exists rc2, rs3. split; [|split; [unfold cc2; rewrite Ms, Mc in Pc2; exact Pc2|unfold cs2; rewrite Ms in Ps3; exact Ps3]].
  eapply rtc_l; [apply server_replies; [rewrite (pt_state _ _ _ _ _ _ _ Ps); exact T1|]|].
  { apply (connect_response_framed l _ _ _ _ Htsg (view_server_ok _ _ _ _ _ Hmt) Sn Sb). rewrite Ms. exact V2. }
  eapply rtc_l; [apply (client_step _ _ _ _ _ _ _ _ _ _ [erect_domain_request_bytes; attach_user_request_bytes] rc rc1 rs1 [] [])|].
  { destruct T2 as (s' & E & O). exists s'. split; [|exact O]. rewrite <- E.
    apply (callback_state _ _ _ _ _ _ CONNECTION_STATE_NEGO); [apply (pt_state _ _ _ _ _ _ _ Pc)|reflexivity|cbn; auto]. }
  { apply Forall_cons_2; [apply erect_framed, Htsg|]. apply Forall_cons_2; [apply attach_request_framed, Htsg|apply Forall_nil_2]. }
  eapply rtc_l; [apply (server_step _ _ _ _ _ _ _ _ _ _ [] rc1 rs1 rs2 [attach_user_request_bytes] []);
                 [rewrite (pt_state _ _ _ _ _ _ _ Ps1); exact T3|apply Forall_nil_2]|].
  eapply rtc_l; [apply (server_step _ _ _ _ _ _ _ _ _ _ [attach_user_confirm_bytes 1002] rc1 rs2 rs3 [] []);
                 [rewrite (pt_state _ _ _ _ _ _ _ Ps2); exact T4|]|].
  { apply Forall_cons_2; [apply attach_confirm_framed, Htsg|apply Forall_nil_2]. }
  apply rtc_once. apply (client_replies _ _ _ _ _ _ _ _ _ _ _ _ _ _ _ T5); [|apply join_request_framed, Htsg].
  apply (callback_state _ _ _ _ _ _ CONNECTION_STATE_MCS_ATTACH_USER); [apply (pt_state _ _ _ _ _ _ _ Pc1)|reflexivity|cbn; auto].
Qed.

Lemma exchange_framed conf cipher : len cipher <= 256 -> framed_pdu l (exchange_pdu conf cipher).
Proof.
  intros Hc. pose proof (len_nonneg cipher). unfold framed_pdu. rewrite len_exchange_pdu.
  apply rdp_pdu_length; [exact Htsg|lia].
Qed.

Lemma license_framed conf type body : len body <= 4096 -> framed_pdu l (license_pdu conf type body).
Proof.
  intros Hc. pose proof (len_nonneg body). unfold framed_pdu. rewrite len_license_pdu.
  apply rdp_pdu_length; [exact Htsg|lia].
Qed.

Lemma exchanged_framed uid : len m <= 256 -> Forall (framed_pdu l) (exchanged crypt uid cnonce m e).
Proof.
  intros Hm. unfold exchanged. destruct crypt; [|apply Forall_nil_2]. apply Forall_cons_2; [|apply Forall_nil_2].
  apply exchange_framed. rewrite len_le_bytes by apply len_nonneg. exact Hm.
Qed.

(** The server takes what the client sends for the ciphers, and the client info. *)
Lemma server_ciphered s1 ks (rs : rdpRdp N' U') :
  party l true s1 CONNECTION_STATE_MCS_CHANNEL_JOIN rdp_sec_new false rs ->
  Gcc.encryption (conn_core s1) = crypt -> Gcc.encryption_method (conn_core s1) <> ENCRYPTION_METHOD_FIPS ->
  server_key (conn_core s1) = Some key ->
  (if crypt then rdp_establish_ciphers beyond (Gcc.encryption_method (conn_core s1)) true cnonce (server_random (conn_core s1)) rdp_sec_new
                 = Done (true, ks)
   else ks = rdp_sec_new) ->
  exists rs2, party l true s1 CONNECTION_STATE_ESTABLISH_KEYS ks crypt rs2 /\
    forall rc pdu out rs3, takes rdp_server_accept_client_info pdu rs2 out rs3 -> framed_pdu l out ->
      rtc step (mkSystem rc rs (exchanged crypt 1002 cnonce m e ++ [pdu]) []) (mkSystem rc rs3 [] [out]).
Proof.
  intros Ps He Hf Hk Eks. pose proof Hen as [_ _ _ _ _ _ Hrsa Hund Hkl [Cn Cb] _ Hj _ _ _ _].
  assert (Hnext : forall pdu s2 r, rdp_server_establish_keys beyond junk (mkSTREAM (len pdu) 0 pdu, rs) = Done (true, (s2, r)) ->
    party l true s1 CONNECTION_STATE_MCS_CHANNEL_JOIN ks crypt r ->
    server_accepts beyond snonce junk (rdp_state rs) (mkSTREAM (len pdu) 0 pdu, rs)
    = (if crypt then ret true else rdp_server_accept_client_info) (s2, with_state CONNECTION_STATE_ESTABLISH_KEYS r)).
  { intros pdu s2 r E P. rewrite (pt_state _ _ _ _ _ _ _ Ps).
    change (server_accepts beyond snonce junk CONNECTION_STATE_MCS_CHANNEL_JOIN) with (server_keys_or_info (N' := N') (U' := U') beyond junk).
    assert (Ea : rdp_server_accept_client_keys beyond junk (mkSTREAM (len pdu) 0 pdu, rs)
                 = Done (true, (s2, with_state CONNECTION_STATE_ESTABLISH_KEYS r)))
      by (unfold rdp_server_accept_client_keys; rewrite (bind_Done _ _ _ _ _ E); reflexivity).
    unfold server_keys_or_info. rewrite (bind_Done _ _ _ _ _ Ea), (bind_Done _ _ _ _ _ (conn_run _ _ _ _ _ _ _ _ (party_state l _ _ _ _ _ _ _ P))), He.
    destruct crypt; reflexivity. }
  unfold exchanged. destruct crypt.
  - destruct (server_keys l beyond junk (packet_conf false 1002) cnonce m e d s1 _ ks rs Ps He Hf Hk Hrsa Hund Hkl Hj Cb Cn
                ltac:(split; discriminate || reflexivity) Eks) as (rs1 & Tk & Ps1).
    pose proof (party_state l _ _ _ _ _ CONNECTION_STATE_ESTABLISH_KEYS _ Ps1) as Ps2. exists (with_state CONNECTION_STATE_ESTABLISH_KEYS rs1).
    split; [exact Ps2|]. intros rc pdu out rs3 Tg Ho. cbn [app].
    eapply rtc_l; [apply (server_step _ _ _ _ _ _ _ _ _ _ [] rc rs (with_state CONNECTION_STATE_ESTABLISH_KEYS rs1) [pdu] []); [|apply Forall_nil_2]|].
    { destruct Tk as (s2 & E & O). exists s2. split; [|exact O]. rewrite (Hnext _ _ _ E Ps1). reflexivity. }
    apply rtc_once, server_replies; [|exact Ho]. pose proof (pt_state _ _ _ _ _ _ _ Ps2) as ->. exact Tg.
  - subst ks. pose proof (party_state l _ _ _ _ _ CONNECTION_STATE_ESTABLISH_KEYS _ Ps) as Ps2. exists (with_state CONNECTION_STATE_ESTABLISH_KEYS rs).
    split; [exact Ps2|]. intros rc pdu out rs3 (s2 & E & O) Ho. cbn [app]. apply rtc_once, server_replies; [|exact Ho].
    exists s2. split; [|exact O]. rewrite (Hnext pdu (mkSTREAM (len pdu) 0 pdu) rs); [exact E| |exact Ps].
    unfold rdp_server_establish_keys. rewrite (bind_Done _ _ _ _ _ (conn_run _ _ _ _ _ _ _ _ Ps)). cbv zeta. rewrite He. reflexivity.
Qed.

(** The settings of both ends at the last channel. *)
Lemma last_settings : let c1 := join_more (S n) 0 cc2 in let s1 := join_next (S n) (join_more (S n) 0 cs2) in
  exists stc sts, cn_settings c1 = (cn_settings cc2) <| core := stc |> /\ conn_core c1 = stc /\ conn_core s1 = sts /\
    Gcc.encryption stc = crypt /\ Gcc.encryption sts = crypt /\
    Gcc.encryption_method stc = method /\ Gcc.encryption_method sts = method /\
    (crypt = true -> server_random stc = snonce /\ cert_info (server_cert stc) = mkCertInfo m e /\ server_random sts = snonce) /\
    server_key sts = Some key /\ rdp_version stc = rdp_version (conn_core cc) /\ rdp_version sts = rdp_version sv1 /\
    performance_flags stc = performance_flags (conn_core cc).
Proof.
  cbv zeta. pose proof (en_meeting _ _ _ _ _ _ _ _ _ _ _ _ Hen) as Hmt.
  destruct (settled_client _ _ _ _ _ Hmt snonce) as (C1 & C2 & C3 & C4 & C5 & _). cbv zeta in C1, C2, C3, C4, C5.
  fold sv1 key in C1, C2, C3, C4, C5. fold crypt in C1, C3.
  destruct (settled_server _ _ _ _ _ Hmt snonce) as (S1 & S2 & S3 & S4 & S5 & _). cbv zeta in S1, S2, S3, S4, S5.
  fold sv1 key in S1, S2, S3, S4, S5. fold crypt in S1, S3.
  destruct (join_more_core (S n) 0 cc2) as (stc & Ec & F1 & F2 & F3 & F4 & _ & F6 & F7 & _).
  change (conn_core cc2) with (server_view sv1 snonce key (conn_core cc)) in F1, F2, F3, F4, F6, F7.
  destruct (join_more_core (S n) 0 cs2) as (st0 & Es0 & G1 & G2 & G3 & _ & G5 & G6 & _).
  destruct (join_next_core (S n) (join_more (S n) 0 cs2)) as (sts & Es & H1 & H2 & H3 & _ & H5 & H6 & _).
  assert (K0 : conn_core (join_more (S n) 0 cs2) = st0) by (unfold conn_core; rewrite Es0; reflexivity). rewrite K0 in *.
  change (conn_core cs2) with (answered snonce sv1) in G1, G2, G3, G5, G6.
  exists stc, sts. split; [exact Ec|]. unfold conn_core at 1 2. rewrite Ec, Es. split; [reflexivity|]. split; [reflexivity|].
  rewrite F1, F2, F3, F4, F6, F7, H1, H2, H3, H5, H6, G1, G2, G3, G5, G6, C1, C2, C4, C5, S1, S2, S4, S5.
  repeat (split; [reflexivity|]). split; [|auto]. intros Hc. destruct (C3 Hc) as [-> ->]. rewrite (S3 Hc). auto.
Qed.

Lemma method_rc4 : method <> ENCRYPTION_METHOD_FIPS /\ (crypt = true -> method = 1 \/ method = 2).
Proof.
  destruct (settled_method _ _ _ _ _ (en_meeting _ _ _ _ _ _ _ _ _ _ _ _ Hen)) as (Hm & _). cbv zeta in Hm. fold sv1 in Hm. fold crypt method in Hm.
  destruct crypt; [|rewrite Hm; split; discriminate]. split; [destruct Hm as [-> | ->]; discriminate|auto].
Qed.

(** The ciphers both ends set up, where there are any. *)
Lemma both_ciphers stc sts : Gcc.encryption_method stc = method -> Gcc.encryption_method sts = method ->
  (crypt = true -> server_random stc = snonce /\ cert_info (server_cert stc) = mkCertInfo m e /\ server_random sts = snonce) ->
  exists kc ks, client_ciphers beyond crypt cnonce m e stc kc /\
    (if crypt then rdp_establish_ciphers beyond (Gcc.encryption_method sts) true cnonce (server_random sts) rdp_sec_new = Done (true, ks)
     else ks = rdp_sec_new) /\ (crypt = true -> paired kc ks) /\ (crypt = true -> paired ks kc).
Proof.
  intros Mc Ms Hr. destruct method_rc4 as [_ Hm]. destruct (en_cnonce _ _ _ _ _ _ _ _ _ _ _ _ Hen) as [Cn _].
  destruct (en_snonce _ _ _ _ _ _ _ _ _ _ _ _ Hen) as [Sn _]. unfold client_ciphers.
  destruct crypt; [|exists rdp_sec_new, rdp_sec_new; repeat split; discriminate].
  destruct (Hr eq_refl) as (-> & -> & ->). rewrite Mc, Ms.
  destruct (establish_pairs beyond method cnonce snonce (Hm eq_refl) Cn Sn) as (kc & ks & Ekc & Eks & Hp & Hp'). exists kc, ks. auto.
Qed.

(** The end of it: the last channel, the keys, the client info and the license. *)
Lemma ending_run id (rc : rdpRdp N U) (rs : rdpRdp N' U') :
  let c1 := join_more (S n) 0 cc2 in
  let s1 := join_next (S n) (join_more (S n) 0 cs2) in
  to_join 1002 ids !! S n = Some id ->
  party l false c1 CONNECTION_STATE_MCS_CHANNEL_JOIN rdp_sec_new false rc ->
  party l true s1 CONNECTION_STATE_MCS_CHANNEL_JOIN rdp_sec_new false rs ->
  exists rc' rs', rtc step (mkSystem rc rs [] [channel_join_confirm_bytes 1002 id]) (mkSystem rc' rs' [] []) /\
    rdp_state rc' = CONNECTION_STATE_CAPABILITY /\ rdp_state rs' = CONNECTION_STATE_LICENSE /\
    rdp_conn rc' = (join_next (S n) c1) <| cn_settings := zoned local (cn_settings (join_next (S n) c1)) |>
                                        <| cn_license := completed (cn_license c1) |> /\
    rdp_conn rs' = s1 <| cn_settings := info_view local (cn_settings (join_next (S n) c1)) x (cn_settings s1) |> /\
    duplex l l crypt rs' rc'.
Proof.
  intros c1 s1 Eid Pc Ps. pose proof Hen as [Hmt Mc Ms Lic _ _ Hrsa Hund Hkl [Cn Cb] [Sn Sb] Hj Hi Hli Hlo Hfit].
  destruct count_ok as [Hn _]. pose proof (channel_ids_numbered n Hn) as Hnb. fold ids in Hnb.
  assert (Hids : length ids = n) by apply length_channel_ids. destruct method_rc4 as [Hnf _].
  destruct last_settings as (stc & sts & Ec & Kc & Ks & X1 & X2 & X3 & X4 & X5 & X6 & X7 & X8 & X9). fold c1 in Ec, Kc. fold s1 in Ks.
  destruct (both_ciphers stc sts X3 X4 X5) as (kc & ks & Ekc & Eks & Hp1 & Hp2).
  destruct (join_more_rest (S n) 0 cc2) as (Rc1 & Rc2 & _). fold c1 in Rc1, Rc2.
  destruct (join_more_rest (S n) 0 cs2) as (Rs1 & Rs2 & _). destruct (join_next_rest (S n) (join_more (S n) 0 cs2)) as (Rs3 & Rs4 & _). fold s1 in Rs3, Rs4.
  destruct (settled_client _ _ _ _ _ Hmt snonce) as (_ & _ & _ & C4 & C5 & _). cbv zeta in C4, C5. fold sv1 key in C4, C5.
  destruct (server_ciphered s1 ks rs Ps) as (rs2 & Ps2 & Tk); rewrite ?Ks, ?X2, ?X4, ?X6; try assumption; try reflexivity.
  { destruct crypt; [rewrite X4 in Eks|]; exact Eks. }
  destruct (client_finishes l Hrel beyond crypt cnonce local x 1002 ids id m e d c1 CONNECTION_STATE_MCS_CHANNEL_JOIN kc s1
              CONNECTION_STATE_ESTABLISH_KEYS ks rc rs2) as (pdu & rc1 & s' & rb' & Tc & Pc1 & Hpl & Er & Hrb & Hq1 & Hq2);
    rewrite ?Hids, ?Kc, ?Ks, ?X1, ?X2, ?X3, ?X4, ?X7, ?X8; try assumption; try reflexivity.
  { apply (join_more_joins ids (S n) 0 cc2 cc2_joins). rewrite Hids. lia. }
  { rewrite Rc1. reflexivity. }
  { destruct Hund. lia. }
  { lia. }
  { rewrite Ec. apply info_ok_core; [rewrite X9; symmetry; exact C5|]. apply info_ok_core; [exact C5|exact Hi]. }
  { rewrite Ec, info_bytes_core; [|rewrite X9; symmetry; exact C5|rewrite X7; f_equal; symmetry; exact C4].
    change (cn_settings cc2) with ((cn_settings cc) <| core := server_view sv1 snonce key (conn_core cc) |>).
    rewrite info_bytes_core; [exact Hfit|exact C5|rewrite C4; reflexivity]. }
  { unfold sv1. rewrite (view_version _ _). destruct (5 <=? rdp_version (conn_core cc)); reflexivity. }
  rewrite Hids in *.
  destruct (server_greets l Hrel' 1002 crypt s1 _ ks _ pdu s' rs2 rb' Ps2 Er Hrb) as (rs3 & Tg & Ps3).
  { rewrite Rs4, Rs2. exact Lic. }
  { rewrite Rs3, Rs1. reflexivity. }
  destruct (client_licensed l mac_address 1002 _ _ _ rc1 Pc1 ltac:(lia)) as (rc2 & Tl & Pc2).
  exists rc2, rs3. split; [|split; [apply (pt_state _ _ _ _ _ _ _ Pc2)|split; [apply (pt_state _ _ _ _ _ _ _ Ps3)|] ] ].
  - eapply rtc_l; [apply (client_step _ _ _ _ _ _ _ _ _ _ (exchanged crypt 1002 cnonce m e ++ [pdu]) rc rc1 rs [] [])|].
    { destruct Tc as (s2 & E & O). exists s2. rewrite concat_app. cbn [concat]. rewrite app_nil_r. split; [|exact O]. rewrite <- E.
      apply (callback_state _ _ _ _ _ _ CONNECTION_STATE_MCS_CHANNEL_JOIN); [apply (pt_state _ _ _ _ _ _ _ Pc)|reflexivity|cbn; auto]. }
    { apply Forall_app_2; [apply exchanged_framed; lia|]. apply Forall_cons_2; [exact Hpl|apply Forall_nil_2]. }
    etransitivity; [exact (Tk rc1 pdu _ rs3 Tg ltac:(apply license_framed; discriminate))|].
    apply rtc_once. apply (client_step _ _ _ _ _ _ _ _ _ _ [] rc1 rc2 rs3 [] []); [|apply Forall_nil_2].
    destruct Tl as (s2 & E & O). exists s2. split; [|exact O]. rewrite <- E.
    apply (callback_state _ _ _ _ _ _ CONNECTION_STATE_LICENSE); [apply (pt_state _ _ _ _ _ _ _ Pc1)|reflexivity|cbn; auto].
  - split; [|split; [apply (pt_conn _ _ _ _ _ _ _ Ps3)|] ].
    + rewrite (pt_conn _ _ _ _ _ _ _ Pc2). destruct (join_next_rest (S n) c1) as (_ & R & _).
      change (cn_license ((join_next (S n) c1) <| cn_settings := zoned local (cn_settings (join_next (S n) c1)) |>))
        with (cn_license (join_next (S n) c1)). rewrite R. reflexivity.
    + destruct (info_view_core local (cn_settings (join_next (S n) c1)) x (cn_settings s1)) as [V1 V2].
      change (core (cn_settings s1)) with (conn_core s1) in V1, V2. rewrite Ks, X2 in V1. rewrite Ks, X4 in V2.
      assert (W : Gcc.encryption (core (zoned local (cn_settings (join_next (S n) c1)))) = crypt /\
                  Gcc.encryption_method (core (zoned local (cn_settings (join_next (S n) c1)))) = method).
      { rewrite zoned_core. destruct (join_next_core (S n) c1) as (st & E & E1 & E2 & _). rewrite E.
        change (Gcc.encryption st = crypt /\ Gcc.encryption_method st = method). rewrite E1, E2, Kc. auto. }
      destruct W as [W1 W2].
      apply (parties_duplex l _ _ _ _ _ _ _ _ _ _ _ Ps3 Pc2 (fun H => Hq2 H (Hp2 H)) Hq1 V1 W1).
      * change (Gcc.encryption_method (core (info_view local (cn_settings (join_next (S n) c1)) x (cn_settings s1))) <> ENCRYPTION_METHOD_FIPS).
        rewrite V2. exact Hnf.
      * change (Gcc.encryption_method (core (zoned local (cn_settings (join_next (S n) c1)))) <> ENCRYPTION_METHOD_FIPS).
        rewrite W2. exact Hnf.
Qed.
End established.

Lemma joins_same ids i c c' : joins ids i c -> user_channel_joined c' = user_channel_joined c -> global_channel_joined c' = global_channel_joined c ->
  num_channels (conn_core c') = num_channels (conn_core c) -> Gcc.channels (conn_core c') = Gcc.channels (conn_core c) -> joins ids i c'.
Proof. intros [Ju Jg Jn Jm Ji Jj] Eu Eg En Ec. split; rewrite ?Eu, ?Eg, ?En, ?Ec; assumption. Qed.

Lemma info_view_channels local c x sv : Gcc.channels (core (info_view local c x sv)) = Gcc.channels (core sv) /\
  num_channels (core (info_view local c x sv)) = num_channels (core sv) /\
  username (info_view local c x sv) = or_old (nonempty (x_user x)) (username sv).
Proof.
  unfold info_view. cbv zeta. change (core (logon_view c x sv)) with (core sv).
  destruct (5 <=? rdp_version (core sv)); repeat split; reflexivity.
Qed.

(** ** Claims *)

(** C1. The connection sequence: a client that has sent its Connect-Initial and a
    server go, PDU by PDU, through connecting, attaching and joining all
    channels, the exchange of keys, the logon and the license: the client is left
    waiting for the capabilities, both have joined the same channels, the server
    knows the user, and each end decrypts what the other sends next. This holds
    without standard security, whatever methods the client offers, and with it
    for clients that offer 40 or 128 bit RC4 and not FIPS. With standard security
    the client of this library always offers FIPS as well (nego.c:109) and this
    server then chooses it (gcc.c:861); that run is left out, since the two ends
    do not derive mirrored FIPS keys ([fips_keys_not_mirrored]). *)
Theorem connection_established {N N' U U'} l `{LinkLaws N l} `{Link N'} `{!LinkLaws N' l} `{Crypto} `{!CryptoLaws} `{Bignum} `{!BignumLaws}
    `{PduHandlers U} `{PduHandlers U'} `{Modules U} `{Modules U'} beyond cnonce snonce junk local mac_address demand_active fuel
    cc cs host prod x m e d (rc : rdpRdp N U) (rs : rdpRdp N' U') :
  reliable (N := N) l -> reliable (N := N') l -> l <> TRANSPORT_LAYER_TSG -> endpoints cnonce snonce junk local cc cs host prod x m e d ->
  party l false cc CONNECTION_STATE_NEGO rdp_sec_new false rc -> party l true cs CONNECTION_STATE_NEGO rdp_sec_new false rs ->
  let ids := channel_ids 0 (Z.to_nat (num_channels (conn_core cc))) in
  exists rc' rs',
    rtc (conn_step l beyond cnonce snonce junk local mac_address demand_active fuel)
      (mkSystem rc rs [connect_initial_pdu mcs_new (conn_core cc) host prod] []) (mkSystem rc' rs' [] []) /\
    rdp_state rc' = CONNECTION_STATE_CAPABILITY /\ rdp_state rs' = CONNECTION_STATE_LICENSE /\
    joins ids (2 + length ids) (rdp_conn rc') /\ joins ids (2 + length ids) (rdp_conn rs') /\
    l_state (cn_license (rdp_conn rc')) = LICENSE_STATE_COMPLETED /\
    username (cn_settings (rdp_conn rs')) = or_old (nonempty (x_user x)) (username (cn_settings cs)) /\
    duplex l l (Gcc.encryption (conn_core cs)) rs' rc'.
Proof.
  intros Hrel Hrel' Htsg Hen Pc Ps ids. pose proof (en_meeting _ _ _ _ _ _ _ _ _ _ _ _ Hen) as Hmt.
  set (n := Z.to_nat (num_channels (conn_core cc))) in *.
  assert (Hids : length ids = n) by apply length_channel_ids.
  assert (Hn : (n <= 16)%nat) by (pose proof (ok_num_channels _ _ _ (mt_client _ _ _ _ _ Hmt)); unfold n; lia).
  destruct (requests_run l beyond cnonce snonce junk local mac_address demand_active fuel Hrel Hrel' Htsg cc cs host prod x m e d Hen rc rs Pc Ps)
    as (rc1 & rs1 & R1 & Pc1 & Ps1).
  pose proof (cc2_joins cnonce snonce junk local cc cs host prod x m e d Hen) as Jc.
  pose proof (cs2_joins cnonce snonce junk local cc cs host prod x m e d Hen) as Js. fold n ids in Jc, Js.
  set (c2 := cc2 snonce cc cs m e d) in *. set (s2 := cs2 snonce cc cs) in *.
  destruct (lookup_lt_is_Some_2 (to_join 1002 ids) (S n) ltac:(unfold to_join; cbn [length]; lia)) as [last Elast].
  destruct (join_rounds l beyond cnonce snonce junk local mac_address demand_active fuel Hrel Hrel' Htsg 1002 ids last
              (channel_ids_numbered n Hn) ltac:(rewrite Hids; exact Elast) (S n) 0%nat 1002 c2 s2 _ _ _ _ rc1 rs1
              ltac:(rewrite Hids; reflexivity) Pc1 Jc eq_refl Ps1 Js eq_refl eq_refl) as (rc2 & rs2 & R2 & Pc2 & Ps2).
  rewrite Hids in Ps2.
  destruct (ending_run l beyond cnonce snonce junk local mac_address demand_active fuel Hrel Hrel' Htsg cc cs host prod x m e d Hen last rc2 rs2
              Elast Pc2 Ps2) as (rc3 & rs3 & R3 & Sc & Ss & Cc & Cs & Hl).
  exists rc3, rs3. split; [etransitivity; [exact R1|]; etransitivity; [exact R2|exact R3]|].
  split; [exact Sc|]. split; [exact Ss|]. rewrite Cc, Cs. fold n c2 s2.
  pose proof (join_more_joins ids (S n) 0 c2 Jc ltac:(rewrite Hids; lia)) as Jc1.
  pose proof (join_more_joins ids (S n) 0 s2 Js ltac:(rewrite Hids; lia)) as Js1.
  pose proof (joins_next ids (S n) _ Jc1 ltac:(rewrite Hids; lia)) as Jc2. pose proof (joins_next ids (S n) _ Js1 ltac:(rewrite Hids; lia)) as Js2.
  replace (2 + length ids)%nat with (S (S n)) by (rewrite Hids; reflexivity).
  set (c3 := join_next (S n) (join_more (S n) 0 c2)) in *. set (s3 := join_next (S n) (join_more (S n) 0 s2)) in *.
  destruct (info_view_channels local (cn_settings c3) x (cn_settings s3)) as (V1 & V2 & V3).
  split; [apply (joins_same _ _ c3); try reflexivity; try assumption; apply (f_equal _ (zoned_core local (cn_settings c3)))|].
  split; [apply (joins_same _ _ s3); try reflexivity; assumption|]. split; [reflexivity|]. split; [|exact Hl].
  change (username (info_view local (cn_settings c3) x (cn_settings s3)) = or_old (nonempty (x_user x)) (username (cn_settings cs))).
  rewrite V3. destruct (join_next_core (S n) (join_more (S n) 0 s2)) as (t1 & E1 & _). fold s3 in E1.
  destruct (join_more_core (S n) 0 s2) as (t2 & E2 & _). rewrite E1, E2. reflexivity.
Qed.

(** *** Samples *)

#[local] Existing Instance ZBignum.
#[local] Existing Instance ZBignum_laws.

(** With RC4, and without encryption for a client that offers all methods. *)
Definition met_client (rc4 : bool) : connection :=
  if rc4 then sample_cc
  else set_core ((conn_core sample_cc) <| Gcc.encryption_method := Z.lor (Z.lor ENCRYPTION_METHOD_40BIT ENCRYPTION_METHOD_128BIT) ENCRYPTION_METHOD_FIPS |>) sample_cc.
Definition met_server (rc4 : bool) : connection :=
  if rc4 then sample_cs else set_core ((conn_core sample_cs) <| Gcc.encryption := false |>) sample_cs.

Lemma sample_meeting rc4 : meeting (conn_core (met_client rc4)) (conn_core (met_server rc4)) sample_host [0x31; 0x32]
  (mkKey sample_modulus sample_private sample_public).
Proof.
  destruct sample_client_ok. destruct rc4; (split; try reflexivity; try (vm_compute; discriminate));
    try (repeat (apply Forall_cons_2; [reflexivity|]); apply Forall_nil_2);
    try (split; try assumption; split; discriminate || reflexivity);
    try (split; try (split; discriminate || reflexivity); try reflexivity; try discriminate;
      repeat (apply Forall_cons_2; [split; discriminate || reflexivity|]); apply Forall_nil_2).
  intros _. repeat split. left. discriminate.
Qed.

Lemma sample_endpoints rc4 : endpoints sample_nonce (upto 32) (zeros 64) sample_local (met_client rc4) (met_server rc4) sample_host [0x31; 0x32]
  sample_texts sample_modulus sample_public sample_private.
Proof.
  destruct sample_rsa as [Hk Hu]. pose proof (sample_meeting rc4) as Hm. destruct sample_info_ok.
  destruct rc4; (split; try reflexivity; try exact Hm; try exact Hk; try exact Hu; try (split; reflexivity);
    [split; discriminate
    |split; [reflexivity|]; repeat (apply Forall_cons_2; [split; discriminate || reflexivity|]); apply Forall_nil_2
    |split; [reflexivity|]; repeat (apply Forall_cons_2; [split; discriminate || reflexivity|]); apply Forall_nil_2
    |split; assumption
    |repeat (apply Forall_cons_2; [reflexivity|]); apply Forall_nil_2
    |split; try reflexivity; try discriminate; (repeat (apply Forall_cons_2; [unfold Unicode.scalar, Unicode.codepoint; lia|]); apply Forall_nil_2)
    |vm_compute; discriminate]).
Qed.

Lemma connection_established_witness :
  let ids := channel_ids 0 2 in
  Forall (fun rc4 => exists rc' rs',
    rtc (conn_step TRANSPORT_LAYER_TCP 0 sample_nonce (upto 32) (zeros 64) sample_local [] (ret false) 8)
      (mkSystem (sample_rdp false (met_client rc4)) (sample_rdp true (met_server rc4))
         [connect_initial_pdu mcs_new (conn_core (met_client rc4)) sample_host [0x31; 0x32] ] []) (mkSystem rc' rs' [] []) /\
    rdp_state rc' = CONNECTION_STATE_CAPABILITY /\ rdp_state rs' = CONNECTION_STATE_LICENSE /\
    joins ids (2 + length ids) (rdp_conn rc') /\ joins ids (2 + length ids) (rdp_conn rs') /\
    l_state (cn_license (rdp_conn rc')) = LICENSE_STATE_COMPLETED /\
    username (cn_settings (rdp_conn rs')) = or_old (nonempty (x_user sample_texts)) (username (cn_settings (met_server rc4))) /\
    duplex TRANSPORT_LAYER_TCP TRANSPORT_LAYER_TCP rc4 rs' rc') [true; false].
Proof.
  intros ids. apply Forall_cons_2; [|apply Forall_cons_2; [|apply Forall_nil_2] ].
  - exact (connection_established TRANSPORT_LAYER_TCP 0 sample_nonce (upto 32) (zeros 64) sample_local [] (ret false) 8 (met_client true)
             (met_server true) sample_host [0x31; 0x32] sample_texts sample_modulus sample_public sample_private
             (sample_rdp false (met_client true)) (sample_rdp true (met_server true)) sink_reliable sink_reliable ltac:(discriminate)
             (sample_endpoints true) (sample_party false _) (sample_party true _)).
  - exact (connection_established TRANSPORT_LAYER_TCP 0 sample_nonce (upto 32) (zeros 64) sample_local [] (ret false) 8 (met_client false)
             (met_server false) sample_host [0x31; 0x32] sample_texts sample_modulus sample_public sample_private
             (sample_rdp false (met_client false)) (sample_rdp true (met_server false)) sink_reliable sink_reliable ltac:(discriminate)
             (sample_endpoints false) (sample_party false _) (sample_party true _)).
Defined.
