(* ===== verification/Activate.v ===== *)
(** Activation: the steps of [libfreerdp-core/connection.c] and
    [libfreerdp-core/activation.c] in which capabilities are exchanged, and what
    the two ends have agreed on when they are done. *)

From coqutil Require Import Datatypes.RecordSetters.
From S2P Require Import Prelude.
From S2P Require Import Stream.
From S2P Require Import Settings.
From S2P Require Import Mppc.
From S2P Require Import Per.
From S2P Require Import X224.
From S2P Require Import Transport.
From S2P Require Import Mcs.
From S2P Require Import Nego.
From S2P Require Import Security.
From S2P Require Import Rsa.
From S2P Require Import Certificate.
From S2P Require Import Input.
From S2P Require Import Gcc.
From S2P Require Import GccClient.
From S2P Require Import GccServer.
From S2P Require Import Fastpath.
From S2P Require Import Rdp.
From S2P Require Import Channel.
From S2P Require Import Poll.
From S2P Require Import Info.
From S2P Require Import License.
From S2P Require Import Capabilities.
From S2P Require Import CapabilitySets.
From S2P Require Import Connect.
Import TriangleBracketNotations.

(** ** State *)

(** The settings only the capability sets use, and the callbacks for input: those
    of the fast path, of the slow path, or none yet. *)
Record activation : Type := mkActivation {
  an_caps : capabilities;
  an_input : option bool;
}.

(** They are a part of the state of the handlers, as the connection is. The two
    calls into the drawing module do not touch either. *)
Class Activation (U : Type) `{Modules U} : Type := {
  act_of : U -> activation;
  put_act : activation -> U -> U;
  DesktopResize : U -> U;
  update_reset_state : U -> U;
  act_put : forall a u, act_of (put_act a u) = a;
  act_conn : forall c u, act_of (put_conn c u) = act_of u;
  conn_act : forall a u, conn_of (put_act a u) = conn_of u;
  act_resize : forall u, act_of (DesktopResize u) = act_of u;
  conn_resize : forall u, conn_of (DesktopResize u) = conn_of u;
  act_reset : forall u, act_of (update_reset_state u) = act_of u;
  conn_reset : forall u, conn_of (update_reset_state u) = conn_of u;
}.

Section steps.
Context {N U : Type} `{Link N} `{Crypto} `{PduHandlers U} `{Activation U}.

Abbreviation RM := (RM (N := N) (U := U)).

Definition rdp_act (r : rdpRdp N U) : activation := act_of (r_update (rdp_rx r)).
Definition act : RM activation := fun x => Done (rdp_act (snd x), x).
Definition on_update (f : U -> U) (r : rdpRdp N U) : rdpRdp N U := with_update (f (r_update (rdp_rx r))) r.
Definition act_upd (f : activation -> activation) : RM unit := rdp_upd (fun r => on_update (put_act (f (rdp_act r))) r).

(** The settings the capability sets have changed. *)
Definition put_caps (i : info_settings) (c : capabilities) : RM unit :=
  conn_upd (fun cn => cn <| cn_settings := i |>);;
  act_upd (fun a => a <| an_caps := c |>).

Definition input_register_client_callbacks : RM unit :=
  act_upd (fun a => a <| an_input := Some (fastpath_input (an_caps a)) |>).

(** [rdp->input->SynchronizeEvent]. *)
Definition SynchronizeEvent (flags : Z) : RM unit :=
  let! a := act in
  let! rdp := rdp_of in
  match an_input a with
  | None => fail NullPointer
  | Some true => out_of (input_send_fastpath_synchronize_event flags);; ret tt
  | Some false => out_of (input_send_synchronize_event (rdp_conf rdp) flags)
  end.

(** ** The client *)

Definition rdp_client_connect_finalize : RM bool :=
  let! rdp := rdp_of in
  let conf := rdp_conf rdp in
  let! ok := out_of (rdp_send_client_synchronize_pdu conf) in
  if negb ok then ret false else
  let! ok := out_of (rdp_send_client_control_pdu conf CTRLACTION_COOPERATE) in
  if negb ok then ret false else
  let! ok := out_of (rdp_send_client_control_pdu conf CTRLACTION_REQUEST_CONTROL) in
  if negb ok then ret false else
  SynchronizeEvent 0;;
  let! ok := out_of (rdp_send_client_persistent_key_list_pdu conf) in
  if negb ok then ret false else
  let! ok := out_of (rdp_send_client_font_list_pdu conf (Z.lor FONTLIST_FIRST FONTLIST_LAST)) in
  if negb ok then ret false else
  ret true.

Definition rdp_client_connect_demand_active : RM bool :=
  let! c := conn in
  let! a := act in
  let w := uint16 (width (conn_core c)) in
  let h := uint16 (height (conn_core c)) in
  let! mark := pkt get_pos in
  let! (ok, i, cp) := rdp_recv_demand_active (cn_settings c) (an_caps a) in
  put_caps i cp;;
  if negb ok then
    pkt (stream_set_pos mark);;
    rdp_recv_get_active_header;;
    let! ok := rdp_recv_out_of_sequence_pdu in
    if negb ok then ret false else ret true
  else
  let! rdp := rdp_of in
  if disconnect rdp then ret true else
  let! (ok, i, cp) := rdp_send_confirm_active i cp in
  put_caps i cp;;
  if negb ok then ret false else
  input_register_client_callbacks;;
  (if negb (w =? width (core i)) || negb (h =? height (core i)) then rdp_upd (on_update DesktopResize) else ret tt);;
  set_state CONNECTION_STATE_FINALIZATION;;
  rdp_upd (on_update update_reset_state);;
  rdp_client_connect_finalize;;
  ret true.

(** ** The server *)

Definition rdp_server_send_demand_active : RM bool :=
  let! c := conn in
  let! a := act in
  let! (ok, i, cp) := rdp_send_demand_active (cn_settings c) (an_caps a) in
  put_caps i cp;;
  ret ok.

Definition rdp_server_accept_confirm_active : RM bool :=
  let! c := conn in
  let! a := act in
  let! (ok, i, cp) := rdp_recv_confirm_active (cn_settings c) (an_caps a) in
  put_caps i cp;;
  if negb ok then ret false else
  set_state CONNECTION_STATE_ACTIVE;;
  rdp_upd (on_update update_reset_state);;
  let! rdp := rdp_of in
  let! ok := out_of (rdp_send_server_synchronize_pdu (rdp_conf rdp)) in
  if negb ok then ret false else
  let! ok := out_of (rdp_send_server_control_cooperate_pdu (rdp_conf rdp)) in
  if negb ok then ret false else
  ret true.

Definition rdp_server_reactivate : RM bool :=
  let! rdp := rdp_of in
  let! ok := out_of (rdp_send_deactivate_all (rdp_conf rdp)) in
  if negb ok then ret false else
  set_state CONNECTION_STATE_LICENSE;;
  let! ok := rdp_server_send_demand_active in
  if negb ok then ret false else
  ret true.

Definition rdp_server_accept_client_control_pdu : RM bool :=
  let! action := pkt rdp_recv_control_pdu in
  match action with
  | None => ret false
  | Some action =>
      if action =? CTRLACTION_REQUEST_CONTROL then
        let! rdp := rdp_of in
        let! ok := out_of (rdp_send_server_control_granted_pdu (rdp_conf rdp)) in
        if negb ok then ret false else ret true
      else ret true
  end.

Definition rdp_server_accept_client_font_list_pdu : RM bool :=
  let! ok := pkt rdp_recv_client_font_list_pdu in
  if negb ok then ret false else
  let! rdp := rdp_of in
  let! ok := out_of (rdp_send_server_font_map_pdu (rdp_conf rdp)) in
  if negb ok then ret false else
  ret true.

End steps.

(** ** Share PDUs between two ends *)

Section headers.
Context {N U : Type} `{HLink : Link N} `{HC : Crypto} `{HH : PduHandlers U}.

Lemma land_both (f a b : Z) : Z.land f b = 0 -> (Z.land f (Z.lor a b) =? 0) = (Z.land f a =? 0).
Proof. intros E. rewrite Z.land_lor_distr_r, E, Z.lor_0_r. reflexivity. Qed.

(** The header of an active PDU is that of any packet. *)
Lemma active_header_run id (x y : STREAM * rdpRdp N U) : rdp_recv_tpkt_start x = Done (inr id, y) ->
  rdp_recv_get_active_header x = Done ((id =? MCS_GLOBAL_CHANNEL_ID, Some id), y).
Proof.
  unfold rdp_recv_tpkt_start, rdp_recv_get_active_header. intros E.
  apply bind_inv in E as ([[ok length] chan] & x1 & E1 & E). rewrite (bind_Done _ _ _ _ _ E1).
  destruct ok; [cbn [negb] in *|discriminate E].
  apply bind_inv in E as (rdp & x2 & E2 & E). rewrite (bind_Done _ _ _ _ _ E2).
  destruct (disconnect rdp); [discriminate E|].
  apply bind_inv in E as (early & x3 & E3 & E). destruct early as [b|]; [discriminate E|].
  apply bind_inv in E as (id' & x4 & E4 & E). injection E as -> ->.
  assert (Hchan : chan = Some id /\ x3 = y) by (destruct chan; [injection E4 as -> ->; auto|discriminate E4]).
  destruct Hchan as [-> ->]. clear E1 E2 E4.
  assert (Hdec : (if encryption (rdp_conf rdp) then
            let! securityFlags := pkt rdp_read_security_header in
            if negb (Z.land securityFlags SEC_ENCRYPT =? 0) then rdp_decrypt (length - 4) securityFlags else ret true
          else ret true) x2 = Done (true, y)).
  { destruct (encryption (rdp_conf rdp)); [|injection E3 as <-; reflexivity].
    apply bind_inv in E3 as (flags & x4 & E4 & E3). rewrite (bind_Done _ _ _ _ _ E4).
    apply bind_inv in E3 as (ok & x5 & E5 & E3). destruct ok; [cbn [negb] in E3|discriminate E3].
    destruct (Z.land flags SEC_REDIRECTION_PKT =? 0) eqn:Er; cbn [negb] in E3.
    - injection E3 as <-. rewrite land_both in E5 by (apply Z.eqb_eq, Er). exact E5.
    - apply bind_inv in E3 as (? & ? & _ & E3). apply bind_inv in E3 as (? & ? & _ & E3). discriminate E3. }
  rewrite (bind_Done _ _ _ _ _ Hdec). cbn [negb use]. rewrite bind_ret. destruct (id =? MCS_GLOBAL_CHANNEL_ID); reflexivity.
Qed.
End headers.

Section delivery.
Context {N N' U U' : Type} (l l' : TRANSPORT_LAYER) `{HLink : LinkLaws N l} `{HLink' : LinkLaws N' l'}
  `{HC : Crypto} `{HL : !CryptoLaws} `{HH : PduHandlers U} `{HH' : PduHandlers U'}.

(** The link only depends on what is sent through and on how. *)
Lemma duplex_ext crypt (a a1 : rdpRdp N U) (b b1 : rdpRdp N' U') : duplex l l' crypt a b ->
  rdp_out a1 = rdp_out a -> encryption (rdp_conf a1) = encryption (rdp_conf a) -> disconnect a1 = disconnect a ->
  rdp_out b1 = rdp_out b -> encryption (rdp_conf b1) = encryption (rdp_conf b) -> disconnect b1 = disconnect b ->
  duplex l l' crypt a1 b1.
Proof.
  intros [[] []] E1 E2 E3 E4 E5 E6. split; split; rewrite ?E1, ?E2, ?E3, ?E4, ?E5, ?E6; assumption.
Qed.

(** The security flags of the packet that is initialised are those the peer
    expects. *)
Lemma linked_agreed crypt (r : fpRdp N) (b : rdpRdp N' U') s : linked l crypt r b ->
  agreed crypt (set_sec_flags (packet_flags r) (with_send_stream s r)) b.
Proof.
  intros [_ _ _ _ _ Hcr Hm Hm' Hpair He Hd]. destruct crypt; constructor; cbn; auto;
    unfold packet_flags; rewrite Hcr; try reflexivity; destruct (fp_do_secure_checksum r);
    try reflexivity; lens_lia.
Qed.

(** The link after one packet. *)
Lemma duplex_sent crypt (a : rdpRdp N U) (b : rdpRdp N' U') (r' : fpRdp N) (b' : rdpRdp N' U') k size pdu post :
  duplex l l' crypt a b -> after_send l size pdu post k (fp_cfg (rdp_out a)) r' -> size <= 2 ^ 20 -> len pdu <= size ->
  size <= len pdu + len post -> len pdu <= 2 ^ 16 -> b' = with_sec (fp_sec (rdp_out b')) b ->
  (if crypt then stepped (fp_sec (rdp_out a)) (fp_sec (rdp_out b)) k (fp_sec (rdp_out b')) else k = fp_sec (rdp_out a)) ->
  duplex l l' crypt (with_out r' a) b'.
Proof.
  intros [[Hl Hfits Hs20 Hp16 Hfl0 Hcr Hm Hm' Hpair He Hd] [Gl Gfits Gs20 Gp16 Gfl0 Gcr Gm Gm' Gpair Ge Gd]]
    [Hl' Hst' Hsec' Hcfg Hfl'] Hz Hz1 Hz2 Hp Hb Hk.
  unfold fp_cfg in Hcfg. injection Hcfg as Hcr' _ Hm1. pose proof (len_nonneg pdu).
  split; split; cbn [with_out rdp_out rdp_conf disconnect]; auto; try (rewrite Hst'; cbn [behind s_p s_size s_data]; lia);
    try (rewrite Hb; assumption); try (rewrite Hcr' || rewrite Hm1; assumption).
  - rewrite Hst'. split; cbn [behind s_p s_size s_data]; [lia|rewrite len_app; lia].
  - intros ->. rewrite Hsec'. exact (st_paired _ _ _ _ Hk).
  - intros ->. rewrite Hsec'. exact (st_back _ _ _ _ Hk (Gpair eq_refl)).
Qed.

(** A share PDU from one end to the other, up to its contents. *)
Lemma pdu_delivery {A} (w : M STREAM A) body v type channel crypt (a : rdpRdp N U) (b : rdpRdp N' U') conf :
  duplex l l' crypt a b -> reliable (N := N) l -> l <> TRANSPORT_LAYER_TSG ->
  Writes w body v -> len body <= 1900 -> 0 <= type < 16 -> 0 <= channel < 65536 -> 1001 <= mcs_user_id conf < 65536 ->
  exists o r' pdu s' b',
    (rdp_pdu_init;; on_stream w) (rdp_out a) = Done (v, o) /\ rdp_send_pdu conf type channel o = Done (true, r') /\
    sent r' = sent (rdp_out a) ++ pdu /\ pdu_length l pdu = Done (len pdu) /\
    rdp_recv_get_active_header (mkSTREAM (len pdu) 0 pdu, b) = Done ((true, Some MCS_GLOBAL_CHANNEL_ID), (s', b')) /\
    holds s' (share_control_bytes (6 + len body) type channel ++ body) /\ stream_get_left s' = 6 + len body /\
    b' = with_sec (fp_sec (rdp_out b')) b /\ duplex l l' crypt (with_out r' a) b'.
Proof.
  intros Hdx Hrel Htsg Hw Hb Hty Hch Hu. pose proof (len_nonneg body). pose proof (dx_to _ _ _ _ _ Hdx) as Hln.
  destruct (stream_init_run l crypt (rdp_out a) b Hln) as (sz & h & sec & post & Einit & Hh & Hsec & Hsz & Hpost).
  assert (Hsb : 0 <= len sec <= 12) by (rewrite Hsec; destruct crypt; cbn; lia).
  assert (Hhs : len (h ++ sec) = 15 + len sec) by (rewrite len_app; lia).
  destruct (app_split post 6) as (hole & post1 & -> & Hhole); [lia|]. rewrite len_app in Hpost.
  destruct (write_behind w body v sz ((h ++ sec) ++ hole) post1 Hw) as (post2 & Ew & Hp2); [lia|].
  set (o := set_sec_flags (packet_flags (rdp_out a)) (with_send_stream (behind sz (((h ++ sec) ++ hole) ++ body) post2) (rdp_out a))).
  assert (Eo : (rdp_pdu_init;; on_stream w) (rdp_out a) = Done (v, o)).
  { assert (Ei : rdp_pdu_init (rdp_out a)
        = (rdp_send_stream_init;; on_stream (stream_seek RDP_SHARE_CONTROL_HEADER_LENGTH)) (rdp_out a))
      by (unfold rdp_pdu_init, rdp_send_stream_init; rewrite !bind_assoc; reflexivity).
    unfold bind at 1. rewrite Ei, (bind_Done _ _ _ _ _ Einit).
    erewrite on_stream_run by (apply (seek_behind sz (h ++ sec) hole post1); exact (eq_sym Hhole)).
    erewrite on_stream_run by exact Ew. reflexivity. }
  set (n := 15 + len sec + len hole + len body).
  assert (Hs1 : stream_of o = mkSTREAM sz n (h ++ sec ++ hole ++ body ++ post2)).
  { change (stream_of o) with (behind sz (((h ++ sec) ++ hole) ++ body) post2). unfold behind, n.
    rewrite <- !app_assoc. f_equal. rewrite !len_app. lia. }
  destruct (framed_delivery l conf MCS_GLOBAL_CHANNEL_ID (fun length => rdp_write_share_control_header length type channel)
              (share_control_bytes (6 + len body) type channel) crypt o b sz h sec hole body post2)
    as (ok & r' & k & pdu & s' & b' & a' & E & Hout & Hok & Hpdu & Hpn & Hrecv & Hh' & Hle & Hrb & Hp);
    [apply linked_agreed, Hln|lia|apply (ln_layer _ _ _ _ Hln)|exact Htsg|exact Hsec|exact Hh|exact Hs1| |exact (eq_sym Hhole)|exact Hu
    |unfold MCS_GLOBAL_CHANNEL_ID; lia|].
  { replace (6 + len body) with (15 + len sec + len hole + len body - len sec - 15) by lia.
    apply Writes_share_control. lia. }
  destruct ok; [|destruct Hok as [_ Hno]; contradiction]. destruct Hok as [Hk Has].
  exists o, r', pdu, s', b'. split; [exact Eo|]. split; [exact E|].
  split; [rewrite Hout, take_ge by exact Hk; reflexivity|]. split; [exact Hpdu|].
  split; [exact (active_header_run _ _ _ Hrecv)|]. split; [exact Hh'|]. split; [rewrite Hle, len_app; reflexivity|].
  split; [exact Hrb|]. apply (duplex_sent crypt a b r' b' a' sz pdu post2); auto; lia.
Qed.
End delivery.

(** ** The PDUs of the exchange *)

Section exchange.
Context {N U : Type} `{HLink : Link N} `{HC : Crypto} `{HH : PduHandlers U}.

(** [sends], for the sets at the front of what a receiver holds. *)
Definition received {A} (w : M STREAM A) (a : A) (n : nat) (bs : list Z) (view : cap_settings -> cap_settings) : Prop :=
  Writes w bs a /\ forall st, len (received_caps (caps st)) = 32 ->
    forall tail s, holds s (bs ++ tail) -> read_sets n st s = Done ((true, view st), adv (len bs) s).

Lemma sends_received {A} (w : M STREAM A) a n b view : CapabilitySets.sends w a n b view ->
  exists bs, received w a n bs view /\ len bs <= b.
Proof.
  intros (bs & Hw & Hb & Hr). exists bs. split; [split; [exact Hw|]|exact Hb]. intros st Hst tail s Hs.
  destruct (Hr st Hst) as [_ E]. specialize (E tail O s Hs). rewrite Nat.add_0_r in E. exact E.
Qed.

Definition combined_bytes (desc : list Z) (n : nat) (bs : list Z) : list Z :=
  le16 (4 + len bs) ++ desc ++ le16 (Z.of_nat n) ++ le16 0 ++ bs.

Lemma len_combined desc n bs : len (combined_bytes desc n bs) = 6 + len desc + len bs.
Proof. unfold combined_bytes. rewrite !len_app. change (len (le16 _)) with 2. lia. Qed.

Lemma recv_sets_run {A} (w : M STREAM A) a desc n bs view i c tail s (r : rdpRdp N U) :
  received w a n bs view -> len (received_caps c) = 32 -> len desc < 65536 -> 4 + len bs < 65536 -> Z.of_nat n < 65536 ->
  holds s (le16 (len desc) ++ combined_bytes desc n bs ++ tail) ->
  let st' := view (mkCapSettings (rdp_conf r) i c) in
  recv_sets i c (s, r)
  = Done ((true, info st', caps st'), (adv (2 + len (combined_bytes desc n bs)) s, with_conf (conf st') r)).
Proof.
  intros [_ Hr] Hc Hd Hb Hn Hs st'. unfold combined_bytes in Hs. rewrite <- !app_assoc in Hs.
  pose proof (len_nonneg bs). pose proof (len_nonneg desc).
  destruct (holds_app _ _ _ Hs) as [H1 Hs1]. destruct (holds_app _ _ _ Hs1) as [H2 Hs2]. destruct (holds_app _ _ _ Hs2) as [H3 Hs3].
  destruct (holds_app _ _ _ Hs3) as [H4 Hs4]. destruct (holds_app _ _ _ Hs4) as [_ Hs5].
  unfold recv_sets.
  rewrite (bind_Done _ _ _ _ _ (pkt_run _ _ r _ _ (Reads_le16 (len desc) ltac:(lia) _ H1))).
  rewrite (bind_Done _ _ _ _ _ (pkt_run _ _ r _ _ (Reads_le16 (4 + len bs) ltac:(lia) _ H2))).
  rewrite (bind_Done _ _ _ _ _ (pkt_run _ _ r _ _ (Reads_seek desc (len desc) eq_refl _ H3))).
  rewrite (bind_Done _ _ _ _ _ (pkt_run _ _ r _ _ (Reads_le16 (Z.of_nat n) ltac:(lia) _ H4))).
  unfold bind at 1. unfold pkt at 1, zoom at 1. cbn [fst stream_seek].
  unfold settings_of. rewrite bind_assoc. unfold bind at 1, rdp_of. rewrite bind_ret. cbn [snd].
  assert (Er : pkt (rdp_read_capability_sets (mkCapSettings (rdp_conf r) i c) (Z.of_nat n))
             (adv 2 (adv (len (le16 (Z.of_nat n))) (adv (len desc) (adv (len (le16 (4 + len bs))) (adv (len (le16 (len desc))) s)))), r)
           = Done ((true, st'), (adv (2 + len (combined_bytes desc n bs)) s, r))).
  { apply pkt_run. unfold rdp_read_capability_sets. rewrite Nat2Z.id. change (len (le16 0)) with 2 in Hs5.
    rewrite (Hr (mkCapSettings (rdp_conf r) i c) Hc tail) by exact Hs5. rewrite !adv_adv, len_combined.
    change (len (le16 _)) with 2. do 3 f_equal. lia. }
  unfold stream_seek. rewrite (bind_Done _ _ _ _ _ Er). reflexivity.
Qed.

(** What is read in front of the sets. *)
Lemma active_front type n channel rest s (b : rdpRdp N U) :
  holds s (share_control_bytes n type channel ++ rest) -> n = 6 + len rest -> n < 65536 -> stream_get_left s = n ->
  0 <= type < 16 -> 0 <= channel < 65536 ->
  pkt (rdp_read_share_control_header None None) (s, b) = Done ((true, n, Some type, Some channel), (adv 6 s, b)) /\
  holds (adv 6 s) rest.
Proof.
  intros Hs Hn Hlt Hl Ht Hc. destruct (share_control_run n type channel rest s None None) as [E Hr]; auto; [lia|].
  split; [apply pkt_run, E|exact Hr].
Qed.

(** The settings of the RDP layer that the sets change. *)
Lemma demand_conf p st : conf (demand_view p st)
  = if mode st then conf st else (conf st) <| vc_chunk_size := vc_chunk_size (conf p) |>.
Proof.
  unfold demand_view, views, demand_views, seen, same. cbn [fold_left]. unfold input_view, bitmap_view, channel_view, codecs_view.
  destruct (desktop_resize (caps p)), st as [[[]] ? [? ? [] ]]; reflexivity.
Qed.

(** A field every view keeps. *)
Lemma views_keep {A} (get : cap_settings -> A) (P : cap_settings -> Prop) fs :
  Forall (fun f => forall st, P st -> P (f st) /\ get (f st) = get st) fs ->
  forall st, P st -> P (views fs st) /\ get (views fs st) = get st.
Proof.
  induction 1 as [|f fs Hf _ IH]; intros st Hst; [auto|]. destruct (Hf st Hst) as [Hp E].
  destruct (IH _ Hp) as [Hp' E']. split; [exact Hp'|]. rewrite <- E. exact E'.
Qed.

Lemma confirm_conf p st : mode st = true -> conf (confirm_view p st) = conf st.
Proof.
  intros Hm. apply (views_keep conf (fun st => mode st = true)); [|exact Hm]. clear st Hm. unfold confirm_views.
  repeat constructor;
    repeat match goal with |- context [if ?b then _ else same] => destruct b end;
    revert st H; intros [[[]] ? ?] Hm; try discriminate Hm; reflexivity.
Qed.

Definition RDP_DESCRIPTOR : list Z := [0x52; 0x44; 0x50; 0].
Definition demand_bytes (share : Z) (bs : list Z) : list Z :=
  le32 share ++ le16 (len RDP_DESCRIPTOR) ++ combined_bytes RDP_DESCRIPTOR 14 bs ++ le32 0.
Definition confirm_bytes (share : Z) (n : nat) (bs : list Z) : list Z :=
  le32 share ++ le16 0x03EA ++ le16 (len SOURCE_DESCRIPTOR) ++ combined_bytes SOURCE_DESCRIPTOR n bs.

Lemma len_demand_bytes share bs : len (demand_bytes share bs) = 20 + len bs.
Proof. unfold demand_bytes. rewrite !len_app, len_combined. change (len (le32 _)) with 4. change (len (le16 _)) with 2. change (len RDP_DESCRIPTOR) with 4. lia. Qed.

Lemma len_confirm_bytes share n bs : len (confirm_bytes share n bs) = 22 + len bs.
Proof. unfold confirm_bytes. rewrite !len_app, len_combined. change (len (le32 _)) with 4. change (len (le16 _)) with 2. change (len SOURCE_DESCRIPTOR) with 8. lia. Qed.

Lemma Writes_demand p : caps_ok p -> sendable_caps p ->
  exists bs, len bs <= 700 /\ received (demand_active_sets p) (14, switched p) 14 bs (demand_view (switched p)) /\
    Writes (rdp_write_demand_active p) (demand_bytes (share_id (conf p)) bs) (switched p).
Proof.
  intros Hp Hs. destruct (sends_received _ _ _ _ _ (sends_demand p Hp Hs)) as (bs & Hr & Hb). exists bs.
  split; [exact Hb|]. split; [exact Hr|]. unfold rdp_write_demand_active, demand_bytes.
  eapply Writes_bind; [apply Writes_uint32|]. eapply Writes_bind; [apply Writes_uint16|].
  eapply Writes_bind; [apply (Writes_combined _ _ 14 (switched p) bs (proj1 Hr)); lia|].
  eapply Writes_last; [apply Writes_uint32|apply Writes_ret].
Qed.

Lemma confirm_count_le p : (15 <= confirm_count p <= 24)%nat.
Proof.
  unfold confirm_count. repeat match goal with |- context [sets_if ?b ?n] => pose proof (sets_if_le b n); generalize dependent (sets_if b n); intros end.
  lia.
Qed.

Lemma Writes_confirm p : caps_ok p -> sendable_caps p ->
  exists bs, len bs <= 900 /\
    received (confirm_active_sets p) (Z.of_nat (confirm_count (switched p)), switched p) (confirm_count (switched p)) bs (confirm_view (switched p)) /\
    Writes (rdp_write_confirm_active p) (confirm_bytes (share_id (conf p)) (confirm_count (switched p)) bs) (switched p).
Proof.
  intros Hp Hs. destruct (sends_received _ _ _ _ _ (sends_confirm p Hp Hs)) as (bs & Hr & Hb). exists bs.
  split; [exact Hb|]. split; [exact Hr|]. unfold rdp_write_confirm_active, confirm_bytes.
  eapply Writes_bind; [apply Writes_uint32|]. eapply Writes_bind; [apply Writes_uint16|].
  eapply Writes_bind; [apply Writes_uint16|]. apply (Writes_combined _ _ _ (switched p) bs (proj1 Hr)). lia.
Qed.

(** Reading the two PDUs behind their packet headers. *)
Lemma recv_demand_run i c p user share bs s' (b b' : rdpRdp N U) packet :
  rdp_recv_get_active_header packet = Done ((true, Some MCS_GLOBAL_CHANNEL_ID), (s', b')) -> disconnect b' = false ->
  holds s' (share_control_bytes (6 + len (demand_bytes share bs)) PDU_TYPE_DEMAND_ACTIVE user ++ demand_bytes share bs) ->
  stream_get_left s' = 6 + len (demand_bytes share bs) -> len bs <= 700 -> 0 <= user < 65536 -> 0 <= share < 2 ^ 32 ->
  received (demand_active_sets p) (14, switched p) 14 bs (demand_view (switched p)) -> len (received_caps c) = 32 ->
  let st := demand_view (switched p) (mkCapSettings (set_share_id share (set_pdu_source user (rdp_conf b'))) i c) in
  exists s2, rdp_recv_demand_active i c packet
    = Done ((true, info st, (caps st) <| glyph_v2 := GLYPH_SUPPORT_FULL <? glyphSupportLevel (caps st) |>), (s2, with_conf (conf st) b')).
Proof.
  intros Eh Hd Hs Hleft Hb Hu Hsh Hr Hc st. pose proof (len_demand_bytes share bs). pose proof (len_nonneg bs).
  destruct (active_front PDU_TYPE_DEMAND_ACTIVE _ user (demand_bytes share bs) s' b' Hs eq_refl) as [Ef Hs1];
    [lia|exact Hleft|split; discriminate || reflexivity|exact Hu|].
  unfold demand_bytes in Hs1 at 1. destruct (holds_app _ _ _ Hs1) as [H1 Hs2].
  unfold rdp_recv_demand_active. rewrite (bind_Done _ _ _ _ _ Eh). cbn [negb]. unfold bind at 1, rdp_of at 1. cbn [snd]. rewrite Hd.
  rewrite (bind_Done _ _ _ _ _ Ef). cbn [negb use]. rewrite bind_ret. unfold bind at 1, rdp_upd at 1. cbn [fst snd].
  rewrite bind_ret. cbn [negb Z.eqb Pos.eqb PDU_TYPE_DEMAND_ACTIVE].
  set (b1 := with_conf (set_pdu_source user (rdp_conf b')) b').
  rewrite (bind_Done _ _ _ _ _ (pkt_run _ _ b1 _ _ (Reads_le32 share Hsh _ H1))).
  unfold bind at 1, rdp_upd at 1. cbn [fst snd]. set (b2 := with_conf (set_share_id share (rdp_conf b1)) b1).
  eexists. rewrite (bind_Done _ _ _ _ _ (recv_sets_run _ _ RDP_DESCRIPTOR 14 bs (demand_view (switched p)) i c _ _ b2
    Hr Hc eq_refl ltac:(lia) ltac:(lia) Hs2)). reflexivity.
Qed.

Lemma recv_confirm_run i c p user share bs s' (b' : rdpRdp N U) packet :
  let n := confirm_count (switched p) in
  rdp_recv_get_active_header packet = Done ((true, Some MCS_GLOBAL_CHANNEL_ID), (s', b')) ->
  holds s' (share_control_bytes (6 + len (confirm_bytes share n bs)) PDU_TYPE_CONFIRM_ACTIVE user ++ confirm_bytes share n bs) ->
  stream_get_left s' = 6 + len (confirm_bytes share n bs) -> len bs <= 900 -> 0 <= user < 65536 ->
  received (confirm_active_sets p) (Z.of_nat n, switched p) n bs (confirm_view (switched p)) -> len (received_caps c) = 32 ->
  let st := confirm_view (switched p) (mkCapSettings (set_pdu_source user (rdp_conf b')) i c) in
  exists s2, rdp_recv_confirm_active i c packet = Done ((true, info st, caps st), (s2, with_conf (conf st) b')).
Proof.
  intros n Eh Hs Hleft Hb Hu Hr Hc st. pose proof (len_confirm_bytes share n bs). pose proof (len_nonneg bs).
  pose proof (confirm_count_le (switched p)) as Hn. fold n in Hn.
  destruct (active_front PDU_TYPE_CONFIRM_ACTIVE _ user (confirm_bytes share n bs) s' b' Hs eq_refl) as [Ef Hs1];
    [lia|exact Hleft|split; discriminate || reflexivity|exact Hu|].
  unfold confirm_bytes in Hs1 at 1. destruct (holds_app _ _ _ Hs1) as [_ Hs2]. destruct (holds_app _ _ _ Hs2) as [_ Hs3].
  unfold rdp_recv_confirm_active. rewrite (bind_Done _ _ _ _ _ Eh). cbn [negb].
  rewrite (bind_Done _ _ _ _ _ Ef). cbn [negb use]. rewrite bind_ret. unfold bind at 1, rdp_upd at 1. cbn [fst snd].
  rewrite bind_ret. cbn [negb Z.eqb Pos.eqb PDU_TYPE_CONFIRM_ACTIVE].
  set (b1 := with_conf (set_pdu_source user (rdp_conf b')) b').
  unfold bind at 1. unfold pkt at 1, zoom at 1. cbn [fst snd stream_seek]. unfold bind at 1. unfold pkt at 1, zoom at 1. cbn [fst snd stream_seek].
  rewrite <- (app_nil_r (combined_bytes SOURCE_DESCRIPTOR n bs)) in Hs3. eexists.
  refine (recv_sets_run _ _ SOURCE_DESCRIPTOR n bs (confirm_view (switched p)) i c [] _ b1 Hr Hc eq_refl _ _ Hs3); lia.
Qed.
End exchange.

(** ** What the two ends agree on *)

(** The orders an end can draw. *)
Definition orders (st : cap_settings) : list bool := map (fun b => negb (b =? 0)) (order_support (caps st)).
Definition output_modes (st : cap_settings) : bool * bool * bool :=
  (fastpath_output (caps st), desktop_resize (caps st), color_pointer (caps st)).
Definition keyboard (st : cap_settings) : Z * Z * Z * Z :=
  (kbd_layout (score st), kbd_type (score st), kbd_subtype (score st), kbd_fn_keys (score st)).
Definition codecs (st : cap_settings) : bool * bool := (rfx_codec (score st), ns_codec (caps st)).

(** The settings [p] of the server and [q] of the client have become [p'] and
    [q']. *)
Record agreement (p q p' q' : cap_settings) : Prop := {
  ag_orders : orders p' = zip_with andb (orders p) (orders q) /\ orders q' = orders p';
  ag_output : output_modes p' = (fastpath_output (caps p) && fastpath_output (caps q),
                                 desktop_resize (caps p) && desktop_resize (caps q),
                                 color_pointer (caps p) && color_pointer (caps q)) /\
              output_modes q' = output_modes p';
  ag_input : fastpath_input (caps q') = fastpath_input (caps p) && fastpath_input (caps q);
  ag_depth : color_depth (score q') = preferred p;
  ag_size : desktop_resize (caps q') = true -> width (score q') = width (score p) /\ height (score q') = height (score p);
  ag_chunk : vc_chunk_size (conf q') = vc_chunk_size (conf p') /\ vc_chunk_size (conf p') = vc_chunk_size (conf p);
  ag_fragments : multifrag_max_request_size (caps q') = multifrag_max_request_size (caps p') /\
                 multifrag_max_request_size (caps p') = multifrag_max_request_size (caps p);
  ag_keyboard : keyboard p' = keyboard q /\ keyboard q' = keyboard q;
  ag_codecs : codecs p' = codecs q /\ codecs q' = codecs q;
  ag_glyphs : glyphSupportLevel (caps p') = glyphSupportLevel (caps q) /\ glyphSupportLevel (caps q') = glyphSupportLevel (caps q);
  ag_pointers : large_pointer (caps q) = true -> pointer_cache_size (caps p') = pointer_cache_size (caps q);
}.

Lemma switched_server p : mode p = true ->
  switched p = upd_caps (fun c => c <| refresh_rect := false |> <| suppress_output := false |>) p.
Proof. intros E. unfold switched. rewrite E. reflexivity. Qed.

Lemma switched_client q : mode q = false -> switched q = q.
Proof. intros E. unfold switched. rewrite E. reflexivity. Qed.

(** What is left of orders that the other end does not have either. *)
Lemma without_orders_supported peer : forall own, length peer = length own ->
  map (fun b => negb (b =? 0)) (without_orders peer own)
  = zip_with andb (map (fun b => negb (b =? 0)) peer) (map (fun b => negb (b =? 0)) own).
Proof.
  induction peer as [|x peer IH]; intros own Hl; [destruct own; [reflexivity|discriminate Hl]|].
  destruct own as [|o own]; [discriminate Hl|]. cbn [without_orders map zip_with]. rewrite (IH own) by (injection Hl; auto).
  destruct (x =? 0); reflexivity.
Qed.

(** *** The client *)

Definition client_fields (p q q' : cap_settings) : Prop :=
  conf q' = (conf q) <| vc_chunk_size := vc_chunk_size (conf p) |> /\
  order_support (caps q') = without_orders (order_support (caps p)) (order_support (caps q)) /\
  output_modes q' = (fastpath_output (caps p) && fastpath_output (caps q), desktop_resize (caps p) && desktop_resize (caps q),
                     color_pointer (caps p) && color_pointer (caps q)) /\
  fastpath_input (caps q') = fastpath_input (caps p) && fastpath_input (caps q) /\
  color_depth (score q') = preferred p /\
  (width (score q'), height (score q'))
  = (if desktop_resize (caps p) && desktop_resize (caps q) then (width (score p), height (score p))
     else (width (score q), height (score q))) /\
  multifrag_max_request_size (caps q') = multifrag_max_request_size (caps p) /\
  keyboard q' = keyboard q /\ codecs q' = codecs q /\ glyphSupportLevel (caps q') = glyphSupportLevel (caps q) /\
  large_pointer (caps q') = large_pointer (caps q) /\ pointer_cache_size (caps q') = pointer_cache_size (caps q).

Lemma client_takes p q : mode q = false -> client_fields p q (demand_view p q).
Proof.
  intros Hq. destruct p as [? ? [? ? [] ]], q as [[[]] ? [? ? [] ]]; try discriminate Hq; unfold client_fields;
    repeat (split; [vm_compute; reflexivity|]); vm_compute; reflexivity.
Qed.

(** *** The server *)

(** The sets a client always sends, and the optional ones. *)
Definition confirm_always (q : cap_settings) : list (cap_settings -> cap_settings) := take 15 (confirm_views q).
Definition confirm_options (q : cap_settings) : list (cap_settings -> cap_settings) := drop 15 (confirm_views q).

Lemma confirm_view_split q p : confirm_view q p = views (confirm_options q) (views (confirm_always q) p).
Proof. unfold confirm_view, views, confirm_always, confirm_options. rewrite <- fold_left_app, take_drop. reflexivity. Qed.

Definition server_fields (q p p' : cap_settings) : Prop :=
  mode p' = true /\
  order_support (caps p') = without_orders (order_support (caps q)) (order_support (caps p)) /\
  output_modes p' = (fastpath_output (caps q) && fastpath_output (caps p), desktop_resize (caps q) && desktop_resize (caps p),
                     color_pointer (caps q) && color_pointer (caps p)) /\
  keyboard p' = keyboard q /\ glyphSupportLevel (caps p') = glyphSupportLevel (caps q) /\
  pointer_cache_size (caps p') = if large_pointer (caps q) then pointer_cache_size (caps q) else CAPSET_TYPE_INPUT.

Lemma server_takes_always q p : mode p = true -> server_fields q p (views (confirm_always q) p).
Proof.
  intros Hp. destruct q as [? ? [? ? [] ]], p as [[[]] ? [? ? [] ]]; try discriminate Hp; unfold server_fields;
    repeat (split; [vm_compute; reflexivity|]); vm_compute; reflexivity.
Qed.

Definition kept (st : cap_settings) : list Z * (bool * bool * bool) * (Z * Z * Z * Z) * Z * Z :=
  (order_support (caps st), output_modes st, keyboard st, glyphSupportLevel (caps st), pointer_cache_size (caps st)).

Lemma options_keep q p : mode p = true ->
  mode (views (confirm_options q) p) = true /\ kept (views (confirm_options q) p) = kept p.
Proof.
  apply (views_keep kept (fun st => mode st = true)). unfold confirm_options, confirm_views. cbn [drop].
  repeat constructor; intros; repeat match goal with |- context [if ?b then _ else same] => destruct b end;
    match goal with st : cap_settings |- _ => destruct st as [[[]] ? ?] end; try discriminate; vm_compute; reflexivity.
Qed.

Lemma kept_fields q p p1 p2 : server_fields q p p1 -> mode p2 = true -> kept p2 = kept p1 -> server_fields q p p2.
Proof.
  intros (_ & H1 & H2 & H3 & H4 & H5) Hm Hk. unfold kept in Hk. injection Hk as K1 K2 K3 K4 K5 K6 K7 K8 K9 K10.
  unfold server_fields, output_modes, keyboard in *. rewrite K1, K2, K3, K4, K5, K6, K7, K8, K9, K10. auto 10.
Qed.

Lemma server_takes q p : mode p = true -> server_fields q p (confirm_view q p).
Proof.
  intros Hp. rewrite confirm_view_split. pose proof (server_takes_always q p Hp) as H1.
  pose proof (options_keep q _ (proj1 H1)) as H2. exact (kept_fields q p _ _ H1 (proj1 H2) (proj2 H2)).
Qed.

(** What follows from the sets a client only sends when it has received them. *)
Lemma server_takes_received q p : mode p = true -> received_of CAPSET_TYPE_MULTI_FRAGMENT_UPDATE q = true ->
  received_of CAPSET_TYPE_BITMAP_CODECS q = true ->
  multifrag_max_request_size (caps (confirm_view q p)) = multifrag_max_request_size (caps q) /\
  codecs (confirm_view q p) = codecs q.
Proof.
  intros Hp H1 H2. rewrite confirm_view_split. pose proof (proj1 (server_takes_always q p Hp)) as Hm. revert Hm.
  generalize (views (confirm_always q) p). intros p1 Hm. unfold confirm_options, confirm_views. cbn [drop]. rewrite H1, H2.
  generalize (sends_frame_ack q) (sends_v3_codec q) (sends_large_pointer q) (received_of CAPSET_TYPE_SURFACE_COMMANDS q)
    (offscreen_bitmap_cache (caps q)) (remote_app (info q)). intros b1 b2 b3 b4 b5 b6.
  destruct p1 as [[[]] ? ?]; [|discriminate Hm].
  destruct b1, b2, b3, b4, b5, b6; split; vm_compute; reflexivity.
Qed.

Lemma marks_received p q type : len (received_caps (caps q)) = 32 ->
  type = CAPSET_TYPE_MULTI_FRAGMENT_UPDATE \/ type = CAPSET_TYPE_BITMAP_CODECS ->
  mode q = false -> received_of type (demand_view p q) = true.
Proof.
  intros Hl Ht Hq. destruct p as [? ? [? ? [] ]], q as [[[]] ? c]; try discriminate Hq; cbn [Capabilities.caps] in Hl;
    destruct c as [? ? [] ? ? ? ? ? ? ? rc ?]; cbn [Capabilities.received_caps] in Hl;
    do 32 (destruct rc as [|? rc]; [discriminate Hl|]); destruct Ht as [-> | ->]; vm_compute; reflexivity.
Qed.

(** *** Well-formed settings stay well-formed *)

Record exchangeable (st : cap_settings) : Prop := {
  ex_ok : caps_ok st;
  ex_sendable : sendable_caps st;
}.

Definition preserves (f : cap_settings -> cap_settings) : Prop := forall st, exchangeable st -> exchangeable (f st).

Lemma views_preserve fs : Forall preserves fs -> preserves (views fs).
Proof. induction 1 as [|f fs Hf _ IH]; intros st Hst; [exact Hst|]. exact (IH _ (Hf _ Hst)). Qed.

Lemma seen_preserves type f : preserves f -> preserves (seen type f).
Proof.
  intros Hf st [Hok Hs]. apply Hf. split; [apply marked_ok, Hok|]. destruct Hs. split; assumption.
Qed.

Ltac preserved := intros st [Hok [[] ? ? [] (? & ? & ?)]]; split; [caps_ok_by Hok|split; cbn; auto].

Lemma preserves_same : preserves same.
Proof. intros st H. exact H. Qed.

Lemma preserves_caps p : exchangeable p -> preserves (general_view p) /\ preserves (pointer_view p) /\
  preserves (upd_caps (fun c => c <| persistent_bitmap_cache := true |>)) /\
  preserves (upd_caps (fun c => c <| multifrag_max_request_size := multifrag_max_request_size (caps p) |>)) /\
  preserves (upd_caps (fun c => c <| surface_commands := true |>)).
Proof.
  intros [[_ _ _ _ _ [? ?] ? ? _ _ _ _ _ _ _] [[? ?] ? _ _ _]].
  split; [intros st; unfold general_view; destruct (mode st); revert st; preserved|].
  split; [|split; [preserved|split; preserved]].
  intros st; unfold pointer_view; destruct (mode st), (large_pointer (caps p)); revert st; preserved;
    split; discriminate || reflexivity.
Qed.

Lemma preserves_order p : preserves (order_view p).
Proof.
  intros st [Hok [[] ? ? [] (? & ? & ?)]].
  destruct (without_orders_ok (order_support (caps p)) (order_support (caps st)) (ok_order_flags _ Hok)) as [Hl Hw].
  pose proof (ok_orders _ Hok) as Ho. rewrite <- Hl in Ho. split; [caps_ok_by Hok|split; cbn; auto].
Qed.

Lemma preserves_settings p : exchangeable p -> preserves (bitmap_view p) /\ preserves (input_view p) /\
  preserves (channel_view p) /\ preserves (codecs_view p).
Proof.
  intros [[_ _ _ _ _ _ _ _ _ _ _ _ Hch (Hw & Hh & Hd) (? & ? & ? & ?)] [_ _ _ _ (Sw & Sh & Sd)]].
  assert (Hpr : w16 (preferred p) /\ w32 (preferred p))
    by (unfold preferred; destruct (5 <? _); [auto|split; split; discriminate || reflexivity]).
  destruct Hpr. split; [|split; [|split] ].
  - intros st. unfold bitmap_view. cbv zeta. destruct (mode _), (desktop_resize (caps p) && _); revert st; preserved.
  - intros st. unfold input_view. destruct (mode st); revert st; preserved.
  - intros st. unfold channel_view. destruct (mode st); revert st; [apply preserves_same|preserved].
  - intros st. unfold codecs_view, codec_id.
    destruct (mode st), (rfx_codec (score p)), (ns_codec (caps p)), (mode p); revert st; try apply preserves_same; preserved;
      split; auto; split; discriminate || reflexivity.
Qed.

Lemma demand_preserves p : exchangeable p -> preserves (demand_view p).
Proof.
  intros Hp. destruct (preserves_caps p Hp) as (H1 & H2 & H3 & H4 & H5). destruct (preserves_settings p Hp) as (G1 & G2 & G3 & G4).
  apply views_preserve. unfold demand_views. repeat (apply Forall_cons_2; [apply seen_preserves|]); try apply Forall_nil_2;
    assumption || apply preserves_order || apply preserves_same.
Qed.

Lemma switched_exchangeable p : exchangeable p -> exchangeable (switched p).
Proof. intros [H1 H2]. split; [apply switched_ok, H1|apply switched_sendable, H2]. Qed.

(** *** Agreement *)

Lemma zip_and_absorb a : forall b : list bool, length a = length b ->
  zip_with andb (zip_with andb a b) a = zip_with andb a b.
Proof.
  induction a as [|x a IH]; intros b Hl; [reflexivity|]. destruct b as [|y b]; [discriminate Hl|].
  cbn [zip_with]. rewrite IH by (injection Hl; auto). destruct x, y; reflexivity.
Qed.

(** [q1] is what the client has after the demand active PDU, up to a field that is
    not sent. *)
Lemma exchange_agrees p q q1 : exchangeable p -> exchangeable q -> mode p = true -> mode q = false ->
  client_fields (switched p) q q1 ->
  received_of CAPSET_TYPE_MULTI_FRAGMENT_UPDATE q1 = true -> received_of CAPSET_TYPE_BITMAP_CODECS q1 = true ->
  agreement p q (confirm_view q1 (switched p)) q1.
Proof.
  intros [Hp _] [Hq _] Hm Hm' Hc Hr1 Hr2.
  assert (Hs : mode (switched p) = true) by (rewrite (switched_server p Hm); exact Hm).
  destruct (server_takes_received q1 (switched p) Hs Hr1 Hr2) as [S7 S8].
  pose proof (confirm_conf q1 (switched p) Hs) as S9. pose proof (server_takes q1 (switched p) Hs) as Hsv.
  revert S7 S8 S9 Hsv Hc. generalize (confirm_view q1 (switched p)). rewrite (switched_server p Hm). intros p' S7 S8 S9 Hsv Hc.
  change (client_fields p q q1) in Hc. change (server_fields q1 p p') in Hsv. change (conf p' = conf p) in S9. revert Hsv Hc.
  intros (_ & S2 & S3 & S4 & S5 & S6) (C1 & C2 & C3 & C4 & C5 & C6 & C7 & C8 & C9 & C10 & C11 & C12).
  unfold output_modes in C3. injection C3 as O1 O2 O3. rewrite O1, O2, O3 in S3.
  pose proof (ok_orders _ Hp) as Hl. pose proof (ok_orders _ Hq) as Hl'. unfold len in Hl, Hl'.
  assert (Ho : orders q1 = zip_with andb (orders p) (orders q))
    by (unfold orders; rewrite C2; apply without_orders_supported; cbn; lia).
  assert (Hlen : length (orders p) = length (orders q)) by (unfold orders; rewrite !length_map; lia).
  assert (Hl1 : length (order_support (caps q1)) = length (order_support (caps p))).
  { rewrite <- (length_map (fun b => negb (b =? 0))). fold (orders q1). rewrite Ho, length_zip_with, Nat.min_l by lia.
    unfold orders. apply length_map. }
  split.
  - assert (Ho' : orders p' = zip_with andb (orders p) (orders q)).
    { unfold orders at 1. rewrite S2, without_orders_supported by exact Hl1. fold (orders q1) (orders p). rewrite Ho.
      apply zip_and_absorb, Hlen. }
    rewrite Ho'. auto.
  - unfold output_modes. rewrite O1, O2, O3. unfold output_modes in S3. rewrite S3.
    destruct (fastpath_output (caps p)), (desktop_resize (caps p)), (color_pointer (caps p)),
      (fastpath_output (caps q)), (desktop_resize (caps q)), (color_pointer (caps q)); split; reflexivity.
  - exact C4.
  - exact C5.
  - rewrite O2. intros E. rewrite E in C6. injection C6 as W1 W2. auto.
  - rewrite S9, C1. auto.
  - rewrite S7, C7. auto.
  - rewrite S4. auto.
  - rewrite S8. auto.
  - rewrite S5. auto.
  - rewrite S6, C11. intros ->. exact C12.
Qed.

(** ** The exchange between two ends *)

Definition packet (pdu : list Z) : STREAM := mkSTREAM (len pdu) 0 pdu.
Definition shared (conf : rdpConf) : rdpConf := set_share_id (uint32 (0x10000 + mcs_user_id conf)) conf.

Section between.
Context {N N' U U' : Type} (l l' : TRANSPORT_LAYER) `{HLink : LinkLaws N l} `{HLink' : LinkLaws N' l'}
  `{HC : Crypto} `{HL : !CryptoLaws} `{HH : PduHandlers U} `{HH' : PduHandlers U'}.

(** From the server to the client. *)
Lemma demand_delivered crypt (a : rdpRdp N U) (b : rdpRdp N' U') i c i' c' s :
  let p := mkCapSettings (shared (rdp_conf a)) i c in
  let q := mkCapSettings (set_share_id (share_id (conf p)) (set_pdu_source (mcs_user_id (rdp_conf a)) (rdp_conf b))) i' c' in
  let st := demand_view (switched p) q in
  duplex l l' crypt a b -> reliable (N := N) l -> l <> TRANSPORT_LAYER_TSG -> 1001 <= mcs_user_id (rdp_conf a) < 65536 ->
  exchangeable p -> len (received_caps c') = 32 ->
  exists pdu a' b' s',
    rdp_send_demand_active i c (s, a) = Done ((true, info (switched p), caps (switched p)), (s, a')) /\
    sent (rdp_out a') = sent (rdp_out a) ++ pdu /\ pdu_length l pdu = Done (len pdu) /\
    rdp_recv_demand_active i' c' (packet pdu, b)
    = Done ((true, info st, (caps st) <| glyph_v2 := GLYPH_SUPPORT_FULL <? glyphSupportLevel (caps st) |>), (s', b')) /\
    rdp_conf a' = conf p /\ rdp_conf b' = conf st /\ sent (rdp_out b') = sent (rdp_out b) /\
    rdp_rx a' = rdp_rx a /\ rdp_rx b' = rdp_rx b /\ duplex l l' crypt a' b'.
Proof.
  intros p q st Hdx Hrel Htsg Hu [Hok Hs] Hc.
  destruct (Writes_demand p Hok Hs) as (bs & Hb & Hr & Hw). pose proof (len_demand_bytes (share_id (conf p)) bs).
  assert (Hsh : 0 <= share_id (conf p) < 2 ^ 32) by (apply Z.mod_pos_bound; lia).
  destruct (pdu_delivery l l' (rdp_write_demand_active p) _ (switched p) PDU_TYPE_DEMAND_ACTIVE (mcs_user_id (rdp_conf a)) crypt a b
              (shared (rdp_conf a)) Hdx Hrel Htsg Hw)
    as (o & r' & pdu & s' & b' & Eo & Es & Hout & Hpl & Eh & Hh & Hle & Hb' & Hdx'); [lia|split; discriminate || reflexivity|lia|exact Hu|].
  apply bind_inv in Eo as ([] & o0 & E0 & E1).
  assert (Hd : disconnect b' = false) by (rewrite Hb'; exact (ln_disconnect _ _ _ _ (dx_to _ _ _ _ _ Hdx))).
  assert (Hcf : rdp_conf b' = rdp_conf b) by (rewrite Hb'; reflexivity).
  destruct (recv_demand_run i' c' p (mcs_user_id (rdp_conf a)) (share_id (conf p)) bs s' b b' _ Eh Hd Hh Hle Hb ltac:(lia) Hsh Hr Hc)
    as [s2 Er]. cbv zeta in Er. rewrite Hcf in Er. fold q in Er. fold st in Er.
  exists pdu, (with_conf (conf p) (with_out r' a)), (with_conf (conf st) b'), s2. split.
  { unfold rdp_send_demand_active. rewrite (bind_Done _ _ _ _ _ (out_of_run _ s a _ _ E0)).
    unfold bind at 1, rdp_upd. cbn [fst snd]. unfold settings_of. rewrite bind_assoc. unfold bind at 1, rdp_of. rewrite bind_ret. cbn [snd].
    change (mkCapSettings _ i c) with p. set (a1 := with_conf _ _).
    rewrite (bind_Done _ _ _ _ _ (out_of_run _ s a1 _ _ E1)). unfold bind at 1. cbn [snd].
    erewrite bind_Done by (apply out_of_run; exact Es). reflexivity. }
  split; [exact Hout|]. split; [exact Hpl|]. split; [exact Er|]. split; [reflexivity|]. split; [reflexivity|].
  split; [rewrite Hb'; reflexivity|]. split; [reflexivity|]. split; [rewrite Hb'; reflexivity|].
  apply (duplex_ext l l' crypt _ _ _ _ Hdx'); try reflexivity. cbn [with_conf rdp_conf]. unfold st. rewrite demand_conf, Hcf.
  destruct (mode q); reflexivity.
Qed.

(** From the client to the server. *)
Lemma confirm_delivered crypt (a : rdpRdp N U) (b : rdpRdp N' U') i c i' c' s :
  let q := mkCapSettings (rdp_conf a) i c in
  let p := mkCapSettings (set_pdu_source (mcs_user_id (rdp_conf a)) (rdp_conf b)) i' c' in
  let st := confirm_view (switched q) p in
  duplex l l' crypt a b -> reliable (N := N) l -> l <> TRANSPORT_LAYER_TSG -> 1001 <= mcs_user_id (rdp_conf a) < 65536 ->
  exchangeable q -> len (received_caps c') = 32 -> mode p = true ->
  exists pdu a' b' s',
    rdp_send_confirm_active i c (s, a) = Done ((true, info (switched q), caps (switched q)), (s, a')) /\
    sent (rdp_out a') = sent (rdp_out a) ++ pdu /\ pdu_length l pdu = Done (len pdu) /\
    rdp_recv_confirm_active i' c' (packet pdu, b) = Done ((true, info st, caps st), (s', b')) /\
    rdp_conf a' = rdp_conf a /\ rdp_conf b' = conf st /\ sent (rdp_out b') = sent (rdp_out b) /\
    rdp_rx a' = rdp_rx a /\ rdp_rx b' = rdp_rx b /\ duplex l l' crypt a' b'.
Proof.
  intros q p st Hdx Hrel Htsg Hu [Hok Hs] Hc Hm.
  destruct (Writes_confirm q Hok Hs) as (bs & Hb & Hr & Hw). set (n := confirm_count (switched q)) in *.
  pose proof (len_confirm_bytes (share_id (conf q)) n bs).
  destruct (pdu_delivery l l' (rdp_write_confirm_active q) _ (switched q) PDU_TYPE_CONFIRM_ACTIVE (mcs_user_id (rdp_conf a)) crypt a b
              (rdp_conf a) Hdx Hrel Htsg Hw)
    as (o & r' & pdu & s' & b' & Eo & Es & Hout & Hpl & Eh & Hh & Hle & Hb' & Hdx'); [lia|split; discriminate || reflexivity|lia|exact Hu|].
  apply bind_inv in Eo as ([] & o0 & E0 & E1).
  assert (Hcf : rdp_conf b' = rdp_conf b) by (rewrite Hb'; reflexivity).
  destruct (recv_confirm_run i' c' q (mcs_user_id (rdp_conf a)) (share_id (conf q)) bs s' b' _ Eh Hh Hle Hb ltac:(lia) Hr Hc)
    as [s2 Er]. rewrite Hcf in Er. fold p in Er. fold st in Er.
  exists pdu, (with_out r' a), (with_conf (conf st) b'), s2. split.
  { unfold rdp_send_confirm_active. rewrite (bind_Done _ _ _ _ _ (out_of_run _ s a _ _ E0)).
    unfold settings_of. rewrite bind_assoc. unfold bind at 1, rdp_of. rewrite bind_ret. cbn [snd].
    change (mkCapSettings _ i c) with q.
    rewrite (bind_Done _ _ _ _ _ (out_of_run _ s (with_out o0 a) _ _ E1)). unfold bind at 1. cbn [snd].
    erewrite bind_Done by (apply out_of_run; exact Es). reflexivity. }
  split; [exact Hout|]. split; [exact Hpl|]. split; [exact Er|]. split; [reflexivity|]. split; [reflexivity|].
  split; [rewrite Hb'; reflexivity|]. split; [reflexivity|]. split; [rewrite Hb'; reflexivity|].
  apply (duplex_ext l l' crypt _ _ _ _ Hdx'); try reflexivity. cbn [with_conf rdp_conf]. unfold st. rewrite confirm_conf by exact Hm.
  rewrite Hcf. reflexivity.
Qed.
End between.

Lemma duplex_sym {N N' U U' : Type} l l' `{LinkLaws N l} `{LinkLaws N' l'} `{Crypto} crypt (a : rdpRdp N U) (b : rdpRdp N' U') :
  duplex l l' crypt a b -> duplex l' l crypt b a.
Proof. intros [Hto Hfrom]. split; assumption. Qed.

(** The parts of the settings that the agreement is about. *)
Lemma agreement_ext p q p0 q0 p' q' : agreement p q p' q' -> info p = info p0 -> caps p = caps p0 ->
  vc_chunk_size (conf p) = vc_chunk_size (conf p0) -> info q = info q0 -> caps q = caps q0 -> agreement p0 q0 p' q'.
Proof.
  intros [] E1 E2 E3 E4 E5.
  assert (F1 : score p = score p0) by (unfold score; rewrite E1; reflexivity).
  assert (F2 : score q = score q0) by (unfold score; rewrite E4; reflexivity).
  assert (F3 : orders p = orders p0) by (unfold orders; rewrite E2; reflexivity).
  assert (F4 : orders q = orders q0) by (unfold orders; rewrite E5; reflexivity).
  split; unfold keyboard, codecs, preferred in *; rewrite <- ?F1, <- ?F2, <- ?F3, <- ?F4, <- ?E2, <- ?E3, <- ?E5; assumption.
Qed.

Lemma exchangeable_conf cf st : exchangeable st -> vc_chunk_size cf = vc_chunk_size (conf st) ->
  exchangeable (mkCapSettings cf (info st) (caps st)).
Proof. intros [[] []] E. split; split; try assumption. cbn [conf]. rewrite E. assumption. Qed.

Lemma settings_eta st : mkCapSettings (conf st) (info st) (caps st) = st.
Proof. destruct st. reflexivity. Qed.

(** What the client goes on with, after the flag for the second version of the
    glyph orders. *)
Definition with_glyphs (st : cap_settings) : cap_settings :=
  upd_caps (fun c => c <| glyph_v2 := GLYPH_SUPPORT_FULL <? glyphSupportLevel c |>) st.

Lemma with_glyphs_fields p q st : client_fields p q st -> client_fields p q (with_glyphs st).
Proof. intros H. exact H. Qed.

Lemma with_glyphs_received type st : received_of type (with_glyphs st) = received_of type st.
Proof. reflexivity. Qed.

Lemma with_glyphs_parts st : info (with_glyphs st) = info st /\ conf (with_glyphs st) = conf st /\
  caps (with_glyphs st) = (caps st) <| glyph_v2 := GLYPH_SUPPORT_FULL <? glyphSupportLevel (caps st) |>.
Proof. auto. Qed.

Lemma with_glyphs_exchangeable st : exchangeable st -> exchangeable (with_glyphs st).
Proof. revert st. unfold with_glyphs. preserved. Qed.

(** The settings [q1] of a client after a demand active PDU of [p]. *)
Record demanded (p q q1 : cap_settings) : Prop := {
  dm_fields : client_fields p q q1;
  dm_exchangeable : exchangeable q1;
  dm_multifrag : received_of CAPSET_TYPE_MULTI_FRAGMENT_UPDATE q1 = true;
  dm_codecs : received_of CAPSET_TYPE_BITMAP_CODECS q1 = true;
}.

Lemma demanded_view p q : exchangeable p -> exchangeable q -> mode q = false ->
  demanded (switched p) q (with_glyphs (demand_view (switched p) q)).
Proof.
  intros Hp Hq Hm. pose proof (ok_received _ (ex_ok _ Hq)) as Hrc. split.
  - apply with_glyphs_fields, client_takes, Hm.
  - apply with_glyphs_exchangeable, demand_preserves; [apply switched_exchangeable, Hp|exact Hq].
  - rewrite with_glyphs_received. apply marks_received; auto.
  - rewrite with_glyphs_received. apply marks_received; auto.
Qed.

Lemma demanded_conf p q q1 : demanded p q q1 -> conf q1 = (conf q) <| vc_chunk_size := vc_chunk_size (conf p) |>.
Proof. intros []. apply dm_fields0. Qed.

Lemma switched_conf p : conf (switched p) = conf p.
Proof. unfold switched. destruct (mode p); reflexivity. Qed.

(** The server at the packet of the client, whose sender it notes. *)
Lemma switched_sourced user cf i c : mode (mkCapSettings cf i c) = true ->
  mkCapSettings (set_pdu_source user cf) (info (switched (mkCapSettings cf i c))) (caps (switched (mkCapSettings cf i c)))
  = switched (mkCapSettings (set_pdu_source user cf) i c).
Proof. intros E. rewrite !switched_server by exact E. reflexivity. Qed.

Lemma demanded_sourced user cf i c q q1 : mode (mkCapSettings cf i c) = true -> demanded (switched (mkCapSettings cf i c)) q q1 ->
  demanded (switched (mkCapSettings (set_pdu_source user cf) i c)) q q1.
Proof. intros E [F ? ? ?]. split; auto. rewrite !switched_server in * by exact E. exact F. Qed.

Lemma agreement_reached p q q1 : exchangeable p -> exchangeable q -> mode p = true -> mode q = false ->
  demanded (switched p) q q1 ->
  exists p1, p1 = confirm_view q1 (switched p) /\ agreement p q p1 q1 /\ conf p1 = conf p.
Proof.
  intros Hp Hq Hm Hm' []. exists (confirm_view q1 (switched p)). split; [reflexivity|].
  split; [apply exchange_agrees; assumption|]. rewrite confirm_conf, switched_conf; [reflexivity|].
  rewrite switched_server by exact Hm. exact Hm.
Qed.

(** C2. The exchange of capabilities, through the packets of both ends and with or
    without encryption: the client accepts the demand active PDU of the server,
    answers, and the server accepts the answer. Then both have the same orders,
    fast-path output, desktop resizing and colour pointers, each exactly if both
    had it before; the client has the colour depth, the size if it may resize, the
    chunk size, the size of fragmented updates and the share id of the server; the
    server has the keyboard, the codecs, the glyph level and, if large pointers
    are sent, the pointer cache of the client. Each side can decrypt what the
    other sends next. *)
Theorem capabilities_agreed {N N' U U' : Type} l l' `{LinkLaws N l} `{LinkLaws N' l'} `{Crypto} `{!CryptoLaws}
    `{PduHandlers U} `{PduHandlers U'} crypt (sv : rdpRdp N U) (cl : rdpRdp N' U') i c i' c' s :
  let p := mkCapSettings (rdp_conf sv) i c in
  let q := mkCapSettings (rdp_conf cl) i' c' in
  duplex l l' crypt sv cl -> reliable (N := N) l -> reliable (N := N') l' ->
  l <> TRANSPORT_LAYER_TSG -> l' <> TRANSPORT_LAYER_TSG -> mode p = true -> mode q = false ->
  exchangeable p -> exchangeable q -> 1001 <= mcs_user_id (rdp_conf sv) < 65536 -> 1001 <= mcs_user_id (rdp_conf cl) < 65536 ->
  exists demand i1 c1 sv1 x i2 c2 cl1 confirm cl2 y i3 c3 sv2,
    rdp_send_demand_active i c (s, sv) = Done ((true, i1, c1), (s, sv1)) /\
    sent (rdp_out sv1) = sent (rdp_out sv) ++ demand /\ pdu_length l demand = Done (len demand) /\
    rdp_recv_demand_active i' c' (packet demand, cl) = Done ((true, i2, c2), (x, cl1)) /\
    rdp_send_confirm_active i2 c2 (x, cl1) = Done ((true, i2, c2), (x, cl2)) /\
    sent (rdp_out cl2) = sent (rdp_out cl) ++ confirm /\ pdu_length l' confirm = Done (len confirm) /\
    rdp_recv_confirm_active i1 c1 (packet confirm, sv1) = Done ((true, i3, c3), (y, sv2)) /\
    agreement p q (mkCapSettings (rdp_conf sv2) i3 c3) (mkCapSettings (rdp_conf cl2) i2 c2) /\
    share_id (rdp_conf cl2) = share_id (rdp_conf sv2) /\ duplex l l' crypt sv2 cl2.
Proof.
  intros p q Hdx Hrel Hrel' Htsg Htsg' Hm Hm' Hp Hq Hu Hu'.
  set (p0 := mkCapSettings (shared (rdp_conf sv)) i c).
  assert (Hp0 : exchangeable p0) by (apply (exchangeable_conf (shared (rdp_conf sv)) p Hp); reflexivity).
  destruct (demand_delivered l l' crypt sv cl i c i' c' s Hdx Hrel Htsg Hu Hp0 (ok_received _ (ex_ok _ Hq)))
    as (demand & sv1 & cl1 & x & E1 & Hout1 & Hpl1 & E2 & Ha1 & Hb1 & Hb1' & _ & _ & Hdx1). fold p0 in E1, E2, Ha1, Hb1.
  set (q0 := mkCapSettings (set_share_id (share_id (conf p0)) (set_pdu_source (mcs_user_id (rdp_conf sv)) (rdp_conf cl))) i' c') in *.
  assert (Hq0 : exchangeable q0) by (apply (exchangeable_conf (conf q0) q Hq); reflexivity).
  pose proof (demanded_view p0 q0 Hp0 Hq0 Hm') as Hd.
  destruct (with_glyphs_parts (demand_view (switched p0) q0)) as (G1 & G2 & G3). rewrite <- G1, <- G3 in E2. rewrite <- G2 in Hb1.
  clear G1 G2 G3. revert Hd E2 Hb1. generalize (with_glyphs (demand_view (switched p0) q0)). intros q1 Hd E2 Hb1.
  pose proof (demanded_conf _ _ _ Hd) as Hc1. rewrite switched_conf in Hc1.
  assert (Hm1 : mode q1 = false) by (unfold mode; rewrite Hc1; exact Hm').
  assert (Hu1 : mcs_user_id (rdp_conf cl1) = mcs_user_id (rdp_conf cl)) by (rewrite Hb1, Hc1; reflexivity).
  assert (Eq1 : mkCapSettings (rdp_conf cl1) (info q1) (caps q1) = q1) by (rewrite Hb1; apply settings_eta).
  destruct (confirm_delivered l' l crypt cl1 sv1 (info q1) (caps q1) (info (switched p0)) (caps (switched p0)) x
              (duplex_sym _ _ _ _ _ Hdx1) Hrel' Htsg') as (confirm & cl2 & sv2 & y & E3 & Hout2 & Hpl2 & E4 & Ha2 & Hb2 & _ & _ & _ & Hdx2);
    [rewrite Hu1; exact Hu'|rewrite Eq1; apply (dm_exchangeable _ _ _ Hd)|exact (ok_received _ (ex_ok _ (switched_exchangeable _ Hp0)))
    |rewrite Ha1; exact Hm|].
  rewrite Eq1, (switched_client q1 Hm1) in E3. rewrite Eq1, (switched_client q1 Hm1), Ha1 in E4, Hb2.
  unfold p0 in E4, Hb2, Hd. cbn [conf] in E4, Hb2. rewrite switched_sourced in E4, Hb2 by exact Hm.
  apply (demanded_sourced (mcs_user_id (rdp_conf cl1))) in Hd; [|exact Hm].
  set (p1 := mkCapSettings (set_pdu_source (mcs_user_id (rdp_conf cl1)) (shared (rdp_conf sv))) i c) in *.
  assert (Hp1 : exchangeable p1) by (apply (exchangeable_conf (conf p1) p Hp); reflexivity).
  destruct (agreement_reached p1 q0 q1 Hp1 Hq0 Hm Hm' Hd) as (p2 & Ep2 & Hag & Hc2). rewrite <- Ep2 in E4, Hb2.
  exists demand, (info (switched p0)), (caps (switched p0)), sv1, x, (info q1), (caps q1), cl1, confirm, cl2, y, (info p2), (caps p2), sv2.
  split; [exact E1|]. split; [exact Hout1|]. split; [exact Hpl1|]. split; [exact E2|]. split; [exact E3|].
  split; [rewrite Hout2, Hb1'; reflexivity|]. split; [exact Hpl2|]. split; [exact E4|].
  rewrite Hb2, settings_eta, Ha2, Eq1. split; [apply (agreement_ext _ _ p q _ _ Hag); reflexivity|].
  split; [rewrite Hb1, Hc1, Hc2; reflexivity|apply duplex_sym, Hdx2].
Qed.

(** ** Examples *)

(** Without large pointers the pointer set is shorter than what is read of it, and
    the server takes the type of the next set for the size of the cache. *)
Example pointer_cache_confused :
  let q := mkCapSettings (toy_conf false true) (sample_info None 0) (sample_caps <| large_pointer := false |>) in
  pointer_cache_size (caps q) = 20 /\ pointer_cache_size (caps (confirm_view q (sample_settings true))) = CAPSET_TYPE_INPUT.
Proof. split; vm_compute; reflexivity. Qed.

(** ** Witnesses *)

Definition sample_end (server : bool) : rdpRdp (list Z) nat :=
  mkRdp (mkFpRdp (mkTransport TRANSPORT_LAYER_TCP true 0 (stream_new 64) (stream_new 64) (stream_new 64) (stream_new 64) [] true false)
           (toy_end 4096) true true 0 ENCRYPTION_METHOD_128BIT)
    (toy_conf server true) CONNECTION_STATE_CAPABILITY false 0 0 (mkRecv fastpath_new 0%nat (mppc_new [])).

Lemma sample_duplex : duplex TRANSPORT_LAYER_TCP TRANSPORT_LAYER_TCP true (sample_end true) (sample_end false).
Proof.
  split; split; try reflexivity; try discriminate; try (intros _; apply toy_paired; lia);
    try (split; vm_compute; try split; discriminate).
Qed.

Lemma sample_exchangeable server : exchangeable (sample_settings server).
Proof. split; apply sample_settings_ok. Qed.

Lemma capabilities_agreed_witness :
  exists demand i1 c1 sv1 x i2 c2 cl1 cl2 i3 c3 (sv2 : rdpRdp (list Z) nat),
    rdp_send_demand_active (sample_info None 0) sample_caps (stream_new 0, sample_end true) = Done ((true, i1, c1), (stream_new 0, sv1)) /\
    sent (rdp_out sv1) = sent (rdp_out (sample_end true)) ++ demand /\
    rdp_recv_demand_active (sample_info None 0) sample_caps (packet demand, sample_end false) = Done ((true, i2, c2), (x, cl1)) /\
    rdp_send_confirm_active i2 c2 (x, cl1) = Done ((true, i2, c2), (x, cl2)) /\
    orders (mkCapSettings (rdp_conf sv2) i3 c3) = replicate 22 true ++ replicate 10 false /\
    duplex TRANSPORT_LAYER_TCP TRANSPORT_LAYER_TCP true sv2 cl2.
Proof.
  destruct (capabilities_agreed TRANSPORT_LAYER_TCP TRANSPORT_LAYER_TCP true (sample_end true) (sample_end false)
              (sample_info None 0) sample_caps (sample_info None 0) sample_caps (stream_new 0) sample_duplex sink_reliable sink_reliable
              ltac:(discriminate) ltac:(discriminate) eq_refl eq_refl (sample_exchangeable true) (sample_exchangeable false)
              ltac:(split; discriminate || reflexivity) ltac:(split; discriminate || reflexivity))
    as (demand & i1 & c1 & sv1 & x & i2 & c2 & cl1 & confirm & cl2 & y & i3 & c3 & sv2 & E1 & Hs & _ & E2 & E3 & _ & _ & _ & Hag & _ & Hdx).
  exists demand, i1, c1, sv1, x, i2, c2, cl1, cl2, i3, c3, sv2. repeat (split; [assumption|]). split; [|exact Hdx].
  rewrite (proj1 (ag_orders _ _ _ _ Hag)). reflexivity.
Defined.
