(* ===== verification/Orders.v ===== *)
(** Drawing orders, [libfreerdp-core/orders.c] with the structures of
    [include/freerdp/primary.h], [secondary.h] and [altsec.h]: how the client reads
    primary, secondary and alternate secondary orders out of an update, each order
    a record in a module of its own, and what it hands to the drawing module.

    A primary order only carries the fields that differ from the last order of its
    type: the structures are the state between the orders. Pointers into other
    modules ([bitmap], [codeDeltaList], [brush->data]) are not part of the records. *)

From coqutil Require Import Datatypes.RecordSetters.
From S2P Require Import Prelude.
From S2P Require Import Stream.
From S2P Require Import Gcc.
From S2P Require Import Fastpath.
Import TriangleBracketNotations.

(** ** Constants *)

Definition ORDER_STANDARD : Z := 0x01.
Definition ORDER_SECONDARY : Z := 0x02.
Definition ORDER_BOUNDS : Z := 0x04.
Definition ORDER_TYPE_CHANGE : Z := 0x08.
Definition ORDER_DELTA_COORDINATES : Z := 0x10.
Definition ORDER_ZERO_BOUNDS_DELTAS : Z := 0x20.
Definition ORDER_ZERO_FIELD_BYTE_BIT0 : Z := 0x40.
Definition ORDER_ZERO_FIELD_BYTE_BIT1 : Z := 0x80.

Definition BOUND_LEFT : Z := 0x01.
Definition BOUND_TOP : Z := 0x02.
Definition BOUND_RIGHT : Z := 0x04.
Definition BOUND_BOTTOM : Z := 0x08.
Definition BOUND_DELTA_LEFT : Z := 0x10.
Definition BOUND_DELTA_TOP : Z := 0x20.
Definition BOUND_DELTA_RIGHT : Z := 0x40.
Definition BOUND_DELTA_BOTTOM : Z := 0x80.

Definition ORDER_FIELD_01 : Z := 0x000001.
Definition ORDER_FIELD_02 : Z := 0x000002.
Definition ORDER_FIELD_03 : Z := 0x000004.
Definition ORDER_FIELD_04 : Z := 0x000008.
Definition ORDER_FIELD_05 : Z := 0x000010.
Definition ORDER_FIELD_06 : Z := 0x000020.
Definition ORDER_FIELD_07 : Z := 0x000040.
Definition ORDER_FIELD_08 : Z := 0x000080.
Definition ORDER_FIELD_09 : Z := 0x000100.
Definition ORDER_FIELD_10 : Z := 0x000200.
Definition ORDER_FIELD_11 : Z := 0x000400.
Definition ORDER_FIELD_12 : Z := 0x000800.
Definition ORDER_FIELD_13 : Z := 0x001000.
Definition ORDER_FIELD_14 : Z := 0x002000.
Definition ORDER_FIELD_15 : Z := 0x004000.
Definition ORDER_FIELD_16 : Z := 0x008000.
Definition ORDER_FIELD_17 : Z := 0x010000.
Definition ORDER_FIELD_18 : Z := 0x020000.
Definition ORDER_FIELD_19 : Z := 0x040000.
Definition ORDER_FIELD_20 : Z := 0x080000.
Definition ORDER_FIELD_21 : Z := 0x100000.
Definition ORDER_FIELD_22 : Z := 0x200000.
Definition ORDER_FIELD_23 : Z := 0x400000.
Definition ORDER_TYPE_DSTBLT : Z := 0x00.
Definition ORDER_TYPE_PATBLT : Z := 0x01.
Definition ORDER_TYPE_SCRBLT : Z := 0x02.
Definition ORDER_TYPE_DRAW_NINE_GRID : Z := 0x07.
Definition ORDER_TYPE_MULTI_DRAW_NINE_GRID : Z := 0x08.
Definition ORDER_TYPE_LINE_TO : Z := 0x09.
Definition ORDER_TYPE_OPAQUE_RECT : Z := 0x0A.
Definition ORDER_TYPE_SAVE_BITMAP : Z := 0x0B.
Definition ORDER_TYPE_MEMBLT : Z := 0x0D.
Definition ORDER_TYPE_MEM3BLT : Z := 0x0E.
Definition ORDER_TYPE_MULTI_DSTBLT : Z := 0x0F.
Definition ORDER_TYPE_MULTI_PATBLT : Z := 0x10.
Definition ORDER_TYPE_MULTI_SCRBLT : Z := 0x11.
Definition ORDER_TYPE_MULTI_OPAQUE_RECT : Z := 0x12.
Definition ORDER_TYPE_FAST_INDEX : Z := 0x13.
Definition ORDER_TYPE_POLYGON_SC : Z := 0x14.
Definition ORDER_TYPE_POLYGON_CB : Z := 0x15.
Definition ORDER_TYPE_POLYLINE : Z := 0x16.
Definition ORDER_TYPE_FAST_GLYPH : Z := 0x18.
Definition ORDER_TYPE_ELLIPSE_SC : Z := 0x19.
Definition ORDER_TYPE_ELLIPSE_CB : Z := 0x1A.
Definition ORDER_TYPE_GLYPH_INDEX : Z := 0x1B.

Definition PRIMARY_DRAWING_ORDER_FIELD_BYTES : list Z :=
  [1; 2; 1; 0; 0; 0; 0; 1; 1; 2; 1; 1; 0; 2; 3; 1; 2; 2; 2; 2; 1; 2; 1; 0; 2; 1; 2; 3].
Definition CBR2_BPP : list Z := [0; 0; 0; 8; 16; 24; 32].
Definition CBR23_BPP : list Z := [0; 0; 0; 8; 16; 24; 32].
Definition BMF_BPP : list Z := [0; 1; 0; 8; 16; 24; 32].
Definition CACHED_BRUSH : Z := 0x80.

(** ** Numbers *)

Definition sint8 (z : Z) : Z := (z + 2 ^ 7) mod 2 ^ 8 - 2 ^ 7.

Definition update_read_coord (coord : Z) (delta : bool) : M STREAM Z :=
  if delta then
    let! byte := stream_read_uint8 in
    let v := coord + sint8 byte in
    if (v <? - 2 ^ 31) || (INT_MAX <? v) then fail SignedOverflow else ret v
  else
    let! word := stream_read_uint16 in
    ret (sint16 word).

Definition update_read_color : M STREAM Z :=
  let! b0 := stream_read_uint8 in
  let! b1 := stream_read_uint8 in
  let! b2 := stream_read_uint8 in
  ret (Z.lor (Z.lor b0 (Z.shiftl b1 8)) (Z.shiftl b2 16)).

Definition update_read_colorref : M STREAM Z :=
  let! color := update_read_color in
  stream_seek 1;;
  ret color.

Definition update_read_color_quad : M STREAM Z :=
  let! b0 := stream_read_uint8 in
  let! b1 := stream_read_uint8 in
  let! b2 := stream_read_uint8 in
  stream_seek 1;;
  ret (Z.lor (Z.lor (Z.shiftl b0 16) (Z.shiftl b1 8)) b2).

Definition update_read_2byte_unsigned : M STREAM Z :=
  let! byte := stream_read_uint8 in
  if negb (Z.land byte 0x80 =? 0) then
    let! byte2 := stream_read_uint8 in
    ret (Z.lor (Z.shiftl (Z.land byte 0x7F) 8) byte2)
  else ret (Z.land byte 0x7F).

Definition update_read_2byte_signed : M STREAM Z :=
  let! byte := stream_read_uint8 in
  let negative := negb (Z.land byte 0x40 =? 0) in
  let value := Z.land byte 0x3F in
  let! value :=
    (if negb (Z.land byte 0x80 =? 0) then
       let! byte2 := stream_read_uint8 in ret (Z.lor (Z.shiftl value 8) byte2)
     else ret value) in
  ret (if negative then value * -1 else value).

Definition update_read_4byte_unsigned : M STREAM Z :=
  let! byte := stream_read_uint8 in
  let count := Z.shiftr (Z.land byte 0xC0) 6 in
  let value := Z.land byte 0x3F in
  if count =? 0 then ret value
  else if count =? 1 then
    let! b1 := stream_read_uint8 in
    ret (Z.lor (Z.shiftl value 8) b1)
  else if count =? 2 then
    let! b1 := stream_read_uint8 in
    let! b2 := stream_read_uint8 in
    ret (Z.lor (Z.lor (Z.shiftl value 16) (Z.shiftl b1 8)) b2)
  else
    let! b1 := stream_read_uint8 in
    let! b2 := stream_read_uint8 in
    let! b3 := stream_read_uint8 in
    ret (Z.lor (Z.lor (Z.lor (Z.shiftl value 24) (Z.shiftl b1 16)) (Z.shiftl b2 8)) b3).

Definition update_read_delta : M STREAM Z :=
  let! byte := stream_read_uint8 in
  let value := if negb (Z.land byte 0x40 =? 0) then Z.lor byte (Z.lnot 0x3F) else Z.land byte 0x3F in
  if negb (Z.land byte 0x80 =? 0) then
    let! byte2 := stream_read_uint8 in
    ret (Z.lor (Z.shiftl value 8) byte2)
  else ret value.

Definition update_read_glyph_delta : M STREAM Z :=
  let! byte := stream_read_uint8 in
  if byte =? 0x80 then stream_read_uint16 else ret (Z.land byte 0x3F).

Definition update_seek_glyph_delta : M STREAM unit :=
  let! byte := stream_read_uint8 in
  if negb (Z.land byte 0x80 =? 0) then stream_seek 1 else ret tt.

(** ** Parts of orders *)

Record rdpBounds : Type := mkBounds { b_left : Z; b_top : Z; b_right : Z; b_bottom : Z }.

Record rdpBrush : Type := mkBrush {
  br_x : Z;
  br_y : Z;
  br_bpp : Z;
  br_style : Z;
  br_hatch : Z;
  br_index : Z;
  br_p8x8 : list Z;
}.

Record ORDER_INFO : Type := mkOrderInfo {
  orderType : Z;
  fieldFlags : Z;
  bounds : rdpBounds;
  deltaCoordinates : bool;
}.

Record DELTA_RECT : Type := mkRect { r_left : Z; r_top : Z; r_width : Z; r_height : Z }.
Record DELTA_POINT : Type := mkPoint { pt_x : Z; pt_y : Z }.

(** [GLYPH_DATA] and [GLYPH_DATA_V2] have the same fields. *)
Record GLYPH_DATA_V2 : Type := mkGlyphData {
  gl_cacheIndex : Z;
  gl_x : Z;
  gl_y : Z;
  gl_cx : Z;
  gl_cy : Z;
  gl_cb : Z;
  gl_aj : list Z;
}.

Definition flag (flags f : Z) : bool := negb (Z.land flags f =? 0).
Definition has (o : ORDER_INFO) (f : Z) : bool := flag (fieldFlags o) f.

(** Parts that are only there with their flag. *)
Definition when (present : bool) (c : M STREAM unit) : M STREAM unit := if present then c else ret tt.
Definition when_read {T} (present : bool) (c : M STREAM T) (old : T) : M STREAM T := if present then c else ret old.
Definition field {A T} (present : bool) (c : M STREAM A) (put : A -> T) (old : T) : M STREAM T :=
  when_read present (let! v := c in ret (put v)) old.
Definition coord (o : ORDER_INFO) (v : Z) : M STREAM Z := update_read_coord v (deltaCoordinates o).

(** A byte of a colour, the others as they were. *)
Definition update_color_byte (shift color : Z) : M STREAM Z :=
  let! byte := stream_read_uint8 in
  ret (Z.lor (Z.land color (Z.lxor 0xFFFFFFFF (Z.shiftl 0xFF shift))) (Z.shiftl byte shift)).

(** [memcpy] into the array of an order. *)
Definition copy_data (bytes data : list Z) : M STREAM (list Z) :=
  if len bytes <=? len data then ret (bytes ++ drop (length bytes) data) else fail OutOfBounds.

Definition update_read_brush (brush : rdpBrush) (flags : Z) : M STREAM rdpBrush :=
  let! brush := field (flag flags ORDER_FIELD_01) stream_read_uint8 (fun v => brush <| br_x := v |>) brush in
  let! brush := field (flag flags ORDER_FIELD_02) stream_read_uint8 (fun v => brush <| br_y := v |>) brush in
  let! brush := field (flag flags ORDER_FIELD_03) stream_read_uint8 (fun v => brush <| br_style := v |>) brush in
  let! brush := field (flag flags ORDER_FIELD_04) stream_read_uint8 (fun v => brush <| br_hatch := v |>) brush in
  let! brush :=
    (if flag (br_style brush) CACHED_BRUSH then
       let! bpp := elem BMF_BPP (Z.land (br_style brush) 0x0F) in
       ret (brush <| br_index := br_hatch brush |> <| br_bpp := if bpp =? 0 then 1 else bpp |>)
     else ret brush) in
  when_read (flag flags ORDER_FIELD_05)
    (let! d7 := stream_read_uint8 in
     let! d6 := stream_read_uint8 in
     let! d5 := stream_read_uint8 in
     let! d4 := stream_read_uint8 in
     let! d3 := stream_read_uint8 in
     let! d2 := stream_read_uint8 in
     let! d1 := stream_read_uint8 in
     ret (brush <| br_p8x8 := [uint8 (br_hatch brush); d1; d2; d3; d4; d5; d6; d7] |>)) brush.

(** A byte at a place of the packet. *)
Definition byte_at (p : Z) : M STREAM Z := fun s =>
  if 0 <=? p then match s_data s !! Z.to_nat p with Some b => Done (b, s) | None => Fault OutOfBounds end else Fault OutOfBounds.

Definition no_rect : DELTA_RECT := mkRect 0 0 0 0.

(** One rectangle [r] behind [prev]; a set bit leaves a value out. *)
Definition read_delta_rect (flags : Z) (prev r : DELTA_RECT) : M STREAM DELTA_RECT :=
  let! l := when_read (negb (flag flags 0x80)) update_read_delta (r_left r) in
  let! t := when_read (negb (flag flags 0x40)) update_read_delta (r_top r) in
  let! w := when_read (negb (flag flags 0x20)) update_read_delta (r_width prev) in
  let! h := when_read (negb (flag flags 0x10)) update_read_delta (r_height prev) in
  ret (mkRect (l + r_left prev) (t + r_top prev) w h).

Fixpoint delta_rects_loop (n : nat) (i zeroBits flags : Z) (rectangles : list DELTA_RECT) : M STREAM (list DELTA_RECT) :=
  match n with
  | O => ret rectangles
  | S n' =>
      let! flags := (if (i - 1) mod 2 =? 0 then byte_at (zeroBits + (i - 1) / 2) else ret flags) in
      let! prev := elem rectangles (i - 1) in
      let! r := elem rectangles i in
      let! r := read_delta_rect flags prev r in
      let! rectangles := elem_set i r rectangles in
      delta_rects_loop n' (i + 1) zeroBits (uint8 (Z.shiftl flags 4)) rectangles
  end.

Definition update_read_delta_rects (rectangles : list DELTA_RECT) (number : Z) : M STREAM (list DELTA_RECT) :=
  let number := if 45 <? number then 45 else number in
  let! zeroBits := get_pos in
  stream_seek ((number + 1) / 2);;
  if len rectangles <? number + 1 then fail OutOfBounds else
  delta_rects_loop (Z.to_nat number) 1 zeroBits 0
    (replicate (Z.to_nat (number + 1)) no_rect ++ drop (Z.to_nat (number + 1)) rectangles).

Fixpoint delta_points_loop (n : nat) (i zeroBits flags : Z) : M STREAM (list DELTA_POINT) :=
  match n with
  | O => ret []
  | S n' =>
      let! flags := (if i mod 4 =? 0 then byte_at (zeroBits + i / 4) else ret flags) in
      let! x := when_read (negb (flag flags 0x80)) update_read_delta 0 in
      let! y := when_read (negb (flag flags 0x40)) update_read_delta 0 in
      let! points := delta_points_loop n' (i + 1) zeroBits (uint8 (Z.shiftl flags 2)) in
      ret (mkPoint x y :: points)
  end.

(** The array is allocated with [number] points. *)
Definition update_read_delta_points (number : Z) : M STREAM (list DELTA_POINT) :=
  let! zeroBits := get_pos in
  stream_seek ((number + 3) / 4);;
  delta_points_loop (Z.to_nat number) 0 zeroBits 0.

(** The size of the bitmap of a glyph, in whole 32-bit words. *)
Definition glyph_size (cx cy : Z) : Z :=
  let cb := uint32 (uint32 (cx + 7) / 8 * cy) in
  uint32 (cb + (if 0 <? cb mod 4 then 4 - cb mod 4 else 0)).

Definition read_glyph_v2 (cacheIndex : Z) : M STREAM GLYPH_DATA_V2 :=
  let! x := update_read_2byte_signed in
  let! y := update_read_2byte_signed in
  let! cx := update_read_2byte_unsigned in
  let! cy := update_read_2byte_unsigned in
  let cb := glyph_size cx cy in
  let! aj := stream_read cb in
  ret (mkGlyphData cacheIndex x y cx cy cb aj).

(** ** Primary orders *)

Module DstBlt.
Record DSTBLT_ORDER : Type := mk {
  nLeftRect : Z;
  nTopRect : Z;
  nWidth : Z;
  nHeight : Z;
  bRop : Z;
}.

Definition update_read_dstblt_order (o : ORDER_INFO) (d : DSTBLT_ORDER) : M STREAM DSTBLT_ORDER :=
  let! d := field (has o ORDER_FIELD_01) (coord o (nLeftRect d)) (fun v => d <| nLeftRect := v |>) d in
  let! d := field (has o ORDER_FIELD_02) (coord o (nTopRect d)) (fun v => d <| nTopRect := v |>) d in
  let! d := field (has o ORDER_FIELD_03) (coord o (nWidth d)) (fun v => d <| nWidth := v |>) d in
  let! d := field (has o ORDER_FIELD_04) (coord o (nHeight d)) (fun v => d <| nHeight := v |>) d in
  let! d := field (has o ORDER_FIELD_05) stream_read_uint8 (fun v => d <| bRop := v |>) d in
  ret d.
End DstBlt.

Module PatBlt.
Record PATBLT_ORDER : Type := mk {
  nLeftRect : Z;
  nTopRect : Z;
  nWidth : Z;
  nHeight : Z;
  bRop : Z;
  backColor : Z;
  foreColor : Z;
  brush : rdpBrush;
}.

Definition update_read_patblt_order (o : ORDER_INFO) (d : PATBLT_ORDER) : M STREAM PATBLT_ORDER :=
  let! d := field (has o ORDER_FIELD_01) (coord o (nLeftRect d)) (fun v => d <| nLeftRect := v |>) d in
  let! d := field (has o ORDER_FIELD_02) (coord o (nTopRect d)) (fun v => d <| nTopRect := v |>) d in
  let! d := field (has o ORDER_FIELD_03) (coord o (nWidth d)) (fun v => d <| nWidth := v |>) d in
  let! d := field (has o ORDER_FIELD_04) (coord o (nHeight d)) (fun v => d <| nHeight := v |>) d in
  let! d := field (has o ORDER_FIELD_05) stream_read_uint8 (fun v => d <| bRop := v |>) d in
  let! d := field (has o ORDER_FIELD_06) update_read_color (fun v => d <| backColor := v |>) d in
  let! d := field (has o ORDER_FIELD_07) update_read_color (fun v => d <| foreColor := v |>) d in
  let! b := update_read_brush (brush d) (uint8 (Z.shiftr (fieldFlags o) 7)) in
  let d := d <| brush := b |> in
  ret d.
End PatBlt.

Module ScrBlt.
Record SCRBLT_ORDER : Type := mk {
  nLeftRect : Z;
  nTopRect : Z;
  nWidth : Z;
  nHeight : Z;
  bRop : Z;
  nXSrc : Z;
  nYSrc : Z;
}.

Definition update_read_scrblt_order (o : ORDER_INFO) (d : SCRBLT_ORDER) : M STREAM SCRBLT_ORDER :=
  let! d := field (has o ORDER_FIELD_01) (coord o (nLeftRect d)) (fun v => d <| nLeftRect := v |>) d in
  let! d := field (has o ORDER_FIELD_02) (coord o (nTopRect d)) (fun v => d <| nTopRect := v |>) d in
  let! d := field (has o ORDER_FIELD_03) (coord o (nWidth d)) (fun v => d <| nWidth := v |>) d in
  let! d := field (has o ORDER_FIELD_04) (coord o (nHeight d)) (fun v => d <| nHeight := v |>) d in
  let! d := field (has o ORDER_FIELD_05) stream_read_uint8 (fun v => d <| bRop := v |>) d in
  let! d := field (has o ORDER_FIELD_06) (coord o (nXSrc d)) (fun v => d <| nXSrc := v |>) d in
  let! d := field (has o ORDER_FIELD_07) (coord o (nYSrc d)) (fun v => d <| nYSrc := v |>) d in
  ret d.
End ScrBlt.

Module OpaqueRect.
Record OPAQUE_RECT_ORDER : Type := mk {
  nLeftRect : Z;
  nTopRect : Z;
  nWidth : Z;
  nHeight : Z;
  color : Z;
}.

Definition update_read_opaque_rect_order (o : ORDER_INFO) (d : OPAQUE_RECT_ORDER) : M STREAM OPAQUE_RECT_ORDER :=
  let! d := field (has o ORDER_FIELD_01) (coord o (nLeftRect d)) (fun v => d <| nLeftRect := v |>) d in
  let! d := field (has o ORDER_FIELD_02) (coord o (nTopRect d)) (fun v => d <| nTopRect := v |>) d in
  let! d := field (has o ORDER_FIELD_03) (coord o (nWidth d)) (fun v => d <| nWidth := v |>) d in
  let! d := field (has o ORDER_FIELD_04) (coord o (nHeight d)) (fun v => d <| nHeight := v |>) d in
  let! d := field (has o ORDER_FIELD_05) (update_color_byte 0 (color d)) (fun v => d <| color := v |>) d in
  let! d := field (has o ORDER_FIELD_06) (update_color_byte 8 (color d)) (fun v => d <| color := v |>) d in
  let! d := field (has o ORDER_FIELD_07) (update_color_byte 16 (color d)) (fun v => d <| color := v |>) d in
  ret d.
End OpaqueRect.

Module DrawNineGrid.
Record DRAW_NINE_GRID_ORDER : Type := mk {
  srcLeft : Z;
  srcTop : Z;
  srcRight : Z;
  srcBottom : Z;
  bitmapId : Z;
}.

Definition update_read_draw_nine_grid_order (o : ORDER_INFO) (d : DRAW_NINE_GRID_ORDER) : M STREAM DRAW_NINE_GRID_ORDER :=
  let! d := field (has o ORDER_FIELD_01) (coord o (srcLeft d)) (fun v => d <| srcLeft := v |>) d in
  let! d := field (has o ORDER_FIELD_02) (coord o (srcTop d)) (fun v => d <| srcTop := v |>) d in
  let! d := field (has o ORDER_FIELD_03) (coord o (srcRight d)) (fun v => d <| srcRight := v |>) d in
  let! d := field (has o ORDER_FIELD_04) (coord o (srcBottom d)) (fun v => d <| srcBottom := v |>) d in
  let! d := field (has o ORDER_FIELD_05) stream_read_uint16 (fun v => d <| bitmapId := v |>) d in
  ret d.
End DrawNineGrid.

Module MultiDstBlt.
Record MULTI_DSTBLT_ORDER : Type := mk {
  nLeftRect : Z;
  nTopRect : Z;
  nWidth : Z;
  nHeight : Z;
  bRop : Z;
  numRectangles : Z;
  cbData : Z;
  rectangles : list DELTA_RECT;
}.

Definition update_read_multi_dstblt_order (o : ORDER_INFO) (d : MULTI_DSTBLT_ORDER) : M STREAM MULTI_DSTBLT_ORDER :=
  let! d := field (has o ORDER_FIELD_01) (coord o (nLeftRect d)) (fun v => d <| nLeftRect := v |>) d in
  let! d := field (has o ORDER_FIELD_02) (coord o (nTopRect d)) (fun v => d <| nTopRect := v |>) d in
  let! d := field (has o ORDER_FIELD_03) (coord o (nWidth d)) (fun v => d <| nWidth := v |>) d in
  let! d := field (has o ORDER_FIELD_04) (coord o (nHeight d)) (fun v => d <| nHeight := v |>) d in
  let! d := field (has o ORDER_FIELD_05) stream_read_uint8 (fun v => d <| bRop := v |>) d in
  let! d := field (has o ORDER_FIELD_06) stream_read_uint8 (fun v => d <| numRectangles := v |>) d in
  let! d := when_read (has o ORDER_FIELD_07) (let! cb := stream_read_uint16 in
    let! rects := update_read_delta_rects (rectangles d) (numRectangles d) in
    ret (d <| cbData := cb |> <| rectangles := rects |>)) d in
  ret d.
End MultiDstBlt.

Module MultiPatBlt.
Record MULTI_PATBLT_ORDER : Type := mk {
  nLeftRect : Z;
  nTopRect : Z;
  nWidth : Z;
  nHeight : Z;
  bRop : Z;
  backColor : Z;
  foreColor : Z;
  brush : rdpBrush;
  numRectangles : Z;
  cbData : Z;
  rectangles : list DELTA_RECT;
}.

Definition update_read_multi_patblt_order (o : ORDER_INFO) (d : MULTI_PATBLT_ORDER) : M STREAM MULTI_PATBLT_ORDER :=
  let! d := field (has o ORDER_FIELD_01) (coord o (nLeftRect d)) (fun v => d <| nLeftRect := v |>) d in
  let! d := field (has o ORDER_FIELD_02) (coord o (nTopRect d)) (fun v => d <| nTopRect := v |>) d in
  let! d := field (has o ORDER_FIELD_03) (coord o (nWidth d)) (fun v => d <| nWidth := v |>) d in
  let! d := field (has o ORDER_FIELD_04) (coord o (nHeight d)) (fun v => d <| nHeight := v |>) d in
  let! d := field (has o ORDER_FIELD_05) stream_read_uint8 (fun v => d <| bRop := v |>) d in
  let! d := field (has o ORDER_FIELD_06) update_read_color (fun v => d <| backColor := v |>) d in
  let! d := field (has o ORDER_FIELD_07) update_read_color (fun v => d <| foreColor := v |>) d in
  let! b := update_read_brush (brush d) (uint8 (Z.shiftr (fieldFlags o) 7)) in
  let d := d <| brush := b |> in
  let! d := field (has o ORDER_FIELD_13) stream_read_uint8 (fun v => d <| numRectangles := v |>) d in
  let! d := when_read (has o ORDER_FIELD_14) (let! cb := stream_read_uint16 in
    let! rects := update_read_delta_rects (rectangles d) (numRectangles d) in
    ret (d <| cbData := cb |> <| rectangles := rects |>)) d in
  ret d.
End MultiPatBlt.

Module MultiScrBlt.
Record MULTI_SCRBLT_ORDER : Type := mk {
  nLeftRect : Z;
  nTopRect : Z;
  nWidth : Z;
  nHeight : Z;
  bRop : Z;
  nXSrc : Z;
  nYSrc : Z;
  numRectangles : Z;
  cbData : Z;
  rectangles : list DELTA_RECT;
}.

Definition update_read_multi_scrblt_order (o : ORDER_INFO) (d : MULTI_SCRBLT_ORDER) : M STREAM MULTI_SCRBLT_ORDER :=
  let! d := field (has o ORDER_FIELD_01) (coord o (nLeftRect d)) (fun v => d <| nLeftRect := v |>) d in
  let! d := field (has o ORDER_FIELD_02) (coord o (nTopRect d)) (fun v => d <| nTopRect := v |>) d in
  let! d := field (has o ORDER_FIELD_03) (coord o (nWidth d)) (fun v => d <| nWidth := v |>) d in
  let! d := field (has o ORDER_FIELD_04) (coord o (nHeight d)) (fun v => d <| nHeight := v |>) d in
  let! d := field (has o ORDER_FIELD_05) stream_read_uint8 (fun v => d <| bRop := v |>) d in
  let! d := field (has o ORDER_FIELD_06) (coord o (nXSrc d)) (fun v => d <| nXSrc := v |>) d in
  let! d := field (has o ORDER_FIELD_07) (coord o (nYSrc d)) (fun v => d <| nYSrc := v |>) d in
  let! d := field (has o ORDER_FIELD_08) stream_read_uint8 (fun v => d <| numRectangles := v |>) d in
  let! d := when_read (has o ORDER_FIELD_09) (let! cb := stream_read_uint16 in
    let! rects := update_read_delta_rects (rectangles d) (numRectangles d) in
    ret (d <| cbData := cb |> <| rectangles := rects |>)) d in
  ret d.
End MultiScrBlt.

Module MultiOpaqueRect.
Record MULTI_OPAQUE_RECT_ORDER : Type := mk {
  nLeftRect : Z;
  nTopRect : Z;
  nWidth : Z;
  nHeight : Z;
  color : Z;
  numRectangles : Z;
  cbData : Z;
  rectangles : list DELTA_RECT;
}.

Definition update_read_multi_opaque_rect_order (o : ORDER_INFO) (d : MULTI_OPAQUE_RECT_ORDER) : M STREAM MULTI_OPAQUE_RECT_ORDER :=
  let! d := field (has o ORDER_FIELD_01) (coord o (nLeftRect d)) (fun v => d <| nLeftRect := v |>) d in
  let! d := field (has o ORDER_FIELD_02) (coord o (nTopRect d)) (fun v => d <| nTopRect := v |>) d in
  let! d := field (has o ORDER_FIELD_03) (coord o (nWidth d)) (fun v => d <| nWidth := v |>) d in
  let! d := field (has o ORDER_FIELD_04) (coord o (nHeight d)) (fun v => d <| nHeight := v |>) d in
  let! d := field (has o ORDER_FIELD_05) (update_color_byte 0 (color d)) (fun v => d <| color := v |>) d in
  let! d := field (has o ORDER_FIELD_06) (update_color_byte 8 (color d)) (fun v => d <| color := v |>) d in
  let! d := field (has o ORDER_FIELD_07) (update_color_byte 16 (color d)) (fun v => d <| color := v |>) d in
  let! d := field (has o ORDER_FIELD_08) stream_read_uint8 (fun v => d <| numRectangles := v |>) d in
  let! d := when_read (has o ORDER_FIELD_09) (let! cb := stream_read_uint16 in
    let! rects := update_read_delta_rects (rectangles d) (numRectangles d) in
    ret (d <| cbData := cb |> <| rectangles := rects |>)) d in
  ret d.
End MultiOpaqueRect.

Module MultiDrawNineGrid.
Record MULTI_DRAW_NINE_GRID_ORDER : Type := mk {
  srcLeft : Z;
  srcTop : Z;
  srcRight : Z;
  srcBottom : Z;
  bitmapId : Z;
  nDeltaEntries : Z;
  cbData : Z;
}.

Definition update_read_multi_draw_nine_grid_order (o : ORDER_INFO) (d : MULTI_DRAW_NINE_GRID_ORDER) : M STREAM MULTI_DRAW_NINE_GRID_ORDER :=
  let! d := field (has o ORDER_FIELD_01) (coord o (srcLeft d)) (fun v => d <| srcLeft := v |>) d in
  let! d := field (has o ORDER_FIELD_02) (coord o (srcTop d)) (fun v => d <| srcTop := v |>) d in
  let! d := field (has o ORDER_FIELD_03) (coord o (srcRight d)) (fun v => d <| srcRight := v |>) d in
  let! d := field (has o ORDER_FIELD_04) (coord o (srcBottom d)) (fun v => d <| srcBottom := v |>) d in
  let! d := field (has o ORDER_FIELD_05) stream_read_uint16 (fun v => d <| bitmapId := v |>) d in
  let! d := field (has o ORDER_FIELD_06) stream_read_uint8 (fun v => d <| nDeltaEntries := v |>) d in
  let! d := when_read (has o ORDER_FIELD_07) (let! cb := stream_read_uint16 in
    stream_seek cb;;
    ret (d <| cbData := cb |>)) d in
  ret d.
End MultiDrawNineGrid.

Module LineTo.
Record LINE_TO_ORDER : Type := mk {
  backMode : Z;
  nXStart : Z;
  nYStart : Z;
  nXEnd : Z;
  nYEnd : Z;
  backColor : Z;
  bRop2 : Z;
  penStyle : Z;
  penWidth : Z;
  penColor : Z;
}.

Definition update_read_line_to_order (o : ORDER_INFO) (d : LINE_TO_ORDER) : M STREAM LINE_TO_ORDER :=
  let! d := field (has o ORDER_FIELD_01) stream_read_uint16 (fun v => d <| backMode := v |>) d in
  let! d := field (has o ORDER_FIELD_02) (coord o (nXStart d)) (fun v => d <| nXStart := v |>) d in
  let! d := field (has o ORDER_FIELD_03) (coord o (nYStart d)) (fun v => d <| nYStart := v |>) d in
  let! d := field (has o ORDER_FIELD_04) (coord o (nXEnd d)) (fun v => d <| nXEnd := v |>) d in
  let! d := field (has o ORDER_FIELD_05) (coord o (nYEnd d)) (fun v => d <| nYEnd := v |>) d in
  let! d := field (has o ORDER_FIELD_06) update_read_color (fun v => d <| backColor := v |>) d in
  let! d := field (has o ORDER_FIELD_07) stream_read_uint8 (fun v => d <| bRop2 := v |>) d in
  let! d := field (has o ORDER_FIELD_08) stream_read_uint8 (fun v => d <| penStyle := v |>) d in
  let! d := field (has o ORDER_FIELD_09) stream_read_uint8 (fun v => d <| penWidth := v |>) d in
  let! d := field (has o ORDER_FIELD_10) update_read_color (fun v => d <| penColor := v |>) d in
  ret d.
End LineTo.

Module Polyline.
Record POLYLINE_ORDER : Type := mk {
  xStart : Z;
  yStart : Z;
  bRop2 : Z;
  penColor : Z;
  numPoints : Z;
  cbData : Z;
  points : list DELTA_POINT;
}.

Definition update_read_polyline_order (o : ORDER_INFO) (d : POLYLINE_ORDER) : M STREAM POLYLINE_ORDER :=
  let! d := field (has o ORDER_FIELD_01) (coord o (xStart d)) (fun v => d <| xStart := v |>) d in
  let! d := field (has o ORDER_FIELD_02) (coord o (yStart d)) (fun v => d <| yStart := v |>) d in
  let! d := field (has o ORDER_FIELD_03) stream_read_uint8 (fun v => d <| bRop2 := v |>) d in
  when (has o ORDER_FIELD_04) (stream_seek 2);;
  let! d := field (has o ORDER_FIELD_05) update_read_color (fun v => d <| penColor := v |>) d in
  let! d := field (has o ORDER_FIELD_06) stream_read_uint8 (fun v => d <| numPoints := v |>) d in
  let! d := when_read (has o ORDER_FIELD_07) (let! cb := stream_read_uint8 in
    let! pts := update_read_delta_points (numPoints d) in
    ret (d <| cbData := cb |> <| points := pts |>)) d in
  ret d.
End Polyline.

Module MemBlt.
Record MEMBLT_ORDER : Type := mk {
  cacheId : Z;
  colorIndex : Z;
  nLeftRect : Z;
  nTopRect : Z;
  nWidth : Z;
  nHeight : Z;
  bRop : Z;
  nXSrc : Z;
  nYSrc : Z;
  cacheIndex : Z;
}.

Definition update_read_memblt_order (o : ORDER_INFO) (d : MEMBLT_ORDER) : M STREAM MEMBLT_ORDER :=
  let! d := field (has o ORDER_FIELD_01) stream_read_uint16 (fun v => d <| cacheId := v |>) d in
  let! d := field (has o ORDER_FIELD_02) (coord o (nLeftRect d)) (fun v => d <| nLeftRect := v |>) d in
  let! d := field (has o ORDER_FIELD_03) (coord o (nTopRect d)) (fun v => d <| nTopRect := v |>) d in
  let! d := field (has o ORDER_FIELD_04) (coord o (nWidth d)) (fun v => d <| nWidth := v |>) d in
  let! d := field (has o ORDER_FIELD_05) (coord o (nHeight d)) (fun v => d <| nHeight := v |>) d in
  let! d := field (has o ORDER_FIELD_06) stream_read_uint8 (fun v => d <| bRop := v |>) d in
  let! d := field (has o ORDER_FIELD_07) (coord o (nXSrc d)) (fun v => d <| nXSrc := v |>) d in
  let! d := field (has o ORDER_FIELD_08) (coord o (nYSrc d)) (fun v => d <| nYSrc := v |>) d in
  let! d := field (has o ORDER_FIELD_09) stream_read_uint16 (fun v => d <| cacheIndex := v |>) d in
  ret (d <| colorIndex := Z.shiftr (cacheId d) 8 |> <| cacheId := Z.land (cacheId d) 0xFF |>).
End MemBlt.

Module Mem3Blt.
Record MEM3BLT_ORDER : Type := mk {
  cacheId : Z;
  colorIndex : Z;
  nLeftRect : Z;
  nTopRect : Z;
  nWidth : Z;
  nHeight : Z;
  bRop : Z;
  nXSrc : Z;
  nYSrc : Z;
  backColor : Z;
  foreColor : Z;
  brush : rdpBrush;
  cacheIndex : Z;
}.

Definition update_read_mem3blt_order (o : ORDER_INFO) (d : MEM3BLT_ORDER) : M STREAM MEM3BLT_ORDER :=
  let! d := field (has o ORDER_FIELD_01) stream_read_uint16 (fun v => d <| cacheId := v |>) d in
  let! d := field (has o ORDER_FIELD_02) (coord o (nLeftRect d)) (fun v => d <| nLeftRect := v |>) d in
  let! d := field (has o ORDER_FIELD_03) (coord o (nTopRect d)) (fun v => d <| nTopRect := v |>) d in
  let! d := field (has o ORDER_FIELD_04) (coord o (nWidth d)) (fun v => d <| nWidth := v |>) d in
  let! d := field (has o ORDER_FIELD_05) (coord o (nHeight d)) (fun v => d <| nHeight := v |>) d in
  let! d := field (has o ORDER_FIELD_06) stream_read_uint8 (fun v => d <| bRop := v |>) d in
  let! d := field (has o ORDER_FIELD_07) (coord o (nXSrc d)) (fun v => d <| nXSrc := v |>) d in
  let! d := field (has o ORDER_FIELD_08) (coord o (nYSrc d)) (fun v => d <| nYSrc := v |>) d in
  let! d := field (has o ORDER_FIELD_09) update_read_color (fun v => d <| backColor := v |>) d in
  let! d := field (has o ORDER_FIELD_10) update_read_color (fun v => d <| foreColor := v |>) d in
  let! b := update_read_brush (brush d) (uint8 (Z.shiftr (fieldFlags o) 10)) in
  let d := d <| brush := b |> in
  let! d := field (has o ORDER_FIELD_16) stream_read_uint16 (fun v => d <| cacheIndex := v |>) d in
  ret (d <| colorIndex := Z.shiftr (cacheId d) 8 |> <| cacheId := Z.land (cacheId d) 0xFF |>).
End Mem3Blt.

Module SaveBitmap.
Record SAVE_BITMAP_ORDER : Type := mk {
  savedBitmapPosition : Z;
  nLeftRect : Z;
  nTopRect : Z;
  nRightRect : Z;
  nBottomRect : Z;
  operation : Z;
}.

Definition update_read_save_bitmap_order (o : ORDER_INFO) (d : SAVE_BITMAP_ORDER) : M STREAM SAVE_BITMAP_ORDER :=
  let! d := field (has o ORDER_FIELD_01) stream_read_uint32 (fun v => d <| savedBitmapPosition := v |>) d in
  let! d := field (has o ORDER_FIELD_02) (coord o (nLeftRect d)) (fun v => d <| nLeftRect := v |>) d in
  let! d := field (has o ORDER_FIELD_03) (coord o (nTopRect d)) (fun v => d <| nTopRect := v |>) d in
  let! d := field (has o ORDER_FIELD_04) (coord o (nRightRect d)) (fun v => d <| nRightRect := v |>) d in
  let! d := field (has o ORDER_FIELD_05) (coord o (nBottomRect d)) (fun v => d <| nBottomRect := v |>) d in
  let! d := field (has o ORDER_FIELD_06) stream_read_uint8 (fun v => d <| operation := v |>) d in
  ret d.
End SaveBitmap.

Module GlyphIndex.
Record GLYPH_INDEX_ORDER : Type := mk {
  cacheId : Z;
  flAccel : Z;
  ulCharInc : Z;
  fOpRedundant : Z;
  backColor : Z;
  foreColor : Z;
  bkLeft : Z;
  bkTop : Z;
  bkRight : Z;
  bkBottom : Z;
  opLeft : Z;
  opTop : Z;
  opRight : Z;
  opBottom : Z;
  brush : rdpBrush;
  x : Z;
  y : Z;
  cbData : Z;
  data : list Z;
}.

Definition update_read_glyph_index_order (o : ORDER_INFO) (d : GLYPH_INDEX_ORDER) : M STREAM GLYPH_INDEX_ORDER :=
  let! d := field (has o ORDER_FIELD_01) stream_read_uint8 (fun v => d <| cacheId := v |>) d in
  let! d := field (has o ORDER_FIELD_02) stream_read_uint8 (fun v => d <| flAccel := v |>) d in
  let! d := field (has o ORDER_FIELD_03) stream_read_uint8 (fun v => d <| ulCharInc := v |>) d in
  let! d := field (has o ORDER_FIELD_04) stream_read_uint8 (fun v => d <| fOpRedundant := v |>) d in
  let! d := field (has o ORDER_FIELD_05) update_read_color (fun v => d <| backColor := v |>) d in
  let! d := field (has o ORDER_FIELD_06) update_read_color (fun v => d <| foreColor := v |>) d in
  let! d := field (has o ORDER_FIELD_07) stream_read_sint16 (fun v => d <| bkLeft := v |>) d in
  let! d := field (has o ORDER_FIELD_08) stream_read_sint16 (fun v => d <| bkTop := v |>) d in
  let! d := field (has o ORDER_FIELD_09) stream_read_sint16 (fun v => d <| bkRight := v |>) d in
  let! d := field (has o ORDER_FIELD_10) stream_read_sint16 (fun v => d <| bkBottom := v |>) d in
  let! d := field (has o ORDER_FIELD_11) stream_read_sint16 (fun v => d <| opLeft := v |>) d in
  let! d := field (has o ORDER_FIELD_12) stream_read_sint16 (fun v => d <| opTop := v |>) d in
  let! d := field (has o ORDER_FIELD_13) stream_read_sint16 (fun v => d <| opRight := v |>) d in
  let! d := field (has o ORDER_FIELD_14) stream_read_sint16 (fun v => d <| opBottom := v |>) d in
  let! b := update_read_brush (brush d) (uint8 (Z.shiftr (fieldFlags o) 14)) in
  let d := d <| brush := b |> in
  let! d := field (has o ORDER_FIELD_20) stream_read_sint16 (fun v => d <| x := v |>) d in
  let! d := field (has o ORDER_FIELD_21) stream_read_sint16 (fun v => d <| y := v |>) d in
  let! d := when_read (has o ORDER_FIELD_22) (let! cb := stream_read_uint8 in
    let! bytes := stream_read cb in
    let! new := copy_data bytes (data d) in
    ret (d <| cbData := cb |> <| data := new |>)) d in
  ret d.
End GlyphIndex.

Module FastIndex.
Record FAST_INDEX_ORDER : Type := mk {
  cacheId : Z;
  flAccel : Z;
  ulCharInc : Z;
  backColor : Z;
  foreColor : Z;
  bkLeft : Z;
  bkTop : Z;
  bkRight : Z;
  bkBottom : Z;
  opLeft : Z;
  opTop : Z;
  opRight : Z;
  opBottom : Z;
  opaqueRect : bool;
  x : Z;
  y : Z;
  cbData : Z;
  data : list Z;
}.

Definition update_read_fast_index_order (o : ORDER_INFO) (d : FAST_INDEX_ORDER) : M STREAM FAST_INDEX_ORDER :=
  let! d := field (has o ORDER_FIELD_01) stream_read_uint8 (fun v => d <| cacheId := v |>) d in
  let! d := when_read (has o ORDER_FIELD_02) (let! inc := stream_read_uint8 in
    let! accel := stream_read_uint8 in
    ret (d <| ulCharInc := inc |> <| flAccel := accel |>)) d in
  let! d := field (has o ORDER_FIELD_03) update_read_color (fun v => d <| backColor := v |>) d in
  let! d := field (has o ORDER_FIELD_04) update_read_color (fun v => d <| foreColor := v |>) d in
  let! d := field (has o ORDER_FIELD_05) (coord o (bkLeft d)) (fun v => d <| bkLeft := v |>) d in
  let! d := field (has o ORDER_FIELD_06) (coord o (bkTop d)) (fun v => d <| bkTop := v |>) d in
  let! d := field (has o ORDER_FIELD_07) (coord o (bkRight d)) (fun v => d <| bkRight := v |>) d in
  let! d := field (has o ORDER_FIELD_08) (coord o (bkBottom d)) (fun v => d <| bkBottom := v |>) d in
  let! d := field (has o ORDER_FIELD_09) (coord o (opLeft d)) (fun v => d <| opLeft := v |>) d in
  let! d := field (has o ORDER_FIELD_10) (coord o (opTop d)) (fun v => d <| opTop := v |>) d in
  let! d := field (has o ORDER_FIELD_11) (coord o (opRight d)) (fun v => d <| opRight := v |>) d in
  let! d := field (has o ORDER_FIELD_12) (coord o (opBottom d)) (fun v => d <| opBottom := v |>) d in
  let! d := field (has o ORDER_FIELD_13) (coord o (x d)) (fun v => d <| x := v |>) d in
  let! d := field (has o ORDER_FIELD_14) (coord o (y d)) (fun v => d <| y := v |>) d in
  let! d := when_read (has o ORDER_FIELD_15) (let! cb := stream_read_uint8 in
    let! bytes := stream_read cb in
    let! new := copy_data bytes (data d) in
    ret (d <| cbData := cb |> <| data := new |>)) d in
  ret d.
End FastIndex.

Module FastGlyph.
Record FAST_GLYPH_ORDER : Type := mk {
  cacheId : Z;
  flAccel : Z;
  ulCharInc : Z;
  backColor : Z;
  foreColor : Z;
  bkLeft : Z;
  bkTop : Z;
  bkRight : Z;
  bkBottom : Z;
  opLeft : Z;
  opTop : Z;
  opRight : Z;
  opBottom : Z;
  x : Z;
  y : Z;
  cbData : Z;
  data : list Z;
  glyph_data : option GLYPH_DATA_V2;
}.

(** The data of the order, with the glyph in it if it has none yet. Whatever the
    glyph takes, the position ends behind the data. *)
Definition read_fast_glyph_data (d : FAST_GLYPH_ORDER) : M STREAM FAST_GLYPH_ORDER :=
  let! cb := stream_read_uint8 in
  let! bytes := peek_bytes cb in
  let! new := copy_data bytes (data d) in
  let d := d <| cbData := cb |> <| data := new |> in
  let! phold := get_pos in
  stream_seek 1;;
  let! d :=
    match glyph_data d with
    | None =>
        if 1 <? cb then
          let! cacheIndex := elem new 0 in
          let! glyph := read_glyph_v2 cacheIndex in
          ret (d <| glyph_data := Some glyph |>)
        else ret d
    | Some _ => ret d
    end in
  stream_set_pos (phold + cb);;
  ret d.

Definition update_read_fast_glyph_order (o : ORDER_INFO) (d : FAST_GLYPH_ORDER) : M STREAM FAST_GLYPH_ORDER :=
  let! d := field (has o ORDER_FIELD_01) stream_read_uint8 (fun v => d <| cacheId := v |>) d in
  let! d := when_read (has o ORDER_FIELD_02) (let! inc := stream_read_uint8 in
    let! accel := stream_read_uint8 in
    ret (d <| ulCharInc := inc |> <| flAccel := accel |>)) d in
  let! d := field (has o ORDER_FIELD_03) update_read_color (fun v => d <| backColor := v |>) d in
  let! d := field (has o ORDER_FIELD_04) update_read_color (fun v => d <| foreColor := v |>) d in
  let! d := field (has o ORDER_FIELD_05) (coord o (bkLeft d)) (fun v => d <| bkLeft := v |>) d in
  let! d := field (has o ORDER_FIELD_06) (coord o (bkTop d)) (fun v => d <| bkTop := v |>) d in
  let! d := field (has o ORDER_FIELD_07) (coord o (bkRight d)) (fun v => d <| bkRight := v |>) d in
  let! d := field (has o ORDER_FIELD_08) (coord o (bkBottom d)) (fun v => d <| bkBottom := v |>) d in
  let! d := field (has o ORDER_FIELD_09) (coord o (opLeft d)) (fun v => d <| opLeft := v |>) d in
  let! d := field (has o ORDER_FIELD_10) (coord o (opTop d)) (fun v => d <| opTop := v |>) d in
  let! d := field (has o ORDER_FIELD_11) (coord o (opRight d)) (fun v => d <| opRight := v |>) d in
  let! d := field (has o ORDER_FIELD_12) (coord o (opBottom d)) (fun v => d <| opBottom := v |>) d in
  let! d := field (has o ORDER_FIELD_13) (coord o (x d)) (fun v => d <| x := v |>) d in
  let! d := field (has o ORDER_FIELD_14) (coord o (y d)) (fun v => d <| y := v |>) d in
  let! d := when_read (has o ORDER_FIELD_15) (read_fast_glyph_data d) d in
  ret d.
End FastGlyph.

Module PolygonSC.
Record POLYGON_SC_ORDER : Type := mk {
  xStart : Z;
  yStart : Z;
  bRop2 : Z;
  fillMode : Z;
  brushColor : Z;
  nDeltaEntries : Z;
  cbData : Z;
}.

Definition update_read_polygon_sc_order (o : ORDER_INFO) (d : POLYGON_SC_ORDER) : M STREAM POLYGON_SC_ORDER :=
  let! d := field (has o ORDER_FIELD_01) (coord o (xStart d)) (fun v => d <| xStart := v |>) d in
  let! d := field (has o ORDER_FIELD_02) (coord o (yStart d)) (fun v => d <| yStart := v |>) d in
  let! d := field (has o ORDER_FIELD_03) stream_read_uint8 (fun v => d <| bRop2 := v |>) d in
  let! d := field (has o ORDER_FIELD_04) stream_read_uint8 (fun v => d <| fillMode := v |>) d in
  let! d := field (has o ORDER_FIELD_05) update_read_color (fun v => d <| brushColor := v |>) d in
  let! d := field (has o ORDER_FIELD_06) stream_read_uint8 (fun v => d <| nDeltaEntries := v |>) d in
  let! d := when_read (has o ORDER_FIELD_07) (let! cb := stream_read_uint8 in
    stream_seek cb;;
    ret (d <| cbData := cb |>)) d in
  ret d.
End PolygonSC.

Module PolygonCB.
Record POLYGON_CB_ORDER : Type := mk {
  xStart : Z;
  yStart : Z;
  bRop2 : Z;
  fillMode : Z;
  backColor : Z;
  foreColor : Z;
  brush : rdpBrush;
  nDeltaEntries : Z;
  cbData : Z;
}.

Definition update_read_polygon_cb_order (o : ORDER_INFO) (d : POLYGON_CB_ORDER) : M STREAM POLYGON_CB_ORDER :=
  let! d := field (has o ORDER_FIELD_01) (coord o (xStart d)) (fun v => d <| xStart := v |>) d in
  let! d := field (has o ORDER_FIELD_02) (coord o (yStart d)) (fun v => d <| yStart := v |>) d in
  let! d := field (has o ORDER_FIELD_03) stream_read_uint8 (fun v => d <| bRop2 := v |>) d in
  let! d := field (has o ORDER_FIELD_04) stream_read_uint8 (fun v => d <| fillMode := v |>) d in
  let! d := field (has o ORDER_FIELD_05) update_read_color (fun v => d <| backColor := v |>) d in
  let! d := field (has o ORDER_FIELD_06) update_read_color (fun v => d <| foreColor := v |>) d in
  let! b := update_read_brush (brush d) (uint8 (Z.shiftr (fieldFlags o) 6)) in
  let d := d <| brush := b |> in
  let! d := field (has o ORDER_FIELD_12) stream_read_uint8 (fun v => d <| nDeltaEntries := v |>) d in
  let! d := when_read (has o ORDER_FIELD_13) (let! cb := stream_read_uint8 in
    stream_seek cb;;
    ret (d <| cbData := cb |>)) d in
  ret d.
End PolygonCB.

Module EllipseSC.
Record ELLIPSE_SC_ORDER : Type := mk {
  leftRect : Z;
  topRect : Z;
  rightRect : Z;
  bottomRect : Z;
  bRop2 : Z;
  fillMode : Z;
  color : Z;
}.

Definition update_read_ellipse_sc_order (o : ORDER_INFO) (d : ELLIPSE_SC_ORDER) : M STREAM ELLIPSE_SC_ORDER :=
  let! d := field (has o ORDER_FIELD_01) (coord o (leftRect d)) (fun v => d <| leftRect := v |>) d in
  let! d := field (has o ORDER_FIELD_02) (coord o (topRect d)) (fun v => d <| topRect := v |>) d in
  let! d := field (has o ORDER_FIELD_03) (coord o (rightRect d)) (fun v => d <| rightRect := v |>) d in
  let! d := field (has o ORDER_FIELD_04) (coord o (bottomRect d)) (fun v => d <| bottomRect := v |>) d in
  let! d := field (has o ORDER_FIELD_05) stream_read_uint8 (fun v => d <| bRop2 := v |>) d in
  let! d := field (has o ORDER_FIELD_06) stream_read_uint8 (fun v => d <| fillMode := v |>) d in
  let! d := field (has o ORDER_FIELD_07) update_read_color (fun v => d <| color := v |>) d in
  ret d.
End EllipseSC.

Module EllipseCB.
Record ELLIPSE_CB_ORDER : Type := mk {
  leftRect : Z;
  topRect : Z;
  rightRect : Z;
  bottomRect : Z;
  bRop2 : Z;
  fillMode : Z;
  backColor : Z;
  foreColor : Z;
  brush : rdpBrush;
}.

Definition update_read_ellipse_cb_order (o : ORDER_INFO) (d : ELLIPSE_CB_ORDER) : M STREAM ELLIPSE_CB_ORDER :=
  let! d := field (has o ORDER_FIELD_01) (coord o (leftRect d)) (fun v => d <| leftRect := v |>) d in
  let! d := field (has o ORDER_FIELD_02) (coord o (topRect d)) (fun v => d <| topRect := v |>) d in
  let! d := field (has o ORDER_FIELD_03) (coord o (rightRect d)) (fun v => d <| rightRect := v |>) d in
  let! d := field (has o ORDER_FIELD_04) (coord o (bottomRect d)) (fun v => d <| bottomRect := v |>) d in
  let! d := field (has o ORDER_FIELD_05) stream_read_uint8 (fun v => d <| bRop2 := v |>) d in
  let! d := field (has o ORDER_FIELD_06) stream_read_uint8 (fun v => d <| fillMode := v |>) d in
  let! d := field (has o ORDER_FIELD_07) update_read_color (fun v => d <| backColor := v |>) d in
  let! d := field (has o ORDER_FIELD_08) update_read_color (fun v => d <| foreColor := v |>) d in
  let! b := update_read_brush (brush d) (uint8 (Z.shiftr (fieldFlags o) 8)) in
  let d := d <| brush := b |> in
  ret d.
End EllipseCB.
