(* ===== verification/OrderCache.v ===== *)
(** Secondary and alternate secondary drawing orders, [libfreerdp-core/orders.c]
    with [include/freerdp/secondary.h] and [include/freerdp/altsec.h]: the orders
    that fill the caches (bitmaps, colour tables, glyphs, brushes) and those that
    create surfaces and stream bitmaps and GDI+ records.

    A pointer into the packet ([bitmapDataStream]) is the offset it points to. The
    memory of a brush is a list of bytes in which [None] is a byte that was never
    written. *)

From coqutil Require Import Datatypes.RecordSetters.
From S2P Require Import Prelude.
From S2P Require Import Stream.
From S2P Require Import Gcc.
From S2P Require Import Fastpath.
From S2P Require Import Orders.
Import TriangleBracketNotations.

Definition ORDER_TYPE_BITMAP_UNCOMPRESSED : Z := 0x00.
Definition ORDER_TYPE_CACHE_COLOR_TABLE : Z := 0x01.
Definition ORDER_TYPE_CACHE_BITMAP_COMPRESSED : Z := 0x02.
Definition ORDER_TYPE_CACHE_GLYPH : Z := 0x03.
Definition ORDER_TYPE_BITMAP_UNCOMPRESSED_V2 : Z := 0x04.
Definition ORDER_TYPE_BITMAP_COMPRESSED_V2 : Z := 0x05.
Definition ORDER_TYPE_CACHE_BRUSH : Z := 0x07.
Definition ORDER_TYPE_BITMAP_COMPRESSED_V3 : Z := 0x08.

Definition ORDER_TYPE_SWITCH_SURFACE : Z := 0x00.
Definition ORDER_TYPE_CREATE_OFFSCREEN_BITMAP : Z := 0x01.
Definition ORDER_TYPE_STREAM_BITMAP_FIRST : Z := 0x02.
Definition ORDER_TYPE_STREAM_BITMAP_NEXT : Z := 0x03.
Definition ORDER_TYPE_CREATE_NINE_GRID_BITMAP : Z := 0x04.
Definition ORDER_TYPE_GDIPLUS_FIRST : Z := 0x05.
Definition ORDER_TYPE_GDIPLUS_NEXT : Z := 0x06.
Definition ORDER_TYPE_GDIPLUS_END : Z := 0x07.
Definition ORDER_TYPE_GDIPLUS_CACHE_FIRST : Z := 0x08.
Definition ORDER_TYPE_GDIPLUS_CACHE_NEXT : Z := 0x09.
Definition ORDER_TYPE_GDIPLUS_CACHE_END : Z := 0x0A.
Definition ORDER_TYPE_WINDOW : Z := 0x0B.
Definition ORDER_TYPE_COMPDESK_FIRST : Z := 0x0C.
Definition ORDER_TYPE_FRAME_MARKER : Z := 0x0D.

Definition CG_GLYPH_UNICODE_PRESENT : Z := 0x0010.
Definition NO_BITMAP_COMPRESSION_HDR : Z := 0x0400.
Definition CBR2_HEIGHT_SAME_AS_WIDTH : Z := 0x01.
Definition CBR2_PERSISTENT_KEY_PRESENT : Z := 0x02.
Definition CBR2_NO_BITMAP_COMPRESSION_HDR : Z := 0x08.
Definition CBR2_DO_NOT_CACHE : Z := 0x10.
Definition BITMAP_CACHE_WAITING_LIST_INDEX : Z := 0x7FFF.
Definition BMF_8BPP : Z := 0x3.
Definition BMF_16BPP : Z := 0x4.
Definition BMF_32BPP : Z := 0x6.
Definition STREAM_BITMAP_V2 : Z := 0x04.

(** ** Secondary orders *)

Module CacheBitmap.
Record CACHE_BITMAP_ORDER : Type := mk {
  cacheId : Z;
  bitmapBpp : Z;
  bitmapWidth : Z;
  bitmapHeight : Z;
  bitmapLength : Z;
  cacheIndex : Z;
  compressed : bool;
  bitmapComprHdr : list Z;
  bitmapDataStream : Z;
}.

Definition update_read_cache_bitmap_order (comp : bool) (flags : Z) (d : CACHE_BITMAP_ORDER) : M STREAM CACHE_BITMAP_ORDER :=
  let! id := stream_read_uint8 in
  stream_seek 1;;
  let! w := stream_read_uint8 in
  let! h := stream_read_uint8 in
  let! bpp := stream_read_uint8 in
  let! length := stream_read_uint16 in
  let! index := stream_read_uint16 in
  let! (length, hdr) :=
    (if comp && negb (flag flags NO_BITMAP_COMPRESSION_HDR) then
       let! hdr := stream_read 8 in ret (uint32 (length - 8), hdr)
     else ret (length, bitmapComprHdr d)) in
  let! mark := get_pos in
  stream_seek length;;
  ret (mk id bpp w h length index comp hdr mark).
End CacheBitmap.

Module CacheBitmapV2.
Record CACHE_BITMAP_V2_ORDER : Type := mk {
  cacheId : Z;
  v2_flags : Z;
  key1 : Z;
  key2 : Z;
  bitmapBpp : Z;
  bitmapWidth : Z;
  bitmapHeight : Z;
  bitmapLength : Z;
  cacheIndex : Z;
  compressed : bool;
  cbCompFirstRowSize : Z;
  cbCompMainBodySize : Z;
  cbScanWidth : Z;
  cbUncompressedSize : Z;
  bitmapDataStream : Z;
}.

Definition read_compr_hdr (d : CACHE_BITMAP_V2_ORDER) : M STREAM CACHE_BITMAP_V2_ORDER :=
  let! first := stream_read_uint16 in
  let! main := stream_read_uint16 in
  let! scan := stream_read_uint16 in
  let! uncompressed := stream_read_uint16 in
  ret (d <| cbCompFirstRowSize := first |> <| cbCompMainBodySize := main |> <| cbScanWidth := scan |>
         <| cbUncompressedSize := uncompressed |> <| bitmapLength := main |>).

Definition update_read_cache_bitmap_v2_order (comp : bool) (flags : Z) (d : CACHE_BITMAP_V2_ORDER) : M STREAM CACHE_BITMAP_V2_ORDER :=
  let d := d <| cacheId := Z.land flags 0x0003 |> <| v2_flags := Z.shiftr (Z.land flags 0xFF80) 7 |> in
  let! bpp := elem CBR2_BPP (Z.shiftr (Z.land flags 0x0078) 3) in
  let d := d <| bitmapBpp := bpp |> in
  let! d :=
    when_read (flag (v2_flags d) CBR2_PERSISTENT_KEY_PRESENT)
      (let! k1 := stream_read_uint32 in
       let! k2 := stream_read_uint32 in
       ret (d <| key1 := k1 |> <| key2 := k2 |>)) d in
  let! w := update_read_2byte_unsigned in
  let! h := (if flag (v2_flags d) CBR2_HEIGHT_SAME_AS_WIDTH then ret w else update_read_2byte_unsigned) in
  let! length := update_read_4byte_unsigned in
  let! index := update_read_2byte_unsigned in
  let d := d <| bitmapWidth := w |> <| bitmapHeight := h |> <| bitmapLength := length |>
             <| cacheIndex := if flag (v2_flags d) CBR2_DO_NOT_CACHE then BITMAP_CACHE_WAITING_LIST_INDEX else index |> in
  let! d := when_read (comp && negb (flag (v2_flags d) CBR2_NO_BITMAP_COMPRESSION_HDR)) (read_compr_hdr d) d in
  let! mark := get_pos in
  stream_seek (bitmapLength d);;
  ret (d <| bitmapDataStream := mark |> <| compressed := comp |>).
End CacheBitmapV2.

Module CacheBitmapV3.
Record BITMAP_DATA_EX : Type := mkData {
  x_bpp : Z;
  codecID : Z;
  x_width : Z;
  x_height : Z;
  x_length : Z;
  x_data : list Z;
}.

Record CACHE_BITMAP_V3_ORDER : Type := mk {
  cacheId : Z;
  bpp : Z;
  v3_flags : Z;
  cacheIndex : Z;
  key1 : Z;
  key2 : Z;
  bitmapData : BITMAP_DATA_EX;
}.

(** Every field is set: the old order only gives its memory back. *)
Definition update_read_cache_bitmap_v3_order (flags : Z) : M STREAM CACHE_BITMAP_V3_ORDER :=
  let! cbpp := elem CBR23_BPP (Z.shiftr (Z.land flags 0x0078) 3) in
  let! index := stream_read_uint16 in
  let! k1 := stream_read_uint32 in
  let! k2 := stream_read_uint32 in
  let! dbpp := stream_read_uint8 in
  stream_seek 1;;
  stream_seek 1;;
  let! codec := stream_read_uint8 in
  let! w := stream_read_uint16 in
  let! h := stream_read_uint16 in
  let! length := stream_read_uint32 in
  let! bytes := stream_read length in
  ret (mk (Z.land flags 0x0003) cbpp (Z.shiftr (Z.land flags 0xFF80) 7) index k1 k2 (mkData dbpp codec w h length bytes)).
End CacheBitmapV3.

Module CacheColorTable.
Record CACHE_COLOR_TABLE_ORDER : Type := mk {
  cacheIndex : Z;
  numberColors : Z;
  colorTable : list Z;
}.

Fixpoint read_color_quads (n : nat) : M STREAM (list Z) :=
  match n with
  | O => ret []
  | S n' => let! c := update_read_color_quad in let! l := read_color_quads n' in ret (c :: l)
  end.

(** The count is read as one byte. *)
Definition update_read_cache_color_table_order : M STREAM CACHE_COLOR_TABLE_ORDER :=
  let! index := stream_read_uint8 in
  let! number := stream_read_uint8 in
  let! table := read_color_quads (Z.to_nat number) in
  ret (mk index number table).
End CacheColorTable.

Module CacheGlyph.
Record CACHE_GLYPH_ORDER : Type := mk {
  cacheId : Z;
  cGlyphs : Z;
  glyphData : list (option GLYPH_DATA_V2);
}.

Definition read_glyph : M STREAM GLYPH_DATA_V2 :=
  let! index := stream_read_uint16 in
  let! x := stream_read_uint16 in
  let! y := stream_read_uint16 in
  let! cx := stream_read_uint16 in
  let! cy := stream_read_uint16 in
  let cb := glyph_size cx cy in
  let! aj := stream_read cb in
  ret (mkGlyphData index (sint16 x) (sint16 y) cx cy cb aj).

(** The loop over the array, for either kind of glyph. *)
Fixpoint read_glyphs (c : M STREAM GLYPH_DATA_V2) (n : nat) (i : Z) (glyphs : list (option GLYPH_DATA_V2)) : M STREAM (list (option GLYPH_DATA_V2)) :=
  match n with
  | O => ret glyphs
  | S n' =>
      let! _ := elem glyphs i in
      let! g := c in
      let! glyphs := elem_set i (Some g) glyphs in
      read_glyphs c n' (i + 1) glyphs
  end.

Definition update_read_cache_glyph_order (flags : Z) (d : CACHE_GLYPH_ORDER) : M STREAM CACHE_GLYPH_ORDER :=
  let! id := stream_read_uint8 in
  let! count := stream_read_uint8 in
  let! glyphs := read_glyphs read_glyph (Z.to_nat count) 0 (glyphData d) in
  when (flag flags CG_GLYPH_UNICODE_PRESENT) (stream_seek (count * 2));;
  ret (mk id count glyphs).
End CacheGlyph.

Module CacheGlyphV2.
Record CACHE_GLYPH_V2_ORDER : Type := mk {
  cacheId : Z;
  v2_flags : Z;
  cGlyphs : Z;
  glyphData : list (option GLYPH_DATA_V2);
}.

Definition update_read_cache_glyph_v2_order (flags : Z) (d : CACHE_GLYPH_V2_ORDER) : M STREAM CACHE_GLYPH_V2_ORDER :=
  let count := Z.shiftr (Z.land flags 0xFF00) 8 in
  let! glyphs := CacheGlyph.read_glyphs (let! index := stream_read_uint8 in read_glyph_v2 index) (Z.to_nat count) 0 (glyphData d) in
  when (flag flags CG_GLYPH_UNICODE_PRESENT) (stream_seek (count * 2));;
  ret (mk (Z.land flags 0x000F) (Z.shiftr (Z.land flags 0x00F0) 4) count glyphs).
End CacheGlyphV2.

Module CacheBrush.
Record CACHE_BRUSH_ORDER : Type := mk {
  index : Z;
  bpp : Z;
  cx : Z;
  cy : Z;
  style : Z;
  length : Z;
  data : list (option Z);
}.

Definition pixel (output : list (option Z)) (palette bytesPerPixel place index : Z) : M STREAM (list (option Z)) :=
  foldl (fun c k =>
      let! output := c in
      let! b := byte_at (palette + index * bytesPerPixel + k) in
      elem_set (place * bytesPerPixel + k) (Some b) output)
    (ret output) (map Z.of_nat (seq 0 (Z.to_nat bytesPerPixel))).

(** Row [y]: four pixels to a byte. *)
Fixpoint decompress_row (n : nat) (x byte : Z) (y palette bytesPerPixel : Z) (output : list (option Z)) : M STREAM (list (option Z)) :=
  match n with
  | O => ret output
  | S n' =>
      let! byte := (if x mod 4 =? 0 then stream_read_uint8 else ret byte) in
      let! output := pixel output palette bytesPerPixel (y * 8 + x) (Z.land (Z.shiftr byte ((3 - x mod 4) * 2)) 0x03) in
      decompress_row n' (x + 1) byte y palette bytesPerPixel output
  end.

Definition update_decompress_brush (output : list (option Z)) (bpp : Z) : M STREAM (list (option Z)) :=
  let! p := get_pos in
  foldl (fun c y => let! output := c in decompress_row 8 0 0 y (p + 16) ((bpp + 1) / 8) output)
    (ret output) [7; 6; 5; 4; 3; 2; 1; 0].

(** [stream_read] into the array at [i]. *)
Definition copy_at (i : Z) (bytes : list Z) (output : list (option Z)) : M STREAM (list (option Z)) :=
  if (0 <=? i) && (i + len bytes <=? len output)
  then ret (take (Z.to_nat i) output ++ map Some bytes ++ drop (Z.to_nat (i + len bytes)) output)
  else fail OutOfBounds.

Definition read_rows (scanline : Z) (output : list (option Z)) : M STREAM (list (option Z)) :=
  foldl (fun c i => let! output := c in let! bytes := stream_read scanline in copy_at (i * scanline) bytes output)
    (ret output) [7; 6; 5; 4; 3; 2; 1; 0].

Definition compressed (format length : Z) : bool :=
  ((format =? BMF_8BPP) && (length =? 20)) || ((format =? BMF_16BPP) && (length =? 24))
  || ((format =? BMF_32BPP) && (length =? 32)).

Definition update_read_cache_brush_order (d : CACHE_BRUSH_ORDER) : M STREAM CACHE_BRUSH_ORDER :=
  let! index := stream_read_uint8 in
  let! format := stream_read_uint8 in
  let! bpp := elem BMF_BPP format in
  let! cx := stream_read_uint8 in
  let! cy := stream_read_uint8 in
  let! style := stream_read_uint8 in
  let! length := stream_read_uint8 in
  let! data :=
    (if (cx =? 8) && (cy =? 8) then
       let fresh := replicate (Z.to_nat (if bpp =? 1 then 8 else 8 * 8 * bpp)) None in
       if bpp =? 1 then
         if negb (length =? 8) then ret fresh
         else read_rows 1 fresh
       else if compressed format length then update_decompress_brush fresh bpp
       else read_rows (bpp / 8 * 8) fresh
     else ret (data d)) in
  ret (mk index bpp cx cy style length data).
End CacheBrush.

(** ** Alternate secondary orders *)

Module Altsec.
Record OFFSCREEN_DELETE_LIST : Type := mkDelete {
  sIndices : Z;
  cIndices : Z;
  indices : list Z;
}.

Record CREATE_OFFSCREEN_BITMAP_ORDER : Type := mkOffscreen {
  off_id : Z;
  off_cx : Z;
  off_cy : Z;
  deleteList : OFFSCREEN_DELETE_LIST;
}.

(** The array [indices] of [sIndices] entries, [cIndices] of them in use. *)
Fixpoint read_indices (n : nat) (i : Z) (l : list Z) : M STREAM (list Z) :=
  match n with
  | O => ret l
  | S n' =>
      let! v := stream_read_uint16 in
      let! l := elem_set i v l in
      read_indices n' (i + 1) l
  end.

Definition read_delete_list (d : OFFSCREEN_DELETE_LIST) : M STREAM OFFSCREEN_DELETE_LIST :=
  let! count := stream_read_uint16 in
  let d := if sIndices d <? count
           then mkDelete count count (indices d ++ replicate (Z.to_nat count - length (indices d)) 0)
           else d <| cIndices := count |> in
  let! l := read_indices (Z.to_nat count) 0 (indices d) in
  ret (d <| indices := l |>).

Definition update_read_create_offscreen_bitmap_order (d : CREATE_OFFSCREEN_BITMAP_ORDER) : M STREAM CREATE_OFFSCREEN_BITMAP_ORDER :=
  let! flags := stream_read_uint16 in
  let! cx := stream_read_uint16 in
  let! cy := stream_read_uint16 in
  let! list := (if flag flags 0x8000 then read_delete_list (deleteList d)
                else ret ((deleteList d) <| cIndices := 0 |>)) in
  ret (mkOffscreen (Z.land flags 0x7FFF) cx cy list).

Record SWITCH_SURFACE_ORDER : Type := mkSwitch { sw_bitmapId : Z }.

Definition update_read_switch_surface_order : M STREAM SWITCH_SURFACE_ORDER :=
  let! id := stream_read_uint16 in ret (mkSwitch id).

Record NINE_GRID_BITMAP_INFO : Type := mkInfo {
  flFlags : Z;
  ulLeftWidth : Z;
  ulRightWidth : Z;
  ulTopHeight : Z;
  ulBottomHeight : Z;
  crTransparent : Z;
}.

Record CREATE_NINE_GRID_BITMAP_ORDER : Type := mkNineGrid {
  ng_bitmapBpp : Z;
  ng_bitmapId : Z;
  ng_cx : Z;
  ng_cy : Z;
  nineGridInfo : NINE_GRID_BITMAP_INFO;
}.

Definition update_read_create_nine_grid_bitmap_order (d : CREATE_NINE_GRID_BITMAP_ORDER) : M STREAM CREATE_NINE_GRID_BITMAP_ORDER :=
  let! bpp := stream_read_uint8 in
  let! id := stream_read_uint16 in
  let! fl := stream_read_uint32 in
  let! l := stream_read_uint16 in
  let! r := stream_read_uint16 in
  let! t := stream_read_uint16 in
  let! b := stream_read_uint16 in
  let! cr := update_read_colorref in
  ret (mkNineGrid bpp id (ng_cx d) (ng_cy d) (mkInfo fl l r t b cr)).

Record FRAME_MARKER_ORDER : Type := mkFrame { action : Z }.

Definition update_read_frame_marker_order : M STREAM FRAME_MARKER_ORDER :=
  let! a := stream_read_uint32 in ret (mkFrame a).

Record STREAM_BITMAP_FIRST_ORDER : Type := mkStream {
  sb_bitmapFlags : Z;
  sb_bitmapBpp : Z;
  sb_bitmapType : Z;
  sb_bitmapWidth : Z;
  sb_bitmapHeight : Z;
  sb_bitmapSize : Z;
  sb_bitmapBlockSize : Z;
}.

Definition update_read_stream_bitmap_first_order : M STREAM STREAM_BITMAP_FIRST_ORDER :=
  let! flags := stream_read_uint8 in
  let! bpp := stream_read_uint8 in
  let! type := stream_read_uint16 in
  let! w := stream_read_uint16 in
  let! h := stream_read_uint16 in
  let! size := (if flag flags STREAM_BITMAP_V2 then stream_read_uint32 else stream_read_uint16) in
  let! block := stream_read_uint16 in
  stream_seek block;;
  ret (mkStream flags bpp type w h size block).

Definition update_read_stream_bitmap_next_order (d : STREAM_BITMAP_FIRST_ORDER) : M STREAM STREAM_BITMAP_FIRST_ORDER :=
  let! flags := stream_read_uint8 in
  let! type := stream_read_uint16 in
  let! block := stream_read_uint16 in
  stream_seek block;;
  ret (d <| sb_bitmapFlags := flags |> <| sb_bitmapType := type |> <| sb_bitmapBlockSize := block |>).

Record DRAW_GDIPLUS_FIRST_ORDER : Type := mkGdiFirst { gf_cbSize : Z; gf_cbTotalSize : Z; gf_cbTotalEmfSize : Z }.

Definition update_read_draw_gdiplus_first_order : M STREAM DRAW_GDIPLUS_FIRST_ORDER :=
  stream_seek 1;;
  let! size := stream_read_uint16 in
  let! total := stream_read_uint32 in
  let! emf := stream_read_uint32 in
  stream_seek size;;
  ret (mkGdiFirst size total emf).

Record DRAW_GDIPLUS_NEXT_ORDER : Type := mkGdiNext { gn_cbSize : Z }.

Definition update_read_draw_gdiplus_next_order : M STREAM DRAW_GDIPLUS_NEXT_ORDER :=
  stream_seek 1;;
  let! size := stream_read_uint16 in
  stream_seek size;;
  ret (mkGdiNext size).

Record DRAW_GDIPLUS_END_ORDER : Type := mkGdiEnd { ge_cbSize : Z; ge_cbTotalSize : Z; ge_cbTotalEmfSize : Z }.

Definition update_read_draw_gdiplus_end_order : M STREAM DRAW_GDIPLUS_END_ORDER :=
  stream_seek 1;;
  let! size := stream_read_uint16 in
  let! total := stream_read_uint32 in
  let! emf := stream_read_uint32 in
  stream_seek size;;
  ret (mkGdiEnd size total emf).

Record DRAW_GDIPLUS_CACHE_FIRST_ORDER : Type := mkCacheFirst {
  cf_flags : Z;
  cf_cacheType : Z;
  cf_cacheIndex : Z;
  cf_cbSize : Z;
  cf_cbTotalSize : Z;
}.

Definition update_read_draw_gdiplus_cache_first_order : M STREAM DRAW_GDIPLUS_CACHE_FIRST_ORDER :=
  let! flags := stream_read_uint8 in
  let! type := stream_read_uint16 in
  let! index := stream_read_uint16 in
  let! size := stream_read_uint16 in
  let! total := stream_read_uint32 in
  stream_seek size;;
  ret (mkCacheFirst flags type index size total).

Record DRAW_GDIPLUS_CACHE_NEXT_ORDER : Type := mkCacheNext {
  cn_flags : Z;
  cn_cacheType : Z;
  cn_cacheIndex : Z;
  cn_cbSize : Z;
}.

Definition update_read_draw_gdiplus_cache_next_order : M STREAM DRAW_GDIPLUS_CACHE_NEXT_ORDER :=
  let! flags := stream_read_uint8 in
  let! type := stream_read_uint16 in
  let! index := stream_read_uint16 in
  let! size := stream_read_uint16 in
  stream_seek size;;
  ret (mkCacheNext flags type index size).

Record DRAW_GDIPLUS_CACHE_END_ORDER : Type := mkCacheEnd {
  ce_flags : Z;
  ce_cacheType : Z;
  ce_cacheIndex : Z;
  ce_cbSize : Z;
  ce_cbTotalSize : Z;
}.

Definition update_read_draw_gdiplus_cache_end_order : M STREAM DRAW_GDIPLUS_CACHE_END_ORDER :=
  let! flags := stream_read_uint8 in
  let! type := stream_read_uint16 in
  let! index := stream_read_uint16 in
  let! size := stream_read_uint16 in
  let! total := stream_read_uint32 in
  stream_seek size;;
  ret (mkCacheEnd flags type index size total).
End Altsec.
