(* ===== verification/Windows.v ===== *)
(** Windowing orders of remote applications, [libfreerdp-core/window.c] with
    [include/freerdp/window.h]: windows, their icons, notification icons and the
    desktop, and the parts of [libfreerdp-utils/rail.c] and [rect.c] they read.
    As with primary orders, a window order carries only some fields: the
    structures are the state between the orders. *)

From coqutil Require Import Datatypes.RecordSetters.
From S2P Require Import Prelude.
From S2P Require Import Stream.
From S2P Require Import Gcc.
From S2P Require Import Orders.
Import TriangleBracketNotations.

Definition WINDOW_ORDER_TYPE_WINDOW : Z := 0x01000000.
Definition WINDOW_ORDER_TYPE_NOTIFY : Z := 0x02000000.
Definition WINDOW_ORDER_TYPE_DESKTOP : Z := 0x04000000.
Definition WINDOW_ORDER_STATE_NEW : Z := 0x10000000.
Definition WINDOW_ORDER_STATE_DELETED : Z := 0x20000000.
Definition WINDOW_ORDER_FIELD_OWNER : Z := 0x00000002.
Definition WINDOW_ORDER_FIELD_STYLE : Z := 0x00000008.
Definition WINDOW_ORDER_FIELD_SHOW : Z := 0x00000010.
Definition WINDOW_ORDER_FIELD_TITLE : Z := 0x00000004.
Definition WINDOW_ORDER_FIELD_CLIENT_AREA_OFFSET : Z := 0x00004000.
Definition WINDOW_ORDER_FIELD_CLIENT_AREA_SIZE : Z := 0x00010000.
Definition WINDOW_ORDER_FIELD_RP_CONTENT : Z := 0x00020000.
Definition WINDOW_ORDER_FIELD_ROOT_PARENT : Z := 0x00040000.
Definition WINDOW_ORDER_FIELD_WND_OFFSET : Z := 0x00000800.
Definition WINDOW_ORDER_FIELD_WND_CLIENT_DELTA : Z := 0x00008000.
Definition WINDOW_ORDER_FIELD_WND_SIZE : Z := 0x00000400.
Definition WINDOW_ORDER_FIELD_WND_RECTS : Z := 0x00000100.
Definition WINDOW_ORDER_FIELD_VIS_OFFSET : Z := 0x00001000.
Definition WINDOW_ORDER_FIELD_VISIBILITY : Z := 0x00000200.
Definition WINDOW_ORDER_ICON : Z := 0x40000000.
Definition WINDOW_ORDER_CACHED_ICON : Z := 0x80000000.
Definition WINDOW_ORDER_FIELD_NOTIFY_VERSION : Z := 0x00000008.
Definition WINDOW_ORDER_FIELD_NOTIFY_TIP : Z := 0x00000001.
Definition WINDOW_ORDER_FIELD_NOTIFY_INFO_TIP : Z := 0x00000002.
Definition WINDOW_ORDER_FIELD_NOTIFY_STATE : Z := 0x00000004.
Definition WINDOW_ORDER_FIELD_DESKTOP_NONE : Z := 0x00000001.
Definition WINDOW_ORDER_FIELD_DESKTOP_ZORDER : Z := 0x00000010.
Definition WINDOW_ORDER_FIELD_DESKTOP_ACTIVE_WND : Z := 0x00000020.

(** ** Data *)

Record WINDOW_ORDER_INFO : Type := mkWindowInfo {
  windowId : Z;
  w_fieldFlags : Z;
  notifyIconId : Z;
}.

(** [UNICODE_STRING]: the length is the one of the bytes. *)
Definition UNICODE_STRING : Type := list Z.

Record RECTANGLE_16 : Type := mkRect16 { q_left : Z; q_top : Z; q_right : Z; q_bottom : Z }.

Record ICON_INFO : Type := mkIcon {
  ic_cacheEntry : Z;
  ic_cacheId : Z;
  ic_bpp : Z;
  ic_width : Z;
  ic_height : Z;
  bitsMask : list Z;
  ic_colorTable : list Z;
  bitsColor : list Z;
}.

Record CACHED_ICON_INFO : Type := mkCachedIcon { ci_cacheEntry : Z; ci_cacheId : Z }.

Record NOTIFY_ICON_INFOTIP : Type := mkInfoTip {
  tip_timeout : Z;
  tip_flags : Z;
  tip_text : UNICODE_STRING;
  tip_title : UNICODE_STRING;
}.

Record WINDOW_STATE_ORDER : Type := mkWindowState {
  ownerWindowId : Z;
  ws_style : Z;
  extendedStyle : Z;
  showState : Z;
  titleInfo : UNICODE_STRING;
  clientOffsetX : Z;
  clientOffsetY : Z;
  clientAreaWidth : Z;
  clientAreaHeight : Z;
  RPContent : Z;
  rootParentHandle : Z;
  windowOffsetX : Z;
  windowOffsetY : Z;
  windowClientDeltaX : Z;
  windowClientDeltaY : Z;
  windowWidth : Z;
  windowHeight : Z;
  numWindowRects : Z;
  windowRects : list RECTANGLE_16;
  visibleOffsetX : Z;
  visibleOffsetY : Z;
  numVisibilityRects : Z;
  visibilityRects : list RECTANGLE_16;
}.

Record NOTIFY_ICON_STATE_ORDER : Type := mkNotify {
  nt_version : Z;
  toolTip : UNICODE_STRING;
  infoTip : NOTIFY_ICON_INFOTIP;
  nt_state : Z;
  nt_icon : ICON_INFO;
  nt_cachedIcon : CACHED_ICON_INFO;
}.

Record MONITORED_DESKTOP_ORDER : Type := mkDesktop {
  activeWindowId : Z;
  numWindowIds : Z;
  windowIds : list Z;
}.

(** ** Readers *)

Definition rail_read_unicode_string : M STREAM UNICODE_STRING :=
  let! length := stream_read_uint16 in stream_read length.

Definition freerdp_read_rectangle_16 : M STREAM RECTANGLE_16 :=
  let! l := stream_read_uint16 in
  let! t := stream_read_uint16 in
  let! r := stream_read_uint16 in
  let! b := stream_read_uint16 in
  ret (mkRect16 l t r b).

Fixpoint read_many {A} (c : M STREAM A) (n : nat) : M STREAM (list A) :=
  match n with
  | O => ret []
  | S n' => let! a := c in let! l := read_many c n' in ret (a :: l)
  end.

Definition update_read_icon_info : M STREAM ICON_INFO :=
  let! entry := stream_read_uint16 in
  let! id := stream_read_uint8 in
  let! bpp := stream_read_uint8 in
  let! w := stream_read_uint16 in
  let! h := stream_read_uint16 in
  let! cbColorTable := (if (bpp =? 1) || (bpp =? 2) || (bpp =? 4) then stream_read_uint16 else ret 0) in
  let! cbBitsMask := stream_read_uint16 in
  let! cbBitsColor := stream_read_uint16 in
  let! mask := stream_read cbBitsMask in
  let! table := stream_read cbColorTable in
  let! bits := stream_read cbBitsColor in
  ret (mkIcon entry id bpp w h mask table bits).

Definition update_read_cached_icon_info : M STREAM CACHED_ICON_INFO :=
  let! entry := stream_read_uint16 in
  let! id := stream_read_uint8 in
  ret (mkCachedIcon entry id).

Definition update_read_notify_icon_infotip : M STREAM NOTIFY_ICON_INFOTIP :=
  let! timeout := stream_read_uint32 in
  let! flags := stream_read_uint32 in
  let! text := rail_read_unicode_string in
  let! title := rail_read_unicode_string in
  ret (mkInfoTip timeout flags text title).

(** Two values under one flag. *)
Definition two : M STREAM (Z * Z) :=
  let! x := stream_read_uint32 in let! y := stream_read_uint32 in ret (x, y).

Definition rects : M STREAM (Z * list RECTANGLE_16) :=
  let! n := stream_read_uint16 in let! l := read_many freerdp_read_rectangle_16 (Z.to_nat n) in ret (n, l).

Definition update_read_window_state_order (flags : Z) (d : WINDOW_STATE_ORDER) : M STREAM WINDOW_STATE_ORDER :=
  let! d := field (flag flags WINDOW_ORDER_FIELD_OWNER) stream_read_uint32 (fun v => d <| ownerWindowId := v |>) d in
  let! d := field (flag flags WINDOW_ORDER_FIELD_STYLE) two (fun v => d <| ws_style := v.1 |> <| extendedStyle := v.2 |>) d in
  let! d := field (flag flags WINDOW_ORDER_FIELD_SHOW) stream_read_uint8 (fun v => d <| showState := v |>) d in
  let! d := field (flag flags WINDOW_ORDER_FIELD_TITLE) rail_read_unicode_string (fun v => d <| titleInfo := v |>) d in
  let! d := field (flag flags WINDOW_ORDER_FIELD_CLIENT_AREA_OFFSET) two (fun v => d <| clientOffsetX := v.1 |> <| clientOffsetY := v.2 |>) d in
  let! d := field (flag flags WINDOW_ORDER_FIELD_CLIENT_AREA_SIZE) two (fun v => d <| clientAreaWidth := v.1 |> <| clientAreaHeight := v.2 |>) d in
  let! d := field (flag flags WINDOW_ORDER_FIELD_RP_CONTENT) stream_read_uint8 (fun v => d <| RPContent := v |>) d in
  let! d := field (flag flags WINDOW_ORDER_FIELD_ROOT_PARENT) stream_read_uint32 (fun v => d <| rootParentHandle := v |>) d in
  let! d := field (flag flags WINDOW_ORDER_FIELD_WND_OFFSET) two (fun v => d <| windowOffsetX := v.1 |> <| windowOffsetY := v.2 |>) d in
  let! d := field (flag flags WINDOW_ORDER_FIELD_WND_CLIENT_DELTA) two (fun v => d <| windowClientDeltaX := v.1 |> <| windowClientDeltaY := v.2 |>) d in
  let! d := field (flag flags WINDOW_ORDER_FIELD_WND_SIZE) two (fun v => d <| windowWidth := v.1 |> <| windowHeight := v.2 |>) d in
  let! d := field (flag flags WINDOW_ORDER_FIELD_WND_RECTS) rects (fun v => d <| numWindowRects := v.1 |> <| windowRects := v.2 |>) d in
  let! d := field (flag flags WINDOW_ORDER_FIELD_VIS_OFFSET) two (fun v => d <| visibleOffsetX := v.1 |> <| visibleOffsetY := v.2 |>) d in
  let! d := field (flag flags WINDOW_ORDER_FIELD_VISIBILITY) rects (fun v => d <| numVisibilityRects := v.1 |> <| visibilityRects := v.2 |>) d in
  ret d.

Definition update_read_notification_icon_state_order (flags : Z) (d : NOTIFY_ICON_STATE_ORDER) : M STREAM NOTIFY_ICON_STATE_ORDER :=
  let! d := field (flag flags WINDOW_ORDER_FIELD_NOTIFY_VERSION) stream_read_uint32 (fun v => d <| nt_version := v |>) d in
  let! d := field (flag flags WINDOW_ORDER_FIELD_NOTIFY_TIP) rail_read_unicode_string (fun v => d <| toolTip := v |>) d in
  let! d := field (flag flags WINDOW_ORDER_FIELD_NOTIFY_INFO_TIP) update_read_notify_icon_infotip (fun v => d <| infoTip := v |>) d in
  let! d := field (flag flags WINDOW_ORDER_FIELD_NOTIFY_STATE) stream_read_uint32 (fun v => d <| nt_state := v |>) d in
  let! d := field (flag flags WINDOW_ORDER_ICON) update_read_icon_info (fun v => d <| nt_icon := v |>) d in
  let! d := field (flag flags WINDOW_ORDER_CACHED_ICON) update_read_cached_icon_info (fun v => d <| nt_cachedIcon := v |>) d in
  ret d.

Definition update_read_desktop_actively_monitored_order (flags : Z) (d : MONITORED_DESKTOP_ORDER) : M STREAM MONITORED_DESKTOP_ORDER :=
  let! d := field (flag flags WINDOW_ORDER_FIELD_DESKTOP_ACTIVE_WND) stream_read_uint32 (fun v => d <| activeWindowId := v |>) d in
  when_read (flag flags WINDOW_ORDER_FIELD_DESKTOP_ZORDER)
    (let! n := stream_read_uint8 in
     let! ids := read_many stream_read_uint32 (Z.to_nat n) in
     ret (d <| numWindowIds := n |> <| windowIds := ids |>)) d.

(** ** The orders *)

Record rdpWindowUpdate : Type := mkWindowUpdate {
  w_orderInfo : WINDOW_ORDER_INFO;
  window_state : WINDOW_STATE_ORDER;
  window_icon : ICON_INFO;
  window_cached_icon : CACHED_ICON_INFO;
  notify_icon_state : NOTIFY_ICON_STATE_ORDER;
  monitored_desktop : MONITORED_DESKTOP_ORDER;
}.

(** The callbacks of [rdpWindowUpdate], on the state [Ctx] of the client; each may
    change the structures it is given a pointer to. An unset callback keeps both. *)
Class WindowCalls (Ctx : Type) : Type := {
  WindowCreate : WINDOW_ORDER_INFO -> WINDOW_STATE_ORDER -> Ctx -> Ctx * WINDOW_STATE_ORDER;
  WindowUpdate : WINDOW_ORDER_INFO -> WINDOW_STATE_ORDER -> Ctx -> Ctx * WINDOW_STATE_ORDER;
  WindowIcon : WINDOW_ORDER_INFO -> ICON_INFO -> Ctx -> Ctx * ICON_INFO;
  WindowCachedIcon : WINDOW_ORDER_INFO -> CACHED_ICON_INFO -> Ctx -> Ctx * CACHED_ICON_INFO;
  WindowDelete : WINDOW_ORDER_INFO -> Ctx -> Ctx;
  NotifyIconCreate : WINDOW_ORDER_INFO -> NOTIFY_ICON_STATE_ORDER -> Ctx -> Ctx * NOTIFY_ICON_STATE_ORDER;
  NotifyIconUpdate : WINDOW_ORDER_INFO -> NOTIFY_ICON_STATE_ORDER -> Ctx -> Ctx * NOTIFY_ICON_STATE_ORDER;
  NotifyIconDelete : WINDOW_ORDER_INFO -> Ctx -> Ctx;
  MonitoredDesktop : WINDOW_ORDER_INFO -> MONITORED_DESKTOP_ORDER -> Ctx -> Ctx * MONITORED_DESKTOP_ORDER;
  NonMonitoredDesktop : WINDOW_ORDER_INFO -> Ctx -> Ctx;
}.

Section Recv.
Context {Ctx : Type} {WC : WindowCalls Ctx}.

Definition update_recv_window_info_order (w : rdpWindowUpdate) (c : Ctx) : M STREAM (rdpWindowUpdate * Ctx) :=
  let! id := stream_read_uint32 in
  let o := (w_orderInfo w) <| windowId := id |> in
  let w := w <| w_orderInfo := o |> in
  let flags := w_fieldFlags o in
  if flag flags WINDOW_ORDER_ICON then
    let! d := update_read_icon_info in
    let (c, d) := WindowIcon o d c in
    ret (w <| window_icon := d |>, c)
  else if flag flags WINDOW_ORDER_CACHED_ICON then
    let! d := update_read_cached_icon_info in
    let (c, d) := WindowCachedIcon o d c in
    ret (w <| window_cached_icon := d |>, c)
  else if flag flags WINDOW_ORDER_STATE_DELETED then ret (w, WindowDelete o c)
  else
    let! d := update_read_window_state_order flags (window_state w) in
    let (c, d) := (if flag flags WINDOW_ORDER_STATE_NEW then WindowCreate o d c else WindowUpdate o d c) in
    ret (w <| window_state := d |>, c).

Definition update_recv_notification_icon_info_order (w : rdpWindowUpdate) (c : Ctx) : M STREAM (rdpWindowUpdate * Ctx) :=
  let! id := stream_read_uint32 in
  let! icon := stream_read_uint32 in
  let o := (w_orderInfo w) <| windowId := id |> <| notifyIconId := icon |> in
  let w := w <| w_orderInfo := o |> in
  let flags := w_fieldFlags o in
  if flag flags WINDOW_ORDER_STATE_DELETED then ret (w, NotifyIconDelete o c)
  else
    let! d := update_read_notification_icon_state_order flags (notify_icon_state w) in
    let (c, d) := (if flag flags WINDOW_ORDER_STATE_NEW then NotifyIconCreate o d c else NotifyIconUpdate o d c) in
    ret (w <| notify_icon_state := d |>, c).

Definition update_recv_desktop_info_order (w : rdpWindowUpdate) (c : Ctx) : M STREAM (rdpWindowUpdate * Ctx) :=
  let o := w_orderInfo w in
  let flags := w_fieldFlags o in
  if flag flags WINDOW_ORDER_FIELD_DESKTOP_NONE then ret (w, NonMonitoredDesktop o c)
  else
    let! d := update_read_desktop_actively_monitored_order flags (monitored_desktop w) in
    let (c, d) := MonitoredDesktop o d c in
    ret (w <| monitored_desktop := d |>, c).

(** The size in front of the order is read and not used. *)
Definition update_recv_altsec_window_order (w : rdpWindowUpdate) (c : Ctx) : M STREAM (rdpWindowUpdate * Ctx) :=
  let! _ := stream_read_uint16 in
  let! flags := stream_read_uint32 in
  let w := w <| w_orderInfo := (w_orderInfo w) <| w_fieldFlags := flags |> |> in
  if flag flags WINDOW_ORDER_TYPE_WINDOW then update_recv_window_info_order w c
  else if flag flags WINDOW_ORDER_TYPE_NOTIFY then update_recv_notification_icon_info_order w c
  else if flag flags WINDOW_ORDER_TYPE_DESKTOP then update_recv_desktop_info_order w c
  else ret (w, c).

End Recv.
