(* ===== verification/OrderRecv.v ===== *)
(** Receiving drawing orders, the second half of [libfreerdp-core/orders.c]: the
    header of an order (control flags, field flags, bounds), the choice of the
    reader and of the callback that draws, for primary, secondary and alternate
    secondary orders.

    The drawing module is a class of callbacks over its own state: the functions
    that the sources register in [rdpPrimaryUpdate], [rdpSecondaryUpdate] and
    [rdpAltSecUpdate]. A callback is given a pointer to the order and may change it. *)

From coqutil Require Import Datatypes.RecordSetters.
From S2P Require Import Prelude.
From S2P Require Import Stream.
From S2P Require Import Gcc.
From S2P Require Import Fastpath.
From S2P Require Import Orders.
From S2P Require Import OrderCache.
From S2P Require Import Windows.
Import TriangleBracketNotations.

(** ** State *)

Record rdpPrimaryUpdate : Type := mkPrimary {
  order_info : ORDER_INFO;
  dstblt : DstBlt.DSTBLT_ORDER;
  patblt : PatBlt.PATBLT_ORDER;
  scrblt : ScrBlt.SCRBLT_ORDER;
  opaque_rect : OpaqueRect.OPAQUE_RECT_ORDER;
  draw_nine_grid : DrawNineGrid.DRAW_NINE_GRID_ORDER;
  multi_dstblt : MultiDstBlt.MULTI_DSTBLT_ORDER;
  multi_patblt : MultiPatBlt.MULTI_PATBLT_ORDER;
  multi_scrblt : MultiScrBlt.MULTI_SCRBLT_ORDER;
  multi_opaque_rect : MultiOpaqueRect.MULTI_OPAQUE_RECT_ORDER;
  multi_draw_nine_grid : MultiDrawNineGrid.MULTI_DRAW_NINE_GRID_ORDER;
  line_to : LineTo.LINE_TO_ORDER;
  polyline : Polyline.POLYLINE_ORDER;
  memblt : MemBlt.MEMBLT_ORDER;
  mem3blt : Mem3Blt.MEM3BLT_ORDER;
  save_bitmap : SaveBitmap.SAVE_BITMAP_ORDER;
  glyph_index : GlyphIndex.GLYPH_INDEX_ORDER;
  fast_index : FastIndex.FAST_INDEX_ORDER;
  fast_glyph : FastGlyph.FAST_GLYPH_ORDER;
  polygon_sc : PolygonSC.POLYGON_SC_ORDER;
  polygon_cb : PolygonCB.POLYGON_CB_ORDER;
  ellipse_sc : EllipseSC.ELLIPSE_SC_ORDER;
  ellipse_cb : EllipseCB.ELLIPSE_CB_ORDER;
}.

Record rdpSecondaryUpdate : Type := mkSecondary {
  glyph_v2 : bool;
  cache_bitmap_order : CacheBitmap.CACHE_BITMAP_ORDER;
  cache_bitmap_v2_order : CacheBitmapV2.CACHE_BITMAP_V2_ORDER;
  cache_bitmap_v3_order : CacheBitmapV3.CACHE_BITMAP_V3_ORDER;
  cache_color_table_order : CacheColorTable.CACHE_COLOR_TABLE_ORDER;
  cache_glyph_order : CacheGlyph.CACHE_GLYPH_ORDER;
  cache_glyph_v2_order : CacheGlyphV2.CACHE_GLYPH_V2_ORDER;
  cache_brush_order : CacheBrush.CACHE_BRUSH_ORDER;
}.

Record rdpAltSecUpdate : Type := mkAltSec {
  create_offscreen_bitmap : Altsec.CREATE_OFFSCREEN_BITMAP_ORDER;
  switch_surface : Altsec.SWITCH_SURFACE_ORDER;
  create_nine_grid_bitmap : Altsec.CREATE_NINE_GRID_BITMAP_ORDER;
  frame_marker : Altsec.FRAME_MARKER_ORDER;
  stream_bitmap_first : Altsec.STREAM_BITMAP_FIRST_ORDER;
  stream_bitmap_next : Altsec.STREAM_BITMAP_FIRST_ORDER;
  draw_gdiplus_cache_first : Altsec.DRAW_GDIPLUS_CACHE_FIRST_ORDER;
  draw_gdiplus_cache_next : Altsec.DRAW_GDIPLUS_CACHE_NEXT_ORDER;
  draw_gdiplus_cache_end : Altsec.DRAW_GDIPLUS_CACHE_END_ORDER;
  draw_gdiplus_first : Altsec.DRAW_GDIPLUS_FIRST_ORDER;
  draw_gdiplus_next : Altsec.DRAW_GDIPLUS_NEXT_ORDER;
  draw_gdiplus_end : Altsec.DRAW_GDIPLUS_END_ORDER;
}.

(** ** Callbacks *)

Class PrimaryCalls (Ctx : Type) : Type := {
  SetBounds : option rdpBounds -> Ctx -> Ctx;
  call_dstblt : DstBlt.DSTBLT_ORDER -> Ctx -> Ctx * DstBlt.DSTBLT_ORDER;
  call_patblt : PatBlt.PATBLT_ORDER -> Ctx -> Ctx * PatBlt.PATBLT_ORDER;
  call_scrblt : ScrBlt.SCRBLT_ORDER -> Ctx -> Ctx * ScrBlt.SCRBLT_ORDER;
  call_opaque_rect : OpaqueRect.OPAQUE_RECT_ORDER -> Ctx -> Ctx * OpaqueRect.OPAQUE_RECT_ORDER;
  call_draw_nine_grid : DrawNineGrid.DRAW_NINE_GRID_ORDER -> Ctx -> Ctx * DrawNineGrid.DRAW_NINE_GRID_ORDER;
  call_multi_dstblt : MultiDstBlt.MULTI_DSTBLT_ORDER -> Ctx -> Ctx * MultiDstBlt.MULTI_DSTBLT_ORDER;
  call_multi_patblt : MultiPatBlt.MULTI_PATBLT_ORDER -> Ctx -> Ctx * MultiPatBlt.MULTI_PATBLT_ORDER;
  call_multi_scrblt : MultiScrBlt.MULTI_SCRBLT_ORDER -> Ctx -> Ctx * MultiScrBlt.MULTI_SCRBLT_ORDER;
  call_multi_opaque_rect : MultiOpaqueRect.MULTI_OPAQUE_RECT_ORDER -> Ctx -> Ctx * MultiOpaqueRect.MULTI_OPAQUE_RECT_ORDER;
  call_multi_draw_nine_grid : MultiDrawNineGrid.MULTI_DRAW_NINE_GRID_ORDER -> Ctx -> Ctx * MultiDrawNineGrid.MULTI_DRAW_NINE_GRID_ORDER;
  call_line_to : LineTo.LINE_TO_ORDER -> Ctx -> Ctx * LineTo.LINE_TO_ORDER;
  call_polyline : Polyline.POLYLINE_ORDER -> Ctx -> Ctx * Polyline.POLYLINE_ORDER;
  call_memblt : MemBlt.MEMBLT_ORDER -> Ctx -> Ctx * MemBlt.MEMBLT_ORDER;
  call_mem3blt : Mem3Blt.MEM3BLT_ORDER -> Ctx -> Ctx * Mem3Blt.MEM3BLT_ORDER;
  call_save_bitmap : SaveBitmap.SAVE_BITMAP_ORDER -> Ctx -> Ctx * SaveBitmap.SAVE_BITMAP_ORDER;
  call_glyph_index : GlyphIndex.GLYPH_INDEX_ORDER -> Ctx -> Ctx * GlyphIndex.GLYPH_INDEX_ORDER;
  call_fast_index : FastIndex.FAST_INDEX_ORDER -> Ctx -> Ctx * FastIndex.FAST_INDEX_ORDER;
  call_fast_glyph : FastGlyph.FAST_GLYPH_ORDER -> Ctx -> Ctx * FastGlyph.FAST_GLYPH_ORDER;
  call_polygon_sc : PolygonSC.POLYGON_SC_ORDER -> Ctx -> Ctx * PolygonSC.POLYGON_SC_ORDER;
  call_polygon_cb : PolygonCB.POLYGON_CB_ORDER -> Ctx -> Ctx * PolygonCB.POLYGON_CB_ORDER;
  call_ellipse_sc : EllipseSC.ELLIPSE_SC_ORDER -> Ctx -> Ctx * EllipseSC.ELLIPSE_SC_ORDER;
  call_ellipse_cb : EllipseCB.ELLIPSE_CB_ORDER -> Ctx -> Ctx * EllipseCB.ELLIPSE_CB_ORDER;
}.

(** A callback that is given a pointer into the packet also has the packet. *)
Class SecondaryCalls (Ctx : Type) : Type := {
  call_cache_bitmap : list Z -> CacheBitmap.CACHE_BITMAP_ORDER -> Ctx -> Ctx * CacheBitmap.CACHE_BITMAP_ORDER;
  call_cache_bitmap_v2 : list Z -> CacheBitmapV2.CACHE_BITMAP_V2_ORDER -> Ctx -> Ctx * CacheBitmapV2.CACHE_BITMAP_V2_ORDER;
  call_cache_bitmap_v3 : CacheBitmapV3.CACHE_BITMAP_V3_ORDER -> Ctx -> Ctx * CacheBitmapV3.CACHE_BITMAP_V3_ORDER;
  call_cache_color_table : CacheColorTable.CACHE_COLOR_TABLE_ORDER -> Ctx -> Ctx * CacheColorTable.CACHE_COLOR_TABLE_ORDER;
  call_cache_glyph : CacheGlyph.CACHE_GLYPH_ORDER -> Ctx -> Ctx * CacheGlyph.CACHE_GLYPH_ORDER;
  call_cache_glyph_v2 : CacheGlyphV2.CACHE_GLYPH_V2_ORDER -> Ctx -> Ctx * CacheGlyphV2.CACHE_GLYPH_V2_ORDER;
  call_cache_brush : CacheBrush.CACHE_BRUSH_ORDER -> Ctx -> Ctx * CacheBrush.CACHE_BRUSH_ORDER;
}.

Class AltSecCalls (Ctx : Type) : Type := {
  call_create_offscreen_bitmap : Altsec.CREATE_OFFSCREEN_BITMAP_ORDER -> Ctx -> Ctx * Altsec.CREATE_OFFSCREEN_BITMAP_ORDER;
  call_switch_surface : Altsec.SWITCH_SURFACE_ORDER -> Ctx -> Ctx * Altsec.SWITCH_SURFACE_ORDER;
  call_create_nine_grid_bitmap : Altsec.CREATE_NINE_GRID_BITMAP_ORDER -> Ctx -> Ctx * Altsec.CREATE_NINE_GRID_BITMAP_ORDER;
  call_frame_marker : Altsec.FRAME_MARKER_ORDER -> Ctx -> Ctx * Altsec.FRAME_MARKER_ORDER;
  call_stream_bitmap_first : Altsec.STREAM_BITMAP_FIRST_ORDER -> Ctx -> Ctx * Altsec.STREAM_BITMAP_FIRST_ORDER;
  call_stream_bitmap_next : Altsec.STREAM_BITMAP_FIRST_ORDER -> Ctx -> Ctx * Altsec.STREAM_BITMAP_FIRST_ORDER;
  call_draw_gdiplus_first : Altsec.DRAW_GDIPLUS_FIRST_ORDER -> Ctx -> Ctx * Altsec.DRAW_GDIPLUS_FIRST_ORDER;
  call_draw_gdiplus_next : Altsec.DRAW_GDIPLUS_NEXT_ORDER -> Ctx -> Ctx * Altsec.DRAW_GDIPLUS_NEXT_ORDER;
  call_draw_gdiplus_end : Altsec.DRAW_GDIPLUS_END_ORDER -> Ctx -> Ctx * Altsec.DRAW_GDIPLUS_END_ORDER;
  call_draw_gdiplus_cache_first : Altsec.DRAW_GDIPLUS_CACHE_FIRST_ORDER -> Ctx -> Ctx * Altsec.DRAW_GDIPLUS_CACHE_FIRST_ORDER;
  call_draw_gdiplus_cache_next : Altsec.DRAW_GDIPLUS_CACHE_NEXT_ORDER -> Ctx -> Ctx * Altsec.DRAW_GDIPLUS_CACHE_NEXT_ORDER;
  call_draw_gdiplus_cache_end : Altsec.DRAW_GDIPLUS_CACHE_END_ORDER -> Ctx -> Ctx * Altsec.DRAW_GDIPLUS_CACHE_END_ORDER;
}.

(** ** Headers *)

(** The bytes of the field flags, the first at bit [i]. *)
Fixpoint field_flags_loop (n : nat) (i fieldFlags : Z) : M STREAM Z :=
  match n with
  | O => ret fieldFlags
  | S n' =>
      let! byte := stream_read_uint8 in
      if (4 <=? i) || (INT_MAX <? Z.shiftl byte (i * 8)) then fail SignedOverflow
      else field_flags_loop n' (i + 1) (Z.lor fieldFlags (Z.shiftl byte (i * 8)))
  end.

(** [fieldBytes] is an [uint8]. *)
Definition update_read_field_flags (flags fieldBytes : Z) : M STREAM Z :=
  let fieldBytes := if flag flags ORDER_ZERO_FIELD_BYTE_BIT0 then uint8 (fieldBytes - 1) else fieldBytes in
  let fieldBytes := if flag flags ORDER_ZERO_FIELD_BYTE_BIT1
                    then if 1 <? fieldBytes then fieldBytes - 2 else 0 else fieldBytes in
  field_flags_loop (Z.to_nat fieldBytes) 0 0.

Definition read_bound (flags absolute delta old : Z) : M STREAM Z :=
  if flag flags absolute then update_read_coord old false
  else if flag flags delta then update_read_coord old true
  else ret old.

Definition update_read_bounds (b : rdpBounds) : M STREAM rdpBounds :=
  let! flags := stream_read_uint8 in
  let! l := read_bound flags BOUND_LEFT BOUND_DELTA_LEFT (b_left b) in
  let! t := read_bound flags BOUND_TOP BOUND_DELTA_TOP (b_top b) in
  let! r := read_bound flags BOUND_RIGHT BOUND_DELTA_RIGHT (b_right b) in
  let! m := read_bound flags BOUND_BOTTOM BOUND_DELTA_BOTTOM (b_bottom b) in
  ret (mkBounds l t r m).

(** ** Orders *)

Section Recv.
Context {Ctx : Type} {PC : PrimaryCalls Ctx} {SC : SecondaryCalls Ctx} {AC : AltSecCalls Ctx} {WC : WindowCalls Ctx}.

(** Read an order, draw it, and keep what the callback leaves. *)
Definition drawn {D S} (c : M STREAM D) (call : D -> Ctx -> Ctx * D) (keep : D -> S) (x : Ctx) : M STREAM (S * Ctx) :=
  let! d := c in
  let (x, d) := call d x in
  ret (keep d, x).

Definition recv_primary_body (p : rdpPrimaryUpdate) (x : Ctx) : M STREAM (rdpPrimaryUpdate * Ctx) :=
  let o := order_info p in
  let type := orderType o in
  if type =? ORDER_TYPE_DSTBLT then
    drawn (DstBlt.update_read_dstblt_order o (dstblt p)) call_dstblt (fun d => p <| dstblt := d |>) x
  else if type =? ORDER_TYPE_PATBLT then
    drawn (PatBlt.update_read_patblt_order o (patblt p)) call_patblt (fun d => p <| patblt := d |>) x
  else if type =? ORDER_TYPE_SCRBLT then
    drawn (ScrBlt.update_read_scrblt_order o (scrblt p)) call_scrblt (fun d => p <| scrblt := d |>) x
  else if type =? ORDER_TYPE_OPAQUE_RECT then
    drawn (OpaqueRect.update_read_opaque_rect_order o (opaque_rect p)) call_opaque_rect (fun d => p <| opaque_rect := d |>) x
  else if type =? ORDER_TYPE_DRAW_NINE_GRID then
    drawn (DrawNineGrid.update_read_draw_nine_grid_order o (draw_nine_grid p)) call_draw_nine_grid (fun d => p <| draw_nine_grid := d |>) x
  else if type =? ORDER_TYPE_MULTI_DSTBLT then
    drawn (MultiDstBlt.update_read_multi_dstblt_order o (multi_dstblt p)) call_multi_dstblt (fun d => p <| multi_dstblt := d |>) x
  else if type =? ORDER_TYPE_MULTI_PATBLT then
    drawn (MultiPatBlt.update_read_multi_patblt_order o (multi_patblt p)) call_multi_patblt (fun d => p <| multi_patblt := d |>) x
  else if type =? ORDER_TYPE_MULTI_SCRBLT then
    drawn (MultiScrBlt.update_read_multi_scrblt_order o (multi_scrblt p)) call_multi_scrblt (fun d => p <| multi_scrblt := d |>) x
  else if type =? ORDER_TYPE_MULTI_OPAQUE_RECT then
    drawn (MultiOpaqueRect.update_read_multi_opaque_rect_order o (multi_opaque_rect p)) call_multi_opaque_rect (fun d => p <| multi_opaque_rect := d |>) x
  else if type =? ORDER_TYPE_MULTI_DRAW_NINE_GRID then
    drawn (MultiDrawNineGrid.update_read_multi_draw_nine_grid_order o (multi_draw_nine_grid p)) call_multi_draw_nine_grid (fun d => p <| multi_draw_nine_grid := d |>) x
  else if type =? ORDER_TYPE_LINE_TO then
    drawn (LineTo.update_read_line_to_order o (line_to p)) call_line_to (fun d => p <| line_to := d |>) x
  else if type =? ORDER_TYPE_POLYLINE then
    drawn (Polyline.update_read_polyline_order o (polyline p)) call_polyline (fun d => p <| polyline := d |>) x
  else if type =? ORDER_TYPE_MEMBLT then
    drawn (MemBlt.update_read_memblt_order o (memblt p)) call_memblt (fun d => p <| memblt := d |>) x
  else if type =? ORDER_TYPE_MEM3BLT then
    drawn (Mem3Blt.update_read_mem3blt_order o (mem3blt p)) call_mem3blt (fun d => p <| mem3blt := d |>) x
  else if type =? ORDER_TYPE_SAVE_BITMAP then
    drawn (SaveBitmap.update_read_save_bitmap_order o (save_bitmap p)) call_save_bitmap (fun d => p <| save_bitmap := d |>) x
  else if type =? ORDER_TYPE_GLYPH_INDEX then
    drawn (GlyphIndex.update_read_glyph_index_order o (glyph_index p)) call_glyph_index (fun d => p <| glyph_index := d |>) x
  else if type =? ORDER_TYPE_FAST_INDEX then
    drawn (FastIndex.update_read_fast_index_order o (fast_index p)) call_fast_index (fun d => p <| fast_index := d |>) x
  else if type =? ORDER_TYPE_FAST_GLYPH then
    drawn (FastGlyph.update_read_fast_glyph_order o (fast_glyph p)) call_fast_glyph (fun d => p <| fast_glyph := d |>) x
  else if type =? ORDER_TYPE_POLYGON_SC then
    drawn (PolygonSC.update_read_polygon_sc_order o (polygon_sc p)) call_polygon_sc (fun d => p <| polygon_sc := d |>) x
  else if type =? ORDER_TYPE_POLYGON_CB then
    drawn (PolygonCB.update_read_polygon_cb_order o (polygon_cb p)) call_polygon_cb (fun d => p <| polygon_cb := d |>) x
  else if type =? ORDER_TYPE_ELLIPSE_SC then
    drawn (EllipseSC.update_read_ellipse_sc_order o (ellipse_sc p)) call_ellipse_sc (fun d => p <| ellipse_sc := d |>) x
  else if type =? ORDER_TYPE_ELLIPSE_CB then
    drawn (EllipseCB.update_read_ellipse_cb_order o (ellipse_cb p)) call_ellipse_cb (fun d => p <| ellipse_cb := d |>) x
  else ret (p, x).

(** The header of a primary order. *)
Definition recv_primary_info (flags : Z) (o : ORDER_INFO) : M STREAM ORDER_INFO :=
  let! type := (if flag flags ORDER_TYPE_CHANGE then stream_read_uint8 else ret (orderType o)) in
  let! fieldBytes := elem PRIMARY_DRAWING_ORDER_FIELD_BYTES type in
  let! fields := update_read_field_flags flags fieldBytes in
  let! b := (if flag flags ORDER_BOUNDS && negb (flag flags ORDER_ZERO_BOUNDS_DELTAS)
             then update_read_bounds (bounds o) else ret (bounds o)) in
  ret (mkOrderInfo type fields b (flag flags ORDER_DELTA_COORDINATES)).

Definition update_recv_primary_order (flags : Z) (p : rdpPrimaryUpdate) (x : Ctx) : M STREAM (rdpPrimaryUpdate * Ctx) :=
  let! o := recv_primary_info flags (order_info p) in
  let bounded := flag flags ORDER_BOUNDS in
  let x := if bounded then SetBounds (Some (bounds o)) x else x in
  let! (p, x) := recv_primary_body (p <| order_info := o |>) x in
  ret (p, if bounded then SetBounds None x else x).

(** The packet the order is in. *)
Definition packet : M STREAM (list Z) := fun s => Done (s_data s, s).

Definition recv_secondary_body (type extraFlags : Z) (p : rdpSecondaryUpdate) (x : Ctx) : M STREAM (rdpSecondaryUpdate * Ctx) :=
  let! bytes := packet in
  if type =? ORDER_TYPE_BITMAP_UNCOMPRESSED then
    drawn (CacheBitmap.update_read_cache_bitmap_order false extraFlags (cache_bitmap_order p)) (call_cache_bitmap bytes) (fun d => p <| cache_bitmap_order := d |>) x
  else if type =? ORDER_TYPE_CACHE_BITMAP_COMPRESSED then
    drawn (CacheBitmap.update_read_cache_bitmap_order true extraFlags (cache_bitmap_order p)) (call_cache_bitmap bytes) (fun d => p <| cache_bitmap_order := d |>) x
  else if type =? ORDER_TYPE_BITMAP_UNCOMPRESSED_V2 then
    drawn (CacheBitmapV2.update_read_cache_bitmap_v2_order false extraFlags (cache_bitmap_v2_order p)) (call_cache_bitmap_v2 bytes) (fun d => p <| cache_bitmap_v2_order := d |>) x
  else if type =? ORDER_TYPE_BITMAP_COMPRESSED_V2 then
    drawn (CacheBitmapV2.update_read_cache_bitmap_v2_order true extraFlags (cache_bitmap_v2_order p)) (call_cache_bitmap_v2 bytes) (fun d => p <| cache_bitmap_v2_order := d |>) x
  else if type =? ORDER_TYPE_BITMAP_COMPRESSED_V3 then
    drawn (CacheBitmapV3.update_read_cache_bitmap_v3_order extraFlags) call_cache_bitmap_v3 (fun d => p <| cache_bitmap_v3_order := d |>) x
  else if type =? ORDER_TYPE_CACHE_COLOR_TABLE then
    drawn CacheColorTable.update_read_cache_color_table_order call_cache_color_table (fun d => p <| cache_color_table_order := d |>) x
  else if type =? ORDER_TYPE_CACHE_GLYPH then
    if glyph_v2 p then
      drawn (CacheGlyphV2.update_read_cache_glyph_v2_order extraFlags (cache_glyph_v2_order p)) call_cache_glyph_v2 (fun d => p <| cache_glyph_v2_order := d |>) x
    else
      drawn (CacheGlyph.update_read_cache_glyph_order extraFlags (cache_glyph_order p)) call_cache_glyph (fun d => p <| cache_glyph_order := d |>) x
  else if type =? ORDER_TYPE_CACHE_BRUSH then
    drawn (CacheBrush.update_read_cache_brush_order (cache_brush_order p)) call_cache_brush (fun d => p <| cache_brush_order := d |>) x
  else ret (p, x).

(** Whatever the reader takes, the next order starts behind the length. *)
Definition update_recv_secondary_order (p : rdpSecondaryUpdate) (x : Ctx) : M STREAM (rdpSecondaryUpdate * Ctx) :=
  let! orderLength := stream_read_uint16 in
  let! extraFlags := stream_read_uint16 in
  let! type := stream_read_uint8 in
  let! here := get_pos in
  let next := here + sint16 orderLength + 7 in
  let! (p, x) := recv_secondary_body type extraFlags p x in
  stream_set_pos next;;
  ret (p, x).

Definition update_recv_altsec_order (flags : Z) (a : rdpAltSecUpdate) (w : rdpWindowUpdate) (x : Ctx) : M STREAM (rdpAltSecUpdate * rdpWindowUpdate * Ctx) :=
  let type := Z.shiftr flags 2 in
  let with_window {D} (c : M STREAM D) (call : D -> Ctx -> Ctx * D) (keep : D -> rdpAltSecUpdate) :=
    drawn c call (fun d => (keep d, w)) x in
  if type =? ORDER_TYPE_CREATE_OFFSCREEN_BITMAP then with_window (Altsec.update_read_create_offscreen_bitmap_order (create_offscreen_bitmap a)) call_create_offscreen_bitmap (fun d => a <| create_offscreen_bitmap := d |>)
  else if type =? ORDER_TYPE_SWITCH_SURFACE then with_window Altsec.update_read_switch_surface_order call_switch_surface (fun d => a <| switch_surface := d |>)
  else if type =? ORDER_TYPE_CREATE_NINE_GRID_BITMAP then with_window (Altsec.update_read_create_nine_grid_bitmap_order (create_nine_grid_bitmap a)) call_create_nine_grid_bitmap (fun d => a <| create_nine_grid_bitmap := d |>)
  else if type =? ORDER_TYPE_FRAME_MARKER then with_window Altsec.update_read_frame_marker_order call_frame_marker (fun d => a <| frame_marker := d |>)
  else if type =? ORDER_TYPE_STREAM_BITMAP_FIRST then with_window Altsec.update_read_stream_bitmap_first_order call_stream_bitmap_first (fun d => a <| stream_bitmap_first := d |>)
  else if type =? ORDER_TYPE_STREAM_BITMAP_NEXT then with_window (Altsec.update_read_stream_bitmap_next_order (stream_bitmap_next a)) call_stream_bitmap_next (fun d => a <| stream_bitmap_next := d |>)
  else if type =? ORDER_TYPE_GDIPLUS_FIRST then with_window Altsec.update_read_draw_gdiplus_first_order call_draw_gdiplus_first (fun d => a <| draw_gdiplus_first := d |>)
  else if type =? ORDER_TYPE_GDIPLUS_NEXT then with_window Altsec.update_read_draw_gdiplus_next_order call_draw_gdiplus_next (fun d => a <| draw_gdiplus_next := d |>)
  else if type =? ORDER_TYPE_GDIPLUS_END then with_window Altsec.update_read_draw_gdiplus_end_order call_draw_gdiplus_end (fun d => a <| draw_gdiplus_end := d |>)
  else if type =? ORDER_TYPE_GDIPLUS_CACHE_FIRST then with_window Altsec.update_read_draw_gdiplus_cache_first_order call_draw_gdiplus_cache_first (fun d => a <| draw_gdiplus_cache_first := d |>)
  else if type =? ORDER_TYPE_GDIPLUS_CACHE_NEXT then with_window Altsec.update_read_draw_gdiplus_cache_next_order call_draw_gdiplus_cache_next (fun d => a <| draw_gdiplus_cache_next := d |>)
  else if type =? ORDER_TYPE_GDIPLUS_CACHE_END then with_window Altsec.update_read_draw_gdiplus_cache_end_order call_draw_gdiplus_cache_end (fun d => a <| draw_gdiplus_cache_end := d |>)
  else if type =? ORDER_TYPE_WINDOW then
    let! (w, x) := update_recv_altsec_window_order w x in ret (a, w, x)
  else ret (a, w, x).

(** The parts of [rdpUpdate] the orders change. *)
Record rdpOrders : Type := mkOrders {
  primary : rdpPrimaryUpdate;
  secondary : rdpSecondaryUpdate;
  altsec : rdpAltSecUpdate;
  window : rdpWindowUpdate;
}.

Definition update_recv_order (u : rdpOrders) (x : Ctx) : M STREAM (rdpOrders * Ctx) :=
  let! controlFlags := stream_read_uint8 in
  if negb (flag controlFlags ORDER_STANDARD) then
    let! (a, w, x) := update_recv_altsec_order controlFlags (altsec u) (window u) x in
    ret (u <| altsec := a |> <| window := w |>, x)
  else if flag controlFlags ORDER_SECONDARY then
    let! (p, x) := update_recv_secondary_order (secondary u) x in
    ret (u <| secondary := p |>, x)
  else
    let! (p, x) := update_recv_primary_order controlFlags (primary u) x in
    ret (u <| primary := p |>, x).

(** [while (numberOrders > 0)] *)
Fixpoint recv_orders (n : nat) (u : rdpOrders) (x : Ctx) : M STREAM (rdpOrders * Ctx) :=
  match n with
  | O => ret (u, x)
  | S n' => let! (u, x) := update_recv_order u x in recv_orders n' u x
  end.

Definition update_recv_orders (u : rdpOrders) (x : Ctx) : M STREAM (rdpOrders * Ctx) :=
  stream_seek 2;;
  let! numberOrders := stream_read_uint16 in
  stream_seek 2;;
  recv_orders (Z.to_nat numberOrders) u x.

Definition fastpath_recv_orders (u : rdpOrders) (x : Ctx) : M STREAM (rdpOrders * Ctx) :=
  let! numberOrders := stream_read_uint16 in
  recv_orders (Z.to_nat numberOrders) u x.

End Recv.

(** ** The start *)

(** What [memset] leaves. *)
Definition zero_bounds : rdpBounds := mkBounds 0 0 0 0.
Definition zero_brush : rdpBrush := mkBrush 0 0 0 0 0 0 (replicate 8 0).
Definition zero_dstblt : DstBlt.DSTBLT_ORDER := DstBlt.mk 0 0 0 0 0.
Definition zero_patblt : PatBlt.PATBLT_ORDER := PatBlt.mk 0 0 0 0 0 0 0 zero_brush.
Definition zero_scrblt : ScrBlt.SCRBLT_ORDER := ScrBlt.mk 0 0 0 0 0 0 0.
Definition zero_opaque_rect : OpaqueRect.OPAQUE_RECT_ORDER := OpaqueRect.mk 0 0 0 0 0.
Definition zero_draw_nine_grid : DrawNineGrid.DRAW_NINE_GRID_ORDER := DrawNineGrid.mk 0 0 0 0 0.
Definition zero_multi_dstblt : MultiDstBlt.MULTI_DSTBLT_ORDER := MultiDstBlt.mk 0 0 0 0 0 0 0 (replicate 45 no_rect).
Definition zero_multi_patblt : MultiPatBlt.MULTI_PATBLT_ORDER := MultiPatBlt.mk 0 0 0 0 0 0 0 zero_brush 0 0 (replicate 45 no_rect).
Definition zero_multi_scrblt : MultiScrBlt.MULTI_SCRBLT_ORDER := MultiScrBlt.mk 0 0 0 0 0 0 0 0 0 (replicate 45 no_rect).
Definition zero_multi_opaque_rect : MultiOpaqueRect.MULTI_OPAQUE_RECT_ORDER := MultiOpaqueRect.mk 0 0 0 0 0 0 0 (replicate 45 no_rect).
Definition zero_multi_draw_nine_grid : MultiDrawNineGrid.MULTI_DRAW_NINE_GRID_ORDER := MultiDrawNineGrid.mk 0 0 0 0 0 0 0.
Definition zero_line_to : LineTo.LINE_TO_ORDER := LineTo.mk 0 0 0 0 0 0 0 0 0 0.
Definition zero_polyline : Polyline.POLYLINE_ORDER := Polyline.mk 0 0 0 0 0 0 [].
Definition zero_memblt : MemBlt.MEMBLT_ORDER := MemBlt.mk 0 0 0 0 0 0 0 0 0 0.
Definition zero_mem3blt : Mem3Blt.MEM3BLT_ORDER := Mem3Blt.mk 0 0 0 0 0 0 0 0 0 0 0 zero_brush 0.
Definition zero_save_bitmap : SaveBitmap.SAVE_BITMAP_ORDER := SaveBitmap.mk 0 0 0 0 0 0.
Definition zero_glyph_index : GlyphIndex.GLYPH_INDEX_ORDER := GlyphIndex.mk 0 0 0 0 0 0 0 0 0 0 0 0 0 0 zero_brush 0 0 0 (replicate 256 0).
Definition zero_fast_index : FastIndex.FAST_INDEX_ORDER := FastIndex.mk 0 0 0 0 0 0 0 0 0 0 0 0 0 false 0 0 0 (replicate 256 0).
Definition zero_fast_glyph : FastGlyph.FAST_GLYPH_ORDER := FastGlyph.mk 0 0 0 0 0 0 0 0 0 0 0 0 0 0 0 0 (replicate 256 0) None.
Definition zero_polygon_sc : PolygonSC.POLYGON_SC_ORDER := PolygonSC.mk 0 0 0 0 0 0 0.
Definition zero_polygon_cb : PolygonCB.POLYGON_CB_ORDER := PolygonCB.mk 0 0 0 0 0 0 zero_brush 0 0.
Definition zero_ellipse_sc : EllipseSC.ELLIPSE_SC_ORDER := EllipseSC.mk 0 0 0 0 0 0 0.
Definition zero_ellipse_cb : EllipseCB.ELLIPSE_CB_ORDER := EllipseCB.mk 0 0 0 0 0 0 0 0 zero_brush.

Definition zero_primary (type : Z) : rdpPrimaryUpdate :=
  mkPrimary (mkOrderInfo type 0 zero_bounds false)
    zero_dstblt zero_patblt zero_scrblt zero_opaque_rect zero_draw_nine_grid zero_multi_dstblt
    zero_multi_patblt zero_multi_scrblt zero_multi_opaque_rect zero_multi_draw_nine_grid zero_line_to zero_polyline
    zero_memblt zero_mem3blt zero_save_bitmap zero_glyph_index zero_fast_index zero_fast_glyph
    zero_polygon_sc zero_polygon_cb zero_ellipse_sc zero_ellipse_cb.

Definition zero_secondary : rdpSecondaryUpdate :=
  mkSecondary false (CacheBitmap.mk 0 0 0 0 0 0 false (replicate 8 0) 0)
    (CacheBitmapV2.mk 0 0 0 0 0 0 0 0 0 false 0 0 0 0 0)
    (CacheBitmapV3.mk 0 0 0 0 0 0 (CacheBitmapV3.mkData 0 0 0 0 0 []))
    (CacheColorTable.mk 0 0 []) (CacheGlyph.mk 0 0 (replicate 255 None)) (CacheGlyphV2.mk 0 0 0 (replicate 255 None))
    (CacheBrush.mk 0 0 0 0 0 0 []).

(** [update_new] gives the list of surfaces to delete room for 64 entries. *)
Definition zero_altsec : rdpAltSecUpdate :=
  mkAltSec (Altsec.mkOffscreen 0 0 0 (Altsec.mkDelete 64 0 (replicate 64 0))) (Altsec.mkSwitch 0)
    (Altsec.mkNineGrid 0 0 0 0 (Altsec.mkInfo 0 0 0 0 0 0)) (Altsec.mkFrame 0)
    (Altsec.mkStream 0 0 0 0 0 0 0) (Altsec.mkStream 0 0 0 0 0 0 0) (Altsec.mkCacheFirst 0 0 0 0 0) (Altsec.mkCacheNext 0 0 0 0)
    (Altsec.mkCacheEnd 0 0 0 0 0) (Altsec.mkGdiFirst 0 0 0) (Altsec.mkGdiNext 0) (Altsec.mkGdiEnd 0 0 0).

Definition zero_icon : ICON_INFO := mkIcon 0 0 0 0 0 [] [] [].
Definition zero_window : rdpWindowUpdate :=
  mkWindowUpdate (mkWindowInfo 0 0 0) (mkWindowState 0 0 0 0 [] 0 0 0 0 0 0 0 0 0 0 0 0 0 [] 0 0 0 []) zero_icon (mkCachedIcon 0 0)
    (mkNotify 0 [] (mkInfoTip 0 0 [] []) 0 zero_icon (mkCachedIcon 0 0)) (mkDesktop 0 0 []).

Definition orders_new : rdpOrders := mkOrders (zero_primary 0) zero_secondary zero_altsec zero_window.
