(* ===== verification/OrderWire.v ===== *)
(** What a peer may send: reference encoders for the primary drawing orders, and
    that the readers of [libfreerdp-core/orders.c] take them back.

    For every order there is [wire o old new], the bytes of the fields that the
    flags of [o] select, relative to the order [old] that the client remembers, and
    [fits o old new]: a value that is sent is in the range of its encoding, and one
    that is left out has not changed. Two rules follow the readers where they are
    wrong. When MemBlt and Mem3Blt leave out the cache id, the reader takes the
    colour table index out of the id it remembers, whose high byte is gone
    (orders.c:821), and [fits] of file [OrderSpec] asks for that index instead of
    the old one. And a multi order has at most 44 rectangles: the reader accepts
    45 and then writes behind the array (orders.c:378). *)

From coqutil Require Import Datatypes.RecordSetters.
From S2P Require Import Prelude.
From S2P Require Import Stream.
From S2P Require Import Gcc.
From S2P Require Import Fastpath.
From S2P Require Import Orders.
Import TriangleBracketNotations.

(** ** Fields *)

Definition only (present : bool) (bs : list Z) : list Z := if present then bs else [].

(** A field with its flag fits its encoding; one without keeps its value. *)
Definition sends {A} (present : bool) (fit : Prop) (v old : A) : Prop := if present then fit else v = old.

Lemma Reads_only {A B} b (c : M STREAM A) (put : A -> B) (d : B) bs v fit (old : A) :
  sends b fit v old -> (fit -> Reads c bs v) -> (v = old -> put v = d) -> Reads (field b c put d) (only b bs) (put v).
Proof.
  intros Hs Hr Hp. destruct b; cbn in Hs |- *.
  - rewrite <- (app_nil_r bs). eapply Reads_bind; [apply Hr, Hs|apply Reads_ret].
  - rewrite Hp by exact Hs. apply Reads_ret.
Qed.

Lemma Reads_step {A B C} b (c : M STREAM A) (put : A -> B) (d : B) (k : B -> M STREAM C) bs rest v fit (old : A) final :
  sends b fit v old -> (fit -> Reads c bs v) -> (v = old -> put v = d) -> Reads (k (put v)) rest final ->
  Reads (bind (field b c put d) k) (only b bs ++ rest) final.
Proof. intros Hs Hr Hp Hk. eapply Reads_bind; [eapply Reads_only; eassumption|exact Hk]. Qed.

Lemma Reads_when {B C} (b : bool) (c : M STREAM B) (d : B) (k : B -> M STREAM C) bs rest v final :
  (if b then Reads c bs v else v = d) -> Reads (k v) rest final ->
  Reads (bind (when_read b c d) k) (only b bs ++ rest) final.
Proof.
  intros Hs Hk. eapply Reads_bind; [|exact Hk]. destruct b; cbn; [exact Hs|]. rewrite Hs. apply Reads_ret.
Qed.

(** ** Numbers *)

Definition fits8 (v : Z) : Prop := is_byte v.
Definition fits16 (v : Z) : Prop := 0 <= v < 65536.
Definition fits32 (v : Z) : Prop := 0 <= v < 2 ^ 32.
Definition fits_sint16 (v : Z) : Prop := - 2 ^ 15 <= v < 2 ^ 15.
Definition fits_sint32 (v : Z) : Prop := - 2 ^ 31 <= v <= INT_MAX.
Definition fits24 (v : Z) : Prop := 0 <= v < 2 ^ 24.

Definition coord_wire (o : ORDER_INFO) (old new : Z) : list Z :=
  if deltaCoordinates o then [uint8 (new - old)] else le16 (uint16 new).
Definition coord_fits (o : ORDER_INFO) (old new : Z) : Prop :=
  if deltaCoordinates o then -128 <= new - old < 128 /\ fits_sint32 new else fits_sint16 new.
Definition color_wire (v : Z) : list Z := [v mod 256; v / 256 mod 256; v / 65536].

Lemma sint16_wrap v : fits_sint16 v -> sint16 (uint16 v) = v.
Proof. unfold fits_sint16, sint16, uint16. intros. dlia. Qed.

Lemma sint8_wrap v : -128 <= v < 128 -> sint8 (uint8 v) = v.
Proof. unfold sint8, uint8. intros. dlia. Qed.

Lemma read_sint16_word s : stream_read_sint16 s = bind stream_read_uint16 (fun v => ret (sint16 v)) s.
Proof.
  unfold stream_read_sint16, stream_read_uint16, bind. destruct (rbyte 0 s) as [[b0 s0]|]; [|reflexivity].
  destruct (rbyte 1 s0) as [[b1 s1]|]; reflexivity.
Qed.

Lemma Reads_short v : fits_sint16 v -> Reads stream_read_sint16 (le16 (uint16 v)) v.
Proof.
  intros H s Hs. rewrite read_sint16_word. revert s Hs. rewrite <- (app_nil_r (le16 _)).
  change (Reads (bind stream_read_uint16 (fun v => ret (sint16 v))) (le16 (uint16 v) ++ []) v).
  eapply Reads_bind; [apply Reads_le16, Z.mod_pos_bound; lia|]. rewrite sint16_wrap by exact H. apply Reads_ret.
Qed.

Lemma Reads_coord o old new : coord_fits o old new -> Reads (coord o old) (coord_wire o old new) new.
Proof.
  unfold coord_fits, coord_wire, coord, update_read_coord. destruct (deltaCoordinates o).
  - intros [Hd Hs]. rewrite <- (app_nil_r [_]). eapply Reads_bind; [apply Reads_uint8|]. cbv zeta.
    rewrite sint8_wrap by exact Hd. replace (old + (new - old)) with new by lia. unfold fits_sint32 in Hs.
    rewrite (proj2 (Z.ltb_ge new _)), (proj2 (Z.ltb_ge INT_MAX new)) by lia. apply Reads_ret.
  - intros H. rewrite <- (app_nil_r (le16 _)). eapply Reads_bind; [apply Reads_le16, Z.mod_pos_bound; lia|].
    rewrite sint16_wrap by exact H. apply Reads_ret.
Qed.

Lemma Reads_color v : fits24 v -> Reads update_read_color (color_wire v) v.
Proof.
  unfold fits24. intros H. unfold update_read_color, color_wire.
  do 3 (eapply (Reads_bind _ _ [_]); [apply Reads_uint8|]). eapply Reads_eq; [apply Reads_ret|reflexivity|].
  rewrite !Z.shiftl_mul_pow2 by lia.
  rewrite (Z.lor_comm (v mod 256)), (lor_high_low (_ * 2 ^ 8) (v mod 256) 8) by dlia.
  rewrite Z.lor_comm, (lor_high_low (_ * 2 ^ 16) _ 16) by dlia. dlia.
Qed.

(** The bytes of a colour. *)
Definition byte_of (k c : Z) : Z := c / 2 ^ k mod 256.

Lemma land_but_mask c m : fits32 c -> Z.land c (Z.lxor 0xFFFFFFFF m) = c - Z.land c m.
Proof.
  intros Hc. assert (Hd : Z.land c (Z.lxor 0xFFFFFFFF m) = Z.ldiff c m).
  { change 0xFFFFFFFF with (Z.ones 32). apply Z.bits_inj'. intros n Hn.
    rewrite Z.land_spec, Z.lxor_spec, Z.ldiff_spec, Z.testbit_ones_nonneg by lia.
    destruct (Z.ltb_spec n 32); [reflexivity|]. replace (Z.testbit c n) with false; [reflexivity|].
    unfold fits32 in Hc. symmetry. apply Z.testbit_false; [lia|]. rewrite Z.div_small; [reflexivity|].
    split; [lia|]. apply Z.lt_le_trans with (2 ^ 32); [lia|]. apply Z.pow_le_mono_r; lia. }
  rewrite Hd. pose proof (Z.add_lor_land (Z.ldiff c m) (Z.land c m)) as E.
  rewrite Z.lor_ldiff_and in E. replace (Z.land (Z.ldiff c m) (Z.land c m)) with 0 in E; [lia|].
  symmetry. apply Z.bits_inj'. intros n Hn. rewrite Z.land_spec, Z.ldiff_spec, Z.land_spec, Z.bits_0.
  destruct (Z.testbit c n), (Z.testbit m n); reflexivity.
Qed.

Lemma land_byte c k : 0 <= k -> Z.land c (Z.shiftl 0xFF k) = byte_of k c * 2 ^ k.
Proof.
  intros Hk. unfold byte_of. rewrite <- land_FF, <- Z.shiftr_div_pow2, <- Z.shiftl_mul_pow2, Z.shiftl_land by lia.
  apply Z.bits_inj'. intros n Hn. rewrite !Z.land_spec. destruct (Z.lt_ge_cases n k).
  - rewrite (Z.shiftl_spec_low 0xFF) by lia. rewrite !andb_false_r. reflexivity.
  - rewrite (Z.shiftl_spec (Z.shiftr c k) k n), Z.shiftr_spec by lia. replace (n - k + k) with n by lia. reflexivity.
Qed.

(** A colour with one of its bytes replaced. *)
Definition with_byte (b : bool) (k new old : Z) : Z :=
  if b then old - byte_of k old * 2 ^ k + byte_of k new * 2 ^ k else old.

Lemma Reads_color_byte k old new : k = 0 \/ k = 8 \/ k = 16 -> fits32 old ->
  Reads (update_color_byte k old) [byte_of k new] (with_byte true k new old).
Proof.
  intros Hk Ho. unfold update_color_byte. apply (Reads_bind _ _ [_] [] (byte_of k new)); [apply Reads_uint8|].
  eapply Reads_eq; [apply Reads_ret|reflexivity|]. cbn [with_byte].
  rewrite land_but_mask, land_byte, Z.shiftl_mul_pow2 by (assumption || lia).
  pose proof (Z.mod_pos_bound (new / 2 ^ k) 256 ltac:(lia)) as Hb. fold (byte_of k new) in Hb.
  revert Hb. generalize (byte_of k new) as b. intros b Hb.
  assert (Hz : Z.land (old - byte_of k old * 2 ^ k) (b * 2 ^ k) = 0).
  { rewrite <- land_byte, <- land_but_mask by (assumption || lia).
    rewrite <- Z.land_assoc. apply Z.bits_inj'. intros n Hn. rewrite !Z.land_spec, Z.lxor_spec, Z.bits_0.
    destruct (Z.testbit (b * 2 ^ k) n) eqn:E; [|rewrite !andb_false_r; reflexivity].
    rewrite <- Z.shiftl_mul_pow2, Z.shiftl_spec in E by lia. rewrite Z.shiftl_spec by lia.
    assert (Hn8 : 0 <= n - k < 8).
    { destruct (Z.lt_ge_cases (n - k) 0); [rewrite Z.testbit_neg_r in E by lia; discriminate|].
      destruct (Z.lt_ge_cases (n - k) 8); [lia|]. exfalso.
      rewrite (proj2 (Z.testbit_false b (n - k) ltac:(lia))) in E; [discriminate|].
      rewrite Z.div_small; [reflexivity|]. split; [lia|]. apply Z.lt_le_trans with (2 ^ 8); [lia|]. apply Z.pow_le_mono_r; lia. }
    change 0xFFFFFFFF with (Z.ones 32). change 0xFF with (Z.ones 8). rewrite !Z.testbit_ones_nonneg by lia.
    rewrite (proj2 (Z.ltb_lt n 32)), (proj2 (Z.ltb_lt (n - k) 8)) by lia. rewrite andb_false_r. reflexivity. }
  pose proof (Z.add_lor_land (old - byte_of k old * 2 ^ k) (b * 2 ^ k)) as E. rewrite Hz in E. lia.
Qed.

Lemma with_byte_fits b k new old : k = 0 \/ k = 8 \/ k = 16 -> fits32 old -> fits32 (with_byte b k new old).
Proof.
  unfold with_byte, fits32, byte_of. destruct b; [|auto].
  intros [->|[->| ->]] H; change (2 ^ 0) with 1; change (2 ^ 8) with 256; change (2 ^ 16) with 65536; dlia.
Qed.

(** The bytes without their flag, and the highest, have not changed. *)
Definition color_fits (b0 b1 b2 : bool) (old new : Z) : Prop :=
  fits32 old /\ fits32 new /\ sends b0 True (byte_of 0 new) (byte_of 0 old) /\
  sends b1 True (byte_of 8 new) (byte_of 8 old) /\ sends b2 True (byte_of 16 new) (byte_of 16 old) /\
  byte_of 24 new = byte_of 24 old.

Lemma color_bytes b0 b1 b2 old new : color_fits b0 b1 b2 old new ->
  with_byte b2 16 new (with_byte b1 8 new (with_byte b0 0 new old)) = new.
Proof.
  unfold color_fits, fits32, sends, with_byte, byte_of. change (2 ^ 0) with 1. change (2 ^ 8) with 256.
  change (2 ^ 16) with 65536. change (2 ^ 24) with 16777216.
  destruct b0, b1, b2; intros (Ho & Hn & H0 & H1 & H2 & H3); dlia.
Qed.

(** ** Deltas *)

Definition delta_wire (v : Z) : list Z :=
  if (-64 <=? v) && (v <? 64) then [v mod 128] else [128 + v / 256 mod 128; v mod 256].
Definition delta_fits (v : Z) : Prop := -16384 <= v < 16384.

(** The low seven bits of a byte, the sixth their sign. *)
Lemma delta_head b : is_byte b ->
  (if negb (Z.land b 0x40 =? 0) then Z.lor b (Z.lnot 0x3F) else Z.land b 0x3F)
  = (if b mod 128 <? 64 then b mod 128 else b mod 128 - 128).
Proof. revert b. apply (byte_forall (fun b => _ = _)). vm_compute. reflexivity. Qed.

Lemma delta_long b : is_byte b -> negb (Z.land b 0x80 =? 0) = (128 <=? b).
Proof. revert b. apply (byte_forall (fun b => _ = _)). vm_compute. reflexivity. Qed.

Lemma Reads_delta v : delta_fits v -> Reads update_read_delta (delta_wire v) v.
Proof.
  unfold delta_fits, delta_wire, update_read_delta. intros H.
  destruct (Z.leb_spec (-64) v), (Z.ltb_spec v 64); cbn [andb];
    (eapply (Reads_bind _ _ [_]); [apply Reads_uint8|]; cbv zeta; rewrite delta_head, delta_long by (unfold is_byte; dlia)).
  - rewrite (proj2 (Z.leb_gt _ _)) by dlia. eapply Reads_eq; [apply Reads_ret|reflexivity|].
    destruct (Z.ltb_spec (v mod 128 mod 128) 64); dlia.
  - rewrite (proj2 (Z.leb_le _ _)) by dlia. eapply (Reads_bind _ _ [_]); [apply Reads_uint8|].
    eapply Reads_eq; [apply Reads_ret|reflexivity|]. rewrite Z.shiftl_mul_pow2 by lia.
    rewrite (lor_high_low _ (v mod 256) 8) by dlia. destruct (Z.ltb_spec ((128 + v / 256 mod 128) mod 128) 64); dlia.
  - rewrite (proj2 (Z.leb_le _ _)) by dlia. eapply (Reads_bind _ _ [_]); [apply Reads_uint8|].
    eapply Reads_eq; [apply Reads_ret|reflexivity|]. rewrite Z.shiftl_mul_pow2 by lia.
    rewrite (lor_high_low _ (v mod 256) 8) by dlia. destruct (Z.ltb_spec ((128 + v / 256 mod 128) mod 128) 64); dlia.
  - lia.
Qed.

(** ** Zero bits

    The bytes in front of rectangles and points hold a few bits for each of them.
    What the loops see of the bits of item [i], [w] bits wide, is the byte it is in,
    shifted by the bits of the items before it. *)

Definition seen (w per : Z) (fb : list Z) (i : Z) : option Z :=
  option_map (fun b => uint8 (Z.shiftl b (w * (i mod per)))) (fb !! Z.to_nat (i / per)).

Lemma seen_next w per fb i c : 0 < w -> 0 < per -> 0 <= i -> seen w per fb i = Some c -> (i + 1) mod per <> 0 ->
  seen w per fb (i + 1) = Some (uint8 (Z.shiftl c w)).
Proof.
  intros Hw Hp Hi. unfold seen. intros Hs Hn.
  assert (E : (i + 1) / per = i / per /\ (i + 1) mod per = i mod per + 1).
  { pose proof (Z.div_mod i per ltac:(lia)). pose proof (Z.mod_pos_bound i per ltac:(lia)).
    destruct (Z.eq_dec (i mod per + 1) per) as [Ee|Ee].
    - exfalso. apply Hn. replace (i + 1) with ((i / per + 1) * per) by lia. apply Z.mod_mul. lia.
    - split; symmetry; [apply (Z.div_unique_pos _ _ _ (i mod per + 1))|apply (Z.mod_unique_pos _ _ (i / per))]; lia. }
  destruct E as [-> ->]. destruct (fb !! _) as [b|]; [|discriminate]. cbn in *. injection Hs as <-. f_equal.
  pose proof (Z.mod_pos_bound i per ltac:(lia)).
  unfold uint8. rewrite !Z.shiftl_mul_pow2 by nia. rewrite Z.mul_mod_idemp_l by lia. f_equal.
  rewrite Z.mul_add_distr_l, Z.mul_1_r, Z.pow_add_r by nia. lia.
Qed.

(** The bytes of the flags are in the packet from [z] on. *)
Definition has_bytes (s : STREAM) (z : Z) (fb : list Z) : Prop :=
  0 <= z /\ forall i b, fb !! i = Some b -> s_data s !! Z.to_nat (z + Z.of_nat i) = Some b.

Lemma holds_has_bytes s fb rest : holds s (fb ++ rest) -> has_bytes s (s_p s) fb.
Proof.
  intros H. split; [apply (holds_p _ _ H)|]. intros i b Hi. eapply holds_nth; [exact H|].
  rewrite lookup_app_l by (eapply lookup_lt_Some, Hi). exact Hi.
Qed.

Lemma byte_at_flags s z fb j b : has_bytes s z fb -> 0 <= j -> fb !! Z.to_nat j = Some b -> byte_at (z + j) s = Done (b, s).
Proof.
  intros [Hz Hb] Hj Hf. unfold byte_at. rewrite (proj2 (Z.leb_le 0 _)) by lia.
  specialize (Hb _ _ Hf). rewrite Z2Nat.id in Hb by lia. rewrite Hb. reflexivity.
Qed.

Lemma has_bytes_adv s z fb n : has_bytes s z fb -> has_bytes (adv n s) z fb.
Proof. intros H. exact H. Qed.

(** What the loops do in front of item [i]. *)
Lemma seen_step s z w per fb i cur c : has_bytes s z fb -> 0 <= i -> 0 < per -> is_bytes fb ->
  seen w per fb i = Some c -> (i mod per <> 0 -> cur = c) ->
  (if i mod per =? 0 then byte_at (z + i / per) else ret cur) s = Done (c, s).
Proof.
  intros Hf Hi Hp Hb Hs Hc. destruct (Z.eqb_spec (i mod per) 0) as [E|E]; [|rewrite (Hc E); reflexivity].
  unfold seen in Hs. destruct (fb !! Z.to_nat (i / per)) as [b|] eqn:Eb; [|discriminate]. cbn in Hs. injection Hs as <-.
  rewrite E, Z.mul_0_r, Z.shiftl_0_r. rewrite uint8_byte by (eapply (Forall_lookup_1 _ _ _ _ Hb), Eb).
  eapply byte_at_flags; [exact Hf|apply Z.div_pos; lia|exact Eb].
Qed.

(** ** Rectangles *)

Definition bit (b : bool) (v : Z) : Z := if b then v else 0.

Definition rect_bits (prev r : DELTA_RECT) : Z :=
  bit (r_left r =? r_left prev) 8 + bit (r_top r =? r_top prev) 4 +
  bit (r_width r =? r_width prev) 2 + bit (r_height r =? r_height prev) 1.

Definition rect_wire (prev r : DELTA_RECT) : list Z :=
  only (negb (r_left r =? r_left prev)) (delta_wire (r_left r - r_left prev)) ++
  only (negb (r_top r =? r_top prev)) (delta_wire (r_top r - r_top prev)) ++
  only (negb (r_width r =? r_width prev)) (delta_wire (r_width r)) ++
  only (negb (r_height r =? r_height prev)) (delta_wire (r_height r)).

Definition rect_fits (prev r : DELTA_RECT) : Prop :=
  delta_fits (r_left r - r_left prev) /\ delta_fits (r_top r - r_top prev) /\ delta_fits (r_width r) /\ delta_fits (r_height r).

Fixpoint rects_bits (prev : DELTA_RECT) (rs : list DELTA_RECT) : list Z :=
  match rs with [] => [] | r :: rs' => rect_bits prev r :: rects_bits r rs' end.
Fixpoint rects_body (prev : DELTA_RECT) (rs : list DELTA_RECT) : list Z :=
  match rs with [] => [] | r :: rs' => rect_wire prev r ++ rects_body r rs' end.
Fixpoint rects_fit (prev : DELTA_RECT) (rs : list DELTA_RECT) : Prop :=
  match rs with [] => True | r :: rs' => rect_fits prev r /\ rects_fit r rs' end.

(** Two rectangles to a byte. *)
Fixpoint nibbles (l : list Z) : list Z :=
  match l with a :: b :: l' => 16 * a + b :: nibbles l' | [a] => [16 * a] | [] => [] end.

Definition rects_wire (rs : list DELTA_RECT) : list Z := nibbles (rects_bits no_rect rs) ++ rects_body no_rect rs.

Lemma rect_bits_bound prev r : 0 <= rect_bits prev r < 16.
Proof. unfold rect_bits, bit. repeat destruct (_ =? _); lia. Qed.

Lemma rects_bits_bound rs : forall prev, Forall (fun c => 0 <= c < 16) (rects_bits prev rs).
Proof. induction rs as [|r rs IH]; intros prev; [constructor|]. cbn. constructor; [apply rect_bits_bound|apply IH]. Qed.

Lemma length_rects_bits rs : forall prev, length (rects_bits prev rs) = length rs.
Proof. induction rs as [|r rs IH]; intros prev; [reflexivity|]. cbn. f_equal. apply IH. Qed.

(** Induction two elements at a time. *)
Lemma list_ind2 {A} (P : list A -> Prop) : P [] -> (forall a, P [a]) -> (forall a b l, P l -> P (a :: b :: l)) -> forall l, P l.
Proof. intros H0 H1 H2. fix IH 1. intros [|a [|b l]]; [exact H0|apply H1|apply H2, IH]. Qed.

Lemma nibbles_bytes l : Forall (fun c => 0 <= c < 16) l -> is_bytes (nibbles l) /\ len (nibbles l) = (len l + 1) / 2.
Proof.
  induction l as [|a|a b l IH] using list_ind2; intros H.
  - split; [constructor|reflexivity].
  - inversion_clear H. split; [repeat constructor; unfold is_byte; lia|reflexivity].
  - inversion_clear H as [|? ? Ha Hl]. inversion_clear Hl as [|? ? Hb Hl']. destruct (IH Hl') as [Hi Hn]. split.
    + constructor; [unfold is_byte; lia|exact Hi].
    + cbn [nibbles]. rewrite !len_cons, Hn. dlia.
Qed.

Lemma nibbles_seen l : Forall (fun c => 0 <= c < 16) l -> forall i c, l !! i = Some c ->
  exists b, seen 4 2 (nibbles l) (Z.of_nat i) = Some b /\ is_byte b /\ b / 16 = c.
Proof.
  induction l as [|a|a b l IH] using list_ind2; intros H i c Hi; [discriminate| |].
  - inversion_clear H. destruct i as [|i]; [|discriminate]. cbn in Hi. injection Hi as ->. exists (16 * c).
    change (seen 4 2 (nibbles [c]) (Z.of_nat 0)) with (Some (uint8 (16 * c))).
    unfold is_byte, uint8. split; [f_equal|]; dlia.
  - inversion_clear H as [|? ? Ha Hl]. inversion_clear Hl as [|? ? Hb Hl']. destruct i as [|[|i]]; cbn in Hi.
    + injection Hi as ->. exists (16 * c + b). change (seen 4 2 (nibbles (c :: b :: l)) (Z.of_nat 0)) with (Some (uint8 (16 * c + b))).
      unfold is_byte, uint8. split; [f_equal|]; dlia.
    + injection Hi as ->. exists (16 * c). change (seen 4 2 (nibbles (a :: c :: l)) (Z.of_nat 1)) with (Some (uint8 (Z.shiftl (16 * a + c) 4))).
      unfold is_byte, uint8. rewrite Z.shiftl_mul_pow2 by lia. split; [f_equal|]; dlia.
    + destruct (IH Hl' i c Hi) as (b' & Hs & Hb'). exists b'. split; [|exact Hb']. rewrite <- Hs. unfold seen.
      replace (Z.of_nat (S (S i)) / 2) with (Z.of_nat i / 2 + 1) by dlia.
      replace (Z.of_nat (S (S i)) mod 2) with (Z.of_nat i mod 2) by dlia.
      replace (Z.to_nat (Z.of_nat i / 2 + 1)) with (S (Z.to_nat (Z.of_nat i / 2))) by dlia. reflexivity.
Qed.

Lemma rect_flags c : is_byte c ->
  flag c 0x80 = (8 <=? c / 16) /\ flag c 0x40 = (4 <=? c / 16 mod 8) /\
  flag c 0x20 = (2 <=? c / 16 mod 4) /\ flag c 0x10 = (1 <=? c / 16 mod 2).
Proof. revert c. apply (byte_forall (fun c => _ /\ _)). vm_compute. reflexivity. Qed.

Lemma rect_bits_flags prev r :
  (8 <=? rect_bits prev r) = (r_left r =? r_left prev) /\
  (4 <=? rect_bits prev r mod 8) = (r_top r =? r_top prev) /\
  (2 <=? rect_bits prev r mod 4) = (r_width r =? r_width prev) /\
  (1 <=? rect_bits prev r mod 2) = (r_height r =? r_height prev).
Proof.
  unfold rect_bits. destruct (r_left r =? _), (r_top r =? _), (r_width r =? _), (r_height r =? _); vm_compute; repeat split.
Qed.

Lemma when_delta {A} (b : bool) (v d : Z) (k : Z -> M STREAM A) rest a : delta_fits v -> (b = true -> v = d) ->
  Reads (k v) rest a -> Reads (bind (when_read (negb b) update_read_delta d) k) (only (negb b) (delta_wire v) ++ rest) a.
Proof.
  intros Hf Hd Hk. eapply Reads_when; [|exact Hk]. destruct b; cbn; [apply Hd; reflexivity|apply Reads_delta, Hf].
Qed.

Lemma Reads_rect c prev r : is_byte c -> c / 16 = rect_bits prev r -> rect_fits prev r ->
  Reads (read_delta_rect c prev no_rect) (rect_wire prev r) r.
Proof.
  intros Hc Hb (Hl & Ht & Hw & Hh). destruct (rect_flags c Hc) as (F1 & F2 & F3 & F4).
  destruct (rect_bits_flags prev r) as (B1 & B2 & B3 & B4). rewrite Hb in F1, F2, F3, F4.
  unfold read_delta_rect, rect_wire. rewrite F1, F2, F3, F4, B1, B2, B3, B4.
  apply when_delta; [exact Hl|intros ?%Z.eqb_eq; cbn; lia|].
  apply when_delta; [exact Ht|intros ?%Z.eqb_eq; cbn; lia|].
  apply when_delta; [exact Hw|intros ?%Z.eqb_eq; lia|].
  rewrite <- (app_nil_r (only _ _)). apply when_delta; [exact Hh|intros ?%Z.eqb_eq; lia|].
  eapply Reads_eq; [apply Reads_ret|reflexivity|]. destruct r. cbn. f_equal; lia.
Qed.

Lemma elem_app {S A} (l k : list A) a i (s : S) : i = len l -> elem (l ++ a :: k) i s = Done (a, s).
Proof.
  intros ->. unfold elem, len. rewrite (proj2 (Z.leb_le 0 _)) by lia. rewrite Nat2Z.id, list_lookup_middle by reflexivity. reflexivity.
Qed.

Lemma elem_set_app {S A} (l k : list A) a b i (s : S) : i = len l -> elem_set i b (l ++ a :: k) s = Done (l ++ b :: k, s).
Proof.
  intros ->. unfold elem_set. rewrite (proj2 (Z.leb_le 0 _)), (proj2 (Z.ltb_lt _ _)) by llia. cbn [andb].
  unfold len. rewrite Nat2Z.id, insert_app_r_alt by reflexivity. rewrite Nat.sub_diag. reflexivity.
Qed.

Lemma rects_loop fb z rs : is_bytes fb -> forall i prev pre tail cur s, len pre = i - 1 -> 0 <= i - 1 -> rects_fit prev rs ->
  (forall j c, rects_bits prev rs !! j = Some c -> exists b, seen 4 2 fb (i - 1 + Z.of_nat j) = Some b /\ is_byte b /\ b / 16 = c) ->
  ((i - 1) mod 2 <> 0 -> seen 4 2 fb (i - 1) = Some cur \/ rs = []) ->
  has_bytes s z fb -> holds s (rects_body prev rs) ->
  delta_rects_loop (length rs) i z cur (pre ++ prev :: replicate (length rs) no_rect ++ tail) s
  = Done (pre ++ prev :: rs ++ tail, adv (len (rects_body prev rs)) s).
Proof.
  intros Hfb. induction rs as [|r rs IH]; intros i prev pre tail cur s Hpre Hi Hfit Hbits Hcur Hz Hh.
  - cbn. rewrite adv_0. reflexivity.
  - destruct Hfit as [Hr Hrs]. cbn [length replicate delta_rects_loop rects_body] in *.
    destruct (Hbits 0%nat _ eq_refl) as (c & Hc & Hcb & Hc16). rewrite Z.add_0_r in Hc.
    rewrite (bind_Done _ _ _ c s).
    2:{ apply (seen_step s z 4 2 fb (i - 1) cur c Hz); [lia|lia|exact Hfb|exact Hc|].
        intros Hm. destruct (Hcur Hm) as [E|E]; [congruence|discriminate]. }
    rewrite (bind_Done _ _ _ prev s) by (apply elem_app; lia).
    rewrite (bind_Done _ _ _ no_rect s).
    2:{ rewrite cons_middle, app_assoc. apply elem_app. rewrite len_app, len_cons, len_nil. lia. }
    destruct (holds_app _ _ _ Hh) as [H1 H2].
    rewrite (bind_Done _ _ _ r (adv (len (rect_wire prev r)) s)) by (apply Reads_rect; assumption).
    rewrite (bind_Done _ _ _ ((pre ++ [prev]) ++ r :: replicate (length rs) no_rect ++ tail) (adv (len (rect_wire prev r)) s)).
    2:{ rewrite cons_middle, app_assoc. apply elem_set_app. rewrite len_app, len_cons, len_nil. lia. }
    rewrite IH.
    + rewrite <- app_assoc, adv_adv, len_app. reflexivity.
    + rewrite len_app, len_cons, len_nil. lia.
    + lia.
    + exact Hrs.
    + intros j b Hj. replace (i + 1 - 1 + Z.of_nat j) with (i - 1 + Z.of_nat (S j)) by lia. apply Hbits, Hj.
    + intros Hm. left. replace (i + 1 - 1) with (i - 1 + 1) in * by lia. apply seen_next; [lia|lia|lia|exact Hc|exact Hm].
    + exact Hz.
    + exact H2.
Qed.

(** Any array of rectangles is overwritten from its start: the first is zero, then
    come the [n] rectangles of the order. *)
Lemma Reads_rects rs old : rects_fit no_rect rs -> (length rs <= 44)%nat -> (length rs < length old)%nat ->
  Reads (update_read_delta_rects old (len rs)) (rects_wire rs) (no_rect :: rs ++ drop (S (length rs)) old).
Proof.
  intros Hf Hn Ho s Hs. unfold update_read_delta_rects, rects_wire in *. cbv zeta.
  rewrite (proj2 (Z.ltb_ge 45 _)) by (unfold len; lia).
  rewrite (bind_Done _ _ _ (s_p s) s) by reflexivity.
  destruct (nibbles_bytes _ (rects_bits_bound rs no_rect)) as [Hb Hl]. replace (len (rects_bits no_rect rs)) with (len rs) in Hl by (unfold len; rewrite length_rects_bits; reflexivity).
  rewrite (bind_Done _ _ _ tt (adv ((len rs + 1) / 2) s)) by reflexivity.
  rewrite (proj2 (Z.ltb_ge _ _)) by (unfold len; lia).
  replace (Z.to_nat (len rs + 1)) with (S (length rs)) by (unfold len; lia).
  replace (Z.to_nat (len rs)) with (length rs) by (unfold len; lia).
  destruct (holds_app _ _ _ Hs) as [H1 H2]. rewrite Hl in H2.
  pose proof (rects_loop (nibbles (rects_bits no_rect rs)) (s_p s) rs Hb 1 no_rect [] (drop (S (length rs)) old) 0
                (adv ((len rs + 1) / 2) s)) as E. cbn [app replicate] in E |- *. rewrite E.
  - rewrite adv_adv, len_app, Hl. reflexivity.
  - reflexivity.
  - lia.
  - exact Hf.
  - intros j c Hj. replace (1 - 1 + Z.of_nat j) with (Z.of_nat j) by lia. apply (nibbles_seen _ (rects_bits_bound rs no_rect)), Hj.
  - intros Hm. exfalso. apply Hm. reflexivity.
  - apply has_bytes_adv. eapply holds_has_bytes, Hs.
  - exact H2.
Qed.

(** ** Points *)

Definition point_bits (p : DELTA_POINT) : Z := bit (pt_x p =? 0) 2 + bit (pt_y p =? 0) 1.
Definition point_wire (p : DELTA_POINT) : list Z :=
  only (negb (pt_x p =? 0)) (delta_wire (pt_x p)) ++ only (negb (pt_y p =? 0)) (delta_wire (pt_y p)).
Definition point_fits (p : DELTA_POINT) : Prop := delta_fits (pt_x p) /\ delta_fits (pt_y p).

(** Four points to a byte. *)
Fixpoint quads (l : list Z) : list Z :=
  match l with
  | a :: b :: c :: d :: l' => 64 * a + 16 * b + 4 * c + d :: quads l'
  | [a; b; c] => [64 * a + 16 * b + 4 * c]
  | [a; b] => [64 * a + 16 * b]
  | [a] => [64 * a]
  | [] => []
  end.

Definition points_body (ps : list DELTA_POINT) : list Z := concat (map point_wire ps).
Definition points_wire (ps : list DELTA_POINT) : list Z := quads (map point_bits ps) ++ points_body ps.

(** Induction four elements at a time. *)
Lemma list_ind4 {A} (P : list A -> Prop) : P [] -> (forall a, P [a]) -> (forall a b, P [a; b]) -> (forall a b c, P [a; b; c]) ->
  (forall a b c d l, P l -> P (a :: b :: c :: d :: l)) -> forall l, P l.
Proof. intros H0 H1 H2 H3 H4. fix IH 1. intros [|a [|b [|c [|d l]]]]; [exact H0|apply H1|apply H2|apply H3|apply H4, IH]. Qed.

Lemma point_bits_bound ps : Forall (fun c => 0 <= c < 4) (map point_bits ps).
Proof. induction ps as [|p ps IH]; [constructor|]. constructor; [|exact IH]. unfold point_bits, bit. repeat destruct (_ =? _); lia. Qed.

Ltac cells := repeat match goal with H : Forall _ (_ :: _) |- _ => inversion_clear H end.

Lemma quads_bytes l : Forall (fun c => 0 <= c < 4) l -> is_bytes (quads l) /\ len (quads l) = (len l + 3) / 4.
Proof.
  induction l as [|a|a b|a b c|a b c d l IH] using list_ind4; intros H;
    try (cells; split; [repeat constructor; unfold is_byte; lia|reflexivity]).
  cells. destruct IH as [Hi Hn]; [assumption|]. split.
  - constructor; [unfold is_byte; lia|exact Hi].
  - cbn [quads]. rewrite !len_cons, Hn. dlia.
Qed.

Lemma quads_seen l : Forall (fun c => 0 <= c < 4) l -> forall i c, l !! i = Some c ->
  exists b, seen 2 4 (quads l) (Z.of_nat i) = Some b /\ is_byte b /\ b / 64 = c.
Proof.
  assert (Hh : forall b k l' n, (n < 4)%nat -> 0 <= b < 256 -> k = b * 4 ^ Z.of_nat n mod 256 ->
    seen 2 4 (b :: l') (Z.of_nat n) = Some k).
  { intros b k l' n Hn Hb ->. unfold seen, uint8. rewrite Z.div_small, Z.mod_small by lia. change ((b :: l') !! Z.to_nat 0) with (Some b). cbn [option_map].
    rewrite Z.shiftl_mul_pow2 by lia. rewrite Z.pow_mul_r by lia. reflexivity. }
  induction l as [|a|a b|a b c|a b c d l IH] using list_ind4; intros H i v Hi; [discriminate|..]; cells;
    destruct i as [|[|[|[|i]]]]; cbn in Hi; try discriminate; try (injection Hi as ->);
    try (eexists; split; [apply Hh; [lia|lia|reflexivity]|]; cbn [Z.of_nat Pos.of_succ_nat Pos.succ]; unfold is_byte; change (4 ^ 0) with 1; change (4 ^ 1) with 4;
         change (4 ^ 2) with 16; change (4 ^ 3) with 64; dlia).
  destruct (IH ltac:(assumption) i v Hi) as (b' & Hs & Hb'). exists b'. split; [|exact Hb']. rewrite <- Hs. unfold seen.
  replace (Z.of_nat (S (S (S (S i)))) / 4) with (Z.of_nat i / 4 + 1) by dlia.
  replace (Z.of_nat (S (S (S (S i)))) mod 4) with (Z.of_nat i mod 4) by dlia.
  replace (Z.to_nat (Z.of_nat i / 4 + 1)) with (S (Z.to_nat (Z.of_nat i / 4))) by dlia. reflexivity.
Qed.

Lemma point_flags c : is_byte c -> flag c 0x80 = (2 <=? c / 64) /\ flag c 0x40 = (1 <=? c / 64 mod 2).
Proof. revert c. apply (byte_forall (fun c => _ /\ _)). vm_compute. reflexivity. Qed.

Lemma point_bits_flags p : (2 <=? point_bits p) = (pt_x p =? 0) /\ (1 <=? point_bits p mod 2) = (pt_y p =? 0).
Proof. unfold point_bits. destruct (pt_x p =? 0), (pt_y p =? 0); vm_compute; repeat split. Qed.

Lemma points_loop fb z ps : is_bytes fb -> forall i cur s, 0 <= i -> Forall point_fits ps ->
  (forall j c, map point_bits ps !! j = Some c -> exists b, seen 2 4 fb (i + Z.of_nat j) = Some b /\ is_byte b /\ b / 64 = c) ->
  (i mod 4 <> 0 -> seen 2 4 fb i = Some cur \/ ps = []) ->
  has_bytes s z fb -> holds s (points_body ps) ->
  delta_points_loop (length ps) i z cur s = Done (ps, adv (len (points_body ps)) s).
Proof.
  intros Hfb. induction ps as [|p ps IH]; intros i cur s Hi Hfit Hbits Hcur Hz Hh.
  - cbn. rewrite adv_0. reflexivity.
  - inversion_clear Hfit as [|? ? [Hx Hy] Hps]. cbn [length delta_points_loop].
    destruct (Hbits 0%nat _ eq_refl) as (c & Hc & Hcb & Hc64). rewrite Z.add_0_r in Hc.
    rewrite (bind_Done _ _ _ c s).
    2:{ apply (seen_step s z 2 4 fb i cur c Hz); [lia|lia|exact Hfb|exact Hc|].
        intros Hm. destruct (Hcur Hm) as [E|E]; [congruence|discriminate]. }
    destruct (point_flags c Hcb) as [F1 F2]. destruct (point_bits_flags p) as [B1 B2].
    rewrite F1, F2, Hc64, B1, B2. change (points_body (p :: ps)) with (point_wire p ++ points_body ps) in *.
    unfold point_wire in *. rewrite <- app_assoc in *. revert s Hz Hh.
    assert (Hk : forall s, has_bytes s z fb -> holds s (points_body ps) ->
      delta_points_loop (length ps) (i + 1) z (uint8 (Z.shiftl c 2)) s = Done (ps, adv (len (points_body ps)) s)).
    { intros s Hz Hh. apply IH; try assumption; [lia| |].
      - intros j b Hj. replace (i + 1 + Z.of_nat j) with (i + Z.of_nat (S j)) by lia. apply Hbits, Hj.
      - intros Hm. left. apply seen_next; [lia|lia|lia|exact Hc|exact Hm]. }
    intros s Hz Hh. destruct (holds_app _ _ _ Hh) as [H1 H2]. destruct (holds_app _ _ _ H2) as [H3 H4].
    rewrite (bind_Done _ _ _ (pt_x p) (adv (len (only (negb (pt_x p =? 0)) (delta_wire (pt_x p)))) s)).
    2:{ destruct (Z.eqb_spec (pt_x p) 0) as [->|]; cbn; [rewrite adv_0; reflexivity|]. apply Reads_delta; assumption. }
    rewrite (bind_Done _ _ _ (pt_y p) (adv (len (only (negb (pt_y p =? 0)) (delta_wire (pt_y p))))
                                          (adv (len (only (negb (pt_x p =? 0)) (delta_wire (pt_x p)))) s))).
    2:{ destruct (Z.eqb_spec (pt_y p) 0) as [->|]; cbn; [rewrite adv_0; reflexivity|]. apply Reads_delta; assumption. }
    rewrite (bind_Done _ _ _ _ _ (Hk _ (has_bytes_adv _ _ _ _ (has_bytes_adv _ _ _ _ Hz)) H4)).
    unfold ret. rewrite !adv_adv, !len_app. destruct p. cbn. repeat f_equal; lia.
Qed.

Lemma Reads_points ps : Forall point_fits ps -> Reads (update_read_delta_points (len ps)) (points_wire ps) ps.
Proof.
  intros Hf s Hs. unfold update_read_delta_points, points_wire in *.
  rewrite (bind_Done _ _ _ (s_p s) s) by reflexivity.
  destruct (quads_bytes _ (point_bits_bound ps)) as [Hb Hl].
  replace (len (map point_bits ps)) with (len ps) in Hl by (unfold len; rewrite length_map; reflexivity).
  rewrite (bind_Done _ _ _ tt (adv ((len ps + 3) / 4) s)) by reflexivity.
  replace (Z.to_nat (len ps)) with (length ps) by (unfold len; lia).
  destruct (holds_app _ _ _ Hs) as [H1 H2]. rewrite Hl in H2.
  rewrite (points_loop (quads (map point_bits ps)) (s_p s) ps Hb 0 0).
  - rewrite adv_adv, len_app, Hl. reflexivity.
  - lia.
  - exact Hf.
  - intros j c Hj. apply (quads_seen _ (point_bits_bound ps)), Hj.
  - intros Hm. exfalso. apply Hm. reflexivity.
  - apply has_bytes_adv. eapply holds_has_bytes, Hs.
  - exact H2.
Qed.

(** ** Brushes *)

Definition cached_bpp (style : Z) : option Z :=
  option_map (fun b => if b =? 0 then 1 else b) (BMF_BPP !! Z.to_nat (Z.land style 0x0F)).

Definition brush_wire (flags : Z) (new : rdpBrush) : list Z :=
  only (flag flags ORDER_FIELD_01) [br_x new] ++ only (flag flags ORDER_FIELD_02) [br_y new] ++
  only (flag flags ORDER_FIELD_03) [br_style new] ++ only (flag flags ORDER_FIELD_04) [br_hatch new] ++
  only (flag flags ORDER_FIELD_05) (rev (tail (br_p8x8 new))).

(** With a cached brush the index and the depth follow from style and hatch. *)
Definition brush_fits (flags : Z) (old new : rdpBrush) : Prop :=
  sends (flag flags ORDER_FIELD_01) True (br_x new) (br_x old) /\
  sends (flag flags ORDER_FIELD_02) True (br_y new) (br_y old) /\
  sends (flag flags ORDER_FIELD_03) True (br_style new) (br_style old) /\
  sends (flag flags ORDER_FIELD_04) True (br_hatch new) (br_hatch old) /\
  (if flag (br_style new) CACHED_BRUSH then br_index new = br_hatch new /\ cached_bpp (br_style new) = Some (br_bpp new)
   else br_index new = br_index old /\ br_bpp new = br_bpp old) /\
  sends (flag flags ORDER_FIELD_05)
    (length (br_p8x8 new) = 8%nat /\ head (br_p8x8 new) = Some (uint8 (br_hatch new))) (br_p8x8 new) (br_p8x8 old).

Lemma brush_cached {A} (b : rdpBrush) (k : rdpBrush -> M STREAM A) v bs a :
  (if flag (br_style b) CACHED_BRUSH
   then v = b <| br_index := br_hatch b |> <| br_bpp := br_bpp v |> /\ cached_bpp (br_style b) = Some (br_bpp v)
   else v = b) ->
  Reads (k v) bs a ->
  Reads (bind (if flag (br_style b) CACHED_BRUSH then
       let! bpp := elem BMF_BPP (Z.land (br_style b) 0x0F) in
       ret (b <| br_index := br_hatch b |> <| br_bpp := if bpp =? 0 then 1 else bpp |>)
     else ret b) k) bs a.
Proof.
  intros Hv Hk s Hs. destruct (flag (br_style b) CACHED_BRUSH); [|subst v; apply Hk, Hs].
  destruct Hv as [Hv Hb]. unfold cached_bpp in Hb. unfold elem, bind at 2.
  rewrite (proj2 (Z.leb_le 0 _)) by (apply Z.land_nonneg; right; lia).
  destruct (BMF_BPP !! _) as [bpp|]; [|discriminate]. cbn in Hb. injection Hb as Hb.
  unfold ret at 1 2. unfold bind at 1. rewrite Hb, <- Hv. apply Hk, Hs.
Qed.

Lemma Reads_brush flags old new : brush_fits flags old new -> Reads (update_read_brush old flags) (brush_wire flags new) new.
Proof.
  destruct old as [x y bpp st h ix p], new as [x' y' bpp' st' h' ix' p'].
  intros (Hx & Hy & Hs & Hh & Hc & Hp). cbn [br_x br_y br_bpp br_style br_hatch br_index br_p8x8] in *.
  unfold update_read_brush, brush_wire. cbn [br_x br_y br_bpp br_style br_hatch br_index br_p8x8].
  eapply Reads_step; [exact Hx|intros _; apply Reads_uint8|intros <-; reflexivity|].
  eapply Reads_step; [exact Hy|intros _; apply Reads_uint8|intros <-; reflexivity|].
  eapply Reads_step; [exact Hs|intros _; apply Reads_uint8|intros <-; reflexivity|].
  eapply Reads_step; [exact Hh|intros _; apply Reads_uint8|intros <-; reflexivity|].
  apply (brush_cached _ _ (mkBrush x' y' bpp' st' h' ix' p)).
  { cbn [apply_update br_style br_hatch br_bpp]. unfold constant. destruct (flag st' CACHED_BRUSH); destruct Hc as [-> Hb]; [split; [reflexivity|exact Hb]|rewrite Hb; reflexivity]. }
  destruct (flag flags ORDER_FIELD_05); cbn in Hp |- *; [|rewrite Hp; apply Reads_ret].
  destruct Hp as [Hl Hd]. do 9 (destruct p' as [|? p']; try discriminate Hl). cbn in Hd. injection Hd as ->.
  cbn [rev tail app]. do 7 (eapply (Reads_bind _ _ [_]); [apply Reads_uint8|]). apply Reads_ret.
Qed.

(** ** Groups of values under one flag *)

(** The array of an order, its first [cb] bytes on the wire. *)
Definition data_wire (cb : Z) (new : list Z) : list Z := cb :: take (Z.to_nat cb) new.
Definition data_fits (cb : Z) (old new : list Z) : Prop :=
  is_byte cb /\ cb <= len old /\ length new = length old /\ drop (Z.to_nat cb) new = drop (Z.to_nat cb) old.

Lemma copy_data_ok cb old new (s : STREAM) : data_fits cb old new -> copy_data (take (Z.to_nat cb) new) old s = Done (new, s).
Proof.
  intros (Hb & Hc & Hl & Hd). unfold is_byte, len in *. unfold copy_data. unfold len.
  rewrite length_take, Hl, Nat.min_l by lia. rewrite (proj2 (Z.leb_le _ _)) by lia.
  rewrite <- Hd, take_drop. reflexivity.
Qed.

Lemma len_take_data cb old new : data_fits cb old new -> cb = len (take (Z.to_nat cb) new).
Proof. intros (Hb & Hc & Hl & Hd). unfold is_byte, len in *. rewrite length_take. lia. Qed.

Lemma Reads_data {B} (k : Z -> list Z -> B) cb old new : data_fits cb old new ->
  Reads (let! cb := stream_read_uint8 in let! bytes := stream_read cb in let! new := copy_data bytes old in ret (k cb new))
    (data_wire cb new) (k cb new).
Proof.
  intros Hf. unfold data_wire. eapply (Reads_bind _ _ [cb]); [apply Reads_uint8|]. rewrite <- (app_nil_r (take _ _)).
  eapply Reads_bind; [apply Reads_read, (len_take_data _ _ _ Hf)|].
  intros s _. rewrite (bind_Done _ _ _ new s) by (apply copy_data_ok, Hf). cbn. rewrite adv_0. reflexivity.
Qed.

(** The rectangles of an order: the array starts with a zero, then come the [n]
    rectangles sent. With 45 of them the reader would write behind the array. *)
Definition group_wire (n cb : Z) (new : list DELTA_RECT) : list Z := le16 cb ++ rects_wire (take (Z.to_nat n) (tail new)).
Definition group_fits (n cb : Z) (old new : list DELTA_RECT) : Prop :=
  fits16 cb /\ 0 <= n <= 44 /\ n < len old /\ length new = length old /\ head new = Some no_rect /\
  rects_fit no_rect (take (Z.to_nat n) (tail new)) /\ drop (S (Z.to_nat n)) new = drop (S (Z.to_nat n)) old.

Lemma Reads_group {B} (k : Z -> list DELTA_RECT -> B) n cb old new : group_fits n cb old new ->
  Reads (let! cb := stream_read_uint16 in let! rects := update_read_delta_rects old n in ret (k cb rects))
    (group_wire n cb new) (k cb new).
Proof.
  intros (Hcb & Hn & Ho & Hl & Hh & Hf & Hd). unfold group_wire. eapply Reads_bind; [apply Reads_le16, Hcb|].
  destruct new as [|r new]; [discriminate|]. cbn in Hh. injection Hh as ->. cbn [tail] in *. cbn [length] in Hl. unfold len in Ho.
  assert (Hlen : length (take (Z.to_nat n) new) = Z.to_nat n) by (rewrite length_take; lia).
  rewrite <- (app_nil_r (rects_wire _)). eapply Reads_bind.
  - pose proof (Reads_rects (take (Z.to_nat n) new) old Hf ltac:(lia) ltac:(lia)) as E.
    replace (len (take (Z.to_nat n) new)) with n in E by (unfold len; lia). exact E.
  - rewrite Hlen, <- Hd. cbn [drop]. rewrite take_drop. apply Reads_ret.
Qed.

Definition polyline_wire (cb : Z) (new : list DELTA_POINT) : list Z := cb :: points_wire new.

Lemma Reads_polyline {B} (k : Z -> list DELTA_POINT -> B) n cb new : n = len new -> Forall point_fits new ->
  Reads (let! cb := stream_read_uint8 in let! pts := update_read_delta_points n in ret (k cb pts)) (polyline_wire cb new) (k cb new).
Proof.
  intros -> Hf. unfold polyline_wire. eapply (Reads_bind _ _ [cb]); [apply Reads_uint8|].
  rewrite <- (app_nil_r (points_wire _)). eapply Reads_bind; [apply Reads_points, Hf|]. apply Reads_ret.
Qed.

(** Bytes that are skipped. *)
Lemma Reads_skip8 {B} (k : Z -> B) cb : 0 <= cb ->
  Reads (let! cb := stream_read_uint8 in stream_seek cb;; ret (k cb)) (cb :: replicate (Z.to_nat cb) 0) (k cb).
Proof.
  intros H. eapply (Reads_bind _ _ [cb]); [apply Reads_uint8|]. rewrite <- (app_nil_r (replicate _ _)).
  eapply Reads_bind; [apply Reads_seek; rewrite len_replicate; lia|]. apply Reads_ret.
Qed.

Lemma Reads_skip16 {B} (k : Z -> B) cb : fits16 cb ->
  Reads (let! cb := stream_read_uint16 in stream_seek cb;; ret (k cb)) (le16 cb ++ replicate (Z.to_nat cb) 0) (k cb).
Proof.
  intros H. eapply Reads_bind; [apply Reads_le16, H|]. unfold fits16 in H. rewrite <- (app_nil_r (replicate _ _)).
  eapply Reads_bind; [apply Reads_seek; rewrite len_replicate; lia|]. apply Reads_ret.
Qed.

Lemma Reads_pad {A} (b : bool) (k : unit -> M STREAM A) rest a : Reads (k tt) rest a ->
  Reads (bind (when b (stream_seek 2)) k) (only b [0; 0] ++ rest) a.
Proof. intros H. eapply Reads_bind; [|exact H]. destruct b; [apply Reads_seek; reflexivity|apply Reads_ret]. Qed.

(** ** Glyphs *)

Definition two_wire (v : Z) : list Z := if v <? 128 then [v] else [128 + v / 256; v mod 256].
Definition two_fits (v : Z) : Prop := 0 <= v < 32768.
Definition signed_wire (v : Z) : list Z :=
  let s := if v <? 0 then 64 else 0 in
  if Z.abs v <? 64 then [s + Z.abs v] else [128 + s + Z.abs v / 256; Z.abs v mod 256].
Definition signed_fits (v : Z) : Prop := -16384 < v < 16384.

Lemma two_head b : is_byte b -> negb (Z.land b 0x80 =? 0) = (128 <=? b) /\ Z.land b 0x7F = b mod 128 /\
  negb (Z.land b 0x40 =? 0) = (64 <=? b mod 128) /\ Z.land b 0x3F = b mod 64.
Proof. revert b. apply (byte_forall (fun b => _ /\ _)). vm_compute. reflexivity. Qed.

Lemma Reads_two v : two_fits v -> Reads update_read_2byte_unsigned (two_wire v) v.
Proof.
  unfold two_fits, two_wire, update_read_2byte_unsigned. intros H. destruct (Z.ltb_spec v 128);
    (eapply (Reads_bind _ _ [_]); [apply Reads_uint8|]);
    destruct (two_head (if v <? 128 then v else 128 + v / 256)) as (E1 & E2 & _);
    try (unfold is_byte; destruct (Z.ltb_spec v 128); dlia); revert E1 E2; destruct (Z.ltb_spec v 128); try lia; intros E1 E2; rewrite E1, E2.
  - rewrite (proj2 (Z.leb_gt _ _)) by lia. eapply Reads_eq; [apply Reads_ret|reflexivity|]. dlia.
  - rewrite (proj2 (Z.leb_le _ _)) by dlia. eapply (Reads_bind _ _ [_]); [apply Reads_uint8|].
    eapply Reads_eq; [apply Reads_ret|reflexivity|]. rewrite Z.shiftl_mul_pow2 by lia.
    rewrite (lor_high_low _ (v mod 256) 8) by dlia. dlia.
Qed.

Lemma Reads_signed v : signed_fits v -> Reads update_read_2byte_signed (signed_wire v) v.
Proof.
  unfold signed_fits, signed_wire, update_read_2byte_signed. intros H. cbv zeta.
  set (b := if Z.abs v <? 64 then (if v <? 0 then 64 else 0) + Z.abs v else 128 + (if v <? 0 then 64 else 0) + Z.abs v / 256).
  assert (Hb : is_byte b) by (unfold b, is_byte; destruct (Z.ltb_spec (Z.abs v) 64), (Z.ltb_spec v 0); dlia).
  destruct (two_head b Hb) as (E1 & _ & E3 & E4). unfold b in *. destruct (Z.ltb_spec (Z.abs v) 64);
    (eapply (Reads_bind _ _ [_]); [apply Reads_uint8|]); rewrite E1, E3, E4.
  - rewrite (proj2 (Z.leb_gt 128 _)) by (destruct (Z.ltb_spec v 0); lia). cbn [bind]. intros s Hs. rewrite bind_ret. revert s Hs.
    eapply Reads_eq; [apply Reads_ret|reflexivity|].
    destruct (Z.ltb_spec v 0); [rewrite (proj2 (Z.leb_le 64 _)) by dlia|rewrite (proj2 (Z.leb_gt 64 _)) by dlia]; dlia.
  - rewrite (proj2 (Z.leb_le 128 _)) by (destruct (Z.ltb_spec v 0); dlia). rewrite <- (app_nil_r [_]).
    eapply Reads_bind; [rewrite <- (app_nil_r [_]); eapply Reads_bind; [apply Reads_uint8|apply Reads_ret]|].
    eapply Reads_eq; [apply Reads_ret|reflexivity|]. rewrite Z.shiftl_mul_pow2 by lia.
    rewrite (lor_high_low _ (Z.abs v mod 256) 8) by dlia.
    destruct (Z.ltb_spec v 0); [rewrite (proj2 (Z.leb_le 64 _)) by dlia|rewrite (proj2 (Z.leb_gt 64 _)) by dlia]; dlia.
Qed.

Definition glyph_wire (g : GLYPH_DATA_V2) : list Z :=
  signed_wire (gl_x g) ++ signed_wire (gl_y g) ++ two_wire (gl_cx g) ++ two_wire (gl_cy g) ++ gl_aj g.
Definition glyph_fits (g : GLYPH_DATA_V2) : Prop :=
  signed_fits (gl_x g) /\ signed_fits (gl_y g) /\ two_fits (gl_cx g) /\ two_fits (gl_cy g) /\
  gl_cb g = glyph_size (gl_cx g) (gl_cy g) /\ gl_cb g = len (gl_aj g).

Lemma Reads_glyph g : glyph_fits g -> Reads (read_glyph_v2 (gl_cacheIndex g)) (glyph_wire g) g.
Proof.
  destruct g as [i x y cx cy cb aj]. intros (Hx & Hy & Hcx & Hcy & Hs & Hl).
  cbn [gl_cacheIndex gl_x gl_y gl_cx gl_cy gl_cb gl_aj] in *. unfold read_glyph_v2, glyph_wire. cbn [gl_x gl_y gl_cx gl_cy gl_aj].
  eapply Reads_bind; [apply Reads_signed, Hx|]. eapply Reads_bind; [apply Reads_signed, Hy|].
  eapply Reads_bind; [apply Reads_two, Hcx|]. eapply Reads_bind; [apply Reads_two, Hcy|].
  cbv zeta. rewrite <- Hs. eapply Reads_eq; [eapply Reads_bind; [apply Reads_read, Hl|apply Reads_ret]|apply app_nil_r|reflexivity].
Qed.

(** ** Steps of the readers *)

Lemma Reads_nil {A} (c : M STREAM A) bs a : Reads c (bs ++ []) a -> Reads c bs a.
Proof. rewrite app_nil_r. exact id. Qed.

(** The cache of a bitmap and its colour table, in one word. *)
Definition cache_word (b : bool) (id ci id0 : Z) : Z := if b then id + 256 * ci else id0.

Lemma cache_word_split (b : bool) id ci id0 :
  (if b then is_byte id /\ is_byte ci else id = Z.land id0 0xFF /\ ci = Z.shiftr id0 8) ->
  Z.shiftr (cache_word b id ci id0) 8 = ci /\ Z.land (cache_word b id ci id0) 0xFF = id.
Proof.
  unfold cache_word. destruct b; [|intros [-> ->]; auto]. intros [Hi Hc]. unfold is_byte in *.
  rewrite land_FF, Z.shiftr_div_pow2 by lia. split; dlia.
Qed.

Section Steps.
Context {B C : Type} (b : bool) (d : B) (K : B -> M STREAM C) (rest : list Z) (final : C).

Lemma step_data (k : Z -> list Z -> B) cb0 cb old new :
  (if b then data_fits cb old new else cb = cb0 /\ new = old) -> k cb0 old = d -> Reads (K (k cb new)) rest final ->
  Reads (bind (when_read b (let! cb := stream_read_uint8 in let! bytes := stream_read cb in
                            let! new := copy_data bytes old in ret (k cb new)) d) K) (only b (data_wire cb new) ++ rest) final.
Proof. intros H Hd HK. eapply Reads_when; [|exact HK]. destruct b; [apply Reads_data, H|]. destruct H as [-> ->]. exact Hd. Qed.

Lemma step_group (k : Z -> list DELTA_RECT -> B) n cb0 cb old new :
  (if b then group_fits n cb old new else cb = cb0 /\ new = old) -> k cb0 old = d -> Reads (K (k cb new)) rest final ->
  Reads (bind (when_read b (let! cb := stream_read_uint16 in let! rects := update_read_delta_rects old n in ret (k cb rects)) d) K)
    (only b (group_wire n cb new) ++ rest) final.
Proof. intros H Hd HK. eapply Reads_when; [|exact HK]. destruct b; [apply Reads_group, H|]. destruct H as [-> ->]. exact Hd. Qed.

Lemma step_polyline (k : Z -> list DELTA_POINT -> B) n cb0 cb old new :
  (if b then n = len new /\ is_byte cb /\ Forall point_fits new else cb = cb0 /\ new = old) -> k cb0 old = d ->
  Reads (K (k cb new)) rest final ->
  Reads (bind (when_read b (let! cb := stream_read_uint8 in let! pts := update_read_delta_points n in ret (k cb pts)) d) K)
    (only b (polyline_wire cb new) ++ rest) final.
Proof.
  intros H Hd HK. eapply Reads_when; [|exact HK]. destruct b; [destruct H as (Hn & _ & Hf); apply Reads_polyline; assumption|].
  destruct H as [-> ->]. exact Hd.
Qed.

Lemma step_accel (k : Z -> Z -> B) i0 i a0 a :
  (if b then is_byte i /\ is_byte a else i = i0 /\ a = a0) -> k i0 a0 = d -> Reads (K (k i a)) rest final ->
  Reads (bind (when_read b (let! inc := stream_read_uint8 in let! accel := stream_read_uint8 in ret (k inc accel)) d) K)
    (only b [i; a] ++ rest) final.
Proof.
  intros H Hd HK. eapply Reads_when; [|exact HK]. destruct b; [|destruct H as [-> ->]; exact Hd].
  do 2 (eapply (Reads_bind _ _ [_]); [apply Reads_uint8|]). apply Reads_ret.
Qed.

Lemma step_skip8 (k : Z -> B) cb0 cb : sends b (fits8 cb) cb cb0 -> k cb0 = d -> Reads (K (k cb)) rest final ->
  Reads (bind (when_read b (let! cb := stream_read_uint8 in stream_seek cb;; ret (k cb)) d) K)
    (only b ([cb] ++ replicate (Z.to_nat cb) 0) ++ rest) final.
Proof.
  intros H Hd HK. eapply Reads_when; [|exact HK]. destruct b; cbn in H; [apply Reads_skip8, H|]. rewrite H. exact Hd.
Qed.

Lemma step_skip16 (k : Z -> B) cb0 cb : sends b (fits16 cb) cb cb0 -> k cb0 = d -> Reads (K (k cb)) rest final ->
  Reads (bind (when_read b (let! cb := stream_read_uint16 in stream_seek cb;; ret (k cb)) d) K)
    (only b (le16 cb ++ replicate (Z.to_nat cb) 0) ++ rest) final.
Proof.
  intros H Hd HK. eapply Reads_when; [|exact HK]. destruct b; cbn in H; [apply Reads_skip16, H|]. rewrite H. exact Hd.
Qed.

Lemma step_color_byte k (put : Z -> B) old new : k = 0 \/ k = 8 \/ k = 16 -> fits32 old -> put old = d ->
  Reads (K (put (with_byte b k new old))) rest final ->
  Reads (bind (field b (update_color_byte k old) put d) K) (only b [byte_of k new] ++ rest) final.
Proof.
  intros Hk Hf Hd HK. eapply (Reads_step b _ put d K _ _ (with_byte b k new old) (b = true) old);
    [destruct b; reflexivity|intros ->; apply Reads_color_byte; assumption|intros ->; exact Hd|exact HK].
Qed.

Lemma step_cache (put : Z -> B) id0 id ci :
  (if b then is_byte id /\ is_byte ci else id = Z.land id0 0xFF /\ ci = Z.shiftr id0 8) -> put id0 = d ->
  Reads (K (put (cache_word b id ci id0))) rest final ->
  Reads (bind (field b stream_read_uint16 put d) K) (only b (le16 (id + 256 * ci)) ++ rest) final.
Proof.
  intros H Hd HK. eapply (Reads_step b _ put d K _ _ (cache_word b id ci id0) (b = true) id0);
    [unfold cache_word; destruct b; reflexivity| |intros ->; exact Hd|exact HK].
  intros E. unfold cache_word. rewrite E in *. destruct H as [Hi Hc]. apply Reads_le16. unfold fits16, is_byte in *. lia.
Qed.

End Steps.

(** The flag of the next field selects the hypothesis. *)
Ltac field_read := first [apply Reads_coord|intros _; apply Reads_uint8|apply Reads_le16|apply Reads_le32|apply Reads_short|apply Reads_color].
Ltac order_step :=
  lazymatch goal with
  | |- Reads (bind (when ?b (stream_seek 2)) _) _ _ => apply Reads_pad
  | H : color_fits _ _ _ _ _ |- Reads (bind (field _ (update_color_byte _ _) _ _) _) _ _ =>
      eapply step_color_byte; [lia|first [apply H|apply with_byte_fits; [lia|]; first [apply H|apply with_byte_fits; [lia|apply H]]]|reflexivity|]
  | H : if ?b then is_byte _ /\ is_byte _ else _ = Z.land _ _ /\ _ |- Reads (bind (field ?b _ _ _) _) _ _ =>
      eapply step_cache; [exact H|reflexivity|]
  | H : sends ?b _ _ _ |- Reads (bind (field ?b _ _ _) _) _ _ =>
      eapply Reads_step; [exact H|field_read|let E := fresh in intros E; cbn in E; rewrite E; reflexivity|]
  | H : brush_fits _ _ _ |- Reads (bind (update_read_brush _ _) _) _ _ => eapply Reads_bind; [apply Reads_brush; exact H|]
  | H : sends ?b _ _ _ |- Reads (bind (when_read ?b _ _) _) _ _ =>
      first [eapply step_skip8; [exact H|reflexivity|] | eapply step_skip16; [exact H|reflexivity|]]
  | H : if ?b then _ else _ |- Reads (bind (when_read ?b _ _) _) _ _ =>
      first [eapply step_data; [exact H|reflexivity|] | eapply step_group; [exact H|reflexivity|]
            | eapply step_polyline; [exact H|reflexivity|] | eapply step_accel; [exact H|reflexivity|]]
  end; cbv beta zeta.
Ltac order_done := eapply Reads_eq; [apply Reads_ret|reflexivity|].
Ltac order_reads fits wire reader :=
  unfold fits, wire, reader; intros H; repeat match type of H with _ /\ _ => let H' := fresh "F" in destruct H as [H' H] end;
  apply Reads_nil; rewrite <- ?app_assoc; repeat order_step.
