(* ===== verification/OrderSpec.v ===== *)
(** The primary drawing orders on the wire: for every order of
    [libfreerdp-core/orders.c] the bytes that stand for it, relative to the order
    the client remembers, and that its reader takes them back. *)

From coqutil Require Import Datatypes.RecordSetters.
From S2P Require Import Prelude.
From S2P Require Import Stream.
From S2P Require Import Gcc.
From S2P Require Import Fastpath.
From S2P Require Import Orders.
From S2P Require Import OrderWire.
Import TriangleBracketNotations.

Module DstBltWire.
Import DstBlt.

Definition wire (o : ORDER_INFO) (old new : DSTBLT_ORDER) : list Z :=
  only (has o ORDER_FIELD_01) (coord_wire o (nLeftRect old) (nLeftRect new)) ++
  only (has o ORDER_FIELD_02) (coord_wire o (nTopRect old) (nTopRect new)) ++
  only (has o ORDER_FIELD_03) (coord_wire o (nWidth old) (nWidth new)) ++
  only (has o ORDER_FIELD_04) (coord_wire o (nHeight old) (nHeight new)) ++
  only (has o ORDER_FIELD_05) [bRop new].

Definition fits (o : ORDER_INFO) (old new : DSTBLT_ORDER) : Prop :=
  sends (has o ORDER_FIELD_01) (coord_fits o (nLeftRect old) (nLeftRect new)) (nLeftRect new) (nLeftRect old) /\
  sends (has o ORDER_FIELD_02) (coord_fits o (nTopRect old) (nTopRect new)) (nTopRect new) (nTopRect old) /\
  sends (has o ORDER_FIELD_03) (coord_fits o (nWidth old) (nWidth new)) (nWidth new) (nWidth old) /\
  sends (has o ORDER_FIELD_04) (coord_fits o (nHeight old) (nHeight new)) (nHeight new) (nHeight old) /\
  sends (has o ORDER_FIELD_05) (fits8 (bRop new)) (bRop new) (bRop old).

Lemma reads_dstblt o old new : fits o old new -> Reads (update_read_dstblt_order o old) (wire o old new) new.
Proof.
  destruct old, new. order_reads fits wire update_read_dstblt_order. order_done; reflexivity.
Qed.
End DstBltWire.

Module PatBltWire.
Import PatBlt.

Definition wire (o : ORDER_INFO) (old new : PATBLT_ORDER) : list Z :=
  only (has o ORDER_FIELD_01) (coord_wire o (nLeftRect old) (nLeftRect new)) ++
  only (has o ORDER_FIELD_02) (coord_wire o (nTopRect old) (nTopRect new)) ++
  only (has o ORDER_FIELD_03) (coord_wire o (nWidth old) (nWidth new)) ++
  only (has o ORDER_FIELD_04) (coord_wire o (nHeight old) (nHeight new)) ++
  only (has o ORDER_FIELD_05) [bRop new] ++
  only (has o ORDER_FIELD_06) (color_wire (backColor new)) ++
  only (has o ORDER_FIELD_07) (color_wire (foreColor new)) ++
  brush_wire (uint8 (Z.shiftr (fieldFlags o) 7)) (brush new).

Definition fits (o : ORDER_INFO) (old new : PATBLT_ORDER) : Prop :=
  sends (has o ORDER_FIELD_01) (coord_fits o (nLeftRect old) (nLeftRect new)) (nLeftRect new) (nLeftRect old) /\
  sends (has o ORDER_FIELD_02) (coord_fits o (nTopRect old) (nTopRect new)) (nTopRect new) (nTopRect old) /\
  sends (has o ORDER_FIELD_03) (coord_fits o (nWidth old) (nWidth new)) (nWidth new) (nWidth old) /\
  sends (has o ORDER_FIELD_04) (coord_fits o (nHeight old) (nHeight new)) (nHeight new) (nHeight old) /\
  sends (has o ORDER_FIELD_05) (fits8 (bRop new)) (bRop new) (bRop old) /\
  sends (has o ORDER_FIELD_06) (fits24 (backColor new)) (backColor new) (backColor old) /\
  sends (has o ORDER_FIELD_07) (fits24 (foreColor new)) (foreColor new) (foreColor old) /\
  brush_fits (uint8 (Z.shiftr (fieldFlags o) 7)) (brush old) (brush new).

Lemma reads_patblt o old new : fits o old new -> Reads (update_read_patblt_order o old) (wire o old new) new.
Proof.
  destruct old, new. order_reads fits wire update_read_patblt_order. order_done; reflexivity.
Qed.
End PatBltWire.

Module ScrBltWire.
Import ScrBlt.

Definition wire (o : ORDER_INFO) (old new : SCRBLT_ORDER) : list Z :=
  only (has o ORDER_FIELD_01) (coord_wire o (nLeftRect old) (nLeftRect new)) ++
  only (has o ORDER_FIELD_02) (coord_wire o (nTopRect old) (nTopRect new)) ++
  only (has o ORDER_FIELD_03) (coord_wire o (nWidth old) (nWidth new)) ++
  only (has o ORDER_FIELD_04) (coord_wire o (nHeight old) (nHeight new)) ++
  only (has o ORDER_FIELD_05) [bRop new] ++
  only (has o ORDER_FIELD_06) (coord_wire o (nXSrc old) (nXSrc new)) ++
  only (has o ORDER_FIELD_07) (coord_wire o (nYSrc old) (nYSrc new)).

Definition fits (o : ORDER_INFO) (old new : SCRBLT_ORDER) : Prop :=
  sends (has o ORDER_FIELD_01) (coord_fits o (nLeftRect old) (nLeftRect new)) (nLeftRect new) (nLeftRect old) /\
  sends (has o ORDER_FIELD_02) (coord_fits o (nTopRect old) (nTopRect new)) (nTopRect new) (nTopRect old) /\
  sends (has o ORDER_FIELD_03) (coord_fits o (nWidth old) (nWidth new)) (nWidth new) (nWidth old) /\
  sends (has o ORDER_FIELD_04) (coord_fits o (nHeight old) (nHeight new)) (nHeight new) (nHeight old) /\
  sends (has o ORDER_FIELD_05) (fits8 (bRop new)) (bRop new) (bRop old) /\
  sends (has o ORDER_FIELD_06) (coord_fits o (nXSrc old) (nXSrc new)) (nXSrc new) (nXSrc old) /\
  sends (has o ORDER_FIELD_07) (coord_fits o (nYSrc old) (nYSrc new)) (nYSrc new) (nYSrc old).

Lemma reads_scrblt o old new : fits o old new -> Reads (update_read_scrblt_order o old) (wire o old new) new.
Proof.
  destruct old, new. order_reads fits wire update_read_scrblt_order. order_done; reflexivity.
Qed.
End ScrBltWire.

Module OpaqueRectWire.
Import OpaqueRect.

Definition wire (o : ORDER_INFO) (old new : OPAQUE_RECT_ORDER) : list Z :=
  only (has o ORDER_FIELD_01) (coord_wire o (nLeftRect old) (nLeftRect new)) ++
  only (has o ORDER_FIELD_02) (coord_wire o (nTopRect old) (nTopRect new)) ++
  only (has o ORDER_FIELD_03) (coord_wire o (nWidth old) (nWidth new)) ++
  only (has o ORDER_FIELD_04) (coord_wire o (nHeight old) (nHeight new)) ++
  only (has o ORDER_FIELD_05) [byte_of 0 (color new)] ++
  only (has o ORDER_FIELD_06) [byte_of 8 (color new)] ++
  only (has o ORDER_FIELD_07) [byte_of 16 (color new)].

Definition fits (o : ORDER_INFO) (old new : OPAQUE_RECT_ORDER) : Prop :=
  sends (has o ORDER_FIELD_01) (coord_fits o (nLeftRect old) (nLeftRect new)) (nLeftRect new) (nLeftRect old) /\
  sends (has o ORDER_FIELD_02) (coord_fits o (nTopRect old) (nTopRect new)) (nTopRect new) (nTopRect old) /\
  sends (has o ORDER_FIELD_03) (coord_fits o (nWidth old) (nWidth new)) (nWidth new) (nWidth old) /\
  sends (has o ORDER_FIELD_04) (coord_fits o (nHeight old) (nHeight new)) (nHeight new) (nHeight old) /\
  color_fits (has o ORDER_FIELD_05) (has o ORDER_FIELD_06) (has o ORDER_FIELD_07) (color old) (color new).

Lemma reads_opaque_rect o old new : fits o old new -> Reads (update_read_opaque_rect_order o old) (wire o old new) new.
Proof.
  destruct old, new. order_reads fits wire update_read_opaque_rect_order. order_done. cbn [apply_update]. unfold constant. f_equal. apply color_bytes; assumption.
Qed.
End OpaqueRectWire.

Module DrawNineGridWire.
Import DrawNineGrid.

Definition wire (o : ORDER_INFO) (old new : DRAW_NINE_GRID_ORDER) : list Z :=
  only (has o ORDER_FIELD_01) (coord_wire o (srcLeft old) (srcLeft new)) ++
  only (has o ORDER_FIELD_02) (coord_wire o (srcTop old) (srcTop new)) ++
  only (has o ORDER_FIELD_03) (coord_wire o (srcRight old) (srcRight new)) ++
  only (has o ORDER_FIELD_04) (coord_wire o (srcBottom old) (srcBottom new)) ++
  only (has o ORDER_FIELD_05) (le16 (bitmapId new)).

Definition fits (o : ORDER_INFO) (old new : DRAW_NINE_GRID_ORDER) : Prop :=
  sends (has o ORDER_FIELD_01) (coord_fits o (srcLeft old) (srcLeft new)) (srcLeft new) (srcLeft old) /\
  sends (has o ORDER_FIELD_02) (coord_fits o (srcTop old) (srcTop new)) (srcTop new) (srcTop old) /\
  sends (has o ORDER_FIELD_03) (coord_fits o (srcRight old) (srcRight new)) (srcRight new) (srcRight old) /\
  sends (has o ORDER_FIELD_04) (coord_fits o (srcBottom old) (srcBottom new)) (srcBottom new) (srcBottom old) /\
  sends (has o ORDER_FIELD_05) (fits16 (bitmapId new)) (bitmapId new) (bitmapId old).

Lemma reads_draw_nine_grid o old new : fits o old new -> Reads (update_read_draw_nine_grid_order o old) (wire o old new) new.
Proof.
  destruct old, new. order_reads fits wire update_read_draw_nine_grid_order. order_done; reflexivity.
Qed.
End DrawNineGridWire.

Module MultiDstBltWire.
Import MultiDstBlt.

Definition wire (o : ORDER_INFO) (old new : MULTI_DSTBLT_ORDER) : list Z :=
  only (has o ORDER_FIELD_01) (coord_wire o (nLeftRect old) (nLeftRect new)) ++
  only (has o ORDER_FIELD_02) (coord_wire o (nTopRect old) (nTopRect new)) ++
  only (has o ORDER_FIELD_03) (coord_wire o (nWidth old) (nWidth new)) ++
  only (has o ORDER_FIELD_04) (coord_wire o (nHeight old) (nHeight new)) ++
  only (has o ORDER_FIELD_05) [bRop new] ++
  only (has o ORDER_FIELD_06) [numRectangles new] ++
  only (has o ORDER_FIELD_07) (group_wire (numRectangles new) (cbData new) (rectangles new)).

Definition fits (o : ORDER_INFO) (old new : MULTI_DSTBLT_ORDER) : Prop :=
  sends (has o ORDER_FIELD_01) (coord_fits o (nLeftRect old) (nLeftRect new)) (nLeftRect new) (nLeftRect old) /\
  sends (has o ORDER_FIELD_02) (coord_fits o (nTopRect old) (nTopRect new)) (nTopRect new) (nTopRect old) /\
  sends (has o ORDER_FIELD_03) (coord_fits o (nWidth old) (nWidth new)) (nWidth new) (nWidth old) /\
  sends (has o ORDER_FIELD_04) (coord_fits o (nHeight old) (nHeight new)) (nHeight new) (nHeight old) /\
  sends (has o ORDER_FIELD_05) (fits8 (bRop new)) (bRop new) (bRop old) /\
  sends (has o ORDER_FIELD_06) (fits8 (numRectangles new)) (numRectangles new) (numRectangles old) /\
  (if (has o ORDER_FIELD_07) then group_fits (numRectangles new) (cbData new) (rectangles old) (rectangles new)
   else cbData new = cbData old /\ rectangles new = rectangles old).

Lemma reads_multi_dstblt o old new : fits o old new -> Reads (update_read_multi_dstblt_order o old) (wire o old new) new.
Proof.
  destruct old, new. order_reads fits wire update_read_multi_dstblt_order. order_done; reflexivity.
Qed.
End MultiDstBltWire.

Module MultiPatBltWire.
Import MultiPatBlt.

Definition wire (o : ORDER_INFO) (old new : MULTI_PATBLT_ORDER) : list Z :=
  only (has o ORDER_FIELD_01) (coord_wire o (nLeftRect old) (nLeftRect new)) ++
  only (has o ORDER_FIELD_02) (coord_wire o (nTopRect old) (nTopRect new)) ++
  only (has o ORDER_FIELD_03) (coord_wire o (nWidth old) (nWidth new)) ++
  only (has o ORDER_FIELD_04) (coord_wire o (nHeight old) (nHeight new)) ++
  only (has o ORDER_FIELD_05) [bRop new] ++
  only (has o ORDER_FIELD_06) (color_wire (backColor new)) ++
  only (has o ORDER_FIELD_07) (color_wire (foreColor new)) ++
  brush_wire (uint8 (Z.shiftr (fieldFlags o) 7)) (brush new) ++
  only (has o ORDER_FIELD_13) [numRectangles new] ++
  only (has o ORDER_FIELD_14) (group_wire (numRectangles new) (cbData new) (rectangles new)).

Definition fits (o : ORDER_INFO) (old new : MULTI_PATBLT_ORDER) : Prop :=
  sends (has o ORDER_FIELD_01) (coord_fits o (nLeftRect old) (nLeftRect new)) (nLeftRect new) (nLeftRect old) /\
  sends (has o ORDER_FIELD_02) (coord_fits o (nTopRect old) (nTopRect new)) (nTopRect new) (nTopRect old) /\
  sends (has o ORDER_FIELD_03) (coord_fits o (nWidth old) (nWidth new)) (nWidth new) (nWidth old) /\
  sends (has o ORDER_FIELD_04) (coord_fits o (nHeight old) (nHeight new)) (nHeight new) (nHeight old) /\
  sends (has o ORDER_FIELD_05) (fits8 (bRop new)) (bRop new) (bRop old) /\
  sends (has o ORDER_FIELD_06) (fits24 (backColor new)) (backColor new) (backColor old) /\
  sends (has o ORDER_FIELD_07) (fits24 (foreColor new)) (foreColor new) (foreColor old) /\
  brush_fits (uint8 (Z.shiftr (fieldFlags o) 7)) (brush old) (brush new) /\
  sends (has o ORDER_FIELD_13) (fits8 (numRectangles new)) (numRectangles new) (numRectangles old) /\
  (if (has o ORDER_FIELD_14) then group_fits (numRectangles new) (cbData new) (rectangles old) (rectangles new)
   else cbData new = cbData old /\ rectangles new = rectangles old).

Lemma reads_multi_patblt o old new : fits o old new -> Reads (update_read_multi_patblt_order o old) (wire o old new) new.
Proof.
  destruct old, new. order_reads fits wire update_read_multi_patblt_order. order_done; reflexivity.
Qed.
End MultiPatBltWire.

Module MultiScrBltWire.
Import MultiScrBlt.

Definition wire (o : ORDER_INFO) (old new : MULTI_SCRBLT_ORDER) : list Z :=
  only (has o ORDER_FIELD_01) (coord_wire o (nLeftRect old) (nLeftRect new)) ++
  only (has o ORDER_FIELD_02) (coord_wire o (nTopRect old) (nTopRect new)) ++
  only (has o ORDER_FIELD_03) (coord_wire o (nWidth old) (nWidth new)) ++
  only (has o ORDER_FIELD_04) (coord_wire o (nHeight old) (nHeight new)) ++
  only (has o ORDER_FIELD_05) [bRop new] ++
  only (has o ORDER_FIELD_06) (coord_wire o (nXSrc old) (nXSrc new)) ++
  only (has o ORDER_FIELD_07) (coord_wire o (nYSrc old) (nYSrc new)) ++
  only (has o ORDER_FIELD_08) [numRectangles new] ++
  only (has o ORDER_FIELD_09) (group_wire (numRectangles new) (cbData new) (rectangles new)).

Definition fits (o : ORDER_INFO) (old new : MULTI_SCRBLT_ORDER) : Prop :=
  sends (has o ORDER_FIELD_01) (coord_fits o (nLeftRect old) (nLeftRect new)) (nLeftRect new) (nLeftRect old) /\
  sends (has o ORDER_FIELD_02) (coord_fits o (nTopRect old) (nTopRect new)) (nTopRect new) (nTopRect old) /\
  sends (has o ORDER_FIELD_03) (coord_fits o (nWidth old) (nWidth new)) (nWidth new) (nWidth old) /\
  sends (has o ORDER_FIELD_04) (coord_fits o (nHeight old) (nHeight new)) (nHeight new) (nHeight old) /\
  sends (has o ORDER_FIELD_05) (fits8 (bRop new)) (bRop new) (bRop old) /\
  sends (has o ORDER_FIELD_06) (coord_fits o (nXSrc old) (nXSrc new)) (nXSrc new) (nXSrc old) /\
  sends (has o ORDER_FIELD_07) (coord_fits o (nYSrc old) (nYSrc new)) (nYSrc new) (nYSrc old) /\
  sends (has o ORDER_FIELD_08) (fits8 (numRectangles new)) (numRectangles new) (numRectangles old) /\
  (if (has o ORDER_FIELD_09) then group_fits (numRectangles new) (cbData new) (rectangles old) (rectangles new)
   else cbData new = cbData old /\ rectangles new = rectangles old).

Lemma reads_multi_scrblt o old new : fits o old new -> Reads (update_read_multi_scrblt_order o old) (wire o old new) new.
Proof.
  destruct old, new. order_reads fits wire update_read_multi_scrblt_order. order_done; reflexivity.
Qed.
End MultiScrBltWire.

Module MultiOpaqueRectWire.
Import MultiOpaqueRect.

Definition wire (o : ORDER_INFO) (old new : MULTI_OPAQUE_RECT_ORDER) : list Z :=
  only (has o ORDER_FIELD_01) (coord_wire o (nLeftRect old) (nLeftRect new)) ++
  only (has o ORDER_FIELD_02) (coord_wire o (nTopRect old) (nTopRect new)) ++
  only (has o ORDER_FIELD_03) (coord_wire o (nWidth old) (nWidth new)) ++
  only (has o ORDER_FIELD_04) (coord_wire o (nHeight old) (nHeight new)) ++
  only (has o ORDER_FIELD_05) [byte_of 0 (color new)] ++
  only (has o ORDER_FIELD_06) [byte_of 8 (color new)] ++
  only (has o ORDER_FIELD_07) [byte_of 16 (color new)] ++
  only (has o ORDER_FIELD_08) [numRectangles new] ++
  only (has o ORDER_FIELD_09) (group_wire (numRectangles new) (cbData new) (rectangles new)).

Definition fits (o : ORDER_INFO) (old new : MULTI_OPAQUE_RECT_ORDER) : Prop :=
  sends (has o ORDER_FIELD_01) (coord_fits o (nLeftRect old) (nLeftRect new)) (nLeftRect new) (nLeftRect old) /\
  sends (has o ORDER_FIELD_02) (coord_fits o (nTopRect old) (nTopRect new)) (nTopRect new) (nTopRect old) /\
  sends (has o ORDER_FIELD_03) (coord_fits o (nWidth old) (nWidth new)) (nWidth new) (nWidth old) /\
  sends (has o ORDER_FIELD_04) (coord_fits o (nHeight old) (nHeight new)) (nHeight new) (nHeight old) /\
  color_fits (has o ORDER_FIELD_05) (has o ORDER_FIELD_06) (has o ORDER_FIELD_07) (color old) (color new) /\
  sends (has o ORDER_FIELD_08) (fits8 (numRectangles new)) (numRectangles new) (numRectangles old) /\
  (if (has o ORDER_FIELD_09) then group_fits (numRectangles new) (cbData new) (rectangles old) (rectangles new)
   else cbData new = cbData old /\ rectangles new = rectangles old).

Lemma reads_multi_opaque_rect o old new : fits o old new -> Reads (update_read_multi_opaque_rect_order o old) (wire o old new) new.
Proof.
  destruct old, new. order_reads fits wire update_read_multi_opaque_rect_order. order_done. cbn [apply_update]. unfold constant. f_equal. apply color_bytes; assumption.
Qed.
End MultiOpaqueRectWire.

Module MultiDrawNineGridWire.
Import MultiDrawNineGrid.

Definition wire (o : ORDER_INFO) (old new : MULTI_DRAW_NINE_GRID_ORDER) : list Z :=
  only (has o ORDER_FIELD_01) (coord_wire o (srcLeft old) (srcLeft new)) ++
  only (has o ORDER_FIELD_02) (coord_wire o (srcTop old) (srcTop new)) ++
  only (has o ORDER_FIELD_03) (coord_wire o (srcRight old) (srcRight new)) ++
  only (has o ORDER_FIELD_04) (coord_wire o (srcBottom old) (srcBottom new)) ++
  only (has o ORDER_FIELD_05) (le16 (bitmapId new)) ++
  only (has o ORDER_FIELD_06) [nDeltaEntries new] ++
  only (has o ORDER_FIELD_07) (le16 (cbData new) ++ replicate (Z.to_nat (cbData new)) 0).

Definition fits (o : ORDER_INFO) (old new : MULTI_DRAW_NINE_GRID_ORDER) : Prop :=
  sends (has o ORDER_FIELD_01) (coord_fits o (srcLeft old) (srcLeft new)) (srcLeft new) (srcLeft old) /\
  sends (has o ORDER_FIELD_02) (coord_fits o (srcTop old) (srcTop new)) (srcTop new) (srcTop old) /\
  sends (has o ORDER_FIELD_03) (coord_fits o (srcRight old) (srcRight new)) (srcRight new) (srcRight old) /\
  sends (has o ORDER_FIELD_04) (coord_fits o (srcBottom old) (srcBottom new)) (srcBottom new) (srcBottom old) /\
  sends (has o ORDER_FIELD_05) (fits16 (bitmapId new)) (bitmapId new) (bitmapId old) /\
  sends (has o ORDER_FIELD_06) (fits8 (nDeltaEntries new)) (nDeltaEntries new) (nDeltaEntries old) /\
  sends (has o ORDER_FIELD_07) (fits16 (cbData new)) (cbData new) (cbData old).

Lemma reads_multi_draw_nine_grid o old new : fits o old new -> Reads (update_read_multi_draw_nine_grid_order o old) (wire o old new) new.
Proof.
  destruct old, new. order_reads fits wire update_read_multi_draw_nine_grid_order. order_done; reflexivity.
Qed.
End MultiDrawNineGridWire.

Module LineToWire.
Import LineTo.

Definition wire (o : ORDER_INFO) (old new : LINE_TO_ORDER) : list Z :=
  only (has o ORDER_FIELD_01) (le16 (backMode new)) ++
  only (has o ORDER_FIELD_02) (coord_wire o (nXStart old) (nXStart new)) ++
  only (has o ORDER_FIELD_03) (coord_wire o (nYStart old) (nYStart new)) ++
  only (has o ORDER_FIELD_04) (coord_wire o (nXEnd old) (nXEnd new)) ++
  only (has o ORDER_FIELD_05) (coord_wire o (nYEnd old) (nYEnd new)) ++
  only (has o ORDER_FIELD_06) (color_wire (backColor new)) ++
  only (has o ORDER_FIELD_07) [bRop2 new] ++
  only (has o ORDER_FIELD_08) [penStyle new] ++
  only (has o ORDER_FIELD_09) [penWidth new] ++
  only (has o ORDER_FIELD_10) (color_wire (penColor new)).

Definition fits (o : ORDER_INFO) (old new : LINE_TO_ORDER) : Prop :=
  sends (has o ORDER_FIELD_01) (fits16 (backMode new)) (backMode new) (backMode old) /\
  sends (has o ORDER_FIELD_02) (coord_fits o (nXStart old) (nXStart new)) (nXStart new) (nXStart old) /\
  sends (has o ORDER_FIELD_03) (coord_fits o (nYStart old) (nYStart new)) (nYStart new) (nYStart old) /\
  sends (has o ORDER_FIELD_04) (coord_fits o (nXEnd old) (nXEnd new)) (nXEnd new) (nXEnd old) /\
  sends (has o ORDER_FIELD_05) (coord_fits o (nYEnd old) (nYEnd new)) (nYEnd new) (nYEnd old) /\
  sends (has o ORDER_FIELD_06) (fits24 (backColor new)) (backColor new) (backColor old) /\
  sends (has o ORDER_FIELD_07) (fits8 (bRop2 new)) (bRop2 new) (bRop2 old) /\
  sends (has o ORDER_FIELD_08) (fits8 (penStyle new)) (penStyle new) (penStyle old) /\
  sends (has o ORDER_FIELD_09) (fits8 (penWidth new)) (penWidth new) (penWidth old) /\
  sends (has o ORDER_FIELD_10) (fits24 (penColor new)) (penColor new) (penColor old).

Lemma reads_line_to o old new : fits o old new -> Reads (update_read_line_to_order o old) (wire o old new) new.
Proof.
  destruct old, new. order_reads fits wire update_read_line_to_order. order_done; reflexivity.
Qed.
End LineToWire.

Module PolylineWire.
Import Polyline.

Definition wire (o : ORDER_INFO) (old new : POLYLINE_ORDER) : list Z :=
  only (has o ORDER_FIELD_01) (coord_wire o (xStart old) (xStart new)) ++
  only (has o ORDER_FIELD_02) (coord_wire o (yStart old) (yStart new)) ++
  only (has o ORDER_FIELD_03) [bRop2 new] ++
  only (has o ORDER_FIELD_04) [0; 0] ++
  only (has o ORDER_FIELD_05) (color_wire (penColor new)) ++
  only (has o ORDER_FIELD_06) [numPoints new] ++
  only (has o ORDER_FIELD_07) (polyline_wire (cbData new) (points new)).

Definition fits (o : ORDER_INFO) (old new : POLYLINE_ORDER) : Prop :=
  sends (has o ORDER_FIELD_01) (coord_fits o (xStart old) (xStart new)) (xStart new) (xStart old) /\
  sends (has o ORDER_FIELD_02) (coord_fits o (yStart old) (yStart new)) (yStart new) (yStart old) /\
  sends (has o ORDER_FIELD_03) (fits8 (bRop2 new)) (bRop2 new) (bRop2 old) /\
  sends (has o ORDER_FIELD_05) (fits24 (penColor new)) (penColor new) (penColor old) /\
  sends (has o ORDER_FIELD_06) (fits8 (numPoints new)) (numPoints new) (numPoints old) /\
  (if (has o ORDER_FIELD_07) then numPoints new = len (points new) /\ is_byte (cbData new) /\ Forall point_fits (points new)
   else cbData new = cbData old /\ points new = points old).

Lemma reads_polyline o old new : fits o old new -> Reads (update_read_polyline_order o old) (wire o old new) new.
Proof.
  destruct old, new. order_reads fits wire update_read_polyline_order. order_done; reflexivity.
Qed.
End PolylineWire.

Module MemBltWire.
Import MemBlt.

Definition wire (o : ORDER_INFO) (old new : MEMBLT_ORDER) : list Z :=
  only (has o ORDER_FIELD_01) (le16 (cacheId new + 256 * colorIndex new)) ++
  only (has o ORDER_FIELD_02) (coord_wire o (nLeftRect old) (nLeftRect new)) ++
  only (has o ORDER_FIELD_03) (coord_wire o (nTopRect old) (nTopRect new)) ++
  only (has o ORDER_FIELD_04) (coord_wire o (nWidth old) (nWidth new)) ++
  only (has o ORDER_FIELD_05) (coord_wire o (nHeight old) (nHeight new)) ++
  only (has o ORDER_FIELD_06) [bRop new] ++
  only (has o ORDER_FIELD_07) (coord_wire o (nXSrc old) (nXSrc new)) ++
  only (has o ORDER_FIELD_08) (coord_wire o (nYSrc old) (nYSrc new)) ++
  only (has o ORDER_FIELD_09) (le16 (cacheIndex new)).

(** A cache id that is left out makes the reader take the colour table index
    out of the remembered id, of which the high byte is gone. *)
Definition fits (o : ORDER_INFO) (old new : MEMBLT_ORDER) : Prop :=
  (if (has o ORDER_FIELD_01) then is_byte (cacheId new) /\ is_byte (colorIndex new)
   else cacheId new = Z.land (cacheId old) 0xFF /\ colorIndex new = Z.shiftr (cacheId old) 8) /\
  sends (has o ORDER_FIELD_02) (coord_fits o (nLeftRect old) (nLeftRect new)) (nLeftRect new) (nLeftRect old) /\
  sends (has o ORDER_FIELD_03) (coord_fits o (nTopRect old) (nTopRect new)) (nTopRect new) (nTopRect old) /\
  sends (has o ORDER_FIELD_04) (coord_fits o (nWidth old) (nWidth new)) (nWidth new) (nWidth old) /\
  sends (has o ORDER_FIELD_05) (coord_fits o (nHeight old) (nHeight new)) (nHeight new) (nHeight old) /\
  sends (has o ORDER_FIELD_06) (fits8 (bRop new)) (bRop new) (bRop old) /\
  sends (has o ORDER_FIELD_07) (coord_fits o (nXSrc old) (nXSrc new)) (nXSrc new) (nXSrc old) /\
  sends (has o ORDER_FIELD_08) (coord_fits o (nYSrc old) (nYSrc new)) (nYSrc new) (nYSrc old) /\
  sends (has o ORDER_FIELD_09) (fits16 (cacheIndex new)) (cacheIndex new) (cacheIndex old).

Lemma reads_memblt o old new : fits o old new -> Reads (update_read_memblt_order o old) (wire o old new) new.
Proof.
  destruct old, new. order_reads fits wire update_read_memblt_order. order_done.
  destruct (cache_word_split (has o ORDER_FIELD_01) cacheId1 colorIndex1 cacheId0 F) as [E1 E2].
  cbn [apply_update]. unfold constant. f_equal; assumption.
Qed.
End MemBltWire.

Module Mem3BltWire.
Import Mem3Blt.

Definition wire (o : ORDER_INFO) (old new : MEM3BLT_ORDER) : list Z :=
  only (has o ORDER_FIELD_01) (le16 (cacheId new + 256 * colorIndex new)) ++
  only (has o ORDER_FIELD_02) (coord_wire o (nLeftRect old) (nLeftRect new)) ++
  only (has o ORDER_FIELD_03) (coord_wire o (nTopRect old) (nTopRect new)) ++
  only (has o ORDER_FIELD_04) (coord_wire o (nWidth old) (nWidth new)) ++
  only (has o ORDER_FIELD_05) (coord_wire o (nHeight old) (nHeight new)) ++
  only (has o ORDER_FIELD_06) [bRop new] ++
  only (has o ORDER_FIELD_07) (coord_wire o (nXSrc old) (nXSrc new)) ++
  only (has o ORDER_FIELD_08) (coord_wire o (nYSrc old) (nYSrc new)) ++
  only (has o ORDER_FIELD_09) (color_wire (backColor new)) ++
  only (has o ORDER_FIELD_10) (color_wire (foreColor new)) ++
  brush_wire (uint8 (Z.shiftr (fieldFlags o) 10)) (brush new) ++
  only (has o ORDER_FIELD_16) (le16 (cacheIndex new)).

(** A cache id that is left out makes the reader take the colour table index
    out of the remembered id, of which the high byte is gone. *)
Definition fits (o : ORDER_INFO) (old new : MEM3BLT_ORDER) : Prop :=
  (if (has o ORDER_FIELD_01) then is_byte (cacheId new) /\ is_byte (colorIndex new)
   else cacheId new = Z.land (cacheId old) 0xFF /\ colorIndex new = Z.shiftr (cacheId old) 8) /\
  sends (has o ORDER_FIELD_02) (coord_fits o (nLeftRect old) (nLeftRect new)) (nLeftRect new) (nLeftRect old) /\
  sends (has o ORDER_FIELD_03) (coord_fits o (nTopRect old) (nTopRect new)) (nTopRect new) (nTopRect old) /\
  sends (has o ORDER_FIELD_04) (coord_fits o (nWidth old) (nWidth new)) (nWidth new) (nWidth old) /\
  sends (has o ORDER_FIELD_05) (coord_fits o (nHeight old) (nHeight new)) (nHeight new) (nHeight old) /\
  sends (has o ORDER_FIELD_06) (fits8 (bRop new)) (bRop new) (bRop old) /\
  sends (has o ORDER_FIELD_07) (coord_fits o (nXSrc old) (nXSrc new)) (nXSrc new) (nXSrc old) /\
  sends (has o ORDER_FIELD_08) (coord_fits o (nYSrc old) (nYSrc new)) (nYSrc new) (nYSrc old) /\
  sends (has o ORDER_FIELD_09) (fits24 (backColor new)) (backColor new) (backColor old) /\
  sends (has o ORDER_FIELD_10) (fits24 (foreColor new)) (foreColor new) (foreColor old) /\
  brush_fits (uint8 (Z.shiftr (fieldFlags o) 10)) (brush old) (brush new) /\
  sends (has o ORDER_FIELD_16) (fits16 (cacheIndex new)) (cacheIndex new) (cacheIndex old).

Lemma reads_mem3blt o old new : fits o old new -> Reads (update_read_mem3blt_order o old) (wire o old new) new.
Proof.
  destruct old, new. order_reads fits wire update_read_mem3blt_order. order_done.
  destruct (cache_word_split (has o ORDER_FIELD_01) cacheId1 colorIndex1 cacheId0 F) as [E1 E2].
  cbn [apply_update]. unfold constant. f_equal; assumption.
Qed.
End Mem3BltWire.

Module SaveBitmapWire.
Import SaveBitmap.

Definition wire (o : ORDER_INFO) (old new : SAVE_BITMAP_ORDER) : list Z :=
  only (has o ORDER_FIELD_01) (le32 (savedBitmapPosition new)) ++
  only (has o ORDER_FIELD_02) (coord_wire o (nLeftRect old) (nLeftRect new)) ++
  only (has o ORDER_FIELD_03) (coord_wire o (nTopRect old) (nTopRect new)) ++
  only (has o ORDER_FIELD_04) (coord_wire o (nRightRect old) (nRightRect new)) ++
  only (has o ORDER_FIELD_05) (coord_wire o (nBottomRect old) (nBottomRect new)) ++
  only (has o ORDER_FIELD_06) [operation new].

Definition fits (o : ORDER_INFO) (old new : SAVE_BITMAP_ORDER) : Prop :=
  sends (has o ORDER_FIELD_01) (fits32 (savedBitmapPosition new)) (savedBitmapPosition new) (savedBitmapPosition old) /\
  sends (has o ORDER_FIELD_02) (coord_fits o (nLeftRect old) (nLeftRect new)) (nLeftRect new) (nLeftRect old) /\
  sends (has o ORDER_FIELD_03) (coord_fits o (nTopRect old) (nTopRect new)) (nTopRect new) (nTopRect old) /\
  sends (has o ORDER_FIELD_04) (coord_fits o (nRightRect old) (nRightRect new)) (nRightRect new) (nRightRect old) /\
  sends (has o ORDER_FIELD_05) (coord_fits o (nBottomRect old) (nBottomRect new)) (nBottomRect new) (nBottomRect old) /\
  sends (has o ORDER_FIELD_06) (fits8 (operation new)) (operation new) (operation old).

Lemma reads_save_bitmap o old new : fits o old new -> Reads (update_read_save_bitmap_order o old) (wire o old new) new.
Proof.
  destruct old, new. order_reads fits wire update_read_save_bitmap_order. order_done; reflexivity.
Qed.
End SaveBitmapWire.

Module GlyphIndexWire.
Import GlyphIndex.

Definition wire (o : ORDER_INFO) (old new : GLYPH_INDEX_ORDER) : list Z :=
  only (has o ORDER_FIELD_01) [cacheId new] ++
  only (has o ORDER_FIELD_02) [flAccel new] ++
  only (has o ORDER_FIELD_03) [ulCharInc new] ++
  only (has o ORDER_FIELD_04) [fOpRedundant new] ++
  only (has o ORDER_FIELD_05) (color_wire (backColor new)) ++
  only (has o ORDER_FIELD_06) (color_wire (foreColor new)) ++
  only (has o ORDER_FIELD_07) (le16 (uint16 (bkLeft new))) ++
  only (has o ORDER_FIELD_08) (le16 (uint16 (bkTop new))) ++
  only (has o ORDER_FIELD_09) (le16 (uint16 (bkRight new))) ++
  only (has o ORDER_FIELD_10) (le16 (uint16 (bkBottom new))) ++
  only (has o ORDER_FIELD_11) (le16 (uint16 (opLeft new))) ++
  only (has o ORDER_FIELD_12) (le16 (uint16 (opTop new))) ++
  only (has o ORDER_FIELD_13) (le16 (uint16 (opRight new))) ++
  only (has o ORDER_FIELD_14) (le16 (uint16 (opBottom new))) ++
  brush_wire (uint8 (Z.shiftr (fieldFlags o) 14)) (brush new) ++
  only (has o ORDER_FIELD_20) (le16 (uint16 (x new))) ++
  only (has o ORDER_FIELD_21) (le16 (uint16 (y new))) ++
  only (has o ORDER_FIELD_22) (data_wire (cbData new) (data new)).

Definition fits (o : ORDER_INFO) (old new : GLYPH_INDEX_ORDER) : Prop :=
  sends (has o ORDER_FIELD_01) (fits8 (cacheId new)) (cacheId new) (cacheId old) /\
  sends (has o ORDER_FIELD_02) (fits8 (flAccel new)) (flAccel new) (flAccel old) /\
  sends (has o ORDER_FIELD_03) (fits8 (ulCharInc new)) (ulCharInc new) (ulCharInc old) /\
  sends (has o ORDER_FIELD_04) (fits8 (fOpRedundant new)) (fOpRedundant new) (fOpRedundant old) /\
  sends (has o ORDER_FIELD_05) (fits24 (backColor new)) (backColor new) (backColor old) /\
  sends (has o ORDER_FIELD_06) (fits24 (foreColor new)) (foreColor new) (foreColor old) /\
  sends (has o ORDER_FIELD_07) (fits_sint16 (bkLeft new)) (bkLeft new) (bkLeft old) /\
  sends (has o ORDER_FIELD_08) (fits_sint16 (bkTop new)) (bkTop new) (bkTop old) /\
  sends (has o ORDER_FIELD_09) (fits_sint16 (bkRight new)) (bkRight new) (bkRight old) /\
  sends (has o ORDER_FIELD_10) (fits_sint16 (bkBottom new)) (bkBottom new) (bkBottom old) /\
  sends (has o ORDER_FIELD_11) (fits_sint16 (opLeft new)) (opLeft new) (opLeft old) /\
  sends (has o ORDER_FIELD_12) (fits_sint16 (opTop new)) (opTop new) (opTop old) /\
  sends (has o ORDER_FIELD_13) (fits_sint16 (opRight new)) (opRight new) (opRight old) /\
  sends (has o ORDER_FIELD_14) (fits_sint16 (opBottom new)) (opBottom new) (opBottom old) /\
  brush_fits (uint8 (Z.shiftr (fieldFlags o) 14)) (brush old) (brush new) /\
  sends (has o ORDER_FIELD_20) (fits_sint16 (x new)) (x new) (x old) /\
  sends (has o ORDER_FIELD_21) (fits_sint16 (y new)) (y new) (y old) /\
  (if (has o ORDER_FIELD_22) then data_fits (cbData new) (data old) (data new)
   else cbData new = cbData old /\ data new = data old).

Lemma reads_glyph_index o old new : fits o old new -> Reads (update_read_glyph_index_order o old) (wire o old new) new.
Proof.
  destruct old, new. order_reads fits wire update_read_glyph_index_order. order_done; reflexivity.
Qed.
End GlyphIndexWire.

Module FastIndexWire.
Import FastIndex.

Definition wire (o : ORDER_INFO) (old new : FAST_INDEX_ORDER) : list Z :=
  only (has o ORDER_FIELD_01) [cacheId new] ++
  only (has o ORDER_FIELD_02) [ulCharInc new; flAccel new] ++
  only (has o ORDER_FIELD_03) (color_wire (backColor new)) ++
  only (has o ORDER_FIELD_04) (color_wire (foreColor new)) ++
  only (has o ORDER_FIELD_05) (coord_wire o (bkLeft old) (bkLeft new)) ++
  only (has o ORDER_FIELD_06) (coord_wire o (bkTop old) (bkTop new)) ++
  only (has o ORDER_FIELD_07) (coord_wire o (bkRight old) (bkRight new)) ++
  only (has o ORDER_FIELD_08) (coord_wire o (bkBottom old) (bkBottom new)) ++
  only (has o ORDER_FIELD_09) (coord_wire o (opLeft old) (opLeft new)) ++
  only (has o ORDER_FIELD_10) (coord_wire o (opTop old) (opTop new)) ++
  only (has o ORDER_FIELD_11) (coord_wire o (opRight old) (opRight new)) ++
  only (has o ORDER_FIELD_12) (coord_wire o (opBottom old) (opBottom new)) ++
  only (has o ORDER_FIELD_13) (coord_wire o (x old) (x new)) ++
  only (has o ORDER_FIELD_14) (coord_wire o (y old) (y new)) ++
  only (has o ORDER_FIELD_15) (data_wire (cbData new) (data new)).

Definition fits (o : ORDER_INFO) (old new : FAST_INDEX_ORDER) : Prop :=
  sends (has o ORDER_FIELD_01) (fits8 (cacheId new)) (cacheId new) (cacheId old) /\
  (if (has o ORDER_FIELD_02) then is_byte (ulCharInc new) /\ is_byte (flAccel new)
   else ulCharInc new = ulCharInc old /\ flAccel new = flAccel old) /\
  sends (has o ORDER_FIELD_03) (fits24 (backColor new)) (backColor new) (backColor old) /\
  sends (has o ORDER_FIELD_04) (fits24 (foreColor new)) (foreColor new) (foreColor old) /\
  sends (has o ORDER_FIELD_05) (coord_fits o (bkLeft old) (bkLeft new)) (bkLeft new) (bkLeft old) /\
  sends (has o ORDER_FIELD_06) (coord_fits o (bkTop old) (bkTop new)) (bkTop new) (bkTop old) /\
  sends (has o ORDER_FIELD_07) (coord_fits o (bkRight old) (bkRight new)) (bkRight new) (bkRight old) /\
  sends (has o ORDER_FIELD_08) (coord_fits o (bkBottom old) (bkBottom new)) (bkBottom new) (bkBottom old) /\
  sends (has o ORDER_FIELD_09) (coord_fits o (opLeft old) (opLeft new)) (opLeft new) (opLeft old) /\
  sends (has o ORDER_FIELD_10) (coord_fits o (opTop old) (opTop new)) (opTop new) (opTop old) /\
  sends (has o ORDER_FIELD_11) (coord_fits o (opRight old) (opRight new)) (opRight new) (opRight old) /\
  sends (has o ORDER_FIELD_12) (coord_fits o (opBottom old) (opBottom new)) (opBottom new) (opBottom old) /\
  sends (has o ORDER_FIELD_13) (coord_fits o (x old) (x new)) (x new) (x old) /\
  sends (has o ORDER_FIELD_14) (coord_fits o (y old) (y new)) (y new) (y old) /\
  (if (has o ORDER_FIELD_15) then data_fits (cbData new) (data old) (data new)
   else cbData new = cbData old /\ data new = data old) /\
  opaqueRect new = opaqueRect old.

Lemma reads_fast_index o old new : fits o old new -> Reads (update_read_fast_index_order o old) (wire o old new) new.
Proof.
  destruct old, new. order_reads fits wire update_read_fast_index_order. order_done. cbn in H. rewrite H. reflexivity.
Qed.
End FastIndexWire.

Module FastGlyphWire.
Import FastGlyph.

Definition wire (o : ORDER_INFO) (old new : FAST_GLYPH_ORDER) : list Z :=
  only (has o ORDER_FIELD_01) [cacheId new] ++
  only (has o ORDER_FIELD_02) [ulCharInc new; flAccel new] ++
  only (has o ORDER_FIELD_03) (color_wire (backColor new)) ++
  only (has o ORDER_FIELD_04) (color_wire (foreColor new)) ++
  only (has o ORDER_FIELD_05) (coord_wire o (bkLeft old) (bkLeft new)) ++
  only (has o ORDER_FIELD_06) (coord_wire o (bkTop old) (bkTop new)) ++
  only (has o ORDER_FIELD_07) (coord_wire o (bkRight old) (bkRight new)) ++
  only (has o ORDER_FIELD_08) (coord_wire o (bkBottom old) (bkBottom new)) ++
  only (has o ORDER_FIELD_09) (coord_wire o (opLeft old) (opLeft new)) ++
  only (has o ORDER_FIELD_10) (coord_wire o (opTop old) (opTop new)) ++
  only (has o ORDER_FIELD_11) (coord_wire o (opRight old) (opRight new)) ++
  only (has o ORDER_FIELD_12) (coord_wire o (opBottom old) (opBottom new)) ++
  only (has o ORDER_FIELD_13) (coord_wire o (x old) (x new)) ++
  only (has o ORDER_FIELD_14) (coord_wire o (y old) (y new)) ++
  only (has o ORDER_FIELD_15) (data_wire (cbData new) (data new)).

(** With data behind the index there is a glyph in it, unless one is still there. *)
Definition glyph_group_fits (old new : FAST_GLYPH_ORDER) : Prop :=
  data_fits (cbData new) (data old) (data new) /\
  match glyph_data old with
  | None =>
      if 1 <? cbData new then
        exists g pad, glyph_data new = Some g /\ glyph_fits g /\
          take (Z.to_nat (cbData new)) (data new) = (gl_cacheIndex g :: glyph_wire g) ++ pad
      else glyph_data new = None
  | Some _ => glyph_data new = glyph_data old
  end.

Definition fits (o : ORDER_INFO) (old new : FAST_GLYPH_ORDER) : Prop :=
  sends (has o ORDER_FIELD_01) (fits8 (cacheId new)) (cacheId new) (cacheId old) /\
  (if (has o ORDER_FIELD_02) then is_byte (ulCharInc new) /\ is_byte (flAccel new)
   else ulCharInc new = ulCharInc old /\ flAccel new = flAccel old) /\
  sends (has o ORDER_FIELD_03) (fits24 (backColor new)) (backColor new) (backColor old) /\
  sends (has o ORDER_FIELD_04) (fits24 (foreColor new)) (foreColor new) (foreColor old) /\
  sends (has o ORDER_FIELD_05) (coord_fits o (bkLeft old) (bkLeft new)) (bkLeft new) (bkLeft old) /\
  sends (has o ORDER_FIELD_06) (coord_fits o (bkTop old) (bkTop new)) (bkTop new) (bkTop old) /\
  sends (has o ORDER_FIELD_07) (coord_fits o (bkRight old) (bkRight new)) (bkRight new) (bkRight old) /\
  sends (has o ORDER_FIELD_08) (coord_fits o (bkBottom old) (bkBottom new)) (bkBottom new) (bkBottom old) /\
  sends (has o ORDER_FIELD_09) (coord_fits o (opLeft old) (opLeft new)) (opLeft new) (opLeft old) /\
  sends (has o ORDER_FIELD_10) (coord_fits o (opTop old) (opTop new)) (opTop new) (opTop old) /\
  sends (has o ORDER_FIELD_11) (coord_fits o (opRight old) (opRight new)) (opRight new) (opRight old) /\
  sends (has o ORDER_FIELD_12) (coord_fits o (opBottom old) (opBottom new)) (opBottom new) (opBottom old) /\
  sends (has o ORDER_FIELD_13) (coord_fits o (x old) (x new)) (x new) (x old) /\
  sends (has o ORDER_FIELD_14) (coord_fits o (y old) (y new)) (y new) (y old) /\
  (if (has o ORDER_FIELD_15) then glyph_group_fits old new
   else cbData new = cbData old /\ data new = data old /\ glyph_data new = glyph_data old).

Lemma reads_glyph_group d new : glyph_group_fits d new ->
  Reads (read_fast_glyph_data d) (data_wire (cbData new) (data new))
    (d <| cbData := cbData new |> <| data := data new |> <| glyph_data := glyph_data new |>).
Proof.
  intros [Hd Hg] s Hs. unfold data_wire in *. change (cbData new :: ?l) with ([cbData new] ++ l) in Hs.
  destruct (holds_app _ _ _ Hs) as [H1 H2]. pose proof (len_take_data _ _ _ Hd) as Hcb.
  unfold read_fast_glyph_data.
  rewrite (bind_Done _ _ _ (cbData new) (adv 1 s)) by (apply (Reads_uint8 _ _ H1)).
  change (len [cbData new]) with 1 in H2. set (s1 := adv 1 s) in *.
  rewrite (bind_Done _ _ _ (take (Z.to_nat (cbData new)) (data new)) s1)
    by (unfold peek_bytes; rewrite (Reads_read _ _ Hcb _ H2); reflexivity).
  rewrite (bind_Done _ _ _ (data new) s1) by (apply copy_data_ok, Hd). cbv zeta.
  rewrite (bind_Done _ _ _ (s_p s1) s1) by reflexivity.
  rewrite (bind_Done _ _ _ tt (adv 1 s1)) by reflexivity.
  assert (E : exists s2, (match glyph_data (d <| cbData := cbData new |> <| data := data new |>) with
    | None => if 1 <? cbData new then
          let! cacheIndex := elem (data new) 0 in let! glyph := read_glyph_v2 cacheIndex in
          ret (d <| cbData := cbData new |> <| data := data new |> <| glyph_data := Some glyph |>)
        else ret (d <| cbData := cbData new |> <| data := data new |>)
    | Some _ => ret (d <| cbData := cbData new |> <| data := data new |>)
    end) (adv 1 s1) = Done (d <| cbData := cbData new |> <| data := data new |> <| glyph_data := glyph_data new |>, s2)
    /\ s_data s2 = s_data s /\ s_size s2 = s_size s).
  { replace (glyph_data (d <| cbData := cbData new |> <| data := data new |>)) with (glyph_data d) by (destruct d; reflexivity).
    destruct (glyph_data d) as [g|] eqn:Eg.
    - exists (adv 1 s1). split; [|split; reflexivity]. rewrite Hg. destruct d. cbn in Eg |- *. rewrite Eg. reflexivity.
    - destruct (1 <? cbData new).
      + destruct Hg as (g & pad & Hgn & Hf & Ht). rewrite Ht in H2. destruct (holds_app _ _ _ H2) as [H3 _].
        change (gl_cacheIndex g :: glyph_wire g) with ([gl_cacheIndex g] ++ glyph_wire g) in H3. apply holds_app in H3 as [_ H3].
        assert (Hi : data new !! 0%nat = Some (gl_cacheIndex g)).
        { rewrite <- (take_drop (Z.to_nat (cbData new)) (data new)), Ht. reflexivity. }
        rewrite (bind_Done _ _ _ (gl_cacheIndex g) (adv 1 s1)) by (unfold elem; change (Z.to_nat 0) with 0%nat; rewrite Hi; reflexivity).
        rewrite (bind_Done _ _ _ _ _ (Reads_glyph g Hf _ H3)). rewrite Hgn. eexists. split; [reflexivity|split; reflexivity].
      + exists (adv 1 s1). split; [|split; reflexivity]. rewrite Hg. destruct d. cbn in Eg |- *. rewrite Eg. reflexivity. }
  destruct E as (s2 & E & Es & Ez). rewrite (bind_Done _ _ _ _ _ E).
  rewrite (bind_Done _ _ _ tt (set_p s2 (s_p s1 + cbData new))) by reflexivity. unfold ret. repeat f_equal.
  rewrite len_cons, <- Hcb. unfold s1, adv, set_p. cbn. rewrite Es, Ez. f_equal. lia.
Qed.

Lemma step_glyph {C} (b : bool) d (K : FAST_GLYPH_ORDER -> M STREAM C) rest final new :
  (if b then glyph_group_fits d new else cbData new = cbData d /\ data new = data d /\ glyph_data new = glyph_data d) ->
  Reads (K (d <| cbData := cbData new |> <| data := data new |> <| glyph_data := glyph_data new |>)) rest final ->
  Reads (bind (when_read b (read_fast_glyph_data d) d) K) (only b (data_wire (cbData new) (data new)) ++ rest) final.
Proof.
  intros H HK. eapply Reads_when; [|exact HK]. destruct b; [apply reads_glyph_group, H|].
  destruct H as (-> & -> & ->). destruct d. reflexivity.
Qed.

Lemma reads_fast_glyph o old new : fits o old new -> Reads (update_read_fast_glyph_order o old) (wire o old new) new.
Proof.
  destruct old, new. order_reads fits wire update_read_fast_glyph_order.
  eapply step_glyph; [exact H|]. order_done. reflexivity.
Qed.
End FastGlyphWire.

Module PolygonSCWire.
Import PolygonSC.

Definition wire (o : ORDER_INFO) (old new : POLYGON_SC_ORDER) : list Z :=
  only (has o ORDER_FIELD_01) (coord_wire o (xStart old) (xStart new)) ++
  only (has o ORDER_FIELD_02) (coord_wire o (yStart old) (yStart new)) ++
  only (has o ORDER_FIELD_03) [bRop2 new] ++
  only (has o ORDER_FIELD_04) [fillMode new] ++
  only (has o ORDER_FIELD_05) (color_wire (brushColor new)) ++
  only (has o ORDER_FIELD_06) [nDeltaEntries new] ++
  only (has o ORDER_FIELD_07) ([cbData new] ++ replicate (Z.to_nat (cbData new)) 0).

Definition fits (o : ORDER_INFO) (old new : POLYGON_SC_ORDER) : Prop :=
  sends (has o ORDER_FIELD_01) (coord_fits o (xStart old) (xStart new)) (xStart new) (xStart old) /\
  sends (has o ORDER_FIELD_02) (coord_fits o (yStart old) (yStart new)) (yStart new) (yStart old) /\
  sends (has o ORDER_FIELD_03) (fits8 (bRop2 new)) (bRop2 new) (bRop2 old) /\
  sends (has o ORDER_FIELD_04) (fits8 (fillMode new)) (fillMode new) (fillMode old) /\
  sends (has o ORDER_FIELD_05) (fits24 (brushColor new)) (brushColor new) (brushColor old) /\
  sends (has o ORDER_FIELD_06) (fits8 (nDeltaEntries new)) (nDeltaEntries new) (nDeltaEntries old) /\
  sends (has o ORDER_FIELD_07) (fits8 (cbData new)) (cbData new) (cbData old).

Lemma reads_polygon_sc o old new : fits o old new -> Reads (update_read_polygon_sc_order o old) (wire o old new) new.
Proof.
  destruct old, new. order_reads fits wire update_read_polygon_sc_order. order_done; reflexivity.
Qed.
End PolygonSCWire.

Module PolygonCBWire.
Import PolygonCB.

Definition wire (o : ORDER_INFO) (old new : POLYGON_CB_ORDER) : list Z :=
  only (has o ORDER_FIELD_01) (coord_wire o (xStart old) (xStart new)) ++
  only (has o ORDER_FIELD_02) (coord_wire o (yStart old) (yStart new)) ++
  only (has o ORDER_FIELD_03) [bRop2 new] ++
  only (has o ORDER_FIELD_04) [fillMode new] ++
  only (has o ORDER_FIELD_05) (color_wire (backColor new)) ++
  only (has o ORDER_FIELD_06) (color_wire (foreColor new)) ++
  brush_wire (uint8 (Z.shiftr (fieldFlags o) 6)) (brush new) ++
  only (has o ORDER_FIELD_12) [nDeltaEntries new] ++
  only (has o ORDER_FIELD_13) ([cbData new] ++ replicate (Z.to_nat (cbData new)) 0).

Definition fits (o : ORDER_INFO) (old new : POLYGON_CB_ORDER) : Prop :=
  sends (has o ORDER_FIELD_01) (coord_fits o (xStart old) (xStart new)) (xStart new) (xStart old) /\
  sends (has o ORDER_FIELD_02) (coord_fits o (yStart old) (yStart new)) (yStart new) (yStart old) /\
  sends (has o ORDER_FIELD_03) (fits8 (bRop2 new)) (bRop2 new) (bRop2 old) /\
  sends (has o ORDER_FIELD_04) (fits8 (fillMode new)) (fillMode new) (fillMode old) /\
  sends (has o ORDER_FIELD_05) (fits24 (backColor new)) (backColor new) (backColor old) /\
  sends (has o ORDER_FIELD_06) (fits24 (foreColor new)) (foreColor new) (foreColor old) /\
  brush_fits (uint8 (Z.shiftr (fieldFlags o) 6)) (brush old) (brush new) /\
  sends (has o ORDER_FIELD_12) (fits8 (nDeltaEntries new)) (nDeltaEntries new) (nDeltaEntries old) /\
  sends (has o ORDER_FIELD_13) (fits8 (cbData new)) (cbData new) (cbData old).

Lemma reads_polygon_cb o old new : fits o old new -> Reads (update_read_polygon_cb_order o old) (wire o old new) new.
Proof.
  destruct old, new. order_reads fits wire update_read_polygon_cb_order. order_done; reflexivity.
Qed.
End PolygonCBWire.

Module EllipseSCWire.
Import EllipseSC.

Definition wire (o : ORDER_INFO) (old new : ELLIPSE_SC_ORDER) : list Z :=
  only (has o ORDER_FIELD_01) (coord_wire o (leftRect old) (leftRect new)) ++
  only (has o ORDER_FIELD_02) (coord_wire o (topRect old) (topRect new)) ++
  only (has o ORDER_FIELD_03) (coord_wire o (rightRect old) (rightRect new)) ++
  only (has o ORDER_FIELD_04) (coord_wire o (bottomRect old) (bottomRect new)) ++
  only (has o ORDER_FIELD_05) [bRop2 new] ++
  only (has o ORDER_FIELD_06) [fillMode new] ++
  only (has o ORDER_FIELD_07) (color_wire (color new)).

Definition fits (o : ORDER_INFO) (old new : ELLIPSE_SC_ORDER) : Prop :=
  sends (has o ORDER_FIELD_01) (coord_fits o (leftRect old) (leftRect new)) (leftRect new) (leftRect old) /\
  sends (has o ORDER_FIELD_02) (coord_fits o (topRect old) (topRect new)) (topRect new) (topRect old) /\
  sends (has o ORDER_FIELD_03) (coord_fits o (rightRect old) (rightRect new)) (rightRect new) (rightRect old) /\
  sends (has o ORDER_FIELD_04) (coord_fits o (bottomRect old) (bottomRect new)) (bottomRect new) (bottomRect old) /\
  sends (has o ORDER_FIELD_05) (fits8 (bRop2 new)) (bRop2 new) (bRop2 old) /\
  sends (has o ORDER_FIELD_06) (fits8 (fillMode new)) (fillMode new) (fillMode old) /\
  sends (has o ORDER_FIELD_07) (fits24 (color new)) (color new) (color old).

Lemma reads_ellipse_sc o old new : fits o old new -> Reads (update_read_ellipse_sc_order o old) (wire o old new) new.
Proof.
  destruct old, new. order_reads fits wire update_read_ellipse_sc_order. order_done; reflexivity.
Qed.
End EllipseSCWire.

Module EllipseCBWire.
Import EllipseCB.

Definition wire (o : ORDER_INFO) (old new : ELLIPSE_CB_ORDER) : list Z :=
  only (has o ORDER_FIELD_01) (coord_wire o (leftRect old) (leftRect new)) ++
  only (has o ORDER_FIELD_02) (coord_wire o (topRect old) (topRect new)) ++
  only (has o ORDER_FIELD_03) (coord_wire o (rightRect old) (rightRect new)) ++
  only (has o ORDER_FIELD_04) (coord_wire o (bottomRect old) (bottomRect new)) ++
  only (has o ORDER_FIELD_05) [bRop2 new] ++
  only (has o ORDER_FIELD_06) [fillMode new] ++
  only (has o ORDER_FIELD_07) (color_wire (backColor new)) ++
  only (has o ORDER_FIELD_08) (color_wire (foreColor new)) ++
  brush_wire (uint8 (Z.shiftr (fieldFlags o) 8)) (brush new).

Definition fits (o : ORDER_INFO) (old new : ELLIPSE_CB_ORDER) : Prop :=
  sends (has o ORDER_FIELD_01) (coord_fits o (leftRect old) (leftRect new)) (leftRect new) (leftRect old) /\
  sends (has o ORDER_FIELD_02) (coord_fits o (topRect old) (topRect new)) (topRect new) (topRect old) /\
  sends (has o ORDER_FIELD_03) (coord_fits o (rightRect old) (rightRect new)) (rightRect new) (rightRect old) /\
  sends (has o ORDER_FIELD_04) (coord_fits o (bottomRect old) (bottomRect new)) (bottomRect new) (bottomRect old) /\
  sends (has o ORDER_FIELD_05) (fits8 (bRop2 new)) (bRop2 new) (bRop2 old) /\
  sends (has o ORDER_FIELD_06) (fits8 (fillMode new)) (fillMode new) (fillMode old) /\
  sends (has o ORDER_FIELD_07) (fits24 (backColor new)) (backColor new) (backColor old) /\
  sends (has o ORDER_FIELD_08) (fits24 (foreColor new)) (foreColor new) (foreColor old) /\
  brush_fits (uint8 (Z.shiftr (fieldFlags o) 8)) (brush old) (brush new).

Lemma reads_ellipse_cb o old new : fits o old new -> Reads (update_read_ellipse_cb_order o old) (wire o old new) new.
Proof.
  destruct old, new. order_reads fits wire update_read_ellipse_cb_order. order_done; reflexivity.
Qed.
End EllipseCBWire.

