(* ===== verification/OrderDelivery.v ===== *)
(** Delivery of drawing orders: what the client of [libfreerdp-core/orders.c] does
    with the orders a peer sends. A peer that follows the encoding of [OrderSpec],
    relative to what the client remembers, has exactly its orders drawn, one after
    the other, each between the bounds it names. *)

From coqutil Require Import Datatypes.RecordSetters.
From S2P Require Import Prelude.
From S2P Require Import Stream.
From S2P Require Import Gcc.
From S2P Require Import Fastpath.
From S2P Require Import Orders.
From S2P Require Import OrderCache.
From S2P Require Import Windows.
From S2P Require Import OrderRecv.
From S2P Require Import OrderWire.
From S2P Require Import OrderSpec.
Import TriangleBracketNotations.

(** ** Orders *)

Inductive primary_order : Type :=
| PDstBlt (d : DstBlt.DSTBLT_ORDER)
| PPatBlt (d : PatBlt.PATBLT_ORDER)
| PScrBlt (d : ScrBlt.SCRBLT_ORDER)
| POpaqueRect (d : OpaqueRect.OPAQUE_RECT_ORDER)
| PDrawNineGrid (d : DrawNineGrid.DRAW_NINE_GRID_ORDER)
| PMultiDstBlt (d : MultiDstBlt.MULTI_DSTBLT_ORDER)
| PMultiPatBlt (d : MultiPatBlt.MULTI_PATBLT_ORDER)
| PMultiScrBlt (d : MultiScrBlt.MULTI_SCRBLT_ORDER)
| PMultiOpaqueRect (d : MultiOpaqueRect.MULTI_OPAQUE_RECT_ORDER)
| PMultiDrawNineGrid (d : MultiDrawNineGrid.MULTI_DRAW_NINE_GRID_ORDER)
| PLineTo (d : LineTo.LINE_TO_ORDER)
| PPolyline (d : Polyline.POLYLINE_ORDER)
| PMemBlt (d : MemBlt.MEMBLT_ORDER)
| PMem3Blt (d : Mem3Blt.MEM3BLT_ORDER)
| PSaveBitmap (d : SaveBitmap.SAVE_BITMAP_ORDER)
| PGlyphIndex (d : GlyphIndex.GLYPH_INDEX_ORDER)
| PFastIndex (d : FastIndex.FAST_INDEX_ORDER)
| PFastGlyph (d : FastGlyph.FAST_GLYPH_ORDER)
| PPolygonSC (d : PolygonSC.POLYGON_SC_ORDER)
| PPolygonCB (d : PolygonCB.POLYGON_CB_ORDER)
| PEllipseSC (d : EllipseSC.ELLIPSE_SC_ORDER)
| PEllipseCB (d : EllipseCB.ELLIPSE_CB_ORDER).

Definition type_of (x : primary_order) : Z :=
  match x with
  | PDstBlt _ => ORDER_TYPE_DSTBLT
  | PPatBlt _ => ORDER_TYPE_PATBLT
  | PScrBlt _ => ORDER_TYPE_SCRBLT
  | POpaqueRect _ => ORDER_TYPE_OPAQUE_RECT
  | PDrawNineGrid _ => ORDER_TYPE_DRAW_NINE_GRID
  | PMultiDstBlt _ => ORDER_TYPE_MULTI_DSTBLT
  | PMultiPatBlt _ => ORDER_TYPE_MULTI_PATBLT
  | PMultiScrBlt _ => ORDER_TYPE_MULTI_SCRBLT
  | PMultiOpaqueRect _ => ORDER_TYPE_MULTI_OPAQUE_RECT
  | PMultiDrawNineGrid _ => ORDER_TYPE_MULTI_DRAW_NINE_GRID
  | PLineTo _ => ORDER_TYPE_LINE_TO
  | PPolyline _ => ORDER_TYPE_POLYLINE
  | PMemBlt _ => ORDER_TYPE_MEMBLT
  | PMem3Blt _ => ORDER_TYPE_MEM3BLT
  | PSaveBitmap _ => ORDER_TYPE_SAVE_BITMAP
  | PGlyphIndex _ => ORDER_TYPE_GLYPH_INDEX
  | PFastIndex _ => ORDER_TYPE_FAST_INDEX
  | PFastGlyph _ => ORDER_TYPE_FAST_GLYPH
  | PPolygonSC _ => ORDER_TYPE_POLYGON_SC
  | PPolygonCB _ => ORDER_TYPE_POLYGON_CB
  | PEllipseSC _ => ORDER_TYPE_ELLIPSE_SC
  | PEllipseCB _ => ORDER_TYPE_ELLIPSE_CB
  end.

(** Its fields on the wire, relative to the state [p] of the client. *)
Definition order_wire (p : rdpPrimaryUpdate) (x : primary_order) : list Z :=
  let o := order_info p in
  match x with
  | PDstBlt d => DstBltWire.wire o (dstblt p) d
  | PPatBlt d => PatBltWire.wire o (patblt p) d
  | PScrBlt d => ScrBltWire.wire o (scrblt p) d
  | POpaqueRect d => OpaqueRectWire.wire o (opaque_rect p) d
  | PDrawNineGrid d => DrawNineGridWire.wire o (draw_nine_grid p) d
  | PMultiDstBlt d => MultiDstBltWire.wire o (multi_dstblt p) d
  | PMultiPatBlt d => MultiPatBltWire.wire o (multi_patblt p) d
  | PMultiScrBlt d => MultiScrBltWire.wire o (multi_scrblt p) d
  | PMultiOpaqueRect d => MultiOpaqueRectWire.wire o (multi_opaque_rect p) d
  | PMultiDrawNineGrid d => MultiDrawNineGridWire.wire o (multi_draw_nine_grid p) d
  | PLineTo d => LineToWire.wire o (line_to p) d
  | PPolyline d => PolylineWire.wire o (polyline p) d
  | PMemBlt d => MemBltWire.wire o (memblt p) d
  | PMem3Blt d => Mem3BltWire.wire o (mem3blt p) d
  | PSaveBitmap d => SaveBitmapWire.wire o (save_bitmap p) d
  | PGlyphIndex d => GlyphIndexWire.wire o (glyph_index p) d
  | PFastIndex d => FastIndexWire.wire o (fast_index p) d
  | PFastGlyph d => FastGlyphWire.wire o (fast_glyph p) d
  | PPolygonSC d => PolygonSCWire.wire o (polygon_sc p) d
  | PPolygonCB d => PolygonCBWire.wire o (polygon_cb p) d
  | PEllipseSC d => EllipseSCWire.wire o (ellipse_sc p) d
  | PEllipseCB d => EllipseCBWire.wire o (ellipse_cb p) d
  end.

Definition order_fits (p : rdpPrimaryUpdate) (x : primary_order) : Prop :=
  let o := order_info p in
  match x with
  | PDstBlt d => DstBltWire.fits o (dstblt p) d
  | PPatBlt d => PatBltWire.fits o (patblt p) d
  | PScrBlt d => ScrBltWire.fits o (scrblt p) d
  | POpaqueRect d => OpaqueRectWire.fits o (opaque_rect p) d
  | PDrawNineGrid d => DrawNineGridWire.fits o (draw_nine_grid p) d
  | PMultiDstBlt d => MultiDstBltWire.fits o (multi_dstblt p) d
  | PMultiPatBlt d => MultiPatBltWire.fits o (multi_patblt p) d
  | PMultiScrBlt d => MultiScrBltWire.fits o (multi_scrblt p) d
  | PMultiOpaqueRect d => MultiOpaqueRectWire.fits o (multi_opaque_rect p) d
  | PMultiDrawNineGrid d => MultiDrawNineGridWire.fits o (multi_draw_nine_grid p) d
  | PLineTo d => LineToWire.fits o (line_to p) d
  | PPolyline d => PolylineWire.fits o (polyline p) d
  | PMemBlt d => MemBltWire.fits o (memblt p) d
  | PMem3Blt d => Mem3BltWire.fits o (mem3blt p) d
  | PSaveBitmap d => SaveBitmapWire.fits o (save_bitmap p) d
  | PGlyphIndex d => GlyphIndexWire.fits o (glyph_index p) d
  | PFastIndex d => FastIndexWire.fits o (fast_index p) d
  | PFastGlyph d => FastGlyphWire.fits o (fast_glyph p) d
  | PPolygonSC d => PolygonSCWire.fits o (polygon_sc p) d
  | PPolygonCB d => PolygonCBWire.fits o (polygon_cb p) d
  | PEllipseSC d => EllipseSCWire.fits o (ellipse_sc p) d
  | PEllipseCB d => EllipseCBWire.fits o (ellipse_cb p) d
  end.

Definition remember (x : primary_order) (p : rdpPrimaryUpdate) : rdpPrimaryUpdate :=
  match x with
  | PDstBlt d => p <| dstblt := d |>
  | PPatBlt d => p <| patblt := d |>
  | PScrBlt d => p <| scrblt := d |>
  | POpaqueRect d => p <| opaque_rect := d |>
  | PDrawNineGrid d => p <| draw_nine_grid := d |>
  | PMultiDstBlt d => p <| multi_dstblt := d |>
  | PMultiPatBlt d => p <| multi_patblt := d |>
  | PMultiScrBlt d => p <| multi_scrblt := d |>
  | PMultiOpaqueRect d => p <| multi_opaque_rect := d |>
  | PMultiDrawNineGrid d => p <| multi_draw_nine_grid := d |>
  | PLineTo d => p <| line_to := d |>
  | PPolyline d => p <| polyline := d |>
  | PMemBlt d => p <| memblt := d |>
  | PMem3Blt d => p <| mem3blt := d |>
  | PSaveBitmap d => p <| save_bitmap := d |>
  | PGlyphIndex d => p <| glyph_index := d |>
  | PFastIndex d => p <| fast_index := d |>
  | PFastGlyph d => p <| fast_glyph := d |>
  | PPolygonSC d => p <| polygon_sc := d |>
  | PPolygonCB d => p <| polygon_cb := d |>
  | PEllipseSC d => p <| ellipse_sc := d |>
  | PEllipseCB d => p <| ellipse_cb := d |>
  end.

Definition draw {Ctx} {PC : PrimaryCalls Ctx} (x : primary_order) (c : Ctx) : Ctx * primary_order :=
  match x with
  | PDstBlt d => let (c, d) := call_dstblt d c in (c, PDstBlt d)
  | PPatBlt d => let (c, d) := call_patblt d c in (c, PPatBlt d)
  | PScrBlt d => let (c, d) := call_scrblt d c in (c, PScrBlt d)
  | POpaqueRect d => let (c, d) := call_opaque_rect d c in (c, POpaqueRect d)
  | PDrawNineGrid d => let (c, d) := call_draw_nine_grid d c in (c, PDrawNineGrid d)
  | PMultiDstBlt d => let (c, d) := call_multi_dstblt d c in (c, PMultiDstBlt d)
  | PMultiPatBlt d => let (c, d) := call_multi_patblt d c in (c, PMultiPatBlt d)
  | PMultiScrBlt d => let (c, d) := call_multi_scrblt d c in (c, PMultiScrBlt d)
  | PMultiOpaqueRect d => let (c, d) := call_multi_opaque_rect d c in (c, PMultiOpaqueRect d)
  | PMultiDrawNineGrid d => let (c, d) := call_multi_draw_nine_grid d c in (c, PMultiDrawNineGrid d)
  | PLineTo d => let (c, d) := call_line_to d c in (c, PLineTo d)
  | PPolyline d => let (c, d) := call_polyline d c in (c, PPolyline d)
  | PMemBlt d => let (c, d) := call_memblt d c in (c, PMemBlt d)
  | PMem3Blt d => let (c, d) := call_mem3blt d c in (c, PMem3Blt d)
  | PSaveBitmap d => let (c, d) := call_save_bitmap d c in (c, PSaveBitmap d)
  | PGlyphIndex d => let (c, d) := call_glyph_index d c in (c, PGlyphIndex d)
  | PFastIndex d => let (c, d) := call_fast_index d c in (c, PFastIndex d)
  | PFastGlyph d => let (c, d) := call_fast_glyph d c in (c, PFastGlyph d)
  | PPolygonSC d => let (c, d) := call_polygon_sc d c in (c, PPolygonSC d)
  | PPolygonCB d => let (c, d) := call_polygon_cb d c in (c, PPolygonCB d)
  | PEllipseSC d => let (c, d) := call_ellipse_sc d c in (c, PEllipseSC d)
  | PEllipseCB d => let (c, d) := call_ellipse_cb d c in (c, PEllipseCB d)
  end.

(** ** Headers *)

Inductive edge : Type := Keep | Absolute | Relative.

(** How a peer writes an order: whether it repeats the type, the flags of the
    fields it sends and how many of their high bytes it leaves out, whether
    coordinates are relative, and the bounds: none, the last ones, or new ones. *)
Record heading : Type := mkHeading {
  h_type : bool;
  h_fields : Z;
  h_zero : Z;
  h_delta : bool;
  h_bounds : option (option (edge * edge * edge * edge));
}.

Definition bool_bit (b : bool) (v : Z) : Z := if b then v else 0.
Definition bounded (h : heading) : bool := match h_bounds h with Some _ => true | None => false end.
Definition old_bounds (h : heading) : bool := match h_bounds h with Some None => true | _ => false end.

Definition control (h : heading) : Z :=
  1 + bool_bit (bounded h) 4 + bool_bit (h_type h) 8 + bool_bit (h_delta h) 16 + bool_bit (old_bounds h) 32 + 64 * h_zero h.

Definition field_bytes (type : Z) : Z := default 0 (PRIMARY_DRAWING_ORDER_FIELD_BYTES !! Z.to_nat type).
Definition sent_bytes (h : heading) (type : Z) : nat := Z.to_nat (field_bytes type - h_zero h).
Definition le24 (f : Z) : list Z := [f mod 256; f / 256 mod 256; f / 65536 mod 256].
Definition fields_wire (h : heading) (type : Z) : list Z := take (sent_bytes h type) (le24 (h_fields h)).

Definition edge_bits (e : edge) (absolute delta : Z) : Z := match e with Keep => 0 | Absolute => absolute | Relative => delta end.
Definition edge_wire (e : edge) (old new : Z) : list Z :=
  match e with Keep => [] | Absolute => le16 (uint16 new) | Relative => [uint8 (new - old)] end.
Definition edge_fits (e : edge) (old new : Z) : Prop :=
  match e with
  | Keep => new = old
  | Absolute => fits_sint16 new
  | Relative => -128 <= new - old < 128 /\ fits_sint32 new
  end.

Definition edges_flags (e : edge * edge * edge * edge) : Z :=
  let '(l, t, r, b) := e in
  edge_bits l BOUND_LEFT BOUND_DELTA_LEFT + edge_bits t BOUND_TOP BOUND_DELTA_TOP +
  edge_bits r BOUND_RIGHT BOUND_DELTA_RIGHT + edge_bits b BOUND_BOTTOM BOUND_DELTA_BOTTOM.
Definition bounds_wire (e : edge * edge * edge * edge) (old new : rdpBounds) : list Z :=
  let '(l, t, r, b) := e in
  edges_flags e :: edge_wire l (b_left old) (b_left new) ++ edge_wire t (b_top old) (b_top new) ++
    edge_wire r (b_right old) (b_right new) ++ edge_wire b (b_bottom old) (b_bottom new).
Definition bounds_fit (e : edge * edge * edge * edge) (old new : rdpBounds) : Prop :=
  let '(l, t, r, b) := e in
  edge_fits l (b_left old) (b_left new) /\ edge_fits t (b_top old) (b_top new) /\
  edge_fits r (b_right old) (b_right new) /\ edge_fits b (b_bottom old) (b_bottom new).

Definition new_info (h : heading) (type : Z) (b : rdpBounds) : ORDER_INFO := mkOrderInfo type (h_fields h) b (h_delta h).

Definition info_wire (h : heading) (o : ORDER_INFO) (type : Z) (b : rdpBounds) : list Z :=
  only (h_type h) [type] ++ fields_wire h type ++
  match h_bounds h with Some (Some e) => bounds_wire e (bounds o) b | _ => [] end.

Definition info_fits (h : heading) (o : ORDER_INFO) (type : Z) (b : rdpBounds) : Prop :=
  sends (h_type h) True type (orderType o) /\ 0 <= h_zero h <= 3 /\ 0 <= h_fields h < 256 ^ Z.of_nat (sent_bytes h type) /\
  match h_bounds h with Some (Some e) => bounds_fit e (bounds o) b | _ => b = bounds o end.

(** ** Orders with their headers *)

Record peer_order : Type := mkPeer { s_heading : heading; s_bounds : rdpBounds; s_order : primary_order }.

Definition begun (m : peer_order) (p : rdpPrimaryUpdate) : rdpPrimaryUpdate :=
  p <| order_info := new_info (s_heading m) (type_of (s_order m)) (s_bounds m) |>.

Definition peer_wire (p : rdpPrimaryUpdate) (m : peer_order) : list Z :=
  control (s_heading m) :: info_wire (s_heading m) (order_info p) (type_of (s_order m)) (s_bounds m) ++ order_wire (begun m p) (s_order m).

Definition peer_fits (p : rdpPrimaryUpdate) (m : peer_order) : Prop :=
  info_fits (s_heading m) (order_info p) (type_of (s_order m)) (s_bounds m) /\ order_fits (begun m p) (s_order m).

(** What the peer means: the order drawn inside its bounds, and remembered as the
    drawing module leaves it. *)
Definition performed {Ctx} {PC : PrimaryCalls Ctx} (m : peer_order) (p : rdpPrimaryUpdate) (x : Ctx) : rdpPrimaryUpdate * Ctx :=
  let x := if bounded (s_heading m) then SetBounds (Some (s_bounds m)) x else x in
  let (x, d) := draw (s_order m) x in
  (remember d (begun m p), if bounded (s_heading m) then SetBounds None x else x).

Section Delivery.
Context {Ctx : Type} {PC : PrimaryCalls Ctx} {SC : SecondaryCalls Ctx} {AC : AltSecCalls Ctx} {WC : WindowCalls Ctx}.

Fixpoint all_performed (ms : list peer_order) (p : rdpPrimaryUpdate) (x : Ctx) : rdpPrimaryUpdate * Ctx :=
  match ms with [] => (p, x) | m :: ms' => let (p, x) := performed m p x in all_performed ms' p x end.
Fixpoint all_wire (ms : list peer_order) (p : rdpPrimaryUpdate) (x : Ctx) : list Z :=
  match ms with [] => [] | m :: ms' => peer_wire p m ++ let (p, x) := performed m p x in all_wire ms' p x end.
Fixpoint all_fit (ms : list peer_order) (p : rdpPrimaryUpdate) (x : Ctx) : Prop :=
  match ms with [] => True | m :: ms' => peer_fits p m /\ let (p, x) := performed m p x in all_fit ms' p x end.

(** *** The body *)

Lemma Reads_drawn {D S} (c : M STREAM D) call (keep : D -> S) (x : Ctx) bs d :
  Reads c bs d -> Reads (drawn c call keep x) bs (keep (call d x).2, (call d x).1).
Proof.
  intros H. unfold drawn. rewrite <- (app_nil_r bs). eapply Reads_bind; [exact H|]. destruct (call d x). apply Reads_ret.
Qed.

Lemma reads_body p x (ord : primary_order) : orderType (order_info p) = type_of ord -> order_fits p ord ->
  Reads (recv_primary_body p x) (order_wire p ord) (remember (draw ord x).2 p, (draw ord x).1).
Proof.
  intros Ht Hf. unfold recv_primary_body. rewrite Ht. destruct ord as [d|d|d|d|d|d|d|d|d|d|d|d|d|d|d|d|d|d|d|d|d|d];
    cbn [type_of order_fits order_wire draw remember] in *; cbv beta zeta delta [ORDER_TYPE_DSTBLT
      ORDER_TYPE_PATBLT
      ORDER_TYPE_SCRBLT
      ORDER_TYPE_OPAQUE_RECT
      ORDER_TYPE_DRAW_NINE_GRID
      ORDER_TYPE_MULTI_DSTBLT
      ORDER_TYPE_MULTI_PATBLT
      ORDER_TYPE_MULTI_SCRBLT
      ORDER_TYPE_MULTI_OPAQUE_RECT
      ORDER_TYPE_MULTI_DRAW_NINE_GRID
      ORDER_TYPE_LINE_TO
      ORDER_TYPE_POLYLINE
      ORDER_TYPE_MEMBLT
      ORDER_TYPE_MEM3BLT
      ORDER_TYPE_SAVE_BITMAP
      ORDER_TYPE_GLYPH_INDEX
      ORDER_TYPE_FAST_INDEX
      ORDER_TYPE_FAST_GLYPH
      ORDER_TYPE_POLYGON_SC
      ORDER_TYPE_POLYGON_CB
      ORDER_TYPE_ELLIPSE_SC
      ORDER_TYPE_ELLIPSE_CB];
    cbn [Z.eqb Pos.eqb].
  - pose proof (Reads_drawn _ call_dstblt (fun d => p <| dstblt := d |>) x _ _ (DstBltWire.reads_dstblt _ _ _ Hf)) as E.
    destruct (call_dstblt d x). exact E.
  - pose proof (Reads_drawn _ call_patblt (fun d => p <| patblt := d |>) x _ _ (PatBltWire.reads_patblt _ _ _ Hf)) as E.
    destruct (call_patblt d x). exact E.
  - pose proof (Reads_drawn _ call_scrblt (fun d => p <| scrblt := d |>) x _ _ (ScrBltWire.reads_scrblt _ _ _ Hf)) as E.
    destruct (call_scrblt d x). exact E.
  - pose proof (Reads_drawn _ call_opaque_rect (fun d => p <| opaque_rect := d |>) x _ _ (OpaqueRectWire.reads_opaque_rect _ _ _ Hf)) as E.
    destruct (call_opaque_rect d x). exact E.
  - pose proof (Reads_drawn _ call_draw_nine_grid (fun d => p <| draw_nine_grid := d |>) x _ _ (DrawNineGridWire.reads_draw_nine_grid _ _ _ Hf)) as E.
    destruct (call_draw_nine_grid d x). exact E.
  - pose proof (Reads_drawn _ call_multi_dstblt (fun d => p <| multi_dstblt := d |>) x _ _ (MultiDstBltWire.reads_multi_dstblt _ _ _ Hf)) as E.
    destruct (call_multi_dstblt d x). exact E.
  - pose proof (Reads_drawn _ call_multi_patblt (fun d => p <| multi_patblt := d |>) x _ _ (MultiPatBltWire.reads_multi_patblt _ _ _ Hf)) as E.
    destruct (call_multi_patblt d x). exact E.
  - pose proof (Reads_drawn _ call_multi_scrblt (fun d => p <| multi_scrblt := d |>) x _ _ (MultiScrBltWire.reads_multi_scrblt _ _ _ Hf)) as E.
    destruct (call_multi_scrblt d x). exact E.
  - pose proof (Reads_drawn _ call_multi_opaque_rect (fun d => p <| multi_opaque_rect := d |>) x _ _ (MultiOpaqueRectWire.reads_multi_opaque_rect _ _ _ Hf)) as E.
    destruct (call_multi_opaque_rect d x). exact E.
  - pose proof (Reads_drawn _ call_multi_draw_nine_grid (fun d => p <| multi_draw_nine_grid := d |>) x _ _ (MultiDrawNineGridWire.reads_multi_draw_nine_grid _ _ _ Hf)) as E.
    destruct (call_multi_draw_nine_grid d x). exact E.
  - pose proof (Reads_drawn _ call_line_to (fun d => p <| line_to := d |>) x _ _ (LineToWire.reads_line_to _ _ _ Hf)) as E.
    destruct (call_line_to d x). exact E.
  - pose proof (Reads_drawn _ call_polyline (fun d => p <| polyline := d |>) x _ _ (PolylineWire.reads_polyline _ _ _ Hf)) as E.
    destruct (call_polyline d x). exact E.
  - pose proof (Reads_drawn _ call_memblt (fun d => p <| memblt := d |>) x _ _ (MemBltWire.reads_memblt _ _ _ Hf)) as E.
    destruct (call_memblt d x). exact E.
  - pose proof (Reads_drawn _ call_mem3blt (fun d => p <| mem3blt := d |>) x _ _ (Mem3BltWire.reads_mem3blt _ _ _ Hf)) as E.
    destruct (call_mem3blt d x). exact E.
  - pose proof (Reads_drawn _ call_save_bitmap (fun d => p <| save_bitmap := d |>) x _ _ (SaveBitmapWire.reads_save_bitmap _ _ _ Hf)) as E.
    destruct (call_save_bitmap d x). exact E.
  - pose proof (Reads_drawn _ call_glyph_index (fun d => p <| glyph_index := d |>) x _ _ (GlyphIndexWire.reads_glyph_index _ _ _ Hf)) as E.
    destruct (call_glyph_index d x). exact E.
  - pose proof (Reads_drawn _ call_fast_index (fun d => p <| fast_index := d |>) x _ _ (FastIndexWire.reads_fast_index _ _ _ Hf)) as E.
    destruct (call_fast_index d x). exact E.
  - pose proof (Reads_drawn _ call_fast_glyph (fun d => p <| fast_glyph := d |>) x _ _ (FastGlyphWire.reads_fast_glyph _ _ _ Hf)) as E.
    destruct (call_fast_glyph d x). exact E.
  - pose proof (Reads_drawn _ call_polygon_sc (fun d => p <| polygon_sc := d |>) x _ _ (PolygonSCWire.reads_polygon_sc _ _ _ Hf)) as E.
    destruct (call_polygon_sc d x). exact E.
  - pose proof (Reads_drawn _ call_polygon_cb (fun d => p <| polygon_cb := d |>) x _ _ (PolygonCBWire.reads_polygon_cb _ _ _ Hf)) as E.
    destruct (call_polygon_cb d x). exact E.
  - pose proof (Reads_drawn _ call_ellipse_sc (fun d => p <| ellipse_sc := d |>) x _ _ (EllipseSCWire.reads_ellipse_sc _ _ _ Hf)) as E.
    destruct (call_ellipse_sc d x). exact E.
  - pose proof (Reads_drawn _ call_ellipse_cb (fun d => p <| ellipse_cb := d |>) x _ _ (EllipseCBWire.reads_ellipse_cb _ _ _ Hf)) as E.
    destruct (call_ellipse_cb d x). exact E.
Qed.

(** *** The header *)

Lemma control_flags h : 0 <= h_zero h <= 3 ->
  flag (control h) ORDER_STANDARD = true /\ flag (control h) ORDER_SECONDARY = false /\
  flag (control h) ORDER_BOUNDS = bounded h /\ flag (control h) ORDER_TYPE_CHANGE = h_type h /\
  flag (control h) ORDER_DELTA_COORDINATES = h_delta h /\ flag (control h) ORDER_ZERO_BOUNDS_DELTAS = old_bounds h /\
  flag (control h) ORDER_ZERO_FIELD_BYTE_BIT0 = (h_zero h mod 2 =? 1) /\ flag (control h) ORDER_ZERO_FIELD_BYTE_BIT1 = (2 <=? h_zero h) /\
  is_byte (control h).
Proof.
  intros Hz. assert (H : h_zero h = 0 \/ h_zero h = 1 \/ h_zero h = 2 \/ h_zero h = 3) by lia. unfold control.
  destruct H as [->|[->|[->| ->]]]; destruct (bounded h), (h_type h), (h_delta h), (old_bounds h); vm_compute; repeat split; discriminate.
Qed.

Lemma types_have_fields x : exists n, (n = 1 \/ n = 2 \/ n = 3) /\ field_bytes (type_of x) = n /\
  forall s : STREAM, elem PRIMARY_DRAWING_ORDER_FIELD_BYTES (type_of x) s = Done (n, s).
Proof. intros. exists (field_bytes (type_of x)). destruct x; (split; [vm_compute; lia|split; [reflexivity|intros; reflexivity]]). Qed.

Lemma field_loop_step n i acc b rest f : is_byte b -> 0 <= i <= 2 ->
  Reads (field_flags_loop n (i + 1) (Z.lor acc (Z.shiftl b (i * 8)))) rest f ->
  Reads (field_flags_loop (S n) i acc) (b :: rest) f.
Proof.
  intros Hb Hi H. cbn [field_flags_loop]. eapply (Reads_bind _ _ [b]); [apply Reads_uint8|].
  rewrite (proj2 (Z.leb_gt 4 i)) by lia. rewrite (proj2 (Z.ltb_ge INT_MAX _)); [exact H|].
  rewrite Z.shiftl_mul_pow2 by lia. unfold is_byte in Hb. assert (2 ^ (i * 8) <= 2 ^ 16) by (apply Z.pow_le_mono_r; lia). unfold INT_MAX. nia.
Qed.

Lemma reads_fields h x : 0 <= h_zero h <= 3 -> 0 <= h_fields h < 256 ^ Z.of_nat (sent_bytes h (type_of x)) ->
  Reads (update_read_field_flags (control h) (field_bytes (type_of x))) (fields_wire h (type_of x)) (h_fields h).
Proof.
  intros Hz Hf. destruct (control_flags h Hz) as (_ & _ & _ & _ & _ & _ & F0 & F1 & _).
  destruct (types_have_fields x) as (n & Hn & En & _). unfold update_read_field_flags, fields_wire. rewrite F0, F1.
  assert (Ec : (let fb := if h_zero h mod 2 =? 1 then uint8 (field_bytes (type_of x) - 1) else field_bytes (type_of x) in
                Z.to_nat (if 2 <=? h_zero h then if 1 <? fb then fb - 2 else 0 else fb)) = sent_bytes h (type_of x)).
  { unfold sent_bytes. rewrite En. assert (H : h_zero h = 0 \/ h_zero h = 1 \/ h_zero h = 2 \/ h_zero h = 3) by lia.
    destruct Hn as [->|[->| ->]], H as [->|[->|[->| ->]]]; reflexivity. }
  cbv zeta in Ec |- *. rewrite Ec. assert (Hs : (sent_bytes h (type_of x) <= 3)%nat) by (unfold sent_bytes; lia).
  revert Hf. generalize (sent_bytes h (type_of x)), (h_fields h), Hs. clear. intros n f Hs Hf. unfold le24.
  destruct n as [|[|[|[|n]]]]; [| | | |lia]; cbn [take].
  - change (256 ^ Z.of_nat 0) with 1 in Hf. eapply Reads_eq; [apply Reads_ret|reflexivity|]. lia.
  - change (256 ^ Z.of_nat 1) with 256 in Hf. apply field_loop_step; [apply is_byte_mod|lia|].
    eapply Reads_eq; [apply Reads_ret|reflexivity|]. rewrite Z.lor_0_l, Z.shiftl_0_r. dlia.
  - change (256 ^ Z.of_nat 2) with 65536 in Hf. do 2 (apply field_loop_step; [apply is_byte_mod|lia|]).
    eapply Reads_eq; [apply Reads_ret|reflexivity|]. rewrite Z.lor_0_l, Z.shiftl_0_r, Z.shiftl_mul_pow2 by lia.
    change ((0 + 1) * 8) with 8. rewrite Z.lor_comm, (lor_high_low _ (f mod 256) 8) by dlia. dlia.
  - change (256 ^ Z.of_nat 3) with 16777216 in Hf. do 3 (apply field_loop_step; [apply is_byte_mod|lia|]).
    eapply Reads_eq; [apply Reads_ret|reflexivity|]. rewrite Z.lor_0_l, Z.shiftl_0_r, !Z.shiftl_mul_pow2 by lia.
    change ((0 + 1) * 8) with 8. change ((0 + 1 + 1) * 8) with 16.
    rewrite (Z.lor_comm (f mod 256)), (lor_high_low _ (f mod 256) 8) by dlia.
    rewrite Z.lor_comm, (lor_high_low (_ * 2 ^ 16) _ 16) by dlia. dlia.
Qed.

Lemma edges_read e l t r b : e = (l, t, r, b) ->
  flag (edges_flags e) BOUND_LEFT = match l with Absolute => true | _ => false end /\
  flag (edges_flags e) BOUND_DELTA_LEFT = match l with Relative => true | _ => false end /\
  flag (edges_flags e) BOUND_TOP = match t with Absolute => true | _ => false end /\
  flag (edges_flags e) BOUND_DELTA_TOP = match t with Relative => true | _ => false end /\
  flag (edges_flags e) BOUND_RIGHT = match r with Absolute => true | _ => false end /\
  flag (edges_flags e) BOUND_DELTA_RIGHT = match r with Relative => true | _ => false end /\
  flag (edges_flags e) BOUND_BOTTOM = match b with Absolute => true | _ => false end /\
  flag (edges_flags e) BOUND_DELTA_BOTTOM = match b with Relative => true | _ => false end.
Proof. intros ->. destruct l, t, r, b; vm_compute; repeat split. Qed.

Lemma reads_edge e flags A D old new : edge_fits e old new ->
  flag flags A = match e with Absolute => true | _ => false end -> flag flags D = match e with Relative => true | _ => false end ->
  Reads (read_bound flags A D old) (edge_wire e old new) new.
Proof.
  intros Hf HA HD. unfold read_bound. rewrite HA, HD. destruct e; cbn in *.
  - rewrite Hf. apply Reads_ret.
  - exact (Reads_coord (mkOrderInfo 0 0 (mkBounds 0 0 0 0) false) old new Hf).
  - exact (Reads_coord (mkOrderInfo 0 0 (mkBounds 0 0 0 0) true) old new Hf).
Qed.

Lemma reads_bounds e old new : bounds_fit e old new -> Reads (update_read_bounds old) (bounds_wire e old new) new.
Proof.
  destruct e as [[[l t] r] b] eqn:E. intros (Hl & Ht & Hr & Hb). unfold update_read_bounds, bounds_wire.
  destruct (edges_read e l t r b E) as (A1 & D1 & A2 & D2 & A3 & D3 & A4 & D4). rewrite <- E.
  eapply (Reads_bind _ _ [_]); [apply Reads_uint8|].
  eapply Reads_bind; [apply reads_edge; eassumption|]. eapply Reads_bind; [apply reads_edge; eassumption|].
  eapply Reads_bind; [apply reads_edge; eassumption|]. apply Reads_nil.
  eapply Reads_bind; [apply reads_edge; eassumption|]. destruct new. apply Reads_ret.
Qed.

Lemma reads_info h o x b : info_fits h o (type_of x) b ->
  Reads (recv_primary_info (control h) o) (info_wire h o (type_of x) b) (new_info h (type_of x) b).
Proof.
  intros (Ht & Hz & Hf & Hb). destruct (control_flags h Hz) as (_ & _ & FB & FT & FD & FO & _).
  unfold recv_primary_info, info_wire. rewrite FB, FT, FD, FO.
  eapply (Reads_bind _ _ _ _ (type_of x)).
  { destruct (h_type h); cbn in Ht |- *; [apply Reads_uint8|rewrite Ht; apply Reads_ret]. }
  destruct (types_have_fields x) as (n & Hn & En & Hel). intros s Hs. rewrite (bind_Done _ _ _ n s) by apply Hel.
  rewrite <- En. revert s Hs. eapply Reads_bind; [apply reads_fields; assumption|]. apply Reads_nil.
  eapply (Reads_bind _ _ _ _ b); [|apply Reads_ret].
  unfold bounded, old_bounds. destruct (h_bounds h) as [[e|]|]; cbn; [apply reads_bounds, Hb|rewrite Hb; apply Reads_ret..].
Qed.

(** *** One order, and all of them *)

Lemma orderType_begun m p : orderType (order_info (begun m p)) = type_of (s_order m).
Proof. destruct p. reflexivity. Qed.

Lemma reads_peer u x m : peer_fits (primary u) m ->
  Reads (update_recv_order u x) (peer_wire (primary u) m)
    (u <| primary := (performed m (primary u) x).1 |>, (performed m (primary u) x).2).
Proof.
  intros [Hi Hf]. pose proof Hi as (_ & Hz & _). destruct (control_flags _ Hz) as (FS & F2 & FB & _ & _ & _ & _ & _ & Hc).
  unfold update_recv_order, peer_wire. eapply (Reads_bind _ _ [_]); [apply Reads_uint8|]. rewrite FS, F2. cbn [negb].
  apply Reads_nil. eapply (Reads_bind _ _ _ _ (performed m (primary u) x)).
  - unfold update_recv_primary_order, performed. rewrite FB. eapply Reads_bind; [apply reads_info, Hi|].
    change (bounds (new_info (s_heading m) (type_of (s_order m)) (s_bounds m))) with (s_bounds m).
    change ((primary u) <| order_info := new_info (s_heading m) (type_of (s_order m)) (s_bounds m) |>) with (begun m (primary u)).
    set (x1 := if bounded (s_heading m) then _ else x).
    pose proof (reads_body (begun m (primary u)) x1 (s_order m) (orderType_begun m (primary u)) Hf) as Hb.
    apply Reads_nil. eapply Reads_bind; [exact Hb|]. destruct (draw (s_order m) x1) as [x2 d]. apply Reads_ret.
  - destruct (performed m (primary u) x) as [p' x']. apply Reads_ret.
Qed.

Lemma reads_all ms : forall u x, all_fit ms (primary u) x ->
  Reads (recv_orders (length ms) u x) (all_wire ms (primary u) x)
    (u <| primary := (all_performed ms (primary u) x).1 |>, (all_performed ms (primary u) x).2).
Proof.
  induction ms as [|m ms IH]; intros u x Hf; cbn [length recv_orders all_wire all_performed all_fit] in *.
  - destruct u. apply Reads_ret.
  - destruct Hf as [Hm Hms]. pose proof (reads_peer u x m Hm) as E.
    destruct (performed m (primary u) x) as [p' x'] eqn:Ep. cbn [fst snd] in E.
    eapply Reads_bind; [exact E|]. cbv beta iota. specialize (IH (u <| primary := p' |>) x').
    replace (primary (u <| primary := p' |>)) with p' in IH by (destruct u; reflexivity).
    specialize (IH Hms). destruct (all_performed ms p' x') as [p'' x'']. destruct u. exact IH.
Qed.

(** C3. The client of [orders.c] draws what the peer means: of an update with any
    number of primary orders, each encoded relative to what the client remembers
    (only the fields that changed, coordinates absolute or relative, bounds new,
    old or none), [update_recv_orders] consumes exactly the bytes and calls the
    drawing module for exactly these orders in this order. Orders the readers get
    wrong are outside of [all_fit]: more than 44 rectangles, and a MemBlt or
    Mem3Blt that leaves out the cache id and means a colour table index other
    than the one the reader makes out of it. *)
Theorem orders_drawn u (x : Ctx) ms : len ms < 65536 -> all_fit ms (primary u) x ->
  Reads (update_recv_orders u x) ([0; 0] ++ le16 (len ms) ++ [0; 0] ++ all_wire ms (primary u) x)
    (u <| primary := (all_performed ms (primary u) x).1 |>, (all_performed ms (primary u) x).2).
Proof.
  intros Hn Hf. unfold update_recv_orders. eapply Reads_bind; [apply Reads_seek; reflexivity|].
  eapply Reads_bind; [apply Reads_le16; unfold fits16; llia|]. eapply Reads_bind; [apply Reads_seek; reflexivity|].
  unfold len. rewrite Nat2Z.id. apply reads_all, Hf.
Qed.

Lemma reads_fastpath_orders u (x : Ctx) ms : len ms < 65536 -> all_fit ms (primary u) x ->
  Reads (fastpath_recv_orders u x) (le16 (len ms) ++ all_wire ms (primary u) x)
    (u <| primary := (all_performed ms (primary u) x).1 |>, (all_performed ms (primary u) x).2).
Proof.
  intros Hn Hf. unfold fastpath_recv_orders. eapply Reads_bind; [apply Reads_le16; unfold fits16; llia|].
  unfold len. rewrite Nat2Z.id. apply reads_all, Hf.
Qed.

End Delivery.

(** ** A drawing module that records *)

Inductive drawing : Type :=
| Clipped (b : option rdpBounds)
| Drawn (d : primary_order).

Section Recorder.
Context {X : Type} (note : drawing -> X -> X).

Definition record {D} (name : D -> primary_order) (d : D) (x : X) : X * D := (note (Drawn (name d)) x, d).

Definition recorder_by : PrimaryCalls X := {|
  SetBounds b := note (Clipped b);
  call_dstblt := record PDstBlt;
  call_patblt := record PPatBlt;
  call_scrblt := record PScrBlt;
  call_opaque_rect := record POpaqueRect;
  call_draw_nine_grid := record PDrawNineGrid;
  call_multi_dstblt := record PMultiDstBlt;
  call_multi_patblt := record PMultiPatBlt;
  call_multi_scrblt := record PMultiScrBlt;
  call_multi_opaque_rect := record PMultiOpaqueRect;
  call_multi_draw_nine_grid := record PMultiDrawNineGrid;
  call_line_to := record PLineTo;
  call_polyline := record PPolyline;
  call_memblt := record PMemBlt;
  call_mem3blt := record PMem3Blt;
  call_save_bitmap := record PSaveBitmap;
  call_glyph_index := record PGlyphIndex;
  call_fast_index := record PFastIndex;
  call_fast_glyph := record PFastGlyph;
  call_polygon_sc := record PPolygonSC;
  call_polygon_cb := record PPolygonCB;
  call_ellipse_sc := record PEllipseSC;
  call_ellipse_cb := record PEllipseCB
|}.

(** Nothing of the other orders is looked at. *)
Definition keep_secondary : SecondaryCalls X := {|
  call_cache_bitmap _ d x := (x, d); call_cache_bitmap_v2 _ d x := (x, d); call_cache_bitmap_v3 d x := (x, d);
  call_cache_color_table d x := (x, d); call_cache_glyph d x := (x, d); call_cache_glyph_v2 d x := (x, d); call_cache_brush d x := (x, d)
|}.

Definition keep_altsec : AltSecCalls X := {|
  call_create_offscreen_bitmap d x := (x, d); call_switch_surface d x := (x, d); call_create_nine_grid_bitmap d x := (x, d);
  call_frame_marker d x := (x, d); call_stream_bitmap_first d x := (x, d); call_stream_bitmap_next d x := (x, d);
  call_draw_gdiplus_first d x := (x, d); call_draw_gdiplus_next d x := (x, d); call_draw_gdiplus_end d x := (x, d);
  call_draw_gdiplus_cache_first d x := (x, d); call_draw_gdiplus_cache_next d x := (x, d); call_draw_gdiplus_cache_end d x := (x, d)
|}.

Definition keep_windows : WindowCalls X := {|
  WindowCreate _ d x := (x, d); WindowUpdate _ d x := (x, d); WindowIcon _ d x := (x, d); WindowCachedIcon _ d x := (x, d);
  WindowDelete _ x := x; NotifyIconCreate _ d x := (x, d); NotifyIconUpdate _ d x := (x, d); NotifyIconDelete _ x := x;
  MonitoredDesktop _ d x := (x, d); NonMonitoredDesktop _ x := x
|}.

End Recorder.

#[local] Instance recorder : PrimaryCalls (list drawing) := recorder_by (fun d log => log ++ [d]).
#[local] Existing Instance keep_secondary.
#[local] Existing Instance keep_altsec.
#[local] Existing Instance keep_windows.

(** A filled rectangle between new bounds; the same with only its width changed,
    relative coordinates and the old bounds; a line. *)
Definition sample_bounds : rdpBounds := mkBounds 10 20 600 400.
Definition sample_orders : list peer_order :=
  [mkPeer (mkHeading true 0x7F 0 false (Some (Some (Absolute, Absolute, Absolute, Absolute)))) sample_bounds
     (POpaqueRect (OpaqueRect.mk 1 2 300 400 0x123456));
   mkPeer (mkHeading false 0x04 0 true (Some None)) sample_bounds (POpaqueRect (OpaqueRect.mk 1 2 310 400 0x123456));
   mkPeer (mkHeading true 0x1F 0 false None) sample_bounds (PDstBlt (DstBlt.mk 5 6 7 8 0xCC))].

Lemma orders_drawn_witness :
  let u := orders_new in
  len sample_orders < 65536 /\ all_fit sample_orders (primary u) [] /\
  Reads (update_recv_orders u []) ([0; 0] ++ le16 (len sample_orders) ++ [0; 0] ++ all_wire sample_orders (primary u) [])
    (u <| primary := (all_performed sample_orders (primary u) []).1 |>,
     [Clipped (Some sample_bounds); Drawn (POpaqueRect (OpaqueRect.mk 1 2 300 400 0x123456)); Clipped None;
      Clipped (Some sample_bounds); Drawn (POpaqueRect (OpaqueRect.mk 1 2 310 400 0x123456)); Clipped None;
      Drawn (PDstBlt (DstBlt.mk 5 6 7 8 0xCC))]).
Proof.
  cbv zeta.
  assert (H1 : len sample_orders < 65536) by (vm_compute; reflexivity).
  assert (H2 : all_fit sample_orders (primary orders_new) []) by (vm_compute; repeat split; discriminate).
  split; [exact H1|]. split; [exact H2|]. exact (orders_drawn orders_new [] sample_orders H1 H2).
Defined.
