(* ===== verification/Updates.v ===== *)
(** Updates: [libfreerdp-core/update.c], [surface.c] and the update handlers of
    [fastpath.c], with [include/freerdp/update.h] and [pointer.h]. The client's side
    reads an update and calls the drawing module, the server's side writes one and
    sends it over the fast path.

    A pointer into the packet is the offset it points to; a callback that is given
    one also has the packet. Recording of surface commands to a file
    ([dump_rfx]) is not part of the model. *)

From coqutil Require Import Datatypes.RecordSetters.
From S2P Require Import Prelude.
From S2P Require Import Stream.
From S2P Require Import Transport.
From S2P Require Import Security.
From S2P Require Import Gcc.
From S2P Require Import Fastpath.
From S2P Require Import Rdp.
From S2P Require Import Orders.
From S2P Require Import OrderCache.
From S2P Require Import Windows.
From S2P Require Import OrderRecv.
Import TriangleBracketNotations.

Definition UPDATE_TYPE_ORDERS : Z := 0x0000.
Definition UPDATE_TYPE_BITMAP : Z := 0x0001.
Definition UPDATE_TYPE_PALETTE : Z := 0x0002.
Definition UPDATE_TYPE_SYNCHRONIZE : Z := 0x0003.
Definition BITMAP_COMPRESSION : Z := 0x0001.

Definition FASTPATH_UPDATETYPE_ORDERS : Z := 0x0.
Definition FASTPATH_UPDATETYPE_BITMAP : Z := 0x1.
Definition FASTPATH_UPDATETYPE_PALETTE : Z := 0x2.
Definition FASTPATH_UPDATETYPE_SYNCHRONIZE : Z := 0x3.
Definition FASTPATH_UPDATETYPE_SURFCMDS : Z := 0x4.
Definition FASTPATH_UPDATETYPE_PTR_NULL : Z := 0x5.
Definition FASTPATH_UPDATETYPE_PTR_DEFAULT : Z := 0x6.
Definition FASTPATH_UPDATETYPE_PTR_POSITION : Z := 0x8.
Definition FASTPATH_UPDATETYPE_COLOR : Z := 0x9.
Definition FASTPATH_UPDATETYPE_CACHED : Z := 0xA.
Definition FASTPATH_UPDATETYPE_POINTER : Z := 0xB.

Definition PTR_MSG_TYPE_SYSTEM : Z := 0x0001.
Definition PTR_MSG_TYPE_POSITION : Z := 0x0003.
Definition PTR_MSG_TYPE_COLOR : Z := 0x0006.
Definition PTR_MSG_TYPE_CACHED : Z := 0x0007.
Definition PTR_MSG_TYPE_POINTER : Z := 0x0008.
Definition SYSPTR_NULL : Z := 0x00000000.
Definition SYSPTR_DEFAULT : Z := 0x00007F00.
Definition SCREEN_BITMAP_SURFACE : Z := 0xFFFF.

Definition DATA_PDU_TYPE_REFRESH_RECT : Z := 0x21.
Definition DATA_PDU_TYPE_SUPPRESS_OUTPUT : Z := 0x23.

Definition CMDTYPE_SET_SURFACE_BITS : Z := 0x0001.
Definition CMDTYPE_FRAME_MARKER : Z := 0x0004.
Definition CMDTYPE_STREAM_SURFACE_BITS : Z := 0x0006.
Definition SURFCMD_SURFACE_BITS_HEADER_LENGTH : Z := 22.
Definition SURFCMD_FRAME_MARKER_LENGTH : Z := 8.

(** ** Data *)

Record BITMAP_DATA : Type := mkBitmapData {
  bd_destLeft : Z;
  bd_destTop : Z;
  bd_destRight : Z;
  bd_destBottom : Z;
  bd_width : Z;
  bd_height : Z;
  bitsPerPixel : Z;
  bd_flags : Z;
  bd_length : Z;
  bd_cbCompFirstRowSize : Z;
  bd_cbCompMainBodySize : Z;
  bd_cbScanWidth : Z;
  bd_cbUncompressedSize : Z;
  bd_data : Z;
  bd_compressed : bool;
}.

(** [rectangles] is an array of [bu_count] entries, [number] of them in use. *)
Record BITMAP_UPDATE : Type := mkBitmapUpdate {
  bu_count : Z;
  bu_number : Z;
  bu_rectangles : list BITMAP_DATA;
}.

Record PALETTE_ENTRY : Type := mkEntry { red : Z; green : Z; blue : Z }.
Record PALETTE_UPDATE : Type := mkPalette { pal_number : Z; entries : list PALETTE_ENTRY }.
Record PLAY_SOUND_UPDATE : Type := mkSound { duration : Z; frequency : Z }.

Record SURFACE_BITS_COMMAND : Type := mkSurfaceBits {
  sc_destLeft : Z;
  sc_destTop : Z;
  sc_destRight : Z;
  sc_destBottom : Z;
  sc_bpp : Z;
  sc_codecID : Z;
  sc_width : Z;
  sc_height : Z;
  bitmapDataLength : Z;
  sc_data : Z;
}.

Record SURFACE_FRAME_MARKER : Type := mkMarker { frameAction : Z; frameId : Z }.

Record POINTER_POSITION_UPDATE : Type := mkPosition { pp_x : Z; pp_y : Z }.
Record POINTER_SYSTEM_UPDATE : Type := mkSystem { ps_type : Z }.
Record POINTER_COLOR_UPDATE : Type := mkPtrColor {
  pc_cacheIndex : Z;
  pc_xPos : Z;
  pc_yPos : Z;
  pc_width : Z;
  pc_height : Z;
  lengthAndMask : Z;
  lengthXorMask : Z;
  xorMaskData : list Z;
  andMaskData : list Z;
}.
Record POINTER_NEW_UPDATE : Type := mkPtrNew { xorBpp : Z; colorPtrAttr : POINTER_COLOR_UPDATE }.
Record POINTER_CACHED_UPDATE : Type := mkPtrCached { ca_cacheIndex : Z }.

Record rdpPointerUpdate : Type := mkPointer {
  pointer_position : POINTER_POSITION_UPDATE;
  pointer_system : POINTER_SYSTEM_UPDATE;
  pointer_color : POINTER_COLOR_UPDATE;
  pointer_new : POINTER_NEW_UPDATE;
  pointer_cached : POINTER_CACHED_UPDATE;
}.

Record rdpUpdate : Type := mkUpdate {
  u_orders : rdpOrders;
  u_pointer : rdpPointerUpdate;
  bitmap_update : BITMAP_UPDATE;
  palette_update : PALETTE_UPDATE;
  play_sound : PLAY_SOUND_UPDATE;
  surface_bits_command : SURFACE_BITS_COMMAND;
  surface_frame_marker : SURFACE_FRAME_MARKER;
}.

Class UpdateCalls (Ctx : Type) : Type := {
  BeginPaint : Ctx -> Ctx;
  EndPaint : Ctx -> Ctx;
  call_synchronize : Ctx -> Ctx;
  call_bitmap : list Z -> BITMAP_UPDATE -> Ctx -> Ctx * BITMAP_UPDATE;
  call_palette : PALETTE_UPDATE -> Ctx -> Ctx * PALETTE_UPDATE;
  call_play_sound : PLAY_SOUND_UPDATE -> Ctx -> Ctx * PLAY_SOUND_UPDATE;
  call_surface_bits : list Z -> SURFACE_BITS_COMMAND -> Ctx -> Ctx * SURFACE_BITS_COMMAND;
  call_frame_marker : SURFACE_FRAME_MARKER -> Ctx -> Ctx * SURFACE_FRAME_MARKER;
  call_pointer_position : POINTER_POSITION_UPDATE -> Ctx -> Ctx * POINTER_POSITION_UPDATE;
  call_pointer_system : POINTER_SYSTEM_UPDATE -> Ctx -> Ctx * POINTER_SYSTEM_UPDATE;
  call_pointer_color : POINTER_COLOR_UPDATE -> Ctx -> Ctx * POINTER_COLOR_UPDATE;
  call_pointer_new : POINTER_NEW_UPDATE -> Ctx -> Ctx * POINTER_NEW_UPDATE;
  call_pointer_cached : POINTER_CACHED_UPDATE -> Ctx -> Ctx * POINTER_CACHED_UPDATE;
}.

Definition zero_bitmap : BITMAP_DATA := mkBitmapData 0 0 0 0 0 0 0 0 0 0 0 0 0 0 false.
Definition zero_pointer_color : POINTER_COLOR_UPDATE := mkPtrColor 0 0 0 0 0 0 0 [] [].
Definition pointer_update_new : rdpPointerUpdate :=
  mkPointer (mkPosition 0 0) (mkSystem 0) zero_pointer_color (mkPtrNew 0 zero_pointer_color) (mkPtrCached 0).

Definition update_new : rdpUpdate :=
  mkUpdate orders_new pointer_update_new (mkBitmapUpdate 64 0 (replicate 64 zero_bitmap)) (mkPalette 0 (replicate 256 (mkEntry 0 0 0)))
    (mkSound 0 0) (mkSurfaceBits 0 0 0 0 0 0 0 0 0 0) (mkMarker 0 0).

(** ** Readers *)

Definition update_read_bitmap_data (d : BITMAP_DATA) : M STREAM BITMAP_DATA :=
  let! l := stream_read_uint16 in
  let! t := stream_read_uint16 in
  let! r := stream_read_uint16 in
  let! b := stream_read_uint16 in
  let! w := stream_read_uint16 in
  let! h := stream_read_uint16 in
  let! bpp := stream_read_uint16 in
  let! flags := stream_read_uint16 in
  let! length := stream_read_uint16 in
  let d := d <| bd_destLeft := l |> <| bd_destTop := t |> <| bd_destRight := r |> <| bd_destBottom := b |>
             <| bd_width := w |> <| bd_height := h |> <| bitsPerPixel := bpp |> <| bd_flags := flags |> <| bd_length := length |> in
  let! d :=
    when_read (flag flags BITMAP_COMPRESSION && negb (flag flags NO_BITMAP_COMPRESSION_HDR))
      (let! first := stream_read_uint16 in
       let! main := stream_read_uint16 in
       let! scan := stream_read_uint16 in
       let! uncompressed := stream_read_uint16 in
       ret (d <| bd_cbCompFirstRowSize := first |> <| bd_cbCompMainBodySize := main |> <| bd_cbScanWidth := scan |>
              <| bd_cbUncompressedSize := uncompressed |> <| bd_length := main |>)) d in
  let! mark := get_pos in
  stream_seek (bd_length d);;
  ret (d <| bd_compressed := flag flags BITMAP_COMPRESSION |> <| bd_data := mark |>).

(** The array grows to twice the number, a [uint16]; when that is less than the
    entries there are, the cleared part has a negative length. *)
Definition grow_bitmaps (number : Z) (b : BITMAP_UPDATE) : M STREAM BITMAP_UPDATE :=
  if bu_count b <? number then
    let count := uint16 (number * 2) in
    if count <? bu_count b then fail OutOfBounds
    else ret (mkBitmapUpdate count number (bu_rectangles b ++ replicate (Z.to_nat (count - bu_count b)) zero_bitmap))
  else ret (b <| bu_number := number |>).

Fixpoint read_bitmaps (n : nat) (i : Z) (l : list BITMAP_DATA) : M STREAM (list BITMAP_DATA) :=
  match n with
  | O => ret l
  | S n' =>
      let! d := elem l i in
      let! d := update_read_bitmap_data d in
      let! l := elem_set i d l in
      read_bitmaps n' (i + 1) l
  end.

Definition update_read_bitmap (b : BITMAP_UPDATE) : M STREAM BITMAP_UPDATE :=
  let! number := stream_read_uint16 in
  let! b := grow_bitmaps number b in
  let! l := read_bitmaps (Z.to_nat number) 0 (bu_rectangles b) in
  ret (b <| bu_rectangles := l |>).

Fixpoint read_entries (n : nat) (i : Z) (l : list PALETTE_ENTRY) : M STREAM (list PALETTE_ENTRY) :=
  match n with
  | O => ret l
  | S n' =>
      let! b := stream_read_uint8 in
      let! g := stream_read_uint8 in
      let! r := stream_read_uint8 in
      let! l := elem_set i (mkEntry r g b) l in
      read_entries n' (i + 1) l
  end.

Definition update_read_palette (p : PALETTE_UPDATE) : M STREAM PALETTE_UPDATE :=
  stream_seek 2;;
  let! number := stream_read_uint32 in
  let number := if 256 <? number then 256 else number in
  let! l := read_entries (Z.to_nat number) 0 (entries p) in
  ret (mkPalette number l).

Definition update_read_synchronize : M STREAM unit := stream_seek 2.

Definition update_read_play_sound : M STREAM PLAY_SOUND_UPDATE :=
  let! d := stream_read_uint32 in
  let! f := stream_read_uint32 in
  ret (mkSound d f).

Definition update_read_pointer_position : M STREAM POINTER_POSITION_UPDATE :=
  let! x := stream_read_uint16 in
  let! y := stream_read_uint16 in
  ret (mkPosition x y).

Definition update_read_pointer_system : M STREAM POINTER_SYSTEM_UPDATE :=
  let! t := stream_read_uint32 in ret (mkSystem t).

Definition update_read_pointer_color (d : POINTER_COLOR_UPDATE) : M STREAM POINTER_COLOR_UPDATE :=
  let! index := stream_read_uint16 in
  let! x := stream_read_uint16 in
  let! y := stream_read_uint16 in
  let! w := stream_read_uint16 in
  let! h := stream_read_uint16 in
  let! la := stream_read_uint16 in
  let! lx := stream_read_uint16 in
  let x := if w <=? x then 0 else x in
  let y := if h <=? y then 0 else y in
  let! xors := when_read (0 <? lx) (stream_read lx) (xorMaskData d) in
  let! ands := when_read (0 <? la) (stream_read la) (andMaskData d) in
  let! avail := left_bytes in
  (if 0 <? avail then stream_seek 1 else ret tt);;
  ret (mkPtrColor index x y w h la lx xors ands).

Definition update_read_pointer_new (d : POINTER_NEW_UPDATE) : M STREAM POINTER_NEW_UPDATE :=
  let! bpp := stream_read_uint16 in
  let! c := update_read_pointer_color (colorPtrAttr d) in
  ret (mkPtrNew bpp c).

Definition update_read_pointer_cached : M STREAM POINTER_CACHED_UPDATE :=
  let! index := stream_read_uint16 in ret (mkPtrCached index).

(** ** The client's side *)

Section Client.
Context {Ctx : Type} {PC : PrimaryCalls Ctx} {SC : SecondaryCalls Ctx} {AC : AltSecCalls Ctx} {WC : WindowCalls Ctx} {UC : UpdateCalls Ctx}.

Definition update_recv_play_sound (u : rdpUpdate) (x : Ctx) : M STREAM (rdpUpdate * Ctx) :=
  drawn update_read_play_sound call_play_sound (fun d => u <| play_sound := d |>) x.

Definition recv_position (u : rdpUpdate) (x : Ctx) : M STREAM (rdpUpdate * Ctx) :=
  drawn update_read_pointer_position call_pointer_position (fun d => u <| u_pointer := (u_pointer u) <| pointer_position := d |> |>) x.
Definition recv_color (u : rdpUpdate) (x : Ctx) : M STREAM (rdpUpdate * Ctx) :=
  drawn (update_read_pointer_color (pointer_color (u_pointer u))) call_pointer_color
    (fun d => u <| u_pointer := (u_pointer u) <| pointer_color := d |> |>) x.
Definition recv_new (u : rdpUpdate) (x : Ctx) : M STREAM (rdpUpdate * Ctx) :=
  drawn (update_read_pointer_new (pointer_new (u_pointer u))) call_pointer_new
    (fun d => u <| u_pointer := (u_pointer u) <| pointer_new := d |> |>) x.
Definition recv_cached (u : rdpUpdate) (x : Ctx) : M STREAM (rdpUpdate * Ctx) :=
  drawn update_read_pointer_cached call_pointer_cached (fun d => u <| u_pointer := (u_pointer u) <| pointer_cached := d |> |>) x.
Definition recv_system (c : M STREAM POINTER_SYSTEM_UPDATE) (u : rdpUpdate) (x : Ctx) : M STREAM (rdpUpdate * Ctx) :=
  drawn c call_pointer_system (fun d => u <| u_pointer := (u_pointer u) <| pointer_system := d |> |>) x.

Definition update_recv_pointer (u : rdpUpdate) (x : Ctx) : M STREAM (rdpUpdate * Ctx) :=
  let! messageType := stream_read_uint16 in
  stream_seek 2;;
  if messageType =? PTR_MSG_TYPE_POSITION then recv_position u x
  else if messageType =? PTR_MSG_TYPE_SYSTEM then recv_system update_read_pointer_system u x
  else if messageType =? PTR_MSG_TYPE_COLOR then recv_color u x
  else if messageType =? PTR_MSG_TYPE_POINTER then recv_new u x
  else if messageType =? PTR_MSG_TYPE_CACHED then recv_cached u x
  else ret (u, x).

Definition recv_bitmap (u : rdpUpdate) (x : Ctx) : M STREAM (rdpUpdate * Ctx) :=
  let! bytes := packet in
  drawn (update_read_bitmap (bitmap_update u)) (call_bitmap bytes) (fun d => u <| bitmap_update := d |>) x.
Definition recv_palette (u : rdpUpdate) (x : Ctx) : M STREAM (rdpUpdate * Ctx) :=
  drawn (update_read_palette (palette_update u)) call_palette (fun d => u <| palette_update := d |>) x.
Definition on_orders (c : M STREAM (rdpOrders * Ctx)) (u : rdpUpdate) : M STREAM (rdpUpdate * Ctx) :=
  let! (o, x) := c in ret (u <| u_orders := o |>, x).

(** The switch of [update_recv]. *)
Definition recv_update_type (updateType : Z) (u : rdpUpdate) (x : Ctx) : M STREAM (rdpUpdate * Ctx) :=
  if updateType =? UPDATE_TYPE_ORDERS then on_orders (update_recv_orders (u_orders u) x) u
  else if updateType =? UPDATE_TYPE_BITMAP then recv_bitmap u x
  else if updateType =? UPDATE_TYPE_PALETTE then recv_palette u x
  else if updateType =? UPDATE_TYPE_SYNCHRONIZE then update_read_synchronize;; ret (u, call_synchronize x)
  else ret (u, x).

(** More than a share data header behind the update is a second PDU, for
    [rdp_recv_data_pdu], which is [recv_data]. *)
Definition update_recv (recv_data : rdpUpdate -> Ctx -> M STREAM (rdpUpdate * Ctx)) (u : rdpUpdate) (x : Ctx) : M STREAM (rdpUpdate * Ctx) :=
  let! updateType := stream_read_uint16 in
  let! (u, x) := recv_update_type updateType u (BeginPaint x) in
  let x := EndPaint x in
  let! avail := left_bytes in
  if RDP_SHARE_DATA_HEADER_LENGTH <? avail then
    let! (_, _, pduType, _) := rdp_read_share_control_header None None in
    let! pduType := use pduType in
    if negb (pduType =? PDU_TYPE_DATA) then ret (u, x) else recv_data u x
  else ret (u, x).

(** *** Surface commands *)

(** The new position is an [int]; the result is the length of the command. *)
Definition update_recv_surfcmd_surface_bits (u : rdpUpdate) (x : Ctx) : M STREAM (rdpUpdate * Ctx * Z) :=
  let! l := stream_read_uint16 in
  let! t := stream_read_uint16 in
  let! r := stream_read_uint16 in
  let! b := stream_read_uint16 in
  let! bpp := stream_read_uint8 in
  stream_seek 2;;
  let! codec := stream_read_uint8 in
  let! w := stream_read_uint16 in
  let! h := stream_read_uint16 in
  let! length := stream_read_uint32 in
  let! here := get_pos in
  let pos := sint32 (here + length) in
  let! bytes := packet in
  let (x, cmd) := call_surface_bits bytes (mkSurfaceBits l t r b bpp codec w h length here) x in
  stream_set_pos pos;;
  ret (u <| surface_bits_command := cmd |>, x, uint32 (20 + bitmapDataLength cmd)).

Definition update_recv_surfcmd_frame_marker (u : rdpUpdate) (x : Ctx) : M STREAM (rdpUpdate * Ctx * Z) :=
  let! a := stream_read_uint16 in
  let! id := stream_read_uint32 in
  let (x, m) := call_frame_marker (mkMarker a id) x in
  ret (u <| surface_frame_marker := m |>, x, 6).

(** [while (size > 2)], at most [fuel] rounds; the size is a [uint32]. *)
Fixpoint surfcmds_loop (fuel : nat) (size : Z) (u : rdpUpdate) (x : Ctx) : M STREAM (rdpUpdate * Ctx * bool) :=
  if 2 <? size then
    match fuel with
    | O => fail Diverges
    | S fuel' =>
        let! cmdType := stream_read_uint16 in
        let size := size - 2 in
        if (cmdType =? CMDTYPE_SET_SURFACE_BITS) || (cmdType =? CMDTYPE_STREAM_SURFACE_BITS) then
          let! (u, x, cmdLength) := update_recv_surfcmd_surface_bits u x in
          surfcmds_loop fuel' (uint32 (size - cmdLength)) u x
        else if cmdType =? CMDTYPE_FRAME_MARKER then
          let! (u, x, cmdLength) := update_recv_surfcmd_frame_marker u x in
          surfcmds_loop fuel' (uint32 (size - cmdLength)) u x
        else ret (u, x, false)
    end
  else ret (u, x, true).

(** A command that does not point backwards takes bytes of the packet, so that
    these bound the rounds. *)
Definition update_recv_surfcmds (size : Z) (u : rdpUpdate) (x : Ctx) : M STREAM (rdpUpdate * Ctx * bool) :=
  fun s => surfcmds_loop (S (length (s_data s))) size u x s.

(** *** The state *)

(** Every primary order is forgotten, and the screen is drawn on again. *)
Definition update_reset_state (u : rdpUpdate) (x : Ctx) : rdpUpdate * Ctx :=
  let o := u_orders u in
  let (x, d) := call_switch_surface (Altsec.mkSwitch SCREEN_BITMAP_SURFACE) x in
  (u <| u_orders := o <| primary := zero_primary ORDER_TYPE_PATBLT |> <| altsec := (altsec o) <| switch_surface := d |> |> |>, x).

(** *** The fast path *)

Definition fastpath_recv_update_common (u : rdpUpdate) (x : Ctx) : M STREAM (rdpUpdate * Ctx) :=
  let! updateType := stream_read_uint16 in
  if updateType =? UPDATE_TYPE_BITMAP then recv_bitmap u x
  else if updateType =? UPDATE_TYPE_PALETTE then recv_palette u x
  else ret (u, x).

Definition fastpath_recv_update_synchronize : M STREAM unit := stream_seek 2.

Definition fastpath_recv_update (code size : Z) (u : rdpUpdate) (x : Ctx) : M STREAM (rdpUpdate * Ctx) :=
  if code =? FASTPATH_UPDATETYPE_ORDERS then on_orders (fastpath_recv_orders (u_orders u) x) u
  else if (code =? FASTPATH_UPDATETYPE_BITMAP) || (code =? FASTPATH_UPDATETYPE_PALETTE) then fastpath_recv_update_common u x
  else if code =? FASTPATH_UPDATETYPE_SYNCHRONIZE then fastpath_recv_update_synchronize;; ret (u, call_synchronize x)
  else if code =? FASTPATH_UPDATETYPE_SURFCMDS then let! (u, x, _) := update_recv_surfcmds size u x in ret (u, x)
  else if code =? FASTPATH_UPDATETYPE_PTR_NULL then recv_system (ret (mkSystem SYSPTR_NULL)) u x
  else if code =? FASTPATH_UPDATETYPE_PTR_DEFAULT then recv_system (ret (mkSystem SYSPTR_DEFAULT)) u x
  else if code =? FASTPATH_UPDATETYPE_PTR_POSITION then recv_position u x
  else if code =? FASTPATH_UPDATETYPE_COLOR then recv_color u x
  else if code =? FASTPATH_UPDATETYPE_CACHED then recv_cached u x
  else if code =? FASTPATH_UPDATETYPE_POINTER then recv_new u x
  else ret (u, x).

(** As the argument of [fastpath_recv_updates]. *)
Definition recv_update (code size : Z) (s : STREAM) (st : rdpUpdate * Ctx) : outcome (STREAM * (rdpUpdate * Ctx)) :=
  match fastpath_recv_update code size st.1 st.2 s with
  | Done (st', s') => Done (s', st')
  | Fault f => Fault f
  end.

End Client.

(** ** The server's side *)

(** Surface commands carry their data with them. *)
Record surface_bits : Type := mkBits { sb_command : SURFACE_BITS_COMMAND; sb_data : list Z }.

Definition update_write_surfcmd_surface_bits_header (cmd : SURFACE_BITS_COMMAND) : M STREAM unit :=
  stream_check_size SURFCMD_SURFACE_BITS_HEADER_LENGTH;;
  stream_write_uint16 CMDTYPE_STREAM_SURFACE_BITS;;
  stream_write_uint16 (sc_destLeft cmd);;
  stream_write_uint16 (sc_destTop cmd);;
  stream_write_uint16 (sc_destRight cmd);;
  stream_write_uint16 (sc_destBottom cmd);;
  stream_write_uint8 (sc_bpp cmd);;
  stream_write_uint16 0;;
  stream_write_uint8 (sc_codecID cmd);;
  stream_write_uint16 (sc_width cmd);;
  stream_write_uint16 (sc_height cmd);;
  stream_write_uint32 (bitmapDataLength cmd).

Definition update_write_surfcmd_frame_marker (frameAction frameId : Z) : M STREAM unit :=
  stream_check_size SURFCMD_FRAME_MARKER_LENGTH;;
  stream_write_uint16 CMDTYPE_FRAME_MARKER;;
  stream_write_uint16 frameAction;;
  stream_write_uint32 frameId.

(** [size] bytes of the data of a structure. *)
Definition write_data (size : Z) (bytes : list Z) : M STREAM unit :=
  if len bytes <? size then fail OutOfBounds else stream_write (take (Z.to_nat size) bytes).

Definition update_write_pointer_color (d : POINTER_COLOR_UPDATE) : M STREAM unit :=
  stream_check_size (15 + lengthAndMask d + lengthXorMask d);;
  stream_write_uint16 (pc_cacheIndex d);;
  stream_write_uint16 (pc_xPos d);;
  stream_write_uint16 (pc_yPos d);;
  stream_write_uint16 (pc_width d);;
  stream_write_uint16 (pc_height d);;
  stream_write_uint16 (lengthAndMask d);;
  stream_write_uint16 (lengthXorMask d);;
  (if 0 <? lengthXorMask d then write_data (lengthXorMask d) (xorMaskData d) else ret tt);;
  (if 0 <? lengthAndMask d then write_data (lengthAndMask d) (andMaskData d) else ret tt);;
  stream_write_uint8 0.

Definition freerdp_write_rectangle_16 (r : RECTANGLE_16) : M STREAM unit :=
  stream_write_uint16 (q_left r);;
  stream_write_uint16 (q_top r);;
  stream_write_uint16 (q_right r);;
  stream_write_uint16 (q_bottom r).

Fixpoint write_rectangles (n : nat) (i : Z) (areas : list RECTANGLE_16) : M STREAM unit :=
  match n with
  | O => ret tt
  | S n' => let! r := elem areas i in freerdp_write_rectangle_16 r;; write_rectangles n' (i + 1) areas
  end.

Definition update_write_refresh_rect (count : Z) (areas : list RECTANGLE_16) : M STREAM unit :=
  stream_write_uint8 count;;
  stream_seek 3;;
  write_rectangles (Z.to_nat count) 0 areas.

Definition update_write_suppress_output (allow : Z) (area : RECTANGLE_16) : M STREAM unit :=
  stream_write_uint8 allow;;
  stream_seek 3;;
  if 0 <? allow then freerdp_write_rectangle_16 area else ret tt.

Section Server.
Context {N : Type} {LN : Link N} {HC : Crypto}.

Definition send_update (code : Z) (c : M STREAM unit) : M (fpRdp N) bool :=
  fastpath_update_pdu_init;;
  on_stream c;;
  fastpath_send_update_pdu code.

Definition update_send_surface_command (bytes : list Z) : M (fpRdp N) bool :=
  send_update FASTPATH_UPDATETYPE_SURFCMDS (stream_check_size (len bytes);; stream_write bytes).

Definition update_send_surface_bits (b : surface_bits) : M (fpRdp N) bool :=
  send_update FASTPATH_UPDATETYPE_SURFCMDS
    (stream_check_size (SURFCMD_SURFACE_BITS_HEADER_LENGTH + sint32 (bitmapDataLength (sb_command b)));;
     update_write_surfcmd_surface_bits_header (sb_command b);;
     write_data (bitmapDataLength (sb_command b)) (sb_data b)).

Definition update_send_surface_frame_marker (m : SURFACE_FRAME_MARKER) : M (fpRdp N) bool :=
  send_update FASTPATH_UPDATETYPE_SURFCMDS (update_write_surfcmd_frame_marker (frameAction m) (frameId m)).

Definition update_send_synchronize : M (fpRdp N) bool :=
  send_update FASTPATH_UPDATETYPE_SYNCHRONIZE (stream_write_zero 2).

Definition update_send_scrblt (d : ScrBlt.SCRBLT_ORDER) : M (fpRdp N) bool :=
  send_update FASTPATH_UPDATETYPE_ORDERS
    (stream_write_uint16 1;;
     stream_write_uint8 (Z.lor ORDER_STANDARD ORDER_TYPE_CHANGE);;
     stream_write_uint8 ORDER_TYPE_SCRBLT;;
     stream_write_uint8 0x7F;;
     stream_write_uint16 (ScrBlt.nLeftRect d);;
     stream_write_uint16 (ScrBlt.nTopRect d);;
     stream_write_uint16 (ScrBlt.nWidth d);;
     stream_write_uint16 (ScrBlt.nHeight d);;
     stream_write_uint8 (ScrBlt.bRop d);;
     stream_write_uint16 (ScrBlt.nXSrc d);;
     stream_write_uint16 (ScrBlt.nYSrc d)).

Definition update_send_pointer_system (d : POINTER_SYSTEM_UPDATE) : M (fpRdp N) bool :=
  send_update (if ps_type d =? SYSPTR_NULL then FASTPATH_UPDATETYPE_PTR_NULL else FASTPATH_UPDATETYPE_PTR_DEFAULT) (ret tt).

Definition update_send_pointer_color (d : POINTER_COLOR_UPDATE) : M (fpRdp N) bool :=
  send_update FASTPATH_UPDATETYPE_COLOR (update_write_pointer_color d).

Definition update_send_pointer_new (d : POINTER_NEW_UPDATE) : M (fpRdp N) bool :=
  send_update FASTPATH_UPDATETYPE_POINTER (stream_write_uint16 (xorBpp d);; update_write_pointer_color (colorPtrAttr d)).

Definition update_send_pointer_cached (d : POINTER_CACHED_UPDATE) : M (fpRdp N) bool :=
  send_update FASTPATH_UPDATETYPE_CACHED (stream_write_uint16 (ca_cacheIndex d)).

Definition update_send_refresh_rect (conf : rdpConf) (count : Z) (areas : list RECTANGLE_16) : M (fpRdp N) bool :=
  send_data conf DATA_PDU_TYPE_REFRESH_RECT (update_write_refresh_rect count areas).

Definition update_send_suppress_output (conf : rdpConf) (allow : Z) (area : RECTANGLE_16) : M (fpRdp N) bool :=
  send_data conf DATA_PDU_TYPE_SUPPRESS_OUTPUT (update_write_suppress_output allow area).

End Server.
