(* ===== verification/UpdateDelivery.v ===== *)
(** Delivery of updates: what a server sends with the functions of
    [libfreerdp-core/update.c] is what the client draws. The two ends are those of
    [Updates], with the fast path of [fastpath.c] between them. *)

From coqutil Require Import Datatypes.RecordSetters.
From S2P Require Import Prelude.
From S2P Require Import Stream.
From S2P Require Import Settings.
From S2P Require Import Transport.
From S2P Require Import Security.
From S2P Require Import Gcc.
From S2P Require Import Mppc.
From S2P Require Import Fastpath.
From S2P Require Import Rdp.
From S2P Require Import FastpathDelivery.
From S2P Require Import Channel.
From S2P Require Import License.
From S2P Require Import Orders.
From S2P Require Import OrderCache.
From S2P Require Import Windows.
From S2P Require Import OrderRecv.
From S2P Require Import OrderWire.
From S2P Require Import OrderSpec.
From S2P Require Import OrderDelivery.
From S2P Require Import Updates.
Import TriangleBracketNotations.

(** ** Writing into the send stream *)

(** [c] writes [bs] at position [p] of a stream with room for a whole packet. *)
Definition Fills (p : Z) (c : M STREAM unit) (bs : list Z) : Prop :=
  forall s, s_p s = p -> FASTPATH_MAX_PACKET_SIZE <= s_size s <= len (s_data s) -> p + len bs <= FASTPATH_MAX_PACKET_SIZE ->
    c s = Done (tt, put bs s).

Lemma Fills_Writes p c bs : 0 <= p -> Writes c bs tt -> Fills p c bs.
Proof. intros Hp Hw s Hs Hz Hl. apply Hw. split; lia. Qed.

Lemma Fills_check p n : p + n <= FASTPATH_MAX_PACKET_SIZE -> Fills p (stream_check_size n) [].
Proof. intros Hn s Hs Hz _. rewrite put_nil. apply check_size_noop. lia. Qed.

Lemma Fills_seq p c d bs cs : 0 <= p -> Fills p c bs -> Fills (p + len bs) d cs -> Fills p (c;; d) (bs ++ cs).
Proof.
  intros Hp Hc Hd s Hs Hz Hl. rewrite len_app in Hl. pose proof (len_nonneg cs).
  rewrite (bind_Done _ _ _ tt (put bs s)) by (apply Hc; lia || assumption).
  rewrite Hd.
  - rewrite put_app by (split; llia). reflexivity.
  - cbn [put s_p]. lia.
  - cbn [put s_size]. rewrite len_put by (split; lia). lia.
  - lia.
Qed.

(** ** The updates *)

Inductive server_update : Type :=
| SScrBlt (d : ScrBlt.SCRBLT_ORDER)
| SSynchronize
| SPointerColor (d : POINTER_COLOR_UPDATE)
| SPointerNew (d : POINTER_NEW_UPDATE)
| SPointerCached (d : POINTER_CACHED_UPDATE)
| SFrameMarker (m : SURFACE_FRAME_MARKER).

Definition code_of (m : server_update) : Z :=
  match m with
  | SScrBlt _ => FASTPATH_UPDATETYPE_ORDERS
  | SSynchronize => FASTPATH_UPDATETYPE_SYNCHRONIZE
  | SPointerColor _ => FASTPATH_UPDATETYPE_COLOR
  | SPointerNew _ => FASTPATH_UPDATETYPE_POINTER
  | SPointerCached _ => FASTPATH_UPDATETYPE_CACHED
  | SFrameMarker _ => FASTPATH_UPDATETYPE_SURFCMDS
  end.

Definition pointer_wire (d : POINTER_COLOR_UPDATE) : list Z :=
  le16 (pc_cacheIndex d) ++ le16 (pc_xPos d) ++ le16 (pc_yPos d) ++ le16 (pc_width d) ++ le16 (pc_height d) ++
  le16 (lengthAndMask d) ++ le16 (lengthXorMask d) ++ xorMaskData d ++ andMaskData d ++ [0].

(** A screen copy is sent whole: type, all fields, absolute coordinates. *)
Definition scrblt_heading : heading := mkHeading true 0x7F 0 false None.

Definition payload_of (m : server_update) : list Z :=
  match m with
  | SScrBlt d =>
      le16 1 ++ [9; 2; 0x7F] ++ le16 (ScrBlt.nLeftRect d) ++ le16 (ScrBlt.nTopRect d) ++ le16 (ScrBlt.nWidth d) ++
      le16 (ScrBlt.nHeight d) ++ [ScrBlt.bRop d] ++ le16 (ScrBlt.nXSrc d) ++ le16 (ScrBlt.nYSrc d)
  | SSynchronize => [0; 0]
  | SPointerColor d => pointer_wire d
  | SPointerNew d => le16 (xorBpp d) ++ pointer_wire (colorPtrAttr d)
  | SPointerCached d => le16 (ca_cacheIndex d)
  | SFrameMarker m => le16 CMDTYPE_FRAME_MARKER ++ le16 (frameAction m) ++ le32 (frameId m)
  end.

(** The hot spot is inside the pointer, or its corner. *)
Definition spot_fits (pos size : Z) : Prop := fits16 pos /\ fits16 size /\ (pos < size \/ pos = 0).

Definition pointer_fits (d : POINTER_COLOR_UPDATE) : Prop :=
  fits16 (pc_cacheIndex d) /\ spot_fits (pc_xPos d) (pc_width d) /\ spot_fits (pc_yPos d) (pc_height d) /\
  lengthAndMask d = len (andMaskData d) /\ lengthXorMask d = len (xorMaskData d) /\
  0 < len (andMaskData d) /\ 0 < len (xorMaskData d) /\ len (andMaskData d) + len (xorMaskData d) <= 16352.

Definition update_fits (m : server_update) : Prop :=
  match m with
  | SScrBlt d =>
      fits_sint16 (ScrBlt.nLeftRect d) /\ fits_sint16 (ScrBlt.nTopRect d) /\ fits_sint16 (ScrBlt.nWidth d) /\
      fits_sint16 (ScrBlt.nHeight d) /\ is_byte (ScrBlt.bRop d) /\ fits_sint16 (ScrBlt.nXSrc d) /\ fits_sint16 (ScrBlt.nYSrc d)
  | SSynchronize => True
  | SPointerColor d => pointer_fits d
  | SPointerNew d => fits16 (xorBpp d) /\ pointer_fits (colorPtrAttr d)
  | SPointerCached d => fits16 (ca_cacheIndex d)
  | SFrameMarker m => fits16 (frameAction m) /\ fits32 (frameId m)
  end.

Definition update_sender {N} {LN : Link N} {HC : Crypto} (m : server_update) : M (fpRdp N) bool :=
  match m with
  | SScrBlt d => update_send_scrblt d
  | SSynchronize => update_send_synchronize
  | SPointerColor d => update_send_pointer_color d
  | SPointerNew d => update_send_pointer_new d
  | SPointerCached d => update_send_pointer_cached d
  | SFrameMarker m => update_send_surface_frame_marker m
  end.

(** *** What the senders write *)

Lemma write_data_all size bytes : size = len bytes -> Writes (write_data size bytes) bytes tt.
Proof.
  intros ->. unfold write_data. rewrite (proj2 (Z.ltb_ge _ _)) by lia. unfold len. rewrite Nat2Z.id, take_ge by lia. apply Writes_write.
Qed.

Ltac fills_words := repeat (eapply Writes_bind; [first [apply Writes_uint16|apply Writes_uint8|apply Writes_uint32]|]).

Lemma Fills_pointer p d : 0 <= p <= 16 -> pointer_fits d -> Fills p (update_write_pointer_color d) (pointer_wire d).
Proof.
  intros Hp (_ & _ & _ & Ha & Hx & Pa & Px & Hl). unfold update_write_pointer_color. change (pointer_wire d) with ([] ++ pointer_wire d).
  apply Fills_seq; [lia|apply Fills_check; rewrite Ha, Hx; unfold FASTPATH_MAX_PACKET_SIZE; lia|].
  apply Fills_Writes; [llia|]. unfold pointer_wire. do 7 (eapply Writes_bind; [apply Writes_uint16|]).
  rewrite (proj2 (Z.ltb_lt 0 (lengthXorMask d))), (proj2 (Z.ltb_lt 0 (lengthAndMask d))) by lia.
  eapply Writes_bind; [apply write_data_all, Hx|]. eapply Writes_bind; [apply write_data_all, Ha|]. apply Writes_uint8.
Qed.

Section Sending.
Context {N : Type} (l : TRANSPORT_LAYER) `{HLink : LinkLaws N l} {HC : Crypto} `{HL : !CryptoLaws} (crypt : bool).

(** The headers in front of the first update. *)
Definition head : Z := 6 + sec_size crypt.

Lemma head_range : 6 <= head <= 14.
Proof. unfold head. destruct crypt; cbn; lia. Qed.

(** The contents that the sender of an update writes. *)
Lemma sender_contents (m : server_update) : update_fits m ->
  exists c, @update_sender N _ _ m = send_update (code_of m) c /\ Fills head c (payload_of m).
Proof.
  intros Hf. pose proof head_range. destruct m as [d| |d|d|d|m]; (eexists; split; [reflexivity|]); cbn [payload_of update_fits] in *.
  - destruct Hf as (_ & _ & _ & _ & Hb & _). apply Fills_Writes; [lia|]. unfold is_byte in Hb.
    eapply Writes_eq; [fills_words; apply Writes_uint16| |reflexivity].
    change (Z.lor ORDER_STANDARD ORDER_TYPE_CHANGE mod 256) with 9. change (ORDER_TYPE_SCRBLT mod 256) with 2.
    change (0x7F mod 256) with 0x7F. rewrite (Z.mod_small (ScrBlt.bRop d)) by lia. reflexivity.
  - apply Fills_Writes; [lia|]. apply Writes_store.
  - apply Fills_pointer; [lia|exact Hf].
  - apply Fills_seq; [lia|apply Fills_Writes; [lia|apply Writes_uint16]|].
    change (len (le16 _)) with 2. apply Fills_pointer; [lia|apply Hf].
  - apply Fills_Writes; [lia|]. apply Writes_uint16.
  - change (le16 CMDTYPE_FRAME_MARKER ++ ?l) with ([] ++ le16 CMDTYPE_FRAME_MARKER ++ l).
    apply Fills_seq; [lia|apply Fills_check; unfold SURFCMD_FRAME_MARKER_LENGTH, FASTPATH_MAX_PACKET_SIZE; lia|]. apply Fills_Writes; [llia|].
    fills_words. apply Writes_uint32.
Qed.

Lemma payload_size m : update_fits m -> 1 <= len (payload_of m) <= max_chunk crypt.
Proof.
  intros Hf. assert (16369 <= max_chunk crypt) by (unfold max_chunk; destruct crypt; cbn; lia).
  destruct m as [d| |d|d|d|m]; cbn [payload_of update_fits] in *; try (split; [vm_compute; discriminate|etransitivity; [|eassumption]; vm_compute; discriminate]).
  - destruct Hf as (_ & _ & _ & Ha & Hx & Pa & Px & Hl). unfold pointer_wire. rewrite !len_app. change (len (le16 _)) with 2. change (len [0]) with 1. lia.
  - destruct Hf as (_ & _ & _ & _ & Ha & Hx & Pa & Px & Hl). unfold pointer_wire. rewrite !len_app. change (len (le16 _)) with 2. change (len [0]) with 1. lia.
Qed.

(** The send stream of an update, positioned behind the headers of the first PDU. *)
Lemma update_init_run b (r : fpRdp N) : sendable l r -> protects crypt b r ->
  exists size h data, fastpath_update_pdu_init r = Done (tt, with_send_stream (behind size h data) r) /\
    len h = head /\ FASTPATH_MAX_PACKET_SIZE <= size <= head + len data.
Proof.
  intros Hs Hcr. destruct (send_init_run l FASTPATH_MAX_PACKET_SIZE r Hs) as (size & data & Ei & Hsz & Hd);
    [unfold FASTPATH_MAX_PACKET_SIZE; lia|]. pose proof head_range.
  unfold FASTPATH_MAX_PACKET_SIZE in *. destruct (app_split data head) as (h & d1 & -> & Hh); [lia|]. rewrite len_app in Hd.
  exists size, h, d1. split; [|lia]. unfold fastpath_update_pdu_init. rewrite (bind_Done _ _ _ _ _ Ei).
  unfold bind, rdp_get. rewrite (on_stream_run (stream_seek 3) (with_send_stream (behind size [] (h ++ d1)) r) tt _ eq_refl).
  match goal with |- context [fastpath_get_sec_bytes ?x] => change (fastpath_get_sec_bytes x) with (fastpath_get_sec_bytes r) end.
  rewrite (protects_sec _ _ _ Hcr).
  rewrite (on_stream_run (stream_seek (sec_size crypt)) _ tt _ eq_refl), (on_stream_run (stream_seek 3) _ tt _ eq_refl).
  unfold with_send_stream, behind, stream_of, adv, set_p. cbn [fp_transport set_send_stream t_send_stream s_size s_p s_data].
  rewrite Hh, len_nil. replace (0 + 3 + sec_size crypt + 3) with head by (unfold head; lia). reflexivity.
Qed.

Lemma bodies_single code payload : 1 <= len payload <= max_chunk crypt ->
  bodies (length payload) code (max_chunk crypt) 0 payload = [update_bytes code FASTPATH_FRAGMENT_SINGLE payload].
Proof.
  intros Hl. unfold len in Hl. destruct payload as [|b payload]; [cbn in Hl; lia|]. cbn [length bodies].
  rewrite take_ge, drop_ge by (cbn [length] in *; lia). destruct (length payload); reflexivity.
Qed.

(** [send_update] of contents that fill the stream: one PDU that carries them. *)
Lemma send_update_sent code c payload b (r : fpRdp N) : sendable l r -> protects crypt b r -> 0 <= code < 16 ->
  Fills head c payload -> 1 <= len payload <= max_chunk crypt ->
  exists ok r' k pdu b', send_update code c r = Done (ok, r') /\
    carries crypt (update_bytes code FASTPATH_FRAGMENT_SINGLE payload) pdu b b' /\
    sent r' = sent r ++ take k pdu /\
    if ok : bool then (length pdu <= k)%nat /\ protects crypt b' r'
    else t_layer (fp_transport r') = TRANSPORT_LAYER_CLOSED.
Proof.
  intros Hs Hcr Hc Hf Hl. destruct (update_init_run b r Hs Hcr) as (size & h & data & Ei & Hh & Hsz).
  pose proof head_range. unfold FASTPATH_MAX_PACKET_SIZE, max_chunk in *.
  assert (Hfit : head + len payload <= 16383) by (unfold head; lia).
  destruct (app_split data (len payload)) as (hole & post & -> & Hhole); [lia|].
  unfold send_update. rewrite (bind_Done _ _ _ _ _ Ei).
  assert (E : c (behind size h (hole ++ post)) = Done (tt, behind size (h ++ payload) post)).
  { rewrite <- put_behind with (b := hole) by (symmetry; exact Hhole). apply Hf; cbn [behind s_p s_size s_data];
      rewrite ?len_app in *; unfold FASTPATH_MAX_PACKET_SIZE; lia. }
  rewrite (bind_Done _ _ _ _ _ (on_stream_run _ (with_send_stream (behind size h (hole ++ post)) r) _ _ E)).
  set (r1 := with_send_stream _ _).
  destruct (send_update_run l crypt code payload h post b r1) as (ok & r' & k & pdus & b' & Es & Hcs & Ho & Hok).
  - exact Hc.
  - lia.
  - exact Hh.
  - exact Hcr.
  - apply (sd_layer _ _ Hs).
  - cbn. rewrite len_app. lia.
  - cbn. rewrite <- app_assoc. reflexivity.
  - rewrite bodies_single in Hcs by exact Hl. inversion Hcs as [|body pdu ? pdus' ? b1 ? Hcar Hcs']; subst. inversion Hcs'; subst.
    cbn [concat] in Ho, Hok. rewrite app_nil_r in Ho, Hok.
    exists ok, r', k, pdu, b'. split; [exact Es|]. split; [exact Hcar|]. split; [exact Ho|exact Hok].
Qed.

(** An empty update is not sent at all. *)
Lemma send_update_empty code c b (r : fpRdp N) : sendable l r -> protects crypt b r -> Fills head c [] ->
  exists r', send_update code c r = Done (true, r') /\ sent r' = sent r.
Proof.
  intros Hs Hcr Hf. destruct (update_init_run b r Hs Hcr) as (size & h & data & Ei & Hh & Hsz).
  unfold send_update. rewrite (bind_Done _ _ _ _ _ Ei). unfold FASTPATH_MAX_PACKET_SIZE in Hsz. pose proof head_range.
  assert (E : c (behind size h data) = Done (tt, behind size h data)).
  { rewrite Hf; [rewrite put_nil; reflexivity|exact Hh|cbn; rewrite len_app; unfold FASTPATH_MAX_PACKET_SIZE; lia|].
    rewrite len_nil. unfold FASTPATH_MAX_PACKET_SIZE. lia. }
  rewrite (bind_Done _ _ _ _ _ (on_stream_run _ (with_send_stream (behind size h data) r) _ _ E)).
  set (r1 := with_send_stream _ _).
  unfold fastpath_send_update_pdu, bind at 1, rdp_get.
  change (fastpath_get_sec_bytes r1) with (fastpath_get_sec_bytes r). rewrite (protects_sec _ _ _ Hcr).
  rewrite (bind_Done _ _ _ _ _ (on_stream_run get_pos r1 (len h) (stream_of r1) eq_refl)). rewrite Hh.
  replace (uint32 (head - 6 - sec_size crypt)) with 0 by (unfold head, uint32; rewrite Z.mod_small; lia). change (Z.to_nat 0) with 0%nat.
  rewrite (bind_Done _ _ _ _ _ (on_stream_run (stream_set_pos 0) _ tt _ eq_refl)). cbn [send_fragments]. change (0 <? 0) with false.
  eexists. split; reflexivity.
Qed.
End Sending.

(** ** What the client does *)

Section Receiving.
Context {Ctx : Type} {PC : PrimaryCalls Ctx} {SC : SecondaryCalls Ctx} {AC : AltSecCalls Ctx} {WC : WindowCalls Ctx} {UC : UpdateCalls Ctx}.

(** The callback of the update, on what the server gave to the sender. *)
Definition handled (m : server_update) (u : rdpUpdate) (x : Ctx) : rdpUpdate * Ctx :=
  match m with
  | SScrBlt d =>
      let p := primary (u_orders u) in
      let (p, x) := performed (mkPeer scrblt_heading (bounds (order_info p)) (PScrBlt d)) p x in
      (u <| u_orders := (u_orders u) <| primary := p |> |>, x)
  | SSynchronize => (u, call_synchronize x)
  | SPointerColor d => let (x, d) := call_pointer_color d x in (u <| u_pointer := (u_pointer u) <| pointer_color := d |> |>, x)
  | SPointerNew d => let (x, d) := call_pointer_new d x in (u <| u_pointer := (u_pointer u) <| pointer_new := d |> |>, x)
  | SPointerCached d => let (x, d) := call_pointer_cached d x in (u <| u_pointer := (u_pointer u) <| pointer_cached := d |> |>, x)
  | SFrameMarker m => let (x, m) := call_frame_marker m x in (u <| surface_frame_marker := m |>, x)
  end.

Lemma le16_wrap v : le16 (uint16 v) = le16 v.
Proof. unfold le16, uint16. cons_eq; dlia. Qed.

Lemma scrblt_fits d p : update_fits (SScrBlt d) -> peer_fits p (mkPeer scrblt_heading (bounds (order_info p)) (PScrBlt d)).
Proof.
  intros (H1 & H2 & H3 & H4 & H5 & H6 & H7). split; [vm_compute; repeat split; discriminate|].
  destruct p. exact (conj H1 (conj H2 (conj H3 (conj H4 (conj H5 (conj H6 H7)))))).
Qed.

Lemma scrblt_wire d p : peer_wire p (mkPeer scrblt_heading (bounds (order_info p)) (PScrBlt d)) ++ [] =
  [9; 2; 0x7F] ++ le16 (ScrBlt.nLeftRect d) ++ le16 (ScrBlt.nTopRect d) ++ le16 (ScrBlt.nWidth d) ++
  le16 (ScrBlt.nHeight d) ++ [ScrBlt.bRop d] ++ le16 (ScrBlt.nXSrc d) ++ le16 (ScrBlt.nYSrc d).
Proof.
  rewrite app_nil_r, <- (le16_wrap (ScrBlt.nLeftRect d)), <- (le16_wrap (ScrBlt.nTopRect d)), <- (le16_wrap (ScrBlt.nWidth d)),
    <- (le16_wrap (ScrBlt.nHeight d)), <- (le16_wrap (ScrBlt.nXSrc d)), <- (le16_wrap (ScrBlt.nYSrc d)). destruct p. reflexivity.
Qed.

Lemma spot_kept pos size : spot_fits pos size -> (if size <=? pos then 0 else pos) = pos.
Proof. intros (_ & _ & H). destruct (Z.leb_spec size pos); lia. Qed.

Lemma Reads_cursor d old : pointer_fits d -> Reads (update_read_pointer_color old) (pointer_wire d) d.
Proof.
  destruct d as [i x y w h la lx xors ands]. intros (Hi & Hx & Hy & Ha & Hxo & Pa & Px & Hl).
  cbn [pc_cacheIndex pc_xPos pc_yPos pc_width pc_height lengthAndMask lengthXorMask xorMaskData andMaskData] in *.
  unfold update_read_pointer_color, pointer_wire. cbn [pc_cacheIndex pc_xPos pc_yPos pc_width pc_height lengthAndMask lengthXorMask xorMaskData andMaskData].
  pose proof Hx as (Hx1 & Hw & _). pose proof Hy as (Hy1 & Hh & _). pose proof (len_nonneg ands). pose proof (len_nonneg xors).
  do 7 (eapply Reads_bind; [apply Reads_le16; first [assumption|lia]|]). rewrite (spot_kept x w Hx), (spot_kept y h Hy).
  rewrite (proj2 (Z.ltb_lt 0 lx)), (proj2 (Z.ltb_lt 0 la)) by lia. cbn [when_read].
  eapply Reads_bind; [apply Reads_read, Hxo|]. eapply Reads_bind; [apply Reads_read, Ha|].
  intros s Hs. unfold bind at 1, left_bytes. rewrite (proj2 (Z.ltb_lt 0 _)).
  2:{ pose proof (holds_size _ _ Hs). change (len [0]) with 1 in *. unfold stream_get_left. lia. }
  reflexivity.
Qed.

Lemma Reads_drawn_by {D} (c : M STREAM D) call (keep : D -> rdpUpdate) (x : Ctx) bs d :
  Reads c bs d -> Reads (drawn c call keep x) bs (let (x, d) := call d x in (keep d, x)).
Proof. intros H. eapply Reads_eq; [apply Reads_drawn, H|reflexivity|]. destruct (call d x). reflexivity. Qed.

Lemma Reads_marker m u x : update_fits (SFrameMarker m) ->
  Reads (update_recv_surfcmds 8 u x) (payload_of (SFrameMarker m))
    (let (x, m) := call_frame_marker m x in (u <| surface_frame_marker := m |>, x, true)).
Proof.
  destruct m as [a id]. intros [Ha Hi]. cbn [frameAction frameId payload_of] in *. intros s Hs.
  unfold update_recv_surfcmds. cbn [surfcmds_loop]. change (2 <? 8) with true. cbv iota.
  destruct (holds_app _ _ _ Hs) as [H1 H2]. destruct (holds_app _ _ _ H2) as [H3 H4].
  rewrite (bind_Done _ _ _ _ _ (Reads_le16 CMDTYPE_FRAME_MARKER ltac:(vm_compute; split; congruence) s H1)).
  cbn [Z.eqb Pos.eqb orb CMDTYPE_FRAME_MARKER CMDTYPE_SET_SURFACE_BITS CMDTYPE_STREAM_SURFACE_BITS].
  unfold update_recv_surfcmd_frame_marker. rewrite bind_assoc, (bind_Done _ _ _ _ _ (Reads_le16 a Ha _ H3)).
  rewrite bind_assoc, (bind_Done _ _ _ _ _ (Reads_le32 id Hi _ H4)). destruct (call_frame_marker (mkMarker a id) x) as [x' m'].
  rewrite bind_ret. change (uint32 (8 - 2 - 6)) with 0. rewrite !adv_adv.
  destruct (length (s_data s)); reflexivity.
Qed.

Lemma received m u x : update_fits m ->
  Reads (fastpath_recv_update (code_of m) (len (payload_of m)) u x) (payload_of m) (handled m u x).
Proof.
  intros Hf. destruct m as [d| |d|d|d|m]; cbn [code_of payload_of handled update_fits] in *; unfold fastpath_recv_update.
  - change (FASTPATH_UPDATETYPE_ORDERS =? FASTPATH_UPDATETYPE_ORDERS) with true. cbv iota zeta. unfold on_orders.
    rewrite <- (scrblt_wire d (primary (u_orders u))).
    pose proof (reads_fastpath_orders (u_orders u) x [mkPeer scrblt_heading (bounds (order_info (primary (u_orders u)))) (PScrBlt d)] ltac:(reflexivity)) as E.
    cbn [all_fit all_wire all_performed] in E. destruct (performed _ _ x) as [p' x']. specialize (E (conj (scrblt_fits d _ Hf) I)).
    apply Reads_nil. eapply Reads_bind; [exact E|]. apply Reads_ret.
  - apply (Reads_bind _ _ [0; 0] [] tt); [apply Reads_seek; reflexivity|apply Reads_ret].
  - apply (Reads_drawn_by _ _ (fun d => u <| u_pointer := (u_pointer u) <| pointer_color := d |> |>)), Reads_cursor, Hf.
  - apply (Reads_drawn_by _ _ (fun d => u <| u_pointer := (u_pointer u) <| pointer_new := d |> |>)).
    destruct d as [bpp c]. destruct Hf as [Hb Hc]. unfold update_read_pointer_new. cbn [xorBpp colorPtrAttr] in *.
    eapply Reads_bind; [apply Reads_le16, Hb|]. apply Reads_nil. eapply Reads_bind; [apply Reads_cursor, Hc|]. apply Reads_ret.
  - apply (Reads_drawn_by _ _ (fun d => u <| u_pointer := (u_pointer u) <| pointer_cached := d |> |>)).
    destruct d as [i]. apply Reads_nil. eapply Reads_bind; [apply Reads_le16, Hf|]. apply Reads_ret.
  - intros s Hs. pose proof (Reads_marker m u x Hf s Hs) as E. cbn [payload_of] in E.
    transitivity ((let! (u, x, _) := update_recv_surfcmds 8 u x in ret (u, x)) s); [reflexivity|].
    rewrite (bind_Done _ _ _ _ _ E). destruct (call_frame_marker m x). reflexivity.
Qed.
End Receiving.

Lemma code_of_range m : 0 <= code_of m < 16.
Proof. destruct m; vm_compute; split; congruence. Qed.

(** The handlers of a client that draws: the fast path is that of [Updates], the
    receivers of other PDUs are left open. *)
Definition drawing_handlers {Ctx : Type} {PC : PrimaryCalls Ctx} {SC : SecondaryCalls Ctx} {AC : AltSecCalls Ctx}
    {WC : WindowCalls Ctx} {UC : UpdateCalls Ctx} (other : PduHandlers (rdpUpdate * Ctx)) : PduHandlers (rdpUpdate * Ctx) := {|
  Rdp.update_recv := Rdp.update_recv;
  Rdp.update_recv_pointer := Rdp.update_recv_pointer;
  Rdp.update_recv_play_sound := Rdp.update_recv_play_sound;
  Rdp.rdp_recv_save_session_info := Rdp.rdp_recv_save_session_info;
  Rdp.rdp_recv_redirection := Rdp.rdp_recv_redirection;
  Rdp.BeginPaint := fun ux => (ux.1, BeginPaint ux.2);
  Rdp.EndPaint := fun ux => (ux.1, EndPaint ux.2);
  Rdp.fastpath_recv_update := recv_update;
  Rdp.ReceiveChannelData := Rdp.ReceiveChannelData
|}.


(** *** A server and a client *)

Inductive sighting : Type :=
| Opened
| Closed
| Order (d : drawing)
| Cursor (d : POINTER_COLOR_UPDATE)
| Marked (m : SURFACE_FRAME_MARKER)
| Seen (what : Z).

Definition see (w : sighting) (log : list sighting) : list sighting := log ++ [w].
Definition saw {D} (w : D -> sighting) (d : D) (log : list sighting) : list sighting * D := (log ++ [w d], d).

#[local] Instance watch_updates : UpdateCalls (list sighting) := {|
  BeginPaint := see Opened;
  EndPaint := see Closed;
  call_synchronize := see (Seen 0);
  call_bitmap _ := saw (fun _ => Seen 1);
  call_palette := saw (fun _ => Seen 2);
  call_play_sound := saw (fun _ => Seen 3);
  call_surface_bits _ := saw (fun _ => Seen 4);
  Updates.call_frame_marker := saw Marked;
  call_pointer_position := saw (fun _ => Seen 5);
  call_pointer_system := saw (fun d => Seen (ps_type d));
  call_pointer_color := saw Cursor;
  call_pointer_new := saw (fun d => Cursor (colorPtrAttr d));
  call_pointer_cached := saw (fun d => Seen (ca_cacheIndex d))
|}.

#[local] Instance watch_orders : PrimaryCalls (list sighting) := recorder_by (fun d => see (Order d)).
#[local] Existing Instance keep_secondary.
#[local] Existing Instance keep_altsec.
#[local] Existing Instance keep_windows.

Definition sample_server : fpRdp rdpTcp :=
  mkFpRdp (tcp_transport [] [SendUpTo 10; SendAgain; SendUpTo 100]) (toy_end 0) true false 0 ENCRYPTION_METHOD_128BIT.
#[local] Instance quiet_handlers : PduHandlers (rdpUpdate * list sighting) := {|
  Rdp.update_recv := fun s u => Done (s, u);
  Rdp.update_recv_pointer := fun s u => Done (s, u);
  Rdp.update_recv_play_sound := fun s u => Done (s, u);
  Rdp.rdp_recv_save_session_info := fun s u => Done (s, u);
  Rdp.rdp_recv_redirection := fun s u => Done (s, u);
  Rdp.BeginPaint := fun u => u;
  Rdp.EndPaint := fun u => u;
  Rdp.fastpath_recv_update := fun _ _ s u => Done (s, u);
  Rdp.ReceiveChannelData := fun _ _ _ _ u => u
|}.
Definition sample_client : rdpRdp rdpTcp (rdpUpdate * list sighting) :=
  mkRdp (mkFpRdp (tcp_transport [] []) (toy_end 0) true false 0 ENCRYPTION_METHOD_128BIT) (toy_conf false true) CONNECTION_STATE_ACTIVE
    false 0 0 (mkRecv (mkFastPath 0 0 (stream_new 64)) (update_new, []) (mppc_new [])).
Definition sample_cursor : POINTER_COLOR_UPDATE := mkPtrColor 3 1 2 4 4 2 6 [1; 2; 3; 4; 5; 6] [7; 8].

Lemma sample_sendable : sendable TRANSPORT_LAYER_TCP sample_server.
Proof. split; try reflexivity; try discriminate. split; vm_compute; try split; discriminate. Qed.

Lemma sample_protects : protects true (fp_sec (rdp_out sample_client)) sample_server.
Proof. split; [reflexivity|]. intros _. split; [discriminate|apply toy_paired; lia]. Qed.


(** A server that changes the pointer to a system pointer reports success and
    sends nothing: [update_send_pointer_system] has no payload, and the loop of
    [fastpath_send_update_pdu] sends no PDU for an empty payload, so that the
    client's pointer stays as it was. *)
Theorem pointer_system_never_sent {N} l `{HLink : LinkLaws N l} {HC : Crypto} `{HL : !CryptoLaws} crypt b
    (d : POINTER_SYSTEM_UPDATE) (server : fpRdp N) :
  sendable l server -> protects crypt b server ->
  exists server', update_send_pointer_system d server = Done (true, server') /\ sent server' = sent server.
Proof.
  intros Hs Hcr. unfold update_send_pointer_system. apply (send_update_empty l crypt _ _ b); [exact Hs|exact Hcr|].
  intros s _ _ _. rewrite put_nil. reflexivity.
Qed.

Lemma pointer_system_never_sent_witness :
  exists server', update_send_pointer_system (mkSystem SYSPTR_NULL) sample_server = Done (true, server') /\ sent server' = sent sample_server.
Proof. exact (pointer_system_never_sent TRANSPORT_LAYER_TCP true _ (mkSystem SYSPTR_NULL) sample_server sample_sendable sample_protects). Defined.

(** ** A surface command that never ends *)

(** A command whose data would be [2 ^ 32 - 22] bytes long: the position goes back
    to its beginning, and the size left is the size before it. *)
Definition endless_command (l t r b bpp codec w h : Z) : list Z :=
  le16 CMDTYPE_SET_SURFACE_BITS ++ le16 l ++ le16 t ++ le16 r ++ le16 b ++ [bpp] ++ [0; 0] ++ [codec] ++ le16 w ++ le16 h ++ le32 0xFFFFFFEA.

(** Reads the next part of what the stream holds. *)
Ltac read_by R :=
  match goal with
  | H : holds _ (_ ++ _) |- _ =>
      let Hn := fresh in let Ht := fresh in
      destruct (holds_app _ _ _ H) as [Hn Ht]; rewrite (bind_Done _ _ _ _ _ (R _ Hn)); clear H Hn; rename Ht into H
  end.

Section Endless.
Context {Ctx : Type} {UC : UpdateCalls Ctx} (keeps : forall bytes cmd x, bitmapDataLength (call_surface_bits bytes cmd x).2 = bitmapDataLength cmd).

Lemma endless_round l t r b bpp codec w h u x s :
  fits16 l -> fits16 t -> fits16 r -> fits16 b -> fits16 w -> fits16 h -> 0 <= s_p s < 2 ^ 30 ->
  holds s (endless_command l t r b bpp codec w h) ->
  exists cmd x', update_recv_surfcmd_surface_bits u x (adv 2 s) = Done (u <| surface_bits_command := cmd |>, x', 0xFFFFFFFE, s).
Proof.
  intros Hl Ht Hr Hb Hw Hh Hp Hs. unfold endless_command in Hs.
  destruct (holds_app _ _ _ Hs) as [_ H0]. change (len (le16 CMDTYPE_SET_SURFACE_BITS)) with 2 in H0.
  unfold update_recv_surfcmd_surface_bits.
  assert (Hread : forall A (k : Z -> Z -> Z -> Z -> Z -> Z -> Z -> Z -> Z -> M STREAM A),
    (let! l := stream_read_uint16 in let! t := stream_read_uint16 in let! r := stream_read_uint16 in let! b := stream_read_uint16 in
     let! bpp := stream_read_uint8 in stream_seek 2;; let! codec := stream_read_uint8 in let! w := stream_read_uint16 in
     let! h := stream_read_uint16 in let! n := stream_read_uint32 in k l t r b bpp codec w h n) (adv 2 s)
    = k l t r b bpp codec w h 0xFFFFFFEA (adv 22 s)).
  { intros A k. clear Hs.
    read_by (Reads_le16 l Hl). read_by (Reads_le16 t Ht). read_by (Reads_le16 r Hr). read_by (Reads_le16 b Hb).
    read_by (Reads_uint8 bpp). read_by (Reads_seek [0; 0] 2 eq_refl). read_by (Reads_uint8 codec).
    read_by (Reads_le16 w Hw). read_by (Reads_le16 h Hh).
    rewrite (bind_Done _ _ _ _ _ (Reads_le32 0xFFFFFFEA ltac:(vm_compute; split; congruence) _ H0)). rewrite !adv_adv. reflexivity. }
  rewrite Hread. unfold bind at 1, get_pos. unfold bind at 1, packet. cbn [adv set_p s_p stream_get_pos s_data].
  pose proof (keeps (s_data s) (mkSurfaceBits l t r b bpp codec w h 0xFFFFFFEA (s_p s + 22)) x) as Hk.
  destruct (call_surface_bits _ _ x) as [x' cmd]. cbn [snd bitmapDataLength] in Hk. exists cmd, x'. rewrite Hk.
  change (uint32 (20 + 0xFFFFFFEA)) with 0xFFFFFFFE.
  replace (sint32 (s_p s + 22 + 0xFFFFFFEA)) with (s_p s) by (unfold sint32; dlia). destruct s. reflexivity.
Qed.
End Endless.

(** One packet keeps the client busy for ever: a surface command that claims
    [2 ^ 32 - 22] bytes of data sends the position back to its own beginning and
    leaves the size as it was, since both are computed modulo [2 ^ 32]. However
    many rounds the loop of [update_recv_surfcmds] is given, it is not done. *)
Theorem surfcmds_never_end {Ctx : Type} {UC : UpdateCalls Ctx} l t r b bpp codec w h size s :
  (forall bytes cmd x, bitmapDataLength (call_surface_bits bytes cmd x).2 = bitmapDataLength cmd) ->
  fits16 l -> fits16 t -> fits16 r -> fits16 b -> fits16 w -> fits16 h -> 0 <= s_p s < 2 ^ 30 ->
  holds s (endless_command l t r b bpp codec w h) -> 2 < size < 2 ^ 32 ->
  forall fuel (u : rdpUpdate) (x : Ctx), surfcmds_loop fuel size u x s = Fault Diverges.
Proof.
  intros Hk Hl Ht Hr Hb Hw Hh Hp Hs Hz fuel. induction fuel as [|fuel IH]; intros u x; cbn [surfcmds_loop];
    rewrite (proj2 (Z.ltb_lt 2 size)) by lia; [reflexivity|].
  destruct (holds_app _ _ _ Hs) as [Ht0 _].
  rewrite (bind_Done _ _ _ _ _ (Reads_le16 CMDTYPE_SET_SURFACE_BITS ltac:(vm_compute; split; congruence) _ Ht0)).
  change ((CMDTYPE_SET_SURFACE_BITS =? CMDTYPE_SET_SURFACE_BITS) || _) with true. cbv iota zeta.
  destruct (endless_round Hk l t r b bpp codec w h u x s Hl Ht Hr Hb Hw Hh Hp Hs) as (cmd & x' & E).
  change (len (le16 CMDTYPE_SET_SURFACE_BITS)) with 2. rewrite (bind_Done _ _ _ _ _ E).
  replace (uint32 (size - 2 - 0xFFFFFFFE)) with size by (unfold uint32; dlia). apply IH.
Qed.

Lemma surfcmds_never_end_witness :
  let packet := endless_command 0 0 64 64 32 3 64 64 in
  forall fuel, surfcmds_loop fuel (len packet) update_new ([] : list sighting) (mkSTREAM (len packet) 0 packet) = Fault Diverges.
Proof.
  intros packet fuel. unfold packet.
  apply (surfcmds_never_end 0 0 64 64 32 3 64 64); try (vm_compute; split; congruence).
  split; vm_compute; try reflexivity; discriminate.
Defined.
