(* ===== verification/Regions.v ===== *)
(** Regions and clipping of the GDI: [libfreerdp-gdi/region.c] and
    [libfreerdp-gdi/clipping.c], with the types of [include/freerdp/gdi/gdi.h].

    A region is given by its corner and its size, a rectangle by the corners that
    belong to it. The theorems read both as sets of pixels: what clipping leaves
    of an area, and what a window has to redraw.

    Coordinates are [int]s in C and plain numbers here. For coordinates and sizes
    below 2^28 ([near]) no sum of the code leaves 32 bits: [clip_ints_fit] and
    [invalid_ints_fit] show it here, [pixel_ints_fit] of file [BlitSpec] for the
    places of pixels and [line_ints_fit] of file [Line] for lines. *)

From coqutil Require Import Datatypes.RecordSetters.
From S2P Require Import Prelude.
From S2P Require Import Gcc.
Import TriangleBracketNotations.

(** ** Data *)

Record GDI_RECT : Type := mkGdiRect { left : Z; top : Z; right : Z; bottom : Z }.

(** [null] marks a region that is not set. *)
Record GDI_RGN : Type := mkRgn { rgn_x : Z; rgn_y : Z; rgn_w : Z; rgn_h : Z; rgn_null : bool }.

(** [data] are the bytes of the picture, row by row. *)
Record GDI_BITMAP : Type := mkGdiBitmap {
  bmp_bytesPerPixel : Z;
  bmp_bitsPerPixel : Z;
  bmp_width : Z;
  bmp_height : Z;
  scanline : Z;
  bmp_data : list Z;
}.

(** The pattern is a bitmap of the store. *)
Record GDI_BRUSH : Type := mkGdiBrush { brush_style : Z; pattern : nat; brush_color : Z }.

Record GDI_PEN : Type := mkPen { pen_style : Z; pen_width : Z; posX : Z; posY : Z; pen_color : Z }.

(** What a window has to redraw: one region around everything, and the list of
    all regions, an array of [wnd_count] entries. *)
Record GDI_WND : Type := mkWnd {
  wnd_count : Z;
  ninvalid : Z;
  invalid : option GDI_RGN;
  cinvalid : list GDI_RGN;
}.

Record GDI_DC : Type := mkDC {
  selectedObject : option nat;
  bytesPerPixel : Z;
  bitsPerPixel : Z;
  bkColor : Z;
  textColor : Z;
  brush : option GDI_BRUSH;
  clip : GDI_RGN;
  pen : GDI_PEN;
  hwnd : option GDI_WND;
  drawMode : Z;
  bkMode : Z;
  alpha : bool;
  invert : bool;
  rgb555 : bool;
}.

(** ** region.c *)

Definition gdi_CreateRectRgn (nLeftRect nTopRect nRightRect nBottomRect : Z) : GDI_RGN :=
  mkRgn nLeftRect nTopRect (nRightRect - nLeftRect + 1) (nBottomRect - nTopRect + 1) false.

Definition gdi_CreateRect (xLeft yTop xRight yBottom : Z) : GDI_RECT := mkGdiRect xLeft yTop xRight yBottom.

Definition gdi_RectToRgn (rect : GDI_RECT) (rgn : GDI_RGN) : GDI_RGN :=
  mkRgn (left rect) (top rect) (right rect - left rect + 1) (bottom rect - top rect + 1) (rgn_null rgn).

Definition gdi_CRectToRgn (l t r b : Z) (rgn : GDI_RGN) : GDI_RGN :=
  mkRgn l t (r - l + 1) (b - t + 1) (rgn_null rgn).

Definition gdi_RectToCRgn (rect : GDI_RECT) : Z * Z * Z * Z :=
  (left rect, top rect, right rect - left rect + 1, bottom rect - top rect + 1).

Definition gdi_CRectToCRgn (l t r b : Z) : Z * Z * Z * Z := (l, t, r - l + 1, b - t + 1).

Definition gdi_RgnToRect (rgn : GDI_RGN) : GDI_RECT :=
  mkGdiRect (rgn_x rgn) (rgn_y rgn) (rgn_x rgn + rgn_w rgn - 1) (rgn_y rgn + rgn_h rgn - 1).

Definition gdi_CRgnToRect (x y w h : Z) : GDI_RECT := mkGdiRect x y (x + w - 1) (y + h - 1).

Definition gdi_RgnToCRect (rgn : GDI_RGN) : Z * Z * Z * Z :=
  (rgn_x rgn, rgn_y rgn, rgn_x rgn + rgn_w rgn - 1, rgn_y rgn + rgn_h rgn - 1).

Definition gdi_CRgnToCRect (x y w h : Z) : Z * Z * Z * Z := (x, y, x + w - 1, y + h - 1).

Definition gdi_CopyOverlap (x y width height srcx srcy : Z) : bool :=
  let dst := gdi_CRgnToRect x y width height in
  let src := gdi_CRgnToRect srcx srcy width height in
  (left src <? right dst) && (left dst <? right src) && (top src <? bottom dst) && (top dst <? bottom src).

Definition gdi_SetRect (xLeft yTop xRight yBottom : Z) : GDI_RECT := mkGdiRect xLeft yTop xRight yBottom.

Definition gdi_SetRgn (nXLeft nYLeft nWidth nHeight : Z) : GDI_RGN := mkRgn nXLeft nYLeft nWidth nHeight false.

Definition gdi_SetRectRgn (hRgn : GDI_RGN) (nLeftRect nTopRect nRightRect nBottomRect : Z) : GDI_RGN :=
  (gdi_CRectToRgn nLeftRect nTopRect nRightRect nBottomRect hRgn) <| rgn_null := false |>.

Definition gdi_EqualRgn (r1 r2 : GDI_RGN) : bool :=
  (rgn_x r1 =? rgn_x r2) && (rgn_y r1 =? rgn_y r2) && (rgn_w r1 =? rgn_w r2) && (rgn_h r1 =? rgn_h r2).

Definition gdi_CopyRect (src : GDI_RECT) : GDI_RECT := mkGdiRect (left src) (top src) (right src) (bottom src).

Definition gdi_PtInRect (rc : GDI_RECT) (x y : Z) : bool :=
  if (left rc <=? x) && (x <=? right rc) then (top rc <=? y) && (y <=? bottom rc) else false.

(** The array of regions grows to twice its size when it is full. *)
Definition push_invalid (rgn : GDI_RGN) (w : GDI_WND) : M GDI_DC GDI_WND :=
  let count := if wnd_count w <? ninvalid w + 1 then wnd_count w * 2 else wnd_count w in
  let cinv := cinvalid w ++ replicate (Z.to_nat (count - len (cinvalid w))) (mkRgn 0 0 0 0 false) in
  let! cinv := elem_set (ninvalid w) rgn cinv in
  ret (w <| wnd_count := count |> <| ninvalid := ninvalid w + 1 |> <| cinvalid := cinv |>).

(** The smallest rectangle around [inv] and the part of [rgn] that is not left of
    or above the origin. *)
Definition join_rects (rgn inv : GDI_RECT) : GDI_RECT :=
  let rl := if left rgn <? 0 then 0 else left rgn in
  let rt := if top rgn <? 0 then 0 else top rgn in
  mkGdiRect (if rl <? left inv then rl else left inv) (if rt <? top inv then rt else top inv)
    (if right inv <? right rgn then right rgn else right inv) (if bottom inv <? bottom rgn then bottom rgn else bottom inv).

Definition gdi_InvalidateRegion (x y w h : Z) : M GDI_DC Z := fun hdc =>
  match hwnd hdc with
  | None => Done (0, hdc)
  | Some wnd =>
      match invalid wnd with
      | None => Done (0, hdc)
      | Some inv =>
          (let! wnd := push_invalid (gdi_SetRgn x y w h) wnd in
           let inv := if rgn_null inv then mkRgn x y w h false
                      else gdi_RectToRgn (join_rects (gdi_CRgnToRect x y w h) (gdi_RgnToRect inv)) inv in
           fun hdc => Done (0, hdc <| hwnd := Some (wnd <| invalid := Some inv |>) |>)) hdc
      end
  end.

(** ** clipping.c *)

Definition gdi_SetClipRgn (nXLeft nYLeft nWidth nHeight : Z) (hdc : GDI_DC) : GDI_DC :=
  hdc <| clip := gdi_SetRgn nXLeft nYLeft nWidth nHeight |>.

Definition gdi_GetClipRgn (hdc : GDI_DC) : GDI_RGN := clip hdc.

Definition gdi_SetNullClipRgn (hdc : GDI_DC) : GDI_DC :=
  let hdc := gdi_SetClipRgn 0 0 0 0 hdc in hdc <| clip := (clip hdc) <| rgn_null := true |> |>.

(** The rectangle that is drawn into: the clip region inside of the bitmap. *)
Definition clip_rect (hBmp : option GDI_BITMAP) (rgn : GDI_RGN) : GDI_RECT :=
  match hBmp with
  | Some b =>
      if rgn_null rgn then gdi_CRgnToRect 0 0 (bmp_width b) (bmp_height b)
      else
        let c := gdi_RgnToRect rgn in
        let bmp := gdi_CRgnToRect 0 0 (bmp_width b) (bmp_height b) in
        mkGdiRect (if left c <? left bmp then left bmp else left c) (if top c <? top bmp then top bmp else top c)
          (if right bmp <? right c then right bmp else right c) (if bottom bmp <? bottom c then bottom bmp else bottom c)
  | None => gdi_RgnToRect rgn
  end.

(** The coordinates after clipping, with the result; [srcx] and [srcy] are [None]
    for [NULL]. *)
Record clipped : Type := mkClipped { c_draw : bool; c_x : Z; c_y : Z; c_w : Z; c_h : Z; c_srcx : option Z; c_srcy : option Z }.

Definition move_source (d : Z) (src : option Z) : option Z :=
  match src with Some v => Some (if 0 <? d then v + (d - 1) else v) | None => None end.

Definition gdi_ClipCoords (hBmp : option GDI_BITMAP) (rgn : GDI_RGN) (x y w h : Z) (srcx srcy : option Z) : clipped :=
  let c := clip_rect hBmp rgn in
  let coords := gdi_CRgnToRect x y w h in
  if (left c <=? right coords) && (left coords <=? right c) && (top c <=? bottom coords) && (top coords <=? bottom c) then
    let dx := if left coords <? left c then left c - left coords + 1 else 0 in
    let dy := if top coords <? top c then top c - top coords + 1 else 0 in
    let coords := mkGdiRect (if left coords <? left c then left c else left coords) (if top coords <? top c then top c else top coords)
                    (if right c <? right coords then right c else right coords) (if bottom c <? bottom coords then bottom c else bottom coords) in
    let '(x, y, w, h) := gdi_RectToCRgn coords in
    mkClipped true x y w h (move_source dx srcx) (move_source dy srcy)
  else
    let '(x, y, w, h) := gdi_RectToCRgn (mkGdiRect 0 0 0 0) in
    mkClipped false x y w h (move_source 0 srcx) (move_source 0 srcy).

(** ** Pixels *)

Definition in_area (x y w h px py : Z) : Prop := x <= px < x + w /\ y <= py < y + h.
Definition in_rgn (rgn : GDI_RGN) (px py : Z) : Prop := in_area (rgn_x rgn) (rgn_y rgn) (rgn_w rgn) (rgn_h rgn) px py.

(** The pixels that may be drawn: those of the bitmap that the clip region, when
    there is one, allows. *)
Definition allowed (hBmp : option GDI_BITMAP) (rgn : GDI_RGN) (px py : Z) : Prop :=
  match hBmp with
  | Some b => in_area 0 0 (bmp_width b) (bmp_height b) px py /\ (rgn_null rgn = false -> in_rgn rgn px py)
  | None => in_rgn rgn px py
  end.

(** Case analysis on the comparisons of the code. *)
Ltac cases :=
  repeat match goal with
  | |- context [if ?a <? ?b then _ else _] => destruct (Z.ltb_spec a b)
  | H : context [if ?a <? ?b then _ else _] |- _ => destruct (Z.ltb_spec a b)
  | |- context [if ?a <=? ?b then _ else _] => destruct (Z.leb_spec a b)
  | H : context [if ?a <=? ?b then _ else _] |- _ => destruct (Z.leb_spec a b)
  end.

Definition in_rect (r : GDI_RECT) (px py : Z) : Prop := left r <= px <= right r /\ top r <= py <= bottom r.

Lemma clip_rect_pixels hBmp rgn px py : in_rect (clip_rect hBmp rgn) px py <-> allowed hBmp rgn px py.
Proof.
  unfold in_rect, allowed, clip_rect, in_rgn, in_area, gdi_RgnToRect, gdi_CRgnToRect.
  destruct hBmp as [b|]; cbn [left right top bottom]; [|lia].
  destruct (rgn_null rgn); cbn [left right top bottom]; [split; [intros H; split; [lia|discriminate]|intros [H _]; lia]|].
  split; [intros H; split; [|intros _]|intros [H1 H2]; specialize (H2 eq_refl)]; cases; lia.
Qed.

(** Clipping as a fact about pixels, and about the place in the source. *)
Lemma clip_coords_exact hBmp rgn x y w h srcx srcy px py :
  let c := gdi_ClipCoords hBmp rgn x y w h (Some srcx) (Some srcy) in
  (c_draw c = true /\ in_area (c_x c) (c_y c) (c_w c) (c_h c) px py <-> in_area x y w h px py /\ allowed hBmp rgn px py) /\
  (c_draw c = true -> c_srcx c = Some (srcx + (c_x c - x)) /\ c_srcy c = Some (srcy + (c_y c - y))).
Proof.
  cbv zeta. rewrite <- clip_rect_pixels. unfold gdi_ClipCoords. set (r := clip_rect hBmp rgn).
  unfold in_area, in_rect, gdi_CRgnToRect, gdi_RectToCRgn. cbn [left right top bottom].
  destruct (_ && _) eqn:E; cbn [c_draw c_x c_y c_w c_h c_srcx c_srcy move_source left right top bottom].
  - repeat (apply andb_true_iff in E as [E ?]). repeat match goal with H : (_ <=? _) = true |- _ => apply Z.leb_le in H end.
    split.
    + split; [intros [_ H']|intros H'; split; [reflexivity|]]; cases; lia.
    + intros _. split; f_equal; cases; lia.
  - split; [|discriminate]. split; [intros [? _]; discriminate|]. intros [H1 H2]. exfalso.
    repeat (apply andb_false_iff in E as [E|E]); apply Z.leb_gt in E; lia.
Qed.

(** The area does not depend on whether there is a source. *)
Lemma clip_coords_source hBmp rgn x y w h a b :
  let c := gdi_ClipCoords hBmp rgn x y w h a b in let c' := gdi_ClipCoords hBmp rgn x y w h None None in
  c_draw c = c_draw c' /\ c_x c = c_x c' /\ c_y c = c_y c' /\ c_w c = c_w c' /\ c_h c = c_h c'.
Proof. unfold gdi_ClipCoords. cbv zeta. destruct (_ && _); repeat split. Qed.

(** A clip region that leaves something of the bitmap. *)
Definition clip_meets (m : GDI_BITMAP) (rgn : GDI_RGN) : Prop := rgn_null rgn = false ->
  0 < rgn_w rgn /\ 0 < rgn_h rgn /\ rgn_x rgn < bmp_width m /\ rgn_y rgn < bmp_height m /\ 0 < rgn_x rgn + rgn_w rgn /\ 0 < rgn_y rgn + rgn_h rgn.

(** With such a region, what is left of an area that is not empty is not empty. *)
Lemma clip_coords_size m rgn x y w h a b : 0 < bmp_width m -> 0 < bmp_height m -> clip_meets m rgn ->
  0 < w -> 0 < h -> let c := gdi_ClipCoords (Some m) rgn x y w h a b in
  c_draw c = true -> x <= c_x c /\ c_x c + c_w c <= x + w /\ y <= c_y c /\ c_y c + c_h c <= y + h /\
    0 <= c_x c /\ c_x c + c_w c <= bmp_width m /\ 0 <= c_y c /\ c_y c + c_h c <= bmp_height m /\ 0 < c_w c /\ 0 < c_h c.
Proof.
  intros HW HH Hr Hw Hh. cbv zeta. unfold clip_meets in Hr. unfold gdi_ClipCoords, clip_rect, gdi_RgnToRect, gdi_CRgnToRect, gdi_RectToCRgn. cbn [left right top bottom].
  destruct (rgn_null rgn); [clear Hr|specialize (Hr eq_refl)]; cbn [left right top bottom];
    (destruct (_ && _) eqn:E; cbn [c_draw c_x c_y c_w c_h left right top bottom]; [intros _|discriminate];
     repeat (apply andb_true_iff in E as [E ?]); repeat match goal with H : (_ <=? _) = true |- _ => apply Z.leb_le in H end; cases; lia).
Qed.

(** ** Sums of coordinates *)

Definition is_int (v : Z) : Prop := - 2 ^ 31 <= v < 2 ^ 31.
Definition near (v : Z) : Prop := - 2 ^ 28 < v < 2 ^ 28.
Definition near_area (x y w h : Z) : Prop := near x /\ near y /\ near w /\ near h.
Definition near_rgn (r : GDI_RGN) : Prop := near_area (rgn_x r) (rgn_y r) (rgn_w r) (rgn_h r).

(** Everything that [gdi_ClipCoords] computes. *)
Lemma clip_ints_fit hBmp rgn x y w h srcx srcy : (forall m, hBmp = Some m -> near (bmp_width m) /\ near (bmp_height m)) ->
  near_rgn rgn -> near_area x y w h -> near srcx -> near srcy ->
  let r := gdi_CRgnToRect x y w h in let c := clip_rect hBmp rgn in
  let k := gdi_ClipCoords hBmp rgn x y w h (Some srcx) (Some srcy) in
  Forall is_int [right r; bottom r; left c; top c; right c; bottom c; left c - left r + 1; top c - top r + 1;
                 c_x k; c_y k; c_w k; c_h k; default 0 (c_srcx k); default 0 (c_srcy k)].
Proof.
  intros Hm Hr Ha Hx Hy. cbv zeta. unfold near_rgn, near_area, near in *. unfold gdi_ClipCoords, clip_rect, gdi_RgnToRect, gdi_CRgnToRect, gdi_RectToCRgn, move_source.
  destruct hBmp as [m|]; [specialize (Hm m eq_refl); destruct (rgn_null rgn)|]; cbn [left right top bottom];
    (destruct (_ && _); cbn [c_draw c_x c_y c_w c_h c_srcx c_srcy default left right top bottom];
     unfold id; repeat (apply Forall_cons_2; [unfold is_int; cases; lia|]); apply Forall_nil_2).
Qed.

(** Joining an area to what has to be redrawn. *)
Lemma invalid_ints_fit x y w h inv : near_area x y w h -> near_rgn inv ->
  let j := join_rects (gdi_CRgnToRect x y w h) (gdi_RgnToRect inv) in
  Forall is_int [right (gdi_CRgnToRect x y w h); bottom (gdi_CRgnToRect x y w h); right (gdi_RgnToRect inv); bottom (gdi_RgnToRect inv);
                 right j - left j + 1; bottom j - top j + 1].
Proof.
  intros Ha Hr. cbv zeta. unfold near_rgn, near_area, near in *. unfold join_rects, gdi_RgnToRect, gdi_CRgnToRect. cbn [left right top bottom].
  repeat (apply Forall_cons_2; [unfold is_int; cases; lia|]). apply Forall_nil_2.
Qed.

(** Clipping is exact: of an area that is drawn, [gdi_ClipCoords] leaves
    exactly the pixels that belong to the bitmap and to the clip region, it says
    that nothing is drawn only when there are none, and the place in the source
    moves with the corner, so that every pixel left keeps its source pixel. *)
Theorem clipping_exact hBmp rgn x y w h srcx srcy px py :
  let c := gdi_ClipCoords hBmp rgn x y w h (Some srcx) (Some srcy) in
  (c_draw c = true /\ in_area (c_x c) (c_y c) (c_w c) (c_h c) px py <-> in_area x y w h px py /\ allowed hBmp rgn px py) /\
  (c_draw c = true -> c_srcx c = Some (srcx + (c_x c - x)) /\ c_srcy c = Some (srcy + (c_y c - y))).
Proof. apply clip_coords_exact. Qed.

Lemma clipping_exact_witness :
  let c := gdi_ClipCoords (Some (mkGdiBitmap 1 8 640 480 640 [])) (mkRgn 10 10 100 100 false) 0 5 50 20 (Some 7) (Some 9) in
  c = mkClipped true 10 10 40 15 (Some 17) (Some 14) /\
  (c_draw c = true /\ in_area (c_x c) (c_y c) (c_w c) (c_h c) 12 24 <->
   in_area 0 5 50 20 12 24 /\ allowed (Some (mkGdiBitmap 1 8 640 480 640 [])) (mkRgn 10 10 100 100 false) 12 24).
Proof.
  split; [vm_compute; reflexivity|].
  apply (clipping_exact (Some (mkGdiBitmap 1 8 640 480 640 [])) (mkRgn 10 10 100 100 false) 0 5 50 20 7 9 12 24).
Defined.

(** ** What has to be redrawn *)

Record wnd_ok (w : GDI_WND) : Prop := {
  wo_count : 0 < wnd_count w;
  wo_number : 0 <= ninvalid w <= wnd_count w;
  wo_array : len (cinvalid w) = wnd_count w;
}.

(** Regions as intervals in both directions. *)
Definition inside (a r : GDI_RGN) : Prop :=
  rgn_x r <= rgn_x a /\ rgn_y r <= rgn_y a /\ rgn_x a + rgn_w a <= rgn_x r + rgn_w r /\ rgn_y a + rgn_h a <= rgn_y r + rgn_h r.

(** The smallest region around the regions of a list. *)
Record hull (l : list GDI_RGN) (r : GDI_RGN) : Prop := {
  hu_set : rgn_null r = false;
  hu_covers : Forall (fun a => inside a r) l;
  hu_least : forall r', Forall (fun a => inside a r') l -> inside r r';
}.

Definition drawn_area (a : GDI_RGN) : Prop := 0 <= rgn_x a /\ 0 <= rgn_y a /\ 0 < rgn_w a /\ 0 < rgn_h a /\ rgn_null a = false.

(** The window after the regions of [l] have been invalidated, none before. *)
Record redraws (l : list GDI_RGN) (w : GDI_WND) : Prop := {
  rd_ok : wnd_ok w;
  rd_number : ninvalid w = len l;
  rd_list : take (length l) (cinvalid w) = l;
  rd_hull : exists inv, invalid w = Some inv /\ if decide (l = []) then rgn_null inv = true else hull l inv;
}.

Fixpoint invalidate_all (l : list GDI_RGN) : M GDI_DC unit :=
  match l with
  | [] => ret tt
  | a :: l' => gdi_InvalidateRegion (rgn_x a) (rgn_y a) (rgn_w a) (rgn_h a);; invalidate_all l'
  end.

Lemma push_run rgn w (hdc : GDI_DC) : wnd_ok w -> exists w',
  push_invalid rgn w hdc = Done (w', hdc) /\ wnd_ok w' /\ ninvalid w' = ninvalid w + 1 /\ invalid w' = invalid w /\
  take (S (Z.to_nat (ninvalid w))) (cinvalid w') = take (Z.to_nat (ninvalid w)) (cinvalid w) ++ [rgn].
Proof.
  intros [Hc Hn Ha]. unfold push_invalid. set (count := if _ <? _ then _ else _).
  assert (Hcount : wnd_count w <= count /\ ninvalid w < count) by (unfold count; cases; lia).
  set (arr := cinvalid w ++ _).
  assert (Hl : len arr = count) by (unfold arr; rewrite len_app, len_replicate; lia).
  unfold elem_set. rewrite (proj2 (Z.leb_le 0 (ninvalid w))), (proj2 (Z.ltb_lt _ _)) by lia. cbn [andb].
  eexists. split; [reflexivity|]. cbn [apply_update]. unfold constant.
  cbn [wnd_count ninvalid invalid cinvalid]. split; [|split; [reflexivity|split; [reflexivity|]]].
  - split; cbn [wnd_count ninvalid invalid cinvalid]; [lia|lia|]. unfold len in *. rewrite length_insert. exact Hl.
  - rewrite take_S_r with (x := rgn) by (apply list_lookup_insert_eq; unfold len in *; lia).
    rewrite take_insert_ge by lia. unfold arr. rewrite take_app_le by (unfold len in *; lia). reflexivity.
Qed.

Lemma hull_join l a inv : hull l inv -> l <> [] -> drawn_area a ->
  hull (l ++ [a]) (gdi_RectToRgn (join_rects (gdi_CRgnToRect (rgn_x a) (rgn_y a) (rgn_w a) (rgn_h a)) (gdi_RgnToRect inv)) inv).
Proof.
  intros [Hs Hc Hl] Hne (H1 & H2 & H3 & H4 & H5).
  split; [exact Hs| |].
  - apply Forall_app; split; [|apply Forall_singleton].
    + eapply Forall_impl; [exact Hc|]. intros b Hb. unfold inside, gdi_RectToRgn, join_rects, gdi_CRgnToRect, gdi_RgnToRect in *.
      cbn [rgn_x rgn_y rgn_w rgn_h left right top bottom] in *. cases; lia.
    + unfold inside, gdi_RectToRgn, join_rects, gdi_CRgnToRect, gdi_RgnToRect in *.
      cbn [rgn_x rgn_y rgn_w rgn_h left right top bottom] in *. cases; lia.
  - intros r' Hr'. apply Forall_app in Hr' as [Hr1 Hr2]. apply Forall_inv in Hr2. specialize (Hl r' Hr1).
    unfold inside, gdi_RectToRgn, join_rects, gdi_CRgnToRect, gdi_RgnToRect in *.
    cbn [rgn_x rgn_y rgn_w rgn_h left right top bottom] in *. cases; lia.
Qed.

Lemma invalidate_run l a w hdc : hwnd hdc = Some w -> redraws l w -> drawn_area a -> exists w',
  gdi_InvalidateRegion (rgn_x a) (rgn_y a) (rgn_w a) (rgn_h a) hdc = Done (0, hdc <| hwnd := Some w' |>) /\ redraws (l ++ [a]) w'.
Proof.
  intros Hw [Hok Hn Hl (inv & Hi & Hh)] Ha. unfold gdi_InvalidateRegion. rewrite Hw, Hi.
  destruct (push_run (gdi_SetRgn (rgn_x a) (rgn_y a) (rgn_w a) (rgn_h a)) w hdc Hok) as (w1 & E & Hok1 & Hn1 & Hi1 & Hl1).
  rewrite (bind_Done _ _ _ _ _ E). set (inv' := if rgn_null inv then _ else _).
  exists (mkWnd (wnd_count w1) (ninvalid w1) (Some inv') (cinvalid w1)). split; [destruct w1; reflexivity|].
  assert (Ea : gdi_SetRgn (rgn_x a) (rgn_y a) (rgn_w a) (rgn_h a) = a).
  { destruct a. destruct Ha as (_ & _ & _ & _ & Hnull). cbn in *. subst. reflexivity. }
  rewrite Hn in Hl1. unfold len in Hl1. rewrite Nat2Z.id, Hl, Ea in Hl1.
  split; cbn [ninvalid invalid cinvalid].
  - destruct Hok1. split; assumption.
  - rewrite Hn1, Hn, len_app. reflexivity.
  - rewrite length_app. cbn [length]. rewrite Nat.add_1_r. exact Hl1.
  - eexists. split; [reflexivity|]. rewrite decide_False by (destruct l; discriminate).
    destruct (decide (l = [])) as [->|Hne].
    + unfold inv'. rewrite Hh. split; [reflexivity| |].
      * apply Forall_singleton. unfold inside. cbn. lia.
      * intros r' Hr'. apply Forall_inv in Hr'. exact Hr'.
    + unfold inv'. rewrite (hu_set _ _ Hh). apply hull_join; assumption.
Qed.

(** A window redraws what was drawn: after any number of areas have been
    invalidated since painting began, its list holds exactly these areas in their
    order, the array grown as needed and never overrun, and its invalid region
    is the smallest one around all of them. *)
Theorem invalid_region_least l : forall hdc w, hwnd hdc = Some w -> redraws [] w -> Forall drawn_area l ->
  exists w', invalidate_all l hdc = Done (tt, hdc <| hwnd := Some w' |>) /\ redraws l w'.
Proof.
  assert (Hgen : forall l done hdc w, hwnd hdc = Some w -> redraws done w -> Forall drawn_area l ->
    exists w', invalidate_all l hdc = Done (tt, hdc <| hwnd := Some w' |>) /\ redraws (done ++ l) w').
  { clear l. induction l as [|a l IH]; intros done hdc w Hw Hr Hl; cbn [invalidate_all].
    - exists w. rewrite app_nil_r. split; [|exact Hr]. destruct hdc. cbn in Hw. subst. reflexivity.
    - apply Forall_cons in Hl as [Ha Hl]. destruct (invalidate_run done a w hdc Hw Hr Ha) as (w1 & E & Hr1).
      rewrite (bind_Done _ _ _ _ _ E). destruct (IH (done ++ [a]) (hdc <| hwnd := Some w1 |>) w1) as (w' & E' & Hr'); [destruct hdc; reflexivity|exact Hr1|exact Hl|].
      exists w'. rewrite E', <- app_assoc in *. split; [destruct hdc; reflexivity|exact Hr']. }
  intros hdc w Hw Hr Hl. apply (Hgen l [] hdc w Hw Hr Hl).
Qed.

Definition sample_dc : GDI_DC :=
  mkDC (Some 0%nat) 1 8 0 0 None (mkRgn 0 0 0 0 true) (mkPen 0 1 0 0 0)
    (Some (mkWnd 1 0 (Some (mkRgn 0 0 0 0 true)) [mkRgn 0 0 0 0 false])) 13 1 false false false.

Lemma invalid_region_least_witness :
  exists w', invalidate_all [mkRgn 10 20 5 5 false; mkRgn 2 30 3 1 false; mkRgn 7 7 1 1 false] sample_dc
    = Done (tt, sample_dc <| hwnd := Some w' |>) /\
  redraws [mkRgn 10 20 5 5 false; mkRgn 2 30 3 1 false; mkRgn 7 7 1 1 false] w' /\ invalid w' = Some (mkRgn 2 7 13 24 false).
Proof.
  destruct (invalid_region_least [mkRgn 10 20 5 5 false; mkRgn 2 30 3 1 false; mkRgn 7 7 1 1 false] sample_dc
    (mkWnd 1 0 (Some (mkRgn 0 0 0 0 true)) [mkRgn 0 0 0 0 false])) as (w' & E & Hr).
  - reflexivity.
  - split; [split; vm_compute; try split; congruence|reflexivity|reflexivity|]. eexists. split; reflexivity.
  - repeat (apply Forall_cons_2; [repeat split; vm_compute; congruence|]). apply Forall_nil_2.
  - exists w'. split; [exact E|]. split; [exact Hr|]. vm_compute in E. injection E as <-. reflexivity.
Defined.
