(* ===== verification/Color.v ===== *)
(** Colours and pictures: [libfreerdp-codec/color.c] with the macros of
    [include/freerdp/codec/color.h].

    Pictures are lists of bytes. A conversion reads the bytes it needs, and faults
    when there are fewer; it returns the bytes it writes, or [None] where the code
    hands back the source itself. *)

From coqutil Require Import Datatypes.RecordSetters.
From S2P Require Import Prelude.
From S2P Require Import Stream.
From S2P Require Import Gcc.
Import TriangleBracketNotations.

(** ** color.h *)

(** *** From one size of the components to another *)

Definition RGB_555_565 (c : Z * Z * Z) : Z * Z * Z :=
  let '(r, g, b) := c in (r, Z.lor (Z.land (Z.shiftl g 1) (Z.lnot 0x1)) (Z.shiftr g 4), b).
Definition RGB_565_555 (c : Z * Z * Z) : Z * Z * Z := let '(r, g, b) := c in (r, Z.shiftr g 1, b).

(** Five and six bits spread over eight. *)
Definition spread5 (v : Z) : Z := Z.lor (Z.land (Z.shiftl v 3) (Z.lnot 0x7)) (Z.shiftr v 2).
Definition spread6 (v : Z) : Z := Z.lor (Z.land (Z.shiftl v 2) (Z.lnot 0x3)) (Z.shiftr v 4).
Definition RGB_555_888 (c : Z * Z * Z) : Z * Z * Z := let '(r, g, b) := c in (spread5 r, spread5 g, spread5 b).
Definition RGB_565_888 (c : Z * Z * Z) : Z * Z * Z := let '(r, g, b) := c in (spread5 r, spread6 g, spread5 b).

(** *** Components to colours *)

Definition RGB555 (r g b : Z) : Z := Z.lor (Z.lor (Z.shiftl (Z.land r 0x1F) 10) (Z.shiftl (Z.land g 0x1F) 5)) (Z.land b 0x1F).
Definition BGR555 (r g b : Z) : Z := Z.lor (Z.lor (Z.shiftl (Z.land b 0x1F) 10) (Z.shiftl (Z.land g 0x1F) 5)) (Z.land r 0x1F).
Definition RGB565 (r g b : Z) : Z := Z.lor (Z.lor (Z.shiftl (Z.land r 0x1F) 11) (Z.shiftl (Z.land g 0x3F) 5)) (Z.land b 0x1F).
Definition BGR565 (r g b : Z) : Z := Z.lor (Z.lor (Z.shiftl (Z.land b 0x1F) 11) (Z.shiftl (Z.land g 0x3F) 5)) (Z.land r 0x1F).
Definition RGB15 (r g b : Z) : Z := Z.lor (Z.lor (Z.shiftl (Z.land (Z.shiftr r 3) 0x1F) 10) (Z.shiftl (Z.land (Z.shiftr g 3) 0x1F) 5)) (Z.land (Z.shiftr b 3) 0x1F).
Definition BGR15 (r g b : Z) : Z := Z.lor (Z.lor (Z.shiftl (Z.land (Z.shiftr b 3) 0x1F) 10) (Z.shiftl (Z.land (Z.shiftr g 3) 0x1F) 5)) (Z.land (Z.shiftr r 3) 0x1F).
Definition RGB16 (r g b : Z) : Z := Z.lor (Z.lor (Z.shiftl (Z.land (Z.shiftr r 3) 0x1F) 11) (Z.shiftl (Z.land (Z.shiftr g 2) 0x3F) 5)) (Z.land (Z.shiftr b 3) 0x1F).
Definition BGR16 (r g b : Z) : Z := Z.lor (Z.lor (Z.shiftl (Z.land (Z.shiftr b 3) 0x1F) 11) (Z.shiftl (Z.land (Z.shiftr g 2) 0x3F) 5)) (Z.land (Z.shiftr r 3) 0x1F).
Definition RGB24 (r g b : Z) : Z := Z.lor (Z.lor (Z.shiftl r 16) (Z.shiftl g 8)) b.
Definition BGR24 (r g b : Z) : Z := Z.lor (Z.lor (Z.shiftl b 16) (Z.shiftl g 8)) r.
Definition RGB32 (r g b : Z) : Z := Z.lor (Z.lor (Z.shiftl r 16) (Z.shiftl g 8)) b.
Definition BGR32 (r g b : Z) : Z := Z.lor (Z.lor (Z.shiftl b 16) (Z.shiftl g 8)) r.
Definition ARGB32 (a r g b : Z) : Z := Z.lor (Z.lor (Z.lor (Z.shiftl a 24) (Z.shiftl r 16)) (Z.shiftl g 8)) b.
Definition ABGR32 (a r g b : Z) : Z := Z.lor (Z.lor (Z.lor (Z.shiftl a 24) (Z.shiftl b 16)) (Z.shiftl g 8)) r.

(** *** Colours to components, red, green and blue *)

Definition GetRGB_555 (p : Z) : Z * Z * Z := (Z.shiftr (Z.land p 0x7C00) 10, Z.shiftr (Z.land p 0x3E0) 5, Z.land p 0x1F).
Definition GetBGR_555 (p : Z) : Z * Z * Z := (Z.land p 0x1F, Z.shiftr (Z.land p 0x3E0) 5, Z.shiftr (Z.land p 0x7C00) 10).
Definition GetRGB_565 (p : Z) : Z * Z * Z := (Z.shiftr (Z.land p 0xF800) 11, Z.shiftr (Z.land p 0x7E0) 5, Z.land p 0x1F).
Definition GetBGR_565 (p : Z) : Z * Z * Z := (Z.land p 0x1F, Z.shiftr (Z.land p 0x7E0) 5, Z.shiftr (Z.land p 0xF800) 11).
Definition GetRGB15 (p : Z) : Z * Z * Z := RGB_555_888 (GetRGB_555 p).
Definition GetBGR15 (p : Z) : Z * Z * Z := RGB_555_888 (GetBGR_555 p).
Definition GetRGB16 (p : Z) : Z * Z * Z := RGB_565_888 (GetRGB_565 p).
Definition GetBGR16 (p : Z) : Z * Z * Z := RGB_565_888 (GetBGR_565 p).
Definition GetRGB24 (p : Z) : Z * Z * Z := (Z.shiftr (Z.land p 0xFF0000) 16, Z.shiftr (Z.land p 0xFF00) 8, Z.land p 0xFF).
Definition GetBGR24 (p : Z) : Z * Z * Z := (Z.land p 0xFF, Z.shiftr (Z.land p 0xFF00) 8, Z.shiftr (Z.land p 0xFF0000) 16).
Definition GetRGB32 (p : Z) : Z * Z * Z := (Z.shiftr (Z.land p 0xFF0000) 16, Z.shiftr (Z.land p 0xFF00) 8, Z.land p 0xFF).
Definition GetBGR32 (p : Z) : Z * Z * Z := (Z.land p 0xFF, Z.shiftr (Z.land p 0xFF00) 8, Z.shiftr (Z.land p 0xFF0000) 16).
Definition GetA32 (p : Z) : Z := Z.shiftr (Z.land p 0xFF000000) 24.

Definition RGB15_RGB16 (p : Z) : Z := let '(r, g, b) := RGB_555_565 (GetRGB_555 p) in RGB565 r g b.
Definition RGB16_RGB15 (p : Z) : Z := let '(r, g, b) := RGB_565_555 (GetRGB_565 p) in RGB555 r g b.

Definition IBPP (bpp : Z) : Z := Z.rem (Z.quot (bpp + 1) 8) 5.

(** How colours are to be converted; the palette has red, green and blue. *)
Record CLRCONV : Type := mkClrconv { cc_alpha : bool; cc_invert : bool; cc_rgb555 : bool; cc_palette : list (Z * Z * Z) }.

Definition CLRCONV_ALPHA : Z := 1.
Definition CLRCONV_INVERT : Z := 2.
Definition CLRCONV_RGB555 : Z := 4.

Definition freerdp_clrconv_new (flags : Z) (palette : list (Z * Z * Z)) : CLRCONV :=
  mkClrconv (negb (Z.land flags CLRCONV_ALPHA =? 0)) (negb (Z.land flags CLRCONV_INVERT =? 0)) (negb (Z.land flags CLRCONV_RGB555 =? 0)) palette.

Section Colors.
Context {S : Type}.

(** [clrconv->palette->entries[i]] *)
Definition palette_entry (c : CLRCONV) (i : Z) : M S (Z * Z * Z) :=
  if i <? 0 then fail OutOfBounds else match cc_palette c !! Z.to_nat i with Some e => ret e | None => fail OutOfBounds end.

(** ** Colours *)

Definition mono_split (color : Z) : Z * Z * Z := if color =? 0 then (0, 0, 0) else (0xFF, 0xFF, 0xFF).

(** The components, with alpha. *)
Definition freerdp_color_split_rgb (color bpp : Z) (c : CLRCONV) : M S (Z * Z * Z * Z) :=
  let alpha := if cc_alpha c then 0xFF else 0x00 in
  if bpp =? 32 then ret (GetRGB32 color, if cc_alpha c then GetA32 color else alpha)
  else if bpp =? 24 then ret (GetRGB24 color, alpha)
  else if bpp =? 16 then ret (GetRGB16 color, alpha)
  else if bpp =? 15 then ret (GetRGB15 color, alpha)
  else if bpp =? 8 then let! e := palette_entry c (Z.land color 0xFF) in ret (e, alpha)
  else if bpp =? 1 then ret (mono_split color, alpha)
  else ret ((0, 0, 0), alpha).

Definition freerdp_color_split_bgr (color bpp : Z) (c : CLRCONV) : M S (Z * Z * Z * Z) :=
  let alpha := if cc_alpha c then 0xFF else 0x00 in
  if bpp =? 32 then ret (GetBGR32 color, if cc_alpha c then GetA32 color else alpha)
  else if bpp =? 24 then ret (GetBGR24 color, alpha)
  else if bpp =? 16 then ret (GetBGR16 color, alpha)
  else if bpp =? 15 then ret (GetBGR15 color, alpha)
  else if bpp =? 8 then let! e := palette_entry c (Z.land color 0xFF) in ret (e, alpha)
  else if bpp =? 1 then ret (mono_split color, alpha)
  else ret ((0, 0, 0), alpha).

Definition mono_make (r g b : Z) : Z := if negb (r =? 0) || negb (g =? 0) || negb (b =? 0) then 1 else 0.

Definition freerdp_color_make_rgb (bpp : Z) (comps : Z * Z * Z * Z) (c : CLRCONV) : Z :=
  let '(r, g, b, a) := comps in
  if bpp =? 32 then ARGB32 a r g b
  else if bpp =? 24 then RGB24 r g b
  else if bpp =? 16 then (if cc_rgb555 c then RGB15 r g b else RGB16 r g b)
  else if bpp =? 15 then RGB15 r g b
  else if bpp =? 8 then RGB24 r g b
  else if bpp =? 1 then mono_make r g b
  else 0.

Definition freerdp_color_make_bgr (bpp : Z) (comps : Z * Z * Z * Z) (c : CLRCONV) : Z :=
  let '(r, g, b, a) := comps in
  if bpp =? 32 then ABGR32 a r g b
  else if bpp =? 24 then BGR24 r g b
  else if bpp =? 16 then (if cc_rgb555 c then BGR15 r g b else BGR16 r g b)
  else if bpp =? 15 then BGR15 r g b
  else if bpp =? 8 then BGR24 r g b
  else if bpp =? 1 then mono_make r g b
  else 0.

Definition freerdp_color_convert_rgb (srcColor srcBpp dstBpp : Z) (c : CLRCONV) : M S Z :=
  let! v := freerdp_color_split_rgb srcColor srcBpp c in ret (freerdp_color_make_rgb dstBpp v c).

Definition freerdp_color_convert_bgr (srcColor srcBpp dstBpp : Z) (c : CLRCONV) : M S Z :=
  let! v := freerdp_color_split_bgr srcColor srcBpp c in ret (freerdp_color_make_bgr dstBpp v c).

Definition freerdp_color_convert_rgb_bgr (srcColor srcBpp dstBpp : Z) (c : CLRCONV) : M S Z :=
  let! v := freerdp_color_split_rgb srcColor srcBpp c in ret (freerdp_color_make_bgr dstBpp v c).

Definition freerdp_color_convert_bgr_rgb (srcColor srcBpp dstBpp : Z) (c : CLRCONV) : M S Z :=
  let! v := freerdp_color_split_bgr srcColor srcBpp c in ret (freerdp_color_make_rgb dstBpp v c).

(** These three convert to 32 bits whatever [dstBpp] is. *)
Definition freerdp_color_convert_var_rgb (srcColor srcBpp dstBpp : Z) (c : CLRCONV) : M S Z :=
  if 16 <? srcBpp then freerdp_color_convert_bgr_rgb srcColor srcBpp 32 c else freerdp_color_convert_rgb srcColor srcBpp 32 c.

Definition freerdp_color_convert_var_bgr (srcColor srcBpp dstBpp : Z) (c : CLRCONV) : M S Z :=
  if 16 <? srcBpp then freerdp_color_convert_bgr srcColor srcBpp 32 c else freerdp_color_convert_rgb_bgr srcColor srcBpp 32 c.

Definition freerdp_color_convert_var (srcColor srcBpp dstBpp : Z) (c : CLRCONV) : M S Z :=
  if cc_invert c then freerdp_color_convert_var_bgr srcColor srcBpp dstBpp c else freerdp_color_convert_var_rgb srcColor srcBpp dstBpp c.
End Colors.

(** ** Pictures *)

(** Pixels are stored low byte first. *)
Fixpoint le_value (bs : list Z) : Z := match bs with [] => 0 | b :: bs' => b + 256 * le_value bs' end.
Fixpoint le_bytes (n : nat) (v : Z) : list Z := match n with O => [] | S n' => v mod 256 :: le_bytes n' (v / 256) end.

(** The first [count] pixels of [n] bytes. *)
Fixpoint words (n count : nat) (data : list Z) : list Z :=
  match count with O => [] | S count' => le_value (take n data) :: words n count' (drop n data) end.

Section Pictures.
Context {S : Type}.

(** A loop that reads [count] pixels of [n] bytes each. *)
Definition read_pixels (n : nat) (count : Z) (data : list Z) : M S (list Z) :=
  if Z.of_nat n * Z.max count 0 <=? len data then ret (words n (Z.to_nat count) data) else fail OutOfBounds.

Definition copy_bytes (size : Z) (data : list Z) : M S (list Z) :=
  if (0 <=? size) && (size <=? len data) then ret (take (Z.to_nat size) data) else fail OutOfBounds.

(** A result that was written, pixel by pixel. *)
Definition written (n : nat) (pixels : list Z) : option (list Z) := Some (concat (map (le_bytes n) pixels)).

Definition rgb_of (mk : Z -> Z -> Z -> Z) (c : Z * Z * Z) : Z := let '(r, g, b) := c in mk r g b.

(** Every pixel through the palette. *)
Fixpoint through_palette (c : CLRCONV) (mk : Z -> Z -> Z -> Z) (pixels : list Z) : M S (list Z) :=
  match pixels with
  | [] => ret []
  | p :: rest => let! e := palette_entry c p in let! out := through_palette c mk rest in ret (rgb_of mk e :: out)
  end.

Definition freerdp_image_convert_8bpp (srcData : list Z) (width height srcBpp dstBpp : Z) (c : CLRCONV) : M S (option (list Z)) :=
  if dstBpp =? 8 then let! d := copy_bytes (width * height) srcData in ret (Some d)
  else if (dstBpp =? 15) || ((dstBpp =? 16) && cc_rgb555 c) then
    let! ps := read_pixels 1 (width * height) srcData in
    let! out := through_palette c (if cc_invert c then BGR15 else RGB15) ps in ret (written 2 out)
  else if dstBpp =? 16 then
    let! ps := read_pixels 1 (width * height) srcData in
    let! out := through_palette c (if cc_invert c then BGR16 else RGB16) ps in ret (written 2 out)
  else if dstBpp =? 32 then
    let! ps := read_pixels 1 (width * height) srcData in
    let! out := through_palette c (if cc_invert c then RGB32 else BGR32) ps in ret (written 4 out)
  else ret None.

Definition freerdp_image_convert_15bpp (srcData : list Z) (width height srcBpp dstBpp : Z) (c : CLRCONV) : M S (option (list Z)) :=
  if (dstBpp =? 15) || ((dstBpp =? 16) && cc_rgb555 c) then let! d := copy_bytes (width * height * 2) srcData in ret (Some d)
  else if dstBpp =? 32 then
    let! ps := read_pixels 2 (width * height) srcData in
    ret (written 4 (map (fun p => rgb_of (if cc_invert c then RGB32 else BGR32) (GetBGR15 p)) ps))
  else if dstBpp =? 16 then
    let! ps := read_pixels 2 (width * height) srcData in
    ret (written 2 (map (fun p => rgb_of (if cc_invert c then BGR565 else RGB565) (RGB_555_565 (GetRGB_555 p))) ps))
  else ret None.

(** Three bytes of a pixel, in one order or the other. *)
Definition bytes24 (c : CLRCONV) (rgb : Z * Z * Z) : list Z := let '(r, g, b) := rgb in if cc_invert c then [b; g; r] else [r; g; b].

Definition freerdp_image_convert_16bpp (srcData : list Z) (width height srcBpp dstBpp : Z) (c : CLRCONV) : M S (option (list Z)) :=
  if srcBpp =? 15 then freerdp_image_convert_15bpp srcData width height srcBpp dstBpp c
  else if dstBpp =? 16 then
    if cc_rgb555 c then
      let! ps := read_pixels 2 (width * height) srcData in
      ret (written 2 (map (fun p => rgb_of (if cc_invert c then BGR555 else RGB555) (RGB_565_555 (GetRGB_565 p))) ps))
    else let! d := copy_bytes (width * height * 2) srcData in ret (Some d)
  else if dstBpp =? 24 then
    let! ps := read_pixels 2 (width * height) srcData in
    ret (Some (concat (map (fun p => bytes24 c (GetBGR16 p)) ps)))
  else if dstBpp =? 32 then
    let! ps := read_pixels 2 (width * height) srcData in
    ret (written 4 (map (fun p => rgb_of (if cc_invert c then RGB32 else BGR32) (GetBGR16 p)) ps))
  else ret None.

Definition freerdp_image_convert_24bpp (srcData : list Z) (width height srcBpp dstBpp : Z) (c : CLRCONV) : M S (option (list Z)) :=
  if dstBpp =? 32 then
    let! ps := read_pixels 3 (width * height) srcData in
    ret (Some (concat (map (fun p => le_bytes 3 p ++ [0xFF]) ps)))
  else ret None.

Definition freerdp_image_convert_32bpp (srcData : list Z) (width height srcBpp dstBpp : Z) (c : CLRCONV) : M S (option (list Z)) :=
  if dstBpp =? 16 then
    let! ps := read_pixels 4 (width * height) srcData in
    ret (written 2 (map (fun p => let '(blue, green, red) := GetBGR32 p in (if cc_invert c then BGR16 else RGB16) red green blue) ps))
  else if dstBpp =? 24 then
    let! ps := read_pixels 4 (width * height) srcData in
    ret (Some (concat (map (fun p => bytes24 c (GetBGR32 p)) ps)))
  else if dstBpp =? 32 then
    let! d := copy_bytes (width * height * 4) srcData in
    ret (if cc_alpha c then written 4 (map (fun p => Z.lor (Z.land p 0xFFFFFF) 0xFF000000) (words 4 (Z.to_nat (width * height)) d)) else Some d)
  else ret None.

(** [Some None] is the source itself, [None] a [NULL] result. *)
Definition freerdp_image_convert (srcData : list Z) (width height srcBpp dstBpp : Z) (c : CLRCONV) : M S (option (option (list Z))) :=
  let i := IBPP srcBpp in
  let conv := if i =? 1 then Some freerdp_image_convert_8bpp else if i =? 2 then Some freerdp_image_convert_16bpp
              else if i =? 3 then Some freerdp_image_convert_24bpp else if i =? 4 then Some freerdp_image_convert_32bpp else None in
  match conv with
  | Some f => let! r := f srcData width height srcBpp dstBpp c in ret (Some r)
  | None => ret None
  end.
End Pictures.


(** *** Flipping and masks *)

Section Flips.
Context {S : Type}.

Definition read_at (src : list Z) (p n : nat) : M S (list Z) := if (p + n <=? length src)%nat then ret (take n (drop p src)) else fail OutOfBounds.
Definition write_at (dst : list Z) (p : nat) (bs : list Z) : M S (list Z) := if (p + length bs <=? length dst)%nat then ret (splice p bs dst) else fail OutOfBounds.

(** Rows of [scanLineSz] bytes from the top of one buffer to the bottom of
    another, [k] rows from row [i] on. *)
Fixpoint flip_copy (k scanLineSz i height : nat) (src dst : list Z) : M S (list Z) :=
  match k with
  | O => ret dst
  | Datatypes.S k' =>
      let! line := read_at src (scanLineSz * i) scanLineSz in
      let! dst := write_at dst (scanLineSz * (height - 1 - i)) line in
      flip_copy k' scanLineSz (Datatypes.S i) height src dst
  end.

(** Pairs of rows exchanged through a buffer. *)
Fixpoint flip_swap (k scanLineSz i height : nat) (buf : list Z) : M S (list Z) :=
  match k with
  | O => ret buf
  | Datatypes.S k' =>
      let! tmpBfr := read_at buf (scanLineSz * i) scanLineSz in
      let! line := read_at buf (scanLineSz * (height - 1 - i)) scanLineSz in
      let! buf := write_at buf (scanLineSz * i) line in
      let! buf := write_at buf (scanLineSz * (height - 1 - i)) tmpBfr in
      flip_swap k' scanLineSz (Datatypes.S i) height buf
  end.

(** [freerdp_bitmap_flip] between two buffers, and in one. *)
Definition freerdp_bitmap_flip (src dst : list Z) (scanLineSz height : nat) : M S (list Z) := flip_copy height scanLineSz 0 height src dst.
Definition freerdp_bitmap_flip_in_place (buf : list Z) (scanLineSz height : nat) : M S (list Z) := flip_swap (height / 2) scanLineSz 0 height buf.

(** Into a buffer that is allocated here. *)
Definition freerdp_image_flip (srcData : list Z) (width height bpp : nat) (garbage : Z) : M S (list Z) :=
  freerdp_bitmap_flip srcData (replicate (width * height * (bpp / 8)) garbage) (width * (bpp / 8)) height.

(** One byte for every bit of a glyph. *)
Fixpoint glyph_row (k x : nat) (srcp : list Z) : M S (list Z) :=
  match k with
  | O => ret []
  | Datatypes.S k' =>
      match srcp with
      | [] => fail OutOfBounds
      | b :: rest =>
          let v := if negb (Z.land b (Z.shiftr 0x80 (Z.of_nat (x mod 8))) =? 0) then 0xFF else 0 in
          let! out := glyph_row k' (Datatypes.S x) (if ((x + 1) mod 8 =? 0)%nat && negb (x =? 0)%nat then rest else srcp) in
          ret (v :: out)
      end
  end.

Fixpoint glyph_rows (k y scanline width : nat) (data : list Z) : M S (list Z) :=
  match k with
  | O => ret []
  | Datatypes.S k' =>
      let! row := glyph_row width 0 (drop (y * scanline) data) in
      let! out := glyph_rows k' (Datatypes.S y) scanline width data in ret (row ++ out)
  end.

Definition freerdp_glyph_convert (width height : nat) (data : list Z) : M S (list Z) := glyph_rows height 0 ((width + 7) / 8) width data.

(** A mask of eight columns in two colours; the [width] has no part in it. *)
Definition mono_row (bg fg b : Z) : list Z :=
  map (fun i => if negb (Z.land (Z.shiftr b i) 0x01 =? 0) then bg else fg) [7; 6; 5; 4; 3; 2; 1; 0].

Definition mono_components (srcBpp color : Z) (c : CLRCONV) : M S (Z * Z * Z) :=
  if srcBpp =? 8 then palette_entry c (Z.land color 0xFF)
  else ret (if srcBpp =? 16 then GetRGB16 color else if srcBpp =? 15 then GetRGB15 color else GetRGB32 color).

Definition freerdp_mono_image_convert (srcData : list Z) (width height srcBpp dstBpp bgcolor fgcolor : Z) (c : CLRCONV) : M S (option (list Z)) :=
  let! bg := mono_components srcBpp bgcolor c in
  let! fg := mono_components srcBpp fgcolor c in
  let bgcolor := if srcBpp =? 8 then Z.land bgcolor 0xFF else bgcolor in
  let fgcolor := if srcBpp =? 8 then Z.land fgcolor 0xFF else fgcolor in
  if dstBpp =? 16 then
    let conv := if cc_rgb555 c then (if srcBpp =? 16 then RGB16_RGB15 else fun p => p) else (if srcBpp =? 15 then RGB15_RGB16 else fun p => p) in
    let! rows := read_pixels 1 height srcData in
    ret (written 2 (concat (map (mono_row (conv bgcolor) (conv fgcolor)) rows)))
  else if dstBpp =? 32 then
    let pixel := rgb_of (if cc_invert c then BGR32 else RGB32) in
    let! rows := read_pixels 1 height srcData in
    ret (written 4 (concat (map (mono_row (pixel bg) (pixel fg)) rows)))
  else ret None.

Definition freerdp_image_swap_color_order (data : list Z) (width height : Z) : M S (list Z) :=
  let! ps := read_pixels 4 (width * height) data in
  ret (concat (map (fun p => le_bytes 4 (let '(r, g, b) := GetRGB32 p in ABGR32 (GetA32 p) r g b)) ps) ++ drop (4 * Z.to_nat (width * height)) data).
End Flips.

(** ** Colours survive *)

Definition comps_ok (c : Z * Z * Z) : Prop := is_byte c.1.1 /\ is_byte c.1.2 /\ is_byte c.2.

Lemma byte_field q k : 0 <= k -> Z.shiftr (Z.land q (Z.shiftl 0xFF k)) k = (q / 2 ^ k) mod 256.
Proof.
  intros Hk. rewrite Z.shiftr_land, Z.shiftr_shiftl_l, Z.sub_diag, Z.shiftl_0_r, land_FF, Z.shiftr_div_pow2 by lia. reflexivity.
Qed.

Lemma GetRGB32_fields q : GetRGB32 q = ((q / 2 ^ 16) mod 256, (q / 2 ^ 8) mod 256, q mod 256).
Proof.
  unfold GetRGB32. change 0xFF0000 with (Z.shiftl 0xFF 16). change 0xFF00 with (Z.shiftl 0xFF 8). rewrite !byte_field, land_FF by lia. reflexivity.
Qed.

Lemma GetBGR32_fields q : GetBGR32 q = (q mod 256, (q / 2 ^ 8) mod 256, (q / 2 ^ 16) mod 256).
Proof.
  unfold GetBGR32. change 0xFF0000 with (Z.shiftl 0xFF 16). change 0xFF00 with (Z.shiftl 0xFF 8). rewrite !byte_field, land_FF by lia. reflexivity.
Qed.

Lemma ARGB32_sum a r g b : is_byte r -> is_byte g -> is_byte b -> ARGB32 a r g b = a * 2 ^ 24 + r * 2 ^ 16 + g * 2 ^ 8 + b.
Proof.
  intros Hr Hg Hb. unfold is_byte in *. unfold ARGB32. rewrite !Z.shiftl_mul_pow2 by lia.
  rewrite (lor_high_low (a * 2 ^ 24) (r * 2 ^ 16) 24); [|lia|apply Z.mod_mul; lia|lia].
  rewrite (lor_high_low _ (g * 2 ^ 8) 16); [|lia| |lia].
  2:{ replace (a * 2 ^ 24 + r * 2 ^ 16) with ((a * 2 ^ 8 + r) * 2 ^ 16) by ring. apply Z.mod_mul. lia. }
  rewrite (lor_high_low _ b 8); [reflexivity|lia| |lia].
  replace (a * 2 ^ 24 + r * 2 ^ 16 + g * 2 ^ 8) with ((a * 2 ^ 16 + r * 2 ^ 8 + g) * 2 ^ 8) by ring. apply Z.mod_mul. lia.
Qed.

Lemma GetRGB32_ARGB32 a r g b : is_byte r -> is_byte g -> is_byte b -> GetRGB32 (ARGB32 a r g b) = (r, g, b).
Proof.
  intros Hr Hg Hb. rewrite ARGB32_sum, GetRGB32_fields by assumption. unfold is_byte in *. f_equal; [f_equal|].
  - replace (a * 2 ^ 24 + r * 2 ^ 16 + g * 2 ^ 8 + b) with (g * 2 ^ 8 + b + (a * 256 + r) * 2 ^ 16) by ring. rewrite Z.div_add, Z.div_small by lia.
    rewrite Z.add_0_l, Z.add_comm, Z.mod_add, Z.mod_small by lia. reflexivity.
  - replace (a * 2 ^ 24 + r * 2 ^ 16 + g * 2 ^ 8 + b) with (b + (g + (a * 2 ^ 8 + r) * 256) * 2 ^ 8) by ring. rewrite Z.div_add, Z.div_small by lia.
    rewrite Z.add_0_l, Z.mod_add, Z.mod_small by lia. reflexivity.
  - replace (a * 2 ^ 24 + r * 2 ^ 16 + g * 2 ^ 8 + b) with (b + (a * 2 ^ 16 + r * 2 ^ 8 + g) * 256) by ring. rewrite Z.mod_add, Z.mod_small by lia. reflexivity.
Qed.

Lemma GetBGR32_ABGR32 a r g b : is_byte r -> is_byte g -> is_byte b -> GetBGR32 (ABGR32 a r g b) = (r, g, b).
Proof.
  intros Hr Hg Hb. change (ABGR32 a r g b) with (ARGB32 a b g r). pose proof (GetRGB32_ARGB32 a b g r Hb Hg Hr) as E.
  rewrite GetRGB32_fields in E. rewrite GetBGR32_fields. congruence.
Qed.

(** Every colour of 15 and of 16 bits, by evaluation. *)
Definition survives (get : Z -> Z * Z * Z) (mk : Z -> Z -> Z -> Z) (p : Z) : bool :=
  let '(r, g, b) := get p in
  (mk r g b =? p) && (0 <=? r) && (r <? 256) && (0 <=? g) && (g <? 256) && (0 <=? b) && (b <? 256).

Fixpoint all_from (k : nat) (z : Z) (f : Z -> bool) : bool :=
  match k with O => true | S k' => f z && all_from k' (z + 1) f end.

Lemma all_from_spec f k : forall z p, all_from k z f = true -> z <= p < z + Z.of_nat k -> f p = true.
Proof.
  induction k as [|k IH]; intros z p H Hp; [lia|]. cbn [all_from] in H. apply andb_true_iff in H as [H0 H].
  destruct (decide (p = z)) as [->|Hne]; [exact H0|]. apply (IH (z + 1)); [exact H|lia].
Qed.

Lemma survives_spec get mk n p : all_from (Z.to_nat n) 0 (survives get mk) = true -> 0 <= p < n ->
  exists r g b, get p = (r, g, b) /\ mk r g b = p /\ is_byte r /\ is_byte g /\ is_byte b.
Proof.
  intros H Hp. apply (all_from_spec _ _ _ p) in H; [|lia]. unfold survives in H. destruct (get p) as [[r g] b]. exists r, g, b. split; [reflexivity|].
  rewrite !andb_true_iff, !Z.leb_le, !Z.ltb_lt, Z.eqb_eq in H. unfold is_byte. lia.
Qed.

Lemma survives_16 : all_from (Z.to_nat 65536) 0 (survives GetRGB16 RGB16) = true.
Proof. vm_compute. reflexivity. Qed.
Lemma survives_15 : all_from (Z.to_nat 32768) 0 (survives GetRGB15 RGB15) = true.
Proof. vm_compute. reflexivity. Qed.

Lemma survives_bgr get get' mk mk' n : (forall p, get' p = let '(r, g, b) := get p in (b, g, r)) -> (forall r g b, mk' b g r = mk r g b) ->
  all_from (Z.to_nat n) 0 (survives get mk) = true -> forall p, 0 <= p < n ->
  exists r g b, get' p = (r, g, b) /\ mk' r g b = p /\ is_byte r /\ is_byte g /\ is_byte b.
Proof.
  intros Hg Hm H p Hp. destruct (survives_spec get mk n p H Hp) as (r & g & b & E1 & E2 & H1 & H2 & H3).
  exists b, g, r. rewrite Hg, E1, Hm. auto.
Qed.

(** A colour of 15 or 16 bits that becomes one of 32 and then one of its own
    depth again is the same, whatever the flags are and in either order of the
    components. *)
Theorem color_depth_roundtrip {S} (s : S) c p depth : depth = 15 /\ 0 <= p < 32768 \/ depth = 16 /\ 0 <= p < 65536 /\ cc_rgb555 c = false ->
  (let! q := freerdp_color_convert_rgb p depth 32 c in freerdp_color_convert_rgb q 32 depth c) s = Done (p, s) /\
  (let! q := freerdp_color_convert_bgr p depth 32 c in freerdp_color_convert_bgr q 32 depth c) s = Done (p, s) /\
  (let! q := freerdp_color_convert_rgb_bgr p depth 32 c in freerdp_color_convert_bgr_rgb q 32 depth c) s = Done (p, s).
Proof.
  intros Hd.
  assert (H : exists r g b r' g' b', (if depth =? 16 then GetRGB16 p else GetRGB15 p) = (r, g, b) /\ (if depth =? 16 then RGB16 r g b else RGB15 r g b) = p /\
    is_byte r /\ is_byte g /\ is_byte b /\ (if depth =? 16 then GetBGR16 p else GetBGR15 p) = (r', g', b') /\
    (if depth =? 16 then BGR16 r' g' b' else BGR15 r' g' b') = p /\ is_byte r' /\ is_byte g' /\ is_byte b').
  { destruct Hd as [[-> Hp]|(-> & Hp & _)]; cbn [Z.eqb Pos.eqb].
    - destruct (survives_spec _ _ _ p survives_15 Hp) as (r & g & b & ?). destruct (survives_bgr GetRGB15 GetBGR15 RGB15 BGR15 32768 ltac:(reflexivity) ltac:(reflexivity) survives_15 p Hp) as (r' & g' & b' & ?).
      exists r, g, b, r', g', b'. tauto.
    - destruct (survives_spec _ _ _ p survives_16 Hp) as (r & g & b & ?). destruct (survives_bgr GetRGB16 GetBGR16 RGB16 BGR16 65536 ltac:(reflexivity) ltac:(reflexivity) survives_16 p Hp) as (r' & g' & b' & ?).
      exists r, g, b, r', g', b'. tauto. }
  destruct H as (r & g & b & r' & g' & b' & E1 & E2 & Hr & Hg & Hb & E3 & E4 & Hr' & Hg' & Hb').
  unfold freerdp_color_convert_rgb, freerdp_color_convert_bgr, freerdp_color_convert_rgb_bgr, freerdp_color_convert_bgr_rgb, freerdp_color_split_rgb, freerdp_color_split_bgr.
  destruct Hd as [[-> Hp]|(-> & Hp & Hc)]; cbn [Z.eqb Pos.eqb] in *; rewrite ?bind_assoc, ?bind_ret, E1, E3; unfold freerdp_color_make_rgb, freerdp_color_make_bgr; cbn [Z.eqb Pos.eqb];
    rewrite !GetRGB32_ARGB32, !GetBGR32_ABGR32 by assumption; rewrite ?bind_assoc, ?bind_ret, ?Hc; unfold ret; repeat split; do 2 f_equal; auto.
Qed.

Lemma color_depth_roundtrip_witness :
  (let! q := freerdp_color_convert_rgb 0xF81F 16 32 (mkClrconv true false false []) in
   freerdp_color_convert_rgb q 32 16 (mkClrconv true false false [])) tt = Done (0xF81F, tt).
Proof. apply (color_depth_roundtrip tt (mkClrconv true false false []) 0xF81F 16). right. split; [reflexivity|]. split; [split; [discriminate|reflexivity]|reflexivity]. Defined.

(** The colour that a solid fill has for [p]. *)
Definition solid_color (c : CLRCONV) (depth p : Z) : M unit Z :=
  if cc_invert c then freerdp_color_convert_rgb_bgr p depth 32 c else freerdp_color_convert_rgb p depth 32 c.

(** Pictures and colours agree: without alpha, every pixel of a picture of 15 or
    16 bits is converted to the colour of 32 bits that the same value has as a
    single colour. *)
Theorem pictures_as_colors c depth w h data : depth = 15 \/ depth = 16 -> cc_alpha c = false -> 0 <= w -> 0 <= h -> 2 * (w * h) <= len data ->
  exists pixels, freerdp_image_convert data w h depth 32 c tt = Done (Some (Some (concat (map (le_bytes 4) pixels))), tt) /\
    Forall2 (fun p q => solid_color c depth p tt = Done (q, tt)) (words 2 (Z.to_nat (w * h)) data) pixels.
Proof.
  intros Hd Ha Hw Hh Hl. unfold freerdp_image_convert. assert (Ei : IBPP depth = 2) by (destruct Hd as [-> | ->]; reflexivity). rewrite Ei. cbn [Z.eqb Pos.eqb].
  exists (map (fun p => rgb_of (if cc_invert c then RGB32 else BGR32) (if depth =? 15 then GetBGR15 p else GetBGR16 p)) (words 2 (Z.to_nat (w * h)) data)). split.
  - unfold freerdp_image_convert_16bpp, freerdp_image_convert_15bpp, read_pixels. rewrite (proj2 (Z.leb_le _ _)) by nia.
    destruct Hd as [-> | ->]; cbn [Z.eqb Pos.eqb orb andb]; rewrite bind_assoc, bind_ret; reflexivity.
  - induction (words 2 (Z.to_nat (w * h)) data) as [|p ps IH]; cbn [map]; [constructor|]. constructor; [|exact IH].
    unfold solid_color, freerdp_color_convert_rgb, freerdp_color_convert_rgb_bgr, freerdp_color_split_rgb. rewrite Ha.
    destruct Hd as [-> | ->], (cc_invert c); reflexivity.
Qed.

Lemma pictures_as_colors_witness :
  exists pixels, freerdp_image_convert [0x00; 0xF8; 0x1F; 0x00] 2 1 16 32 (mkClrconv false false false []) tt = Done (Some (Some (concat (map (le_bytes 4) pixels))), tt) /\
    pixels = [0xFF0000; 0x0000FF].
Proof.
  destruct (pictures_as_colors (mkClrconv false false false []) 16 2 1 [0x00; 0xF8; 0x1F; 0x00]) as (ps & E & F); [right; reflexivity|reflexivity|lia|lia|vm_compute; discriminate|].
  exists ps. split; [exact E|]. change (words 2 (Z.to_nat (2 * 1)) [0x00; 0xF8; 0x1F; 0x00]) with [0xF800; 0x001F] in F.
  inversion F as [|a b la lb E1 F1]. inversion F1 as [|a' b' la' lb' E2 F2]. inversion F2.
  vm_compute in E1, E2. injection E1 as <-. injection E2 as <-. reflexivity.
Defined.

(** ** Flips *)

Lemma lookup_splice i bs l j : (i + length bs <= length l)%nat ->
  splice i bs l !! j = if decide (i <= j < i + length bs)%nat then bs !! (j - i)%nat else l !! j.
Proof.
  intros Hl. unfold splice. destruct (decide _) as [Hj|Hj].
  - rewrite lookup_app_r by (rewrite length_take; lia). rewrite length_take, Nat.min_l by lia.
    rewrite lookup_app_l by lia. reflexivity.
  - destruct (decide (j < i)%nat) as [Hlt|Hge].
    + rewrite lookup_app_l by (rewrite length_take; lia). apply lookup_take_lt. exact Hlt.
    + rewrite lookup_app_r by (rewrite length_take; lia). rewrite length_take, Nat.min_l by lia.
      rewrite lookup_app_r by lia. rewrite lookup_drop. f_equal. lia.
Qed.

Lemma take_drop_eq {A} n i j (l k : list A) :
  (forall x, (x < n)%nat -> l !! (i + x)%nat = k !! (j + x)%nat) -> take n (drop i l) = take n (drop j k).
Proof.
  intros H. apply list_eq. intros x. destruct (decide (x < n)%nat) as [Hx|Hx].
  - rewrite !lookup_take_lt, !lookup_drop by exact Hx. apply H, Hx.
  - rewrite !lookup_take_ge by lia. reflexivity.
Qed.

Section FlipSpec.
Context {S : Type} (s : S) (scan h : nat).

(** Row [r] of a buffer. *)
Definition line_of (r : nat) (d : list Z) : list Z := take scan (drop (scan * r) d).

Definition flipped (src dst : list Z) : Prop := length dst = (scan * h)%nat /\ forall r, (r < h)%nat -> line_of r dst = line_of (h - 1 - r) src.

Lemma line_run r d : length d = (scan * h)%nat -> (r < h)%nat -> read_at d (scan * r) scan s = Done (line_of r d, s).
Proof. intros Hd Hr. unfold read_at. rewrite (proj2 (Nat.leb_le _ _)) by nia. reflexivity. Qed.

Lemma length_line r d : length d = (scan * h)%nat -> (r < h)%nat -> length (line_of r d) = scan.
Proof. intros Hd Hr. unfold line_of. rewrite length_take, length_drop. nia. Qed.

Lemma line_splice r0 r bs d : length d = (scan * h)%nat -> (r0 < h)%nat -> (r < h)%nat -> length bs = scan ->
  line_of r (splice (scan * r0) bs d) = if decide (r = r0) then bs else line_of r d.
Proof.
  intros Hd H0 Hr Hb. unfold line_of. destruct (decide (r = r0)) as [->|Hne].
  - transitivity (take scan (drop 0 bs)); [|rewrite drop_0, take_ge by lia; reflexivity].
    apply take_drop_eq. intros x Hx. rewrite lookup_splice by nia. rewrite decide_True by lia. f_equal. lia.
  - apply take_drop_eq. intros x Hx. rewrite lookup_splice by nia. rewrite decide_False by nia. reflexivity.
Qed.

Lemma write_run r0 bs d : length d = (scan * h)%nat -> (r0 < h)%nat -> length bs = scan -> exists d', write_at d (scan * r0) bs s = Done (d', s) /\
  length d' = (scan * h)%nat /\ forall r, (r < h)%nat -> line_of r d' = if decide (r = r0) then bs else line_of r d.
Proof.
  intros Hd Hr Hb. exists (splice (scan * r0) bs d). unfold write_at. rewrite (proj2 (Nat.leb_le _ _)) by nia.
  split; [reflexivity|]. split; [rewrite length_splice by nia; exact Hd|]. intros r Hlt. apply line_splice; assumption.
Qed.

(** Copying: the rows from [h - i] on are in place. *)
Lemma flip_copy_run src : length src = (scan * h)%nat -> forall k i dst, (k + i = h)%nat -> length dst = (scan * h)%nat ->
  (forall r, (h - i <= r < h)%nat -> line_of r dst = line_of (h - 1 - r) src) -> exists dst', flip_copy k scan i h src dst s = Done (dst', s) /\ flipped src dst'.
Proof.
  intros Hs. induction k as [|k IH]; intros i dst Hk Hd Hrows; cbn [flip_copy].
  - exists dst. split; [reflexivity|]. split; [exact Hd|]. intros r Hr. apply Hrows. lia.
  - rewrite (bind_Done _ _ _ _ _ (line_run i src Hs ltac:(lia))).
    destruct (write_run (h - 1 - i) (line_of i src) dst Hd ltac:(lia) (length_line i src Hs ltac:(lia))) as (d' & E & Hd' & Hl).
    rewrite (bind_Done _ _ _ _ _ E). apply IH; [lia|exact Hd'|]. intros r Hr. rewrite Hl by lia.
    destruct (decide (r = h - 1 - i)%nat) as [->|Hne]; [f_equal; lia|]. apply Hrows. lia.
Qed.

(** In place: the rows before [i] and from [h - i] on are in place, the others
    untouched. *)
Lemma flip_swap_run src : length src = (scan * h)%nat -> forall k i buf, (k + i = h / 2)%nat -> length buf = (scan * h)%nat ->
  (forall r, (r < h)%nat -> line_of r buf = line_of (if decide (i <= r < h - i)%nat then r else h - 1 - r) src) ->
  exists buf', flip_swap k scan i h buf s = Done (buf', s) /\ flipped src buf'.
Proof.
  intros Hs. assert (Hdiv : (2 * (h / 2) <= h < 2 * (h / 2) + 2)%nat) by (pose proof (Nat.div_mod_eq h 2); pose proof (Nat.mod_upper_bound h 2); lia).
  induction k as [|k IH]; intros i buf Hk Hb Hrows; cbn [flip_swap].
  - exists buf. split; [reflexivity|]. split; [exact Hb|]. intros r Hr. rewrite Hrows by exact Hr. destruct (decide _); [f_equal; lia|reflexivity].
  - rewrite (bind_Done _ _ _ _ _ (line_run i buf Hb ltac:(lia))), (bind_Done _ _ _ _ _ (line_run (h - 1 - i) buf Hb ltac:(lia))).
    destruct (write_run i (line_of (h - 1 - i) buf) buf Hb ltac:(lia) (length_line (h - 1 - i) buf Hb ltac:(lia))) as (d1 & E1 & Hd1 & Hl1).
    rewrite (bind_Done _ _ _ _ _ E1).
    destruct (write_run (h - 1 - i) (line_of i buf) d1 Hd1 ltac:(lia) (length_line i buf Hb ltac:(lia))) as (d2 & E2 & Hd2 & Hl2).
    rewrite (bind_Done _ _ _ _ _ E2). apply IH; [lia|exact Hd2|]. intros r Hr. rewrite Hl2 by lia.
    destruct (decide (r = h - 1 - i)%nat) as [->|Hne].
    + rewrite Hrows by lia. rewrite decide_True, decide_False by lia. f_equal. lia.
    + rewrite Hl1 by lia. destruct (decide (r = i)) as [->|Hni].
      * rewrite Hrows by lia. rewrite decide_True, decide_False by lia. reflexivity.
      * rewrite Hrows by lia. do 2 case_decide; try reflexivity; exfalso; lia.
Qed.

Lemma lines_ext a b : length a = (scan * h)%nat -> length b = (scan * h)%nat -> (forall r, (r < h)%nat -> line_of r a = line_of r b) -> a = b.
Proof.
  intros Ha Hb Hl. apply list_eq. intros j. destruct (decide (j < scan * h)%nat) as [Hj|Hj]; [|rewrite !lookup_ge_None_2 by lia; reflexivity].
  assert (Hs : scan <> 0%nat) by nia. pose proof (Nat.div_mod_eq j scan) as Ej. pose proof (Nat.mod_upper_bound j scan Hs) as Hm.
  assert (Hr : (j / scan < h)%nat) by nia. specialize (Hl _ Hr). apply (f_equal (fun l => l !! (j mod scan)%nat)) in Hl.
  unfold line_of in Hl. rewrite !lookup_take_lt, !lookup_drop in Hl by lia. rewrite <- !Ej in Hl. exact Hl.
Qed.

Lemma flipped_unique src a b : flipped src a -> flipped src b -> a = b.
Proof. intros [Ha H1] [Hb H2]. apply lines_ext; [exact Ha|exact Hb|]. intros r Hr. rewrite H1, H2 by exact Hr. reflexivity. Qed.

Lemma flipped_back src a b : length src = (scan * h)%nat -> flipped src a -> flipped a b -> b = src.
Proof.
  intros Hs [Ha H1] [Hb H2]. apply lines_ext; [exact Hb|exact Hs|]. intros r Hr. rewrite H2, H1 by lia. f_equal. lia.
Qed.
End FlipSpec.

(** Flipping a picture between two buffers and flipping it in place give the
    same picture, the rows in reverse order, for even and odd heights; and
    flipping twice gives the picture back. *)
Theorem flip_in_place_same {S} (s : S) scan h src dst : length src = (scan * h)%nat -> length dst = (scan * h)%nat -> exists out,
  freerdp_bitmap_flip src dst scan h s = Done (out, s) /\ freerdp_bitmap_flip_in_place src scan h s = Done (out, s) /\
  (forall r, (r < h)%nat -> line_of scan r out = line_of scan (h - 1 - r) src) /\
  freerdp_bitmap_flip_in_place out scan h s = Done (src, s).
Proof.
  intros Hs Hd. destruct (flip_copy_run s scan h src Hs h 0 dst ltac:(lia) Hd ltac:(lia)) as (a & Ea & Ha).
  assert (Hin : forall x, length x = (scan * h)%nat -> exists b, freerdp_bitmap_flip_in_place x scan h s = Done (b, s) /\ flipped scan h x b).
  { intros x Hx. apply (flip_swap_run s scan h x Hx (h / 2) 0 x); [lia|exact Hx|]. intros r Hr. rewrite decide_True by lia. reflexivity. }
  destruct (Hin src Hs) as (b & Eb & Hb). destruct (Hin a (proj1 Ha)) as (c & Ec & Hc).
  exists a. split; [exact Ea|]. split; [rewrite Eb, (flipped_unique scan h src b a Hb Ha); reflexivity|]. split; [apply Ha|].
  rewrite Ec, (flipped_back scan h src a c Hs Ha Hc). reflexivity.
Qed.

Lemma flip_in_place_same_witness : exists out,
  freerdp_bitmap_flip [1; 2; 3; 4; 5; 6] (replicate 6 0) 2 3 tt = Done (out, tt) /\ freerdp_bitmap_flip_in_place [1; 2; 3; 4; 5; 6] 2 3 tt = Done (out, tt) /\
  freerdp_bitmap_flip_in_place out 2 3 tt = Done ([1; 2; 3; 4; 5; 6], tt).
Proof.
  destruct (flip_in_place_same tt 2 3 [1; 2; 3; 4; 5; 6] (replicate 6 0) eq_refl eq_refl) as (out & E1 & E2 & _ & E3). exists out. auto.
Defined.

