(* ===== verification/Blit.v ===== *)
(** Bit block transfers of the GDI: [libfreerdp-gdi/8bpp.c], [16bpp.c] and
    [32bpp.c], with [gdi_get_bitmap_pointer] and [gdi_get_brush_pointer] of
    [gdi.c] and the pixel functions of [bitmap.c].

    Bitmaps are objects of a store that device contexts refer to, so that source
    and destination may be the same picture. Their data are bytes; the three
    files differ in the type of a pixel, of [n] bytes here, and in how a colour
    becomes a pixel. *)

From coqutil Require Import Datatypes.RecordSetters.
From S2P Require Import Prelude.
From S2P Require Import Stream.
From S2P Require Import Gcc.
From S2P Require Import Regions.
From S2P Require Import Color.
Import TriangleBracketNotations.

Definition GDI_SRCCOPY : Z := 0x00CC0020.
Definition GDI_SRCPAINT : Z := 0x00EE0086.
Definition GDI_SRCAND : Z := 0x008800C6.
Definition GDI_SRCINVERT : Z := 0x00660046.
Definition GDI_SRCERASE : Z := 0x00440328.
Definition GDI_NOTSRCCOPY : Z := 0x00330008.
Definition GDI_NOTSRCERASE : Z := 0x001100A6.
Definition GDI_MERGECOPY : Z := 0x00C000CA.
Definition GDI_MERGEPAINT : Z := 0x00BB0226.
Definition GDI_PATCOPY : Z := 0x00F00021.
Definition GDI_PATPAINT : Z := 0x00FB0A09.
Definition GDI_PATINVERT : Z := 0x005A0049.
Definition GDI_DSTINVERT : Z := 0x00550009.
Definition GDI_BLACKNESS : Z := 0x00000042.
Definition GDI_WHITENESS : Z := 0x00FF0062.
Definition GDI_DSPDxax : Z := 0x00E20746.
Definition GDI_SPna : Z := 0x000C0324.
Definition GDI_DSna : Z := 0x00220326.
Definition GDI_PDxn : Z := 0x00A50065.

Definition GDI_BS_SOLID : Z := 0x00.
Definition GDI_BS_NULL : Z := 0x01.
Definition GDI_BS_HATCHED : Z := 0x02.
Definition GDI_BS_PATTERN : Z := 0x03.

(** ** Memory *)

(** The device context that is drawn into, and all bitmaps. *)
Record gdi : Type := mkGdi { dc : GDI_DC; store : list GDI_BITMAP }.

Definition get_dc : M gdi GDI_DC := fun s => Done (dc s, s).

Definition on_dc {A} (c : M GDI_DC A) : M gdi A := zoom dc (fun hdc s => s <| dc := hdc |>) c.

Definition bitmap_at (b : nat) : M gdi GDI_BITMAP := fun s =>
  match store s !! b with Some m => Done (m, s) | None => Fault NullPointer end.

(** The bytes of bitmap [b], replaced. *)
Definition put_data (b : nat) (d : list Z) : M gdi unit := fun s =>
  match store s !! b with
  | Some m => Done (tt, s <| store := <[b := m <| bmp_data := d |>]> (store s) |>)
  | None => Fault NullPointer
  end.

(** [hBmp = hdc->selectedObject] *)
Definition selected (hdc : GDI_DC) : M gdi nat :=
  match selectedObject hdc with Some b => ret b | None => fail NullPointer end.

(** A pixel of [n] bytes at [p] of bitmap [b]. *)
Definition load (n b : nat) (p : Z) : M gdi Z :=
  let! m := bitmap_at b in
  if (0 <=? p) && (p + Z.of_nat n <=? len (bmp_data m)) then ret (le_value (take n (drop (Z.to_nat p) (bmp_data m))))
  else fail OutOfBounds.

(** [size] bytes are written; a negative size is a huge one for [memset] and its
    like. *)
Definition write_bytes (b : nat) (p : Z) (bytes : list Z) : M gdi unit :=
  let! m := bitmap_at b in
  if (0 <=? p) && (p + len bytes <=? len (bmp_data m)) then put_data b (splice (Z.to_nat p) bytes (bmp_data m))
  else fail OutOfBounds.

Definition save (n b : nat) (p v : Z) : M gdi unit := write_bytes b p (le_bytes n v).

Definition memset (b : nat) (p v size : Z) : M gdi unit :=
  if size <? 0 then fail OutOfBounds else write_bytes b p (replicate (Z.to_nat size) v).

Definition memmove (db : nat) (dstp : Z) (sb : nat) (srcp size : Z) : M gdi unit :=
  if size <? 0 then fail OutOfBounds else
  let! m := bitmap_at sb in
  if (0 <=? srcp) && (srcp + size <=? len (bmp_data m))
  then write_bytes db dstp (take (Z.to_nat size) (drop (Z.to_nat srcp) (bmp_data m)))
  else fail OutOfBounds.

(** [memcpy] of blocks that overlap is undefined. *)
Definition memcpy (db : nat) (dstp : Z) (sb : nat) (srcp size : Z) : M gdi unit :=
  if (db =? sb)%nat && (dstp <? srcp + size) && (srcp <? dstp + size) then fail Overlapping
  else memmove db dstp sb srcp size.

(** [for (i = 0; i < n; i++)] and [for (i = n - 1; i >= 0; i--)] *)
Fixpoint count_up (k : nat) (i : Z) (body : Z -> M gdi unit) : M gdi unit :=
  match k with O => ret tt | S k' => body i;; count_up k' (i + 1) body end.
Definition for_up (n : Z) (body : Z -> M gdi unit) : M gdi unit := count_up (Z.to_nat n) 0 body.
Fixpoint count_down (k : nat) (body : Z -> M gdi unit) : M gdi unit :=
  match k with O => ret tt | S k' => body (Z.of_nat k');; count_down k' body end.
Definition for_down (n : Z) (body : Z -> M gdi unit) : M gdi unit := count_down (Z.to_nat n) body.

(** ** Pointers into pictures *)

(** The place of a pixel in the data of the selected bitmap, [None] for [0]. *)
Definition gdi_get_bitmap_pointer (hdcBmp : GDI_DC) (x y : Z) : M gdi (option Z) :=
  let! b := selected hdcBmp in
  let! m := bitmap_at b in
  ret (if (0 <=? x) && (x <? bmp_width m) && (0 <=? y) && (y <? bmp_height m)
       then Some (y * bmp_width m * bytesPerPixel hdcBmp + x * bytesPerPixel hdcBmp) else None).

(** A pixel of the pattern of a brush, or the text colour. *)
Inductive brush_pointer : Type :=
| PatternAt (b : nat) (p : Z)
| TextColorAt (color : Z).

Definition gdi_get_brush_pointer (hdcBrush : GDI_DC) (x y : Z) : M gdi brush_pointer :=
  match brush hdcBrush with
  | Some br =>
      if (brush_style br =? GDI_BS_PATTERN) && (0 <=? x) && (0 <=? y) then
        let! m := bitmap_at (pattern br) in
        if (bmp_width m =? 0) || (bmp_height m =? 0) then fail DivideByZero else
        ret (PatternAt (pattern br) (Z.rem y (bmp_height m) * scanline m + Z.rem x (bmp_width m) * bmp_bytesPerPixel m))
      else ret (TextColorAt (textColor hdcBrush))
  | None => ret (TextColorAt (textColor hdcBrush))
  end.

Definition load_brush (n : nat) (p : brush_pointer) : M gdi Z :=
  match p with
  | PatternAt b p => load n b p
  | TextColorAt c => ret (c mod 2 ^ (8 * Z.of_nat n))
  end.

(** ** Raster operations *)

(** A source: its device context, which may be [NULL], and the place in it. *)
Definition source : Type := option GDI_DC * Z * Z.

Definition source_pointer (src : source) (y : Z) : M gdi (nat * option Z) :=
  match src with
  | (Some hdcSrc, nXSrc, nYSrc) =>
      let! sb := selected hdcSrc in let! p := gdi_get_bitmap_pointer hdcSrc nXSrc (nYSrc + y) in ret (sb, p)
  | (None, _, _) => fail NullPointer
  end.

Definition load_source (n : nat) (srcp : nat * option Z) (x : Z) : M gdi Z :=
  match srcp.2 with Some p => load n srcp.1 (p + Z.of_nat n * x) | None => fail NullPointer end.

Section Rop.
Context (n : nat).

(** The loops of a raster operation: every pixel of the area becomes [f S P D],
    where the operations that need no source or no pattern do not read one. *)
Definition rop_pixel (db : nat) (dstp : Z) (srcp : option (nat * option Z)) (pat : bool) (f : Z -> Z -> Z -> Z) (y x : Z) : M gdi unit :=
  let! hdcDest := get_dc in
  let! vP := (if pat then let! p := gdi_get_brush_pointer hdcDest x y in load_brush n p else ret 0) in
  let! vS := match srcp with Some q => load_source n q x | None => ret 0 end in
  let! vD := load n db (dstp + Z.of_nat n * x) in
  save n db (dstp + Z.of_nat n * x) (f vS vP vD).

Definition rop_blit (src : option source) (pat : bool) (f : Z -> Z -> Z -> Z) (nXDest nYDest nWidth nHeight : Z) : M gdi Z :=
  let! hdcDest := get_dc in
  for_up nHeight (fun y =>
    let! srcp := match src with Some q => let! p := source_pointer q y in ret (Some p) | None => ret None end in
    let! db := selected hdcDest in
    let! dstp := gdi_get_bitmap_pointer hdcDest nXDest (nYDest + y) in
    match dstp with
    | Some p => for_up nWidth (rop_pixel db p srcp pat f y)
    | None => ret tt
    end);;
  ret 0.

Definition fill_rows (v nXDest nYDest nWidth nHeight : Z) : M gdi Z :=
  let! hdcDest := get_dc in
  for_up nHeight (fun y =>
    let! db := selected hdcDest in
    let! dstp := gdi_get_bitmap_pointer hdcDest nXDest (nYDest + y) in
    match dstp with Some p => memset db p v (nWidth * bytesPerPixel hdcDest) | None => ret tt end);;
  ret 0.

Definition BitBlt_WHITENESS := fill_rows 0xFF.

Definition copy_row (copy : nat -> Z -> nat -> Z -> Z -> M gdi unit) (hdcSrc : GDI_DC) (nXDest nYDest nWidth nXSrc nYSrc y : Z) : M gdi unit :=
  let! hdcDest := get_dc in
  let! sb := selected hdcSrc in
  let! db := selected hdcDest in
  let! srcp := gdi_get_bitmap_pointer hdcSrc nXSrc (nYSrc + y) in
  let! dstp := gdi_get_bitmap_pointer hdcDest nXDest (nYDest + y) in
  match srcp, dstp with
  | Some p, Some q => copy db q sb p (nWidth * bytesPerPixel hdcDest)
  | _, _ => ret tt
  end.

(** Rows are copied from the bottom when the source is above the destination. *)
Definition BitBlt_SRCCOPY (nXDest nYDest nWidth nHeight : Z) (src : source) : M gdi Z :=
  let '(hdc, nXSrc, nYSrc) := src in
  match hdc with
  | None => fail NullPointer
  | Some hdcSrc =>
      let! hdcDest := get_dc in
      (if bool_decide (selectedObject hdcDest <> selectedObject hdcSrc) ||
          negb (gdi_CopyOverlap nXDest nYDest nWidth nHeight nXSrc nYSrc)
       then for_up nHeight (copy_row memcpy hdcSrc nXDest nYDest nWidth nXSrc nYSrc)
       else if nYSrc <? nYDest then for_down nHeight (copy_row memmove hdcSrc nXDest nYDest nWidth nXSrc nYSrc)
       else for_up nHeight (copy_row memmove hdcSrc nXDest nYDest nWidth nXSrc nYSrc));;
      ret 0
  end.

Definition BitBlt_NOTSRCCOPY (nXDest nYDest nWidth nHeight : Z) (src : source) : M gdi Z :=
  rop_blit (Some src) false (fun S P D => Z.lnot S) nXDest nYDest nWidth nHeight.

Definition BitBlt_DSTINVERT (nXDest nYDest nWidth nHeight : Z) : M gdi Z :=
  rop_blit None false (fun S P D => Z.lnot D) nXDest nYDest nWidth nHeight.

Definition BitBlt_SRCERASE (nXDest nYDest nWidth nHeight : Z) (src : source) : M gdi Z :=
  rop_blit (Some src) false (fun S P D => Z.land S (Z.lnot D)) nXDest nYDest nWidth nHeight.

Definition BitBlt_NOTSRCERASE (nXDest nYDest nWidth nHeight : Z) (src : source) : M gdi Z :=
  rop_blit (Some src) false (fun S P D => Z.land (Z.lnot S) (Z.lnot D)) nXDest nYDest nWidth nHeight.

Definition BitBlt_SRCINVERT (nXDest nYDest nWidth nHeight : Z) (src : source) : M gdi Z :=
  rop_blit (Some src) false (fun S P D => Z.lxor D S) nXDest nYDest nWidth nHeight.

Definition BitBlt_SRCAND (nXDest nYDest nWidth nHeight : Z) (src : source) : M gdi Z :=
  rop_blit (Some src) false (fun S P D => Z.land D S) nXDest nYDest nWidth nHeight.

Definition BitBlt_SRCPAINT (nXDest nYDest nWidth nHeight : Z) (src : source) : M gdi Z :=
  rop_blit (Some src) false (fun S P D => Z.lor D S) nXDest nYDest nWidth nHeight.

Definition BitBlt_SPna (nXDest nYDest nWidth nHeight : Z) (src : source) : M gdi Z :=
  rop_blit (Some src) true (fun S P D => Z.land S (Z.lnot P)) nXDest nYDest nWidth nHeight.

Definition BitBlt_PDxn (nXDest nYDest nWidth nHeight : Z) : M gdi Z :=
  rop_blit None true (fun S P D => Z.lxor D (Z.lnot P)) nXDest nYDest nWidth nHeight.

Definition BitBlt_DSna (nXDest nYDest nWidth nHeight : Z) (src : source) : M gdi Z :=
  rop_blit (Some src) false (fun S P D => Z.land (Z.lnot S) D) nXDest nYDest nWidth nHeight.

Definition BitBlt_MERGECOPY (nXDest nYDest nWidth nHeight : Z) (src : source) : M gdi Z :=
  rop_blit (Some src) true (fun S P D => Z.land S P) nXDest nYDest nWidth nHeight.

Definition BitBlt_MERGEPAINT (nXDest nYDest nWidth nHeight : Z) (src : source) : M gdi Z :=
  rop_blit (Some src) false (fun S P D => Z.lor (Z.lnot S) D) nXDest nYDest nWidth nHeight.

Definition BitBlt_PATPAINT (nXDest nYDest nWidth nHeight : Z) (src : source) : M gdi Z :=
  rop_blit (Some src) true (fun S P D => Z.lor D (Z.lor P (Z.lnot S))) nXDest nYDest nWidth nHeight.

(** A solid brush has its colour, [solid] as a pixel; any other its pattern. *)
Definition pattern_blit (solid : Z -> Z) (f : Z -> Z -> Z) (nXDest nYDest nWidth nHeight : Z) : M gdi Z :=
  let! hdcDest := get_dc in
  match brush hdcDest with
  | None => fail NullPointer
  | Some br =>
      if brush_style br =? GDI_BS_SOLID
      then rop_blit None false (fun S P D => f (solid (brush_color br)) D) nXDest nYDest nWidth nHeight
      else rop_blit None true (fun S P D => f P D) nXDest nYDest nWidth nHeight
  end.

Definition BitBlt_PATCOPY (solid : Z -> Z) := pattern_blit solid (fun P D => P).
Definition BitBlt_PATINVERT (solid : Z -> Z) := pattern_blit solid (fun P D => Z.lxor D P).
End Rop.

(** *** Colours *)

(** A [GDI_COLOR] is [0x00BBGGRR]. *)
Definition gdi_get_color_16bpp (hdc : GDI_DC) (color : Z) : Z :=
  let '(r, g, b) := GetBGR32 color in
  if rgb555 hdc then (if invert hdc then BGR15 r g b else RGB15 r g b)
  else (if invert hdc then BGR16 r g b else RGB16 r g b).

Definition gdi_get_color_32bpp (hdc : GDI_DC) (color : Z) : Z :=
  let '(r, g, b) := GetBGR32 color in
  if invert hdc then ABGR32 0xFF r g b else ARGB32 0xFF r g b.

(** The palette index of a solid brush at 8 bits per pixel. *)
Definition palette_index (color : Z) : Z := Z.land (Z.shiftr color 16) 0xFF.

(** *** Glyphs *)

(** A glyph is a mask of one byte per pixel. *)
Definition glyph_blit (pixel : nat -> Z -> Z -> Z -> M gdi unit) (nXDest nYDest nWidth nHeight : Z) (src : source) : M gdi Z :=
  let! hdcDest := get_dc in
  match src with
  | (Some hdcSrc, _, _) =>
      if negb (bytesPerPixel hdcSrc =? 1) then ret 0 else
      for_up nHeight (fun y =>
        let! srcp := source_pointer src y in
        let! db := selected hdcDest in
        let! dstp := gdi_get_bitmap_pointer hdcDest nXDest (nYDest + y) in
        match dstp with
        | Some p => for_up nWidth (fun x => let! vS := load_source 1 srcp x in pixel db p x vS)
        | None => ret tt
        end);;
      ret 0
  | (None, _, _) => fail NullPointer
  end.

Definition BitBlt_DSPDxax_8bpp (nXDest nYDest nWidth nHeight : Z) (src : source) : M gdi Z := ret 0.

Definition BitBlt_DSPDxax_16bpp (nXDest nYDest nWidth nHeight : Z) (src : source) : M gdi Z :=
  let! hdcDest := get_dc in
  let color16 := gdi_get_color_16bpp hdcDest (textColor hdcDest) in
  glyph_blit (fun db p x S =>
      let src16 := Z.lor (Z.shiftl S 8) S in
      let! vD := load 2 db (p + 2 * x) in
      save 2 db (p + 2 * x) (Z.lor (Z.land src16 color16) (Z.land (Z.lnot src16) vD)))
    nXDest nYDest nWidth nHeight src.

(** The fourth byte of a pixel is left as it is. *)
Definition mask_byte (db : nat) (p S color : Z) (i : Z) : M gdi unit :=
  let! vD := load 1 db (p + i) in
  save 1 db (p + i) (Z.lor (Z.land S (Z.land (Z.shiftr color (8 * i)) 0xFF)) (Z.land (Z.lnot S) vD)).

Definition BitBlt_DSPDxax_32bpp (nXDest nYDest nWidth nHeight : Z) (src : source) : M gdi Z :=
  let! hdcDest := get_dc in
  let color32 := gdi_get_color_32bpp hdcDest (textColor hdcDest) in
  glyph_blit (fun db p x S =>
      mask_byte db (p + 4 * x) S color32 0;; mask_byte db (p + 4 * x) S color32 1;; mask_byte db (p + 4 * x) S color32 2)
    nXDest nYDest nWidth nHeight src.

(** *** Black *)

(** With alpha the last byte of a pixel is [0xFF]. *)
Definition BitBlt_BLACKNESS_32bpp (nXDest nYDest nWidth nHeight : Z) : M gdi Z :=
  let! hdcDest := get_dc in
  if alpha hdcDest then rop_blit 4 None false (fun S P D => 0xFF000000) nXDest nYDest nWidth nHeight
  else fill_rows 0 nXDest nYDest nWidth nHeight.
Definition BitBlt_BLACKNESS_16bpp := fill_rows 0.
Definition BitBlt_BLACKNESS_8bpp := fill_rows 0.

(** [gdi_ClipCoords] accepts a device context without a bitmap. *)
Definition selected_bitmap (hdc : GDI_DC) : M gdi (option GDI_BITMAP) :=
  match selectedObject hdc with Some b => let! m := bitmap_at b in ret (Some m) | None => ret None end.

(** *** 8 bits per pixel *)

Definition BitBlt_WHITENESS_8bpp := BitBlt_WHITENESS.
Definition BitBlt_SRCCOPY_8bpp := BitBlt_SRCCOPY.
Definition BitBlt_NOTSRCCOPY_8bpp := BitBlt_NOTSRCCOPY 1.
Definition BitBlt_DSTINVERT_8bpp := BitBlt_DSTINVERT 1.
Definition BitBlt_SRCERASE_8bpp := BitBlt_SRCERASE 1.
Definition BitBlt_NOTSRCERASE_8bpp := BitBlt_NOTSRCERASE 1.
Definition BitBlt_SRCINVERT_8bpp := BitBlt_SRCINVERT 1.
Definition BitBlt_SRCAND_8bpp := BitBlt_SRCAND 1.
Definition BitBlt_SRCPAINT_8bpp := BitBlt_SRCPAINT 1.
Definition BitBlt_SPna_8bpp := BitBlt_SPna 1.
Definition BitBlt_PDxn_8bpp := BitBlt_PDxn 1.
Definition BitBlt_DSna_8bpp := BitBlt_DSna 1.
Definition BitBlt_MERGECOPY_8bpp := BitBlt_MERGECOPY 1.
Definition BitBlt_MERGEPAINT_8bpp := BitBlt_MERGEPAINT 1.
Definition BitBlt_PATPAINT_8bpp := BitBlt_PATPAINT 1.
Definition BitBlt_PATCOPY_8bpp := BitBlt_PATCOPY 1 palette_index.
Definition BitBlt_PATINVERT_8bpp := BitBlt_PATINVERT 1 palette_index.

(** The [switch] of [BitBlt_8bpp], after clipping. *)
Definition BitBlt_switch_8bpp (nXDest nYDest nWidth nHeight : Z) (src : source) (rop : Z) : M gdi Z :=
  if rop =? GDI_BLACKNESS then BitBlt_BLACKNESS_8bpp nXDest nYDest nWidth nHeight
  else if rop =? GDI_WHITENESS then BitBlt_WHITENESS_8bpp nXDest nYDest nWidth nHeight
  else if rop =? GDI_SRCCOPY then BitBlt_SRCCOPY_8bpp nXDest nYDest nWidth nHeight src
  else if rop =? GDI_SPna then BitBlt_SPna_8bpp nXDest nYDest nWidth nHeight src
  else if rop =? GDI_DSna then BitBlt_DSna_8bpp nXDest nYDest nWidth nHeight src
  else if rop =? GDI_DSPDxax then BitBlt_DSPDxax_8bpp nXDest nYDest nWidth nHeight src
  else if rop =? GDI_NOTSRCCOPY then BitBlt_NOTSRCCOPY_8bpp nXDest nYDest nWidth nHeight src
  else if rop =? GDI_DSTINVERT then BitBlt_DSTINVERT_8bpp nXDest nYDest nWidth nHeight
  else if rop =? GDI_SRCERASE then BitBlt_SRCERASE_8bpp nXDest nYDest nWidth nHeight src
  else if rop =? GDI_NOTSRCERASE then BitBlt_NOTSRCERASE_8bpp nXDest nYDest nWidth nHeight src
  else if rop =? GDI_SRCINVERT then BitBlt_SRCINVERT_8bpp nXDest nYDest nWidth nHeight src
  else if rop =? GDI_SRCAND then BitBlt_SRCAND_8bpp nXDest nYDest nWidth nHeight src
  else if rop =? GDI_SRCPAINT then BitBlt_SRCPAINT_8bpp nXDest nYDest nWidth nHeight src
  else if rop =? GDI_MERGECOPY then BitBlt_MERGECOPY_8bpp nXDest nYDest nWidth nHeight src
  else if rop =? GDI_MERGEPAINT then BitBlt_MERGEPAINT_8bpp nXDest nYDest nWidth nHeight src
  else if rop =? GDI_PATCOPY then BitBlt_PATCOPY_8bpp nXDest nYDest nWidth nHeight
  else if rop =? GDI_PATINVERT then BitBlt_PATINVERT_8bpp nXDest nYDest nWidth nHeight
  else if rop =? GDI_PATPAINT then BitBlt_PATPAINT_8bpp nXDest nYDest nWidth nHeight src
  else ret 1.

Definition BitBlt_8bpp (nXDest nYDest nWidth nHeight : Z) (src : source) (rop : Z) : M gdi Z :=
  let! hdcDest := get_dc in
  let! hBmp := selected_bitmap hdcDest in
  let '(hdcSrc, nXSrc, nYSrc) := src in
  let c := match hdcSrc with
           | Some _ => gdi_ClipCoords hBmp (clip hdcDest) nXDest nYDest nWidth nHeight (Some nXSrc) (Some nYSrc)
           | None => gdi_ClipCoords hBmp (clip hdcDest) nXDest nYDest nWidth nHeight None None
           end in
  if negb (c_draw c) then ret 0 else
  let src := (hdcSrc, default nXSrc (c_srcx c), default nYSrc (c_srcy c)) in
  on_dc (gdi_InvalidateRegion (c_x c) (c_y c) (c_w c) (c_h c));;
  BitBlt_switch_8bpp (c_x c) (c_y c) (c_w c) (c_h c) src rop.

(** The [switch] of [PatBlt_8bpp], after clipping. *)
Definition PatBlt_switch_8bpp (nXLeft nYLeft nWidth nHeight rop : Z) : M gdi Z :=
  if rop =? GDI_PATCOPY then BitBlt_PATCOPY_8bpp nXLeft nYLeft nWidth nHeight
  else if rop =? GDI_PATINVERT then BitBlt_PATINVERT_8bpp nXLeft nYLeft nWidth nHeight
  else if rop =? GDI_DSTINVERT then BitBlt_DSTINVERT_8bpp nXLeft nYLeft nWidth nHeight
  else if rop =? GDI_BLACKNESS then BitBlt_BLACKNESS_8bpp nXLeft nYLeft nWidth nHeight
  else if rop =? GDI_WHITENESS then BitBlt_WHITENESS_8bpp nXLeft nYLeft nWidth nHeight
  else if rop =? GDI_PDxn then BitBlt_PDxn_8bpp nXLeft nYLeft nWidth nHeight
  else ret 1.

Definition PatBlt_8bpp (nXLeft nYLeft nWidth nHeight rop : Z) : M gdi Z :=
  let! hdc := get_dc in
  let! hBmp := selected_bitmap hdc in
  let c := gdi_ClipCoords hBmp (clip hdc) nXLeft nYLeft nWidth nHeight None None in
  if negb (c_draw c) then ret 0 else
  on_dc (gdi_InvalidateRegion (c_x c) (c_y c) (c_w c) (c_h c));;
  PatBlt_switch_8bpp (c_x c) (c_y c) (c_w c) (c_h c) rop.

Definition FillRect_8bpp (rect : GDI_RECT) (hbr : GDI_BRUSH) : M gdi Z := ret 0.

(** *** 16 bits per pixel *)

Definition BitBlt_WHITENESS_16bpp := BitBlt_WHITENESS.
Definition BitBlt_SRCCOPY_16bpp := BitBlt_SRCCOPY.
Definition BitBlt_NOTSRCCOPY_16bpp := BitBlt_NOTSRCCOPY 2.
Definition BitBlt_DSTINVERT_16bpp := BitBlt_DSTINVERT 2.
Definition BitBlt_SRCERASE_16bpp := BitBlt_SRCERASE 2.
Definition BitBlt_NOTSRCERASE_16bpp := BitBlt_NOTSRCERASE 2.
Definition BitBlt_SRCINVERT_16bpp := BitBlt_SRCINVERT 2.
Definition BitBlt_SRCAND_16bpp := BitBlt_SRCAND 2.
Definition BitBlt_SRCPAINT_16bpp := BitBlt_SRCPAINT 2.
Definition BitBlt_SPna_16bpp := BitBlt_SPna 2.
Definition BitBlt_PDxn_16bpp := BitBlt_PDxn 2.
Definition BitBlt_DSna_16bpp := BitBlt_DSna 2.
Definition BitBlt_MERGECOPY_16bpp := BitBlt_MERGECOPY 2.
Definition BitBlt_MERGEPAINT_16bpp := BitBlt_MERGEPAINT 2.
Definition BitBlt_PATPAINT_16bpp := BitBlt_PATPAINT 2.
Definition BitBlt_PATCOPY_16bpp (nXDest nYDest nWidth nHeight : Z) : M gdi Z :=
  let! hdcDest := get_dc in BitBlt_PATCOPY 2 (gdi_get_color_16bpp hdcDest) nXDest nYDest nWidth nHeight.
Definition BitBlt_PATINVERT_16bpp (nXDest nYDest nWidth nHeight : Z) : M gdi Z :=
  let! hdcDest := get_dc in BitBlt_PATINVERT 2 (gdi_get_color_16bpp hdcDest) nXDest nYDest nWidth nHeight.

(** The [switch] of [BitBlt_16bpp], after clipping. *)
Definition BitBlt_switch_16bpp (nXDest nYDest nWidth nHeight : Z) (src : source) (rop : Z) : M gdi Z :=
  if rop =? GDI_BLACKNESS then BitBlt_BLACKNESS_16bpp nXDest nYDest nWidth nHeight
  else if rop =? GDI_WHITENESS then BitBlt_WHITENESS_16bpp nXDest nYDest nWidth nHeight
  else if rop =? GDI_SRCCOPY then BitBlt_SRCCOPY_16bpp nXDest nYDest nWidth nHeight src
  else if rop =? GDI_SPna then BitBlt_SPna_16bpp nXDest nYDest nWidth nHeight src
  else if rop =? GDI_DSna then BitBlt_DSna_16bpp nXDest nYDest nWidth nHeight src
  else if rop =? GDI_DSPDxax then BitBlt_DSPDxax_16bpp nXDest nYDest nWidth nHeight src
  else if rop =? GDI_NOTSRCCOPY then BitBlt_NOTSRCCOPY_16bpp nXDest nYDest nWidth nHeight src
  else if rop =? GDI_DSTINVERT then BitBlt_DSTINVERT_16bpp nXDest nYDest nWidth nHeight
  else if rop =? GDI_SRCERASE then BitBlt_SRCERASE_16bpp nXDest nYDest nWidth nHeight src
  else if rop =? GDI_NOTSRCERASE then BitBlt_NOTSRCERASE_16bpp nXDest nYDest nWidth nHeight src
  else if rop =? GDI_SRCINVERT then BitBlt_SRCINVERT_16bpp nXDest nYDest nWidth nHeight src
  else if rop =? GDI_SRCAND then BitBlt_SRCAND_16bpp nXDest nYDest nWidth nHeight src
  else if rop =? GDI_SRCPAINT then BitBlt_SRCPAINT_16bpp nXDest nYDest nWidth nHeight src
  else if rop =? GDI_MERGECOPY then BitBlt_MERGECOPY_16bpp nXDest nYDest nWidth nHeight src
  else if rop =? GDI_MERGEPAINT then BitBlt_MERGEPAINT_16bpp nXDest nYDest nWidth nHeight src
  else if rop =? GDI_PATCOPY then BitBlt_PATCOPY_16bpp nXDest nYDest nWidth nHeight
  else if rop =? GDI_PATINVERT then BitBlt_PATINVERT_16bpp nXDest nYDest nWidth nHeight
  else if rop =? GDI_PATPAINT then BitBlt_PATPAINT_16bpp nXDest nYDest nWidth nHeight src
  else ret 1.

Definition BitBlt_16bpp (nXDest nYDest nWidth nHeight : Z) (src : source) (rop : Z) : M gdi Z :=
  let! hdcDest := get_dc in
  let! hBmp := selected_bitmap hdcDest in
  let '(hdcSrc, nXSrc, nYSrc) := src in
  let c := match hdcSrc with
           | Some _ => gdi_ClipCoords hBmp (clip hdcDest) nXDest nYDest nWidth nHeight (Some nXSrc) (Some nYSrc)
           | None => gdi_ClipCoords hBmp (clip hdcDest) nXDest nYDest nWidth nHeight None None
           end in
  if negb (c_draw c) then ret 0 else
  let src := (hdcSrc, default nXSrc (c_srcx c), default nYSrc (c_srcy c)) in
  on_dc (gdi_InvalidateRegion (c_x c) (c_y c) (c_w c) (c_h c));;
  BitBlt_switch_16bpp (c_x c) (c_y c) (c_w c) (c_h c) src rop.

(** The [switch] of [PatBlt_16bpp], after clipping. *)
Definition PatBlt_switch_16bpp (nXLeft nYLeft nWidth nHeight rop : Z) : M gdi Z :=
  if rop =? GDI_PATCOPY then BitBlt_PATCOPY_16bpp nXLeft nYLeft nWidth nHeight
  else if rop =? GDI_PATINVERT then BitBlt_PATINVERT_16bpp nXLeft nYLeft nWidth nHeight
  else if rop =? GDI_DSTINVERT then BitBlt_DSTINVERT_16bpp nXLeft nYLeft nWidth nHeight
  else if rop =? GDI_BLACKNESS then BitBlt_BLACKNESS_16bpp nXLeft nYLeft nWidth nHeight
  else if rop =? GDI_WHITENESS then BitBlt_WHITENESS_16bpp nXLeft nYLeft nWidth nHeight
  else if rop =? GDI_PDxn then BitBlt_PDxn_16bpp nXLeft nYLeft nWidth nHeight
  else ret 1.

Definition PatBlt_16bpp (nXLeft nYLeft nWidth nHeight rop : Z) : M gdi Z :=
  let! hdc := get_dc in
  let! hBmp := selected_bitmap hdc in
  let c := gdi_ClipCoords hBmp (clip hdc) nXLeft nYLeft nWidth nHeight None None in
  if negb (c_draw c) then ret 0 else
  on_dc (gdi_InvalidateRegion (c_x c) (c_y c) (c_w c) (c_h c));;
  PatBlt_switch_16bpp (c_x c) (c_y c) (c_w c) (c_h c) rop.

Definition FillRect_16bpp (rect : GDI_RECT) (hbr : GDI_BRUSH) : M gdi Z :=
  let! hdc := get_dc in
  let! hBmp := selected_bitmap hdc in
  let '(x, y, w, h) := gdi_RectToCRgn rect in
  let c := gdi_ClipCoords hBmp (clip hdc) x y w h None None in
  if negb (c_draw c) then ret 0 else
  rop_blit 2 None false (fun S P D => gdi_get_color_16bpp hdc (brush_color hbr)) (c_x c) (c_y c) (c_w c) (c_h c);;
  on_dc (gdi_InvalidateRegion (c_x c) (c_y c) (c_w c) (c_h c));;
  ret 0.

(** *** 32 bits per pixel *)

Definition BitBlt_WHITENESS_32bpp := BitBlt_WHITENESS.
Definition BitBlt_SRCCOPY_32bpp := BitBlt_SRCCOPY.
Definition BitBlt_NOTSRCCOPY_32bpp := BitBlt_NOTSRCCOPY 4.
Definition BitBlt_DSTINVERT_32bpp := BitBlt_DSTINVERT 4.
Definition BitBlt_SRCERASE_32bpp := BitBlt_SRCERASE 4.
Definition BitBlt_NOTSRCERASE_32bpp := BitBlt_NOTSRCERASE 4.
Definition BitBlt_SRCINVERT_32bpp := BitBlt_SRCINVERT 4.
Definition BitBlt_SRCAND_32bpp := BitBlt_SRCAND 4.
Definition BitBlt_SRCPAINT_32bpp := BitBlt_SRCPAINT 4.
Definition BitBlt_SPna_32bpp := BitBlt_SPna 4.
Definition BitBlt_PDxn_32bpp := BitBlt_PDxn 4.
Definition BitBlt_DSna_32bpp := BitBlt_DSna 4.
Definition BitBlt_MERGECOPY_32bpp := BitBlt_MERGECOPY 4.
Definition BitBlt_MERGEPAINT_32bpp := BitBlt_MERGEPAINT 4.
Definition BitBlt_PATPAINT_32bpp := BitBlt_PATPAINT 4.
Definition BitBlt_PATCOPY_32bpp (nXDest nYDest nWidth nHeight : Z) : M gdi Z :=
  let! hdcDest := get_dc in BitBlt_PATCOPY 4 (gdi_get_color_32bpp hdcDest) nXDest nYDest nWidth nHeight.
Definition BitBlt_PATINVERT_32bpp (nXDest nYDest nWidth nHeight : Z) : M gdi Z :=
  let! hdcDest := get_dc in BitBlt_PATINVERT 4 (gdi_get_color_32bpp hdcDest) nXDest nYDest nWidth nHeight.

(** The [switch] of [BitBlt_32bpp], after clipping. *)
Definition BitBlt_switch_32bpp (nXDest nYDest nWidth nHeight : Z) (src : source) (rop : Z) : M gdi Z :=
  if rop =? GDI_BLACKNESS then BitBlt_BLACKNESS_32bpp nXDest nYDest nWidth nHeight
  else if rop =? GDI_WHITENESS then BitBlt_WHITENESS_32bpp nXDest nYDest nWidth nHeight
  else if rop =? GDI_SRCCOPY then BitBlt_SRCCOPY_32bpp nXDest nYDest nWidth nHeight src
  else if rop =? GDI_SPna then BitBlt_SPna_32bpp nXDest nYDest nWidth nHeight src
  else if rop =? GDI_DSna then BitBlt_DSna_32bpp nXDest nYDest nWidth nHeight src
  else if rop =? GDI_DSPDxax then BitBlt_DSPDxax_32bpp nXDest nYDest nWidth nHeight src
  else if rop =? GDI_NOTSRCCOPY then BitBlt_NOTSRCCOPY_32bpp nXDest nYDest nWidth nHeight src
  else if rop =? GDI_DSTINVERT then BitBlt_DSTINVERT_32bpp nXDest nYDest nWidth nHeight
  else if rop =? GDI_SRCERASE then BitBlt_SRCERASE_32bpp nXDest nYDest nWidth nHeight src
  else if rop =? GDI_NOTSRCERASE then BitBlt_NOTSRCERASE_32bpp nXDest nYDest nWidth nHeight src
  else if rop =? GDI_SRCINVERT then BitBlt_SRCINVERT_32bpp nXDest nYDest nWidth nHeight src
  else if rop =? GDI_SRCAND then BitBlt_SRCAND_32bpp nXDest nYDest nWidth nHeight src
  else if rop =? GDI_SRCPAINT then BitBlt_SRCPAINT_32bpp nXDest nYDest nWidth nHeight src
  else if rop =? GDI_MERGECOPY then BitBlt_MERGECOPY_32bpp nXDest nYDest nWidth nHeight src
  else if rop =? GDI_MERGEPAINT then BitBlt_MERGEPAINT_32bpp nXDest nYDest nWidth nHeight src
  else if rop =? GDI_PATCOPY then BitBlt_PATCOPY_32bpp nXDest nYDest nWidth nHeight
  else if rop =? GDI_PATINVERT then BitBlt_PATINVERT_32bpp nXDest nYDest nWidth nHeight
  else if rop =? GDI_PATPAINT then BitBlt_PATPAINT_32bpp nXDest nYDest nWidth nHeight src
  else ret 1.

Definition BitBlt_32bpp (nXDest nYDest nWidth nHeight : Z) (src : source) (rop : Z) : M gdi Z :=
  let! hdcDest := get_dc in
  let! hBmp := selected_bitmap hdcDest in
  let '(hdcSrc, nXSrc, nYSrc) := src in
  let c := match hdcSrc with
           | Some _ => gdi_ClipCoords hBmp (clip hdcDest) nXDest nYDest nWidth nHeight (Some nXSrc) (Some nYSrc)
           | None => gdi_ClipCoords hBmp (clip hdcDest) nXDest nYDest nWidth nHeight None None
           end in
  if negb (c_draw c) then ret 0 else
  let src := (hdcSrc, default nXSrc (c_srcx c), default nYSrc (c_srcy c)) in
  on_dc (gdi_InvalidateRegion (c_x c) (c_y c) (c_w c) (c_h c));;
  BitBlt_switch_32bpp (c_x c) (c_y c) (c_w c) (c_h c) src rop.

(** The [switch] of [PatBlt_32bpp], after clipping. *)
Definition PatBlt_switch_32bpp (nXLeft nYLeft nWidth nHeight rop : Z) : M gdi Z :=
  if rop =? GDI_PATCOPY then BitBlt_PATCOPY_32bpp nXLeft nYLeft nWidth nHeight
  else if rop =? GDI_PATINVERT then BitBlt_PATINVERT_32bpp nXLeft nYLeft nWidth nHeight
  else if rop =? GDI_DSTINVERT then BitBlt_DSTINVERT_32bpp nXLeft nYLeft nWidth nHeight
  else if rop =? GDI_BLACKNESS then BitBlt_BLACKNESS_32bpp nXLeft nYLeft nWidth nHeight
  else if rop =? GDI_WHITENESS then BitBlt_WHITENESS_32bpp nXLeft nYLeft nWidth nHeight
  else if rop =? GDI_PDxn then BitBlt_PDxn_32bpp nXLeft nYLeft nWidth nHeight
  else ret 1.

Definition PatBlt_32bpp (nXLeft nYLeft nWidth nHeight rop : Z) : M gdi Z :=
  let! hdc := get_dc in
  let! hBmp := selected_bitmap hdc in
  let c := gdi_ClipCoords hBmp (clip hdc) nXLeft nYLeft nWidth nHeight None None in
  if negb (c_draw c) then ret 0 else
  on_dc (gdi_InvalidateRegion (c_x c) (c_y c) (c_w c) (c_h c));;
  PatBlt_switch_32bpp (c_x c) (c_y c) (c_w c) (c_h c) rop.

Definition FillRect_32bpp (rect : GDI_RECT) (hbr : GDI_BRUSH) : M gdi Z :=
  let! hdc := get_dc in
  let! hBmp := selected_bitmap hdc in
  let '(x, y, w, h) := gdi_RectToCRgn rect in
  let c := gdi_ClipCoords hBmp (clip hdc) x y w h None None in
  if negb (c_draw c) then ret 0 else
  rop_blit 4 None false (fun S P D => gdi_get_color_32bpp hdc (brush_color hbr)) (c_x c) (c_y c) (c_w c) (c_h c);;
  on_dc (gdi_InvalidateRegion (c_x c) (c_y c) (c_w c) (c_h c));;
  ret 0.

(** *** Any depth *)

Definition gdi_BitBlt (nXDest nYDest nWidth nHeight : Z) (src : source) (rop : Z) : M gdi Z :=
  let! hdcDest := get_dc in
  let i := IBPP (bitsPerPixel hdcDest) in
  if i =? 1 then BitBlt_8bpp nXDest nYDest nWidth nHeight src rop
  else if i =? 2 then BitBlt_16bpp nXDest nYDest nWidth nHeight src rop
  else if i =? 4 then BitBlt_32bpp nXDest nYDest nWidth nHeight src rop
  else ret 0.

Definition gdi_PatBlt (nXLeft nYLeft nWidth nHeight rop : Z) : M gdi Z :=
  let! hdc := get_dc in
  let i := IBPP (bitsPerPixel hdc) in
  if i =? 1 then PatBlt_8bpp nXLeft nYLeft nWidth nHeight rop
  else if i =? 2 then PatBlt_16bpp nXLeft nYLeft nWidth nHeight rop
  else if i =? 4 then PatBlt_32bpp nXLeft nYLeft nWidth nHeight rop
  else ret 0.

Definition gdi_FillRect (rect : GDI_RECT) (hbr : GDI_BRUSH) : M gdi Z :=
  let! hdc := get_dc in
  let i := IBPP (bitsPerPixel hdc) in
  if i =? 1 then FillRect_8bpp rect hbr
  else if i =? 2 then FillRect_16bpp rect hbr
  else if i =? 4 then FillRect_32bpp rect hbr
  else ret 0.
