(* ===== verification/BlitSpec.v ===== *)
(** What the bit block transfers of [Blit] draw: a raster operation is the truth
    table in its code, applied to every pixel of the area that clipping leaves,
    and a copy inside one bitmap keeps the pixels it moves. *)

From coqutil Require Import Datatypes.RecordSetters.
From S2P Require Import Prelude.
From S2P Require Import Stream.
From S2P Require Import Gcc.
From S2P Require Import Regions.
From S2P Require Import Color.
From S2P Require Import Blit.
Import TriangleBracketNotations.

(** ** Pixels in memory *)

(** Pixel number [q] of a picture of [n] bytes per pixel. *)
Definition pix (n : nat) (d : list Z) (q : nat) : Z := le_value (take n (drop (n * q) d)).

Lemma pix_splice n q0 k bs d q : length bs = (n * k)%nat -> (n * (q0 + k) <= length d)%nat ->
  pix n (splice (n * q0) bs d) q = if decide (q0 <= q < q0 + k)%nat then pix n bs (q - q0) else pix n d q.
Proof.
  intros Hb Hd. unfold pix. destruct (decide _) as [Hq|Hq]; f_equal; apply take_drop_eq; intros x Hx;
    rewrite lookup_splice by nia.
  - rewrite decide_True by nia. f_equal. nia.
  - rewrite decide_False by nia. reflexivity.
Qed.

Lemma pix_take_drop n q0 k d q : (q < k)%nat -> pix n (take (n * k) (drop (n * q0) d)) q = pix n d (q0 + q).
Proof.
  intros Hq. unfold pix. f_equal. apply take_drop_eq. intros x Hx. rewrite lookup_take_lt by nia. rewrite lookup_drop. f_equal. nia.
Qed.

Lemma length_le_bytes n v : length (le_bytes n v) = n.
Proof. revert v. induction n as [|n IH]; intros v; cbn; [reflexivity|rewrite IH; reflexivity]. Qed.

Lemma pow256_S n : 256 ^ Z.of_nat (S n) = 256 * 256 ^ Z.of_nat n.
Proof. rewrite Nat2Z.inj_succ, Z.pow_succ_r by lia. reflexivity. Qed.

Lemma le_value_bytes n v : le_value (le_bytes n v) = v mod 256 ^ Z.of_nat n.
Proof.
  revert v. induction n as [|n IH]; intros v; cbn [le_bytes le_value]; [rewrite Z.mod_1_r; reflexivity|].
  rewrite IH, pow256_S. symmetry. apply Z.rem_mul_r; [lia|]. apply Z.pow_pos_nonneg; lia.
Qed.

Lemma pix_le_bytes n v : pix n (le_bytes n v) 0 = v mod 256 ^ Z.of_nat n.
Proof. unfold pix. rewrite Nat.mul_0_r, drop_0, take_ge by (rewrite length_le_bytes; lia). apply le_value_bytes. Qed.

(** ** Raster operations as truth tables *)

(** The operation with the table [code]: bit [4 * P + 2 * S + D] of the code is
    the result for these bits of pattern, source and destination. *)
Definition minterm (i S P D : Z) : Z :=
  let literal (b v : Z) := if Z.testbit i b then v else Z.lnot v in
  Z.land (literal 2 P) (Z.land (literal 1 S) (literal 0 D)).
Definition raster (code S P D : Z) : Z :=
  foldr (fun i v => if Z.testbit code i then Z.lor (minterm i S P D) v else v) 0 [0; 1; 2; 3; 4; 5; 6; 7].

Lemma raster_bits code S P D i : 0 <= i ->
  Z.testbit (raster code S P D) i =
  Z.testbit code (4 * Z.b2z (Z.testbit P i) + 2 * Z.b2z (Z.testbit S i) + Z.b2z (Z.testbit D i)).
Proof.
  intros Hi. unfold raster. cbn [foldr].
  change (minterm 0 S P D) with (Z.land (Z.lnot P) (Z.land (Z.lnot S) (Z.lnot D))).
  change (minterm 1 S P D) with (Z.land (Z.lnot P) (Z.land (Z.lnot S) D)).
  change (minterm 2 S P D) with (Z.land (Z.lnot P) (Z.land S (Z.lnot D))).
  change (minterm 3 S P D) with (Z.land (Z.lnot P) (Z.land S D)).
  change (minterm 4 S P D) with (Z.land P (Z.land (Z.lnot S) (Z.lnot D))).
  change (minterm 5 S P D) with (Z.land P (Z.land (Z.lnot S) D)).
  change (minterm 6 S P D) with (Z.land P (Z.land S (Z.lnot D))).
  change (minterm 7 S P D) with (Z.land P (Z.land S D)).
  destruct (Z.testbit code 0) eqn:E0, (Z.testbit code 1) eqn:E1, (Z.testbit code 2) eqn:E2, (Z.testbit code 3) eqn:E3,
    (Z.testbit code 4) eqn:E4, (Z.testbit code 5) eqn:E5, (Z.testbit code 6) eqn:E6, (Z.testbit code 7) eqn:E7;
    rewrite ?Z.lor_spec, ?Z.land_spec, ?Z.lnot_spec, ?Z.bits_0 by exact Hi;
    destruct (Z.testbit P i), (Z.testbit S i), (Z.testbit D i);
    match goal with |- _ = Z.testbit code ?e => let v := eval vm_compute in e in change e with v end;
    rewrite ?E0, ?E1, ?E2, ?E3, ?E4, ?E5, ?E6, ?E7; reflexivity.
Qed.

(** ** Loops *)

Fixpoint each (l : list Z) (body : Z -> M gdi unit) : M gdi unit :=
  match l with [] => ret tt | i :: l' => body i;; each l' body end.

Lemma bind_cong {S A B} (c : M S A) (k h : A -> M S B) s : (forall a s', k a s' = h a s') -> bind c k s = bind c h s.
Proof. intros H. unfold bind. destruct (c s) as [[a s']|f]; [apply H|reflexivity]. Qed.

Lemma count_up_each k : forall i body s, count_up k i body s = each (seqZ i (Z.of_nat k)) body s.
Proof.
  induction k as [|k IH]; intros i body s; cbn [count_up]; [reflexivity|].
  rewrite seqZ_cons by lia. cbn [each]. apply bind_cong. intros _ s'. rewrite IH. do 2 f_equal; lia.
Qed.

Lemma for_up_each n body s : for_up n body s = each (seqZ 0 n) body s.
Proof.
  unfold for_up. rewrite count_up_each. destruct (Z.leb_spec 0 n); [rewrite Z2Nat.id by lia; reflexivity|].
  rewrite !seqZ_nil by lia. reflexivity.
Qed.

Lemma for_down_each n body s : for_down n body s = each (reverse (seqZ 0 n)) body s.
Proof.
  unfold for_down. destruct (Z.leb_spec 0 n) as [Hn|Hn]; [|rewrite seqZ_nil by lia; destruct n; [lia|lia|reflexivity] ].
  rewrite <- (Z2Nat.id n) at 2 by lia. generalize (Z.to_nat n) as k. clear Hn. revert s.
  assert (H : forall k s, count_down k body s = each (reverse (seqZ 0 (Z.of_nat k))) body s); [|intros s k; apply H].
  induction k as [|k IH]; intros s; [reflexivity|]. cbn [count_down].
  rewrite Nat2Z.inj_succ, <- Z.add_1_r, seqZ_app by lia. cbn [seqZ Z.to_nat Pos.to_nat Pos.iter_op seq fmap list_fmap].
  rewrite reverse_app. rewrite (seqZ_cons (0 + Z.of_nat k) 1), seqZ_nil by lia. cbn [reverse rev_append app each].
  apply bind_cong. intros _ s'. apply IH.
Qed.

Section Painting.
Context (n : nat) (Hn : n <> 0%nat) (s0 : gdi) (db : nat) (m : GDI_BITMAP) (Hm : store s0 !! db = Some m).

(** The state in which the picture of bitmap [db] has the bytes [d]. *)
Definition view (d : list Z) : gdi := mkGdi (dc s0) (<[db := m <| bmp_data := d |>]> (store s0)).

Lemma view_same : view (bmp_data m) = s0.
Proof. unfold view. rewrite list_insert_id by (destruct m; exact Hm). destruct s0. reflexivity. Qed.

Lemma bitmap_view d : bitmap_at db (view d) = Done (m <| bmp_data := d |>, view d).
Proof. unfold bitmap_at. cbn [view store]. rewrite list_lookup_insert_eq by (apply lookup_lt_Some in Hm; exact Hm). reflexivity. Qed.

Lemma bitmap_other b d : b <> db -> bitmap_at b (view d) = match store s0 !! b with Some x => Done (x, view d) | None => Fault NullPointer end.
Proof. intros Hb. unfold bitmap_at. cbn [view store]. rewrite list_lookup_insert_ne by congruence. reflexivity. Qed.

Lemma write_view p bytes d : 0 <= p -> p + len bytes <= len d -> write_bytes db p bytes (view d) = Done (tt, view (splice (Z.to_nat p) bytes d)).
Proof.
  intros Hp Hl. unfold write_bytes. rewrite (bind_Done _ _ _ _ _ (bitmap_view d)).
  change (bmp_data (m <| bmp_data := d |>)) with d. rewrite (proj2 (Z.leb_le _ _) Hp), (proj2 (Z.leb_le _ _) Hl). cbn [andb].
  unfold put_data. cbn [view store dc]. rewrite list_lookup_insert_eq by (apply lookup_lt_Some in Hm; exact Hm).
  unfold view. do 2 f_equal. cbn [apply_update]. unfold constant. f_equal. apply list_insert_insert_eq.
Qed.

Lemma load_view q d : (n * (q + 1) <= length d)%nat -> load n db (Z.of_nat (n * q)) (view d) = Done (pix n d q, view d).
Proof.
  intros Hq. unfold load. rewrite (bind_Done _ _ _ _ _ (bitmap_view d)). change (bmp_data (m <| bmp_data := d |>)) with d.
  rewrite (proj2 (Z.leb_le _ _)), (proj2 (Z.leb_le _ _)) by (unfold len; lia). rewrite Nat2Z.id. reflexivity.
Qed.

(** [c] changes the pixels of the picture, [N] in number, by [F]. *)
Definition Paints (N : nat) (c : M gdi unit) (F : nat -> Z -> Z) : Prop :=
  forall d, length d = (n * N)%nat -> exists d', c (view d) = Done (tt, view d') /\ length d' = (n * N)%nat /\
    forall q, (q < N)%nat -> pix n d' q = F q (pix n d q).

Lemma Paints_ret N : Paints N (ret tt) (fun q v => v).
Proof. intros d Hd. exists d. auto. Qed.

Lemma Paints_seq N c c' F F' : Paints N c F -> Paints N c' F' -> Paints N (c;; c') (fun q v => F' q (F q v)).
Proof.
  intros H H' d Hd. destruct (H d Hd) as (d1 & E & Hl & Hq). destruct (H' d1 Hl) as (d2 & E' & Hl' & Hq').
  exists d2. split; [rewrite (bind_Done _ _ _ _ _ E); exact E'|]. split; [exact Hl'|].
  intros q Hlt. rewrite (Hq' q Hlt), (Hq q Hlt). reflexivity.
Qed.

Lemma Paints_ext N c F F' : Paints N c F -> (forall q v, (q < N)%nat -> F q v = F' q v) -> Paints N c F'.
Proof.
  intros H Heq d Hd. destruct (H d Hd) as (d' & E & Hl & Hq). exists d'. split; [exact E|]. split; [exact Hl|].
  intros q Hlt. rewrite (Hq q Hlt). apply Heq, Hlt.
Qed.

Lemma Paints_eq N c c' F : Paints N c F -> (forall d, length d = (n * N)%nat -> c' (view d) = c (view d)) -> Paints N c' F.
Proof. intros H Heq d Hd. destruct (H d Hd) as (d' & E & Hl & Hq). exists d'. rewrite (Heq d Hd). auto. Qed.

(** A block of [k] pixels at [q0] is overwritten by [k] pixels. *)
Lemma Paints_write N q0 k bytes c : (q0 + k <= N)%nat ->
  (forall d, length d = (n * N)%nat -> length (bytes d) = (n * k)%nat /\ c (view d) = write_bytes db (Z.of_nat (n * q0)) (bytes d) (view d)) ->
  forall F, (forall d q, length d = (n * N)%nat -> (q < N)%nat ->
    (if decide (q0 <= q < q0 + k)%nat then pix n (bytes d) (q - q0) else pix n d q) = F q (pix n d q)) -> Paints N c F.
Proof.
  intros Hk Hc F HF d Hd. destruct (Hc d Hd) as [Hb E]. exists (splice (n * q0) (bytes d) d). split; [|split].
  - rewrite E, write_view by (unfold len; nia). rewrite Nat2Z.id. reflexivity.
  - rewrite length_splice by nia. exact Hd.
  - intros q Hq. rewrite (pix_splice n q0 k) by nia. apply HF; assumption.
Qed.

(** Parts that touch different pixels, one after the other. *)
Lemma Paints_each N (body : Z -> M gdi unit) (touches : Z -> nat -> bool) (G : nat -> Z -> Z) l :
  Forall (fun i => Paints N (body i) (fun q v => if touches i q then G q v else v)) l -> NoDup l ->
  (forall i j q, i ∈ l -> j ∈ l -> touches i q = true -> touches j q = true -> i = j) ->
  Paints N (each l body) (fun q v => if existsb (fun i => touches i q) l then G q v else v).
Proof.
  induction l as [|i l IH]; intros Hb Hnd Hdis; cbn [each existsb]; [apply Paints_ret|].
  apply Forall_cons in Hb as [Hi Hl]. apply NoDup_cons in Hnd as [Hni Hnd].
  eapply Paints_ext; [apply Paints_seq; [exact Hi|apply IH; [exact Hl|exact Hnd|]]|].
  - intros j k q Hj Hk. apply Hdis; right; assumption.
  - intros q v Hq. cbv beta. destruct (touches i q) eqn:Ei; cbn [orb]; [|reflexivity].
    destruct (existsb (fun j => touches j q) l) eqn:Ex; [|reflexivity].
    apply existsb_exists in Ex as (j & Hj & Ej). exfalso. apply Hni. apply list_elem_of_In in Hj.
    rewrite (Hdis i j q); [exact Hj|left|right; exact Hj|exact Ei|exact Ej].
Qed.

End Painting.

(** ** Areas of a picture *)

(** Column and row of pixel [q] in a picture of width [W]. *)
Definition col (W : Z) (q : nat) : Z := Z.of_nat q mod W.
Definition row (W : Z) (q : nat) : Z := Z.of_nat q / W.
Definition in_row (W X w y : Z) (q : nat) : bool := (X <=? col W q) && (col W q <? X + w) && (row W q =? y).
Definition in_box (W X Y w h : Z) (q : nat) : bool :=
  (X <=? col W q) && (col W q <? X + w) && (Y <=? row W q) && (row W q <? Y + h).

Lemma col_row W q x y : 0 < W -> 0 <= x < W -> Z.of_nat q = y * W + x <-> col W q = x /\ row W q = y.
Proof.
  intros HW Hx. unfold col, row. pose proof (Z.div_mod (Z.of_nat q) W ltac:(lia)). split.
  - intros ->. rewrite Z.add_comm, Z.mod_add, Z.div_add, Z.mod_small, Z.div_small by lia. split; lia.
  - intros [<- <-]. lia.
Qed.

Lemma row_pixels W X w y q : 0 < W -> 0 <= X -> X + w <= W ->
  existsb (fun x => Z.of_nat q =? y * W + (X + x)) (seqZ 0 w) = in_row W X w y q.
Proof.
  intros HW HX Hw. apply Bool.eq_iff_eq_true. rewrite existsb_exists. unfold in_row. split.
  - intros (x & Hx & E). apply list_elem_of_In, elem_of_seqZ in Hx. apply Z.eqb_eq in E.
    apply col_row in E as [Ec Er]; [|lia..]. rewrite Ec, Er, Z.eqb_refl, (proj2 (Z.leb_le _ _)), (proj2 (Z.ltb_lt _ _)) by lia. reflexivity.
  - intros H. apply andb_true_iff in H as [H Hr]. apply andb_true_iff in H as [H1 H2].
    apply Z.leb_le in H1. apply Z.ltb_lt in H2. apply Z.eqb_eq in Hr. exists (col W q - X).
    split; [apply list_elem_of_In, elem_of_seqZ; lia|]. apply Z.eqb_eq. apply col_row; [lia| |split; lia].
    pose proof (Z.mod_pos_bound (Z.of_nat q) W HW). unfold col. lia.
Qed.

Lemma box_rows W X Y w h q : existsb (fun y => in_row W X w (Y + y) q) (seqZ 0 h) = in_box W X Y w h q.
Proof.
  apply Bool.eq_iff_eq_true. rewrite existsb_exists. unfold in_row, in_box. rewrite !andb_true_iff, !Z.leb_le, !Z.ltb_lt. split.
  - intros (y & Hy & E). apply list_elem_of_In, elem_of_seqZ in Hy. rewrite !andb_true_iff, !Z.leb_le, !Z.ltb_lt, Z.eqb_eq in E. lia.
  - intros H. exists (row W q - Y). split; [apply list_elem_of_In, elem_of_seqZ; lia|].
    rewrite !andb_true_iff, !Z.leb_le, !Z.ltb_lt, Z.eqb_eq. lia.
Qed.

Section Drawing.
Context (n : nat) (Hn : n <> 0%nat) (s0 : gdi) (db : nat) (m : GDI_BITMAP) (Hm : store s0 !! db = Some m).

(** The picture of the bitmap that is drawn into. *)
Record canvas (N : nat) : Prop := {
  cv_selected : selectedObject (dc s0) = Some db;
  cv_bytes : bytesPerPixel (dc s0) = Z.of_nat n;
  cv_width : 0 < bmp_width m;
  cv_pixels : Z.of_nat N = bmp_width m * bmp_height m;
}.

Context (N : nat) (Hcv : canvas N) (X Y w h : Z) (HX : 0 <= X) (HXw : X + w <= bmp_width m) (HY : 0 <= Y) (HYh : Y + h <= bmp_height m).
Local Notation "'W'" := (bmp_width m).
Local Notation "'vw'" := (view s0 db m).

Lemma dest_pointer d y : 0 < w -> 0 <= y < h ->
  gdi_get_bitmap_pointer (dc s0) X (Y + y) (vw d) = Done (Some (Z.of_nat n * ((Y + y) * W + X)), vw d).
Proof.
  intros Hw Hy. destruct Hcv as [Hsel Hby HW HN]. unfold gdi_get_bitmap_pointer, selected. rewrite Hsel.
  rewrite bind_ret, (bind_Done _ _ _ _ _ (bitmap_view s0 db m Hm d)).
  change (bmp_width (m <| bmp_data := d |>)) with W. change (bmp_height (m <| bmp_data := d |>)) with (bmp_height m).
  rewrite (proj2 (Z.leb_le 0 X)), (proj2 (Z.ltb_lt X W)), (proj2 (Z.leb_le 0 (Y + y))), (proj2 (Z.ltb_lt (Y + y) (bmp_height m))) by lia.
  cbn [andb]. unfold ret. do 3 f_equal. rewrite Hby. ring.
Qed.

Lemma pixel_index y x : 0 <= x < w -> 0 <= y < h -> 0 <= (Y + y) * W + (X + x) < Z.of_nat N.
Proof. intros Hx Hy. destruct Hcv as [_ _ HW HN]. rewrite HN. nia. Qed.

(** What the operation finds in the pattern and in the source. *)
Context (pv sv : Z -> Z -> Z).

Definition finds_pattern (pat : bool) : Prop := pat = true -> forall d x y, 0 <= x < w -> 0 <= y < h ->
  (let! p := gdi_get_brush_pointer (dc s0) x y in load_brush n p) (vw d) = Done (pv x y, vw d).

Definition finds_source (srcp : nat * option Z) (y : Z) : Prop := forall d x, 0 <= x < w -> load_source n srcp x (vw d) = Done (sv x y, vw d).

Definition painted (f : Z -> Z -> Z -> Z) (q : nat) (v : Z) : Z :=
  f (sv (col W q - X) (row W q - Y)) (pv (col W q - X) (row W q - Y)) v mod 256 ^ Z.of_nat n.

Lemma pixel_paints srcp pat f y x : finds_pattern pat -> (srcp = None /\ (forall s s' p v, f s p v = f s' p v) \/ exists q, srcp = Some q /\ finds_source q y) ->
  (pat = false -> forall s p p' v, f s p v = f s p' v) -> 0 <= x < w -> 0 <= y < h ->
  Paints n s0 db m N (rop_pixel n db (Z.of_nat n * ((Y + y) * W + X)) srcp pat f y x)
    (fun q v => if Z.of_nat q =? (Y + y) * W + (X + x) then painted f q v else v).
Proof.
  intros HP HS Hpat Hx Hy. pose proof (pixel_index y x Hx Hy) as Hq. set (q0 := Z.to_nat ((Y + y) * W + (X + x))).
  assert (Hq0 : Z.of_nat q0 = (Y + y) * W + (X + x)) by (unfold q0; lia).
  assert (Hp : Z.of_nat n * ((Y + y) * W + X) + Z.of_nat n * x = Z.of_nat (n * q0)) by lia.
  assert (Hcr : col W q0 = X + x /\ row W q0 = Y + y) by (apply col_row; [apply Hcv|lia|exact Hq0]). destruct Hcr as [Hc Hr].
  apply (Paints_write n Hn s0 db m Hm N q0 1 (fun d => le_bytes n (f (sv x y) (pv x y) (pix n d q0)))); [lia| |].
  - intros d Hd. split; [rewrite length_le_bytes; lia|]. unfold rop_pixel. change (bind get_dc ?k (vw d)) with (k (dc s0) (vw d)).
    assert (EP : exists p, (if pat then let! p := gdi_get_brush_pointer (dc s0) x y in load_brush n p else ret 0) (vw d) = Done (p, vw d) /\
      forall s v, f s p v = f s (pv x y) v).
    { destruct pat; [exists (pv x y); split; [apply HP; auto|reflexivity]|exists 0; split; [reflexivity|intros; apply Hpat; reflexivity]]. }
    destruct EP as (p & EP & Fp). rewrite (bind_Done _ _ _ _ _ EP).
    assert (ES : exists s, match srcp with Some q => load_source n q x | None => ret 0 end (vw d) = Done (s, vw d) /\ forall p v, f s p v = f (sv x y) p v).
    { destruct HS as [[-> Hs]|(q & -> & Hs)]; [exists 0; split; [reflexivity|intros; apply Hs]|exists (sv x y); split; [apply Hs, Hx|reflexivity]]. }
    destruct ES as (s & ES & Fs). rewrite (bind_Done _ _ _ _ _ ES). rewrite Hp, (bind_Done _ _ _ _ _ (load_view n Hn s0 db m Hm q0 d ltac:(nia))).
    unfold save. rewrite Fs, Fp. reflexivity.
  - intros d q Hd Hlt. cbv beta. destruct (Z.eqb_spec (Z.of_nat q) ((Y + y) * W + (X + x))) as [E|E].
    + assert (q = q0) as -> by lia. rewrite decide_True by lia. rewrite Nat.sub_diag, pix_le_bytes. unfold painted. rewrite Hc, Hr. do 3 f_equal; lia.
    + rewrite decide_False by lia. reflexivity.
Qed.

Lemma row_paints srcp pat f y : finds_pattern pat -> (srcp = None /\ (forall s s' p v, f s p v = f s' p v) \/ exists q, srcp = Some q /\ finds_source q y) ->
  (pat = false -> forall s p p' v, f s p v = f s p' v) -> 0 <= y < h ->
  Paints n s0 db m N (for_up w (rop_pixel n db (Z.of_nat n * ((Y + y) * W + X)) srcp pat f y))
    (fun q v => if in_row W X w (Y + y) q then painted f q v else v).
Proof.
  intros HP HS Hpat Hy. destruct Hcv as [_ _ HW _].
  eapply Paints_eq; [|intros d Hd; apply for_up_each].
  eapply Paints_ext; [apply (Paints_each n s0 db m N _ (fun x q => Z.of_nat q =? (Y + y) * W + (X + x)) (painted f))|].
  - apply Forall_forall. intros x Hx. apply elem_of_seqZ in Hx. apply pixel_paints; auto; lia.
  - apply NoDup_seqZ.
  - intros i j q _ _ Hi Hj. apply Z.eqb_eq in Hi, Hj. lia.
  - intros q v Hq. cbv beta. rewrite row_pixels by lia. reflexivity.
Qed.

(** [c] draws [f] in the whole area and returns [0]. *)
Definition Draws (c : M gdi Z) (f : Z -> Z -> Z -> Z) : Prop :=
  forall d, length d = (n * N)%nat -> exists d', c (vw d) = Done (0, vw d') /\ length d' = (n * N)%nat /\
    forall q, (q < N)%nat -> pix n d' q = if in_box W X Y w h q then painted f q (pix n d q) else pix n d q.

Lemma rows_draw body f c : (forall y, 0 <= y < h -> Paints n s0 db m N (body y) (fun q v => if in_row W X w (Y + y) q then painted f q v else v)) ->
  (forall d, c (vw d) = (for_up h body;; ret 0) (vw d)) -> Draws c f.
Proof.
  intros Hrow Hc d Hd.
  assert (HP : Paints n s0 db m N (for_up h body) (fun q v => if in_box W X Y w h q then painted f q v else v)).
  { eapply Paints_eq; [|intros d1 Hd1; apply for_up_each].
    eapply Paints_ext; [apply (Paints_each n s0 db m N _ (fun y q => in_row W X w (Y + y) q) (painted f))|].
    - apply Forall_forall. intros y Hy. apply elem_of_seqZ in Hy. apply Hrow. lia.
    - apply NoDup_seqZ.
    - intros i j q _ _ Hi Hj. unfold in_row in Hi, Hj. apply andb_true_iff in Hi as [_ Hi], Hj as [_ Hj]. apply Z.eqb_eq in Hi, Hj. lia.
    - intros q v Hq. cbv beta. rewrite box_rows. reflexivity. }
  destruct (HP d Hd) as (d' & E & Hl & Hq). exists d'. split; [rewrite Hc, (bind_Done _ _ _ _ _ E); reflexivity|]. split; [exact Hl|exact Hq].
Qed.

Lemma in_box_pixel q : in_box W X Y w h q = true -> 0 <= col W q - X < w /\ 0 <= row W q - Y < h.
Proof. clear. unfold in_box. rewrite !andb_true_iff, !Z.leb_le, !Z.ltb_lt. lia. Qed.

Lemma Draws_ext c f g : Draws c f -> (forall x y v, 0 <= x < w -> 0 <= y < h -> f (sv x y) (pv x y) v = g (sv x y) (pv x y) v) -> Draws c g.
Proof.
  intros H Hfg d Hd. destruct (H d Hd) as (d' & E & Hl & Hq). exists d'. split; [exact E|]. split; [exact Hl|].
  intros q Hlt. rewrite (Hq q Hlt). destruct (in_box W X Y w h q) eqn:Eb; [|reflexivity].
  apply in_box_pixel in Eb as [Hc Hr]. unfold painted. rewrite Hfg by assumption. reflexivity.
Qed.

Definition finds_row (src : source) : Prop := forall y, 0 <= y < h ->
  exists r, (forall d, source_pointer src y (vw d) = Done (r, vw d)) /\ finds_source r y.

Context (Hw : 0 < w).

Lemma rop_draws src pat f : finds_pattern pat -> (match src with Some q => finds_row q | None => forall s s' p v, f s p v = f s' p v end) ->
  (pat = false -> forall s p p' v, f s p v = f s p' v) -> Draws (rop_blit n src pat f X Y w h) f.
Proof.
  intros HP HS Hpat. eapply (rows_draw (fun y =>
    let! srcp := match src with Some q => let! p := source_pointer q y in ret (Some p) | None => ret None end in
    let! db := selected (dc s0) in
    let! dstp := gdi_get_bitmap_pointer (dc s0) X (Y + y) in
    match dstp with Some p => for_up w (rop_pixel n db p srcp pat f y) | None => ret tt end)); [|intros d; reflexivity].
  intros y Hy.
  assert (Hr : exists srcp, (forall d, match src with Some q => let! p := source_pointer q y in ret (Some p) | None => ret None end (vw d) = Done (srcp, vw d)) /\
    (srcp = None /\ (forall s s' p v, f s p v = f s' p v) \/ exists q, srcp = Some q /\ finds_source q y)).
  { destruct src as [q|]; [|exists None; split; [reflexivity|left; split; [reflexivity|exact HS]]].
    destruct (HS y Hy) as (r & E & Hr). exists (Some r). split; [|right; exists r; split; [reflexivity|exact Hr]].
    intros d. rewrite (bind_Done _ _ _ _ _ (E d)). reflexivity. }
  destruct Hr as (srcp & E & Hr). eapply Paints_eq; [apply (row_paints srcp pat f y); assumption|].
  intros d Hd. rewrite (bind_Done _ _ _ _ _ (E d)). unfold selected. rewrite (cv_selected _ Hcv), bind_ret.
  rewrite (bind_Done _ _ _ _ _ (dest_pointer d y Hw Hy)). reflexivity.
Qed.

(** A row of [w] pixels overwritten. *)
Lemma row_write y bytes c f : 0 <= y < h -> length bytes = (n * Z.to_nat w)%nat ->
  (forall d, length d = (n * N)%nat -> c (vw d) = write_bytes db (Z.of_nat n * ((Y + y) * W + X)) bytes (vw d)) ->
  (forall x v, (x < Z.to_nat w)%nat -> pix n bytes x = f (sv (Z.of_nat x) y) (pv (Z.of_nat x) y) v mod 256 ^ Z.of_nat n) ->
  Paints n s0 db m N c (fun q v => if in_row W X w (Y + y) q then painted f q v else v).
Proof.
  intros Hy Hb Hc Hf. destruct Hcv as [_ _ HW HN].
  pose proof (pixel_index y 0 ltac:(lia) Hy) as Hq. pose proof (pixel_index y (w - 1) ltac:(lia) Hy) as Hq1.
  set (q0 := Z.to_nat ((Y + y) * W + X)). assert (Hq0 : Z.of_nat q0 = (Y + y) * W + X) by lia.
  apply (Paints_write n Hn s0 db m Hm N q0 (Z.to_nat w) (fun _ => bytes)); [lia| |].
  - intros d Hd. split; [exact Hb|]. rewrite (Hc d Hd). f_equal; lia.
  - intros d q Hd Hlt. destruct (decide _) as [Hin|Hout].
    + assert (Hcr : col W q = X + Z.of_nat (q - q0) /\ row W q = Y + y) by (apply col_row; lia). destruct Hcr as [Hcol Hrow].
      unfold in_row. rewrite Hcol, Hrow, Z.eqb_refl, (proj2 (Z.leb_le _ _)), (proj2 (Z.ltb_lt _ _)) by lia. cbn [andb].
      rewrite (Hf _ (pix n d q)) by lia. unfold painted. rewrite Hcol, Hrow. do 3 f_equal; lia.
    + replace (in_row W X w (Y + y) q) with false; [reflexivity|]. symmetry. apply not_true_iff_false. intros Hr. apply Hout.
      unfold in_row in Hr. rewrite !andb_true_iff, Z.leb_le, Z.ltb_lt, Z.eqb_eq in Hr. destruct Hr as [[Hr1 Hr2] Hr3].
      assert (Z.of_nat q = (Y + y) * W + col W q) by (apply col_row; [lia| |auto]; unfold col; apply Z.mod_pos_bound; lia). lia.
Qed.

Lemma fill_draws v f : (forall s p d, f s p d mod 256 ^ Z.of_nat n = le_value (replicate n v)) -> Draws (fill_rows v X Y w h) f.
Proof.
  intros Hf. eapply (rows_draw (fun y => let! db := selected (dc s0) in
    let! dstp := gdi_get_bitmap_pointer (dc s0) X (Y + y) in
    match dstp with Some p => memset db p v (w * bytesPerPixel (dc s0)) | None => ret tt end)); [|intros d; reflexivity].
  intros y Hy. apply (row_write y (replicate (n * Z.to_nat w) v)); [exact Hy|apply length_replicate| |].
  - intros d Hd. unfold selected. rewrite (cv_selected _ Hcv), bind_ret, (bind_Done _ _ _ _ _ (dest_pointer d y Hw Hy)).
    unfold memset. rewrite (cv_bytes _ Hcv), (proj2 (Z.ltb_ge _ _)) by lia. do 2 f_equal. lia.
  - intros x u Hx. rewrite Hf. unfold pix. f_equal. rewrite drop_replicate, take_replicate. f_equal. nia.
Qed.

Lemma copy_draws hdcSrc sx sy sb ms f : selectedObject hdcSrc = Some sb -> sb <> db -> store s0 !! sb = Some ms ->
  bytesPerPixel hdcSrc = Z.of_nat n -> 0 <= sx -> sx + w <= bmp_width ms -> 0 <= sy -> sy + h <= bmp_height ms ->
  length (bmp_data ms) = (n * Z.to_nat (bmp_width ms * bmp_height ms))%nat ->
  (forall x y p v, 0 <= x < w -> 0 <= y < h -> f (sv x y) p v mod 256 ^ Z.of_nat n = pix n (bmp_data ms) (Z.to_nat ((sy + y) * bmp_width ms + (sx + x)))) ->
  Draws (BitBlt_SRCCOPY X Y w h (Some hdcSrc, sx, sy)) f.
Proof.
  intros Hsel Hne Hms Hby Hsx Hsw Hsy Hsh Hl Hf. eapply (rows_draw (copy_row memcpy hdcSrc X Y w sx sy)).
  2:{ intros d. unfold BitBlt_SRCCOPY. change (bind get_dc ?k (vw d)) with (k (dc s0) (vw d)).
      rewrite Hsel, (cv_selected _ Hcv), bool_decide_eq_true_2 by congruence. reflexivity. }
  intros y Hy. set (q := Z.to_nat ((sy + y) * bmp_width ms + sx)).
  assert (Hq : Z.of_nat q = (sy + y) * bmp_width ms + sx) by (unfold q; nia).
  assert (Hfit : (q + Z.to_nat w <= Z.to_nat (bmp_width ms * bmp_height ms))%nat) by nia.
  apply (row_write y (take (n * Z.to_nat w) (drop (n * q) (bmp_data ms)))); [exact Hy|rewrite length_take, length_drop; nia| |].
  - intros d Hd. unfold copy_row. change (bind get_dc ?k (vw d)) with (k (dc s0) (vw d)). cbv beta.
    unfold selected. rewrite Hsel, bind_ret, (cv_selected _ Hcv), bind_ret.
    assert (Ep : gdi_get_bitmap_pointer hdcSrc sx (sy + y) (vw d) = Done (Some (Z.of_nat (n * q)), vw d)).
    { unfold gdi_get_bitmap_pointer, selected. rewrite Hsel, bind_ret. pose proof (bitmap_other s0 db m sb d Hne) as Eb. rewrite Hms in Eb.
      rewrite (bind_Done _ _ _ _ _ Eb), (proj2 (Z.leb_le 0 sx)), (proj2 (Z.ltb_lt sx _)), (proj2 (Z.leb_le 0 (sy + y))), (proj2 (Z.ltb_lt (sy + y) _)) by lia.
      cbn [andb]. unfold ret. do 3 f_equal. rewrite Hby. nia. }
    rewrite (bind_Done _ _ _ _ _ Ep), (bind_Done _ _ _ _ _ (dest_pointer d y Hw Hy)).
    unfold memcpy. rewrite (proj2 (Nat.eqb_neq db sb)) by congruence. cbn [andb]. unfold memmove.
    rewrite (cv_bytes _ Hcv), (proj2 (Z.ltb_ge _ _)) by lia. pose proof (bitmap_other s0 db m sb d Hne) as Eb. rewrite Hms in Eb.
    rewrite (bind_Done _ _ _ _ _ Eb), (proj2 (Z.leb_le 0 _)), (proj2 (Z.leb_le _ _)) by (unfold len; nia). cbn [andb]. rewrite Nat2Z.id. do 3 f_equal. lia.
  - intros x v Hx. rewrite pix_take_drop, Hf by lia. f_equal. lia.
Qed.

End Drawing.

(** ** Sources and patterns *)

(** A picture of [n] bytes per pixel, all its rows in its data. *)
Record picture (n : nat) (m : GDI_BITMAP) : Prop := {
  pc_width : 0 < bmp_width m;
  pc_height : 0 < bmp_height m;
  pc_data : length (bmp_data m) = (n * Z.to_nat (bmp_width m * bmp_height m))%nat;
}.

Definition pixel_at (n : nat) (m : GDI_BITMAP) (x y : Z) : Z := pix n (bmp_data m) (Z.to_nat (y * bmp_width m + x)).

(** The source of a transfer is another bitmap, and holds the whole area. *)
Record source_ready (n : nat) (s : gdi) (hdcSrc : GDI_DC) (sx sy w h : Z) (sb : nat) (ms : GDI_BITMAP) : Prop := {
  sr_selected : selectedObject hdcSrc = Some sb;
  sr_other : selectedObject (dc s) <> Some sb;
  sr_bitmap : store s !! sb = Some ms;
  sr_bytes : bytesPerPixel hdcSrc = Z.of_nat n;
  sr_picture : picture n ms;
  sr_left : 0 <= sx;
  sr_right : sx + w <= bmp_width ms;
  sr_top : 0 <= sy;
  sr_bottom : sy + h <= bmp_height ms;
  sr_data : Forall is_byte (bmp_data ms);
}.

(** A brush with a pattern has a bitmap of the same depth. *)
Definition brush_ready (n : nat) (s : gdi) : Prop :=
  match brush (dc s) with
  | Some br => brush_style br = GDI_BS_PATTERN ->
      selectedObject (dc s) <> Some (pattern br) /\
      exists mp, store s !! pattern br = Some mp /\ picture n mp /\ bmp_bytesPerPixel mp = Z.of_nat n /\ scanline mp = Z.of_nat n * bmp_width mp
  | None => True
  end.

(** The pattern at a place: a pixel of the bitmap of the brush, repeated, or the
    text colour. *)
Definition brush_pixel (n : nat) (s : gdi) (x y : Z) : Z :=
  let text := textColor (dc s) mod 256 ^ Z.of_nat n in
  match brush (dc s) with
  | Some br =>
      if brush_style br =? GDI_BS_PATTERN
      then match store s !! pattern br with Some mp => pixel_at n mp (x mod bmp_width mp) (y mod bmp_height mp) | None => 0 end
      else text
  | None => text
  end.

Lemma le_value_bound bs : Forall is_byte bs -> 0 <= le_value bs < 256 ^ Z.of_nat (length bs).
Proof.
  induction 1 as [|b bs Hb _ IH]; cbn [le_value length]; [cbn; lia|]. rewrite pow256_S. unfold is_byte in Hb. lia.
Qed.

Lemma pix_bound n d q : Forall is_byte d -> 0 <= pix n d q < 256 ^ Z.of_nat n.
Proof.
  intros Hd. unfold pix. pose proof (le_value_bound (take n (drop (n * q) d)) ltac:(apply Forall_take, Forall_drop, Hd)) as Hb.
  assert (256 ^ Z.of_nat (length (take n (drop (n * q) d))) <= 256 ^ Z.of_nat n)
    by (apply Z.pow_le_mono_r; [lia|rewrite length_take; lia]). lia.
Qed.

Section Inputs.
Context (n : nat) (s0 : gdi) (db : nat) (m : GDI_BITMAP) (Hm : store s0 !! db = Some m).
Context (Hsel : selectedObject (dc s0) = Some db).
Local Notation "'vw'" := (view s0 db m).

(** A pixel of a bitmap that is not drawn into. *)
Lemma load_other b mb x y d : b <> db -> store s0 !! b = Some mb -> picture n mb -> 0 <= x < bmp_width mb -> 0 <= y < bmp_height mb ->
  load n b (Z.of_nat n * (y * bmp_width mb + x)) (vw d) = Done (pixel_at n mb x y, vw d).
Proof.
  intros Hb Hmb [HW HH Hd] Hx Hy. unfold load. pose proof (bitmap_other s0 db m b d Hb) as Eb. rewrite Hmb in Eb.
  assert (Hq : 0 <= y * bmp_width mb + x < bmp_width mb * bmp_height mb) by nia.
  rewrite (bind_Done _ _ _ _ _ Eb). rewrite (proj2 (Z.leb_le _ _)), (proj2 (Z.leb_le _ _)) by (unfold len; nia). cbn [andb].
  unfold ret, pixel_at, pix. do 5 f_equal. nia.
Qed.

Lemma source_finds hdcSrc sx sy w h sb ms : source_ready n s0 hdcSrc sx sy w h sb ms -> 0 < w ->
  finds_row n s0 db m w h (fun x y => pixel_at n ms (sx + x) (sy + y)) (Some hdcSrc, sx, sy).
Proof.
  intros [Hs Ho Hb Hby Hp H1 H2 H3 H4 _] Hw y Hy. assert (Hne : sb <> db) by congruence.
  exists (sb, Some (Z.of_nat n * ((sy + y) * bmp_width ms + sx))). split.
  - intros d. cbn [source_pointer]. unfold gdi_get_bitmap_pointer, selected. rewrite Hs, bind_ret, bind_assoc, bind_ret. pose proof (bitmap_other s0 db m sb d Hne) as Eb. rewrite Hb in Eb.
    rewrite bind_assoc, (bind_Done _ _ _ _ _ Eb), bind_ret, (proj2 (Z.leb_le 0 sx)), (proj2 (Z.ltb_lt sx _)), (proj2 (Z.leb_le 0 (sy + y))), (proj2 (Z.ltb_lt (sy + y) _)) by lia.
    cbn [andb]. unfold ret. do 4 f_equal. rewrite Hby. ring.
  - intros d x Hx. unfold load_source. cbn [snd fst].
    replace (Z.of_nat n * ((sy + y) * bmp_width ms + sx) + Z.of_nat n * x) with (Z.of_nat n * ((sy + y) * bmp_width ms + (sx + x))) by ring.
    apply load_other; [exact Hne|exact Hb|exact Hp|lia|lia].
Qed.

Lemma brush_finds w h pat : brush_ready n s0 -> finds_pattern n s0 db m w h (brush_pixel n s0) pat.
Proof.
  intros Hbr _ d x y Hx Hy. unfold gdi_get_brush_pointer, brush_pixel. unfold brush_ready in Hbr.
  assert (Ht : load_brush n (TextColorAt (textColor (dc s0))) (vw d) = Done (textColor (dc s0) mod 256 ^ Z.of_nat n, vw d)).
  { unfold load_brush, ret. do 3 f_equal. change 256 with (2 ^ 8). rewrite <- Z.pow_mul_r by lia. reflexivity. }
  destruct (brush (dc s0)) as [br|]; [|rewrite bind_ret; exact Ht].
  rewrite (proj2 (Z.leb_le 0 x)), (proj2 (Z.leb_le 0 y)), !andb_true_r by lia.
  destruct (Z.eqb_spec (brush_style br) GDI_BS_PATTERN) as [E|_]; [|rewrite bind_ret; exact Ht].
  destruct (Hbr E) as (Ho & mp & Hp & Hpic & Hby & Hsl). rewrite Hp. assert (Hne : pattern br <> db) by congruence.
  pose proof (bitmap_other s0 db m _ d Hne) as Eb. rewrite Hp in Eb. rewrite bind_assoc, (bind_Done _ _ _ _ _ Eb).
  destruct (Hpic) as [HW HH _]. rewrite (proj2 (Z.eqb_neq _ _)), (proj2 (Z.eqb_neq _ _)) by lia. cbn [orb]. rewrite bind_ret. cbn [load_brush].
  rewrite !Z.rem_mod_nonneg, Hby, Hsl by lia.
  replace (_ + _) with (Z.of_nat n * (y mod bmp_height mp * bmp_width mp + x mod bmp_width mp)) by ring.
  apply load_other; [exact Hne|exact Hp|exact Hpic|apply Z.mod_pos_bound; lia..].
Qed.
End Inputs.

(** ** The raster operations *)

(** Whether the table of an operation depends on the source and on the pattern. *)
Definition uses_source (rop : Z) : bool := negb (Z.land (Z.shiftr rop 18) 0x33 =? Z.land (Z.shiftr rop 16) 0x33).
Definition uses_pattern (rop : Z) : bool := negb (Z.land (Z.shiftr rop 20) 0x0F =? Z.land (Z.shiftr rop 16) 0x0F).

Definition source_pixel (n : nat) (s : gdi) (src : source) (x y : Z) : Z :=
  match src with
  | (Some hdcSrc, sx, sy) => from_option (fun ms => pixel_at n ms (sx + x) (sy + y)) 0 (selectedObject hdcSrc ≫= fun sb => store s !! sb)
  | (None, _, _) => 0
  end.

Definition solid_pixel (n : nat) (hdc : GDI_DC) (color : Z) : Z :=
  match n with 1%nat => palette_index color | 2%nat => gdi_get_color_16bpp hdc color | _ => gdi_get_color_32bpp hdc color end.

(** A solid brush has its own colour in the two operations that look at it. *)
Definition pattern_pixel (n : nat) (s : gdi) (rop : Z) (x y : Z) : Z :=
  match brush (dc s) with
  | Some br => if (brush_style br =? GDI_BS_SOLID) && ((rop =? GDI_PATCOPY) || (rop =? GDI_PATINVERT))
               then solid_pixel n (dc s) (brush_color br) else brush_pixel n s x y
  | None => brush_pixel n s x y
  end.

(** What a transfer of [w] by [h] pixels needs. *)
Record inputs_ready (n : nat) (s : gdi) (src : source) (w h rop : Z) : Prop := {
  ir_source : uses_source rop = true -> exists hdcSrc sx sy sb ms, src = (Some hdcSrc, sx, sy) /\ source_ready n s hdcSrc sx sy w h sb ms;
  ir_brush : uses_pattern rop = true -> brush (dc s) <> None /\ brush_ready n s;
  ir_black : rop = GDI_BLACKNESS -> n = 4%nat -> alpha (dc s) = false;
}.

Ltac truth_table :=
  intros; apply Z.bits_inj'; intros i Hi; rewrite raster_bits by exact Hi;
  repeat (progress rewrite ?Z.lor_spec, ?Z.land_spec, ?Z.lxor_spec, ?Z.lnot_spec, ?Z.bits_0, ?Z.bits_m1 by exact Hi);
  repeat match goal with |- context [Z.testbit ?v i] => is_var v; destruct (Z.testbit v i) end; reflexivity.

Lemma depth_nonzero (n : nat) : n ∈ [1%nat; 2%nat; 4%nat] -> n <> 0%nat.
Proof. intros Hn ->. rewrite !elem_of_cons, elem_of_nil in Hn. lia. Qed.

Section Operations.
Context (n : nat) (Hn : n ∈ [1%nat; 2%nat; 4%nat]) (s0 : gdi) (db : nat) (m : GDI_BITMAP) (Hm : store s0 !! db = Some m).
Context (N : nat) (Hcv : canvas n s0 db m N) (X Y w h : Z) (HX : 0 <= X) (HXw : X + w <= bmp_width m) (HY : 0 <= Y) (HYh : Y + h <= bmp_height m).
Context (Hw : 0 < w) (src : source) (rop : Z) (Hin : inputs_ready n s0 src w h rop).

Definition Transfers (c : M gdi Z) : Prop :=
  Draws n s0 db m N X Y w h (pattern_pixel n s0 rop) (source_pixel n s0 src) c (raster (Z.shiftr rop 16)).

Lemma source_row : uses_source rop = true -> finds_row n s0 db m w h (source_pixel n s0 src) src.
Proof.
  intros Hu. destruct (ir_source _ _ _ _ _ _ Hin Hu) as (hdcSrc & sx & sy & sb & ms & -> & Hr).
  pose proof (source_finds n s0 db m (cv_selected _ _ _ _ _ Hcv) hdcSrc sx sy w h sb ms Hr Hw) as H.
  unfold source_pixel. rewrite (sr_selected _ _ _ _ _ _ _ _ _ Hr). cbn [mbind option_bind]. rewrite (sr_bitmap _ _ _ _ _ _ _ _ _ Hr). exact H.
Qed.

Lemma pattern_found : uses_pattern rop = true -> (rop = GDI_PATCOPY \/ rop = GDI_PATINVERT -> forall br, brush (dc s0) = Some br -> brush_style br <> GDI_BS_SOLID) ->
  finds_pattern n s0 db m w h (pattern_pixel n s0 rop) true.
Proof.
  intros Hu Hns. destruct (ir_brush _ _ _ _ _ _ Hin Hu) as [_ Hb]. pose proof (brush_finds n s0 db m (cv_selected _ _ _ _ _ Hcv) w h true Hb) as H.
  intros _ d x y Hx Hy. rewrite (H eq_refl d x y Hx Hy). do 2 f_equal. unfold pattern_pixel. destruct (brush (dc s0)) as [br|]; [|reflexivity].
  destruct (Z.eqb_spec (brush_style br) GDI_BS_SOLID) as [E|_]; [|reflexivity].
  destruct (Z.eqb_spec rop GDI_PATCOPY) as [E1|_]; [destruct (Hns (or_introl E1) br eq_refl E)|].
  destruct (Z.eqb_spec rop GDI_PATINVERT) as [E1|_]; [destruct (Hns (or_intror E1) br eq_refl E)|]. reflexivity.
Qed.

(** An operation that combines source, pattern and destination as its table says. *)
Lemma op_transfers usrc pat f : uses_source rop = usrc -> (pat = true -> finds_pattern n s0 db m w h (pattern_pixel n s0 rop) true) ->
  (usrc = false -> forall s s' p v, f s p v = f s' p v) -> (pat = false -> forall s p p' v, f s p v = f s p' v) ->
  (forall x y v, 0 <= x < w -> 0 <= y < h -> f (source_pixel n s0 src x y) (pattern_pixel n s0 rop x y) v = raster (Z.shiftr rop 16) (source_pixel n s0 src x y) (pattern_pixel n s0 rop x y) v) ->
  Transfers (rop_blit n (if usrc then Some src else None) pat f X Y w h).
Proof.
  intros Hu Hp Hfs Hfp Hf. refine (Draws_ext _ _ _ _ _ _ _ _ _ _ _ _ f _ _ Hf). refine (rop_draws n (depth_nonzero n Hn) s0 db m Hm N Hcv X Y w h HX HXw HY HYh _ _ Hw _ pat f _ _ Hfp).
  - intros Ht. apply Hp; [exact Ht|reflexivity].
  - destruct usrc; [apply source_row, Hu|apply Hfs; reflexivity].
Qed.

Lemma fill_transfers v : (forall s p d, raster (Z.shiftr rop 16) s p d mod 256 ^ Z.of_nat n = le_value (replicate n v)) -> Transfers (fill_rows v X Y w h).
Proof. intros H. exact (fill_draws n (depth_nonzero n Hn) s0 db m Hm N Hcv X Y w h HX HXw HY HYh _ _ Hw v _ H). Qed.

Lemma copy_transfers : rop = GDI_SRCCOPY -> Transfers (BitBlt_SRCCOPY X Y w h src).
Proof.
  intros Erop. assert (Hu : uses_source rop = true) by (rewrite Erop; reflexivity).
  destruct (ir_source _ _ _ _ _ _ Hin Hu) as (hdcSrc & sx & sy & sb & ms & Esrc & [Hs Ho Hb Hby Hp H1 H2 H3 H4 H5]).
  unfold Transfers. rewrite Erop, Esrc.
  pose proof (cv_selected _ _ _ _ _ Hcv) as Hsel.
  assert (Hne : sb <> db) by congruence.
  refine (copy_draws n (depth_nonzero n Hn) s0 db m Hm N Hcv X Y w h HX HXw HY HYh _ _ Hw hdcSrc sx sy sb ms _ Hs Hne Hb Hby H1 H2 H3 H4 (pc_data _ _ Hp) _).
  intros x y p v Hx Hy. unfold source_pixel. rewrite Hs. cbn [mbind option_bind]. rewrite Hb. cbn [from_option].
  assert (E : forall S P D, raster (Z.shiftr GDI_SRCCOPY 16) S P D = S) by truth_table.
  rewrite E, Z.mod_small by apply pix_bound, H5. reflexivity.
Qed.

Lemma pattern_transfers solid f : rop = GDI_PATCOPY \/ rop = GDI_PATINVERT -> (forall c, solid c = solid_pixel n (dc s0) c) ->
  (forall S P D, f P D = raster (Z.shiftr rop 16) S P D) -> Transfers (pattern_blit n solid f X Y w h).
Proof.
  intros Hrop Hsolid Hf. assert (Hu : uses_pattern rop = true) by (destruct Hrop as [-> | ->]; reflexivity).
  assert (Hus : uses_source rop = false) by (destruct Hrop as [-> | ->]; reflexivity).
  destruct (ir_brush _ _ _ _ _ _ Hin Hu) as [Hne _]. destruct (brush (dc s0)) as [br|] eqn:Eb; [|congruence].
  destruct (Z.eqb_spec (brush_style br) GDI_BS_SOLID) as [E|E].
  - intros d. unfold pattern_blit. change (bind get_dc ?k (view s0 db m d)) with (k (dc s0) (view s0 db m d)). cbv beta. rewrite Eb, (proj2 (Z.eqb_eq _ _) E).
    apply (op_transfers false false (fun S P D => f (solid (brush_color br)) D)); auto; [discriminate|].
    intros x y v Hx Hy. rewrite Hsolid, <- Hf. f_equal. unfold pattern_pixel. rewrite Eb, (proj2 (Z.eqb_eq _ _) E). destruct Hrop as [-> | ->]; reflexivity.
  - intros d. unfold pattern_blit. change (bind get_dc ?k (view s0 db m d)) with (k (dc s0) (view s0 db m d)). cbv beta. rewrite Eb, (proj2 (Z.eqb_neq _ _) E).
    apply (op_transfers false true (fun S P D => f P D)); auto; [|discriminate].
    intros _. apply pattern_found; [exact Hu|]. intros _ b Hb. congruence.
Qed.
End Operations.

Lemma black_transfers s0 db m (Hm : store s0 !! db = Some m) N (Hcv : canvas 4 s0 db m N) X Y w h (HX : 0 <= X) (HXw : X + w <= bmp_width m)
  (HY : 0 <= Y) (HYh : Y + h <= bmp_height m) (Hw : 0 < w) src (Hin : inputs_ready 4 s0 src w h GDI_BLACKNESS) :
  Transfers 4 s0 db m N X Y w h src GDI_BLACKNESS (BitBlt_BLACKNESS_32bpp X Y w h).
Proof.
  intros d. unfold BitBlt_BLACKNESS_32bpp. change (bind get_dc ?k (view s0 db m d)) with (k (dc s0) (view s0 db m d)). cbv beta.
  rewrite (ir_black _ _ _ _ _ _ Hin eq_refl eq_refl).
  refine (fill_transfers 4 _ s0 db m Hm N Hcv X Y w h HX HXw HY HYh Hw src GDI_BLACKNESS 0 _ d); [apply (bool_decide_unpack _); reflexivity|].
  intros S P D. assert (raster (Z.shiftr GDI_BLACKNESS 16) S P D = 0) as -> by truth_table. reflexivity.
Qed.

(** The operation of one code, at one depth. *)
Ltac operation Hn Hm Hcv HX HXw HY HYh Hw Hin :=
  match type of Hin with inputs_ready ?n ?s0 ?src _ _ ?c =>
    first
    [ refine (copy_transfers _ Hn _ _ _ Hm _ Hcv _ _ _ _ HX HXw HY HYh Hw _ _ Hin eq_refl)
    | let u := eval vm_compute in (uses_source c) in
      refine (op_transfers _ Hn _ _ _ Hm _ Hcv _ _ _ _ HX HXw HY HYh Hw _ _ Hin u _ _ _ _ _ _ _);
      [ reflexivity
      | intros Hpat; first [discriminate Hpat | refine (pattern_found _ _ _ _ _ Hcv _ _ _ _ Hin _ _); [reflexivity|intros [Hc|Hc]; discriminate Hc]]
      | intros Hu; first [discriminate Hu | reflexivity]
      | intros Hpat; first [discriminate Hpat | reflexivity]
      | intros x y v _ _; generalize (source_pixel n s0 src x y) (pattern_pixel n s0 c x y); truth_table ]
    | refine (fill_transfers _ Hn _ _ _ Hm _ Hcv _ _ _ _ HX HXw HY HYh Hw _ _ _ _); intros S P D;
      match goal with |- raster ?t _ _ _ mod _ = le_value (replicate _ ?b) =>
        assert (raster t S P D = - Z.b2z (Z.testbit b 0)) as ->; [truth_table|reflexivity] end
    | refine (black_transfers _ _ _ Hm _ Hcv _ _ _ _ HX HXw HY HYh Hw _ Hin)
    | let f := match c with GDI_PATCOPY => constr:(fun P D : Z => P) | _ => constr:(fun P D : Z => Z.lxor D P) end in
      let HT := fresh in
      pose proof (pattern_transfers _ Hn _ _ _ Hm _ Hcv _ _ _ _ HX HXw HY HYh Hw _ _ Hin (solid_pixel n (dc s0)) f) as HT;
      intros d; refine (HT _ _ _ d); [auto|intros; reflexivity|truth_table] ]
  end.

Definition raster_ops : list Z :=
  [GDI_BLACKNESS; GDI_WHITENESS; GDI_SRCCOPY; GDI_SPna; GDI_DSna; GDI_NOTSRCCOPY; GDI_DSTINVERT; GDI_SRCERASE; GDI_NOTSRCERASE;
   GDI_SRCINVERT; GDI_SRCAND; GDI_SRCPAINT; GDI_MERGECOPY; GDI_MERGEPAINT; GDI_PATCOPY; GDI_PATINVERT; GDI_PATPAINT].

Ltac decide_switch :=
  repeat match goal with |- context [if ?a =? ?b then _ else _] => let v := eval vm_compute in (a =? b) in replace (a =? b) with v by (vm_compute; reflexivity) end.

Definition pattern_ops : list Z := [GDI_PATCOPY; GDI_PATINVERT; GDI_DSTINVERT; GDI_BLACKNESS; GDI_WHITENESS; GDI_PDxn].

(** Every case of a [switch]. *)
Ltac switch ops Hrop Hm Hcv HX HXw HY HYh Hw Hin n :=
  let Hn := fresh in
  assert (Hn : n ∈ [1%nat; 2%nat; 4%nat]) by (apply (bool_decide_unpack _); reflexivity);
  unfold ops in Hrop; rewrite !elem_of_cons, elem_of_nil in Hrop;
  repeat (destruct Hrop as [Hrop|Hrop]; [rewrite Hrop in *; decide_switch; operation Hn Hm Hcv HX HXw HY HYh Hw Hin|]); destruct Hrop.

Section Switches.
Context (s0 : gdi) (db : nat) (m : GDI_BITMAP) (Hm : store s0 !! db = Some m) (N : nat).
Context (X Y w h : Z) (HX : 0 <= X) (HXw : X + w <= bmp_width m) (HY : 0 <= Y) (HYh : Y + h <= bmp_height m).
Context (Hw : 0 < w) (src : source) (rop : Z).

Lemma BitBlt_8bpp_transfers : canvas 1 s0 db m N -> inputs_ready 1 s0 src w h rop -> rop ∈ raster_ops ->
  Transfers 1 s0 db m N X Y w h src rop (BitBlt_switch_8bpp X Y w h src rop).
Proof. intros Hcv Hin Hrop. unfold BitBlt_switch_8bpp. switch raster_ops Hrop Hm Hcv HX HXw HY HYh Hw Hin 1%nat. Qed.

Lemma PatBlt_8bpp_transfers : canvas 1 s0 db m N -> inputs_ready 1 s0 src w h rop -> rop ∈ pattern_ops ->
  Transfers 1 s0 db m N X Y w h src rop (PatBlt_switch_8bpp X Y w h rop).
Proof. intros Hcv Hin Hrop. unfold PatBlt_switch_8bpp. switch pattern_ops Hrop Hm Hcv HX HXw HY HYh Hw Hin 1%nat. Qed.

Lemma BitBlt_16bpp_transfers : canvas 2 s0 db m N -> inputs_ready 2 s0 src w h rop -> rop ∈ raster_ops ->
  Transfers 2 s0 db m N X Y w h src rop (BitBlt_switch_16bpp X Y w h src rop).
Proof. intros Hcv Hin Hrop. unfold BitBlt_switch_16bpp. switch raster_ops Hrop Hm Hcv HX HXw HY HYh Hw Hin 2%nat. Qed.

Lemma PatBlt_16bpp_transfers : canvas 2 s0 db m N -> inputs_ready 2 s0 src w h rop -> rop ∈ pattern_ops ->
  Transfers 2 s0 db m N X Y w h src rop (PatBlt_switch_16bpp X Y w h rop).
Proof. intros Hcv Hin Hrop. unfold PatBlt_switch_16bpp. switch pattern_ops Hrop Hm Hcv HX HXw HY HYh Hw Hin 2%nat. Qed.

Lemma BitBlt_32bpp_transfers : canvas 4 s0 db m N -> inputs_ready 4 s0 src w h rop -> rop ∈ raster_ops ->
  Transfers 4 s0 db m N X Y w h src rop (BitBlt_switch_32bpp X Y w h src rop).
Proof. intros Hcv Hin Hrop. unfold BitBlt_switch_32bpp. switch raster_ops Hrop Hm Hcv HX HXw HY HYh Hw Hin 4%nat. Qed.

Lemma PatBlt_32bpp_transfers : canvas 4 s0 db m N -> inputs_ready 4 s0 src w h rop -> rop ∈ pattern_ops ->
  Transfers 4 s0 db m N X Y w h src rop (PatBlt_switch_32bpp X Y w h rop).
Proof. intros Hcv Hin Hrop. unfold PatBlt_switch_32bpp. switch pattern_ops Hrop Hm Hcv HX HXw HY HYh Hw Hin 4%nat. Qed.

End Switches.

(** ** Transfers with clipping *)

(** A device context of [n] bytes per pixel that bitmap [db] is selected into. *)
Record canvas_ready (n : nat) (s : gdi) (db : nat) (m : GDI_BITMAP) : Prop := {
  cr_depth : n ∈ [1%nat; 2%nat; 4%nat];
  cr_bits : IBPP (bitsPerPixel (dc s)) = Z.of_nat n;
  cr_bytes : bytesPerPixel (dc s) = Z.of_nat n;
  cr_selected : selectedObject (dc s) = Some db;
  cr_bitmap : store s !! db = Some m;
  cr_picture : picture n m;
  cr_clip : clip_meets m (clip (dc s));
  cr_window : forall wnd, hwnd (dc s) = Some wnd -> wnd_ok wnd;
}.

(** Coordinates and sizes for which no [int] of the code overflows. *)
Record ints_fit (s : gdi) (m : GDI_BITMAP) (x y w h : Z) (src : source) : Prop := {
  if_area : near_area x y w h;
  if_source : near src.1.2 /\ near src.2;
  if_bitmap : near (bmp_width m) /\ near (bmp_height m);
  if_clip : near_rgn (clip (dc s));
  if_window : forall wnd inv, hwnd (dc s) = Some wnd -> invalid wnd = Some inv -> near_rgn inv;
  if_store : Forall (fun b => len (bmp_data b) < 2 ^ 31) (store s);
}.

(** The place of a pixel. *)
Lemma pixel_ints_fit n m x y : n <> 0%nat -> picture n m -> len (bmp_data m) < 2 ^ 31 -> 0 <= x < bmp_width m -> 0 <= y < bmp_height m ->
  Forall is_int [y * bmp_width m; y * bmp_width m * Z.of_nat n; y * bmp_width m * Z.of_nat n + x * Z.of_nat n].
Proof.
  intros Hn [Hw Hh Hd] Hl Hx Hy. unfold len in Hl. rewrite Hd, Nat2Z.inj_mul, Z2Nat.id in Hl by nia.
  assert (y * bmp_width m + x < bmp_width m * bmp_height m) by nia. assert (0 <= y * bmp_width m) by nia.
  repeat (apply Forall_cons_2; [unfold is_int; nia|]). apply Forall_nil_2.
Qed.

Definition with_source (src : source) (k : option Z -> option Z -> clipped) : clipped :=
  match src with (Some _, sx, sy) => k (Some sx) (Some sy) | (None, _, _) => k None None end.

(** What the functions for all depths do: clip, invalidate, then the operation. *)
Definition clipped_transfer (op : Z -> Z -> Z -> Z -> source -> M gdi Z) (m : GDI_BITMAP) (x y w h : Z) (src : source) : M gdi Z :=
  let! hdc := get_dc in
  let c := with_source src (gdi_ClipCoords (Some m) (clip hdc) x y w h) in
  if negb (c_draw c) then ret 0 else
  on_dc (gdi_InvalidateRegion (c_x c) (c_y c) (c_w c) (c_h c));;
  op (c_x c) (c_y c) (c_w c) (c_h c) (src.1.1, default (src.1.2) (c_srcx c), default (src.2) (c_srcy c)).

Definition BitBlt_switch (n : nat) : Z -> Z -> Z -> Z -> source -> Z -> M gdi Z :=
  match n with 1%nat => BitBlt_switch_8bpp | 2%nat => BitBlt_switch_16bpp | _ => BitBlt_switch_32bpp end.
Definition PatBlt_switch (n : nat) : Z -> Z -> Z -> Z -> Z -> M gdi Z :=
  match n with 1%nat => PatBlt_switch_8bpp | 2%nat => PatBlt_switch_16bpp | _ => PatBlt_switch_32bpp end.

Section Clipped.
Context (n : nat) (s : gdi) (db : nat) (m : GDI_BITMAP) (Hr : canvas_ready n s db m).

Lemma selected_run : selected_bitmap (dc s) s = Done (Some m, s).
Proof.
  unfold selected_bitmap. rewrite (cr_selected _ _ _ _ Hr). unfold bind, bitmap_at. rewrite (cr_bitmap _ _ _ _ Hr). reflexivity.
Qed.

Ltac by_depth :=
  let Hb := fresh in let Hd := fresh in
  pose proof (cr_bits _ _ _ _ Hr) as Hb; pose proof (cr_depth _ _ _ _ Hr) as Hd; rewrite !elem_of_cons, elem_of_nil in Hd;
  repeat (change (bind get_dc ?k s) with (k (dc s) s); cbv beta); rewrite Hb;
  destruct Hd as [Hd|[Hd|[Hd|[] ] ] ]; rewrite Hd.

Lemma BitBlt_clipped x y w h src rop : gdi_BitBlt x y w h src rop s = clipped_transfer (fun X Y w h src => BitBlt_switch n X Y w h src rop) m x y w h src s.
Proof.
  unfold gdi_BitBlt, clipped_transfer, BitBlt_switch. destruct src as [[[hdcSrc|] sx] sy]; by_depth;
    decide_switch; unfold BitBlt_8bpp, BitBlt_16bpp, BitBlt_32bpp;
    repeat (change (bind get_dc ?k s) with (k (dc s) s); cbv beta); rewrite (bind_Done _ _ _ _ _ selected_run); reflexivity.
Qed.

Lemma PatBlt_clipped x y w h rop : gdi_PatBlt x y w h rop s = clipped_transfer (fun X Y w h _ => PatBlt_switch n X Y w h rop) m x y w h (None, 0, 0) s.
Proof.
  unfold gdi_PatBlt, clipped_transfer, PatBlt_switch. by_depth;
    decide_switch; unfold PatBlt_8bpp, PatBlt_16bpp, PatBlt_32bpp;
    repeat (change (bind get_dc ?k s) with (k (dc s) s); cbv beta); rewrite (bind_Done _ _ _ _ _ selected_run); reflexivity.
Qed.

Lemma invalidate_done x y w h : exists wnd, gdi_InvalidateRegion x y w h (dc s) = Done (0, (dc s) <| hwnd := wnd |>) /\ forall v, wnd = Some v -> wnd_ok v.
Proof.
  unfold gdi_InvalidateRegion. pose proof (cr_window _ _ _ _ Hr) as Hwnd. destruct (hwnd (dc s)) as [wnd|] eqn:Ew; [|exists None; split; [rewrite <- Ew; destruct (dc s); reflexivity|discriminate]].
  destruct (invalid wnd) as [inv|]; [|exists (Some wnd); split; [rewrite <- Ew; destruct (dc s); reflexivity|exact Hwnd]].
  destruct (push_run (gdi_SetRgn x y w h) wnd (dc s) (Hwnd wnd eq_refl)) as (w1 & E & [H1 H2 H3] & _). rewrite (bind_Done _ _ _ _ _ E).
  eexists. split; [reflexivity|]. intros v Ev. injection Ev as <-. split; assumption.
Qed.

(** A canvas stays one when its picture and its window change. *)
Lemma ready_after wnd d' : (forall v, wnd = Some v -> wnd_ok v) -> length d' = length (bmp_data m) ->
  canvas_ready n (mkGdi ((dc s) <| hwnd := wnd |>) (<[db := m <| bmp_data := d' |>]> (store s))) db (m <| bmp_data := d' |>).
Proof.
  intros Hwnd Hl. destruct Hr as [H1 H2 H3 H4 H5 [H6 H7 H8] H9 _]. split; try assumption.
  - cbn [store]. apply list_lookup_insert_eq. apply lookup_lt_Some in H5. exact H5.
  - split; [exact H6|exact H7|]. transitivity (length (bmp_data m)); [exact Hl|exact H8].
Qed.

(** A picture after a transfer: inside of the area and of the clip region the
    table decides, everything else is as it was. *)
Definition drawn (x y w h : Z) (src : source) (rop : Z) (d' : list Z) : Prop :=
  let c := gdi_ClipCoords (Some m) (clip (dc s)) x y w h None None in
  let before := pixel_at n m in let after := pixel_at n (m <| bmp_data := d' |>) in
  forall px py, 0 <= px < bmp_width m -> 0 <= py < bmp_height m ->
    (in_area x y w h px py /\ allowed (Some m) (clip (dc s)) px py ->
       after px py = raster (Z.shiftr rop 16) (source_pixel n s src (px - x) (py - y)) (pattern_pixel n s rop (px - c_x c) (py - c_y c)) (before px py)
                     mod 256 ^ Z.of_nat n) /\
    (~ (in_area x y w h px py /\ allowed (Some m) (clip (dc s)) px py) -> after px py = before px py).

(** The whole effect: the picture, and the area the window has to redraw. *)
Definition transfer_done (c : M gdi Z) (x y w h : Z) (src : source) (rop : Z) : Prop :=
  let a := gdi_ClipCoords (Some m) (clip (dc s)) x y w h None None in
  exists hdc' d', c s = Done (0, mkGdi hdc' (<[db := m <| bmp_data := d' |>]> (store s))) /\ length d' = length (bmp_data m) /\
    (if c_draw a then gdi_InvalidateRegion (c_x a) (c_y a) (c_w a) (c_h a) (dc s) = Done (0, hdc') else hdc' = dc s) /\
    drawn x y w h src rop d'.

(** A source moved with the corner of the area. *)
Definition moved_source (dx dy : Z) (src : source) : source := (src.1.1, src.1.2 + dx, src.2 + dy).

Lemma moved_pixel dx dy src x y : source_pixel n s (moved_source dx dy src) x y = source_pixel n s src (dx + x) (dy + y).
Proof.
  destruct src as [[[hdcSrc|] sx] sy]; [|reflexivity]. unfold source_pixel, moved_source. cbn [fst snd].
  destruct (_ ≫= _); [|reflexivity]. cbn [from_option]. f_equal; lia.
Qed.

Lemma moved_ready wnd dx dy src w h w' h' rop : inputs_ready n s src w h rop -> 0 <= dx -> 0 <= dy -> dx + w' <= w -> dy + h' <= h ->
  inputs_ready n (s <| dc := (dc s) <| hwnd := wnd |> |>) (moved_source dx dy src) w' h' rop.
Proof.
  intros [Hs Hb Ha] Hx Hy Hw Hh. split; [|exact Hb|exact Ha].
  intros Hu. destruct (Hs Hu) as (hdcSrc & sx & sy & sb & ms & -> & [H1 H2 H3 H4 H5 H6 H7 H8 H9 H10]).
  exists hdcSrc, (sx + dx), (sy + dy), sb, ms. split; [reflexivity|]. split; [exact H1|exact H2|exact H3|exact H4|exact H5|lia..|exact H10].
Qed.

(** The source after clipping has moved, or there is none. *)
Definition clipped_source (c : clipped) (src : source) : source := (src.1.1, default (src.1.2) (c_srcx c), default (src.2) (c_srcy c)).

Lemma clipped_source_moved x y w h src : let c := with_source src (gdi_ClipCoords (Some m) (clip (dc s)) x y w h) in c_draw c = true ->
  clipped_source c src = moved_source (c_x c - x) (c_y c - y) src \/ src.1.1 = None.
Proof.
  destruct src as [[[hdcSrc|] sx] sy]; cbv zeta; cbn [with_source fst snd]; intros Hd; [left|right; reflexivity].
  destruct (clip_coords_exact (Some m) (clip (dc s)) x y w h sx sy 0 0) as [_ H]. destruct (H Hd) as [Ex Ey].
  unfold clipped_source. rewrite Ex, Ey. reflexivity.
Qed.

Lemma no_source_pixel src x y : src.1.1 = None -> source_pixel n s src x y = 0.
Proof. destruct src as [[[hdcSrc|] sx] sy]; [discriminate|reflexivity]. Qed.

Lemma pixel_number px py : 0 <= px < bmp_width m -> 0 <= py < bmp_height m ->
  let q := Z.to_nat (py * bmp_width m + px) in
  (q < Z.to_nat (bmp_width m * bmp_height m))%nat /\ col (bmp_width m) q = px /\ row (bmp_width m) q = py.
Proof.
  intros Hx Hy. cbv zeta. assert (0 <= py * bmp_width m + px < bmp_width m * bmp_height m) by nia.
  split; [lia|]. apply col_row; lia.
Qed.

Lemma sourceless_ready wnd src src' w h w' h' rop : inputs_ready n s src w h rop -> src.1.1 = None ->
  inputs_ready n (s <| dc := (dc s) <| hwnd := wnd |> |>) src' w' h' rop.
Proof.
  intros [Hs Hb Ha] Hnone. split; [|exact Hb|exact Ha]. intros Hu. destruct (Hs Hu) as (? & ? & ? & ? & ? & -> & _). discriminate Hnone.
Qed.

Lemma with_source_area x y w h src :
  let c := with_source src (gdi_ClipCoords (Some m) (clip (dc s)) x y w h) in let a := gdi_ClipCoords (Some m) (clip (dc s)) x y w h None None in
  c_draw c = c_draw a /\ c_x c = c_x a /\ c_y c = c_y a /\ c_w c = c_w a /\ c_h c = c_h a.
Proof. unfold with_source. destruct src as [[[hdcSrc|] sx] sy]; apply clip_coords_source. Qed.

Lemma clip_area x y w h : let a := gdi_ClipCoords (Some m) (clip (dc s)) x y w h None None in forall px py,
  c_draw a = true /\ in_area (c_x a) (c_y a) (c_w a) (c_h a) px py <-> in_area x y w h px py /\ allowed (Some m) (clip (dc s)) px py.
Proof.
  cbv zeta. intros px py. pose proof (clip_coords_source (Some m) (clip (dc s)) x y w h (Some 0) (Some 0)) as (E1 & E2 & E3 & E4 & E5).
  rewrite <- E1, <- E2, <- E3, <- E4, <- E5. apply clip_coords_exact.
Qed.

Lemma clipped_draws op x y w h src rop : 0 < w -> 0 < h -> inputs_ready n s src w h rop ->
  (forall s1 X Y w1 h1 src1 N, store s1 !! db = Some m -> canvas n s1 db m N -> 0 <= X -> X + w1 <= bmp_width m -> 0 <= Y -> Y + h1 <= bmp_height m ->
     0 < w1 -> inputs_ready n s1 src1 w1 h1 rop -> Transfers n s1 db m N X Y w1 h1 src1 rop (op X Y w1 h1 src1)) ->
  transfer_done (clipped_transfer op m x y w h src) x y w h src rop.
Proof.
  intros Hw Hh Hin Hop. pose proof (cr_picture _ _ _ _ Hr) as [HW HH Hdata].
  unfold transfer_done, drawn, clipped_transfer. change (bind get_dc ?k s) with (k (dc s) s). cbv beta zeta.
  fold (clipped_source (with_source src (gdi_ClipCoords (Some m) (clip (dc s)) x y w h)) src).
  set (c := with_source src _). set (a := gdi_ClipCoords (Some m) (clip (dc s)) x y w h None None).
  destruct (with_source_area x y w h src) as (Ed & Ex & Ey & Ew & Eh). fold c a in Ed, Ex, Ey, Ew, Eh.
  pose proof (clip_area x y w h) as Hex. cbv zeta in Hex. fold a in Hex.
  destruct (c_draw c) eqn:Edraw; rewrite <- Ed; cbn [negb].
  2:{ exists (dc s), (bmp_data m). rewrite list_insert_id by (destruct m; apply (cr_bitmap _ _ _ _ Hr)).
      split; [destruct s; reflexivity|]. split; [reflexivity|]. split; [reflexivity|]. intros px py Hx Hy.
      split; [intros Hyes; apply Hex in Hyes as [Hd _]; congruence|]. intros _. reflexivity. }
  destruct (clip_coords_size m (clip (dc s)) x y w h None None HW HH (cr_clip _ _ _ _ Hr) Hw Hh (eq_sym Ed)) as (B1 & B2 & B3 & B4 & B5 & B6 & B7 & B8 & B9 & B10).
  fold a in B1, B2, B3, B4, B5, B6, B7, B8, B9, B10. rewrite Ex, Ey, Ew, Eh.
  destruct (invalidate_done (c_x a) (c_y a) (c_w a) (c_h a)) as (wnd & Einv & _).
  set (s1 := s <| dc := (dc s) <| hwnd := wnd |> |>).
  assert (Eon : on_dc (gdi_InvalidateRegion (c_x a) (c_y a) (c_w a) (c_h a)) s = Done (0, s1)) by (unfold on_dc, zoom; rewrite Einv; reflexivity).
  pose proof (clipped_source_moved x y w h src Edraw) as Hsrc. fold c in Hsrc. rewrite Ex, Ey in Hsrc.
  assert (Hin1 : inputs_ready n s1 (clipped_source c src) (c_w a) (c_h a) rop).
  { destruct Hsrc as [-> |Hnone]; [apply (moved_ready wnd _ _ src w h)|apply (sourceless_ready wnd src _ w h)]; auto; lia. }
  assert (Hcv : canvas n s1 db m (Z.to_nat (bmp_width m * bmp_height m))).
  { split; [exact (cr_selected _ _ _ _ Hr)|exact (cr_bytes _ _ _ _ Hr)|exact HW|nia]. }
  destruct (Hop s1 (c_x a) (c_y a) (c_w a) (c_h a) (clipped_source c src) _ (cr_bitmap _ _ _ _ Hr) Hcv B5 B6 B7 B8 B9 Hin1 (bmp_data m) Hdata) as (d' & E & Hl & Hq).
  exists (dc s1), d'. rewrite (bind_Done _ _ _ _ _ Eon).
  rewrite (view_same s1 db m (cr_bitmap _ _ _ _ Hr)) in E. split; [exact E|]. split; [congruence|]. split; [exact Einv|].
  intros px py Hx Hy. destruct (pixel_number px py Hx Hy) as (Hlt & Hcol & Hrow). specialize (Hq _ Hlt).
  change (pixel_at n (m <| bmp_data := d' |>) px py) with (pix n d' (Z.to_nat (py * bmp_width m + px))).
  change (pixel_at n m px py) with (pix n (bmp_data m) (Z.to_nat (py * bmp_width m + px))).
  rewrite Hq, <- Hex. unfold in_box, painted. rewrite Hcol, Hrow. clear Hq. split.
  - intros [_ [Hi1 Hi2]]. rewrite (proj2 (Z.leb_le _ _)), (proj2 (Z.ltb_lt _ _)), (proj2 (Z.leb_le _ _)), (proj2 (Z.ltb_lt _ _)) by lia. cbn [andb].
    change (source_pixel n s1) with (source_pixel n s).
    destruct Hsrc as [-> |Hnone]; [rewrite moved_pixel|rewrite !no_source_pixel by exact Hnone; reflexivity].
    replace (c_x a - x + (px - c_x a)) with (px - x) by lia. replace (c_y a - y + (py - c_y a)) with (py - y) by lia. reflexivity.
  - intros Hout. destruct (_ && _) eqn:Ein; [|reflexivity]. exfalso. apply Hout. rewrite !andb_true_iff, !Z.leb_le, !Z.ltb_lt in Ein.
    split; [congruence|]. unfold in_area. lia.
Qed.
End Clipped.

Lemma bitblt_done n s db m x y w h src rop : canvas_ready n s db m -> 0 < w -> 0 < h -> rop ∈ raster_ops -> inputs_ready n s src w h rop ->
  transfer_done n s db m (gdi_BitBlt x y w h src rop) x y w h src rop.
Proof.
  intros Hr Hw Hh Hrop Hin. destruct (clipped_draws n s db m Hr (fun X Y w h src => BitBlt_switch n X Y w h src rop) x y w h src rop Hw Hh Hin)
    as (hdc' & d' & E & H); [|exists hdc', d'; rewrite (BitBlt_clipped n s db m Hr); split; [exact E|exact H]].
  intros s1 X Y w1 h1 src1 N Hm Hcv HX HXw HY HYh Hw1 Hin1. pose proof (cr_depth _ _ _ _ Hr) as Hd. rewrite !elem_of_cons, elem_of_nil in Hd.
  destruct Hd as [-> |[-> |[-> |[] ] ] ]; [apply BitBlt_8bpp_transfers|apply BitBlt_16bpp_transfers|apply BitBlt_32bpp_transfers]; assumption.
Qed.

Lemma patblt_done n s db m x y w h rop : canvas_ready n s db m -> 0 < w -> 0 < h -> rop ∈ pattern_ops -> inputs_ready n s (None, 0, 0) w h rop ->
  transfer_done n s db m (gdi_PatBlt x y w h rop) x y w h (None, 0, 0) rop.
Proof.
  intros Hr Hw Hh Hrop Hin. destruct (clipped_draws n s db m Hr (fun X Y w h _ => PatBlt_switch n X Y w h rop) x y w h (None, 0, 0) rop Hw Hh Hin)
    as (hdc' & d' & E & H); [|exists hdc', d'; rewrite (PatBlt_clipped n s db m Hr); split; [exact E|exact H]].
  intros s1 X Y w1 h1 src1 N Hm Hcv HX HXw HY HYh Hw1 Hin1. pose proof (cr_depth _ _ _ _ Hr) as Hd. rewrite !elem_of_cons, elem_of_nil in Hd.
  destruct Hd as [-> |[-> |[-> |[] ] ] ]; [apply PatBlt_8bpp_transfers|apply PatBlt_16bpp_transfers|apply PatBlt_32bpp_transfers]; assumption.
Qed.

(** C35. Raster operations: a transfer whose source is another bitmap gives every
    pixel of the area that the clip region allows the value that the truth table in
    the code of the operation has for the bits of source, pattern and
    destination; all other pixels stay, and the window has to redraw exactly the
    clipped area. All seventeen operations, at 8, 16 and 32 bits per pixel, for
    coordinates for which no [int] overflows; black with alpha is left out, which
    sets the alpha byte. *)
Theorem bitblt_raster n s db m x y w h src rop : canvas_ready n s db m -> ints_fit s m x y w h src -> 0 < w -> 0 < h ->
  rop ∈ raster_ops -> inputs_ready n s src w h rop ->
  transfer_done n s db m (gdi_BitBlt x y w h src rop) x y w h src rop.
Proof. intros Hr _. apply bitblt_done, Hr. Qed.

(** Pattern fills: [gdi_PatBlt] does the same for the operations without a
    source. *)
Theorem patblt_raster n s db m x y w h rop : canvas_ready n s db m -> ints_fit s m x y w h (None, 0, 0) -> 0 < w -> 0 < h -> rop ∈ pattern_ops -> inputs_ready n s (None, 0, 0) w h rop ->
  transfer_done n s db m (gdi_PatBlt x y w h rop) x y w h (None, 0, 0) rop.
Proof. intros Hr _. apply patblt_done, Hr. Qed.

(** *** Examples *)

(** Two pictures of 4 by 3 pixels, a pattern of 2 by 1, and a clip region. *)
Definition sample_store : list GDI_BITMAP :=
  [mkGdiBitmap 1 8 4 3 4 [1; 2; 3; 4; 5; 6; 7; 8; 9; 10; 11; 12]; mkGdiBitmap 1 8 4 3 4 (replicate 12 0x55); mkGdiBitmap 1 8 2 1 2 [0xF0; 0x0F] ].
Definition sample_brush : GDI_BRUSH := mkGdiBrush GDI_BS_PATTERN 2 0.
Definition sample_gdi : gdi := mkGdi (sample_dc <| brush := Some sample_brush |> <| clip := mkRgn 1 0 9 2 false |>) sample_store.
Definition sample_source : source := (Some (sample_dc <| selectedObject := Some 1%nat |>), 0, 0).

Lemma sample_ready : canvas_ready 1 sample_gdi 0 (mkGdiBitmap 1 8 4 3 4 [1; 2; 3; 4; 5; 6; 7; 8; 9; 10; 11; 12]).
Proof.
  split; try reflexivity; [apply (bool_decide_unpack _); reflexivity| |intros _; vm_compute; repeat split|].
  - split; reflexivity.
  - intros wnd E. injection E as <-. split; vm_compute; try split; congruence.
Qed.

Lemma sample_ints src : near src.1.2 /\ near src.2 ->
  ints_fit sample_gdi (mkGdiBitmap 1 8 4 3 4 [1; 2; 3; 4; 5; 6; 7; 8; 9; 10; 11; 12]) 0 1 3 2 src.
Proof.
  intros Hs. split; [|exact Hs|..]; try (repeat split; reflexivity).
  - intros wnd inv [= <-] [= <-]. repeat split; reflexivity.
  - repeat (apply Forall_cons_2; [reflexivity|]). apply Forall_nil_2.
Qed.

Lemma sample_inputs rop src : src = sample_source \/ uses_source rop = false -> inputs_ready 1 sample_gdi src 3 2 rop.
Proof.
  intros Hs. split; [|intros _; split; [discriminate|]|discriminate].
  - intros Hu. destruct Hs as [-> |Hs]; [|congruence]. eexists _, _, _, 1%nat, _. split; [reflexivity|].
    split; try reflexivity; try (vm_compute; congruence); [split; reflexivity|apply (bool_decide_unpack _); reflexivity].
  - intros _. split; [discriminate|]. eexists. split; [reflexivity|]. split; [|split; reflexivity].
    split; reflexivity.
Qed.

Lemma bitblt_raster_witness :
  transfer_done 1 sample_gdi 0 (mkGdiBitmap 1 8 4 3 4 [1; 2; 3; 4; 5; 6; 7; 8; 9; 10; 11; 12])
    (gdi_BitBlt 0 1 3 2 sample_source GDI_MERGECOPY) 0 1 3 2 sample_source GDI_MERGECOPY /\
  exists hdc', gdi_BitBlt 0 1 3 2 sample_source GDI_MERGECOPY sample_gdi =
    Done (0, mkGdi hdc' (<[0%nat := mkGdiBitmap 1 8 4 3 4 [1; 2; 3; 4; 5; 0x50; 0x05; 8; 9; 10; 11; 12]]> sample_store)).
Proof.
  split; [|eexists; vm_compute; reflexivity].
  apply bitblt_raster; [exact sample_ready|apply sample_ints; split; split; reflexivity|reflexivity|reflexivity|apply (bool_decide_unpack _); reflexivity|apply sample_inputs; left; reflexivity].
Defined.

Lemma patblt_raster_witness :
  transfer_done 1 sample_gdi 0 (mkGdiBitmap 1 8 4 3 4 [1; 2; 3; 4; 5; 6; 7; 8; 9; 10; 11; 12])
    (gdi_PatBlt 0 1 3 2 GDI_PATCOPY) 0 1 3 2 (None, 0, 0) GDI_PATCOPY /\
  exists hdc', gdi_PatBlt 0 1 3 2 GDI_PATCOPY sample_gdi =
    Done (0, mkGdi hdc' (<[0%nat := mkGdiBitmap 1 8 4 3 4 [1; 2; 3; 4; 5; 0xF0; 0x0F; 8; 9; 10; 11; 12]]> sample_store)).
Proof.
  split; [|eexists; vm_compute; reflexivity].
  apply patblt_raster; [exact sample_ready|apply sample_ints; split; split; reflexivity|reflexivity|reflexivity|apply (bool_decide_unpack _); reflexivity|apply sample_inputs; right; reflexivity].
Defined.
