(* ===== verification/BlitScroll.v ===== *)
(** Copies inside one bitmap, as scrolling makes them: when [gdi_CopyOverlap] sees
    that the areas overlap, or when they do not, the picture keeps every pixel
    it moves. The areas it takes for separate although they share a row or a
    column are the exception. *)

From coqutil Require Import Datatypes.RecordSetters.
From S2P Require Import Prelude.
From S2P Require Import Stream.
From S2P Require Import Gcc.
From S2P Require Import Regions.
From S2P Require Import Color.
From S2P Require Import Blit.
From S2P Require Import BlitSpec.
Import TriangleBracketNotations.

Section Scroll.
Context (n : nat) (Hn : n <> 0%nat) (s : gdi) (db : nat) (m : GDI_BITMAP) (Hm : store s !! db = Some m).
Context (N : nat) (Hcv : canvas n s db m N) (hdcSrc : GDI_DC) (Hsel : selectedObject hdcSrc = Some db) (Hby : bytesPerPixel hdcSrc = Z.of_nat n).
Context (X Y w h sx sy : Z) (Hw : 0 < w) (HX : 0 <= X) (HXw : X + w <= bmp_width m) (HY : 0 <= Y) (HYh : Y + h <= bmp_height m).
Context (Hsx : 0 <= sx) (Hsxw : sx + w <= bmp_width m) (Hsy : 0 <= sy) (Hsyh : sy + h <= bmp_height m).
Local Notation "'W'" := (bmp_width m).
Local Notation "'vw'" := (view s db m).

(** The pixel that pixel [q] is copied from. *)
Definition origin (q : nat) : nat := Z.to_nat (Z.of_nat q + ((sy - Y) * W + (sx - X))).

(** Row [y] of the area, overwritten by its source in the same bytes. *)
Definition moved_row (y : Z) (d : list Z) : list Z :=
  splice (n * Z.to_nat ((Y + y) * W + X)) (take (n * Z.to_nat w) (drop (n * Z.to_nat ((sy + y) * W + sx)) d)) d.

Lemma row_index a b y : 0 <= a -> a + w <= W -> 0 <= b -> b + h <= bmp_height m -> 0 <= y < h ->
  0 <= (b + y) * W + a /\ (b + y) * W + a + w <= Z.of_nat N.
Proof. intros. destruct Hcv as [_ _ HW HN]. rewrite HN. nia. Qed.

Lemma length_moved_row y d : 0 <= y < h -> length d = (n * N)%nat -> length (moved_row y d) = (n * N)%nat.
Proof.
  intros Hy Hd. pose proof (row_index X Y y HX HXw HY HYh Hy). pose proof (row_index sx sy y Hsx Hsxw Hsy Hsyh Hy).
  unfold moved_row. rewrite length_splice; [exact Hd|]. rewrite length_take, length_drop. nia.
Qed.

Lemma pix_moved_row y d q : 0 <= y < h -> length d = (n * N)%nat ->
  pix n (moved_row y d) q = pix n d (if in_row W X w (Y + y) q then origin q else q).
Proof.
  intros Hy Hd. pose proof (row_index X Y y HX HXw HY HYh Hy). pose proof (row_index sx sy y Hsx Hsxw Hsy Hsyh Hy).
  unfold moved_row. rewrite (pix_splice n _ (Z.to_nat w)) by (rewrite ?length_take, ?length_drop; nia).
  assert (HW : 0 < W) by apply Hcv.
  destruct (decide _) as [Hin|Hout].
  - rewrite pix_take_drop by lia. assert (Hcr : col W q = X + Z.of_nat (q - Z.to_nat ((Y + y) * W + X)) /\ row W q = Y + y) by (apply col_row; lia).
    destruct Hcr as [Hc Hr]. unfold in_row. rewrite Hc, Hr, Z.eqb_refl, (proj2 (Z.leb_le _ _)), (proj2 (Z.ltb_lt _ _)) by lia. cbn [andb].
    f_equal. unfold origin. lia.
  - replace (in_row W X w (Y + y) q) with false; [reflexivity|]. symmetry. apply not_true_iff_false. intros Hr. apply Hout.
    unfold in_row in Hr. rewrite !andb_true_iff, Z.leb_le, Z.ltb_lt, Z.eqb_eq in Hr. destruct Hr as [[Hr1 Hr2] Hr3].
    assert (Z.of_nat q = (Y + y) * W + col W q) by (apply col_row; [lia| |auto]; unfold col; apply Z.mod_pos_bound; lia). lia.
Qed.

Lemma source_row_pointer y d : 0 <= y < h ->
  gdi_get_bitmap_pointer hdcSrc sx (sy + y) (vw d) = Done (Some (Z.of_nat n * ((sy + y) * W + sx)), vw d).
Proof.
  intros Hy. unfold gdi_get_bitmap_pointer, selected. rewrite Hsel, bind_ret, (bind_Done _ _ _ _ _ (bitmap_view s db m Hm d)).
  change (bmp_width (m <| bmp_data := d |>)) with W. change (bmp_height (m <| bmp_data := d |>)) with (bmp_height m).
  rewrite (proj2 (Z.leb_le 0 sx)), (proj2 (Z.ltb_lt sx _)), (proj2 (Z.leb_le 0 (sy + y))), (proj2 (Z.ltb_lt (sy + y) _)) by lia.
  cbn [andb]. unfold ret. do 3 f_equal. rewrite Hby. ring.
Qed.

Lemma move_row_run y d : 0 <= y < h -> length d = (n * N)%nat -> copy_row memmove hdcSrc X Y w sx sy y (vw d) = Done (tt, vw (moved_row y d)).
Proof.
  intros Hy Hd. pose proof (row_index X Y y HX HXw HY HYh Hy). pose proof (row_index sx sy y Hsx Hsxw Hsy Hsyh Hy).
  unfold copy_row. change (bind get_dc ?k (vw d)) with (k (dc s) (vw d)). cbv beta. unfold selected at 1 2.
  rewrite Hsel, bind_ret, (cv_selected _ _ _ _ _ Hcv), bind_ret.
  rewrite (bind_Done _ _ _ _ _ (source_row_pointer y d Hy)), (bind_Done _ _ _ _ _ (dest_pointer n Hn s db m Hm N Hcv X Y w h HX HXw HY HYh d y Hw Hy)).
  unfold memmove. rewrite (cv_bytes _ _ _ _ _ Hcv), (proj2 (Z.ltb_ge _ _)) by lia.
  rewrite (bind_Done _ _ _ _ _ (bitmap_view s db m Hm d)). change (bmp_data (m <| bmp_data := d |>)) with d.
  rewrite (proj2 (Z.leb_le 0 _)), (proj2 (Z.leb_le _ _)) by (unfold len; nia). cbn [andb].
  rewrite (write_view s db m Hm) by (unfold len; rewrite ?length_take, ?length_drop; nia).
  unfold moved_row. do 3 f_equal. f_equal; [nia|]. f_equal; [lia|]. f_equal. nia.
Qed.

(** The rows of [l] in this order: no row is overwritten before it is copied. *)
Definition row_hits (i j : Z) : Prop := Y + i = sy + j /\ ~ (X + w <= sx \/ sx + w <= X).
Definition in_time (l : list Z) : Prop := forall a b i j, l = a ++ i :: b -> j ∈ b -> ~ row_hits i j.

Lemma in_time_cons i l : in_time (i :: l) -> (forall j, j ∈ l -> ~ row_hits i j) /\ in_time l.
Proof.
  intros H. split; [intros j Hj; apply (H [] l i j eq_refl Hj)|].
  intros a b i' j -> Hj. apply (H (i :: a) b i' j eq_refl Hj).
Qed.

(** The source of a row that is not hit is not written. *)
Lemma origin_outside i j q : 0 <= i < h -> 0 <= j < h -> ~ row_hits i j -> in_row W X w (Y + j) q = true -> in_row W X w (Y + i) (origin q) = false.
Proof.
  intros Hi Hj Hh Hq. assert (HW : 0 < W) by apply Hcv. unfold in_row in Hq. rewrite !andb_true_iff, Z.leb_le, Z.ltb_lt, Z.eqb_eq in Hq. destruct Hq as [[Hq1 Hq2] Hq3].
  assert (Hq : Z.of_nat q = (Y + j) * W + col W q) by (apply col_row; [lia| |auto]; unfold col; apply Z.mod_pos_bound; lia).
  assert (Ho : Z.of_nat (origin q) = (sy + j) * W + (sx + (col W q - X))) by (unfold origin; nia).
  apply col_row in Ho as [Hoc Hor]; [|lia..]. apply not_true_iff_false. unfold in_row. rewrite Hoc, Hor, !andb_true_iff, Z.leb_le, Z.ltb_lt, Z.eqb_eq.
  intros [[H1 H2] H3]. apply Hh. split; [lia|]. lia.
Qed.

Lemma rows_moved (body : Z -> M gdi unit) l : (forall y d, y ∈ l -> length d = (n * N)%nat -> body y (vw d) = Done (tt, vw (moved_row y d))) ->
  NoDup l -> (forall y, y ∈ l -> 0 <= y < h) -> in_time l -> forall d, length d = (n * N)%nat ->
  exists d', each l body (vw d) = Done (tt, vw d') /\ length d' = (n * N)%nat /\
    forall q, pix n d' q = pix n d (if existsb (fun y => in_row W X w (Y + y) q) l then origin q else q).
Proof.
  induction l as [|i l IH]; intros Hb Hnd Hl Ht d Hd; cbn [each existsb]; [exists d; auto|].
  apply NoDup_cons in Hnd as [Hni Hnd]. apply in_time_cons in Ht as [Hi Ht].
  assert (Hi0 : 0 <= i < h) by (apply Hl; left). rewrite (bind_Done _ _ _ _ _ (Hb i d ltac:(left) Hd)).
  destruct (IH ltac:(intros; apply Hb; [right|]; assumption) Hnd ltac:(intros; apply Hl; right; assumption) Ht (moved_row i d) (length_moved_row i d Hi0 Hd)) as (d' & E & Hl' & Hq).
  exists d'. split; [exact E|]. split; [exact Hl'|]. intros q. rewrite Hq, pix_moved_row by assumption.
  destruct (existsb (fun y => in_row W X w (Y + y) q) l) eqn:Ex; [|rewrite orb_false_r; reflexivity].
  rewrite orb_true_r. apply existsb_exists in Ex as (j & Hj & Ej). apply list_elem_of_In in Hj.
  rewrite (origin_outside i j q); [reflexivity|exact Hi0|apply Hl; right; exact Hj|apply Hi, Hj|exact Ej].
Qed.

Lemma seqZ_after a : forall z k i b j, seqZ z k = a ++ i :: b -> j ∈ b -> i < j.
Proof.
  induction a as [|x a IH]; intros z k i b j E Hj; (destruct (decide (0 < k)); [|rewrite seqZ_nil in E by lia; discriminate]);
    rewrite seqZ_cons in E by lia; injection E as Ex E; [|exact (IH _ _ _ _ _ E Hj)].
  subst. apply elem_of_seqZ in Hj. lia.
Qed.

Lemma seqZ_before z k a i b j : seqZ z k = a ++ i :: b -> j ∈ a -> j < i.
Proof.
  intros E Hj. apply list_elem_of_split in Hj as (a1 & a2 & ->). rewrite <- app_assoc in E. cbn [app] in E.
  apply (seqZ_after _ _ _ _ _ _ E). rewrite elem_of_app, elem_of_cons. auto.
Qed.

Lemma upwards_in_time : Y <= sy -> in_time (seqZ 0 h).
Proof. intros Hle a b i j E Hj [Heq _]. pose proof (seqZ_after _ _ _ _ _ _ E Hj). lia. Qed.

Lemma downwards_in_time : sy < Y -> in_time (reverse (seqZ 0 h)).
Proof.
  intros Hlt a b i j E Hj [Heq _]. apply (f_equal reverse) in E. rewrite reverse_involutive, reverse_app, reverse_cons, <- app_assoc in E.
  assert (j < i); [|lia]. apply (seqZ_before _ _ _ _ _ _ E). apply elem_of_reverse, Hj.
Qed.

(** Areas that share no pixel. *)
Definition separate : Prop := X + w <= sx \/ sx + w <= X \/ Y + h <= sy \/ sy + h <= Y.

Lemma separate_in_time : separate -> in_time (seqZ 0 h).
Proof.
  intros Hs a b i j E Hj [Heq Hc].
  assert (Hi : i ∈ seqZ 0 h) by (rewrite E, elem_of_app, elem_of_cons; auto). assert (Hj' : j ∈ seqZ 0 h) by (rewrite E, elem_of_app, elem_of_cons; auto).
  apply elem_of_seqZ in Hi, Hj'. unfold separate in Hs. lia.
Qed.

Lemma copy_row_separate y d : separate -> 0 <= y < h -> copy_row memcpy hdcSrc X Y w sx sy y (vw d) = copy_row memmove hdcSrc X Y w sx sy y (vw d).
Proof.
  intros Hs Hy. assert (HW : 0 < W) by apply Hcv. unfold copy_row. change (bind get_dc ?k (vw d)) with (k (dc s) (vw d)). cbv beta. unfold selected.
  rewrite Hsel, !bind_ret, (cv_selected _ _ _ _ _ Hcv), !bind_ret. rewrite !(bind_Done _ _ _ _ _ (source_row_pointer y d Hy)).
  rewrite !(bind_Done _ _ _ _ _ (dest_pointer n Hn s db m Hm N Hcv X Y w h HX HXw HY HYh d y Hw Hy)).
  unfold memcpy. rewrite Nat.eqb_refl, (cv_bytes _ _ _ _ _ Hcv). cbn [andb].
  destruct (_ && _) eqn:E; [|reflexivity]. exfalso. apply andb_true_iff in E as [E1 E2]. apply Z.ltb_lt in E1, E2.
  assert (H1 : (Y + y) * W + X < (sy + y) * W + sx + w) by nia. assert (H2 : (sy + y) * W + sx < (Y + y) * W + X + w) by nia.
  assert (Y = sy) by nia. unfold separate in Hs. nia.
Qed.

(** Moving all rows in one of the orders in time. *)
Lemma copy_moves copy l : (copy = memmove \/ copy = memcpy /\ separate) -> (forall y, y ∈ l -> 0 <= y < h) -> (forall y, 0 <= y < h -> y ∈ l) -> NoDup l -> in_time l ->
  forall d, length d = (n * N)%nat -> exists d', each l (copy_row copy hdcSrc X Y w sx sy) (vw d) = Done (tt, vw d') /\ length d' = (n * N)%nat /\
    forall q, pix n d' q = pix n d (if in_box W X Y w h q then origin q else q).
Proof.
  intros Hc Hl Hall Hnd Ht d Hd. destruct (rows_moved (copy_row copy hdcSrc X Y w sx sy) l) with (d := d) as (d' & E & Hl' & Hq); auto.
  - intros y d1 Hy Hd1. specialize (Hl y Hy). destruct Hc as [-> |[-> Hs] ]; [|rewrite copy_row_separate by assumption]; apply move_row_run; assumption.
  - exists d'. split; [exact E|]. split; [exact Hl'|]. intros q. rewrite Hq, <- box_rows.
    enough (Ex : existsb (fun y => in_row W X w (Y + y) q) l = existsb (fun y => in_row W X w (Y + y) q) (seqZ 0 h)) by (rewrite Ex; reflexivity).
    apply Bool.eq_iff_eq_true. rewrite !existsb_exists. split; intros (y & Hy & Er); exists y; apply list_elem_of_In in Hy; split; try exact Er; apply list_elem_of_In.
    + apply elem_of_seqZ. specialize (Hl y Hy). lia.
    + apply Hall. apply elem_of_seqZ in Hy. lia.
Qed.

Lemma srccopy_moves : gdi_CopyOverlap X Y w h sx sy = true \/ separate -> forall d, length d = (n * N)%nat ->
  exists d', BitBlt_SRCCOPY X Y w h (Some hdcSrc, sx, sy) (vw d) = Done (0, vw d') /\ length d' = (n * N)%nat /\
    forall q, pix n d' q = pix n d (if in_box W X Y w h q then origin q else q).
Proof.
  intros Hov d Hd. unfold BitBlt_SRCCOPY. change (bind get_dc ?k (vw d)) with (k (dc s) (vw d)). cbv beta.
  rewrite (cv_selected _ _ _ _ _ Hcv), Hsel, bool_decide_eq_false_2 by congruence. cbn [orb].
  assert (Hup : forall y, y ∈ seqZ 0 h <-> 0 <= y < h) by (intros y; rewrite elem_of_seqZ; lia).
  assert (Hdown : forall y, y ∈ reverse (seqZ 0 h) <-> 0 <= y < h) by (intros y; rewrite elem_of_reverse; apply Hup).
  destruct (gdi_CopyOverlap X Y w h sx sy) eqn:Eov; cbn [negb].
  - destruct (Z.ltb_spec sy Y) as [Hlt|Hge].
    + destruct (copy_moves memmove (reverse (seqZ 0 h))) with (d := d) as (d' & E & H); auto; [apply Hdown..|rewrite reverse_Permutation; apply NoDup_seqZ|apply downwards_in_time, Hlt|].
      exists d'. split; [|exact H]. unfold bind. rewrite for_down_each, E. reflexivity.
    + destruct (copy_moves memmove (seqZ 0 h)) with (d := d) as (d' & E & H); auto; [apply Hup..|apply NoDup_seqZ|apply upwards_in_time, Hge|].
      exists d'. split; [|exact H]. unfold bind. rewrite for_up_each, E. reflexivity.
  - destruct Hov as [Hov|Hs]; [discriminate|].
    destruct (copy_moves memcpy (seqZ 0 h)) with (d := d) as (d' & E & H); auto; [apply Hup..|apply NoDup_seqZ|apply separate_in_time, Hs|].
    exists d'. split; [|exact H]. unfold bind. rewrite for_up_each, E. reflexivity.
Qed.
End Scroll.

(** The areas of a copy inside of a bitmap. *)
Record scroll_fits (m : GDI_BITMAP) (X Y w h sx sy : Z) : Prop := {
  sf_width : 0 < w;
  sf_left : 0 <= X /\ X + w <= bmp_width m;
  sf_top : 0 <= Y /\ Y + h <= bmp_height m;
  sf_sleft : 0 <= sx /\ sx + w <= bmp_width m;
  sf_stop : 0 <= sy /\ sy + h <= bmp_height m;
  sf_ints : near (bmp_width m) /\ near (bmp_height m) /\ len (bmp_data m) < 2 ^ 31;
}.

(** C37. Scrolling: a copy inside of one bitmap, between areas that
    [gdi_CopyOverlap] sees overlap or that share no pixel, moves every pixel as it
    was before the copy: rows are taken in an order in which none is overwritten
    before it is copied, and nothing else changes. Both areas lie in the bitmap,
    whose size no [int] overflows with. *)
Theorem scroll_moves n s db m hdcSrc X Y w h sx sy : canvas_ready n s db m -> selectedObject hdcSrc = Some db -> bytesPerPixel hdcSrc = Z.of_nat n ->
  scroll_fits m X Y w h sx sy -> gdi_CopyOverlap X Y w h sx sy = true \/ separate X Y w h sx sy ->
  exists d', BitBlt_SRCCOPY X Y w h (Some hdcSrc, sx, sy) s = Done (0, mkGdi (dc s) (<[db := m <| bmp_data := d' |>]> (store s))) /\
    length d' = length (bmp_data m) /\
    forall px py, 0 <= px < bmp_width m -> 0 <= py < bmp_height m ->
      (in_area X Y w h px py -> pixel_at n (m <| bmp_data := d' |>) px py = pixel_at n m (sx + (px - X)) (sy + (py - Y))) /\
      (~ in_area X Y w h px py -> pixel_at n (m <| bmp_data := d' |>) px py = pixel_at n m px py).
Proof.
  intros Hr Hsel Hby [Hw [HX HXw] [HY HYh] [Hsx Hsxw] [Hsy Hsyh] _] Hov. pose proof (cr_picture _ _ _ _ Hr) as [HW HH Hdata].
  pose proof (cr_bitmap _ _ _ _ Hr) as Hm.
  assert (Hcv : canvas n s db m (Z.to_nat (bmp_width m * bmp_height m)))
    by (split; [exact (cr_selected _ _ _ _ Hr)|exact (cr_bytes _ _ _ _ Hr)|exact HW|nia]).
  destruct (srccopy_moves n (depth_nonzero n (cr_depth _ _ _ _ Hr)) s db m Hm _ Hcv hdcSrc Hsel Hby X Y w h sx sy Hw HX HXw HY HYh Hsx Hsxw Hsy Hsyh Hov (bmp_data m) Hdata)
    as (d' & E & Hl & Hq). rewrite (view_same s db m Hm) in E.
  exists d'. split; [exact E|]. split; [congruence|]. intros px py Hx Hy. destruct (pixel_number m px py Hx Hy) as (_ & Hc & Hro).
  change (pixel_at n (m <| bmp_data := d' |>) px py) with (pix n d' (Z.to_nat (py * bmp_width m + px))). rewrite Hq. unfold in_box. rewrite Hc, Hro.
  unfold in_area. split; intros Hin.
  - rewrite (proj2 (Z.leb_le _ _)), (proj2 (Z.ltb_lt _ _)), (proj2 (Z.leb_le _ _)), (proj2 (Z.ltb_lt _ _)) by lia. cbn [andb].
    unfold pixel_at, origin. do 2 f_equal. nia.
  - destruct (_ && _) eqn:Ein; [|reflexivity]. exfalso. apply Hin. rewrite !andb_true_iff, !Z.leb_le, !Z.ltb_lt in Ein. lia.
Qed.

(** A picture of two columns and five rows. *)
Definition sample_column : GDI_BITMAP := mkGdiBitmap 1 8 2 5 2 [1; 2; 3; 4; 5; 6; 7; 8; 9; 10].
Definition sample_page : gdi := mkGdi sample_dc [sample_column].

Lemma sample_page_ready : canvas_ready 1 sample_page 0 sample_column.
Proof.
  split; try reflexivity; [apply (bool_decide_unpack _); reflexivity| |discriminate|].
  - split; reflexivity.
  - intros wnd E. injection E as <-. split; vm_compute; try split; congruence.
Qed.

Lemma scroll_moves_witness :
  exists d', BitBlt_SRCCOPY 0 1 2 4 (Some sample_dc, 0, 0) sample_page =
    Done (0, mkGdi (dc sample_page) (<[0%nat := sample_column <| bmp_data := d' |>]> (store sample_page))) /\
  d' = [1; 2; 1; 2; 3; 4; 5; 6; 7; 8].
Proof.
  destruct (scroll_moves 1 sample_page 0 sample_column sample_dc 0 1 2 4 0 0 sample_page_ready eq_refl eq_refl) as (d' & E & _).
  - split; try (vm_compute; try split; congruence). repeat split; reflexivity.
  - left. reflexivity.
  - exists d'. split; [exact E|]. vm_compute in E. injection E as <-. reflexivity.
Defined.

(** ** Where it goes wrong *)

(** Areas that share exactly one row are taken for separate: moving a block down
    by all but one of its rows loses that row, which is overwritten before it is
    copied; and areas that share exactly one column are given to [memcpy], whose
    behaviour is then undefined. *)
Theorem shared_row_lost :
  gdi_CopyOverlap 0 1 2 2 0 0 = false /\
  (exists d', BitBlt_SRCCOPY 0 1 2 2 (Some sample_dc, 0, 0) sample_page =
     Done (0, mkGdi sample_dc [sample_column <| bmp_data := d' |>]) /\
     d' = [1; 2; 1; 2; 1; 2; 7; 8; 9; 10] /\ d' <> [1; 2; 1; 2; 3; 4; 7; 8; 9; 10]) /\
  gdi_CopyOverlap 1 0 2 1 0 0 = false /\
  BitBlt_SRCCOPY 1 0 2 1 (Some sample_dc, 0, 0) (mkGdi sample_dc [mkGdiBitmap 1 8 3 1 3 [1; 2; 3] ]) = Fault Overlapping.
Proof.
  split; [reflexivity|]. split; [|split; vm_compute; reflexivity].
  eexists. split; [vm_compute; reflexivity|]. split; [reflexivity|discriminate].
Qed.

(** A clip region of negative width, as bounds with their right side left of the
    left one set it, passes [gdi_ClipCoords], and [memset] is asked for a negative
    number of bytes. *)
Theorem reversed_bounds_overrun :
  gdi_ClipCoords (Some sample_column) (mkRgn 1 0 (-1) 5 false) (-1) 0 4 1 None None = mkClipped true 1 0 (-1) 1 None None /\
  gdi_PatBlt (-1) 0 4 1 GDI_WHITENESS (mkGdi (sample_dc <| clip := mkRgn 1 0 (-1) 5 false |>) [sample_column]) = Fault OutOfBounds.
Proof. split; vm_compute; reflexivity. Qed.
