(* ===== verification/Line.v ===== *)
(** Lines of the GDI: [libfreerdp-gdi/include/line.c], which is included once for
    every depth and every way of combining pen and pixel, [line.c], [pen.c] and
    the draw mode of [drawing.c].

    The theorem shows that the loop ends, and which pixels it draws: those of the
    ideal line, rounded to the nearest pixel, without the last one. *)

From coqutil Require Import Datatypes.RecordSetters.
From S2P Require Import Prelude.
From S2P Require Import Stream.
From S2P Require Import Gcc.
From S2P Require Import Regions.
From S2P Require Import Color.
From S2P Require Import Blit.
From S2P Require Import BlitSpec.
From S2P Require Import BlitScroll.
Import TriangleBracketNotations.

(** ** Pens and the draw mode *)

(** A new pen; its position, [garbage] here, is what [malloc] left there. *)
Definition gdi_CreatePen (fnPenStyle nWidth crColor : Z) (garbage : Z * Z) : GDI_PEN :=
  mkPen fnPenStyle nWidth garbage.1 garbage.2 crColor.

Definition gdi_GetPenColor_8bpp (pen : GDI_PEN) : Z := 0xFF.

(** The colour is reduced to 565 before [RGB16] reduces it again. *)
Definition gdi_GetPenColor_16bpp (pen : GDI_PEN) : Z :=
  let '(r, g, b) := GetRGB32 (pen_color pen) in
  RGB16 (Z.shiftr r 3) (Z.shiftr g 2) (Z.shiftr b 3).

Definition gdi_GetPenColor_32bpp (pen : GDI_PEN) : Z := pen_color pen.

Definition gdi_GetROP2 (hdc : GDI_DC) : Z := drawMode hdc.

Definition gdi_SetROP2 (fnDrawMode : Z) : M gdi Z := fun s =>
  Done (drawMode (dc s), if (0 <? fnDrawMode) && (fnDrawMode <=? 16) then s <| dc := (dc s) <| drawMode := fnDrawMode |> |> else s).

Definition gdi_GetBkColor (hdc : GDI_DC) : Z := bkColor hdc.

Definition gdi_SetBkColor (crColor : Z) : M gdi Z := fun s => Done (bkColor (dc s), s <| dc := (dc s) <| bkColor := crColor |> |>).

Definition gdi_GetBkMode (hdc : GDI_DC) : Z := bkMode hdc.

Definition GDI_OPAQUE : Z := 1.
Definition GDI_TRANSPARENT : Z := 2.

Definition gdi_SetBkMode (iBkMode : Z) : M gdi Z := fun s =>
  Done (0, s <| dc := (dc s) <| bkMode := if (iBkMode =? GDI_OPAQUE) || (iBkMode =? GDI_TRANSPARENT) then iBkMode else GDI_OPAQUE |> |>).

Definition gdi_SetTextColor (crColor : Z) : M gdi Z := fun s => Done (textColor (dc s), s <| dc := (dc s) <| textColor := crColor |> |>).

(** The position before the move, and the move. *)
Definition gdi_MoveToEx (X Y : Z) : M gdi (Z * Z) := fun s =>
  Done ((posX (pen (dc s)), posY (pen (dc s))), s <| dc := (dc s) <| pen := (pen (dc s)) <| posX := X |> <| posY := Y |> |> |>).

(** ** include/line.c *)

Section LineTo.
Context (n : nat) (pen_color_of : GDI_PEN -> Z) (set_pixel : Z -> Z -> Z).

(** The rectangle that is drawn into. *)
Definition line_box (hdc : GDI_DC) (bmp : GDI_BITMAP) (x1 y1 x2 y2 : Z) : GDI_RECT :=
  let r := if rgn_null (clip hdc)
           then mkGdiRect (Z.min x1 x2) (Z.min y1 y2) (Z.max x1 x2) (Z.max y1 y2)
           else mkGdiRect (rgn_x (clip hdc)) (rgn_y (clip hdc)) (rgn_x (clip hdc) + rgn_w (clip hdc) - 1) (rgn_y (clip hdc) + rgn_h (clip hdc) - 1) in
  mkGdiRect (Z.max (left r) 0) (Z.max (top r) 0) (Z.min (right r) (bmp_width bmp - 1)) (Z.min (bottom r) (bmp_height bmp - 1)).

(** [pixel = GDI_GET_POINTER(bmp, x, y); SET_PIXEL_ROP2(pixel, &pen);] *)
Definition plot (db : nat) (width pen : Z) (box : GDI_RECT) (x y : Z) : M gdi unit :=
  if (left box <=? x) && (x <=? right box) && ((top box <=? y) && (y <=? bottom box)) then
    let p := y * width * Z.of_nat n + x * Z.of_nat n in
    let! vD := load n db p in save n db p (set_pixel vD pen)
  else ret tt.

Fixpoint line_loop (fuel : nat) (draw : Z -> Z -> M gdi unit) (x2 y2 dx dy sx sy x y e : Z) : M gdi unit :=
  match fuel with
  | O => fail Diverges
  | S fuel' =>
      if negb ((x =? x2) && (y =? y2)) then
        draw x y;;
        let e2 := 2 * e in
        let e := if - dy <? e2 then e - dy else e in
        let x := if - dy <? e2 then x + sx else x in
        let '(e, y) := if e2 <? dx then (e + dx, y + sy) else (e, y) in
        line_loop fuel' draw x2 y2 dx dy sx sy x y e
      else ret tt
  end.

Definition LINE_TO (nXEnd nYEnd : Z) : M gdi Z :=
  let! hdc := get_dc in
  let x1 := posX (pen hdc) in
  let y1 := posY (pen hdc) in
  let dx := if nXEnd <? x1 then x1 - nXEnd else nXEnd - x1 in
  let dy := if nYEnd <? y1 then y1 - nYEnd else nYEnd - y1 in
  let sx := if x1 <? nXEnd then 1 else -1 in
  let sy := if y1 <? nYEnd then 1 else -1 in
  let! db := selected hdc in
  let! bmp := bitmap_at db in
  let box := line_box hdc bmp x1 y1 nXEnd nYEnd in
  line_loop (S (Z.to_nat (Z.max dx dy))) (plot db (bmp_width bmp) (pen_color_of (pen hdc)) box) nXEnd nYEnd dx dy sx sy x1 y1 (dx - dy);;
  ret 1.
End LineTo.

(** *** 8 bits per pixel *)

Definition SetPixel_BLACK_8bpp (D P : Z) : Z := 0.
Definition SetPixel_NOTMERGEPEN_8bpp (D P : Z) : Z := Z.lnot (Z.lor D P).
Definition SetPixel_MASKNOTPEN_8bpp (D P : Z) : Z := Z.land D (Z.lnot P).
Definition SetPixel_NOTCOPYPEN_8bpp (D P : Z) : Z := Z.lnot P.
Definition SetPixel_MASKPENNOT_8bpp (D P : Z) : Z := Z.land P (Z.lnot D).
Definition SetPixel_NOT_8bpp (D P : Z) : Z := Z.lnot D.
Definition SetPixel_XORPEN_8bpp (D P : Z) : Z := Z.lxor D P.
Definition SetPixel_NOTMASKPEN_8bpp (D P : Z) : Z := Z.lnot (Z.land D P).
Definition SetPixel_MASKPEN_8bpp (D P : Z) : Z := Z.land D P.
Definition SetPixel_NOTXORPEN_8bpp (D P : Z) : Z := Z.lnot (Z.lxor D P).
Definition SetPixel_NOP_8bpp (D P : Z) : Z := D.
Definition SetPixel_MERGENOTPEN_8bpp (D P : Z) : Z := Z.lor D (Z.lnot P).
Definition SetPixel_COPYPEN_8bpp (D P : Z) : Z := P.
Definition SetPixel_MERGEPENNOT_8bpp (D P : Z) : Z := Z.lor P (Z.lnot D).
Definition SetPixel_MERGEPEN_8bpp (D P : Z) : Z := Z.lor D P.
Definition SetPixel_WHITE_8bpp (D P : Z) : Z := 0xFF.

Definition LineTo_BLACK_8bpp := LINE_TO 1 gdi_GetPenColor_8bpp SetPixel_BLACK_8bpp.
Definition LineTo_NOTMERGEPEN_8bpp := LINE_TO 1 gdi_GetPenColor_8bpp SetPixel_NOTMERGEPEN_8bpp.
Definition LineTo_MASKNOTPEN_8bpp := LINE_TO 1 gdi_GetPenColor_8bpp SetPixel_MASKNOTPEN_8bpp.
Definition LineTo_NOTCOPYPEN_8bpp := LINE_TO 1 gdi_GetPenColor_8bpp SetPixel_NOTCOPYPEN_8bpp.
Definition LineTo_MASKPENNOT_8bpp := LINE_TO 1 gdi_GetPenColor_8bpp SetPixel_MASKPENNOT_8bpp.
Definition LineTo_NOT_8bpp := LINE_TO 1 gdi_GetPenColor_8bpp SetPixel_NOT_8bpp.
Definition LineTo_XORPEN_8bpp := LINE_TO 1 gdi_GetPenColor_8bpp SetPixel_XORPEN_8bpp.
Definition LineTo_NOTMASKPEN_8bpp := LINE_TO 1 gdi_GetPenColor_8bpp SetPixel_NOTMASKPEN_8bpp.
Definition LineTo_MASKPEN_8bpp := LINE_TO 1 gdi_GetPenColor_8bpp SetPixel_MASKPEN_8bpp.
Definition LineTo_NOTXORPEN_8bpp := LINE_TO 1 gdi_GetPenColor_8bpp SetPixel_NOTXORPEN_8bpp.
Definition LineTo_NOP_8bpp := LINE_TO 1 gdi_GetPenColor_8bpp SetPixel_NOP_8bpp.
Definition LineTo_MERGENOTPEN_8bpp := LINE_TO 1 gdi_GetPenColor_8bpp SetPixel_MERGENOTPEN_8bpp.
Definition LineTo_COPYPEN_8bpp := LINE_TO 1 gdi_GetPenColor_8bpp SetPixel_COPYPEN_8bpp.
Definition LineTo_MERGEPENNOT_8bpp := LINE_TO 1 gdi_GetPenColor_8bpp SetPixel_MERGEPENNOT_8bpp.
Definition LineTo_MERGEPEN_8bpp := LINE_TO 1 gdi_GetPenColor_8bpp SetPixel_MERGEPEN_8bpp.
Definition LineTo_WHITE_8bpp := LINE_TO 1 gdi_GetPenColor_8bpp SetPixel_WHITE_8bpp.

Definition LineTo_ROP2_8bpp : list (option (Z -> Z -> M gdi Z)) :=
  [Some LineTo_BLACK_8bpp; Some LineTo_NOTMERGEPEN_8bpp; Some LineTo_MASKNOTPEN_8bpp; Some LineTo_NOTCOPYPEN_8bpp;
   Some LineTo_MASKPENNOT_8bpp; Some LineTo_NOT_8bpp; Some LineTo_XORPEN_8bpp; Some LineTo_NOTMASKPEN_8bpp;
   Some LineTo_MASKPEN_8bpp; Some LineTo_NOTXORPEN_8bpp; Some LineTo_NOP_8bpp; Some LineTo_MERGENOTPEN_8bpp;
   Some LineTo_COPYPEN_8bpp; Some LineTo_MERGEPENNOT_8bpp; Some LineTo_MERGEPEN_8bpp; Some LineTo_WHITE_8bpp ] ++
  replicate 16 None.

Definition LineTo_8bpp (nXEnd nYEnd : Z) : M gdi Z :=
  let! hdc := get_dc in
  let rop2 := gdi_GetROP2 hdc - 1 in
  if rop2 <? 0 then fail OutOfBounds else
  match LineTo_ROP2_8bpp !! Z.to_nat rop2 with
  | Some (Some line) => line nXEnd nYEnd
  | Some None => ret 0
  | None => fail OutOfBounds
  end.

(** *** 16 bits per pixel *)

Definition SetPixel_BLACK_16bpp (D P : Z) : Z := 0.
Definition SetPixel_NOTMERGEPEN_16bpp (D P : Z) : Z := Z.lnot (Z.lor D P).
Definition SetPixel_MASKNOTPEN_16bpp (D P : Z) : Z := Z.land D (Z.lnot P).
Definition SetPixel_NOTCOPYPEN_16bpp (D P : Z) : Z := Z.lnot P.
Definition SetPixel_MASKPENNOT_16bpp (D P : Z) : Z := Z.land P (Z.lnot D).
Definition SetPixel_NOT_16bpp (D P : Z) : Z := Z.lnot D.
Definition SetPixel_XORPEN_16bpp (D P : Z) : Z := Z.lxor D P.
Definition SetPixel_NOTMASKPEN_16bpp (D P : Z) : Z := Z.lnot (Z.land D P).
Definition SetPixel_MASKPEN_16bpp (D P : Z) : Z := Z.land D P.
Definition SetPixel_NOTXORPEN_16bpp (D P : Z) : Z := Z.lnot (Z.lxor D P).
Definition SetPixel_NOP_16bpp (D P : Z) : Z := D.
Definition SetPixel_MERGENOTPEN_16bpp (D P : Z) : Z := Z.lor D (Z.lnot P).
Definition SetPixel_COPYPEN_16bpp (D P : Z) : Z := P.
Definition SetPixel_MERGEPENNOT_16bpp (D P : Z) : Z := Z.lor P (Z.lnot D).
Definition SetPixel_MERGEPEN_16bpp (D P : Z) : Z := Z.lor D P.
Definition SetPixel_WHITE_16bpp (D P : Z) : Z := 0xFFFF.

Definition LineTo_BLACK_16bpp := LINE_TO 2 gdi_GetPenColor_16bpp SetPixel_BLACK_16bpp.
Definition LineTo_NOTMERGEPEN_16bpp := LINE_TO 2 gdi_GetPenColor_16bpp SetPixel_NOTMERGEPEN_16bpp.
Definition LineTo_MASKNOTPEN_16bpp := LINE_TO 2 gdi_GetPenColor_16bpp SetPixel_MASKNOTPEN_16bpp.
Definition LineTo_NOTCOPYPEN_16bpp := LINE_TO 2 gdi_GetPenColor_16bpp SetPixel_NOTCOPYPEN_16bpp.
Definition LineTo_MASKPENNOT_16bpp := LINE_TO 2 gdi_GetPenColor_16bpp SetPixel_MASKPENNOT_16bpp.
Definition LineTo_NOT_16bpp := LINE_TO 2 gdi_GetPenColor_16bpp SetPixel_NOT_16bpp.
Definition LineTo_XORPEN_16bpp := LINE_TO 2 gdi_GetPenColor_16bpp SetPixel_XORPEN_16bpp.
Definition LineTo_NOTMASKPEN_16bpp := LINE_TO 2 gdi_GetPenColor_16bpp SetPixel_NOTMASKPEN_16bpp.
Definition LineTo_MASKPEN_16bpp := LINE_TO 2 gdi_GetPenColor_16bpp SetPixel_MASKPEN_16bpp.
Definition LineTo_NOTXORPEN_16bpp := LINE_TO 2 gdi_GetPenColor_16bpp SetPixel_NOTXORPEN_16bpp.
Definition LineTo_NOP_16bpp := LINE_TO 2 gdi_GetPenColor_16bpp SetPixel_NOP_16bpp.
Definition LineTo_MERGENOTPEN_16bpp := LINE_TO 2 gdi_GetPenColor_16bpp SetPixel_MERGENOTPEN_16bpp.
Definition LineTo_COPYPEN_16bpp := LINE_TO 2 gdi_GetPenColor_16bpp SetPixel_COPYPEN_16bpp.
Definition LineTo_MERGEPENNOT_16bpp := LINE_TO 2 gdi_GetPenColor_16bpp SetPixel_MERGEPENNOT_16bpp.
Definition LineTo_MERGEPEN_16bpp := LINE_TO 2 gdi_GetPenColor_16bpp SetPixel_MERGEPEN_16bpp.
Definition LineTo_WHITE_16bpp := LINE_TO 2 gdi_GetPenColor_16bpp SetPixel_WHITE_16bpp.

Definition LineTo_ROP2_16bpp : list (option (Z -> Z -> M gdi Z)) :=
  [Some LineTo_BLACK_16bpp; Some LineTo_NOTMERGEPEN_16bpp; Some LineTo_MASKNOTPEN_16bpp; Some LineTo_NOTCOPYPEN_16bpp;
   Some LineTo_MASKPENNOT_16bpp; Some LineTo_NOT_16bpp; Some LineTo_XORPEN_16bpp; Some LineTo_NOTMASKPEN_16bpp;
   Some LineTo_MASKPEN_16bpp; Some LineTo_NOTXORPEN_16bpp; Some LineTo_NOP_16bpp; Some LineTo_MERGENOTPEN_16bpp;
   Some LineTo_COPYPEN_16bpp; Some LineTo_MERGEPENNOT_16bpp; Some LineTo_MERGEPEN_16bpp; Some LineTo_WHITE_16bpp ] ++
  replicate 16 None.

Definition LineTo_16bpp (nXEnd nYEnd : Z) : M gdi Z :=
  let! hdc := get_dc in
  let rop2 := gdi_GetROP2 hdc - 1 in
  if rop2 <? 0 then fail OutOfBounds else
  match LineTo_ROP2_16bpp !! Z.to_nat rop2 with
  | Some (Some line) => line nXEnd nYEnd
  | Some None => ret 0
  | None => fail OutOfBounds
  end.

(** *** 32 bits per pixel *)

Definition SetPixel_BLACK_32bpp (D P : Z) : Z := 0.
Definition SetPixel_NOTMERGEPEN_32bpp (D P : Z) : Z := Z.lnot (Z.lor D P).
Definition SetPixel_MASKNOTPEN_32bpp (D P : Z) : Z := Z.land D (Z.lnot P).
Definition SetPixel_NOTCOPYPEN_32bpp (D P : Z) : Z := Z.lnot P.
Definition SetPixel_MASKPENNOT_32bpp (D P : Z) : Z := Z.land P (Z.lnot D).
Definition SetPixel_NOT_32bpp (D P : Z) : Z := Z.lnot D.
Definition SetPixel_XORPEN_32bpp (D P : Z) : Z := Z.lxor D P.
Definition SetPixel_NOTMASKPEN_32bpp (D P : Z) : Z := Z.lnot (Z.land D P).
Definition SetPixel_MASKPEN_32bpp (D P : Z) : Z := Z.land D P.
Definition SetPixel_NOTXORPEN_32bpp (D P : Z) : Z := Z.lnot (Z.lxor D P).
Definition SetPixel_NOP_32bpp (D P : Z) : Z := D.
Definition SetPixel_MERGENOTPEN_32bpp (D P : Z) : Z := Z.lor D (Z.lnot P).
Definition SetPixel_COPYPEN_32bpp (D P : Z) : Z := P.
Definition SetPixel_MERGEPENNOT_32bpp (D P : Z) : Z := Z.lor P (Z.lnot D).
Definition SetPixel_MERGEPEN_32bpp (D P : Z) : Z := Z.lor D P.
Definition SetPixel_WHITE_32bpp (D P : Z) : Z := 0xFFFFFF.

Definition LineTo_BLACK_32bpp := LINE_TO 4 gdi_GetPenColor_32bpp SetPixel_BLACK_32bpp.
Definition LineTo_NOTMERGEPEN_32bpp := LINE_TO 4 gdi_GetPenColor_32bpp SetPixel_NOTMERGEPEN_32bpp.
Definition LineTo_MASKNOTPEN_32bpp := LINE_TO 4 gdi_GetPenColor_32bpp SetPixel_MASKNOTPEN_32bpp.
Definition LineTo_NOTCOPYPEN_32bpp := LINE_TO 4 gdi_GetPenColor_32bpp SetPixel_NOTCOPYPEN_32bpp.
Definition LineTo_MASKPENNOT_32bpp := LINE_TO 4 gdi_GetPenColor_32bpp SetPixel_MASKPENNOT_32bpp.
Definition LineTo_NOT_32bpp := LINE_TO 4 gdi_GetPenColor_32bpp SetPixel_NOT_32bpp.
Definition LineTo_XORPEN_32bpp := LINE_TO 4 gdi_GetPenColor_32bpp SetPixel_XORPEN_32bpp.
Definition LineTo_NOTMASKPEN_32bpp := LINE_TO 4 gdi_GetPenColor_32bpp SetPixel_NOTMASKPEN_32bpp.
Definition LineTo_MASKPEN_32bpp := LINE_TO 4 gdi_GetPenColor_32bpp SetPixel_MASKPEN_32bpp.
Definition LineTo_NOTXORPEN_32bpp := LINE_TO 4 gdi_GetPenColor_32bpp SetPixel_NOTXORPEN_32bpp.
Definition LineTo_NOP_32bpp := LINE_TO 4 gdi_GetPenColor_32bpp SetPixel_NOP_32bpp.
Definition LineTo_MERGENOTPEN_32bpp := LINE_TO 4 gdi_GetPenColor_32bpp SetPixel_MERGENOTPEN_32bpp.
Definition LineTo_COPYPEN_32bpp := LINE_TO 4 gdi_GetPenColor_32bpp SetPixel_COPYPEN_32bpp.
Definition LineTo_MERGEPENNOT_32bpp := LINE_TO 4 gdi_GetPenColor_32bpp SetPixel_MERGEPENNOT_32bpp.
Definition LineTo_MERGEPEN_32bpp := LINE_TO 4 gdi_GetPenColor_32bpp SetPixel_MERGEPEN_32bpp.
Definition LineTo_WHITE_32bpp := LINE_TO 4 gdi_GetPenColor_32bpp SetPixel_WHITE_32bpp.

Definition LineTo_ROP2_32bpp : list (option (Z -> Z -> M gdi Z)) :=
  [Some LineTo_BLACK_32bpp; Some LineTo_NOTMERGEPEN_32bpp; Some LineTo_MASKNOTPEN_32bpp; Some LineTo_NOTCOPYPEN_32bpp;
   Some LineTo_MASKPENNOT_32bpp; Some LineTo_NOT_32bpp; Some LineTo_XORPEN_32bpp; Some LineTo_NOTMASKPEN_32bpp;
   Some LineTo_MASKPEN_32bpp; Some LineTo_NOTXORPEN_32bpp; Some LineTo_NOP_32bpp; Some LineTo_MERGENOTPEN_32bpp;
   Some LineTo_COPYPEN_32bpp; Some LineTo_MERGEPENNOT_32bpp; Some LineTo_MERGEPEN_32bpp; Some LineTo_WHITE_32bpp ] ++
  replicate 16 None.

Definition LineTo_32bpp (nXEnd nYEnd : Z) : M gdi Z :=
  let! hdc := get_dc in
  let rop2 := gdi_GetROP2 hdc - 1 in
  if rop2 <? 0 then fail OutOfBounds else
  match LineTo_ROP2_32bpp !! Z.to_nat rop2 with
  | Some (Some line) => line nXEnd nYEnd
  | Some None => ret 0
  | None => fail OutOfBounds
  end.

(** ** line.c *)

Definition gdi_LineTo (nXEnd nYEnd : Z) : M gdi Z :=
  let! hdc := get_dc in
  let i := IBPP (bitsPerPixel hdc) in
  if i =? 1 then LineTo_8bpp nXEnd nYEnd
  else if i =? 2 then LineTo_16bpp nXEnd nYEnd
  else if i =? 4 then LineTo_32bpp nXEnd nYEnd
  else ret 0.

Fixpoint gdi_PolylineTo (lppt : list (Z * Z)) : M gdi Z :=
  match lppt with
  | [] => ret 1
  | (x, y) :: lppt' => gdi_LineTo x y;; gdi_MoveToEx x y;; gdi_PolylineTo lppt'
  end.

Definition gdi_Polyline (lppt : list (Z * Z)) : M gdi Z :=
  match lppt with
  | [] => ret 1
  | (x, y) :: _ =>
      let! pt := gdi_MoveToEx x y in
      gdi_PolylineTo lppt;;
      gdi_MoveToEx pt.1 pt.2;;
      ret 1
  end.

(** The series lie one after the other in the array. *)
Fixpoint gdi_PolyPolyline (lppt : list (Z * Z)) (lpdwPolyPoints : list nat) : M gdi Z :=
  match lpdwPolyPoints with
  | [] => ret 1
  | c :: rest =>
      if (c <=? length lppt)%nat then gdi_Polyline (take c lppt);; gdi_PolyPolyline (drop c lppt) rest
      else fail OutOfBounds
  end.

(** ** Which pixels a line has *)

(** The nearest integer to [a / b], the smaller one when two are as near. *)
Definition rounded (a b : Z) : Z := (2 * a + b - 1) / (2 * b).

(** Point [k] of a line, counted along the longer side. *)
Definition line_point (x1 y1 dx dy sx sy k : Z) : Z * Z :=
  if dy <=? dx then (x1 + sx * k, y1 + sy * rounded (dy * k) dx) else (x1 + sx * rounded (dx * k) dy, y1 + sy * k).

Lemma rounded_spec a b : 0 < b -> - b <= 2 * (b * rounded a b - a) < b.
Proof.
  intros Hb. unfold rounded. pose proof (Z.div_mod (2 * a + b - 1) (2 * b) ltac:(lia)). pose proof (Z.mod_pos_bound (2 * a + b - 1) (2 * b) ltac:(lia)). lia.
Qed.

Lemma rounded_unique a b j : 0 < b -> - b <= 2 * (b * j - a) < b -> j = rounded a b.
Proof. intros Hb Hj. pose proof (rounded_spec a b Hb). nia. Qed.

(** The error term decides when the shorter side advances. *)
Lemma round_step a b k : 0 <= a <= b -> 0 < b -> let j := rounded (a * k) b in let E := b * (j + 1) - a * (k + 1) in
  - a < 2 * E /\ rounded (a * (k + 1)) b = if 2 * E <? b then j + 1 else j.
Proof.
  intros Ha Hb. cbv zeta. pose proof (rounded_spec (a * k) b Hb) as Hj. set (j := rounded (a * k) b) in *. split.
  - assert (a < b \/ a = b) as [Hlt| ->] by lia; [lia|]. assert (Ej : j = k) by nia. rewrite Ej. lia.
  - symmetry. apply rounded_unique; [exact Hb|]. destruct (Z.ltb_spec (2 * (b * (j + 1) - a * (k + 1))) b); nia.
Qed.

Lemma rounded_0 b : 0 < b -> rounded 0 b = 0.
Proof. intros Hb. symmetry. apply rounded_unique; lia. Qed.

Lemma rounded_end a b : 0 < b -> rounded (a * b) b = a.
Proof. intros Hb. symmetry. apply rounded_unique; nia. Qed.

Section Walk.
Context (x1 y1 x2 y2 dx dy sx sy : Z) (Hdx : 0 <= dx) (Hdy : 0 <= dy) (Hsx : sx = 1 \/ sx = -1) (Hsy : sy = 1 \/ sy = -1).
Context (Hx2 : x2 = x1 + sx * dx) (Hy2 : y2 = y1 + sy * dy).
Local Notation "'point'" := (line_point x1 y1 dx dy sx sy).

Lemma point_start : point 0 = (x1, y1).
Proof.
  unfold line_point. rewrite !Z.mul_0_r, !Z.add_0_r. destruct (Z.leb_spec dy dx).
  - destruct (decide (dx = 0)) as [->|]; [change (rounded 0 0) with 0|rewrite rounded_0 by lia]; f_equal; lia.
  - rewrite rounded_0 by lia. f_equal; lia.
Qed.

Lemma point_end : point (Z.max dx dy) = (x2, y2).
Proof.
  unfold line_point. rewrite Hx2, Hy2. destruct (Z.leb_spec dy dx).
  - rewrite Z.max_l by lia. destruct (decide (dx = 0)) as [->|]; [|rewrite rounded_end by lia; reflexivity].
    assert (dy = 0) as -> by lia. change (rounded (0 * 0) 0) with 0. reflexivity.
  - rewrite Z.max_r, rounded_end by lia. reflexivity.
Qed.

Lemma point_before k : 0 <= k < Z.max dx dy -> point k <> (x2, y2).
Proof. unfold line_point. rewrite Hx2, Hy2. intros Hk. destruct (Z.leb_spec dy dx); intros E; injection E as E1 E2; nia. Qed.

(** The error term at point [k]. *)
Definition error_at (k : Z) : Z :=
  if dy <=? dx then dx * (rounded (dy * k) dx + 1) - dy * (k + 1) else dx * (k + 1) - dy * (rounded (dx * k) dy + 1).

Lemma step_point k x y : 0 <= k < Z.max dx dy -> point k = (x, y) -> let e := error_at k in
  (if - dy <? 2 * e then x + sx else x, if 2 * e <? dx then y + sy else y) = point (k + 1) /\
  (if 2 * e <? dx then (if - dy <? 2 * e then e - dy else e) + dx else if - dy <? 2 * e then e - dy else e) = error_at (k + 1).
Proof.
  unfold line_point, error_at. intros Hk. destruct (Z.leb_spec dy dx) as [Hle|Hgt]; intros E; injection E as <- <-; cbv zeta.
  - destruct (round_step dy dx k ltac:(lia) ltac:(lia)) as [H1 H2]. cbv zeta in H1, H2. rewrite H2, (proj2 (Z.ltb_lt _ _) H1).
    destruct (_ <? dx); (split; [apply f_equal2|]; lia).
  - destruct (round_step dx dy k ltac:(lia) ltac:(lia)) as [H1 H2]. cbv zeta in H1, H2. rewrite H2. set (j := rounded (dx * k) dy) in *.
    rewrite (proj2 (Z.ltb_lt (2 * (dx * (k + 1) - dy * (j + 1))) dx)) by lia.
    destruct (Z.ltb_spec (2 * (dy * (j + 1) - dx * (k + 1))) dy); destruct (Z.ltb_spec (- dy) (2 * (dx * (k + 1) - dy * (j + 1)))); try lia; (split; [apply f_equal2|]; lia).
Qed.

Lemma loop_walks draw m : forall k x y s, Z.of_nat m = Z.max dx dy - k -> 0 <= k -> point k = (x, y) ->
  line_loop (S m) draw x2 y2 dx dy sx sy x y (error_at k) s = each (seqZ k (Z.of_nat m)) (fun k => draw (point k).1 (point k).2) s.
Proof.
  induction m as [|m IH]; intros k x y s Hm Hk Hp.
  - replace k with (Z.max dx dy) in Hp by lia. rewrite point_end in Hp. injection Hp as <- <-. cbn [line_loop]. rewrite !Z.eqb_refl. reflexivity.
  - cbn [line_loop]. assert (Hlt : 0 <= k < Z.max dx dy) by lia. pose proof (point_before k Hlt) as Hne. rewrite Hp in Hne.
    replace ((x =? x2) && (y =? y2)) with false.
    2:{ symmetry. apply not_true_iff_false. intros Heq. apply andb_true_iff in Heq as [E1 E2]. apply Z.eqb_eq in E1, E2. congruence. }
    cbn [negb]. rewrite seqZ_cons by lia. cbn [each]. rewrite Hp. cbn [fst snd]. apply bind_cong. intros _ s'.
    destruct (step_point k x y Hlt Hp) as [E1 E2]. cbv zeta in E1, E2.
    replace (Z.pred (Z.of_nat (S m))) with (Z.of_nat m) by lia. replace (Z.succ k) with (k + 1) by lia.
    rewrite <- (IH (k + 1) _ _ s' ltac:(lia) ltac:(lia) (eq_sym E1)), <- E2. destruct (_ <? dx); reflexivity.
Qed.

Lemma error_start : error_at 0 = dx - dy.
Proof.
  unfold error_at. rewrite !Z.mul_0_r. destruct (Z.leb_spec dy dx).
  - destruct (decide (dx = 0)) as [->|]; [lia|rewrite rounded_0 by lia; lia].
  - rewrite rounded_0 by lia. lia.
Qed.
End Walk.

(** No [int] of the loop overflows: the error term, twice it, and it after either
    correction. *)
Lemma line_ints_fit x1 y1 x2 y2 k : near x1 -> near y1 -> near x2 -> near y2 ->
  let dx := Z.abs (x2 - x1) in let dy := Z.abs (y2 - y1) in 0 <= k < Z.max dx dy ->
  let e := error_at dx dy k in Forall is_int [dx; dy; dx - dy; e; 2 * e; e - dy; e + dx; e - dy + dx].
Proof.
  intros H1 H2 H3 H4 dx dy Hk e. unfold near in *.
  assert (Hd : 0 <= dx < 2 ^ 29 /\ 0 <= dy < 2 ^ 29) by lia. clearbody dx dy. clear H1 H2 H3 H4.
  assert (He : - (2 ^ 31 - 2 ^ 29) < 2 * e < 2 ^ 31 - 2 ^ 29).
  { unfold e, error_at. destruct (Z.leb_spec dy dx).
    - pose proof (rounded_spec (dy * k) dx ltac:(lia)). lia.
    - pose proof (rounded_spec (dx * k) dy ltac:(lia)). lia. }
  clearbody e. repeat (apply Forall_cons_2; [unfold is_int; lia|]). apply Forall_nil_2.
Qed.

(** Lines and bitmaps for which this holds. *)
Record line_near (s : gdi) (m : GDI_BITMAP) (x2 y2 : Z) : Prop := {
  ln_start : near (posX (pen (dc s))) /\ near (posY (pen (dc s)));
  ln_end : near x2 /\ near y2;
  ln_clip : near_rgn (clip (dc s));
  ln_data : len (bmp_data m) < 2 ^ 31;
}.

(** ** What a line draws *)

Lemma rounded_between a b k : 0 <= a -> 0 < b -> 0 <= k <= b -> 0 <= rounded (a * k) b <= a.
Proof. intros Ha Hb Hk. pose proof (rounded_spec (a * k) b Hb). assert (a * k <= a * b) by nia. nia. Qed.

(** A line from [(x1, y1)] to [(x2, y2)], without its end. *)
Definition side (a b : Z) : Z := Z.abs (b - a).
Definition heading (a b : Z) : Z := if a <? b then 1 else -1.
Definition line_from (x1 y1 x2 y2 k : Z) : Z * Z := line_point x1 y1 (side x1 x2) (side y1 y2) (heading x1 x2) (heading y1 y2) k.
Definition on_line (x1 y1 x2 y2 px py : Z) : Prop := exists k, 0 <= k < Z.max (side x1 x2) (side y1 y2) /\ line_from x1 y1 x2 y2 k = (px, py).

Lemma heading_unit a b : heading a b = 1 \/ heading a b = -1.
Proof. unfold heading. destruct (a <? b); auto. Qed.

Lemma heading_side a b : b = a + heading a b * side a b.
Proof. unfold heading, side. destruct (Z.ltb_spec a b); lia. Qed.

Lemma line_from_inj x1 y1 x2 y2 i j : line_from x1 y1 x2 y2 i = line_from x1 y1 x2 y2 j -> i = j.
Proof.
  unfold line_from, line_point. destruct (heading_unit x1 x2), (heading_unit y1 y2). all: destruct (_ <=? _); intros E; injection E as E1 E2; nia.
Qed.

(** Every point lies in the rectangle of both ends. *)
Lemma line_from_between x1 y1 x2 y2 k : 0 <= k < Z.max (side x1 x2) (side y1 y2) ->
  let '(x, y) := line_from x1 y1 x2 y2 k in Z.min x1 x2 <= x <= Z.max x1 x2 /\ Z.min y1 y2 <= y <= Z.max y1 y2.
Proof.
  intros Hk. unfold line_from, line_point. assert (Hs : 0 <= side x1 x2 /\ 0 <= side y1 y2) by (unfold side; lia).
  destruct (Z.leb_spec (side y1 y2) (side x1 x2)).
  - pose proof (rounded_between (side y1 y2) (side x1 x2) k ltac:(lia) ltac:(lia) ltac:(lia)) as Hr. set (j := rounded _ _) in *.
    unfold heading, side in *. destruct (Z.ltb_spec x1 x2), (Z.ltb_spec y1 y2); lia.
  - pose proof (rounded_between (side x1 x2) (side y1 y2) k ltac:(lia) ltac:(lia) ltac:(lia)) as Hr. set (j := rounded _ _) in *.
    unfold heading, side in *. destruct (Z.ltb_spec x1 x2), (Z.ltb_spec y1 y2); lia.
Qed.

Definition in_box_b (r : GDI_RECT) (x y : Z) : bool := (left r <=? x) && (x <=? right r) && ((top r <=? y) && (y <=? bottom r)).

Lemma in_box_b_true r x y : in_box_b r x y = true <-> left r <= x <= right r /\ top r <= y <= bottom r.
Proof. unfold in_box_b. rewrite !andb_true_iff, !Z.leb_le. lia. Qed.

(** The box holds the points of the line that may be drawn. *)
Lemma line_box_allowed hdc bmp x1 y1 x2 y2 px py : on_line x1 y1 x2 y2 px py ->
  in_box_b (line_box hdc bmp x1 y1 x2 y2) px py = true <-> allowed (Some bmp) (clip hdc) px py.
Proof.
  intros (k & Hk & Hp). pose proof (line_from_between x1 y1 x2 y2 k Hk) as Hb. rewrite Hp in Hb.
  rewrite in_box_b_true. unfold line_box, allowed, in_rgn, in_area. destruct (rgn_null (clip hdc)); cbn [left right top bottom].
  - split; [intros H; split; [lia|discriminate]|intros [H _]; lia].
  - split; [intros H; split; [lia|intros _; lia]|intros [H1 H2]; specialize (H2 eq_refl); lia].
Qed.

Section LineDraws.
Context (n : nat) (Hn : n <> 0%nat) (s : gdi) (db : nat) (m : GDI_BITMAP) (Hm : store s !! db = Some m) (Hsel : selectedObject (dc s) = Some db) (Hpic : picture n m).
Context (pen_color_of : GDI_PEN -> Z) (set_pixel : Z -> Z -> Z) (x2 y2 : Z).
Local Notation "'x1'" := (posX (pen (dc s))).
Local Notation "'y1'" := (posY (pen (dc s))).
Local Notation "'W'" := (bmp_width m).
Local Notation "'N'" := (Z.to_nat (bmp_width m * bmp_height m)).
Local Notation "'box'" := (line_box (dc s) m x1 y1 x2 y2).

Definition pen_value : Z := pen_color_of (pen (dc s)).
Definition inked (v : Z) : Z := set_pixel v pen_value mod 256 ^ Z.of_nat n.
Definition touches (k : Z) (q : nat) : bool :=
  let p := line_from x1 y1 x2 y2 k in in_box_b box p.1 p.2 && (Z.of_nat q =? p.2 * W + p.1).

Lemma box_inside x y : in_box_b box x y = true -> 0 <= x < W /\ 0 <= y < bmp_height m.
Proof. rewrite in_box_b_true. unfold line_box. destruct (rgn_null _); cbn [left right top bottom]; lia. Qed.

Lemma plot_paints k : Paints n s db m N (plot n set_pixel db W pen_value box (line_from x1 y1 x2 y2 k).1 (line_from x1 y1 x2 y2 k).2)
  (fun q v => if touches k q then inked v else v).
Proof.
  unfold plot, touches. destruct (line_from x1 y1 x2 y2 k) as [x y]. cbn [fst snd]. fold (in_box_b box x y).
  destruct (in_box_b box x y) eqn:Eb; [|apply Paints_ret]. cbn [andb]. destruct (box_inside x y Eb) as [Hx Hy]. destruct Hpic as [HW HH _].
  set (q0 := Z.to_nat (y * W + x)). assert (Hq0 : Z.of_nat q0 = y * W + x) by (unfold q0; nia).
  assert (Hlt : (q0 + 1 <= N)%nat) by nia.
  assert (Ep : y * W * Z.of_nat n + x * Z.of_nat n = Z.of_nat (n * q0)) by nia. rewrite Ep.
  apply (Paints_write n Hn s db m Hm N q0 1 (fun d => le_bytes n (set_pixel (pix n d q0) pen_value))); [exact Hlt| |].
  - intros d Hd. split; [rewrite length_le_bytes; lia|]. rewrite (bind_Done _ _ _ _ _ (load_view n Hn s db m Hm q0 d ltac:(nia))). reflexivity.
  - intros d q Hd Hq. destruct (Z.eqb_spec (Z.of_nat q) (y * W + x)) as [E|E].
    + assert (q = q0) as -> by lia. rewrite decide_True, Nat.sub_diag, pix_le_bytes by lia. reflexivity.
    + rewrite decide_False by lia. reflexivity.
Qed.

Lemma touches_point k q : touches k q = true -> line_from x1 y1 x2 y2 k = (col W q, row W q).
Proof.
  unfold touches. destruct (line_from x1 y1 x2 y2 k) as [x y]. cbn [fst snd]. intros H. apply andb_true_iff in H as [Hb E]. apply Z.eqb_eq in E.
  destruct (box_inside x y Hb) as [Hx Hy]. apply col_row in E as [-> ->]; [reflexivity|apply Hpic|lia].
Qed.

Lemma line_paints : Paints n s db m N
  (each (seqZ 0 (Z.max (side x1 x2) (side y1 y2))) (fun k => plot n set_pixel db W pen_value box (line_from x1 y1 x2 y2 k).1 (line_from x1 y1 x2 y2 k).2))
  (fun q v => if existsb (fun k => touches k q) (seqZ 0 (Z.max (side x1 x2) (side y1 y2))) then inked v else v).
Proof.
  apply (Paints_each n s db m N _ touches (fun _ => inked)); [|apply NoDup_seqZ|].
  - apply Forall_forall. intros k _. apply plot_paints.
  - intros i j q _ _ Hi Hj. apply touches_point in Hi, Hj. apply (line_from_inj x1 y1 x2 y2). congruence.
Qed.

Lemma line_to_run : LINE_TO n pen_color_of set_pixel x2 y2 s =
  (each (seqZ 0 (Z.max (side x1 x2) (side y1 y2))) (fun k => plot n set_pixel db W pen_value box (line_from x1 y1 x2 y2 k).1 (line_from x1 y1 x2 y2 k).2);; ret 1) s.
Proof.
  unfold LINE_TO. change (bind get_dc ?k s) with (k (dc s) s). cbv beta zeta. unfold selected. rewrite Hsel, bind_ret.
  assert (Eb : bitmap_at db s = Done (m, s)) by (unfold bitmap_at; rewrite Hm; reflexivity). rewrite (bind_Done _ _ _ _ _ Eb).
  assert (Es : forall a b, (if b <? a then a - b else b - a) = side a b) by (intros a b; unfold side; destruct (Z.ltb_spec b a); lia). rewrite !Es.
  fold (heading x1 x2) (heading y1 y2) pen_value. unfold bind at 1.
  assert (Hd : forall a b, 0 <= side a b) by (intros; unfold side; lia).
  replace (side x1 x2 - side y1 y2) with (error_at (side x1 x2) (side y1 y2) 0) by (eapply error_start; eauto using heading_unit, heading_side).
  rewrite (loop_walks x1 y1 x2 y2 (side x1 x2) (side y1 y2) (heading x1 x2) (heading y1 y2) (Hd _ _) (Hd _ _) (heading_unit _ _) (heading_unit _ _)
    (heading_side _ _) (heading_side _ _) _ (Z.to_nat (Z.max (side x1 x2) (side y1 y2))) 0 x1 y1 s); [|specialize (Hd x1 x2); lia|lia|eapply point_start; eauto using heading_unit, heading_side].
  rewrite Z2Nat.id by (specialize (Hd x1 x2); lia). reflexivity.
Qed.

Lemma line_to_draws : exists d', LINE_TO n pen_color_of set_pixel x2 y2 s = Done (1, view s db m d') /\ length d' = length (bmp_data m) /\
  forall px py, 0 <= px < W -> 0 <= py < bmp_height m ->
    (on_line x1 y1 x2 y2 px py /\ allowed (Some m) (clip (dc s)) px py -> pixel_at n (m <| bmp_data := d' |>) px py = inked (pixel_at n m px py)) /\
    (~ (on_line x1 y1 x2 y2 px py /\ allowed (Some m) (clip (dc s)) px py) -> pixel_at n (m <| bmp_data := d' |>) px py = pixel_at n m px py).
Proof.
  destruct (line_paints (bmp_data m) (pc_data _ _ Hpic)) as (d' & E & Hl & Hq). rewrite (view_same s db m Hm) in E.
  exists d'. split; [rewrite line_to_run, (bind_Done _ _ _ _ _ E); reflexivity|]. split; [rewrite Hl; symmetry; apply Hpic|].
  intros px py Hx Hy. destruct (pixel_number m px py Hx Hy) as (Hlt & Hc & Hr). set (q := Z.to_nat (py * W + px)) in *.
  change (pixel_at n (m <| bmp_data := d' |>) px py) with (pix n d' q). rewrite (Hq q Hlt). change (pix n (bmp_data m) q) with (pixel_at n m px py).
  assert (Hiff : existsb (fun k => touches k q) (seqZ 0 (Z.max (side x1 x2) (side y1 y2))) = true <->
    on_line x1 y1 x2 y2 px py /\ allowed (Some m) (clip (dc s)) px py).
  { rewrite existsb_exists. split.
    - intros (k & Hk & Ht). apply list_elem_of_In, elem_of_seqZ in Hk. pose proof (touches_point k q Ht) as Hp. rewrite Hc, Hr in Hp.
      assert (Hon : on_line x1 y1 x2 y2 px py) by (exists k; split; [lia|exact Hp]). split; [exact Hon|]. apply (line_box_allowed _ _ _ _ _ _ _ _ Hon).
      unfold touches in Ht. rewrite Hp in Ht. apply andb_true_iff in Ht as [Ht _]. exact Ht.
    - intros [Hon Ha]. apply (line_box_allowed _ _ _ _ _ _ _ _ Hon) in Ha. destruct Hon as (k & Hk & Hp). exists k. split; [apply list_elem_of_In, elem_of_seqZ; lia|].
      unfold touches. rewrite Hp. cbn [fst snd]. rewrite Ha. cbn [andb]. apply Z.eqb_eq. unfold q. nia. }
  rewrite <- Hiff. destruct (existsb _ _); split; intros H; congruence.
Qed.
End LineDraws.

(** A draw mode as a raster operation: the four bits of [mode - 1] are its table
    for pen and pixel. *)
Definition rop2_code (mode : Z) : Z := 5 * ((mode - 1) mod 4) + 80 * ((mode - 1) / 4).

Definition pen_pixel (n : nat) (pen : GDI_PEN) : Z :=
  match n with 1%nat => gdi_GetPenColor_8bpp pen | 2%nat => gdi_GetPenColor_16bpp pen | _ => gdi_GetPenColor_32bpp pen end.

Definition mode_line (n : nat) (lines : list (option (Z -> Z -> M gdi Z))) (mode : Z) : Prop :=
  exists f, lines !! Z.to_nat (mode - 1) = Some (Some (LINE_TO n (pen_pixel n) f)) /\
    forall D P, f D P mod 256 ^ Z.of_nat n = raster (rop2_code mode) 0 P D mod 256 ^ Z.of_nat n.

Ltac truth_table2 :=
  match goal with |- ?f mod ?b = raster ?c ?S ?P ?D mod ?b =>
    let a := eval red in f in change f with a;
    first [ replace (raster c S P D) with a by truth_table; reflexivity
          | replace (raster c S P D) with (-1) by truth_table; reflexivity ]
  end.

(** All sixteen draw modes. *)
Ltac every_mode :=
  match goal with H : 1 <= ?mode <= 16 |- _ =>
    let Hin := fresh in
    assert (mode = 1 \/ mode = 2 \/ mode = 3 \/ mode = 4 \/ mode = 5 \/ mode = 6 \/ mode = 7 \/ mode = 8 \/ mode = 9 \/ mode = 10 \/
            mode = 11 \/ mode = 12 \/ mode = 13 \/ mode = 14 \/ mode = 15 \/ mode = 16) as Hin by lia;
    repeat (destruct Hin as [->|Hin]; [eexists; split; [reflexivity|intros D P; truth_table2]|]);
    first [contradiction | rewrite Hin; eexists; split; [reflexivity|intros D P; truth_table2] ]
  end.

Lemma modes_8bpp mode : 1 <= mode <= 16 -> mode_line 1 LineTo_ROP2_8bpp mode.
Proof. intros Hm. every_mode. Qed.

Lemma modes_16bpp mode : 1 <= mode <= 16 -> mode_line 2 LineTo_ROP2_16bpp mode.
Proof. intros Hm. every_mode. Qed.

(** [SetPixel_WHITE_32bpp] leaves the highest byte black. *)
Lemma modes_32bpp mode : 1 <= mode <= 16 -> mode <> 16 -> mode_line 4 LineTo_ROP2_32bpp mode.
Proof. intros Hm Hw. every_mode. Qed.

Lemma gdi_line_run n s db m x2 y2 : canvas_ready n s db m -> 1 <= drawMode (dc s) <= 16 -> (n = 4%nat -> drawMode (dc s) <> 16) ->
  exists f, gdi_LineTo x2 y2 s = LINE_TO n (pen_pixel n) f x2 y2 s /\
    forall D P, f D P mod 256 ^ Z.of_nat n = raster (rop2_code (drawMode (dc s))) 0 P D mod 256 ^ Z.of_nat n.
Proof.
  intros Hr Hmode Hwhite. pose proof (cr_bits _ _ _ _ Hr) as Hb. pose proof (cr_depth _ _ _ _ Hr) as Hd. rewrite !elem_of_cons, elem_of_nil in Hd.
  unfold gdi_LineTo. change (bind get_dc ?k s) with (k (dc s) s). cbv beta zeta. rewrite Hb.
  assert (Hx : mode_line n (match n with 1%nat => LineTo_ROP2_8bpp | 2%nat => LineTo_ROP2_16bpp | _ => LineTo_ROP2_32bpp end) (drawMode (dc s))).
  { destruct Hd as [-> |[-> |[-> |[] ] ] ]; [apply modes_8bpp|apply modes_16bpp|apply modes_32bpp]; auto. }
  destruct Hx as (f & El & Hf). exists f. split; [|exact Hf].
  destruct Hd as [-> |[-> |[-> |[] ] ] ]; decide_switch; unfold LineTo_8bpp, LineTo_16bpp, LineTo_32bpp, gdi_GetROP2;
    repeat (change (bind get_dc ?k s) with (k (dc s) s); cbv beta); rewrite (proj2 (Z.ltb_ge (drawMode (dc s) - 1) 0)), El by lia; reflexivity.
Qed.

(** C36. Lines: [gdi_LineTo] ends after as many steps as the longer side has pixels,
    and has drawn exactly the pixels of the ideal line rounded to the nearest
    pixel, without its end, that the clip region allows, each combined with the
    pen by the table of the draw mode; nothing else changes. Both ends are near
    enough for no [int] to overflow, and white at 32 bits per pixel is left out,
    which clears the highest byte. *)
Theorem line_drawn n s db m x2 y2 : canvas_ready n s db m -> line_near s m x2 y2 -> 1 <= drawMode (dc s) <= 16 -> (n = 4%nat -> drawMode (dc s) <> 16) ->
  let x1 := posX (pen (dc s)) in let y1 := posY (pen (dc s)) in
  exists d', gdi_LineTo x2 y2 s = Done (1, mkGdi (dc s) (<[db := m <| bmp_data := d' |>]> (store s))) /\ length d' = length (bmp_data m) /\
    forall px py, 0 <= px < bmp_width m -> 0 <= py < bmp_height m ->
      let drawn := on_line x1 y1 x2 y2 px py /\ allowed (Some m) (clip (dc s)) px py in
      let before := pixel_at n m px py in let after := pixel_at n (m <| bmp_data := d' |>) px py in
      (drawn -> after = raster (rop2_code (drawMode (dc s))) 0 (pen_pixel n (pen (dc s))) before mod 256 ^ Z.of_nat n) /\ (~ drawn -> after = before).
Proof.
  intros Hr _ Hmode Hwhite. cbv zeta. destruct (gdi_line_run n s db m x2 y2 Hr Hmode Hwhite) as (f & E & Hf).
  destruct (line_to_draws n (depth_nonzero n (cr_depth _ _ _ _ Hr)) s db m (cr_bitmap _ _ _ _ Hr) (cr_selected _ _ _ _ Hr) (cr_picture _ _ _ _ Hr) (pen_pixel n) f x2 y2)
    as (d' & E' & Hl & Hd).
  exists d'. split; [rewrite E; exact E'|]. split; [exact Hl|]. intros px py Hx Hy. destruct (Hd px py Hx Hy) as [H1 H2].
  split; [intros H; rewrite (H1 H); apply Hf|exact H2].
Qed.

(** A line of slope one half in a picture of two columns. *)
Lemma line_drawn_witness :
  exists d', gdi_LineTo 2 4 (sample_page <| dc := sample_dc <| drawMode := 7 |> |>) =
    Done (1, mkGdi (sample_dc <| drawMode := 7 |>) (<[0%nat := sample_column <| bmp_data := d' |>]> [sample_column])) /\
  length d' = 10%nat /\ d' = [254; 2; 252; 4; 5; 249; 7; 247; 9; 10].
Proof.
  destruct (line_drawn 1 (sample_page <| dc := sample_dc <| drawMode := 7 |> |>) 0 sample_column 2 4) as (d' & E & Hl & _).
  - destruct sample_page_ready. split; assumption.
  - repeat split; reflexivity.
  - vm_compute. split; congruence.
  - discriminate.
  - exists d'. split; [exact E|]. split; [exact Hl|]. vm_compute in E. injection E as <-. reflexivity.
Defined.
