(* ===== verification/GdiOrders.v ===== *)
(** Drawing orders on the screen: the handlers of [libfreerdp-gdi/gdi.c], which
    the update layer calls with the orders it has received, in terms of the
    transfers, fills and lines of the GDI.

    Memory is not managed here: brushes, pens and patterns are made for one order,
    and a pattern bitmap is the last one of the store while it is used. *)

From coqutil Require Import Datatypes.RecordSetters.
From S2P Require Import Prelude.
From S2P Require Import Stream.
From S2P Require Import Gcc.
From S2P Require Import Orders.
From S2P Require Import Regions.
From S2P Require Import Color.
From S2P Require Import Blit.
From S2P Require Import BlitSpec.
From S2P Require Import BlitScroll.
From S2P Require Import Line.
Import TriangleBracketNotations.

Definition rop3_code_table : list Z :=
  [0x00000042; 0x00010289; 0x00020C89; 0x000300AA; 0x00040C88; 0x000500A9; 0x00060865; 0x000702C5;
   0x00080F08; 0x00090245; 0x000A0329; 0x000B0B2A; 0x000C0324; 0x000D0B25; 0x000E08A5; 0x000F0001;
   0x00100C85; 0x001100A6; 0x00120868; 0x001302C8; 0x00140869; 0x001502C9; 0x00165CCA; 0x00171D54;
   0x00180D59; 0x00191CC8; 0x001A06C5; 0x001B0768; 0x001C06CA; 0x001D0766; 0x001E01A5; 0x001F0385;
   0x00200F09; 0x00210248; 0x00220326; 0x00230B24; 0x00240D55; 0x00251CC5; 0x002606C8; 0x00271868;
   0x00280369; 0x002916CA; 0x002A0CC9; 0x002B1D58; 0x002C0784; 0x002D060A; 0x002E064A; 0x002F0E2A;
   0x0030032A; 0x00310B28; 0x00320688; 0x00330008; 0x003406C4; 0x00351864; 0x003601A8; 0x00370388;
   0x0038078A; 0x00390604; 0x003A0644; 0x003B0E24; 0x003C004A; 0x003D18A4; 0x003E1B24; 0x003F00EA;
   0x00400F0A; 0x00410249; 0x00420D5D; 0x00431CC4; 0x00440328; 0x00450B29; 0x004606C6; 0x0047076A;
   0x00480368; 0x004916C5; 0x004A0789; 0x004B0605; 0x004C0CC8; 0x004D1954; 0x004E0645; 0x004F0E25;
   0x00500325; 0x00510B26; 0x005206C9; 0x00530764; 0x005408A9; 0x00550009; 0x005601A9; 0x00570389;
   0x00580785; 0x00590609; 0x005A0049; 0x005B18A9; 0x005C0649; 0x005D0E29; 0x005E1B29; 0x005F00E9;
   0x00600365; 0x006116C6; 0x00620786; 0x00630608; 0x00640788; 0x00650606; 0x00660046; 0x006718A8;
   0x006858A6; 0x00690145; 0x006A01E9; 0x006B178A; 0x006C01E8; 0x006D1785; 0x006E1E28; 0x006F0C65;
   0x00700CC5; 0x00711D5C; 0x00720648; 0x00730E28; 0x00740646; 0x00750E26; 0x00761B28; 0x007700E6;
   0x007801E5; 0x00791786; 0x007A1E29; 0x007B0C68; 0x007C1E24; 0x007D0C69; 0x007E0955; 0x007F03C9;
   0x008003E9; 0x00810975; 0x00820C49; 0x00831E04; 0x00840C48; 0x00851E05; 0x008617A6; 0x008701C5;
   0x008800C6; 0x00891B08; 0x008A0E06; 0x008B0666; 0x008C0E08; 0x008D0668; 0x008E1D7C; 0x008F0CE5;
   0x00900C45; 0x00911E08; 0x009217A9; 0x009301C4; 0x009417AA; 0x009501C9; 0x00960169; 0x0097588A;
   0x00981888; 0x00990066; 0x009A0709; 0x009B07A8; 0x009C0704; 0x009D07A6; 0x009E16E6; 0x009F0345;
   0x00A000C9; 0x00A11B05; 0x00A20E09; 0x00A30669; 0x00A41885; 0x00A50065; 0x00A60706; 0x00A707A5;
   0x00A803A9; 0x00A90189; 0x00AA0029; 0x00AB0889; 0x00AC0744; 0x00AD06E9; 0x00AE0B06; 0x00AF0229;
   0x00B00E05; 0x00B10665; 0x00B21974; 0x00B30CE8; 0x00B4070A; 0x00B507A9; 0x00B616E9; 0x00B70348;
   0x00B8074A; 0x00B906E6; 0x00BA0B09; 0x00BB0226; 0x00BC1CE4; 0x00BD0D7D; 0x00BE0269; 0x00BF08C9;
   0x00C000CA; 0x00C11B04; 0x00C21884; 0x00C3006A; 0x00C40E04; 0x00C50664; 0x00C60708; 0x00C707AA;
   0x00C803A8; 0x00C90184; 0x00CA0749; 0x00CB06E4; 0x00CC0020; 0x00CD0888; 0x00CE0B08; 0x00CF0224;
   0x00D00E0A; 0x00D1066A; 0x00D20705; 0x00D307A4; 0x00D41D78; 0x00D50CE9; 0x00D616EA; 0x00D70349;
   0x00D80745; 0x00D906E8; 0x00DA1CE9; 0x00DB0D75; 0x00DC0B04; 0x00DD0228; 0x00DE0268; 0x00DF08C8;
   0x00E003A5; 0x00E10185; 0x00E20746; 0x00E306EA; 0x00E40748; 0x00E506E5; 0x00E61CE8; 0x00E70D79;
   0x00E81D74; 0x00E95CE6; 0x00EA02E9; 0x00EB0849; 0x00EC02E8; 0x00ED0848; 0x00EE0086; 0x00EF0A08;
   0x00F00021; 0x00F10885; 0x00F20B05; 0x00F3022A; 0x00F40B0A; 0x00F50225; 0x00F60265; 0x00F708C5;
   0x00F802E5; 0x00F90845; 0x00FA0089; 0x00FB0A09; 0x00FC008A; 0x00FD0A0A; 0x00FE02A9; 0x00FF0062 ].

Definition gdi_rop3_code {S} (code : Z) : M S Z :=
  match rop3_code_table !! Z.to_nat code with Some c => ret c | None => fail OutOfBounds end.

(** The drawing surface with all bitmaps, the device context of the screen when
    the drawing surface is another one, and how colours are converted. *)
Record rdpGdi : Type := mkRdpGdi {
  drawing : gdi;
  primary_hdc : option GDI_DC;
  srcBpp : Z;
  dstBpp : Z;
  clrconv : CLRCONV;
}.

Definition on_drawing {A} (c : M gdi A) : M rdpGdi A := zoom drawing (fun g s => s <| drawing := g |>) c.

Definition gdi_palette_update (entries : list (Z * Z * Z)) : M rdpGdi unit := fun s =>
  Done (tt, s <| clrconv := (clrconv s) <| cc_palette := entries |> |>).

Definition gdi_set_bounds (bounds : option rdpBounds) : M rdpGdi unit := fun s =>
  let set f := Done (tt, s <| drawing := (drawing s) <| dc := f (dc (drawing s)) |> |>) in
  match bounds with
  | Some b => set (gdi_SetClipRgn (b_left b) (b_top b) (b_right b - b_left b + 1) (b_bottom b - b_top b + 1))
  | None => set gdi_SetNullClipRgn
  end.

Definition gdi_dstblt (dstblt : DstBlt.DSTBLT_ORDER) : M rdpGdi unit :=
  let! rop := gdi_rop3_code (DstBlt.bRop dstblt) in
  on_drawing (gdi_BitBlt (DstBlt.nLeftRect dstblt) (DstBlt.nTopRect dstblt) (DstBlt.nWidth dstblt) (DstBlt.nHeight dstblt) (None, 0, 0) rop);;
  ret tt.

Definition gdi_CreateSolidBrush (crColor : Z) : GDI_BRUSH := mkGdiBrush GDI_BS_SOLID 0 crColor.
Definition gdi_CreatePatternBrush (hbmp : nat) : GDI_BRUSH := mkGdiBrush GDI_BS_PATTERN hbmp 0.

Definition gdi_CreateBitmap (nWidth nHeight cBitsPerPixel : Z) (data : list Z) : GDI_BITMAP :=
  let bytes := Z.quot (cBitsPerPixel + 1) 8 in
  mkGdiBitmap bytes cBitsPerPixel nWidth nHeight (nWidth * bytes) data.

(** The brush of the drawing surface while [c] runs. *)
Definition with_brush (br : GDI_BRUSH) (c : M gdi Z) : M gdi unit :=
  let! hdc := get_dc in
  let originalBrush := brush hdc in
  (fun s => Done (tt, s <| dc := (dc s) <| brush := Some br |> |>));;
  c;;
  (fun s => Done (tt, s <| dc := (dc s) <| brush := originalBrush |> |>)).

(** A bitmap that exists while [c] runs. *)
Definition with_bitmap (b : GDI_BITMAP) (c : nat -> M gdi unit) : M gdi unit :=
  let! n := fun s => Done (length (store s), s <| store := store s ++ [b] |>) in
  c n;;
  (fun s => Done (tt, s <| store := take n (store s) |>)).

(** [data] are the bytes at [brush->data], which the brush cache has resolved. *)
Definition gdi_patblt (patblt : PatBlt.PATBLT_ORDER) (data : list Z) : M rdpGdi unit :=
  let! s := fun s => Done (s, s) in
  let br := PatBlt.brush patblt in
  if br_style br =? GDI_BS_SOLID then
    let! color := freerdp_color_convert_rgb (PatBlt.foreColor patblt) (srcBpp s) 32 (clrconv s) in
    let! rop := gdi_rop3_code (PatBlt.bRop patblt) in
    on_drawing (with_brush (gdi_CreateSolidBrush color)
      (gdi_PatBlt (PatBlt.nLeftRect patblt) (PatBlt.nTopRect patblt) (PatBlt.nWidth patblt) (PatBlt.nHeight patblt) rop))
  else if br_style br =? GDI_BS_PATTERN then
    let! image :=
      (if 1 <? br_bpp br then
         let! r := freerdp_image_convert data 8 8 (srcBpp s) (dstBpp s) (clrconv s) in
         match r with Some r => ret (default data r) | None => fail NullPointer end
       else
         let! r := freerdp_mono_image_convert data 8 8 (srcBpp s) (dstBpp s) (PatBlt.backColor patblt) (PatBlt.foreColor patblt) (clrconv s) in
         ret (default data r)) in
    let! rop := gdi_rop3_code (PatBlt.bRop patblt) in
    on_drawing (with_bitmap (gdi_CreateBitmap 8 8 (bitsPerPixel (dc (drawing s))) image) (fun hBmp =>
      with_brush (gdi_CreatePatternBrush hBmp)
        (gdi_PatBlt (PatBlt.nLeftRect patblt) (PatBlt.nTopRect patblt) (PatBlt.nWidth patblt) (PatBlt.nHeight patblt) rop)))
  else ret tt.

Definition gdi_scrblt (scrblt : ScrBlt.SCRBLT_ORDER) : M rdpGdi unit :=
  let! s := fun s => Done (s, s) in
  let! rop := gdi_rop3_code (ScrBlt.bRop scrblt) in
  on_drawing (gdi_BitBlt (ScrBlt.nLeftRect scrblt) (ScrBlt.nTopRect scrblt) (ScrBlt.nWidth scrblt) (ScrBlt.nHeight scrblt)
    (Some (default (dc (drawing s)) (primary_hdc s)), ScrBlt.nXSrc scrblt, ScrBlt.nYSrc scrblt) rop);;
  ret tt.

Definition fill_order (x y w h color : Z) : M rdpGdi unit :=
  let! s := fun s => Done (s, s) in
  let! brush_color := freerdp_color_convert_var_bgr color (srcBpp s) 32 (clrconv s) in
  on_drawing (gdi_FillRect (gdi_CRgnToRect x y w h) (gdi_CreateSolidBrush brush_color));;
  ret tt.

Definition gdi_opaque_rect (o : OpaqueRect.OPAQUE_RECT_ORDER) : M rdpGdi unit :=
  fill_order (OpaqueRect.nLeftRect o) (OpaqueRect.nTopRect o) (OpaqueRect.nWidth o) (OpaqueRect.nHeight o) (OpaqueRect.color o).

(** The rectangles are numbered from one. *)
Fixpoint fill_rects (k i : nat) (rects : list DELTA_RECT) (color : Z) : M rdpGdi unit :=
  match k with
  | O => ret tt
  | S k' =>
      match rects !! i with
      | Some r => fill_order (r_left r) (r_top r) (r_width r) (r_height r) color;; fill_rects k' (S i) rects color
      | None => fail OutOfBounds
      end
  end.

Definition gdi_multi_opaque_rect (o : MultiOpaqueRect.MULTI_OPAQUE_RECT_ORDER) : M rdpGdi unit :=
  fill_rects (Z.to_nat (MultiOpaqueRect.numRectangles o)) 1 (MultiOpaqueRect.rectangles o) (MultiOpaqueRect.color o).

(** A new pen, selected; [garbage] is where [malloc] left it. *)
Definition select_pen (style width color : Z) (garbage : Z * Z) : M gdi unit := fun s =>
  Done (tt, s <| dc := (dc s) <| pen := gdi_CreatePen style width color garbage |> |>).

Definition gdi_line_to (o : LineTo.LINE_TO_ORDER) (garbage : Z * Z) : M rdpGdi unit :=
  let! s := fun s => Done (s, s) in
  let! color := freerdp_color_convert_rgb (LineTo.penColor o) (srcBpp s) 32 (clrconv s) in
  on_drawing (
    select_pen (LineTo.penStyle o) (LineTo.penWidth o) color garbage;;
    gdi_SetROP2 (LineTo.bRop2 o);;
    gdi_MoveToEx (LineTo.nXStart o) (LineTo.nYStart o);;
    gdi_LineTo (LineTo.nXEnd o) (LineTo.nYEnd o));;
  ret tt.

Fixpoint polyline_points (k i : nat) (x y : Z) (points : list DELTA_POINT) : M gdi unit :=
  match k with
  | O => ret tt
  | S k' =>
      match points !! i with
      | Some p =>
          gdi_LineTo (x + pt_x p) (y + pt_y p);;
          gdi_MoveToEx (x + pt_x p) (y + pt_y p);;
          polyline_points k' (S i) (x + pt_x p) (y + pt_y p) points
      | None => fail OutOfBounds
      end
  end.

Definition GDI_PS_SOLID : Z := 0.

Definition gdi_polyline (o : Polyline.POLYLINE_ORDER) (garbage : Z * Z) : M rdpGdi unit :=
  let! s := fun s => Done (s, s) in
  let! color := freerdp_color_convert_rgb (Polyline.penColor o) (srcBpp s) 32 (clrconv s) in
  on_drawing (
    select_pen GDI_PS_SOLID 1 color garbage;;
    gdi_SetROP2 (Polyline.bRop2 o);;
    gdi_MoveToEx (Polyline.xStart o) (Polyline.yStart o);;
    polyline_points (Z.to_nat (Polyline.numPoints o)) 0 (Polyline.xStart o) (Polyline.yStart o) (Polyline.points o)).

(** [bitmap] is the device context of the bitmap that the cache has resolved. *)
Definition gdi_memblt (o : MemBlt.MEMBLT_ORDER) (bitmap : GDI_DC) : M rdpGdi unit :=
  let! rop := gdi_rop3_code (MemBlt.bRop o) in
  on_drawing (gdi_BitBlt (MemBlt.nLeftRect o) (MemBlt.nTopRect o) (MemBlt.nWidth o) (MemBlt.nHeight o)
    (Some bitmap, MemBlt.nXSrc o, MemBlt.nYSrc o) rop);;
  ret tt.

Definition gdi_mem3blt (o : Mem3Blt.MEM3BLT_ORDER) : M rdpGdi unit := ret tt.

(** ** Raster operations of orders *)

Definition rop3 (b : Z) : Z := default 0 (rop3_code_table !! Z.to_nat b).

(** The high half of a code is the table of the operation, so that the byte of an
    order is the table itself. *)
Lemma rop3_table b : 0 <= b < 256 -> Z.shiftr (rop3 b) 16 = b.
Proof.
  intros Hb. pose proof (all_from_spec (fun b => Z.shiftr (rop3 b) 16 =? b) 256 0 b ltac:(vm_compute; reflexivity) ltac:(lia)) as H. apply Z.eqb_eq, H.
Qed.

Lemma rop3_run {S} (s : S) b : 0 <= b < 256 -> gdi_rop3_code b s = Done (rop3 b, s).
Proof.
  intros Hb. unfold gdi_rop3_code, rop3. destruct (lookup_lt_is_Some_2 rop3_code_table (Z.to_nat b)) as [c Hc]; [change (length rop3_code_table) with 256%nat; lia|].
  rewrite Hc. reflexivity.
Qed.

Lemma on_drawing_done {A} (c : M gdi A) s a g : c (drawing s) = Done (a, g) -> on_drawing c s = Done (a, s <| drawing := g |>).
Proof. intros E. unfold on_drawing, zoom. rewrite E. reflexivity. Qed.

Section Screen.
Context (n : nat) (s : rdpGdi) (db : nat) (m : GDI_BITMAP) (Hr : canvas_ready n (drawing s) db m).

(** [c] leaves the picture [d'] and the device context [hdc'] on the drawing
    surface. *)
Definition leaves (c : M rdpGdi unit) (hdc' : GDI_DC) (d' : list Z) : Prop :=
  c s = Done (tt, s <| drawing := mkGdi hdc' (<[db := m <| bmp_data := d' |>]> (store (drawing s))) |>) /\ length d' = length (bmp_data m).

Lemma dstblt_leaves o : 0 < DstBlt.nWidth o -> 0 < DstBlt.nHeight o -> 0 <= DstBlt.bRop o < 256 -> rop3 (DstBlt.bRop o) ∈ raster_ops ->
  inputs_ready n (drawing s) (None, 0, 0) (DstBlt.nWidth o) (DstBlt.nHeight o) (rop3 (DstBlt.bRop o)) ->
  exists hdc' d', leaves (gdi_dstblt o) hdc' d' /\
    drawn n (drawing s) m (DstBlt.nLeftRect o) (DstBlt.nTopRect o) (DstBlt.nWidth o) (DstBlt.nHeight o) (None, 0, 0) (rop3 (DstBlt.bRop o)) d'.
Proof.
  intros Hw Hh Hb Hrop Hin.
  destruct (bitblt_done n (drawing s) db m (DstBlt.nLeftRect o) (DstBlt.nTopRect o) _ _ (None, 0, 0) _ Hr Hw Hh Hrop Hin) as (hdc' & d' & E & Hl & _ & Hd).
  exists hdc', d'. split; [|exact Hd]. split; [|exact Hl]. unfold gdi_dstblt. rewrite (bind_Done _ _ _ _ _ (rop3_run s _ Hb)), (bind_Done _ _ _ _ _ (on_drawing_done _ _ _ _ E)). reflexivity.
Qed.

Lemma memblt_leaves o bitmap : 0 < MemBlt.nWidth o -> 0 < MemBlt.nHeight o -> 0 <= MemBlt.bRop o < 256 -> rop3 (MemBlt.bRop o) ∈ raster_ops ->
  inputs_ready n (drawing s) (Some bitmap, MemBlt.nXSrc o, MemBlt.nYSrc o) (MemBlt.nWidth o) (MemBlt.nHeight o) (rop3 (MemBlt.bRop o)) ->
  exists hdc' d', leaves (gdi_memblt o bitmap) hdc' d' /\
    drawn n (drawing s) m (MemBlt.nLeftRect o) (MemBlt.nTopRect o) (MemBlt.nWidth o) (MemBlt.nHeight o)
      (Some bitmap, MemBlt.nXSrc o, MemBlt.nYSrc o) (rop3 (MemBlt.bRop o)) d'.
Proof.
  intros Hw Hh Hb Hrop Hin.
  destruct (bitblt_done n (drawing s) db m (MemBlt.nLeftRect o) (MemBlt.nTopRect o) _ _ _ _ Hr Hw Hh Hrop Hin) as (hdc' & d' & E & Hl & _ & Hd).
  exists hdc', d'. split; [|exact Hd]. split; [|exact Hl]. unfold gdi_memblt. rewrite (bind_Done _ _ _ _ _ (rop3_run s _ Hb)), (bind_Done _ _ _ _ _ (on_drawing_done _ _ _ _ E)). reflexivity.
Qed.
End Screen.
